(* ===== verification/_CoqProject ===== *)
-Q . S2P
Prelude.v
GoTime.v
Core.v
GoStrings.v
Errors.v
Engine.v
EngineFacts.v
Store.v
StoreFacts.v
Monitor.v
MonitorFacts.v
NotifyFilter.v
NotifyFilterFacts.v
Deriver.v
DeriverFacts.v
NMVariant.v
SecretAgent.v
SecretAgentFacts.v
NMMapping.v
GoStringsFacts.v
Netip.v
NetipRoundtrip.v
NMRead.v
NMSettings.v
NMWifi.v
NMConnect.v
NMWifiFacts.v
NMConnectFacts.v
Registry.v
WireGuardConf.v
WireGuardConfFacts.v
NMCache.v
NMCacheFacts.v
NMOps.v
GoDuration.v
Config.v
ConfigFacts.v
Daemon.v
DaemonOps.v
DaemonFacts.v
SafeWriter.v
Socket.v
SocketFacts.v
Tailscale.v
TailscaleFacts.v
ProfileVPN.v
GoScan.v
GoURL.v
API.v
Client.v
APISpec.v
APIFacts.v
StreamFacts.v
Prober.v
ProberFacts.v
DiagPorts.v
Diag.v
DiagFacts.v
DiagLookup.v
Infra.v
Speed.v
SpeedTest.v
SpeedFacts.v
Resolve.v
Startup.v
DaemonCtl.v
Prompts.v
Commands.v
CommandsFacts.v
Tui.v
TuiMain.v
TuiFacts.v
TuiRun.v
TuiKeys.v
Render.v
