(* ===== verification/Prelude.v ===== *)
(** * bnm: a verification development

    bnm ("better NetworkManager") is a daemon, bnmd, that watches
    NetworkManager, the VPNs of the host and the quality of the connection, and
    the command line and terminal interface that talk to it over HTTP on a Unix
    socket.  This library models the Go code under src/internal as executable
    functions and proves what makes it correct.  This file holds this overview,
    the shared notations, tactics and hint databases, and the lemmas on lists,
    options and integers the other files use.

    ** The parts, and the files that model them

    Go itself.  GoStrings and GoStringsFacts (strings, strconv), GoScan (more
    strings, bufio, hex), GoTime (instants, durations, binary64 floats),
    GoDuration (ParseDuration and Duration.String), GoURL (net/url and the
    matching of http.ServeMux), Netip and NetipRoundtrip (net/netip).

    The vocabulary.  Core (core/*.go), Errors (core/errors.go, nm/errors.go, and
    the path of an error through api/server.go and client/client.go).

    The monitor.  Engine and EngineFacts (monitor/engine.go: windows, learning,
    verdicts, hysteresis), Prober and ProberFacts (monitor/prober.go), Store and
    StoreFacts (store/store.go: tables as lists of rows, migrations), Monitor and
    MonitorFacts (monitor/monitor.go: each critical section one step).

    NetworkManager.  NMMapping (nm/consts.go, mapping.go), NMVariant, NMRead,
    NMSettings (nm/settings.go, read.go), NMWifi, NMConnect and their Facts
    (nm/wifi.go), NMOps (nm/ops.go), NMCache and NMCacheFacts (nm/client.go),
    SecretAgent and SecretAgentFacts (nm/agent.go).

    VPNs.  Registry (vpn/registry.go, with daemon/bus.go), ProfileVPN
    (vpn/wireguard/adapter.go, vpn/nmvpn/adapter.go), WireGuardConf and
    WireGuardConfFacts (vpn/wireguard/parse.go), Tailscale and TailscaleFacts
    (vpn/tailscale).

    The daemon.  Deriver and DeriverFacts (daemon/derive.go: views to events),
    NotifyFilter and NotifyFilterFacts (notify), Config and ConfigFacts
    (config), Daemon, DaemonOps and DaemonFacts (daemon/daemon.go: the handlers
    of the run loop, refresh, mutate, the operations of the API), Socket and
    SocketFacts (daemon/socket.go: several processes, one system call a step).

    Measurements.  DiagPorts, Diag, DiagFacts, DiagLookup (diag), Infra (infra),
    Speed, SpeedFacts and SpeedTest (speed).

    Across the socket.  API (api), Client (client/methods.go, sse.go), APISpec
    (what the API promises), APIFacts and StreamFacts (client, routes and
    handlers together; the event streams), Startup (paths, client/client.go,
    client/spawn.go).

    The user.  Resolve (cli/resolve.go), Prompts (cli/term.go, secrets.go),
    Commands and CommandsFacts (cli/wifi.go, vpn.go, profile.go, secrets.go,
    monitor.go, status.go, diag.go), DaemonCtl (cli/cli.go, daemon.go),
    SafeWriter (cli/safe.go), Tui and TuiMain (ui/tui: state, messages, commands,
    the six tabs, the password requests, the event stream), TuiFacts, TuiRun and
    TuiKeys (what holds of every run of it), Render (ui/tui/render.go and the
    tables of cli/ui.go).

    ** How the parts meet

    The daemon is a program over records of operations of its backends (ports)
    about which its theorems assume nothing; NMCache, Registry, Monitor and
    SecretAgent are what stands behind those ports.  The deriver is fed
    snapshots by the daemon, its events go to the store, the bus (the streams of
    the API) and the notification filter, in that order.  The API turns requests
    into operations of the daemon; the client turns calls ([api_call], APISpec)
    into requests; the command line and the terminal interface make those calls.

    Interfaces are classes or records of operations with their laws: [MonitorStore]
    and [MonitorStoreLaws] (what the monitor relies on, discharged by the tables
    of Store), [JSON] (a codec), [NetLaws] and [DiagLog] (sockets and kernel
    tables, whose every answer is in a log and may differ from call to call),
    [InfraTells] (kernel tables that do not change during a call), [SystemLaws]
    (processes, clock and socket), [Quiet], [PromptRel], [PromptEnds] and
    [PromptLaws] (the terminal and the request in flight), [CmdLaws] (the client
    of a command: every call, those of its prompts too, is in a trace),
    [InputOps] (text inputs), [VPNAdapter] (a VPN backend).  The witnesses
    of the theorems instantiate them.

    State is passed explicitly; a function with effects on a world [W] returns
    the new one.  What several goroutines or processes share is a step relation
    or a fold over a sequence of steps, one per critical section or system call
    (Monitor, NotifyFilter, SecretAgent, Socket, Daemon, TuiRun).  Errors are the
    trees of Errors; Go maps ranged over are lists in an arbitrary order, or gmaps
    where the order cannot be seen.  A sort.Slice is a stable sort: what compares
    equal may stand in another order in Go, which the theorems about order leave
    open or rule out ([Resolve.resolve] lists candidates of one name in the order
    they came).  A transaction of the database works on a copy that Commit puts in
    place and Rollback drops, an interrupted statement may have done a part of its
    work there.  The client of the API follows redirects as net/http does.
    Machine integers wrap where it matters ([int64_of] and the like), floats are
    those of SpecFloat.

    ** What the theorems show

    - Monitoring: a network is degraded only after the streak of bad verdicts,
      before or after a restart; [Add] refines the abstract hysteresis machine and
      misses no transition; a probe reports what the log of its sockets says; any
      interleaving of the monitor's critical sections keeps its invariant; a
      migration that fails at any of its steps leaves nothing behind and resumes.
    - Events: what was derived replays to what the deriver believes and reaches
      store, stream and notifier once each, however the goroutines that emit it
      interleave, and in one order when they do not; disconnects are debounced;
      notifications keep the rate limit; a write is followed by a read of the new
      world.
    - NetworkManager: the cache agrees with the bus on every object removed only
      as a whole, not hidden, and read without an error; joining a network touches
      one profile; the wait for an activation is bounded and patient; settings
      read back; secrets are resolved once.
    - VPNs: accepted wg-quick files are well formed and import; every VPN is
      driven by the backend that owns it.
    - The process: at most one daemon holds the lock, a start nothing disturbs
      serves, a client starts the daemon exactly when it is not there and may be
      started, and once; stop signals one process at most and looks for its end.
    - The API: each call of the client does exactly the operation it stands for;
      refusals have no effect; errors keep their kind; streams lose only an end.
    - The user: names resolve to one thing or are refused; connecting and
      switching make the calls and have the result of one of a few runs, with one
      change at most and the answers to its own prompts; prompts are answered
      once; output cannot drive the terminal; what is drawn has the size asked
      for, of names of whole characters on one line; the
      terminal interface always has the command in flight behind every light it
      shows, and keys go to the prompt that is shown.
    - Measurements: listening ports are exact, the sweep and the neighbours read
      after it too; speed tests keep to their cap and report what they did.

    ** Bounds and fuel

    Loops that do not recurse on their data take fuel; a theorem of each says
    how much is enough, so none of the results rests on running out:
    [sanitize_loop] and [tui_sanitize_loop] the length of the text; Split and
    Fields the length of the string; a login as many polls as its timeout has
    200 ms, and one; [start_fuel] the polls of 50 ms in the start timeout and
    two; [stop_fuel] 51 (five seconds of 100 ms polls); [waitVPN] 68 (20 s of
    300 ms polls); [follow] 9 redirects, as net/http; [prompt_loop] and [app_rescan] one more than what the events
    still hold ([left]); the reply loop of an ICMP probe one more than the
    packets pending; [unit_loop] 6, for a number below 2^63; [listen_alone] 12
    steps, the longest path through [Listen].

    ** Not modelled

    - The D-Bus connection, HTTP transport, netlink, ICMP sockets, zeroconf,
      SQLite, systemd and subprocesses: records of operations on a world.
    - The codecs of JSON and TOML, base64, %q, ParseFloat, the texts of errors of
      net, strconv and time, url.Parse, and Unicode case: parameters, with the
      laws used of them named (case folding is that of ASCII where no parameter
      is named).
    - What is printed: which cells the commands and the views of the terminal
      interface put into their tables and boxes, JSON output, flag declarations,
      bubbletea, lipgloss (the width of a text and where it is cut are parameters
      of Render) and cobra.
    - The main functions of bnm, bnmd and bnm-tui, which wire the parts together,
      the icon generator, the fake backends and the test doubles.
    - Data races inside one critical section, the scheduler's fairness and
      memory. *)

From stdpp Require Export prelude gmap strings list sorting.
From Stdlib Require Export ZArith Lia.

#[global] Open Scope Z_scope.
#[global] Set Default Goal Selector "!".

Create HintDb bnm discriminated.
Create Rewrite HintDb bnm_simpl.

(** ** Results: Go's [(T, error)] *)

(** A Go call that returns a value and an error, the error being non-nil
    exactly when the call failed. *)
Inductive result (E A : Type) : Type :=
| Ok (a : A)
| Err (e : E).
Arguments Ok {E A} a.
Arguments Err {E A} e.

Declare Scope bnm_scope.
Delimit Scope bnm_scope with bnm.
#[global] Open Scope bnm_scope.

Definition result_bind {E A B} (r : result E A) (f : A -> result E B) : result E B :=
  match r with Ok a => f a | Err e => Err e end.

(** [x <-? r ;; k]: Go's [x, err := r; if err != nil { return err }; k]. *)
Notation "x <-? r ;; k" := (result_bind r (fun x => k))
  (at level 60, r at next level, right associativity) : bnm_scope.

Definition is_ok {E A} (r : result E A) : bool :=
  match r with Ok _ => true | Err _ => false end.

Definition result_map {E A B} (f : A -> B) (r : result E A) : result E B :=
  match r with Ok a => Ok (f a) | Err e => Err e end.

(** [mapM] for results: stops at the first error, as a Go loop that returns. *)
Fixpoint result_mapM {E A B} (f : A -> result E B) (l : list A) : result E (list B) :=
  match l with
  | [] => Ok []
  | x :: l' => y <-? f x ;; ys <-? result_mapM f l' ;; Ok (y :: ys)
  end.

Lemma result_mapM_Ok {E A B} (f : A -> result E B) l ys :
  result_mapM f l = Ok ys <-> Forall2 (fun x y => f x = Ok y) l ys.
Proof.
  revert ys; induction l as [|x l IH]; intros ys; simpl.
  - split; [intros [= <-]; constructor | intros H; by inversion H].
  - split.
    + destruct (f x) as [y|e] eqn:Hf; simpl; [|done].
      destruct (result_mapM f l) as [ys'|e] eqn:Hl; simpl; [|done].
      intros [= <-]. constructor; [done|]. by apply IH.
    + intros H; inversion H as [|? y ? ys' Hy Hys]; subst. rewrite Hy; simpl.
      apply IH in Hys as ->. done.
Qed.

(** ** Tactics *)

(** Case on the boolean test of the innermost [if] or boolean [match] in sight. *)
Ltac case_test :=
  match goal with
  | |- context [if ?b then _ else _] => destruct b eqn:?
  | H : context [if ?b then _ else _] |- _ => destruct b eqn:?
  end.

Ltac case_match_goal :=
  match goal with
  | |- context [match ?x with _ => _ end] => destruct x eqn:?
  end.

(** Turn boolean (in)equalities on [Z], [bool] and [string] into propositions. *)
Ltac bool_to_prop :=
  repeat match goal with
  | H : _ && _ = true |- _ => apply andb_true_iff in H as [? ?]
  | H : _ || _ = false |- _ => apply orb_false_iff in H as [? ?]
  | H : negb _ = true |- _ => apply negb_true_iff in H
  | H : negb _ = false |- _ => apply negb_false_iff in H
  | H : Z.ltb _ _ = true |- _ => apply Z.ltb_lt in H
  | H : Z.ltb _ _ = false |- _ => apply Z.ltb_ge in H
  | H : Z.leb _ _ = true |- _ => apply Z.leb_le in H
  | H : Z.leb _ _ = false |- _ => apply Z.leb_gt in H
  | H : Z.eqb _ _ = true |- _ => apply Z.eqb_eq in H
  | H : Z.eqb _ _ = false |- _ => apply Z.eqb_neq in H
  | H : String.eqb _ _ = true |- _ => apply String.eqb_eq in H
  | H : String.eqb _ _ = false |- _ => apply String.eqb_neq in H
  end.

(** Also split the conjunctions that are false, one goal per conjunct. *)
Ltac bool_cases :=
  bool_to_prop;
  repeat match goal with
  | H : _ && _ = false |- _ => apply andb_false_iff in H as [H|H]
  end; bool_to_prop.

(** ** String equality as Go's [==] on strings *)

Notation "a =?s b" := (String.eqb a b) (at level 70, no associativity) : bnm_scope.

Lemma seqb_refl (s : string) : (s =?s s) = true.
Proof. apply String.eqb_refl. Qed.

Lemma seqb_ne (s t : string) : s <> t -> (s =?s t) = false.
Proof. apply String.eqb_neq. Qed.

#[export] Hint Rewrite seqb_refl : bnm_simpl.
#[export] Hint Resolve seqb_refl seqb_ne : bnm.

(** ** Sorting: [sort.Slice] and [sort.SliceStable] *)

(** Insertion sort on a boolean "at most" test, stable.  The sources sort short
    lists with comparators; what they rely on is that the result is an ordered
    permutation of the input (and, for [sort.SliceStable], that equal elements
    keep their order), which the lemmas below give. *)
Section Sort.
Context {A : Type} (le : A -> A -> bool).

Fixpoint insert_sorted (x : A) (l : list A) : list A :=
  match l with
  | [] => [x]
  | y :: l' => if le x y then x :: l else y :: insert_sorted x l'
  end.

Definition isort (l : list A) : list A := foldr insert_sorted [] l.

Lemma insert_sorted_perm x l : insert_sorted x l ≡ₚ x :: l.
Proof.
  induction l as [|y l IH]; simpl; [done|]. case_test; [done|].
  rewrite IH. apply Permutation_swap.
Qed.

Lemma isort_perm l : isort l ≡ₚ l.
Proof. induction l as [|x l IH]; simpl; [done|]. by rewrite insert_sorted_perm, IH. Qed.

Lemma isort_length l : length (isort l) = length l.
Proof. by rewrite isort_perm. Qed.

Lemma isort_elem x l : x ∈ isort l <-> x ∈ l.
Proof. by rewrite isort_perm. Qed.

Context (le_total : forall x y, le x y = true \/ le y x = true).
Context (le_trans : forall x y z, le x y = true -> le y z = true -> le x z = true).

Lemma insert_sorted_sorted x l :
  StronglySorted (fun a b => le a b = true) l ->
  StronglySorted (fun a b => le a b = true) (insert_sorted x l).
Proof.
  induction l as [|y l IH]; intros Hl; simpl.
  - constructor; constructor.
  - apply StronglySorted_inv in Hl as [Hl Hy]. case_test.
    + constructor; [by constructor|]. constructor; [done|].
      eapply Forall_impl; [exact Hy|]. simpl; intros z Hz. eauto.
    + constructor; [by apply IH|]. rewrite insert_sorted_perm.
      constructor; [|done]. destruct (le_total x y); congruence.
Qed.

Lemma isort_sorted l : StronglySorted (fun a b => le a b = true) (isort l).
Proof. induction l; simpl; [constructor|]. by apply insert_sorted_sorted. Qed.

(** With a total preorder whose ties are equal, the sorted list is unique: the
    order in which a Go map was ranged over does not matter after sorting. *)
Lemma sorted_perm_unique l1 l2 :
  (forall x y, x ∈ l1 -> y ∈ l1 -> le x y = true -> le y x = true -> x = y) ->
  StronglySorted (fun a b => le a b = true) l1 ->
  StronglySorted (fun a b => le a b = true) l2 ->
  l1 ≡ₚ l2 -> l1 = l2.
Proof.
  revert l2; induction l1 as [|x l1 IH]; intros l2 Hanti H1 H2 Hp.
  { by apply Permutation_nil in Hp. }
  destruct l2 as [|y l2]; [by symmetry in Hp; apply Permutation_nil in Hp|].
  apply StronglySorted_inv in H1 as [H1 Hx]. apply StronglySorted_inv in H2 as [H2 Hy].
  assert (x = y) as <-.
  { assert (x ∈ y :: l2) as Hxin by (rewrite <- Hp; left).
    assert (y ∈ x :: l1) as Hyin by (rewrite Hp; left).
    apply elem_of_cons in Hxin as [->|Hxin]; [done|].
    apply elem_of_cons in Hyin as [->|Hyin]; [done|].
    rewrite Forall_forall in Hx, Hy. apply Hanti; [left|by right| |]; auto. }
  f_equal. apply IH; [|done|done|by apply Permutation_cons_inv in Hp].
  intros a b Ha Hb. apply Hanti; by right.
Qed.

Lemma isort_perm_unique l1 l2 :
  (forall x y, x ∈ l1 -> y ∈ l1 -> le x y = true -> le y x = true -> x = y) ->
  l1 ≡ₚ l2 -> isort l1 = isort l2.
Proof.
  intros Hanti Hp. apply sorted_perm_unique.
  - intros x y Hx Hy. rewrite isort_elem in Hx, Hy. auto.
  - apply isort_sorted.
  - apply isort_sorted.
  - by rewrite !isort_perm.
Qed.
End Sort.

Lemma StronglySorted_weaken {A} (R Q : A -> A -> Prop) (l : list A) :
  (forall a b, R a b -> Q a b) -> StronglySorted R l -> StronglySorted Q l.
Proof.
  intros HRQ. induction 1 as [|x l _ IH Hx]; constructor; [done|]. by eapply Forall_impl; [exact Hx|auto].
Qed.

(** ** Orders on strings, and lexicographic orders *)

Lemma string_leb_ltb a b : String.leb a b = negb (String.ltb b a).
Proof.
  unfold String.leb, String.ltb. rewrite (String.compare_antisym a b).
  by destruct (String.compare b a).
Qed.

Lemma string_leb_trans a b c : String.leb a b = true -> String.leb b c = true -> String.leb a c = true.
Proof.
  intros H1 H2. apply Is_true_true.
  apply (transitivity (R := String.le) (y := b)); by apply Is_true_true.
Qed.

(** Compare by [f] first, and by [le] where [f] does not decide. *)
Section Lex.
Context {A : Type} (f : A -> string) (le : A -> A -> bool).

Definition lex (x y : A) : bool := if f x =?s f y then le x y else String.leb (f x) (f y).

Lemma lex_total : (forall x y, le x y = true \/ le y x = true) -> forall x y, lex x y = true \/ lex y x = true.
Proof.
  intros Hle x y. unfold lex. rewrite (String.eqb_sym (f y) (f x)).
  destruct (f x =?s f y); [apply Hle|apply String.leb_total].
Qed.

Lemma lex_trans :
  (forall x y z, le x y = true -> le y z = true -> le x z = true) ->
  forall x y z, lex x y = true -> lex y z = true -> lex x z = true.
Proof.
  intros Hle x y z. unfold lex.
  destruct (String.eqb_spec (f x) (f y)) as [Hxy|Hxy], (String.eqb_spec (f y) (f z)) as [Hyz|Hyz].
  - rewrite Hxy, Hyz, seqb_refl. apply Hle.
  - rewrite Hxy, (seqb_ne _ _ Hyz). done.
  - rewrite <- Hyz, (seqb_ne _ _ Hxy). done.
  - intros H1 H2. destruct (String.eqb_spec (f x) (f z)) as [Hxz|Hxz]; [|by eapply string_leb_trans].
    exfalso. apply Hxy, String.leb_antisym; [done|by rewrite Hxz].
Qed.
End Lex.

(** ** Maps ranged over in an unspecified order *)

Lemma filter_perm {A} (p : A -> bool) (l1 l2 : list A) : l1 ≡ₚ l2 -> List.filter p l1 ≡ₚ List.filter p l2.
Proof.
  induction 1 as [|x l1 l2 _ IH|x y l|l1 l2 l3 _ IH1 _ IH2]; cbn; [done| | |by etrans].
  { destruct (p x); [by constructor|done]. }
  destruct (p x), (p y); [apply perm_swap|done..].
Qed.

Lemma existsb_perm {A} (p : A -> bool) (l1 l2 : list A) :
  l1 ≡ₚ l2 -> existsb p l1 = existsb p l2.
Proof.
  intros Hp. apply eq_true_iff_eq. rewrite !existsb_exists.
  split; intros (x & Hx & Hpx); exists x; (split; [|done]);
    apply list_elem_of_In; apply list_elem_of_In in Hx; by rewrite Hp in * || by rewrite <- Hp in *.
Qed.

Lemma existsb_elem {A} (p : A -> bool) (l : list A) :
  existsb p l = true <-> exists x, x ∈ l /\ p x = true.
Proof.
  rewrite existsb_exists. split; intros (x & Hx & Hp); exists x; (split; [|done]);
    by apply list_elem_of_In.
Qed.

Lemma forallb_elem {A} (p : A -> bool) (l : list A) :
  forallb p l = true <-> forall x, x ∈ l -> p x = true.
Proof.
  rewrite forallb_forall. split; intros H x Hx; apply H; by apply list_elem_of_In.
Qed.

Lemma NoDup_map_filter {A B} (f : A -> B) (p : A -> bool) (l : list A) :
  NoDup (map f l) -> NoDup (map f (List.filter p l)).
Proof.
  induction l as [|x l IH]; simpl; intros Hnd; [done|].
  apply NoDup_cons in Hnd as [Hx Hnd]. destruct (p x); simpl; [|auto].
  apply NoDup_cons; split; [|auto]. intros Hin; apply Hx.
  apply list_elem_of_fmap in Hin as (y & -> & Hy). apply list_elem_of_fmap. exists y; split; [done|].
  apply list_elem_of_In, filter_In in Hy as [Hy _]. by apply list_elem_of_In.
Qed.

#[export] Hint Resolve NoDup_map_filter : bnm.

(** ** Slices *)

(** [s[n:]] for [n >= 0] given as a machine integer. *)
Definition drop_front {A} (n : Z) (l : list A) : list A := drop (Z.to_nat n) l.

(** [len(s)] *)
Definition len {A} (l : list A) : Z := Z.of_nat (length l).

Arguments len {A} l : simpl never.

Lemma len_nonneg {A} (l : list A) : 0 <= len l.
Proof. unfold len; lia. Qed.

Lemma len_app {A} (l1 l2 : list A) : len (l1 ++ l2) = len l1 + len l2.
Proof. unfold len; rewrite length_app; lia. Qed.

(** Keep the newest [w] elements: the idiom
    [if n := len(s) - w; n > 0 { s = s[n:] }]. *)
Definition keep_last {A} (w : Z) (l : list A) : list A :=
  if 0 <? len l - w then drop_front (len l - w) l else l.

Lemma keep_last_length {A} (w : Z) (l : list A) :
  0 <= w -> len (keep_last w l) = Z.min w (len l).
Proof.
  intros Hw. unfold keep_last, drop_front, len. case_test; bool_to_prop; [|lia].
  rewrite length_drop. lia.
Qed.

Lemma keep_last_suffix {A} (w : Z) (l : list A) : keep_last w l `suffix_of` l.
Proof.
  unfold keep_last, drop_front. case_test; [|done].
  exists (take (Z.to_nat (len l - w)) l). by rewrite take_drop.
Qed.

#[export] Hint Resolve keep_last_suffix len_nonneg : bnm.
