(* ===== verification/GoTime.v ===== *)
(** Go's [time.Time], [time.Duration] and [float64] as the sources use them. *)

From S2P Require Import Prelude.
From Stdlib Require Import SpecFloat.

(** An instant, in nanoseconds since Go's zero time (January 1, year 1, UTC).
    [time.Time{}] is [0]; the range of [time.Time] (about 292 billion years)
    is not bounded here. *)
Abbreviation Time := Z (only parsing).

(** A [time.Duration]: a 64-bit count of nanoseconds. *)
Abbreviation Duration := Z (only parsing).

Definition min_int64 : Z := - 2 ^ 63.
Definition max_int64 : Z := 2 ^ 63 - 1.

(** Conversion to [int64], wrapping. *)
Definition int64_of (z : Z) : Z := (z + 2 ^ 63) mod 2 ^ 64 - 2 ^ 63.

Definition nanosecond : Duration := 1.
Definition microsecond : Duration := 1000 * nanosecond.
Definition millisecond : Duration := 1000 * microsecond.
Definition second : Duration := 1000 * millisecond.
Definition minute : Duration := 60 * second.
Definition hour : Duration := 60 * minute.

(** [t.IsZero()] *)
Definition time_IsZero (t : Time) : bool := t =? 0.

(** [t.Before(u)], [t.After(u)], [t.Equal(u)] *)
Definition time_Before (t u : Time) : bool := t <? u.
Definition time_After (t u : Time) : bool := u <? t.

(** [t.Add(d)] *)
Definition time_Add (t : Time) (d : Duration) : Time := t + d.

(** [t.Sub(u)]: saturates at the ends of [time.Duration]. *)
Definition time_Sub (t u : Time) : Duration :=
  Z.max min_int64 (Z.min max_int64 (t - u)).

Lemma time_Sub_lt t u d :
  min_int64 < d <= max_int64 -> time_Sub t u < d <-> t < u + d.
Proof. unfold time_Sub, min_int64, max_int64. lia. Qed.

(** * Go's [float64]: IEEE 754 binary64, by the Standard Library's executable
    specification of floating-point numbers. *)

Abbreviation float64 := spec_float (only parsing).

Definition prec : Z := 53.
Definition emax : Z := 1024.

Definition f_add : float64 -> float64 -> float64 := SFadd prec emax.
Definition f_sub : float64 -> float64 -> float64 := SFsub prec emax.
Definition f_abs : float64 -> float64 := SFabs.
Definition f_mul : float64 -> float64 -> float64 := SFmul prec emax.
Definition f_div : float64 -> float64 -> float64 := SFdiv prec emax.

(** [a < b], [a <= b], [a == b]; every comparison with a NaN is false. *)
Definition f_ltb (a b : float64) : bool := SFltb a b.
Definition f_leb (a b : float64) : bool := SFleb a b.
Definition f_eqb (a b : float64) : bool := SFeqb a b.

Declare Scope float_scope.
Delimit Scope float_scope with float.
Notation "a <? b" := (f_ltb a b) : float_scope.
Notation "a <=? b" := (f_leb a b) : float_scope.
Notation "a + b" := (f_add a b) : float_scope.
Notation "a - b" := (f_sub a b) : float_scope.
Notation "a * b" := (f_mul a b) : float_scope.
Notation "a / b" := (f_div a b) : float_scope.

(** [float64(n)] for an integer *)
Definition f_of_Z (n : Z) : float64 := binary_normalize prec emax n 0 false.

(** The constant [n/d]: a decimal literal is the correctly rounded quotient of
    its digits by a power of ten, both of which are exact here. *)
Definition f_ratio (n d : Z) : float64 := f_div (f_of_Z n) (f_of_Z d).

Definition f_zero : float64 := S754_zero false.
Definition f_one : float64 := f_of_Z 1.
Definition f_minus_one : float64 := f_of_Z (-1).
Definition f_two : float64 := f_of_Z 2.

Definition is_nan (f : float64) : bool :=
  match f with S754_nan => true | _ => false end.

(** The integer a float is truncated to; [None] for an infinity or a NaN. *)
Definition f_int (f : float64) : option Z :=
  match f with
  | S754_zero _ => Some 0
  | S754_finite s m e =>
      let n := if e <? 0 then Z.shiftr (Zpos m) (- e) else Z.shiftl (Zpos m) e in Some (if s then - n else n)
  | _ => None
  end.

(** [d.Seconds()] *)
Definition f_seconds (d : Z) : float64 :=
  (f_of_Z (Z.quot d 1000000000) + f_of_Z (Z.rem d 1000000000) / f_of_Z 1000000000)%float.
