(* ===== verification/Core.v ===== *)
(** The domain model of internal/core: the vocabulary of types.go, monitor.go,
    vpn.go, ports.go and secrets.go, and [NetworkKey].  Go's string-typed
    enumerations stay strings: their values arrive from D-Bus, SQLite and JSON,
    so a value outside the listed constants is possible and is modelled. *)

From S2P Require Import Prelude GoTime.


(** ** types.go: enumerations *)

Abbreviation DeviceKind := string.
Definition DeviceWifi : DeviceKind := "wifi".
Definition DeviceEthernet : DeviceKind := "ethernet".
Definition DeviceTun : DeviceKind := "tun".
Definition DeviceBridge : DeviceKind := "bridge".
Definition DeviceVeth : DeviceKind := "veth".
Definition DeviceVlan : DeviceKind := "vlan".
Definition DeviceWireGuard : DeviceKind := "wireguard".
Definition DeviceLoopback : DeviceKind := "loopback".
Definition DeviceOther : DeviceKind := "other".

Abbreviation DeviceClass := string.
Definition ClassPhysical : DeviceClass := "physical".
Definition ClassInfra : DeviceClass := "infra".
Definition ClassLoopback : DeviceClass := "loopback".

Abbreviation DeviceState := string.
Definition DeviceUnmanaged : DeviceState := "unmanaged".
Definition DeviceUnavailable : DeviceState := "unavailable".
Definition DeviceDisconnected : DeviceState := "disconnected".
Definition DeviceConnecting : DeviceState := "connecting".
Definition DeviceConnected : DeviceState := "connected".
Definition DeviceExternal : DeviceState := "external".
Definition DeviceFailed : DeviceState := "failed".

Abbreviation WifiSecurity := string.
Definition SecOpen : WifiSecurity := "open".
Definition SecOWE : WifiSecurity := "owe".
Definition SecWEP : WifiSecurity := "wep".
Definition SecWPAPSK : WifiSecurity := "wpa-psk".
Definition SecSAE : WifiSecurity := "sae".
Definition SecWPAEAP : WifiSecurity := "wpa-eap".

Abbreviation IPMethod := string.
Definition IPAuto : IPMethod := "auto".
Definition IPManual : IPMethod := "manual".
Definition IPDisabled : IPMethod := "disabled".
Definition IPLinkLocal : IPMethod := "link-local".
Definition IPShared : IPMethod := "shared".
Definition IPIgnore : IPMethod := "ignore".

Abbreviation ProfileType := string.
Definition ProfileWifi : ProfileType := "wifi".
Definition ProfileEthernet : ProfileType := "ethernet".
Definition ProfileWireGuard : ProfileType := "wireguard".
Definition ProfileVPN : ProfileType := "vpn".
Definition ProfileBridge : ProfileType := "bridge".
Definition ProfileOther : ProfileType := "other".

Abbreviation ActiveState := string.
Definition ActiveActivating : ActiveState := "activating".
Definition ActiveActivated : ActiveState := "activated".
Definition ActiveDeactivating : ActiveState := "deactivating".
Definition ActiveDeactivated : ActiveState := "deactivated".
Definition ActiveUnknown : ActiveState := "unknown".

Abbreviation Connectivity := string.
Definition ConnUnknown : Connectivity := "unknown".
Definition ConnNone : Connectivity := "none".
Definition ConnPortal : Connectivity := "portal".
Definition ConnLimited : Connectivity := "limited".
Definition ConnFull : Connectivity := "full".

(** ** types.go: structs *)

Record Device := mkDevice {
  dev_Name : string;
  dev_IfIndex : Z;
  dev_Kind : DeviceKind;
  dev_Class : DeviceClass;
  dev_State : DeviceState;
  dev_Managed : bool;
  dev_Owner : string;
  dev_HwAddr : string;
  dev_Driver : string;
  dev_IPv4 : list string;
  dev_IPv6 : list string;
  dev_Gateway4 : string;
  dev_DNS : list string;
  dev_ActiveUUID : string;
  dev_ActiveName : string;
  dev_Speed : Z;
  dev_NMPath : string
}.

Record WifiNetwork := mkWifiNetwork {
  wn_SSID : string;
  wn_Device : string;
  wn_Strength : Z;
  wn_Security : WifiSecurity;
  wn_Frequency : Z;
  wn_Channel : Z;
  wn_Band : string;
  wn_BSSIDs : list string;
  wn_Known : bool;
  wn_ProfileUUID : string;
  wn_Active : bool;
  wn_Hidden : bool;
  wn_LastSeen : Time
}.

Record IPConfig := mkIPConfig {
  ip_Method : IPMethod;
  ip_Addresses : list string;
  ip_Gateway : string;
  ip_DNS : list string;
  ip_DNSSearch : list string;
  ip_IgnoreAutoDNS : bool;
  ip_NeverDefault : bool
}.

Definition IPConfig_zero : IPConfig := mkIPConfig "" [] "" [] [] false false.

Record WireGuardPeer := mkWireGuardPeer {
  wgp_PublicKey : string;
  wgp_PresharedKey : string;
  wgp_Endpoint : string;
  wgp_AllowedIPs : list string;
  wgp_PersistentKeepalive : Z
}.

Record WireGuardSetting := mkWireGuardSetting {
  wgs_PublicKey : string;
  wgs_ListenPort : Z;
  wgs_FwMark : Z;
  wgs_MTU : Z;
  wgs_Peers : list WireGuardPeer
}.

Record Profile := mkProfile {
  pf_UUID : string;
  pf_Name : string;
  pf_Type : ProfileType;
  pf_RawType : string;
  pf_InterfaceName : string;
  pf_Autoconnect : bool;
  pf_SSID : string;
  pf_Security : WifiSecurity;
  pf_VPNServiceType : string;
  pf_Timestamp : Time;
  pf_IPv4 : IPConfig;
  pf_IPv6 : IPConfig;
  pf_Permissions : list string;
  pf_Filename : string;
  pf_VersionID : Z;
  pf_Active : bool;
  pf_NMPath : string;
  pf_WireGuard : option WireGuardSetting;
  pf_VPNData : gmap string string
}.

Record ActiveConnection := mkActiveConnection {
  ac_Path : string;
  ac_ProfileUUID : string;
  ac_ProfileName : string;
  ac_Type : ProfileType;
  ac_Devices : list string;
  ac_State : ActiveState;
  ac_Default4 : bool;
  ac_Default6 : bool;
  ac_VPN : bool;
  ac_VPNState : string;
  ac_VPNBanner : string;
  ac_IPv4 : list string;
  ac_IPv6 : list string;
  ac_Gateway4 : string;
  ac_DNS : list string;
  ac_External : bool
}.

Record Status := mkStatus {
  st_NMState : string;
  st_Connectivity : Connectivity;
  st_Networking : bool;
  st_WifiEnabled : bool;
  st_WifiHardware : bool;
  st_Primary : option ActiveConnection;
  st_NetworkKey : string;
  st_NMVersion : string;
  st_Permissions : gmap string string
}.

Record ConnectWifiRequest := mkConnectWifiRequest {
  cw_Device : string;
  cw_SSID : string;
  cw_Password : string;
  cw_Hidden : bool;
  cw_Username : string
}.

Record WireGuardSpec := mkWireGuardSpec {
  wg_Name : string;
  wg_InterfaceName : string;
  wg_PrivateKey : string;
  wg_ListenPort : Z;
  wg_FwMark : Z;
  wg_MTU : Z;
  wg_Addresses : list string;
  wg_DNS : list string;
  wg_DNSSearch : list string;
  wg_Peers : list WireGuardPeer;
  wg_AutoDefaultRoute : option bool;
  wg_Autoconnect : bool;
  wg_Unsupported : list string
}.

(** ** ports.go: change hints *)

Abbreviation ChangeKind := string.
Definition ChangeStatus : ChangeKind := "status".
Definition ChangeDevices : ChangeKind := "devices".
Definition ChangeWifi : ChangeKind := "wifi".
Definition ChangeProfiles : ChangeKind := "profiles".
Definition ChangeActive : ChangeKind := "active".
Definition ChangeVPN : ChangeKind := "vpn".
Definition ChangeMonitor : ChangeKind := "monitor".

Record Change := mkChange { ch_Kind : ChangeKind; ch_Path : string }.

Record SpeedOptions := mkSpeedOptions {
  so_Provider : string;
  so_Server : string;
  so_Quick : bool;
  so_MaxBytes : Z;
  so_NetworkKey : string
}.

(** ** monitor.go *)

Record Sample := mkSample {
  smp_Time : Time;
  smp_NetworkKey : string;
  smp_Anchor : string;
  smp_AnchorAddr : string;
  smp_RTTms : float64;
  smp_Loss : float64;
  smp_DNSms : float64;
  smp_Method : string
}.

Abbreviation BaselineState := string.
Definition BaselineLearning : BaselineState := "learning".
Definition BaselineOK : BaselineState := "ok".
Definition BaselineDegraded : BaselineState := "degraded".
Definition BaselineIdle : BaselineState := "idle".

Record Baseline := mkBaseline {
  bl_NetworkKey : string;
  bl_Anchor : string;
  bl_State : BaselineState;
  bl_SampleCount : Z;
  bl_BaselineRTT : float64;
  bl_BaselineLoss : float64;
  bl_CurrentRTT : float64;
  bl_CurrentLoss : float64;
  bl_CurrentDNS : float64;
  bl_Since : Time;
  bl_UpdatedAt : Time
}.

Definition Baseline_zero : Baseline :=
  mkBaseline "" "" "" 0 f_zero f_zero f_zero f_zero f_zero 0 0.

Record MonitorStatus := mkMonitorStatus {
  ms_NetworkKey : string;
  ms_State : BaselineState;
  ms_Anchors : list Baseline;
  ms_LastSample : Time;
  ms_Interval : Duration;
  ms_Paused : bool
}.

Record SpeedProgress := mkSpeedProgress {
  sp_Phase : string;
  sp_Mbps : float64;
  sp_Percent : float64;
  sp_Bytes : Z
}.

Record SpeedResult := mkSpeedResult {
  sr_Time : Time;
  sr_NetworkKey : string;
  sr_Provider : string;
  sr_Server : string;
  sr_DownloadMbps : float64;
  sr_UploadMbps : float64;
  sr_LatencyMs : float64;
  sr_JitterMs : float64;
  sr_BytesMoved : Z;
  sr_Duration : Duration;
  sr_Quick : bool
}.

Abbreviation EventType := string.
Definition EventConnected : EventType := "connected".
Definition EventDisconnected : EventType := "disconnected".
Definition EventNoInternet : EventType := "no-internet".
Definition EventInternetRestored : EventType := "internet-restored".
Definition EventVPNUp : EventType := "vpn-up".
Definition EventVPNDown : EventType := "vpn-down".
Definition EventDegraded : EventType := "degraded".
Definition EventRecovered : EventType := "recovered".
Definition EventWifiScan : EventType := "wifi-scan".
Definition EventStateChanged : EventType := "state-changed".
Definition EventSecretNeeded : EventType := "secret-needed".
Definition EventSecretResolved : EventType := "secret-resolved".

Record Event := mkEvent {
  ev_Time : Time;
  ev_Type : EventType;
  ev_NetworkKey : string;
  ev_Title : string;
  ev_Body : string;
  ev_Urgency : string;
  ev_Data : gmap string string
}.

(** ** vpn.go *)

Abbreviation VPNBackend := string.
Definition BackendTailscale : VPNBackend := "tailscale".
Definition BackendWireGuard : VPNBackend := "wireguard".
Definition BackendNMVPN : VPNBackend := "nm-vpn".

Abbreviation VPNState := string.
Definition VPNDisconnected : VPNState := "disconnected".
Definition VPNConnecting : VPNState := "connecting".
Definition VPNConnected : VPNState := "connected".
Definition VPNError : VPNState := "error".
Definition VPNNeedsSetup : VPNState := "needs-setup".
Definition VPNNeedsAuth : VPNState := "needs-auth".
Definition VPNUnavailable : VPNState := "unavailable".

Record NMVPNInfo := mkNMVPNInfo {
  nv_ServiceType : string;
  nv_Gateway : string;
  nv_Username : string;
  nv_Banner : string;
  nv_NMVpnState : string
}.

Record WireGuardInfo := mkWireGuardInfo {
  wi_InterfaceName : string;
  wi_PublicKey : string;
  wi_ListenPort : Z;
  wi_Peers : list WireGuardPeer;
  wi_Addresses : list string;
  wi_LastHandshake : Time;
  wi_RxBytes : Z;
  wi_TxBytes : Z
}.

Record TailscalePeer := mkTailscalePeer {
  tp_ID : string;
  tp_Name : string;
  tp_HostName : string;
  tp_OS : string;
  tp_IPs : list string;
  tp_Online : bool;
  tp_ExitNode : bool;
  tp_ExitNodeOption : bool;
  tp_Relay : string;
  tp_LastSeen : Time
}.

Record TailscaleInfo := mkTailscaleInfo {
  ti_BackendState : string;
  ti_Version : string;
  ti_ControlURL : string;
  ti_Tailnet : string;
  ti_MagicDNS : string;
  ti_SelfIPs : list string;
  ti_SelfName : string;
  ti_OperatorOK : bool;
  ti_ExitNodeID : string;
  ti_ExitNodeName : string;
  ti_ExitNodeOn : bool;
  ti_AllowLAN : bool;
  ti_AcceptDNS : bool;
  ti_Peers : list TailscalePeer;
  ti_Health : list string
}.

Record VPN := mkVPN {
  vpn_ID : string;
  vpn_Name : string;
  vpn_Backend : VPNBackend;
  vpn_Kind : string;
  vpn_State : VPNState;
  vpn_Detail : string;
  vpn_Error : string;
  vpn_AuthURL : string;
  vpn_Since : Time;
  vpn_Writable : bool;
  vpn_Tailscale : option TailscaleInfo;
  vpn_WireGuard : option WireGuardInfo;
  vpn_NMVPN : option NMVPNInfo
}.

(** [VPNKindForServiceType]: NM vpn.service-type to a display kind. *)
Definition VPNKindForServiceType (st : string) : string :=
  if st =?s "org.freedesktop.NetworkManager.openvpn" then "OpenVPN"
  else if st =?s "org.freedesktop.NetworkManager.strongswan" then "IPsec (strongSwan)"
  else if st =?s "org.freedesktop.NetworkManager.libreswan" then "IPsec (Libreswan)"
  else if st =?s "org.freedesktop.NetworkManager.l2tp" then "L2TP"
  else if st =?s "org.freedesktop.NetworkManager.sstp" then "SSTP"
  else if st =?s "org.freedesktop.NetworkManager.pptp" then "PPTP"
  else if st =?s "org.freedesktop.NetworkManager.openconnect" then "OpenConnect"
  else if st =?s "org.freedesktop.NetworkManager.vpnc" then "vpnc"
  else if st =?s "org.freedesktop.NetworkManager.fortisslvpn" then "Fortinet SSL VPN"
  else if st =?s "org.freedesktop.NetworkManager.protun" then "Proton VPN"
  else if st =?s "" then "VPN"
  else "VPN (" +:+ st +:+ ")".

(** ** secrets.go *)

Record SecretField := mkSecretField {
  sf_Key : string;
  sf_Label : string;
  sf_Secret : bool
}.

Record SecretRequest := mkSecretRequest {
  sq_ID : string;
  sq_ConnectionUUID : string;
  sq_ConnectionName : string;
  sq_SSID : string;
  sq_VPN : bool;
  sq_VPNKind : string;
  sq_SettingName : string;
  sq_Fields : list SecretField;
  sq_Message : string;
  sq_RequestNew : bool;
  sq_UserRequested : bool;
  sq_CreatedAt : Time;
  sq_ExpiresAt : Time
}.

Record SecretAnswer := mkSecretAnswer {
  sa_Secrets : gmap string string;
  sa_Save : bool
}.

Definition SecretAnswer_zero : SecretAnswer := mkSecretAnswer ∅ false.

Abbreviation SecretOutcome := string.
Definition SecretAnswered : SecretOutcome := "answered".
Definition SecretCancelled : SecretOutcome := "cancelled".
Definition SecretTimeout : SecretOutcome := "timeout".

(** ** [NetworkKey] (types.go) *)

(** The loop of [NetworkKey] over the profiles. *)
Fixpoint NetworkKey_loop (uuid : string) (profiles : list Profile) : string :=
  match profiles with
  | [] => "conn:" +:+ uuid
  | p :: ps =>
      if pf_UUID p =?s uuid then
        if (pf_Type p =?s ProfileWifi) && negb (pf_SSID p =?s "")
        then "wifi:" +:+ pf_SSID p
        else pf_Type p +:+ ":" +:+ pf_UUID p
      else NetworkKey_loop uuid ps
  end.

Definition NetworkKey (primary : option ActiveConnection) (profiles : list Profile) : string :=
  match primary with
  | None => ""
  | Some ac => NetworkKey_loop (ac_ProfileUUID ac) profiles
  end.

Lemma NetworkKey_loop_found uuid profiles p :
  List.find (fun q => pf_UUID q =?s uuid) profiles = Some p ->
  NetworkKey_loop uuid profiles =
    if (pf_Type p =?s ProfileWifi) && negb (pf_SSID p =?s "")
    then "wifi:" +:+ pf_SSID p else pf_Type p +:+ ":" +:+ pf_UUID p.
Proof.
  induction profiles as [|q ps IH]; simpl; [done|].
  destruct (pf_UUID q =?s uuid); [|done]. by intros [= ->].
Qed.

Lemma NetworkKey_loop_missing uuid profiles :
  List.find (fun q => pf_UUID q =?s uuid) profiles = None ->
  NetworkKey_loop uuid profiles = "conn:" +:+ uuid.
Proof.
  induction profiles as [|q ps IH]; simpl; [done|].
  by destruct (pf_UUID q =?s uuid).
Qed.

(** A connected network always has a non-empty key, so the monitor is never
    idle while something is primary. *)
Lemma NetworkKey_loop_nonempty uuid profiles : NetworkKey_loop uuid profiles <> "".
Proof.
  induction profiles as [|p ps IH]; simpl; [done|].
  repeat case_test; try done. intros H. by destruct (pf_Type p).
Qed.

(** ** diag.go *)

Record LANHost := mkLANHost {
  lh_IP : string;
  lh_MAC : string;
  lh_Hostname : string;
  lh_State : string;
  lh_Device : string;
  lh_Self : bool;
  lh_Gateway : bool;
  lh_Seen : Time
}.

Record ListeningPort := mkListeningPort {
  lp_Proto : string;
  lp_Addr : string;
  lp_Port : Z;
  lp_PID : Z;
  lp_Process : string;
  lp_User : string;
  lp_UID : Z
}.

Record Route := mkRoute {
  rt_Dest : string;
  rt_Gateway : string;
  rt_Device : string;
  rt_Metric : Z;
  rt_Proto : string;
  rt_Scope : string;
  rt_Table : Z;
  rt_Family : Z
}.

Record DNSAnswer := mkDNSAnswer {
  da_Name : string;
  da_Server : string;
  da_Type : string;
  da_Answers : list string;
  da_Duration : Duration;
  da_Error : string
}.

Record PublicIP := mkPublicIP {
  pi_IP : string;
  pi_Colo : string;
  pi_Location : string;
  pi_Warp : string;
  pi_Via : string
}.

Record Link := mkLink {
  lk_Name : string;
  lk_IfIndex : Z;
  lk_Kind : string;
  lk_Master : string;
  lk_Up : bool;
  lk_HwAddr : string;
  lk_Addresses : list string;
  lk_PeerNetNS : Z;
  lk_MTU : Z
}.

Record InfraNetwork := mkInfraNetwork {
  in_Bridge : Link;
  in_Owner : string;
  in_OwnerName : string;
  in_Members : list Link;
  in_Neighbours : list LANHost;
  in_Source : string;
  in_Reachable : string
}.
