(* ===== verification/GoStrings.v ===== *)
(** Package strings and strconv, as the sources use them.  A Go string is a
    sequence of bytes: a [String.string], one [ascii] per byte. *)

From S2P Require Import Prelude GoTime.
From Stdlib Require Import SpecFloat.
From stdpp Require Import pretty.

#[local] Open Scope Z_scope.


(** ** Searching *)

(** [strings.HasPrefix], [HasSuffix] *)
Definition HasPrefix (s p : string) : bool := String.prefix p s.

Fixpoint string_rev_app (s acc : string) : string :=
  match s with
  | EmptyString => acc
  | String c s' => string_rev_app s' (String c acc)
  end.
Definition string_rev (s : string) : string := string_rev_app s "".

Definition HasSuffix (s p : string) : bool := HasPrefix (string_rev s) (string_rev p).

Fixpoint string_drop (n : nat) (s : string) : string :=
  match n, s with
  | O, _ => s
  | S n', String _ s' => string_drop n' s'
  | S _, EmptyString => ""
  end.

Fixpoint string_take (n : nat) (s : string) : string :=
  match n, s with
  | S n', String c s' => String c (string_take n' s')
  | _, _ => ""
  end.

(** [strings.TrimPrefix], [TrimSuffix] *)
Definition TrimPrefix (s p : string) : string :=
  if HasPrefix s p then string_drop (String.length p) s else s.
Definition TrimSuffix (s p : string) : string :=
  if HasSuffix s p then string_take (String.length s - String.length p) s else s.

(** [strings.Cut(s, sep)] *)
Fixpoint Cut (s sep : string) : option (string * string) :=
  if HasPrefix s sep then Some ("", string_drop (String.length sep) s)
  else match s with
       | EmptyString => None
       | String c s' =>
           match Cut s' sep with
           | Some (a, b) => Some (String c a, b)
           | None => None
           end
       end.

Definition Contains (s sub : string) : bool :=
  match Cut s sub with Some _ => true | None => false end.

(** [strings.LastIndex(s, sep)], as the split around the last occurrence. *)
Fixpoint CutLast (s sep : string) : option (string * string) :=
  match s with
  | EmptyString => if HasPrefix s sep then Some ("", "") else None
  | String c s' =>
      match CutLast s' sep with
      | Some (a, b) => Some (String c a, b)
      | None => if HasPrefix s sep then Some ("", string_drop (String.length sep) s) else None
      end
  end.

(** [strings.Split(s, sep)] for a non-empty [sep]; [fuel] is the length of [s]. *)
Fixpoint Split_fuel (fuel : nat) (s sep : string) : list string :=
  match fuel with
  | O => [s]
  | S fuel' =>
      match Cut s sep with
      | Some (a, b) => a :: Split_fuel fuel' b sep
      | None => [s]
      end
  end.
Definition Split (s sep : string) : list string := Split_fuel (S (String.length s)) s sep.

(** [strings.Join] *)
Fixpoint Join (l : list string) (sep : string) : string :=
  match l with
  | [] => ""
  | [s] => s
  | s :: l' => s +:+ sep +:+ Join l' sep
  end.

(** ** White space *)

(** The encodings of the runes of [unicode.IsSpace]. *)
Definition byte_str (ns : list nat) : string :=
  foldr (fun n s => String (Ascii.ascii_of_nat n) s) "" ns.

Definition space_runes : list string := map byte_str
  [[9]; [10]; [11]; [12]; [13]; [32];
   [194; 133]; [194; 160]; [225; 154; 128];
   [226; 128; 128]; [226; 128; 129]; [226; 128; 130]; [226; 128; 131]; [226; 128; 132];
   [226; 128; 133]; [226; 128; 134]; [226; 128; 135]; [226; 128; 136]; [226; 128; 137];
   [226; 128; 138]; [226; 128; 168]; [226; 128; 169]; [226; 128; 175]; [226; 129; 159];
   [227; 128; 128]]%nat.

Definition strip_space_prefix (s : string) : option string :=
  match List.find (HasPrefix s) space_runes with
  | Some p => Some (string_drop (String.length p) s)
  | None => None
  end.

Definition strip_space_suffix (s : string) : option string :=
  match List.find (HasSuffix s) space_runes with
  | Some p => Some (string_take (String.length s - String.length p) s)
  | None => None
  end.

Fixpoint strip_all (strip : string -> option string) (fuel : nat) (s : string) : string :=
  match fuel with
  | O => s
  | S fuel' => match strip s with Some s' => strip_all strip fuel' s' | None => s end
  end.

(** [strings.TrimSpace] on a valid UTF-8 string: every round removes at least a
    byte, so the length is enough fuel. *)
Definition TrimSpace (s : string) : string :=
  let s := strip_all strip_space_prefix (String.length s) s in
  strip_all strip_space_suffix (String.length s) s.

(** ** Case *)

Definition is_upper (c : Ascii.ascii) : bool :=
  let n := Ascii.nat_of_ascii c in Nat.leb 65 n && Nat.leb n 90.

Definition lower_byte (c : Ascii.ascii) : Ascii.ascii :=
  if is_upper c then Ascii.ascii_of_nat (Ascii.nat_of_ascii c + 32) else c.

(** [strings.ToLower] on an ASCII string; the sources compare the result with
    ASCII words. *)
Fixpoint ToLower (s : string) : string :=
  match s with
  | EmptyString => ""
  | String c s' => String (lower_byte c) (ToLower s')
  end.

(** ** Numbers *)

(** [strconv.Itoa], [%d] *)
Definition Itoa (n : Z) : string := pretty n.

(** The integer nearest to [m * 2^e], ties to even. *)
Definition round_half_even (m e : Z) : Z :=
  if 0 <=? e then m * 2 ^ e
  else
    let d := 2 ^ (- e) in
    let q := m / d in
    let r := m mod d in
    if 2 * r <? d then q
    else if d <? 2 * r then q + 1
    else if Z.even q then q else q + 1.

(** [fmt.Sprintf("%.0f", v)] *)
Definition Sprintf_0f (v : float64) : string :=
  match v with
  | S754_nan => "NaN"
  | S754_infinity false => "+Inf"
  | S754_infinity true => "-Inf"
  | S754_zero s => (if s then "-" else "") +:+ "0"
  | S754_finite s m e => (if s then "-" else "") +:+ Itoa (round_half_even (Z.pos m) e)
  end.

Lemma HasPrefix_app p s : HasPrefix (p +:+ s) p = true.
Proof. unfold HasPrefix. induction p as [|c p IH]; simpl; [by destruct s|]. by destruct (Ascii.ascii_dec c c). Qed.

Lemma string_drop_app p s : string_drop (String.length p) (p +:+ s) = s.
Proof. induction p; simpl; [by destruct s|done]. Qed.

Lemma Cut_sound s sep a b : Cut s sep = Some (a, b) -> s = a +:+ sep +:+ b.
Proof.
  assert (forall t, HasPrefix t sep = true -> t = sep +:+ string_drop (String.length sep) t) as Hp.
  { unfold HasPrefix. clear. induction sep as [|c sep IH]; intros t Ht; simpl; [by destruct t|].
    destruct t as [|d t]; simpl in *; [done|]. destruct (Ascii.ascii_dec c d) as [->|]; [|done].
    change (String d t = String d (sep +:+ string_drop (String.length sep) t)). f_equal. by apply IH. }
  revert a b; induction s as [|c s IH]; intros a b; cbn [Cut].
  - destruct (HasPrefix "" sep) eqn:H; [|done]. intros [= <- <-]. by apply Hp.
  - destruct (HasPrefix (String c s) sep) eqn:H; [intros [= <- <-]; by apply (Hp (String c s))|].
    destruct (Cut s sep) as [[a' b']|] eqn:Hc; [|done]. intros [= <- <-].
    change (String c s = String c (a' +:+ sep +:+ b')). f_equal. by apply IH.
Qed.

(** ** More of strings, strconv and utf8 *)

(** [strings.ReplaceAll] of one byte by another *)
Fixpoint replace_byte (a b : Ascii.ascii) (s : string) : string :=
  match s with
  | EmptyString => ""
  | String c s' => String (if Ascii.eqb c a then b else c) (replace_byte a b s')
  end.

(** [strings.ToUpper(s[:1])] of a byte: a lone byte that is not ASCII is
    invalid UTF-8 and becomes U+FFFD. *)
Definition upper_first (c : Ascii.ascii) : string :=
  let n := Ascii.nat_of_ascii c in
  if Nat.leb 97 n && Nat.leb n 122 then String (Ascii.ascii_of_nat (n - 32)) ""
  else if Nat.ltb n 128 then String c ""
  else byte_str [239; 191; 189]%nat.

Definition is_digit (c : Ascii.ascii) : bool :=
  let n := Ascii.nat_of_ascii c in Nat.leb 48 n && Nat.leb n 57.

Definition digit_val (c : Ascii.ascii) : Z := Z.of_nat (Ascii.nat_of_ascii c - 48).

(** The digit [0 <= n < 10]. *)
Definition digit_str (n : Z) : string := byte_str [(48 + Z.to_nat n)%nat].

Fixpoint digits_val (acc : Z) (s : string) : option Z :=
  match s with
  | EmptyString => Some acc
  | String c s' => if is_digit c then digits_val (acc * 10 + digit_val c) s' else None
  end.

(** [strconv.ParseUint(s, 10, bits)]: [None] for a syntax or a range error. *)
Definition ParseUint (bits : Z) (s : string) : option Z :=
  match s with
  | EmptyString => None
  | _ => match digits_val 0 s with
         | Some n => if n <? 2 ^ bits then Some n else None
         | None => None
         end
  end.

(** [strconv.Atoi]: an optional sign and digits, in the range of [int]. *)
Definition Atoi (s : string) : option Z :=
  let '(sign, d) :=
    match s with
    | String c s' =>
        if Nat.eqb (Ascii.nat_of_ascii c) 45 then (-1, s')
        else if Nat.eqb (Ascii.nat_of_ascii c) 43 then (1, s') else (1, s)
    | EmptyString => (1, s)
    end in
  match d with
  | EmptyString => None
  | _ => match digits_val 0 d with
         | Some n => if (- 2 ^ 63 <=? sign * n) && (sign * n <? 2 ^ 63) then Some (sign * n) else None
         | None => None
         end
  end.

(** Well-formed UTF-8 ([utf8.ValidString]): the byte sequences of RFC 3629.
    [fuel] is the length. *)
Definition cont_byte (n : nat) : bool := Nat.leb 128 n && Nat.leb n 191.

Fixpoint valid_utf8_fuel (fuel : nat) (l : list nat) : bool :=
  match fuel with
  | O => match l with [] => true | _ => false end
  | S fuel' =>
      match l with
      | [] => true
      | a :: l1 =>
          if Nat.ltb a 128 then valid_utf8_fuel fuel' l1
          else if Nat.leb 194 a && Nat.leb a 223 then
            match l1 with
            | b :: l2 => cont_byte b && valid_utf8_fuel fuel' l2
            | _ => false
            end
          else if Nat.leb 224 a && Nat.leb a 239 then
            match l1 with
            | b :: c :: l2 =>
                (if Nat.eqb a 224 then Nat.leb 160 b && Nat.leb b 191
                 else if Nat.eqb a 237 then Nat.leb 128 b && Nat.leb b 159
                 else cont_byte b) && cont_byte c && valid_utf8_fuel fuel' l2
            | _ => false
            end
          else if Nat.leb 240 a && Nat.leb a 244 then
            match l1 with
            | b :: c :: d :: l2 =>
                (if Nat.eqb a 240 then Nat.leb 144 b && Nat.leb b 191
                 else if Nat.eqb a 244 then Nat.leb 128 b && Nat.leb b 143
                 else cont_byte b) && cont_byte c && cont_byte d && valid_utf8_fuel fuel' l2
            | _ => false
            end
          else false
      end
  end.

Definition bytes_of (s : string) : list nat := map Ascii.nat_of_ascii (String.list_ascii_of_string s).

Definition ValidUTF8 (s : string) : bool := valid_utf8_fuel (String.length s) (bytes_of s).

Lemma string_app_nil (s : string) : s +:+ "" = s.
Proof. induction s as [|c s IH]; [done|]. change (String c (s +:+ "") = String c s). by rewrite IH. Qed.

(** [net.SplitHostPort] *)
Definition SplitHostPort (hostport : string) : option (string * string) :=
  match CutLast hostport ":" with
  | None => None
  | Some (before, port) =>
      if HasPrefix hostport "[" then
        (* the first ']' must stand just before the last ':' *)
        match Cut hostport "]" with
        | None => None
        | Some (h, rest) =>
            if negb (h +:+ "]" =?s before) then None
            else
              let host := string_drop 1 h in
              if Contains (string_drop 1 hostport) "[" || Contains rest "]" then None else Some (host, port)
        end
      else if Contains before ":" then None
      else if Contains hostport "[" || Contains hostport "]" then None
      else Some (before, port)
  end.
