(* ===== verification/Errors.v ===== *)
(** Errors: internal/core/errors.go (typed errors, kinds and hints), the
    D-Bus error classification of internal/nm/errors.go, and the path of an
    error to the surfaces: api.StatusFor / api.ErrorBody on the daemon side and
    client.APIError on the other.

    A Go [error] is a tree: [errors.Is] and [errors.As] walk it depth first,
    pre-order, through [Unwrap() error] and [Unwrap() []error]. *)

From S2P Require Import Prelude Core GoStrings.

(** ** Values of type [error] *)

Abbreviation ErrorKind := string.
Definition KindPermission : ErrorKind := "permission".
Definition KindNotFound : ErrorKind := "not-found".
Definition KindUnsupported : ErrorKind := "unsupported".
Definition KindInvalid : ErrorKind := "invalid".
Definition KindConflict : ErrorKind := "conflict".
Definition KindUnavailable : ErrorKind := "unavailable".
Definition KindInternal : ErrorKind := "internal".

(** The concrete types behind [error].  [ESentinel] is a package-level
    [errors.New] value, told apart by its variable; [ECore] is a [*core.Error]
    pointer, [id] naming the package variable that holds it when there is one
    (a freshly allocated one is never a target of [errors.Is]); [ELeaf] is any
    error without [Unwrap]; [EWrap] is [fmt.Errorf] with [%w] verbs, its
    message already formatted; [ESweep] is diag's [SweepError]; [EHint] is any other
    type with a [Hint] method: speed's [RateLimitedError] and the
    [ambiguousError] of the command line.  [ENotRunning] and [EVersionMismatch]
    are the client's [ErrNotRunning] and [ErrVersionMismatch], [EUsage] and
    [ESilentExit] the command line's [usageError] and [silentExit]. *)
Inductive error : Type :=
| ESentinel (var msg : string)
| ELeaf (msg : string)
| ECore (id : option string) (kind : ErrorKind) (msg hint : string) (cause : option error)
| ENM (op name msg hint : string) (kind : option error)
| ENMTimeout
| EAPI (status : Z) (code : ErrorKind) (msg hint : string)
| ESweep (err : error)
| EHint (msg hint : string) (wrapped : list error)
| ENotRunning (socket : string) (cause : error)
| EVersionMismatch (daemon client : Z) (daemon_version : string)
| EUsage (msg : string)
| ESilentExit (code : Z)
| EWrap (msg : string) (wrapped : list error).

(** ** core/errors.go *)

Definition ErrPermission : error := ESentinel "core.ErrPermission" "permission denied".
Definition ErrNotFound : error := ESentinel "core.ErrNotFound" "not found".
Definition ErrUnsupported : error := ESentinel "core.ErrUnsupported" "unsupported".
Definition ErrInvalid : error := ESentinel "core.ErrInvalid" "invalid".
Definition ErrConflict : error := ESentinel "core.ErrConflict" "conflict".
Definition ErrUnavailable : error := ESentinel "core.ErrUnavailable" "unavailable".
Definition DeadlineExceeded : error := ESentinel "context.DeadlineExceeded" "context deadline exceeded".
Definition Canceled : error := ESentinel "context.Canceled" "context canceled".

Definition sentinelFor (k : ErrorKind) : option error :=
  if k =?s KindPermission then Some ErrPermission
  else if k =?s KindNotFound then Some ErrNotFound
  else if k =?s KindUnsupported then Some ErrUnsupported
  else if k =?s KindInvalid then Some ErrInvalid
  else if k =?s KindConflict then Some ErrConflict
  else if k =?s KindUnavailable then Some ErrUnavailable
  else None.

(** [Errorf] (its message already formatted) and [Wrap]. *)
Definition Errorf (kind : ErrorKind) (hint msg : string) : error :=
  ECore None kind msg hint None.

Definition Wrap (kind : ErrorKind) (hint : string) (err : option error) : option error :=
  match err with
  | None => None
  | Some e => Some (ECore None kind "" hint (Some e))
  end.

(** [client.APIError.Unwrap]: [core.Wrap(e.Code, e.Hint, errors.New(e.Message))]. *)
Definition APIError_Unwrap (code : ErrorKind) (msg hint : string) : error :=
  ECore None code "" hint (Some (ELeaf msg)).

(** The tree of [err] in the order [errors.Is] and [errors.As] visit it. *)
Fixpoint flatten (e : error) : list error :=
  e ::
  match e with
  | ECore _ kind _ _ cause =>
      option_list (sentinelFor kind) ++
      match cause with Some c => flatten c | None => [] end
  | ENM _ _ _ _ (Some k) => flatten k
  | EAPI _ code msg hint =>
      APIError_Unwrap code msg hint :: option_list (sentinelFor code) ++ [ELeaf msg]
  | ESweep e | ENotRunning _ e => flatten e
  | EWrap _ l | EHint _ _ l => flat_map flatten l
  | _ => []
  end.

(** [e == target] on two error values: the identity of the variable holding a
    pointer, or equality of [timeoutError{}] values. *)
Definition same_error (e target : error) : bool :=
  match e, target with
  | ESentinel v _, ESentinel w _ => v =?s w
  | ECore (Some v) _ _ _ _, ECore (Some w) _ _ _ _ => v =?s w
  | ENMTimeout, ENMTimeout => true
  | _, _ => false
  end.

(** The [Is] method: only nm's [timeoutError] has one. *)
Definition has_Is (e target : error) : bool :=
  match e with
  | ENMTimeout => same_error target DeadlineExceeded
  | _ => false
  end.

Definition errors_Is (err : option error) (target : error) : bool :=
  match err with
  | None => false
  | Some e => existsb (fun x => same_error x target || has_Is x target) (flatten e)
  end.

(** [errors.As(err, &e)] for [e *core.Error]: its kind and hint. *)
Definition as_core (e : error) : option (ErrorKind * string) :=
  match e with ECore _ kind _ hint _ => Some (kind, hint) | _ => None end.

Definition as_hinter (e : error) : option string :=
  match e with ENM _ _ _ hint _ | EHint _ hint _ => Some hint | _ => None end.

Definition as_sweep (e : error) : option error := match e with ESweep e => Some e | _ => None end.

Fixpoint first_some {A B} (f : A -> option B) (l : list A) : option B :=
  match l with
  | [] => None
  | x :: l' => match f x with Some b => Some b | None => first_some f l' end
  end.

Definition KindOf (err : option error) : ErrorKind :=
  match err with
  | None => ""
  | Some e =>
      match first_some as_core (flatten e) with
      | Some (k, _) => k
      | None =>
          if errors_Is err ErrPermission then KindPermission
          else if errors_Is err ErrNotFound then KindNotFound
          else if errors_Is err ErrUnsupported then KindUnsupported
          else if errors_Is err ErrInvalid then KindInvalid
          else if errors_Is err ErrConflict then KindConflict
          else if errors_Is err ErrUnavailable then KindUnavailable
          else KindInternal
      end
  end.

Definition HintOf (err : option error) : string :=
  match err with
  | None => ""
  | Some e =>
      match first_some as_core (flatten e) with
      | Some (_, h) =>
          if negb (h =?s "") then h
          else default "" (first_some as_hinter (flatten e))
      | None => default "" (first_some as_hinter (flatten e))
      end
  end.

(** The [Error()] methods. *)
Fixpoint ErrorString (e : error) : string :=
  match e with
  | ESentinel _ m | ELeaf m | EWrap m _ | EHint m _ _ => m
  | ECore _ _ msg _ cause =>
      match cause with
      | Some c => if negb (msg =?s "") then msg +:+ ": " +:+ ErrorString c else ErrorString c
      | None => msg
      end
  | ENM op name msg _ kind =>
      "nm: " +:+ op +:+ ": " +:+
      match kind with
      | Some k => if negb (msg =?s "") then ErrorString k +:+ ": " +:+ msg else ErrorString k
      | None => msg
      end +:+ (if negb (name =?s "") then " (" +:+ name +:+ ")" else "")
  | ENMTimeout => "timed out"
  | ENotRunning socket e => "bnmd is not running (socket " +:+ socket +:+ "): " +:+ ErrorString e
  | EVersionMismatch daemon client v =>
      "bnmd " +:+ v +:+ " speaks API v" +:+ Itoa daemon +:+ " but this client needs v" +:+ Itoa client +:+
      "; restart the daemon (bnm daemon restart) or update bnm"
  | EUsage m => m
  | ESilentExit code => "exit " +:+ Itoa code
  | ESweep e => "diag: sweep skipped: " +:+ ErrorString e
  | EAPI _ _ msg hint => if negb (hint =?s "") then msg +:+ " (" +:+ hint +:+ ")" else msg
  end.

(** ** api/server.go: StatusFor, ErrorBody *)

Definition StatusFor (err : option error) : Z :=
  let k := KindOf err in
  if k =?s KindPermission then 403
  else if k =?s KindNotFound then 404
  else if k =?s KindUnsupported then 501
  else if k =?s KindInvalid then 400
  else if k =?s KindConflict then 409
  else if k =?s KindUnavailable then 503
  else if errors_Is err DeadlineExceeded then 504
  else 500.

Record ErrorResponse := mkErrorResponse {
  er_Error : string;
  er_Hint : string;
  er_Code : string
}.

Definition permission_hint : string :=
  "NetworkManager refused this action for your user; a polkit rule or group membership fixes it permanently".

Definition ErrorBody (err : error) : ErrorResponse :=
  let kind := KindOf (Some err) in
  let hint := HintOf (Some err) in
  let hint := if (hint =?s "") && (kind =?s KindPermission) then permission_hint else hint in
  mkErrorResponse (ErrorString err) hint kind.

(** ** client/client.go: kindForStatus, decodeError *)

Definition kindForStatus (status : Z) : ErrorKind :=
  if status =? 403 then KindPermission
  else if status =? 404 then KindNotFound
  else if status =? 501 then KindUnsupported
  else if status =? 400 then KindInvalid
  else if status =? 409 then KindConflict
  else if status =? 503 then KindUnavailable
  else KindInternal.

(** [decodeError] on a non-2xx answer: [parsed] is what the JSON decoder makes
    of the body ([None] when it fails), [text] the trimmed body, [status_line]
    the response's status text. *)
Definition decodeError (status : Z) (parsed : option ErrorResponse) (text status_line : string) : error :=
  let fallback :=
    EAPI status (kindForStatus status) (if text =?s "" then status_line else text) "" in
  match parsed with
  | Some er => if er_Error er =?s "" then fallback else EAPI status (er_Code er) (er_Error er) (er_Hint er)
  | None => fallback
  end.

(** ** nm/errors.go *)

Definition nm_ErrPermissionDenied := ECore (Some "nm.ErrPermissionDenied") KindPermission "permission denied" "" None.
Definition nm_ErrNotFound := ECore (Some "nm.ErrNotFound") KindNotFound "not found" "" None.
Definition nm_ErrAuthFailed := ECore (Some "nm.ErrAuthFailed") KindInvalid "authentication failed" "" None.
Definition nm_ErrNoSecrets := ECore (Some "nm.ErrNoSecrets") KindInvalid "no secrets available" "" None.
Definition nm_ErrUnsupported := ECore (Some "nm.ErrUnsupported") KindUnsupported "unsupported" "" None.
Definition nm_ErrUnavailable := ECore (Some "nm.ErrUnavailable") KindUnavailable "NetworkManager unavailable" "" None.
Definition nm_ErrConflict := ECore (Some "nm.ErrConflict") KindConflict "profile changed concurrently" "" None.
Definition nm_ErrTimeout := ENMTimeout.

Definition polkitHint : string :=
  "NetworkManager asked polkit and got no answer. Run a session polkit " +:+
  "authentication agent (polkit-gnome, polkit-kde-agent, lxpolkit, hyprpolkitagent, ...) " +:+
  "so prompts can be shown, or ask an admin to grant the action in a polkit rule. " +:+
  "Profiles bnm creates are scoped to your user and never prompt.".

Definition noSecretsHint : string :=
  "the password prompt was cancelled or not answered in time; retry, or store the " +:+
  "password in the profile (`bnm wifi connect <ssid> --ask`). Pending prompts: `bnm secrets`".

(** [newErr]: an [*Error] that does not come from D-Bus. *)
Definition newErr (op : string) (kind : option error) (msg : string) : error :=
  ENM op "" msg (if errors_Is kind nm_ErrPermissionDenied then polkitHint else "") kind.

(** * What an error's kind and hint mean on the two sides of the socket: the
    daemon classifies an error tree, sends a status and a JSON body, and the
    client rebuilds an error that callers test with [errors.Is]. *)

(** The kinds core/errors.go declares. *)
Definition known_kinds : list ErrorKind :=
  [KindPermission; KindNotFound; KindUnsupported; KindInvalid; KindConflict; KindUnavailable; KindInternal].

Lemma KindOf_EAPI st code msg hint : KindOf (Some (EAPI st code msg hint)) = code.
Proof. done. Qed.

Lemma HintOf_EAPI st code msg hint : HintOf (Some (EAPI st code msg hint)) = hint.
Proof.
  unfold HintOf. change (first_some as_core _) with (Some (code, hint)).
  cbn [flatten]. destruct (hint =?s "") eqn:Hh; [|done]. bool_to_prop; subst; simpl.
  unfold sentinelFor. by repeat case_test.
Qed.

Lemma sentinelFor_sentinel k s :
  sentinelFor k = Some s -> exists v m, s = ESentinel v m /\ sentinelFor k = Some (ESentinel v m).
Proof. unfold sentinelFor. repeat case_test; intros [= <-]; eauto. Qed.

(** A kind's sentinel is its own. *)
Lemma sentinelFor_inj k1 k2 s1 s2 :
  sentinelFor k1 = Some s1 -> sentinelFor k2 = Some s2 -> same_error s1 s2 = (k1 =?s k2).
Proof.
  unfold sentinelFor. repeat case_test; bool_to_prop; intros [= <-] [= <-]; subst; simpl; try done;
    symmetry; by apply String.eqb_neq.
Qed.

(** A client-side error matches a sentinel exactly when that is its code's. *)
Lemma errors_Is_EAPI st code msg hint k s :
  sentinelFor k = Some s -> errors_Is (Some (EAPI st code msg hint)) s = (code =?s k).
Proof.
  intros Hk. destruct (sentinelFor_sentinel k s Hk) as (v & m & -> & _).
  destruct (sentinelFor code) as [s'|] eqn:Hc.
  - destruct (sentinelFor_sentinel code s' Hc) as (v' & m' & -> & _).
    pose proof (sentinelFor_inj _ _ _ _ Hc Hk) as Hs. simpl in Hs.
    cbn. rewrite Hc. cbn. by rewrite !orb_false_r.
  - cbn. rewrite Hc. cbn. symmetry. apply String.eqb_neq. intros ->. congruence.
Qed.

Lemma errors_Is_EAPI_deadline st code msg hint :
  errors_Is (Some (EAPI st code msg hint)) DeadlineExceeded = false.
Proof. cbn. unfold sentinelFor. by repeat case_test. Qed.

(** The status of a kind, and the kind the client reads off a bare status. *)
Lemma kindForStatus_StatusFor e :
  KindOf (Some e) ∈ known_kinds -> kindForStatus (StatusFor (Some e)) = KindOf (Some e).
Proof.
  unfold StatusFor. generalize (KindOf (Some e)) as k. intros k Hk.
  unfold known_kinds in Hk. rewrite !elem_of_cons in Hk.
  destruct Hk as [->|[->|[->|[->|[->|[->|[->|Hk]]]]]]]; try done; [|by apply elem_of_nil in Hk].
  change (kindForStatus (if errors_Is (Some e) DeadlineExceeded then 504 else 500) = KindInternal).
  by destruct (errors_Is (Some e) DeadlineExceeded).
Qed.

Lemma ErrorBody_code e : er_Code (ErrorBody e) = KindOf (Some e).
Proof. done. Qed.

(** C15: An error's kind survives the socket.  Whether the client could parse
    the daemon's JSON body or had to fall back on the HTTP status, the error it
    hands out has the daemon's kind, matches the sentinel of that kind and of
    no other, and would map to the same status again (a deadline, sent as 504,
    comes back as an internal error); with the body, the hint survives too,
    and a permission error always carries one. *)
Theorem errors_cross_socket e parsed text status_line :
  KindOf (Some e) ∈ known_kinds ->
  parsed = Some (ErrorBody e) \/ parsed = None ->
  let c := decodeError (StatusFor (Some e)) parsed text status_line in
  KindOf (Some c) = KindOf (Some e) /\
  (forall k s, sentinelFor k = Some s -> errors_Is (Some c) s = (KindOf (Some e) =?s k)) /\
  (StatusFor (Some c) = StatusFor (Some e) \/
   StatusFor (Some e) = 504 /\ StatusFor (Some c) = 500) /\
  (parsed = Some (ErrorBody e) -> ErrorString e <> "" ->
     HintOf (Some c) = er_Hint (ErrorBody e) /\
     (HintOf (Some e) <> "" -> HintOf (Some c) = HintOf (Some e)) /\
     (KindOf (Some e) = KindPermission -> HintOf (Some c) <> "")).
Proof.
  intros Hk Hp c.
  assert (exists msg hint, c = EAPI (StatusFor (Some e)) (KindOf (Some e)) msg hint /\
            (parsed = Some (ErrorBody e) -> ErrorString e <> "" -> hint = er_Hint (ErrorBody e)))
    as (msg & hint & Hc & Hhint).
  { subst c. unfold decodeError. rewrite (kindForStatus_StatusFor e Hk).
    destruct Hp as [->| ->].
    - case_test; bool_to_prop; do 2 eexists; (split; [reflexivity|]); [done|]. done.
    - do 2 eexists; (split; [reflexivity|]). done. }
  rewrite Hc, KindOf_EAPI. split_and!; [done| | |].
  - intros k s Hs. by apply errors_Is_EAPI.
  - unfold StatusFor. rewrite KindOf_EAPI, errors_Is_EAPI_deadline.
    repeat (case_test; [by left|]). destruct (errors_Is (Some e) DeadlineExceeded); auto.
  - intros Hps He. rewrite HintOf_EAPI, (Hhint Hps He). unfold ErrorBody; cbn [er_Hint].
    split_and!; [done| |].
    + intros Hne. rewrite (seqb_ne _ _ Hne). done.
    + intros ->. rewrite seqb_refl, andb_true_r. case_test; bool_to_prop; done.
Qed.

Lemma errors_cross_socket_witness :
  let e := EWrap "daemon: set up: gone" [nm_ErrNotFound] in
  let c := decodeError (StatusFor (Some e)) None "" "404 Not Found" in
  StatusFor (Some e) = 404 /\ KindOf (Some c) = KindNotFound /\ errors_Is (Some c) ErrNotFound = true.
Proof.
  intros e c.
  destruct (errors_cross_socket e None "" "404 Not Found") as (H1 & H2 & _).
  - right; left.
  - by right.
  - split; [done|]. split; [exact H1|]. exact (H2 KindNotFound ErrNotFound eq_refl).
Defined.
