(* ===== verification/Engine.v ===== *)
(** internal/monitor/engine.go: the baseline engine.  It is fed one probe
    sample at a time and reports the changes of each Network Key's overall
    state.  Times come from the samples; nothing here reads a clock.

    The maps [keys] and [anchors] are ranged over by Go in an unspecified
    order: [deriveKeyState_loop] is the loop on an arbitrary order of the
    entries, and [map_order_irrelevant] shows the order does not matter. *)

From S2P Require Import Prelude GoTime Core.


Definition GatewayAnchor : string := "gateway".

(** ** Configuration *)

Record EngineConfig := mkEngineConfig {
  Window : Z;
  MinSamples : Z;
  CurrentWindow : Z;
  DegradeRTTFactor : float64;
  DegradeRTTDeltaMs : float64;
  DegradeLoss : float64;
  DegradeBaselineLoss : float64;
  DegradeStreak : Z;
  RecoverRTTFactor : float64;
  RecoverLoss : float64;
  RecoverStreak : Z
}.

Definition DefaultEngineConfig : EngineConfig := {|
  Window := 200;
  MinSamples := 40;
  CurrentWindow := 10;
  DegradeRTTFactor := f_of_Z 2;
  DegradeRTTDeltaMs := f_of_Z 20;
  DegradeLoss := f_ratio 10 100;
  DegradeBaselineLoss := f_ratio 2 100;
  DegradeStreak := 3;
  RecoverRTTFactor := f_ratio 13 10;
  RecoverLoss := f_ratio 3 100;
  RecoverStreak := 10
|}.

(** A field that is zero or negative takes the default; then the learning
    threshold is capped by the window. *)
Definition pos_or (v d : Z) : Z := if v <=? 0 then d else v.
Definition fpos_or (v d : float64) : float64 := if (v <=? f_zero)%float then d else v.

Definition withDefaults (c : EngineConfig) : EngineConfig :=
  let d := DefaultEngineConfig in
  let w := pos_or (Window c) (Window d) in
  let m := pos_or (MinSamples c) (MinSamples d) in
  {| Window := w;
     MinSamples := if w <? m then w else m;
     CurrentWindow := pos_or (CurrentWindow c) (CurrentWindow d);
     DegradeRTTFactor := fpos_or (DegradeRTTFactor c) (DegradeRTTFactor d);
     DegradeRTTDeltaMs := fpos_or (DegradeRTTDeltaMs c) (DegradeRTTDeltaMs d);
     DegradeLoss := fpos_or (DegradeLoss c) (DegradeLoss d);
     DegradeBaselineLoss := fpos_or (DegradeBaselineLoss c) (DegradeBaselineLoss d);
     DegradeStreak := pos_or (DegradeStreak c) (DegradeStreak d);
     RecoverRTTFactor := fpos_or (RecoverRTTFactor c) (RecoverRTTFactor d);
     RecoverLoss := fpos_or (RecoverLoss c) (RecoverLoss d);
     RecoverStreak := pos_or (RecoverStreak c) (RecoverStreak d) |}.

(** ** State *)

Abbreviation Reason := string.
Definition ReasonRTT : Reason := "rtt".
Definition ReasonLoss : Reason := "loss".
Definition ReasonNone : Reason := "".

Record Transition := mkTransition {
  tr_NetworkKey : string;
  tr_From : BaselineState;
  tr_To : BaselineState;
  tr_At : Time;
  tr_Anchor : string;
  tr_Reason : Reason;
  tr_Baseline : Baseline
}.

Record anchorState := mkAnchorState {
  samples : list Sample;
  state : BaselineState;
  since : Time;
  badStreak : Z;
  goodStreak : Z;
  lastReason : Reason;
  baseline : Baseline
}.

Record keyState := mkKeyState {
  ks_state : BaselineState;
  ks_since : Time;
  ks_anchors : gmap string anchorState
}.

Record Engine := mkEngine {
  cfg : EngineConfig;
  keys : gmap string keyState
}.

Definition NewEngine (c : EngineConfig) : Engine := mkEngine (withDefaults c) ∅.

(** [&anchorState{state: learning, since: at}] *)
Definition new_anchor (at_ : Time) : anchorState :=
  mkAnchorState [] BaselineLearning at_ 0 0 ReasonNone Baseline_zero.

Definition set_samples (l : list Sample) (a : anchorState) : anchorState :=
  mkAnchorState l (state a) (since a) (badStreak a) (goodStreak a) (lastReason a) (baseline a).
Definition set_baseline (b : Baseline) (a : anchorState) : anchorState :=
  mkAnchorState (samples a) (state a) (since a) (badStreak a) (goodStreak a) (lastReason a) b.

(** ** Statistics *)

(** [sort.Float64s] puts NaN first, then the values in increasing order. *)
Definition float_le (a b : float64) : bool := is_nan a || (a <=? b)%float.

Definition median (vals : list float64) : float64 :=
  match vals with
  | [] => f_minus_one
  | _ =>
      let sorted := isort float_le vals in
      let n := length sorted in
      if Nat.odd n then nth (Nat.div n 2) sorted f_zero
      else ((nth (Nat.div n 2 - 1) sorted f_zero + nth (Nat.div n 2) sorted f_zero) / f_two)%float
  end.

Definition medianRTT (l : list Sample) : float64 :=
  median (map smp_RTTms (List.filter (fun s => (f_zero <=? smp_RTTms s)%float) l)).

Definition meanLoss (l : list Sample) : float64 :=
  match l with
  | [] => f_zero
  | _ => (fold_left (fun sum s => f_add sum (smp_Loss s)) l f_zero / f_of_Z (len l))%float
  end.

Definition baselineStats (l : list Sample) : float64 * float64 := (medianRTT l, meanLoss l).

(** The most recent DNS measurement: the backwards loop of [currentStats] is a
    forward search of the reversed slice. *)
Definition lastDNS (cur : list Sample) : float64 :=
  match List.find (fun s => (f_zero <=? smp_DNSms s)%float) (rev cur) with
  | Some s => smp_DNSms s
  | None => f_minus_one
  end.

Definition currentStats (c : EngineConfig) (l : list Sample) : float64 * float64 * float64 :=
  let cur := keep_last (CurrentWindow c) l in
  (medianRTT cur, meanLoss cur, lastDNS cur).

Definition snapshot (c : EngineConfig) (key anchor : string) (a : anchorState) (at_ : Time) : Baseline :=
  match samples a with
  | [] => mkBaseline key anchor (state a) 0 f_minus_one f_zero f_minus_one f_zero f_minus_one (since a) at_
  | _ =>
      let '(brtt, bloss) := baselineStats (samples a) in
      let '(crtt, closs, cdns) := currentStats c (samples a) in
      mkBaseline key anchor (state a) (len (samples a)) brtt bloss crtt closs cdns (since a) at_
  end.

(** ** The anchor's state machine: [evaluate] *)

(** The three verdicts [evaluate] computes from the window. *)
Definition rtt_bad (c : EngineConfig) (l : list Sample) : bool :=
  let '(baseRTT, _) := baselineStats l in
  let '(curRTT, _, _) := currentStats c l in
  ((f_zero <=? curRTT) && (f_zero <=? baseRTT) &&
   (DegradeRTTFactor c * baseRTT <? curRTT) &&
   (baseRTT + DegradeRTTDeltaMs c <? curRTT))%float.

Definition loss_bad (c : EngineConfig) (l : list Sample) : bool :=
  let '(_, baseLoss) := baselineStats l in
  let '(_, curLoss, _) := currentStats c l in
  ((DegradeLoss c <? curLoss) && (baseLoss <? DegradeBaselineLoss c))%float.

Definition is_good (c : EngineConfig) (l : list Sample) : bool :=
  let '(baseRTT, _) := baselineStats l in
  let '(curRTT, curLoss, _) := currentStats c l in
  ((f_zero <=? curRTT) && (f_zero <=? baseRTT) &&
   (curRTT <? RecoverRTTFactor c * baseRTT) &&
   (curLoss <? RecoverLoss c))%float.

(** The [case core.BaselineOK] arm. *)
Definition evaluate_ok (c : EngineConfig) (rttBad lossBad : bool) (at_ : Time) (a : anchorState) : anchorState :=
  let '(bad, reason) :=
    if rttBad || lossBad
    then (badStreak a + 1, if lossBad && negb rttBad then ReasonLoss else ReasonRTT)
    else (0, lastReason a) in
  if DegradeStreak c <=? bad
  then mkAnchorState (samples a) BaselineDegraded at_ bad 0 reason (baseline a)
  else mkAnchorState (samples a) (state a) (since a) bad (goodStreak a) reason (baseline a).

(** The [case core.BaselineDegraded] arm. *)
Definition evaluate_degraded (c : EngineConfig) (good : bool) (at_ : Time) (a : anchorState) : anchorState :=
  let g := if good then goodStreak a + 1 else 0 in
  if RecoverStreak c <=? g
  then mkAnchorState (samples a) BaselineOK at_ 0 g (lastReason a) (baseline a)
  else mkAnchorState (samples a) (state a) (since a) (badStreak a) g (lastReason a) (baseline a).

Definition evaluate (c : EngineConfig) (a : anchorState) (at_ : Time) : anchorState :=
  if len (samples a) <? MinSamples c then
    let '(st, sn) :=
      if state a =?s BaselineLearning then (state a, since a) else (BaselineLearning, at_) in
    mkAnchorState (samples a) st sn 0 0 (lastReason a) (baseline a)
  else
    let rttBad := rtt_bad c (samples a) in
    let lossBad := loss_bad c (samples a) in
    let good := is_good c (samples a) in
    if (state a =?s BaselineLearning) || (state a =?s BaselineIdle) then
      evaluate_ok c rttBad lossBad at_
        (mkAnchorState (samples a) BaselineOK at_ 0 0 (lastReason a) (baseline a))
    else if state a =?s BaselineOK then evaluate_ok c rttBad lossBad at_ a
    else if state a =?s BaselineDegraded then evaluate_degraded c good at_ a
    else a.

(** ** The key's state: [deriveKeyState] and [settle] *)

Fixpoint deriveKeyState_loop (allLearning : bool) (l : list (string * anchorState)) : BaselineState :=
  match l with
  | [] => if allLearning then BaselineLearning else BaselineOK
  | (name, a) :: l' =>
      let allLearning := allLearning && (state a =?s BaselineLearning) in
      if negb (name =?s GatewayAnchor) && (state a =?s BaselineDegraded)
      then BaselineDegraded
      else deriveKeyState_loop allLearning l'
  end.

Definition deriveKeyState (anchors : gmap string anchorState) : BaselineState :=
  if Nat.eqb (size anchors) 0 then BaselineIdle
  else deriveKeyState_loop true (map_to_list anchors).

Definition settle (key : string) (ks : keyState) (anchor : string) (a : anchorState) (at_ : Time) :
    keyState * list Transition :=
  let next := deriveKeyState (ks_anchors ks) in
  if next =?s ks_state ks then (ks, [])
  else
    let prev := ks_state ks in
    let involved := (next =?s BaselineDegraded) || (prev =?s BaselineDegraded) in
    let tr := {|
      tr_NetworkKey := key; tr_From := prev; tr_To := next; tr_At := at_;
      tr_Anchor := if involved then anchor else "";
      tr_Reason := if next =?s BaselineDegraded then lastReason a else ReasonNone;
      tr_Baseline := if involved then baseline a else Baseline_zero |} in
    (mkKeyState next at_ (ks_anchors ks), [tr]).

(** ** Operations *)

Definition new_key : keyState := mkKeyState BaselineIdle 0 ∅.

(** [e.key(k)]: find or create. *)
Definition get_key (e : Engine) (k : string) : keyState := default new_key (keys e !! k).

Definition put_key (e : Engine) (k : string) (ks : keyState) : Engine :=
  mkEngine (cfg e) (<[k := ks]> (keys e)).

(** What [Add] does to the sampled anchor. *)
Definition step_anchor (c : EngineConfig) (s : Sample) (a : anchorState) : anchorState :=
  let a := set_samples (keep_last (Window c) (samples a ++ [s])) a in
  let a := evaluate c a (smp_Time s) in
  set_baseline (snapshot c (smp_NetworkKey s) (smp_Anchor s) a (smp_Time s)) a.

Definition Add (e : Engine) (s : Sample) : Engine * list Transition :=
  if (smp_NetworkKey s =?s "") || (smp_Anchor s =?s "") then (e, [])
  else
    let ks := get_key e (smp_NetworkKey s) in
    let a := default (new_anchor (smp_Time s)) (ks_anchors ks !! smp_Anchor s) in
    let a := step_anchor (cfg e) s a in
    let ks := mkKeyState (ks_state ks) (ks_since ks) (<[smp_Anchor s := a]> (ks_anchors ks)) in
    let '(ks, trs) := settle (smp_NetworkKey s) ks (smp_Anchor s) a (smp_Time s) in
    (put_key e (smp_NetworkKey s) ks, trs).

Definition State (e : Engine) (networkKey : string) : BaselineState * Time :=
  match keys e !! networkKey with
  | None => (BaselineIdle, 0)
  | Some ks => (ks_state ks, ks_since ks)
  end.

(** The comparator of [Baselines]: gateway first, then by name. *)
Definition baseline_less (x y : Baseline) : bool :=
  let gx := bl_Anchor x =?s GatewayAnchor in
  let gy := bl_Anchor y =?s GatewayAnchor in
  if negb (Bool.eqb gx gy) then gx else String.ltb (bl_Anchor x) (bl_Anchor y).

Definition baseline_le (x y : Baseline) : bool := negb (baseline_less y x).

Definition Baselines (e : Engine) (networkKey : string) : list Baseline :=
  match keys e !! networkKey with
  | None => []
  | Some ks => isort baseline_le (map (fun p => baseline p.2) (map_to_list (ks_anchors ks)))
  end.

Definition Reset (e : Engine) (networkKey : string) : Engine :=
  mkEngine (cfg e) (delete networkKey (keys e)).

(** *** [Load] *)

Definition sample_le (x y : Sample) : bool := negb (time_Before (smp_Time y) (smp_Time x)).

Definition set_anchor (ks : keyState) (name : string) (a : anchorState) : keyState :=
  mkKeyState (ks_state ks) (ks_since ks) (<[name := a]> (ks_anchors ks)).

(** One iteration of the loop over the sorted samples. *)
Definition load_sample (acc : Engine * gset string) (s : Sample) : Engine * gset string :=
  let '(e, touched) := acc in
  if (smp_NetworkKey s =?s "") || (smp_Anchor s =?s "") then acc
  else
    let ks := get_key e (smp_NetworkKey s) in
    let a := default (new_anchor (smp_Time s)) (ks_anchors ks !! smp_Anchor s) in
    let a := set_samples (samples a ++ [s]) a in
    (put_key e (smp_NetworkKey s) (set_anchor ks (smp_Anchor s) a),
     {[smp_NetworkKey s]} ∪ touched).

(** One iteration of the loop over the stored baselines; a missing anchor is
    the zero [anchorState]. *)
Definition load_baseline (acc : Engine * gset string) (b : Baseline) : Engine * gset string :=
  let '(e, touched) := acc in
  if (bl_NetworkKey b =?s "") || (bl_Anchor b =?s "") then acc
  else
    let ks := get_key e (bl_NetworkKey b) in
    let a := default (mkAnchorState [] "" 0 0 0 ReasonNone Baseline_zero)
               (ks_anchors ks !! bl_Anchor b) in
    let st := if negb (bl_State b =?s "") then bl_State b else state a in
    let a := mkAnchorState (samples a) st (bl_Since b) (badStreak a) (goodStreak a)
               (lastReason a) (baseline a) in
    (put_key e (bl_NetworkKey b) (set_anchor ks (bl_Anchor b) a),
     {[bl_NetworkKey b]} ∪ touched).

(** The state [Load] settles on for an anchor with [n] samples. *)
Definition load_state (c : EngineConfig) (st : BaselineState) (n : Z) : BaselineState :=
  let st := if (st =?s "") || (st =?s BaselineIdle) then BaselineLearning else st in
  let st := if (n <? MinSamples c) && negb (st =?s BaselineLearning) then BaselineLearning else st in
  if (MinSamples c <=? n) && (st =?s BaselineLearning) then BaselineOK else st.

(** The time stamp [at] of an anchor: its newest sample, or when its state began. *)
Definition load_at (c : EngineConfig) (a : anchorState) : Time :=
  match last (keep_last (Window c) (samples a)) with
  | Some s => smp_Time s
  | None => since a
  end.

(** The body of the final loop for one anchor. *)
Definition load_anchor (c : EngineConfig) (key name : string) (a : anchorState) : anchorState :=
  let l := keep_last (Window c) (samples a) in
  let st := load_state c (state a) (len l) in
  let at_ := load_at c a in
  let sn := if time_IsZero (since a) then at_ else since a in
  let a := mkAnchorState l st sn (badStreak a) (goodStreak a) (lastReason a) (baseline a) in
  set_baseline (snapshot c key name a at_) a.

Definition load_key (c : EngineConfig) (key : string) (ks : keyState) : keyState :=
  let latest := fold_left (fun latest p =>
                  if time_After (load_at c p.2) latest then load_at c p.2 else latest)
                  (map_to_list (ks_anchors ks)) 0 in
  let anchors := map_imap (fun name a => Some (load_anchor c key name a)) (ks_anchors ks) in
  mkKeyState (deriveKeyState anchors)
    (if time_IsZero (ks_since ks) then latest else ks_since ks) anchors.

Definition Load (e : Engine) (baselines : list Baseline) (smps : list Sample) : Engine :=
  let acc := fold_left load_sample (isort sample_le smps) (e, ∅) in
  let '(e, touched) := fold_left load_baseline baselines acc in
  mkEngine (cfg e)
    (map_imap (fun k ks => Some (if bool_decide (k ∈ touched) then load_key (cfg e) k ks else ks))
       (keys e)).
