(* ===== verification/EngineFacts.v ===== *)
(** The baseline engine: invariant, the anchor's state machine against its
    abstract specification, and what the transitions of a key look like. *)

From S2P Require Import Prelude GoTime Core Engine.

(** ** Configuration *)

(** What [withDefaults] guarantees about the integer knobs. *)
Record wf_config (c : EngineConfig) : Prop := {
  wf_min : 0 < MinSamples c;
  wf_win : MinSamples c <= Window c;
  wf_cur : 0 < CurrentWindow c;
  wf_deg : 0 < DegradeStreak c;
  wf_rec : 0 < RecoverStreak c
}.

Lemma pos_or_pos v d : 0 < d -> 0 < pos_or v d.
Proof. unfold pos_or. case_test; bool_to_prop; lia. Qed.

Lemma pos_or_id v d : 0 < v -> pos_or v d = v.
Proof. unfold pos_or. case_test; bool_to_prop; lia. Qed.

Lemma withDefaults_wf c : wf_config (withDefaults c).
Proof.
  unfold withDefaults.
  assert (0 < pos_or (Window c) 200) by (by apply pos_or_pos).
  assert (0 < pos_or (MinSamples c) 40) by (by apply pos_or_pos).
  split; simpl; try (by apply pos_or_pos); case_test; bool_to_prop; lia.
Qed.

#[export] Hint Resolve withDefaults_wf : bnm.

(** ** [deriveKeyState] does not depend on the order of the map *)

Definition public_degraded (p : string * anchorState) : bool :=
  negb (p.1 =?s GatewayAnchor) && (state p.2 =?s BaselineDegraded).
Definition is_learning (p : string * anchorState) : bool := state p.2 =?s BaselineLearning.

Lemma deriveKeyState_loop_spec b l :
  deriveKeyState_loop b l =
    if existsb public_degraded l then BaselineDegraded
    else if b && forallb is_learning l then BaselineLearning else BaselineOK.
Proof.
  revert b; induction l as [|[name a] l IH]; intros b; simpl; [by rewrite andb_true_r|].
  unfold public_degraded at 1; simpl.
  destruct (negb (name =?s GatewayAnchor) && (state a =?s BaselineDegraded)); simpl; [done|].
  rewrite IH. unfold is_learning at 2; simpl. by rewrite andb_assoc.
Qed.

Lemma forallb_perm {A} (p : A -> bool) (l1 l2 : list A) :
  l1 ≡ₚ l2 -> forallb p l1 = forallb p l2.
Proof.
  intros Hp. apply eq_true_iff_eq. rewrite !forallb_elem.
  split; intros H x Hx; apply H; [by rewrite Hp|by rewrite <- Hp].
Qed.

Lemma deriveKeyState_loop_perm b l1 l2 :
  l1 ≡ₚ l2 -> deriveKeyState_loop b l1 = deriveKeyState_loop b l2.
Proof.
  intros Hp. rewrite !deriveKeyState_loop_spec.
  by rewrite (existsb_perm _ _ _ Hp), (forallb_perm _ _ _ Hp).
Qed.

(** The same in terms of lookups. *)
Definition has_public_degraded (m : gmap string anchorState) : Prop :=
  exists n a, m !! n = Some a /\ n <> GatewayAnchor /\ state a = BaselineDegraded.
Definition all_learning (m : gmap string anchorState) : Prop :=
  forall n a, m !! n = Some a -> state a = BaselineLearning.

Lemma existsb_public_degraded m :
  existsb public_degraded (map_to_list m) = true <-> has_public_degraded m.
Proof.
  rewrite existsb_elem. unfold has_public_degraded, public_degraded. split.
  - intros ([n a] & Hin & H). apply elem_of_map_to_list in Hin. simpl in H.
    bool_to_prop. eauto.
  - intros (n & a & Hm & Hn & Ha). exists (n, a). split; [by apply elem_of_map_to_list|].
    simpl. rewrite Ha. by rewrite (seqb_ne _ _ Hn).
Qed.

Lemma forallb_is_learning m :
  forallb is_learning (map_to_list m) = true <-> all_learning m.
Proof.
  rewrite forallb_elem. unfold all_learning, is_learning. split.
  - intros H n a Hm. apply String.eqb_eq, (H (n, a)). by apply elem_of_map_to_list.
  - intros H [n a] Hin. apply elem_of_map_to_list in Hin. apply String.eqb_eq. simpl; eauto.
Qed.

Lemma size_eqb_0 {A} (m : gmap string A) : Nat.eqb (size m) 0 = true <-> m = ∅.
Proof. rewrite Nat.eqb_eq. split; [apply map_size_empty_inv|intros ->; apply map_size_empty]. Qed.

Inductive derived (m : gmap string anchorState) : BaselineState -> Prop :=
| derived_idle : m = ∅ -> derived m BaselineIdle
| derived_degraded : has_public_degraded m -> derived m BaselineDegraded
| derived_learning : m <> ∅ -> ~ has_public_degraded m -> all_learning m -> derived m BaselineLearning
| derived_ok : m <> ∅ -> ~ has_public_degraded m -> ~ all_learning m -> derived m BaselineOK.

Lemma deriveKeyState_derived m : derived m (deriveKeyState m).
Proof.
  unfold deriveKeyState. destruct (Nat.eqb (size m) 0) eqn:Hs.
  { constructor. by apply size_eqb_0. }
  assert (m <> ∅) as Hne by (intros ?%size_eqb_0; congruence).
  rewrite deriveKeyState_loop_spec.
  destruct (existsb public_degraded (map_to_list m)) eqn:Hd.
  { constructor. by apply existsb_public_degraded. }
  assert (~ has_public_degraded m) by (rewrite <- existsb_public_degraded; congruence).
  destruct (forallb is_learning (map_to_list m)) eqn:Hl; simpl; constructor; try done.
  - by apply forallb_is_learning.
  - rewrite <- forallb_is_learning. congruence.
Qed.

(** ** The anchor's state machine, abstractly *)

(** Hysteresis as the issue states it: learning until the window holds enough
    samples, then ok with the length of the current run of bad verdicts, or
    degraded with the length of the current run of good ones. *)
Inductive phase :=
| PLearning
| POk (bad : Z)
| PDegraded (good : Z).

Record verdict := mkVerdict { v_enough : bool; v_bad : bool; v_good : bool }.

Definition verdict_of (c : EngineConfig) (l : list Sample) : verdict :=
  mkVerdict (MinSamples c <=? len l) (rtt_bad c l || loss_bad c l) (is_good c l).

Definition phase_of (a : anchorState) : phase :=
  if state a =?s BaselineLearning then PLearning
  else if state a =?s BaselineDegraded then PDegraded (goodStreak a)
  else POk (badStreak a).

Definition phase_step (c : EngineConfig) (v : verdict) (p : phase) : phase :=
  if negb (v_enough v) then PLearning
  else
    match p with
    | PLearning | POk _ =>
        let n := match p with POk n => n | _ => 0 end in
        if v_bad v then (if n + 1 <? DegradeStreak c then POk (n + 1) else PDegraded 0) else POk 0
    | PDegraded n =>
        if v_good v then (if n + 1 <? RecoverStreak c then PDegraded (n + 1) else POk 0) else PDegraded 0
    end.

(** ** Invariant *)

Definition anchor_phase_ok (c : EngineConfig) (a : anchorState) : Prop :=
  (state a = BaselineLearning /\ badStreak a = 0 /\ goodStreak a = 0) \/
  (state a = BaselineOK /\ MinSamples c <= len (samples a) /\ 0 <= badStreak a < DegradeStreak c) \/
  (state a = BaselineDegraded /\ MinSamples c <= len (samples a) /\ 0 <= goodStreak a < RecoverStreak c).

(** Every anchor between two calls: at most a window of samples, learning
    exactly below the threshold, streaks below their limits. *)
Definition anchor_ok (c : EngineConfig) (a : anchorState) : Prop :=
  len (samples a) <= Window c /\ anchor_phase_ok c a /\
  (state a = BaselineLearning -> len (samples a) < MinSamples c).

Lemma new_anchor_ok c t : wf_config c -> anchor_ok c (new_anchor t).
Proof.
  intros [Hm Hw _ _ _]. unfold anchor_ok, anchor_phase_ok, new_anchor, len; simpl.
  split_and!; [lia|by left|lia].
Qed.

Lemma phase_of_state a :
  phase_of a =
    if state a =?s BaselineLearning then PLearning
    else if state a =?s BaselineDegraded then PDegraded (goodStreak a)
    else POk (badStreak a).
Proof. done. Qed.

(** Close one leaf of the case analysis below: the phase reached is read off
    the state, and the counters are bounded by arithmetic. *)
Ltac phase_leaf Hs :=
  bool_to_prop;
  first [ lia
  | unfold anchor_phase_ok, phase_of; simpl; rewrite ?Hs; simpl;
    split; [|split];
    [ first [ left; split_and!; done || lia
            | right; left; split_and!; done || lia
            | right; right; split_and!; done || lia ]
    | first [ discriminate | done | lia ] | done ] ].

(** [evaluate] implements the abstract machine and re-establishes the invariant. *)
Lemma evaluate_phase c a t :
  wf_config c -> anchor_phase_ok c a ->
  anchor_phase_ok c (evaluate c a t) /\
  (state (evaluate c a t) = BaselineLearning -> len (samples a) < MinSamples c) /\
  phase_of (evaluate c a t) = phase_step c (verdict_of c (samples a)) (phase_of a).
Proof.
  intros [Hm Hw _ Hds Hrs] Ha. unfold evaluate, phase_step, verdict_of; simpl.
  destruct (len (samples a) <? MinSamples c) eqn:Hlen, (MinSamples c <=? len (samples a)) eqn:Hn;
    simpl; try (bool_to_prop; lia).
  { destruct (state a =?s BaselineLearning) eqn:Hs; phase_leaf Hs. }
  destruct Ha as [(Hs & Hb & Hg)|[(Hs & _ & Hb)|(Hs & _ & Hg)]];
    pose proof (phase_of_state a) as Hp; rewrite Hs in Hp; simpl in Hp; rewrite Hp, Hs;
    simpl; unfold evaluate_ok, evaluate_degraded; simpl.
  - destruct (rtt_bad c (samples a) || loss_bad c (samples a)); simpl;
      repeat case_test; phase_leaf Hs.
  - destruct (rtt_bad c (samples a) || loss_bad c (samples a)); simpl;
      repeat case_test; phase_leaf Hs.
  - destruct (is_good c (samples a)); simpl; repeat case_test; phase_leaf Hs.
Qed.

(** A new sample in the window: [keep_last] never goes below the threshold. *)
Lemma window_grows c a s :
  wf_config c -> len (samples a) <= Window c ->
  len (keep_last (Window c) (samples a ++ [s])) = Z.min (Window c) (len (samples a) + 1).
Proof.
  intros [Hm Hw _ _ _] Hl. rewrite keep_last_length by lia. by rewrite len_app.
Qed.

Lemma set_samples_phase_ok c a l :
  anchor_phase_ok c a -> (len (samples a) <= len l \/ MinSamples c <= len l) ->
  anchor_phase_ok c (set_samples l a).
Proof. unfold anchor_phase_ok; simpl. intuition lia. Qed.

Lemma evaluate_samples c a t : samples (evaluate c a t) = samples a.
Proof.
  unfold evaluate, evaluate_ok, evaluate_degraded.
  repeat case_test; simpl; repeat (case_test; simpl); done.
Qed.

(** What [Add] does to the sampled anchor: its window slides by one, its phase
    makes one abstract step on the new window, and the invariant is kept. *)
Lemma step_anchor_phase c s a :
  wf_config c -> anchor_ok c a ->
  samples (step_anchor c s a) = keep_last (Window c) (samples a ++ [s]) /\
  anchor_ok c (step_anchor c s a) /\
  phase_of (step_anchor c s a) =
    phase_step c (verdict_of c (keep_last (Window c) (samples a ++ [s]))) (phase_of a).
Proof.
  intros Hc (Hl & Hp & _). unfold step_anchor.
  set (l := keep_last (Window c) (samples a ++ [s])).
  assert (len l = Z.min (Window c) (len (samples a) + 1)) as Hll by by apply window_grows.
  destruct Hc as [Hm Hw Hcw Hds Hrs].
  destruct (evaluate_phase c (set_samples l a) (smp_Time s)) as (He & Hle & Hph).
  { by split. } { apply set_samples_phase_ok; [done|lia]. }
  split; [by simpl; rewrite evaluate_samples|]. split; [|exact Hph].
  unfold anchor_ok; simpl. rewrite evaluate_samples; simpl. split_and!; [lia|exact He|exact Hle].
Qed.

(** ** Hysteresis *)

(** The verdicts [Add] computes for successive samples of one anchor, starting
    from the window [w]. *)
Fixpoint verdicts (c : EngineConfig) (w : list Sample) (l : list Sample) : list verdict :=
  match l with
  | [] => []
  | s :: l' =>
      let w := keep_last (Window c) (w ++ [s]) in
      verdict_of c w :: verdicts c w l'
  end.

Definition run_anchor (c : EngineConfig) (a : anchorState) (l : list Sample) : anchorState :=
  fold_left (fun a s => step_anchor c s a) l a.

Lemma run_anchor_ok c a l :
  wf_config c -> anchor_ok c a -> anchor_ok c (run_anchor c a l).
Proof.
  intros Hc. revert a; induction l as [|s l IH]; intros a Ha; simpl; [done|].
  apply IH. by apply step_anchor_phase.
Qed.

(** The engine's run of an anchor is the abstract run on its verdicts. *)
Lemma run_anchor_phase c a l :
  wf_config c -> anchor_ok c a ->
  phase_of (run_anchor c a l) =
    fold_left (fun p v => phase_step c v p) (verdicts c (samples a) l) (phase_of a).
Proof.
  intros Hc. revert a; induction l as [|s l IH]; intros a Ha; simpl; [done|].
  destruct (step_anchor_phase c s a Hc Ha) as (Hs & Hok & Hp).
  unfold run_anchor in *; simpl. rewrite (IH _ Hok), Hs, Hp. done.
Qed.

Definition phase_run (c : EngineConfig) (p : phase) (vs : list verdict) : phase :=
  fold_left (fun p v => phase_step c v p) vs p.

(** [ends_with n P l]: the last [n] elements of [l] satisfy [P]. *)
Definition ends_with {A} (n : Z) (P : A -> Prop) (l : list A) : Prop :=
  exists l1 l2, l = l1 ++ l2 /\ len l2 = n /\ Forall P l2.

Lemma ends_with_snoc {A} (n : Z) (P : A -> Prop) l x :
  ends_with n P l -> P x -> ends_with (n + 1) P (l ++ [x]).
Proof.
  intros (l1 & l2 & -> & Hn & HP) Hx. exists l1, (l2 ++ [x]). split_and!.
  - by rewrite app_assoc.
  - rewrite len_app. unfold len; simpl. unfold len in Hn. lia.
  - apply Forall_app; split; [done|by constructor].
Qed.

Lemma ends_with_0 {A} (P : A -> Prop) l : ends_with 0 P l.
Proof. exists l, []. rewrite app_nil_r. split_and!; [done|done|constructor]. Qed.

(** [within n P l]: some [n] consecutive elements of [l] satisfy [P]. *)
Definition within {A} (n : Z) (P : A -> Prop) (l : list A) : Prop :=
  exists l1 l2 l3, l = l1 ++ l2 ++ l3 /\ len l2 = n /\ Forall P l2.

Lemma ends_within {A} n (P : A -> Prop) l : ends_with n P l -> within n P l.
Proof. intros (l1 & l2 & -> & H). exists l1, l2, []. by rewrite app_nil_r. Qed.

Lemma within_snoc {A} n (P : A -> Prop) l x : within n P l -> within n P (l ++ [x]).
Proof.
  intros (l1 & l2 & l3 & -> & H). exists l1, l2, (l3 ++ [x]). by rewrite <- !app_assoc.
Qed.

Definition bad_verdict (v : verdict) : Prop := v_enough v = true /\ v_bad v = true.
Definition good_verdict (v : verdict) : Prop := v_enough v = true /\ v_good v = true.

Ltac use_IH_phase IH :=
  match type of IH with context [phase_run ?c ?p ?l] => destruct (phase_run c p l) eqn:? end.

(** Degraded is reached only through a full streak of consecutive bad verdicts. *)
Lemma phase_run_degraded c p vs :
  wf_config c -> p = PLearning \/ p = POk 0 ->
  match phase_run c p vs with
  | PLearning => True
  | POk n => ends_with n bad_verdict vs
  | PDegraded _ => within (DegradeStreak c) bad_verdict vs
  end.
Proof.
  intros [_ _ _ Hds _] Hp. induction vs as [|v vs IH] using rev_ind.
  { destruct Hp as [->| ->]; simpl; [done|apply ends_with_0]. }
  unfold phase_run in *; rewrite fold_left_app; simpl.
  unfold phase_step. destruct (v_enough v) eqn:He; simpl; [|done].
  destruct (fold_left _ vs p) as [|n|g].
  - destruct (v_bad v) eqn:Hb; [|apply ends_with_0].
    case_test; bool_to_prop.
    + apply (ends_with_snoc 0); [apply ends_with_0|done].
    + apply ends_within. replace (DegradeStreak c) with (0 + 1) by lia.
      apply ends_with_snoc; [apply ends_with_0|done].
  - destruct (v_bad v) eqn:Hb; [|apply ends_with_0].
    case_test; bool_to_prop; [by apply ends_with_snoc|].
    destruct IH as (l1 & l2 & -> & Hn & HP).
    (* the trailing run is at least the streak: keep its end *)
    apply ends_within. exists (l1 ++ take (Z.to_nat (n + 1 - DegradeStreak c)) l2),
      (drop (Z.to_nat (n + 1 - DegradeStreak c)) l2 ++ [v]).
    split_and!.
    + rewrite <- !app_assoc, (app_assoc (take _ l2)), take_drop. done.
    + rewrite len_app. unfold len in *. rewrite length_drop. simpl. lia.
    + apply Forall_app; split; [by apply Forall_drop|by constructor].
  - destruct (v_good v); [|by apply within_snoc].
    case_test; [by apply within_snoc|apply ends_with_0].
Qed.

(** Leaving degraded takes a full streak of consecutive good verdicts (the
    window never shrinks, so it stays full). *)
Lemma phase_run_recovered c vs :
  wf_config c -> Forall (fun v => v_enough v = true) vs ->
  match phase_run c (PDegraded 0) vs with
  | PDegraded n => ends_with n good_verdict vs \/ within (RecoverStreak c) good_verdict vs
  | _ => within (RecoverStreak c) good_verdict vs
  end.
Proof.
  intros [_ _ _ _ Hrs]. induction vs as [|v vs IH] using rev_ind; intros Hv.
  { left; apply ends_with_0. }
  apply Forall_app in Hv as [Hv Hv1]. apply Forall_cons_1 in Hv1 as [He _]. specialize (IH Hv).
  unfold phase_run in *; rewrite fold_left_app; simpl.
  unfold phase_step. rewrite He; simpl.
  destruct (fold_left _ vs _) as [|n|g].
  - repeat case_test; try (by apply within_snoc). by right; apply within_snoc.
  - repeat case_test; try (by apply within_snoc). by right; apply within_snoc.
  - destruct (v_good v) eqn:Hg.
    + destruct IH as [IH|IH].
      * case_test; bool_to_prop; [left; by apply ends_with_snoc|].
        destruct IH as (l1 & l2 & -> & Hn & HP).
        apply ends_within. exists (l1 ++ take (Z.to_nat (g + 1 - RecoverStreak c)) l2),
          (drop (Z.to_nat (g + 1 - RecoverStreak c)) l2 ++ [v]).
        split_and!.
        -- rewrite <- !app_assoc, (app_assoc (take _ l2)), take_drop. done.
        -- rewrite len_app. unfold len in *. rewrite length_drop. simpl. lia.
        -- apply Forall_app; split; [by apply Forall_drop|by constructor].
      * case_test; [right|]; by apply within_snoc.
    + destruct IH as [IH|IH]; [left; apply ends_with_0|right; by apply within_snoc].
Qed.

(** ** The engine: invariant and frame *)

Definition baseline_ok (key name : string) (a : anchorState) : Prop :=
  bl_NetworkKey (baseline a) = key /\ bl_Anchor (baseline a) = name /\
  bl_State (baseline a) = state a /\ bl_SampleCount (baseline a) = len (samples a) /\
  bl_Since (baseline a) = since a.

(** A key's state is the one its anchors derive, and each anchor is in order
    with an up-to-date published baseline. *)
Definition key_ok (c : EngineConfig) (key : string) (ks : keyState) : Prop :=
  ks_state ks = deriveKeyState (ks_anchors ks) /\
  forall name a, ks_anchors ks !! name = Some a -> anchor_ok c a /\ baseline_ok key name a.

Definition engine_ok (e : Engine) : Prop :=
  wf_config (cfg e) /\ forall k ks, keys e !! k = Some ks -> key_ok (cfg e) k ks.

Lemma NewEngine_ok c : engine_ok (NewEngine c).
Proof. split; [apply withDefaults_wf|]. intros k ks H. simpl in H. by rewrite lookup_empty in H. Qed.

Lemma new_key_ok c k : key_ok c k new_key.
Proof. split; [done|]. intros n a H. simpl in H. by rewrite lookup_empty in H. Qed.

Lemma get_key_ok e k : engine_ok e -> key_ok (cfg e) k (get_key e k).
Proof.
  intros [Hc He]. unfold get_key. destruct (keys e !! k) eqn:Hk; simpl; [by apply He|apply new_key_ok].
Qed.

Lemma snapshot_fields c key name a t :
  bl_NetworkKey (snapshot c key name a t) = key /\ bl_Anchor (snapshot c key name a t) = name /\
  bl_State (snapshot c key name a t) = state a /\
  bl_SampleCount (snapshot c key name a t) = len (samples a) /\
  bl_Since (snapshot c key name a t) = since a.
Proof.
  unfold snapshot. destruct (samples a) eqn:Hs; [by split_and!|].
  unfold baselineStats, currentStats. by split_and!.
Qed.

Lemma step_anchor_baseline_ok c s a :
  baseline_ok (smp_NetworkKey s) (smp_Anchor s) (step_anchor c s a).
Proof.
  unfold step_anchor, baseline_ok; simpl.
  destruct (snapshot_fields c (smp_NetworkKey s) (smp_Anchor s)
    (evaluate c (set_samples (keep_last (Window c) (samples a ++ [s])) a) (smp_Time s))
    (smp_Time s)) as (H1 & H2 & H3 & H4 & H5).
  by rewrite H1, H2, H3, H4, H5.
Qed.

(** The anchor [n] of key [k], as the next sample at time [t] would find it. *)
Definition anchor_at (e : Engine) (k n : string) : option anchorState :=
  ks_anchors (get_key e k) !! n.

Lemma anchor_at_ok e k n t :
  engine_ok e -> anchor_ok (cfg e) (default (new_anchor t) (anchor_at e k n)).
Proof.
  intros He. destruct (anchor_at e k n) as [a|] eqn:Ha; simpl.
  - by apply (get_key_ok e k He) in Ha as [? _].
  - apply new_anchor_ok, He.
Qed.

(** [Add], unfolded once: the sampled anchor steps, the key's state is derived
    again, everything else is left alone. *)
Lemma Add_eq e s :
  smp_NetworkKey s <> "" -> smp_Anchor s <> "" ->
  let k := smp_NetworkKey s in
  let a := step_anchor (cfg e) s (default (new_anchor (smp_Time s)) (anchor_at e k (smp_Anchor s))) in
  let anchors := <[smp_Anchor s := a]> (ks_anchors (get_key e k)) in
  let r := settle k (mkKeyState (ks_state (get_key e k)) (ks_since (get_key e k)) anchors)
             (smp_Anchor s) a (smp_Time s) in
  Add e s = (put_key e k r.1, r.2).
Proof.
  intros Hk Hn. simpl. unfold Add, anchor_at.
  rewrite (seqb_ne _ _ Hk), (seqb_ne _ _ Hn); simpl.
  by destruct (settle _ _ _ _ _).
Qed.

Lemma settle_fields key ks n a t :
  ks_state (settle key ks n a t).1 = deriveKeyState (ks_anchors ks) /\
  ks_anchors (settle key ks n a t).1 = ks_anchors ks.
Proof.
  unfold settle. destruct (deriveKeyState (ks_anchors ks) =?s ks_state ks) eqn:Hd;
    bool_to_prop; simpl; by rewrite ?Hd.
Qed.

Lemma put_key_lookup e k ks : keys (put_key e k ks) !! k = Some ks.
Proof. apply lookup_insert_eq. Qed.

Lemma put_key_ok e k ks : engine_ok e -> key_ok (cfg e) k ks -> engine_ok (put_key e k ks).
Proof.
  intros [Hc He] Hks. split; [done|]. intros k' ks'. simpl.
  rewrite lookup_insert. case_decide as Hkk; [|by apply He].
  intros [= <-]. by subst.
Qed.

Lemma Add_ok e s : engine_ok e -> engine_ok (Add e s).1.
Proof.
  intros He. destruct (decide (smp_NetworkKey s = "")) as [Hk|Hk].
  { unfold Add. by rewrite Hk. }
  destruct (decide (smp_Anchor s = "")) as [Hn|Hn].
  { unfold Add. rewrite Hn. by rewrite orb_true_r. }
  rewrite (Add_eq e s Hk Hn); simpl. apply put_key_ok; [done|].
  pose proof (get_key_ok e (smp_NetworkKey s) He) as [_ Hks].
  match goal with |- key_ok _ _ (settle ?k ?ks ?n ?a ?t).1 =>
    destruct (settle_fields k ks n a t) as [Hst Han] end.
  split; [by rewrite Hst, Han|]. rewrite Han. simpl. intros name a'.
  rewrite lookup_insert. case_decide as Hnn; [|apply Hks].
  intros [= <-]. subst name. split; [|apply step_anchor_baseline_ok].
  apply step_anchor_phase; [apply He|by apply anchor_at_ok].
Qed.

Lemma Add_cfg e s : cfg (Add e s).1 = cfg e.
Proof. unfold Add. case_test; [done|]. by destruct (settle _ _ _ _ _). Qed.

Lemma get_key_put e k k' ks :
  get_key (put_key e k ks) k' = if decide (k = k') then ks else get_key e k'.
Proof. unfold get_key; simpl. rewrite lookup_insert. by case_decide. Qed.

Lemma anchor_at_new c k n : anchor_at (NewEngine c) k n = None.
Proof. unfold anchor_at, get_key; simpl. rewrite lookup_empty; simpl. apply lookup_empty. Qed.

(** Only the sampled anchor of the sampled key changes. *)
Lemma Add_anchor_at e s k n :
  anchor_at (Add e s).1 k n =
    if decide (smp_NetworkKey s = k /\ smp_Anchor s = n /\ k <> "" /\ n <> "")
    then Some (step_anchor (cfg e) s (default (new_anchor (smp_Time s)) (anchor_at e k n)))
    else anchor_at e k n.
Proof.
  destruct (decide (smp_NetworkKey s = "")) as [Hk|Hk].
  { unfold Add. rewrite Hk; simpl. by rewrite decide_False by (intros (? & ? & ? & ?); congruence). }
  destruct (decide (smp_Anchor s = "")) as [Hn|Hn].
  { unfold Add. rewrite Hn, orb_true_r; simpl. by rewrite decide_False by (intros (? & ? & ? & ?); congruence). }
  rewrite (Add_eq e s Hk Hn). cbn zeta. simpl fst.
  unfold anchor_at at 1. rewrite get_key_put.
  destruct (decide (smp_NetworkKey s = k)) as [<-|Hkk].
  - match goal with |- context [(settle ?k ?ks ?n ?a ?t).1] =>
      destruct (settle_fields k ks n a t) as [_ ->] end. simpl.
    rewrite lookup_insert. destruct (decide (smp_Anchor s = n)) as [<-|Hnn].
    + by rewrite decide_True by done.
    + by rewrite decide_False by (intros (? & ? & ? & ?); congruence).
  - by rewrite decide_False by (intros (? & ? & ? & ?); congruence).
Qed.

(** *** Transitions *)

(** The edges of a key's state machine. *)
Inductive key_edge : BaselineState -> BaselineState -> Prop :=
| edge_start to_ : to_ <> BaselineIdle -> key_edge BaselineIdle to_
| edge_learned : key_edge BaselineLearning BaselineOK
| edge_learned_bad : key_edge BaselineLearning BaselineDegraded
| edge_degraded : key_edge BaselineOK BaselineDegraded
| edge_recovered : key_edge BaselineDegraded BaselineOK.

Lemma state_phase c a :
  anchor_ok c a -> state a = BaselineLearning \/ state a = BaselineOK \/ state a = BaselineDegraded.
Proof. intros (_ & [(H & _)|[(H & _)|(H & _)]] & _); auto. Qed.

(** An anchor that has learned never unlearns. *)
Lemma step_anchor_learned c s a :
  wf_config c -> anchor_ok c a -> state a <> BaselineLearning ->
  state (step_anchor c s a) <> BaselineLearning.
Proof.
  intros Hc Ha Hn Hl. destruct (step_anchor_phase c s a Hc Ha) as (Hs & (_ & _ & Hlt) & _).
  specialize (Hlt Hl). rewrite Hs, window_grows in Hlt by (done || apply Ha).
  destruct Hc as [Hm Hw _ _ _]. destruct Ha as (Hle & [(? & _)|[(_ & ? & _)|(_ & ? & _)]] & _);
    [done|lia|lia].
Qed.

Lemma deriveKeyState_insert_edge c m n a0 a :
  wf_config c ->
  (forall n' a', m !! n' = Some a' -> anchor_ok c a') ->
  m !! n = a0 ->
  (forall a', a0 = Some a' -> state a' <> BaselineLearning -> state a <> BaselineLearning) ->
  deriveKeyState (<[n := a]> m) <> deriveKeyState m ->
  key_edge (deriveKeyState m) (deriveKeyState (<[n := a]> m)).
Proof.
  intros Hc Hm Ha0 Hlearn Hne.
  pose proof (deriveKeyState_derived m) as Hd.
  pose proof (deriveKeyState_derived (<[n := a]> m)) as Hd'.
  assert (<[n := a]> m <> ∅) as Hnonempty by apply insert_non_empty.
  (* all learning afterwards: all learning before *)
  assert (all_learning (<[n := a]> m) -> all_learning m) as Hback.
  { intros Hall n' a' Hn'. destruct (decide (n = n')) as [<-|Hnn].
    - destruct (state_phase c a' (Hm _ _ Hn')) as [H|H]; [done|].
      exfalso. apply (Hlearn a'); [congruence|destruct H as [->| ->]; done|].
      apply (Hall n). apply lookup_insert_eq.
    - apply (Hall n'). by rewrite lookup_insert_ne. }
  destruct Hd as [H|H|H1 H2 H3|H1 H2 H3], Hd' as [K|K|K1 K2 K3|K1 K2 K3];
    try done; try constructor; try done.
  - exfalso. destruct H as (n' & a' & Hn' & _ & Hd). specialize (Hback K3 _ _ Hn'). by rewrite Hd in Hback.
  - exfalso. apply H3. auto.
Qed.

Lemma Add_transitions e s :
  engine_ok e ->
  match (Add e s).2 with
  | [] => forall k, State (Add e s).1 k = State e k
  | [tr] =>
      tr_NetworkKey tr = smp_NetworkKey s /\ tr_At tr = smp_Time s /\
      tr_From tr = (State e (tr_NetworkKey tr)).1 /\
      State (Add e s).1 (tr_NetworkKey tr) = (tr_To tr, tr_At tr) /\
      key_edge (tr_From tr) (tr_To tr) /\
      (forall k, k <> tr_NetworkKey tr -> State (Add e s).1 k = State e k)
  | _ => False
  end.
Proof.
  intros He. destruct (decide (smp_NetworkKey s = "")) as [Hk|Hk].
  { unfold Add. by rewrite Hk. }
  destruct (decide (smp_Anchor s = "")) as [Hn|Hn].
  { unfold Add. by rewrite Hn, orb_true_r. }
  rewrite (Add_eq e s Hk Hn). cbn zeta.
  set (k := smp_NetworkKey s). set (a := step_anchor _ _ _).
  destruct (get_key_ok e k He) as [Hst Hanch].
  assert ((State e k).1 = ks_state (get_key e k)) as HS.
  { unfold State, get_key. by destruct (keys e !! k). }
  unfold settle; simpl.
  destruct (deriveKeyState (<[smp_Anchor s := a]> (ks_anchors (get_key e k))) =?s ks_state (get_key e k))
    eqn:Hd; bool_to_prop; simpl.
  - intros k'. unfold State; simpl. rewrite lookup_insert. case_decide as Hkk; [|done].
    subst k'. unfold get_key. destruct (keys e !! k); done.
  - split_and!; [done|done|by rewrite HS| | |].
    + unfold State; simpl. by rewrite lookup_insert_eq.
    + rewrite Hst in Hd |- *.
      eapply (deriveKeyState_insert_edge (cfg e)); [apply He| |reflexivity| |done].
      * intros n' a' Hn'. by apply (Hanch n').
      * intros a' Ha' Hl. unfold a, anchor_at. rewrite Ha'; simpl.
        apply step_anchor_learned; [apply He| |done]. by apply (Hanch (smp_Anchor s)).
    + intros k' Hk'. unfold State; simpl. by rewrite lookup_insert_ne.
Qed.

(** *** Runs of the engine *)

Fixpoint Adds (e : Engine) (l : list Sample) : Engine * list Transition :=
  match l with
  | [] => (e, [])
  | s :: l' =>
      let '(e, t1) := Add e s in
      let '(e, t2) := Adds e l' in
      (e, t1 ++ t2)
  end.

Lemma Adds_cons e s l :
  Adds e (s :: l) = ((Adds (Add e s).1 l).1, (Add e s).2 ++ (Adds (Add e s).1 l).2).
Proof. simpl. destruct (Add e s) as [e' t1]; simpl. by destruct (Adds e' l). Qed.

Lemma Adds_ok e l : engine_ok e -> engine_ok (Adds e l).1.
Proof.
  revert e; induction l as [|s l IH]; intros e He; [done|].
  rewrite Adds_cons; simpl. apply IH, Add_ok, He.
Qed.

Lemma Adds_cfg e l : cfg (Adds e l).1 = cfg e.
Proof.
  revert e; induction l as [|s l IH]; intros e; [done|].
  rewrite Adds_cons; simpl. by rewrite IH, Add_cfg.
Qed.

Definition for_anchor (k n : string) (s : Sample) : bool :=
  (smp_NetworkKey s =?s k) && (smp_Anchor s =?s n) && negb (k =?s "") && negb (n =?s "").

Lemma for_anchor_spec k n s :
  for_anchor k n s = true <-> smp_NetworkKey s = k /\ smp_Anchor s = n /\ k <> "" /\ n <> "".
Proof.
  unfold for_anchor. split.
  - intros H. bool_to_prop. done.
  - intros (<- & <- & H1 & H2). by rewrite !seqb_refl, (seqb_ne _ _ H1), (seqb_ne _ _ H2).
Qed.

(** An anchor's state after a run depends only on its own samples. *)
Lemma Adds_anchor_at e l k n :
  anchor_at (Adds e l).1 k n =
    match List.filter (for_anchor k n) l with
    | [] => anchor_at e k n
    | (s :: _) as l' => Some (run_anchor (cfg e) (default (new_anchor (smp_Time s)) (anchor_at e k n)) l')
    end.
Proof.
  revert e; induction l as [|s l IH]; intros e; [done|].
  rewrite Adds_cons. simpl fst. rewrite IH, Add_cfg, Add_anchor_at. simpl.
  destruct (for_anchor k n s) eqn:Hf.
  - rewrite decide_True by by apply for_anchor_spec.
    by destruct (List.filter (for_anchor k n) l).
  - rewrite decide_False; [done|]. intros H. apply for_anchor_spec in H. congruence.
Qed.

Lemma phase_degraded c a :
  anchor_ok c a -> state a = BaselineDegraded -> phase_of a = PDegraded (goodStreak a).
Proof. intros _ H. rewrite phase_of_state, H. done. Qed.

Lemma verdicts_enough c w l :
  wf_config c -> MinSamples c <= len w <= Window c ->
  Forall (fun v => v_enough v = true) (verdicts c w l).
Proof.
  intros Hc. revert w; induction l as [|s l IH]; intros w Hw; simpl; [constructor|].
  assert (len (keep_last (Window c) (w ++ [s])) = Z.min (Window c) (len w + 1)) as Hl.
  { destruct Hc. rewrite keep_last_length by lia. by rewrite len_app. }
  destruct Hc as [Hm Hwin Hcw Hds Hrs].
  constructor; [|apply IH; lia].
  unfold verdict_of; simpl. apply Z.leb_le. lia.
Qed.

(** ** Properties *)

(** A small configuration and series for the concrete examples: three bad
    rounds after a quiet start, then ten quiet ones. *)
Definition demo_config : EngineConfig :=
  mkEngineConfig 30 4 1 f_zero f_zero f_zero f_zero 3 f_zero f_zero 2.
Definition demo_sample (t rtt : Z) : Sample :=
  mkSample t "wifi:Home" "1.1.1.1" "1.1.1.1" (f_of_Z rtt) f_zero f_minus_one "icmp".
Definition demo_series : list Sample :=
  map (fun p => demo_sample p.1 p.2)
    [(1, 10); (2, 10); (3, 10); (4, 10); (5, 10); (6, 90); (7, 90); (8, 90)].

(** Recovery has hysteresis too: once an anchor is degraded (its good streak at
    zero, as it is on entry and after a restart), no sequence of its samples
    takes it out of degraded without [RecoverStreak] consecutive good verdicts. *)
Theorem recovery_needs_streak e l k n a :
  engine_ok e -> anchor_at e k n = Some a ->
  state a = BaselineDegraded -> goodStreak a = 0 ->
  (exists a', anchor_at (Adds e l).1 k n = Some a' /\ state a' <> BaselineDegraded) ->
  within (RecoverStreak (cfg e)) good_verdict
    (verdicts (cfg e) (samples a) (List.filter (for_anchor k n) l)).
Proof.
  intros He Ha Hd Hg (a' & Ha' & Hne). destruct (He) as [Hc _].
  pose proof (anchor_at_ok e k n 0 He) as Hok. rewrite Ha in Hok; simpl in Hok.
  rewrite Adds_anchor_at, Ha in Ha'.
  set (l' := List.filter (for_anchor k n) l) in *.
  assert (a' = run_anchor (cfg e) a l') as ->.
  { destruct l'; by injection Ha' as <-. }
  pose proof (run_anchor_phase (cfg e) a l' Hc Hok) as Hp.
  rewrite (phase_degraded (cfg e) a Hok Hd), Hg in Hp.
  pose proof (phase_run_recovered (cfg e) (verdicts (cfg e) (samples a) l') Hc) as Hr.
  unfold phase_run in Hr. rewrite <- Hp, phase_of_state in Hr.
  assert (Forall (fun v => v_enough v = true) (verdicts (cfg e) (samples a) l')) as Hen.
  { apply verdicts_enough; [done|]. destruct Hok as (Hl & [(H & _)|[(H & _)|(_ & Hm & _)]] & _).
    - by rewrite H in Hd. - by rewrite H in Hd. - lia. }
  specialize (Hr Hen). rewrite (seqb_ne _ _ Hne) in Hr.
  by destruct (state _ =?s BaselineLearning).
Qed.

Definition demo_recovery : list Sample :=
  map (fun p => demo_sample p.1 p.2) [(9, 10); (10, 10); (11, 10)].

Lemma recovery_needs_streak_witness :
  let e := (Adds (NewEngine demo_config) demo_series).1 in
  exists a, within (RecoverStreak (cfg e)) good_verdict
    (verdicts (cfg e) (samples a) (List.filter (for_anchor "wifi:Home" "1.1.1.1") demo_recovery)).
Proof.
  intros e. eexists. apply (recovery_needs_streak e demo_recovery "wifi:Home" "1.1.1.1").
  - apply Adds_ok, NewEngine_ok.
  - vm_compute; reflexivity.
  - vm_compute; reflexivity.
  - vm_compute; reflexivity.
  - eexists. split; [vm_compute; reflexivity|]. vm_compute. discriminate.
Defined.

(** C2: [Add] implements the abstract hysteresis machine: the sampled anchor's
    window slides by one sample, its phase makes exactly one abstract step on
    the new window's verdict, and no other anchor of any key changes. *)
Theorem Add_refines_phase_machine e s k n :
  engine_ok e -> k <> "" -> n <> "" ->
  let old := default (new_anchor (smp_Time s)) (anchor_at e k n) in
  if decide (smp_NetworkKey s = k /\ smp_Anchor s = n) then
    exists a, anchor_at (Add e s).1 k n = Some a /\
      samples a = keep_last (Window (cfg e)) (samples old ++ [s]) /\
      phase_of a = phase_step (cfg e) (verdict_of (cfg e) (samples a)) (phase_of old) /\
      anchor_ok (cfg e) a
  else anchor_at (Add e s).1 k n = anchor_at e k n.
Proof.
  intros He Hk Hn old. rewrite Add_anchor_at. case_decide as H.
  - rewrite decide_True by (by destruct H as [? ?]). eexists; split; [reflexivity|].
    pose proof (anchor_at_ok e k n (smp_Time s) He) as Hok. fold old in Hok |- *.
    destruct (step_anchor_phase (cfg e) s old (proj1 He) Hok) as (H1 & H2 & H3).
    rewrite H1. done.
  - rewrite decide_False; [done|]. intros (? & ? & _). by apply H.
Qed.

Lemma Add_refines_phase_machine_witness :
  let e := (Adds (NewEngine demo_config) demo_series).1 in
  let s := demo_sample 9 10 in
  exists a, anchor_at (Add e s).1 "wifi:Home" "1.1.1.1" = Some a /\ phase_of a = PDegraded 1.
Proof.
  intros e s.
  pose proof (Add_refines_phase_machine e s "wifi:Home" "1.1.1.1"
    ltac:(apply Adds_ok, NewEngine_ok) ltac:(done) ltac:(done)) as H.
  simpl in H. destruct H as (a & Ha & _). exists a. split; [exact Ha|].
  vm_compute in Ha. injection Ha as <-. vm_compute. reflexivity.
Defined.

(** C3: What a transition says is true: there is at most one per sample; it starts
    from the state the key had and ends in the state it has now, along an edge
    idle -> {learning, ok, degraded}, learning -> {ok, degraded}, ok -> degraded
    or degraded -> ok; without a transition no key's state changes, and a
    transition changes only its own key. *)
Theorem Add_transition_sound e s :
  engine_ok e ->
  engine_ok (Add e s).1 /\
  match (Add e s).2 with
  | [] => forall k, State (Add e s).1 k = State e k
  | [tr] =>
      tr_NetworkKey tr = smp_NetworkKey s /\ tr_At tr = smp_Time s /\
      tr_From tr = (State e (tr_NetworkKey tr)).1 /\
      State (Add e s).1 (tr_NetworkKey tr) = (tr_To tr, tr_At tr) /\
      key_edge (tr_From tr) (tr_To tr) /\
      (forall k, k <> tr_NetworkKey tr -> State (Add e s).1 k = State e k)
  | _ => False
  end.
Proof. intros He. split; [by apply Add_ok|by apply Add_transitions]. Qed.

Lemma Add_transition_sound_witness :
  let e := (Adds (NewEngine demo_config) (take 7 demo_series)).1 in
  exists tr, (Add e (demo_sample 8 90)).2 = [tr] /\ tr_To tr = BaselineDegraded /\
    key_edge (tr_From tr) (tr_To tr).
Proof.
  intros e. pose proof (Add_transition_sound e (demo_sample 8 90)
    ltac:(apply Adds_ok, NewEngine_ok)) as [_ H].
  assert (exists tr, (Add e (demo_sample 8 90)).2 = [tr] /\ tr_To tr = BaselineDegraded)
    as (tr & Htr & Hto) by (eexists; split; vm_compute; reflexivity).
  exists tr. rewrite Htr in H. destruct H as (_ & _ & _ & _ & H & _). split; [exact Htr|split; [exact Hto|exact H]].
Defined.

(** *** Which anchor decides *)

Lemma evaluate_reason c a t :
  wf_config c -> state a <> BaselineDegraded -> state (evaluate c a t) = BaselineDegraded ->
  lastReason (evaluate c a t) =
    if loss_bad c (samples a) && negb (rtt_bad c (samples a)) then ReasonLoss else ReasonRTT.
Proof.
  intros [_ _ _ Hds _] Hn. unfold evaluate, evaluate_ok, evaluate_degraded.
  destruct (rtt_bad c (samples a)), (loss_bad c (samples a)); simpl;
    repeat (case_test; simpl); bool_to_prop; intros; simplify_eq; try done; try congruence; try lia;
    exfalso; bool_to_prop; try lia; try congruence.
Qed.

Lemma step_anchor_reason c s a :
  wf_config c -> state a <> BaselineDegraded ->
  state (step_anchor c s a) = BaselineDegraded ->
  let l := keep_last (Window c) (samples a ++ [s]) in
  lastReason (step_anchor c s a) =
    if loss_bad c l && negb (rtt_bad c l) then ReasonLoss else ReasonRTT.
Proof. intros Hc Hn Hd. by apply evaluate_reason. Qed.

Lemma derive_degraded m :
  deriveKeyState m = BaselineDegraded <-> has_public_degraded m.
Proof.
  pose proof (deriveKeyState_derived m) as Hd. split.
  - intros H. rewrite H in Hd. by inversion Hd.
  - intros H. destruct Hd as [->|?|? ? ?|? ? ?]; try done.
    destruct H as (n & a & Hn & _). by rewrite lookup_empty in Hn.
Qed.

(** A key enters or leaves degraded only through the sampled anchor, which is
    public and itself enters or leaves degraded. *)
Lemma degraded_insert_enter m n a :
  has_public_degraded (<[n := a]> m) -> ~ has_public_degraded m ->
  n <> GatewayAnchor /\ state a = BaselineDegraded /\
  (forall a', m !! n = Some a' -> state a' <> BaselineDegraded).
Proof.
  intros (n' & a' & Hn' & Hg & Hd) Hno. rewrite lookup_insert in Hn'. case_decide as Hnn.
  - injection Hn' as <-. subst n'. split_and!; [done|done|].
    intros a' Ha' Hd'. apply Hno. by exists n, a'.
  - exfalso. apply Hno. by exists n', a'.
Qed.

Lemma degraded_insert_leave m n a :
  has_public_degraded m -> ~ has_public_degraded (<[n := a]> m) ->
  n <> GatewayAnchor /\ state a <> BaselineDegraded /\
  exists a', m !! n = Some a' /\ state a' = BaselineDegraded.
Proof.
  intros (n' & a' & Hn' & Hg & Hd) Hno. destruct (decide (n = n')) as [<-|Hnn].
  - split_and!; [done| |by exists a'].
    intros Hda. apply Hno. exists n, a. by rewrite lookup_insert_eq.
  - exfalso. apply Hno. exists n', a'. by rewrite lookup_insert_ne.
Qed.

(** The shape of the transition [Add] reports, when it reports one. *)
Lemma Add_transition_inv e s tr :
  engine_ok e -> In tr (Add e s).2 ->
  let k := smp_NetworkKey s in
  let old := anchor_at e k (smp_Anchor s) in
  let a := step_anchor (cfg e) s (default (new_anchor (smp_Time s)) old) in
  let m := ks_anchors (get_key e k) in
  k <> "" /\ smp_Anchor s <> "" /\
  anchor_at (Add e s).1 k (smp_Anchor s) = Some a /\
  tr_From tr = deriveKeyState m /\ tr_To tr = deriveKeyState (<[smp_Anchor s := a]> m) /\
  (tr_To tr = BaselineDegraded \/ tr_From tr = BaselineDegraded ->
   tr_Anchor tr = smp_Anchor s /\ tr_Baseline tr = baseline a) /\
  (tr_To tr = BaselineDegraded -> tr_Reason tr = lastReason a) /\
  tr_From tr <> tr_To tr.
Proof.
  intros He Hin. cbn zeta. destruct (decide (smp_NetworkKey s = "")) as [Hk|Hk].
  { unfold Add in Hin. by rewrite Hk in Hin. }
  destruct (decide (smp_Anchor s = "")) as [Hn|Hn].
  { unfold Add in Hin. by rewrite Hn, orb_true_r in Hin. }
  pose proof (Add_anchor_at e s (smp_NetworkKey s) (smp_Anchor s)) as Han.
  rewrite decide_True in Han by done.
  rewrite (Add_eq e s Hk Hn) in Hin. cbn zeta in Hin.
  destruct (get_key_ok e (smp_NetworkKey s) He) as [Hst _].
  unfold settle in Hin; simpl in Hin.
  match type of Hin with context [if ?x =?s ?y then _ else _] => destruct (x =?s y) eqn:Hd end;
    bool_to_prop; simpl in Hin; [done|].
  destruct Hin as [<-|[]]. simpl. split_and!; try done.
  - intros [H|H]; rewrite H; simpl; [done|]. by rewrite orb_true_r.
  - intros H. by rewrite H.
Qed.

(** Attribution: a transition to degraded names the sampled anchor, which is a
    public one that has just become degraded itself; the snapshot carried is
    that anchor's, and the reason is "loss" exactly when only the loss rule
    fired on its window, "rtt" otherwise. *)
Theorem degraded_transition_attribution e s tr :
  engine_ok e -> In tr (Add e s).2 -> tr_To tr = BaselineDegraded ->
  let old := default (new_anchor (smp_Time s)) (anchor_at e (smp_NetworkKey s) (smp_Anchor s)) in
  let w := keep_last (Window (cfg e)) (samples old ++ [s]) in
  tr_Anchor tr = smp_Anchor s /\ smp_Anchor s <> GatewayAnchor /\
  state old <> BaselineDegraded /\
  (exists a, anchor_at (Add e s).1 (smp_NetworkKey s) (smp_Anchor s) = Some a /\
     state a = BaselineDegraded /\ tr_Baseline tr = baseline a) /\
  bl_Anchor (tr_Baseline tr) = tr_Anchor tr /\ bl_State (tr_Baseline tr) = BaselineDegraded /\
  tr_Reason tr =
    (if loss_bad (cfg e) w && negb (rtt_bad (cfg e) w) then ReasonLoss else ReasonRTT).
Proof.
  intros He Hin Hto. cbn zeta.
  destruct (Add_transition_inv e s tr He Hin) as (_ & _ & Ha & Hf & Ht & Hinv & Hr & Hne).
  destruct (Hinv (or_introl Hto)) as [Htan Hbl]. specialize (Hr Hto).
  set (old := default _ (anchor_at e _ _)) in *. set (a := step_anchor (cfg e) s old) in *.
  rewrite Ht in Hto. apply derive_degraded in Hto.
  destruct (degraded_insert_enter _ _ _ Hto) as (Hg & Hda & Hold).
  { intros H. apply derive_degraded in H, Hto. by rewrite Hf, Ht, H, Hto in Hne. }
  assert (state old <> BaselineDegraded) as Hod.
  { unfold old, anchor_at. destruct (_ !! smp_Anchor s) eqn:Hl; simpl; [by apply Hold|done]. }
  destruct (step_anchor_baseline_ok (cfg e) s old) as (_ & Hb2 & Hb3 & _).
  split_and!; try done.
  - by exists a.
  - by rewrite Hbl, Htan.
  - rewrite Hbl. etransitivity; [exact Hb3|exact Hda].
  - rewrite Hr. by apply step_anchor_reason; [apply He| |].
Qed.

Lemma degraded_transition_attribution_witness :
  let e := (Adds (NewEngine demo_config) (take 7 demo_series)).1 in
  exists tr, In tr (Add e (demo_sample 8 90)).2 /\ tr_Anchor tr = "1.1.1.1" /\
    "1.1.1.1" <> GatewayAnchor.
Proof.
  intros e. assert (exists tr, In tr (Add e (demo_sample 8 90)).2 /\ tr_To tr = BaselineDegraded)
    as (tr & Hin & Hto) by (eexists; split; [vm_compute; left; reflexivity|vm_compute; reflexivity]).
  exists tr. destruct (degraded_transition_attribution e (demo_sample 8 90) tr
    ltac:(apply Adds_ok, NewEngine_ok) Hin Hto) as (H1 & H2 & _).
  split; [exact Hin|split; [exact H1|exact H2]].
Defined.

(** The gateway alone never decides: a sample of the gateway anchor causes no
    transition into or out of degraded. *)
Theorem gateway_never_decides e s tr :
  engine_ok e -> smp_Anchor s = GatewayAnchor -> In tr (Add e s).2 ->
  tr_To tr <> BaselineDegraded /\ tr_From tr <> BaselineDegraded.
Proof.
  intros He Hg Hin.
  destruct (Add_transition_inv e s tr He Hin) as (_ & _ & _ & Hf & Ht & _ & _ & Hne).
  split; intros Hd.
  - rewrite Ht in Hd. apply derive_degraded in Hd.
    destruct (degraded_insert_enter _ _ _ Hd) as (? & _); [|done].
    intros H. apply derive_degraded in H, Hd. by rewrite Hf, Ht, H, Hd in Hne.
  - rewrite Hf in Hd. apply derive_degraded in Hd.
    destruct (degraded_insert_leave _ (smp_Anchor s)
      (step_anchor (cfg e) s (default (new_anchor (smp_Time s)) (anchor_at e (smp_NetworkKey s) (smp_Anchor s))))
      Hd) as (? & _); [|done].
    intros H. apply derive_degraded in H, Hd. by rewrite Hf, Ht, H, Hd in Hne.
Qed.

Lemma gateway_never_decides_witness :
  let s := mkSample 1 "wifi:Home" GatewayAnchor "192.168.1.1" (f_of_Z 3) f_zero f_minus_one "icmp" in
  exists tr, In tr (Add (NewEngine demo_config) s).2 /\
    tr_To tr <> BaselineDegraded /\ tr_From tr <> BaselineDegraded.
Proof.
  intros s. eexists. split; [vm_compute; left; reflexivity|].
  apply (gateway_never_decides (NewEngine demo_config) s); [apply NewEngine_ok|reflexivity|].
  vm_compute. left; reflexivity.
Defined.

(** *** The published list does not depend on map order *)

Lemma baseline_le_eq x y :
  baseline_le x y =
    if Bool.eqb (bl_Anchor x =?s GatewayAnchor) (bl_Anchor y =?s GatewayAnchor)
    then String.leb (bl_Anchor x) (bl_Anchor y) else bl_Anchor x =?s GatewayAnchor.
Proof.
  unfold baseline_le, baseline_less. rewrite string_leb_ltb.
  destruct (bl_Anchor x =?s GatewayAnchor), (bl_Anchor y =?s GatewayAnchor); done.
Qed.

Lemma baseline_le_total x y : baseline_le x y = true \/ baseline_le y x = true.
Proof.
  rewrite !baseline_le_eq.
  destruct (bl_Anchor x =?s GatewayAnchor), (bl_Anchor y =?s GatewayAnchor); simpl; auto;
    apply String.leb_total.
Qed.

Lemma baseline_le_trans x y z :
  baseline_le x y = true -> baseline_le y z = true -> baseline_le x z = true.
Proof.
  rewrite !baseline_le_eq.
  destruct (bl_Anchor x =?s GatewayAnchor), (bl_Anchor y =?s GatewayAnchor),
    (bl_Anchor z =?s GatewayAnchor); simpl; try done; apply string_leb_trans.
Qed.

Lemma baseline_le_antisym x y :
  baseline_le x y = true -> baseline_le y x = true -> bl_Anchor x = bl_Anchor y.
Proof.
  rewrite !baseline_le_eq.
  destruct (bl_Anchor x =?s GatewayAnchor), (bl_Anchor y =?s GatewayAnchor); simpl; try done;
    apply String.leb_antisym.
Qed.

(** Go ranges over maps in an unspecified order; nothing the engine reports
    depends on it.  Whatever the order [l] of a key's anchors, the derived
    state is the same, and the published baselines are the same list: one per
    anchor, each that anchor's own, gateway first and then by name. *)
Theorem map_order_irrelevant e k ks l :
  engine_ok e -> keys e !! k = Some ks -> l ≡ₚ map_to_list (ks_anchors ks) ->
  deriveKeyState_loop true l = deriveKeyState_loop true (map_to_list (ks_anchors ks)) /\
  isort baseline_le (map (fun p => baseline p.2) l) = Baselines e k /\
  StronglySorted (fun x y => baseline_le x y = true) (Baselines e k) /\
  (forall b, b ∈ Baselines e k <->
     exists a, anchor_at e k (bl_Anchor b) = Some a /\ baseline a = b).
Proof.
  intros [Hc He] Hk Hl. destruct (He k ks Hk) as [_ Hks].
  split; [by apply deriveKeyState_loop_perm|].
  unfold Baselines. rewrite Hk. split; [|split].
  - apply isort_perm_unique; [apply baseline_le_total|apply baseline_le_trans| |by apply Permutation_map].
    intros x y Hx Hy Hxy Hyx.
    pose proof (baseline_le_antisym x y Hxy Hyx) as Han.
    apply list_elem_of_fmap in Hx as ([n1 a1] & -> & Hx). apply list_elem_of_fmap in Hy as ([n2 a2] & -> & Hy).
    rewrite Hl in Hx, Hy. apply elem_of_map_to_list in Hx, Hy. simpl in *.
    destruct (Hks _ _ Hx) as [_ (_ & H1 & _)]. destruct (Hks _ _ Hy) as [_ (_ & H2 & _)].
    rewrite H1, H2 in Han. subst. by simplify_map_eq.
  - apply isort_sorted; [apply baseline_le_total|apply baseline_le_trans].
  - intros b. rewrite isort_elem. unfold anchor_at, get_key. rewrite Hk; simpl. split.
    + intros Hb. apply list_elem_of_fmap in Hb as ([n a] & -> & Hb).
      apply elem_of_map_to_list in Hb. simpl. destruct (Hks _ _ Hb) as [_ (_ & H1 & _)].
      exists a. by rewrite H1.
    + intros (a & Ha & <-). apply list_elem_of_fmap. exists (bl_Anchor (baseline a), a).
      split; [done|]. by apply elem_of_map_to_list.
Qed.

Lemma map_order_irrelevant_witness :
  let s2 := mkSample 2 "wifi:Home" GatewayAnchor "192.168.1.1" (f_of_Z 3) f_zero f_minus_one "icmp" in
  let e := (Adds (NewEngine demo_config) [demo_sample 1 10; s2]).1 in
  exists ks, keys e !! "wifi:Home" = Some ks /\
    isort baseline_le (map (fun p => baseline p.2) (rev (map_to_list (ks_anchors ks)))) =
      Baselines e "wifi:Home" /\
    map bl_Anchor (Baselines e "wifi:Home") = [GatewayAnchor; "1.1.1.1"].
Proof.
  intros s2 e. eexists. split; [vm_compute; reflexivity|]. split; [|vm_compute; reflexivity].
  eapply (map_order_irrelevant e "wifi:Home"); [apply Adds_ok, NewEngine_ok|vm_compute; reflexivity|].
  apply Permutation_sym, Permutation_rev.
Defined.

(** ** Warm start: [Load] *)

Definition known_state (st : BaselineState) : Prop :=
  st ∈ [""; BaselineLearning; BaselineOK; BaselineDegraded; BaselineIdle].

(** An anchor while [Load] collects its samples: no streak, a known state. *)
Definition loading_anchor (a : anchorState) : Prop :=
  badStreak a = 0 /\ goodStreak a = 0 /\ known_state (state a).

Lemma load_state_cases c st n :
  known_state st ->
  (load_state c st n = BaselineLearning /\ n < MinSamples c) \/
  (load_state c st n = BaselineDegraded /\ MinSamples c <= n /\ st = BaselineDegraded) \/
  (load_state c st n = BaselineOK /\ MinSamples c <= n /\ st <> BaselineDegraded).
Proof.
  intros Hst. unfold load_state.
  destruct (n <? MinSamples c) eqn:H1, (MinSamples c <=? n) eqn:H2; bool_to_prop; try lia;
    repeat (apply elem_of_cons in Hst as [->|Hst]); simpl; auto;
    try (by apply not_elem_of_nil in Hst); right; right; done.
Qed.

Lemma load_anchor_ok c k n a :
  wf_config c -> loading_anchor a ->
  anchor_ok c (load_anchor c k n a) /\ baseline_ok k n (load_anchor c k n a) /\
  badStreak (load_anchor c k n a) = 0 /\ goodStreak (load_anchor c k n a) = 0.
Proof.
  intros [Hm Hw _ Hds Hrs] (Hb & Hg & Hst).
  assert (len (keep_last (Window c) (samples a)) <= Window c) as Hl.
  { rewrite keep_last_length; lia. }
  split_and!; try done.
  - unfold anchor_ok, anchor_phase_ok, load_anchor; simpl. rewrite Hb, Hg.
    split; [done|].
    destruct (load_state_cases c (state a) (len (keep_last (Window c) (samples a))) Hst)
      as [[-> H]|[(-> & H & _)|(-> & H & _)]];
      (split; [|first [done | discriminate]]);
      [left|right; right|right; left]; split_and!; done || lia.
  - unfold load_anchor, baseline_ok; simpl. apply snapshot_fields.
Qed.

(** The engine while [Load] folds over samples and baselines. *)
Definition loading (e : Engine) (acc : Engine * gset string) : Prop :=
  cfg acc.1 = cfg e /\
  (forall k, k ∉ acc.2 -> keys acc.1 !! k = keys e !! k) /\
  (forall k, k ∈ acc.2 -> keys e !! k = None /\ exists ks, keys acc.1 !! k = Some ks /\
     forall n a, ks_anchors ks !! n = Some a -> loading_anchor a).

Lemma loading_put e e' touched k n a :
  loading e (e', touched) -> keys e !! k = None -> loading_anchor a ->
  loading e (put_key e' k (set_anchor (get_key e' k) n a), {[k]} ∪ touched).
Proof.
  intros (Hc & Hout & Hin) Hfresh Ha. split_and!; simpl in *.
  - done.
  - intros k' Hk'. rewrite lookup_insert_ne by set_solver. apply Hout. set_solver.
  - intros k' Hk'. rewrite lookup_insert. case_decide as Hkk.
    + subst k'. split; [done|]. eexists; split; [done|]. intros n' a'. simpl. rewrite lookup_insert.
      case_decide; [by intros [= <-]|]. unfold get_key.
      destruct (decide (k ∈ touched)) as [Hk|Hk].
      * destruct (Hin k Hk) as (_ & ks & -> & Hanch). apply Hanch.
      * rewrite (Hout k Hk), Hfresh. simpl. by rewrite lookup_empty.
    + apply Hin. set_solver.
Qed.

Lemma loading_anchor_at e e' touched k n a0 :
  loading e (e', touched) -> keys e !! k = None -> loading_anchor a0 ->
  loading_anchor (default a0 (ks_anchors (get_key e' k) !! n)).
Proof.
  intros (_ & Hout & Hin) Hfresh H0. unfold get_key.
  destruct (decide (k ∈ touched)) as [Hk|Hk].
  - destruct (Hin k Hk) as (_ & ks & Hks & Hanch). simpl in Hks. rewrite Hks; simpl.
    destruct (ks_anchors ks !! n) eqn:Hn; simpl; [by eapply Hanch|done].
  - specialize (Hout k Hk). simpl in Hout. rewrite Hout, Hfresh. simpl. by rewrite lookup_empty.
Qed.

Lemma load_sample_loading e acc s :
  loading e acc -> keys e !! smp_NetworkKey s = None -> loading e (load_sample acc s).
Proof.
  destruct acc as [e' touched]. intros Hl Hf. unfold load_sample. case_test; [done|].
  apply loading_put; [done|done|].
  assert (loading_anchor (new_anchor (smp_Time s))) as Hn.
  { split_and!; [done|done|]. unfold known_state; simpl. set_solver. }
  destruct (loading_anchor_at e e' touched (smp_NetworkKey s) (smp_Anchor s) _ Hl Hf Hn)
    as (H1 & H2 & H3). by split_and!.
Qed.

Lemma load_baseline_loading e acc b :
  loading e acc -> keys e !! bl_NetworkKey b = None -> known_state (bl_State b) ->
  loading e (load_baseline acc b).
Proof.
  destruct acc as [e' touched]. intros Hl Hf Hst. unfold load_baseline. case_test; [done|].
  apply loading_put; [done|done|].
  assert (loading_anchor (mkAnchorState [] "" 0 0 0 ReasonNone Baseline_zero)) as Hn.
  { split_and!; [done|done|]. unfold known_state; simpl. set_solver. }
  destruct (loading_anchor_at e e' touched (bl_NetworkKey b) (bl_Anchor b) _ Hl Hf Hn)
    as (H1 & H2 & H3). split_and!; simpl; [done|done|]. by case_test.
Qed.

Lemma fold_left_inv {A B} (P : A -> Prop) (f : A -> B -> A) (l : list B) (a : A) :
  P a -> (forall a b, P a -> b ∈ l -> P (f a b)) -> P (fold_left f l a).
Proof.
  revert a; induction l as [|b l IH]; intros a Ha Hf; simpl; [done|].
  apply IH; [apply Hf; [done|left]|]. intros a' b' Ha' Hb'. apply Hf; [done|by right].
Qed.

Definition load_acc (e : Engine) (bls : list Baseline) (smps : list Sample) : Engine * gset string :=
  fold_left load_baseline bls (fold_left load_sample (isort sample_le smps) (e, ∅)).

Lemma load_acc_loading e bls smps :
  (forall s, s ∈ smps -> keys e !! smp_NetworkKey s = None) ->
  (forall b, b ∈ bls -> keys e !! bl_NetworkKey b = None /\ known_state (bl_State b)) ->
  loading e (load_acc e bls smps).
Proof.
  intros Hs Hb. unfold load_acc. apply fold_left_inv.
  - apply fold_left_inv.
    + split_and!; simpl; [done|done|set_solver].
    + intros acc s Hacc Hin. apply load_sample_loading; [done|]. apply Hs. by rewrite isort_elem in Hin.
  - intros acc b Hacc Hin. destruct (Hb b Hin). by apply load_baseline_loading.
Qed.

Lemma Load_lookup e bls smps k :
  keys (Load e bls smps) !! k =
    (fun ks => if bool_decide (k ∈ (load_acc e bls smps).2)
               then load_key (cfg (load_acc e bls smps).1) k ks else ks)
      <$> (keys (load_acc e bls smps).1 !! k).
Proof.
  unfold Load, load_acc. destruct (fold_left load_baseline bls _) as [e' touched]; simpl.
  rewrite map_lookup_imap. by destruct (keys e' !! k).
Qed.

Lemma load_key_ok c k ks :
  wf_config c -> (forall n a, ks_anchors ks !! n = Some a -> loading_anchor a) ->
  key_ok c k (load_key c k ks) /\
  forall n a, ks_anchors (load_key c k ks) !! n = Some a -> badStreak a = 0 /\ goodStreak a = 0.
Proof.
  intros Hc Hanch.
  assert (forall n a, ks_anchors (load_key c k ks) !! n = Some a ->
    (anchor_ok c a /\ baseline_ok k n a) /\ badStreak a = 0 /\ goodStreak a = 0) as H.
  { intros n a. simpl. rewrite map_lookup_imap. destruct (ks_anchors ks !! n) as [a0|] eqn:Hn; [|done].
    simpl. intros [= <-]. by destruct (load_anchor_ok c k n a0 Hc (Hanch n a0 Hn)) as (? & ? & ? & ?). }
  split; [split; [done|]|]; intros n a Hn; by destruct (H n a Hn).
Qed.

Lemma load_acc_touched e bls smps k :
  (forall s, s ∈ smps -> smp_NetworkKey s <> k) -> (forall b, b ∈ bls -> bl_NetworkKey b <> k) ->
  k ∉ (load_acc e bls smps).2.
Proof.
  intros Hs Hb. unfold load_acc. apply fold_left_inv.
  - apply fold_left_inv; [simpl; set_solver|]. intros [e' t] s Ht Hin. rewrite isort_elem in Hin.
    unfold load_sample. case_test; [done|]. simpl in *. specialize (Hs s Hin). set_solver.
  - intros [e' t] b Ht Hin. unfold load_baseline. case_test; [done|]. simpl in *.
    specialize (Hb b Hin). set_solver.
Qed.

Lemma Load_inv e bls smps :
  engine_ok e ->
  (forall s, s ∈ smps -> keys e !! smp_NetworkKey s = None) ->
  (forall b, b ∈ bls -> keys e !! bl_NetworkKey b = None /\ known_state (bl_State b)) ->
  engine_ok (Load e bls smps) /\
  (forall k ks, keys e !! k = Some ks -> keys (Load e bls smps) !! k = Some ks) /\
  (forall k n a, keys e !! k = None -> anchor_at (Load e bls smps) k n = Some a ->
     badStreak a = 0 /\ goodStreak a = 0 /\
     (state a = BaselineLearning <-> len (samples a) < MinSamples (cfg e))).
Proof.
  intros [Hc He] Hs Hb. pose proof (load_acc_loading e bls smps Hs Hb) as (Hcfg & Hout & Hin).
  assert (cfg (Load e bls smps) = cfg e) as HLc.
  { unfold Load, load_acc in *. by destruct (fold_left load_baseline bls _). }
  assert (forall k ks, keys (Load e bls smps) !! k = Some ks -> k ∈ (load_acc e bls smps).2 ->
    key_ok (cfg e) k ks /\ forall n a, ks_anchors ks !! n = Some a -> badStreak a = 0 /\ goodStreak a = 0)
    as Hloaded.
  { intros k ks Hk Ht. rewrite Load_lookup, Hcfg in Hk.
    destruct (Hin k Ht) as (_ & ks0 & Hks0 & Hanch). rewrite Hks0 in Hk; simpl in Hk.
    rewrite bool_decide_true in Hk by done. injection Hk as <-. by apply load_key_ok. }
  assert (forall k, k ∉ (load_acc e bls smps).2 -> keys (Load e bls smps) !! k = keys e !! k) as Hkeep.
  { intros k Hk. rewrite Load_lookup, bool_decide_false by done. rewrite (Hout k Hk). by destruct (keys e !! k). }
  assert (forall k ks, keys e !! k = Some ks -> k ∉ (load_acc e bls smps).2) as Hnt.
  { intros k ks Hk Ht. destruct (Hin k Ht). congruence. }
  split_and!.
  - split; [by rewrite HLc|]. intros k ks Hk. rewrite HLc.
    destruct (decide (k ∈ (load_acc e bls smps).2)) as [Ht|Ht]; [by apply Hloaded|].
    apply He. by rewrite <- Hkeep.
  - intros k ks Hk. rewrite Hkeep; [done|by eapply Hnt].
  - intros k n a Hk Ha. unfold anchor_at, get_key in Ha.
    destruct (keys (Load e bls smps) !! k) as [ks|] eqn:HL; simpl in Ha; [|by rewrite lookup_empty in Ha].
    destruct (decide (k ∈ (load_acc e bls smps).2)) as [Ht|Ht]; [|rewrite Hkeep in HL by done; congruence].
    destruct (Hloaded k ks HL Ht) as [[_ Hok] Hz]. destruct (Hok n a Ha) as [(_ & Hph & Hl) _].
    destruct (Hz n a Ha). split_and!; try done. split; [done|].
    intros Hlt. destruct Hph as [(Hx & _)|[(_ & Hx & _)|(_ & Hx & _)]]; [done|lia|lia].
Qed.

(** Warm start: loading stored baselines and samples of keys the engine does
    not hold (the monitor resets a key before it warms it) yields an engine in
    order.  Keys that are not loaded are left alone, and every loaded anchor
    starts with both streaks at zero, learning exactly when it has fewer than
    [MinSamples] samples. *)
Theorem Load_ok e bls smps :
  engine_ok e ->
  (forall s, s ∈ smps -> keys e !! smp_NetworkKey s = None) ->
  (forall b, b ∈ bls -> keys e !! bl_NetworkKey b = None /\ known_state (bl_State b)) ->
  engine_ok (Load e bls smps) /\
  (forall k ks, keys e !! k = Some ks -> keys (Load e bls smps) !! k = Some ks) /\
  (forall k n a, keys e !! k = None -> anchor_at (Load e bls smps) k n = Some a ->
     badStreak a = 0 /\ goodStreak a = 0 /\
     (state a = BaselineLearning <-> len (samples a) < MinSamples (cfg e))).
Proof. apply Load_inv. Qed.

Lemma Load_ok_witness :
  let b := mkBaseline "wifi:Home" "1.1.1.1" BaselineDegraded 5 f_zero f_zero f_zero f_zero f_zero 3 5 in
  let e := Load (NewEngine demo_config) [b] demo_series in
  engine_ok e /\ (State e "wifi:Home").1 = BaselineDegraded.
Proof.
  intros b e. split; [|vm_compute; reflexivity].
  apply (Load_ok (NewEngine demo_config) [b] demo_series).
  - apply NewEngine_ok.
  - intros s _. apply lookup_empty.
  - intros b' Hb'. apply list_elem_of_singleton in Hb' as ->. split; [apply lookup_empty|].
    unfold known_state; simpl. right; right; right; left.
Defined.

(** ** A life of the engine: samples, resets and warm starts *)

(** What the monitor does to its engine: a sample, [ResetBaseline], and
    [warmLocked] with what the store had for the key. *)
Inductive engine_op :=
| EAdd (s : Sample)
| EReset (k : string)
| EWarm (k : string) (bls : list Baseline) (smps : list Sample).

Definition engine_do (e : Engine) (op : engine_op) : Engine :=
  match op with
  | EAdd s => (Add e s).1
  | EReset k => Reset e k
  | EWarm k bls smps => Load (Reset e k) bls smps
  end.
Definition engine_run (e : Engine) (ops : list engine_op) : Engine := fold_left engine_do ops e.

(** The store answers for the key it was asked for, with states that exist. *)
Definition warm_ok (op : engine_op) : Prop :=
  match op with
  | EWarm k bls smps =>
      (forall s, s ∈ smps -> smp_NetworkKey s = k) /\ (forall b, b ∈ bls -> bl_NetworkKey b = k /\ known_state (bl_State b))
  | _ => True
  end.

(** What an anchor lives from since its key was last reset or warmed: whether
    a stored baseline called it degraded, the window it was warmed with, and its
    samples from then on. *)
Record life := mkLife { lf_stored : bool; lf_window : list Sample; lf_samples : list Sample }.

Definition stored_degraded (k n : string) (bls : list Baseline) : bool :=
  existsb (fun b => (bl_NetworkKey b =?s k) && (bl_Anchor b =?s n) && (bl_State b =?s BaselineDegraded)) bls.

Definition live (c : EngineConfig) (k n : string) (h : life) (op : engine_op) : life :=
  match op with
  | EAdd s => if for_anchor k n s then mkLife (lf_stored h) (lf_window h) (lf_samples h ++ [s]) else h
  | EReset k' => if k' =?s k then mkLife false [] [] else h
  | EWarm k' bls smps =>
      if k' =?s k then mkLife (stored_degraded k n bls) (keep_last (Window c) (List.filter (for_anchor k n) (isort sample_le smps))) []
      else h
  end.
Definition life_of (c : EngineConfig) (k n : string) (ops : list engine_op) : life :=
  fold_left (live c k n) ops (mkLife false [] []).

(** The anchor is where its life took it from a start without streaks. *)
Definition lived (c : EngineConfig) (h : life) (a : option anchorState) : Prop :=
  match a with
  | None => lf_window h = [] /\ lf_samples h = []
  | Some a => exists a0, anchor_ok c a0 /\ badStreak a0 = 0 /\ goodStreak a0 = 0 /\ samples a0 = lf_window h /\
      (state a0 = BaselineDegraded -> lf_stored h = true /\ MinSamples c <= len (lf_window h)) /\ a = run_anchor c a0 (lf_samples h)
  end.

Lemma Reset_ok e k : engine_ok e -> engine_ok (Reset e k).
Proof.
  intros [Hc He]. split; [done|]. intros k' ks Hk. simpl in *.
  rewrite lookup_delete in Hk. case_decide; [done|]. by apply He.
Qed.

(** The anchor [Load] is collecting. *)
Definition collected (k n : string) (seen : list Sample) (bls : list Baseline) (e : Engine) : Prop :=
  match anchor_at e k n with
  | None => List.filter (for_anchor k n) seen = []
  | Some a => samples a = List.filter (for_anchor k n) seen /\ (state a = BaselineDegraded -> stored_degraded k n bls = true)
  end.

Lemma anchor_at_put e k' n' a k n :
  anchor_at (put_key e k' (set_anchor (get_key e k') n' a)) k n = if decide (k' = k /\ n' = n) then Some a else anchor_at e k n.
Proof.
  unfold anchor_at, get_key. cbn. rewrite lookup_insert. destruct (decide (k' = k)) as [->|Hk]; cbn.
  - rewrite lookup_insert. case_decide as Hn; [by rewrite decide_True|]. rewrite decide_False by naive_solver. done.
  - by rewrite decide_False by naive_solver.
Qed.

Lemma load_sample_at k n acc s :
  anchor_at (load_sample acc s).1 k n =
    if for_anchor k n s then let a := default (new_anchor (smp_Time s)) (anchor_at acc.1 k n) in Some (set_samples (samples a ++ [s]) a)
    else anchor_at acc.1 k n.
Proof.
  destruct acc as [e t]. unfold load_sample. cbn [fst]. destruct (for_anchor k n s) eqn:Hf.
  - apply for_anchor_spec in Hf as (<- & <- & H1 & H2). rewrite (seqb_ne _ _ H1), (seqb_ne _ _ H2). cbn [orb fst].
    by rewrite anchor_at_put, decide_True.
  - destruct (smp_NetworkKey s =?s "") eqn:H1, (smp_Anchor s =?s "") eqn:H2; cbn [orb fst]; try done.
    rewrite anchor_at_put, decide_False; [done|]. intros [E1 E2]. bool_to_prop. assert (for_anchor k n s = true); [|congruence].
    apply for_anchor_spec. by subst.
Qed.

Lemma load_baseline_at k n acc b :
  k <> "" -> n <> "" ->
  anchor_at (load_baseline acc b).1 k n =
    if (bl_NetworkKey b =?s k) && (bl_Anchor b =?s n) then
      let a := default (mkAnchorState [] "" 0 0 0 ReasonNone Baseline_zero) (anchor_at acc.1 k n) in
      Some (mkAnchorState (samples a) (if negb (bl_State b =?s "") then bl_State b else state a) (bl_Since b) (badStreak a) (goodStreak a) (lastReason a) (baseline a))
    else anchor_at acc.1 k n.
Proof.
  intros Hk Hn. destruct acc as [e t]. unfold load_baseline. cbn [fst].
  destruct (bl_NetworkKey b =?s k) eqn:H1, (bl_Anchor b =?s n) eqn:H2; cbn [andb]; bool_to_prop.
  1: subst; rewrite (seqb_ne _ _ Hk), (seqb_ne _ _ Hn); cbn [orb fst]; by rewrite anchor_at_put, decide_True.
  all: destruct (_ || _); [done|]; cbn [fst]; rewrite anchor_at_put, decide_False; [done|]; by intros [? ?].
Qed.

Lemma collect_samples k n e l :
  anchor_at e k n = None -> collected k n l [] (fold_left load_sample l (e, ∅)).1.
Proof.
  intros Hn. assert (forall acc seen, collected k n seen [] acc.1 -> collected k n (seen ++ l) [] (fold_left load_sample l acc).1) as H.
  { induction l as [|s l IH]; intros acc seen H; cbn [fold_left]; [by rewrite app_nil_r|].
    rewrite (app_assoc seen [s] l : seen ++ s :: l = _). apply IH. unfold collected in *. rewrite load_sample_at, List.filter_app. cbn [List.filter].
    destruct (for_anchor k n s); [|by rewrite app_nil_r]. destruct (anchor_at acc.1 k n) as [a|]; cbn.
    - destruct H as [-> H]. done.
    - by rewrite H. }
  apply (H (e, ∅) []). unfold collected. cbn [fst]. by rewrite Hn.
Qed.

Lemma collect_baselines k n l bls acc :
  k <> "" -> n <> "" -> collected k n l [] acc.1 -> collected k n l bls (fold_left load_baseline bls acc).1.
Proof.
  intros Hk Hn. change bls with ([] ++ bls) at 1. generalize (@nil Baseline) as seen. revert acc.
  induction bls as [|b bls IH]; intros acc seen H; cbn [fold_left]; [by rewrite app_nil_r|].
  rewrite (app_assoc seen [b] bls : seen ++ b :: bls = _). apply IH. unfold collected, stored_degraded in *.
  rewrite load_baseline_at, existsb_app by done. cbn [existsb]. rewrite orb_false_r.
  destruct (bl_NetworkKey b =?s k), (bl_Anchor b =?s n); cbn [andb]; try (rewrite orb_false_r; exact H).
  destruct (anchor_at acc.1 k n) as [a|]; cbn.
  - destruct H as [-> H]. split; [done|]. destruct (bl_State b =?s ""); cbn; [intros E; by rewrite (H E)|intros ->; by rewrite seqb_refl, orb_true_r].
  - split; [done|]. destruct (bl_State b =?s ""); cbn; [done|intros ->; by rewrite seqb_refl, orb_true_r].
Qed.

(** A warm start is the start of a life. *)
Lemma warm_lived e k n bls smps h :
  engine_ok e -> k <> "" -> n <> "" -> warm_ok (EWarm k bls smps) ->
  lived (cfg e) (live (cfg e) k n h (EWarm k bls smps)) (anchor_at (engine_do e (EWarm k bls smps)) k n).
Proof.
  intros He Hk Hn [Hs Hb]. cbn [live engine_do]. rewrite seqb_refl. set (e0 := Reset e k).
  assert (keys e0 !! k = None) as Hf by apply lookup_delete_eq.
  assert (engine_ok e0) as He0 by by apply Reset_ok.
  pose proof (load_acc_loading e0 bls smps) as Hl. specialize (Hl ltac:(by intros s ->%Hs) ltac:(by intros b [-> ?]%Hb)). destruct Hl as (Hcfg & Hout & Hin).
  assert (collected k n (isort sample_le smps) bls (load_acc e0 bls smps).1) as Hcol.
  { apply collect_baselines; [done..|]. apply collect_samples. unfold anchor_at, get_key. by rewrite Hf. }
  unfold collected in Hcol. set (e1 := (load_acc e0 bls smps).1) in *. set (l := List.filter _ _) in *.
  assert (cfg e0 = cfg e) as Hc0 by done. rewrite Hc0 in *.
  assert (anchor_at (Load e0 bls smps) k n = load_anchor (cfg e) k n <$> anchor_at e1 k n) as ->.
  { unfold anchor_at at 1, get_key. rewrite Load_lookup. fold e1. rewrite Hcfg. unfold anchor_at, get_key. destruct (keys e1 !! k) as [ks|] eqn:E; cbn; [|done].
    rewrite bool_decide_true; [by cbn; rewrite map_lookup_imap; destruct (ks_anchors ks !! n)|].
    destruct (decide (k ∈ (load_acc e0 bls smps).2)) as [|Ht]; [done|]. specialize (Hout k Ht). fold e1 in Hout. congruence. }
  destruct (anchor_at e1 k n) as [a|] eqn:E; cbn [fmap option_fmap option_map lived lf_window lf_samples lf_stored]; [|rewrite Hcol; split; [unfold keep_last, drop_front; case_test; [apply drop_nil|done]|done]].
  destruct Hcol as [Hsm Hst]. assert (loading_anchor a) as Ha.
  { unfold anchor_at, get_key in E. destruct (keys e1 !! k) as [ks|] eqn:Ek; [|by cbn in E; rewrite lookup_empty in E].
    destruct (decide (k ∈ (load_acc e0 bls smps).2)) as [Ht|Ht]; [|specialize (Hout k Ht); fold e1 in Hout; congruence].
    destruct (Hin k Ht) as (_ & ks' & Hks & H). fold e1 in Hks. rewrite Hks in Ek. injection Ek as <-. by eapply H. }
  destruct He as [Hwf _]. destruct (load_anchor_ok (cfg e) k n a Hwf Ha) as (H1 & _ & H2 & H3).
  exists (load_anchor (cfg e) k n a). split_and!; try done; [cbn; by rewrite Hsm|].
  cbn. rewrite Hsm. destruct Ha as (_ & _ & Hkn). intros Hd.
  destruct (load_state_cases (cfg e) (state a) (len (keep_last (Window (cfg e)) l)) Hkn) as [[E' _]|[(E' & Hge & Hsd)|(E' & _ & _)]];
    rewrite E' in Hd; try done. split; [by apply Hst|done].
Qed.

(** A warm start of another key leaves an anchor alone. *)
Lemma warm_other e k k' n bls smps :
  k' <> k -> warm_ok (EWarm k' bls smps) -> anchor_at (engine_do e (EWarm k' bls smps)) k n = anchor_at e k n.
Proof.
  intros Hne [Hs Hb]. cbn [engine_do]. set (e0 := Reset e k').
  assert (k ∉ (load_acc e0 bls smps).2) as Hnt by (apply load_acc_touched; [by intros s ->%Hs|by intros b [-> _]%Hb]).
  assert (keys (load_acc e0 bls smps).1 !! k = keys e !! k) as Hk.
  { transitivity (keys e0 !! k); [|by apply lookup_delete_ne]. unfold load_acc. apply fold_left_inv.
    - apply fold_left_inv; [done|]. intros [e1 t] s H Hin. rewrite isort_elem in Hin. specialize (Hs s Hin). unfold load_sample. case_test; [done|].
      cbn. rewrite lookup_insert_ne by congruence. exact H.
    - intros [e1 t] b H Hin. destruct (Hb b Hin) as [Hbk _]. unfold load_baseline. case_test; [done|]. cbn. rewrite lookup_insert_ne by congruence. exact H. }
  unfold anchor_at, get_key. rewrite Load_lookup, bool_decide_false, Hk by done. by destruct (keys e !! k).
Qed.

Lemma life_lived e k n ops h :
  engine_ok e -> k <> "" -> n <> "" -> Forall warm_ok ops -> lived (cfg e) h (anchor_at e k n) ->
  let e' := engine_run e ops in engine_ok e' /\ cfg e' = cfg e /\ lived (cfg e) (fold_left (live (cfg e) k n) ops h) (anchor_at e' k n).
Proof.
  intros He Hk Hn Hw. revert e h He; induction Hw as [|op ops Hop _ IH]; intros e h He Hl; [done|].
  assert (engine_ok (engine_do e op) /\ cfg (engine_do e op) = cfg e /\ lived (cfg e) (live (cfg e) k n h op) (anchor_at (engine_do e op) k n)) as (He' & Hc & Hl').
  { destruct op as [s|k'|k' bls smps].
    - split_and!; [by apply Add_ok|apply Add_cfg|]. cbn [engine_do live]. rewrite Add_anchor_at. destruct (for_anchor k n s) eqn:Hf.
      + rewrite decide_True by by apply for_anchor_spec. cbn [lived lf_window lf_samples lf_stored]. destruct He as [Hwf _].
        destruct (anchor_at e k n) as [a|]; cbn [default lived] in *.
        * destruct Hl as (a0 & H1 & H2 & H3 & H4 & H5 & ->). exists a0. split_and!; try done. unfold run_anchor. by rewrite fold_left_app.
        * destruct Hl as [H1 H2]. exists (new_anchor (smp_Time s)). rewrite H1, H2. split_and!; try done. by apply new_anchor_ok.
      + rewrite decide_False; [done|]. intros H%for_anchor_spec. congruence.
    - split_and!; [by apply Reset_ok|done|]. cbn [engine_do live]. unfold anchor_at, get_key, Reset. cbn. rewrite lookup_delete.
      destruct (decide (k' = k)) as [->|Hne]; [rewrite seqb_refl; cbn; by rewrite lookup_empty|by rewrite (seqb_ne _ _ Hne)].
    - destruct Hop as [Hs Hb]. assert (keys (Reset e k') !! k' = None) as Hf by apply lookup_delete_eq.
      destruct (Load_inv (Reset e k') bls smps) as [Hok _]; [by apply Reset_ok|by intros s ->%Hs|by intros b [-> ?]%Hb|].
      split_and!; [done| |].
      + cbn [engine_do]. unfold Load. pose proof (load_acc_loading (Reset e k') bls smps) as H.
        specialize (H ltac:(by intros s ->%Hs) ltac:(by intros b [-> ?]%Hb)). destruct H as [H _]. unfold load_acc in H. by destruct (fold_left load_baseline bls _).
      + destruct (decide (k' = k)) as [->|Hne]; [by apply warm_lived|]. rewrite warm_other by done. cbn [live]. by rewrite (seqb_ne _ _ Hne). }
  cbn [fold_left]. destruct (IH _ (live (cfg e) k n h op) He') as (I1 & I2 & I3); [by rewrite Hc|]. rewrite Hc in *. by split_and!.
Qed.

(** From degraded on: there was a moment of recovery, or the anchor stayed
    degraded and no run of good verdicts was long enough to recover. *)
Lemma phase_run_stays c vs :
  wf_config c -> Forall (fun v => v_enough v = true) vs ->
  (exists l1 l2, vs = l1 ++ l2 /\ phase_run c (PDegraded 0) l1 = POk 0) \/
  exists g, phase_run c (PDegraded 0) vs = PDegraded g /\ 0 <= g < RecoverStreak c /\
    (forall l1 l2, vs = l1 ++ l2 -> Forall good_verdict l2 -> len l2 <= g) /\ ~ within (RecoverStreak c) good_verdict vs.
Proof.
  intros [_ _ _ _ Hrs]. induction vs as [|v vs IH] using rev_ind; intros Hv.
  { right. exists 0. split_and!; [done|lia|lia|intros l1 l2 E _; symmetry in E; apply app_nil in E as [-> ->]; done|].
    intros (l1 & l2 & l3 & E & Hl & _). symmetry in E. apply app_nil in E as [_ E]. apply app_nil in E as [-> _]. unfold len in Hl. cbn in Hl. lia. }
  apply Forall_app in Hv as [Hv [He _]%Forall_cons_1]. destruct (IH Hv) as [(l1 & l2 & -> & H)|(g & Hp & Hg & Hr & Hn)].
  { left. exists l1, (l2 ++ [v]). by rewrite app_assoc. }
  assert (forall p', phase_step c v (PDegraded g) = p' -> phase_run c (PDegraded 0) (vs ++ [v]) = p') as Hstep.
  { unfold phase_run in *. rewrite fold_left_app, Hp. done. }
  unfold phase_step in Hstep. rewrite He in Hstep. cbn [negb] in Hstep.
  assert (forall l1 l2, vs ++ [v] = l1 ++ l2 -> l2 = [] \/ exists l2', l2 = l2' ++ [v] /\ vs = l1 ++ l2') as Hsplit.
  { intros l1 l2 E. destruct l2 as [|x l2' _] using rev_ind; [by left|]. right. rewrite app_assoc in E. apply app_inj_tail in E as [-> ->]. by exists l2'. }
  assert (forall g', (forall l1 l2, vs ++ [v] = l1 ++ l2 -> Forall good_verdict l2 -> len l2 <= g') -> g' < RecoverStreak c -> ~ within (RecoverStreak c) good_verdict (vs ++ [v])) as Hw.
  { intros g' Ht Hg' (l1 & l2 & l3 & E & Hl & HP). rewrite app_assoc in E. destruct (Hsplit _ _ E) as [->|(l3' & -> & E')].
    - rewrite app_nil_r in E. specialize (Ht l1 l2 E HP). lia.
    - apply Hn. exists l1, l2, l3'. by rewrite <- app_assoc in E'. }
  destruct (v_good v) eqn:Hgood; [destruct (Z.ltb_spec (g + 1) (RecoverStreak c))|].
  - assert (forall l1 l2, vs ++ [v] = l1 ++ l2 -> Forall good_verdict l2 -> len l2 <= g + 1) as Ht.
    { intros l1 l2 E HP. destruct (Hsplit _ _ E) as [->|(l2' & -> & E')]; [unfold len; cbn; lia|]. apply Forall_app in HP as [HP _].
      specialize (Hr l1 l2' E' HP). rewrite len_app. unfold len in *. cbn. lia. }
    right. exists (g + 1). split_and!; [by apply Hstep|lia|lia|done|]. apply (Hw (g + 1)); [done|lia].
  - left. exists (vs ++ [v]), []. rewrite app_nil_r. split; [done|by apply Hstep].
  - assert (forall l1 l2, vs ++ [v] = l1 ++ l2 -> Forall good_verdict l2 -> len l2 <= 0) as Ht.
    { intros l1 l2 E HP. destruct (Hsplit _ _ E) as [->|(l2' & -> & E')]; [unfold len; cbn; lia|]. apply Forall_app in HP as [_ [[_ HP] _]%Forall_cons_1]. congruence. }
    right. exists 0. split_and!; [by apply Hstep|lia|lia|done|]. apply (Hw 0); [done|lia].
Qed.

Lemma within_app_r {A} n (P : A -> Prop) l1 l2 : within n P l2 -> within n P (l1 ++ l2).
Proof. intros (a & b & d & -> & H). exists (l1 ++ a), b, d. by rewrite <- app_assoc. Qed.

(** A degraded anchor lives by a streak of bad verdicts, or was stored as
    degraded and has not recovered since. *)
Lemma lived_degraded c h a :
  wf_config c -> lived c h (Some a) -> state a = BaselineDegraded ->
  within (DegradeStreak c) bad_verdict (verdicts c (lf_window h) (lf_samples h)) \/
  lf_stored h = true /\ MinSamples c <= len (lf_window h) /\ ~ within (RecoverStreak c) good_verdict (verdicts c (lf_window h) (lf_samples h)).
Proof.
  intros Hc (a0 & Hok & Hb & Hg & Hsm & Hd & ->) Hdeg. rewrite <- Hsm in *. set (vs := verdicts c _ _).
  pose proof (run_anchor_phase c a0 (lf_samples h) Hc Hok) as Hp. rewrite phase_of_state, Hdeg in Hp. cbn in Hp. fold vs in Hp.
  destruct (state a0 =?s BaselineDegraded) eqn:E; bool_to_prop.
  - destruct (Hd E) as [H1 H2].
    assert (Forall (fun v => v_enough v = true) vs) as Hen by (apply verdicts_enough; [done|split; [done|apply Hok]]).
    rewrite (phase_degraded c a0 Hok E), Hg in Hp. destruct (phase_run_stays c vs Hc Hen) as [(l1 & l2 & Hvs & Hl1)|(g & _ & _ & _ & Hn)]; [left|by right].
    rewrite Hvs. apply within_app_r. pose proof (phase_run_degraded c (POk 0) l2 Hc (or_intror eq_refl)) as H.
    unfold phase_run in *. rewrite Hvs, fold_left_app, Hl1 in Hp. by rewrite <- Hp in H.
  - left. assert (phase_of a0 = PLearning \/ phase_of a0 = POk 0) as Hp0.
    { rewrite phase_of_state, Hb, (seqb_ne _ _ E). destruct (_ =?s _); auto. }
    pose proof (phase_run_degraded c _ vs Hc Hp0) as H. unfold phase_run in H. by rewrite <- Hp in H.
Qed.

(** No key and no anchor is without a name. *)
Lemma engine_do_named e op k n :
  k = "" \/ n = "" -> anchor_at e k n = None -> anchor_at (engine_do e op) k n = None.
Proof.
  intros Hkn Hat. assert (forall s, for_anchor k n s = false) as Hf.
  { intros s. destruct (for_anchor k n s) eqn:E; [|done]. apply for_anchor_spec in E. naive_solver. }
  destruct op as [s|k'|k' bls smps]; cbn [engine_do].
  - rewrite Add_anchor_at, decide_False; [done|]. intros H%for_anchor_spec. specialize (Hf s). congruence.
  - unfold anchor_at, get_key, Reset in *. cbn. rewrite lookup_delete. case_decide; [apply lookup_empty|done].
  - assert (anchor_at (Reset e k') k n = None) as H0.
    { unfold anchor_at, get_key, Reset in *. cbn. rewrite lookup_delete. case_decide; [apply lookup_empty|done]. }
    assert (anchor_at (load_acc (Reset e k') bls smps).1 k n = None) as H1.
    { unfold load_acc. apply fold_left_inv.
      - apply fold_left_inv; [done|]. intros acc s H _. by rewrite load_sample_at, Hf.
      - intros [e' t] b H _. unfold load_baseline. destruct (bl_NetworkKey b =?s "") eqn:E1, (bl_Anchor b =?s "") eqn:E2; cbn [orb fst]; try done.
        rewrite anchor_at_put, decide_False; [done|]. bool_to_prop. intros [? ?]. naive_solver. }
    unfold anchor_at, get_key in *. rewrite Load_lookup. destruct (keys (load_acc (Reset e k') bls smps).1 !! k) as [ks|]; cbn in *; [|apply lookup_empty].
    case_bool_decide; [|done]. cbn. by rewrite map_lookup_imap, H1.
Qed.

Lemma engine_named c ops k n a : anchor_at (engine_run (NewEngine c) ops) k n = Some a -> k <> "" /\ n <> "".
Proof.
  assert (k = "" \/ n = "" -> anchor_at (engine_run (NewEngine c) ops) k n = None) as H.
  { intros H. unfold engine_run. apply fold_left_inv; [apply anchor_at_new|]. intros e op He _. by apply engine_do_named. }
  intros Ha. split; intros ->; rewrite H in Ha; auto; done.
Qed.

(** C1: A network is reported degraded only on evidence, whatever samples, resets
    and warm starts led there.  Since its key was last reset or warmed from the
    store, some public anchor of it (never the gateway alone) was judged bad in
    [DegradeStreak] consecutive evaluations of its own window, each of at least
    [MinSamples] samples; or that anchor was stored as degraded with enough
    samples, and no [RecoverStreak] consecutive evaluations since judged it good. *)
Theorem degraded_needs_streak c ops k :
  Forall warm_ok ops ->
  (State (engine_run (NewEngine c) ops) k).1 = BaselineDegraded ->
  exists n, n <> GatewayAnchor /\
    let h := life_of (withDefaults c) k n ops in
    let vs := verdicts (withDefaults c) (lf_window h) (lf_samples h) in
    within (DegradeStreak (withDefaults c)) bad_verdict vs \/
    lf_stored h = true /\ MinSamples (withDefaults c) <= len (lf_window h) /\ ~ within (RecoverStreak (withDefaults c)) good_verdict vs.
Proof.
  intros Hw. set (e := engine_run _ ops). intros HS.
  assert (forall k' n, k' <> "" -> n <> "" -> engine_ok e /\ lived (withDefaults c) (life_of (withDefaults c) k' n ops) (anchor_at e k' n)) as Hl.
  { intros k' n Hk Hn. destruct (life_lived (NewEngine c) k' n ops (mkLife false [] []) (NewEngine_ok c) Hk Hn Hw) as (H1 & _ & H2); [|by split].
    by rewrite anchor_at_new. }
  destruct (Hl "k" "n") as [He _]; [done..|].
  unfold State in HS. destruct (keys e !! k) as [ks|] eqn:Hk; [|done]. cbn in HS.
  pose proof He as [_ Hkeys]. destruct (Hkeys _ _ Hk) as [Hst _]. rewrite Hst in HS.
  pose proof (deriveKeyState_derived (ks_anchors ks)) as Hd. rewrite HS in Hd.
  inversion Hd as [|(n & a & Hn & Hpub & Ha)| |]. exists n. split; [done|].
  assert (anchor_at e k n = Some a) as Hat by (unfold anchor_at, get_key; by rewrite Hk).
  destruct (engine_named c ops k n a Hat) as [Hk0 Hn0]. destruct (Hl k n Hk0 Hn0) as [_ H]. rewrite Hat in H.
  by apply (lived_degraded _ _ a); [apply withDefaults_wf|..].
Qed.

Definition demo_baseline : Baseline := mkBaseline "wifi:Home" "1.1.1.1" BaselineDegraded 5 f_zero f_zero f_zero f_zero f_zero 3 5.
Definition demo_life : list engine_op := EWarm "wifi:Home" [demo_baseline] demo_series :: map EAdd (take 1 demo_recovery).

Lemma degraded_needs_streak_witness :
  ((State (engine_run (NewEngine demo_config) (map EAdd demo_series)) "wifi:Home").1 = BaselineDegraded /\
   exists n, n <> GatewayAnchor /\
     let h := life_of (withDefaults demo_config) "wifi:Home" n (map EAdd demo_series) in
     let vs := verdicts (withDefaults demo_config) (lf_window h) (lf_samples h) in
     within (DegradeStreak (withDefaults demo_config)) bad_verdict vs \/
     lf_stored h = true /\ MinSamples (withDefaults demo_config) <= len (lf_window h) /\ ~ within (RecoverStreak (withDefaults demo_config)) good_verdict vs) /\
  (State (engine_run (NewEngine demo_config) demo_life) "wifi:Home").1 = BaselineDegraded /\
  exists n, n <> GatewayAnchor /\
    let h := life_of (withDefaults demo_config) "wifi:Home" n demo_life in
    let vs := verdicts (withDefaults demo_config) (lf_window h) (lf_samples h) in
    within (DegradeStreak (withDefaults demo_config)) bad_verdict vs \/
    lf_stored h = true /\ MinSamples (withDefaults demo_config) <= len (lf_window h) /\ ~ within (RecoverStreak (withDefaults demo_config)) good_verdict vs.
Proof.
  split; (split; [vm_compute; reflexivity|apply degraded_needs_streak; [|vm_compute; reflexivity]]).
  - repeat constructor.
  - constructor; [|repeat constructor]. split.
    + intros s Hs. repeat (apply elem_of_cons in Hs as [->|Hs]; [done|]). by apply not_elem_of_nil in Hs.
    + intros b ->%list_elem_of_singleton. split; [done|]. unfold known_state; cbn. right; right; right; left.
Defined.
