(* ===== verification/Store.v ===== *)
(** internal/store/store.go: the history database.  Each SQL statement of the
    source is given its SQL meaning on a table of rows; what the driver may do
    instead (a cancelled context, a full disk, a refused value) is the [fault]
    argument of each method: the error of its statement, or [None] when the
    statement ran.  The mutex serialises the writers, so a method is one step.

    [MonitorStoreLaws] is what the monitor relies on; the tables discharge it. *)

From S2P Require Import Prelude GoTime Core GoStrings Errors Engine.


(** ** Time columns *)

Definition unix_epoch : Time := 62135596800 * second.

Definition toNanos (t : Time) : Z :=
  if time_IsZero t then 0 else int64_of (t - unix_epoch).

Definition fromNanos (n : Z) : Time := if n =? 0 then 0 else unix_epoch + n.

(** The instants a column can hold: 1677 to 2262. *)
Definition storable (t : Time) : Prop :=
  t = 0 \/ (min_int64 <= t - unix_epoch <= max_int64 /\ t <> unix_epoch).

Lemma int64_of_id z : min_int64 <= z <= max_int64 -> int64_of z = z.
Proof. unfold min_int64, max_int64, int64_of. intros. rewrite Z.mod_small; lia. Qed.

Lemma fromNanos_toNanos t : storable t -> fromNanos (toNanos t) = t.
Proof.
  unfold storable, toNanos, fromNanos, time_IsZero. intros [->|[Hr Hne]]; [done|].
  destruct (Z.eqb_spec t 0) as [->|Ht]; [done|]. rewrite int64_of_id by done.
  destruct (Z.eqb_spec (t - unix_epoch) 0); lia.
Qed.

(** ** Tables *)

(** A row of a table with an [INTEGER PRIMARY KEY] and a [time] column. *)
Record row (C : Type) := mkRow { row_id : Z; row_time : Z; row_cols : C }.
Arguments mkRow {C}.
Arguments row_id {C}.
Arguments row_time {C}.
Arguments row_cols {C}.

Record SampleCols := mkSampleCols {
  sc_network_key : string; sc_anchor : string; sc_anchor_addr : string;
  sc_rtt_ms : float64; sc_loss : float64; sc_dns_ms : float64; sc_method : string
}.

Record BaselineCols := mkBaselineCols {
  bc_state : string; bc_sample_count : Z;
  bc_baseline_rtt_ms : float64; bc_baseline_loss : float64;
  bc_current_rtt_ms : float64; bc_current_loss : float64; bc_current_dns_ms : float64;
  bc_since : Z; bc_updated_at : Z
}.

Record SpeedCols := mkSpeedCols {
  pc_network_key : string; pc_provider : string; pc_server : string;
  pc_download_mbps : float64; pc_upload_mbps : float64;
  pc_latency_ms : float64; pc_jitter_ms : float64;
  pc_bytes_moved : Z; pc_duration_ns : Z; pc_quick : Z
}.

Record EventCols := mkEventCols {
  ec_type : string; ec_network_key : string; ec_title : string; ec_body : string;
  ec_urgency : string; ec_data : string
}.

Record DB := mkDB {
  t_samples : list (row SampleCols);
  t_baselines : gmap (string * string) BaselineCols;  (* PRIMARY KEY (network_key, anchor) *)
  t_speed_results : list (row SpeedCols);
  t_events : list (row EventCols);
  t_settings : gmap string string;                    (* key TEXT PRIMARY KEY *)
  retention : Duration
}.

Definition DefaultRetention : Duration := 30 * 24 * hour.

(** [WithRetention d] applied to the default. *)
Definition WithRetention (d : Duration) (r : Duration) : Duration := if 0 <? d then d else r.

Definition DB_empty (r : Duration) : DB := mkDB [] ∅ [] [] ∅ r.

Definition set_t_samples (x : list (row SampleCols)) (s : DB) : DB :=
  mkDB x (t_baselines s) (t_speed_results s) (t_events s) (t_settings s) (retention s).
Definition set_t_baselines (x : gmap (string * string) BaselineCols) (s : DB) : DB :=
  mkDB (t_samples s) x (t_speed_results s) (t_events s) (t_settings s) (retention s).
Definition set_t_speed (x : list (row SpeedCols)) (s : DB) : DB :=
  mkDB (t_samples s) (t_baselines s) x (t_events s) (t_settings s) (retention s).
Definition set_t_events (x : list (row EventCols)) (s : DB) : DB :=
  mkDB (t_samples s) (t_baselines s) (t_speed_results s) x (t_settings s) (retention s).
Definition set_t_settings (x : gmap string string) (s : DB) : DB :=
  mkDB (t_samples s) (t_baselines s) (t_speed_results s) (t_events s) x (retention s).

(** [INSERT]: the new row takes an id one above the largest in the table. *)
Definition next_id {C} (t : list (row C)) : Z := foldr (fun r m => Z.max (row_id r) m) 0 t + 1.
Definition insert_row {C} (time : Z) (c : C) (t : list (row C)) : list (row C) :=
  t ++ [mkRow (next_id t) time c].

(** [ORDER BY time ASC, id ASC]. *)
Definition row_le {C} (a b : row C) : bool :=
  (row_time a <? row_time b) || ((row_time a =? row_time b) && (row_id a <=? row_id b)).
(** [ORDER BY time DESC, id DESC]. *)
Definition row_ge {C} (a b : row C) : bool := row_le b a.

(** The shared shape of the three listings: with a limit, the rows in
    descending order, cut, then [reverse]d in place; without, ascending. *)
Definition select_rows {C} (limit : Z) (rows : list (row C)) : list (row C) :=
  if 0 <? limit then rev (take (Z.to_nat limit) (isort row_ge rows))
  else isort row_le rows.

Definition err_wrap (what : string) (e : error) : option error :=
  Some (EWrap (what +:+ ": " +:+ ErrorString e) [e]).

(** ** Samples *)

Definition sample_row_cols (sm : Sample) : SampleCols :=
  mkSampleCols (smp_NetworkKey sm) (smp_Anchor sm) (smp_AnchorAddr sm) (smp_RTTms sm)
    (smp_Loss sm) (smp_DNSms sm) (smp_Method sm).

Definition scan_sample (r : row SampleCols) : Sample :=
  let c := row_cols r in
  mkSample (fromNanos (row_time r)) (sc_network_key c) (sc_anchor c) (sc_anchor_addr c)
    (sc_rtt_ms c) (sc_loss c) (sc_dns_ms c) (sc_method c).

Definition AddSample (fault : option error) (now : Time) (sm : Sample) (s : DB) : DB * option error :=
  if (smp_NetworkKey sm =?s "") || (smp_Anchor sm =?s "") then
    (s, Some (ELeaf "store: add sample: network key and anchor are required"))
  else
    let t := if time_IsZero (smp_Time sm) then now else smp_Time sm in
    match fault with
    | Some e => (s, err_wrap ("store: add sample " +:+ smp_NetworkKey sm +:+ "/" +:+ smp_Anchor sm) e)
    | None => (set_t_samples (insert_row (toNanos t) (sample_row_cols sm) (t_samples s)) s, None)
    end.

(** The [WHERE] clause of [Samples]. *)
Definition sample_where (networkKey anchor : string) (r : row SampleCols) : bool :=
  (sc_network_key (row_cols r) =?s networkKey) &&
  ((anchor =?s "") || (sc_anchor (row_cols r) =?s anchor)).

Definition Samples (fault : option error) (networkKey anchor : string) (limit : Z) (s : DB) :
    result error (list Sample) :=
  match fault with
  | Some e => Err (EWrap ("store: samples " +:+ networkKey +:+ "/" +:+ anchor +:+ ": " +:+ ErrorString e) [e])
  | None => Ok (map scan_sample (select_rows limit (List.filter (sample_where networkKey anchor) (t_samples s))))
  end.

Definition SampleCount (fault : option error) (s : DB) : result error Z :=
  match fault with
  | Some e => Err (EWrap ("store: sample count: " +:+ ErrorString e) [e])
  | None => Ok (len (t_samples s))
  end.

(** ** Baselines *)

Definition baseline_cols (b : Baseline) : BaselineCols :=
  mkBaselineCols (bl_State b) (bl_SampleCount b) (bl_BaselineRTT b) (bl_BaselineLoss b)
    (bl_CurrentRTT b) (bl_CurrentLoss b) (bl_CurrentDNS b) (toNanos (bl_Since b)) (toNanos (bl_UpdatedAt b)).

Definition scan_baseline (p : (string * string) * BaselineCols) : Baseline :=
  let '((k, a), c) := p in
  mkBaseline k a (bc_state c) (bc_sample_count c) (bc_baseline_rtt_ms c) (bc_baseline_loss c)
    (bc_current_rtt_ms c) (bc_current_loss c) (bc_current_dns_ms c)
    (fromNanos (bc_since c)) (fromNanos (bc_updated_at c)).

(** [ORDER BY CASE WHEN anchor = 'gateway' THEN 0 ELSE 1 END, anchor] (BINARY
    collation). *)
Definition anchor_rank (a : string) : Z := if a =?s "gateway" then 0 else 1.
Definition baseline_row_le (x y : (string * string) * BaselineCols) : bool :=
  let ax := x.1.2 in
  let ay := y.1.2 in
  (anchor_rank ax <? anchor_rank ay) ||
  ((anchor_rank ax =? anchor_rank ay) && negb (String.ltb ay ax)).

Definition store_Baselines (fault : option error) (networkKey : string) (s : DB) : result error (list Baseline) :=
  match fault with
  | Some e => Err (EWrap ("store: baselines " +:+ networkKey +:+ ": " +:+ ErrorString e) [e])
  | None => Ok (map scan_baseline
                  (isort baseline_row_le
                    (List.filter (fun p => p.1.1 =?s networkKey) (map_to_list (t_baselines s)))))
  end.

Definition PutBaseline (fault : option error) (now : Time) (b : Baseline) (s : DB) : DB * option error :=
  if (bl_NetworkKey b =?s "") || (bl_Anchor b =?s "") then
    (s, Some (ELeaf "store: put baseline: network key and anchor are required"))
  else
    let b := if time_IsZero (bl_UpdatedAt b)
             then mkBaseline (bl_NetworkKey b) (bl_Anchor b) (bl_State b) (bl_SampleCount b)
                    (bl_BaselineRTT b) (bl_BaselineLoss b) (bl_CurrentRTT b) (bl_CurrentLoss b)
                    (bl_CurrentDNS b) (bl_Since b) now
             else b in
    match fault with
    | Some e => (s, err_wrap ("store: put baseline " +:+ bl_NetworkKey b +:+ "/" +:+ bl_Anchor b) e)
    | None => (set_t_baselines (<[(bl_NetworkKey b, bl_Anchor b) := baseline_cols b]> (t_baselines s)) s, None)
    end.

Definition DeleteBaselines (fault : option error) (networkKey : string) (s : DB) : DB * option error :=
  match fault with
  | Some e => (s, err_wrap ("store: delete baselines " +:+ networkKey) e)
  | None => (set_t_baselines (filter (fun p => p.1.1 <> networkKey) (t_baselines s)) s, None)
  end.

(** ** Speed results *)

Definition boolInt (b : bool) : Z := if b then 1 else 0.

Definition speed_cols (r : SpeedResult) : SpeedCols :=
  mkSpeedCols (sr_NetworkKey r) (sr_Provider r) (sr_Server r) (sr_DownloadMbps r) (sr_UploadMbps r)
    (sr_LatencyMs r) (sr_JitterMs r) (sr_BytesMoved r) (sr_Duration r) (boolInt (sr_Quick r)).

Definition scan_speed (r : row SpeedCols) : SpeedResult :=
  let c := row_cols r in
  mkSpeedResult (fromNanos (row_time r)) (pc_network_key c) (pc_provider c) (pc_server c)
    (pc_download_mbps c) (pc_upload_mbps c) (pc_latency_ms c) (pc_jitter_ms c)
    (pc_bytes_moved c) (pc_duration_ns c) (negb (pc_quick c =? 0)).

Definition AddSpeedResult (fault : option error) (now : Time) (r : SpeedResult) (s : DB) : DB * option error :=
  let t := if time_IsZero (sr_Time r) then now else sr_Time r in
  match fault with
  | Some e => (s, err_wrap "store: add speed result" e)
  | None => (set_t_speed (insert_row (toNanos t) (speed_cols r) (t_speed_results s)) s, None)
  end.

Definition SpeedResults (fault : option error) (networkKey : string) (limit : Z) (s : DB) :
    result error (list SpeedResult) :=
  match fault with
  | Some e => Err (EWrap ("store: speed results: " +:+ ErrorString e) [e])
  | None => Ok (map scan_speed (select_rows limit
              (List.filter (fun r => (networkKey =?s "") || (pc_network_key (row_cols r) =?s networkKey))
                 (t_speed_results s))))
  end.

(** ** Events *)

Section Events.
(** encoding/json on a [map[string]string]: what [AddEvent] writes and
    [Events] reads back. *)
Context (json_Marshal : gmap string string -> string).
Context (json_Unmarshal : string -> result error (gmap string string)).

Definition AddEvent (fault : option error) (now : Time) (e : Event) (s : DB) : DB * option error :=
  if ev_Type e =?s "" then (s, Some (ELeaf "store: add event: type is required"))
  else
    let t := if time_IsZero (ev_Time e) then now else ev_Time e in
    let data := if Nat.ltb 0 (size (ev_Data e)) then json_Marshal (ev_Data e) else "" in
    match fault with
    | Some err => (s, err_wrap ("store: add event " +:+ ev_Type e) err)
    | None =>
        (set_t_events (insert_row (toNanos t)
           (mkEventCols (ev_Type e) (ev_NetworkKey e) (ev_Title e) (ev_Body e) (ev_Urgency e) data)
           (t_events s)) s, None)
    end.

Definition scan_event (r : row EventCols) : result error Event :=
  let c := row_cols r in
  let e := mkEvent (fromNanos (row_time r)) (ec_type c) (ec_network_key c) (ec_title c)
             (ec_body c) (ec_urgency c) in
  if ec_data c =?s "" then Ok (e ∅)
  else match json_Unmarshal (ec_data c) with
       | Ok d => Ok (e d)
       | Err er => Err (EWrap ("store: events: decode data: " +:+ ErrorString er) [er])
       end.

(** The scan runs before the in-place [reverse]: a bad row fails the call
    whatever the order. *)
Definition Events (fault : option error) (limit : Z) (s : DB) : result error (list Event) :=
  match fault with
  | Some e => Err (EWrap ("store: events: " +:+ ErrorString e) [e])
  | None =>
      if 0 <? limit then
        l <-? result_mapM scan_event (take (Z.to_nat limit) (isort row_ge (t_events s))) ;;
        Ok (rev l)
      else result_mapM scan_event (isort row_le (t_events s))
  end.
End Events.

(** ** Settings *)

Definition Get (fault : option error) (key : string) (s : DB) : result error (string * bool) :=
  match fault with
  | Some e => Err (EWrap ("store: get: " +:+ ErrorString e) [e])
  | None => match t_settings s !! key with
            | Some v => Ok (v, true)
            | None => Ok ("", false)
            end
  end.

Definition Set_ (fault : option error) (key value : string) (s : DB) : DB * option error :=
  if key =?s "" then (s, Some (ELeaf "store: set: empty key"))
  else match fault with
       | Some e => (s, err_wrap "store: set" e)
       | None => (set_t_settings (<[key := value]> (t_settings s)) s, None)
       end.

Definition Delete (fault : option error) (key : string) (s : DB) : DB * option error :=
  match fault with
  | Some e => (s, err_wrap "store: delete" e)
  | None => (set_t_settings (delete key (t_settings s)) s, None)
  end.

(** ** Prune: two statements, each may fail; the first one's deletions stay. *)
Definition Prune (fault1 fault2 : option error) (now : Time) (s : DB) : DB * option error :=
  let cutoff := int64_of (now - retention s - unix_epoch) in
  match fault1 with
  | Some e => (s, err_wrap "store: prune samples" e)
  | None =>
      let s := set_t_samples (List.filter (fun r => negb (row_time r <? cutoff)) (t_samples s)) s in
      match fault2 with
      | Some e => (s, err_wrap "store: prune events" e)
      | None => (set_t_events (List.filter (fun r => negb (row_time r <? cutoff)) (t_events s)) s, None)
      end
  end.

(** ** Schema migrations *)

(** What the migrations left in a database: the versions recorded, the entries
    of the numbered list that ran, and those of which only a part took effect. *)
Record Schema := mkSchema { sch_versions : list Z; sch_applied : list Z; sch_partial : list Z }.

Definition schema_current (s : Schema) : Z := foldr Z.max 0 (sch_versions s).

(** The database and the transaction in progress, with what it would commit. *)
Record Conn := mkConn { cn_db : Schema; cn_tx : option Schema }.

(** [database/sql] over SQLite.  A transaction left open holds the lock; an
    entry of several statements may fail behind the first of them; a [Commit]
    that fails commits nothing and does not end the transaction, which only
    [Rollback] and the end of the connection do. *)
Definition BeginTx (fault : option error) (c : Conn) : Conn * option error :=
  match fault, cn_tx c with
  | Some e, _ => (c, Some e)
  | None, Some _ => (c, Some (ELeaf "database is locked"))
  | None, None => (mkConn (cn_db c) (Some (cn_db c)), None)
  end.
Definition tx_do (f : Schema -> Schema) (c : Conn) : Conn := mkConn (cn_db c) (f <$> cn_tx c).
Definition exec_entry (fault : option error) (i : Z) (c : Conn) : Conn * option error :=
  match fault with
  | Some e => (tx_do (fun s => mkSchema (sch_versions s) (sch_applied s) (sch_partial s ++ [i])) c, Some e)
  | None => (tx_do (fun s => mkSchema (sch_versions s) (sch_applied s ++ [i]) (sch_partial s)) c, None)
  end.
Definition exec_record (fault : option error) (version : Z) (c : Conn) : Conn * option error :=
  match fault with
  | Some e => (c, Some e)
  | None => (tx_do (fun s => mkSchema (sch_versions s ++ [version]) (sch_applied s) (sch_partial s)) c, None)
  end.
Definition Rollback (c : Conn) : Conn := mkConn (cn_db c) None.
Definition Commit (fault : option error) (c : Conn) : Conn * option error :=
  match fault, cn_tx c with
  | Some e, _ => (c, Some e)
  | None, Some s => (mkConn s None, None)
  | None, None => (c, Some (ELeaf "sql: transaction has already been committed or rolled back"))
  end.

(** What goes wrong: at the table of migrations and its query, and at each
    step of the transaction of a version. *)
Record TxFaults := mkTxFaults { tf_begin : option error; tf_exec : option error; tf_record : option error; tf_commit : option error }.
Record MigrateFaults := mkMigrateFaults { mf_create : option error; mf_query : option error; mf_tx : Z -> TxFaults }.

(** One turn of the loop: entry [i], in a transaction of its own. *)
Definition migrate_one (faults : TxFaults) (i : nat) (c : Conn) : Conn * option error :=
  let version := Z.of_nat i + 1 in
  let '(c, err) := BeginTx (tf_begin faults) c in
  match err with
  | Some e => (c, Some e)
  | None =>
      let '(c, err) := exec_entry (tf_exec faults) (Z.of_nat i) c in
      match err with
      | Some e => (Rollback c, err_wrap ("migration " +:+ Itoa version) e)
      | None =>
          let '(c, err) := exec_record (tf_record faults) version c in
          match err with
          | Some e => (Rollback c, err_wrap ("migration " +:+ Itoa version +:+ ": record") e)
          | None =>
              let '(c, err) := Commit (tf_commit faults) c in
              match err with
              | Some e => (c, err_wrap ("migration " +:+ Itoa version +:+ ": commit") e)
              | None => (c, None)
              end
          end
      end
  end.

Fixpoint migrate_loop (faults : Z -> TxFaults) (i n : nat) (c : Conn) : Conn * option error :=
  match n with
  | O => (c, None)
  | S n' =>
      let '(c, err) := migrate_one (faults (Z.of_nat i + 1)) i c in
      match err with
      | Some e => (c, Some e)
      | None => migrate_loop faults (S i) n' c
      end
  end.

Definition migrate (migrations : nat) (faults : MigrateFaults) (c : Conn) : Conn * option error :=
  match mf_create faults, mf_query faults with
  | Some e, _ => (c, Some e)
  | None, Some e => (c, Some e)
  | None, None =>
      let current := schema_current (cn_db c) in
      if Z.of_nat migrations <? current then
        (c, Some (ELeaf ("database schema version " +:+ Itoa current +:+ " is newer than this build supports (" +:+ Itoa (Z.of_nat migrations) +:+ ")")))
      else migrate_loop (mf_tx faults) (Z.to_nat current) (migrations - Z.to_nat current) c
  end.

(** [Open] behind [sql.Open]: what does not migrate is closed. *)
Definition Open (migrations : nat) (faults : MigrateFaults) (path : string) (c : Conn) : Conn * option error :=
  let '(c, err) := migrate migrations faults c in
  match err with
  | Some e => (Rollback c, err_wrap ("store: migrate " +:+ path) e)
  | None => (c, None)
  end.

Definition SchemaVersion (fault : option error) (s : Schema) : result error Z :=
  match fault with
  | Some e => Err (EWrap ("store: schema version: " +:+ ErrorString e) [e])
  | None => Ok (schema_current s)
  end.

(** ** Lemmas: ordering and limits *)

Lemma row_le_total {C} (a b : row C) : row_le a b = true \/ row_le b a = true.
Proof. unfold row_le. rewrite !orb_true_iff, !andb_true_iff, !Z.ltb_lt, !Z.eqb_eq, !Z.leb_le. lia. Qed.

Lemma row_le_trans {C} (a b c : row C) :
  row_le a b = true -> row_le b c = true -> row_le a c = true.
Proof. unfold row_le. rewrite !orb_true_iff, !andb_true_iff, !Z.ltb_lt, !Z.eqb_eq, !Z.leb_le. lia. Qed.

(** Row ids are unique: the primary key. *)
Definition unique_ids {C} (t : list (row C)) : Prop := NoDup (map row_id t).

Lemma unique_ids_inj {C} (t : list (row C)) a b :
  unique_ids t -> a ∈ t -> b ∈ t -> row_id a = row_id b -> a = b.
Proof.
  unfold unique_ids. induction t as [|r t IH]; intros Hnd Ha Hb Hid; simpl in *.
  - by apply not_elem_of_nil in Ha.
  - apply NoDup_cons in Hnd as [Hr Hnd].
    apply elem_of_cons in Ha as [->|Ha], Hb as [->|Hb]; try done.
    + exfalso; apply Hr. rewrite Hid. apply list_elem_of_fmap; eauto.
    + exfalso; apply Hr. rewrite <- Hid. apply list_elem_of_fmap; eauto.
    + by apply IH.
Qed.

Lemma row_le_antisym {C} (t : list (row C)) a b :
  unique_ids t -> a ∈ t -> b ∈ t -> row_le a b = true -> row_le b a = true -> a = b.
Proof.
  unfold row_le. rewrite !orb_true_iff, !andb_true_iff, !Z.ltb_lt, !Z.eqb_eq, !Z.leb_le.
  intros ???[?|[??]] [?|[??]]; try lia. eapply unique_ids_inj; eauto. lia.
Qed.

Lemma unique_ids_filter {C} (p : row C -> bool) (t : list (row C)) :
  unique_ids t -> unique_ids (List.filter p t).
Proof. apply NoDup_map_filter. Qed.

Lemma next_id_fresh {C} (t : list (row C)) r : r ∈ t -> row_id r < next_id t.
Proof.
  unfold next_id. induction t as [|x t IH]; intros Hr; simpl.
  - by apply not_elem_of_nil in Hr.
  - apply elem_of_cons in Hr as [->|Hr]; [lia|]. specialize (IH Hr). lia.
Qed.

Lemma unique_ids_insert {C} time (c : C) t : unique_ids t -> unique_ids (insert_row time c t).
Proof.
  unfold unique_ids, insert_row. intros Hnd. rewrite map_app. apply NoDup_app; split_and!; [done| |apply NoDup_singleton].
  simpl. intros i Hi Hi'. apply list_elem_of_singleton in Hi'.
  apply list_elem_of_fmap in Hi as (r & -> & Hr). apply next_id_fresh in Hr. lia.
Qed.

(** Reversed descending order is ascending order. *)
Lemma StronglySorted_rev {A} (R : A -> A -> Prop) (l : list A) :
  StronglySorted R l -> StronglySorted (fun a b => R b a) (rev l).
Proof.
  induction l as [|x l IH]; simpl; intros Hl; [constructor|].
  apply StronglySorted_inv in Hl as [Hl Hx]. specialize (IH Hl).
  assert (Forall (fun a => R x a) (rev l)) as Hx' by (by rewrite <- Permutation_rev).
  clear Hx Hl. induction (rev l) as [|y l' IH']; simpl; [repeat constructor|].
  apply StronglySorted_inv in IH as [IH Hy]. apply Forall_cons in Hx' as [Hxy Hx'].
  constructor; [by apply IH'|]. apply Forall_app; split; [done|]. by repeat constructor.
Qed.

Lemma isort_ge_rev {C} (t : list (row C)) :
  unique_ids t -> rev (isort row_ge t) = isort row_le t.
Proof.
  intros Hu.
  assert (forall a b, row_le a b = true -> row_le b a = true -> a ∈ t -> b ∈ t -> a = b) as Hanti
    by (intros; eapply row_le_antisym; eauto).
  apply (sorted_perm_unique row_le).
  - intros x y Hx Hy ??.
    assert (forall z, z ∈ rev (isort row_ge t) -> z ∈ t) as Hin.
    { intros z. rewrite <- Permutation_rev. by rewrite isort_elem. }
    auto.
  - eapply StronglySorted_rev with (R := fun a b => row_ge a b = true).
    apply isort_sorted; unfold row_ge; [intros; apply row_le_total|].
    intros x y z ??. by apply (row_le_trans z y x).
  - apply isort_sorted; [apply row_le_total|apply row_le_trans].
  - by rewrite <- Permutation_rev, !isort_perm.
Qed.

Lemma rev_take_rev {A} (n : nat) (l : list A) : rev (take n (rev l)) = drop (length l - n) l.
Proof. rewrite firstn_rev. apply rev_involutive. Qed.

(** A limit keeps the newest rows of the unlimited answer. *)
Lemma select_rows_limit {C} (limit : Z) (rows : list (row C)) :
  unique_ids rows -> 0 < limit -> select_rows limit rows = keep_last limit (select_rows 0 rows).
Proof.
  intros Hu Hl. unfold select_rows. simpl.
  destruct (Z.ltb_spec 0 limit); [|lia].
  rewrite <- (rev_involutive (isort row_ge rows)), isort_ge_rev by done.
  rewrite rev_take_rev. unfold keep_last, drop_front, len.
  destruct (Z.ltb_spec 0 (Z.of_nat (length (isort row_le rows)) - limit)).
  - f_equal. lia.
  - replace (length (isort row_le rows) - Z.to_nat limit)%nat with 0%nat by lia. done.
Qed.

Lemma select_rows_elem {C} (rows : list (row C)) r : r ∈ select_rows 0 rows <-> r ∈ rows.
Proof. unfold select_rows; simpl. apply isort_elem. Qed.

(** ** The tables' invariant *)

Record db_ok (s : DB) : Prop := {
  ok_samples : unique_ids (t_samples s);
  ok_speed : unique_ids (t_speed_results s);
  ok_events : unique_ids (t_events s);
  ok_retention : 0 < retention s
}.

Lemma DB_empty_ok r : 0 < r -> db_ok (DB_empty r).
Proof. intros; constructor; simpl; [apply NoDup_nil_2..|done]. Qed.

(** ** Preservation *)

Lemma AddSample_ok fault now sm s : db_ok s -> db_ok (AddSample fault now sm s).1.
Proof.
  intros [? ? ? ?]. unfold AddSample. case_test; [by constructor|].
  destruct fault; constructor; simpl; auto using unique_ids_insert.
Qed.

Lemma PutBaseline_ok fault now b s : db_ok s -> db_ok (PutBaseline fault now b s).1.
Proof.
  intros [? ? ? ?]. unfold PutBaseline. case_test; [by constructor|].
  destruct fault; by constructor.
Qed.

Lemma DeleteBaselines_ok fault k s : db_ok s -> db_ok (DeleteBaselines fault k s).1.
Proof. intros [? ? ? ?]. destruct fault; by constructor. Qed.

Lemma AddSpeedResult_ok fault now r s : db_ok s -> db_ok (AddSpeedResult fault now r s).1.
Proof.
  intros [? ? ? ?]. unfold AddSpeedResult.
  destruct fault; constructor; simpl; auto using unique_ids_insert.
Qed.

Lemma Prune_ok f1 f2 now s : db_ok s -> db_ok (Prune f1 f2 now s).1.
Proof.
  intros [? ? ? ?]. unfold Prune.
  destruct f1; [by constructor|]. destruct f2; constructor; simpl; auto using unique_ids_filter.
Qed.

#[export] Hint Resolve AddSample_ok PutBaseline_ok DeleteBaselines_ok AddSpeedResult_ok Prune_ok : bnm.

(** ** The interface the monitor uses *)

(** The methods of core.Store the monitor calls. *)
Class MonitorStore (S : Type) := {
  ms_AddSample : option error -> Time -> Sample -> S -> S * option error;
  ms_Samples : option error -> string -> string -> Z -> S -> result error (list Sample);
  ms_Baselines : option error -> string -> S -> result error (list Baseline);
  ms_PutBaseline : option error -> Time -> Baseline -> S -> S * option error;
  ms_DeleteBaselines : option error -> string -> S -> S * option error;
  ms_Prune : option error -> option error -> Time -> S -> S * option error
}.

(** The sample as the store keeps it: a missing time is stamped. *)
Definition stamped (now : Time) (sm : Sample) : Sample :=
  mkSample (if time_IsZero (smp_Time sm) then now else smp_Time sm) (smp_NetworkKey sm)
    (smp_Anchor sm) (smp_AnchorAddr sm) (smp_RTTms sm) (smp_Loss sm) (smp_DNSms sm) (smp_Method sm).

(** What the store promises, in terms of two views of its state: the samples
    of a key and anchor (oldest first) and the baseline of a key and anchor. *)
Class MonitorStoreLaws (S : Type) {M : MonitorStore S} := {
  store_inv : S -> Prop;
  history : S -> string -> string -> list Sample;
  kept : S -> string -> string -> option Baseline;

  law_samples : forall s k a n, store_inv s ->
    ms_Samples None k a n s = Ok (if 0 <? n then keep_last n (history s k a) else history s k a);
  law_samples_fault : forall s k a n e, is_ok (ms_Samples (Some e) k a n s) = false;
  law_baselines_fault : forall s k e, is_ok (ms_Baselines (Some e) k s) = false;
  law_baselines : forall s k, store_inv s -> exists l,
    ms_Baselines None k s = Ok l /\ (forall b, b ∈ l -> bl_NetworkKey b = k) /\
    NoDup (map bl_Anchor l) /\ forall b, b ∈ l <-> bl_NetworkKey b = k /\ kept s k (bl_Anchor b) = Some b;

  law_add_inv : forall f now sm s, store_inv s -> store_inv (ms_AddSample f now sm s).1;
  law_add : forall f now sm s k a, store_inv s ->
    storable (smp_Time (stamped now sm)) -> smp_NetworkKey sm <> "" -> smp_Anchor sm <> "" -> a <> "" ->
    history (ms_AddSample f now sm s).1 k a ≡ₚ
      history s k a ++
      (if bool_decide (f = None /\ smp_NetworkKey sm = k /\ smp_Anchor sm = a) then [stamped now sm] else []);
  law_add_kept : forall f now sm s k a, kept (ms_AddSample f now sm s).1 k a = kept s k a;
  law_add_refused : forall f now sm s k a, smp_NetworkKey sm = "" \/ smp_Anchor sm = "" ->
    history (ms_AddSample f now sm s).1 k a = history s k a;
  law_add_other : forall f now sm s k a, smp_NetworkKey sm <> k ->
    history (ms_AddSample f now sm s).1 k a = history s k a;

  law_put_inv : forall f now b s, store_inv s -> store_inv (ms_PutBaseline f now b s).1;
  law_put_history : forall f now b s k a, history (ms_PutBaseline f now b s).1 k a = history s k a;
  law_put_other : forall f now b s k a, bl_NetworkKey b <> k ->
    kept (ms_PutBaseline f now b s).1 k a = kept s k a;
  law_put_state : forall f now b s k a b', kept (ms_PutBaseline f now b s).1 k a = Some b' ->
    kept s k a = Some b' \/ bl_State b' = bl_State b;
  law_history_key : forall s k a x, x ∈ history s k a -> smp_NetworkKey x = k;

  law_delete_inv : forall f k s, store_inv s -> store_inv (ms_DeleteBaselines f k s).1;
  law_delete_history : forall f k' s k a, history (ms_DeleteBaselines f k' s).1 k a = history s k a;
  law_delete : forall f k' s k a,
    kept (ms_DeleteBaselines f k' s).1 k a =
      if bool_decide (f = None /\ k = k') then None else kept s k a;

  law_prune_inv : forall f1 f2 now s, store_inv s -> store_inv (ms_Prune f1 f2 now s).1;
  law_prune_kept : forall f1 f2 now s k a, kept (ms_Prune f1 f2 now s).1 k a = kept s k a
}.

#[export] Instance DB_MonitorStore : MonitorStore DB := {
  ms_AddSample := AddSample;
  ms_Samples := Samples;
  ms_Baselines := store_Baselines;
  ms_PutBaseline := PutBaseline;
  ms_DeleteBaselines := DeleteBaselines;
  ms_Prune := Prune
}.

Definition DB_history (s : DB) (k a : string) : list Sample :=
  map scan_sample (select_rows 0 (List.filter (sample_where k a) (t_samples s))).

Definition DB_kept (s : DB) (k a : string) : option Baseline :=
  (fun c => scan_baseline ((k, a), c)) <$> t_baselines s !! (k, a).

Lemma keep_last_map {A B} (f : A -> B) n (l : list A) : keep_last n (map f l) = map f (keep_last n l).
Proof.
  unfold keep_last, drop_front, len. rewrite length_map. case_test; [|done]. by rewrite skipn_map.
Qed.

Lemma DB_samples s k a n : db_ok s ->
  Samples None k a n s = Ok (if 0 <? n then keep_last n (DB_history s k a) else DB_history s k a).
Proof.
  intros [Hs _ _ _]. unfold Samples, DB_history. f_equal.
  destruct (Z.ltb_spec 0 n).
  - rewrite select_rows_limit, keep_last_map by auto using unique_ids_filter. done.
  - unfold select_rows. simpl. by destruct (Z.ltb_spec 0 n); [lia|].
Qed.

Lemma isort_snoc_perm {A} (le : A -> A -> bool) l x : isort le (l ++ [x]) ≡ₚ isort le l ++ [x].
Proof. by rewrite !isort_perm. Qed.

Lemma scan_sample_insert now sm id :
  storable (smp_Time (stamped now sm)) ->
  scan_sample (mkRow id (toNanos (smp_Time (stamped now sm))) (sample_row_cols sm)) = stamped now sm.
Proof. intros H. unfold scan_sample; cbn [row_cols row_time]. rewrite fromNanos_toNanos by done. done. Qed.

Lemma sample_where_spec k a r :
  a <> "" -> sample_where k a r = true <-> sc_network_key (row_cols r) = k /\ sc_anchor (row_cols r) = a.
Proof.
  intros Ha. unfold sample_where. apply seqb_ne in Ha as ->. simpl.
  by rewrite andb_true_iff, !String.eqb_eq.
Qed.

Lemma DB_add f now sm s k a :
  storable (smp_Time (stamped now sm)) -> smp_NetworkKey sm <> "" -> smp_Anchor sm <> "" -> a <> "" ->
  DB_history (AddSample f now sm s).1 k a ≡ₚ
    DB_history s k a ++
    (if bool_decide (f = None /\ smp_NetworkKey sm = k /\ smp_Anchor sm = a) then [stamped now sm] else []).
Proof.
  intros Hst Hk Ha Hna. unfold AddSample. rewrite !seqb_ne by done. simpl.
  destruct f as [e|]; simpl.
  { by rewrite app_nil_r. }
  unfold DB_history, select_rows, set_t_samples, insert_row; simpl.
  rewrite List.filter_app, !isort_perm, map_app. simpl.
  apply Permutation_app_head.
  match goal with |- context [sample_where k a ?r] => pose proof (sample_where_spec k a r Hna) as Hw end.
  simpl in Hw. destruct (sample_where k a _) eqn:Hb.
  - rewrite bool_decide_eq_true_2 by (destruct Hw as [Hw _]; split; auto). simpl.
    fold (smp_Time (stamped now sm)) in *. by rewrite <- (scan_sample_insert now sm (next_id (t_samples s)) Hst).
  - rewrite bool_decide_eq_false_2; [done|]. intros [_ H]. apply Hw in H. congruence.
Qed.

Lemma DB_add_other f now sm s k a : smp_NetworkKey sm <> k ->
  DB_history (AddSample f now sm s).1 k a = DB_history s k a.
Proof.
  intros Hne. unfold AddSample. case_test; [done|]. destruct f; [done|].
  unfold DB_history, set_t_samples, insert_row; simpl. rewrite List.filter_app. simpl.
  assert (forall r : row SampleCols, sc_network_key (row_cols r) = smp_NetworkKey sm -> sample_where k a r = false) as Hf.
  { intros r Hr. unfold sample_where. rewrite Hr. by rewrite seqb_ne. }
  rewrite Hf by done. by rewrite app_nil_r.
Qed.

Lemma DB_baselines_elem s k b :
  b ∈ map scan_baseline (isort baseline_row_le (List.filter (fun p => p.1.1 =?s k) (map_to_list (t_baselines s)))) <->
  bl_NetworkKey b = k /\ DB_kept s k (bl_Anchor b) = Some b.
Proof.
  rewrite list_elem_of_fmap. setoid_rewrite isort_elem. setoid_rewrite list_elem_of_In. setoid_rewrite filter_In.
  setoid_rewrite <- list_elem_of_In. unfold DB_kept. split.
  - intros ([[k' a] c] & -> & Hin & Hk). apply elem_of_map_to_list in Hin. simpl in Hk. apply String.eqb_eq in Hk as ->.
    simpl. split; [done|]. by rewrite Hin.
  - intros [Hk Hb]. destruct (t_baselines s !! (k, bl_Anchor b)) as [c|] eqn:Hl; [|done]. simpl in Hb. injection Hb as Hb.
    exists ((k, bl_Anchor b), c). split; [done|]. split; [by apply elem_of_map_to_list|]. simpl. apply seqb_refl.
Qed.

Lemma DB_baselines_NoDup s k :
  NoDup (map bl_Anchor (map scan_baseline
    (isort baseline_row_le (List.filter (fun p => p.1.1 =?s k) (map_to_list (t_baselines s)))))).
Proof.
  rewrite List.map_map.
  assert (NoDup (map fst (List.filter (fun p => p.1.1 =?s k) (map_to_list (t_baselines s))))) as Hnd.
  { by apply NoDup_map_filter, NoDup_fst_map_to_list. }
  rewrite (isort_perm baseline_row_le).
  assert (forall p, p ∈ List.filter (fun p => p.1.1 =?s k) (map_to_list (t_baselines s)) -> p.1.1 = k) as Hk.
  { intros p Hp. apply list_elem_of_In, filter_In in Hp as [_ Hp]. by apply String.eqb_eq in Hp. }
  revert Hnd Hk. generalize (List.filter (fun p => p.1.1 =?s k) (map_to_list (t_baselines s))).
  clear. induction l as [|[[k' a] c] l IH]; simpl; intros Hnd Hk; [constructor|].
  apply NoDup_cons in Hnd as [Hp Hnd]. apply NoDup_cons; split.
  - intros Hin; apply Hp. apply list_elem_of_fmap in Hin as ([[k2 a2] c2] & Heq & Hq). simpl in Heq. subst a2.
    apply list_elem_of_fmap. exists ((k2, a), c2). split; [|done]. simpl.
    pose proof (Hk ((k', a), c) ltac:(left)) as Hk1. pose proof (Hk ((k2, a), c2) ltac:(by right)) as Hk2.
    simpl in Hk1, Hk2. congruence.
  - apply IH; [done|]. intros p Hp'. apply Hk. by right.
Qed.

#[export, refine] Instance DB_MonitorStoreLaws : MonitorStoreLaws DB := {
  store_inv := db_ok;
  history := DB_history;
  kept := DB_kept;
  law_samples := _; law_samples_fault := _; law_baselines_fault := _; law_baselines := _;
  law_add_inv := _; law_add := _; law_add_kept := _; law_add_refused := _; law_add_other := _;
  law_put_inv := _; law_put_history := _; law_put_other := _;
  law_put_state := _; law_history_key := _;
  law_delete_inv := _; law_delete_history := _; law_delete := _;
  law_prune_inv := _; law_prune_kept := _
}.
Proof.
  - intros; by apply DB_samples.
  - done.
  - done.
  - intros s k Hs. eexists; split; [reflexivity|]. split_and!.
    + intros b Hb. by apply DB_baselines_elem in Hb as [? _].
    + apply DB_baselines_NoDup.
    + intros b. apply DB_baselines_elem.
  - intros; by apply AddSample_ok.
  - intros; by apply DB_add.
  - intros f now sm s k a. simpl. unfold AddSample. case_test; [done|]. by destruct f.
  - intros f now sm s k a [H|H]; simpl; unfold AddSample; rewrite H; [done|by rewrite orb_true_r].
  - intros; by apply DB_add_other.
  - intros; by apply PutBaseline_ok.
  - intros f now b s k a. simpl. unfold PutBaseline. case_test; [done|]. by destruct f.
  - intros f now b s k a Hne. simpl. unfold PutBaseline. case_test; [done|]. destruct f; [done|].
    unfold DB_kept; simpl. rewrite lookup_insert_ne; [done|]. case_test; simpl; congruence.
  - intros f now b s k a b'. simpl. unfold PutBaseline. case_test; [by left|]. destruct f; [by left|].
    unfold DB_kept; simpl t_baselines. rewrite lookup_insert. case_decide; [|by left].
    intros [= <-]. right. by destruct (time_IsZero (bl_UpdatedAt b)).
  - intros s k a x Hx. apply list_elem_of_fmap in Hx as (y & -> & Hy). rewrite select_rows_elem in Hy.
    apply list_elem_of_In, filter_In in Hy as [_ Hy]. unfold sample_where in Hy. by bool_to_prop.
  - intros; by apply DeleteBaselines_ok.
  - intros f k' s k a. by destruct f.
  - intros f k' s k a. destruct f as [e|].
    + by rewrite bool_decide_eq_false_2 by (by intros [? _]).
    + unfold DB_kept, ms_DeleteBaselines; simpl t_baselines. destruct (decide (k = k')) as [->|Hne].
      * rewrite bool_decide_eq_true_2 by done. rewrite map_lookup_filter_None_2; [done|]. right. intros x _ Hx. by apply Hx.
      * rewrite bool_decide_eq_false_2 by (by intros [_ ?]).
        destruct (t_baselines s !! (k, a)) as [c|] eqn:Hl.
        -- rewrite (map_lookup_filter_Some_2 _ _ _ c); done.
        -- rewrite map_lookup_filter_None_2 by (by left). done.
  - intros; by apply Prune_ok.
  - intros f1 f2 now s k a. simpl. unfold Prune. destruct f1; [done|]. by destruct f2.
Defined.
