(* ===== verification/StoreFacts.v ===== *)
(** What the history database guarantees: listings keep the newest rows, a
    stored baseline reads back, pruning removes exactly the old rows, and an
    open that fails at any step of a schema migration leaves the version before it,
    from which the next one resumes. *)

From S2P Require Import Prelude GoTime Core Errors Engine EngineFacts Store.


(** ** Listings *)

Lemma toNanos_fromNanos n : min_int64 <= n <= max_int64 -> toNanos (fromNanos n) = n.
Proof.
  unfold toNanos, fromNanos, time_IsZero. intros Hn. destruct (Z.eqb_spec n 0) as [->|Hz]; [done|].
  destruct (Z.eqb_spec (unix_epoch + n) 0) as [He|He].
  - unfold min_int64 in *. assert (unix_epoch = 62135596800000000000) as Hu by reflexivity. lia.
  - replace (unix_epoch + n - unix_epoch) with n by lia. by apply int64_of_id.
Qed.

Lemma toNanos_range t : min_int64 <= toNanos t <= max_int64.
Proof.
  unfold toNanos, int64_of, min_int64, max_int64. case_test; [lia|].
  pose proof (Z.mod_pos_bound (t - unix_epoch + 2 ^ 63) (2 ^ 64)). lia.
Qed.

(** The time column only ever holds 64-bit values. *)
Definition times_int64 {C} (t : list (row C)) : Prop :=
  forall r, r ∈ t -> min_int64 <= row_time r <= max_int64.

Lemma AddSample_times fault now sm s :
  times_int64 (t_samples s) -> times_int64 (t_samples (AddSample fault now sm s).1).
Proof.
  intros H. unfold AddSample. case_test; [done|]. destruct fault; [done|]. simpl.
  intros r Hr. apply elem_of_app in Hr as [Hr|Hr]; [by apply H|].
  apply list_elem_of_singleton in Hr as ->. apply toNanos_range.
Qed.

(** A database built by the source's writers from an empty file. *)
Inductive db_reachable (r : Duration) : DB -> Prop :=
| dbr_open : db_reachable r (DB_empty r)
| dbr_sample fault now sm s : db_reachable r s -> db_reachable r (AddSample fault now sm s).1
| dbr_put fault now b s : db_reachable r s -> db_reachable r (PutBaseline fault now b s).1
| dbr_del fault k s : db_reachable r s -> db_reachable r (DeleteBaselines fault k s).1
| dbr_speed fault now x s : db_reachable r s -> db_reachable r (AddSpeedResult fault now x s).1
| dbr_event marshal fault now e s : db_reachable r s -> db_reachable r (AddEvent marshal fault now e s).1
| dbr_set fault k v s : db_reachable r s -> db_reachable r (Set_ fault k v s).1
| dbr_unset fault k s : db_reachable r s -> db_reachable r (Delete fault k s).1
| dbr_prune f1 f2 now s : db_reachable r s -> db_reachable r (Prune f1 f2 now s).1.

Lemma Set__ok fault k v s : db_ok s -> db_ok (Set_ fault k v s).1.
Proof. intros [? ? ? ?]. unfold Set_. case_test; [by constructor|]. by destruct fault; constructor. Qed.

Lemma Delete_ok fault k s : db_ok s -> db_ok (Delete fault k s).1.
Proof. intros [? ? ? ?]. unfold Delete. by destruct fault; constructor. Qed.

Lemma AddEvent_ok marshal fault now e s : db_ok s -> db_ok (AddEvent marshal fault now e s).1.
Proof.
  intros [? ? ? ?]. unfold AddEvent. case_test; [by constructor|].
  destruct fault; constructor; simpl; auto using unique_ids_insert.
Qed.

#[export] Hint Resolve Set__ok Delete_ok AddEvent_ok DB_empty_ok : bnm.

Lemma db_reachable_ok r s : 0 < r -> db_reachable r s -> db_ok s.
Proof. intros Hr H; induction H; auto with bnm. Qed.

Lemma samples_times_filter (p : row SampleCols -> bool) t : times_int64 t -> times_int64 (List.filter p t).
Proof. intros H r Hr. apply list_elem_of_In, filter_In in Hr as [Hr _]. apply H. by apply list_elem_of_In. Qed.

Lemma db_reachable_times r s : db_reachable r s -> times_int64 (t_samples s).
Proof.
  intros H; induction H.
  - intros ? Hx. by apply not_elem_of_nil in Hx.
  - by apply AddSample_times.
  - unfold PutBaseline. case_test; [done|]. by destruct fault.
  - by destruct fault.
  - by destruct fault.
  - unfold AddEvent. case_test; [done|]. by destruct fault.
  - unfold Set_. case_test; [done|]. by destruct fault.
  - by destruct fault.
  - unfold Prune. destruct f1; [done|]. destruct f2; simpl; by apply samples_times_filter.
Qed.

Lemma map_sorted {A B} (f : A -> B) (R : A -> A -> Prop) (Q : B -> B -> Prop) l :
  (forall a b, a ∈ l -> b ∈ l -> R a b -> Q (f a) (f b)) -> StronglySorted R l -> StronglySorted Q (map f l).
Proof.
  induction l as [|x l IH]; intros H Hs; simpl; [constructor|].
  apply StronglySorted_inv in Hs as [Hs Hx]. constructor.
  - apply IH; [|done]. intros a b ??. apply H; by right.
  - apply Forall_forall. intros y Hy. apply list_elem_of_fmap in Hy as (z & -> & Hz).
    rewrite Forall_forall in Hx. apply H; [left|by right|]. by apply Hx.
Qed.

(** [Samples] of any database the daemon's writes can produce answers,
    without a limit, exactly the stored samples of the key (and anchor) in
    time order; with a limit, the newest [limit] of that same list, still oldest
    first. *)
Theorem Samples_newest (r : Duration) (s : DB) (k a : string) (limit : Z) :
  0 < r -> db_reachable r s -> 0 < limit ->
  exists all,
    Samples None k a 0 s = Ok all /\
    Samples None k a limit s = Ok (keep_last limit all) /\
    StronglySorted (fun x y => toNanos (smp_Time x) <= toNanos (smp_Time y)) all /\
    (forall x, x ∈ all -> smp_NetworkKey x = k /\ (a <> "" -> smp_Anchor x = a)) /\
    len all = len (List.filter (sample_where k a) (t_samples s)).
Proof.
  intros Hr Hre Hl. pose proof (db_reachable_ok _ _ Hr Hre) as Hok.
  exists (DB_history s k a). split_and!.
  - by rewrite DB_samples.
  - rewrite DB_samples by done. by destruct (Z.ltb_spec 0 limit); [|lia].
  - unfold DB_history, select_rows. simpl.
    apply map_sorted with (R := fun x y => row_le x y = true).
    + intros x y Hx Hy Hxy. rewrite isort_elem in Hx, Hy.
      pose proof (samples_times_filter (sample_where k a) _ (db_reachable_times _ _ Hre)) as Ht.
      simpl. rewrite !toNanos_fromNanos by auto.
      unfold row_le in Hxy. rewrite !orb_true_iff, !andb_true_iff, !Z.ltb_lt, !Z.eqb_eq in Hxy. lia.
    + apply isort_sorted; [apply row_le_total|apply row_le_trans].
  - intros x Hx. apply list_elem_of_fmap in Hx as (y & -> & Hy). unfold select_rows in Hy; simpl in Hy.
    rewrite isort_elem in Hy. apply list_elem_of_In, filter_In in Hy as [_ Hy]. unfold sample_where in Hy.
    bool_to_prop. split; [done|]. intros Ha. apply seqb_ne in Ha. rewrite Ha in *. simpl in *. by bool_to_prop.
  - unfold DB_history, select_rows, len. simpl. by rewrite length_map, isort_length.
Qed.

Definition demo_epoch : Time := unix_epoch + 1700000000 * second.
Definition demo_sample (k a : string) (t : Z) : Sample :=
  mkSample (demo_epoch + t) k a "192.0.2.1" (f_of_Z 5) f_zero f_minus_one "icmp".
Definition demo_db : DB :=
  fold_left (fun s sm => (AddSample None demo_epoch sm s).1)
    [demo_sample "wifi:Home" "1.1.1.1" 30; demo_sample "wifi:Home" "1.1.1.1" 10;
     demo_sample "wifi:Work" "1.1.1.1" 20; demo_sample "wifi:Home" "1.1.1.1" 20]
    (DB_empty DefaultRetention).

Lemma demo_db_reachable : db_reachable DefaultRetention demo_db.
Proof.
  unfold demo_db. generalize (dbr_open DefaultRetention).
  generalize (DB_empty DefaultRetention). 
  match goal with |- forall d, _ -> db_reachable _ (fold_left _ ?l _) => generalize l end.
  induction l as [|sm l IH]; intros s Hs; simpl; [done|]. by apply IH, dbr_sample.
Qed.

Lemma Samples_newest_witness :
  (exists all,
    Samples None "wifi:Home" "1.1.1.1" 0 demo_db = Ok all /\
    Samples None "wifi:Home" "1.1.1.1" 2 demo_db = Ok (keep_last 2 all) /\
    StronglySorted (fun x y => toNanos (smp_Time x) <= toNanos (smp_Time y)) all /\
    (forall x, x ∈ all -> smp_NetworkKey x = "wifi:Home" /\ ("1.1.1.1" <> "" -> smp_Anchor x = "1.1.1.1")) /\
    len all = len (List.filter (sample_where "wifi:Home" "1.1.1.1") (t_samples demo_db))) /\
  (match Samples None "wifi:Home" "1.1.1.1" 2 demo_db with
   | Ok l => map (fun x => smp_Time x - demo_epoch) l
   | Err _ => []
   end) = [20; 30].
Proof.
  split.
  - apply (Samples_newest DefaultRetention); [reflexivity|exact demo_db_reachable|reflexivity].
  - vm_compute. reflexivity.
Defined.

(** ** Baselines *)

(** The ranking of the SQL [ORDER BY] is the comparator of the engine's own
    [Baselines]. *)
Lemma baseline_row_le_engine x y :
  baseline_row_le x y = baseline_le (scan_baseline x) (scan_baseline y).
Proof.
  destruct x as [[kx ax] cx], y as [[ky ay] cy].
  unfold baseline_row_le, baseline_le, baseline_less, anchor_rank, GatewayAnchor; simpl.
  destruct (ax =?s "gateway"), (ay =?s "gateway"); simpl; done.
Qed.

Lemma anchor_rank_le x y :
  baseline_row_le x y = true <->
  anchor_rank x.1.2 < anchor_rank y.1.2 \/
  (anchor_rank x.1.2 = anchor_rank y.1.2 /\ String.ltb y.1.2 x.1.2 = false).
Proof. unfold baseline_row_le. by rewrite orb_true_iff, andb_true_iff, negb_true_iff, Z.ltb_lt, Z.eqb_eq. Qed.

Lemma baseline_row_le_total x y : baseline_row_le x y = true \/ baseline_row_le y x = true.
Proof.
  rewrite !baseline_row_le_engine. apply baseline_le_total.
Qed.

Lemma baseline_row_le_trans x y z :
  baseline_row_le x y = true -> baseline_row_le y z = true -> baseline_row_le x z = true.
Proof. rewrite !baseline_row_le_engine. apply baseline_le_trans. Qed.

(** The stored form of a baseline: its update time stamped when missing. *)
Definition stamped_baseline (now : Time) (b : Baseline) : Baseline :=
  mkBaseline (bl_NetworkKey b) (bl_Anchor b) (bl_State b) (bl_SampleCount b)
    (bl_BaselineRTT b) (bl_BaselineLoss b) (bl_CurrentRTT b) (bl_CurrentLoss b) (bl_CurrentDNS b)
    (bl_Since b) (if time_IsZero (bl_UpdatedAt b) then now else bl_UpdatedAt b).

Lemma PutBaseline_kept now b s k a :
  bl_NetworkKey b <> "" -> bl_Anchor b <> "" ->
  storable (bl_Since b) -> storable (bl_UpdatedAt (stamped_baseline now b)) ->
  DB_kept (PutBaseline None now b s).1 k a =
    if bool_decide (bl_NetworkKey b = k /\ bl_Anchor b = a) then Some (stamped_baseline now b)
    else DB_kept s k a.
Proof.
  intros Hk Ha Hs Hu. unfold PutBaseline. rewrite !seqb_ne by done. simpl orb. cbv iota.
  assert ((if time_IsZero (bl_UpdatedAt b)
           then mkBaseline (bl_NetworkKey b) (bl_Anchor b) (bl_State b) (bl_SampleCount b)
                  (bl_BaselineRTT b) (bl_BaselineLoss b) (bl_CurrentRTT b) (bl_CurrentLoss b)
                  (bl_CurrentDNS b) (bl_Since b) now
           else b) = stamped_baseline now b) as ->.
  { unfold stamped_baseline. destruct (time_IsZero (bl_UpdatedAt b)); [done|by destruct b]. }
  unfold DB_kept; simpl t_baselines. case_bool_decide as Hd.
  - destruct Hd as [<- <-]. rewrite lookup_insert_eq. simpl. f_equal. unfold stamped_baseline in *.
    simpl in *. by rewrite !fromNanos_toNanos.
  - rewrite lookup_insert_ne; [done|]. simpl. intros [= ??]. by apply Hd.
Qed.

(** a baseline written with [PutBaseline] reads back through [Baselines]
    exactly once and unchanged (its update time stamped when it was missing);
    it replaces only the previous row of the same network key and anchor, and
    the listing is ordered as the engine orders its own: gateway first, then
    by anchor. *)
Theorem PutBaseline_roundtrip (r : Duration) (s : DB) (now : Time) (b : Baseline) :
  0 < r -> db_reachable r s ->
  bl_NetworkKey b <> "" -> bl_Anchor b <> "" ->
  storable (bl_Since b) -> storable (bl_UpdatedAt (stamped_baseline now b)) ->
  exists before after,
    store_Baselines None (bl_NetworkKey b) s = Ok before /\
    store_Baselines None (bl_NetworkKey b) (PutBaseline None now b s).1 = Ok after /\
    (PutBaseline None now b s).2 = None /\
    after ≡ₚ stamped_baseline now b :: List.filter (fun x => negb (bl_Anchor x =?s bl_Anchor b)) before /\
    StronglySorted (fun x y => baseline_le x y = true) after /\
    (forall k a, k <> bl_NetworkKey b -> DB_kept (PutBaseline None now b s).1 k a = DB_kept s k a).
Proof.
  intros Hr Hre Hk Ha Hs Hu. pose proof (db_reachable_ok _ _ Hr Hre) as Hok.
  pose proof (PutBaseline_ok None now b s Hok) as Hok'.
  do 2 eexists. split_and!; [reflexivity|reflexivity| | | |].
  - unfold PutBaseline. by rewrite !seqb_ne by done.
  - apply NoDup_Permutation.
    + apply (NoDup_fmap_1 bl_Anchor), DB_baselines_NoDup.
    + apply NoDup_cons; split.
      * intros Hin. apply list_elem_of_In, filter_In in Hin as [_ Hin]. simpl in Hin. by rewrite seqb_refl in Hin.
      * apply NoDup_ListNoDup, List.NoDup_filter, NoDup_ListNoDup, (NoDup_fmap_1 bl_Anchor), DB_baselines_NoDup.
    + intros x. rewrite DB_baselines_elem, elem_of_cons, PutBaseline_kept by done.
      rewrite !list_elem_of_In, filter_In, <- !list_elem_of_In, DB_baselines_elem, negb_true_iff, String.eqb_neq.
      case_bool_decide as Hd.
      * destruct Hd as [_ Hd]. split; [intros [_ [= ->]]; by left|].
        intros [->|[_ Hne]]; [by split|congruence].
      * split.
        -- intros [Hx Hkx]. right. split; [done|]. intros He. apply Hd. by rewrite He.
        -- intros [->|[Hx _]]; [|done]. by destruct Hd.
  - apply map_sorted with (R := fun x y => baseline_row_le x y = true).
    + intros x y _ _ Hxy. by rewrite <- baseline_row_le_engine.
    + apply isort_sorted; [apply baseline_row_le_total|apply baseline_row_le_trans].
  - intros k a Hne. rewrite PutBaseline_kept by done. by rewrite bool_decide_eq_false_2 by (intros [? _]; congruence).
Qed.

Definition demo_baseline (a : string) (n : Z) : Baseline :=
  mkBaseline "wifi:Home" a BaselineOK n (f_of_Z 20) f_zero (f_of_Z 21) f_zero f_minus_one demo_epoch 0.

Definition demo_db_baselines : DB :=
  (PutBaseline None demo_epoch (demo_baseline "1.1.1.1" 41)
     (PutBaseline None demo_epoch (demo_baseline "gateway" 40) demo_db).1).1.

Lemma PutBaseline_roundtrip_witness :
  (exists before after,
    store_Baselines None "wifi:Home" demo_db_baselines = Ok before /\
    store_Baselines None "wifi:Home"
      (PutBaseline None (demo_epoch + 1) (demo_baseline "1.1.1.1" 42) demo_db_baselines).1 = Ok after /\
    (PutBaseline None (demo_epoch + 1) (demo_baseline "1.1.1.1" 42) demo_db_baselines).2 = None /\
    after ≡ₚ stamped_baseline (demo_epoch + 1) (demo_baseline "1.1.1.1" 42)
               :: List.filter (fun x => negb (bl_Anchor x =?s "1.1.1.1")) before /\
    StronglySorted (fun x y => baseline_le x y = true) after /\
    (forall k a, k <> "wifi:Home" ->
       DB_kept (PutBaseline None (demo_epoch + 1) (demo_baseline "1.1.1.1" 42) demo_db_baselines).1 k a =
       DB_kept demo_db_baselines k a)).
Proof.
  apply (PutBaseline_roundtrip DefaultRetention demo_db_baselines (demo_epoch + 1) (demo_baseline "1.1.1.1" 42)).
  - reflexivity.
  - unfold demo_db_baselines. apply dbr_put, dbr_put. exact demo_db_reachable.
  - discriminate.
  - discriminate.
  - right. split; [split; vm_compute; discriminate | vm_compute; discriminate].
  - right. split; [split; vm_compute; discriminate | vm_compute; discriminate].
Defined.

(** ** Pruning *)

Definition prune_cutoff (now : Time) (s : DB) : Z := now - retention s - unix_epoch.

(** [Prune] removes exactly the samples and events older than the
    retention window and touches nothing else; when the second statement
    fails the samples are already pruned and the error is reported; it never
    removes a row stamped within the window, whatever fails. *)
Theorem Prune_exact (f1 f2 : option error) (now : Time) (s : DB) :
  min_int64 <= prune_cutoff now s <= max_int64 ->
  let s' := (Prune f1 f2 now s).1 in
  let young {C} (r : row C) := prune_cutoff now s <= row_time r in
  (forall r, r ∈ t_samples s' <-> r ∈ t_samples s /\ (f1 = None -> young r)) /\
  (forall r, r ∈ t_events s' <-> r ∈ t_events s /\ (f1 = None -> f2 = None -> young r)) /\
  ((Prune f1 f2 now s).2 = None <-> f1 = None /\ f2 = None) /\
  t_baselines s' = t_baselines s /\ t_speed_results s' = t_speed_results s /\
  t_settings s' = t_settings s /\ retention s' = retention s.
Proof.
  intros Hc. unfold Prune. fold (prune_cutoff now s). rewrite int64_of_id by done.
  assert (forall C (t : list (row C)) r,
    r ∈ List.filter (fun r => negb (row_time r <? prune_cutoff now s)) t <->
    r ∈ t /\ prune_cutoff now s <= row_time r) as Hf.
  { intros C t r. by rewrite !list_elem_of_In, filter_In, negb_true_iff, Z.ltb_ge. }
  destruct f1 as [e|]; [|destruct f2 as [e|]]; simpl; split_and!; try done;
    try (intros r; rewrite ?Hf; naive_solver); try naive_solver.
Qed.

Definition demo_db_old : DB :=
  (AddSample None 0 (mkSample (demo_epoch - 31 * 24 * hour) "wifi:Home" "gateway" "" (f_of_Z 5) f_zero f_minus_one "icmp")
     demo_db).1.

Lemma Prune_exact_witness :
  let s' := (Prune None None demo_epoch demo_db_old).1 in
  ((forall r, r ∈ t_samples s' <-> r ∈ t_samples demo_db_old /\
     ((None : option error) = None -> prune_cutoff demo_epoch demo_db_old <= row_time r)) /\
   (forall r, r ∈ t_events s' <-> r ∈ t_events demo_db_old /\
     ((None : option error) = None -> (None : option error) = None -> prune_cutoff demo_epoch demo_db_old <= row_time r)) /\
   ((Prune None None demo_epoch demo_db_old).2 = None <-> (None : option error) = None /\ (None : option error) = None) /\
   t_baselines s' = t_baselines demo_db_old /\ t_speed_results s' = t_speed_results demo_db_old /\
   t_settings s' = t_settings demo_db_old /\ retention s' = retention demo_db_old) /\
  (length (t_samples demo_db_old), length (t_samples s')) = (5%nat, 4%nat).
Proof.
  split.
  - apply (Prune_exact None None demo_epoch demo_db_old). split; vm_compute; discriminate.
  - vm_compute. reflexivity.
Defined.

(** ** Schema migrations *)

(** A database at version [k]: versions 1..k recorded, statements 0..k-1 run, and none in part. *)
Definition at_version (k : nat) (s : Schema) : Prop :=
  sch_versions s = map Z.of_nat (seq 1 k) /\ sch_applied s = map Z.of_nat (seq 0 k) /\ sch_partial s = [].

Lemma schema_current_at k s : at_version k s -> schema_current s = Z.of_nat k.
Proof.
  intros [Hv _]. unfold schema_current. rewrite Hv. clear.
  assert (forall n a, (0 <= a)%nat -> foldr Z.max 0 (map Z.of_nat (seq a n)) =
    match n with O => 0 | _ => Z.of_nat (a + n - 1) end) as Hf.
  { induction n as [|n IH]; intros a Ha; [done|]. cbn [seq map foldr]. rewrite IH by lia.
    destruct n; lia. }
  rewrite Hf by lia. destruct k; lia.
Qed.

(** No step of the transaction fails. *)
Definition no_fault (f : TxFaults) : Prop := tf_begin f = None /\ tf_exec f = None /\ tf_record f = None /\ tf_commit f = None.

(** A turn of the loop commits its version, or fails and commits nothing; it
    leaves a transaction open only when [Commit] failed. *)
Lemma migrate_one_at f i c :
  at_version i (cn_db c) -> cn_tx c = None ->
  let '(c', err) := migrate_one f i c in
  (err = None <-> no_fault f) /\ at_version (if err is Some _ then i else S i) (cn_db c') /\ (err = None -> cn_tx c' = None).
Proof.
  intros (Hv & Ha & Hp) Ht. unfold migrate_one, no_fault, BeginTx. rewrite Ht. destruct f as [[e1|] [e2|] [e3|] [e4|]]; cbn -[seq];
    (split; [naive_solver|]); (split; [|done]); (split; [|split]); cbn -[seq]; try done.
  - rewrite seq_S, map_app, Hv. cbn. do 2 f_equal. lia.
  - by rewrite seq_S, map_app, Ha.
Qed.

Lemma migrate_loop_at faults n : forall i c, at_version i (cn_db c) -> cn_tx c = None ->
  let '(c', err) := migrate_loop faults i n c in
  exists k, (i <= k <= i + n)%nat /\ at_version k (cn_db c') /\ (err = None -> cn_tx c' = None) /\ (err = None <-> k = (i + n)%nat) /\
    (forall v, (i < v <= k)%nat -> no_fault (faults (Z.of_nat v))) /\ ((k < i + n)%nat -> ~ no_fault (faults (Z.of_nat k + 1))).
Proof.
  induction n as [|n IH]; intros i c Hs Ht; cbn [migrate_loop].
  - exists i. rewrite Nat.add_0_r. split_and!; try done; try lia.
  - pose proof (migrate_one_at (faults (Z.of_nat i + 1)) i c Hs Ht) as H1. destruct (migrate_one _ i c) as [c1 [e|]]; destruct H1 as (Hf & Hat & Ht1).
    + exists i. split_and!; try done; try lia; [split; [done|lia]|]. intros _ H. by apply Hf in H.
    + specialize (IH (S i) c1 Hat (Ht1 eq_refl)). destruct (migrate_loop faults (S i) n c1) as [c2 err].
      destruct IH as (k & Hk & Hat2 & Ht2 & Hn & Hall & Hlt). exists k. split_and!; try done; try lia.
      * rewrite Hn. lia.
      * intros v Hv. destruct (decide (v = S i)) as [->|]; [|apply Hall; lia].
        replace (Z.of_nat (S i)) with (Z.of_nat i + 1) by lia. by apply Hf.
      * intros Hk'. apply Hlt. lia.
Qed.

(** Opening it when the table of migrations answers. *)
Lemma Open_at n k faults path c :
  at_version k (cn_db c) -> cn_tx c = None -> mf_create faults = None -> mf_query faults = None -> (k <= n)%nat ->
  let '(c', err) := Open n faults path c in
  exists k', (k <= k' <= n)%nat /\ at_version k' (cn_db c') /\ cn_tx c' = None /\ (err = None <-> k' = n) /\
    (forall v, (k < v <= k')%nat -> no_fault (mf_tx faults (Z.of_nat v))) /\ ((k' < n)%nat -> ~ no_fault (mf_tx faults (Z.of_nat k' + 1))).
Proof.
  intros Hs Ht H1 H2 Hle. unfold Open, migrate. rewrite H1, H2, (schema_current_at _ _ Hs), Nat2Z.id.
  destruct (Z.ltb_spec (Z.of_nat n) (Z.of_nat k)); [lia|]. pose proof (migrate_loop_at (mf_tx faults) (n - k) k c Hs Ht) as Hl.
  replace (k + (n - k))%nat with n in Hl by lia. destruct (migrate_loop _ k (n - k) c) as [c' [e|]]; destruct Hl as (k' & Hk & Hat & Ht' & Hn & Hall & Hlt);
    exists k'; split_and!; try done; try lia; try (by apply Ht'); split; [done|by intros E%Hn].
Qed.

Definition tx_clean : TxFaults := mkTxFaults None None None None.
Definition clean_open : MigrateFaults := mkMigrateFaults None None (fun _ => tx_clean).

(** C4: Opening a database at version [k] with a build that knows [n] >= k
    migrations runs each missing one once and in order, each in a transaction of
    its own.  Whatever fails, the beginning of a transaction, a statement of it
    (perhaps behind others of its entry), the record of its version, its commit,
    or the table of migrations itself, the database is left at exactly the version
    before, with no part of the failed migration and no transaction open; a later
    open that nothing disturbs finishes at version [n] and runs no entry twice.  A
    newer schema is refused and left alone. *)
Theorem migrate_resumes (n k : nat) (faults : MigrateFaults) (path : string) (c : Conn) :
  at_version k (cn_db c) -> cn_tx c = None ->
  let '(c', err) := Open n faults path c in
  cn_tx c' = None /\
  ((n < k)%nat -> cn_db c' = cn_db c /\ err <> None) /\
  ((k <= n)%nat ->
   exists k', (k <= k' <= n)%nat /\ at_version k' (cn_db c') /\
     (err = None <-> k' = n /\ mf_create faults = None /\ mf_query faults = None) /\
     (forall v, (k < v <= k')%nat -> no_fault (mf_tx faults (Z.of_nat v))) /\
     ((k' < n)%nat -> mf_create faults <> None \/ mf_query faults <> None \/ ~ no_fault (mf_tx faults (Z.of_nat k' + 1))) /\
     let '(c2, err2) := Open n clean_open path c' in err2 = None /\ at_version n (cn_db c2) /\ cn_tx c2 = None).
Proof.
  intros Hs Ht.
  assert (forall k' c', at_version k' (cn_db c') -> cn_tx c' = None -> (k' <= n)%nat ->
    let '(c2, err2) := Open n clean_open path c' in err2 = None /\ at_version n (cn_db c2) /\ cn_tx c2 = None) as Hagain.
  { intros k' c' H1 H2 H3. pose proof (Open_at n k' clean_open path c' H1 H2 eq_refl eq_refl H3) as H. destruct (Open n clean_open path c') as [c2 err2].
    destruct H as (k2 & Hk2 & Hat & Ht2 & Hn & _ & Hlt). assert (k2 = n) as -> by (destruct (decide (k2 < n)%nat) as [Hl|]; [by destruct (Hlt Hl)|lia]).
    split; [by apply Hn|done]. }
  destruct (mf_create faults) as [e|] eqn:H1; [|destruct (mf_query faults) as [e|] eqn:H2].
  1,2: unfold Open, migrate; rewrite H1, ?H2; cbn; (split; [done|]); (split; [done|]); intros Hle; exists k; (split; [lia|]); (split; [done|]);
    (split; [by split; [|intros (_ & ? & ?)]|]); (split; [lia|]); (split; [auto|]); by apply (Hagain k (Rollback c)).
  destruct (decide (n < k)%nat) as [Hlt|Hge].
  - unfold Open, migrate. rewrite H1, H2, (schema_current_at _ _ Hs). destruct (Z.ltb_spec (Z.of_nat n) (Z.of_nat k)); [|lia]. cbn. split; [done|]. split; [done|lia].
  - assert (k <= n)%nat as Hle by lia. pose proof (Open_at n k faults path c Hs Ht H1 H2 Hle) as H. destruct (Open n faults path c) as [c' err].
    destruct H as (k' & Hk & Hat & Ht' & Hn & Hall & Hlt). split; [done|]. split; [lia|]. intros _. exists k'. split; [done|]. split; [done|].
    split; [rewrite Hn; tauto|]. split; [done|]. split; [auto|]. apply (Hagain k'); [done|done|lia].
Qed.

Definition demo_faults : MigrateFaults :=
  mkMigrateFaults None None (fun v => if v =? 2 then mkTxFaults None (Some (ELeaf "disk full")) None None else tx_clean).
Definition demo_conn : Conn := mkConn (mkSchema [] [] []) None.

Lemma migrate_resumes_witness :
  (let '(c', err) := Open 3 demo_faults "db" demo_conn in
   cn_tx c' = None /\ ((3 < 0)%nat -> cn_db c' = cn_db demo_conn /\ err <> None) /\
   ((0 <= 3)%nat ->
    exists k', (0 <= k' <= 3)%nat /\ at_version k' (cn_db c') /\
      (err = None <-> k' = 3%nat /\ mf_create demo_faults = None /\ mf_query demo_faults = None) /\
      (forall v, (0 < v <= k')%nat -> no_fault (mf_tx demo_faults (Z.of_nat v))) /\
      ((k' < 3)%nat -> mf_create demo_faults <> None \/ mf_query demo_faults <> None \/ ~ no_fault (mf_tx demo_faults (Z.of_nat k' + 1))) /\
      let '(c2, err2) := Open 3 clean_open "db" c' in err2 = None /\ at_version 3 (cn_db c2) /\ cn_tx c2 = None)) /\
  sch_versions (cn_db (Open 3 demo_faults "db" demo_conn).1) = [1] /\ sch_applied (cn_db (Open 3 demo_faults "db" demo_conn).1) = [0].
Proof. split; [apply (migrate_resumes 3 0 demo_faults "db" demo_conn); repeat split|split; reflexivity]. Defined.
