(* ===== verification/Monitor.v ===== *)
(** internal/monitor/monitor.go: the monitor.  It is the engine, the store, the
    current network and two buffered channels behind one mutex; every critical
    section is one step here, so the interleavings of the probe loop with
    SetNetwork, Pause, Resume, ResetBaseline and on-demand rounds are the
    orders of the steps.  A round is two steps, [round_start] and
    [round_finish], with the probes in between (their results are the
    environment's).

    The clock, the store's faults, the probes' results and the cancellation of
    contexts are arguments. *)

From S2P Require Import Prelude GoTime GoStrings Core Errors Engine Store.


(** ** Configuration *)

Definition DefaultInterval : Duration := 30 * second.
Definition DefaultProbeTimeout : Duration := 20 * second.
Definition pruneEvery : Duration := hour.
Definition eventBuffer : Z := 32.
Definition DefaultAnchors : list string := ["1.1.1.1"; "8.8.8.8"].

(** [mc_Anchors] is [None] for a nil slice: an empty list is kept. *)
Record MonitorConfig := mkMonitorConfig {
  mc_Interval : Duration;
  mc_Anchors : option (list string);
  mc_Resolver : string;
  mc_Engine : EngineConfig;
  mc_RoundTimeout : Duration
}.

Definition mc_withDefaults (c : MonitorConfig) : MonitorConfig := {|
  mc_Interval := if mc_Interval c <=? 0 then DefaultInterval else mc_Interval c;
  mc_Anchors := match mc_Anchors c with None => Some DefaultAnchors | a => a end;
  mc_Resolver := mc_Resolver c;
  mc_Engine := mc_Engine c;
  mc_RoundTimeout := if mc_RoundTimeout c <=? 0 then DefaultProbeTimeout else mc_RoundTimeout c
|}.

Definition anchors_of (c : MonitorConfig) : list string := default [] (mc_Anchors c).

(** ** Text *)

(** [displayName]: "wifi:Home" is "Home"; the [i > 0 && i < len(key)-1] test is
    that neither side of the first colon is empty. *)
Definition displayName (key : string) : string :=
  match Cut key ":" with
  | Some (a, b) => if negb (a =?s "") && negb (b =?s "") then b else key
  | None => key
  end.

Definition fmtMs (v : float64) : string := if (v <? f_zero)%float then "n/a" else Sprintf_0f v.
Definition fmtPct (v : float64) : string := Sprintf_0f (v * f_of_Z 100)%float +:+ " %".

Definition EventFor_data (tr : Transition) : gmap string string :=
  let b := tr_Baseline tr in
  list_to_map [
    ("anchor", tr_Anchor tr);
    ("from", tr_From tr);
    ("to", tr_To tr);
    ("reason", tr_Reason tr);
    ("current_rtt_ms", fmtMs (bl_CurrentRTT b));
    ("baseline_rtt_ms", fmtMs (bl_BaselineRTT b));
    ("current_loss", fmtPct (bl_CurrentLoss b));
    ("baseline_loss", fmtPct (bl_BaselineLoss b))].

(** [eventFor]: a key-level transition as a user-facing event. *)
Definition eventFor (tr : Transition) : option Event :=
  let b := tr_Baseline tr in
  let name := displayName (tr_NetworkKey tr) in
  let ev ty title body urgency :=
    mkEvent (tr_At tr) ty (tr_NetworkKey tr) title body urgency (EventFor_data tr) in
  if tr_To tr =?s BaselineDegraded then
    Some (ev EventDegraded "Network degraded"
      (if tr_Reason tr =?s ReasonLoss
       then "Packet loss to " +:+ tr_Anchor tr +:+ " is " +:+ fmtPct (bl_CurrentLoss b) +:+ ", usually " +:+
            fmtPct (bl_BaselineLoss b) +:+ " on " +:+ name
       else "Latency to " +:+ tr_Anchor tr +:+ " is " +:+ fmtMs (bl_CurrentRTT b) +:+ " ms, usually " +:+
            fmtMs (bl_BaselineRTT b) +:+ " ms on " +:+ name)
      "normal")
  else if (tr_From tr =?s BaselineDegraded) && (tr_To tr =?s BaselineOK) then
    Some (ev EventRecovered "Network recovered"
      ("Latency to " +:+ tr_Anchor tr +:+ " is back to " +:+ fmtMs (bl_CurrentRTT b) +:+ " ms on " +:+ name)
      "low")
  else None.

(** ** State *)

Record probeTarget := mkTarget { pt_anchor : string; pt_addr : string }.

(** A round between its two critical sections. *)
Record Round := mkRound { rd_key : string; rd_targets : list probeTarget; rd_now : Time }.

Section Monitor.
Context {S : Type} {MS : MonitorStore S}.

Record Monitor := mkMonitor {
  m_cfg : MonitorConfig;
  m_st : S;
  m_engine : Engine;
  m_networkKey : string;
  m_gatewayIP : string;
  m_paused : bool;
  m_lastSample : Time;
  m_lastPrune : Time;
  m_events : list Event;      (* chan core.Event, capacity eventBuffer *)
  m_changes : list Change;    (* chan core.Change, capacity eventBuffer *)
  m_wake : bool               (* chan struct{}, capacity 1 *)
}.

Definition New (c : MonitorConfig) (st : S) : Monitor :=
  mkMonitor (mc_withDefaults c) st (NewEngine (mc_Engine c)) "" "" false 0 0 [] [] false.

Definition with_st (st : S) (m : Monitor) : Monitor :=
  mkMonitor (m_cfg m) st (m_engine m) (m_networkKey m) (m_gatewayIP m) (m_paused m)
    (m_lastSample m) (m_lastPrune m) (m_events m) (m_changes m) (m_wake m).
Definition with_engine (e : Engine) (m : Monitor) : Monitor :=
  mkMonitor (m_cfg m) (m_st m) e (m_networkKey m) (m_gatewayIP m) (m_paused m)
    (m_lastSample m) (m_lastPrune m) (m_events m) (m_changes m) (m_wake m).
Definition with_network (key gw : string) (m : Monitor) : Monitor :=
  mkMonitor (m_cfg m) (m_st m) (m_engine m) key gw (m_paused m)
    (m_lastSample m) (m_lastPrune m) (m_events m) (m_changes m) (m_wake m).
Definition with_paused (b : bool) (m : Monitor) : Monitor :=
  mkMonitor (m_cfg m) (m_st m) (m_engine m) (m_networkKey m) (m_gatewayIP m) b
    (m_lastSample m) (m_lastPrune m) (m_events m) (m_changes m) (m_wake m).
Definition with_lastSample (t : Time) (m : Monitor) : Monitor :=
  mkMonitor (m_cfg m) (m_st m) (m_engine m) (m_networkKey m) (m_gatewayIP m) (m_paused m)
    t (m_lastPrune m) (m_events m) (m_changes m) (m_wake m).
Definition with_lastPrune (t : Time) (m : Monitor) : Monitor :=
  mkMonitor (m_cfg m) (m_st m) (m_engine m) (m_networkKey m) (m_gatewayIP m) (m_paused m)
    (m_lastSample m) t (m_events m) (m_changes m) (m_wake m).
Definition with_events (l : list Event) (m : Monitor) : Monitor :=
  mkMonitor (m_cfg m) (m_st m) (m_engine m) (m_networkKey m) (m_gatewayIP m) (m_paused m)
    (m_lastSample m) (m_lastPrune m) l (m_changes m) (m_wake m).
Definition with_changes (l : list Change) (m : Monitor) : Monitor :=
  mkMonitor (m_cfg m) (m_st m) (m_engine m) (m_networkKey m) (m_gatewayIP m) (m_paused m)
    (m_lastSample m) (m_lastPrune m) (m_events m) l (m_wake m).
Definition with_wake (b : bool) (m : Monitor) : Monitor :=
  mkMonitor (m_cfg m) (m_st m) (m_engine m) (m_networkKey m) (m_gatewayIP m) (m_paused m)
    (m_lastSample m) (m_lastPrune m) (m_events m) (m_changes m) b.

(** A send in a [select] with a default: dropped when the buffer is full. *)
Definition try_send {A} (cap : Z) (x : A) (ch : list A) : list A :=
  if len ch <? cap then ch ++ [x] else ch.

Definition emitChange (path : string) (m : Monitor) : Monitor :=
  with_changes (try_send eventBuffer (mkChange ChangeMonitor path) (m_changes m)) m.

Definition poke (m : Monitor) : Monitor := with_wake true m.

(** ** Operations *)

(** What the store does to one warm-up: the error of its [Baselines] call and
    of the [Samples] call of each anchor. *)
Record WarmFaults := mkWarmFaults { wf_baselines : option error; wf_samples : string -> option error }.

Definition no_faults : WarmFaults := mkWarmFaults None (fun _ => None).

Definition or_empty {A} (r : result error (list A)) : list A :=
  match r with Ok l => l | Err _ => [] end.

(** The samples [warmLocked] gathers: per anchor, gateway first. *)
Definition warm_samples (f : WarmFaults) (key : string) (m : Monitor) : list Sample :=
  concat (map (fun a => or_empty (ms_Samples (wf_samples f a) key a (Window (cfg (m_engine m))) (m_st m)))
            (GatewayAnchor :: anchors_of (m_cfg m))).

Definition warmLocked (f : WarmFaults) (key : string) (m : Monitor) : Monitor :=
  let e := Reset (m_engine m) key in
  let baselines := or_empty (ms_Baselines (wf_baselines f) key (m_st m)) in
  let samples := warm_samples f key m in
  let m := with_engine (Load e baselines samples) m in
  match last samples with
  | Some s => with_lastSample (smp_Time s) m
  | None => m
  end.

Definition SetNetwork (f : WarmFaults) (key gatewayIP : string) (m : Monitor) : Monitor :=
  let changed := negb (key =?s m_networkKey m) in
  let m := with_network key gatewayIP m in
  let m := if changed && negb (key =?s "") then warmLocked f key m else m in
  if changed then poke (emitChange "network" m) else m.

Definition Pause (m : Monitor) : Monitor := emitChange "paused" (with_paused true m).
Definition Resume (m : Monitor) : Monitor := poke (emitChange "resumed" (with_paused false m)).

(** [ResetBaseline]: the critical section (which resolves the key), then the
    store call outside the mutex. *)
Definition ResetBaseline_lock (key : string) (m : Monitor) : Monitor * string :=
  let key := if key =?s "" then m_networkKey m else key in
  (with_engine (Reset (m_engine m) key) m, key).

Definition ResetBaseline_store (fault : option error) (key : string) (m : Monitor) : Monitor * option error :=
  if key =?s "" then (m, None)
  else
    match ms_DeleteBaselines fault key (m_st m) with
    | (st, Some e) =>
        (with_st st m, Some (EWrap ("monitor: reset baseline " +:+ key +:+ ": " +:+ ErrorString e) [e]))
    | (st, None) => (emitChange "reset" (with_st st m), None)
    end.

Definition ResetBaseline (fault : option error) (key : string) (m : Monitor) : Monitor * option error :=
  let '(m, key) := ResetBaseline_lock key m in ResetBaseline_store fault key m.

Definition m_Samples (fault : option error) (key anchor : string) (limit : Z) (m : Monitor) :
    result error (list Sample) :=
  ms_Samples fault (if key =?s "" then m_networkKey m else key) anchor limit (m_st m).

Definition m_Status (m : Monitor) : MonitorStatus :=
  if negb (m_networkKey m =?s "") then
    let st := (State (m_engine m) (m_networkKey m)).1 in
    mkMonitorStatus (m_networkKey m) (if st =?s "" then BaselineIdle else st)
      (Baselines (m_engine m) (m_networkKey m)) (m_lastSample m) (mc_Interval (m_cfg m)) (m_paused m)
  else
    mkMonitorStatus (m_networkKey m) BaselineIdle [] (m_lastSample m) (mc_Interval (m_cfg m)) (m_paused m).

(** [maybePrune]: the due test stamps [lastPrune] whether or not the store
    then succeeds. *)
Definition maybePrune (now : Time) (f1 f2 : option error) (m : Monitor) : Monitor :=
  if pruneEvery <=? time_Sub now (m_lastPrune m) then
    let m := with_lastPrune now m in
    with_st (ms_Prune f1 f2 now (m_st m)).1 m
  else m.

(** *** A round *)

Definition targets (gw : string) (c : MonitorConfig) : list probeTarget :=
  (if negb (gw =?s "") then [mkTarget GatewayAnchor gw] else []) ++
  map (fun a => mkTarget a a) (anchors_of c).

(** The first critical section and the guards before the probes: [None] when
    the round ends there. *)
Definition round_start (ctx_done : bool) (now : Time) (m : Monitor) : option Round :=
  if (m_networkKey m =?s "") || m_paused m || ctx_done then None
  else
    match targets (m_gatewayIP m) (m_cfg m) with
    | [] => None
    | ts => Some (mkRound (m_networkKey m) ts now)
    end.

(** What one probe returned: latency, loss and method, or an error with its
    method. *)
Inductive probe_result :=
| ProbeOk (rtt loss : float64) (method : string)
| ProbeErr (method : string).

Definition sample_of (r : Round) (t : probeTarget) (p : probe_result) : Sample :=
  let '(rtt, loss, method) :=
    match p with
    | ProbeOk rtt loss method => (rtt, loss, method)
    | ProbeErr method => (f_minus_one, f_one, method)
    end in
  mkSample (rd_now r) (rd_key r) (pt_anchor t) (pt_addr t) rtt loss f_minus_one method.

Definition set_dns (d : float64) (s : Sample) : Sample :=
  mkSample (smp_Time s) (smp_NetworkKey s) (smp_Anchor s) (smp_AnchorAddr s) (smp_RTTms s)
    (smp_Loss s) d (smp_Method s).

(** [samples[0].DNSms = dnsMs]; the probe of target [i] is [probes i]. *)
Definition round_samples (r : Round) (probes : nat -> probe_result) (dns : option float64) : list Sample :=
  match imap (fun i t => sample_of r t (probes i)) (rd_targets r) with
  | [] => []
  | s :: l => set_dns (default f_minus_one dns) s :: l
  end.

(** The loop over the samples: store (an error is logged), then the engine. *)
Fixpoint feed (faults : nat -> option error) (now : Time) (i : nat) (l : list Sample) (st : S) (e : Engine) :
    S * Engine * list Transition :=
  match l with
  | [] => (st, e, [])
  | s :: l' =>
      let st := (ms_AddSample (faults i) now s st).1 in
      let '(e, t1) := Add e s in
      let '(st, e, t2) := feed faults now (Datatypes.S i) l' st e in
      (st, e, t1 ++ t2)
  end.

Fixpoint put_baselines (faults : nat -> option error) (now : Time) (i : nat) (l : list Baseline) (st : S) : S :=
  match l with
  | [] => st
  | b :: l' => put_baselines faults now (Datatypes.S i) l' (ms_PutBaseline (faults i) now b st).1
  end.

Definition send_events (l : list Event) (m : Monitor) : Monitor :=
  with_events (fold_left (fun ch ev => try_send eventBuffer ev ch) l (m_events m)) m.

(** The second critical section and what follows it.  [ctx_done]: the context
    ended while probing.  The events it emits are returned too: a full
    channel drops them. *)
Definition round_finish (ctx_done : bool) (probes : nat -> probe_result) (dns : option float64)
    (sf bf : nat -> option error) (now : Time) (r : Round) (m : Monitor) : Monitor * list Event :=
  if ctx_done then (m, [])
  else if negb (m_networkKey m =?s rd_key r) then (m, [])
  else
    let '(st, e, trs) := feed sf now 0 (round_samples r probes dns) (m_st m) (m_engine m) in
    let st := put_baselines bf now 0 (Baselines e (rd_key r)) st in
    let evs := omap eventFor trs in
    let m := with_lastSample (rd_now r) (with_engine e (with_st st m)) in
    (emitChange "round" (send_events evs m), evs).

(** ** The monitor as a machine *)

(** The consumer of a channel takes its oldest value. *)
Definition recv_event (m : Monitor) : Monitor := with_events (tail (m_events m)) m.
Definition recv_change (m : Monitor) : Monitor := with_changes (tail (m_changes m)) m.

(** Every critical section, with the rounds in flight. *)
Inductive action :=
| ASetNetwork (f : WarmFaults) (key gw : string)
| APause
| AResume
| AResetLock (key : string)
| AResetStore (fault : option error) (key : string)
| APrune (now : Time) (f1 f2 : option error)
| AWake                                    (* Run takes the wake token *)
| AStart (ctx_done : bool) (now : Time)
| AFinish (i : nat) (ctx_done : bool) (probes : nat -> probe_result) (dns : option float64)
    (sf bf : nat -> option error) (now : Time)
| ARecvEvent
| ARecvChange.

Record System := mkSystem { sys_m : Monitor; sys_rounds : list Round }.

Definition sys_step (a : action) (y : System) : System * list Event :=
  let m := sys_m y in
  let only m := (mkSystem m (sys_rounds y), []) in
  match a with
  | ASetNetwork f key gw => only (SetNetwork f key gw m)
  | APause => only (Pause m)
  | AResume => only (Resume m)
  | AResetLock key => only (ResetBaseline_lock key m).1
  | AResetStore fault key => only (ResetBaseline_store fault key m).1
  | APrune now f1 f2 => only (maybePrune now f1 f2 m)
  | AWake => only (with_wake false m)
  | AStart ctx_done now =>
      match round_start ctx_done now m with
      | Some r => (mkSystem m (sys_rounds y ++ [r]), [])
      | None => (y, [])
      end
  | AFinish i ctx_done probes dns sf bf now =>
      match sys_rounds y !! i with
      | Some r =>
          let '(m, evs) := round_finish ctx_done probes dns sf bf now r m in
          (mkSystem m (delete i (sys_rounds y)), evs)
      | None => (y, [])
      end
  | ARecvEvent => only (recv_event m)
  | ARecvChange => only (recv_change m)
  end.

Fixpoint sys_run (l : list action) (y : System) : System * list Event :=
  match l with
  | [] => (y, [])
  | a :: l' =>
      let '(y, e1) := sys_step a y in
      let '(y, e2) := sys_run l' y in
      (y, e1 ++ e2)
  end.
End Monitor.

Arguments Monitor S : clear implicits.
Arguments System S : clear implicits.
