(* ===== verification/MonitorFacts.v ===== *)
(** What the monitor guarantees over any store that keeps the promises of
    [MonitorStoreLaws] and any interleaving of its critical sections. *)

From S2P Require Import Prelude GoTime GoStrings Core Errors Engine EngineFacts Store Monitor.


Section Facts.
Context {S : Type} {MS : MonitorStore S} {ML : MonitorStoreLaws S}.
Implicit Types (m : Monitor S) (y : System S).

(** ** The round's loops, in terms of the engine's *)

Lemma feed_engine faults now i l st e :
  (feed faults now i l st e).1.2 = (Adds e l).1 /\ (feed faults now i l st e).2 = (Adds e l).2.
Proof.
  revert i st e; induction l as [|s l IH]; intros i st e; [done|].
  rewrite Adds_cons. simpl. destruct (Add e s) as [e1 t1]; simpl.
  specialize (IH (Datatypes.S i) (ms_AddSample (faults i) now s st).1 e1).
  destruct (feed _ _ _ l _ e1) as [[st2 e2] t2]; simpl in *. by destruct IH as [-> ->].
Qed.

Lemma feed_store_inv faults now i l st e :
  store_inv st -> store_inv (feed faults now i l st e).1.1.
Proof.
  revert i st e; induction l as [|s l IH]; intros i st e Hs; [done|]. simpl.
  destruct (Add e s) as [e1 t1].
  specialize (IH (Datatypes.S i) (ms_AddSample (faults i) now s st).1 e1 (law_add_inv _ _ _ _ Hs)).
  by destruct (feed _ _ _ l _ e1) as [[st2 e2] t2].
Qed.

Lemma feed_kept faults now i l st e k a : kept (feed faults now i l st e).1.1 k a = kept st k a.
Proof.
  revert i st e; induction l as [|s l IH]; intros i st e; [done|]. simpl.
  destruct (Add e s) as [e1 t1].
  specialize (IH (Datatypes.S i) (ms_AddSample (faults i) now s st).1 e1).
  destruct (feed _ _ _ l _ e1) as [[st2 e2] t2]; simpl in *. by rewrite IH, law_add_kept.
Qed.

Lemma feed_history_other faults now i l st e k a :
  (forall s, s ∈ l -> smp_NetworkKey s <> k) ->
  history (feed faults now i l st e).1.1 k a = history st k a.
Proof.
  revert i st e; induction l as [|s l IH]; intros i st e Hl; [done|]. simpl.
  destruct (Add e s) as [e1 t1].
  assert (forall s', s' ∈ l -> smp_NetworkKey s' <> k) as Hl' by (intros ??; apply Hl; by right).
  specialize (IH (Datatypes.S i) (ms_AddSample (faults i) now s st).1 e1 Hl').
  destruct (feed _ _ _ l _ e1) as [[st2 e2] t2]; simpl in *.
  rewrite IH. apply law_add_other, Hl. left.
Qed.

Lemma feed_history now i l st e k a :
  store_inv st -> k <> "" -> a <> "" ->
  (forall s, s ∈ l -> smp_NetworkKey s = k /\ smp_Time s <> 0 /\ storable (smp_Time s)) ->
  history (feed (fun _ => None) now i l st e).1.1 k a ≡ₚ
    history st k a ++ List.filter (fun s => smp_Anchor s =?s a) l.
Proof.
  intros Hs Hk Ha. revert i st e Hs; induction l as [|s l IH]; intros i st e Hs Hl; simpl.
  { by rewrite app_nil_r. }
  destruct (Hl s ltac:(left)) as (Hsk & Hst & Hsto).
  destruct (Add e s) as [e1 t1].
  assert (stamped now s = s) as Hstamp.
  { unfold stamped, time_IsZero. apply Z.eqb_neq in Hst as ->. by destruct s. }
  specialize (IH (Datatypes.S i) (ms_AddSample None now s st).1 e1 (law_add_inv _ _ _ _ Hs)
    ltac:(intros ??; apply Hl; by right)).
  destruct (feed _ _ _ l _ e1) as [[st2 e2] t2]; simpl in *. rewrite IH.
  destruct (decide (smp_Anchor s = "")) as [Hse|Hse].
  - assert (history (ms_AddSample None now s st).1 k a = history st k a) as ->.
    { apply law_add_refused; auto. }
    rewrite seqb_ne by congruence. done.
  - rewrite (law_add None now s st k a) by (rewrite ?Hstamp; congruence || done).
    rewrite Hstamp. destruct (smp_Anchor s =?s a) eqn:Hsa; bool_to_prop.
    + rewrite bool_decide_eq_true_2 by done. by rewrite <- app_assoc.
    + rewrite bool_decide_eq_false_2 by (intros (_ & _ & ?); done). by rewrite app_nil_r.
Qed.

Lemma put_baselines_inv faults now i l st : store_inv st -> store_inv (put_baselines faults now i l st).
Proof.
  revert i st; induction l as [|b l IH]; intros i st Hs; simpl; [done|]. by apply IH, law_put_inv.
Qed.

Lemma put_baselines_history faults now i l st k a :
  history (put_baselines faults now i l st) k a = history st k a.
Proof.
  revert i st; induction l as [|b l IH]; intros i st; simpl; [done|]. by rewrite IH, law_put_history.
Qed.

Lemma put_baselines_other faults now i l st k a :
  (forall b, b ∈ l -> bl_NetworkKey b <> k) ->
  kept (put_baselines faults now i l st) k a = kept st k a.
Proof.
  revert i st; induction l as [|b l IH]; intros i st Hl; simpl; [done|].
  rewrite IH by (intros ??; apply Hl; by right). apply law_put_other, Hl. left.
Qed.

Definition kept_known (st : S) : Prop :=
  forall k a b, kept st k a = Some b -> known_state (bl_State b).

Lemma put_baselines_known faults now i l st :
  kept_known st -> (forall b, b ∈ l -> known_state (bl_State b)) ->
  kept_known (put_baselines faults now i l st).
Proof.
  revert i st; induction l as [|b l IH]; intros i st Hst Hl; simpl; [done|].
  apply IH; [|intros ??; apply Hl; by right].
  intros k a b' Hb'. apply law_put_state in Hb' as [Hb'|Hb']; [by eapply Hst|].
  rewrite Hb'. apply Hl. left.
Qed.

(** ** The invariant *)

Definition event_ok (ev : Event) : Prop :=
  (ev_Type ev = EventDegraded \/ ev_Type ev = EventRecovered) /\ ev_NetworkKey ev <> "".

Record system_ok (y : System S) : Prop := {
  so_store : store_inv (m_st (sys_m y));
  so_kept : kept_known (m_st (sys_m y));
  so_engine : engine_ok (m_engine (sys_m y));
  so_cfg : cfg (m_engine (sys_m y)) = withDefaults (mc_Engine (m_cfg (sys_m y)));
  so_events_cap : len (m_events (sys_m y)) <= eventBuffer;
  so_changes_cap : len (m_changes (sys_m y)) <= eventBuffer;
  so_events : Forall event_ok (m_events (sys_m y));
  so_rounds : Forall (fun r => rd_key r <> "" /\ rd_targets r <> []) (sys_rounds y)
}.

Lemma try_send_cap {A} (x : A) ch : len ch <= eventBuffer -> len (try_send eventBuffer x ch) <= eventBuffer.
Proof. intros H. unfold try_send. case_test; bool_to_prop; [|done]. rewrite len_app. unfold len at 2; simpl. lia. Qed.

Lemma try_send_elem {A} (x z : A) ch : z ∈ try_send eventBuffer x ch -> z = x \/ z ∈ ch.
Proof. unfold try_send. case_test; [|by right]. rewrite elem_of_app, list_elem_of_singleton. tauto. Qed.

Lemma sends_cap l : forall ch : list Event,
  len ch <= eventBuffer -> len (fold_left (fun ch ev => try_send eventBuffer ev ch) l ch) <= eventBuffer.
Proof. induction l as [|ev l IH]; intros ch Hc; simpl; [done|]. by apply IH, try_send_cap. Qed.

Lemma sends_ok l : forall ch : list Event,
  Forall event_ok ch -> Forall event_ok l ->
  Forall event_ok (fold_left (fun ch ev => try_send eventBuffer ev ch) l ch).
Proof.
  induction l as [|ev l IH]; intros ch Hc Hl; simpl; [done|]. apply Forall_cons in Hl as [Hev Hl].
  apply IH; [|done]. apply Forall_forall. intros z Hz. rewrite Forall_forall in Hc.
  by apply try_send_elem in Hz as [->|Hz]; auto.
Qed.

Lemma emitChange_ok path m rs : system_ok (mkSystem m rs) -> system_ok (mkSystem (emitChange path m) rs).
Proof. intros [? ? ? ? ? ? ? ?]; constructor; simpl in *; auto using try_send_cap. Qed.

(** ** Warm-up *)

Lemma or_empty_samples f k a n st x :
  store_inv st -> x ∈ or_empty (ms_Samples f k a n st) -> smp_NetworkKey x = k.
Proof.
  intros Hs Hx. destruct f as [e|].
  - pose proof (law_samples_fault st k a n e) as Hf.
    destruct (ms_Samples (Some e) k a n st); simpl in *; [done|]. by apply not_elem_of_nil in Hx.
  - rewrite law_samples in Hx by done. simpl in Hx. apply (law_history_key st k a).
    case_test; [|done]. destruct (keep_last_suffix n (history st k a)) as [pre ->].
    apply elem_of_app. by right.
Qed.

Lemma warm_samples_key f key m x :
  store_inv (m_st m) -> x ∈ warm_samples f key m -> smp_NetworkKey x = key.
Proof.
  intros Hs Hx. unfold warm_samples in Hx. apply list_elem_of_In, in_concat in Hx as (l & Hl & Hx).
  apply in_map_iff in Hl as (a & <- & _). apply list_elem_of_In in Hx. by eapply or_empty_samples.
Qed.

Lemma or_empty_baselines f k st b :
  store_inv st -> b ∈ or_empty (ms_Baselines f k st) ->
  bl_NetworkKey b = k /\ kept st k (bl_Anchor b) = Some b.
Proof.
  intros Hs Hb. destruct f as [e|].
  - pose proof (law_baselines_fault st k e) as Hf.
    destruct (ms_Baselines (Some e) k st); simpl in *; [done|]. by apply not_elem_of_nil in Hb.
  - destruct (law_baselines st k Hs) as (l & Hl & _ & _ & Hin). rewrite Hl in Hb. by apply Hin.
Qed.

Lemma Load_cfg e bls smps : cfg (Load e bls smps) = cfg e.
Proof.
  unfold Load.
  assert (forall l acc, cfg (fold_left load_sample l acc).1 = cfg acc.1) as H1.
  { induction l as [|s l IH]; intros [e' t]; simpl; [done|]. rewrite IH. by case_test. }
  assert (forall l acc, cfg (fold_left load_baseline l acc).1 = cfg acc.1) as H2.
  { induction l as [|b l IH]; intros [e' t]; simpl; [done|]. rewrite IH. by case_test. }
  pose proof (H2 bls (fold_left load_sample (isort sample_le smps) (e, ∅))) as H. rewrite H1 in H.
  by destruct (fold_left load_baseline bls _).
Qed.

Lemma warm_engine_ok f key m :
  store_inv (m_st m) -> kept_known (m_st m) -> engine_ok (m_engine m) ->
  engine_ok (m_engine (warmLocked f key m)) /\
  forall k, k <> key -> keys (m_engine (warmLocked f key m)) !! k = keys (m_engine m) !! k.
Proof.
  intros Hs Hk He. unfold warmLocked.
  assert (m_engine (match last (warm_samples f key m) with
                    | Some s => with_lastSample (smp_Time s)
                        (with_engine (Load (Reset (m_engine m) key)
                           (or_empty (ms_Baselines (wf_baselines f) key (m_st m))) (warm_samples f key m)) m)
                    | None => with_engine (Load (Reset (m_engine m) key)
                           (or_empty (ms_Baselines (wf_baselines f) key (m_st m))) (warm_samples f key m)) m
                    end) =
          Load (Reset (m_engine m) key) (or_empty (ms_Baselines (wf_baselines f) key (m_st m)))
            (warm_samples f key m)) as ->.
  { by destruct (last (warm_samples f key m)). }
  assert (forall s, s ∈ warm_samples f key m -> keys (Reset (m_engine m) key) !! smp_NetworkKey s = None) as H1.
  { intros s Hin. apply warm_samples_key in Hin as ->; [|done]. simpl. apply lookup_delete_eq. }
  assert (forall b, b ∈ or_empty (ms_Baselines (wf_baselines f) key (m_st m)) ->
    keys (Reset (m_engine m) key) !! bl_NetworkKey b = None /\ known_state (bl_State b)) as H2.
  { intros b Hin. apply or_empty_baselines in Hin as [-> Hkb]; [|done]. simpl.
    split; [apply lookup_delete_eq|by eapply Hk]. }
  destruct (Load_inv _ _ _ (Reset_ok _ key He) H1 H2) as (Hok & Hkeep & _).
  split; [exact Hok|]. intros k Hne.
  destruct (keys (m_engine m) !! k) as [ks|] eqn:Hks.
  - apply Hkeep. simpl. by rewrite lookup_delete_ne.
  - rewrite Load_lookup.
    destruct (load_acc_loading (Reset (m_engine m) key) _ _ H1 H2) as (_ & Hout & Hin).
    assert (k ∉ (load_acc (Reset (m_engine m) key)
      (or_empty (ms_Baselines (wf_baselines f) key (m_st m))) (warm_samples f key m)).2) as Hnt.
    { apply load_acc_touched.
      - intros s Hs'. apply warm_samples_key in Hs' as ->; done.
      - intros b Hb'. apply or_empty_baselines in Hb' as [-> _]; done. }
    rewrite Hout by done. simpl. by rewrite lookup_delete_ne, Hks.
Qed.

Lemma warm_fields f key m :
  m_st (warmLocked f key m) = m_st m /\ m_cfg (warmLocked f key m) = m_cfg m /\
  m_events (warmLocked f key m) = m_events m /\ m_changes (warmLocked f key m) = m_changes m /\
  m_networkKey (warmLocked f key m) = m_networkKey m /\ m_paused (warmLocked f key m) = m_paused m /\
  cfg (m_engine (warmLocked f key m)) = cfg (m_engine m).
Proof. unfold warmLocked. destruct (last (warm_samples f key m)); simpl; by rewrite Load_cfg. Qed.

Lemma SetNetwork_ok f key gw m rs : system_ok (mkSystem m rs) -> system_ok (mkSystem (SetNetwork f key gw m) rs).
Proof.
  intros Hok. unfold SetNetwork.
  assert (system_ok (mkSystem (with_network key gw m) rs)) as Hn by (destruct Hok; by constructor).
  destruct (negb (key =?s m_networkKey m)); [|done]. simpl andb.
  assert (forall m0, system_ok (mkSystem m0 rs) -> system_ok (mkSystem (poke m0) rs)) as Hp
    by (intros m0 [? ? ? ? ? ? ? ?]; by constructor).
  apply Hp, emitChange_ok. destruct (negb (key =?s "")); [|done].
  destruct Hn as [? ? ? ? ? ? ? ?]; simpl in *.
  destruct (warm_fields f key (with_network key gw m)) as (H1 & H2 & H3 & H4 & _ & _ & H5).
  constructor; simpl; rewrite ?H1, ?H2, ?H3, ?H4, ?H5; try done.
  by apply warm_engine_ok.
Qed.

(** ** A finished round *)

Lemma round_samples_key r probes dns s :
  s ∈ round_samples r probes dns -> smp_NetworkKey s = rd_key r /\ smp_Time s = rd_now r.
Proof.
  unfold round_samples.
  assert (forall s, s ∈ imap (fun i t => sample_of r t (probes i)) (rd_targets r) ->
    smp_NetworkKey s = rd_key r /\ smp_Time s = rd_now r) as Hi.
  { intros s0 Hs. apply list_elem_of_lookup in Hs as (i & Hi). rewrite list_lookup_imap in Hi.
    destruct (rd_targets r !! i) as [t|]; [|done]. injection Hi as <-. unfold sample_of. by destruct (probes i). }
  destruct (imap _ (rd_targets r)) as [|s0 l]; intros Hs; [by apply not_elem_of_nil in Hs|].
  apply elem_of_cons in Hs as [->|Hs]; [by apply (Hi s0); left|apply Hi; by right].
Qed.

Lemma Adds_other e l k : (forall s, s ∈ l -> smp_NetworkKey s <> k) -> keys (Adds e l).1 !! k = keys e !! k.
Proof.
  revert e; induction l as [|s l IH]; intros e Hl; [done|]. rewrite Adds_cons; simpl.
  rewrite IH by (intros ??; apply Hl; by right).
  assert (smp_NetworkKey s <> k) as Hs by (apply Hl; left).
  unfold Add. case_test; [done|]. unfold settle. case_test; simpl; by rewrite lookup_insert_ne.
Qed.

Lemma Baselines_known e k b : engine_ok e -> b ∈ Baselines e k ->
  bl_NetworkKey b = k /\ known_state (bl_State b).
Proof.
  intros [Hc He] Hb. unfold Baselines in Hb. destruct (keys e !! k) as [ks|] eqn:Hk; [|by apply not_elem_of_nil in Hb].
  rewrite isort_elem in Hb. apply list_elem_of_fmap in Hb as ([n a] & -> & Hb).
  apply elem_of_map_to_list in Hb. destruct (He k ks Hk) as [_ Ha].
  destruct (Ha n a Hb) as [Hok (H1 & _ & H3 & _)]. simpl. split; [done|]. rewrite H3.
  destruct (state_phase (cfg e) a Hok) as [->|[->| ->]]; unfold known_state; set_solver.
Qed.

Lemma eventFor_cases tr ev :
  eventFor tr = Some ev ->
  ev_NetworkKey ev = tr_NetworkKey tr /\
  ((ev_Type ev = EventDegraded /\ tr_To tr = BaselineDegraded) \/
   (ev_Type ev = EventRecovered /\ tr_From tr = BaselineDegraded /\ tr_To tr = BaselineOK)).
Proof.
  unfold eventFor. case_test; bool_to_prop; [intros [= <-]; simpl; auto|].
  case_test; bool_to_prop; [intros [= <-]; simpl; auto|done].
Qed.

Lemma Adds_transition_key e l tr : engine_ok e -> tr ∈ (Adds e l).2 -> tr_NetworkKey tr <> "".
Proof.
  revert e; induction l as [|s l IH]; intros e He Hin; [by apply not_elem_of_nil in Hin|].
  rewrite Adds_cons in Hin; simpl in Hin. apply elem_of_app in Hin as [Hin|Hin].
  - pose proof (Add_transitions e s He) as Ht.
    apply list_elem_of_In in Hin as Hin'. destruct (Add_transition_inv e s tr He Hin') as (Hk & _).
    destruct (Add e s).2 as [|tr0 [|? ?]]; [by apply not_elem_of_nil in Hin| |done].
    apply list_elem_of_singleton in Hin as ->. destruct Ht as [-> _]. done.
  - by eapply IH; [apply Add_ok|].
Qed.

(** What a finished round does when it is not dropped. *)
Lemma round_finish_eq probes dns sf bf now r m :
  m_networkKey m = rd_key r ->
  let l := round_samples r probes dns in
  let e := (Adds (m_engine m) l).1 in
  let evs := omap eventFor (Adds (m_engine m) l).2 in
  round_finish false probes dns sf bf now r m =
    (emitChange "round" (send_events evs (with_lastSample (rd_now r) (with_engine e
       (with_st (put_baselines bf now 0 (Baselines e (rd_key r)) (feed sf now 0 l (m_st m) (m_engine m)).1.1) m)))),
     evs).
Proof.
  intros Hk. cbn zeta. unfold round_finish. rewrite Hk, seqb_refl. simpl.
  destruct (feed_engine sf now 0 (round_samples r probes dns) (m_st m) (m_engine m)) as [H1 H2].
  rewrite <- H1, <- H2. by destruct (feed sf now 0 _ _ _) as [[st e] trs].
Qed.

Lemma round_finish_dropped ctx_done probes dns sf bf now r m :
  ctx_done = true \/ m_networkKey m <> rd_key r ->
  round_finish ctx_done probes dns sf bf now r m = (m, []).
Proof.
  unfold round_finish. intros [->|Hne]; [done|]. destruct ctx_done; [done|]. by rewrite seqb_ne.
Qed.

Lemma round_finish_ok ctx_done probes dns sf bf now r m rs :
  system_ok (mkSystem m rs) ->
  system_ok (mkSystem (round_finish ctx_done probes dns sf bf now r m).1 rs) /\
  Forall event_ok (round_finish ctx_done probes dns sf bf now r m).2.
Proof.
  intros Hok.
  destruct (decide (ctx_done = true \/ m_networkKey m <> rd_key r)) as [Hd|Hd].
  { rewrite round_finish_dropped by done. by split. }
  assert (ctx_done = false /\ m_networkKey m = rd_key r) as [-> Hk].
  { split; [destruct ctx_done; [exfalso; auto|done]|]. destruct (decide (m_networkKey m = rd_key r)); [done|exfalso; auto]. }
  rewrite round_finish_eq by done. cbn zeta.
  destruct Hok as [Hs Hkn He Hc Hev Hch Hevs Hr]; simpl in *.
  set (l := round_samples r probes dns).
  pose proof (Adds_ok (m_engine m) l He) as He'.
  assert (Forall event_ok (omap eventFor (Adds (m_engine m) l).2)) as Hnew.
  { apply Forall_forall. intros ev Hin. apply list_elem_of_omap in Hin as (tr & Htr & Hev').
    pose proof (eventFor_cases tr ev Hev') as [H1 H2]. split; [naive_solver|].
    rewrite H1. exact (Adds_transition_key _ _ _ He Htr). }
  split; [|done]. apply emitChange_ok. constructor; simpl.
  - by apply put_baselines_inv, feed_store_inv.
  - apply put_baselines_known.
    + intros k a b. rewrite feed_kept. apply Hkn.
    + intros b Hb. by eapply Baselines_known.
  - done.
  - by rewrite Adds_cfg.
  - by apply sends_cap.
  - done.
  - by apply sends_ok.
  - done.
Qed.

(** ** Every step *)

Lemma sys_step_ok a y : system_ok y -> system_ok (sys_step a y).1 /\ Forall event_ok (sys_step a y).2.
Proof.
  intros Hok. destruct y as [m rs]. destruct a; simpl; try (split; [|done]).
  - by apply SetNetwork_ok.
  - apply emitChange_ok. destruct Hok; by constructor.
  - assert (system_ok (mkSystem (emitChange "resumed" (with_paused false m)) rs)) as H
      by (apply emitChange_ok; destruct Hok; by constructor).
    destruct H; by constructor.
  - destruct Hok; constructor; simpl in *; try done. by apply Reset_ok.
  - unfold ResetBaseline_store. case_test; [done|].
    pose proof (law_delete_inv fault key (m_st m) (so_store _ Hok)) as Hi.
    assert (kept_known (ms_DeleteBaselines fault key (m_st m)).1) as Hkn.
    { intros k a b. rewrite law_delete. case_bool_decide; [done|]. apply (so_kept _ Hok). }
    destruct (ms_DeleteBaselines fault key (m_st m)) as [st [e|]]; simpl in *;
      try apply emitChange_ok; destruct Hok; by constructor.
  - unfold maybePrune. case_test; [|done]. destruct Hok; constructor; simpl in *; try done.
    + by apply law_prune_inv.
    + intros k a b. rewrite law_prune_kept. eauto.
  - destruct Hok; by constructor.
  - destruct (round_start ctx_done now m) as [r|] eqn:Hr; simpl; split; try done.
    destruct Hok; constructor; simpl in *; try done. apply Forall_app; split; [done|]. constructor; [|done].
    unfold round_start in Hr. destruct (_ || _) eqn:Hg; [done|].
    bool_to_prop. destruct (targets (m_gatewayIP m) (m_cfg m)) eqn:Ht; [done|]. injection Hr as <-. simpl. by split.
  - destruct (rs !! i) as [r|] eqn:Hr; [|done].
    assert (system_ok (mkSystem m (delete i rs))) as Hok'.
    { destruct Hok; constructor; simpl in *; try done. by apply Forall_delete. }
    pose proof (round_finish_ok ctx_done probes dns sf bf now r m (delete i rs) Hok') as [H1 H2].
    by destruct (round_finish _ _ _ _ _ _ r m) as [m' evs].
  - destruct Hok; constructor; simpl in *; try done.
    + destruct (m_events m); [done|]. simpl. unfold len in *. simpl in *. lia.
    + destruct (m_events m); [done|]. by apply Forall_cons in so_events0 as [_ ?].
  - destruct Hok; constructor; simpl in *; try done.
    destruct (m_changes m); [done|]. simpl. unfold len in *. simpl in *. lia.
Qed.

Lemma sys_run_cons a l y :
  sys_run (a :: l) y = ((sys_run l (sys_step a y).1).1, (sys_step a y).2 ++ (sys_run l (sys_step a y).1).2).
Proof. simpl. destruct (sys_step a y) as [y1 e1]; simpl. by destruct (sys_run l y1). Qed.

Lemma sys_run_ok l y : system_ok y -> system_ok (sys_run l y).1 /\ Forall event_ok (sys_run l y).2.
Proof.
  revert y; induction l as [|a l IH]; intros y Hok; [by split|]. rewrite sys_run_cons; simpl.
  destruct (sys_step_ok a y Hok) as [H1 H2]. destruct (IH _ H1) as [H3 H4].
  split; [done|]. by apply Forall_app.
Qed.

Lemma New_ok c st : store_inv st -> kept_known st -> system_ok (mkSystem (New c st) []).
Proof.
  intros. constructor; simpl; try done; try constructor.
  - apply NewEngine_ok.
  - by apply NewEngine_ok.
Qed.

(** ** Events alternate *)

(** The events of one network as a surface reads them: [d] is whether it is
    degraded now; [None] is a degraded event while degraded or a recovered
    one while not. *)
Fixpoint alternates (d : bool) (l : list EventType) : option bool :=
  match l with
  | [] => Some d
  | t :: l' =>
      if t =?s EventDegraded then (if d then None else alternates true l')
      else if t =?s EventRecovered then (if d then alternates false l' else None)
      else alternates d l'
  end.

Definition events_of (k : string) (l : list Event) : list EventType :=
  map ev_Type (List.filter (fun ev => ev_NetworkKey ev =?s k) l).

Definition is_degraded (e : Engine) (k : string) : bool := (State e k).1 =?s BaselineDegraded.

(** The actions that throw the engine's state of [k] away: switching to it
    from another network, and resetting its baseline. *)
Definition rewarms (k : string) (y : System S) (a : action) : bool :=
  match a with
  | ASetNetwork _ key _ => (key =?s k) && negb (key =?s m_networkKey (sys_m y))
  | AResetLock key => (if key =?s "" then m_networkKey (sys_m y) else key) =?s k
  | _ => false
  end.

Fixpoint never_rewarms (k : string) (l : list action) (y : System S) : bool :=
  match l with
  | [] => true
  | a :: l' => negb (rewarms k y a) && never_rewarms k l' (sys_step a y).1
  end.

Lemma alternates_app d l1 l2 :
  alternates d (l1 ++ l2) = match alternates d l1 with Some d' => alternates d' l2 | None => None end.
Proof.
  revert d; induction l1 as [|t l1 IH]; intros d; simpl; [done|].
  destruct (t =?s EventDegraded); [destruct d; auto|]. destruct (t =?s EventRecovered); [destruct d; auto|auto].
Qed.

Lemma events_of_app k l1 l2 : events_of k (l1 ++ l2) = events_of k l1 ++ events_of k l2.
Proof. unfold events_of. by rewrite List.filter_app, map_app. Qed.

Lemma Add_alternates e s k :
  engine_ok e ->
  alternates (is_degraded e k) (events_of k (omap eventFor (Add e s).2)) = Some (is_degraded (Add e s).1 k).
Proof.
  intros He. pose proof (Add_transitions e s He) as Ht. unfold is_degraded.
  destruct (Add e s).2 as [|tr [|? ?]]; [by rewrite Ht| |done].
  destruct Ht as (_ & _ & Hfrom & Hto & Hedge & Hother). simpl.
  destruct (eventFor tr) as [ev|] eqn:Hev; simpl.
  - destruct (eventFor_cases tr ev Hev) as [Hk Hc]. unfold events_of. simpl. rewrite Hk.
    destruct (tr_NetworkKey tr =?s k) eqn:Hkk; bool_to_prop; simpl.
    + subst k. rewrite Hto, <- Hfrom. simpl.
      destruct Hc as [[-> Hto']|(-> & -> & ->)]; simpl; [|done].
      rewrite Hto' in Hedge |- *. by inversion Hedge.
    + by rewrite Hother.
  - destruct (decide (tr_NetworkKey tr = k)) as [<-|Hne]; [|by rewrite Hother].
    rewrite Hto, <- Hfrom. simpl. unfold eventFor in Hev.
    destruct (tr_To tr =?s BaselineDegraded) eqn:H1; [done|].
    destruct (tr_From tr =?s BaselineDegraded) eqn:H2; [|done]. simpl in Hev. bool_to_prop.
    rewrite H2 in Hedge. inversion Hedge as [| | | |Hx].
    match goal with H : _ = tr_To tr |- _ => by rewrite <- H in Hev end.
Qed.

Lemma Adds_alternates e l k :
  engine_ok e ->
  alternates (is_degraded e k) (events_of k (omap eventFor (Adds e l).2)) = Some (is_degraded (Adds e l).1 k).
Proof.
  revert e; induction l as [|s l IH]; intros e He; [done|]. rewrite Adds_cons. simpl fst; simpl snd.
  rewrite omap_app, events_of_app, alternates_app, Add_alternates by done. by apply IH, Add_ok.
Qed.

Lemma is_degraded_keys e e' k : keys e' !! k = keys e !! k -> is_degraded e' k = is_degraded e k.
Proof. unfold is_degraded, State. by intros ->. Qed.

Lemma sys_step_alternates a y k :
  system_ok y -> rewarms k y a = false ->
  alternates (is_degraded (m_engine (sys_m y)) k) (events_of k (sys_step a y).2) =
    Some (is_degraded (m_engine (sys_m (sys_step a y).1)) k).
Proof.
  intros Hok Hq. destruct y as [m rs]. destruct a; simpl in *; try done.
  - f_equal. symmetry. apply is_degraded_keys. unfold SetNetwork.
    destruct (key =?s m_networkKey m) eqn:Hk; simpl in *; [done|].
    destruct (key =?s "") eqn:Hke; simpl; [done|].
    destruct (key =?s k) eqn:Hkk; [done|]. bool_to_prop.
    destruct Hok as [Hs Hkn He _ _ _ _ _]; simpl in *.
    destruct (warm_engine_ok f key (with_network key gw m) Hs Hkn He) as [_ Hw]. by rewrite Hw.
  - f_equal. symmetry. apply is_degraded_keys. simpl. rewrite lookup_delete_ne; [done|]. by bool_to_prop.
  - unfold ResetBaseline_store. case_test; [done|].
    by destruct (ms_DeleteBaselines fault key (m_st m)) as [st [e|]].
  - unfold maybePrune. by case_test.
  - by destruct (round_start ctx_done now m).
  - destruct (rs !! i) as [r|]; [|done].
    destruct (decide (ctx_done = true \/ m_networkKey m <> rd_key r)) as [Hd|Hd].
    { by rewrite round_finish_dropped. }
    assert (ctx_done = false /\ m_networkKey m = rd_key r) as [-> Hk].
    { split; [destruct ctx_done; [exfalso; auto|done]|]. destruct (decide (m_networkKey m = rd_key r)); [done|exfalso; auto]. }
    rewrite round_finish_eq by done. cbn zeta. simpl. apply Adds_alternates, Hok.
Qed.

Lemma sys_run_alternates l y k :
  system_ok y -> never_rewarms k l y = true ->
  alternates (is_degraded (m_engine (sys_m y)) k) (events_of k (sys_run l y).2) =
    Some (is_degraded (m_engine (sys_m (sys_run l y).1)) k).
Proof.
  revert y; induction l as [|a l IH]; intros y Hok Hq; [done|]. simpl in Hq. bool_to_prop.
  rewrite sys_run_cons. simpl fst; simpl snd.
  rewrite events_of_app, alternates_app, sys_step_alternates by done. apply IH; [|done].
  by apply sys_step_ok.
Qed.

(** ** Pausing *)

(** No step of [l] resumes probing. *)
Definition no_resume (l : list action) : Prop :=
  Forall (fun a => match a with AResume => False | _ => True end) l.

Lemma paused_step a y :
  system_ok y -> m_paused (sys_m y) = true -> sys_rounds y = [] ->
  match a with AResume => False | _ => True end ->
  m_paused (sys_m (sys_step a y).1) = true /\ sys_rounds (sys_step a y).1 = [] /\ (sys_step a y).2 = [] /\
  (match a with APrune _ _ _ => False | _ => True end ->
   forall k n, history (m_st (sys_m (sys_step a y).1)) k n = history (m_st (sys_m y)) k n).
Proof.
  intros Hok Hp Hr Ha. destruct y as [m rs]; simpl in *; subst rs. destruct a; simpl; try done.
  - unfold SetNetwork. repeat case_test; simpl; split_and!; try done;
      destruct (warm_fields f key (with_network key gw m)) as (H1 & _ & _ & _ & _ & H6 & _); rewrite ?H6, ?H1; done.
  - unfold ResetBaseline_store. case_test; [done|].
    pose proof (law_delete_history fault key (m_st m)) as Hd.
    by destruct (ms_DeleteBaselines fault key (m_st m)) as [st [e|]].
  - unfold maybePrune. by case_test.
  - unfold round_start. rewrite Hp, orb_true_r. done.
Qed.

(** ** Properties *)

(** C5: whatever the interleaving of the monitor's critical sections, store
    faults, clock and probe results, a monitor started on a store in order
    stays in order: the engine's invariant holds with the configured
    thresholds, both channels stay within their capacity of 32, every event
    emitted or buffered is a degraded or recovered one of a named network,
    and the status shown is a known, non-empty state. *)
Theorem monitor_invariant c st l :
  store_inv st -> kept_known st ->
  let '(y, evs) := sys_run l (mkSystem (New c st) []) in
  system_ok y /\ Forall event_ok evs /\
  known_state (ms_State (m_Status (sys_m y))) /\ ms_State (m_Status (sys_m y)) <> "".
Proof.
  intros Hs Hk. pose proof (sys_run_ok l _ (New_ok c st Hs Hk)) as [Hok Hev].
  destruct (sys_run l _) as [y evs]; simpl in *. split_and!; [done|done| |].
  - unfold m_Status. case_test; simpl; [|unfold known_state; set_solver]. case_test; [unfold known_state; set_solver|].
    unfold State. destruct (keys _ !! _) as [ks|] eqn:Hks; simpl; [|unfold known_state; set_solver].
    destruct Hok as [_ _ [_ He] _ _ _ _ _]. destruct (He _ _ Hks) as [-> _].
    destruct (deriveKeyState_derived (ks_anchors ks)); unfold known_state; set_solver.
  - unfold m_Status. case_test; simpl; [|done]. case_test; [done|]. by bool_to_prop.
Qed.

(** a finished round never writes under the wrong network.  If the
    context ended or the network changed while it was probing, nothing at all
    changes and no event is emitted.  Otherwise the engine takes exactly the
    round's samples in target order and the events are those of its
    transitions; the store gains (when it does not fail) exactly these
    samples under the round's key; no other network's samples, baselines or
    engine state change. *)
Theorem round_scope ctx_done probes dns sf bf now r m :
  system_ok (mkSystem m []) -> rd_key r <> "" ->
  let '(m', evs) := round_finish ctx_done probes dns sf bf now r m in
  let l := round_samples r probes dns in
  if ctx_done || negb (m_networkKey m =?s rd_key r) then m' = m /\ evs = []
  else
    m_engine m' = (Adds (m_engine m) l).1 /\ evs = omap eventFor (Adds (m_engine m) l).2 /\
    m_lastSample m' = rd_now r /\
    (forall k a, k <> rd_key r ->
       history (m_st m') k a = history (m_st m) k a /\ kept (m_st m') k a = kept (m_st m) k a /\
       keys (m_engine m') !! k = keys (m_engine m) !! k) /\
    (sf = (fun _ => None) -> rd_now r <> 0 -> storable (rd_now r) ->
     forall a, a <> "" ->
       history (m_st m') (rd_key r) a ≡ₚ
         history (m_st m) (rd_key r) a ++ List.filter (fun s => smp_Anchor s =?s a) l).
Proof.
  intros Hok Hk. destruct (round_finish ctx_done probes dns sf bf now r m) as [m' evs] eqn:Hf.
  cbn zeta. destruct ctx_done; simpl orb.
  { rewrite round_finish_dropped in Hf by auto. by injection Hf. }
  destruct (m_networkKey m =?s rd_key r) eqn:Hkey; simpl negb; bool_to_prop.
  2:{ rewrite round_finish_dropped in Hf by auto. by injection Hf. }
  rewrite round_finish_eq in Hf by done. cbn zeta in Hf. injection Hf as <- <-.
  destruct Hok as [Hs _ He _ _ _ _ _]; simpl in *.
  set (l := round_samples r probes dns) in *. split_and!; try done.
  - intros k a Hne. simpl. rewrite put_baselines_history. split_and!.
    + apply feed_history_other. intros s Hs'. apply round_samples_key in Hs' as [-> _]. congruence.
    + rewrite put_baselines_other; [by rewrite feed_kept|].
      intros b Hb. apply Baselines_known in Hb as [-> _]; [congruence|by apply Adds_ok].
    + apply Adds_other. intros s Hs'. apply round_samples_key in Hs' as [-> _]. congruence.
  - intros -> Hnz Hsto a Ha. simpl. rewrite put_baselines_history.
    apply feed_history; [done|done|done|]. intros s Hs'.
    by apply round_samples_key in Hs' as [-> ->].
Qed.

(** for any network, over any interleaving in which its learned state is
    not thrown away (by switching back to it or resetting it), the emitted
    events alternate: never two degraded without a recovered between them,
    never a recovered first; and after them the network is degraded exactly
    when the last one said so. *)
Theorem events_alternate l y k :
  system_ok y -> never_rewarms k l y = true ->
  let '(y', evs) := sys_run l y in
  alternates (is_degraded (m_engine (sys_m y)) k) (events_of k evs) =
    Some (is_degraded (m_engine (sys_m y')) k).
Proof.
  intros Hok Hq. pose proof (sys_run_alternates l y k Hok Hq) as H. by destruct (sys_run l y).
Qed.

(** a paused monitor with no round in flight is silent until it is
    resumed: no round starts, no event is emitted, and except for pruning the
    stored history does not change, whatever else is called. *)
Theorem pause_silences l y :
  system_ok y -> m_paused (sys_m y) = true -> sys_rounds y = [] -> no_resume l ->
  let '(y', evs) := sys_run l y in
  m_paused (sys_m y') = true /\ sys_rounds y' = [] /\ evs = [] /\
  (Forall (fun a => match a with APrune _ _ _ => False | _ => True end) l ->
   forall k n, history (m_st (sys_m y')) k n = history (m_st (sys_m y)) k n).
Proof.
  revert y; induction l as [|a l IH]; intros y Hok Hp Hr Hl; [done|].
  apply Forall_cons in Hl as [Ha Hl].
  destruct (paused_step a y Hok Hp Hr Ha) as (H1 & H2 & H3 & H4).
  pose proof (IH _ (proj1 (sys_step_ok a y Hok)) H1 H2 Hl) as IH'.
  rewrite sys_run_cons, H3. destruct (sys_run l (sys_step a y).1) as [y' evs]; simpl.
  destruct IH' as (I1 & I2 & I3 & I4). split_and!; try done.
  intros Hnp k n. apply Forall_cons in Hnp as [Hna Hnp]. by rewrite I4, H4.
Qed.
End Facts.

(** ** Witnesses: a monitor over the database, one public anchor *)

Definition demo_monitor_config : MonitorConfig :=
  mkMonitorConfig 0 (Some ["1.1.1.1"]) "" demo_config 0.

Definition demo_probe (rtt : Z) (i : nat) : probe_result :=
  match i with O => ProbeOk (f_of_Z 2) f_zero "icmp" | _ => ProbeOk (f_of_Z rtt) f_zero "icmp" end.

Definition demo_now (t : Z) : Time := unix_epoch + 1700000000 * second + t.

Definition demo_round (t rtt : Z) : list action :=
  [AStart false (demo_now t);
   AFinish 0 false (demo_probe rtt) (Some (f_of_Z 4)) (fun _ => None) (fun _ => None) (demo_now t)].

Definition demo_rounds : list action :=
  concat (imap (fun i rtt => demo_round (Z.of_nat i * 30) rtt) [10; 10; 10; 10; 10; 90; 90; 90; 10; 10]).

Definition demo_actions : list action := ASetNetwork no_faults "wifi:Home" "192.168.1.1" :: demo_rounds.

Definition demo_start : System DB := mkSystem (New demo_monitor_config (DB_empty DefaultRetention)) [].

Definition demo_connected : System DB := (sys_step (hd APause demo_actions) demo_start).1.

Lemma demo_store_ok : store_inv (DB_empty DefaultRetention) /\ kept_known (DB_empty DefaultRetention).
Proof. split; [by apply DB_empty_ok|]. intros k a b H. cbn in H. unfold DB_kept in H. simpl in H. by rewrite lookup_empty in H. Qed.

Lemma demo_start_ok : system_ok demo_start.
Proof. apply New_ok; apply demo_store_ok. Qed.

Lemma demo_connected_ok : system_ok demo_connected.
Proof. apply sys_step_ok, demo_start_ok. Qed.

Lemma monitor_invariant_witness :
  (let '(y, evs) := sys_run demo_actions (mkSystem (New demo_monitor_config (DB_empty DefaultRetention)) []) in
   system_ok y /\ Forall event_ok evs /\
   known_state (ms_State (m_Status (sys_m y))) /\ ms_State (m_Status (sys_m y)) <> "") /\
  map ev_Type (sys_run demo_actions demo_start).2 = [EventDegraded; EventRecovered].
Proof.
  split.
  - apply monitor_invariant; apply demo_store_ok.
  - vm_compute. reflexivity.
Defined.

Definition demo_inflight : Round := mkRound "wifi:Home" (targets "192.168.1.1" demo_monitor_config) (demo_now 0).

Lemma round_scope_witness :
  let m := sys_m demo_connected in
  let l := round_samples demo_inflight (demo_probe 10) None in
  let '(m', evs) := round_finish false (demo_probe 10) None (fun _ => None) (fun _ => None) (demo_now 0) demo_inflight m in
  if false || negb (m_networkKey m =?s "wifi:Home") then m' = m /\ evs = []
  else
    m_engine m' = (Adds (m_engine m) l).1 /\ evs = omap eventFor (Adds (m_engine m) l).2 /\
    m_lastSample m' = demo_now 0 /\
    (forall k a, k <> "wifi:Home" ->
       history (m_st m') k a = history (m_st m) k a /\ kept (m_st m') k a = kept (m_st m) k a /\
       keys (m_engine m') !! k = keys (m_engine m) !! k) /\
    ((fun _ : nat => None : option error) = (fun _ => None) -> demo_now 0 <> 0 -> storable (demo_now 0) ->
     forall a, a <> "" ->
       history (m_st m') "wifi:Home" a ≡ₚ
         history (m_st m) "wifi:Home" a ++ List.filter (fun s => smp_Anchor s =?s a) l).
Proof.
  apply (round_scope false (demo_probe 10) None (fun _ => None) (fun _ => None) (demo_now 0) demo_inflight
    (sys_m demo_connected)).
  - destruct demo_connected_ok as [H1 H2 H3 H4 H5 H6 H7 H8].
    constructor; [exact H1|exact H2|exact H3|exact H4|exact H5|exact H6|exact H7|constructor].
  - discriminate.
Defined.

Lemma events_alternate_witness :
  (let '(y', evs) := sys_run demo_rounds demo_connected in
   alternates (is_degraded (m_engine (sys_m demo_connected)) "wifi:Home") (events_of "wifi:Home" evs) =
     Some (is_degraded (m_engine (sys_m y')) "wifi:Home")) /\
  events_of "wifi:Home" (sys_run demo_rounds demo_connected).2 = [EventDegraded; EventRecovered].
Proof.
  split.
  - apply (events_alternate demo_rounds demo_connected "wifi:Home"); [exact demo_connected_ok|].
    vm_compute. reflexivity.
  - vm_compute. reflexivity.
Defined.

Definition demo_paused : System DB := (sys_step APause demo_connected).1.

Lemma pause_silences_witness :
  let '(y', evs) := sys_run demo_rounds demo_paused in
  m_paused (sys_m y') = true /\ sys_rounds y' = [] /\ evs = [] /\
  (Forall (fun a => match a with APrune _ _ _ => False | _ => True end) demo_rounds ->
   forall k n, history (m_st (sys_m y')) k n = history (m_st (sys_m demo_paused)) k n).
Proof.
  apply (pause_silences demo_rounds demo_paused).
  - unfold demo_paused. apply sys_step_ok. exact demo_connected_ok.
  - reflexivity.
  - reflexivity.
  - unfold demo_rounds, no_resume. vm_compute. repeat constructor.
Defined.
