(* ===== verification/NotifyFilter.v ===== *)
(** internal/notify: which events reach the desktop.  policy.go is the policy,
    filter.go the filter that holds, coalesces and rate-limits events, and
    notifier.go the delivery with its fallback.

    A held event is a pointer in the code, compared by identity when its timer
    fires; here it is a [token] never used twice.  A timer that was stopped too
    late may still run its callback, so [timers] keeps it when the environment
    says [Stop] failed.  [Allow], [release] and [Flush] each hold the lock for
    their whole body (the callback to [onReady] apart), so each is one step. *)

From S2P Require Import Prelude GoTime GoStrings Core Errors.


(** ** policy.go *)

Record Policy := mkPolicy {
  Enabled : gmap EventType bool;
  MutedNetworks : list string;
  Debounce : Duration;
  RateLimit : Duration
}.

Definition DefaultPolicy : Policy := {|
  Enabled := list_to_map [
    (EventConnected, true); (EventDisconnected, true); (EventNoInternet, true);
    (EventInternetRestored, true); (EventVPNUp, true); (EventVPNDown, true);
    (EventDegraded, false); (EventRecovered, false); (EventSecretNeeded, true)];
  MutedNetworks := [];
  Debounce := 5 * second;
  RateLimit := 30 * second
|}.

(** A missing map key reads as false. *)
Definition IsEnabled (p : Policy) (t : EventType) : bool := default false (Enabled p !! t).

Definition IsMuted (p : Policy) (key : string) : bool :=
  if key =?s "" then false else existsb (fun m => m =?s key) (MutedNetworks p).

(** ** filter.go *)

Record heldEvent := mkHeld { h_token : nat; h_event : Event }.
Record timer := mkTimer { tm_key : string; tm_held : heldEvent; tm_due : Time }.

Record Filter := mkFilter {
  f_policy : Policy;
  f_onReady : bool;                (* a callback is set *)
  f_held : gmap string heldEvent;  (* Network Key -> held connected event *)
  f_last : gmap string Time;       (* rateKey -> last delivery *)
  f_timers : list timer;           (* timers whose callback may still run *)
  f_next : nat                     (* the next token: allocation *)
}.

Definition NewFilter (p : Policy) : Filter := mkFilter p false ∅ ∅ [] 0.

Definition OnReady (f : Filter) : Filter :=
  mkFilter (f_policy f) true (f_held f) (f_last f) (f_timers f) (f_next f).

Definition NUL : string := byte_str [0%nat].

Definition rateKey (e : Event) : string := ev_Type e +:+ NUL +:+ ev_NetworkKey e.

Definition limited (f : Filter) (e : Event) (now : Time) : bool :=
  if RateLimit (f_policy f) <=? 0 then false
  else match f_last f !! rateKey e with
       | Some last => time_Sub now last <? RateLimit (f_policy f)
       | None => false
       end.

Definition record (f : Filter) (e : Event) (now : Time) : Filter :=
  mkFilter (f_policy f) (f_onReady f) (f_held f) (<[rateKey e := now]> (f_last f)) (f_timers f) (f_next f).

(** [h.timer.Stop()]: [stopped] is whether it came in time. *)
Definition stop_timer (stopped : bool) (h : heldEvent) (l : list timer) : list timer :=
  if stopped then List.filter (fun t => negb (Nat.eqb (h_token (tm_held t)) (h_token h))) l else l.

Definition drop_held (stopped : bool) (key : string) (h : heldEvent) (f : Filter) : Filter :=
  mkFilter (f_policy f) (f_onReady f) (delete key (f_held f)) (f_last f)
    (stop_timer stopped h (f_timers f)) (f_next f).

Definition hold (e : Event) (now : Time) (f : Filter) : Filter :=
  let h := mkHeld (f_next f) e in
  mkFilter (f_policy f) (f_onReady f) (<[ev_NetworkKey e := h]> (f_held f)) (f_last f)
    (f_timers f ++ [mkTimer (ev_NetworkKey e) h (time_Add now (Debounce (f_policy f)))]) (S (f_next f)).

(** What became of an event. *)
Inductive outcome :=
| Delivered (e : Event)            (* Allow returned true *)
| Dropped (e : Event)              (* Allow returned false and nothing is held *)
| Held (h : heldEvent)             (* Allow returned false; held *)
| Flapped (h : heldEvent) (e : Event)  (* Allow returned false; the held event is dropped too *)
| Ready (h : heldEvent).           (* recorded as delivered by a timer or Flush *)

Definition Allow (now : Time) (stopped : bool) (e : Event) (f : Filter) : Filter * outcome :=
  if negb (IsEnabled (f_policy f) (ev_Type e)) then (f, Dropped e)
  else if ev_Type e =?s EventSecretNeeded then (f, Delivered e)
  else if IsMuted (f_policy f) (ev_NetworkKey e) then (f, Dropped e)
  else if limited f e now then (f, Dropped e)
  else if ev_Type e =?s EventConnected then
    if Debounce (f_policy f) <=? 0 then (record f e now, Delivered e)
    else match f_held f !! ev_NetworkKey e with
         | Some _ => (f, Dropped e)
         | None => (hold e now f, Held (mkHeld (f_next f) e))
         end
  else if ev_Type e =?s EventDisconnected then
    match f_held f !! ev_NetworkKey e with
    | Some h => (drop_held stopped (ev_NetworkKey e) h f, Flapped h e)
    | None => (record f e now, Delivered e)
    end
  else (record f e now, Delivered e).

(** [Allow]'s result. *)
Definition allowed (o : outcome) : bool := match o with Delivered _ => true | _ => false end.

(** [release]: the callback of timer [t]. *)
Definition release (now : Time) (t : timer) (f : Filter) : Filter * list outcome :=
  match f_held f !! tm_key t with
  | Some h =>
      if negb (Nat.eqb (h_token h) (h_token (tm_held t))) then (f, [])
      else
        let f := mkFilter (f_policy f) (f_onReady f) (delete (tm_key t) (f_held f)) (f_last f)
                   (f_timers f) (f_next f) in
        (record f (h_event (tm_held t)) now, [Ready (tm_held t)])
  | None => (f, [])
  end.

(** [Flush]: the loop over the held map. *)
Fixpoint flush_loop (now : Time) (stopped : bool) (l : list (string * heldEvent)) (f : Filter) : Filter * list outcome :=
  match l with
  | [] => (f, [])
  | (key, h) :: l' =>
      let f := record (drop_held stopped key h f) (h_event h) now in
      let '(f, out) := flush_loop now stopped l' f in
      (f, Ready h :: out)
  end.

Definition Flush (now : Time) (stopped : bool) (f : Filter) : Filter * list outcome :=
  flush_loop now stopped (map_to_list (f_held f)) f.

Definition Pending (f : Filter) : Z := Z.of_nat (size (f_held f)).

(** What the callback receives, when there is one. *)
Definition called_back (f : Filter) (l : list outcome) : list Event :=
  if f_onReady f then omap (fun o => match o with Ready h => Some (h_event h) | _ => None end) l else [].

(** ** The filter as a machine *)

Inductive fstep :=
| SAllow (now : Time) (stopped : bool) (e : Event)
| SFire (now : Time) (i : nat)          (* the i-th timer runs *)
| SFlush (now : Time) (stopped : bool)
| SOnReady.

(** A timer runs once and not before it is due. *)
Definition filter_step (s : fstep) (f : Filter) : Filter * list outcome :=
  match s with
  | SAllow now stopped e => let '(f, o) := Allow now stopped e f in (f, [o])
  | SFire now i =>
      match f_timers f !! i with
      | Some t =>
          if tm_due t <=? now then
            release now t (mkFilter (f_policy f) (f_onReady f) (f_held f) (f_last f)
                             (delete i (f_timers f)) (f_next f))
          else (f, [])
      | None => (f, [])
      end
  | SFlush now stopped => Flush now stopped f
  | SOnReady => (OnReady f, [])
  end.

Definition step_time (s : fstep) : option Time :=
  match s with SAllow now _ _ | SFire now _ | SFlush now _ => Some now | SOnReady => None end.

Fixpoint filter_run (l : list fstep) (f : Filter) : Filter * list (Time * outcome) :=
  match l with
  | [] => (f, [])
  | s :: l' =>
      let '(f, o1) := filter_step s f in
      let '(f, o2) := filter_run l' f in
      (f, map (fun o => (default 0 (step_time s), o)) o1 ++ o2)
  end.

(** ** notifier.go *)

Definition iconFor (t : EventType) : string :=
  if (t =?s EventVPNUp) || (t =?s EventVPNDown) then "network-vpn"
  else if (t =?s EventNoInternet) || (t =?s EventDegraded) then "dialog-warning"
  else if t =?s EventSecretNeeded then "dialog-password"
  else "network-wireless".

Definition urgencyLevel (u : string) : Z :=
  if u =?s "low" then 0 else if u =?s "critical" then 2 else 1.

Definition urgencyName (u : string) : string :=
  if (u =?s "low") || (u =?s "critical") then u else "normal".

(** [-t], in milliseconds. *)
Definition expireTimeout : Duration := 8 * second.

(** The arguments of the fallback [notify-send]. *)
Definition notifySend_args (e : Event) : list string :=
  ["-a"; "bnm"; "-u"; urgencyName (ev_Urgency e); "-i"; iconFor (ev_Type e);
   "-t"; Itoa (expireTimeout / millisecond); ev_Title e] ++
  (if negb (ev_Body e =?s "") then [ev_Body e] else []).

(** [Deliver], on what the session bus and notify-send answer ([None]: they
    delivered it). *)
Definition Deliver (bus send : option error) (e : Event) : option error :=
  match bus with
  | None => None
  | Some busErr =>
      match send with
      | None => None
      | Some sendErr =>
          Some (EWrap ("notify: deliver " +:+ ev_Title e +:+ ": bus: " +:+ ErrorString busErr +:+
                       "; notify-send: " +:+ ErrorString sendErr) [busErr; sendErr])
      end
  end.

Definition Notify (now : Time) (stopped : bool) (bus send : option error) (e : Event) (f : Filter) :
    Filter * option error :=
  let '(f, o) := Allow now stopped e f in
  (f, if allowed o then Deliver bus send e else None).
