(* ===== verification/NotifyFilterFacts.v ===== *)
(** What the notification filter guarantees for every interleaving of events,
    timers and flushes: the policy gates every delivery, deliveries of the same
    kind keep the rate limit, and a held event is resolved exactly once. *)

From S2P Require Import Prelude GoTime GoStrings Core Errors NotifyFilter.


(** ** Rate keys *)

Fixpoint nul_free (s : string) : bool :=
  match s with
  | EmptyString => true
  | String c s' => negb (Nat.eqb (Ascii.nat_of_ascii c) 0) && nul_free s'
  end.

Lemma nul_split a b x y :
  nul_free a = true -> nul_free b = true -> a +:+ NUL +:+ x = b +:+ NUL +:+ y -> a = b /\ x = y.
Proof.
  revert b; induction a as [|c a IH]; intros b Ha Hb H; destruct b as [|d b]; simpl in *.
  - split; [done|]. injection H as H. exact H.
  - injection H as <- H. exfalso. bool_to_prop. done.
  - injection H as -> H. exfalso. bool_to_prop. done.
  - injection H as <- H. bool_to_prop. destruct (IH b) as [-> ->]; done.
Qed.

Lemma rateKey_inj e1 e2 :
  nul_free (ev_Type e1) = true -> nul_free (ev_Type e2) = true ->
  rateKey e1 = rateKey e2 -> ev_Type e1 = ev_Type e2 /\ ev_NetworkKey e1 = ev_NetworkKey e2.
Proof. unfold rateKey. apply nul_split. Qed.

(** ** Invariant *)

Record filter_ok (f : Filter) : Prop := {
  fo_fresh : forall k h, f_held f !! k = Some h -> (h_token h < f_next f)%nat;
  fo_held : forall k h, f_held f !! k = Some h ->
    ev_NetworkKey (h_event h) = k /\ ev_Type (h_event h) = EventConnected /\
    IsEnabled (f_policy f) EventConnected = true /\ IsMuted (f_policy f) k = false;
  fo_timers : forall t, t ∈ f_timers f -> (h_token (tm_held t) < f_next f)%nat /\
    ev_NetworkKey (h_event (tm_held t)) = tm_key t;
  fo_same : forall t k h, t ∈ f_timers f -> f_held f !! k = Some h ->
    h_token h = h_token (tm_held t) -> h = tm_held t;
  fo_live : forall k h, f_held f !! k = Some h -> exists t, t ∈ f_timers f /\ tm_held t = h /\ tm_key t = k
}.

Lemma NewFilter_ok p : filter_ok (NewFilter p).
Proof.
  constructor; simpl; intros; try (by rewrite lookup_empty in *); by (exfalso; eapply not_elem_of_nil).
Qed.

Lemma record_ok f e now : filter_ok f -> filter_ok (record f e now).
Proof. intros [? ? ? ? ?]; by constructor. Qed.

Lemma stop_timer_elem stopped h l t : t ∈ stop_timer stopped h l -> t ∈ l.
Proof.
  unfold stop_timer. destruct stopped; [|done].
  rewrite !list_elem_of_In, filter_In. by intros [? _].
Qed.

Lemma held_token_inj f k1 k2 h1 h2 :
  filter_ok f -> f_held f !! k1 = Some h1 -> f_held f !! k2 = Some h2 ->
  h_token h1 = h_token h2 -> k1 = k2.
Proof.
  intros Hok H1 H2 Ht. destruct (fo_live f Hok k1 h1 H1) as (t & Hin & Hh & Hk).
  assert (h2 = h1) as ->.
  { rewrite <- Hh. apply (fo_same f Hok t k2 h2); [done|done|by rewrite Hh]. }
  destruct (fo_held f Hok _ _ H1) as [<- _]. by destruct (fo_held f Hok _ _ H2) as [<- _].
Qed.

Lemma drop_held_ok stopped k h f : filter_ok f -> f_held f !! k = Some h -> filter_ok (drop_held stopped k h f).
Proof.
  intros Hok Hk. pose proof Hok as [Hfr Hh Ht Hs Hl]. constructor; simpl.
  - intros k' h'. rewrite lookup_delete. case_decide; [done|]. apply Hfr.
  - intros k' h'. rewrite lookup_delete. case_decide; [done|]. apply Hh.
  - intros t Hin. apply Ht. by eapply stop_timer_elem.
  - intros t k' h' Hin. rewrite lookup_delete. case_decide; [done|]. apply Hs. by eapply stop_timer_elem.
  - intros k' h'. rewrite lookup_delete. case_decide as Hne; [done|]. intros Hk'.
    destruct (Hl k' h' Hk') as (t & Hin & Hth & Htk). exists t. split; [|done].
    unfold stop_timer. destruct stopped; [|done].
    apply list_elem_of_In, filter_In. split; [by apply list_elem_of_In|].
    apply negb_true_iff, Nat.eqb_neq. rewrite Hth. intros He. apply Hne.
    symmetry. by eapply held_token_inj.
Qed.

Lemma hold_ok e now f :
  filter_ok f -> f_held f !! ev_NetworkKey e = None -> ev_Type e = EventConnected ->
  IsEnabled (f_policy f) EventConnected = true -> IsMuted (f_policy f) (ev_NetworkKey e) = false ->
  filter_ok (hold e now f).
Proof.
  intros [Hfr Hh Ht Hs Hl] Hnone Hty Hen Hmu. constructor; simpl.
  - intros k h. rewrite lookup_insert. case_decide; [intros [= <-]; simpl; lia|].
    intros Hk. specialize (Hfr k h Hk). lia.
  - intros k h. rewrite lookup_insert. case_decide as Hk; [intros [= <-]; simpl; by subst|]. apply Hh.
  - intros t Hin. apply elem_of_app in Hin as [Hin|Hin].
    + destruct (Ht t Hin). split; [lia|done].
    + apply list_elem_of_singleton in Hin as ->. simpl. split; [lia|done].
  - intros t k h Hin. rewrite lookup_insert. apply elem_of_app in Hin as [Hin|Hin].
    + case_decide; [|by apply Hs]. intros [= <-]. simpl. intros Heq. destruct (Ht t Hin). lia.
    + apply list_elem_of_singleton in Hin as ->. simpl. case_decide; [by intros [= <-]|].
      intros Hk Heq. specialize (Hfr k h Hk). lia.
  - intros k h. rewrite lookup_insert. case_decide as Hk.
    + intros [= <-]. eexists; split; [apply elem_of_app; right; by apply list_elem_of_singleton|]. by split.
    + intros Hk'. destruct (Hl k h Hk') as (t & Hin & ?). exists t. split; [apply elem_of_app; by left|done].
Qed.

(** Running a timer: it is gone, and either it was stale or its event is no
    longer held. *)
Lemma release_ok now i t f :
  filter_ok f -> f_timers f !! i = Some t ->
  let f0 := mkFilter (f_policy f) (f_onReady f) (f_held f) (f_last f) (delete i (f_timers f)) (f_next f) in
  (exists h, f_held f !! tm_key t = Some h /\ h = tm_held t /\
     release now t f0 = (record (mkFilter (f_policy f) (f_onReady f) (delete (tm_key t) (f_held f))
       (f_last f) (delete i (f_timers f)) (f_next f)) (h_event h) now, [Ready h])) \/
  ((forall h, f_held f !! tm_key t = Some h -> h <> tm_held t) /\ release now t f0 = (f0, [])).
Proof.
  intros Hok Hi f0. unfold release; simpl. destruct (f_held f !! tm_key t) as [h|] eqn:Hk.
  - destruct (Nat.eqb (h_token h) (h_token (tm_held t))) eqn:Hn; simpl.
    + left. exists h. apply Nat.eqb_eq in Hn.
      assert (h = tm_held t) as <- by (eapply (fo_same f Hok); [by eapply list_elem_of_lookup_2|done|done]). done.
    + right. split; [|done]. intros h' [= <-] ->. by rewrite Nat.eqb_refl in Hn.
  - right. by split.
Qed.

(** A stale or finished timer can go. *)
Lemma delete_timer_ok i t f :
  filter_ok f -> f_timers f !! i = Some t ->
  (forall h, f_held f !! tm_key t = Some h -> h <> tm_held t) ->
  filter_ok (mkFilter (f_policy f) (f_onReady f) (f_held f) (f_last f) (delete i (f_timers f)) (f_next f)).
Proof.
  intros [Hfr Hh Ht Hs Hl] Hi Hst.
  assert (forall t', t' ∈ delete i (f_timers f) -> t' ∈ f_timers f) as Hsub.
  { intros t' Hin. eapply elem_of_submseteq; [exact Hin|]. apply sublist_submseteq, sublist_delete. }
  constructor; simpl; eauto.
  intros k h Hk. destruct (Hl k h Hk) as (t' & Hin & Hth & Htk). exists t'. split; [|done].
  apply list_elem_of_lookup in Hin as (j & Hj).
  assert (j <> i) as Hji. { intros ->. rewrite Hi in Hj. injection Hj as <-. apply (Hst h); [by rewrite Htk|done]. }
  apply list_elem_of_lookup. destruct (decide (j < i)%nat).
  - exists j. by rewrite list_lookup_delete_lt.
  - exists (j - 1)%nat. rewrite list_lookup_delete_ge by lia. replace (S (j - 1)) with j by lia. done.
Qed.

(** ** One step: what it puts out and what it leaves *)

(** The events a user gets to see, and the held events created and resolved. *)
Definition seen (o : outcome) : option Event :=
  match o with Delivered e => Some e | Ready h => Some (h_event h) | _ => None end.
Definition created (o : outcome) : option heldEvent :=
  match o with Held h => Some h | _ => None end.
Definition resolved (o : outcome) : option heldEvent :=
  match o with Flapped h _ | Ready h => Some h | _ => None end.

Definition held_list (f : Filter) : list heldEvent := map snd (map_to_list (f_held f)).

(** The bookkeeping of one step: policy kept; held events created and resolved
    balance; every event let through satisfies the policy. *)
Record balanced (f : Filter) (os : list outcome) (f' : Filter) : Prop := {
  ba_policy : f_policy f' = f_policy f;
  ba_ok : filter_ok f';
  ba_next : (f_next f <= f_next f')%nat;
  ba_fresh : forall h, h ∈ omap created os -> (f_next f <= h_token h < f_next f')%nat;
  ba_nodup : NoDup (map h_token (omap created os));
  ba_held : held_list f ++ omap created os ≡ₚ omap resolved os ++ held_list f';
  ba_gate : forall e, e ∈ omap seen os ->
    IsEnabled (f_policy f) (ev_Type e) = true /\
    (ev_Type e = EventSecretNeeded \/ IsMuted (f_policy f) (ev_NetworkKey e) = false)
}.

Lemma balanced_nil f : filter_ok f -> balanced f [] f.
Proof.
  intros; constructor; simpl; try done; try lia.
  - intros h Hh. by apply not_elem_of_nil in Hh.
  - constructor.
  - by rewrite app_nil_r.
  - intros e He. by apply not_elem_of_nil in He.
Qed.

Lemma balanced_app f f1 f2 l1 l2 : balanced f l1 f1 -> balanced f1 l2 f2 -> balanced f (l1 ++ l2) f2.
Proof.
  intros [P1 O1 N1 F1 D1 H1 G1] [P2 O2 N2 F2 D2 H2 G2]. constructor; [congruence|done|lia| | | |].
  - intros h. rewrite omap_app, elem_of_app. intros [H|H]; [apply F1 in H|apply F2 in H]; lia.
  - rewrite omap_app, map_app. apply NoDup_app. split_and!; [done| |done].
    intros n Hn Hn'. apply list_elem_of_fmap in Hn as (h & -> & Hh). apply list_elem_of_fmap in Hn' as (h' & He & Hh').
    apply F1 in Hh. apply F2 in Hh'. lia.
  - rewrite !omap_app, app_assoc, H1, <- app_assoc, H2. by rewrite app_assoc.
  - intros e. rewrite omap_app, elem_of_app. rewrite <- P1. intros [He|He]; [rewrite P1|]; auto.
Qed.

Lemma held_list_delete f k h m :
  f_held f !! k = Some h -> f_held m = delete k (f_held f) -> held_list f ≡ₚ h :: held_list m.
Proof.
  intros Hk Hm. unfold held_list. rewrite Hm. change (h :: map snd ?l) with (map snd ((k, h) :: l)).
  rewrite map_to_list_delete by done. done.
Qed.

Lemma held_list_hold e now f :
  f_held f !! ev_NetworkKey e = None -> held_list (hold e now f) ≡ₚ mkHeld (f_next f) e :: held_list f.
Proof. intros Hn. unfold held_list, hold; simpl. by rewrite map_to_list_insert. Qed.

Lemma balanced_seen f e now :
  filter_ok f -> IsEnabled (f_policy f) (ev_Type e) = true ->
  (ev_Type e = EventSecretNeeded \/ IsMuted (f_policy f) (ev_NetworkKey e) = false) ->
  balanced f [Delivered e] f /\ balanced f [Delivered e] (record f e now).
Proof.
  intros Hok He Hm.
  assert (forall e', e' ∈ omap seen [Delivered e] -> IsEnabled (f_policy f) (ev_Type e') = true /\
    (ev_Type e' = EventSecretNeeded \/ IsMuted (f_policy f) (ev_NetworkKey e') = false)) as Hg.
  { simpl. intros e' He'. by apply list_elem_of_singleton in He' as ->. }
  split; constructor; simpl; try done; try lia; try apply NoDup_nil_2; try (by rewrite app_nil_r);
    try (intros h Hh; by apply not_elem_of_nil in Hh). by apply record_ok.
Qed.

Lemma balanced_dropped f e : filter_ok f -> balanced f [Dropped e] f.
Proof.
  intros; constructor; simpl; try done; try lia; try apply NoDup_nil_2; try (by rewrite app_nil_r);
    intros h Hh; by apply not_elem_of_nil in Hh.
Qed.

Lemma balanced_resolved f k h stopped o f' :
  filter_ok f -> f_held f !! k = Some h -> resolved o = Some h -> created o = None ->
  seen o = None \/ seen o = Some (h_event h) ->
  f_policy f' = f_policy f -> f_next f' = f_next f -> f_held f' = delete k (f_held f) ->
  filter_ok (drop_held stopped k h f) -> filter_ok f' -> balanced f [o] f'.
Proof.
  intros Hok Hk Hr Hc Hs Hp Hn Hh _ Hok'. constructor; simpl; rewrite ?Hc, ?Hr; try done; try lia.
  - intros h' Hh'. by apply not_elem_of_nil in Hh'.
  - apply NoDup_nil_2.
  - rewrite app_nil_r. by eapply held_list_delete.
  - intros e He. destruct (fo_held f Hok k h Hk) as (H1 & H2 & H3 & H4).
    destruct Hs as [Hs|Hs]; rewrite Hs in He; [by apply not_elem_of_nil in He|].
    apply list_elem_of_singleton in He as ->. rewrite H1, H2. auto.
Qed.

Lemma Allow_balanced now stopped e f :
  filter_ok f -> balanced f [(Allow now stopped e f).2] (Allow now stopped e f).1.
Proof.
  intros Hok. unfold Allow.
  destruct (IsEnabled (f_policy f) (ev_Type e)) eqn:Hen; simpl; [|by apply balanced_dropped].
  destruct (ev_Type e =?s EventSecretNeeded) eqn:Hsec; bool_to_prop.
  { by apply (balanced_seen f e now); auto. }
  destruct (IsMuted (f_policy f) (ev_NetworkKey e)) eqn:Hm; [by apply balanced_dropped|].
  destruct (limited f e now); [by apply balanced_dropped|].
  assert (balanced f [Delivered e] (record f e now)) as Hrec by (apply (balanced_seen f e now); auto).
  destruct (ev_Type e =?s EventConnected) eqn:Hc; bool_to_prop.
  - destruct (Debounce (f_policy f) <=? 0); [done|].
    destruct (f_held f !! ev_NetworkKey e) as [h|] eqn:Hk; [by apply balanced_dropped|].
    constructor; simpl; try done; try lia.
    + apply hold_ok; try done. by rewrite <- Hc.
    + intros h Hh. apply list_elem_of_singleton in Hh as ->. simpl. lia.
    + apply NoDup_singleton.
    + rewrite held_list_hold by done. apply Permutation_sym, Permutation_cons_append.
    + intros e' He'. by apply not_elem_of_nil in He'.
  - destruct (ev_Type e =?s EventDisconnected); [|done].
    destruct (f_held f !! ev_NetworkKey e) as [h|] eqn:Hk; [|done].
    eapply (balanced_resolved f (ev_NetworkKey e) h stopped); simpl; try done; try (by left);
      by apply drop_held_ok.
Qed.

Lemma flush_loop_balanced now stopped l : forall f,
  filter_ok f -> NoDup (map fst l) -> (forall k h, (k, h) ∈ l -> f_held f !! k = Some h) ->
  balanced f (flush_loop now stopped l f).2 (flush_loop now stopped l f).1.
Proof.
  induction l as [|[k h] l IH]; intros f Hok Hnd Hl; simpl; [by apply balanced_nil|].
  apply NoDup_cons in Hnd as [Hk Hnd].
  assert (f_held f !! k = Some h) as Hkh by (apply Hl; left).
  pose proof (drop_held_ok stopped k h f Hok Hkh) as Hd.
  set (f1 := record (drop_held stopped k h f) (h_event h) now).
  assert (balanced f [Ready h] f1) as Hb.
  { eapply (balanced_resolved f k h stopped); simpl; try done; [by right|by apply record_ok]. }
  assert (forall k' h', (k', h') ∈ l -> f_held f1 !! k' = Some h') as Hl1.
  { intros k' h' Hin. simpl. rewrite lookup_delete_ne; [by apply Hl; right|].
    intros ->. apply Hk. apply list_elem_of_fmap. by exists (k', h'). }
  specialize (IH f1 (record_ok _ _ _ Hd) Hnd Hl1).
  destruct (flush_loop now stopped l f1) as [f2 out]; simpl in *.
  change (Ready h :: out) with ([Ready h] ++ out). by eapply balanced_app.
Qed.

Lemma filter_step_balanced s f :
  filter_ok f -> balanced f (filter_step s f).2 (filter_step s f).1.
Proof.
  intros Hok. destruct s as [now stopped e|now i|now stopped|]; simpl.
  - pose proof (Allow_balanced now stopped e f Hok) as H. by destruct (Allow now stopped e f).
  - destruct (f_timers f !! i) as [t|] eqn:Hi; [|by apply balanced_nil].
    destruct (tm_due t <=? now); [|by apply balanced_nil].
    destruct (release_ok now i t f Hok Hi) as [(h & Hk & Heq & Hrel)|[Hst Hrel]]; rewrite Hrel; simpl.
    + eapply (balanced_resolved f (tm_key t) h false); simpl; try done; [by right|by apply drop_held_ok|].
      apply record_ok.
      pose proof (drop_held_ok false (tm_key t) h f Hok Hk) as Hd. unfold drop_held in Hd; simpl in Hd.
      apply (delete_timer_ok i t _ Hd); simpl; [done|].
      intros h'. by rewrite lookup_delete_eq.
    + pose proof (delete_timer_ok i t f Hok Hi Hst) as Hok'.
      constructor; simpl; try done; try apply NoDup_nil_2; try (by rewrite app_nil_r);
        intros h Hh; by apply not_elem_of_nil in Hh.
  - unfold Flush. apply flush_loop_balanced; [done|apply NoDup_fst_map_to_list|].
    intros k h. apply elem_of_map_to_list.
  - constructor; simpl; try done; try apply NoDup_nil_2; try (by rewrite app_nil_r);
      try (intros h Hh; by apply not_elem_of_nil in Hh). destruct Hok; by constructor.
Qed.

Lemma filter_run_cons s l f :
  filter_run (s :: l) f =
    ((filter_run l (filter_step s f).1).1,
     map (fun o => (default 0 (step_time s), o)) (filter_step s f).2 ++ (filter_run l (filter_step s f).1).2).
Proof. simpl. destruct (filter_step s f) as [f1 o1]; simpl. by destruct (filter_run l f1). Qed.

Lemma filter_run_balanced l : forall f,
  filter_ok f -> balanced f (map snd (filter_run l f).2) (filter_run l f).1.
Proof.
  induction l as [|s l IH]; intros f Hok; [by apply balanced_nil|].
  rewrite filter_run_cons. simpl fst; simpl snd. rewrite map_app, List.map_map, map_id.
  pose proof (filter_step_balanced s f Hok) as Hb. eapply balanced_app; [done|].
  apply IH, Hb.
Qed.

(** ** The rate limit *)

(** Events that are rate limited: every kind but the password prompts. *)
Definition counted (o : outcome) : option Event :=
  match seen o with
  | Some e => if ev_Type e =?s EventSecretNeeded then None else Some e
  | None => None
  end.

Definition last_after (p : Time * outcome) (L : gmap string Time) : gmap string Time :=
  match counted p.2 with Some e => <[rateKey e := p.1]> L | None => L end.

Fixpoint lasts (l : list (Time * outcome)) (L : gmap string Time) : gmap string Time :=
  match l with [] => L | p :: l' => lasts l' (last_after p L) end.

(** Each counted event comes at least [RL] after the last one of its key. *)
Fixpoint spaced (RL : Duration) (l : list (Time * outcome)) (L : gmap string Time) : Prop :=
  match l with
  | [] => True
  | p :: l' =>
      match counted p.2 with
      | Some e => forall t, L !! rateKey e = Some t -> RL <= p.1 - t
      | None => True
      end /\ spaced RL l' (last_after p L)
  end.

Lemma spaced_app RL l1 l2 L : spaced RL l1 L -> spaced RL l2 (lasts l1 L) -> spaced RL (l1 ++ l2) L.
Proof. revert L; induction l1 as [|p l1 IH]; intros L; simpl; [done|]. intros [H1 H2] H3. split; auto. Qed.

Lemma lasts_app l1 l2 L : lasts (l1 ++ l2) L = lasts l2 (lasts l1 L).
Proof. revert L; induction l1 as [|p l1 IH]; intros L; simpl; auto. Qed.

Record rate_ok (now : Time) (f : Filter) : Prop := {
  ra_past : forall rk t, f_last f !! rk = Some t -> t <= now;
  ra_held : forall k h t, f_held f !! k = Some h -> f_last f !! rateKey (h_event h) = Some t ->
    RateLimit (f_policy f) <= now - t;
  ra_debounce : f_held f <> ∅ -> 0 < Debounce (f_policy f)
}.

Lemma rate_ok_mono now now' f : now <= now' -> rate_ok now f -> rate_ok now' f.
Proof.
  intros Hle [H1 H2 H3]. constructor; [| |done].
  - intros rk t Ht. specialize (H1 rk t Ht). lia.
  - intros k h t Hk Ht. specialize (H2 k h t Hk Ht). lia.
Qed.

Lemma limited_false f e now t :
  0 < RateLimit (f_policy f) <= max_int64 -> limited f e now = false ->
  f_last f !! rateKey e = Some t -> RateLimit (f_policy f) <= now - t.
Proof.
  unfold limited. intros Hr. destruct (RateLimit (f_policy f) <=? 0) eqn:H0; bool_to_prop; [lia|].
  intros Hl Ht. rewrite Ht in Hl. apply Z.ltb_ge in Hl. unfold time_Sub, min_int64, max_int64 in *. lia.
Qed.

(** Recording a counted event of a key that is not (any longer) held. *)
Lemma record_rate now e f :
  rate_ok now f -> filter_ok f -> nul_free (ev_Type e) = true ->
  (ev_Type e = EventConnected -> f_held f !! ev_NetworkKey e = None) ->
  rate_ok now (record f e now).
Proof.
  intros [H1 H2 H3] Hok Hn Hc. constructor; simpl; [| |done].
  - intros rk t. rewrite lookup_insert. case_decide; [by intros [= <-]|]. apply H1.
  - intros k h t Hk. rewrite lookup_insert. case_decide as He; [|by apply (H2 k h t Hk)].
    destruct (fo_held f Hok k h Hk) as (Hkk & Hty & _ & _).
    destruct (rateKey_inj e (h_event h)) as [Ht Hkey]; [done|by rewrite Hty|done|].
    exfalso. assert (f_held f !! ev_NetworkKey e = None) as Hnone by (apply Hc; congruence).
    rewrite Hkey, Hkk in Hnone. congruence.
Qed.

Definition step_nul_free (s : fstep) : Prop :=
  match s with SAllow _ _ e => nul_free (ev_Type e) = true | _ => True end.

Definition step_after (now : Time) (s : fstep) : Prop :=
  match step_time s with Some t => now <= t | None => True end.

Definition time_after (now : Time) (s : fstep) : Time := default now (step_time s).

Definition stamp (t : Time) (os : list outcome) : list (Time * outcome) := map (fun o => (t, o)) os.

(** What a step must show: spaced outputs, the map of last deliveries in step
    with them, and the invariant. *)
Definition rate_step (now : Time) (f : Filter) (os : list outcome) (f' : Filter) : Prop :=
  spaced (RateLimit (f_policy f)) (stamp now os) (f_last f) /\
  f_last f' = lasts (stamp now os) (f_last f) /\ rate_ok now f'.

Lemma Allow_rate now stopped e f :
  filter_ok f -> rate_ok now f -> 0 < RateLimit (f_policy f) <= max_int64 -> nul_free (ev_Type e) = true ->
  rate_step now f [(Allow now stopped e f).2] (Allow now stopped e f).1.
Proof.
  intros Hok Hra Hrl Hn. unfold Allow.
  assert (rate_step now f [Dropped e] f) as Hdrop by done.
  destruct (negb (IsEnabled (f_policy f) (ev_Type e))); [done|].
  destruct (ev_Type e =?s EventSecretNeeded) eqn:Hsec.
  { unfold rate_step; simpl. unfold last_after, counted; simpl. by rewrite Hsec. }
  destruct (IsMuted (f_policy f) (ev_NetworkKey e)); [done|].
  destruct (limited f e now) eqn:Hl; [done|].
  assert ((ev_Type e = EventConnected -> f_held f !! ev_NetworkKey e = None) ->
    rate_step now f [Delivered e] (record f e now)) as Hrec.
  { intros Hc. unfold rate_step; simpl. unfold last_after, counted; simpl. rewrite Hsec. split_and!; try done.
    - intros t Ht. by apply (limited_false f e now t).
    - by apply record_rate. }
  destruct (ev_Type e =?s EventConnected) eqn:Hc; bool_to_prop.
  - destruct (Debounce (f_policy f) <=? 0) eqn:Hd; bool_to_prop.
    + apply Hrec. intros _. destruct (f_held f !! ev_NetworkKey e) eqn:Hk; [|done].
      assert (f_held f <> ∅) as Hne by (intros He; by rewrite He, lookup_empty in Hk).
      apply (ra_debounce _ _ Hra) in Hne. lia.
    + destruct (f_held f !! ev_NetworkKey e) as [h|] eqn:Hk; [done|].
      split_and!; [done|done|]. destruct Hra as [H1 H2 H3]. constructor; simpl; [done| |done].
      intros k h t. rewrite lookup_insert. case_decide; [|by apply H2].
      intros [= <-]. simpl. by apply limited_false.
  - destruct (ev_Type e =?s EventDisconnected); [|by apply Hrec].
    destruct (f_held f !! ev_NetworkKey e) as [h|] eqn:Hk; [|by apply Hrec].
    split_and!; [done|done|]. destruct Hra as [H1 H2 H3]. constructor; simpl; [done| |].
    + intros k h' t. rewrite lookup_delete. case_decide; [done|]. by apply H2.
    + intros _. apply H3. intros He. by rewrite He, lookup_empty in Hk.
Qed.

(** Delivering a held event, whoever removed it from the map. *)
Lemma ready_rate now k h f f' :
  filter_ok f -> rate_ok now f -> f_held f !! k = Some h ->
  f_policy f' = f_policy f -> f_held f' = delete k (f_held f) -> f_last f' = f_last f -> filter_ok f' ->
  rate_step now f [Ready h] (record f' (h_event h) now).
Proof.
  intros Hok Hra Hk Hp Hh Hl Hok'. destruct (fo_held f Hok k h Hk) as (Hkk & Hty & _ & _).
  unfold rate_step; simpl. unfold last_after, counted; simpl. rewrite Hty; simpl. rewrite Hl. split_and!; try done.
  - intros t Ht. by apply (ra_held _ _ Hra k h t).
  - apply record_rate; [|done|by rewrite Hty|].
    + destruct Hra as [H1 H2 H3]. constructor; rewrite ?Hl, ?Hh, ?Hp; [done| |].
      * intros k' h' t. rewrite lookup_delete. case_decide; [done|]. by apply H2.
      * intros _. apply H3. intros He. by rewrite He, lookup_empty in Hk.
    + intros _. rewrite Hh, Hkk. apply lookup_delete_eq.
Qed.

Lemma flush_loop_rate now stopped l : forall f,
  filter_ok f -> rate_ok now f -> NoDup (map fst l) -> (forall k h, (k, h) ∈ l -> f_held f !! k = Some h) ->
  rate_step now f (flush_loop now stopped l f).2 (flush_loop now stopped l f).1.
Proof.
  induction l as [|[k h] l IH]; intros f Hok Hra Hnd Hl; simpl; [done|].
  apply NoDup_cons in Hnd as [Hk Hnd].
  assert (f_held f !! k = Some h) as Hkh by (apply Hl; left).
  pose proof (drop_held_ok stopped k h f Hok Hkh) as Hd.
  pose proof (ready_rate now k h f (drop_held stopped k h f) Hok Hra Hkh eq_refl eq_refl eq_refl Hd) as (Hs1 & Hl1 & Hr1).
  set (f1 := record (drop_held stopped k h f) (h_event h) now) in *.
  assert (forall k' h', (k', h') ∈ l -> f_held f1 !! k' = Some h') as Hl2.
  { intros k' h' Hin. simpl. rewrite lookup_delete_ne; [by apply Hl; right|].
    intros ->. apply Hk. apply list_elem_of_fmap. by exists (k', h'). }
  specialize (IH f1 (record_ok _ _ _ Hd) Hr1 Hnd Hl2).
  destruct (flush_loop now stopped l f1) as [f2 out]; simpl in *. destruct IH as (Hs2 & Hll2 & Hr2).
  split_and!; [|rewrite Hll2; simpl; by rewrite <- Hl1|done].
  change (stamp now (Ready h :: out)) with (stamp now [Ready h] ++ stamp now out).
  apply spaced_app; [exact Hs1|]. simpl. by rewrite <- Hl1.
Qed.

Lemma filter_step_rate s now f :
  filter_ok f -> rate_ok now f -> 0 < RateLimit (f_policy f) <= max_int64 -> step_nul_free s -> step_after now s ->
  spaced (RateLimit (f_policy f)) (stamp (default 0 (step_time s)) (filter_step s f).2) (f_last f) /\
  f_last (filter_step s f).1 = lasts (stamp (default 0 (step_time s)) (filter_step s f).2) (f_last f) /\
  rate_ok (time_after now s) (filter_step s f).1.
Proof.
  intros Hok Hra Hrl Hn Ha. destruct s as [t stopped e|t i|t stopped|]; simpl in *;
    try (apply (rate_ok_mono now t) in Hra; [|done]).
  - pose proof (Allow_rate t stopped e f Hok Hra Hrl Hn) as H. by destruct (Allow t stopped e f).
  - destruct (f_timers f !! i) as [tm|] eqn:Hi; [|done].
    destruct (tm_due tm <=? t); [|done].
    destruct (release_ok t i tm f Hok Hi) as [(h & Hk & Heq & Hrel)|[Hst Hrel]]; rewrite Hrel; simpl.
    + apply (ready_rate t (tm_key tm) h f (mkFilter (f_policy f) (f_onReady f) (delete (tm_key tm) (f_held f))
        (f_last f) (delete i (f_timers f)) (f_next f)) Hok Hra Hk); [done|done|done|].
      pose proof (drop_held_ok false (tm_key tm) h f Hok Hk) as Hd. unfold drop_held in Hd; simpl in Hd.
      apply (delete_timer_ok i tm _ Hd); simpl; [done|]. intros h'. by rewrite lookup_delete_eq.
    + split_and!; try done. destruct Hra; by constructor.
  - unfold Flush. apply flush_loop_rate; [done|done|apply NoDup_fst_map_to_list|].
    intros k h. apply elem_of_map_to_list.
  - split_and!; try done. destruct Hra; by constructor.
Qed.

(** The clock never goes back. *)
Fixpoint clocked (now : Time) (l : list fstep) : Prop :=
  match l with [] => True | s :: l' => step_after now s /\ clocked (time_after now s) l' end.

Lemma filter_run_rate l : forall now f,
  filter_ok f -> rate_ok now f -> 0 < RateLimit (f_policy f) <= max_int64 ->
  Forall step_nul_free l -> clocked now l ->
  spaced (RateLimit (f_policy f)) (filter_run l f).2 (f_last f).
Proof.
  induction l as [|s l IH]; intros now f Hok Hra Hrl Hn Hc; [done|].
  apply Forall_cons in Hn as [Hn Hns]. destruct Hc as [Ha Hc].
  destruct (filter_step_rate s now f Hok Hra Hrl Hn Ha) as (H1 & H2 & H3).
  pose proof (filter_step_balanced s f Hok) as Hb.
  rewrite filter_run_cons. simpl snd. apply spaced_app; [done|]. unfold stamp in H2. rewrite <- H2.
  rewrite <- (ba_policy _ _ _ Hb). eapply IH; [apply Hb|exact H3|by rewrite (ba_policy _ _ _ Hb)|done|done].
Qed.

Definition in_time_order (l : list (Time * outcome)) : Prop :=
  StronglySorted (fun p q => p.1 <= q.1) l.

Lemma filter_run_order l : forall now f,
  clocked now l -> in_time_order (filter_run l f).2 /\ Forall (fun p => now <= p.1) (filter_run l f).2.
Proof.
  induction l as [|s l IH]; intros now f Hc; [split; constructor|]. destruct Hc as [Ha Hc].
  destruct (IH _ (filter_step s f).1 Hc) as [H1 H2]. rewrite filter_run_cons. simpl snd.
  assert (now <= time_after now s) as Hle by (unfold time_after, step_after in *; destruct (step_time s); simpl; lia).
  assert (step_time s = None -> (filter_step s f).2 = []) as Hnone by (by destruct s).
  assert (forall p, p ∈ map (fun o => (default 0 (step_time s), o)) (filter_step s f).2 -> p.1 = time_after now s) as Hp.
  { intros p Hp. destruct (step_time s) as [t|] eqn:Hst; simpl in Hp.
    - apply list_elem_of_fmap in Hp as (o & -> & _). unfold time_after. by rewrite Hst.
    - rewrite Hnone in Hp by done. by apply not_elem_of_nil in Hp. }
  revert Hp. generalize (map (fun o => (default 0 (step_time s), o)) (filter_step s f).2) as l1.
  induction l1 as [|p l1 IH1]; intros Hp; simpl.
  - split; [done|]. eapply Forall_impl; [exact H2|]. simpl; lia.
  - destruct IH1 as [I1 I2]; [intros q Hq; apply Hp; by right|].
    assert (p.1 = time_after now s) as Hp1 by (apply Hp; left).
    split; [|constructor; [lia|done]]. constructor; [done|].
    apply Forall_app; split.
    + apply Forall_forall. intros q Hq. rewrite Hp1, (Hp q) by (by right). lia.
    + eapply Forall_impl; [exact H2|]. simpl. intros. lia.
Qed.

Lemma spaced_from RL l : forall L t1 t2 o e,
  spaced RL l L -> L !! rateKey e = Some t1 -> in_time_order l -> 0 <= RL ->
  (t2, o) ∈ l -> counted o = Some e -> Forall (fun p => t1 <= p.1) l -> RL <= t2 - t1.
Proof.
  induction l as [|[t o'] l IH]; intros L t1 t2 o e Hs HL Ho HRL Hin Hc Ht; [by apply not_elem_of_nil in Hin|].
  destruct Hs as [Hg Hs]; simpl in *. apply Forall_cons in Ht as [Ht1 Ht]; simpl in *.
  apply StronglySorted_inv in Ho as [Ho Hot]. unfold last_after in Hs; simpl in Hs.
  apply elem_of_cons in Hin as [Heq|Hin].
  - injection Heq as -> ->. rewrite Hc in Hg. by apply Hg.
  - destruct (counted o') as [e'|] eqn:Ho'; [|by eapply (IH L)].
    destruct (decide (rateKey e' = rateKey e)) as [Hk|Hk].
    + assert (RL <= t2 - t); [|lia].
      eapply (IH (<[rateKey e':=t]> L)); try done. by rewrite Hk, lookup_insert_eq.
    + eapply (IH (<[rateKey e':=t]> L)); try done. by rewrite lookup_insert_ne.
Qed.

Lemma spaced_pair RL l1 : forall L t1 o1 l2 t2 o2 e1 e2,
  spaced RL (l1 ++ (t1, o1) :: l2) L -> in_time_order (l1 ++ (t1, o1) :: l2) -> 0 <= RL ->
  (t2, o2) ∈ l2 -> counted o1 = Some e1 -> counted o2 = Some e2 -> rateKey e1 = rateKey e2 ->
  RL <= t2 - t1.
Proof.
  induction l1 as [|p l1 IH]; intros L t1 o1 l2 t2 o2 e1 e2 Hs Ho HRL Hin H1 H2 Hk; simpl in *.
  - destruct Hs as [_ Hs]. unfold last_after in Hs; simpl in Hs. rewrite H1 in Hs.
    apply StronglySorted_inv in Ho as [Ho Ht]. simpl in Ht.
    eapply (spaced_from RL l2 (<[rateKey e1:=t1]> L) t1 t2 o2 e2);
      [exact Hs|by rewrite Hk, lookup_insert_eq|done|done|done|done|exact Ht].
  - destruct Hs as [_ Hs]. apply StronglySorted_inv in Ho as [Ho _]. by eapply (IH (last_after p L)).
Qed.

Lemma NewFilter_rate p now : rate_ok now (NewFilter p).
Proof.
  constructor; simpl; [|intros k h t H|done].
  - intros rk t H. by rewrite lookup_empty in H.
  - by rewrite lookup_empty in H.
Qed.

(** ** Properties *)

(** C9: With a rate limit, and on a clock that does not go back, two
    notifications of the same type for the same network reach the user at least
    [RateLimit] apart, whatever order events, timers and flushes come in, and also
    when one of them was held and delivered by a timer.  A password prompt is
    exempt: it is delivered at once whenever its type is enabled, whatever was
    delivered before, and leaves the filter as it was. *)
Theorem rate_limit_holds p now l :
  0 < RateLimit p <= max_int64 -> Forall step_nul_free l -> clocked now l ->
  let '(f, outs) := filter_run l (NewFilter p) in
  (forall l1 t1 o1 l2 t2 o2 e1 e2,
     outs = l1 ++ (t1, o1) :: l2 -> (t2, o2) ∈ l2 -> seen o1 = Some e1 -> seen o2 = Some e2 ->
     ev_Type e1 = ev_Type e2 -> ev_NetworkKey e1 = ev_NetworkKey e2 -> ev_Type e1 <> EventSecretNeeded ->
     RateLimit p <= t2 - t1) /\
  (forall now' stopped e, ev_Type e = EventSecretNeeded ->
     Allow now' stopped e f = (f, if IsEnabled p EventSecretNeeded then Delivered e else Dropped e)).
Proof.
  intros Hrl Hn Hc.
  pose proof (filter_run_rate l now (NewFilter p) (NewFilter_ok p) (NewFilter_rate p now) Hrl Hn Hc) as Hs.
  destruct (filter_run_order l now (NewFilter p) Hc) as [Ho _].
  pose proof (filter_run_balanced l (NewFilter p) (NewFilter_ok p)) as [Hp _ _ _ _ _ _].
  destruct (filter_run l (NewFilter p)) as [f outs]. cbn [fst snd] in *. split.
  - intros l1 t1 o1 l2 t2 o2 e1 e2 -> Hin Hs1 Hs2 Ht Hk Hsec.
    eapply (spaced_pair (RateLimit p) l1 ∅ t1 o1 l2 t2 o2 e1 e2); try done; [lia| | |].
    + unfold counted. rewrite Hs1. by rewrite seqb_ne.
    + unfold counted. rewrite Hs2. rewrite seqb_ne; [done|congruence].
    + unfold rateKey. by rewrite Ht, Hk.
  - intros now' stopped e Ht. unfold Allow. rewrite Hp. cbn. rewrite Ht. by destruct (IsEnabled p EventSecretNeeded).
Qed.

(** every held connected event is resolved exactly once: over any run, the
    events ever held are, as a multiset and each under its own identity, those
    handed out by a timer or a flush, those cancelled by a disconnect, and
    those still held.  So none is delivered twice or after it was cancelled
    (even when its timer was stopped too late), and none is lost: whatever is
    still held has a timer that will release it. *)
Theorem held_resolved_once p l :
  let '(f, outs) := filter_run l (NewFilter p) in
  let os := map snd outs in
  omap created os ≡ₚ omap resolved os ++ held_list f /\
  NoDup (map h_token (omap created os)) /\
  (forall k h, f_held f !! k = Some h ->
     exists i t, f_timers f !! i = Some t /\ tm_held t = h /\
       forall now, tm_due t <= now -> (filter_step (SFire now i) f).2 = [Ready h]).
Proof.
  pose proof (filter_run_balanced l (NewFilter p) (NewFilter_ok p)) as [_ Hok _ _ Hnd Hb _].
  destruct (filter_run l (NewFilter p)) as [f outs]; simpl in *. split_and!; [|done|].
  - rewrite <- Hb. unfold held_list; simpl. by rewrite map_to_list_empty.
  - intros k h Hk. destruct (fo_live f Hok k h Hk) as (t & Hin & Hth & Htk).
    apply list_elem_of_lookup in Hin as (i & Hi). exists i, t. split_and!; [done|done|].
    intros now Hdue. rewrite Hi. apply Z.leb_le in Hdue as ->.
    destruct (release_ok now i t f Hok Hi) as [(h' & Hk' & Heq & Hrel)|[Hst _]].
    + rewrite Hrel. simpl. congruence.
    + exfalso. apply (Hst h); [by rewrite Htk|done].
Qed.

(** the policy gates everything the user sees: over any run, a delivered
    or released event is of an enabled type and not of a muted network, except
    that an enabled password prompt always passes, whatever is muted, held or
    rate limited, and leaves the filter as it was. *)
Theorem policy_gates p l now stopped e :
  (forall x, x ∈ omap seen (map snd (filter_run l (NewFilter p)).2) ->
     IsEnabled p (ev_Type x) = true /\
     (ev_Type x = EventSecretNeeded \/ IsMuted p (ev_NetworkKey x) = false)) /\
  (ev_Type e = EventSecretNeeded -> IsEnabled p EventSecretNeeded = true ->
   Allow now stopped e (filter_run l (NewFilter p)).1 = ((filter_run l (NewFilter p)).1, Delivered e)).
Proof.
  pose proof (filter_run_balanced l (NewFilter p) (NewFilter_ok p)) as [Hp _ _ _ _ _ Hg].
  split; [exact Hg|]. intros Ht Hen. unfold Allow. rewrite Hp; simpl. by rewrite Ht, Hen.
Qed.

(** ** Witnesses *)

Definition demo_event (ty key : string) : Event := mkEvent 0 ty key "title" "" "low" ∅.

(** Roaming: a held connect, a flap, then a connect that stays and a late
    timer of the first one. *)
Definition demo_steps : list fstep :=
  [SOnReady;
   SAllow (10 * second) true (demo_event EventConnected "wifi:Home");
   SAllow (12 * second) false (demo_event EventDisconnected "wifi:Home");
   SAllow (13 * second) true (demo_event EventConnected "wifi:Home");
   SFire (15 * second) 0;
   SFire (18 * second) 0;
   SAllow (20 * second) true (demo_event EventConnected "wifi:Home");
   SAllow (60 * second) true (demo_event EventConnected "wifi:Home");
   SFlush (61 * second) true].

(** A connect held at 13 s and delivered by its timer at 18 s; one at 20 s is
    refused; the next is held at 60 s and flushed at 61 s.  A prompt passes. *)
Lemma rate_limit_holds_witness :
  let r := filter_run demo_steps (NewFilter DefaultPolicy) in
  0 < RateLimit DefaultPolicy <= max_int64 /\ Forall step_nul_free demo_steps /\ clocked 0 demo_steps /\
  omap (fun p => (fun e => (p.1 / second, ev_Type e)) <$> seen p.2) r.2 = [(18, EventConnected); (61, EventConnected)] /\
  (forall l1 t1 o1 l2 t2 o2 e1 e2,
     r.2 = l1 ++ (t1, o1) :: l2 -> (t2, o2) ∈ l2 -> seen o1 = Some e1 -> seen o2 = Some e2 ->
     ev_Type e1 = ev_Type e2 -> ev_NetworkKey e1 = ev_NetworkKey e2 -> ev_Type e1 <> EventSecretNeeded ->
     RateLimit DefaultPolicy <= t2 - t1) /\
  Allow (61 * second) true (demo_event EventSecretNeeded "wifi:Home") r.1 = (r.1, Delivered (demo_event EventSecretNeeded "wifi:Home")).
Proof.
  intros r.
  assert (0 < RateLimit DefaultPolicy <= max_int64) as H1 by (split; vm_compute; [reflexivity|discriminate]).
  assert (Forall step_nul_free demo_steps) as H2 by repeat constructor.
  assert (clocked 0 demo_steps) as H3 by (vm_compute; repeat split; discriminate).
  pose proof (rate_limit_holds DefaultPolicy 0 demo_steps H1 H2 H3) as H. split_and!; [exact (proj1 H1)|exact (proj2 H1)|exact H2|exact H3|vm_compute; reflexivity| |].
  - unfold r. destruct (filter_run demo_steps (NewFilter DefaultPolicy)) as [f outs]. exact (proj1 H).
  - unfold r. destruct (filter_run demo_steps (NewFilter DefaultPolicy)) as [f outs]. by apply (proj2 H).
Defined.

Lemma policy_gates_witness :
  Allow (14 * second) true (demo_event EventSecretNeeded "wifi:Home")
    (filter_run (take 3 demo_steps) (NewFilter DefaultPolicy)).1 =
  ((filter_run (take 3 demo_steps) (NewFilter DefaultPolicy)).1,
   Delivered (demo_event EventSecretNeeded "wifi:Home")).
Proof.
  apply (policy_gates DefaultPolicy (take 3 demo_steps) (14 * second) true
    (demo_event EventSecretNeeded "wifi:Home")); reflexivity.
Defined.

Lemma held_resolved_once_witness :
  (let '(f, outs) := filter_run (take 4 demo_steps) (NewFilter DefaultPolicy) in
   let os := map snd outs in
   omap created os ≡ₚ omap resolved os ++ held_list f /\
   NoDup (map h_token (omap created os)) /\
   (forall k h, f_held f !! k = Some h ->
      exists i t, f_timers f !! i = Some t /\ tm_held t = h /\
        forall now, tm_due t <= now -> (filter_step (SFire now i) f).2 = [Ready h])) /\
  map h_token (held_list (filter_run (take 4 demo_steps) (NewFilter DefaultPolicy)).1) = [1%nat].
Proof.
  split; [apply (held_resolved_once DefaultPolicy (take 4 demo_steps))|vm_compute; reflexivity].
Defined.
