(* ===== verification/Deriver.v ===== *)
(** internal/daemon/derive.go: the event deriver, a pure state machine from
    successive views of the world to events.  [apply] feeds a view, [flush]
    fires the timers, [nextDeadline] says when flush next has work. *)

From S2P Require Import Prelude GoTime GoStrings Core.


Definition DefaultDebounce : Duration := 5 * second.
Definition DefaultConnectivityGrace : Duration := 10 * second.

(** ** State *)

Record view := mkView { v_Status : Status; v_Profiles : list Profile; v_VPNs : list VPN }.

Record pendingDisconnect := mkPD { pd_key : string; pd_name : string; pd_uuid : string; pd_at : Time }.
Record pendingNoInternet := mkPN { pn_conn : Connectivity; pn_since : Time }.

Record deriver := mkDeriver {
  d_debounce : Duration;
  d_grace : Duration;
  d_initialized : bool;
  d_primary : option ActiveConnection;
  d_primaryKey : string;
  d_primaryName : string;
  d_noInternet : bool;
  d_pendingDisc : option pendingDisconnect;
  d_pendingNoInternet : option pendingNoInternet;
  d_vpnUp : gmap string VPN;
  d_monitorKey : string;
  d_monitorGateway : string
}.

Definition newDeriver (debounce grace : Duration) : deriver :=
  mkDeriver (if debounce <? 0 then 0 else debounce) (if grace <? 0 then 0 else grace)
    false None "" "" false None None ∅ "" "".

Definition d_set_initialized (d : deriver) : deriver :=
  mkDeriver (d_debounce d) (d_grace d) true (d_primary d) (d_primaryKey d) (d_primaryName d)
    (d_noInternet d) (d_pendingDisc d) (d_pendingNoInternet d) (d_vpnUp d) (d_monitorKey d) (d_monitorGateway d).

Definition setPrimary (p : option ActiveConnection) (key : string) (d : deriver) : deriver :=
  let '(pk, pn) := match p with None => ("", "") | Some ac => (key, ac_ProfileName ac) end in
  mkDeriver (d_debounce d) (d_grace d) (d_initialized d) p pk pn
    (d_noInternet d) (d_pendingDisc d) (d_pendingNoInternet d) (d_vpnUp d) (d_monitorKey d) (d_monitorGateway d).

Definition set_connectivity (ni : bool) (pn : option pendingNoInternet) (d : deriver) : deriver :=
  mkDeriver (d_debounce d) (d_grace d) (d_initialized d) (d_primary d) (d_primaryKey d) (d_primaryName d)
    ni (d_pendingDisc d) pn (d_vpnUp d) (d_monitorKey d) (d_monitorGateway d).

Definition resetConnectivity (d : deriver) : deriver := set_connectivity false None d.

Definition set_pendingDisc (pd : option pendingDisconnect) (d : deriver) : deriver :=
  mkDeriver (d_debounce d) (d_grace d) (d_initialized d) (d_primary d) (d_primaryKey d) (d_primaryName d)
    (d_noInternet d) pd (d_pendingNoInternet d) (d_vpnUp d) (d_monitorKey d) (d_monitorGateway d).

Definition set_monitor (key gw : string) (d : deriver) : deriver :=
  mkDeriver (d_debounce d) (d_grace d) (d_initialized d) (d_primary d) (d_primaryKey d) (d_primaryName d)
    (d_noInternet d) (d_pendingDisc d) (d_pendingNoInternet d) (d_vpnUp d) key gw.

Definition set_vpnUp (m : gmap string VPN) (d : deriver) : deriver :=
  mkDeriver (d_debounce d) (d_grace d) (d_initialized d) (d_primary d) (d_primaryKey d) (d_primaryName d)
    (d_noInternet d) (d_pendingDisc d) (d_pendingNoInternet d) m (d_monitorKey d) (d_monitorGateway d).

(** ** Reading a view *)

Definition connectedPrimary (s : Status) : option ActiveConnection :=
  match st_Primary s with
  | None => None
  | Some p => if (ac_State p =?s ActiveActivated) || (ac_State p =?s "") then Some p else None
  end.

Definition isBad (c : Connectivity) : bool :=
  (c =?s ConnNone) || (c =?s ConnLimited) || (c =?s ConnPortal).

Definition gatewayOf (p : option ActiveConnection) : string :=
  match p with None => "" | Some ac => ac_Gateway4 ac end.

(** [strings.SplitN(a, "/", 2)[0]] *)
Definition before_slash (a : string) : string := match Cut a "/" with Some (x, _) => x | None => a end.

Definition firstIP (p : ActiveConnection) : string :=
  match ac_IPv4 p, ac_IPv6 p with
  | a :: _, _ => before_slash a
  | [], a :: _ => before_slash a
  | [], [] => ""
  end.

(** ** Events *)

Definition connectedEvent (p : ActiveConnection) (key : string) (now : Time) : Event :=
  let dev := match ac_Devices p with dv :: _ => dv | [] => "" end in
  let ip := firstIP p in
  let body :=
    if negb (ip =?s "") && negb (dev =?s "") then ip +:+ " via " +:+ dev
    else if negb (ip =?s "") then ip
    else if negb (dev =?s "") then "via " +:+ dev
    else "" in
  mkEvent now EventConnected key ("Connected to " +:+ ac_ProfileName p) body "low"
    (list_to_map [("uuid", ac_ProfileUUID p); ("device", dev); ("ip", ip); ("gateway", ac_Gateway4 p)]).

Definition disconnectedEvent (pd : pendingDisconnect) (now : Time) : Event :=
  mkEvent now EventDisconnected (pd_key pd) ("Disconnected from " +:+ pd_name pd) "No network connection"
    "normal" {[ "uuid" := pd_uuid pd ]}.

Definition noInternetEvent (name key : string) (conn : Connectivity) (now : Time) : Event :=
  mkEvent now EventNoInternet key ("No internet on " +:+ name)
    (if conn =?s ConnPortal then name +:+ " needs a login page: open a browser to sign in"
     else "Connected to " +:+ name +:+ " but the internet is unreachable")
    "normal" {[ "connectivity" := conn ]}.

Definition restoredEvent (name key : string) (now : Time) : Event :=
  mkEvent now EventInternetRestored key "Internet restored" (name +:+ " is back online") "low" ∅.

Definition vpnEvent (t : EventType) (v : VPN) (key : string) (now : Time) : Event :=
  let '(title, body) :=
    if t =?s EventVPNDown then (vpn_Name v +:+ " disconnected", "VPN is down")
    else (vpn_Name v +:+ " connected", "VPN is up") in
  mkEvent now t key title
    (if negb (vpn_Kind v =?s "") then body +:+ " (" +:+ vpn_Kind v +:+ ")" else body) "low"
    (list_to_map [("vpn", vpn_ID v); ("backend", vpn_Backend v)]).

(** ** Timers *)

(** The pending disconnect is due. *)
Definition disc_due (now : Time) (d : deriver) : option pendingDisconnect :=
  match d_pendingDisc d with
  | Some pd => if negb (time_Before now (time_Add (pd_at pd) (d_debounce d))) then Some pd else None
  | None => None
  end.

Definition flush_disc (now : Time) (d : deriver) : deriver * list Event :=
  match disc_due now d with
  | Some pd => (resetConnectivity (set_monitor "" "" (set_pendingDisc None d)), [disconnectedEvent pd now])
  | None => (d, [])
  end.

(** The pending no-internet is due, with something connected. *)
Definition noinet_due (now : Time) (d : deriver) : option pendingNoInternet :=
  match d_pendingNoInternet d, d_primary d with
  | Some pn, Some _ => if negb (time_Before now (time_Add (pn_since pn) (d_grace d))) then Some pn else None
  | _, _ => None
  end.

Definition flush_noinet (now : Time) (d : deriver) : deriver * list Event :=
  match noinet_due now d with
  | Some pn => (set_connectivity true None d, [noInternetEvent (d_primaryName d) (d_primaryKey d) (pn_conn pn) now])
  | None => (d, [])
  end.

Definition flush (now : Time) (d : deriver) : deriver * list Event :=
  let '(d, e1) := flush_disc now d in
  let '(d, e2) := flush_noinet now d in
  (d, e1 ++ e2).

Definition nextDeadline (d : deriver) : option Time :=
  let t := match d_pendingDisc d with Some pd => time_Add (pd_at pd) (d_debounce d) | None => 0 end in
  let t := match d_pendingNoInternet d, d_primary d with
           | Some pn, Some _ =>
               let u := time_Add (pn_since pn) (d_grace d) in
               if time_IsZero t || time_Before u t then u else t
           | _, _ => t
           end in
  if time_IsZero t then None else Some t.

Definition monitorNetwork (d : deriver) : string * string := (d_monitorKey d, d_monitorGateway d).

(** ** [apply] *)

(** The first view initialises the machine silently. *)
Definition connected_vpns (l : list VPN) : gmap string VPN :=
  fold_left (fun m v => if vpn_State v =?s VPNConnected then <[vpn_ID v := v]> m else m) l ∅.

Definition apply_init (v : view) (cur : option ActiveConnection) (key : string) (now : Time) (d : deriver) : deriver :=
  let d := setPrimary cur key (d_set_initialized d) in
  let d := set_monitor key (gatewayOf cur) d in
  let d := set_vpnUp (fold_left (fun m x => if vpn_State x =?s VPNConnected then <[vpn_ID x := x]> m else m)
                        (v_VPNs v) (d_vpnUp d)) d in
  match cur with
  | Some _ =>
      if isBad (st_Connectivity (v_Status v))
      then set_connectivity (d_noInternet d) (Some (mkPN (st_Connectivity (v_Status v)) now)) d
      else d
  | None => d
  end.

(** The switch on the primary connection. *)
Definition apply_primary (cur : option ActiveConnection) (key : string) (now : Time) (d : deriver) :
    deriver * list Event :=
  match d_primary d, cur with
  | None, Some ac =>
      let roam := match d_pendingDisc d with Some pd => pd_key pd =?s key | None => false end in
      let d := setPrimary cur key (set_pendingDisc None d) in
      if roam then (d, [])
      else (set_monitor key (gatewayOf cur) (resetConnectivity d), [connectedEvent ac key now])
  | Some p, None =>
      (setPrimary None "" (set_pendingDisc (Some (mkPD (d_primaryKey d) (d_primaryName d) (ac_ProfileUUID p) now)) d), [])
  | Some p, Some ac =>
      if negb (ac_ProfileUUID ac =?s ac_ProfileUUID p) then
        (set_monitor key (gatewayOf cur) (resetConnectivity (setPrimary cur key (set_pendingDisc None d))),
         [connectedEvent ac key now])
      else
        let d := setPrimary cur key d in
        let gw := gatewayOf cur in
        (if negb (gw =?s "") && (d_monitorKey d =?s key) then set_monitor (d_monitorKey d) gw d else d, [])
  | None, None => (d, [])
  end.

(** The switch on connectivity. *)
Definition apply_connectivity (conn : Connectivity) (now : Time) (d : deriver) : deriver * list Event :=
  match d_primary d with
  | None => (d, [])
  | Some _ =>
      if isBad conn && negb (d_noInternet d) then
        (set_connectivity (d_noInternet d)
           (Some match d_pendingNoInternet d with
                 | None => mkPN conn now
                 | Some pn => mkPN conn (pn_since pn)
                 end) d, [])
      else if conn =?s ConnFull then
        (set_connectivity false None d,
         if d_noInternet d then [restoredEvent (d_primaryName d) (d_primaryKey d) now] else [])
      else (d, [])
  end.

(** The VPN diff; [down] is the order in which the old map is ranged over. *)
Definition vpn_ups (vpns : list VPN) (key : string) (now : Time) (up : gmap string VPN) : list Event :=
  map (fun v => vpnEvent EventVPNUp v key now)
    (List.filter (fun v => (vpn_State v =?s VPNConnected) && negb (bool_decide (is_Some (up !! vpn_ID v)))) vpns).

Definition vpn_downs (seen : gmap string VPN) (key : string) (now : Time) (down : list (string * VPN)) : list Event :=
  map (fun p => vpnEvent EventVPNDown p.2 key now)
    (List.filter (fun p => negb (bool_decide (is_Some (seen !! p.1)))) down).

Definition apply_vpns (vpns : list VPN) (now : Time) (d : deriver) : deriver * list Event :=
  let seen := connected_vpns vpns in
  (set_vpnUp seen d,
   vpn_ups vpns (d_primaryKey d) now (d_vpnUp d) ++
   vpn_downs seen (d_primaryKey d) now (map_to_list (d_vpnUp d))).

Definition apply_ (v : view) (now : Time) (d : deriver) : deriver * list Event :=
  let cur := connectedPrimary (v_Status v) in
  let key := NetworkKey cur (v_Profiles v) in
  if negb (d_initialized d) then flush now (apply_init v cur key now d)
  else
    let '(d, e1) := apply_primary cur key now d in
    let '(d, e2) := apply_connectivity (st_Connectivity (v_Status v)) now d in
    let '(d, e3) := apply_vpns (v_VPNs v) now d in
    let '(d, e4) := flush now d in
    (d, e1 ++ e2 ++ e3 ++ e4).
