(* ===== verification/DeriverFacts.v ===== *)
(** What the event deriver guarantees: its events replay to its own state, a
    roam is silent, a real disconnect is confirmed once, deadlines are exact,
    and the VPN events are the difference of successive views. *)

From S2P Require Import Prelude GoTime GoStrings Core Deriver.


(** ** Invariant *)

Record deriver_ok (d : deriver) : Prop := {
  do_debounce : 0 <= d_debounce d;
  do_grace : 0 <= d_grace d;
  do_up : forall ac, d_primary d = Some ac -> d_pendingDisc d = None /\ d_primaryKey d <> "" /\ d_monitorKey d <> "";
  do_down : d_primary d = None -> d_pendingDisc d = None ->
    d_noInternet d = false /\ d_pendingNoInternet d = None /\ d_monitorKey d = "";
  do_pending : d_pendingDisc d <> None -> d_monitorKey d <> "";
  do_noinet : d_noInternet d = true -> d_pendingNoInternet d = None;
  do_vpn : forall id v, d_vpnUp d !! id = Some v -> vpn_ID v = id
}.

(** The instants a pending timer was set at: the code reads a zero deadline as
    none. *)
Definition timed (d : deriver) : Prop :=
  (forall pd, d_pendingDisc d = Some pd -> 0 < pd_at pd) /\
  (forall pn, d_pendingNoInternet d = Some pn -> 0 < pn_since pn).

Lemma newDeriver_ok debounce grace : deriver_ok (newDeriver debounce grace) /\ timed (newDeriver debounce grace).
Proof.
  split; [|split; done]. constructor; simpl; try done; repeat case_test; bool_to_prop; try lia.
Qed.

(** A machine that has not seen a view yet. *)
Definition fresh (d : deriver) : Prop :=
  d_primary d = None /\ d_pendingDisc d = None /\ d_pendingNoInternet d = None /\ d_noInternet d = false.

(** ** Replaying the events *)

(** What a consumer of the events believes: the network that is up and whether
    its internet is reported missing; [None] is an event that makes no sense
    then (a second no-internet, a restored without one, a disconnect of
    nothing). *)
Definition replay (b : string * bool) (ev : Event) : option (string * bool) :=
  let '(k, ni) := b in
  if ev_Type ev =?s EventConnected then Some (ev_NetworkKey ev, false)
  else if ev_Type ev =?s EventDisconnected then (if k =?s "" then None else Some ("", false))
  else if ev_Type ev =?s EventNoInternet then (if (k =?s "") || ni then None else Some (k, true))
  else if ev_Type ev =?s EventInternetRestored then (if ni then Some (k, false) else None)
  else Some b.

Arguments replay : simpl never.

Fixpoint replay_all (b : string * bool) (l : list Event) : option (string * bool) :=
  match l with
  | [] => Some b
  | ev :: l' => match replay b ev with Some b' => replay_all b' l' | None => None end
  end.

Definition belief (d : deriver) : string * bool := (d_monitorKey d, d_noInternet d).

Lemma replay_all_app b l1 l2 :
  replay_all b (l1 ++ l2) = match replay_all b l1 with Some b' => replay_all b' l2 | None => None end.
Proof. revert b; induction l1 as [|ev l1 IH]; intros b; simpl; [done|]. by destruct (replay b ev). Qed.

Lemma replay_vpn b l :
  (forall ev, ev ∈ l -> ev_Type ev = EventVPNUp \/ ev_Type ev = EventVPNDown) -> replay_all b l = Some b.
Proof.
  intros Hl. revert b; induction l as [|ev l IH]; intros [k ni]; simpl; [done|].
  assert (replay (k, ni) ev = Some (k, ni)) as ->.
  { unfold replay. destruct (Hl ev ltac:(left)) as [-> | ->]; done. }
  apply IH. intros ev' Hin. apply Hl. by right.
Qed.

(** One phase of a step: the invariant is kept and the events replay. *)
Definition phase_ok (d : deriver) (r : deriver * list Event) : Prop :=
  deriver_ok r.1 /\ replay_all (belief d) r.2 = Some (belief r.1) /\
  d_debounce r.1 = d_debounce d /\ d_grace r.1 = d_grace d.

Lemma phase_bind d r1 (f : deriver -> deriver * list Event) :
  phase_ok d r1 -> (deriver_ok r1.1 -> phase_ok r1.1 (f r1.1)) ->
  phase_ok d ((f r1.1).1, r1.2 ++ (f r1.1).2).
Proof.
  intros (H1 & H2 & H3 & H4) Hf. destruct (Hf H1) as (F1 & F2 & F3 & F4). split_and!; simpl; [done| |congruence|congruence].
  by rewrite replay_all_app, H2.
Qed.

Lemma NetworkKey_some ac ps : NetworkKey (Some ac) ps <> "".
Proof. apply NetworkKey_loop_nonempty. Qed.

Lemma apply_primary_ok cur ps now d :
  deriver_ok d -> phase_ok d (apply_primary cur (NetworkKey cur ps) now d).
Proof.
  intros [H1 H2 Hup Hdown Hp Hn Hv]. unfold apply_primary.
  destruct (d_primary d) as [p|] eqn:Hpr, cur as [ac|].
  - destruct (Hup p eq_refl) as (Hpd & Hpk & Hmk).
    destruct (negb (ac_ProfileUUID ac =?s ac_ProfileUUID p)).
    + split_and!; simpl; try done. constructor; simpl; try done.
      intros ac' _. split_and!; [done|apply NetworkKey_some|apply NetworkKey_some].
    + case_test; split_and!; simpl; try done; constructor; simpl; try done;
        intros ac' _; (split_and!; [done|apply NetworkKey_some|done]).
  - destruct (Hup p eq_refl) as (Hpd & Hpk & Hmk).
    split_and!; simpl; try done; constructor; simpl; done.
  - case_test; split_and!; simpl; try done; constructor; simpl; try done.
    + intros ac' _. split_and!; [done|apply NetworkKey_some|].
      destruct (d_pendingDisc d) eqn:Hpd; [by apply Hp|done].
    + intros ac' _. split_and!; [done|apply NetworkKey_some|apply NetworkKey_some].
  - split_and!; simpl; try done; constructor; simpl; rewrite ?Hpr; done.
Qed.

Lemma apply_connectivity_ok conn now d : deriver_ok d -> phase_ok d (apply_connectivity conn now d).
Proof.
  intros Hok. pose proof Hok as [H1 H2 Hup Hdown Hp Hn Hv]. unfold apply_connectivity.
  destruct (d_primary d) as [p|] eqn:Hpr; [|by split_and!].
  destruct (isBad conn && negb (d_noInternet d)) eqn:Hbad.
  - bool_to_prop. split_and!; simpl; try done. constructor; simpl; rewrite ?Hpr; try done. congruence.
  - destruct (conn =?s ConnFull); [|by split_and!].
    split_and!; simpl; try done; [constructor; simpl; rewrite ?Hpr; done|].
    unfold belief, replay; simpl. destruct (d_noInternet d); [|done]. simpl. done.
Qed.

Lemma connected_vpns_id l id v : connected_vpns l !! id = Some v -> vpn_ID v = id.
Proof.
  unfold connected_vpns.
  assert (forall m : gmap string VPN, (forall id v, m !! id = Some v -> vpn_ID v = id) ->
    forall id v, fold_left (fun m v => if vpn_State v =?s VPNConnected then <[vpn_ID v := v]> m else m) l m !! id = Some v ->
    vpn_ID v = id) as H.
  { induction l as [|x l IH]; intros m Hm id' v'; simpl; [apply Hm|]. apply IH.
    case_test; [|done]. intros id2 v2. rewrite lookup_insert. case_decide; [by intros [= <-]|]. apply Hm. }
  apply H. intros id' v' H'. by rewrite lookup_empty in H'.
Qed.

Lemma vpn_events_type vpns key now up seen down ev :
  ev ∈ vpn_ups vpns key now up ++ vpn_downs seen key now down ->
  ev_Type ev = EventVPNUp \/ ev_Type ev = EventVPNDown.
Proof.
  rewrite elem_of_app. unfold vpn_ups, vpn_downs.
  intros [H|H]; apply list_elem_of_fmap in H as (x & -> & _); simpl; auto.
Qed.

Lemma apply_vpns_ok vpns now d : deriver_ok d -> phase_ok d (apply_vpns vpns now d).
Proof.
  intros [H1 H2 Hup Hdown Hp Hn Hv]. unfold apply_vpns. split_and!; simpl; try done.
  - constructor; simpl; try done. apply connected_vpns_id.
  - apply replay_vpn. intros ev. apply vpn_events_type.
Qed.

Lemma flush_disc_ok now d : deriver_ok d -> phase_ok d (flush_disc now d).
Proof.
  intros Hok. pose proof Hok as [H1 H2 Hup Hdown Hp Hn Hv]. unfold flush_disc, disc_due.
  destruct (d_pendingDisc d) as [pd|] eqn:Hpd; [|by split_and!].
  case_test; [|by split_and!].
  assert (d_primary d = None) as Hpr.
  { destruct (d_primary d) as [ac|] eqn:Hpr; [|done]. by destruct (Hup ac eq_refl). }
  split_and!; simpl; try done.
  - constructor; simpl; rewrite ?Hpr; done.
  - unfold belief, replay; simpl. by rewrite seqb_ne by (by apply Hp).
Qed.

Lemma flush_noinet_ok now d : deriver_ok d -> phase_ok d (flush_noinet now d).
Proof.
  intros Hok. pose proof Hok as [H1 H2 Hup Hdown Hp Hn Hv]. unfold flush_noinet, noinet_due.
  destruct (d_pendingNoInternet d) as [pn|] eqn:Hpn; [|by split_and!].
  destruct (d_primary d) as [ac|] eqn:Hpr; [|by split_and!].
  case_test; [|by split_and!].
  destruct (Hup ac eq_refl) as (Hpd & Hpk & Hmk).
  split_and!; simpl; try done.
  - constructor; simpl; rewrite ?Hpr; done.
  - unfold belief, replay; simpl. rewrite (seqb_ne _ _ Hmk). simpl.
    destruct (d_noInternet d) eqn:Hni; [|done]. by specialize (Hn eq_refl).
Qed.

Lemma flush_eq now d :
  flush now d = ((flush_noinet now (flush_disc now d).1).1, (flush_disc now d).2 ++ (flush_noinet now (flush_disc now d).1).2).
Proof. unfold flush. destruct (flush_disc now d) as [d1 e1]; simpl. by destruct (flush_noinet now d1). Qed.

Lemma flush_ok now d : deriver_ok d -> phase_ok d (flush now d).
Proof.
  intros Hok. rewrite flush_eq.
  apply (phase_bind d (flush_disc now d) (flush_noinet now)); [by apply flush_disc_ok|apply flush_noinet_ok].
Qed.

Lemma apply_eq v now d :
  d_initialized d = true ->
  let cur := connectedPrimary (v_Status v) in
  let r1 := apply_primary cur (NetworkKey cur (v_Profiles v)) now d in
  let r2 := apply_connectivity (st_Connectivity (v_Status v)) now r1.1 in
  let r3 := apply_vpns (v_VPNs v) now r2.1 in
  let r4 := flush now r3.1 in
  apply_ v now d = (r4.1, r1.2 ++ r2.2 ++ r3.2 ++ r4.2).
Proof.
  intros Hi. cbn zeta. unfold apply_. rewrite Hi. simpl negb. cbv iota.
  destruct (apply_primary _ _ _ d) as [d1 e1]; simpl.
  destruct (apply_connectivity _ _ d1) as [d2 e2]; simpl.
  by destruct (flush now _) as [d4 e4].
Qed.

Lemma apply_ok v now d : deriver_ok d -> d_initialized d = true -> phase_ok d (apply_ v now d).
Proof.
  intros Hok Hi. rewrite apply_eq by done. cbn zeta.
  set (cur := connectedPrimary (v_Status v)).
  pose proof (apply_primary_ok cur (v_Profiles v) now d Hok) as Hp1.
  refine (phase_bind d (apply_primary cur (NetworkKey cur (v_Profiles v)) now d)
    (fun d => let r2 := apply_connectivity (st_Connectivity (v_Status v)) now d in
              let r3 := apply_vpns (v_VPNs v) now r2.1 in
              let r4 := flush now r3.1 in (r4.1, r2.2 ++ r3.2 ++ r4.2)) Hp1 _).
  intros Hok1. cbn zeta.
  refine (phase_bind _ (apply_connectivity (st_Connectivity (v_Status v)) now _)
    (fun d => let r3 := apply_vpns (v_VPNs v) now d in
              let r4 := flush now r3.1 in (r4.1, r3.2 ++ r4.2)) (apply_connectivity_ok _ _ _ Hok1) _).
  intros Hok2. cbn zeta.
  apply (phase_bind _ (apply_vpns (v_VPNs v) now _) (flush now) (apply_vpns_ok _ _ _ Hok2)).
  apply flush_ok.
Qed.

Lemma flush_initialized now d : d_initialized (flush now d).1 = d_initialized d.
Proof.
  rewrite flush_eq. simpl. unfold flush_noinet, flush_disc. by repeat case_match.
Qed.

Lemma apply_primary_initialized cur key now d :
  d_initialized (apply_primary cur key now d).1 = d_initialized d.
Proof. unfold apply_primary. by repeat case_match. Qed.

Lemma apply_connectivity_initialized conn now d :
  d_initialized (apply_connectivity conn now d).1 = d_initialized d.
Proof. unfold apply_connectivity. by repeat case_match. Qed.

Lemma apply_initialized v now d : d_initialized (apply_ v now d).1 = true.
Proof.
  destruct (d_initialized d) eqn:Hi.
  - rewrite apply_eq by done. cbn zeta. simpl fst. rewrite flush_initialized.
    transitivity (d_initialized (apply_connectivity (st_Connectivity (v_Status v)) now
      (apply_primary (connectedPrimary (v_Status v))
         (NetworkKey (connectedPrimary (v_Status v)) (v_Profiles v)) now d).1).1); [done|].
    by rewrite apply_connectivity_initialized, apply_primary_initialized.
  - unfold apply_. rewrite Hi. simpl negb. cbv iota. rewrite flush_initialized.
    unfold apply_init. by repeat case_match.
Qed.

(** The first view: silent but for a no-internet that is already due. *)
Lemma apply_init_ok v now d :
  deriver_ok d -> fresh d -> d_initialized d = false ->
  let cur := connectedPrimary (v_Status v) in
  let key := NetworkKey cur (v_Profiles v) in
  deriver_ok (apply_ v now d).1 /\
  replay_all (key, false) (apply_ v now d).2 = Some (belief (apply_ v now d).1).
Proof.
  intros [H1 H2 Hup Hdown Hp Hn Hv] (Hpr & Hpd & Hpn & Hni) Hi. cbn zeta. unfold apply_. rewrite Hi. simpl negb. cbv iota.
  set (cur := connectedPrimary (v_Status v)). set (key := NetworkKey cur (v_Profiles v)).
  assert (deriver_ok (apply_init v cur key now d) /\ belief (apply_init v cur key now d) = (key, false)) as [Hok Hb].
  { assert (forall id x, fold_left (fun m x => if vpn_State x =?s VPNConnected then <[vpn_ID x := x]> m else m)
        (v_VPNs v) (d_vpnUp d) !! id = Some x -> vpn_ID x = id) as Hvpn.
    { generalize (v_VPNs v). intros l. revert Hv. generalize (d_vpnUp d). clear.
      induction l as [|x l IH]; intros m Hm id' v'; simpl; [apply Hm|]. apply IH.
      case_test; [|done]. intros id2 v2. rewrite lookup_insert. case_decide; [by intros [= <-]|]. apply Hm. }
    unfold apply_init, belief. destruct cur as [ac|] eqn:Hcur.
    - assert (key <> "") as Hkey by apply NetworkKey_some.
      case_test; (split; [constructor; simpl; try done; rewrite ?Hni; try done|simpl; by rewrite Hni]).
    - split; [constructor; simpl; try done; rewrite ?Hni; try done|simpl; by rewrite Hni]. }
  destruct (flush_ok now _ Hok) as (F1 & F2 & _). split; [done|]. by rewrite <- Hb.
Qed.

(** ** Runs *)

Inductive dinput :=
| DView (v : view) (now : Time)
| DTick (now : Time).

Definition input_time (i : dinput) : Time := match i with DView _ t | DTick t => t end.

Definition d_step (i : dinput) (d : deriver) : deriver * list Event :=
  match i with DView v now => apply_ v now d | DTick now => flush now d end.

Fixpoint d_run (l : list dinput) (d : deriver) : deriver * list Event :=
  match l with
  | [] => (d, [])
  | i :: l' => let '(d, e1) := d_step i d in let '(d, e2) := d_run l' d in (d, e1 ++ e2)
  end.

Lemma d_run_cons i l d :
  d_run (i :: l) d = ((d_run l (d_step i d).1).1, (d_step i d).2 ++ (d_run l (d_step i d).1).2).
Proof. simpl. destruct (d_step i d) as [d1 e1]; simpl. by destruct (d_run l d1). Qed.

Lemma d_step_ok i d : deriver_ok d -> d_initialized d = true ->
  phase_ok d (d_step i d) /\ d_initialized (d_step i d).1 = true.
Proof.
  intros Hok Hi. destruct i as [v now|now]; simpl.
  - split; [by apply apply_ok|apply apply_initialized].
  - split; [by apply flush_ok|by rewrite flush_initialized].
Qed.

Lemma d_run_ok l : forall d, deriver_ok d -> d_initialized d = true ->
  phase_ok d (d_run l d) /\ d_initialized (d_run l d).1 = true.
Proof.
  induction l as [|i l IH]; intros d Hok Hi; [by split_and!|].
  destruct (d_step_ok i d Hok Hi) as [(H1 & H2 & H3 & H4) H5].
  destruct (IH _ H1 H5) as [(I1 & I2 & I3 & I4) I5].
  rewrite d_run_cons. split; [|done]. split_and!; simpl; [done| |congruence|congruence].
  by rewrite replay_all_app, H2.
Qed.

(** ** Debounced disconnects *)

Definition is_conn_event (ev : Event) : bool :=
  (ev_Type ev =?s EventConnected) || (ev_Type ev =?s EventDisconnected).
Definition conn_events (l : list Event) : list Event := List.filter is_conn_event l.

(** An input without a connected primary. *)
Definition down_input (i : dinput) : Prop :=
  match i with DView v _ => connectedPrimary (v_Status v) = None | DTick _ => True end.

Lemma conn_events_app l1 l2 : conn_events (l1 ++ l2) = conn_events l1 ++ conn_events l2.
Proof. apply List.filter_app. Qed.

Lemma conn_events_none l : (forall ev, ev ∈ l -> is_conn_event ev = false) -> conn_events l = [].
Proof.
  unfold conn_events. induction l as [|ev l IH]; intros H; simpl; [done|].
  rewrite (H ev) by left. apply IH. intros ev' Hin. apply H. by right.
Qed.

Lemma apply_vpns_conn vpns now d : conn_events (apply_vpns vpns now d).2 = [].
Proof.
  apply conn_events_none. intros ev Hev. unfold is_conn_event. simpl in Hev.
  by destruct (vpn_events_type _ _ _ _ _ _ _ Hev) as [-> | ->].
Qed.

Lemma apply_connectivity_conn conn now d : conn_events (apply_connectivity conn now d).2 = [].
Proof. unfold apply_connectivity. by repeat case_match. Qed.

Lemma flush_conn now d :
  conn_events (flush now d).2 = match disc_due now d with Some pd => [disconnectedEvent pd now] | None => [] end.
Proof.
  rewrite flush_eq. simpl. rewrite conn_events_app.
  assert (forall d', conn_events (flush_noinet now d').2 = []) as ->.
  { intros d'. unfold flush_noinet. by case_match. }
  rewrite app_nil_r. unfold flush_disc. by destruct (disc_due now d).
Qed.

(** What flushing leaves of the link: its primary, its pending disconnect and
    the network being monitored. *)
Lemma flush_link now d :
  d_primary (flush now d).1 = d_primary d /\
  (disc_due now d = None ->
     d_pendingDisc (flush now d).1 = d_pendingDisc d /\ monitorNetwork (flush now d).1 = monitorNetwork d) /\
  (disc_due now d <> None ->
     d_pendingDisc (flush now d).1 = None /\ monitorNetwork (flush now d).1 = ("", "")).
Proof.
  rewrite flush_eq. simpl.
  assert (forall d', d_primary (flush_noinet now d').1 = d_primary d' /\
    d_pendingDisc (flush_noinet now d').1 = d_pendingDisc d' /\
    monitorNetwork (flush_noinet now d').1 = monitorNetwork d') as Hf.
  { intros d'. unfold flush_noinet. by case_match. }
  destruct (Hf (flush_disc now d).1) as (-> & -> & ->).
  unfold flush_disc. by destruct (disc_due now d).
Qed.

Definition same_link (d d' : deriver) : Prop :=
  d_primary d' = d_primary d /\ d_pendingDisc d' = d_pendingDisc d /\
  monitorNetwork d' = monitorNetwork d /\ d_debounce d' = d_debounce d.

Lemma rest_link v now d :
  same_link d (apply_vpns (v_VPNs v) now (apply_connectivity (st_Connectivity (v_Status v)) now d).1).1.
Proof. unfold apply_connectivity. by repeat case_match. Qed.

Lemma down_step_flush i d :
  d_initialized d = true -> d_primary d = None -> down_input i ->
  exists d', same_link d d' /\ conn_events (d_step i d).2 = conn_events (flush (input_time i) d').2 /\
    (d_step i d).1 = (flush (input_time i) d').1.
Proof.
  intros Hi Hpr Hdown. destruct i as [v now|now]; simpl in *; [|by exists d].
  rewrite apply_eq by done. cbn zeta. rewrite Hdown.
  assert (apply_primary None (NetworkKey None (v_Profiles v)) now d = (d, [])) as ->.
  { unfold apply_primary. by rewrite Hpr. }
  eexists; split; [apply rest_link|]. cbn [fst snd]. split; [|reflexivity].
  rewrite !conn_events_app, apply_connectivity_conn, apply_vpns_conn. done.
Qed.

(** One input while a disconnect is pending, and one after it was confirmed. *)
Lemma pending_step i d pd :
  d_initialized d = true -> d_primary d = None -> d_pendingDisc d = Some pd -> down_input i ->
  let due := pd_at pd + d_debounce d <=? input_time i in
  d_primary (d_step i d).1 = None /\
  conn_events (d_step i d).2 = (if due then [disconnectedEvent pd (input_time i)] else []) /\
  d_pendingDisc (d_step i d).1 = (if due then None else Some pd) /\
  monitorNetwork (d_step i d).1 = (if due then ("", "") else monitorNetwork d).
Proof.
  intros Hi Hpr Hpd Hdown. cbn zeta.
  destruct (down_step_flush i d Hi Hpr Hdown) as (d' & (L1 & L2 & L3 & L4) & -> & ->).
  rewrite flush_conn. destruct (flush_link (input_time i) d') as (F1 & F2 & F3).
  rewrite F1, L1. split; [done|].
  assert (disc_due (input_time i) d' = if pd_at pd + d_debounce d <=? input_time i then Some pd else None) as Hdue.
  { unfold disc_due, time_Before, time_Add. rewrite L2, Hpd, L4. rewrite <- Z.leb_antisym. done. }
  rewrite Hdue in *. destruct (pd_at pd + d_debounce d <=? input_time i).
  - destruct (F3 ltac:(done)) as [-> ->]. done.
  - destruct (F2 eq_refl) as [-> ->]. by rewrite L2, L3.
Qed.

Lemma settled_step i d :
  d_initialized d = true -> d_primary d = None -> d_pendingDisc d = None -> down_input i ->
  d_primary (d_step i d).1 = None /\ d_pendingDisc (d_step i d).1 = None /\ conn_events (d_step i d).2 = [].
Proof.
  intros Hi Hpr Hpd Hdown.
  destruct (down_step_flush i d Hi Hpr Hdown) as (d' & (L1 & L2 & L3 & L4) & -> & ->).
  rewrite flush_conn. destruct (flush_link (input_time i) d') as (F1 & F2 & F3).
  assert (disc_due (input_time i) d' = None) as Hdue by (unfold disc_due; by rewrite L2, Hpd).
  rewrite Hdue, F1, L1. destruct (F2 Hdue) as [-> _]. by rewrite L2.
Qed.

Lemma d_step_keeps i d : deriver_ok d -> d_initialized d = true ->
  deriver_ok (d_step i d).1 /\ d_initialized (d_step i d).1 = true /\ d_debounce (d_step i d).1 = d_debounce d.
Proof. intros Hok Hi. destruct (d_step_ok i d Hok Hi) as [(? & _ & ? & _) ?]. done. Qed.

Lemma settled_d_run l : forall d,
  deriver_ok d -> d_initialized d = true -> d_primary d = None -> d_pendingDisc d = None -> Forall down_input l ->
  conn_events (d_run l d).2 = [].
Proof.
  induction l as [|i l IH]; intros d Hok Hi Hpr Hpd Hl; [done|]. apply Forall_cons in Hl as [Hd Hl].
  destruct (settled_step i d Hi Hpr Hpd Hd) as (S1 & S2 & S3). destruct (d_step_keeps i d Hok Hi) as (K1 & K2 & _).
  rewrite d_run_cons. simpl snd. rewrite conn_events_app, S3. by apply IH.
Qed.

Lemma pending_run l : forall d pd,
  deriver_ok d -> d_initialized d = true -> d_primary d = None -> d_pendingDisc d = Some pd -> Forall down_input l ->
  match List.find (fun i => pd_at pd + d_debounce d <=? input_time i) l with
  | Some i => conn_events (d_run l d).2 = [disconnectedEvent pd (input_time i)]
  | None => conn_events (d_run l d).2 = [] /\ d_primary (d_run l d).1 = None /\
      d_pendingDisc (d_run l d).1 = Some pd /\ monitorNetwork (d_run l d).1 = monitorNetwork d
  end.
Proof.
  induction l as [|i l IH]; intros d pd Hok Hi Hpr Hpd Hl; [done|]. apply Forall_cons in Hl as [Hd Hl].
  destruct (pending_step i d pd Hi Hpr Hpd Hd) as (S1 & S2 & S3 & S4).
  destruct (d_step_keeps i d Hok Hi) as (K1 & K2 & K3).
  rewrite d_run_cons. simpl fst; simpl snd. rewrite conn_events_app, S2. simpl List.find.
  destruct (pd_at pd + d_debounce d <=? input_time i).
  - by rewrite settled_d_run by done.
  - specialize (IH _ pd K1 K2 S1 S3 Hl). rewrite K3 in IH. rewrite <- S4. done.
Qed.

Definition pd_of (d : deriver) (ac : ActiveConnection) (t : Time) : pendingDisconnect :=
  mkPD (d_primaryKey d) (d_primaryName d) (ac_ProfileUUID ac) t.

(** The view that loses the primary. *)
Lemma disconnect_step v t d ac :
  d_initialized d = true -> d_primary d = Some ac -> connectedPrimary (v_Status v) = None ->
  let due := t + d_debounce d <=? t in
  d_primary (apply_ v t d).1 = None /\
  conn_events (apply_ v t d).2 = (if due then [disconnectedEvent (pd_of d ac t) t] else []) /\
  d_pendingDisc (apply_ v t d).1 = (if due then None else Some (pd_of d ac t)) /\
  monitorNetwork (apply_ v t d).1 = (if due then ("", "") else monitorNetwork d).
Proof.
  intros Hi Hpr Hdown. cbn zeta. rewrite apply_eq by done. cbn zeta. rewrite Hdown.
  set (d1 := (apply_primary None (NetworkKey None (v_Profiles v)) t d).1).
  assert (d_primary d1 = None /\ d_pendingDisc d1 = Some (pd_of d ac t) /\ monitorNetwork d1 = monitorNetwork d /\
    d_debounce d1 = d_debounce d /\ (apply_primary None (NetworkKey None (v_Profiles v)) t d).2 = []) as (A1 & A2 & A3 & A4 & A5).
  { unfold d1, apply_primary. rewrite Hpr. done. }
  rewrite A5. cbn [fst snd]. rewrite !conn_events_app, apply_connectivity_conn, apply_vpns_conn. simpl app.
  destruct (rest_link v t d1) as (L1 & L2 & L3 & L4).
  set (d3 := (apply_vpns (v_VPNs v) t (apply_connectivity (st_Connectivity (v_Status v)) t d1).1).1) in *.
  change (flush t (set_vpnUp _ _)) with (flush t d3).
  rewrite flush_conn. destruct (flush_link t d3) as (F1 & F2 & F3). rewrite F1, L1.
  assert (disc_due t d3 = if t + d_debounce d <=? t then Some (pd_of d ac t) else None) as Hdue.
  { unfold disc_due, time_Before, time_Add. rewrite L2, A2, L4, A4. rewrite <- Z.leb_antisym. done. }
  rewrite Hdue in *. split; [done|]. destruct (t + d_debounce d <=? t).
  - destruct (F3 ltac:(done)) as [-> ->]. done.
  - destruct (F2 eq_refl) as [-> ->]. by rewrite L2, L3, A2, A3.
Qed.

(** The view that brings the same network back. *)
Lemma reconnect_step v t d ac pd :
  d_initialized d = true -> d_primary d = None -> d_pendingDisc d = Some pd ->
  connectedPrimary (v_Status v) = Some ac -> NetworkKey (Some ac) (v_Profiles v) = pd_key pd ->
  conn_events (apply_ v t d).2 = [] /\ monitorNetwork (apply_ v t d).1 = monitorNetwork d /\
  d_primary (apply_ v t d).1 = Some ac.
Proof.
  intros Hi Hpr Hpd Hcur Hkey. rewrite apply_eq by done. cbn zeta. rewrite Hcur, Hkey.
  set (d1 := (apply_primary (Some ac) (pd_key pd) t d).1).
  assert (d_primary d1 = Some ac /\ d_pendingDisc d1 = None /\ monitorNetwork d1 = monitorNetwork d /\
    (apply_primary (Some ac) (pd_key pd) t d).2 = []) as (A1 & A2 & A3 & A4).
  { unfold d1, apply_primary. rewrite Hpr, Hpd, seqb_refl. done. }
  rewrite A4. cbn [fst snd]. rewrite !conn_events_app, apply_connectivity_conn, apply_vpns_conn. simpl app.
  destruct (rest_link v t d1) as (L1 & L2 & L3 & _).
  set (d3 := (apply_vpns (v_VPNs v) t (apply_connectivity (st_Connectivity (v_Status v)) t d1).1).1) in *.
  change (flush t (set_vpnUp _ _)) with (flush t d3).
  rewrite flush_conn. destruct (flush_link t d3) as (F1 & F2 & F3).
  assert (disc_due t d3 = None) as Hdue by (unfold disc_due; by rewrite L2, A2).
  rewrite Hdue, F1, L1. destruct (F2 Hdue) as [_ ->]. by rewrite L3, A1, A3.
Qed.

(** ** Properties *)

(** the events tell the whole story.  From any state reached by views, a
    consumer that only reads the events knows, after every step, exactly which
    network the monitor is on and whether its internet is missing; and the
    events always make sense to it: no-internet and restored alternate while a
    network is up, and only a network that was up is ever disconnected. *)
Theorem events_replay debounce grace v0 t0 l :
  let cur := connectedPrimary (v_Status v0) in
  let '(d, e0) := apply_ v0 t0 (newDeriver debounce grace) in
  let '(d', es) := d_run l d in
  replay_all (NetworkKey cur (v_Profiles v0), false) (e0 ++ es) = Some (belief d') /\
  fst (belief d') = fst (monitorNetwork d') /\ deriver_ok d'.
Proof.
  cbn zeta. destruct (newDeriver_ok debounce grace) as [Hok _].
  destruct (apply_init_ok v0 t0 _ Hok ltac:(done) eq_refl) as [H1 H2].
  pose proof (apply_initialized v0 t0 (newDeriver debounce grace)) as Hi.
  destruct (apply_ v0 t0 (newDeriver debounce grace)) as [d e0]. simpl fst in *; simpl snd in *.
  destruct (d_run_ok l d H1 Hi) as [(R1 & R2 & _) _]. destruct (d_run l d) as [d' es]. simpl fst in *; simpl snd in *.
  split_and!; [|done|done]. by rewrite replay_all_app, H2.
Qed.

(** C8: debounced disconnects.  When a connected network goes away at [t],
    nothing is announced until the first input at or after [t + debounce]
    without a primary, which announces exactly one disconnect of it, and
    nothing more follows while it stays away.  If no such input comes before
    the same network is back, neither a disconnect nor a connect is ever
    announced and the monitor never leaves the network: a roam is silent. *)
Theorem disconnect_debounced v t d ac l :
  deriver_ok d -> d_initialized d = true -> d_primary d = Some ac ->
  connectedPrimary (v_Status v) = None -> Forall down_input l ->
  let pd := pd_of d ac t in
  let '(d', es) := d_run (DView v t :: l) d in
  match List.find (fun i => t + d_debounce d <=? input_time i) (DView v t :: l) with
  | Some i => conn_events es = [disconnectedEvent pd (input_time i)]
  | None =>
      conn_events es = [] /\
      forall v2 t2 ac2, connectedPrimary (v_Status v2) = Some ac2 ->
        NetworkKey (Some ac2) (v_Profiles v2) = d_primaryKey d ->
        conn_events (apply_ v2 t2 d').2 = [] /\ monitorNetwork (apply_ v2 t2 d').1 = monitorNetwork d
  end.
Proof.
  intros Hok Hi Hpr Hdown Hl. cbn zeta. rewrite d_run_cons. simpl d_step.
  destruct (disconnect_step v t d ac Hi Hpr Hdown) as (S1 & S2 & S3 & S4).
  destruct (d_step_keeps (DView v t) d Hok Hi) as (K1 & K2 & K3). simpl d_step in *.
  rewrite conn_events_app, S2. simpl List.find.
  destruct (t + d_debounce d <=? t).
  - by rewrite settled_d_run by done.
  - pose proof (pending_run l _ _ K1 K2 S1 S3 Hl) as Hrun. rewrite K3 in Hrun. simpl pd_at in Hrun. simpl app.
    destruct (List.find _ l) as [i|]; [done|].
    destruct Hrun as (R1 & R2 & R3 & R4). split; [done|]. intros v2 t2 ac2 Hc Hk.
    destruct (d_run_ok l _ K1 K2) as [_ RI].
    destruct (reconnect_step v2 t2 _ ac2 _ RI R2 R3 Hc Hk) as (Q1 & Q2 & _). split; [done|]. congruence.
Qed.

(** the timers are exact.  [nextDeadline] is when [flush] next has work:
    with none, no flush ever does anything; before it a flush changes nothing
    and says nothing; at or after it a flush announces something, and what
    deadline remains lies in the future. *)
Theorem deadline_exact d now :
  deriver_ok d -> timed d ->
  match nextDeadline d with
  | None => flush now d = (d, [])
  | Some t =>
      if now <? t then flush now d = (d, [])
      else (flush now d).2 <> [] /\
           match nextDeadline (flush now d).1 with Some t' => now < t' | None => True end
  end.
Proof.
  intros [Hd Hg Hup Hdown Hp Hn _] [Tpd Tpn].
  unfold nextDeadline, flush, flush_disc, flush_noinet, disc_due, noinet_due, time_Before, time_Add, time_IsZero.
  destruct (d_pendingDisc d) as [pd|] eqn:Hpd.
  - assert (d_primary d = None) as Hpr.
    { destruct (d_primary d) as [ac|] eqn:Hpr; [|done]. by destruct (Hup ac eq_refl). }
    specialize (Tpd pd eq_refl). rewrite Hpr.
    assert ((pd_at pd + d_debounce d =? 0) = false) as Hz by (apply Z.eqb_neq; lia).
    assert (forall A (x : A), match d_pendingNoInternet d with Some _ => x | None => x end = x) as Hm
      by (by destruct (d_pendingNoInternet d)).
    rewrite !Hm, Hz. destruct (now <? pd_at pd + d_debounce d) eqn:Hlt; simpl.
    + by rewrite Hpr, Hm.
    + by split.
  - destruct (d_pendingNoInternet d) as [pn|] eqn:Hpn; [|done].
    destruct (d_primary d) as [ac|] eqn:Hpr; [|done]. simpl.
    specialize (Tpn pn eq_refl).
    assert ((pn_since pn + d_grace d =? 0) = false) as Hz by (apply Z.eqb_neq; lia).
    rewrite Hz. destruct (now <? pn_since pn + d_grace d) eqn:Hlt; simpl; [done|].
    rewrite Hpd. done.
Qed.

(** *** VPN events *)

Definition is_vpn_event (ev : Event) : bool := (ev_Type ev =?s EventVPNUp) || (ev_Type ev =?s EventVPNDown).

(** The VPN changes a list of events announces, as (type, VPN id). *)
Definition vpn_changes (l : list Event) : list (EventType * string) :=
  map (fun ev => (ev_Type ev, default "" (ev_Data ev !! "vpn"))) (List.filter is_vpn_event l).

Lemma vpn_changes_app l1 l2 : vpn_changes (l1 ++ l2) = vpn_changes l1 ++ vpn_changes l2.
Proof. unfold vpn_changes. by rewrite List.filter_app, map_app. Qed.

Lemma vpn_changes_ups vpns key now up :
  vpn_changes (vpn_ups vpns key now up) =
  map (fun v => (EventVPNUp, vpn_ID v))
    (List.filter (fun v => (vpn_State v =?s VPNConnected) && negb (bool_decide (is_Some (up !! vpn_ID v)))) vpns).
Proof.
  unfold vpn_changes, vpn_ups. generalize (List.filter (fun v => (vpn_State v =?s VPNConnected) &&
    negb (bool_decide (is_Some (up !! vpn_ID v)))) vpns).
  induction l as [|v l IH]; [done|]. cbn [map List.filter]. change (is_vpn_event (vpnEvent EventVPNUp v key now)) with true.
  cbn [map]. by rewrite IH.
Qed.

Lemma vpn_changes_downs seen key now down :
  vpn_changes (vpn_downs seen key now down) =
  map (fun p => (EventVPNDown, vpn_ID p.2))
    (List.filter (fun p => negb (bool_decide (is_Some (seen !! p.1)))) down).
Proof.
  unfold vpn_changes, vpn_downs. generalize (List.filter (fun p : string * VPN => negb (bool_decide (is_Some (seen !! p.1)))) down).
  induction l as [|v l IH]; [done|]. cbn [map List.filter]. change (is_vpn_event (vpnEvent EventVPNDown v.2 key now)) with true.
  cbn [map]. by rewrite IH.
Qed.

Definition vpn_connected_in (l : list VPN) (id : string) : Prop :=
  exists v, v ∈ l /\ vpn_State v = VPNConnected /\ vpn_ID v = id.

Lemma connected_vpns_spec l id : is_Some (connected_vpns l !! id) <-> vpn_connected_in l id.
Proof.
  unfold connected_vpns, vpn_connected_in.
  assert (forall m : gmap string VPN,
    is_Some (fold_left (fun m v => if vpn_State v =?s VPNConnected then <[vpn_ID v := v]> m else m) l m !! id) <->
    is_Some (m !! id) \/ exists v, v ∈ l /\ vpn_State v = VPNConnected /\ vpn_ID v = id) as H.
  { induction l as [|x l IH]; intros m; simpl.
    - split; [by left|]. intros [H|(v & Hv & _)]; [done|by apply not_elem_of_nil in Hv].
    - rewrite IH. setoid_rewrite elem_of_cons. destruct (vpn_State x =?s VPNConnected) eqn:Hx; bool_to_prop.
      + rewrite lookup_insert_is_Some. destruct (decide (vpn_ID x = id)); naive_solver.
      + naive_solver. }
  rewrite H, lookup_empty. split; [intros [[? ?]|?]; done|by right].
Qed.

Lemma vpn_changes_nil l : (forall ev, ev ∈ l -> is_vpn_event ev = false) -> vpn_changes l = [].
Proof.
  unfold vpn_changes. induction l as [|ev l IH]; intros H; simpl; [done|].
  rewrite (H ev) by left. apply IH. intros ev' Hin. apply H. by right.
Qed.

Lemma apply_vpn_changes v now d :
  d_initialized d = true ->
  vpn_changes (apply_ v now d).2 =
    vpn_changes (vpn_ups (v_VPNs v) "" now (d_vpnUp d)) ++
    vpn_changes (vpn_downs (connected_vpns (v_VPNs v)) "" now (map_to_list (d_vpnUp d))) /\
  d_vpnUp (apply_ v now d).1 = connected_vpns (v_VPNs v).
Proof.
  intros Hi. rewrite apply_eq by done. cbn zeta.
  set (cur := connectedPrimary (v_Status v)).
  set (r1 := apply_primary cur (NetworkKey cur (v_Profiles v)) now d).
  set (r2 := apply_connectivity (st_Connectivity (v_Status v)) now r1.1).
  assert (d_vpnUp r1.1 = d_vpnUp d /\ vpn_changes r1.2 = []) as [U1 C1].
  { unfold r1, apply_primary. by repeat case_match. }
  assert (d_vpnUp r2.1 = d_vpnUp r1.1 /\ vpn_changes r2.2 = []) as [U2 C2].
  { unfold r2, apply_connectivity. by repeat case_match. }
  assert (forall d', vpn_changes (flush now d').2 = [] /\ d_vpnUp (flush now d').1 = d_vpnUp d') as Hfl.
  { intros d'. rewrite flush_eq. simpl. rewrite vpn_changes_app. unfold flush_noinet, flush_disc. by repeat case_match. }
  set (r3 := apply_vpns (v_VPNs v) now r2.1). destruct (Hfl r3.1) as [F1 F2].
  cbn [fst snd]. rewrite !vpn_changes_app, C1, C2. split; [|by rewrite F2].
  change (flush now _) with (flush now r3.1). rewrite F1, app_nil_r. simpl app.
  unfold r3, apply_vpns. cbn [fst snd]. rewrite vpn_changes_app, !vpn_changes_ups, !vpn_changes_downs.
  by rewrite U2, U1.
Qed.

(** VPN events are the exact difference of views.  A view announces each
    VPN that is connected in it and was not before as up, each that was
    connected and is not any more as down, nothing else and nothing twice;
    afterwards the machine holds exactly the VPNs of the view that are
    connected.  The order in which Go ranges over the old map is irrelevant to
    this. *)
Theorem vpn_diff_exact v now d :
  deriver_ok d -> d_initialized d = true -> NoDup (map vpn_ID (v_VPNs v)) ->
  let '(d', es) := apply_ v now d in
  NoDup (vpn_changes es) /\
  (forall id, (EventVPNUp, id) ∈ vpn_changes es <-> vpn_connected_in (v_VPNs v) id /\ d_vpnUp d !! id = None) /\
  (forall id, (EventVPNDown, id) ∈ vpn_changes es <->
     is_Some (d_vpnUp d !! id) /\ ~ vpn_connected_in (v_VPNs v) id) /\
  (forall id, is_Some (d_vpnUp d' !! id) <-> vpn_connected_in (v_VPNs v) id).
Proof.
  intros Hok Hi Hnd. destruct (apply_vpn_changes v now d Hi) as [Hc Hup].
  destruct (apply_ v now d) as [d' es]. simpl fst in *; simpl snd in *.
  rewrite Hc, vpn_changes_ups, vpn_changes_downs, Hup.
  set (ups := List.filter _ (v_VPNs v)).
  set (downs := List.filter _ (map_to_list (d_vpnUp d))).
  assert (forall x, x ∈ ups <-> x ∈ v_VPNs v /\ vpn_State x = VPNConnected /\ d_vpnUp d !! vpn_ID x = None) as Hups.
  { intros x. unfold ups. rewrite !list_elem_of_In, filter_In, andb_true_iff, String.eqb_eq, negb_true_iff,
      bool_decide_eq_false, eq_None_not_Some. tauto. }
  assert (forall p, p ∈ downs <-> d_vpnUp d !! p.1 = Some p.2 /\ ~ vpn_connected_in (v_VPNs v) p.1) as Hdowns.
  { intros [id x]. unfold downs. rewrite list_elem_of_In, filter_In, <- list_elem_of_In, elem_of_map_to_list,
      negb_true_iff, bool_decide_eq_false. simpl. by rewrite connected_vpns_spec. }
  split_and!.
  - apply NoDup_app; split_and!.
    + rewrite <- (List.map_map vpn_ID (fun i => (EventVPNUp, i))).
      apply NoDup_fmap_2; [intros ?? [= ->]; done|].
      by apply NoDup_map_filter.
    + intros [ty id] Hu Hd. apply list_elem_of_fmap in Hu as (x & [= -> ->] & _).
      by apply list_elem_of_fmap in Hd as (p & [= ?] & _).
    + assert (forall p, p ∈ downs -> vpn_ID p.2 = p.1) as Hid.
      { intros p Hp. apply Hdowns in Hp as [Hp _]. by apply (do_vpn d Hok). }
      assert (map (fun p => (EventVPNDown, vpn_ID p.2)) downs = map (fun i => (EventVPNDown, i)) (map fst downs)) as ->.
      { rewrite List.map_map. apply List.map_ext_in. intros p Hp. rewrite Hid; [done|by apply list_elem_of_In]. }
      apply NoDup_fmap_2; [intros ?? [= ->]; done|].
      by apply NoDup_map_filter, NoDup_fst_map_to_list.
  - intros id. rewrite elem_of_app, !list_elem_of_fmap. split.
    + intros [(x & [= ->] & Hx)|(p & [= ?] & _)]. apply Hups in Hx as (H1 & H2 & H3). split; [by exists x|done].
    + intros [(x & H1 & H2 & <-) H3]. left. exists x. split; [done|]. by apply Hups.
  - intros id. rewrite elem_of_app, !list_elem_of_fmap. split.
    + intros [(x & [= ?] & _)|(p & [= ->] & Hp)]. apply Hdowns in Hp as [H1 H2].
      rewrite (do_vpn d Hok _ _ H1). split; [by exists p.2|done].
    + intros [[x Hx] Hn]. right. exists (id, x). simpl. rewrite (do_vpn d Hok _ _ Hx). split; [done|]. by apply Hdowns.
  - intros id. apply connected_vpns_spec.
Qed.

(** ** Witnesses *)

Definition demo_ac : ActiveConnection :=
  mkActiveConnection "/ac/1" "u-1" "Home" ProfileWifi ["wlan0"] ActiveActivated true false false "" ""
    ["192.168.1.5/24"] [] "192.168.1.1" [] false.

Definition demo_profile : Profile :=
  mkProfile "u-1" "Home" ProfileWifi "802-11-wireless" "" true "HomeNet" SecSAE "" 0 IPConfig_zero IPConfig_zero
    [] "" 0 true "" None ∅.

Definition demo_vpn (id : string) (st : VPNState) : VPN :=
  mkVPN id id BackendTailscale "Tailscale" st "" "" "" 0 true None None None.

Definition demo_view (p : option ActiveConnection) (c : Connectivity) (vpns : list VPN) : view :=
  mkView (mkStatus "" c true true true p "" "" ∅) [demo_profile] vpns.

Definition demo_up : deriver :=
  (apply_ (demo_view (Some demo_ac) ConnLimited [demo_vpn "a" VPNConnected]) (10 * second)
     (newDeriver DefaultDebounce DefaultConnectivityGrace)).1.

Lemma demo_up_ok : deriver_ok demo_up /\ d_initialized demo_up = true.
Proof.
  split; [|reflexivity]. unfold demo_up.
  apply apply_init_ok; [apply newDeriver_ok|split_and!; reflexivity|reflexivity].
Qed.

Definition demo_away : list dinput := [DTick (22 * second); DView (demo_view None ConnNone []) (24 * second)].

Lemma disconnect_debounced_witness :
  (let pd := pd_of demo_up demo_ac (20 * second) in
   let v := demo_view None ConnNone [] in
   let '(d', es) := d_run (DView v (20 * second) :: demo_away) demo_up in
   match List.find (fun i => 20 * second + d_debounce demo_up <=? input_time i) (DView v (20 * second) :: demo_away) with
   | Some i => conn_events es = [disconnectedEvent pd (input_time i)]
   | None =>
       conn_events es = [] /\
       forall v2 t2 ac2, connectedPrimary (v_Status v2) = Some ac2 ->
         NetworkKey (Some ac2) (v_Profiles v2) = d_primaryKey demo_up ->
         conn_events (apply_ v2 t2 d').2 = [] /\ monitorNetwork (apply_ v2 t2 d').1 = monitorNetwork demo_up
   end) /\
  d_primaryKey demo_up = "wifi:HomeNet".
Proof.
  split; [|reflexivity].
  apply (disconnect_debounced (demo_view None ConnNone []) (20 * second) demo_up demo_ac demo_away).
  - apply demo_up_ok.
  - reflexivity.
  - reflexivity.
  - reflexivity.
  - unfold demo_away, down_input; repeat constructor.
Defined.

Lemma deadline_exact_witness :
  match nextDeadline demo_up with
  | None => flush (20 * second) demo_up = (demo_up, [])
  | Some t =>
      if 20 * second <? t then flush (20 * second) demo_up = (demo_up, [])
      else (flush (20 * second) demo_up).2 <> [] /\
           match nextDeadline (flush (20 * second) demo_up).1 with Some t' => 20 * second < t' | None => True end
  end /\ nextDeadline demo_up = Some (20 * second).
Proof.
  split; [|reflexivity]. apply (deadline_exact demo_up (20 * second)).
  - apply demo_up_ok.
  - split; intros x Hx; vm_compute in Hx; inversion Hx; reflexivity.
Defined.

Definition demo_view_vpns : view :=
  demo_view (Some demo_ac) ConnFull [demo_vpn "b" VPNConnected; demo_vpn "a" VPNDisconnected].

Lemma vpn_diff_exact_witness :
  (let '(d', es) := apply_ demo_view_vpns (30 * second) demo_up in
   NoDup (vpn_changes es) /\
   (forall id, (EventVPNUp, id) ∈ vpn_changes es <->
      vpn_connected_in (v_VPNs demo_view_vpns) id /\ d_vpnUp demo_up !! id = None) /\
   (forall id, (EventVPNDown, id) ∈ vpn_changes es <->
      is_Some (d_vpnUp demo_up !! id) /\ ~ vpn_connected_in (v_VPNs demo_view_vpns) id) /\
   (forall id, is_Some (d_vpnUp d' !! id) <-> vpn_connected_in (v_VPNs demo_view_vpns) id)) /\
  vpn_changes (apply_ demo_view_vpns (30 * second) demo_up).2 = [(EventVPNUp, "b"); (EventVPNDown, "a")].
Proof.
  split; [|vm_compute; reflexivity].
  apply (vpn_diff_exact demo_view_vpns (30 * second) demo_up).
  - apply demo_up_ok.
  - reflexivity.
  - vm_compute. repeat constructor; rewrite list_elem_of_In; simpl; intuition congruence.
Defined.
