(* ===== verification/NMVariant.v ===== *)
(** internal/nm/settings.go: D-Bus values and NM's connection settings
    (a{sa{sv}}), with the tolerant readers: a wrong or missing type yields the
    zero value.  A nil Go map reads like an empty one. *)

From S2P Require Import Prelude GoStrings.


(** The dynamic types a [dbus.Variant] holds, as far as the readers tell them
    apart; [VOther] is any other. *)
Inductive variant : Type :=
| VString (s : string)
| VBool (b : bool)
| VByte (n : Z)
| VUint16 (n : Z)
| VInt32 (n : Z)
| VUint32 (n : Z)
| VInt64 (n : Z)
| VUint64 (n : Z)
| VPath (s : string)
| VStrings (l : list string)
| VPaths (l : list string)
| VBytes (s : string)
| VUint32s (l : list Z)
| VByteSlices (l : list string)
| VStrMap (m : gmap string string)
| VDicts (l : list (gmap string variant))
| VOther.

Abbreviation props := (gmap string variant) (only parsing).
Abbreviation settingsDict := (gmap string (gmap string variant)) (only parsing).

(** [s[name]]: a missing section is nil. *)
Definition section (s : settingsDict) (name : string) : props := default ∅ (s !! name).

Definition vStr (m : props) (k : string) : string :=
  match m !! k with Some (VString s) => s | _ => "" end.

Definition vBool (m : props) (k : string) : option bool :=
  match m !! k with Some (VBool b) => Some b | _ => None end.

(** Conversions to an unsigned type of [w] bits truncate. *)
Definition uint_of (w : Z) (n : Z) : Z := n mod 2 ^ w.

(** Conversion to [int64] of a [uint64]. *)
Definition int64_conv (n : Z) : Z := (n + 2 ^ 63) mod 2 ^ 64 - 2 ^ 63.

Definition vU32 (m : props) (k : string) : Z :=
  match m !! k with
  | Some (VUint32 n) => n
  | Some (VInt32 n) | Some (VUint64 n) | Some (VInt64 n) | Some (VUint16 n) | Some (VByte n) => uint_of 32 n
  | _ => 0
  end.

Definition vU64 (m : props) (k : string) : Z :=
  match m !! k with
  | Some (VUint64 n) => n
  | Some (VInt64 n) | Some (VUint32 n) | Some (VInt32 n) => uint_of 64 n
  | _ => 0
  end.

Definition vI64 (m : props) (k : string) : option Z :=
  match m !! k with
  | Some (VInt64 n) | Some (VInt32 n) | Some (VUint32 n) => Some n
  | Some (VUint64 n) => Some (int64_conv n)
  | _ => None
  end.

Definition vU8 (m : props) (k : string) : Z :=
  match m !! k with
  | Some (VByte n) => n
  | Some (VUint32 n) => uint_of 8 n
  | _ => 0
  end.

Definition vPath (m : props) (k : string) : string :=
  match m !! k with Some (VPath s) | Some (VString s) => s | _ => "" end.

Definition vPaths (m : props) (k : string) : list string :=
  match m !! k with Some (VPaths l) | Some (VStrings l) => l | _ => [] end.

Definition vBytes (m : props) (k : string) : string :=
  match m !! k with Some (VBytes s) | Some (VString s) => s | _ => "" end.

Definition vStrs (m : props) (k : string) : list string :=
  match m !! k with Some (VStrings l) => l | _ => [] end.

Definition vDicts (m : props) (k : string) : list props :=
  match m !! k with Some (VDicts l) => l | _ => [] end.

Definition vStrMap (m : props) (k : string) : gmap string string :=
  match m !! k with Some (VStrMap m') => m' | _ => ∅ end.

Definition realPath (p : string) : bool := negb (p =?s "") && negb (p =?s "/").

(** The setting names of consts.go. *)
Definition settingConnection : string := "connection".
Definition settingWifi : string := "802-11-wireless".
Definition settingWifiSecurity : string := "802-11-wireless-security".
Definition settingVPN : string := "vpn".
Definition settingWireGuard : string := "wireguard".
Definition settingIPv4 : string := "ipv4".
Definition settingIPv6 : string := "ipv6".

Definition secretFlagsNone : Z := 0.

(** [sanitizeForUpdate]: drops the deprecated arrays of ipv4 and ipv6. *)
Definition deprecated_ip_key (name k : string) : bool :=
  ((name =?s settingIPv4) || (name =?s settingIPv6)) && ((k =?s "addresses") || (k =?s "routes")).

Definition sanitizeForUpdate (s : settingsDict) : settingsDict :=
  map_imap (fun name sec =>
    Some (filter (fun p => deprecated_ip_key name p.1 = false) sec)) s.
