(* ===== verification/SecretAgent.v ===== *)
(** internal/nm/agent.go: the NetworkManager secret agent.  NM's GetSecrets
    blocks a goroutine until the request is answered, cancelled or expires;
    here the goroutine is three steps, [getSecrets_begin] (checks, the request
    and its registration), a wake-up ([resolve] by its timer or the client's
    end) and [getSecrets_end] (the reply, once the request is resolved), between
    which any other operation may run.  Each operation is one critical section
    of the agent's mutex; the callbacks it runs after unlocking are returned.

    The pending map holds [secretRequest] pointers; a request is removed only
    by [forget], after its goroutine has read the outcome, so the map entry
    stands for the pointer. *)

From S2P Require Import Prelude GoTime GoStrings Core Errors NMVariant.
From Stdlib Require Import Ascii.


Definition DefaultSecretTimeout : Duration := 120 * second.

Definition errAgentNoSecrets : string := "org.freedesktop.NetworkManager.SecretAgent.Error.NoSecrets".
Definition errAgentUserCanceled : string := "org.freedesktop.NetworkManager.SecretAgent.Error.UserCanceled".
Definition errAgentAgentCanceled : string := "org.freedesktop.NetworkManager.SecretAgent.Error.AgentCanceled".
Definition errAgentFailed : string := "org.freedesktop.NetworkManager.SecretAgent.Error.Failed".

(** [flags & bit != 0] *)
Definition has_flag (flags bit : Z) : bool := negb (Z.land flags bit =? 0).
Definition getSecretsAllowInteraction : Z := 1.
Definition getSecretsRequestNew : Z := 2.
Definition getSecretsUserRequested : Z := 4.

Definition vpnMessageHint : string := "x-vpn-message:".
Definition secretResolvedTTL : Duration := 30 * second.

(** ** Building a request *)

(** [humanKey]: "http-proxy-password" is "Http proxy password". *)
Definition humanKey (key : string) : string :=
  match replace_byte "_"%char " "%char (replace_byte "-"%char " "%char key) with
  | EmptyString => key
  | String c s => upper_first c +:+ s
  end.

Definition secretField (key : string) (vpn : bool) : SecretField :=
  if key =?s "psk" then mkSecretField key "Wi-Fi password" true
  else if HasPrefix key "wep-key" then mkSecretField key "WEP key" true
  else if key =?s "password" then mkSecretField key (if vpn then "VPN password" else "Password") true
  else if key =?s "cert-pass" then mkSecretField key "Certificate password" true
  else if key =?s "http-proxy-password" then mkSecretField key "HTTP proxy password" true
  else if key =?s "challenge-response" then mkSecretField key "One-time code / challenge response" true
  else if (key =?s "private-key-password") || (key =?s "phase2-private-key-password")
  then mkSecretField key "Private key password" true
  else if key =?s "private-key" then mkSecretField key "Private key" true
  else if (key =?s "preshared-key") || HasSuffix key ".preshared-key" then mkSecretField key "Pre-shared key" true
  else if (key =?s "username") || (key =?s "user-name") || (key =?s "identity") || (key =?s "user")
  then mkSecretField key "Username" false
  else mkSecretField key (humanKey key) (negb (Contains key "user" || Contains key "identity")).

(** The loop over the hints: the messages, and the keys. *)
Definition hint_message (h : string) : option string :=
  if HasPrefix h vpnMessageHint then
    let m := TrimSpace (TrimPrefix h vpnMessageHint) in
    if negb (m =?s "") then Some m else None
  else None.

Definition hint_key (h : string) : option string :=
  if HasPrefix h vpnMessageHint then None
  else let k := TrimSpace h in if negb (k =?s "") then Some k else None.

(** Keys in order of first appearance. *)
Fixpoint dedup (seen : list string) (l : list string) : list string :=
  match l with
  | [] => []
  | k :: l' => if existsb (fun x => x =?s k) seen then dedup seen l' else k :: dedup (k :: seen) l'
  end.

Section Build.
(** [fmt.Sprintf("%q", b)] for bytes that are not valid UTF-8. *)
Context (Quote : string -> string).

Definition ssidString (b : string) : string :=
  if b =?s "" then "" else if negb (ValidUTF8 b) then Quote b else b.

(** The keys asked for when the hints name none. *)
Definition default_keys (conn : settingsDict) (setting : string) : list string :=
  if setting =?s settingVPN then ["password"]
  else if setting =?s settingWireGuard then ["private-key"]
  else if setting =?s settingWifiSecurity then
    if vStr (section conn settingWifiSecurity) "key-mgmt" =?s "none" then ["wep-key0"] else ["psk"]
  else ["password"].

Definition buildSecretRequest (id : string) (conn : settingsDict) (setting : string) (hints : list string)
    (flags : Z) (now expires : Time) : SecretRequest :=
  let c := section conn settingConnection in
  let keys := omap hint_key hints in
  let '(vpn, kind) :=
    if setting =?s settingVPN then (true, VPNKindForServiceType (vStr (section conn settingVPN) "service-type"))
    else if setting =?s settingWireGuard then (true, "WireGuard")
    else (false, "") in
  let keys := match keys with [] => default_keys conn setting | _ => keys end in
  mkSecretRequest id (vStr c "uuid") (vStr c "id") (ssidString (vBytes (section conn settingWifi) "ssid"))
    vpn kind setting (map (fun k => secretField k vpn) (dedup [] keys))
    (Join (omap hint_message hints) (byte_str [10%nat]))
    (has_flag flags getSecretsRequestNew) (has_flag flags getSecretsUserRequested) now expires.
End Build.

(** ** Secret flags and the reply *)

Definition flagsKey (key : string) : string :=
  if HasPrefix key "wep-key" then "wep-key-flags" else key +:+ "-flags".

Definition secretFlagsOf (conn : settingsDict) (setting : string) (fields : list SecretField) : gmap string Z :=
  if setting =?s settingVPN then
    let data := vStrMap (section conn settingVPN) "data" in
    fold_left (fun out f =>
      match data !! (sf_Key f +:+ "-flags") with
      | Some s => match ParseUint 32 s with Some n => <[sf_Key f := n]> out | None => out end
      | None => out
      end) fields ∅
  else
    let sec := section conn setting in
    fold_left (fun out f =>
      match sec !! flagsKey (sf_Key f) with
      | Some _ => <[sf_Key f := vU32 sec (flagsKey (sf_Key f))]> out
      | None => out
      end) fields ∅.

Definition needsPersist (flags : gmap string Z) : bool :=
  existsb (fun p => negb (p.2 =? secretFlagsNone)) (map_to_list flags).

(** The VPN branch of [secretsReply]: the maps [secrets] and [data]. *)
Definition reply_vpn_step (a : SecretAnswer) (acc : gmap string string * gmap string string) (f : SecretField) :
    gmap string string * gmap string string :=
  let '(secrets, data) := acc in
  match sa_Secrets a !! sf_Key f with
  | None => acc
  | Some v =>
      if sf_Secret f
      then (<[sf_Key f := v]> secrets, if sa_Save a then <[sf_Key f +:+ "-flags" := "0"]> data else data)
      else (secrets, <[sf_Key f := v]> data)
  end.

Definition reply_step (a : SecretAnswer) (inner : props) (f : SecretField) : props :=
  match sa_Secrets a !! sf_Key f with
  | None => inner
  | Some v =>
      let inner := <[sf_Key f := VString v]> inner in
      if sf_Secret f && sa_Save a then <[flagsKey (sf_Key f) := VUint32 secretFlagsNone]> inner else inner
  end.

Definition secretsReply (setting : string) (req : SecretRequest) (a : SecretAnswer) : settingsDict :=
  if setting =?s settingVPN then
    let '(secrets, data) := fold_left (reply_vpn_step a) (sq_Fields req) (∅, ∅) in
    let inner : props := {[ "secrets" := VStrMap secrets ]} in
    {[ settingVPN := if Nat.ltb 0 (size data) then <["data" := VStrMap data]> inner else inner ]}
  else {[ setting := fold_left (reply_step a) (sq_Fields req) ∅ ]}.

(** [persistSecrets]: the edit of the profile's settings. *)
Definition persist_vpn_step (a : SecretAnswer) (acc : gmap string string * gmap string string) (f : SecretField) :
    gmap string string * gmap string string :=
  let '(data, secrets) := acc in
  match sa_Secrets a !! sf_Key f with
  | None => acc
  | Some v => if sf_Secret f then (<[sf_Key f +:+ "-flags" := "0"]> data, <[sf_Key f := v]> secrets) else acc
  end.

Definition persist_step (a : SecretAnswer) (sec : props) (f : SecretField) : props :=
  match sa_Secrets a !! sf_Key f with
  | None => sec
  | Some v => if sf_Secret f
              then <[flagsKey (sf_Key f) := VUint32 secretFlagsNone]> (<[sf_Key f := VString v]> sec)
              else sec
  end.

Definition persistSecrets_edit (setting : string) (req : SecretRequest) (a : SecretAnswer) (s : settingsDict) : settingsDict :=
  let sec := section s setting in
  if setting =?s settingVPN then
    let '(data, secrets) := fold_left (persist_vpn_step a) (sq_Fields req) (vStrMap sec "data", ∅) in
    <[setting := <["secrets" := VStrMap secrets]> (<["data" := VStrMap data]> sec)]> s
  else <[setting := fold_left (persist_step a) (sq_Fields req) sec]> s.

(** ** The agent *)

Record secretRequest := mkPending {
  p_req : SecretRequest;
  p_connPath : string;
  p_setting : string;
  p_flags : gmap string Z;
  p_answer : SecretAnswer;
  p_outcome : SecretOutcome;
  p_byNM : bool;
  p_resolved : bool          (* the done channel is closed *)
}.

Record agent := mkAgent {
  a_timeout : Duration;
  a_promptAutoconnect : bool;
  a_pending : gmap string secretRequest;
  a_onNeeded : bool;         (* a callback is installed *)
  a_onResolved : bool;
  a_registered : bool
}.

Definition newAgent (timeout : Duration) : agent :=
  mkAgent (if timeout <=? 0 then DefaultSecretTimeout else timeout) false ∅ false false false.

Definition set_pending (m : gmap string secretRequest) (a : agent) : agent :=
  mkAgent (a_timeout a) (a_promptAutoconnect a) m (a_onNeeded a) (a_onResolved a) (a_registered a).
Definition setTimeout (d : Duration) (a : agent) : agent :=
  mkAgent d (a_promptAutoconnect a) (a_pending a) (a_onNeeded a) (a_onResolved a) (a_registered a).
Definition setNeeded (b : bool) (a : agent) : agent :=
  mkAgent (a_timeout a) (a_promptAutoconnect a) (a_pending a) b (a_onResolved a) (a_registered a).
Definition setResolved (b : bool) (a : agent) : agent :=
  mkAgent (a_timeout a) (a_promptAutoconnect a) (a_pending a) (a_onNeeded a) b (a_registered a).
(** [register]'s end, [unregister] and [markUnregistered]. *)
Definition setRegistered (b : bool) (a : agent) : agent :=
  mkAgent (a_timeout a) (a_promptAutoconnect a) (a_pending a) (a_onNeeded a) (a_onResolved a) b.

(** A call of the [onResolved] callback. *)
Abbreviation callback := (string * SecretOutcome)%type.

(** [resolveLocked] on a request, and the callback it returns. *)
Definition resolveLocked (a : agent) (p : secretRequest) (outcome : SecretOutcome) (ans : SecretAnswer) (byNM : bool) :
    secretRequest * option callback :=
  if p_resolved p then (p, None)
  else
    (mkPending (p_req p) (p_connPath p) (p_setting p) (p_flags p) ans outcome byNM true,
     if a_onResolved a then Some (sq_ID (p_req p), outcome) else None).

Definition resolve (id : string) (outcome : SecretOutcome) (ans : SecretAnswer) (byNM : bool) (a : agent) :
    agent * list callback :=
  match a_pending a !! id with
  | None => (a, [])
  | Some p =>
      let '(p, cb) := resolveLocked a p outcome ans byNM in
      (set_pending (<[id := p]> (a_pending a)) a, option_list cb)
  end.

Definition forget (id : string) (a : agent) : agent := set_pending (delete id (a_pending a)) a.

(** The loops over the pending map: resolve every request [sel] selects. *)
Definition resolve_where (sel : secretRequest -> bool) (byNM : bool) (a : agent) : agent * list callback :=
  let r p := if sel p then resolveLocked a p SecretCancelled SecretAnswer_zero byNM else (p, None) in
  (set_pending ((fun p => (r p).1) <$> a_pending a) a,
   omap (fun kp => (r kp.2).2) (map_to_list (a_pending a))).

Definition open_for (connPath setting : string) (p : secretRequest) : bool :=
  negb (p_resolved p) && (p_connPath p =?s connPath) && (p_setting p =?s setting).

Definition cancelByNM (connPath setting : string) (a : agent) : agent * list callback :=
  resolve_where (open_for connPath setting) true a.

Definition cancelAll (a : agent) : agent * list callback := resolve_where (fun _ => true) false a.

(** [pendingList]: unresolved requests, oldest first. *)
Definition request_le (x y : SecretRequest) : bool :=
  if negb (sq_CreatedAt x =? sq_CreatedAt y) then sq_CreatedAt x <? sq_CreatedAt y
  else String.leb (sq_ID x) (sq_ID y).

Definition pendingList (a : agent) : list SecretRequest :=
  isort request_le
    (map p_req (List.filter (fun p => negb (p_resolved p)) (map snd (map_to_list (a_pending a))))).

Definition outcomeWord (o : SecretOutcome) : string :=
  if o =?s SecretAnswered then "answered" else if o =?s SecretTimeout then "timed out" else "cancelled".

Definition requested_keys (req : SecretRequest) : list string := map sf_Key (sq_Fields req).

Definition answer (id : string) (ans : SecretAnswer) (a : agent) : agent * option error * list callback :=
  let op := "answer secret request " +:+ id in
  match a_pending a !! id with
  | None => (a, Some (newErr op (Some nm_ErrNotFound) "no such request (it may have expired)"), [])
  | Some p =>
      if p_resolved p then
        (a, Some (newErr op (Some nm_ErrConflict) ("request already " +:+ outcomeWord (p_outcome p))), [])
      else if negb (existsb (fun f => bool_decide (is_Some (sa_Secrets ans !! sf_Key f))) (sq_Fields (p_req p))) then
        (a, Some (newErr op None ("answer carries none of the requested secrets (" +:+
                                  Join (requested_keys (p_req p)) ", " +:+ ")")), [])
      else
        let '(p, cb) := resolveLocked a p SecretAnswered ans false in
        (set_pending (<[id := p]> (a_pending a)) a, None, option_list cb)
  end.

Definition cancel (id : string) (a : agent) : agent * option error * list callback :=
  let op := "cancel secret request " +:+ id in
  match a_pending a !! id with
  | None => (a, Some (newErr op (Some nm_ErrNotFound) "no such request (it may have expired)"), [])
  | Some p =>
      if p_resolved p then
        (a, Some (newErr op (Some nm_ErrConflict) ("request already " +:+ outcomeWord (p_outcome p))), [])
      else
        let '(p, cb) := resolveLocked a p SecretCancelled SecretAnswer_zero false in
        (set_pending (<[id := p]> (a_pending a)) a, None, option_list cb)
  end.

Definition pendingFor (connPath : string) (a : agent) : bool :=
  realPath connPath &&
  existsb (fun kp => negb (p_resolved kp.2) && (p_connPath kp.2 =?s connPath)) (map_to_list (a_pending a)).

(** ** GetSecrets *)

Record dbus_error := mkDBusError { de_Name : string; de_Text : string }.

(** What [getSecrets] has done when it reaches its [select]: it was refused, or
    its request is pending and the surfaces were told. *)
Inductive begun :=
| Refused (e : dbus_error)
| Waiting (req : SecretRequest).

Section GetSecrets.
Context (Quote : string -> string).

(** [trusted]: the caller is NetworkManager; [id]: the random id, or the
    error of reading randomness. *)
Definition getSecrets_begin (trusted : bool) (id : result string string) (now : Time)
    (connection : settingsDict) (connPath setting : string) (hints : list string) (flags : Z) (a : agent) :
    agent * begun :=
  if negb trusted then (a, Refused (mkDBusError errAgentFailed "caller is not NetworkManager"))
  else if negb (has_flag flags getSecretsAllowInteraction) then
    (a, Refused (mkDBusError errAgentNoSecrets "bnm holds no secrets; it can only prompt"))
  else if negb (has_flag flags getSecretsUserRequested) && negb (a_promptAutoconnect a) then
    (a, Refused (mkDBusError errAgentNoSecrets
           "bnm does not prompt for autoconnect activations; connect explicitly to be asked"))
  else if negb (a_onNeeded a) then
    (a, Refused (mkDBusError errAgentNoSecrets "no bnm surface is attached to prompt"))
  else match id with
  | Err e => (a, Refused (mkDBusError errAgentFailed e))
  | Ok id =>
      let req := buildSecretRequest Quote id connection setting hints flags now (time_Add now (a_timeout a)) in
      let p := mkPending req connPath setting (secretFlagsOf connection setting (sq_Fields req))
                 SecretAnswer_zero "" false false in
      (* a leftover request of the same profile and setting is resolved; the
         callback this returns is discarded *)
      let a := (resolve_where (open_for connPath setting) true a).1 in
      (set_pending (<[id := p]> (a_pending a)) a, Waiting req)
  end.

(** The timer and the client's context end the wait. *)
Definition getSecrets_timeout (id : string) (a : agent) : agent * list callback :=
  resolve id SecretTimeout SecretAnswer_zero false a.
Definition getSecrets_ctx_done (id : string) (a : agent) : agent * list callback :=
  resolve id SecretCancelled SecretAnswer_zero false a.

(** The end of [getSecrets]: [None] while the request is not resolved.
    [bool]: the answered secret is handed to [persist]. *)
Definition getSecrets_end (setting : string) (p : secretRequest) : option (result dbus_error settingsDict * bool) :=
  if negb (p_resolved p) then None
  else if p_outcome p =?s SecretAnswered then
    Some (Ok (secretsReply setting (p_req p) (p_answer p)), sa_Save (p_answer p) && needsPersist (p_flags p))
  else if p_outcome p =?s SecretTimeout then
    Some (Err (mkDBusError errAgentUserCanceled "nobody answered the bnm password prompt"), false)
  else if p_byNM p then Some (Err (mkDBusError errAgentAgentCanceled "request cancelled"), false)
  else Some (Err (mkDBusError errAgentUserCanceled "the bnm password prompt was cancelled"), false).
End GetSecrets.
