(* ===== verification/SecretAgentFacts.v ===== *)
(** What the secret agent guarantees: a request is resolved at most once and
    then never changes, at most one is open per profile and setting, answering
    and cancelling report what the broker's contract says, and the reply to
    NetworkManager carries exactly the answered fields. *)

From S2P Require Import Prelude GoTime GoStrings Core Errors NMVariant SecretAgent.


(** ** The agent as a machine *)

Section Machine.
Context (Quote : string -> string).

Inductive aop :=
| OBegin (trusted : bool) (id : result string string) (now : Time) (conn : settingsDict)
    (connPath setting : string) (hints : list string) (flags : Z)
| OTimeout (id : string)
| OCtxDone (id : string)
| OForget (id : string)          (* the timer set once the outcome was read *)
| OAnswer (id : string) (ans : SecretAnswer)
| OCancel (id : string)
| OCancelByNM (connPath setting : string)
| OCancelAll
| OSetNeeded (b : bool)
| OSetResolved (b : bool)
| OSetTimeout (d : Duration)
| OSetRegistered (b : bool).

Definition is_resolved (id : string) (a : agent) : bool :=
  match a_pending a !! id with Some p => p_resolved p | None => false end.

Definition agent_step (o : aop) (a : agent) : agent * list callback :=
  match o with
  | OBegin trusted id now conn path setting hints flags =>
      ((getSecrets_begin Quote trusted id now conn path setting hints flags a).1, [])
  | OTimeout id => getSecrets_timeout id a
  | OCtxDone id => getSecrets_ctx_done id a
  | OForget id => (if is_resolved id a then forget id a else a, [])
  | OAnswer id ans => let '(a, _, cbs) := answer id ans a in (a, cbs)
  | OCancel id => let '(a, _, cbs) := cancel id a in (a, cbs)
  | OCancelByNM path setting => cancelByNM path setting a
  | OCancelAll => cancelAll a
  | OSetNeeded b => (setNeeded b a, [])
  | OSetResolved b => (setResolved b a, [])
  | OSetTimeout d => (setTimeout d a, [])
  | OSetRegistered b => (setRegistered b a, [])
  end.

Fixpoint agent_run (l : list aop) (a : agent) : agent * list callback :=
  match l with
  | [] => (a, [])
  | o :: l' => let '(a, c1) := agent_step o a in let '(a, c2) := agent_run l' a in (a, c1 ++ c2)
  end.

Definition begin_id (o : aop) : option string :=
  match o with OBegin _ (Ok id) _ _ _ _ _ _ => Some id | _ => None end.

(** The random ids are distinct. *)
Definition distinct_ids (l : list aop) : Prop := NoDup (omap begin_id l).

Lemma buildSecretRequest_fields id conn setting hints flags now expires :
  let req := buildSecretRequest Quote id conn setting hints flags now expires in
  sq_ID req = id /\ sq_SettingName req = setting /\ sq_CreatedAt req = now /\ sq_ExpiresAt req = expires.
Proof. unfold buildSecretRequest. by repeat case_test. Qed.

(** ** One step *)

Definition agent_ok (a : agent) : Prop :=
  forall id p, a_pending a !! id = Some p -> sq_ID (p_req p) = id.

(** How a step may treat the pending map, and what it calls back. *)
Record step_ok (o : aop) (a : agent) (r : agent * list callback) : Prop := {
  st_ok : agent_ok r.1;
  st_called : forall id out, (id, out) ∈ r.2 ->
    (exists p, a_pending a !! id = Some p /\ p_resolved p = false) /\
    (exists p, a_pending r.1 !! id = Some p /\ p_resolved p = true /\ p_outcome p = out);
  st_nodup : NoDup (map fst r.2);
  st_stable : forall id p, a_pending a !! id = Some p -> p_resolved p = true ->
    begin_id o <> Some id -> a_pending r.1 !! id = Some p \/ a_pending r.1 !! id = None;
  st_new : forall id, is_Some (a_pending r.1 !! id) -> is_Some (a_pending a !! id) \/ begin_id o = Some id
}.

Lemma resolveLocked_fields a p out ans byNM :
  p_req (resolveLocked a p out ans byNM).1 = p_req p /\
  p_connPath (resolveLocked a p out ans byNM).1 = p_connPath p /\
  p_setting (resolveLocked a p out ans byNM).1 = p_setting p /\
  p_resolved (resolveLocked a p out ans byNM).1 = true /\
  (p_resolved p = true -> resolveLocked a p out ans byNM = (p, None)) /\
  (p_resolved p = false -> p_outcome (resolveLocked a p out ans byNM).1 = out) /\
  (forall c, (resolveLocked a p out ans byNM).2 = Some c -> p_resolved p = false /\ c = (sq_ID (p_req p), out)).
Proof.
  unfold resolveLocked. destruct (p_resolved p) eqn:Hr; simpl; split_and!; try done.
  intros c. destruct (a_onResolved a); [|done]. by intros [= <-].
Qed.

Lemma unchanged_ok o a b : agent_ok a -> a_pending b = a_pending a -> step_ok o a (b, []).
Proof.
  intros Hok Hb. constructor; simpl.
  - unfold agent_ok. by rewrite Hb.
  - intros id out H. by apply not_elem_of_nil in H.
  - constructor.
  - intros id p Hp _ _. left. by rewrite Hb.
  - intros id. rewrite Hb. by left.
Qed.

(** Resolving one request. *)
Lemma resolve_one_ok o a id p out ans byNM :
  agent_ok a -> a_pending a !! id = Some p ->
  step_ok o a (set_pending (<[id := (resolveLocked a p out ans byNM).1]> (a_pending a)) a,
               option_list (resolveLocked a p out ans byNM).2).
Proof.
  intros Hok Hp. destruct (resolveLocked_fields a p out ans byNM) as (R1 & R2 & R3 & R4 & R5 & R6 & R7).
  constructor; simpl.
  - intros id' p'. simpl. rewrite lookup_insert. case_decide; [|apply Hok]. intros [= <-]. rewrite R1. subst. by apply Hok.
  - intros id' out' Hin. destruct (resolveLocked a p out ans byNM).2 as [c|] eqn:Hc; simpl in Hin;
      [|by apply not_elem_of_nil in Hin].
    apply list_elem_of_singleton in Hin. destruct (R7 c eq_refl) as [Hr Hceq]. rewrite Hceq in Hin. injection Hin as -> ->.
    rewrite (Hok id p Hp). split; [by exists p|]. eexists. rewrite lookup_insert_eq. split; [done|]. split; [done|]. by apply R6.
  - destruct (resolveLocked a p out ans byNM).2; simpl; [apply NoDup_singleton|constructor].
  - intros id' p' Hp' Hr _. left. rewrite lookup_insert. case_decide as Hd; [|done]. subst id'.
    rewrite Hp in Hp'. injection Hp' as ->. by rewrite R5.
  - intros id'. rewrite lookup_insert. case_decide; [intros _; subst; left; by exists p|by left].
Qed.

Lemma resolve_ok o a id out ans byNM : agent_ok a -> step_ok o a (resolve id out ans byNM a).
Proof.
  intros Hok. unfold resolve. destruct (a_pending a !! id) as [p|] eqn:Hp; [|by apply unchanged_ok].
  pose proof (resolve_one_ok o a id p out ans byNM Hok Hp) as H. by destruct (resolveLocked a p out ans byNM).
Qed.

(** The pending map after a loop that resolves what [sel] selects. *)
Lemma resolve_where_lookup sel byNM a id :
  a_pending (resolve_where sel byNM a).1 !! id =
    (fun p => if sel p then (resolveLocked a p SecretCancelled SecretAnswer_zero byNM).1 else p) <$> a_pending a !! id.
Proof. unfold resolve_where; simpl. rewrite lookup_fmap. destruct (a_pending a !! id) as [p|]; simpl; [|done]. by destruct (sel p). Qed.

Lemma resolve_where_ok o sel byNM a : agent_ok a -> step_ok o a (resolve_where sel byNM a).
Proof.
  intros Hok.
  assert (forall id p, a_pending a !! id = Some p -> exists p', a_pending (resolve_where sel byNM a).1 !! id = Some p' /\
    p_req p' = p_req p /\ (p_resolved p = true -> p' = p)) as Hf.
  { intros id p Hp. rewrite resolve_where_lookup, Hp. simpl. eexists; split; [done|].
    destruct (resolveLocked_fields a p SecretCancelled SecretAnswer_zero byNM) as (R1 & _ & _ & _ & R5 & _).
    destruct (sel p); [|done]. split; [done|]. intros Hr. by rewrite R5. }
  constructor.
  - intros id p. rewrite resolve_where_lookup. destruct (a_pending a !! id) as [p0|] eqn:Hp; simpl; [|done].
    intros [= <-]. destruct (sel p0); [|by apply Hok].
    destruct (resolveLocked_fields a p0 SecretCancelled SecretAnswer_zero byNM) as (-> & _). by apply Hok.
  - intros id out Hin. unfold resolve_where in Hin; simpl in Hin.
    apply list_elem_of_omap in Hin as ([id' p] & Hp & Hc). apply elem_of_map_to_list in Hp. simpl in Hc.
    destruct (sel p) eqn:Hs; [|done].
    destruct (resolveLocked_fields a p SecretCancelled SecretAnswer_zero byNM) as (R1 & _ & _ & R4 & _ & R6 & R7).
    destruct (R7 _ Hc) as [Hr Heq]. injection Heq as -> ->. rewrite (Hok _ _ Hp). split; [by exists p|].
    rewrite resolve_where_lookup, Hp. simpl. rewrite Hs. eexists; split; [done|]. split; [done|by apply R6].
  - unfold resolve_where; simpl.
    assert (forall l : list (string * secretRequest), NoDup (map fst l) -> (forall id p, (id, p) ∈ l -> sq_ID (p_req p) = id) ->
      NoDup (map fst (omap (fun kp => (if sel kp.2 then resolveLocked a kp.2 SecretCancelled SecretAnswer_zero byNM
                                       else (kp.2, None)).2) l))) as Hnd.
    { induction l as [|[id p] l IH]; intros Hnd Hl; simpl; [constructor|].
      apply NoDup_cons in Hnd as [Hid Hnd].
      assert (NoDup (map fst (omap (fun kp => (if sel kp.2 then resolveLocked a kp.2 SecretCancelled SecretAnswer_zero byNM
                                       else (kp.2, None)).2) l))) as IH' by (apply IH; [done|]; intros ???; apply Hl; by right).
      destruct (if sel p then _ else _).2 as [c|] eqn:Hc; [|done]. simpl. apply NoDup_cons; split; [|done].
      intros Hin. apply Hid. apply list_elem_of_fmap in Hin as (c' & Heq & Hc').
      apply list_elem_of_omap in Hc' as ([id' p'] & Hp' & Hc'). simpl in Hc'.
      assert (forall q x, (if sel q then resolveLocked a q SecretCancelled SecretAnswer_zero byNM else (q, None)).2 = Some x ->
        x.1 = sq_ID (p_req q)) as Hx.
      { intros q x Hqx. destruct (sel q); [|done].
        destruct (resolveLocked_fields a q SecretCancelled SecretAnswer_zero byNM) as (_ & _ & _ & _ & _ & _ & R7).
        by destruct (R7 x Hqx) as [_ ->]. }
      apply Hx in Hc, Hc'. apply list_elem_of_fmap. exists (id', p'). split; [|done]. simpl.
      rewrite <- (Hl id p) by left. rewrite <- (Hl id' p') by (by right). congruence. }
    apply Hnd; [apply NoDup_fst_map_to_list|]. intros id p Hp. apply Hok. by apply elem_of_map_to_list.
  - intros id p Hp Hr _. left. destruct (Hf id p Hp) as (p' & Hp' & _ & Heq). rewrite Hp'. f_equal. by apply Heq.
  - intros id. rewrite resolve_where_lookup. destruct (a_pending a !! id); simpl; [left; eauto|by intros [? ?]].
Qed.

Lemma agent_step_ok o a : agent_ok a -> step_ok o a (agent_step o a).
Proof.
  intros Hok. destruct o; simpl; try (by apply unchanged_ok); try (by apply resolve_ok); try (by apply resolve_where_ok).
  - unfold getSecrets_begin. repeat (case_test; [by apply unchanged_ok|]). destruct id as [id|e]; [|by apply unchanged_ok].
    simpl. set (sel := open_for connPath setting).
    pose proof (resolve_where_ok (OBegin trusted (Ok id) now conn connPath setting hints flags) sel true a Hok) as [W1 _ _ W4 W5].
    constructor; simpl.
    + intros id' p'. simpl. rewrite lookup_insert. case_decide; [intros [= <-]|apply W1].
      subst id'. apply buildSecretRequest_fields.
    + intros id' out Hin. by apply not_elem_of_nil in Hin.
    + constructor.
    + intros id' p Hp Hr Hne. rewrite lookup_insert_ne by congruence. by apply W4.
    + intros id'. rewrite lookup_insert. case_decide; [subst; by right|]. apply W5.
  - unfold is_resolved. destruct (a_pending a !! id) as [p|] eqn:Hp; [|by apply unchanged_ok].
    destruct (p_resolved p); [|by apply unchanged_ok]. constructor; simpl.
    + intros id' p'. simpl. rewrite lookup_delete. case_decide; [done|apply Hok].
    + intros id' out Hin. by apply not_elem_of_nil in Hin.
    + constructor.
    + intros id' p' Hp' _ _. rewrite lookup_delete. case_decide; [by right|by left].
    + intros id'. rewrite lookup_delete. case_decide; [by intros [? ?]|by left].
  - unfold answer. destruct (a_pending a !! id) as [p|] eqn:Hp; [|by apply unchanged_ok].
    destruct (p_resolved p); [by apply unchanged_ok|]. case_test; [by apply unchanged_ok|].
    pose proof (resolve_one_ok (OAnswer id ans) a id p SecretAnswered ans false Hok Hp) as H.
    by destruct (resolveLocked a p SecretAnswered ans false).
  - unfold cancel. destruct (a_pending a !! id) as [p|] eqn:Hp; [|by apply unchanged_ok].
    destruct (p_resolved p); [by apply unchanged_ok|].
    pose proof (resolve_one_ok (OCancel id) a id p SecretCancelled SecretAnswer_zero false Hok Hp) as H.
    by destruct (resolveLocked a p SecretCancelled SecretAnswer_zero false).
Qed.

Lemma agent_run_cons o l a :
  agent_run (o :: l) a = ((agent_run l (agent_step o a).1).1, (agent_step o a).2 ++ (agent_run l (agent_step o a).1).2).
Proof. simpl. destruct (agent_step o a) as [a1 c1]; simpl. by destruct (agent_run l a1). Qed.

(** [U]: the ids used so far. *)
Definition used_ok (U : gset string) (a : agent) : Prop :=
  forall id, is_Some (a_pending a !! id) -> id ∈ U.

Definition settled (id : string) (out : option SecretOutcome) (a : agent) : Prop :=
  match a_pending a !! id with
  | Some p => p_resolved p = true /\ match out with Some o => p_outcome p = o | None => True end
  | None => True
  end.

(** A used id that is resolved or gone is never called back again, and stays
    as it is or goes. *)
Lemma settled_run l : forall a U id out,
  agent_ok a -> used_ok U a -> distinct_ids l -> (forall i, i ∈ omap begin_id l -> i ∉ U) ->
  id ∈ U -> settled id out a ->
  ~ (id ∈ map fst (agent_run l a).2) /\ settled id out (agent_run l a).1.
Proof.
  induction l as [|o l IH]; intros a U id out Hok HU Hnd Hfresh Hid Hset; [split; [apply not_elem_of_nil|done]|].
  rewrite agent_run_cons. simpl fst; simpl snd.
  destruct (agent_step_ok o a Hok) as [S1 S2 S3 S4 S5].
  assert (begin_id o <> Some id) as Hne.
  { intros Hb. apply (Hfresh id); [|done]. simpl. rewrite Hb. by left. }
  assert (settled id out (agent_step o a).1) as Hset'.
  { unfold settled in *. destruct (a_pending a !! id) as [p|] eqn:Hp.
    - destruct Hset as [Hr Ho]. destruct (S4 id p Hp Hr Hne) as [-> | ->]; done.
    - destruct (a_pending (agent_step o a).1 !! id) as [p|] eqn:Hp'; [|done].
      destruct (S5 id) as [[? ?]|?]; [by exists p|congruence|done]. }
  set (U' := match begin_id o with Some i => {[i]} ∪ U | None => U end).
  assert (used_ok U' (agent_step o a).1 /\ distinct_ids l /\ (forall i, i ∈ omap begin_id l -> i ∉ U') /\ id ∈ U')
    as (HU' & Hnd' & Hfresh' & Hid').
  { unfold U', distinct_ids in *. simpl in Hnd. split_and!.
    - intros i Hi. destruct (S5 i Hi) as [Hs|Hs]; [|rewrite Hs; set_solver].
      apply HU in Hs. destruct (begin_id o); set_solver.
    - destruct (begin_id o); [by apply NoDup_cons in Hnd as [_ ?]|done].
    - intros i Hi. destruct (begin_id o) as [j|] eqn:Hj.
      + apply NoDup_cons in Hnd as [Hj' _]. apply not_elem_of_union. split.
        * intros ->%elem_of_singleton. done.
        * apply Hfresh. simpl. rewrite Hj. by right.
      + apply Hfresh. simpl. by rewrite Hj.
    - destruct (begin_id o); set_solver. }
  destruct (IH _ U' id out S1 HU' Hnd' Hfresh' Hid' Hset') as [I1 I2]. split; [|done].
  rewrite map_app, not_elem_of_app. split; [|done].
  intros Hin. apply list_elem_of_fmap in Hin as ([i o'] & -> & Hin).
  destruct (S2 i o' Hin) as [(p & Hp & Hr) _]. unfold settled in Hset. simpl in *. rewrite Hp in Hset.
  destruct Hset; congruence.
Qed.

Lemma called_run l : forall a U,
  agent_ok a -> used_ok U a -> distinct_ids l -> (forall i, i ∈ omap begin_id l -> i ∉ U) ->
  NoDup (map fst (agent_run l a).2) /\
  (forall id out, (id, out) ∈ (agent_run l a).2 -> settled id (Some out) (agent_run l a).1).
Proof.
  induction l as [|o l IH]; intros a U Hok HU Hnd Hfresh.
  { split; [constructor|]. intros id out H. by apply not_elem_of_nil in H. }
  rewrite agent_run_cons. simpl fst; simpl snd.
  destruct (agent_step_ok o a Hok) as [S1 S2 S3 S4 S5].
  set (U' := match begin_id o with Some i => {[i]} ∪ U | None => U end).
  assert (used_ok U' (agent_step o a).1 /\ distinct_ids l /\ (forall i, i ∈ omap begin_id l -> i ∉ U'))
    as (HU' & Hnd' & Hfresh').
  { unfold U', distinct_ids in *. simpl in Hnd. split_and!.
    - intros i Hi. destruct (S5 i Hi) as [Hs|Hs]; [|rewrite Hs; set_solver].
      apply HU in Hs. destruct (begin_id o); set_solver.
    - destruct (begin_id o); [by apply NoDup_cons in Hnd as [_ ?]|done].
    - intros i Hi. destruct (begin_id o) as [j|] eqn:Hj.
      + apply NoDup_cons in Hnd as [Hj' _]. apply not_elem_of_union. split.
        * intros ->%elem_of_singleton. done.
        * apply Hfresh. simpl. rewrite Hj. by right.
      + apply Hfresh. simpl. by rewrite Hj. }
  destruct (IH _ U' S1 HU' Hnd' Hfresh') as [I1 I2].
  assert (forall id out, (id, out) ∈ (agent_step o a).2 ->
    ~ (id ∈ map fst (agent_run l (agent_step o a).1).2) /\ settled id (Some out) (agent_run l (agent_step o a).1).1) as Hcur.
  { intros id out Hin. destruct (S2 id out Hin) as [_ (p & Hp & Hr & Ho)].
    apply (settled_run l _ U'); try done.
    - apply HU'. eauto.
    - unfold settled. by rewrite Hp. }
  split.
  - rewrite map_app. apply NoDup_app. split_and!; [done| |done].
    intros id Hid. apply list_elem_of_fmap in Hid as ([i out] & -> & Hin). by destruct (Hcur i out Hin).
  - intros id out Hin. apply elem_of_app in Hin as [Hin|Hin]; [by destruct (Hcur id out Hin)|by apply I2].
Qed.

(** ** One open request per profile and setting *)

Definition one_open (a : agent) : Prop :=
  forall i j p q, a_pending a !! i = Some p -> a_pending a !! j = Some q ->
    p_resolved p = false -> p_resolved q = false ->
    p_connPath p = p_connPath q -> p_setting p = p_setting q -> i = j.

(** Every request keeps its profile and setting, and an open one was open. *)
Definition shrinks (a a' : agent) : Prop :=
  forall i p', a_pending a' !! i = Some p' -> p_resolved p' = false ->
    exists p, a_pending a !! i = Some p /\ p_resolved p = false /\
      p_connPath p' = p_connPath p /\ p_setting p' = p_setting p.

Lemma shrinks_one_open a a' : shrinks a a' -> one_open a -> one_open a'.
Proof.
  intros Hs Ho i j p q Hp Hq Hrp Hrq Hc Hset.
  destruct (Hs i p Hp Hrp) as (p0 & Hp0 & Hr0 & Hc0 & Hs0). destruct (Hs j q Hq Hrq) as (q0 & Hq0 & Hr1 & Hc1 & Hs1).
  apply (Ho i j p0 q0); congruence.
Qed.

Lemma shrinks_refl a b : a_pending b = a_pending a -> shrinks a b.
Proof. intros H i p. rewrite H. eauto. Qed.

Lemma shrinks_resolve a i p out ans byNM :
  a_pending a !! i = Some p ->
  shrinks a (set_pending (<[i := (resolveLocked a p out ans byNM).1]> (a_pending a)) a).
Proof.
  intros Hp j p' Hp' Hr. simpl in Hp'. rewrite lookup_insert in Hp'. case_decide; [|eauto].
  injection Hp' as <-. destruct (resolveLocked_fields a p out ans byNM) as (_ & _ & _ & R4 & _). congruence.
Qed.

Lemma shrinks_where sel byNM a : shrinks a (resolve_where sel byNM a).1.
Proof.
  intros i p' Hp' Hr. rewrite resolve_where_lookup in Hp'. destruct (a_pending a !! i) as [p|]; simpl in Hp'; [|done].
  injection Hp' as <-. destruct (sel p); [|eauto].
  destruct (resolveLocked_fields a p SecretCancelled SecretAnswer_zero byNM) as (_ & _ & _ & R4 & _). congruence.
Qed.

(** After resolving everything open for a pair, nothing of the pair is open. *)
Lemma resolve_open_for path setting byNM a i p :
  a_pending (resolve_where (open_for path setting) byNM a).1 !! i = Some p ->
  p_resolved p = false -> ~ (p_connPath p = path /\ p_setting p = setting).
Proof.
  intros Hp Hr [Hc Hs]. rewrite resolve_where_lookup in Hp. destruct (a_pending a !! i) as [q|]; simpl in Hp; [|done].
  injection Hp as <-. destruct (open_for path setting q) eqn:Ho.
  - destruct (resolveLocked_fields a q SecretCancelled SecretAnswer_zero byNM) as (_ & _ & _ & R4 & _). congruence.
  - unfold open_for in Ho. rewrite Hr, Hc, Hs, !seqb_refl in Ho. done.
Qed.

Lemma agent_step_one_open o a : one_open a -> one_open (agent_step o a).1.
Proof.
  intros Ho. destruct o; simpl; try (by apply (shrinks_one_open a); [apply shrinks_refl|]);
    try (by apply (shrinks_one_open a); [apply shrinks_where|]).
  - unfold getSecrets_begin. repeat (case_test; [done|]). destruct id as [id|e]; [|done]. simpl.
    pose proof (shrinks_one_open _ _ (shrinks_where (open_for connPath setting) true a) Ho) as Ho'.
    pose proof (resolve_open_for connPath setting true a) as Hopen.
    intros i j p q Hp Hq Hrp Hrq Hc Hs. simpl in Hp, Hq. rewrite lookup_insert in Hp, Hq.
    repeat case_decide; subst; try done.
    + injection Hq as <-. exfalso. by apply (Hopen i p Hp Hrp).
    + injection Hp as <-. exfalso. by apply (Hopen j q Hq Hrq).
    + by apply (Ho' i j p q).
  - unfold getSecrets_timeout, resolve. destruct (a_pending a !! id) as [p|] eqn:Hp; [|done].
    pose proof (shrinks_resolve a id p SecretTimeout SecretAnswer_zero false Hp) as Hs.
    destruct (resolveLocked a p SecretTimeout SecretAnswer_zero false). by apply (shrinks_one_open a).
  - unfold getSecrets_ctx_done, resolve. destruct (a_pending a !! id) as [p|] eqn:Hp; [|done].
    pose proof (shrinks_resolve a id p SecretCancelled SecretAnswer_zero false Hp) as Hs.
    destruct (resolveLocked a p SecretCancelled SecretAnswer_zero false). by apply (shrinks_one_open a).
  - case_test; [|done]. apply (shrinks_one_open a); [|done]. intros i p. simpl. rewrite lookup_delete.
    case_decide; [done|eauto].
  - unfold answer. destruct (a_pending a !! id) as [p|] eqn:Hp; [|done]. destruct (p_resolved p); [done|].
    case_test; [done|]. pose proof (shrinks_resolve a id p SecretAnswered ans false Hp) as Hs.
    destruct (resolveLocked a p SecretAnswered ans false). by apply (shrinks_one_open a).
  - unfold cancel. destruct (a_pending a !! id) as [p|] eqn:Hp; [|done]. destruct (p_resolved p); [done|].
    pose proof (shrinks_resolve a id p SecretCancelled SecretAnswer_zero false Hp) as Hs.
    destruct (resolveLocked a p SecretCancelled SecretAnswer_zero false). by apply (shrinks_one_open a).
  - apply (shrinks_one_open a); [apply (shrinks_where (fun _ => true) false a)|done].
Qed.

Lemma agent_run_one_open l : forall a, one_open a -> one_open (agent_run l a).1.
Proof.
  induction l as [|o l IH]; intros a Ho; [done|]. rewrite agent_run_cons. by apply IH, agent_step_one_open.
Qed.

Lemma newAgent_ok t : agent_ok (newAgent t) /\ one_open (newAgent t) /\ used_ok ∅ (newAgent t).
Proof.
  split_and!.
  - intros id p H. simpl in H. by rewrite lookup_empty in H.
  - intros i j p q H. simpl in H. by rewrite lookup_empty in H.
  - intros id [p H]. simpl in H. by rewrite lookup_empty in H.
Qed.

(** ** Properties *)

(** C10: whatever order requests, answers, cancellations, timeouts and
    shutdown come in, each request's end is announced at most once, and the
    outcome announced is final: as long as the agent remembers the request it
    is resolved with exactly that outcome. *)
Theorem resolved_once t l :
  distinct_ids l ->
  let '(a, cbs) := agent_run l (newAgent t) in
  NoDup (map fst cbs) /\
  (forall id out p, (id, out) ∈ cbs -> a_pending a !! id = Some p -> p_resolved p = true /\ p_outcome p = out).
Proof.
  intros Hnd. destruct (newAgent_ok t) as (H1 & _ & H3).
  destruct (called_run l (newAgent t) ∅ H1 H3 Hnd) as [R1 R2]; [set_solver|].
  destruct (agent_run l (newAgent t)) as [a cbs]; simpl in *. split; [done|].
  intros id out p Hin Hp. specialize (R2 id out Hin). unfold settled in R2. by rewrite Hp in R2.
Qed.

(** at any time at most one request is open per profile and setting (a
    new one supersedes a leftover), and NetworkManager's CancelGetSecrets
    leaves none open for the pair it names while touching no request of
    another pair. *)
Theorem one_open_request t l path setting :
  let a := (agent_run l (newAgent t)).1 in
  one_open a /\
  (forall i p, a_pending (cancelByNM path setting a).1 !! i = Some p -> p_resolved p = false ->
     ~ (p_connPath p = path /\ p_setting p = setting)) /\
  (forall i p, a_pending a !! i = Some p -> ~ (p_connPath p = path /\ p_setting p = setting) ->
     a_pending (cancelByNM path setting a).1 !! i = Some p).
Proof.
  cbn zeta. split_and!.
  - by apply agent_run_one_open, newAgent_ok.
  - intros i p. apply resolve_open_for.
  - intros i p Hp Hne. unfold cancelByNM. rewrite resolve_where_lookup, Hp. simpl.
    assert (open_for path setting p = false) as ->; [|done].
    unfold open_for. destruct (p_connPath p =?s path) eqn:H1, (p_setting p =?s setting) eqn:H2;
      rewrite ?andb_false_r; try done. bool_to_prop. by destruct Hne.
Qed.
End Machine.

(** ** The broker's contract *)

(** The answer carries a value for at least one requested key. *)
Definition answers_some (ans : SecretAnswer) (req : SecretRequest) : Prop :=
  exists f, f ∈ sq_Fields req /\ is_Some (sa_Secrets ans !! sf_Key f).

(** the contract of Answer and Cancel.  An unknown id is not-found; a
    resolved request is a conflict and names how it ended; both leave the agent
    alone.  Otherwise cancelling resolves the request as cancelled, and
    answering, if the answer carries at least one requested secret, resolves it
    with exactly that answer; no other request changes. *)
Theorem broker_contract id ans a :
  agent_ok a ->
  let '(a1, e1, c1) := answer id ans a in
  let '(a2, e2, c2) := cancel id a in
  match a_pending a !! id with
  | None =>
      KindOf e1 = KindNotFound /\ KindOf e2 = KindNotFound /\ a1 = a /\ a2 = a /\ c1 = [] /\ c2 = []
  | Some p =>
      if p_resolved p then
        KindOf e1 = KindConflict /\ KindOf e2 = KindConflict /\ a1 = a /\ a2 = a /\ c1 = [] /\ c2 = []
      else
        (e2 = None /\ (exists p', a_pending a2 = <[id := p']> (a_pending a) /\ p_req p' = p_req p /\
           p_resolved p' = true /\ p_outcome p' = SecretCancelled /\ p_byNM p' = false)) /\
        (answers_some ans (p_req p) -> e1 = None /\
           exists p', a_pending a1 = <[id := p']> (a_pending a) /\ p_req p' = p_req p /\
             p_resolved p' = true /\ p_outcome p' = SecretAnswered /\ p_answer p' = ans) /\
        (~ answers_some ans (p_req p) -> e1 <> None /\ a1 = a /\ c1 = [])
  end.
Proof.
  intros Hok. unfold answer, cancel. destruct (a_pending a !! id) as [p|] eqn:Hp; [|by split_and!].
  destruct (p_resolved p) eqn:Hr; [by split_and!|].
  unfold resolveLocked. rewrite Hr.
  destruct (existsb _ (sq_Fields (p_req p))) eqn:Hex; simpl.
  - split_and!; [done|by eexists| |].
    + intros _. split; [done|by eexists].
    + intros Hn. exfalso. apply Hn. apply existsb_elem in Hex as (f & Hf & Hs). exists f. split; [done|].
      by apply bool_decide_eq_true in Hs.
  - split_and!; [done|by eexists| |done].
    intros (f & Hf & Hs). exfalso. assert (existsb (fun f => bool_decide (is_Some (sa_Secrets ans !! sf_Key f)))
      (sq_Fields (p_req p)) = true) as Hx; [|congruence].
    apply existsb_elem. exists f. split; [done|]. by apply bool_decide_eq_true.
Qed.

(** ** The reply *)

(** The keys a request asks for are distinct. *)
Definition distinct_fields (req : SecretRequest) : Prop := NoDup (requested_keys req).

(** No requested key is another one's flags key. *)
Definition flags_apart (req : SecretRequest) : Prop :=
  forall f g, f ∈ sq_Fields req -> g ∈ sq_Fields req ->
    sf_Key f <> sf_Key g +:+ "-flags" /\ sf_Key f <> flagsKey (sf_Key g).

Lemma dedup_spec seen l :
  NoDup (dedup seen l) /\ (forall k, k ∈ dedup seen l <-> k ∈ l /\ k ∉ seen).
Proof.
  revert seen; induction l as [|k l IH]; intros seen; simpl.
  - split; [constructor|]. intros k. split; [intros H; by apply not_elem_of_nil in H|intros [H _]; by apply not_elem_of_nil in H].
  - destruct (existsb (fun x => x =?s k) seen) eqn:Hs.
    + apply existsb_elem in Hs as (x & Hx & He). apply String.eqb_eq in He as ->.
      destruct (IH seen) as [H1 H2]. split; [done|]. intros k'. rewrite H2, elem_of_cons. naive_solver.
    + assert (k ∉ seen) as Hk.
      { intros Hin. assert (existsb (fun x => x =?s k) seen = true); [|congruence].
        apply existsb_elem. exists k. split; [done|apply seqb_refl]. }
      destruct (IH (k :: seen)) as [H1 H2]. split.
      * apply NoDup_cons; split; [|done]. intros Hin. apply H2 in Hin as [_ Hin]. apply Hin. left.
      * intros k'. rewrite !elem_of_cons, H2, elem_of_cons. destruct (decide (k' = k)); naive_solver.
Qed.

Lemma secretField_key k vpn : sf_Key (secretField k vpn) = k.
Proof. unfold secretField. by repeat case_test. Qed.

Lemma buildSecretRequest_distinct Quote id conn setting hints flags now expires :
  distinct_fields (buildSecretRequest Quote id conn setting hints flags now expires) /\
  sq_Fields (buildSecretRequest Quote id conn setting hints flags now expires) <> [].
Proof.
  assert (forall vpn l, map sf_Key (map (fun k => secretField k vpn) l) = l) as Hmap.
  { intros vpn l. rewrite List.map_map. rewrite (List.map_ext _ (fun k => k)); [apply List.map_id|]. intros k. apply secretField_key. }
  unfold distinct_fields, requested_keys, buildSecretRequest.
  destruct (if setting =?s settingVPN then _ else _) as [vpn kind]. simpl. rewrite Hmap.
  split; [apply dedup_spec|].
  destruct (omap hint_key hints) as [|k ks]; [|done]. unfold default_keys. by repeat case_test.
Qed.

Lemma fold_vpn_lookup a l : forall s d, NoDup (map sf_Key l) -> 
  (forall f g, f ∈ l -> g ∈ l -> sf_Key f <> sf_Key g +:+ "-flags") ->
  (forall f, f ∈ l ->
    (fold_left (reply_vpn_step a) l (s, d)).1 !! sf_Key f =
      match sa_Secrets a !! sf_Key f with
      | Some v => if sf_Secret f then Some v else s !! sf_Key f
      | None => s !! sf_Key f
      end /\
    (fold_left (reply_vpn_step a) l (s, d)).2 !! sf_Key f =
      match sa_Secrets a !! sf_Key f with
      | Some v => if sf_Secret f then d !! sf_Key f else Some v
      | None => d !! sf_Key f
      end) /\
  (forall k, k ∉ map sf_Key l -> (fold_left (reply_vpn_step a) l (s, d)).1 !! k = s !! k) /\
  (forall k, k ∉ map sf_Key l -> k ∉ map (fun f => sf_Key f +:+ "-flags") l ->
     (fold_left (reply_vpn_step a) l (s, d)).2 !! k = d !! k).
Proof.
  induction l as [|f l IH]; intros s d Hnd Hap; cbn [fold_left map].
  { split_and!; [|done|done]. intros f H. by apply not_elem_of_nil in H. }
  apply NoDup_cons in Hnd as [Hf Hnd].
  assert (forall f g, f ∈ l -> g ∈ l -> sf_Key f <> sf_Key g +:+ "-flags") as Hap' by (intros; apply Hap; by right).
  destruct (reply_vpn_step a (s, d) f) as [s1 d1] eqn:Hstep.
  destruct (IH s1 d1 Hnd Hap') as (I1 & I2 & I3).
  assert (forall k, k <> sf_Key f -> s1 !! k = s !! k) as Hs1.
  { intros k Hk. unfold reply_vpn_step in Hstep. repeat case_match; simplify_eq; try done; by rewrite lookup_insert_ne. }
  assert (forall k, k <> sf_Key f -> k <> sf_Key f +:+ "-flags" -> d1 !! k = d !! k) as Hd1.
  { intros k Hk Hk'. unfold reply_vpn_step in Hstep. repeat case_match; simplify_eq; try done; by rewrite lookup_insert_ne. }
  assert (sf_Key f ∉ map (fun f => sf_Key f +:+ "-flags") l) as Hff.
  { intros Hin. apply list_elem_of_fmap in Hin as (g & Hg & Hin). apply (Hap f g); [left|by right|done]. }
  split_and!.
  - intros g Hg. apply elem_of_cons in Hg as [->|Hg].
    + rewrite I2, I3 by done. unfold reply_vpn_step in Hstep.
      destruct (sa_Secrets a !! sf_Key f) as [v|]; [|by simplify_eq].
      destruct (sf_Secret f); simplify_eq.
      * rewrite lookup_insert_eq. split; [done|]. destruct (sa_Save a); [|done].
        rewrite lookup_insert_ne; [done|]. intros He. apply (Hap f f); [left|left|done].
      * by rewrite lookup_insert_eq.
    + destruct (I1 g Hg) as [-> ->].
      assert (sf_Key g <> sf_Key f) as Hne by (intros He; apply Hf; rewrite <- He; apply list_elem_of_fmap; eauto).
      rewrite Hs1, Hd1; [done|done|apply Hap; [by right|left]|done].
  - intros k Hk. apply not_elem_of_cons in Hk as [Hk1 Hk2]. by rewrite I2, Hs1.
  - intros k Hk Hk'. apply not_elem_of_cons in Hk as [Hk1 Hk2]. apply not_elem_of_cons in Hk' as [Hk3 Hk4].
    by rewrite I3, Hd1.
Qed.

Lemma fold_reply_lookup a l : forall m, NoDup (map sf_Key l) ->
  (forall f g, f ∈ l -> g ∈ l -> sf_Key f <> flagsKey (sf_Key g)) ->
  (forall f, f ∈ l ->
     fold_left (reply_step a) l m !! sf_Key f =
       match sa_Secrets a !! sf_Key f with Some v => Some (VString v) | None => m !! sf_Key f end) /\
  (forall k, k ∉ map sf_Key l -> (forall f, f ∈ l -> sf_Secret f = true -> k <> flagsKey (sf_Key f)) ->
     fold_left (reply_step a) l m !! k = m !! k).
Proof.
  induction l as [|f l IH]; intros m Hnd Hap; cbn [fold_left map].
  { split; [|done]. intros f H. by apply not_elem_of_nil in H. }
  apply NoDup_cons in Hnd as [Hf Hnd].
  destruct (IH (reply_step a m f) Hnd) as [I1 I2]; [intros; apply Hap; by right|].
  assert (forall k, k <> sf_Key f -> (sf_Secret f = true -> k <> flagsKey (sf_Key f)) -> reply_step a m f !! k = m !! k) as Hm.
  { intros k Hk Hk'. unfold reply_step. destruct (sa_Secrets a !! sf_Key f); [|done].
    destruct (sf_Secret f); simpl; [destruct (sa_Save a)|]; rewrite ?lookup_insert_ne by (apply not_eq_sym; auto); done. }
  split.
  - intros g Hg. apply elem_of_cons in Hg as [->|Hg].
    + rewrite I2; [|done|].
      * unfold reply_step. destruct (sa_Secrets a !! sf_Key f); [|done].
        destruct (sf_Secret f && sa_Save a); [rewrite lookup_insert_ne; [apply lookup_insert_eq|]|apply lookup_insert_eq].
        intros He. apply (Hap f f); [left|left|done].
      * intros g Hg _. apply Hap; [left|by right].
    + rewrite I1 by done. rewrite Hm; [done| |].
      * intros He; apply Hf; rewrite <- He; apply list_elem_of_fmap; eauto.
      * intros _. apply Hap; [by right|left].
  - intros k Hk Hk'. apply not_elem_of_cons in Hk as [Hk1 Hk2].
    rewrite I2; [|done|intros; apply Hk'; [by right|done]]. apply Hm; [done|]. intros. apply Hk'; [left|done].
Qed.

(** The strings the reply carries for a key: where NetworkManager looks. *)
Definition reply_secret (setting : string) (r : settingsDict) (key : string) : option string :=
  if setting =?s settingVPN then vStrMap (section r settingVPN) "secrets" !! key
  else match section r setting !! key with Some (VString v) => Some v | _ => None end.
Definition reply_data (r : settingsDict) (key : string) : option string :=
  vStrMap (section r settingVPN) "data" !! key.

Lemma reply_vpn_parts req a :
  let acc := fold_left (reply_vpn_step a) (sq_Fields req) (∅, ∅) in
  vStrMap (section (secretsReply settingVPN req a) settingVPN) "secrets" = acc.1 /\
  vStrMap (section (secretsReply settingVPN req a) settingVPN) "data" = acc.2.
Proof.
  cbn zeta. unfold secretsReply. rewrite seqb_refl.
  destruct (fold_left _ _ _) as [secrets data] eqn:Hf. simpl.
  unfold section. rewrite lookup_singleton_eq. simpl.
  destruct (Nat.ltb_spec 0 (size data)) as [Hs|Hs]; unfold vStrMap.
  - rewrite lookup_insert_ne by done. by rewrite lookup_singleton_eq, lookup_insert_eq.
  - rewrite lookup_singleton_eq, lookup_singleton_ne by done. split; [done|].
    symmetry. apply map_size_empty_inv. lia.
Qed.

(** the reply to NetworkManager carries what was asked and answered, and
    nothing else.  Every requested secret that the answer holds is in it with
    the value typed, for a VPN among the secrets and never among the plain
    data, and a user name the other way round; a key that was not requested is
    not in it, whatever the answer contains. *)
Theorem reply_exact req a setting :
  distinct_fields req -> flags_apart req ->
  let r := secretsReply setting req a in
  (forall f, f ∈ sq_Fields req ->
     if (setting =?s settingVPN) && negb (sf_Secret f)
     then reply_secret setting r (sf_Key f) = None /\ reply_data r (sf_Key f) = sa_Secrets a !! sf_Key f
     else reply_secret setting r (sf_Key f) = sa_Secrets a !! sf_Key f /\
          (setting = settingVPN -> reply_data r (sf_Key f) = None)) /\
  (forall k, k ∉ requested_keys req -> reply_secret setting r k = None).
Proof.
  intros Hnd Hap. cbn zeta. unfold reply_secret, reply_data.
  destruct (setting =?s settingVPN) eqn:Hv; bool_to_prop; simpl.
  - subst setting. destruct (reply_vpn_parts req a) as [-> ->].
    destruct (fold_vpn_lookup a (sq_Fields req) ∅ ∅ Hnd) as (F1 & F2 & _).
    { intros f g Hf Hg. by apply Hap. }
    split.
    + intros f Hf. destruct (F1 f Hf) as [-> ->]. rewrite !lookup_empty.
      destruct (sf_Secret f); simpl; destruct (sa_Secrets a !! sf_Key f); done.
    + intros k Hk. rewrite F2 by done. apply lookup_empty.
  - assert (section (secretsReply setting req a) setting = fold_left (reply_step a) (sq_Fields req) ∅) as ->.
    { unfold secretsReply. rewrite seqb_ne by done. unfold section. by rewrite lookup_singleton_eq. }
    destruct (fold_reply_lookup a (sq_Fields req) ∅ Hnd) as (F1 & F2).
    { intros f g Hf Hg. by apply Hap. }
    split.
    + intros f Hf. rewrite F1 by done. rewrite lookup_empty. destruct (sa_Secrets a !! sf_Key f); done.
    + intros k Hk. destruct (decide (Exists (fun f => k = flagsKey (sf_Key f)) (sq_Fields req))) as [He|Hn].
      * assert (forall l m, (match m !! k with Some (VString _) => False | _ => True end) -> k ∉ map sf_Key l ->
          match fold_left (reply_step a) l m !! k with Some (VString _) => False | _ => True end) as Hfl.
        { induction l as [|f l IH]; intros m Hm Hkl; simpl; [done|]. apply not_elem_of_cons in Hkl as [Hkf Hkl].
          apply IH; [|done]. unfold reply_step. destruct (sa_Secrets a !! sf_Key f); [|done].
          destruct (sf_Secret f && sa_Save a); [rewrite lookup_insert; case_decide; [done|]|];
            by rewrite lookup_insert_ne by done. }
        specialize (Hfl (sq_Fields req) ∅ ltac:(by rewrite lookup_empty) Hk).
        destruct (fold_left _ _ _ !! k) as [[]|]; done.
      * rewrite F2; [by rewrite lookup_empty|done|]. intros f Hf _ ->. apply Hn. apply Exists_exists. eauto.
Qed.

(** A leftover request superseded by a new one of the same profile and
    setting is resolved as cancelled, but its end is never announced: not by the
    step that supersedes it, and not by any later run, whatever ids ([U] bounds
    the ones used so far) come after it. *)
Theorem supersede_never_announced Quote old p new now conn path setting hints a l U :
  agent_ok a -> used_ok U a -> new ∉ U -> distinct_ids l -> (forall i, i ∈ omap begin_id l -> i ∉ {[new]} ∪ U) ->
  a_onNeeded a = true -> a_pending a !! old = Some p -> open_for path setting p = true ->
  let o := OBegin true (Ok new) now conn path setting hints 5 in
  (exists p', a_pending (agent_step Quote o a).1 !! old = Some p' /\ p_resolved p' = true /\ p_outcome p' = SecretCancelled) /\
  (agent_step Quote o a).2 = [] /\
  ~ (old ∈ map fst (agent_run Quote l (agent_step Quote o a).1).2).
Proof.
  intros Hok HU Hnew Hnd Hfresh Hneed Hp Hopen o.
  assert (old <> new) as Hne by (intros ->; apply Hnew, HU; eauto).
  assert (exists p', a_pending (agent_step Quote o a).1 !! old = Some p' /\ p_resolved p' = true /\
    p_outcome p' = SecretCancelled) as Hres.
  { unfold o, agent_step, getSecrets_begin. rewrite Hneed. simpl. rewrite lookup_insert_ne by done.
    rewrite lookup_fmap, Hp. simpl. rewrite Hopen. eexists; split; [done|].
    destruct (resolveLocked_fields a p SecretCancelled SecretAnswer_zero true) as (_ & _ & _ & R4 & _ & R6 & _).
    split; [done|]. apply R6. unfold open_for in Hopen. by bool_to_prop. }
  split; [done|]. split; [done|].
  destruct (agent_step_ok Quote o a Hok) as [S1 _ _ _ S5].
  apply (settled_run Quote l _ ({[new]} ∪ U) old (Some SecretCancelled)); try done.
  - intros i Hi. destruct (S5 i Hi) as [Hs|Hs]; [apply HU in Hs; set_solver|]. unfold o in Hs; simpl in Hs. set_solver.
  - apply elem_of_union_r, HU. eauto.
  - unfold settled. destruct Hres as (p' & -> & Hr & Ho). done.
Qed.

(** ** Witnesses *)

Definition demo_conn : settingsDict :=
  {[ settingConnection := {[ "id" := VString "Home" ]};
     settingWifiSecurity := {[ "key-mgmt" := VString "wpa-psk" ]} ]}.

Definition demo_begin (id : string) : aop :=
  OBegin true (Ok id) 100 demo_conn "/c/1" settingWifiSecurity [] 5.

Definition demo_answer : SecretAnswer := mkSecretAnswer {[ "psk" := "hunter22" ]} true.

Definition demo_ops : list aop :=
  [OSetNeeded true; OSetResolved true; demo_begin "a"; demo_begin "b"; OAnswer "b" demo_answer; OTimeout "b"; OCancel "a"].

Definition demo_quote (s : string) : string := s.

Lemma resolved_once_witness :
  (let '(a, cbs) := agent_run demo_quote demo_ops (newAgent 0) in
   NoDup (map fst cbs) /\
   (forall id out p, (id, out) ∈ cbs -> a_pending a !! id = Some p -> p_resolved p = true /\ p_outcome p = out)) /\
  (agent_run demo_quote demo_ops (newAgent 0)).2 = [("b", SecretAnswered)].
Proof.
  split; [|vm_compute; reflexivity]. apply (resolved_once demo_quote 0 demo_ops).
  vm_compute. repeat constructor; rewrite list_elem_of_In; simpl; intuition congruence.
Defined.

Lemma one_open_request_witness :
  let a := (agent_run demo_quote demo_ops (newAgent 0)).1 in
  one_open a /\
  (forall i p, a_pending (cancelByNM "/c/1" settingWifiSecurity a).1 !! i = Some p -> p_resolved p = false ->
     ~ (p_connPath p = "/c/1" /\ p_setting p = settingWifiSecurity)) /\
  (forall i p, a_pending a !! i = Some p -> ~ (p_connPath p = "/c/1" /\ p_setting p = settingWifiSecurity) ->
     a_pending (cancelByNM "/c/1" settingWifiSecurity a).1 !! i = Some p).
Proof. apply (one_open_request demo_quote 0 demo_ops). Defined.

Definition demo_agent : agent := (agent_run demo_quote (take 3 demo_ops) (newAgent 0)).1.

Lemma broker_contract_witness :
  (let '(a1, e1, c1) := answer "a" demo_answer demo_agent in
   let '(a2, e2, c2) := cancel "a" demo_agent in
   match a_pending demo_agent !! "a" with
   | None =>
       KindOf e1 = KindNotFound /\ KindOf e2 = KindNotFound /\ a1 = demo_agent /\ a2 = demo_agent /\ c1 = [] /\ c2 = []
   | Some p =>
       if p_resolved p then
         KindOf e1 = KindConflict /\ KindOf e2 = KindConflict /\ a1 = demo_agent /\ a2 = demo_agent /\ c1 = [] /\ c2 = []
       else
         (e2 = None /\ (exists p', a_pending a2 = <["a" := p']> (a_pending demo_agent) /\ p_req p' = p_req p /\
            p_resolved p' = true /\ p_outcome p' = SecretCancelled /\ p_byNM p' = false)) /\
         (answers_some demo_answer (p_req p) -> e1 = None /\
            exists p', a_pending a1 = <["a" := p']> (a_pending demo_agent) /\ p_req p' = p_req p /\
              p_resolved p' = true /\ p_outcome p' = SecretAnswered /\ p_answer p' = demo_answer) /\
         (~ answers_some demo_answer (p_req p) -> e1 <> None /\ a1 = demo_agent /\ c1 = [])
   end) /\
  is_resolved "a" demo_agent = false.
Proof.
  split; [|vm_compute; reflexivity]. apply (broker_contract "a" demo_answer demo_agent).
  unfold demo_agent, demo_ops. simpl take.
  assert (forall l a, agent_ok a -> agent_ok (agent_run demo_quote l a).1) as Hrun.
  { induction l as [|o l IH]; intros a Ha; [exact Ha|]. rewrite agent_run_cons. apply IH.
    exact (st_ok _ _ _ (agent_step_ok demo_quote o a Ha)). }
  apply Hrun. apply newAgent_ok.
Defined.

(** A prompt for request "a" is open when NetworkManager asks again for the same
    profile; the run goes on with an attempt to answer "a". *)
Lemma supersede_never_announced_witness :
  let o := OBegin true (Ok "b") 200 demo_conn "/c/1" settingWifiSecurity [] 5 in
  let a := (agent_run demo_quote [OSetNeeded true; OSetResolved true; demo_begin "a"] (newAgent 0)).1 in
  (exists p', a_pending (agent_step demo_quote o a).1 !! "a" = Some p' /\ p_resolved p' = true /\
              p_outcome p' = SecretCancelled) /\
  ~ ("a" ∈ map fst (agent_run demo_quote [OAnswer "a" demo_answer; OTimeout "a"] (agent_step demo_quote o a).1).2).
Proof.
  intros o a.
  assert (exists p, a_pending a !! "a" = Some p) as [p Hp] by (vm_compute; eexists; reflexivity).
  assert (agent_ok a) as Hok.
  { intros i q Hq. destruct (decide (i = "a")) as [->|Hne].
    - vm_compute in Hq. injection Hq as <-. reflexivity.
    - exfalso. assert (a_pending a = {["a" := p]}) as Ha.
      { vm_compute in Hp. injection Hp as <-. vm_compute. reflexivity. }
      rewrite Ha, lookup_singleton_ne in Hq by congruence. discriminate. }
  destruct (supersede_never_announced demo_quote "a" p "b" 200 demo_conn "/c/1" settingWifiSecurity [] a
              [OAnswer "a" demo_answer; OTimeout "a"] {["a"]}) as (H1 & _ & H2).
  - exact Hok.
  - intros i [q Hq]. pose proof (Hok i q Hq) as <-. destruct (decide (sq_ID (p_req q) = "a")) as [->|Hne]; [set_solver|].
    exfalso. assert (a_pending a = {["a" := p]}) as Ha.
    { vm_compute in Hp. injection Hp as <-. vm_compute. reflexivity. }
    rewrite Ha, lookup_singleton_ne in Hq by congruence. discriminate.
  - set_solver.
  - vm_compute. constructor.
  - intros i Hi. vm_compute in Hi. by apply elem_of_nil in Hi.
  - vm_compute. reflexivity.
  - exact Hp.
  - vm_compute in Hp. injection Hp as <-. vm_compute. reflexivity.
  - split; [exact H1|exact H2].
Defined.

Definition demo_vpn_request : SecretRequest :=
  buildSecretRequest demo_quote "x" {[ settingVPN := ∅ ]} settingVPN ["username"; "password"; "x-vpn-message:hello"] 1 0 9.

Lemma reply_exact_witness :
  let a := mkSecretAnswer {[ "username" := "me"; "password" := "pw"; "other" := "x" ]} true in
  let r := secretsReply settingVPN demo_vpn_request a in
  (forall f, f ∈ sq_Fields demo_vpn_request ->
     if (settingVPN =?s settingVPN) && negb (sf_Secret f)
     then reply_secret settingVPN r (sf_Key f) = None /\ reply_data r (sf_Key f) = sa_Secrets a !! sf_Key f
     else reply_secret settingVPN r (sf_Key f) = sa_Secrets a !! sf_Key f /\
          (settingVPN = settingVPN -> reply_data r (sf_Key f) = None)) /\
  (forall k, k ∉ requested_keys demo_vpn_request -> reply_secret settingVPN r k = None).
Proof.
  intros a. apply (reply_exact demo_vpn_request a settingVPN).
  - apply buildSecretRequest_distinct.
  - intros f g Hf Hg. vm_compute in Hf, Hg.
    repeat (apply elem_of_cons in Hf as [->|Hf]; [repeat (apply elem_of_cons in Hg as [->|Hg];
      [split; vm_compute; discriminate|]); by apply not_elem_of_nil in Hg|]).
    by apply not_elem_of_nil in Hf.
Defined.
