(* ===== verification/NMMapping.v ===== *)
(** internal/nm/consts.go, internal/nm/mapping.go and the classification half of
    internal/nm/errors.go: how NetworkManager's numbers, names and D-Bus errors
    become bnm's own vocabulary.  Every function is total on what the bus can
    deliver; the theorems say which values they can produce and that the Wi-Fi
    families and channels survive the way back. *)

From S2P Require Import Prelude Core Errors GoStrings NMVariant.
From Stdlib Require Import Ascii.

(** ** consts.go *)

(** NMDeviceType *)
Definition devTypeUnknown : Z := 0.
Definition devTypeEthernet : Z := 1.
Definition devTypeWifi : Z := 2.
Definition devTypeBridge : Z := 13.
Definition devTypeVlan : Z := 11.
Definition devTypeTun : Z := 16.
Definition devTypeVeth : Z := 20.
Definition devTypeWireGuard : Z := 29.
Definition devTypeWifiP2P : Z := 30.
Definition devTypeLoopback : Z := 32.

(** NMDeviceState *)
Definition devStateUnknown : Z := 0.
Definition devStateUnmanaged : Z := 10.
Definition devStateUnavailable : Z := 20.
Definition devStateDisconnected : Z := 30.
Definition devStatePrepare : Z := 40.
Definition devStateConfig : Z := 50.
Definition devStateNeedAuth : Z := 60.
Definition devStateIPConfig : Z := 70.
Definition devStateIPCheck : Z := 80.
Definition devStateSecondaries : Z := 90.
Definition devStateActivated : Z := 100.
Definition devStateDeactivating : Z := 110.
Definition devStateFailed : Z := 120.

(** NMDeviceStateReason *)
Definition devReasonNone : Z := 0.
Definition devReasonNoSecrets : Z := 7.
Definition devReasonSupplicantDisconnect : Z := 8.
Definition devReasonSupplicantConfigFail : Z := 9.
Definition devReasonSupplicantFailed : Z := 10.
Definition devReasonSupplicantTimeout : Z := 11.
Definition devReasonSSIDNotFound : Z := 53.

(** NMActiveConnectionState *)
Definition activeUnknown : Z := 0.
Definition activeActivating : Z := 1.
Definition activeActivated : Z := 2.
Definition activeDeactivating : Z := 3.
Definition activeDeactivated : Z := 4.

(** NMActiveConnectionStateReason *)
Definition activeReasonUnknown : Z := 0.
Definition activeReasonNone : Z := 1.
Definition activeReasonUserDisconnected : Z := 2.
Definition activeReasonDeviceDisconnected : Z := 3.
Definition activeReasonServiceStopped : Z := 4.
Definition activeReasonIPConfigInvalid : Z := 5.
Definition activeReasonConnectTimeout : Z := 6.
Definition activeReasonServiceStartTO : Z := 7.
Definition activeReasonServiceStartFailed : Z := 8.
Definition activeReasonNoSecrets : Z := 9.
Definition activeReasonLoginFailed : Z := 10.
Definition activeReasonConnectionRemoved : Z := 11.
Definition activeReasonDependencyFailed : Z := 12.
Definition activeReasonDeviceRealizeFail : Z := 13.
Definition activeReasonDeviceRemoved : Z := 14.

Definition activeFlagExternal : Z := 0x80.

(** NM80211ApFlags / NM80211ApSecurityFlags *)
Definition apFlagPrivacy : Z := 0x1.
Definition apSecPairWEP40 : Z := 0x1.
Definition apSecPairWEP104 : Z := 0x2.
Definition apSecGroupWEP40 : Z := 0x10.
Definition apSecGroupWEP104 : Z := 0x20.
Definition apSecKeyMgmtPSK : Z := 0x100.
Definition apSecKeyMgmt8021X : Z := 0x200.
Definition apSecKeyMgmtSAE : Z := 0x400.
Definition apSecKeyMgmtOWE : Z := 0x800.
Definition apSecKeyMgmtOWETM : Z := 0x1000.
Definition apSecKeyMgmtEAPB : Z := 0x2000.

Definition typeWifi : string := "802-11-wireless".
Definition typeEthernet : string := "802-3-ethernet".
Definition typeWireGuard : string := "wireguard".
Definition typeVPN : string := "vpn".
Definition typeBridge : string := "bridge".

(** ** mapping.go *)

Definition deviceKind (t : Z) : DeviceKind :=
  if t =? devTypeEthernet then DeviceEthernet
  else if t =? devTypeWifi then DeviceWifi
  else if t =? devTypeBridge then DeviceBridge
  else if t =? devTypeVlan then DeviceVlan
  else if t =? devTypeTun then DeviceTun
  else if t =? devTypeVeth then DeviceVeth
  else if t =? devTypeWireGuard then DeviceWireGuard
  else if t =? devTypeLoopback then DeviceLoopback
  else DeviceOther.

Definition deviceState (s : Z) (external : bool) : DeviceState :=
  if s =? devStateUnmanaged then DeviceUnmanaged
  else if (s =? devStateUnknown) || (s =? devStateUnavailable) then DeviceUnavailable
  else if (s =? devStateDisconnected) || (s =? devStateDeactivating) then DeviceDisconnected
  else if (devStatePrepare <=? s) && (s <=? devStateSecondaries) then DeviceConnecting
  else if s =? devStateActivated then (if external then DeviceExternal else DeviceConnected)
  else if s =? devStateFailed then DeviceFailed
  else DeviceUnavailable.

(** [sysfsProbe]: known, physical.  It reads the file system; the model takes
    it as an argument, as [deviceClass] does. *)
Abbreviation sysfsProbe := (string -> bool * bool) (only parsing).

Definition deviceClass (name : string) (kind : DeviceKind) (probe : sysfsProbe) : DeviceClass :=
  if (kind =?s DeviceLoopback) || (name =?s "lo") then ClassLoopback
  else
    let '(known, physical) := probe name in
    if known then (if physical then ClassPhysical else ClassInfra)
    else if (kind =?s DeviceWifi) || (kind =?s DeviceEthernet) then ClassPhysical
    else ClassInfra.

(** [^br-[0-9a-f]{12}$] *)
Definition is_hex_lower (c : ascii) : bool :=
  let n := nat_of_ascii c in
  (Nat.leb 48 n && Nat.leb n 57) || (Nat.leb 97 n && Nat.leb n 102).

Definition reDockerBridge (s : string) : bool :=
  HasPrefix s "br-" &&
  (let t := string_drop 3 s in
   Nat.eqb (String.length t) 12 && forallb is_hex_lower (String.list_ascii_of_string t)).

Definition deviceOwner (name : string) (kind : DeviceKind) : string :=
  if (name =?s "docker0") || reDockerBridge name then "docker"
  else if HasPrefix name "podman" then "podman"
  else if HasPrefix name "virbr" || HasPrefix name "vnet" then "libvirt"
  else if HasPrefix name "incusbr" || HasPrefix name "lxdbr" || HasPrefix name "lxcbr" then "incus"
  else if HasPrefix name "ve-" || HasPrefix name "vb-" || HasPrefix name "vz-" then "nspawn"
  else if (name =?s "cni0") || HasPrefix name "flannel" || HasPrefix name "cali" then "k8s"
  else if name =?s "tailscale0" then "tailscale"
  else if HasPrefix name "veth" || (kind =?s DeviceVeth) then "veth"
  else if HasPrefix name "wg" || (kind =?s DeviceWireGuard) then "wireguard"
  else "".

(** [x&mask != 0] *)
Definition any_bit (x mask : Z) : bool := negb (Z.land x mask =? 0).

Definition apSecurity (flags wpa rsn : Z) : WifiSecurity :=
  let all := Z.lor wpa rsn in
  if any_bit all (Z.lor apSecKeyMgmt8021X apSecKeyMgmtEAPB) then SecWPAEAP
  else if any_bit all apSecKeyMgmtPSK then SecWPAPSK
  else if any_bit all apSecKeyMgmtSAE then SecSAE
  else if any_bit all (Z.lor apSecKeyMgmtOWE apSecKeyMgmtOWETM) then SecOWE
  else if any_bit flags apFlagPrivacy && (all =? 0) then SecWEP
  else if any_bit all (Z.lor (Z.lor (Z.lor apSecPairWEP40 apSecPairWEP104) apSecGroupWEP40) apSecGroupWEP104)
       then SecWEP
  else SecOpen.

Definition keyMgmtFor (sec : WifiSecurity) : string :=
  if sec =?s SecWPAPSK then "wpa-psk"
  else if sec =?s SecSAE then "sae"
  else if sec =?s SecOWE then "owe"
  else if sec =?s SecWEP then "none"
  else if sec =?s SecWPAEAP then "wpa-eap"
  else "".

Definition profileSecurity (keyMgmt : string) : WifiSecurity :=
  if keyMgmt =?s "" then SecOpen
  else if keyMgmt =?s "none" then SecWEP
  else if keyMgmt =?s "wpa-psk" then SecWPAPSK
  else if keyMgmt =?s "sae" then SecSAE
  else if keyMgmt =?s "owe" then SecOWE
  else if (keyMgmt =?s "wpa-eap") || (keyMgmt =?s "wpa-eap-suite-b-192") || (keyMgmt =?s "ieee8021x")
       then SecWPAEAP
  else SecWPAPSK.

(** [freq] is a [uint32]: the subtractions wrap, the conversion to [int] and
    the division are exact. *)
Definition u32_sub (a b : Z) : Z := uint_of 32 (a - b).

Definition wifiChannel (freq : Z) : Z * string :=
  if freq =? 2484 then (14, "2.4")
  else if (2412 <=? freq) && (freq <=? 2472) then (Z.quot (u32_sub freq 2407) 5, "2.4")
  else if (5955 <=? freq) && (freq <=? 7115) then (Z.quot (u32_sub freq 5950) 5, "6")
  else if freq =? 5935 then (2, "6")
  else if (5000 <=? freq) && (freq <? 5935) then (Z.quot (u32_sub freq 5000) 5, "5")
  else if (4900 <=? freq) && (freq <? 5000) then (Z.quot (u32_sub freq 4000) 5, "5")
  else (0, "").

Definition profileType (t : string) : ProfileType :=
  if t =?s typeWifi then ProfileWifi
  else if t =?s typeEthernet then ProfileEthernet
  else if t =?s typeWireGuard then ProfileWireGuard
  else if t =?s typeVPN then ProfileVPN
  else if t =?s typeBridge then ProfileBridge
  else ProfileOther.

Definition activeState (s : Z) : ActiveState :=
  if s =? activeActivating then ActiveActivating
  else if s =? activeActivated then ActiveActivated
  else if s =? activeDeactivating then ActiveDeactivating
  else if s =? activeDeactivated then ActiveDeactivated
  else ActiveUnknown.

Definition nmStateName (s : Z) : string :=
  if s =? 0 then "unknown"
  else if s =? 10 then "asleep"
  else if s =? 20 then "disconnected"
  else if s =? 30 then "disconnecting"
  else if s =? 40 then "connecting"
  else if s =? 50 then "connected-local"
  else if s =? 60 then "connected-site"
  else if s =? 70 then "connected-global"
  else "unknown".

Definition connectivity (c : Z) : Connectivity :=
  if c =? 1 then ConnNone
  else if c =? 2 then ConnPortal
  else if c =? 3 then ConnLimited
  else if c =? 4 then ConnFull
  else ConnUnknown.

Definition vpnStateName (s : Z) : string :=
  if s =? 1 then "prepare"
  else if s =? 2 then "need-auth"
  else if s =? 3 then "connect"
  else if s =? 4 then "ip-config-get"
  else if s =? 5 then "activated"
  else if s =? 6 then "failed"
  else if s =? 7 then "disconnected"
  else "unknown".

Definition activeReasonText (r : Z) : string :=
  if (r =? activeReasonUnknown) || (r =? activeReasonNone) then "activation failed"
  else if r =? activeReasonUserDisconnected then "disconnected by user"
  else if r =? activeReasonDeviceDisconnected then "device disconnected"
  else if r =? activeReasonServiceStopped then "VPN service stopped"
  else if r =? activeReasonIPConfigInvalid then "invalid IP configuration"
  else if r =? activeReasonConnectTimeout then "connect timed out"
  else if r =? activeReasonServiceStartTO then "VPN service start timed out"
  else if r =? activeReasonServiceStartFailed then "VPN service failed to start"
  else if r =? activeReasonNoSecrets then "authentication failed (no valid secrets)"
  else if r =? activeReasonLoginFailed then "authentication failed (login rejected)"
  else if r =? activeReasonConnectionRemoved then "profile was removed"
  else if r =? activeReasonDependencyFailed then "a dependency failed"
  else if r =? activeReasonDeviceRealizeFail then "device could not be created"
  else if r =? activeReasonDeviceRemoved then "device removed"
  else "activation failed".

Definition activeReasonIsAuth (r : Z) : bool :=
  (r =? activeReasonNoSecrets) || (r =? activeReasonLoginFailed).

Definition devReasonText (r : Z) : string :=
  if r =? devReasonNoSecrets
  then "authentication failed: NetworkManager needed new secrets (wrong password?)"
  else if r =? devReasonSupplicantDisconnect
  then "authentication failed: the access point disconnected during association (wrong password?)"
  else if r =? devReasonSupplicantConfigFail
  then "authentication failed: the supplicant rejected the configuration"
  else if r =? devReasonSupplicantFailed then "authentication failed: the supplicant failed"
  else if r =? devReasonSupplicantTimeout
  then "authentication failed: the supplicant timed out (wrong password or weak signal)"
  else if r =? devReasonSSIDNotFound then "the network was not found"
  else "".

Definition devReasonIsAuth (r : Z) : bool :=
  (r =? devReasonNoSecrets) || (r =? devReasonSupplicantDisconnect) ||
  (r =? devReasonSupplicantConfigFail) || (r =? devReasonSupplicantFailed) ||
  (r =? devReasonSupplicantTimeout).

(** ** errors.go *)

(** What a D-Bus call returns as its error: a [dbus.Error] (by value or by
    pointer; [body] is the first element of its body when that is a string),
    the connection's [dbus.ErrClosed], or an error of another kind. *)
Inductive call_error : Type :=
| CDBus (name : string) (body : option string)
| CClosed (msg : string)
| COther (e : error).

Definition dbusMessage (name : string) (body : option string) : string :=
  match body with Some s => s | None => name end.

Definition strs_mem (s : string) (l : list string) : bool := existsb (String.eqb s) l.

Definition classify (name msg : string) : option error * string :=
  let suffix := match CutLast name "." with Some (_, s) => s | None => name end in
  if name =?s "org.freedesktop.DBus.Error.AccessDenied" then (Some nm_ErrPermissionDenied, polkitHint)
  else if (name =?s "org.freedesktop.DBus.Error.ServiceUnknown")
          || (name =?s "org.freedesktop.DBus.Error.NameHasNoOwner")
          || ((name =?s "org.freedesktop.DBus.Error.NoReply") && Contains msg "disconnected")
  then (Some nm_ErrUnavailable, "is NetworkManager running? (systemctl status NetworkManager)")
  else if (name =?s "org.freedesktop.DBus.Error.UnknownMethod")
          || (name =?s "org.freedesktop.DBus.Error.UnknownInterface")
          || (name =?s "org.freedesktop.DBus.Error.UnknownProperty")
  then (Some nm_ErrUnsupported,
        "this NetworkManager does not offer the call bnm needs (NM >= 1.44 is expected)")
  else if name =?s "org.freedesktop.DBus.Error.UnknownObject" then (Some nm_ErrNotFound, "")
  else if name =?s "org.freedesktop.DBus.Error.NoReply"
  then (Some nm_ErrTimeout,
        "NetworkManager did not answer in time; a polkit prompt may be waiting on your desktop")
  else if negb (HasPrefix name "org.freedesktop.NetworkManager.") then (None, "")
  else if suffix =?s "PermissionDenied" then (Some nm_ErrPermissionDenied, polkitHint)
  else if strs_mem suffix ["UnknownConnection"; "UnknownDevice"; "SpecificObjectNotFound";
                           "ConnectionNotActive"; "SettingNotFound"; "PropertyNotFound";
                           "NotRegistered"; "DoesNotExist"]
  then (Some nm_ErrNotFound, "")
  else if strs_mem suffix ["NoSecrets"; "UserCanceled"; "AgentCanceled"]
  then (Some nm_ErrNoSecrets, noSecretsHint)
  else if strs_mem suffix ["NotSupported"; "MissingPlugin"; "NotSoftware"; "MissingDependencies"]
  then (Some nm_ErrUnsupported, "")
  else if suffix =?s "VersionIdMismatch" then (Some nm_ErrConflict, "re-read the profile and retry")
  else if suffix =?s "LoginFailed" then (Some nm_ErrAuthFailed, "")
  else (None, "").

Definition wrapDBus (op : string) (err : option call_error) : option error :=
  match err with
  | None => None
  | Some (CDBus name body) =>
      let msg := dbusMessage name body in
      let '(kind, hint) := classify name msg in
      Some (ENM op name msg hint kind)
  | Some (CClosed msg) => Some (ENM op "" msg "" (Some nm_ErrUnavailable))
  | Some (COther e) => Some (EWrap ("nm: " +:+ op +:+ ": " +:+ ErrorString e) [e])
  end.

(** [isUnknownMethod] (wifi.go) *)
Definition isUnknownMethod (err : option call_error) : bool :=
  match wrapDBus "" err with
  | Some (ENM _ name _ _ _) => name =?s "org.freedesktop.DBus.Error.UnknownMethod"
  | _ => false
  end.

(** ** Properties *)

(** The start of the 5 MHz raster of each band: channel [c] is centred on
    [start + 5 c].  Channel 14 and the first 6 GHz channel sit off their
    band's raster; 4.9 GHz counts as the 5 GHz band. *)
Definition rasters : list (string * Z) :=
  [("2.4", 2407); ("2.4", 2414); ("5", 5000); ("5", 4000); ("6", 5950); ("6", 5925)].

Lemma u32_sub_exact a b : 0 <= b <= a -> a < 2 ^ 32 -> u32_sub a b = a - b.
Proof. intros ? ?. unfold u32_sub, uint_of. apply Z.mod_small. lia. Qed.

(** The bits of [x & mask] for a mask of one or two single bits. *)
Lemma any_bit_pow x i : 0 <= i -> any_bit x (2 ^ i) = Z.testbit x i.
Proof.
  intros Hi. unfold any_bit. apply eq_true_iff_eq. rewrite negb_true_iff, Z.eqb_neq. split.
  - intros Hne. destruct (Z.testbit x i) eqn:Hb; [done|]. destruct Hne. apply Z.bits_inj'. intros n Hn.
    rewrite Z.land_spec, Z.bits_0, Z.pow2_bits_eqb by lia.
    destruct (Z.eqb_spec i n) as [->|]; [by rewrite Hb|by rewrite andb_false_r].
  - intros Hb H0. assert (Z.testbit (Z.land x (2 ^ i)) i = false) as Hf by (by rewrite H0, Z.bits_0).
    rewrite Z.land_spec, Hb, Z.pow2_bits_true in Hf by lia. done.
Qed.

Lemma any_bit_lor x m1 m2 : any_bit x (Z.lor m1 m2) = any_bit x m1 || any_bit x m2.
Proof.
  unfold any_bit. rewrite Z.land_lor_distr_r. apply eq_true_iff_eq.
  rewrite orb_true_iff, !negb_true_iff, !Z.eqb_neq, Z.lor_eq_0_iff. lia.
Qed.

(** An access point is put in the family of its strongest usable key
    management, in the order enterprise, PSK (so a PSK+SAE transition network
    counts as PSK), SAE, OWE; without any of them it is WEP when it asks for
    privacy and advertises no WPA at all, or advertises WEP ciphers, and open
    otherwise.  The family survives the way into a profile's key-mgmt and back. *)
Theorem apSecurity_families flags wpa rsn :
  let all := Z.lor wpa rsn in
  let bit n := Z.testbit all n in
  apSecurity flags wpa rsn =
    (if bit 9 || bit 13 then SecWPAEAP
     else if bit 8 then SecWPAPSK
     else if bit 10 then SecSAE
     else if bit 11 || bit 12 then SecOWE
     else if (Z.testbit flags 0 && (all =? 0)) || bit 0 || bit 1 || bit 4 || bit 5 then SecWEP
     else SecOpen) /\
  profileSecurity (keyMgmtFor (apSecurity flags wpa rsn)) = apSecurity flags wpa rsn /\
  (keyMgmtFor (apSecurity flags wpa rsn) = "" <-> apSecurity flags wpa rsn = SecOpen).
Proof.
  intros all bit.
  assert (forall i m, 0 <= i -> m = 2 ^ i -> any_bit all m = bit i) as Hb
    by (intros i m Hi ->; by apply any_bit_pow).
  assert (any_bit flags apFlagPrivacy = Z.testbit flags 0) as Hf by (by apply (any_bit_pow flags 0)).
  unfold apSecurity. fold all. rewrite Hf, !any_bit_lor.
  rewrite (Hb 9), (Hb 13), (Hb 8), (Hb 10), (Hb 11), (Hb 12), (Hb 0), (Hb 1), (Hb 4), (Hb 5) by done.
  repeat case_test; simpl in *; split_and!; try done; try congruence.
  all: repeat match goal with H : ?b = _ |- _ => rewrite H in * end; simpl in *; try done.
Qed.

(** The channel reported for any 32-bit frequency lies on one of the
    regulatory rasters, the frequency being at its centre or less than 5 MHz
    above it; every channel centre of the 2.4, 5 and 6 GHz bands maps to its
    own number; and a frequency outside the bands gives channel 0 and no band. *)
Theorem wifiChannel_exact freq :
  0 <= freq < 2 ^ 32 ->
  (let '(c, band) := wifiChannel freq in
   (band = "" /\ c = 0 /\ ~ (4900 <= freq <= 5935) /\ ~ (5955 <= freq <= 7115) /\
    ~ (2412 <= freq <= 2472) /\ freq <> 2484) \/
   exists start, (band, start) ∈ rasters /\ 0 <= c <= 233 /\
     start + 5 * c <= freq < start + 5 * c + 5) /\
  (forall c, 1 <= c <= 13 -> wifiChannel (2407 + 5 * c) = (c, "2.4")) /\
  (forall c, 0 <= c <= 186 -> wifiChannel (5000 + 5 * c) = (c, "5")) /\
  (forall c, 1 <= c <= 233 -> wifiChannel (5950 + 5 * c) = (c, "6")).
Proof.
  intros Hf. split_and!.
  - unfold wifiChannel. repeat case_test; bool_to_prop; simpl; [..|left; bool_cases; split_and!; try done; lia].
    all: rewrite ?u32_sub_exact by lia; right.
    all: lazymatch goal with
      | |- context [Z.quot (_ - ?k) 5] =>
          exists k; (split; [unfold rasters; set_solver|]);
          pose proof (Z.quot_rem' (freq - k) 5); pose proof (Z.rem_bound_pos (freq - k) 5 ltac:(lia) ltac:(lia)); lia
      | |- context ["2.4"] => exists 2414; (split; [unfold rasters; set_solver|]); lia
      | _ => exists 5925; (split; [unfold rasters; set_solver|]); lia
      end.
  - intros c Hc. unfold wifiChannel. repeat case_test; bool_to_prop; simpl; try lia.
    all: rewrite u32_sub_exact by lia; f_equal.
    replace (2407 + 5 * c - 2407) with (c * 5) by lia. by apply Z.quot_mul.
  - intros c Hc. unfold wifiChannel. repeat case_test; bool_to_prop; simpl; try lia.
    all: rewrite u32_sub_exact by lia; f_equal.
    replace (5000 + 5 * c - 5000) with (c * 5) by lia. by apply Z.quot_mul.
  - intros c Hc. unfold wifiChannel. repeat case_test; bool_to_prop; simpl; try lia.
    all: rewrite u32_sub_exact by lia; f_equal.
    replace (5950 + 5 * c - 5950) with (c * 5) by lia. by apply Z.quot_mul.
Qed.

(** Channel 36. *)
Lemma wifiChannel_exact_witness : 0 <= 5180 < 2 ^ 32 /\ wifiChannel 5180 = (36, "5").
Proof.
  split; [lia|]. destruct (wifiChannel_exact 5180) as (_ & _ & H & _); [lia|]. exact (H 36 ltac:(lia)).
Defined.
