(* ===== verification/GoStringsFacts.v ===== *)
(** Lemmas on Go strings: the bytes of a string, cutting and splitting around a
    byte, decimal numbers, white space. *)

From S2P Require Import Prelude GoStrings.
From Stdlib Require Import Ascii.

(** ** Characters of a string *)

Fixpoint all_chars (p : ascii -> bool) (s : string) : bool :=
  match s with
  | "" => true
  | String c s' => p c && all_chars p s'
  end.

Lemma all_chars_app p s t : all_chars p (s +:+ t) = all_chars p s && all_chars p t.
Proof.
  induction s as [|c s IH]; [done|]. change (p c && all_chars p (s +:+ t) = p c && all_chars p s && all_chars p t).
  by rewrite IH, andb_assoc.
Qed.

Lemma all_chars_impl (p q : ascii -> bool) s :
  (forall c, p c = true -> q c = true) -> all_chars p s = true -> all_chars q s = true.
Proof.
  intros Hpq. induction s as [|c s IH]; cbn; [done|]. rewrite !andb_true_iff. intros [Hc Hs]. split; auto.
Qed.

Lemma app_String c s t : String c s +:+ t = String c (s +:+ t).
Proof. done. Qed.

Lemma app_string_assoc (s t u : string) : (s +:+ t) +:+ u = s +:+ (t +:+ u).
Proof. induction s as [|c s IH]; [done|]. rewrite !app_String. by rewrite IH. Qed.

Lemma app_length_string (s t : string) : String.length (s +:+ t) = (String.length s + String.length t)%nat.
Proof. induction s as [|c s IH]; [done|]. rewrite app_String. cbn [String.length]. by rewrite IH. Qed.

Lemma HasPrefix_char c d s : HasPrefix (String d s) (String c "") = Ascii.eqb d c.
Proof.
  unfold HasPrefix. cbn. destruct (ascii_dec c d) as [->|Hne]; [by rewrite Ascii.eqb_refl; destruct s|].
  symmetry. apply Ascii.eqb_neq. congruence.
Qed.

(** Cutting and splitting around a byte that does not occur before. *)
Definition not_char (c d : ascii) : bool := negb (Ascii.eqb d c).

Lemma Cut_char c s t : all_chars (not_char c) s = true -> Cut (s +:+ String c t) (String c "") = Some (s, t).
Proof.
  induction s as [|d s IH]; intros Hs.
  - change ("" +:+ String c t) with (String c t). cbn [Cut]. rewrite HasPrefix_char, Ascii.eqb_refl. cbn. by destruct t.
  - cbn in Hs. apply andb_true_iff in Hs as [Hd Hs]. rewrite app_String. cbn [Cut]. rewrite HasPrefix_char.
    unfold not_char in Hd. apply negb_true_iff in Hd as ->. by rewrite IH.
Qed.

Lemma Cut_char_None c s : all_chars (not_char c) s = true -> Cut s (String c "") = None.
Proof.
  induction s as [|d s IH]; intros Hs; [done|]. cbn in Hs. apply andb_true_iff in Hs as [Hd Hs]. cbn [Cut].
  rewrite HasPrefix_char. unfold not_char in Hd. apply negb_true_iff in Hd as ->. by rewrite IH.
Qed.

Lemma CutLast_None c t : all_chars (not_char c) t = true -> CutLast t (String c "") = None.
Proof.
  induction t as [|d t IH]; intros Ht; [done|]. cbn in Ht. apply andb_true_iff in Ht as [Hd Ht]. cbn [CutLast].
  rewrite IH by done. rewrite HasPrefix_char. unfold not_char in Hd. by apply negb_true_iff in Hd as ->.
Qed.

Lemma CutLast_char c s t : all_chars (not_char c) t = true -> CutLast (s +:+ String c t) (String c "") = Some (s, t).
Proof.
  intros Ht. induction s as [|d s IH].
  - change ("" +:+ String c t) with (String c t). cbn [CutLast]. rewrite CutLast_None by done.
    rewrite HasPrefix_char, Ascii.eqb_refl. cbn. by destruct t.
  - rewrite app_String. cbn [CutLast]. by rewrite IH.
Qed.

Lemma Split_fuel_cut n c s t :
  all_chars (not_char c) s = true ->
  Split_fuel (S n) (s +:+ String c t) (String c "") = s :: Split_fuel n t (String c "").
Proof. intros Hs. cbn [Split_fuel]. by rewrite Cut_char. Qed.

Lemma Split_fuel_last n c s : all_chars (not_char c) s = true -> Split_fuel n s (String c "") = [s].
Proof. intros Hs. destruct n; [done|]. cbn [Split_fuel]. by rewrite Cut_char_None. Qed.

Lemma digit_not (c d : ascii) : is_digit c = false -> is_digit d = true -> not_char c d = true.
Proof. unfold not_char. intros Hc Hd. destruct (Ascii.eqb_spec d c) as [->|]; [|done]. congruence. Qed.

(** ** White space *)

(** A byte that starts and ends no white space. *)
Definition plain (c : ascii) : bool := let n := nat_of_ascii c in Nat.ltb 32 n && Nat.ltb n 127.

Definition starts_with_space (r : string) : bool := match r with String c _ => negb (plain c) | "" => false end.

Lemma HasPrefix_space c s r : plain c = true -> starts_with_space r = true -> HasPrefix (String c s) r = false.
Proof.
  intros Hc Hr. destruct r as [|d r]; [done|]. cbn in Hr. unfold HasPrefix. cbn [String.prefix].
  destruct (ascii_dec d c) as [->|]; [|done]. by rewrite Hc in Hr.
Qed.

Lemma string_rev_app_chars p s : forall acc,
  all_chars p s = true -> all_chars p acc = true -> all_chars p (string_rev_app s acc) = true.
Proof.
  induction s as [|c s IH]; intros acc Hs Hacc; [done|]. cbn in Hs. apply andb_true_iff in Hs as [Hc Hs].
  cbn [string_rev_app]. apply IH; [done|]. cbn. by rewrite Hc.
Qed.

Lemma string_rev_app_nonempty s : forall acc, acc <> "" -> string_rev_app s acc <> "".
Proof. induction s as [|c s IH]; cbn; auto. Qed.

Lemma find_none {A} (f : A -> bool) l : forallb (fun x => negb (f x)) l = true -> List.find f l = None.
Proof. induction l as [|x l IH]; cbn; [done|]. by destruct (f x). Qed.

Lemma find_space (f : string -> string) c s :
  forallb (fun r => starts_with_space (f r)) space_runes = true -> plain c = true ->
  List.find (fun r => HasPrefix (String c s) (f r)) space_runes = None.
Proof.
  intros Hr Hc. apply find_none, forallb_forall. intros r Hin. rewrite forallb_forall in Hr.
  by rewrite HasPrefix_space by auto.
Qed.

Lemma plain_start c s : plain c = true -> strip_space_prefix (String c s) = None.
Proof. intros Hc. unfold strip_space_prefix. rewrite (find_space (fun r => r)); [done|vm_compute; reflexivity|done]. Qed.

Lemma plain_end s d t : string_rev s = String d t -> plain d = true -> strip_space_suffix s = None.
Proof.
  intros He Hd. unfold strip_space_suffix, HasSuffix. rewrite He.
  by rewrite (find_space string_rev); [|vm_compute; reflexivity|].
Qed.

(** ** Decimal numbers *)

(** A property of the digits, checked one by one. *)
Lemma digit_forall (p : Z -> bool) n : forallb p (map Z.of_nat (seq 0 10)) = true -> 0 <= n < 10 -> p n = true.
Proof.
  intros Hp Hn. rewrite forallb_forall in Hp. apply Hp. apply in_map_iff. exists (Z.to_nat n).
  split; [lia|]. apply in_seq. lia.
Qed.

Lemma digit_str_char n : 0 <= n < 10 ->
  exists c, digit_str n = String c "" /\ is_digit c = true /\ digit_val c = n.
Proof.
  intros Hn. exists (ascii_of_nat (48 + Z.to_nat n)). split; [done|].
  assert ((is_digit (ascii_of_nat (48 + Z.to_nat n)) && (digit_val (ascii_of_nat (48 + Z.to_nat n)) =? n)) = true) as H.
  { apply (digit_forall (fun n => is_digit (ascii_of_nat (48 + Z.to_nat n)) && (digit_val (ascii_of_nat (48 + Z.to_nat n)) =? n)));
      [vm_compute; reflexivity|done]. }
  apply andb_true_iff in H as [? ?%Z.eqb_eq]. done.
Qed.

Lemma pretty_N_char_str x : (x < 10)%N -> String (pretty.pretty_N_char x) "" = digit_str (Z.of_N x).
Proof.
  intros Hx. apply String.eqb_eq.
  rewrite <- (N2Z.id x) at 1.
  apply (digit_forall (fun n => String (pretty.pretty_N_char (Z.to_N n)) "" =?s digit_str n)); [vm_compute; reflexivity|lia].
Qed.

Lemma pretty_N_go_app x s : pretty.pretty_N_go x s = pretty.pretty_N_go x "" +:+ s.
Proof.
  revert s. induction (N.lt_wf_0 x) as [x _ IH]; intros s.
  assert (x = 0 \/ 0 < x)%N as [->|Hx] by lia; [by rewrite !pretty.pretty_N_go_0|].
  rewrite !(pretty.pretty_N_go_step x) by done. rewrite IH by (apply N.div_lt; lia).
  rewrite (IH (x / 10)%N ltac:(apply N.div_lt; lia) (String _ "")).
  rewrite app_string_assoc. done.
Qed.

Lemma Itoa_small n : 0 <= n < 10 -> Itoa n = digit_str n.
Proof.
  intros Hn. apply String.eqb_eq. apply (digit_forall (fun n => Itoa n =?s digit_str n)); [vm_compute; reflexivity|done].
Qed.

Lemma Itoa_snoc n : 10 <= n -> Itoa n = Itoa (n / 10) +:+ digit_str (n mod 10).
Proof.
  intros Hn. destruct n as [|p|p]; try lia.
  assert (0 < N.pos p / 10)%N as Hq by (apply N.div_str_pos; lia).
  assert (Z.pos p / 10 = Z.of_N (N.pos p / 10)) as -> by (rewrite N2Z.inj_div; done).
  assert (Z.pos p mod 10 = Z.of_N (N.pos p mod 10)) as -> by (rewrite N2Z.inj_mod; done).
  set (q := (N.pos p / 10)%N) in *.
  assert (Itoa (Z.of_N q) = pretty.pretty_N_go q "") as ->.
  { destruct q as [|q']; [lia|]. unfold Itoa, pretty.pretty, pretty.pretty_Z. cbn [Z.of_N].
    unfold pretty.pretty, pretty.pretty_positive, pretty.pretty, pretty.pretty_N. by destruct (decide _). }
  unfold Itoa, pretty.pretty, pretty.pretty_Z, pretty.pretty, pretty.pretty_positive, pretty.pretty, pretty.pretty_N.
  destruct (decide _); [done|]. rewrite pretty.pretty_N_go_step by lia. fold q.
  rewrite pretty_N_go_app. rewrite pretty_N_char_str by (apply N.mod_lt; lia). done.
Qed.

(** Reading the digits of a number one by one, whatever the reader. *)
Lemma Itoa_reader {A} (read : Z -> string -> A) (bound : Z) :
  (forall acc c s, 0 <= acc -> is_digit c = true -> acc * 10 + digit_val c <= bound ->
     read acc (String c s) = read (acc * 10 + digit_val c) s) ->
  forall n s, 0 <= n <= bound -> read 0 (Itoa n +:+ s) = read n s.
Proof.
  intros Hr n. induction n as [n IH] using (well_founded_induction (Z.lt_wf 0)). intros s Hn.
  destruct (Z.lt_ge_cases n 10) as [Hs|Hs].
  - rewrite Itoa_small by lia. destruct (digit_str_char n ltac:(lia)) as (c & -> & Hc & Hv).
    rewrite app_String. cbn [String.append]. change ("" +:+ s) with s. rewrite Hr by (try done; lia). f_equal. lia.
  - rewrite Itoa_snoc by done. rewrite app_string_assoc.
    assert (n = n / 10 * 10 + n mod 10) as Hd by (rewrite Z.mul_comm; apply Z.div_mod; lia).
    pose proof (Z.mod_pos_bound n 10 ltac:(lia)).
    rewrite IH by (try split; try apply Z.div_pos; try apply Z.div_lt; lia).
    destruct (digit_str_char (n mod 10) ltac:(done)) as (c & -> & Hc & Hv).
    rewrite app_String. change ("" +:+ s) with s.
    rewrite Hr by (try done; try apply Z.div_pos; lia). f_equal. lia.
Qed.

Lemma Itoa_chars_digit n : 0 <= n -> all_chars is_digit (Itoa n) = true.
Proof.
  induction n as [n IH] using (well_founded_induction (Z.lt_wf 0)). intros Hn.
  destruct (Z.lt_ge_cases n 10) as [Hs|Hs].
  - rewrite Itoa_small by lia. destruct (digit_str_char n ltac:(lia)) as (c & -> & Hc & _). cbn. by rewrite Hc.
  - rewrite Itoa_snoc, all_chars_app by done. pose proof (Z.mod_pos_bound n 10 ltac:(lia)).
    rewrite IH by (try split; try apply Z.div_pos; try apply Z.div_lt; lia).
    destruct (digit_str_char (n mod 10) ltac:(done)) as (c & -> & Hc & _). cbn. by rewrite Hc.
Qed.

Lemma Itoa_head n : 0 <= n -> exists c s, Itoa n = String c s /\ is_digit c = true.
Proof.
  intros Hn. pose proof (Itoa_chars_digit n Hn) as Hc. destruct (Itoa n) as [|c s] eqn:He.
  - destruct (Z.lt_ge_cases n 10) as [Hs|Hs].
    + rewrite Itoa_small in He by lia. by destruct (digit_str_char n ltac:(lia)) as (c & Hd & _); rewrite He in Hd.
    + rewrite Itoa_snoc in He by done. pose proof (Z.mod_pos_bound n 10 ltac:(lia)).
      destruct (digit_str_char (n mod 10) ltac:(done)) as (c & Hd & _). rewrite Hd in He. by destruct (Itoa (n / 10)).
  - exists c, s. split; [done|]. cbn in Hc. by apply andb_true_iff in Hc as [? _].
Qed.

Lemma digits_val_Itoa n : 0 <= n -> digits_val 0 (Itoa n) = Some n.
Proof.
  intros Hn. rewrite <- (string_app_nil (Itoa n)).
  rewrite (Itoa_reader digits_val n) by (try lia; intros acc c s _ Hc _; cbn; by rewrite Hc). done.
Qed.

(** [Atoi] reads back every [int]. *)
Lemma Atoi_Itoa_all n : - 2 ^ 63 <= n < 2 ^ 63 -> Atoi (Itoa n) = Some n.
Proof.
  intros Hn. unfold Atoi.
  assert (forall m c s, 0 <= m -> Itoa m = String c s -> is_digit c = true) as Hd.
  { intros m c s Hm He. destruct (Itoa_head m Hm) as (c' & s' & He' & Hc'). congruence. }
  destruct (Z.lt_ge_cases n 0) as [Hneg|Hpos].
  - assert (Itoa n = String (ascii_of_nat 45) (Itoa (- n))) as -> by (destruct n; try lia; done).
    cbn [nat_of_ascii]. change (Nat.eqb (nat_of_ascii (ascii_of_nat 45)) 45) with true. cbv iota.
    destruct (Itoa (- n)) as [|c s] eqn:He; [destruct (Itoa_head (- n) ltac:(lia)) as (? & ? & He' & _); congruence|].
    rewrite <- He, digits_val_Itoa by lia.
    assert (((- 2 ^ 63 <=? -1 * - n) && (-1 * - n <? 2 ^ 63)) = true) as -> by (apply andb_true_iff; split; lia).
    f_equal. lia.
  - destruct (Itoa_head n Hpos) as (c & s & He & Hc). rewrite He.
    assert (Nat.eqb (nat_of_ascii c) 45 = false /\ Nat.eqb (nat_of_ascii c) 43 = false) as [-> ->].
    { unfold is_digit in Hc. apply andb_true_iff in Hc as [H1%Nat.leb_le H2%Nat.leb_le].
      split; apply Nat.eqb_neq; lia. }
    rewrite <- He, digits_val_Itoa by lia.
    assert (((- 2 ^ 63 <=? 1 * n) && (1 * n <? 2 ^ 63)) = true) as -> by (apply andb_true_iff; split; lia).
    f_equal. lia.
Qed.

(** ** Reversal *)

Lemma string_rev_app_spec s : forall acc, string_rev_app s acc = string_rev s +:+ acc.
Proof.
  unfold string_rev. induction s as [|c s IH]; intros acc; [done|]. cbn [string_rev_app].
  rewrite (IH (String c acc)), (IH (String c "")), app_string_assoc. done.
Qed.

Lemma string_rev_cons c s : string_rev (String c s) = string_rev s +:+ String c "".
Proof. unfold string_rev at 1. cbn [string_rev_app]. apply string_rev_app_spec. Qed.

Lemma string_rev_append a b : string_rev (a +:+ b) = string_rev b +:+ string_rev a.
Proof.
  induction a as [|c a IH]; [by rewrite string_app_nil|].
  rewrite app_String, !string_rev_cons, IH. by rewrite app_string_assoc.
Qed.

Lemma string_rev_involutive s : string_rev (string_rev s) = s.
Proof. induction s as [|c s IH]; [done|]. by rewrite string_rev_cons, string_rev_append, IH. Qed.

Lemma string_rev_length s : String.length (string_rev s) = String.length s.
Proof.
  induction s as [|c s IH]; [done|]. rewrite string_rev_cons, app_length_string, IH. cbn. lia.
Qed.

(** ** Prefixes and suffixes *)

Lemma HasPrefix_split s p : HasPrefix s p = true -> s = p +:+ string_drop (String.length p) s.
Proof.
  revert s; induction p as [|c p IH]; intros s; [by destruct s|]. unfold HasPrefix. destruct s as [|d s]; [done|].
  cbn [String.prefix string_drop String.length]. destruct (ascii_dec c d) as [->|]; [|done].
  intros H. rewrite app_String. f_equal. by apply IH.
Qed.

Lemma string_take_app a b : string_take (String.length a) (a +:+ b) = a.
Proof. induction a as [|c a IH]; [by destruct b|]. rewrite app_String. cbn. by rewrite IH. Qed.

Lemma HasSuffix_split s p : HasSuffix s p = true -> s = string_take (String.length s - String.length p) s +:+ p.
Proof.
  unfold HasSuffix. intros H%HasPrefix_split. set (x := string_drop _ _) in H.
  assert (s = string_rev x +:+ p) as E.
  { rewrite <- (string_rev_involutive s), H, string_rev_append. by rewrite string_rev_involutive. }
  rewrite E at 3. rewrite E at 1. rewrite E at 1.
  rewrite app_length_string. replace (_ + _ - _)%nat with (String.length (string_rev x)) by lia.
  by rewrite string_take_app.
Qed.

(** A prefix of a prefix. *)
Lemma HasPrefix_grow a b p : HasPrefix a p = true -> HasPrefix (a +:+ b) p = true.
Proof. intros H%HasPrefix_split. rewrite H, app_string_assoc. apply HasPrefix_app. Qed.

Lemma HasSuffix_grow a b p : HasSuffix b p = true -> HasSuffix (a +:+ b) p = true.
Proof. unfold HasSuffix. rewrite string_rev_append. apply HasPrefix_grow. Qed.

(** ** What TrimSpace leaves *)

Definition trimmed (s : string) : Prop := strip_space_prefix s = None /\ strip_space_suffix s = None.

Lemma strip_prefix_split s s' : strip_space_prefix s = Some s' -> exists r, r <> "" /\ s = r +:+ s'.
Proof.
  unfold strip_space_prefix. destruct (List.find _ _) as [r|] eqn:E; [|done]. intros [= <-].
  apply find_some in E as [Hin Hp]. exists r. split; [|by apply HasPrefix_split].
  intros ->. by repeat (destruct Hin as [Hin|Hin]; [discriminate Hin|]).
Qed.

Lemma strip_suffix_split s s' : strip_space_suffix s = Some s' -> exists r, r <> "" /\ s = s' +:+ r.
Proof.
  unfold strip_space_suffix. destruct (List.find _ _) as [r|] eqn:E; [|done]. intros [= <-].
  apply find_some in E as [Hin Hp]. exists r. split; [|by apply HasSuffix_split].
  intros ->. by repeat (destruct Hin as [Hin|Hin]; [discriminate Hin|]).
Qed.

Lemma strip_prefix_grow a b : strip_space_prefix (a +:+ b) = None -> strip_space_prefix a = None.
Proof.
  unfold strip_space_prefix. destruct (List.find _ space_runes) eqn:E; [done|]. intros _.
  destruct (List.find (HasPrefix a) space_runes) as [r|] eqn:E'; [|done].
  apply find_some in E' as [Hin Hp]. apply (List.find_none _ _ E) in Hin. rewrite (HasPrefix_grow a b) in Hin; done.
Qed.

Lemma strip_all_done strip n s :
  (forall s s', strip s = Some s' -> (String.length s' < String.length s)%nat) ->
  (String.length s <= n)%nat -> strip (strip_all strip n s) = None.
Proof.
  intros Hs. revert s; induction n as [|n IH]; intros s Hn; cbn [strip_all].
  - destruct (strip s) as [s'|] eqn:E; [|done]. apply Hs in E. lia.
  - destruct (strip s) as [s'|] eqn:E; [|done]. apply IH. apply Hs in E. lia.
Qed.

Lemma strip_all_fix strip n s : strip s = None -> strip_all strip n s = s.
Proof. intros H. destruct n; [done|]. cbn. by rewrite H. Qed.

Lemma strip_all_prefix n : forall s, exists r, s = r +:+ strip_all strip_space_prefix n s.
Proof.
  induction n as [|n IH]; intros s; [by exists ""|]. cbn [strip_all].
  destruct (strip_space_prefix s) as [s'|] eqn:E; [|by exists ""].
  apply strip_prefix_split in E as (r & _ & ->). destruct (IH s') as [r' Hr']. exists (r +:+ r').
  by rewrite app_string_assoc, <- Hr'.
Qed.

Lemma strip_all_suffix n : forall s, exists r, s = strip_all strip_space_suffix n s +:+ r.
Proof.
  induction n as [|n IH]; intros s; [exists ""; by rewrite string_app_nil|]. cbn [strip_all].
  destruct (strip_space_suffix s) as [s'|] eqn:E; [|exists ""; by rewrite string_app_nil].
  apply strip_suffix_split in E as (r & _ & ->). destruct (IH s') as [r' Hr']. exists (r' +:+ r).
  by rewrite <- app_string_assoc, <- Hr'.
Qed.

Lemma TrimSpace_spec s : trimmed (TrimSpace s) /\ exists a b, s = a +:+ (TrimSpace s +:+ b).
Proof.
  unfold TrimSpace. cbv zeta. set (t := strip_all strip_space_prefix _ s).
  assert (strip_space_prefix t = None) as Hp.
  { apply strip_all_done; [|done]. intros u u' (r & Hr & ->)%strip_prefix_split. rewrite app_length_string. destruct r; [done|cbn; lia]. }
  destruct (strip_all_prefix (String.length s) s) as [a Ha]. fold t in Ha.
  destruct (strip_all_suffix (String.length t) t) as [b Hb].
  split; [split|].
  - apply (strip_prefix_grow _ b). by rewrite <- Hb.
  - apply strip_all_done; [|done]. intros u u' (r & Hr & ->)%strip_suffix_split. rewrite app_length_string. destruct r; [done|cbn; lia].
  - exists a, b. by rewrite <- Hb.
Qed.

Lemma TrimSpace_trimmed s : trimmed s -> TrimSpace s = s.
Proof.
  intros [Hp Hs]. unfold TrimSpace. cbv zeta. rewrite (strip_all_fix strip_space_prefix) by done. by apply strip_all_fix.
Qed.

Lemma TrimSpace_idem s : TrimSpace (TrimSpace s) = TrimSpace s.
Proof. apply TrimSpace_trimmed, TrimSpace_spec. Qed.

Lemma TrimSpace_fix_trimmed s : TrimSpace s = s -> trimmed s.
Proof. intros <-. apply TrimSpace_spec. Qed.

Lemma TrimSpace_chars p s : all_chars p s = true -> all_chars p (TrimSpace s) = true.
Proof.
  intros H. destruct (TrimSpace_spec s) as (_ & a & b & E). rewrite E, !all_chars_app in H.
  by apply andb_true_iff in H as [_ [H _]%andb_true_iff].
Qed.

Lemma TrimSpace_plain s : all_chars plain s = true -> TrimSpace s = s.
Proof.
  intros Hs. destruct s as [|c s]; [done|]. apply TrimSpace_trimmed. split.
  - apply plain_start. cbn in Hs. by apply andb_true_iff in Hs as [? _].
  - pose proof (string_rev_app_chars plain (String c s) "" Hs eq_refl) as Hr. fold (string_rev (String c s)) in Hr.
    destruct (string_rev (String c s)) as [|d t] eqn:He; [by destruct (string_rev_app_nonempty s (String c ""))|].
    cbn in Hr. apply andb_true_iff in Hr as [Hd _]. by apply (plain_end _ d t).
Qed.

(** ** Lists with a separator *)

Lemma Cut_char_spec c s :
  match Cut s (String c "") with
  | Some (a, b) => s = a +:+ String c b /\ all_chars (not_char c) a = true
  | None => all_chars (not_char c) s = true
  end.
Proof.
  induction s as [|d s IH]; [done|]. cbn [Cut]. rewrite HasPrefix_char. destruct (Ascii.eqb_spec d c) as [->|Hne].
  - split; [by destruct s|done].
  - assert (not_char c d = true) as Hd by (unfold not_char; by rewrite (proj2 (Ascii.eqb_neq d c) Hne)).
    destruct (Cut s (String c "")) as [[a b]|]; [|cbn; by rewrite Hd]. destruct IH as [-> Ha].
    split; [done|]. cbn. by rewrite Hd.
Qed.

Lemma Split_fuel_enough c n : forall m s, (String.length s <= n)%nat -> (String.length s <= m)%nat ->
  Split_fuel n s (String c "") = Split_fuel m s (String c "").
Proof.
  induction n as [|n IH]; intros m s Hn Hm.
  - destruct s; [|cbn in Hn; lia]. by destruct m.
  - destruct m as [|m]; [destruct s; [done|cbn in Hm; lia]|]. cbn [Split_fuel].
    pose proof (Cut_char_spec c s) as Hc. destruct (Cut s _) as [[a b]|]; [|done]. destruct Hc as [-> _].
    rewrite app_length_string in Hn, Hm. cbn in Hn, Hm. f_equal. apply IH; lia.
Qed.

Lemma Split_char c s t : all_chars (not_char c) s = true -> Split (s +:+ String c t) (String c "") = s :: Split t (String c "").
Proof.
  intros Hs. unfold Split at 1. rewrite Split_fuel_cut by done. f_equal. apply Split_fuel_enough; [|lia].
  rewrite app_length_string. cbn. lia.
Qed.

Lemma Split_single c s : all_chars (not_char c) s = true -> Split s (String c "") = [s].
Proof. apply Split_fuel_last. Qed.

Lemma Split_pieces c s : Forall (fun p => all_chars (not_char c) p = true) (Split s (String c "")).
Proof.
  induction s as [s IH] using (well_founded_induction (Wf_nat.well_founded_ltof _ String.length)).
  pose proof (Cut_char_spec c s) as Hc. destruct (Cut s (String c "")) as [[a b]|].
  - destruct Hc as [-> Ha]. rewrite Split_char by done. constructor; [done|]. apply IH. unfold Wf_nat.ltof.
    rewrite app_length_string. cbn. lia.
  - rewrite Split_single by done. by repeat constructor.
Qed.

Lemma Join_cons s l sep : l <> [] -> Join (s :: l) sep = s +:+ (sep +:+ Join l sep).
Proof. by destruct l. Qed.

(** A joined list splits again; only the last element may hold the separator. *)
Lemma Split_Join c l k : Forall (fun p => all_chars (not_char c) p = true) l ->
  Split (Join (l ++ [k]) (String c "")) (String c "") = l ++ Split k (String c "").
Proof.
  induction l as [|x l IH]; intros Hl; [done|]. apply Forall_cons in Hl as [Hx Hl].
  change ((x :: l) ++ [k]) with (x :: (l ++ [k])). rewrite Join_cons by (by destruct l).
  change (String c "" +:+ Join (l ++ [k]) (String c "")) with (String c (Join (l ++ [k]) (String c ""))).
  rewrite Split_char by done. by rewrite IH.
Qed.

Lemma Join_snoc l k sep : l <> [] -> Join (l ++ [k]) sep = Join l sep +:+ (sep +:+ k).
Proof.
  induction l as [|x l IH]; intros Hl; [done|]. change ((x :: l) ++ [k]) with (x :: (l ++ [k])). rewrite Join_cons by (by destruct l).
  destruct l as [|y l]; [done|]. rewrite IH, (Join_cons x) by done. by rewrite !app_string_assoc.
Qed.

(** A byte that is in no white space keeps what is on either side apart. *)
Lemma HasPrefix_before c p t r : all_chars (not_char c) r = true -> HasPrefix (p +:+ String c t) r = true -> HasPrefix p r = true.
Proof.
  unfold HasPrefix. revert p; induction r as [|d r IH]; intros p Hr; [by destruct p|]. cbn in Hr. apply andb_true_iff in Hr as [Hd Hr].
  destruct p as [|e p].
  - change ("" +:+ String c t) with (String c t). cbn [String.prefix]. destruct (ascii_dec d c) as [->|]; [|done].
    unfold not_char in Hd. by rewrite Ascii.eqb_refl in Hd.
  - rewrite app_String. cbn [String.prefix]. destruct (ascii_dec d e); [|done]. by apply IH.
Qed.

Definition no_space_byte (c : ascii) : bool :=
  forallb (fun r => all_chars (not_char c) r && all_chars (not_char c) (string_rev r)) space_runes.

Lemma strip_prefix_before c p t : no_space_byte c = true -> strip_space_prefix p = None -> strip_space_prefix (p +:+ String c t) = None.
Proof.
  unfold strip_space_prefix. intros Hc Hp. destruct (List.find (HasPrefix (p +:+ _)) _) as [r|] eqn:E; [|done].
  apply find_some in E as [Hin Hr]. unfold no_space_byte in Hc. rewrite forallb_forall in Hc.
  apply Hc in Hin as Hok. apply andb_true_iff in Hok as [Hok _]. apply HasPrefix_before in Hr; [|done].
  destruct (List.find (HasPrefix p) _) eqn:E; [done|]. by rewrite (List.find_none _ _ E r Hin) in Hr.
Qed.

Lemma strip_suffix_after c p t : no_space_byte c = true -> strip_space_suffix p = None -> strip_space_suffix (t +:+ String c p) = None.
Proof.
  unfold strip_space_suffix. intros Hc Hp. destruct (List.find (HasSuffix (t +:+ _)) _) as [r|] eqn:E; [|done].
  apply find_some in E as [Hin Hr]. unfold no_space_byte in Hc. rewrite forallb_forall in Hc.
  apply Hc in Hin as Hok. apply andb_true_iff in Hok as [_ Hok].
  assert (HasSuffix p r = true) as Hpr.
  { unfold HasSuffix in *. rewrite string_rev_append, string_rev_cons, app_string_assoc in Hr.
    by apply (HasPrefix_before c _ (string_rev t)). }
  destruct (List.find (HasSuffix p) _) eqn:E; [done|]. by rewrite (List.find_none _ _ E r Hin) in Hpr.
Qed.

Lemma Itoa_plain n : all_chars plain (Itoa n) = true.
Proof.
  assert (forall m, 0 <= m -> all_chars plain (Itoa m) = true) as H.
  { intros m Hm. apply (all_chars_impl is_digit); [|by apply Itoa_chars_digit]. intros c Hc.
    unfold is_digit in Hc. unfold plain. apply andb_true_iff in Hc as [H1%Nat.leb_le H2%Nat.leb_le].
    apply andb_true_iff. split; apply Nat.ltb_lt; lia. }
  destruct (Z.lt_ge_cases n 0); [|by apply H]. assert (Itoa n = String (ascii_of_nat 45) (Itoa (- n))) as -> by (destruct n; try lia; done).
  cbn [all_chars]. by rewrite H by lia.
Qed.

Lemma Itoa_nonempty n : Itoa n <> "".
Proof.
  destruct (Z.lt_ge_cases n 0); [|by destruct (Itoa_head n) as (c & s & -> & _)].
  assert (Itoa n = String (ascii_of_nat 45) (Itoa (- n))) as -> by (destruct n; try lia; done). done.
Qed.

Lemma string_rev_snoc s c : string_rev (s +:+ String c "") = String c (string_rev s).
Proof.
  induction s as [|d s IH]; [done|]. change (String d s +:+ String c "") with (String d (s +:+ String c "")).
  by rewrite !string_rev_cons, IH.
Qed.

Lemma string_take_all s t : string_take (String.length s) (s +:+ t) = s.
Proof. induction s as [|c s IH]; [done|]. cbn. f_equal. exact IH. Qed.

(** A line of plain text loses its newline. *)
Lemma TrimSpace_line s : all_chars plain s = true -> s <> "" -> TrimSpace (s +:+ byte_str [10%nat]) = s.
Proof.
  intros Hs Hne. destruct s as [|c s]; [done|]. unfold TrimSpace. cbv zeta.
  assert (strip_space_prefix (String c s +:+ byte_str [10%nat]) = None) as Hp.
  { change (String c s +:+ byte_str [10%nat]) with (String c (s +:+ byte_str [10%nat])). apply plain_start.
    cbn in Hs. by apply andb_true_iff in Hs as [? _]. }
  rewrite (strip_all_fix strip_space_prefix) by done.
  assert (strip_space_suffix (String c s +:+ byte_str [10%nat]) = Some (String c s)) as E.
  { unfold strip_space_suffix. change (byte_str [10%nat]) with (String (ascii_of_nat 10) "").
    assert (List.find (HasSuffix (String c s +:+ String (ascii_of_nat 10) "")) space_runes = Some (byte_str [10%nat])) as ->.
    { unfold HasSuffix. rewrite string_rev_snoc. generalize (string_rev (String c s)). intros [|? ?]; vm_compute; reflexivity. }
    f_equal. rewrite app_length_string. replace (_ - _)%nat with (String.length (String c s)) by (cbn; lia). apply string_take_all. }
  assert (forall t, trimmed t -> forall n, strip_all strip_space_suffix n t = t) as Ht by (intros t [_ Ht] n; by apply strip_all_fix).
  rewrite app_length_string. replace (_ + _)%nat with (S (String.length (String c s))) by (cbn; lia).
  cbn [strip_all]. rewrite E. apply Ht.
  rewrite <- (TrimSpace_plain (String c s) Hs). apply TrimSpace_spec.
Qed.
