(* ===== verification/Netip.v ===== *)
(** Go's [net/netip] as the sources print addresses with it: [AddrFrom4] and
    [AddrFrom16] with [Addr.String], and the conversions of
    internal/nm/settings.go built on them.  Addresses are lists of byte values. *)

From S2P Require Import Prelude GoStrings.
From Stdlib Require Import Ascii.

(** ** IPv4 *)

(** [Addr.string4] *)
Definition string4 (b : list Z) : string := Join (map Itoa b) ".".

(** The bytes [binary.NativeEndian.PutUint32] stores: the machine is
    little-endian (amd64, arm64). *)
Definition native_bytes (u : Z) : list Z :=
  [Z.land u 255; Z.land (Z.shiftr u 8) 255; Z.land (Z.shiftr u 16) 255; Z.land (Z.shiftr u 24) 255].

Definition native_u32 (b : list Z) : Z :=
  match b with
  | [b0; b1; b2; b3] => Z.lor b0 (Z.lor (Z.shiftl b1 8) (Z.lor (Z.shiftl b2 16) (Z.shiftl b3 24)))
  | _ => 0
  end.

Definition ip4FromU32 (u : Z) : string := string4 (native_bytes u).

(** ** IPv6 *)

Definition hex_digit (n : Z) : string :=
  match String.get (Z.to_nat n) "0123456789abcdef" with Some c => String c "" | None => "" end.

(** [appendHex]: a 16-bit group in lower-case hex without leading zeros. *)
Definition appendHex (x : Z) : string :=
  (if 0x1000 <=? x then hex_digit (Z.shiftr x 12) else "") +:+
  (if 0x100 <=? x then hex_digit (Z.land (Z.shiftr x 8) 15) else "") +:+
  (if 0x10 <=? x then hex_digit (Z.land (Z.shiftr x 4) 15) else "") +:+
  hex_digit (Z.land x 15).

(** The eight groups of sixteen bytes. *)
Fixpoint v6groups (b : list Z) : list Z :=
  match b with
  | hi :: lo :: b' => (hi * 256 + lo) :: v6groups b'
  | _ => []
  end.

Fixpoint leading_zeros (g : list Z) : nat :=
  match g with
  | 0 :: g' => S (leading_zeros g')
  | _ => O
  end.

(** The longest run of at least two zero groups, the first of the longest:
    its start and length. *)
Fixpoint zero_run (i : nat) (g : list Z) (best : option (nat * nat)) : option (nat * nat) :=
  match g with
  | [] => best
  | _ :: g' =>
      let l := leading_zeros g in
      zero_run (S i) g'
        (if Nat.leb 2 l && Nat.ltb (match best with Some (_, n) => n | None => O end) l
         then Some (i, l) else best)
  end.

(** [appendTo6] *)
Definition string6 (g : list Z) : string :=
  match zero_run 0 g None with
  | None => Join (map appendHex g) ":"
  | Some (i, n) => Join (map appendHex (take i g)) ":" +:+ "::" +:+ Join (map appendHex (drop (i + n) g)) ":"
  end.

(** [AddrFrom16(b).String()] *)
Definition string16 (b : list Z) : string :=
  let is4in6 := forallb (Z.eqb 0) (take 10 b) && forallb (Z.eqb 255) (take 2 (drop 10 b)) in
  if is4in6 then "::ffff:" +:+ string4 (drop 12 b) else string6 (v6groups b).

(** A [[]byte] is a string of its bytes. *)
Definition ip6FromBytes (b : string) : string :=
  if negb (Nat.eqb (String.length b) 16) then "" else string16 (map Z.of_nat (bytes_of b)).

Example ip6_samples :
  (string6 [0x2001; 0xdb8; 0; 0; 1; 0; 0; 1], string6 [0; 0; 0; 0; 0; 0; 0; 1],
   string6 [0xfe80; 0; 0; 0; 0; 0; 0; 0], string6 [1; 0; 2; 0; 3; 0; 4; 0], ip4FromU32 0x0101a8c0) =
  ("2001:db8::1:0:0:1", "::1", "fe80::", "1:0:2:0:3:0:4:0", "192.168.1.1").
Proof. vm_compute. reflexivity. Qed.

(** ** Addresses *)

(** [netip.Addr]: four bytes, or sixteen with a zone ("" for none). *)
Inductive Addr : Type :=
| A4 (b : list Z)
| A6 (b : list Z) (zone : string).

Definition Addr_String (a : Addr) : string :=
  match a with
  | A4 b => string4 b
  | A6 b zone => string16 b +:+ (if zone =?s "" then "" else "%" +:+ zone)
  end.

Definition Is4 (a : Addr) : bool := match a with A4 _ => true | A6 _ _ => false end.
Definition Is6 (a : Addr) : bool := negb (Is4 a).
Definition BitLen (a : Addr) : Z := if Is4 a then 32 else 128.
Definition withoutZone (a : Addr) : Addr := match a with A6 b _ => A6 b "" | A4 b => A4 b end.

(** One decimal field: digits, no leading zero, at most 255. *)
Definition parse_octet (s : string) : option Z :=
  match s with
  | "" => None
  | String c s' =>
      if Ascii.eqb c "0"%char && negb (s' =?s "") then None
      else match digits_val 0 s with
           | Some n => if n <=? 255 then Some n else None
           | None => None
           end
  end.

(** [parseIPv4Fields]: exactly four fields. *)
Definition parseIPv4Fields (s : string) : option (list Z) :=
  match map parse_octet (Split s ".") with
  | [Some a; Some b; Some c; Some d] => Some [a; b; c; d]
  | _ => None
  end.

Definition hex_val (c : ascii) : option Z :=
  let n := Z.of_nat (nat_of_ascii c) in
  if (48 <=? n) && (n <=? 57) then Some (n - 48)
  else if (97 <=? n) && (n <=? 102) then Some (n - 97 + 10)
  else if (65 <=? n) && (n <=? 70) then Some (n - 65 + 10)
  else None.

(** The leading hex digits of [s]: how many, their value, and the rest. *)
Fixpoint hex_run (acc : Z) (s : string) : nat * Z * string :=
  match s with
  | "" => (O, acc, "")
  | String c s' =>
      match hex_val c with
      | Some d => let '(n, v, rest) := hex_run (acc * 16 + d) s' in (S n, v, rest)
      | None => (O, acc, s)
      end
  end.

(** The loop of [parseIPv6]: the bytes so far, where the ellipsis stood, and
    what is left of the string; at most eight rounds.  The result is the bytes
    and the ellipsis when the string was used up. *)
Fixpoint parseIPv6_loop (fuel : nat) (ip : list Z) (ellipsis : option nat) (s : string)
    : option (list Z * option nat) :=
  match fuel with
  | O => if s =?s "" then Some (ip, ellipsis) else None
  | S fuel' =>
      let '(off, acc, rest) := hex_run 0 s in
      if Nat.eqb off 0 || Nat.ltb 4 off then None
      else
        match rest with
        | "" => Some (ip ++ [acc / 256; acc mod 256], ellipsis)
        | String c rest' =>
            if Ascii.eqb c "."%char then
              (* a trailing IPv4 address *)
              if match ellipsis with None => negb (Nat.eqb (length ip) 12) | Some _ => false end then None
              else if Nat.ltb 16 (length ip + 4) then None
              else match parseIPv4Fields s with Some b => Some (ip ++ b, ellipsis) | None => None end
            else if negb (Ascii.eqb c ":"%char) then None
            else
              let ip := ip ++ [acc / 256; acc mod 256] in
              match rest' with
              | "" => None
              | String c' rest'' =>
                  if Ascii.eqb c' ":"%char then
                    match ellipsis with
                    | Some _ => None
                    | None =>
                        if rest'' =?s "" then Some (ip, Some (length ip))
                        else parseIPv6_loop fuel' ip (Some (length ip)) rest''
                    end
                  else parseIPv6_loop fuel' ip ellipsis rest'
              end
        end
  end.

Definition parseIPv6 (s : string) : option Addr :=
  let '(s, zone, ok) :=
    match Cut s "%" with
    | Some (s', z) => (s', z, negb (z =?s ""))
    | None => (s, "", true)
    end in
  if negb ok then None
  else
    let '(s, ellipsis) := if HasPrefix s "::" then (string_drop 2 s, Some O) else (s, None) in
    if match ellipsis with Some _ => s =?s "" | None => false end then Some (A6 (repeat 0 16) zone)
    else
      match parseIPv6_loop 8 [] ellipsis s with
      | None => None
      | Some (ip, ellipsis) =>
          match ellipsis with
          | None => if Nat.eqb (length ip) 16 then Some (A6 ip zone) else None
          | Some e =>
              if Nat.ltb (length ip) 16
              then Some (A6 (take e ip ++ repeat 0 (16 - length ip) ++ drop e ip) zone)
              else None
          end
      end.

(** [ParseAddr]: the first of '.', ':' and '%' decides. *)
Fixpoint first_sep (s : string) : option ascii :=
  match s with
  | "" => None
  | String c s' =>
      if Ascii.eqb c "."%char || Ascii.eqb c ":"%char || Ascii.eqb c "%"%char then Some c else first_sep s'
  end.

Definition ParseAddr (s : string) : option Addr :=
  match first_sep s with
  | Some c =>
      if Ascii.eqb c "."%char then option_map A4 (parseIPv4Fields s)
      else if Ascii.eqb c ":"%char then parseIPv6 s
      else None
  | None => None
  end.

(** ** Prefixes *)

Record Prefix := mkPrefix { pfx_Addr : Addr; pfx_Bits : Z }.

Definition PrefixFrom (a : Addr) (bits : Z) : Prefix := mkPrefix (withoutZone a) bits.

Definition Prefix_String (p : Prefix) : string := Addr_String (pfx_Addr p) +:+ "/" +:+ Itoa (pfx_Bits p).

Definition ParsePrefix (s : string) : option Prefix :=
  match CutLast s "/" with
  | None => None
  | Some (addr, bitsStr) =>
      match ParseAddr addr with
      | None => None
      | Some a =>
          if match a with A6 _ zone => negb (zone =?s "") | A4 _ => false end then None
          else
            let bad_start :=
              match bitsStr with
              | String c (String _ _) => let n := nat_of_ascii c in Nat.ltb n 49 || Nat.ltb 57 n
              | _ => false
              end in
            if bad_start then None
            else
              match Atoi bitsStr with
              | Some bits => if (bits <? 0) || (BitLen a <? bits) then None else Some (PrefixFrom a bits)
              | None => None
              end
      end
  end.

Example parse_samples :
  map (fun s => option_map Addr_String (ParseAddr s))
    ["192.168.1.1"; "01.2.3.4"; "1.2.3"; "256.1.1.1"; "2001:DB8::1"; "::"; "1::2::3"; "::ffff:1.2.3.4";
     "1:2:3:4:5:6:7:8"; "1:2:3:4:5:6:7:8:9"; "fe80::1%eth0"; "1:2:3:4:5:6:7::"; "::1.2.3.4"; "%eth0"; ""] =
    [Some "192.168.1.1"; None; None; None; Some "2001:db8::1"; Some "::"; None; Some "::ffff:1.2.3.4";
     Some "1:2:3:4:5:6:7:8"; None; Some "fe80::1%eth0"; Some "1:2:3:4:5:6:7:0"; Some "::102:304"; None; None] /\
  map (fun s => option_map Prefix_String (ParsePrefix s))
    ["10.0.0.1/24"; "10.0.0.1/024"; "10.0.0.1/33"; "fd00::2/64"; "fe80::1%e/64"; "10.0.0.1"] =
    [Some "10.0.0.1/24"; None; None; Some "fd00::2/64"; None; None].
Proof. vm_compute. split; reflexivity. Qed.

(** * Addresses: what the parser returns is well formed, and prints. *)

Definition byte_ok (z : Z) : Prop := 0 <= z < 256.

(** An address as the parser makes them. *)
Definition Addr_ok (a : Addr) : Prop :=
  match a with
  | A4 b => length b = 4%nat /\ Forall byte_ok b
  | A6 b _ => length b = 16%nat /\ Forall byte_ok b
  end.

Lemma digits_val_nonneg s : forall acc n, 0 <= acc -> digits_val acc s = Some n -> 0 <= n.
Proof.
  induction s as [|c s IH]; intros acc n Hacc; cbn; [by intros [= <-]|].
  destruct (is_digit c) eqn:Hd; [|done]. apply IH. unfold digit_val, is_digit in *.
  apply andb_true_iff in Hd as [Hd _]. apply Nat.leb_le in Hd. lia.
Qed.

Lemma parse_octet_ok s n : parse_octet s = Some n -> byte_ok n.
Proof.
  unfold parse_octet. destruct s as [|c s']; [done|]. case_test; [done|].
  destruct (digits_val 0 (String c s')) as [m|] eqn:Hm; [|done]. case_test; [|done]. intros [= <-].
  bool_to_prop. apply digits_val_nonneg in Hm; [|done]. unfold byte_ok. lia.
Qed.

Lemma parseIPv4Fields_ok s b : parseIPv4Fields s = Some b -> length b = 4%nat /\ Forall byte_ok b.
Proof.
  unfold parseIPv4Fields. destruct (Split s ".") as [|s1 [|s2 [|s3 [|s4 [|s5 ss]]]]]; cbn; try done.
  all: repeat (case_match; try done). intros [= <-]. split; [done|].
  repeat constructor; by eapply parse_octet_ok.
Qed.

Lemma hex_val_ok c d : hex_val c = Some d -> 0 <= d < 16.
Proof. unfold hex_val. cbv zeta. repeat case_test; intros [= <-]; bool_to_prop; lia. Qed.

Lemma hex_run_ok s : forall acc k n v rest,
  0 <= acc < 16 ^ k -> 0 <= k -> hex_run acc s = (n, v, rest) -> 0 <= v < 16 ^ (k + Z.of_nat n).
Proof.
  induction s as [|c s IH]; intros acc k n v rest Hacc Hk; cbn.
  { intros [= <- <- _]. by rewrite Z.add_0_r. }
  destruct (hex_val c) as [d|] eqn:Hd; [|intros [= <- <- _]; by rewrite Z.add_0_r].
  apply hex_val_ok in Hd. destruct (hex_run (acc * 16 + d) s) as [[n' v'] rest'] eqn:Hr. intros [= <- <- _].
  apply (IH _ (k + 1)) in Hr; [|rewrite Z.pow_add_r by lia; lia|lia].
  by replace (k + Z.of_nat (S n')) with (k + 1 + Z.of_nat n') by lia.
Qed.

Lemma group_ok s n v rest :
  hex_run 0 s = (n, v, rest) -> Nat.ltb 4 n = false -> Forall byte_ok [v / 256; v mod 256].
Proof.
  intros Hr Hn. apply (hex_run_ok s 0 0) in Hr; [|done|done]. apply Nat.ltb_ge in Hn.
  assert (16 ^ (0 + Z.of_nat n) <= 16 ^ 4) as Hle by (apply Z.pow_le_mono_r; lia).
  change (16 ^ 4) with 65536 in Hle. repeat constructor; unfold byte_ok.
  - apply Z.div_pos; lia.
  - apply Z.div_lt_upper_bound; lia.
  - apply Z.mod_pos_bound; lia.
  - apply Z.mod_pos_bound; lia.
Qed.

Lemma parseIPv6_loop_ok fuel : forall ip el s ip' el',
  Forall byte_ok ip -> parseIPv6_loop fuel ip el s = Some (ip', el') -> Forall byte_ok ip'.
Proof.
  induction fuel as [|fuel IH]; intros ip el s ip' el' Hip; cbn.
  { case_test; [|done]. by intros [= <- <-]. }
  destruct (hex_run 0 s) as [[off acc] rest] eqn:Hr.
  destruct (Nat.eqb off 0 || _) eqn:Ho; [done|]. apply orb_false_iff in Ho as [_ Ho].
  pose proof (group_ok _ _ _ _ Hr Ho) as Hg.
  assert (Forall byte_ok (ip ++ [acc / 256; acc mod 256])) as Hip' by (by apply Forall_app).
  destruct rest as [|c rest']; [by intros [= <- <-]|].
  destruct (Ascii.eqb c "."%char).
  { do 2 (case_test; [done|]). destruct (parseIPv4Fields s) as [b|] eqn:Hb; [|done]. intros [= <- <-].
    apply Forall_app. split; [done|]. by apply parseIPv4Fields_ok in Hb as [_ Hb]. }
  case_test; [done|]. destruct rest' as [|c' rest'']; [done|]. case_test.
  - destruct el; [done|]. case_test; [by intros [= <- <-]|]. by apply IH.
  - by apply IH.
Qed.

Lemma zeros_ok n : Forall byte_ok (repeat 0 n).
Proof. induction n; cbn; [constructor|]. constructor; [unfold byte_ok; lia|done]. Qed.

Lemma parseIPv6_loop_el fuel : forall ip el s ip' el',
  match el with Some e => (e <= length ip)%nat | None => True end ->
  parseIPv6_loop fuel ip el s = Some (ip', el') ->
  match el' with Some e => (e <= length ip')%nat | None => True end.
Proof.
  induction fuel as [|fuel IH]; intros ip el s ip' el' Hel; cbn.
  { case_test; [|done]. by intros [= <- <-]. }
  destruct (hex_run 0 s) as [[off acc] rest]. case_test; [done|].
  destruct rest as [|c rest'].
  { intros [= <- <-]. destruct el; [|done]. rewrite length_app. lia. }
  destruct (Ascii.eqb c "."%char).
  { do 2 (case_test; [done|]). destruct (parseIPv4Fields s) as [b|]; [|done]. intros [= <- <-].
    destruct el; [|done]. rewrite length_app. lia. }
  case_test; [done|]. destruct rest' as [|c' rest'']; [done|]. case_test.
  - destruct el; [done|]. case_test; [by intros [= <- <-]|]. by apply IH.
  - apply IH. destruct el; [|done]. rewrite length_app. lia.
Qed.

Lemma ParseAddr_ok s a : ParseAddr s = Some a -> Addr_ok a.
Proof.
  unfold ParseAddr. destruct (first_sep s) as [c|]; [|done]. case_test.
  { destruct (parseIPv4Fields s) as [b|] eqn:Hb; [|done]. intros [= <-]. exact (parseIPv4Fields_ok _ _ Hb). }
  case_test; [|done]. unfold parseIPv6.
  destruct (match Cut s "%" with Some _ => _ | None => _ end) as [[s1 zone] ok]. case_test; [done|].
  destruct (if HasPrefix s1 "::" then _ else _) as [s2 el] eqn:Hel.
  assert (match el with Some e => (e <= 0)%nat | None => True end) as Hel0.
  { destruct (HasPrefix s1 "::"); injection Hel as _ <-; done. }
  case_test.
  { intros [= <-]. split; [done|]. exact (zeros_ok 16). }
  destruct (parseIPv6_loop 8 [] el s2) as [[ip el']|] eqn:Hl; [|done].
  pose proof (parseIPv6_loop_ok _ _ _ _ _ _ (Forall_nil_2 _) Hl) as Hip.
  pose proof (parseIPv6_loop_el _ [] _ _ _ _ Hel0 Hl) as He. destruct el' as [e|].
  - destruct (Nat.ltb_spec (length ip) 16); [|done]. intros [= <-]. split.
    + rewrite !length_app, repeat_length, length_take, length_drop. lia.
    + repeat (apply Forall_app; split); [by apply Forall_take|apply zeros_ok|by apply Forall_drop].
  - destruct (Nat.eqb_spec (length ip) 16); [|done]. by intros [= <-].
Qed.

(** ** Printing never gives the empty string *)

Lemma string4_nonempty b : length b = 4%nat -> string4 b <> "".
Proof.
  intros Hb. destruct b as [|b0 [|b1 [|b2 [|b3 [|]]]]]; try discriminate Hb. cbn.
  destruct (Itoa b0); cbn; done.
Qed.

Lemma app_nonempty_r s t : t <> "" -> s +:+ t <> "".
Proof. destruct s; cbn; [done|]. done. Qed.

Lemma Join_nonempty x y l : Join (x :: y :: l) ":" <> "".
Proof. cbn. apply app_nonempty_r. done. Qed.

Lemma string6_nonempty g : length g = 8%nat -> string6 g <> "".
Proof.
  intros Hg. unfold string6. destruct (zero_run 0 g None) as [[i n]|].
  - apply app_nonempty_r. done.
  - destruct g as [|x [|y g]]; try discriminate Hg. apply Join_nonempty.
Qed.

Lemma string16_nonempty b : length b = 16%nat -> string16 b <> "".
Proof.
  intros Hb. unfold string16. cbv zeta. case_test; [done|]. apply string6_nonempty.
  do 17 (destruct b as [|? b]; try discriminate Hb). reflexivity.
Qed.

Lemma Addr_String_nonempty a : Addr_ok a -> Addr_String a <> "".
Proof.
  destruct a as [b|b zone]; intros [Hb _]; cbn; [by apply string4_nonempty|].
  pose proof (string16_nonempty b Hb). by destruct (string16 b).
Qed.

(** ** Bytes there and back *)

Lemma lor_shiftl_add x y k : 0 <= k -> 0 <= x < 2 ^ k -> Z.lor x (Z.shiftl y k) = x + y * 2 ^ k.
Proof.
  intros Hk Hx. rewrite Z.shiftl_mul_pow2 by done.
  assert (Z.land x (y * 2 ^ k) = 0) as Hl.
  { apply Z.bits_inj'. intros i Hi. rewrite Z.land_spec, Z.bits_0. destruct (Z.ltb_spec i k).
    - by rewrite Z.mul_pow2_bits_low, andb_false_r by lia.
    - assert (x < 2 ^ i) by (eapply Z.lt_le_trans; [apply Hx|apply Z.pow_le_mono_r; lia]).
      rewrite Z.testbit_eqb by done. by rewrite Z.div_small by lia. }
  by rewrite <- Z.lxor_lor, Z.add_nocarry_lxor.
Qed.

Lemma native_u32_sum b0 b1 b2 b3 :
  byte_ok b0 -> byte_ok b1 -> byte_ok b2 ->
  native_u32 [b0; b1; b2; b3] = b0 + 256 * (b1 + 256 * (b2 + 256 * b3)).
Proof.
  unfold byte_ok. intros H0 H1 H2. unfold native_u32.
  replace (Z.shiftl b3 24) with (Z.shiftl (Z.shiftl b3 8) 16) by (by rewrite Z.shiftl_shiftl).
  rewrite <- Z.shiftl_lor, (lor_shiftl_add b2) by (try done; lia).
  replace (Z.shiftl (b2 + _) 16) with (Z.shiftl (Z.shiftl (b2 + b3 * 2 ^ 8) 8) 8) by (by rewrite Z.shiftl_shiftl).
  rewrite <- Z.shiftl_lor, (lor_shiftl_add b1) by (try done; lia).
  rewrite lor_shiftl_add by (try done; lia). lia.
Qed.

Lemma native_bytes_u32 b : length b = 4%nat -> Forall byte_ok b -> native_bytes (native_u32 b) = b.
Proof.
  intros Hb Hok. destruct b as [|b0 [|b1 [|b2 [|b3 [|]]]]]; try discriminate Hb.
  apply Forall_cons in Hok as [H0 Hok]. apply Forall_cons in Hok as [H1 Hok].
  apply Forall_cons in Hok as [H2 Hok]. apply Forall_cons in Hok as [H3 _].
  rewrite native_u32_sum by done. unfold byte_ok in *. unfold native_bytes.
  change 255 with (Z.ones 8). rewrite !Z.land_ones, !Z.shiftr_div_pow2 by lia.
  change (2 ^ 8) with 256. change (2 ^ 16) with 65536. change (2 ^ 24) with 16777216.
  repeat f_equal; Z.div_mod_to_equations; lia.
Qed.

Lemma bytes_of_byte_str l : Forall (fun n => (n < 256)%nat) l -> bytes_of (byte_str l) = l.
Proof.
  unfold bytes_of. induction l as [|n l IH]; intros Hl; [done|]. apply Forall_cons in Hl as [Hn Hl]. cbn.
  rewrite Ascii.nat_ascii_embedding by lia. f_equal. by apply IH.
Qed.

Lemma byte_str_length l : String.length (byte_str l) = length l.
Proof. induction l as [|n l IH]; [done|]. cbn. f_equal. exact IH. Qed.

Lemma ip6_bytes_back b :
  length b = 16%nat -> Forall byte_ok b -> ip6FromBytes (byte_str (map Z.to_nat b)) = string16 b.
Proof.
  intros Hb Hok. unfold ip6FromBytes. rewrite byte_str_length, length_map, Hb. cbn [Nat.eqb negb].
  rewrite bytes_of_byte_str.
  - f_equal. rewrite map_map. clear Hb. induction Hok as [|x l Hx _ IH]; [done|]. cbn. rewrite IH.
    unfold byte_ok in Hx. by rewrite Z2Nat.id by lia.
  - clear Hb. induction Hok as [|x l Hx _ IH]; constructor; [|done]. unfold byte_ok in Hx. lia.
Qed.
