(* ===== verification/NetipRoundtrip.v ===== *)
(** Addresses and prefixes: what [Addr.String] prints, [ParseAddr] reads back,
    for IPv4, IPv6 in every compressed form, and IPv4 mapped into IPv6. *)

From S2P Require Import Prelude GoStrings GoStringsFacts Netip.
From Stdlib Require Import Ascii.

(** ** Decimal bytes *)

(** A fact of all bytes, checked one by one. *)
Definition bytes_range : list Z := map Z.of_nat (seq 0 256).

Lemma byte_forall (p : Z -> bool) n : forallb p bytes_range = true -> byte_ok n -> p n = true.
Proof.
  intros Hp [H0 H1]. rewrite forallb_forall in Hp. apply Hp. unfold bytes_range. apply in_map_iff.
  exists (Z.to_nat n). split; [lia|]. apply in_seq. lia.
Qed.

Definition octet_text (n : Z) : bool :=
  let s := Itoa n in
  all_chars is_digit s && negb (s =?s "") &&
  match parse_octet s with Some m => m =? n | None => false end &&
  match Atoi s with Some m => m =? n | None => false end &&
  match s with
  | String c (String _ _) => let k := nat_of_ascii c in negb (Nat.ltb k 49 || Nat.ltb 57 k)
  | _ => true
  end &&
  match hex_run 0 s with (k, _, rest) => Nat.ltb 0 k && Nat.ltb k 4 && (rest =?s "") end.

Lemma octet_text_ok n : byte_ok n -> octet_text n = true.
Proof. apply byte_forall. vm_compute. reflexivity. Qed.

Lemma Itoa_digits n : byte_ok n -> all_chars is_digit (Itoa n) = true /\ Itoa n <> "".
Proof.
  intros H%octet_text_ok. unfold octet_text in H. repeat (apply andb_true_iff in H as [H ?]). split; [done|].
  by bool_to_prop.
Qed.

Lemma parse_octet_Itoa n : byte_ok n -> parse_octet (Itoa n) = Some n.
Proof.
  intros H%octet_text_ok. unfold octet_text in H. repeat (apply andb_true_iff in H as [H ?]).
  destruct (parse_octet (Itoa n)) as [m|]; [|done]. f_equal. by apply Z.eqb_eq.
Qed.

Lemma Atoi_Itoa n : byte_ok n -> Atoi (Itoa n) = Some n.
Proof.
  intros H%octet_text_ok. unfold octet_text in H. repeat (apply andb_true_iff in H as [H ?]).
  destruct (Atoi (Itoa n)) as [m|]; [|done]. f_equal. by apply Z.eqb_eq.
Qed.

Lemma Itoa_not c n : is_digit c = false -> byte_ok n -> all_chars (not_char c) (Itoa n) = true.
Proof.
  intros Hc Hn. apply (all_chars_impl is_digit); [|by apply Itoa_digits]. intros d. by apply digit_not.
Qed.

Lemma string4_four a b c d :
  string4 [a; b; c; d] = Itoa a +:+ String "." (Itoa b +:+ String "." (Itoa c +:+ String "." (Itoa d))).
Proof. reflexivity. Qed.

Lemma parseIPv4Fields_string4 b :
  length b = 4%nat -> Forall byte_ok b -> parseIPv4Fields (string4 b) = Some b.
Proof.
  intros Hb Hok. destruct b as [|b0 [|b1 [|b2 [|b3 [|]]]]]; try discriminate Hb.
  apply Forall_cons in Hok as [H0 Hok]. apply Forall_cons in Hok as [H1 Hok].
  apply Forall_cons in Hok as [H2 Hok]. apply Forall_cons in Hok as [H3 _].
  rewrite string4_four. unfold parseIPv4Fields, Split.
  rewrite !app_length_string; cbn [String.length]. rewrite !app_length_string; cbn [String.length].
  rewrite !app_length_string; cbn [String.length].
  set (n := (String.length (Itoa b0) + String.length (Itoa b1) + String.length (Itoa b2) + String.length (Itoa b3))%nat).
  match goal with |- context [Split_fuel (S ?k)] => replace (S k) with (S (S (S (S n)))) by (unfold n; lia) end.
  rewrite !Split_fuel_cut by (by apply Itoa_not). rewrite Split_fuel_last by (by apply Itoa_not). cbn [map].
  by rewrite !parse_octet_Itoa.
Qed.

(** ** Hexadecimal groups *)

Definition group16 (x : Z) : Prop := 0 <= x < 65536.

Definition is_hex (c : ascii) : bool := match hex_val c with Some _ => true | None => false end.

(** [s] is empty or starts with a character that is no hex digit. *)
Definition hex_stop (s : string) : Prop := match s with "" => True | String c _ => is_hex c = false end.

Lemma hex_run_stop acc s : hex_stop s -> hex_run acc s = (O, acc, s).
Proof. destruct s as [|c s]; cbn; [done|]. unfold is_hex. by destruct (hex_val c). Qed.

Definition nibble_ok (d : Z) : bool :=
  match hex_digit d with
  | String c "" => match hex_val c with Some v => v =? d | None => false end
  | _ => false
  end.

Lemma hex_digit_char d : 0 <= d < 16 -> exists c, hex_digit d = String c "" /\ hex_val c = Some d.
Proof.
  intros Hd. assert (nibble_ok d = true) as H.
  { assert (forallb nibble_ok (map Z.of_nat (seq 0 16)) = true) as Ha by (vm_compute; reflexivity).
    rewrite forallb_forall in Ha. apply Ha, in_map_iff. exists (Z.to_nat d). split; [lia|]. apply in_seq. lia. }
  unfold nibble_ok in H. destruct (hex_digit d) as [|c [|]]; try done. exists c. split; [done|].
  destruct (hex_val c) as [v|]; [|done]. f_equal. by apply Z.eqb_eq.
Qed.

Lemma hex_run_digit acc d s k v rest :
  0 <= d < 16 -> hex_run (acc * 16 + d) s = (k, v, rest) -> hex_run acc (hex_digit d +:+ s) = (S k, v, rest).
Proof. intros (c & -> & Hc)%hex_digit_char Hr. rewrite app_String. cbn [hex_run]. rewrite Hc. change ("" +:+ s) with s. by rewrite Hr. Qed.

Lemma land15 x : 0 <= x -> 0 <= Z.land x 15 < 16 /\ Z.land x 15 = x mod 16.
Proof.
  intros Hx. change 15 with (Z.ones 4). rewrite Z.land_ones by done. change (2 ^ 4) with 16.
  split; [apply Z.mod_pos_bound; lia|done].
Qed.

Lemma appendHex_run x rest :
  group16 x -> hex_stop rest ->
  exists k, hex_run 0 (appendHex x +:+ rest) = (S k, x, rest) /\ (k < 4)%nat.
Proof.
  unfold group16. intros Hx Hstop. unfold appendHex. rewrite !Z.shiftr_div_pow2 by done.
  change (2 ^ 12) with 4096. change (2 ^ 8) with 256. change (2 ^ 4) with 16.
  destruct (land15 x) as [B0 E0]; [lia|]. destruct (land15 (x / 16)) as [B1 E1]; [apply Z.div_pos; lia|].
  destruct (land15 (x / 256)) as [B2 E2]; [apply Z.div_pos; lia|].
  assert (0 <= x / 4096 < 16) as B3 by (split; [apply Z.div_pos; lia|apply Z.div_lt_upper_bound; lia]).
  rewrite !app_string_assoc.
  assert (forall acc, hex_run acc rest = (O, acc, rest)) as Hend by (intros acc; by apply hex_run_stop).
  destruct (Z.leb_spec 4096 x); [|destruct (Z.leb_spec 256 x); [|destruct (Z.leb_spec 16 x)]].
  all: rewrite ?(proj2 (Z.leb_le 256 x)), ?(proj2 (Z.leb_le 16 x)) by lia.
  - exists 3%nat. split; [|lia]. repeat (apply hex_run_digit; [done|]). rewrite Hend. repeat f_equal.
    rewrite E0, E1, E2. Z.div_mod_to_equations. lia.
  - exists 2%nat. split; [|lia]. change ("" +:+ ?s) with s. repeat (apply hex_run_digit; [done|]).
    rewrite Hend. repeat f_equal. rewrite E0, E1, E2. Z.div_mod_to_equations. lia.
  - exists 1%nat. split; [|lia]. change ("" +:+ ?s) with s. repeat (apply hex_run_digit; [done|]).
    rewrite Hend. repeat f_equal. rewrite E0, E1. Z.div_mod_to_equations. lia.
  - exists 0%nat. split; [|lia]. change ("" +:+ ?s) with s. repeat (apply hex_run_digit; [done|]).
    rewrite Hend. repeat f_equal. rewrite E0. Z.div_mod_to_equations. lia.
Qed.

Lemma hex_digit_all (p : ascii -> bool) d :
  (forall c, is_hex c = true -> p c = true) -> 0 <= d < 16 -> all_chars p (hex_digit d) = true.
Proof.
  intros Hp (c & -> & Hc)%hex_digit_char. cbn. rewrite Hp; [done|]. unfold is_hex. by rewrite Hc.
Qed.

Lemma appendHex_chars (p : ascii -> bool) x :
  (forall c, is_hex c = true -> p c = true) -> group16 x -> all_chars p (appendHex x) = true.
Proof.
  unfold group16. intros Hp Hx. unfold appendHex. rewrite !Z.shiftr_div_pow2 by done.
  rewrite !all_chars_app. repeat (apply andb_true_iff; split); try case_test; try done.
  all: apply hex_digit_all; [done|].
  all: try apply land15; try apply Z.div_pos; try lia.
  split; [apply Z.div_pos; lia|apply Z.div_lt_upper_bound; lia].
Qed.

Lemma appendHex_first x : group16 x -> exists c s, appendHex x = String c s /\ is_hex c = true.
Proof.
  intros Hx. destruct (appendHex_run x "" Hx I) as (k & Hr & _). rewrite string_app_nil in Hr.
  destruct (appendHex x) as [|c s]; cbn in Hr; [done|]. exists c, s. split; [done|]. unfold is_hex.
  by destruct (hex_val c).
Qed.

(** ** Groups joined by colons *)

Definition gjoin (g : list Z) : string := Join (map appendHex g) ":".

Definition groups_bytes (g : list Z) : list Z := flat_map (fun x => [x / 256; x mod 256]) g.

Lemma gjoin_cons x y g : gjoin (x :: y :: g) = appendHex x +:+ String ":" (gjoin (y :: g)).
Proof. reflexivity. Qed.

Lemma gjoin_first x g : group16 x -> exists c s, gjoin (x :: g) = String c s /\ is_hex c = true.
Proof.
  intros (c & s & Hx & Hc)%appendHex_first. destruct g as [|y g].
  - exists c, s. by split.
  - rewrite gjoin_cons, Hx. by exists c, (s +:+ String ":" (gjoin (y :: g))).
Qed.

Lemma hex_not_colon c : is_hex c = true -> Ascii.eqb c ":" = false.
Proof. destruct (Ascii.eqb_spec c ":") as [->|]; done. Qed.

Lemma off_test k : (k < 4)%nat -> (Nat.eqb (S k) 0 || Nat.ltb 4 (S k))%bool = false.
Proof. intros Hk. cbn [Nat.eqb orb]. apply Nat.ltb_ge. lia. Qed.

Lemma parse_groups g : forall fuel ip el,
  g <> [] -> Forall group16 g -> (length g <= fuel)%nat ->
  parseIPv6_loop fuel ip el (gjoin g) = Some (ip ++ groups_bytes g, el).
Proof.
  induction g as [|x g IH]; intros fuel ip el Hne Hok Hf; [done|]. apply Forall_cons in Hok as [Hx Hok].
  destruct fuel as [|fuel]; [cbn in Hf; lia|]. destruct g as [|y g].
  - change (gjoin [x]) with (appendHex x). cbn [parseIPv6_loop].
    destruct (appendHex_run x "" Hx I) as (k & Hr & Hk). rewrite string_app_nil in Hr. rewrite Hr.
    by rewrite (off_test k Hk).
  - rewrite gjoin_cons. cbn [parseIPv6_loop].
    destruct (appendHex_run x (String ":" (gjoin (y :: g))) Hx) as (k & Hr & Hk); [done|].
    rewrite Hr, (off_test k Hk). apply Forall_cons in Hok as Hy. destruct Hy as [Hy _].
    destruct (gjoin_first y g Hy) as (c & s & Hg & Hc). rewrite Hg. cbn [Ascii.eqb Bool.eqb negb].
    rewrite (hex_not_colon c Hc). rewrite <- Hg.
    rewrite IH; [by rewrite <- app_assoc|done|done|cbn in *; lia].
Qed.

Lemma parse_ellipsis g1 : forall fuel ip g2,
  g1 <> [] -> Forall group16 g1 -> Forall group16 g2 -> (length g1 + length g2 <= fuel)%nat ->
  parseIPv6_loop fuel ip None (gjoin g1 +:+ "::" +:+ gjoin g2) =
  Some (ip ++ groups_bytes g1 ++ groups_bytes g2, Some (length (ip ++ groups_bytes g1))).
Proof.
  induction g1 as [|x g1 IH]; intros fuel ip g2 Hne Hok H2 Hf; [done|]. apply Forall_cons in Hok as [Hx Hok].
  destruct fuel as [|fuel]; [cbn in Hf; lia|]. destruct g1 as [|y g1].
  - change (gjoin [x]) with (appendHex x). cbn [parseIPv6_loop].
    destruct (appendHex_run x ("::" +:+ gjoin g2) Hx) as (k & Hr & Hk); [done|]. rewrite Hr, (off_test k Hk).
    change ("::" +:+ gjoin g2) with (String ":" (String ":" (gjoin g2))). cbn [Ascii.eqb Bool.eqb negb].
    destruct g2 as [|z g2]; [by rewrite app_nil_r|].
    apply Forall_cons in H2 as Hz. destruct Hz as [Hz _]. destruct (gjoin_first z g2 Hz) as (c & s & Hg & _).
    destruct (gjoin (z :: g2) =?s "") eqn:He; [bool_to_prop; congruence|].
    rewrite parse_groups; [by rewrite <- app_assoc|done|done|cbn in *; lia].
  - rewrite gjoin_cons, app_string_assoc. rewrite app_String. cbn [parseIPv6_loop].
    destruct (appendHex_run x (String ":" (gjoin (y :: g1) +:+ "::" +:+ gjoin g2)) Hx) as (k & Hr & Hk); [done|].
    rewrite Hr, (off_test k Hk). apply Forall_cons in Hok as Hy. destruct Hy as [Hy _].
    destruct (gjoin_first y g1 Hy) as (c & s & Hg & Hc). rewrite Hg, app_String. cbn [Ascii.eqb Bool.eqb negb].
    rewrite (hex_not_colon c Hc). rewrite <- app_String, <- Hg.
    rewrite IH; [|done|done|done|cbn in *; lia]. cbn [groups_bytes flat_map]. by rewrite <- !app_assoc.
Qed.

(** ** The longest run of zero groups *)

Lemma leading_zeros_take g : take (leading_zeros g) g = repeat 0 (leading_zeros g).
Proof.
  induction g as [|x g IH]; [done|]. destruct x; cbn; [|done|done]. f_equal. exact IH.
Qed.

Lemma leading_zeros_le g : (leading_zeros g <= length g)%nat.
Proof. induction g as [|x g IH]; [done|]. destruct x; cbn; lia. Qed.

Lemma zero_run_spec g : forall i best j n,
  zero_run i g best = Some (j, n) ->
  best = Some (j, n) \/
  exists d, j = (i + d)%nat /\ (2 <= n)%nat /\ (d + n <= length g)%nat /\ take n (drop d g) = repeat 0 n.
Proof.
  induction g as [|x g IH]; intros i best j n; [by left|]. cbn [zero_run]. cbv zeta.
  intros [Hb|(d & -> & H2 & Hl & Ht)]%IH.
  - destruct (_ && _) eqn:Hrun in Hb; [|by left]. injection Hb as <- <-. right. exists O.
    apply andb_true_iff in Hrun as [H2%Nat.leb_le _]. split_and!; [lia|done|exact (leading_zeros_le (x :: g))|exact (leading_zeros_take (x :: g))].
  - right. exists (S d). split_and!; [lia|done|cbn; lia|done].
Qed.

Lemma zero_run_split g i n :
  zero_run 0 g None = Some (i, n) ->
  (2 <= n)%nat /\ (i + n <= length g)%nat /\ g = take i g ++ repeat 0 n ++ drop (i + n) g.
Proof.
  intros [H|(d & -> & H2 & Hl & Ht)]%zero_run_spec; [done|]. split_and!; [done|done|].
  change (0 + d)%nat with d. rewrite <- Ht, <- drop_drop, take_drop. by rewrite take_drop.
Qed.

(** ** Bytes and groups *)

Lemma groups_bytes_app g h : groups_bytes (g ++ h) = groups_bytes g ++ groups_bytes h.
Proof. apply flat_map_app. Qed.

Lemma groups_bytes_length g : length (groups_bytes g) = (2 * length g)%nat.
Proof. induction g as [|x g IH]; [done|]. cbn [groups_bytes flat_map length app]. fold (groups_bytes g). lia. Qed.

Lemma groups_bytes_zeros n : groups_bytes (repeat 0 n) = repeat 0 (2 * n).
Proof.
  induction n as [|n IH]; [done|]. replace (2 * S n)%nat with (S (S (2 * n))) by lia.
  change (0 :: 0 :: groups_bytes (repeat 0 n) = 0 :: 0 :: repeat 0 (2 * n)). by rewrite IH.
Qed.

Lemma v6groups_ok k : forall b, length b = (2 * k)%nat -> Forall byte_ok b ->
  length (v6groups b) = k /\ Forall group16 (v6groups b) /\ groups_bytes (v6groups b) = b.
Proof.
  induction k as [|k IH]; intros b Hb Hok.
  - destruct b; [|done]. split_and!; [done|constructor|done].
  - destruct b as [|hi [|lo b]]; try (cbn in Hb; lia). apply Forall_cons in Hok as [Hh Hok].
    apply Forall_cons in Hok as [Hl Hok]. destruct (IH b) as (H1 & H2 & H3); [cbn in Hb; lia|done|].
    unfold byte_ok in *. cbn [v6groups length groups_bytes flat_map app]. split_and!.
    + by rewrite H1.
    + constructor; [unfold group16; lia|done].
    + fold (groups_bytes (v6groups b)). rewrite H3. f_equal; [|f_equal]; Z.div_mod_to_equations; lia.
Qed.

(** ** The IPv6 part of an address *)

(** What [parseIPv6] does after the zone has been cut off. *)
Definition parse6_body (s zone : string) : option Addr :=
  let '(s, ellipsis) := if HasPrefix s "::" then (string_drop 2 s, Some O) else (s, None) in
  if match ellipsis with Some _ => s =?s "" | None => false end then Some (A6 (repeat 0 16) zone)
  else
    match parseIPv6_loop 8 [] ellipsis s with
    | None => None
    | Some (ip, ellipsis) =>
        match ellipsis with
        | None => if Nat.eqb (length ip) 16 then Some (A6 ip zone) else None
        | Some e =>
            if Nat.ltb (length ip) 16
            then Some (A6 (take e ip ++ repeat 0 (16 - length ip) ++ drop e ip) zone)
            else None
        end
    end.

Lemma no_double_colon x g t : group16 x -> HasPrefix (gjoin (x :: g) +:+ t) "::" = false.
Proof.
  intros (c & s & -> & Hc)%(gjoin_first x g). rewrite app_String. unfold HasPrefix. cbn [String.prefix].
  destruct (ascii_dec ":" c) as [<-|]; done.
Qed.

Lemma double_colon t : HasPrefix ("::" +:+ t) "::" = true /\ string_drop 2 ("::" +:+ t) = t.
Proof. split; [apply HasPrefix_app|]. apply (string_drop_app "::"). Qed.

Lemma parse6_start g2 zone n :
  (2 <= n)%nat -> (n + length g2 = 8)%nat -> Forall group16 g2 ->
  parse6_body ("::" +:+ gjoin g2) zone = Some (A6 (repeat 0 (2 * n) ++ groups_bytes g2) zone).
Proof.
  intros Hn Hl Hok. unfold parse6_body. destruct (double_colon (gjoin g2)) as [-> ->].
  destruct g2 as [|x g2].
  - cbn in Hl. replace n with 8%nat by lia. reflexivity.
  - apply Forall_cons in Hok as Hx. destruct Hx as [Hx _]. destruct (gjoin_first x g2 Hx) as (c & s & Hg & _).
    destruct (gjoin (x :: g2) =?s "") eqn:He; [bool_to_prop; congruence|].
    rewrite parse_groups by (try done; cbn in *; lia). rewrite app_nil_l, groups_bytes_length.
    rewrite (proj2 (Nat.ltb_lt _ 16)) by lia. cbn [take drop].
    replace (16 - 2 * length (x :: g2))%nat with (2 * n)%nat by lia. reflexivity.
Qed.

Lemma parse6_middle x g1 g2 zone n :
  (2 <= n)%nat -> (length (x :: g1) + n + length g2 = 8)%nat -> Forall group16 (x :: g1) -> Forall group16 g2 ->
  parse6_body (gjoin (x :: g1) +:+ "::" +:+ gjoin g2) zone =
  Some (A6 (groups_bytes (x :: g1) ++ repeat 0 (2 * n) ++ groups_bytes g2) zone).
Proof.
  intros Hn Hl H1 H2. unfold parse6_body. apply Forall_cons in H1 as Hx. destruct Hx as [Hx _].
  rewrite (no_double_colon x g1 _ Hx). rewrite parse_ellipsis by (try done; lia).
  rewrite !app_nil_l, !length_app, !groups_bytes_length, (proj2 (Nat.ltb_lt _ 16)) by lia.
  rewrite take_app_length' by (by rewrite groups_bytes_length).
  rewrite drop_app_length' by (by rewrite groups_bytes_length).
  replace (16 - (2 * length (x :: g1) + 2 * length g2))%nat with (2 * n)%nat by lia. reflexivity.
Qed.

Lemma parse6_full x g zone :
  length (x :: g) = 8%nat -> Forall group16 (x :: g) ->
  parse6_body (gjoin (x :: g)) zone = Some (A6 (groups_bytes (x :: g)) zone).
Proof.
  intros Hl Hok. unfold parse6_body. apply Forall_cons in Hok as Hx. destruct Hx as [Hx _].
  rewrite <- (string_app_nil (gjoin (x :: g))), (no_double_colon x g "" Hx), string_app_nil.
  rewrite parse_groups by (try done; lia). by rewrite app_nil_l, groups_bytes_length, Hl.
Qed.

Lemma parse6_string6 g zone :
  length g = 8%nat -> Forall group16 g -> parse6_body (string6 g) zone = Some (A6 (groups_bytes g) zone).
Proof.
  intros Hl Hok. unfold string6. destruct (zero_run 0 g None) as [[i n]|] eqn:Hz.
  - apply zero_run_split in Hz as (Hn & Hin & Hg). fold (gjoin (take i g)). fold (gjoin (drop (i + n) g)).
    pose proof (Forall_take _ i _ Hok) as H1. pose proof (Forall_drop _ (i + n) _ Hok) as H2.
    rewrite Hg at 3. rewrite !groups_bytes_app, groups_bytes_zeros.
    assert (length (take i g) = i) as Hi by (rewrite length_take; lia).
    assert (length (drop (i + n) g) = (8 - (i + n))%nat) as Hd by (rewrite length_drop; lia).
    destruct (take i g) as [|x g1] eqn:Ht.
    + cbn in Hi. apply (parse6_start _ _ n); [done|lia|done].
    + apply (parse6_middle x g1 _ _ n); [done|lia|done|done].
  - destruct g as [|x g]; [done|]. by apply parse6_full.
Qed.

(** ** IPv4 in IPv6 *)

Definition is4in6 (b : list Z) : bool := forallb (Z.eqb 0) (take 10 b) && forallb (Z.eqb 255) (take 2 (drop 10 b)).

Lemma forallb_eqb_repeat x l : forallb (Z.eqb x) l = true -> l = repeat x (length l).
Proof. induction l as [|y l IH]; cbn; [done|]. rewrite andb_true_iff, Z.eqb_eq. intros [<- H]. f_equal. auto. Qed.

Lemma is4in6_split b :
  length b = 16%nat -> is4in6 b = true -> b = repeat 0 10 ++ [255; 255] ++ drop 12 b /\ length (drop 12 b) = 4%nat.
Proof.
  unfold is4in6. rewrite andb_true_iff. intros Hb [H1%forallb_eqb_repeat H2%forallb_eqb_repeat].
  rewrite length_take, Hb in H1. rewrite length_take, length_drop, Hb in H2.
  split; [|rewrite length_drop; lia]. rewrite <- (take_drop 10 b) at 1. rewrite H1.
  f_equal. rewrite <- (take_drop 2 (drop 10 b)) at 1. rewrite H2, drop_drop. reflexivity.
Qed.

Lemma digits_first s : all_chars is_digit s = true -> s <> "" -> exists c t, s = String c t /\ is_digit c = true.
Proof. destruct s as [|c t]; [done|]. cbn. rewrite andb_true_iff. intros [Hc _] _. by exists c, t. Qed.

Lemma hex_run_app s : forall acc k v t,
  hex_run acc s = (k, v, "") -> hex_stop t -> hex_run acc (s +:+ t) = (k, v, t).
Proof.
  induction s as [|c s IH]; intros acc k v t Hs Ht.
  - injection Hs as <- <-. change ("" +:+ t) with t. by apply hex_run_stop.
  - rewrite app_String. cbn [hex_run] in *. destruct (hex_val c) as [d|]; [|done].
    destruct (hex_run (acc * 16 + d) s) as [[k' v'] r] eqn:Hr. injection Hs as <- <- ->.
    by rewrite (IH _ _ _ t Hr Ht).
Qed.

(** A dotted address: its first field is read as hex digits and ends in a dot. *)
Lemma string4_hex_run b :
  length b = 4%nat -> Forall byte_ok b ->
  exists k v t c s, hex_run 0 (string4 b) = (S k, v, String "." t) /\ (k < 4)%nat /\
    string4 b = String c s /\ is_digit c = true.
Proof.
  intros Hb Hok. destruct b as [|b0 [|b1 [|b2 [|b3 [|]]]]]; try discriminate Hb.
  apply Forall_cons in Hok as [H0 _]. rewrite string4_four.
  destruct (Itoa_digits b0 H0) as [Hd Hne]. destruct (digits_first _ Hd Hne) as (c & s & Hc & Hdc).
  apply octet_text_ok in H0. unfold octet_text in H0. repeat (apply andb_true_iff in H0 as [H0 ?]).
  destruct (hex_run 0 (Itoa b0)) as [[[|k] v] r] eqn:Hr; [done|].
  apply andb_true_iff in H as [[_ Hk%Nat.ltb_lt]%andb_true_iff ->%String.eqb_eq].
  exists k, v. eexists _, c, _. split_and!; [by apply hex_run_app|lia| |done].
  rewrite Hc, app_String. reflexivity.
Qed.

Lemma parse6_mapped b zone :
  length b = 4%nat -> Forall byte_ok b ->
  parse6_body ("::ffff:" +:+ string4 b) zone = Some (A6 (repeat 0 10 ++ [255; 255] ++ b) zone).
Proof.
  intros Hb Hok. unfold parse6_body. destruct (double_colon ("ffff:" +:+ string4 b)) as [H1 H2].
  change ("::ffff:" +:+ string4 b) with ("::" +:+ ("ffff:" +:+ string4 b)). rewrite H1, H2.
  destruct ("ffff:" +:+ string4 b =?s "") eqn:He; [bool_to_prop; discriminate|].
  destruct (string4_hex_run b Hb Hok) as (k & v & t & c & s & Hr & Hk & Hs & Hc).
  assert (Ascii.eqb c ":" = false) as Hcol by (destruct (Ascii.eqb_spec c ":") as [->|]; done).
  assert (hex_run 0 ("ffff:" +:+ string4 b) = (4%nat, 65535, String ":" (string4 b))) as Hf by done.
  cbn [parseIPv6_loop]. rewrite Hf, (off_test 3) by lia. cbn [Ascii.eqb Bool.eqb negb app]. rewrite Hs, Hcol, <- Hs.
  rewrite Hr, (off_test k Hk).
  cbn [Ascii.eqb Bool.eqb length app Nat.add Nat.ltb Nat.leb]. rewrite parseIPv4Fields_string4 by done.
  change (65535 / 256) with 255. change (65535 mod 256) with 255.
  destruct b as [|b0 [|b1 [|b2 [|b3 [|]]]]]; try discriminate Hb. reflexivity.
Qed.

(** ** A whole address *)

Definition not_percent : ascii -> bool := not_char "%".

Lemma hex_not_percent c : is_hex c = true -> not_percent c = true.
Proof. unfold not_percent, not_char. by destruct (Ascii.eqb_spec c "%") as [->|]. Qed.

(** The characters a printed address is made of. *)
Section Chars.
Context (p : ascii -> bool) (Hhex : forall c, is_hex c = true -> p c = true).
Context (Hcolon : p ":"%char = true) (Hdot : p "."%char = true).

Lemma gjoin_chars g : Forall group16 g -> all_chars p (gjoin g) = true.
Proof using Hhex Hcolon.
  induction g as [|x g IH]; intros Hok; [done|]. apply Forall_cons in Hok as [Hx Hok].
  pose proof (appendHex_chars p x Hhex Hx) as H. destruct g as [|y g]; [exact H|].
  rewrite gjoin_cons, all_chars_app, H. cbn [andb all_chars]. rewrite Hcolon. exact (IH Hok).
Qed.

Lemma Itoa_chars n : byte_ok n -> all_chars p (Itoa n) = true.
Proof using Hhex.
  intros Hn. apply (all_chars_impl is_digit); [|by apply Itoa_digits]. intros c Hc. apply Hhex.
  unfold is_hex, hex_val. cbv zeta. unfold is_digit in Hc. apply andb_true_iff in Hc as [H1%Nat.leb_le H2%Nat.leb_le].
  by rewrite (proj2 (Z.leb_le 48 _)), (proj2 (Z.leb_le _ 57)) by lia.
Qed.

Lemma string4_chars b : length b = 4%nat -> Forall byte_ok b -> all_chars p (string4 b) = true.
Proof using Hhex Hdot.
  intros Hb Hok. destruct b as [|b0 [|b1 [|b2 [|b3 [|]]]]]; try discriminate Hb.
  apply Forall_cons in Hok as [H0 Hok]. apply Forall_cons in Hok as [H1 Hok].
  apply Forall_cons in Hok as [H2 Hok]. apply Forall_cons in Hok as [H3 _].
  rewrite string4_four. repeat (rewrite all_chars_app; cbn [all_chars]). by rewrite !Itoa_chars, Hdot.
Qed.

Lemma string16_chars b : length b = 16%nat -> Forall byte_ok b -> all_chars p (string16 b) = true.
Proof using Hhex Hcolon Hdot.
  intros Hb Hok. unfold string16. cbv zeta. fold (is4in6 b). destruct (is4in6 b) eqn:H4.
  - destruct (is4in6_split b Hb H4) as [_ Hl]. rewrite all_chars_app. apply andb_true_iff.
    split; [cbn [all_chars]; by rewrite Hcolon, !Hhex|]. apply string4_chars; [done|by apply Forall_drop].
  - destruct (v6groups_ok 8 b Hb Hok) as (Hl & Hg & _).
    unfold string6. destruct (zero_run 0 (v6groups b) None) as [[i n]|]; [|by apply gjoin_chars].
    fold (gjoin (take i (v6groups b))). fold (gjoin (drop (i + n) (v6groups b))).
    rewrite !all_chars_app. rewrite (gjoin_chars (take i _)) by (by apply Forall_take).
    rewrite (gjoin_chars (drop _ _)) by (by apply Forall_drop). cbn [all_chars]. by rewrite Hcolon.
Qed.
End Chars.

Definition is_sep (c : ascii) : bool := Ascii.eqb c "." || Ascii.eqb c ":" || Ascii.eqb c "%".

Lemma first_sep_skip c s t :
  is_sep c = true -> all_chars (fun d => negb (is_sep d)) s = true -> first_sep (s +:+ String c t) = Some c.
Proof.
  intros Hc. induction s as [|d s IH]; intros Hs.
  - change ("" +:+ String c t) with (String c t). cbn [first_sep]. unfold is_sep in Hc. by rewrite Hc.
  - cbn in Hs. apply andb_true_iff in Hs as [Hd Hs]. rewrite app_String. cbn [first_sep].
    unfold is_sep in Hd. apply negb_true_iff in Hd as ->. by apply IH.
Qed.

Lemma first_sep_group x t : group16 x -> first_sep (appendHex x +:+ String ":" t) = Some ":"%char.
Proof.
  intros Hx. apply first_sep_skip; [done|]. apply appendHex_chars; [|done]. intros c Hc. unfold is_sep.
  destruct (Ascii.eqb_spec c ".") as [->|]; [done|]. destruct (Ascii.eqb_spec c ":") as [->|]; [done|].
  by destruct (Ascii.eqb_spec c "%") as [->|].
Qed.

Lemma first_sep_string6 g t :
  length g = 8%nat -> Forall group16 g -> first_sep (string6 g +:+ t) = Some ":"%char.
Proof.
  intros Hl Hok. unfold string6. destruct (zero_run 0 g None) as [[i n]|].
  - pose proof (Forall_take _ i _ Hok) as H1. rewrite app_string_assoc. destruct (take i g) as [|x [|y g1]]; [done| |].
    + apply Forall_cons in H1 as [Hx _]. by apply first_sep_group.
    + apply Forall_cons in H1 as [Hx _]. fold (gjoin (x :: y :: g1)). rewrite gjoin_cons, app_string_assoc, app_String.
      by apply first_sep_group.
  - destruct g as [|x [|y g]]; try discriminate Hl. apply Forall_cons in Hok as [Hx _].
    fold (gjoin (x :: y :: g)). rewrite gjoin_cons, app_string_assoc, app_String. by apply first_sep_group.
Qed.

(** What the parser needs of a printed IPv6 address. *)
Lemma string16_text b zone :
  length b = 16%nat -> Forall byte_ok b ->
  all_chars not_percent (string16 b) = true /\ parse6_body (string16 b) zone = Some (A6 b zone) /\
  forall t, first_sep (string16 b +:+ t) = Some ":"%char.
Proof.
  intros Hb Hok. split; [by apply string16_chars; [exact hex_not_percent| | | |]|].
  unfold string16. cbv zeta. fold (is4in6 b). destruct (is4in6 b) eqn:H4.
  - destruct (is4in6_split b Hb H4) as [Hsplit Hl]. pose proof (Forall_drop _ 12 _ Hok) as Hd. split.
    + rewrite Hsplit at 2. by apply parse6_mapped.
    + intros t. reflexivity.
  - destruct (v6groups_ok 8 b Hb Hok) as (Hl & Hg & Hback). split.
    + rewrite <- Hback at 2. by apply parse6_string6.
    + intros t. by apply first_sep_string6.
Qed.

Lemma ParseAddr_A6 b zone :
  length b = 16%nat -> Forall byte_ok b -> ParseAddr (Addr_String (A6 b zone)) = Some (A6 b zone).
Proof.
  intros Hb Hok. destruct (string16_text b zone Hb Hok) as (Hchars & Hparse & Hsep).
  unfold ParseAddr, Addr_String. rewrite Hsep. cbn [Ascii.eqb Bool.eqb]. unfold parseIPv6.
  destruct (zone =?s "") eqn:Hz.
  - apply String.eqb_eq in Hz as ->. rewrite string_app_nil. rewrite (Cut_char_None "%") by done. exact Hparse.
  - change ("%" +:+ zone) with (String "%" zone). rewrite (Cut_char "%") by done. rewrite Hz. exact Hparse.
Qed.

Lemma ParseAddr_A4 b :
  length b = 4%nat -> Forall byte_ok b -> ParseAddr (Addr_String (A4 b)) = Some (A4 b).
Proof.
  intros Hb Hok. unfold ParseAddr, Addr_String.
  assert (first_sep (string4 b) = Some "."%char) as ->.
  { destruct b as [|b0 [|b1 [|b2 [|b3 [|]]]]]; try discriminate Hb. apply Forall_cons in Hok as [H0 _].
    rewrite string4_four. apply first_sep_skip; [done|].
    apply (all_chars_impl is_digit); [|by apply Itoa_digits]. intros c Hc. unfold is_sep.
    destruct (Ascii.eqb_spec c ".") as [->|]; [done|]. destruct (Ascii.eqb_spec c ":") as [->|]; [done|].
    by destruct (Ascii.eqb_spec c "%") as [->|]. }
  cbn [Ascii.eqb Bool.eqb]. by rewrite parseIPv4Fields_string4.
Qed.

Lemma ParseAddr_String a : Addr_ok a -> ParseAddr (Addr_String a) = Some a.
Proof. destruct a as [b|b zone]; intros [Hb Hok]; [by apply ParseAddr_A4|by apply ParseAddr_A6]. Qed.

(** ** Prefixes *)

(** A prefix as [PrefixFrom] makes them from a parsed address. *)
Definition Prefix_ok (p : Prefix) : Prop :=
  Addr_ok (pfx_Addr p) /\ withoutZone (pfx_Addr p) = pfx_Addr p /\ 0 <= pfx_Bits p <= BitLen (pfx_Addr p).

Lemma BitLen_small a : BitLen a <= 128.
Proof. unfold BitLen. by destruct (Is4 a). Qed.

Lemma BitLen_withoutZone a : BitLen (withoutZone a) = BitLen a.
Proof. by destruct a. Qed.

Lemma PrefixFrom_ok a n : Addr_ok a -> 0 <= n <= BitLen a -> Prefix_ok (PrefixFrom a n).
Proof.
  intros Ha Hn. unfold Prefix_ok, PrefixFrom. cbn [pfx_Addr pfx_Bits]. rewrite BitLen_withoutZone.
  split; [by destruct a|]. split; [by destruct a|done].
Qed.

Lemma ParsePrefix_ok s p : ParsePrefix s = Some p -> Prefix_ok p.
Proof.
  unfold ParsePrefix. destruct (CutLast s "/") as [[addr bits]|]; [|done].
  destruct (ParseAddr addr) as [a|] eqn:Ha; [|done]. apply ParseAddr_ok in Ha. cbv zeta.
  destruct (match a with A4 _ => _ | A6 _ _ => _ end); [done|]. case_test; [done|].
  destruct (Atoi bits) as [n|]; [|done]. destruct (_ || _) eqn:Hn; [done|]. intros [= <-].
  apply PrefixFrom_ok; [done|]. apply orb_false_iff in Hn as [?%Z.ltb_ge ?%Z.ltb_ge]. lia.
Qed.

Lemma Itoa_start n :
  byte_ok n ->
  match Itoa n with
  | String c (String _ _) => Nat.ltb (nat_of_ascii c) 49 || Nat.ltb 57 (nat_of_ascii c)
  | _ => false
  end = false.
Proof.
  intros H%octet_text_ok. unfold octet_text in H. repeat (apply andb_true_iff in H as [H ?]).
  destruct (Itoa n) as [|c [|d s]]; [done|done|]. by apply negb_true_iff.
Qed.

Lemma ParsePrefix_String p : Prefix_ok p -> ParsePrefix (Prefix_String p) = Some p.
Proof.
  destruct p as [a n]. intros (Ha & Hz & Hn). cbn [pfx_Addr pfx_Bits] in *. unfold ParsePrefix, Prefix_String.
  cbn [pfx_Addr pfx_Bits]. pose proof (BitLen_small a) as Hb. assert (byte_ok n) as Hbyte by (unfold byte_ok; lia).
  change ("/" +:+ Itoa n) with (String "/" (Itoa n)). rewrite (CutLast_char "/") by (by apply Itoa_not).
  rewrite ParseAddr_String by done. cbv zeta. rewrite Itoa_start by done. rewrite Atoi_Itoa by done.
  rewrite (proj2 (Z.ltb_ge n 0)), (proj2 (Z.ltb_ge (BitLen a) n)) by lia. cbn [orb].
  destruct a as [b|b zone]; [done|]. cbn in Hz. injection Hz as <-. reflexivity.
Qed.

Lemma hex_plain c : is_hex c = true -> plain c = true.
Proof.
  unfold is_hex, hex_val, plain. cbv zeta. intros H. apply andb_true_iff.
  split; apply Nat.ltb_lt; repeat (case_test; bool_to_prop; try lia); done.
Qed.

Lemma Prefix_String_plain p : Prefix_ok p -> all_chars plain (Prefix_String p) = true.
Proof.
  destruct p as [a n]. intros (Ha & Hz & Hn). cbn [pfx_Addr pfx_Bits] in *. unfold Prefix_String.
  pose proof (BitLen_small a). cbn [pfx_Addr pfx_Bits]. rewrite all_chars_app. apply andb_true_iff. split.
  - destruct a as [b|b zone]; destruct Ha as [Hb Hok].
    + by apply string4_chars; [exact hex_plain| | |].
    + cbn in Hz. injection Hz as <-. cbn. rewrite string_app_nil. by apply string16_chars; [exact hex_plain| | | |].
  - change ("/" +:+ Itoa n) with (String "/" (Itoa n)). cbn [all_chars].
    apply (Itoa_chars plain hex_plain). unfold byte_ok. lia.
Qed.

Lemma Prefix_String_trim p : Prefix_ok p -> TrimSpace (Prefix_String p) = Prefix_String p.
Proof. intros Hp. by apply TrimSpace_plain, Prefix_String_plain. Qed.
