(* ===== verification/NMRead.v ===== *)
(** internal/nm/read.go and the decoding half of internal/nm/settings.go: the
    read calls of the D-Bus client, answered from one snapshot of the cache.

    A Go map is an association list here, in the order the next [range] over it
    visits it; its keys are distinct.  [Quote] is [fmt.Sprintf("%q", b)] for
    bytes that are not UTF-8, [sysfs] and [ifIndex] read /sys/class/net. *)

From S2P Require Import Prelude GoTime Core Errors GoStrings NMVariant Netip NMMapping SecretAgent.
From Stdlib Require Import Ascii.

(** ** consts.go: names *)

Definition pathNM : string := "/org/freedesktop/NetworkManager".
Definition ifaceNM : string := "org.freedesktop.NetworkManager".
Definition ifaceConnection : string := "org.freedesktop.NetworkManager.Settings.Connection".
Definition ifaceDevice : string := "org.freedesktop.NetworkManager.Device".
Definition ifaceWireless : string := "org.freedesktop.NetworkManager.Device.Wireless".
Definition ifaceWired : string := "org.freedesktop.NetworkManager.Device.Wired".
Definition ifaceAP : string := "org.freedesktop.NetworkManager.AccessPoint".
Definition ifaceActive : string := "org.freedesktop.NetworkManager.Connection.Active".
Definition ifaceVPN : string := "org.freedesktop.NetworkManager.VPN.Connection".
Definition ifaceIP4Config : string := "org.freedesktop.NetworkManager.IP4Config".
Definition ifaceIP6Config : string := "org.freedesktop.NetworkManager.IP6Config".

(** ** The view *)

Record view := mkView {
  v_objs : list (string * gmap string props);
  v_settings : list (string * settingsDict)
}.

(** [m[k]] on a map given as an association list. *)
Fixpoint assoc {A} (k : string) (l : list (string * A)) : option A :=
  match l with
  | [] => None
  | (k', a) :: l' => if k' =?s k then Some a else assoc k l'
  end.

(** [v.objs[path][iface]]; [None] is a nil map. *)
Definition view_props_opt (v : view) (path iface : string) : option props :=
  match assoc path (v_objs v) with Some ifaces => ifaces !! iface | None => None end.

Definition view_props (v : view) (path iface : string) : props :=
  default ∅ (view_props_opt v path iface).

Definition view_has (v : view) (path iface : string) : bool :=
  match view_props_opt v path iface with Some _ => true | None => false end.

Definition pathLess (a b : string) : bool :=
  let lexical := String.ltb a b in
  match CutLast a "/", CutLast b "/" with
  | Some (ap, an), Some (bp, bn) =>
      if ap =?s bp then
        match Atoi an, Atoi bn with
        | Some x, Some y => x <? y
        | _, _ => lexical
        end
      else lexical
  | _, _ => lexical
  end.

(** [sort.Slice] with [less]. *)
Definition sort_slice {A} (less : A -> A -> bool) (l : list A) : list A :=
  isort (fun x y => negb (less y x)) l.

Definition pathsWith (v : view) (iface : string) : list string :=
  sort_slice pathLess
    (map fst (List.filter (fun o => match o.2 !! iface with Some _ => true | None => false end) (v_objs v))).

(** ** settings.go: addresses and IP configuration *)

Definition addressData (entries : list props) : list string :=
  flat_map (fun e =>
    let addr := vStr e "address" in
    if addr =?s "" then [] else [addr +:+ "/" +:+ Itoa (vU32 e "prefix")]) entries.

Definition decodeIPConfig (m : props) (family : Z) : IPConfig :=
  let dns :=
    if family =? 4 then
      match m !! "dns" with Some (VUint32s l) => map ip4FromU32 l | _ => [] end
    else if family =? 6 then
      match m !! "dns" with
      | Some (VByteSlices l) => List.filter (fun s => negb (s =?s "")) (map ip6FromBytes l)
      | _ => []
      end
    else [] in
  mkIPConfig (vStr m "method") (addressData (vDicts m "address-data")) (vStr m "gateway") dns
    (vStrs m "dns-search") (default false (vBool m "ignore-auto-dns")) (default false (vBool m "never-default")).

Record ipInfo := mkIpInfo {
  ii_v4 : list string; ii_v6 : list string; ii_gateway4 : string; ii_dns : list string
}.

Definition ipInfo_of (v : view) (ip4 ip6 : string) : ipInfo :=
  let '(v4, gw, dns4) :=
    if realPath ip4 then
      let p := view_props v ip4 ifaceIP4Config in
      let nd := vDicts p "NameserverData" in
      (addressData (vDicts p "AddressData"), vStr p "Gateway",
       match nd with
       | _ :: _ => List.filter (fun a => negb (a =?s "")) (map (fun e => vStr e "address") nd)
       | [] => match p !! "Nameservers" with Some (VUint32s l) => map ip4FromU32 l | _ => [] end
       end)
    else ([], "", []) in
  let '(v6, dns6) :=
    if realPath ip6 then
      let p := view_props v ip6 ifaceIP6Config in
      (addressData (vDicts p "AddressData"),
       match p !! "Nameservers" with
       | Some (VByteSlices l) => List.filter (fun s => negb (s =?s "")) (map ip6FromBytes l)
       | _ => []
       end)
    else ([], []) in
  mkIpInfo v4 v6 gw (dns4 ++ dns6).

Definition deviceName (v : view) (p : string) : string := vStr (view_props v p ifaceDevice) "Interface".

Definition devicePath (v : view) (name : string) : option string :=
  List.find (fun p => deviceName v p =?s name) (pathsWith v ifaceDevice).

Definition connByUUID (v : view) (uuid : string) : option string :=
  option_map fst (List.find (fun ps => vStr (section ps.2 settingConnection) "uuid" =?s uuid) (v_settings v)).

Definition activeByUUID (v : view) (uuid : string) : option string :=
  List.find (fun p => vStr (view_props v p ifaceActive) "Uuid" =?s uuid) (pathsWith v ifaceActive).

Definition activeUUIDs (v : view) : gset string :=
  list_to_set (map (fun p => vStr (view_props v p ifaceActive) "Uuid")
    (List.filter (fun p =>
       let s := vU32 (view_props v p ifaceActive) "State" in
       (s =? activeActivating) || (s =? activeActivated)) (pathsWith v ifaceActive))).

(** ** Profiles *)

Record connMeta := mkConnMeta { cm_Filename : string; cm_VersionID : Z }.

Definition decodeWireGuardSetting (wg : props) : WireGuardSetting :=
  mkWireGuardSetting "" (vU32 wg "listen-port") (vU32 wg "fwmark") (vU32 wg "mtu")
    (map (fun peer => mkWireGuardPeer (vStr peer "public-key") "" (vStr peer "endpoint")
            (vStrs peer "allowed-ips") (vU32 peer "persistent-keepalive"))
         (vDicts wg "peers")).

(** [time.Unix(int64(ts), 0)]; the Unix epoch in seconds since year 1. *)
Definition unixToInternal : Z := 62135596800.

Definition time_Unix (sec : Z) : Time := (sec + unixToInternal) * second.

Section Read.
Context (Quote : string -> string).

Definition decodeProfile (path : string) (s : settingsDict) (meta : connMeta) (active : bool) : Profile :=
  let conn := section s settingConnection in
  let ts := vU64 conn "timestamp" in
  let '(ssid, sec) :=
    match s !! settingWifi with
    | Some w => (ssidString Quote (vBytes w "ssid"),
                 profileSecurity (vStr (section s settingWifiSecurity) "key-mgmt"))
    | None => ("", "")
    end in
  let '(stype, data) :=
    match s !! settingVPN with
    | Some v => (vStr v "service-type",
                 filter (fun kv => HasSuffix kv.1 "-flags" = false) (vStrMap v "data"))
    | None => ("", ∅)
    end in
  mkProfile (vStr conn "uuid") (vStr conn "id") (profileType (vStr conn "type")) (vStr conn "type")
    (vStr conn "interface-name") (default true (vBool conn "autoconnect")) ssid sec stype
    (if 0 <? ts then time_Unix (int64_conv ts) else 0)
    (match s !! settingIPv4 with Some ip => decodeIPConfig ip 4 | None => IPConfig_zero end)
    (match s !! settingIPv6 with Some ip => decodeIPConfig ip 6 | None => IPConfig_zero end)
    (vStrs conn "permissions") (cm_Filename meta) (cm_VersionID meta) active path
    (option_map decodeWireGuardSetting (s !! settingWireGuard)) data.

Definition profile_of (v : view) (p : string) (active : gset string) : Profile :=
  let s := default ∅ (assoc p (v_settings v)) in
  let meta :=
    match view_props_opt v p ifaceConnection with
    | Some cp => mkConnMeta (vStr cp "Filename") (vU64 cp "VersionId")
    | None => mkConnMeta "" 0
    end in
  decodeProfile p s meta (bool_decide (vStr (section s settingConnection) "uuid" ∈ active)).

Definition view_profiles (v : view) : list Profile :=
  let active := activeUUIDs v in
  map (fun p => profile_of v p active) (sort_slice pathLess (map fst (v_settings v))).

Definition Profiles (v : view) : result error (list Profile) :=
  if negb (view_has v pathNM ifaceNM)
  then Err (newErr "list profiles" (Some nm_ErrUnavailable) "no NetworkManager object in cache")
  else Ok (view_profiles v).

Definition Profile_byUUID (v : view) (uuid : string) : result error Profile :=
  match connByUUID v uuid with
  | None => Err (newErr ("profile " +:+ uuid) (Some nm_ErrNotFound)
                   "no profile with that UUID is visible to this user")
  | Some p => Ok (profile_of v p (activeUUIDs v))
  end.

(** ** Active connections *)

Definition active_of (v : view) (p : string) : ActiveConnection :=
  let a := view_props v p ifaceActive in
  let ip := ipInfo_of v (vPath a "Ip4Config") (vPath a "Ip6Config") in
  let '(vpn, vpn_state, banner) :=
    match view_props_opt v p ifaceVPN with
    | Some vp => (true, vpnStateName (vU32 vp "VpnState"), vStr vp "Banner")
    | None => (default false (vBool a "Vpn"), "", "")
    end in
  mkActiveConnection p (vStr a "Uuid") (vStr a "Id") (profileType (vStr a "Type"))
    (List.filter (fun n => negb (n =?s "")) (map (deviceName v) (vPaths a "Devices")))
    (activeState (vU32 a "State"))
    (default false (vBool a "Default")) (default false (vBool a "Default6"))
    vpn vpn_state banner (ii_v4 ip) (ii_v6 ip) (ii_gateway4 ip) (ii_dns ip)
    (any_bit (vU32 a "StateFlags") activeFlagExternal).

Definition ActiveConnections (v : view) : list ActiveConnection :=
  map (active_of v) (pathsWith v ifaceActive).

(** [perms] is what [Permissions] answered; a failure is only logged. *)
Definition Status_of (v : view) (perms : result error (gmap string string)) : result error Status :=
  match view_props_opt v pathNM ifaceNM with
  | None => Err (newErr "status" (Some nm_ErrUnavailable) "no NetworkManager object in cache")
  | Some nm =>
      let pc := vPath nm "PrimaryConnection" in
      let primary :=
        if realPath pc && view_has v pc ifaceActive then Some (active_of v pc) else None in
      Ok (mkStatus (nmStateName (vU32 nm "State")) (connectivity (vU32 nm "Connectivity"))
            (default false (vBool nm "NetworkingEnabled")) (default false (vBool nm "WirelessEnabled"))
            (default false (vBool nm "WirelessHardwareEnabled")) primary
            (match primary with Some _ => NetworkKey primary (view_profiles v) | None => "" end)
            (vStr nm "Version")
            (match perms with Ok m => m | Err _ => ∅ end))
  end.

(** ** Devices *)

Context (sysfs : string -> bool * bool) (ifIndex : string -> Z).

Definition device_of (v : view) (p : string) : Device :=
  let d := view_props v p ifaceDevice in
  let name := vStr d "Interface" in
  let kind := deviceKind (vU32 d "DeviceType") in
  let class := deviceClass name kind sysfs in
  let hw := vStr d "HwAddress" in
  let '(hw, speed) :=
    match view_props_opt v p ifaceWired with
    | Some w => (if hw =?s "" then vStr w "HwAddress" else hw, vU32 w "Speed")
    | None => (hw, 0)
    end in
  let '(hw, speed) :=
    match view_props_opt v p ifaceWireless with
    | Some w => (if hw =?s "" then vStr w "HwAddress" else hw, vU32 w "Bitrate" / 1000)
    | None => (hw, speed)
    end in
  let acp := vPath d "ActiveConnection" in
  let '(uuid, nm, external) :=
    if realPath acp then
      let a := view_props v acp ifaceActive in
      (vStr a "Uuid", vStr a "Id", any_bit (vU32 a "StateFlags") activeFlagExternal)
    else ("", "", false) in
  let ip := ipInfo_of v (vPath d "Ip4Config") (vPath d "Ip6Config") in
  mkDevice name (ifIndex name) kind class (deviceState (vU32 d "State") external)
    (default false (vBool d "Managed"))
    (if class =?s ClassInfra then deviceOwner name kind else "") hw (vStr d "Driver")
    (ii_v4 ip) (ii_v6 ip) (ii_gateway4 ip) (ii_dns ip) uuid nm speed p.

Definition Devices (v : view) : result error (list Device) :=
  if negb (view_has v pathNM ifaceNM)
  then Err (newErr "list devices" (Some nm_ErrUnavailable) "no NetworkManager object in cache")
  else
    Ok (sort_slice (fun a b => String.ltb (dev_Name a) (dev_Name b))
          (map (device_of v)
             (List.filter (fun p => negb (vU32 (view_props v p ifaceDevice) "DeviceType" =? devTypeWifiP2P))
                (pathsWith v ifaceDevice)))).
End Read.
