(* ===== verification/NMSettings.v ===== *)
(** The encoding half of internal/nm/settings.go: IP configurations and
    WireGuard profiles as connection settings. *)

From S2P Require Import Prelude GoTime Core GoStrings Errors NMVariant NMMapping Netip NMRead.

Section Encode.
(** [%q] on a string, and the text of netip's own parse errors. *)
Context (Quote : string -> string) (netip_error : string -> string).

(** ** Addresses *)

Definition ip4ToU32 (s : string) : option Z :=
  match ParseAddr s with Some (A4 b) => Some (native_u32 b) | _ => None end.

(** The sixteen bytes as a [[]byte]. *)
Definition ip6ToBytes (s : string) : option string :=
  match ParseAddr s with Some (A6 b _) => Some (byte_str (map Z.to_nat b)) | _ => None end.

(** [family == 4 && !a.Is4() || family == 6 && !a.Is6()] *)
Definition wrong_family (family : Z) (a : Addr) : bool :=
  ((family =? 4) && negb (Is4 a)) || ((family =? 6) && negb (Is6 a)).

Definition splitCIDR (c : string) (family : Z) : result error (string * Z) :=
  let c := TrimSpace c in
  let wrong := ELeaf (Quote c +:+ " is not an IPv" +:+ Itoa family +:+ " address") in
  match ParsePrefix c with
  | Some p =>
      if wrong_family family (pfx_Addr p) then Err wrong
      else Ok (Addr_String (pfx_Addr p), pfx_Bits p)
  | None =>
      match ParseAddr c with
      | None =>
          let e := netip_error c in
          Err (EWrap ("bad address " +:+ Quote c +:+ ": " +:+ e) [ELeaf e])
      | Some a => if wrong_family family a then Err wrong else Ok (Addr_String a, BitLen a)
      end
  end.

Definition makeAddressData (cidrs : list string) (family : Z) : result error (list props) :=
  result_mapM (fun c =>
    ap <-? splitCIDR c family ;;
    Ok (<["address" := VString ap.1]> {[ "prefix" := VUint32 ap.2 ]})) cidrs.

(** ** IP configuration *)

Definition ipKeysOwned : list string :=
  ["method"; "address-data"; "addresses"; "gateway"; "routes"; "dns"; "dns-search"; "ignore-auto-dns";
   "never-default"].

Definition method_of (cfg : IPConfig) : IPMethod :=
  if ip_Method cfg =?s "" then (if 0 <? len (ip_Addresses cfg) then IPManual else IPAuto) else ip_Method cfg.

(** The gateway: [None] when there is none, an error when it is not an address
    of the family. *)
Definition encode_gateway (family : Z) (gw : string) : result error (option string) :=
  if gw =?s "" then Ok None
  else
    match ParseAddr gw with
    | Some a =>
        if wrong_family family a
        then Err (ELeaf ("bad IPv" +:+ Itoa family +:+ " gateway " +:+ Quote gw))
        else Ok (Some (Addr_String a))
    | None => Err (ELeaf ("bad IPv" +:+ Itoa family +:+ " gateway " +:+ Quote gw))
    end.

Definition encode_dns (family : Z) (dns : list string) : result error variant :=
  if family =? 4 then
    us <-? result_mapM (fun s => match ip4ToU32 s with
                                 | Some u => Ok u
                                 | None => Err (ELeaf ("bad IPv4 DNS server " +:+ Quote s))
                                 end) dns ;;
    Ok (VUint32s us)
  else if family =? 6 then
    bs <-? result_mapM (fun s => match ip6ToBytes s with
                                 | Some b => Ok b
                                 | None => Err (ELeaf ("bad IPv6 DNS server " +:+ Quote s))
                                 end) dns ;;
    Ok (VByteSlices bs)
  else Err (ELeaf ("bad family " +:+ Itoa family)).

(** The keys of [existing] that are not rewritten. *)
Definition keep_foreign (existing : props) : props := filter (fun kv => kv.1 ∉ ipKeysOwned) existing.

Definition encodeIPConfig (existing : props) (cfg : IPConfig) (family : Z) : result error props :=
  ad <-? makeAddressData (ip_Addresses cfg) family ;;
  gw <-? encode_gateway family (ip_Gateway cfg) ;;
  dns <-? encode_dns family (ip_DNS cfg) ;;
  let out := <["address-data" := VDicts ad]> (<["method" := VString (method_of cfg)]> (keep_foreign existing)) in
  let out := match gw with Some g => <["gateway" := VString g]> out | None => out end in
  Ok (<["never-default" := VBool (ip_NeverDefault cfg)]>
       (<["ignore-auto-dns" := VBool (ip_IgnoreAutoDNS cfg)]>
         (<["dns-search" := VStrings (ip_DNSSearch cfg)]> (<["dns" := dns]> out)))).

(** The edit of [UpdateIPConfig] (ops.go). *)
Definition update_ip_edit (op : string) (ipv4 ipv6 : option IPConfig) (s : settingsDict) : result error settingsDict :=
  let put (name : string) (family : Z) (cfg : option IPConfig) (s : settingsDict) : result error settingsDict :=
    match cfg with
    | None => Ok s
    | Some c =>
        match encodeIPConfig (section s name) c family with
        | Ok d => Ok (<[name := d]> s)
        | Err e => Err (newErr op None (ErrorString e))
        end
    end in
  s <-? put settingIPv4 4 ipv4 s ;; put settingIPv6 6 ipv6 s.

(** ** WireGuard profiles *)

Definition set_if {A} (b : bool) (k : string) (v : A) (m : gmap string A) : gmap string A :=
  if b then <[k := v]> m else m.

(** One peer's dictionary; [None] when it has no public key. *)
Definition peer_dict (p : WireGuardPeer) : option props :=
  if wgp_PublicKey p =?s "" then None
  else
    let peer : props := <["allowed-ips" := VStrings (wgp_AllowedIPs p)]> {[ "public-key" := VString (wgp_PublicKey p) ]} in
    let peer := set_if (negb (wgp_Endpoint p =?s "")) "endpoint" (VString (wgp_Endpoint p)) peer in
    let peer := set_if (0 <? wgp_PersistentKeepalive p) "persistent-keepalive"
                  (VUint32 (uint_of 32 (wgp_PersistentKeepalive p))) peer in
    Some (set_if (negb (wgp_PresharedKey p =?s "")) "preshared-key-flags" (VUint32 secretFlagsNone)
           (set_if (negb (wgp_PresharedKey p =?s "")) "preshared-key" (VString (wgp_PresharedKey p)) peer)).

Fixpoint peers_dicts (op : string) (i : Z) (l : list WireGuardPeer) : result error (list props) :=
  match l with
  | [] => Ok []
  | p :: l' =>
      match peer_dict p with
      | None => Err (newErr op None ("peer " +:+ Itoa i +:+ " has no public key"))
      | Some d => ds <-? peers_dicts op (i + 1) l' ;; Ok (d :: ds)
      end
  end.

(** The address of a CIDR is IPv4; the zero [Addr] of a failed parse is not. *)
Definition is_v4 (s : string) : bool := match ParseAddr s with Some a => Is4 a | None => false end.

(** Addresses and DNS servers, sorted by family. *)
Definition split_addresses (op : string) (l : list string) : result error (list string * list string) :=
  tagged <-? result_mapM (fun a =>
    match splitCIDR a 0 with
    | Err e => Err (newErr op None (ErrorString e))
    | Ok (addr, _) => Ok (is_v4 addr, a)
    end) l ;;
  Ok (map snd (List.filter (fun t => t.1) tagged), map snd (List.filter (fun t => negb t.1) tagged)).

Definition split_dns (op : string) (l : list string) : result error (list string * list string) :=
  tagged <-? result_mapM (fun d =>
    match ParseAddr d with
    | None => Err (newErr op None ("bad DNS server " +:+ Quote d))
    | Some a => Ok (Is4 a, d)
    end) l ;;
  Ok (map snd (List.filter (fun t => t.1) tagged), map snd (List.filter (fun t => negb t.1) tagged)).

(** [ipCfg]: a family without an address is disabled. *)
Definition wg_ip_config (spec : WireGuardSpec) (addrs dns : list string) (family : Z) : result error props :=
  match addrs with
  | [] => encodeIPConfig ∅ (mkIPConfig IPDisabled [] "" [] [] false false) family
  | _ => encodeIPConfig ∅ (mkIPConfig IPManual addrs "" dns (wg_DNSSearch spec) false false) family
  end.

Definition op_result {A} (op : string) (r : result error A) : result error A :=
  match r with Ok a => Ok a | Err e => Err (newErr op None (ErrorString e)) end.

(** The wireguard section, the peers already written. *)
Definition wg_setting (spec : WireGuardSpec) (peers : list props) : props :=
  let wg : props := <["private-key" := VString (wg_PrivateKey spec)]>
                      {[ "private-key-flags" := VUint32 secretFlagsNone ]} in
  let wg := set_if (0 <? wg_ListenPort spec) "listen-port" (VUint32 (uint_of 32 (wg_ListenPort spec))) wg in
  let wg := set_if (0 <? wg_FwMark spec) "fwmark" (VUint32 (uint_of 32 (wg_FwMark spec))) wg in
  let wg := set_if (0 <? wg_MTU spec) "mtu" (VUint32 (uint_of 32 (wg_MTU spec))) wg in
  let wg :=
    match wg_AutoDefaultRoute spec with
    | Some b =>
        let t := VInt32 (if b then 1 else 0) in
        <["ip6-auto-default-route" := t]> (<["ip4-auto-default-route" := t]> wg)
    | None => wg
    end in
  <["peers" := VDicts peers]> wg.

Definition wireguardSettings (spec : WireGuardSpec) (uuid user : string) : result error settingsDict :=
  let op := "add wireguard " +:+ wg_Name spec in
  if wg_Name spec =?s "" then Err (newErr op None "profile name is required")
  else if wg_InterfaceName spec =?s "" then Err (newErr op None "interface name is required")
  else if wg_PrivateKey spec =?s "" then Err (newErr op None "private key is required")
  else
    let conn : props :=
      set_if (negb (user =?s "")) "permissions" (VStrings ["user:" +:+ user +:+ ":"])
        (<["type" := VString typeWireGuard]> (<["id" := VString (wg_Name spec)]> (<["uuid" := VString uuid]>
          (<["interface-name" := VString (wg_InterfaceName spec)]>
            {[ "autoconnect" := VBool (wg_Autoconnect spec) ]})))) in
    peers <-? peers_dicts op 0 (wg_Peers spec) ;;
    let wg := wg_setting spec peers in
    addrs <-? split_addresses op (wg_Addresses spec) ;;
    dns <-? split_dns op (wg_DNS spec) ;;
    ip4 <-? op_result op (wg_ip_config spec addrs.1 dns.1 4) ;;
    ip6 <-? op_result op (wg_ip_config spec addrs.2 dns.2 6) ;;
    Ok (<[settingConnection := conn]> (<[settingWireGuard := wg]> (<[settingIPv4 := ip4]> {[ settingIPv6 := ip6 ]}))).
End Encode.

(** * IP configurations written to NetworkManager read back as what was asked
    for, in normal form. *)

Section Facts.
Context (Quote : string -> string) (netip_error : string -> string).

Local Abbreviation encode := (encodeIPConfig Quote netip_error).

(** An address or CIDR as it is written, and a server or gateway. *)
Definition cidr_normal (family : Z) (c s : string) : Prop :=
  exists a n, splitCIDR Quote netip_error c family = Ok (a, n) /\ s = a +:+ "/" +:+ Itoa n.

Definition addr_normal (family : Z) (c s : string) : Prop :=
  exists a, ParseAddr c = Some a /\ wrong_family family a = false /\ s = Addr_String (withoutZone a).

(** ** Each part *)

Lemma splitCIDR_nonempty c family a n : splitCIDR Quote netip_error c family = Ok (a, n) -> a <> "".
Proof.
  unfold splitCIDR. destruct (ParsePrefix (TrimSpace c)) as [p|] eqn:Hp.
  - case_test; [done|]. intros [= <- _]. apply Addr_String_nonempty.
    revert Hp. unfold ParsePrefix. destruct (CutLast _ "/") as [[addr bits]|]; [|done].
    destruct (ParseAddr addr) as [ad|] eqn:Ha; [|done]. apply ParseAddr_ok in Ha.
    repeat (case_match; try done). all: intros [= <-]; cbn; by destruct ad.
  - destruct (ParseAddr (TrimSpace c)) as [ad|] eqn:Ha; [|done]. case_test; [done|]. intros [= <- _].
    apply Addr_String_nonempty. by eapply ParseAddr_ok.
Qed.

Lemma address_data_back family cs ad :
  makeAddressData Quote netip_error cs family = Ok ad -> Forall2 (cidr_normal family) cs (addressData ad).
Proof.
  unfold makeAddressData. intros H%result_mapM_Ok. induction H as [|c d cs ad Hc _ IH]; [constructor|].
  destruct (splitCIDR Quote netip_error c family) as [[a n]|e] eqn:Hs; [|done]. injection Hc as <-.
  cbn [addressData flat_map]. unfold vStr at 1 2. rewrite lookup_insert_eq.
  rewrite (seqb_ne _ _ (splitCIDR_nonempty _ _ _ _ Hs)). constructor; [|exact IH].
  exists a, n. split; [done|]. unfold vU32. by rewrite lookup_insert_ne, lookup_singleton_eq.
Qed.

Lemma dns4_back dns us :
  result_mapM (fun s => match ip4ToU32 s with
                        | Some u => Ok u
                        | None => Err (ELeaf ("bad IPv4 DNS server " +:+ Quote s))
                        end) dns = Ok us ->
  Forall2 (addr_normal 4) dns (map ip4FromU32 us).
Proof.
  intros H%result_mapM_Ok. induction H as [|s u dns us Hs _ IH]; [constructor|]. constructor; [|exact IH].
  unfold ip4ToU32 in Hs. destruct (ParseAddr s) as [[b|]|] eqn:Hp; try done. injection Hs as <-.
  exists (A4 b). split_and!; [done|done|]. apply ParseAddr_ok in Hp as [Hb Hok]. unfold ip4FromU32.
  by rewrite native_bytes_u32 by done.
Qed.

Lemma dns6_back dns bs :
  result_mapM (fun s => match ip6ToBytes s with
                        | Some b => Ok b
                        | None => Err (ELeaf ("bad IPv6 DNS server " +:+ Quote s))
                        end) dns = Ok bs ->
  Forall2 (addr_normal 6) dns (List.filter (fun s => negb (s =?s "")) (map ip6FromBytes bs)).
Proof.
  intros H%result_mapM_Ok. induction H as [|s u dns bs Hs _ IH]; [constructor|].
  unfold ip6ToBytes in Hs. destruct (ParseAddr s) as [[|b z]|] eqn:Hp; try done. injection Hs as <-.
  apply ParseAddr_ok in Hp as Hok. destruct Hok as [Hb Hok]. cbn [map List.filter].
  rewrite ip6_bytes_back by done. rewrite (seqb_ne _ _ (string16_nonempty b Hb)). constructor; [|exact IH].
  exists (A6 b z). split_and!; [done|done|]. cbn. by rewrite string_app_nil.
Qed.

Lemma encode_dns_back family dns v :
  family = 4 \/ family = 6 -> encode_dns Quote family dns = Ok v ->
  Forall2 (addr_normal family) dns
    (if family =? 4 then match v with VUint32s l => map ip4FromU32 l | _ => [] end
     else match v with
          | VByteSlices l => List.filter (fun s => negb (s =?s "")) (map ip6FromBytes l)
          | _ => []
          end).
Proof.
  unfold encode_dns. intros [->| ->]; cbn [Z.eqb Pos.eqb].
  - destruct (result_mapM _ dns) as [us|] eqn:H; [|done]. intros [= <-]. by apply dns4_back.
  - destruct (result_mapM _ dns) as [bs|] eqn:H; [|done]. intros [= <-]. by apply dns6_back.
Qed.

Lemma result_mapM_Err {A B} (f : A -> result error B) l e :
  result_mapM f l = Err e -> exists x, x ∈ l /\ is_ok (f x) = false.
Proof.
  induction l as [|x l IH]; cbn; [done|]. destruct (f x) as [y|e'] eqn:Hx; cbn.
  - destruct (result_mapM f l) as [ys|e'']; cbn; [done|]. intros [= <-].
    destruct (IH eq_refl) as (z & Hz & Hf). exists z. split; [by right|done].
  - intros _. exists x. split; [by left|]. by rewrite Hx.
Qed.

(** What the written settings hold, key by key. *)
Lemma encodeIPConfig_shape existing cfg family out :
  encode existing cfg family = Ok out ->
  exists ad gw dns,
    makeAddressData Quote netip_error (ip_Addresses cfg) family = Ok ad /\
    encode_gateway Quote family (ip_Gateway cfg) = Ok gw /\
    encode_dns Quote family (ip_DNS cfg) = Ok dns /\
    out !! "method" = Some (VString (method_of cfg)) /\ out !! "address-data" = Some (VDicts ad) /\
    out !! "gateway" = VString <$> gw /\ out !! "dns" = Some dns /\
    out !! "dns-search" = Some (VStrings (ip_DNSSearch cfg)) /\
    out !! "ignore-auto-dns" = Some (VBool (ip_IgnoreAutoDNS cfg)) /\
    out !! "never-default" = Some (VBool (ip_NeverDefault cfg)) /\
    (forall k, k ∉ ipKeysOwned -> out !! k = existing !! k) /\
    out !! "addresses" = None /\ out !! "routes" = None.
Proof.
  unfold encodeIPConfig.
  destruct (makeAddressData _ _ _ _) as [ad|e] eqn:Had; cbn [result_bind]; [|done].
  destruct (encode_gateway _ _ _) as [gw|e] eqn:Hgw; cbn [result_bind]; [|done].
  destruct (encode_dns _ _ _) as [dns|e] eqn:Hdns; cbn [result_bind]; [|done].
  intros [= <-]. exists ad, gw, dns.
  assert (forall k, k ∈ ipKeysOwned -> keep_foreign existing !! k = None) as Hown.
  { intros k Hk. apply map_lookup_filter_None. right. intros x _ Hx. by apply Hx. }
  assert (forall k, k ∉ ipKeysOwned -> keep_foreign existing !! k = existing !! k) as Hfor.
  { intros k Hk. unfold keep_foreign. rewrite map_lookup_filter. destruct (existing !! k) as [x|]; [|done]. cbn.
    by rewrite option_guard_True. }
  split_and!; try done.
  all: try (destruct gw; repeat (rewrite lookup_insert_eq || rewrite lookup_insert_ne by done); try done;
    apply Hown; unfold ipKeysOwned; set_solver).
  intros k Hk. rewrite <- (Hfor k Hk). unfold ipKeysOwned in Hk.
  destruct gw; repeat (rewrite lookup_insert_ne by set_solver); done.
Qed.

Lemma encodeIPConfig_refused existing cfg family e :
  family = 4 \/ family = 6 -> encode existing cfg family = Err e ->
  (exists c, c ∈ ip_Addresses cfg /\ is_ok (splitCIDR Quote netip_error c family) = false) \/
  (ip_Gateway cfg <> "" /\ forall a, ParseAddr (ip_Gateway cfg) = Some a -> wrong_family family a = true) \/
  (exists d, d ∈ ip_DNS cfg /\ forall a, ParseAddr d = Some a -> wrong_family family a = true).
Proof.
  intros Hfam. unfold encodeIPConfig.
  destruct (makeAddressData _ _ _ _) as [ad|e'] eqn:Had; cbn [result_bind].
  2: { intros _. left. apply result_mapM_Err in Had as (c & Hc & Hf). exists c. split; [done|].
       by destruct (splitCIDR Quote netip_error c family). }
  destruct (encode_gateway _ _ _) as [gw|e'] eqn:Hgw; cbn [result_bind].
  2: { intros _. right. left. unfold encode_gateway in Hgw. case_test; [done|]. bool_to_prop. split; [done|].
       intros a Ha. rewrite Ha in Hgw. by destruct (wrong_family family a). }
  destruct (encode_dns _ _ _) as [dns|e'] eqn:Hdns; cbn [result_bind]; [done|]. intros _. right. right.
  unfold encode_dns in Hdns. destruct Hfam as [->| ->]; cbn [Z.eqb Pos.eqb] in Hdns.
  - destruct (result_mapM _ _) as [|e''] eqn:H in Hdns; [done|]. apply result_mapM_Err in H as (d & Hd & Hf).
    exists d. split; [done|]. unfold ip4ToU32 in Hf. intros a Ha. rewrite Ha in Hf. by destruct a.
  - destruct (result_mapM _ _) as [|e''] eqn:H in Hdns; [done|]. apply result_mapM_Err in H as (d & Hd & Hf).
    exists d. split; [done|]. unfold ip6ToBytes in Hf. intros a Ha. rewrite Ha in Hf. by destruct a.
Qed.

(** What the settings decode to. *)
Lemma encode_back existing cfg family out :
  family = 4 \/ family = 6 -> encode existing cfg family = Ok out ->
  let back := decodeIPConfig out family in
  Forall2 (cidr_normal family) (ip_Addresses cfg) (ip_Addresses back) /\
  (if ip_Gateway cfg =?s "" then ip_Gateway back = ""
   else exists a, ParseAddr (ip_Gateway cfg) = Some a /\ wrong_family family a = false /\
          ip_Gateway back = Addr_String a) /\
  Forall2 (addr_normal family) (ip_DNS cfg) (ip_DNS back) /\
  ip_Method back = method_of cfg /\ ip_DNSSearch back = ip_DNSSearch cfg /\
  ip_IgnoreAutoDNS back = ip_IgnoreAutoDNS cfg /\ ip_NeverDefault back = ip_NeverDefault cfg.
Proof.
  intros Hfam Henc.
  destruct (encodeIPConfig_shape _ _ _ _ Henc)
    as (ad & gw & dns & Had & Hgw & Hdns & L1 & L2 & L3 & L4 & L5 & L6 & L7 & _).
  cbv zeta. unfold decodeIPConfig.
  cbn [ip_Addresses ip_Gateway ip_DNS ip_Method ip_DNSSearch ip_IgnoreAutoDNS ip_NeverDefault].
  unfold vStr, vStrs, vBool, vDicts. rewrite L1, L2, L3, L4, L5, L6, L7. split_and!; try done.
  - by apply address_data_back.
  - unfold encode_gateway in Hgw. destruct (ip_Gateway cfg =?s ""); [by injection Hgw as <-|].
    destruct (ParseAddr (ip_Gateway cfg)) as [a|]; [|done]. destruct (wrong_family family a) eqn:Hw; [done|].
    injection Hgw as <-. by exists a.
  - pose proof (encode_dns_back family _ _ Hfam Hdns) as Hback.
    destruct Hfam as [->| ->]; cbn [Z.eqb Pos.eqb] in *; by destruct dns.
Qed.

(** Rewriting a profile's IP configuration.  It is refused exactly when an
    address, the gateway or a DNS server is not one of the family.  Otherwise
    the settings read back as the configuration asked for, in normal form: the
    same addresses in order as address/prefix (a bare address gets the full
    prefix), the same gateway, servers, search domains and flags, the method
    defaulting to manual with addresses and to automatic without.  Every key
    the code does not own is kept as it was, and the deprecated arrays are
    gone. *)
Theorem encodeIPConfig_reads_back existing cfg family :
  family = 4 \/ family = 6 ->
  match encode existing cfg family with
  | Ok out =>
      let back := decodeIPConfig out family in
      Forall2 (cidr_normal family) (ip_Addresses cfg) (ip_Addresses back) /\
      (if ip_Gateway cfg =?s "" then ip_Gateway back = ""
       else exists a, ParseAddr (ip_Gateway cfg) = Some a /\ wrong_family family a = false /\
              ip_Gateway back = Addr_String a) /\
      Forall2 (addr_normal family) (ip_DNS cfg) (ip_DNS back) /\
      ip_Method back = method_of cfg /\ ip_DNSSearch back = ip_DNSSearch cfg /\
      ip_IgnoreAutoDNS back = ip_IgnoreAutoDNS cfg /\ ip_NeverDefault back = ip_NeverDefault cfg /\
      (forall k, k ∉ ipKeysOwned -> out !! k = existing !! k) /\
      out !! "addresses" = None /\ out !! "routes" = None
  | Err _ =>
      (exists c, c ∈ ip_Addresses cfg /\ is_ok (splitCIDR Quote netip_error c family) = false) \/
      (ip_Gateway cfg <> "" /\ forall a, ParseAddr (ip_Gateway cfg) = Some a -> wrong_family family a = true) \/
      (exists d, d ∈ ip_DNS cfg /\ forall a, ParseAddr d = Some a -> wrong_family family a = true)
  end.
Proof.
  intros Hfam. destruct (encode existing cfg family) as [out|e] eqn:Henc; [|by eapply encodeIPConfig_refused].
  destruct (encode_back _ _ _ _ Hfam Henc) as (H1 & H2 & H3 & H4 & H5 & H6 & H7).
  destruct (encodeIPConfig_shape _ _ _ _ Henc)
    as (ad & gw & dns & _ & _ & _ & _ & _ & _ & _ & _ & _ & _ & Hfor & Ha & Hr).
  cbv zeta. by split_and!.
Qed.
End Facts.

(** Static addressing: a bare address gets its full prefix, a route is kept. *)
Definition demo_ip : IPConfig :=
  mkIPConfig "" ["192.168.1.5/24"; " 10.0.0.1 "] "192.168.1.1" ["1.1.1.1"] ["lan"] false true.

Lemma encodeIPConfig_reads_back_witness :
  match encodeIPConfig id id {[ "route-metric" := VInt64 50 ]} demo_ip 4 with
  | Ok out =>
      out !! "route-metric" = Some (VInt64 50) /\ ip_Method (decodeIPConfig out 4) = IPManual /\
      ip_Addresses (decodeIPConfig out 4) = ["192.168.1.5/24"; "10.0.0.1/32"]
  | Err _ => False
  end.
Proof.
  pose proof (encodeIPConfig_reads_back id id {[ "route-metric" := VInt64 50 ]} demo_ip 4 (or_introl eq_refl)) as H.
  assert (result_map (fun out => ip_Addresses (decodeIPConfig out 4))
            (encodeIPConfig id id {[ "route-metric" := VInt64 50 ]} demo_ip 4) =
          Ok ["192.168.1.5/24"; "10.0.0.1/32"]) as Haddr by (vm_compute; reflexivity).
  destruct (encodeIPConfig id id {[ "route-metric" := VInt64 50 ]} demo_ip 4) as [out|e]; [|discriminate Haddr].
  destruct H as (_ & _ & _ & Hm & _ & _ & _ & Hfor & _). split; [|split].
  - rewrite Hfor; [reflexivity|]. apply (bool_decide_eq_false_1 ("route-metric" ∈ ipKeysOwned)). vm_compute. reflexivity.
  - exact Hm.
  - injection Haddr as Haddr. exact Haddr.
Defined.
