(* ===== verification/NMWifi.v ===== *)
(** internal/nm/wifi.go and the Wi-Fi half of internal/nm/settings.go: listing
    the networks in range, choosing device, access point and saved profile, the
    settings of a new profile, joining a network, and waiting for an activation.

    The D-Bus calls [ConnectWifi] makes are the [Call]s of an interaction
    program; whatever answers them is the environment. *)

From S2P Require Import Prelude GoTime Core Errors GoStrings NMVariant NMMapping SecretAgent NMRead.
From Stdlib Require Import Ascii SpecFloat.

(** ** Access points *)

Record accessPoint := mkAccessPoint {
  ap_path : string;
  ap_ssid : string;
  ap_bssid : string;
  ap_strength : Z;
  ap_frequency : Z;
  ap_security : WifiSecurity;
  ap_lastSeen : Z
}.

Definition accessPoint_zero : accessPoint := mkAccessPoint "" "" "" 0 0 "" 0.

Record wifiProfile := mkWifiProfile { wp_uuid : string; wp_iface : string; wp_path : string }.

(** Conversion of a [float64] to [int64]: truncation; out of range and NaN give
    what amd64 gives. *)
Definition f_to_int64 (f : float64) : Z :=
  match f with
  | S754_finite s m e =>
      let a := if 0 <=? e then Z.pos m * 2 ^ e else Z.pos m / 2 ^ (- e) in
      let z := if s then - a else a in
      if (min_int64 <=? z) && (z <=? max_int64) then z else min_int64
  | S754_zero _ => 0
  | _ => min_int64
  end.

(** [now.Add(-time.Duration((uptime - float64(lastSeen)) * float64(time.Second)))];
    negating the least [int64] gives it back. *)
Definition seen_at (now : Time) (uptime : float64) (lastSeen : Z) : Time :=
  let d := f_to_int64 (f_mul (SFsub prec emax uptime (f_of_Z lastSeen)) (f_of_Z second)) in
  time_Add now (if d =? min_int64 then min_int64 else - d).

Section Wifi.
Context (Quote : string -> string).

Definition decodeAP (path : string) (p : props) : accessPoint :=
  mkAccessPoint path (ssidString Quote (vBytes p "Ssid")) (vStr p "HwAddress") (vU8 p "Strength")
    (vU32 p "Frequency") (apSecurity (vU32 p "Flags") (vU32 p "WpaFlags") (vU32 p "RsnFlags"))
    (match vI64 p "LastSeen" with Some ls => ls | None => -1 end).

Definition wifiDevices (v : view) (name : string) : list string :=
  List.filter (fun p => negb (negb (name =?s "") && negb (deviceName v p =?s name))) (pathsWith v ifaceWireless).

(** [v.wifiProfiles()[ssid]]: the candidates of one SSID, in range order. *)
Definition wifiProfiles (v : view) (ssid : string) : list wifiProfile :=
  flat_map (fun '(p, s) =>
    let conn := section s settingConnection in
    if negb (vStr conn "type" =?s typeWifi) then []
    else
      let id := ssidString Quote (vBytes (section s settingWifi) "ssid") in
      if id =?s "" then []
      else if id =?s ssid then [mkWifiProfile (vStr conn "uuid") (vStr conn "interface-name") p]
      else []) (v_settings v).

(** The loop of [pickProfile], with the fallback found so far. *)
Fixpoint pickProfile_loop (cands : list wifiProfile) (dev : string) (fallback : option wifiProfile)
    : option wifiProfile :=
  match cands with
  | [] => fallback
  | c :: cands' =>
      if (wp_iface c =?s "") || (wp_iface c =?s dev) then Some c
      else pickProfile_loop cands' dev (match fallback with None => Some c | Some _ => fallback end)
  end.

Definition pickProfile (cands : list wifiProfile) (dev : string) : option wifiProfile :=
  pickProfile_loop cands dev None.

(** ** WifiNetworks *)

(** The networks of one device while its access points are walked: [bySSID]
    and [order]. *)
Record agg := mkAgg { ag_bySSID : gmap string WifiNetwork; ag_order : list string }.

(** The network of an SSID when its first access point turns up. *)
Definition new_network (ap : accessPoint) (devName : string) (prof : option wifiProfile) : WifiNetwork :=
  mkWifiNetwork (ap_ssid ap) devName 0 (ap_security ap) 0 0 "" []
    (match prof with Some _ => true | None => false end)
    (match prof with Some p => wp_uuid p | None => "" end) false false 0.

(** What one more access point adds to its network. *)
Definition merge_ap (now : Time) (uptime : option float64) (activeAP : string)
    (n : WifiNetwork) (ap : accessPoint) : WifiNetwork :=
  let bssids := if ap_bssid ap =?s "" then wn_BSSIDs n else wn_BSSIDs n ++ [ap_bssid ap] in
  let take := (wn_Strength n <=? ap_strength ap) &&
              ((wn_Strength n <? ap_strength ap) || (wn_Frequency n =? 0)) in
  let '(ch, band) := wifiChannel (ap_frequency ap) in
  let seen :=
    match uptime with
    | Some up =>
        if 0 <=? ap_lastSeen ap then
          let s := seen_at now up (ap_lastSeen ap) in
          if time_After s (wn_LastSeen n) then s else wn_LastSeen n
        else wn_LastSeen n
    | None => wn_LastSeen n
    end in
  mkWifiNetwork (wn_SSID n) (wn_Device n)
    (if take then ap_strength ap else wn_Strength n)
    (if take then ap_security ap else wn_Security n)
    (if take then ap_frequency ap else wn_Frequency n)
    (if take then ch else wn_Channel n)
    (if take then band else wn_Band n)
    bssids (wn_Known n) (wn_ProfileUUID n)
    (if ap_path ap =?s activeAP then true else wn_Active n) (wn_Hidden n) seen.

Definition add_ap (v : view) (now : Time) (uptime : option float64) (devName activeAP : string)
    (st : agg) (app : string) : agg :=
  match view_props_opt v app ifaceAP with
  | None => st
  | Some p =>
      let ap := decodeAP app p in
      if ap_ssid ap =?s "" then st
      else
        let '(n, order) :=
          match ag_bySSID st !! ap_ssid ap with
          | Some n => (n, ag_order st)
          | None => (new_network ap devName (pickProfile (wifiProfiles v (ap_ssid ap)) devName),
                     ag_order st ++ [ap_ssid ap])
          end in
        mkAgg (<[ap_ssid ap := merge_ap now uptime activeAP n ap]> (ag_bySSID st)) order
  end.

(** The access point a device is on. *)
Definition activeAP_of (v : view) (dp : string) : string :=
  let activeAP := vPath (view_props v dp ifaceWireless) "ActiveAccessPoint" in
  if negb (realPath activeAP) then
    let ac := vPath (view_props v dp ifaceDevice) "ActiveConnection" in
    if realPath ac then vPath (view_props v ac ifaceActive) "SpecificObject" else activeAP
  else activeAP.

Definition device_networks (v : view) (now : Time) (uptime : option float64) (dp : string)
    : list WifiNetwork :=
  let w := view_props v dp ifaceWireless in
  let st := fold_left (add_ap v now uptime (deviceName v dp) (activeAP_of v dp))
              (vPaths w "AccessPoints") (mkAgg ∅ []) in
  omap (fun ssid => ag_bySSID st !! ssid) (ag_order st).

(** The comparator of the final [sort.SliceStable], and "not after". *)
Definition network_less (a b : WifiNetwork) : bool :=
  if negb (Bool.eqb (wn_Active a) (wn_Active b)) then wn_Active a
  else wn_Strength b <? wn_Strength a.

Definition WifiNetworks (v : view) (now : Time) (uptime : option float64) (device : string)
    : result error (list WifiNetwork) :=
  if negb (view_has v pathNM ifaceNM)
  then Err (newErr "list wifi networks" (Some nm_ErrUnavailable) "no NetworkManager object in cache")
  else
    let devs := wifiDevices v device in
    if negb (device =?s "") && (len devs =? 0)
    then Err (newErr "list wifi networks" (Some nm_ErrNotFound) ("no Wi-Fi device named " +:+ device))
    else Ok (sort_slice network_less (flat_map (device_networks v now uptime) devs)).

(** ** Choosing *)

Definition pickWifiDevice (v : view) (name : string) : result error string :=
  match wifiDevices v name with
  | [] =>
      if negb (name =?s "")
      then Err (newErr ("find wifi device " +:+ name) (Some nm_ErrNotFound) "no Wi-Fi device with that name")
      else Err (newErr "find wifi device" (Some nm_ErrNotFound)
                  "this machine has no Wi-Fi device NetworkManager manages")
  | d0 :: _ as devs =>
      if negb (name =?s "") then Ok d0
      else
        Ok (default d0
              (List.find (fun d => devStateDisconnected <=? vU32 (view_props v d ifaceDevice) "State") devs))
  end.

(** The loop of [bestAP]; [None] is [found = false]. *)
Definition bestAP_step (v : view) (ssid : string) (best : option accessPoint) (app : string)
    : option accessPoint :=
  match view_props_opt v app ifaceAP with
  | None => best
  | Some p =>
      let ap := decodeAP app p in
      if negb (ap_ssid ap =?s ssid) then best
      else
        match best with
        | None => Some ap
        | Some b => if ap_strength b <? ap_strength ap then Some ap else best
        end
  end.

Definition bestAP (v : view) (dev ssid : string) : option accessPoint :=
  fold_left (bestAP_step v ssid) (vPaths (view_props v dev ifaceWireless) "AccessPoints") None.
End Wifi.

(** ** Settings of a new profile (settings.go) *)

Definition wepKeyType (key : string) : Z :=
  let n := len (String.list_ascii_of_string key) in
  if (n =? 5) || (n =? 13) || (n =? 10) || (n =? 26) then 1 else 2.

Definition wifiPartialSettings (ssid : string) (hidden : bool) (sec : WifiSecurity)
    (password user : string) (prompt : bool) : result error settingsDict :=
  let km := keyMgmtFor sec in
  let conn : props := <["id" := VString ssid]> (<["type" := VString typeWifi]> ∅) in
  let conn := if negb (user =?s "")
              then <["permissions" := VStrings ["user:" +:+ user +:+ ":"]]> conn else conn in
  let wifi : props := <["ssid" := VBytes ssid]> (<["mode" := VString "infrastructure"]> ∅) in
  let wifi := if hidden then <["hidden" := VBool true]> wifi else wifi in
  let s : settingsDict := <[settingConnection := conn]> (<[settingWifi := wifi]> ∅) in
  if sec =?s SecOpen then Ok s
  else if sec =?s SecWPAEAP
  then Err (newErr ("connect wifi " +:+ ssid) (Some nm_ErrUnsupported)
              "WPA-EAP (enterprise) networks are unsupported in v1")
  else
    let wsec : props := <["key-mgmt" := VString km]> ∅ in
    wsec <-?
      (if (sec =?s SecWPAPSK) || (sec =?s SecSAE) then
         if (password =?s "") && negb prompt
         then Err (newErr ("connect wifi " +:+ ssid) (Some nm_ErrNoSecrets) "this network needs a password")
         else
           let wsec := if negb (password =?s "") then <["psk" := VString password]> wsec else wsec in
           Ok (<["psk-flags" := VUint32 secretFlagsNone]> wsec)
       else if sec =?s SecWEP then
         if (password =?s "") && negb prompt
         then Err (newErr ("connect wifi " +:+ ssid) (Some nm_ErrNoSecrets) "this network needs a WEP key")
         else
           let wsec := if negb (password =?s "")
                       then <["wep-key-type" := VUint32 (wepKeyType password)]>
                              (<["wep-key0" := VString password]> wsec)
                       else wsec in
           Ok (<["auth-alg" := VString "open"]> (<["wep-key-flags" := VUint32 secretFlagsNone]> wsec))
       else Ok wsec) ;;
    Ok (<[settingWifiSecurity := wsec]>
          (<[settingWifi := <["security" := VString settingWifiSecurity]> wifi]> s)).
