(* ===== verification/NMConnect.v ===== *)
(** Joining a Wi-Fi network: [ConnectWifi], [updatePSK], [waitActive],
    [waitEvents] and [activationError] of internal/nm/wifi.go, with
    [editSettings] of internal/nm/ops.go.

    These functions talk to NetworkManager.  The bus is a state machine on an
    abstract world [W] whose answers are unconstrained (a [Bus]); the code is a
    state-passing program over it that logs every call it makes together with
    the answer, so a theorem can speak about the calls of a run. *)

From S2P Require Import Prelude GoTime Core Errors GoStrings NMVariant NMMapping SecretAgent NMRead NMWifi.

Definition secretPollInterval : Duration := second.

(** ** Waiting for an activation *)

(** One outcome of the [select] of [waitEvents]: the context ended, the timer
    fired (and whether a secret request was pending then), the state changed,
    or the client was closed. *)
Inductive wait_event : Type :=
| WCtxDone (err : error)
| WTimer (pending : bool)
| WState (state reason : Z)
| WClosed.

(** How a wait ends: the loop's own answer, or an activation that ended and
    whose reason is still to be put into words. *)
Inductive wait_result : Type :=
| WOk
| WErr (e : error)
| WFailed (reason : Z).

Section Wait.
Context (activateTimeout : Duration) (timeout_text : string).

(** The loop's variables: [extended] and the duration the timer runs for. *)
Record wait_st := mkWaitSt { ws_extended : bool; ws_timer : Duration }.

Definition wait_start : wait_st := mkWaitSt false activateTimeout.

Definition wait_step (op : string) (st : wait_st) (ev : wait_event) : wait_st + wait_result :=
  match ev with
  | WCtxDone e => inr (WErr (ENM op "" "" "" (Some e)))
  | WTimer pending =>
      if pending then inl (mkWaitSt true secretPollInterval)
      else if ws_extended st then inl (mkWaitSt false activateTimeout)
      else inr (WErr (newErr op (Some nm_ErrTimeout)
                        ("NetworkManager did not finish activating within " +:+ timeout_text)))
  | WClosed => inr (WErr (newErr op (Some nm_ErrUnavailable) "client closed"))
  | WState s reason =>
      if s =? activeActivated then inr WOk
      else if s =? activeDeactivated then inr (WFailed reason)
      else inl st
  end.

(** [waitEvents] on the outcomes of its successive selects; [None] while it
    is still waiting. *)
Fixpoint waitEvents (op : string) (st : wait_st) (evs : list wait_event) : option wait_result :=
  match evs with
  | [] => None
  | ev :: evs' =>
      match wait_step op st ev with
      | inl st' => waitEvents op st' evs'
      | inr r => Some r
      end
  end.

(** [waitActive] up to [activationError]: [live] is the state it reads before
    it waits, when the read succeeds and is a [uint32]. *)
Definition waitActive (op path : string) (live : option Z) (evs : list wait_event) : option wait_result :=
  if negb (realPath path) then Some WOk
  else
    match live with
    | Some s =>
        if s =? activeActivated then Some WOk
        else if s =? activeDeactivated then Some (WFailed activeReasonUnknown)
        else waitEvents op wait_start evs
    | None => waitEvents op wait_start evs
    end.
End Wait.

(** [activationError]; [devRsn] is the last StateChanged reason per device. *)
Definition activationError (v : view) (devRsn : gmap string Z) (op path : string) (reason : Z) : error :=
  let kind := if activeReasonIsAuth reason then Some nm_ErrAuthFailed else None in
  let msg := activeReasonText reason in
  let devReason :=
    default 0 (first_some (fun dp =>
        match devRsn !! dp with
        | Some r => if r =? devReasonNone then None else Some r
        | None => None
        end) (vPaths (view_props v path ifaceActive) "Devices")) in
  let t := devReasonText devReason in
  let '(msg, kind) :=
    if negb (t =?s "") then
      (t, if devReasonIsAuth devReason then Some nm_ErrAuthFailed
          else if devReason =? devReasonSSIDNotFound then Some nm_ErrNotFound else kind)
    else (msg, kind) in
  let kind :=
    match kind with
    | None => if reason =? activeReasonNoSecrets then Some nm_ErrNoSecrets else None
    | Some _ => kind
    end in
  newErr op kind msg.

(** ** The bus *)

Section Connect.
Context {W : Type}.

(** What [waitActive] gets to see: the live state, the select outcomes, and
    the cache when an activation has ended. *)
Record wait_env := mkWaitEnv {
  we_live : option Z; we_events : list wait_event; we_view : view; we_devRsn : gmap string Z
}.

Record Bus := mkBus {
  b_GetSettings : string -> W -> result call_error settingsDict * W;
  b_VersionId : string -> W -> option Z * W;
  b_Update2 : string -> settingsDict -> option Z -> W -> option call_error * W;
  b_Update : string -> settingsDict -> W -> option call_error * W;
  b_Activate : string -> string -> string -> W -> result call_error string * W;
  b_AddAndActivate2 : settingsDict -> string -> string -> W -> result call_error (string * string) * W;
  b_AddAndActivate : settingsDict -> string -> string -> W -> result call_error (string * string) * W;
  b_Delete : string -> W -> option call_error * W;
  b_Wait : string -> W -> wait_env * W;
  b_Deactivate : string -> W -> option call_error * W;
  b_Disconnect : string -> W -> option call_error * W;
  b_SetWireless : bool -> W -> option call_error * W;
  b_AddConnection2 : settingsDict -> W -> result call_error string * W;
  b_AddConnection : settingsDict -> W -> result call_error string * W;
  b_RequestScan : string -> W -> option call_error * W
}.

(** A call that was made, with its answer. *)
Inductive entry : Type :=
| EGetSettings (p : string) (r : result call_error settingsDict)
| EVersionId (p : string) (r : option Z)
| EUpdate2 (p : string) (s : settingsDict) (vid : option Z) (r : option call_error)
| EUpdate (p : string) (s : settingsDict) (r : option call_error)
| EActivate (conn dev ap : string) (r : result call_error string)
| EAdd2 (s : settingsDict) (dev ap : string) (r : result call_error (string * string))
| EAdd (s : settingsDict) (dev ap : string) (r : result call_error (string * string))
| EDelete (p : string)
| EWait (p : string) (r : option wait_result)
| EDeactivate (p : string) (r : option call_error)
| EDisconnect (p : string) (r : option call_error)
| ESetWireless (on : bool) (r : option call_error)
| ENew2 (s : settingsDict) (r : result call_error string)
| ENew (s : settingsDict) (r : result call_error string)
| EScan (dev : string) (r : option call_error).

(** A program: given the world, an answer (or none, while it is blocked or
    where it panics), the calls it made and the new world. *)
Definition M (A : Type) : Type := W -> option A * list entry * W.

Definition ret {A} (a : A) : M A := fun w => (Some a, [], w).

Definition bind {A B} (m : M A) (f : A -> M B) : M B := fun w =>
  match m w with
  | (Some a, tr, w') => let '(b, tr', w'') := f a w' in (b, tr ++ tr', w'')
  | (None, tr, w') => (None, tr, w')
  end.

(** It panics. *)
Definition panics {A} : M A := fun w => (None, [], w).

(** A single call. *)
Definition call {A} (f : W -> A * W) (log : A -> entry) : M A := fun w =>
  let '(a, w') := f w in (Some a, [log a], w').

Context (bus : Bus) (Quote : string -> string).
Context (username : string) (activateTimeout : Duration) (timeout_text : string).

Local Notation "x <-! m ;; k" := (bind m (fun x => k)) (at level 60, m at next level, right associativity).

Definition wait_for (op path : string) : M (option error) := fun w =>
  let '(env, w') := b_Wait bus path w in
  let r := waitActive activateTimeout timeout_text op path (we_live env) (we_events env) in
  (match r with
   | None => None
   | Some WOk => Some None
   | Some (WErr e) => Some (Some e)
   | Some (WFailed reason) => Some (Some (activationError (we_view env) (we_devRsn env) op path reason))
   end, [EWait path r], w').

(** [editSettings]; the refresh of the cache that ends it only reads.  An edit
    that has no answer panics. *)
Definition editSettings (op conn : string) (edit : settingsDict -> option (result error settingsDict)) : M (option error) :=
  raw <-! call (b_GetSettings bus conn) (EGetSettings conn) ;;
  match raw with
  | Err e => ret (wrapDBus op (Some e))
  | Ok raw =>
      let s := sanitizeForUpdate raw in
      let s := match s !! settingConnection with Some _ => s | None => <[settingConnection := ∅]> s end in
      match edit s with
      | None => panics
      | Some (Err e) => ret (Some e)
      | Some (Ok s) =>
          vid <-! call (b_VersionId bus conn) (EVersionId conn) ;;
          err <-! call (b_Update2 bus conn s vid) (EUpdate2 conn s vid) ;;
          if isUnknownMethod err then
            err <-! call (b_Update bus conn s) (EUpdate conn s) ;;
            ret (wrapDBus op err)
          else ret (wrapDBus op err)
      end
  end.

(** The edit of [updatePSK]: [s[settingWifi]["security"] = ...] panics on a
    profile that has neither a security nor a Wi-Fi section. *)
Definition psk_edit (psk : string) (s : settingsDict) : option settingsDict :=
  sec_s ← match s !! settingWifiSecurity with
    | Some sec => Some (sec, s)
    | None =>
        wifi ← s !! settingWifi;
        Some (<["key-mgmt" := VString "wpa-psk"]> ∅, <[settingWifi := <["security" := VString settingWifiSecurity]> wifi]> s)
    end;
  Some (<[settingWifiSecurity := <["psk-flags" := VUint32 secretFlagsNone]> (<["psk" := VString psk]> (fst sec_s))]> (snd sec_s)).

Definition updatePSK (path psk : string) : M (option error) :=
  editSettings "update wifi password" path (fun s => Ok <$> psk_edit psk s).

(** [!errors.Is(err, context.Canceled) && !errors.Is(err, context.DeadlineExceeded)] *)
Definition junk_profile (err : error) : bool :=
  negb (errors_Is (Some err) Canceled) && negb (errors_Is (Some err) DeadlineExceeded).

(** Activating a saved profile. *)
Definition connect_saved (op : string) (prof : wifiProfile) (dev apPath password : string) : M (option error) :=
  err <-! (if negb (password =?s "") then updatePSK (wp_path prof) password else ret None) ;;
  match err with
  | Some e => ret (Some e)
  | None =>
      r <-! call (b_Activate bus (wp_path prof) dev apPath) (EActivate (wp_path prof) dev apPath) ;;
      match r with
      | Err e => ret (wrapDBus op (Some e))
      | Ok active => wait_for op active
      end
  end.

(** What happens after the attempt to add the profile: wait, and clear the
    profile away again when its activation failed. *)
Definition settle_new (op : string) (r : result call_error (string * string)) : M (option error) :=
  match r with
  | Err e => ret (wrapDBus op (Some e))
  | Ok (connPath, active) =>
      err <-! wait_for op active ;;
      match err with
      | None => ret None
      | Some e =>
          if junk_profile e
          then _ <-! call (b_Delete bus connPath) (fun _ => EDelete connPath) ;; ret (Some e)
          else ret (Some e)
      end
  end.

(** Creating a profile and activating it. *)
Definition connect_new (op : string) (settings : settingsDict) (dev apPath : string) : M (option error) :=
  r2 <-! call (b_AddAndActivate2 bus settings dev apPath) (EAdd2 settings dev apPath) ;;
  r <-! (if isUnknownMethod (match r2 with Err e => Some e | Ok _ => None end)
        then call (b_AddAndActivate bus settings dev apPath) (EAdd settings dev apPath)
        else ret r2) ;;
  settle_new op r.

(** [ConnectWifi]; [v] is the cache, [agent] is [AgentRegistered()]. *)
Definition ConnectWifi (v : view) (agent : bool) (req : ConnectWifiRequest) : M (option error) :=
  let op := "connect wifi " +:+ cw_SSID req in
  if TrimSpace (cw_SSID req) =?s "" then ret (Some (newErr op None "SSID is required"))
  else
    match pickWifiDevice v (cw_Device req) with
    | Err e => ret (Some e)
    | Ok dev =>
        let devName := deviceName v dev in
        let ap := bestAP Quote v dev (cw_SSID req) in
        let apPath := match ap with Some a => ap_path a | None => "/" end in
        match pickProfile (wifiProfiles Quote v (cw_SSID req)) devName with
        | Some prof => connect_saved op prof dev apPath (cw_Password req)
        | None =>
            let sec :=
              match ap with
              | Some a => ap_security a
              | None => if negb (cw_Password req =?s "") then SecWPAPSK else SecOpen
              end in
            if negb (cw_Username req =?s "") || (sec =?s SecWPAEAP)
            then ret (Some (newErr op (Some nm_ErrUnsupported)
                              "WPA-EAP (enterprise) networks are unsupported in v1"))
            else
              let hidden := cw_Hidden req || match ap with Some _ => false | None => true end in
              let prompt := (cw_Password req =?s "") && agent in
              match wifiPartialSettings (cw_SSID req) hidden sec (cw_Password req) username prompt with
              | Err e => ret (Some e)
              | Ok settings => connect_new op settings dev apPath
              end
        end
    end.
End Connect.
