(* ===== verification/NMWifiFacts.v ===== *)
(** The list of networks in range, and the profile made for a new network. *)

From S2P Require Import Prelude GoTime Core Errors GoStrings NMVariant NMMapping SecretAgent NMRead NMWifi.

(** ** Walking the access points of a device *)

Section Aggregate.
Context (Quote : string -> string) (v : view) (now : Time) (uptime : option float64).
Context (dev activeAP : string).

(** The access point at a path, when it is known and not hidden. *)
Definition visibleAP (app : string) : option accessPoint :=
  match view_props_opt v app ifaceAP with
  | None => None
  | Some p => let ap := decodeAP Quote app p in if ap_ssid ap =?s "" then None else Some ap
  end.

Definition saved_profile (ssid : string) : option wifiProfile :=
  pickProfile (wifiProfiles Quote v ssid) dev.

(** The network of one SSID before and after one of its access points. *)
Definition net_step (o : option WifiNetwork) (ap : accessPoint) : option WifiNetwork :=
  Some (merge_ap now uptime activeAP
          (default (new_network ap dev (saved_profile (ap_ssid ap))) o) ap).

Definition agg_step (st : agg) (ap : accessPoint) : agg :=
  mkAgg (partial_alter (fun o => net_step o ap) (ap_ssid ap) (ag_bySSID st))
    (match ag_bySSID st !! ap_ssid ap with Some _ => ag_order st | None => ag_order st ++ [ap_ssid ap] end).

Lemma add_ap_visible st app :
  add_ap Quote v now uptime dev activeAP st app =
  match visibleAP app with Some ap => agg_step st ap | None => st end.
Proof.
  unfold add_ap, visibleAP, agg_step, net_step.
  destruct (view_props_opt v app ifaceAP) as [p|]; [|done]. cbv zeta.
  destruct (ap_ssid (decodeAP Quote app p) =?s ""); [done|].
  destruct (ag_bySSID st !! ap_ssid (decodeAP Quote app p)) as [n|] eqn:Hn; f_equal; apply map_eq; intros i;
    (destruct (decide (i = ap_ssid (decodeAP Quote app p))) as [->|Hne];
     [by rewrite lookup_insert_eq, lookup_partial_alter_eq, Hn
     |by rewrite lookup_insert_ne, lookup_partial_alter_ne]).
Qed.

Lemma fold_visible apps st :
  fold_left (add_ap Quote v now uptime dev activeAP) apps st = fold_left agg_step (omap visibleAP apps) st.
Proof.
  revert st; induction apps as [|app apps IH]; intros st; [done|].
  cbn [fold_left]. rewrite add_ap_visible, IH. simpl. by destruct (visibleAP app).
Qed.

(** A network's entry depends on the access points of its own SSID only. *)
Lemma agg_lookup aps st ssid :
  ag_bySSID (fold_left agg_step aps st) !! ssid =
  fold_left net_step (List.filter (fun ap => ap_ssid ap =?s ssid) aps) (ag_bySSID st !! ssid).
Proof.
  revert st; induction aps as [|ap aps IH]; intros st; [done|].
  cbn [fold_left List.filter]. rewrite IH. cbn [agg_step ag_bySSID].
  destruct (ap_ssid ap =?s ssid) eqn:Hs; bool_to_prop.
  - subst. by rewrite lookup_partial_alter_eq.
  - by rewrite lookup_partial_alter_ne.
Qed.

Definition agg_inv (st : agg) : Prop :=
  NoDup (ag_order st) /\
  (forall ssid, ssid ∈ ag_order st <-> is_Some (ag_bySSID st !! ssid)) /\
  (forall ssid n, ag_bySSID st !! ssid = Some n -> wn_SSID n = ssid).

Lemma merge_ap_SSID n ap : wn_SSID (merge_ap now uptime activeAP n ap) = wn_SSID n.
Proof. unfold merge_ap. by destruct (wifiChannel _). Qed.

Lemma agg_step_inv st ap : agg_inv st -> agg_inv (agg_step st ap).
Proof.
  intros (Hnd & Hord & Hkey). unfold agg_step. split_and!; cbn [ag_order ag_bySSID].
  - destruct (ag_bySSID st !! ap_ssid ap) eqn:Hl; [done|]. apply NoDup_app. split_and!; [done| |apply NoDup_singleton].
    intros x Hx ->%list_elem_of_singleton. apply Hord in Hx as [? Hx]. congruence.
  - intros ssid. destruct (decide (ssid = ap_ssid ap)) as [->|Hne].
    + rewrite lookup_partial_alter_eq. destruct (ag_bySSID st !! ap_ssid ap) eqn:Hl.
      * split; [by eexists|]. intros _. apply Hord. by rewrite Hl.
      * split; [by eexists|]. intros _. apply elem_of_app. right. by apply list_elem_of_singleton.
    + rewrite lookup_partial_alter_ne by done. rewrite <- Hord.
      destruct (ag_bySSID st !! ap_ssid ap); [done|].
      rewrite elem_of_app, list_elem_of_singleton. naive_solver.
  - intros ssid n. destruct (decide (ssid = ap_ssid ap)) as [->|Hne].
    + rewrite lookup_partial_alter_eq. intros [= <-]. rewrite merge_ap_SSID.
      destruct (ag_bySSID st !! ap_ssid ap) as [m|] eqn:Hl; [by apply Hkey|done].
    + rewrite lookup_partial_alter_ne by done. apply Hkey.
Qed.

Lemma agg_fold_inv aps st : agg_inv st -> agg_inv (fold_left agg_step aps st).
Proof. revert st; induction aps as [|ap aps IH]; intros st Hi; [done|]. by apply IH, agg_step_inv. Qed.

(** ** One network *)

(** [n] is the network that the access points [aps] of one SSID add up to. *)
Record net_of (aps : list accessPoint) (n : WifiNetwork) : Prop := {
  no_strongest : exists ap, ap ∈ aps /\ (forall ap', ap' ∈ aps -> ap_strength ap' <= ap_strength ap) /\
    wn_Strength n = ap_strength ap /\ wn_Security n = ap_security ap /\
    wn_Frequency n = ap_frequency ap /\ (wn_Channel n, wn_Band n) = wifiChannel (ap_frequency ap);
  no_bssids : wn_BSSIDs n = List.filter (fun b => negb (b =?s "")) (map ap_bssid aps);
  no_active : wn_Active n = existsb (fun ap => ap_path ap =?s activeAP) aps;
  no_profile : forall ssid, (forall ap, ap ∈ aps -> ap_ssid ap = ssid) ->
    wn_Known n = match saved_profile ssid with Some _ => true | None => false end /\
    wn_ProfileUUID n = match saved_profile ssid with Some p => wp_uuid p | None => "" end;
  no_device : wn_Device n = dev
}.

Lemma net_step_first ap n :
  0 <= ap_strength ap -> net_step None ap = Some n -> net_of [ap] n.
Proof.
  intros Hs [= <-]. unfold merge_ap, new_network. cbn.
  destruct (wifiChannel (ap_frequency ap)) as [ch band] eqn:Hc. cbn.
  rewrite orb_true_r, andb_true_r. replace (0 <=? ap_strength ap) with true by (symmetry; apply Z.leb_le; lia).
  split; cbn.
  - exists ap. split_and!; try done; [by left|]. intros ap' ->%list_elem_of_singleton. lia.
  - by destruct (ap_bssid ap =?s "").
  - by destruct (ap_path ap =?s activeAP).
  - intros ssid Hall. by rewrite <- (Hall ap) by left.
  - done.
Qed.

Lemma net_step_next aps m ap n :
  0 <= ap_strength ap -> net_of aps m -> net_step (Some m) ap = Some n -> net_of (aps ++ [ap]) n.
Proof.
  intros Hs [(b & Hb & Hmax & Hst & Hsec & Hfr & Hch) Hbs Hac Hpr Hdev] [= <-].
  unfold merge_ap; cbn [default].
  destruct (wifiChannel (ap_frequency ap)) as [ch band] eqn:Hc. cbn.
  set (take := (wn_Strength m <=? ap_strength ap) && _).
  split; cbn.
  - destruct take eqn:Ht; subst take; bool_to_prop.
    + exists ap. split_and!; try done; [set_solver|].
      intros ap' [Hin| ->%list_elem_of_singleton]%elem_of_app; [|lia]. specialize (Hmax _ Hin). lia.
    + exists b. split_and!; try done; [set_solver|].
      intros ap' [Hin| ->%list_elem_of_singleton]%elem_of_app; [by apply Hmax|].
      apply andb_false_iff in Ht as [Ht|Ht]; bool_to_prop; lia.
  - rewrite map_app, List.filter_app, <- Hbs. cbn. destruct (ap_bssid ap =?s ""); cbn; [by rewrite app_nil_r|done].
  - rewrite existsb_app, <- Hac. cbn. rewrite orb_false_r.
    destruct (ap_path ap =?s activeAP); [by rewrite orb_true_r|by rewrite orb_false_r].
  - intros ssid Hall. apply Hpr. intros ap' Hin. apply Hall. set_solver.
  - done.
Qed.

Lemma net_fold_next aps2 aps1 m n :
  Forall (fun ap => 0 <= ap_strength ap) aps2 -> net_of aps1 m ->
  fold_left net_step aps2 (Some m) = Some n -> net_of (aps1 ++ aps2) n.
Proof.
  revert aps1 m. induction aps2 as [|ap aps2 IH]; intros aps1 m Hs Hm; cbn [fold_left].
  - intros [= <-]. by rewrite app_nil_r.
  - apply Forall_cons in Hs as [Hap Hs]. intros Hf. rewrite cons_middle, (assoc_L (++)).
    destruct (net_step (Some m) ap) as [m'|] eqn:Hstep; [|done].
    eapply IH; [done| |exact Hf]. by eapply net_step_next.
Qed.

Lemma net_fold_is_Some aps ssid :
  is_Some (fold_left net_step (List.filter (fun ap => ap_ssid ap =?s ssid) aps) None) <->
  exists ap, ap ∈ aps /\ ap_ssid ap = ssid.
Proof.
  assert (forall l o, is_Some o -> is_Some (fold_left net_step l o)) as Hs.
  { induction l as [|x l IH]; intros o Ho; [done|]. cbn. apply IH. by eexists. }
  split.
  - intros [n Hn]. destruct (List.filter _ aps) as [|ap l] eqn:Hf; [done|].
    assert (ap ∈ List.filter (fun ap => ap_ssid ap =?s ssid) aps) as Hin by (rewrite Hf; left).
    apply list_elem_of_In, filter_In in Hin as [Hin ?]. bool_to_prop. exists ap.
    split; [by apply list_elem_of_In|done].
  - intros (ap & Hin & Hss). assert (ap ∈ List.filter (fun ap => ap_ssid ap =?s ssid) aps) as Hf.
    { apply list_elem_of_In, filter_In. split; [by apply list_elem_of_In|]. by apply String.eqb_eq. }
    destruct (List.filter _ aps) as [|x l]; [by apply elem_of_nil in Hf|]. cbn. apply Hs. by eexists.
Qed.

Lemma net_fold aps n :
  Forall (fun ap => 0 <= ap_strength ap) aps -> fold_left net_step aps None = Some n -> net_of aps n.
Proof.
  destruct aps as [|ap aps]; [done|]. intros [Hap Hs]%Forall_cons. cbn [fold_left]. intros Hf.
  destruct (net_step None ap) as [m|] eqn:Hstep; [|done].
  apply (net_fold_next aps [ap] m n Hs); [by apply net_step_first|done].
Qed.
End Aggregate.

(** ** The whole list *)

(** The strengths NetworkManager reports are bytes. *)
Definition strengths_ok (v : view) : Prop :=
  forall app p, view_props_opt v app ifaceAP = Some p -> 0 <= vU8 p "Strength".

Lemma strengths_ok_check v :
  forallb (fun o => match o.2 !! ifaceAP with Some p => 0 <=? vU8 p "Strength" | None => true end) (v_objs v) = true ->
  strengths_ok v.
Proof.
  intros Hall app p. unfold view_props_opt. induction (v_objs v) as [|[k m] l IH]; cbn in *; [done|].
  apply andb_true_iff in Hall as [Hm Hall]. destruct (k =?s app); [|by auto].
  intros Hp. rewrite Hp in Hm. by apply Z.leb_le.
Qed.

Lemma device_networks_fold Quote v now uptime dp :
  let dev := deviceName v dp in
  let st := fold_left (agg_step Quote v now uptime dev (activeAP_of v dp))
              (omap (visibleAP Quote v) (vPaths (view_props v dp ifaceWireless) "AccessPoints")) (mkAgg ∅ []) in
  device_networks Quote v now uptime dp = omap (fun ssid => ag_bySSID st !! ssid) (ag_order st) /\
  agg_inv st.
Proof.
  cbv zeta. unfold device_networks. rewrite fold_visible. split; [done|]. apply agg_fold_inv.
  split_and!; cbn; [constructor| |done]. intros ssid. rewrite lookup_empty. split; [|by intros [? ?]].
  intros H. by apply elem_of_nil in H.
Qed.

Lemma omap_keyed {A} (f : string -> option A) (key : A -> string) (l : list string) :
  (forall k a, f k = Some a -> key a = k) -> (forall k, k ∈ l -> is_Some (f k)) ->
  map key (omap f l) = l.
Proof.
  intros Hk Hl. induction l as [|k l IH]; [done|]. simpl.
  destruct (Hl k) as [a Ha]; [by left|]. rewrite Ha. simpl. f_equal; [by apply Hk|].
  apply IH. intros k' Hin. apply Hl. by right.
Qed.

Lemma visible_strength Quote v l :
  strengths_ok v -> Forall (fun ap => 0 <= ap_strength ap) (omap (visibleAP Quote v) l).
Proof.
  intros Hv. apply Forall_forall. intros ap (app & _ & Hap)%list_elem_of_omap. revert Hap.
  unfold visibleAP. destruct (view_props_opt v app ifaceAP) as [p|] eqn:Hp; [|done]. cbv zeta.
  case_test; [done|]. intros [= <-]. cbn. by eapply Hv.
Qed.

Lemma network_less_total a b : negb (network_less b a) = true \/ negb (network_less a b) = true.
Proof.
  unfold network_less. destruct (wn_Active a), (wn_Active b); cbn; auto.
  all: destruct (Z.ltb_spec (wn_Strength a) (wn_Strength b)), (Z.ltb_spec (wn_Strength b) (wn_Strength a));
    cbn; auto; lia.
Qed.

Lemma network_less_trans a b c :
  negb (network_less b a) = true -> negb (network_less c b) = true -> negb (network_less c a) = true.
Proof.
  unfold network_less. destruct (wn_Active a), (wn_Active b), (wn_Active c); cbn; try done.
  all: rewrite !negb_true_iff, !Z.ltb_ge; lia.
Qed.

(** C16: Listing the networks in range.  Per Wi-Fi device there is exactly one
    entry for each SSID some visible access point announces; it carries the
    signal, security, frequency, channel and band of a strongest access point of
    that SSID, the BSSIDs of all of them, whether the device is on one of them,
    and the saved profile [pickProfile] prefers.  The list is exactly these
    entries, those in use first and then by falling strength.  An unknown
    device is a not-found error, a missing NetworkManager is "unavailable". *)
Theorem WifiNetworks_exact Quote v now uptime device :
  strengths_ok v ->
  match WifiNetworks Quote v now uptime device with
  | Err e => KindOf (Some e) = (if view_has v pathNM ifaceNM then KindNotFound else KindUnavailable) /\
             (view_has v pathNM ifaceNM = true -> wifiDevices v device = [])
  | Ok nets =>
      StronglySorted (fun a b => network_less b a = false) nets /\
      nets ≡ₚ flat_map (device_networks Quote v now uptime) (wifiDevices v device) /\
      forall dp, dp ∈ wifiDevices v device ->
        let aps := omap (visibleAP Quote v) (vPaths (view_props v dp ifaceWireless) "AccessPoints") in
        let here := device_networks Quote v now uptime dp in
        NoDup (map wn_SSID here) /\
        (forall ssid, ssid ∈ map wn_SSID here <-> exists ap, ap ∈ aps /\ ap_ssid ap = ssid) /\
        (forall n, n ∈ here ->
           net_of Quote v (deviceName v dp) (activeAP_of v dp)
             (List.filter (fun ap => ap_ssid ap =?s wn_SSID n) aps) n)
  end.
Proof.
  intros Hv. unfold WifiNetworks. destruct (view_has v pathNM ifaceNM) eqn:Hnm; cbn [negb]; [|done].
  destruct (negb (device =?s "") && (len (wifiDevices v device) =? 0)) eqn:Hd.
  { bool_to_prop. split; [done|]. intros _. unfold len in *. by destruct (wifiDevices v device). }
  split_and!.
  - eapply StronglySorted_weaken; [|apply isort_sorted].
    + intros a b. by rewrite negb_true_iff.
    + apply network_less_total.
    + apply network_less_trans.
  - apply isort_perm.
  - intros dp Hdp.
    set (aps := omap (visibleAP Quote v) (vPaths (view_props v dp ifaceWireless) "AccessPoints")).
    set (here := device_networks Quote v now uptime dp).
    destruct (device_networks_fold Quote v now uptime dp) as [Hh (Hnd & Hord & Hkey)]. fold aps in Hh, Hnd, Hord, Hkey.
    set (st := fold_left _ aps _) in *. fold here in Hh.
    assert (map wn_SSID here = ag_order st) as Hmap.
    { rewrite Hh. apply omap_keyed; [apply Hkey|]. intros k Hk. by apply Hord. }
    assert (forall ssid, ag_bySSID st !! ssid =
      fold_left (net_step Quote v now uptime (deviceName v dp) (activeAP_of v dp))
        (List.filter (fun ap => ap_ssid ap =?s ssid) aps) None) as Hlk.
    { intros ssid. unfold st. by rewrite agg_lookup. }
    split_and!.
    + by rewrite Hmap.
    + intros ssid. rewrite Hmap, Hord, Hlk. apply net_fold_is_Some.
    + intros n Hn. rewrite Hh in Hn. apply list_elem_of_omap in Hn as (ssid & Hin & Hn).
      pose proof (Hkey _ _ Hn) as <-. rewrite Hlk in Hn. eapply net_fold; [|exact Hn].
      apply Forall_forall. intros ap [Hap _]%list_elem_of_In%filter_In. apply list_elem_of_In in Hap.
      revert ap Hap. apply Forall_forall, visible_strength, Hv.
Qed.

(** One Wi-Fi device in range of two access points of "home" (it is on the
    weaker one) and of a hidden one, with a saved profile for "home". *)
Definition example_view : view :=
  let ap (ssid bssid : string) (s f : Z) : gmap string props :=
    {[ ifaceAP := <["Ssid" := VBytes ssid]> (<["HwAddress" := VString bssid]>
         (<["Strength" := VByte s]> (<["Frequency" := VUint32 f]> (<["RsnFlags" := VUint32 256]> ∅)))) ]} in
  mkView
    [(pathNM, {[ ifaceNM := ∅ ]});
     ("/D/1", <[ifaceDevice := {[ "Interface" := VString "wlan0" ]}]>
        {[ ifaceWireless := <["ActiveAccessPoint" := VPath "/A/1"]>
             {[ "AccessPoints" := VPaths ["/A/1"; "/A/2"; "/A/3"] ]} ]});
     ("/A/1", ap "home" "aa" 40 2412); ("/A/2", ap "home" "bb" 70 5180); ("/A/3", ap "" "cc" 90 2412)]
    [("/S/1", <[settingConnection := <["type" := VString typeWifi]> {[ "uuid" := VString "u1" ]}]>
        {[ settingWifi := {[ "ssid" := VBytes "home" ]} ]})].

Lemma WifiNetworks_exact_witness :
  strengths_ok example_view /\
  match WifiNetworks id example_view 0 None "" with
  | Ok [n] => wn_SSID n = "home" /\ wn_Strength n = 70 /\ wn_Channel n = 36 /\ wn_BSSIDs n = ["aa"; "bb"] /\
              wn_Active n = true /\ wn_ProfileUUID n = "u1" /\
              (exists ap, ap ∈ omap (visibleAP id example_view) ["/A/1"; "/A/2"; "/A/3"] /\ ap_ssid ap = "home")
  | _ => False
  end.
Proof.
  assert (strengths_ok example_view) as Hv by (apply strengths_ok_check; vm_compute; reflexivity).
  split; [exact Hv|].
  pose proof (WifiNetworks_exact id example_view 0 None "" Hv) as H.
  destruct (WifiNetworks id example_view 0 None "") as [[|n [|? ?]]|] eqn:E; vm_compute in E; try discriminate E.
  injection E as E. subst n. destruct H as (_ & _ & H). destruct (H "/D/1") as (_ & Hss & _).
  { vm_compute. left. }
  split_and!; try reflexivity. apply Hss. vm_compute. left.
Defined.

(** ** The profile of a new network *)

Definition needs_secret (sec : WifiSecurity) : bool :=
  (sec =?s SecWPAPSK) || (sec =?s SecSAE) || (sec =?s SecWEP).

Definition secret_key (sec : WifiSecurity) : string := if sec =?s SecWEP then "wep-key0" else "psk".

(** What the settings hold, setting by setting. *)
Lemma wifiPartialSettings_shape ssid hidden sec password user prompt s :
  sec ∈ [SecOpen; SecOWE; SecWEP; SecWPAPSK; SecSAE; SecWPAEAP] ->
  wifiPartialSettings ssid hidden sec password user prompt = Ok s ->
  sec <> SecWPAEAP /\ (needs_secret sec = true -> password <> "" \/ prompt = true) /\
  section s settingConnection !! "id" = Some (VString ssid) /\
  section s settingConnection !! "type" = Some (VString typeWifi) /\
  section s settingConnection !! "autoconnect" = None /\
  section s settingConnection !! "permissions" =
    (if user =?s "" then None else Some (VStrings ["user:" +:+ user +:+ ":"])) /\
  (exists w, s !! settingWifi = Some w /\ w !! "ssid" = Some (VBytes ssid)) /\
  vStr (section s settingWifiSecurity) "key-mgmt" = keyMgmtFor sec /\
  (needs_secret sec = true ->
     section s settingWifiSecurity !! secret_key sec =
       (if password =?s "" then None else Some (VString password)) /\
     vU32 (section s settingWifiSecurity)
       (if sec =?s SecWEP then "wep-key-flags" else "psk-flags") = secretFlagsNone) /\
  (needs_secret sec = false -> section s settingWifiSecurity !! secret_key sec = None).
Proof.
  rewrite !elem_of_cons. intros [->|[->|[->|[->|[->|[->|Hsec]]]]]]; [..|by apply elem_of_nil in Hsec].
  all: unfold wifiPartialSettings; cbn [String.eqb Ascii.eqb Bool.eqb SecOpen SecOWE SecWEP SecWPAPSK SecSAE SecWPAEAP orb].
  all: destruct (password =?s "") eqn:Hp, (user =?s "") eqn:Hu, hidden, prompt; cbn [negb andb result_bind];
    intros [= <-]; bool_to_prop; split_and!; try done.
  all: try (intros _; auto).
  all: try (eexists; split; reflexivity).
  all: split; reflexivity.
Qed.

Lemma wifiPartialSettings_refused ssid hidden sec password user prompt e :
  sec ∈ [SecOpen; SecOWE; SecWEP; SecWPAPSK; SecSAE; SecWPAEAP] ->
  wifiPartialSettings ssid hidden sec password user prompt = Err e ->
  (sec = SecWPAEAP /\ errors_Is (Some e) nm_ErrUnsupported = true) \/
  (needs_secret sec = true /\ password = "" /\ prompt = false /\ errors_Is (Some e) nm_ErrNoSecrets = true).
Proof.
  rewrite !elem_of_cons. intros [->|[->|[->|[->|[->|[->|Hsec]]]]]]; [..|by apply elem_of_nil in Hsec].
  all: unfold wifiPartialSettings; cbn [String.eqb Ascii.eqb Bool.eqb SecOpen SecOWE SecWEP SecWPAPSK SecSAE SecWPAEAP orb].
  all: destruct (password =?s "") eqn:Hp, prompt; cbn [negb andb result_bind]; intros [= <-]; bool_to_prop.
  all: first [by left | by right].
Qed.

(** The profile made for a new network.  Enterprise networks are refused as
    unsupported, a protected network without a password as lacking secrets
    unless the agent can prompt; every other request gives settings that read
    back as an autoconnecting Wi-Fi profile with the same SSID and security
    family, scoped to the user, and that hold exactly the password given, stored
    by NetworkManager, or none when it is to be prompted for. *)
Theorem wifiPartialSettings_reads_back Quote ssid hidden sec password user prompt path meta active :
  ssid <> "" -> ValidUTF8 ssid = true ->
  sec ∈ [SecOpen; SecOWE; SecWEP; SecWPAPSK; SecSAE; SecWPAEAP] ->
  match wifiPartialSettings ssid hidden sec password user prompt with
  | Err e =>
      (sec = SecWPAEAP /\ errors_Is (Some e) nm_ErrUnsupported = true) \/
      (needs_secret sec = true /\ password = "" /\ prompt = false /\ errors_Is (Some e) nm_ErrNoSecrets = true)
  | Ok s =>
      let p := decodeProfile Quote path s meta active in
      sec <> SecWPAEAP /\ (needs_secret sec = true -> password <> "" \/ prompt = true) /\
      pf_SSID p = ssid /\ pf_Security p = sec /\ pf_Type p = ProfileWifi /\ pf_Name p = ssid /\
      pf_Autoconnect p = true /\
      pf_Permissions p = (if user =?s "" then [] else ["user:" +:+ user +:+ ":"]) /\
      (needs_secret sec = true ->
         section s settingWifiSecurity !! secret_key sec =
           (if password =?s "" then None else Some (VString password)) /\
         vU32 (section s settingWifiSecurity)
           (if sec =?s SecWEP then "wep-key-flags" else "psk-flags") = secretFlagsNone) /\
      (needs_secret sec = false -> section s settingWifiSecurity !! secret_key sec = None)
  end.
Proof.
  intros Hne Hutf Hsec.
  assert (ssidString Quote ssid = ssid) as Hss by (unfold ssidString; by rewrite (seqb_ne _ _ Hne), Hutf).
  destruct (wifiPartialSettings ssid hidden sec password user prompt) as [s|e] eqn:Hs.
  2: { eapply wifiPartialSettings_refused; eassumption. }
  destruct (wifiPartialSettings_shape _ _ _ _ _ _ _ Hsec Hs)
    as (Heap & Hsecret & Hid & Hty & Hau & Hpe & (w & Hw & Hws) & Hkm & Hpw & Hnopw).
  assert (profileSecurity (keyMgmtFor sec) = sec) as Hback.
  { rewrite !elem_of_cons in Hsec. destruct Hsec as [->|[->|[->|[->|[->|[->|Hsec]]]]]]; try done.
    by apply elem_of_nil in Hsec. }
  cbv zeta. unfold decodeProfile. rewrite Hw, Hkm, Hback.
  destruct (match s !! settingVPN with Some v => _ | None => _ end) as [stype data].
  cbn [pf_SSID pf_Security pf_Type pf_Name pf_Autoconnect pf_Permissions].
  unfold vStr, vBool, vStrs, vBytes. rewrite Hid, Hty, Hau, Hpe, Hws, Hss.
  split_and!; try done; [by destruct (user =?s "")|apply Hpw; assumption..].
Qed.

Lemma wifiPartialSettings_reads_back_witness :
  match wifiPartialSettings "café" true SecWPAPSK "hunter22" "ann" false with
  | Ok s =>
      let p := decodeProfile id "/S/9" s (mkConnMeta "" 0) false in
      pf_SSID p = "café" /\ pf_Security p = SecWPAPSK /\
      section s settingWifiSecurity !! "psk" = Some (VString "hunter22")
  | Err _ => False
  end.
Proof.
  pose proof (wifiPartialSettings_reads_back id "café" true SecWPAPSK "hunter22" "ann" false "/S/9"
                (mkConnMeta "" 0) false ltac:(done) eq_refl ltac:(repeat (first [left | right]; fail) || set_solver)) as H.
  destruct (wifiPartialSettings "café" true SecWPAPSK "hunter22" "ann" false) as [s|e] eqn:E; [|discriminate E].
  destruct H as (_ & _ & H1 & H2 & _ & _ & _ & _ & H3 & _).
  split; [exact H1|]. split; [exact H2|]. exact (proj1 (H3 eq_refl)).
Defined.
