(* ===== verification/NMConnectFacts.v ===== *)
(** Joining a network: what a run of [ConnectWifi] does to NetworkManager, and
    how long it waits. *)

From S2P Require Import Prelude GoTime Core Errors GoStrings NMVariant NMMapping SecretAgent NMRead NMWifi NMConnect.

(** ** Waiting *)

Section WaitFacts.
Context (activateTimeout : Duration) (timeout_text op : string).

Local Abbreviation step := (wait_step activateTimeout timeout_text op).
Local Abbreviation waits := (waitEvents activateTimeout timeout_text op).
Local Abbreviation start := (wait_start activateTimeout).

Lemma waits_app st evs1 evs2 :
  (exists st', waits st (evs1 ++ evs2) = waits st' evs2 /\ waits st evs1 = None) \/
  (exists r, waits st evs1 = Some r /\ waits st (evs1 ++ evs2) = Some r).
Proof.
  revert st; induction evs1 as [|ev evs1 IH]; intros st; cbn; [by left; eexists|].
  destruct (step st ev) as [st'|r]; [apply IH|]. right. by eexists.
Qed.

(** Two polls in a row without a pending request end the wait. *)
Lemma waits_two_quiet st : exists r, waits st [WTimer false; WTimer false] = Some r.
Proof. cbn. destruct (ws_extended st); cbn; eauto. Qed.

Lemma waits_WOk st evs : waits st evs = Some WOk -> exists reason, WState activeActivated reason ∈ evs.
Proof.
  revert st; induction evs as [|ev evs IH]; intros st; cbn; [done|].
  destruct (step st ev) as [st'|r] eqn:Hs.
  - intros H. destruct (IH _ H) as [reason Hin]. exists reason. by right.
  - intros [= ->]. destruct ev; cbn in Hs; try done.
    + destruct pending, (ws_extended st); discriminate Hs.
    + repeat case_test; try done. bool_to_prop; subst. eexists. by left.
Qed.

Lemma waits_WFailed st evs reason :
  waits st evs = Some (WFailed reason) -> WState activeDeactivated reason ∈ evs.
Proof.
  revert st; induction evs as [|ev evs IH]; intros st; cbn; [done|].
  destruct (step st ev) as [st'|r] eqn:Hs.
  - intros H. right. by eapply IH.
  - intros [= ->]. destruct ev; cbn in Hs; try done.
    + destruct pending, (ws_extended st); discriminate Hs.
    + repeat case_test; try done. bool_to_prop; subst. injection Hs as ->. by left.
Qed.

(** The select outcomes with the instants they happen at: a timer fires no
    earlier than its duration after it was last set, at [armed]. *)
Fixpoint timers_ok (armed : Time) (st : wait_st) (evs : list (Time * wait_event)) : Prop :=
  match evs with
  | [] => True
  | (t, ev) :: evs' =>
      (match ev with WTimer _ => time_Add armed (ws_timer st) <= t | _ => True end) /\
      match step st ev with
      | inl st' => timers_ok (match ev with WTimer _ => t | _ => armed end) st' evs'
      | inr _ => True
      end
  end.

(** Where the timer stands: quiet and fully granted since [armed], or
    extended by the poll at [armed]. *)
Definition wait_st_ok (st : wait_st) : Prop :=
  (ws_extended st = false /\ ws_timer st = activateTimeout) \/
  (ws_extended st = true /\ ws_timer st = secretPollInterval).

Lemma timeout_after st armed pre T :
  0 < activateTimeout -> wait_st_ok st -> timers_ok armed st (pre ++ [(T, WTimer false)]) ->
  waits st (map snd pre) = None -> waits st (map snd pre ++ [WTimer false]) <> None ->
  armed + activateTimeout <= T /\
  (ws_extended st = true -> armed + secretPollInterval + activateTimeout <= T) /\
  (forall t, (t, WTimer true) ∈ pre -> t + secretPollInterval + activateTimeout <= T).
Proof.
  intros Hat. assert (0 < secretPollInterval) as Hpoll by done.
  revert st armed. induction pre as [|[t ev] pre IH]; intros st armed Hok; cbn -[wait_step secretPollInterval].
  - intros [Ht _] _. destruct (ws_extended st) eqn:He.
    { cbn. rewrite He. done. }
    intros _. destruct Hok as [[_ Hd]|[? _]]; [|congruence]. rewrite Hd in Ht. unfold time_Add in Ht.
    split_and!; [done|done|]. intros t' Hin. by apply elem_of_nil in Hin.
  - intros [Ht Htail]. destruct (step st ev) as [st'|r] eqn:Hs; [|done]. intros Hn1 Hn2.
    assert (wait_st_ok st' /\ match ev with
      | WTimer true => ws_extended st' = true
      | WTimer false => ws_extended st = true
      | _ => st' = st end) as [Hok' Hev].
    { destruct ev; cbn in Hs; try done.
      - destruct pending; [injection Hs as <-; by split; [right|]|].
        destruct (ws_extended st); [|done]. injection Hs as <-. by split; [left|].
      - repeat case_test; try done. by injection Hs as <-. }
    specialize (IH st' _ Hok' Htail Hn1 Hn2) as (H1 & H2 & H3). unfold time_Add in Ht.
    destruct ev as [|pending| |]; try (subst st'; split_and!; [done|done|];
      intros t' [Heq|Hin]%elem_of_cons; [discriminate Heq|by apply H3]).
    destruct Hok as [[He Hd]|[He Hd]]; rewrite Hd in Ht; destruct pending; try congruence.
    + split_and!; [lia|congruence|]. intros t' [[= ->]|Hin]%elem_of_cons; [by apply H2|by apply H3].
    + specialize (H2 Hev). split_and!; [lia|intros _; lia|].
      intros t' [[= ->]|Hin]%elem_of_cons; [done|by apply H3].
    + split_and!; [lia|intros _; lia|]. intros t' [Heq|Hin]%elem_of_cons; [discriminate Heq|by apply H3].
Qed.

(** C12: Waiting for an activation.  It is reported done only after an
    activated state, failed only after a deactivated one.  The timer ends the wait
    no earlier than the full timeout after the start, and no earlier than a poll
    interval and the full timeout after the last of its polls that found a password
    prompt open (a prompt that opens and closes between two polls is not seen);
    and it does end it: two polls in a row that find none settle the wait, whatever
    happened before. *)
Theorem wait_contract evs :
  0 < activateTimeout ->
  (waits start evs = Some WOk -> exists reason, WState activeActivated reason ∈ evs) /\
  (forall reason, waits start evs = Some (WFailed reason) -> WState activeDeactivated reason ∈ evs) /\
  (forall t0 pre T, timers_ok t0 start (pre ++ [(T, WTimer false)]) ->
     waits start (map snd pre) = None -> waits start (map snd pre ++ [WTimer false]) <> None ->
     t0 + activateTimeout <= T /\
     forall t, (t, WTimer true) ∈ pre -> t + secretPollInterval + activateTimeout <= T) /\
  waits start (evs ++ [WTimer false; WTimer false]) <> None.
Proof.
  intros Hat. split_and!.
  - apply waits_WOk.
  - apply waits_WFailed.
  - intros t0 pre T Ht H1 H2.
    destruct (timeout_after start t0 pre T Hat ltac:(by left) Ht H1 H2) as (? & _ & ?). done.
  - destruct (waits_app start evs [WTimer false; WTimer false]) as [(st & -> & _)|(r & _ & ->)]; [|done].
    destruct (waits_two_quiet st) as [r ->]. done.
Qed.
End WaitFacts.

(** A prompt open at the 45 s poll, answered a second later; the wait gives up
    45 s after that, with a timeout. *)
Lemma wait_contract_witness :
  let at_ := 45 * second in
  let pre := [(45 * second, WTimer true); (46 * second, WTimer false)] in
  let waits := waitEvents at_ "45s" "op" (wait_start at_) in
  timers_ok at_ "45s" "op" 0 (wait_start at_) (pre ++ [(91 * second, WTimer false)]) /\
  waits (map snd pre) = None /\
  waits (map snd pre ++ [WTimer false]) = Some (WErr (newErr "op" (Some nm_ErrTimeout) "NetworkManager did not finish activating within 45s")) /\
  0 + at_ <= 91 * second /\ (forall t, (t, WTimer true) ∈ pre -> t + secretPollInterval + at_ <= 91 * second) /\
  waits ([WState activeActivating 0; WTimer true] ++ [WTimer false; WTimer false]) <> None.
Proof.
  intros at_ pre waits. assert (0 < at_) as Hat by reflexivity.
  assert (timers_ok at_ "45s" "op" 0 (wait_start at_) (pre ++ [(91 * second, WTimer false)])) as Ht by (vm_compute; repeat split; discriminate).
  assert (waits (map snd pre) = None) as H1 by reflexivity.
  assert (waits (map snd pre ++ [WTimer false]) = Some (WErr (newErr "op" (Some nm_ErrTimeout) "NetworkManager did not finish activating within 45s"))) as H2
    by reflexivity.
  destruct (wait_contract at_ "45s" "op" [WState activeActivating 0; WTimer true] Hat) as (_ & _ & H & Hend).
  destruct (H 0 pre (91 * second) Ht H1) as [H3 H4]; [fold waits; by rewrite H2|].
  split; [exact Ht|]. split; [exact H1|]. split; [exact H2|]. split; [exact H3|]. split; [exact H4|exact Hend].
Defined.

(** ** The calls of a run *)

Section ConnectFacts.
Context {W : Type} (bus : Bus (W := W)) (Quote : string -> string).
Context (username : string) (activateTimeout : Duration) (timeout_text : string).

Lemma bind_inv {A B} (m : M (W := W) A) (f : A -> M B) w r tr w' :
  bind m f w = (r, tr, w') ->
  (exists a tr1 w1 tr2, m w = (Some a, tr1, w1) /\ f a w1 = (r, tr2, w') /\ tr = tr1 ++ tr2) \/
  (m w = (None, tr, w') /\ r = None).
Proof.
  unfold bind. destruct (m w) as [[[a|] tr1] w1] eqn:Hm; [|intros [= <- <- <-]; by right].
  destruct (f a w1) as [[b tr2] w2] eqn:Hf. intros [= <- <- <-]. left. by repeat eexists.
Qed.

Lemma call_inv {A} (f : W -> A * W) log w r tr w' :
  call f log w = (r, tr, w') -> exists a, f w = (a, w') /\ r = Some a /\ tr = [log a].
Proof. unfold call. destruct (f w) as [a w1]. intros [= <- <- <-]. by eexists. Qed.

Lemma ret_inv {A} (a : A) (w : W) r tr w' : ret a w = (r, tr, w') -> r = Some a /\ tr = [] /\ w' = w.
Proof. by intros [= <- <- <-]. Qed.

(** A call, and what follows it. *)
Lemma bind_call_inv {A B} (f : W -> A * W) log (k : A -> M (W := W) B) w r tr w' :
  bind (call f log) k w = (r, tr, w') ->
  exists a w1 tr1, f w = (a, w1) /\ k a w1 = (r, tr1, w') /\ tr = log a :: tr1.
Proof.
  intros [(a & tr1 & w1 & tr2 & H1 & H2 & ->)|[H _]]%bind_inv.
  - apply call_inv in H1 as (a' & Hf & [= <-] & ->). by repeat eexists.
  - apply call_inv in H as (? & _ & ? & _). discriminate.
Qed.

Lemma wait_inv op path w r tr w' :
  wait_for bus activateTimeout timeout_text op path w = (r, tr, w') ->
  exists wr, tr = [EWait path wr] /\
    match wr with
    | None => r = None
    | Some WOk => r = Some None
    | Some (WErr e) => r = Some (Some e)
    | Some (WFailed reason) => exists v rsn, r = Some (Some (activationError v rsn op path reason))
    end.
Proof.
  unfold wait_for. destruct (b_Wait bus path w) as [env w1].
  set (wr := waitActive _ _ _ _ _ _). intros [= <- <- <-]. exists wr. split; [done|].
  destruct wr as [[| |]|]; eauto.
Qed.

(** An error about an activation NetworkManager itself ended is never taken
    for the caller's going away. *)
Lemma activationError_junk v rsn op path reason : junk_profile (activationError v rsn op path reason) = true.
Proof.
  unfold activationError. generalize (default 0 (first_some (fun dp =>
      match rsn !! dp with
      | Some r => if r =? devReasonNone then None else Some r
      | None => None
      end) (vPaths (view_props v path ifaceActive) "Devices"))). intros dr.
  destruct (activeReasonIsAuth reason), (negb (devReasonText dr =?s "")), (devReasonIsAuth dr),
    (dr =? devReasonSSIDNotFound), (reason =? activeReasonNoSecrets); reflexivity.
Qed.

(** The error of a wait that timed out counts as the caller's going away. *)
Lemma timeout_not_junk op msg : junk_profile (newErr op (Some nm_ErrTimeout) msg) = false.
Proof. reflexivity. Qed.

(** The calls a run may make for a saved profile, and for a new one. *)
Definition saved_call (path dev password : string) (e : entry) : Prop :=
  match e with
  | EGetSettings p _ | EVersionId p _ => p = path /\ password <> ""
  | EUpdate2 p s _ _ | EUpdate p s _ =>
      p = path /\ password <> "" /\ section s settingWifiSecurity !! "psk" = Some (VString password)
  | EActivate c d _ _ => c = path /\ d = dev
  | EWait _ _ => True
  | _ => False
  end.

Definition new_call (settings : settingsDict) (dev : string) (e : entry) : Prop :=
  match e with
  | EAdd2 s d _ _ | EAdd s d _ _ => s = settings /\ d = dev
  | EDelete _ | EWait _ _ => True
  | _ => False
  end.

Definition adds (tr : list entry) (p active : string) : Prop :=
  exists s d ap, EAdd2 s d ap (Ok (p, active)) ∈ tr \/ EAdd s d ap (Ok (p, active)) ∈ tr.

Lemma psk_edit_psk psk s s' : psk_edit psk s = Some s' -> section s' settingWifiSecurity !! "psk" = Some (VString psk).
Proof.
  unfold psk_edit. destruct (s !! settingWifiSecurity); [|destruct (s !! settingWifi); [|done]]; cbn; intros [= <-];
    unfold section; rewrite lookup_insert_eq; cbn; rewrite lookup_insert_ne by done; by rewrite lookup_insert_eq.
Qed.

Lemma updatePSK_calls path dev psk w r tr w' :
  psk <> "" -> updatePSK bus path psk w = (r, tr, w') -> Forall (saved_call path dev psk) tr.
Proof.
  intros Hpsk. unfold updatePSK, editSettings. intros H.
  apply bind_call_inv in H as (raw & w1 & tr1 & _ & H & ->). destruct raw as [raw|e].
  2: { apply ret_inv in H as (-> & -> & _). by repeat constructor. }
  cbv zeta in H. destruct (psk_edit psk _) as [s'|] eqn:Hs; cbn [fmap option_fmap option_map] in H; [|injection H as <- <- <-; by repeat constructor].
  apply psk_edit_psk in Hs.
  apply bind_call_inv in H as (vid & w2 & tr2 & _ & H & ->).
  apply bind_call_inv in H as (err & w3 & tr3 & _ & H & ->).
  destruct (isUnknownMethod err); [apply bind_call_inv in H as (err2 & w4 & tr4 & _ & H & ->)|];
    apply ret_inv in H as (-> & -> & _); repeat constructor; done.
Qed.

Lemma wrapDBus_Some op e : wrapDBus op (Some e) <> None.
Proof. destruct e; cbn; [by destruct (classify _ _)|done..]. Qed.

Lemma connect_saved_calls op prof dev ap password w r tr w' :
  connect_saved bus activateTimeout timeout_text op prof dev ap password w = (r, tr, w') ->
  Forall (saved_call (wp_path prof) dev password) tr /\
  (r = Some None -> exists path, EWait path (Some WOk) ∈ tr).
Proof.
  unfold connect_saved. intros [(err & tr1 & w1 & tr2 & H1 & H2 & ->)|[H ->]]%bind_inv.
  - assert (Forall (saved_call (wp_path prof) dev password) tr1) as Htr1.
    { destruct (password =?s "") eqn:Hp; cbn [negb] in H1; bool_to_prop.
      - by apply ret_inv in H1 as (_ & -> & _).
      - by eapply updatePSK_calls. }
    destruct err as [e|].
    { apply ret_inv in H2 as (-> & -> & _). rewrite app_nil_r. split; [done|by intros [=]]. }
    apply bind_call_inv in H2 as (ra & w2 & tr3 & _ & H2 & ->). destruct ra as [active|e].
    + apply wait_inv in H2 as (wr & -> & Hwr). split.
      * apply Forall_app. split; [done|]. by repeat constructor.
      * intros ->. exists active. destruct wr as [[|e|reason]|]; [set_solver|..]; try done.
        destruct Hwr as (? & ? & ?). done.
    + apply ret_inv in H2 as (-> & -> & _).
      split; [|by intros [= Hw]; apply wrapDBus_Some in Hw]. apply Forall_app. split; [done|]. by repeat constructor.
  - destruct (password =?s "") eqn:Hp; cbn [negb] in H; bool_to_prop; [discriminate H|].
    split; [|done]. by eapply updatePSK_calls.
Qed.

Lemma settle_new_calls op ra w r tr w' :
  settle_new bus activateTimeout timeout_text op ra w = (r, tr, w') ->
  (forall e, e ∈ tr -> match e with EDelete _ | EWait _ _ => True | _ => False end) /\
  (r = Some None -> exists path, EWait path (Some WOk) ∈ tr) /\
  (forall p, EDelete p ∈ tr <->
     exists active e, ra = Ok (p, active) /\ r = Some (Some e) /\ junk_profile e = true) /\
  (forall path reason, EWait path (Some (WFailed reason)) ∈ tr -> exists p, EDelete p ∈ tr) /\
  (forall path e, EWait path (Some (WErr e)) ∈ tr -> r = Some (Some e)).
Proof.
  unfold settle_new. destruct ra as [[cp active]|e].
  2: { intros (-> & -> & _)%ret_inv. split_and!; [set_solver|by intros [= ?%wrapDBus_Some]|set_solver..]. }
  intros [(err & tr4 & w3 & tr5 & H1 & H & ->)|[H ->]]%bind_inv.
  - apply wait_inv in H1 as (wr & -> & Hwr). destruct err as [e|]; [destruct (junk_profile e) eqn:Hj|].
    + apply bind_call_inv in H as (? & w4 & tr6 & _ & H & ->). apply ret_inv in H as (-> & -> & _).
      split_and!; [set_solver|by intros [=]| |set_solver|].
      * intros p. split; [set_solver|]. intros (ac & e' & [= <- <-] & _). set_solver.
      * intros path e' Hin. assert (wr = Some (WErr e')) as -> by set_solver. by injection Hwr as ->.
    + apply ret_inv in H as (-> & -> & _).
      split_and!; [set_solver|by intros [=]| | |].
      * intros p. split; [set_solver|]. intros (ac & e' & _ & [= <-] & ?). congruence.
      * intros path reason [= <- <-]%list_elem_of_singleton. destruct Hwr as (v' & rsn & [= ->]).
        by rewrite activationError_junk in Hj.
      * by intros path e' [= <- <-]%list_elem_of_singleton.
    + apply ret_inv in H as (-> & -> & _).
      split_and!; [set_solver| |set_solver| |].
      * intros _. destruct wr as [[| |]|]; [|done|by destruct Hwr as (? & ? & ?)|done]. exists active. set_solver.
      * intros path reason [= <- <-]%list_elem_of_singleton. by destruct Hwr as (? & ? & ?).
      * by intros path e' [= <- <-]%list_elem_of_singleton.
  - apply wait_inv in H as (wr & -> & Hwr). split_and!; [set_solver|done|set_solver| |].
    + intros path reason [= <- <-]%list_elem_of_singleton. by destruct Hwr as (? & ? & ?).
    + by intros path e' [= <- <-]%list_elem_of_singleton.
Qed.

(** The attempts to add a profile: only the last one can have succeeded. *)
Lemma add_attempts settings dev ap r2 ra tr w w' :
  (if isUnknownMethod (match r2 with Err e => Some e | Ok _ => None end)
   then call (b_AddAndActivate bus settings dev ap) (EAdd settings dev ap) else ret r2) w = (Some ra, tr, w') ->
  Forall (new_call settings dev) (EAdd2 settings dev ap r2 :: tr) /\
  (forall p active, adds (EAdd2 settings dev ap r2 :: tr) p active <-> ra = Ok (p, active)) /\
  (forall p, EDelete p ∉ EAdd2 settings dev ap r2 :: tr) /\
  (forall path wr, EWait path wr ∉ EAdd2 settings dev ap r2 :: tr).
Proof.
  destruct (isUnknownMethod _) eqn:Hu.
  - intros (r1 & _ & [= ->] & ->)%call_inv. destruct r2 as [?|e2]; [discriminate Hu|].
    split_and!; [by repeat constructor| |set_solver..]. intros p active. unfold adds. split.
    + intros (s & d & a & [Hin|Hin]); rewrite !elem_of_cons in Hin; naive_solver set_solver.
    + intros ->. exists settings, dev, ap. right. right. by left.
  - intros ([= ->] & -> & _)%ret_inv.
    split_and!; [by repeat constructor| |set_solver..]. intros p active. unfold adds. split.
    + intros (s & d & a & [Hin|Hin]); rewrite !elem_of_cons in Hin; naive_solver set_solver.
    + intros ->. exists settings, dev, ap. left. by left.
Qed.

Lemma adds_app tr1 tr2 p active :
  (forall e, e ∈ tr2 -> match e with EDelete _ | EWait _ _ => True | _ => False end) ->
  adds (tr1 ++ tr2) p active <-> adds tr1 p active.
Proof.
  intros Hno. unfold adds.
  split; intros (s & d & a & Hin); exists s, d, a; rewrite ?elem_of_app in *; [|naive_solver].
  destruct Hin as [[Hin|Hin]|[Hin|Hin]]; [by left|by apply Hno in Hin|by right|by apply Hno in Hin].
Qed.

Lemma connect_new_calls op settings dev ap w r tr w' :
  connect_new bus activateTimeout timeout_text op settings dev ap w = (r, tr, w') ->
  Forall (new_call settings dev) tr /\
  (r = Some None -> exists path, EWait path (Some WOk) ∈ tr) /\
  (forall p, EDelete p ∈ tr <->
     exists active e, adds tr p active /\ r = Some (Some e) /\ junk_profile e = true) /\
  (forall path reason, EWait path (Some (WFailed reason)) ∈ tr -> exists p, EDelete p ∈ tr) /\
  (forall path e, EWait path (Some (WErr e)) ∈ tr -> r = Some (Some e)).
Proof.
  unfold connect_new. intros H. apply bind_call_inv in H as (r2 & w1 & tr1 & _ & H & ->).
  apply bind_inv in H as [(ra & tr2 & w2 & tr3 & H1 & H & ->)|[H _]].
  2: { destruct (isUnknownMethod _); [apply call_inv in H as (? & _ & ? & _)|]; discriminate. }
  apply add_attempts in H1 as (Hnew & Hadds & Hnodel & Hnowait).
  apply settle_new_calls in H as (Htail & Hok & Hdel & Hfail & Herr).
  rewrite app_comm_cons. set (tr0 := EAdd2 settings dev ap r2 :: tr2) in *. clearbody tr0. split_and!.
  - apply Forall_app. split; [done|]. apply Forall_forall. intros e He. specialize (Htail e He). by destruct e.
  - intros Hr. destruct (Hok Hr) as [path Hin]. exists path. set_solver.
  - intros p. setoid_rewrite adds_app; [|done]. setoid_rewrite Hadds. rewrite <- Hdel. set_solver.
  - intros path reason [?%Hnowait|Hin]%elem_of_app; [done|]. destruct (Hfail _ _ Hin) as [p Hp]. exists p. set_solver.
  - intros path e [?%Hnowait|Hin]%elem_of_app; [done|]. by eapply Herr.
Qed.

(** C11: Joining a network.  With a saved profile for the SSID nothing is ever
    added or deleted: at most that profile's password is rewritten, and only
    when one was given, and it is activated on the chosen device.  Without one,
    the only profile created is the one built from the request.  A profile is
    deleted exactly when this very run created it and ends in an error that does
    not count as a context's: an activation NetworkManager reports as failed always
    clears it away, while the caller's going away keeps it, and so does a timeout of
    the wait, whose error matches [context.DeadlineExceeded] (the comment at the
    clean-up names timeouts among what is deleted).  Success is reported only after
    the activation was seen to succeed. *)
Theorem connect_wifi_calls v agent req w r tr w' :
  ConnectWifi bus Quote username activateTimeout timeout_text v agent req w = (r, tr, w') ->
  (r = Some None -> exists path, EWait path (Some WOk) ∈ tr) /\
  (forall p, EDelete p ∈ tr <->
     exists active e, adds tr p active /\ r = Some (Some e) /\ junk_profile e = true) /\
  (forall dev prof,
     pickWifiDevice v (cw_Device req) = Ok dev ->
     pickProfile (wifiProfiles Quote v (cw_SSID req)) (deviceName v dev) = Some prof ->
     Forall (saved_call (wp_path prof) dev (cw_Password req)) tr) /\
  (forall dev,
     pickWifiDevice v (cw_Device req) = Ok dev ->
     pickProfile (wifiProfiles Quote v (cw_SSID req)) (deviceName v dev) = None ->
     tr = [] \/
     exists hidden sec s,
       wifiPartialSettings (cw_SSID req) hidden sec (cw_Password req) username
         ((cw_Password req =?s "") && agent) = Ok s /\
       Forall (new_call s dev) tr /\
       (forall path reason, EWait path (Some (WFailed reason)) ∈ tr -> exists p, EDelete p ∈ tr) /\
       (forall path e, EWait path (Some (WErr e)) ∈ tr -> junk_profile e = false -> forall p, EDelete p ∉ tr)) /\
  (forall op' msg, junk_profile (newErr op' (Some nm_ErrTimeout) msg) = false).
Proof.
  assert (forall e : error, (Some (Some e) = Some None -> exists path, EWait path (Some WOk) ∈ []) /\
    (forall p, EDelete p ∈ [] <->
       exists active e', adds [] p active /\ Some (Some e) = Some (Some e') /\ junk_profile e' = true)) as Hnothing.
  { intros e. split; [by intros [=]|]. unfold adds. set_solver. }
  unfold ConnectWifi. destruct (TrimSpace (cw_SSID req) =?s "").
  { intros (-> & -> & _)%ret_inv. split_and!; [apply Hnothing..|by constructor|by left|done]. }
  destruct (pickWifiDevice v (cw_Device req)) as [dev|e].
  2: { intros (-> & -> & _)%ret_inv. split_and!; [apply Hnothing..|done|done|done]. }
  cbv zeta. destruct (pickProfile (wifiProfiles Quote v (cw_SSID req)) (deviceName v dev)) as [prof|] eqn:Hprof.
  { intros [Hcalls Hok]%connect_saved_calls. 
    assert (forall dev' prof', Ok (E := error) dev = Ok dev' ->
      pickProfile (wifiProfiles Quote v (cw_SSID req)) (deviceName v dev') = Some prof' -> dev' = dev /\ prof' = prof)
      as Hsame by (intros dev' prof' [= <-]; rewrite Hprof; by intros [= <-]).
    split_and!; [done| | | |done].
    2: { intros dev' prof' Hd Hp. destruct (Hsame _ _ Hd Hp) as [-> ->]. done. }
    2: { intros dev' [= <-] Hp. congruence. }
    intros p. unfold adds. rewrite Forall_forall in Hcalls. split.
    - intros Hin%Hcalls. destruct Hin.
    - intros (? & ? & (? & ? & ? & [Hin%Hcalls|Hin%Hcalls]) & _); destruct Hin. }
  destruct (_ || _).
  { intros (-> & -> & _)%ret_inv. split_and!; [apply Hnothing..|done|by left|done]. }
  destruct (wifiPartialSettings _ _ _ _ _ _) as [s|e] eqn:Hs.
  - intros (Hnew & Hok & Hdel & Hfail & Herr)%connect_new_calls.
    split_and!; [done|done|intros dev' prof [= <-] Hp; congruence| |done].
    intros dev' [= <-] _. right. eexists _, _, _. split_and!; [exact Hs|done|done|].
    intros path e Hin Hj p (ac & e' & _ & Hr & Hj')%Hdel. rewrite (Herr _ _ Hin) in Hr. congruence.
  - intros (-> & -> & _)%ret_inv. split_and!; [apply Hnothing..|done|by left|done].
Qed.
End ConnectFacts.

(** A machine with one Wi-Fi device that sees an open network "cafe" nobody
    saved, and a NetworkManager that adds the profile; the activation then goes
    the way [evs] says. *)
Definition cafe_view : view :=
  mkView
    [(pathNM, {[ ifaceNM := ∅ ]});
     ("/D/1", <[ifaceDevice := {[ "Interface" := VString "wlan0" ]}]>
        {[ ifaceWireless := {[ "AccessPoints" := VPaths ["/A/1"] ]} ]});
     ("/A/1", {[ ifaceAP := <["Ssid" := VBytes "cafe"]> {[ "Frequency" := VUint32 5180 ]} ]})] [].

Definition cafe_bus (evs : list wait_event) : Bus (W := unit) :=
  mkBus (fun _ w => (Err (CClosed "closed"), w)) (fun _ w => (None, w)) (fun _ _ _ w => (None, w))
    (fun _ _ w => (None, w)) (fun _ _ _ w => (Err (CClosed "closed"), w))
    (fun _ _ _ w => (Ok ("/S/9", "/AC/1"), w)) (fun _ _ _ w => (Err (CClosed "closed"), w))
    (fun _ w => (None, w)) (fun _ w => (mkWaitEnv (Some activeActivating) evs cafe_view ∅, w))
    (fun _ w => (None, w)) (fun _ w => (None, w)) (fun _ w => (None, w))
    (fun _ w => (Err (CClosed "closed"), w)) (fun _ w => (Err (CClosed "closed"), w)) (fun _ w => (None, w)).

Definition cafe_run (evs : list wait_event) :=
  ConnectWifi (cafe_bus evs) id "ann" (45 * second) "45s" cafe_view true
    (mkConnectWifiRequest "" "cafe" "" false "") tt.

(** [adds] and the absence of a deletion, decided. *)
Definition addsb (tr : list entry) (p active : string) : bool :=
  existsb (fun e =>
    match e with
    | EAdd2 _ _ _ (Ok (p', a')) | EAdd _ _ _ (Ok (p', a')) => (p' =?s p) && (a' =?s active)
    | _ => false
    end) tr.

Lemma addsb_adds tr p active : addsb tr p active = true -> adds tr p active.
Proof.
  unfold addsb. rewrite existsb_elem. intros (e & Hin & He). destruct e as [| | | | |s d ap r|s d ap r| | | | | | | |]; try done.
  all: destruct r as [[p' a']|]; [|done]; bool_to_prop; subst; exists s, d, ap; auto.
Qed.

Definition keeps_all (tr : list entry) : bool :=
  forallb (fun e => match e with EDelete _ => false | _ => true end) tr.

Lemma keeps_all_no_delete tr : keeps_all tr = true -> forall p, EDelete p ∉ tr.
Proof. unfold keeps_all. rewrite forallb_elem. intros H p Hin. by specialize (H _ Hin). Qed.

Lemma connect_wifi_calls_witness :
  let run := cafe_run [WState activeDeactivated activeReasonIPConfigInvalid] in
  match run.1.1 with Some (Some e) => ErrorString e = "nm: connect wifi cafe: invalid IP configuration" | _ => False end /\
  EDelete "/S/9" ∈ run.1.2.
Proof.
  intros run. split; [vm_compute; reflexivity|].
  destruct (connect_wifi_calls (cafe_bus [WState activeDeactivated activeReasonIPConfigInvalid]) id "ann"
              (45 * second) "45s" cafe_view true (mkConnectWifiRequest "" "cafe" "" false "") tt
              run.1.1 run.1.2 run.2) as (_ & Hdel & _).
  { vm_compute. reflexivity. }
  apply Hdel. eexists "/AC/1", _. split; [apply addsb_adds; vm_compute; reflexivity|].
  split; vm_compute; reflexivity.
Defined.

(** A new profile whose activation NetworkManager does not finish in time is
    kept: the timeout error matches [context.DeadlineExceeded], which the
    clean-up takes for the caller's own deadline. *)
Lemma connect_timeout_keeps_profile :
  let run := cafe_run [WTimer false] in
  match run.1.1 with Some (Some e) => errors_Is (Some e) nm_ErrTimeout = true | _ => False end /\
  adds run.1.2 "/S/9" "/AC/1" /\ (forall p, EDelete p ∉ run.1.2).
Proof.
  intros run. split; [vm_compute; reflexivity|].
  split; [apply addsb_adds|apply keeps_all_no_delete]; vm_compute; reflexivity.
Qed.

(** The branch for [ErrNoSecrets] in [activationError] is never reached: that
    reason already counts as failed authentication. *)
Lemma activationError_kinds v rsn op path reason :
  exists kind msg, activationError v rsn op path reason = newErr op kind msg /\
    (kind = None \/ kind = Some nm_ErrAuthFailed \/ kind = Some nm_ErrNotFound) /\
    (activeReasonIsAuth reason = true -> kind <> None).
Proof.
  unfold activationError. destruct (activeReasonIsAuth reason) eqn:Ha.
  - case_test; [destruct (devReasonIsAuth _); [|destruct (_ =? devReasonSSIDNotFound)]|];
      do 2 eexists; (split; [reflexivity|]); naive_solver.
  - assert ((reason =? activeReasonNoSecrets) = false) as -> by (by apply orb_false_iff in Ha as [? _]).
    case_test; [destruct (devReasonIsAuth _); [|destruct (_ =? devReasonSSIDNotFound)]|];
      do 2 eexists; (split; [reflexivity|]); naive_solver.
Qed.
