(* ===== verification/Registry.v ===== *)
(** internal/vpn/registry.go and internal/daemon/bus.go: the VPN backends
    behind one list and one router, and the event bus of the daemon.

    A backend is a [VPNAdapter]: a record of operations on an abstract world
    [W], the interface of core/ports.go.  Nothing is assumed about it. *)

From S2P Require Import Prelude GoTime Core GoStrings Errors.

(** ** core/ports.go: VPNAdapter *)

Record VPNAdapter (W : Type) := mkVPNAdapter {
  Backend : VPNBackend;
  ad_List : W -> result error (list VPN) * W;
  ad_Connect : string -> W -> option error * W;
  ad_Disconnect : string -> W -> option error * W
}.
Arguments mkVPNAdapter {W}.
Arguments Backend {W}.
Arguments ad_List {W}.
Arguments ad_Connect {W}.
Arguments ad_Disconnect {W}.

(** [strings.EqualFold]; display names are compared as ASCII. *)
Definition EqualFold (a b : string) : bool := ToLower a =?s ToLower b.

(** The comparator of [List]: connected first, then kind, name, id. *)
Definition vpn_less (a b : VPN) : bool :=
  let ca := vpn_State a =?s VPNConnected in
  let cb := vpn_State b =?s VPNConnected in
  if negb (Bool.eqb ca cb) then ca
  else if negb (vpn_Kind a =?s vpn_Kind b) then String.ltb (vpn_Kind a) (vpn_Kind b)
  else if negb (EqualFold (vpn_Name a) (vpn_Name b)) then String.ltb (ToLower (vpn_Name a)) (ToLower (vpn_Name b))
  else String.ltb (vpn_ID a) (vpn_ID b).

Definition unavailable (b : VPNBackend) (err : error) : VPN :=
  let kind :=
    if b =?s BackendTailscale then "Tailscale"
    else if b =?s BackendWireGuard then "WireGuard"
    else "VPN" in
  mkVPN b kind b kind VPNUnavailable ("backend " +:+ b +:+ " could not be queried") (ErrorString err) "" 0
    false None None None.

(** [v.Backend = a.Backend()] where it is empty. *)
Definition fill_backend (b : VPNBackend) (v : VPN) : VPN :=
  if vpn_Backend v =?s ""
  then mkVPN (vpn_ID v) (vpn_Name v) b (vpn_Kind v) (vpn_State v) (vpn_Detail v) (vpn_Error v)
         (vpn_AuthURL v) (vpn_Since v) (vpn_Writable v) (vpn_Tailscale v) (vpn_WireGuard v) (vpn_NMVPN v)
  else v.

Section Registry.
Context {W : Type}.

(** [ctx.Err()] as the world stands. *)
Context (ctx_err : W -> option error).

(** [%q] on a string. *)
Context (Quote : string -> string).

Record Registry := mkRegistry {
  adapters : list (VPNAdapter W);
  byID : gmap string VPNBackend
}.

(** Nil entries are skipped. *)
Definition NewRegistry (l : list (option (VPNAdapter W))) : Registry := mkRegistry (omap id l) ∅.

Definition Adapter (r : Registry) (backend : VPNBackend) : option (VPNAdapter W) :=
  List.find (fun a => Backend a =?s backend) (adapters r).

(** One adapter's answer in the loop of [List]: its entries and the owners it
    records. *)
Definition contribution (a : VPNAdapter W) (answer : result error (list VPN)) : list VPN :=
  match answer with
  | Ok vpns => map (fill_backend (Backend a)) vpns
  | Err e => [unavailable (Backend a) e]
  end.

Definition own (a : VPNAdapter W) (entries : list VPN) (owners : gmap string VPNBackend) : gmap string VPNBackend :=
  fold_left (fun m v => <[vpn_ID v := Backend a]> m) entries owners.

Fixpoint List_loop (l : list (VPNAdapter W)) (out : list VPN) (owners : gmap string VPNBackend) (w : W)
    : result error (list VPN * gmap string VPNBackend) * W :=
  match l with
  | [] => (Ok (out, owners), w)
  | a :: l' =>
      let '(answer, w) := ad_List a w in
      match answer, ctx_err w with
      | Err _, Some ce => (Err (EWrap ("vpn: list: " +:+ ErrorString ce) [ce]), w)
      | _, _ =>
          let entries := contribution a answer in
          List_loop l' (out ++ entries) (own a entries owners) w
      end
  end.

(** [List]: the owners are merged into [byID] when the listing succeeded. *)
Definition List_ (r : Registry) (w : W) : result error (list VPN) * Registry * W :=
  let '(res, w) := List_loop (adapters r) [] ∅ w in
  match res with
  | Err e => (Err e, r, w)
  | Ok (out, owners) =>
      (Ok (isort (fun x y => negb (vpn_less y x)) out), mkRegistry (adapters r) (owners ∪ byID r), w)
  end.

(** The adapter the last listing says owns [id]. *)
Definition owner_of (r : Registry) (id : string) : option (VPNAdapter W) :=
  match byID r !! id with Some b => Adapter r b | None => None end.

Definition notListed (id : string) : error :=
  Errorf KindNotFound "run `bnm vpn` to list them" ("vpn: no VPN with id " +:+ Quote id).

Definition route (r : Registry) (id : string) (w : W) : result error (VPNAdapter W) * Registry * W :=
  match owner_of r id with
  | Some a => (Ok a, r, w)
  | None =>
      let '(res, r, w) := List_ r w in
      match res with
      | Err e => (Err e, r, w)
      | Ok _ => match owner_of r id with Some a => (Ok a, r, w) | None => (Err (notListed id), r, w) end
      end
  end.

Definition reg_Connect (r : Registry) (id : string) (w : W) : option error * Registry * W :=
  let '(res, r, w) := route r id w in
  match res with
  | Err e => (Some e, r, w)
  | Ok a => let '(err, w) := ad_Connect a id w in (err, r, w)
  end.

Definition reg_Disconnect (r : Registry) (id : string) (w : W) : option error * Registry * W :=
  let '(res, r, w) := route r id w in
  match res with
  | Err e => (Some e, r, w)
  | Ok a => let '(err, w) := ad_Disconnect a id w in (err, r, w)
  end.
End Registry.
Arguments Registry W : clear implicits.

(** ** daemon/bus.go *)

Definition subscriberBuffer : Z := 128.

(** A subscriber: what its channel buffers, what it lost, whether the channel
    is closed, and (to speak about what it has read) nothing more. *)
Record subscriber (A : Type) := mkSubscriber { ch : list A; dropped : Z; closed : bool }.
Arguments mkSubscriber {A}.
Arguments ch {A}.
Arguments dropped {A}.
Arguments closed {A}.

(** The subscribers ever created, by number; [bus_subs] are those in the map. *)
Record bus (A : Type) := mkBus { bus_all : gmap nat (subscriber A); bus_subs : gset nat; bus_next : nat }.
Arguments mkBus {A}.
Arguments bus_all {A}.
Arguments bus_subs {A}.
Arguments bus_next {A}.

Section Bus.
Context {A : Type}.

Definition newBus : bus A := mkBus ∅ ∅ 0.

Definition subscribe (b : bus A) : bus A * nat :=
  let n := bus_next b in
  (mkBus (<[n := mkSubscriber [] 0 false]> (bus_all b)) ({[n]} ∪ bus_subs b) (S n), n).

(** The function [subscribe] returns, guarded by its [sync.Once]. *)
Definition unsubscribe (n : nat) (b : bus A) : bus A :=
  match bus_all b !! n with
  | Some s =>
      if closed s then b
      else mkBus (<[n := mkSubscriber (ch s) (dropped s) true]> (bus_all b)) (bus_subs b ∖ {[n]}) (bus_next b)
  | None => b
  end.

(** One iteration of [publish]: a send that does not block, or a drop. *)
Definition offer (item : A) (s : subscriber A) : subscriber A :=
  if len (ch s) <? subscriberBuffer
  then mkSubscriber (ch s ++ [item]) (dropped s) (closed s)
  else mkSubscriber (ch s) (dropped s + 1) (closed s).

Definition publish (item : A) (b : bus A) : bus A :=
  mkBus (map_imap (fun n s => Some (if bool_decide (n ∈ bus_subs b) then offer item s else s)) (bus_all b))
    (bus_subs b) (bus_next b).

Definition count (b : bus A) : Z := Z.of_nat (size (bus_subs b)).

(** A subscriber receives the oldest buffered item. *)
Definition receive (n : nat) (b : bus A) : bus A * option A :=
  match bus_all b !! n with
  | Some s =>
      match ch s with
      | x :: rest => (mkBus (<[n := mkSubscriber rest (dropped s) (closed s)]> (bus_all b)) (bus_subs b) (bus_next b), Some x)
      | [] => (b, None)
      end
  | None => (b, None)
  end.
End Bus.

(** * What the VPN registry and the event bus promise. *)

(** ** The order of the list *)

(** "Not after" in the order of the list, key by key. *)
Definition vpn_le : VPN -> VPN -> bool :=
  lex (fun v => if vpn_State v =?s VPNConnected then "0" else "1")
    (lex vpn_Kind (lex (fun v => ToLower (vpn_Name v)) (fun x y => String.leb (vpn_ID x) (vpn_ID y)))).

Lemma vpn_le_eq x y : negb (vpn_less y x) = vpn_le x y.
Proof.
  unfold vpn_less, vpn_le, lex, EqualFold.
  rewrite (String.eqb_sym (vpn_Kind y)), (String.eqb_sym (ToLower (vpn_Name y))), !string_leb_ltb.
  destruct (vpn_State x =?s VPNConnected), (vpn_State y =?s VPNConnected); cbn; try done.
  all: repeat case_test; done.
Qed.

Lemma vpn_le_total x y : vpn_le x y = true \/ vpn_le y x = true.
Proof. repeat apply lex_total. intros a b. apply String.leb_total. Qed.

Lemma vpn_le_trans x y z : vpn_le x y = true -> vpn_le y z = true -> vpn_le x z = true.
Proof. repeat apply lex_trans. intros a b c. apply string_leb_trans. Qed.

(** ** Listing and routing *)

Section RegistryFacts.
Context {W : Type} (ctx_err : W -> option error) (Quote : string -> string).

(** What each adapter answers when they are asked one after the other. *)
Fixpoint answers (l : list (VPNAdapter W)) (w : W) : list (result error (list VPN)) * W :=
  match l with
  | [] => ([], w)
  | a :: l' => let '(r, w) := ad_List a w in let '(rs, w) := answers l' w in (r :: rs, w)
  end.

(** The entries of a listing, each with the adapter that gave it. *)
Definition entries (l : list (VPNAdapter W)) (w : W) : list (VPNAdapter W * VPN) :=
  flat_map (fun ar => map (pair ar.1) (contribution ar.1 ar.2)) (combine l (answers l w).1).

Lemma entries_cons a l w :
  entries (a :: l) w = map (pair a) (contribution a (ad_List a w).1) ++ entries l (ad_List a w).2.
Proof.
  unfold entries. cbn [answers]. destruct (ad_List a w) as [r w1]. cbn [fst snd].
  by destruct (answers l w1) as [rs w2].
Qed.

Definition owners_of (es : list (VPNAdapter W * VPN)) (m : gmap string VPNBackend) : gmap string VPNBackend :=
  fold_left (fun m e => <[vpn_ID e.2 := Backend e.1]> m) es m.

Lemma own_owners a vs m : own a vs m = owners_of (map (pair a) vs) m.
Proof. unfold own, owners_of. revert m; induction vs as [|v vs IH]; intros m; [done|]. apply IH. Qed.

(** As long as the caller is there, the loop always gets through. *)
Lemma List_loop_total l out owners w :
  (forall w, ctx_err w = None) ->
  List_loop ctx_err l out owners w =
    (Ok (out ++ map snd (entries l w), owners_of (entries l w) owners), (answers l w).2).
Proof.
  intros Hctx. revert out owners w; induction l as [|a l IH]; intros out owners w.
  { cbn. by rewrite app_nil_r. }
  rewrite entries_cons. cbn [List_loop answers]. destruct (ad_List a w) as [r w1]. cbn [fst snd].
  rewrite Hctx. assert (forall (T : Type) (x y : T), match r with Ok _ => x | Err _ => x end = x) as Hr
    by (by destruct r).
  destruct r; rewrite IH; unfold owners_of; rewrite fold_left_app, map_app, map_map, map_id, <- (assoc_L (++)), own_owners;
    by destruct (answers l w1).
Qed.

(** The owner recorded for an id is the last one that listed it. *)
Lemma owners_of_last es m id b :
  owners_of es m !! id = Some b <->
  match last (List.filter (fun e => vpn_ID e.2 =?s id) es) with
  | Some e => Backend e.1 = b
  | None => m !! id = Some b
  end.
Proof.
  revert m; induction es as [|e es IH] using rev_ind; intros m; [done|].
  unfold owners_of. rewrite fold_left_app. cbn [fold_left]. rewrite List.filter_app. cbn [List.filter].
  destruct (vpn_ID e.2 =?s id) eqn:He; bool_to_prop.
  - subst. rewrite lookup_insert_eq, last_snoc. naive_solver.
  - rewrite lookup_insert_ne, app_nil_r by done. apply IH.
Qed.
Lemma entries_adapter l w e : e ∈ entries l w -> e.1 ∈ l.
Proof.
  revert w; induction l as [|a l IH]; intros w; [intros H; by apply elem_of_nil in H|].
  rewrite entries_cons, elem_of_app. intros [(v & -> & _)%list_elem_of_fmap|H]; [by left|]. right. by eapply IH.
Qed.

(** Backends are told apart by their names. *)
Lemma find_backend (l : list (VPNAdapter W)) a :
  NoDup (map Backend l) -> a ∈ l -> List.find (fun x => Backend x =?s Backend a) l = Some a.
Proof.
  induction l as [|x l IH]; cbn; intros Hnd Hin; [by apply elem_of_nil in Hin|].
  apply NoDup_cons in Hnd as [Hx Hnd]. apply elem_of_cons in Hin as [->|Hin]; [by rewrite seqb_refl|].
  rewrite seqb_ne; [by apply IH|]. intros Heq. apply Hx. rewrite Heq. by apply list_elem_of_fmap_2.
Qed.

(** The last entry with an id. *)
Definition listed (l : list (VPNAdapter W)) (w : W) (id : string) : option (VPNAdapter W * VPN) :=
  last (List.filter (fun e => vpn_ID e.2 =?s id) (entries l w)).

Lemma List_eq (r : Registry W) w :
  (forall w, ctx_err w = None) ->
  List_ ctx_err r w =
    (Ok (isort (fun x y => negb (vpn_less y x)) (map snd (entries (adapters r) w))),
     mkRegistry (adapters r) (owners_of (entries (adapters r) w) ∅ ∪ byID r), (answers (adapters r) w).2).
Proof. intros Hctx. unfold List_. by rewrite List_loop_total. Qed.

(** Who owns an id after a listing. *)
Lemma owner_after (l : list (VPNAdapter W)) m w id :
  NoDup (map Backend l) ->
  match listed l w id with
  | Some (a, _) => owner_of (mkRegistry l (owners_of (entries l w) ∅ ∪ m)) id = Some a
  | None => m !! id = None -> owner_of (mkRegistry l (owners_of (entries l w) ∅ ∪ m)) id = None
  end.
Proof.
  intros Hnd. unfold listed, owner_of, Adapter. cbn [byID adapters].
  pose proof (owners_of_last (entries l w) ∅ id) as Ho.
  destruct (last _) as [[a v]|] eqn:Hl.
  - assert (a ∈ l) as Ha.
    { apply last_Some_elem_of, list_elem_of_In, filter_In in Hl as [Hl _].
      apply list_elem_of_In in Hl. by apply entries_adapter in Hl. }
    rewrite (lookup_union_Some_l _ _ _ (Backend a)) by (by apply Ho). by apply find_backend.
  - intros Hm. destruct (owners_of (entries l w) ∅ !! id) as [b|] eqn:Hb.
    + pose proof (proj1 (Ho b) eq_refl) as He. by rewrite lookup_empty in He.
    + by rewrite lookup_union_r, Hm.
Qed.

(** The registry never fails as a whole.  As long as the caller is there,
    a listing succeeds whatever the backends answer: it is the entries of all of
    them, a backend that failed contributing one "unavailable" entry, ordered by
    connected, kind, name, id.  Afterwards an id goes to the backend that listed
    it last, without asking again; connecting by an id nobody knows lists once,
    and is a not-found error that reaches no backend if nobody lists it then. *)
Theorem registry_contract (r : Registry W) (w w1 : W) id :
  (forall w, ctx_err w = None) -> NoDup (map Backend (adapters r)) ->
  let '(res, r', w') := List_ ctx_err r w in
  (exists out, res = Ok out /\ out ≡ₚ map snd (entries (adapters r) w) /\
     StronglySorted (fun x y => vpn_le x y = true) out) /\
  match listed (adapters r) w id with
  | Some (a, _) =>
      reg_Connect ctx_err Quote r' id w1 = ((ad_Connect a id w1).1, r', (ad_Connect a id w1).2) /\
      (owner_of r id = None ->
         reg_Connect ctx_err Quote r id w = ((ad_Connect a id w').1, r', (ad_Connect a id w').2))
  | None =>
      byID r !! id = None ->
      reg_Connect ctx_err Quote r id w = (Some (notListed Quote id), r', w') /\
      KindOf (Some (notListed Quote id)) = KindNotFound
  end.
Proof.
  intros Hctx Hnd. rewrite List_eq by done. split.
  - eexists. split_and!; [done|apply isort_perm|].
    eapply StronglySorted_weaken; [|apply isort_sorted].
    + intros x y; cbn beta. by rewrite vpn_le_eq.
    + intros x y; cbn beta. rewrite !vpn_le_eq. apply vpn_le_total.
    + intros x y z; cbn beta. rewrite !vpn_le_eq. apply vpn_le_trans.
  - pose proof (owner_after (adapters r) (byID r) w id Hnd) as Ho.
    destruct (listed (adapters r) w id) as [[a v]|].
    + unfold reg_Connect, route. rewrite Ho. split; [by destruct (ad_Connect a id w1)|].
      intros ->. rewrite List_eq, Ho by done. by destruct (ad_Connect a id _).
    + intros Hm. unfold reg_Connect, route. specialize (Ho Hm). unfold owner_of at 1. rewrite Hm.
      rewrite List_eq, Ho by done. done.
Qed.
End RegistryFacts.

(** A registry over two backends: the first cannot be reached, the second has
    one connected tunnel and counts the connections it is asked for. *)
Definition demo_vpn (id : string) : VPN :=
  mkVPN id "Home" "" "WireGuard" VPNConnected "" "" "" 0 true None None None.

Definition demo_registry : Registry nat :=
  NewRegistry
    [Some (mkVPNAdapter BackendTailscale (fun w => (Err (ELeaf "no socket"), w)) (fun _ w => (None, w)) (fun _ w => (None, w)));
     None;
     Some (mkVPNAdapter BackendWireGuard (fun w => (Ok [demo_vpn "wg1"], w)) (fun _ w => (None, S w)) (fun _ w => (None, w)))].

Lemma registry_contract_witness :
  reg_Connect (fun _ => None) id demo_registry "wg1" O =
    (None, (List_ (fun _ => None) demo_registry O).1.2, 1%nat) /\
  reg_Connect (fun _ => None) id demo_registry "nope" O =
    (Some (notListed id "nope"), (List_ (fun _ => None) demo_registry O).1.2, O).
Proof.
  assert (NoDup (map Backend (adapters demo_registry))) as Hnd.
  { vm_compute. repeat constructor; rewrite list_elem_of_In; simpl; intuition congruence. }
  split.
  - pose proof (registry_contract (fun _ => None) id demo_registry O O "wg1" (fun _ => eq_refl) Hnd) as H.
    destruct (List_ (fun _ => None) demo_registry O) as [[res r'] w'] eqn:E. destruct H as [_ H].
    destruct (listed (adapters demo_registry) 0%nat "wg1") as [[a v]|] eqn:Hl; [|vm_compute in Hl; discriminate].
    destruct H as [_ H]. rewrite (H eq_refl). vm_compute in E, Hl. injection Hl as <- _. injection E as _ <- <-.
    reflexivity.
  - pose proof (registry_contract (fun _ => None) id demo_registry O O "nope" (fun _ => eq_refl) Hnd) as H.
    destruct (List_ (fun _ => None) demo_registry O) as [[res r'] w'] eqn:E. destruct H as [_ H].
    destruct (listed (adapters demo_registry) 0%nat "nope") as [[a v]|] eqn:Hl; [vm_compute in Hl; discriminate|].
    destruct (H eq_refl) as [-> _]. vm_compute in E. injection E as _ <- <-. reflexivity.
Defined.

(** ** The bus *)

Section BusFacts.
Context {A : Type}.

(** What happens to a bus: its own operations, and reads of its channels. *)
Inductive bus_op :=
| BPublish (item : A)
| BSubscribe
| BUnsubscribe (n : nat)
| BReceive (n : nat).

Definition bus_step (o : bus_op) (b : bus A) : bus A :=
  match o with
  | BPublish item => publish item b
  | BSubscribe => (subscribe b).1
  | BUnsubscribe n => unsubscribe n b
  | BReceive n => (receive n b).1
  end.

Definition bus_run (l : list bus_op) (b : bus A) : bus A := fold_left (fun b o => bus_step o b) l b.

(** What one step publishes to [n], and what [n] receives in it. *)
Definition sent1 (n : nat) (o : bus_op) (b : bus A) : list A :=
  match o with BPublish x => if bool_decide (n ∈ bus_subs b) then [x] else [] | _ => [] end.

Definition got1 (n : nat) (o : bus_op) (b : bus A) : list A :=
  match o with BReceive m => if Nat.eqb m n then option_list (receive m b).2 else [] | _ => [] end.

Definition unsub1 (n : nat) (o : bus_op) : bool :=
  match o with BUnsubscribe m => Nat.eqb m n | _ => false end.

(** The items published while [n] was subscribed, and those [n] received. *)
Fixpoint sent (n : nat) (l : list bus_op) (b : bus A) : list A :=
  match l with [] => [] | o :: l' => sent1 n o b ++ sent n l' (bus_step o b) end.

Fixpoint got (n : nat) (l : list bus_op) (b : bus A) : list A :=
  match l with [] => [] | o :: l' => got1 n o b ++ got n l' (bus_step o b) end.

(** The subscribers in the map are exactly those with an open channel, so that
    [publish] never sends on a closed one; numbers are not reused. *)
Definition bus_ok (b : bus A) : Prop :=
  (forall n, n ∈ bus_subs b <-> exists s, bus_all b !! n = Some s /\ closed s = false) /\
  (forall n s, bus_all b !! n = Some s -> (n < bus_next b)%nat).

Lemma newBus_ok : bus_ok newBus.
Proof. split; cbn; [|done]. intros n. rewrite lookup_empty. set_solver. Qed.

Lemma publish_lookup (item : A) (b : bus A) n :
  bus_all (publish item b) !! n =
  (fun s => if bool_decide (n ∈ bus_subs b) then offer item s else s) <$> bus_all b !! n.
Proof. cbn. rewrite map_lookup_imap. by destruct (bus_all b !! n). Qed.

Lemma offer_closed (item : A) (s : subscriber A) : closed (offer item s) = closed s.
Proof. unfold offer. by case_test. Qed.

Lemma bus_step_ok o b : bus_ok b -> bus_ok (bus_step o b).
Proof.
  intros [Hs Hn]. destruct o as [item| |n|n].
  - split.
    + intros n. change (bus_subs (bus_step _ b)) with (bus_subs b). cbn [bus_step].
      rewrite Hs, publish_lookup. destruct (bus_all b !! n) as [s|]; cbn; [|naive_solver].
      case_bool_decide; rewrite ?offer_closed; split; intros (s' & [= <-] & Hc); eexists; (split; [done|]);
        rewrite ?offer_closed in *; done.
    + intros n s. cbn [bus_step]. rewrite publish_lookup. destruct (bus_all b !! n) eqn:Hl; [|done]. intros _.
      by eapply Hn.
  - split; cbn.
    + intros n. rewrite elem_of_union, elem_of_singleton. destruct (decide (n = bus_next b)) as [->|Hne].
      * rewrite lookup_insert_eq. naive_solver.
      * rewrite lookup_insert_ne, <- Hs by done. naive_solver.
    + intros n s. rewrite lookup_insert_Some. intros [[<- _]|[_ H%Hn]]; lia.
  - cbn. unfold unsubscribe. destruct (bus_all b !! n) as [s|] eqn:Hl; [|done]. destruct (closed s) eqn:Hc; [done|].
    split; cbn.
    + intros m. rewrite elem_of_difference, elem_of_singleton, Hs. destruct (decide (m = n)) as [->|Hne].
      * rewrite lookup_insert_eq. naive_solver.
      * rewrite lookup_insert_ne by done. naive_solver.
    + intros m s'. rewrite lookup_insert_Some. intros [[<- _]|[_ H]]; by eapply Hn.
  - cbn. unfold receive. destruct (bus_all b !! n) as [s|] eqn:Hl; [|done]. destruct (ch s) as [|x rest]; [done|].
    split; cbn.
    + intros m. rewrite Hs. destruct (decide (m = n)) as [->|Hne].
      * rewrite lookup_insert_eq, Hl. naive_solver.
      * by rewrite lookup_insert_ne.
    + intros m s'. rewrite lookup_insert_Some. intros [[<- _]|[_ H]]; by eapply Hn.
Qed.
Lemma bus_run_ok l b : bus_ok b -> bus_ok (bus_run l b).
Proof. revert b; induction l as [|o l IH]; intros b Hb; [done|]. cbn. by apply IH, bus_step_ok. Qed.

(** What became of a subscriber [s] as [s'], having been sent [out] and having
    read [inp]: order is kept, every item is read, buffered or counted as
    dropped, and nothing is lost unless counted. *)
Record kept (s s' : subscriber A) (out inp : list A) : Prop := {
  kp_order : inp ++ ch s' `sublist_of` ch s ++ out;
  kp_count : len (ch s) + len out + dropped s = len inp + len (ch s') + dropped s';
  kp_drops : dropped s <= dropped s';
  kp_exact : dropped s' = dropped s -> inp ++ ch s' = ch s ++ out;
  kp_cap : len (ch s) <= subscriberBuffer -> len (ch s') <= subscriberBuffer
}.

Lemma kept_same s s' : ch s' = ch s -> dropped s' = dropped s -> kept s s' [] [].
Proof. intros H1 H2. split; rewrite ?H1, ?H2, ?app_nil_r; cbn; rewrite ?H1; try done; lia. Qed.

Lemma step_kept o b n s :
  bus_ok b -> bus_all b !! n = Some s ->
  exists s', bus_all (bus_step o b) !! n = Some s' /\ kept s s' (sent1 n o b) (got1 n o b) /\
    closed s' = closed s || unsub1 n o.
Proof.
  intros [Hs Hn] Hl. destruct o as [item| |m|m]; cbn [bus_step sent1 got1 unsub1]; rewrite ?orb_false_r.
  - rewrite publish_lookup, Hl. cbn. eexists. split; [done|]. case_bool_decide; [|by split; [apply kept_same|]].
    rewrite offer_closed. split; [|done]. unfold offer. case_test; bool_to_prop; split; cbn; try done.
    + rewrite !len_app. unfold len; cbn. lia.
    + rewrite len_app. unfold len in *; cbn. lia.
    + apply sublist_inserts_r. done.
    + unfold len; cbn. lia.
    + lia.
    + lia.
  - exists s. cbn. rewrite lookup_insert_ne; [by split; [done|split; [apply kept_same|]]|].
    intros Heq. pose proof (Hn n s Hl). lia.
  - unfold unsubscribe. destruct (Nat.eqb_spec m n) as [->|Hne].
    + rewrite Hl. destruct (closed s) eqn:Hc; [exists s; by split; [|split; [apply kept_same|]]|].
      cbn. rewrite lookup_insert_eq. eexists. split; [done|]. by split; [apply kept_same|].
    + rewrite orb_false_r. exists s. split; [|by split; [apply kept_same|]].
      destruct (bus_all b !! m) as [t|]; [|done]. destruct (closed t); [done|]. cbn. by rewrite lookup_insert_ne.
  - unfold receive. destruct (Nat.eqb_spec m n) as [->|Hne].
    + rewrite Hl. destruct (ch s) as [|x rest] eqn:Hch; cbn; [exists s; by split; [|split; [apply kept_same|]]|].
      rewrite lookup_insert_eq. eexists. split; [done|]. split; [|done].
      split; cbn; rewrite ?Hch, ?app_nil_r; try done; unfold len; cbn; lia.
    + exists s. split; [|by split; [apply kept_same|]].
      destruct (bus_all b !! m) as [t|]; [|done]. destruct (ch t); [done|]. cbn. by rewrite lookup_insert_ne.
Qed.

Lemma kept_trans s1 s2 s3 o1 i1 o2 i2 :
  kept s1 s2 o1 i1 -> kept s2 s3 o2 i2 -> kept s1 s3 (o1 ++ o2) (i1 ++ i2).
Proof.
  intros [A1 A2 A3 A4 A5] [B1 B2 B3 B4 B5]. split.
  - transitivity (i1 ++ (ch s2 ++ o2)).
    + rewrite <- (assoc_L (++)). by apply sublist_app.
    + rewrite !(assoc_L (++)). by apply sublist_app.
  - rewrite !len_app. lia.
  - lia.
  - intros Hd. rewrite <- (assoc_L (++)), B4 by lia. rewrite !(assoc_L (++)), A4 by lia. done.
  - auto.
Qed.

Lemma run_kept l b n s :
  bus_ok b -> bus_all b !! n = Some s ->
  exists s', bus_all (bus_run l b) !! n = Some s' /\ kept s s' (sent n l b) (got n l b) /\
    closed s' = closed s || existsb (unsub1 n) l.
Proof.
  revert b s; induction l as [|o l IH]; intros b s Hok Hl.
  { exists s. cbn. rewrite orb_false_r. by split; [|split; [apply kept_same|]]. }
  destruct (step_kept o b n s Hok Hl) as (s1 & Hl1 & Hk1 & Hc1).
  destruct (IH _ _ (bus_step_ok o b Hok) Hl1) as (s2 & Hl2 & Hk2 & Hc2).
  exists s2. cbn. split; [done|]. split; [by eapply kept_trans|]. by rewrite Hc2, Hc1, orb_assoc.
Qed.

(** A subscriber of the event bus, from the moment it subscribes, whatever
    else happens on the bus.  What it has read and what waits in its channel is
    the published items in order, of which some may be missing; exactly as many
    are missing as its drop counter says, so that none is while the counter is
    zero; at most 128 wait; its channel is closed exactly when it unsubscribed,
    and the subscribers that are sent to always have an open channel. *)
Theorem bus_delivery (b0 : bus A) (l : list bus_op) :
  bus_ok b0 ->
  let n := (subscribe b0).2 in
  let b1 := (subscribe b0).1 in
  let b := bus_run l b1 in
  exists s, bus_all b !! n = Some s /\
    got n l b1 ++ ch s `sublist_of` sent n l b1 /\
    len (sent n l b1) = len (got n l b1) + len (ch s) + dropped s /\ 0 <= dropped s /\
    (dropped s = 0 -> got n l b1 ++ ch s = sent n l b1) /\
    len (ch s) <= subscriberBuffer /\
    closed s = existsb (unsub1 n) l /\
    (forall m, m ∈ bus_subs b -> exists t, bus_all b !! m = Some t /\ closed t = false).
Proof.
  intros Hok n b1 b. pose proof (bus_step_ok BSubscribe b0 Hok) as Hok1.
  assert (bus_all b1 !! n = Some (mkSubscriber [] 0 false)) as Hl by (cbn; by rewrite lookup_insert_eq).
  destruct (run_kept l b1 n _ Hok1 Hl) as (s & Hs & [K1 K2 K3 K4 K5] & Hc). cbn in *.
  pose proof (bus_run_ok l b1 Hok1) as Hokb.
  exists s. split_and!; try done.
  - unfold len in *; cbn in *; lia.
  - apply K5. done.
  - intros m Hm. by apply Hokb.
Qed.
End BusFacts.
Arguments bus_op A : clear implicits.

(** A subscriber that reads one of three items and then leaves. *)
Lemma bus_delivery_witness :
  let l := [BPublish 1; BPublish 2; BReceive O; BSubscribe; BPublish 3; BUnsubscribe O; BPublish 4] in
  exists s, bus_all (bus_run l (subscribe newBus).1) !! O = Some s /\ dropped s = 0 /\
    got O l (subscribe newBus).1 ++ ch s = [1; 2; 3] /\ closed s = true.
Proof.
  intros l. destruct (bus_delivery (A := Z) newBus l newBus_ok) as (s & Hs & _ & _ & _ & Hexact & _ & Hc & _).
  exists s. split; [exact Hs|]. assert (dropped s = 0) as Hd.
  { vm_compute in Hs. injection Hs as <-. reflexivity. }
  split; [exact Hd|]. split; (etransitivity; [first [exact (Hexact Hd) | exact Hc]|vm_compute; reflexivity]).
Defined.
