(* ===== verification/WireGuardConf.v ===== *)
(** internal/vpn/wireguard/parse.go: wg-quick configuration files.

    The text is read through [bufio.Scanner] (lines of at most 1 MiB).  [Quote]
    is [%q]; the texts of base64's and net's own errors are arguments. *)

From S2P Require Import Prelude GoTime Core Errors GoStrings Netip Registry.
From Stdlib Require Import Ascii.

Definition maxIfaceName : nat := 15.

Definition ErrInvalidConf : error :=
  ECore (Some "wireguard.ErrInvalidConf") KindInvalid "wireguard: invalid wg-quick config" "" None.

(** ** Small parsers *)

Definition splitList (v : string) : list string :=
  List.filter (fun s => negb (s =?s "")) (map TrimSpace (Split v ",")).

(** [parsePrefix]: a bare address is a full-length prefix. *)
Definition parsePrefix (s : string) : option Prefix :=
  match ParsePrefix s with
  | Some p => Some p
  | None => match ParseAddr s with Some ip => Some (PrefixFrom ip (BitLen ip)) | None => None end
  end.

Definition parseUint (s : string) (max : Z) : option Z :=
  match Atoi s with
  | Some n => if (n <? 0) || (max <? n) then None else Some n
  | None => None
  end.

(** [base64.StdEncoding]: how many bytes a text decodes to, line breaks
    ignored, trailing bits not checked. *)
Definition is_base64 (c : ascii) : bool :=
  let n := nat_of_ascii c in
  (Nat.leb 65 n && Nat.leb n 90) || (Nat.leb 97 n && Nat.leb n 122) || (Nat.leb 48 n && Nat.leb n 57) ||
  Nat.eqb n 43 || Nat.eqb n 47.

Definition is_pad (c : ascii) : bool := Nat.eqb (nat_of_ascii c) 61.

Fixpoint base64_quanta (l : list ascii) : option Z :=
  match l with
  | [] => Some 0
  | a :: b :: c :: d :: l' =>
      if negb (is_base64 a && is_base64 b) then None
      else if is_pad c && is_pad d && match l' with [] => true | _ => false end then Some 1
      else if negb (is_base64 c) then None
      else if is_pad d && match l' with [] => true | _ => false end then Some 2
      else if negb (is_base64 d) then None
      else match base64_quanta l' with Some n => Some (n + 3) | None => None end
  | _ => None
  end.

Definition base64_len (s : string) : option Z :=
  base64_quanta (List.filter (fun c => let n := nat_of_ascii c in negb (Nat.eqb n 10 || Nat.eqb n 13))
    (String.list_ascii_of_string s)).

(** [strconv.ParseInt(s, 0, 64)] *)
Definition lower_is (c : ascii) (n : nat) : bool := Nat.eqb (nat_of_ascii (lower_byte c)) n.

Fixpoint underscores_ok (hex : bool) (prev_digit prev_us : bool) (s : string) : bool :=
  match s with
  | "" => negb prev_us
  | String c s' =>
      let n := nat_of_ascii (lower_byte c) in
      if is_digit c || (hex && Nat.leb 97 n && Nat.leb n 102) then underscores_ok hex true false s'
      else if Nat.eqb (nat_of_ascii c) 95 then
        if prev_digit then underscores_ok hex false true s' else false
      else if prev_us then false
      else underscores_ok hex false false s'
  end.

Definition underscoreOK (s : string) : bool :=
  match s with
  | String z (String c s') =>
      if Nat.eqb (nat_of_ascii z) 48 && (lower_is c 98 || lower_is c 111 || lower_is c 120)
      then underscores_ok (lower_is c 120) true false s'
      else underscores_ok false false false s
  | _ => underscores_ok false false false s
  end.

(** The digits of [s] in [base], underscores skipped. *)
Fixpoint base_digits (base acc : Z) (s : string) : option Z :=
  match s with
  | "" => Some acc
  | String c s' =>
      if Nat.eqb (nat_of_ascii c) 95 then base_digits base acc s'
      else
        let n := Z.of_nat (nat_of_ascii (lower_byte c)) in
        let d := if is_digit c then n - 48 else if (97 <=? n) && (n <=? 122) then n - 97 + 10 else 99 in
        if d <? base then base_digits base (acc * base + d) s' else None
  end.

Definition ParseUint0 (s : string) : option Z :=
  let base_rest :=
    match s with
    | String z s1 =>
        if Nat.eqb (nat_of_ascii z) 48 then
          match s1 with
          | String c (String _ _ as s2) =>
              if lower_is c 98 then (2, s2)
              else if lower_is c 111 then (8, s2)
              else if lower_is c 120 then (16, s2)
              else (8, s1)
          | _ => (8, s1)
          end
        else (10, s)
    | "" => (10, s)
    end in
  if s =?s "" then None
  else
    match base_digits base_rest.1 0 base_rest.2 with
    | Some n => if Contains s "_" && negb (underscoreOK s) then None else if n <? 2 ^ 64 then Some n else None
    | None => None
    end.

Definition ParseInt0 (s : string) : option Z :=
  let '(neg, s) :=
    match s with
    | String c s' => if Nat.eqb (nat_of_ascii c) 45 then (true, s')
                     else if Nat.eqb (nat_of_ascii c) 43 then (false, s') else (false, s)
    | "" => (false, s)
    end in
  match ParseUint0 s with
  | Some n =>
      if neg then (if n <=? 2 ^ 63 then Some (- n) else None)
      else if n <? 2 ^ 63 then Some n else None
  | None => None
  end.

(** ** Names *)

(** The part after the last of '/' and '\'. *)
Fixpoint after_last_slash (s : string) : option string :=
  match s with
  | "" => None
  | String c s' =>
      match after_last_slash s' with
      | Some r => Some r
      | None => if Nat.eqb (nat_of_ascii c) 47 || Nat.eqb (nat_of_ascii c) 92 then Some s' else None
      end
  end.

Definition profileName (name : string) : string :=
  let name := TrimSpace name in
  let name := match after_last_slash name with Some r => r | None => name end in
  let name := TrimSuffix name ".conf" in
  if name =?s "" then "wg0" else name.

Definition iface_char (c : ascii) : bool :=
  let n := nat_of_ascii c in
  (Nat.leb 97 n && Nat.leb n 122) || (Nat.leb 65 n && Nat.leb n 90) || (Nat.leb 48 n && Nat.leb n 57) ||
  Nat.eqb n 95 || Nat.eqb n 45 || Nat.eqb n 46.

Definition ifaceName (name : string) : string :=
  let s := String.string_of_list_ascii
             (take maxIfaceName (List.filter iface_char (String.list_ascii_of_string name))) in
  if (s =?s "") || (s =?s ".") || (s =?s "..") then "wg0" else s.

(** [bufio.Scanner] with [ScanLines]: the lines without their line ends, and
    whether a line did not fit the buffer, which ends the scan. *)
Definition maxLine : Z := 1024 * 1024.

Definition newline : string := byte_str [10%nat].
Definition strip_cr (s : string) : string := TrimSuffix s (byte_str [13%nat]).

Fixpoint fitting (l : list string) : list string * bool :=
  match l with
  | [] => ([], false)
  | s :: l' =>
      if maxLine <=? Z.of_nat (String.length s) then ([], true)
      else let '(ls, long) := fitting l' in (strip_cr s :: ls, long)
  end.

Definition scan_lines (text : string) : list string * bool :=
  let parts := Split text newline in
  fitting (match last parts with Some "" => removelast parts | _ => parts end).

(** ** ParseConf *)

Section Parse.
Context (Quote : string -> string) (base64_error : string -> string) (hostport_error : string -> string).

Definition validateKey (s : string) : option string :=
  match base64_len s with
  | None => Some ("not base64: " +:+ base64_error s)
  | Some n => if n =? 32 then None else Some ("key is " +:+ Itoa n +:+ " bytes, want 32")
  end.

Definition validateEndpoint (s : string) : option string :=
  match SplitHostPort s with
  | None => Some ("endpoint " +:+ Quote s +:+ ": " +:+ hostport_error s)
  | Some (host, port) =>
      if host =?s "" then Some ("endpoint " +:+ Quote s +:+ ": empty host")
      else match parseUint port 65535 with
           | Some _ => if port =?s "0" then Some ("endpoint " +:+ Quote s +:+ ": bad port") else None
           | None => Some ("endpoint " +:+ Quote s +:+ ": bad port")
           end
  end.

(** The error values, their text in one place. *)
Definition conf_error (text : string) : error := EWrap (ErrorString ErrInvalidConf +:+ ": " +:+ text) [ErrInvalidConf].
Definition line_error (lineNo : Z) (text : string) : error := conf_error ("line " +:+ Itoa lineNo +:+ ": " +:+ text).
Definition bad (lineNo : Z) (key err : string) : error := line_error lineNo (key +:+ ": " +:+ err).

(** Writing through the nil [cur] would panic. *)
Definition nil_peer : error := ELeaf "runtime error: invalid memory address or nil pointer dereference".

Inductive section_kind := SecNone | SecInterface | SecPeer.

Definition peer_zero : WireGuardPeer := mkWireGuardPeer "" "" "" [] 0.

(** The local variables of [ParseConf]; [cur] is the peer being read. *)
Record pstate := mkPstate {
  ps_section : section_kind;
  ps_cur : option WireGuardPeer;
  ps_sawIface : bool;
  ps_table : string;
  ps_defaultV4 : bool;
  ps_defaultV6 : bool;
  ps_unsupported : list string;
  ps_PrivateKey : string;
  ps_ListenPort : Z;
  ps_FwMark : Z;
  ps_MTU : Z;
  ps_Addresses : list string;
  ps_DNS : list string;
  ps_DNSSearch : list string;
  ps_Peers : list WireGuardPeer
}.

Definition pstate_zero : pstate := mkPstate SecNone None false "" false false [] "" 0 0 0 [] [] [] [].

Definition flushPeer (p : pstate) : pstate :=
  match ps_cur p with
  | None => p
  | Some c =>
      mkPstate (ps_section p) None (ps_sawIface p) (ps_table p) (ps_defaultV4 p) (ps_defaultV6 p)
        (ps_unsupported p) (ps_PrivateKey p) (ps_ListenPort p) (ps_FwMark p) (ps_MTU p) (ps_Addresses p)
        (ps_DNS p) (ps_DNSSearch p) (ps_Peers p ++ [c])
  end.

Definition enter (sec : section_kind) (p : pstate) : pstate :=
  let p := flushPeer p in
  mkPstate sec (match sec with SecPeer => Some peer_zero | _ => None end)
    (match sec with SecInterface => true | _ => ps_sawIface p end) (ps_table p) (ps_defaultV4 p) (ps_defaultV6 p)
    (ps_unsupported p) (ps_PrivateKey p) (ps_ListenPort p) (ps_FwMark p) (ps_MTU p) (ps_Addresses p)
    (ps_DNS p) (ps_DNSSearch p) (ps_Peers p).

(** The fields of the interface section, rewritten together. *)
Definition set_iface (p : pstate) (table : string) (unsup : list string) (key : string) (port mark mtu : Z)
    (addrs dns search : list string) : pstate :=
  mkPstate (ps_section p) (ps_cur p) (ps_sawIface p) table (ps_defaultV4 p) (ps_defaultV6 p)
    unsup key port mark mtu addrs dns search (ps_Peers p).

Definition set_cur (c : WireGuardPeer) (v4 v6 : bool) (p : pstate) : pstate :=
  mkPstate (ps_section p) (Some c) (ps_sawIface p) (ps_table p) v4 v6
    (ps_unsupported p) (ps_PrivateKey p) (ps_ListenPort p) (ps_FwMark p) (ps_MTU p) (ps_Addresses p)
    (ps_DNS p) (ps_DNSSearch p) (ps_Peers p).

Definition prefixes (lineNo : Z) (key value : string) : result error (list Prefix) :=
  result_mapM (fun a =>
    match parsePrefix a with
    | Some p => Ok p
    | None => Err (bad lineNo key ("not an IP or CIDR: " +:+ Quote a))
    end) (splitList value).

Definition number (lineNo : Z) (key value : string) : result error Z :=
  match parseUint value 65535 with
  | Some n => Ok n
  | None => Err (bad lineNo key ("not a number in 0.." +:+ Itoa 65535 +:+ ": " +:+ Quote value))
  end.

Definition valid_key (lineNo : Z) (key value : string) : result error string :=
  match validateKey value with None => Ok value | Some e => Err (bad lineNo key e) end.

Definition fwmark (lineNo : Z) (key value : string) : result error Z :=
  if EqualFold value "off" then Ok 0
  else
    match ParseInt0 value with
    | Some n => if (n <? 0) || (0xffffffff <? n)
                then Err (bad lineNo key ("not a 32-bit mark: " +:+ Quote value)) else Ok n
    | None => Err (bad lineNo key ("not a 32-bit mark: " +:+ Quote value))
    end.

(** A key of the [Interface] section. *)
Definition iface_key (lineNo : Z) (key lkey value : string) (p : pstate) : result error pstate :=
  let set := set_iface p in
  if lkey =?s "privatekey" then
    k <-? valid_key lineNo key value ;;
    Ok (set (ps_table p) (ps_unsupported p) k (ps_ListenPort p) (ps_FwMark p) (ps_MTU p) (ps_Addresses p)
          (ps_DNS p) (ps_DNSSearch p))
  else if lkey =?s "address" then
    ps <-? prefixes lineNo key value ;;
    Ok (set (ps_table p) (ps_unsupported p) (ps_PrivateKey p) (ps_ListenPort p) (ps_FwMark p) (ps_MTU p)
          (ps_Addresses p ++ map Prefix_String ps) (ps_DNS p) (ps_DNSSearch p))
  else if lkey =?s "dns" then
    let items := splitList value in
    Ok (set (ps_table p) (ps_unsupported p) (ps_PrivateKey p) (ps_ListenPort p) (ps_FwMark p) (ps_MTU p)
          (ps_Addresses p)
          (ps_DNS p ++ map Addr_String (omap ParseAddr items))
          (ps_DNSSearch p ++ List.filter (fun d => match ParseAddr d with Some _ => false | None => true end) items))
  else if lkey =?s "listenport" then
    n <-? number lineNo key value ;;
    Ok (set (ps_table p) (ps_unsupported p) (ps_PrivateKey p) n (ps_FwMark p) (ps_MTU p) (ps_Addresses p)
          (ps_DNS p) (ps_DNSSearch p))
  else if lkey =?s "fwmark" then
    n <-? fwmark lineNo key value ;;
    Ok (set (ps_table p) (ps_unsupported p) (ps_PrivateKey p) (ps_ListenPort p) n (ps_MTU p) (ps_Addresses p)
          (ps_DNS p) (ps_DNSSearch p))
  else if lkey =?s "mtu" then
    n <-? number lineNo key value ;;
    Ok (set (ps_table p) (ps_unsupported p) (ps_PrivateKey p) (ps_ListenPort p) (ps_FwMark p) n (ps_Addresses p)
          (ps_DNS p) (ps_DNSSearch p))
  else if lkey =?s "table" then
    Ok (set (ToLower value) (ps_unsupported p) (ps_PrivateKey p) (ps_ListenPort p) (ps_FwMark p) (ps_MTU p)
          (ps_Addresses p) (ps_DNS p) (ps_DNSSearch p))
  else if existsb (String.eqb lkey) ["preup"; "postup"; "predown"; "postdown"; "saveconfig"] then
    Ok (set (ps_table p) (ps_unsupported p ++ [key +:+ " = " +:+ value]) (ps_PrivateKey p) (ps_ListenPort p)
          (ps_FwMark p) (ps_MTU p) (ps_Addresses p) (ps_DNS p) (ps_DNSSearch p))
  else Err (line_error lineNo ("unknown [Interface] key " +:+ Quote key)).

(** A key of a [Peer] section; [c] is the peer. *)
Definition peer_key (lineNo : Z) (key lkey value : string) (c : WireGuardPeer) (p : pstate) : result error pstate :=
  let set c := set_cur c (ps_defaultV4 p) (ps_defaultV6 p) p in
  if lkey =?s "publickey" then
    k <-? valid_key lineNo key value ;;
    Ok (set (mkWireGuardPeer k (wgp_PresharedKey c) (wgp_Endpoint c) (wgp_AllowedIPs c) (wgp_PersistentKeepalive c)))
  else if lkey =?s "presharedkey" then
    k <-? valid_key lineNo key value ;;
    Ok (set (mkWireGuardPeer (wgp_PublicKey c) k (wgp_Endpoint c) (wgp_AllowedIPs c) (wgp_PersistentKeepalive c)))
  else if lkey =?s "endpoint" then
    match validateEndpoint value with
    | Some e => Err (bad lineNo key e)
    | None =>
        Ok (set (mkWireGuardPeer (wgp_PublicKey c) (wgp_PresharedKey c) value (wgp_AllowedIPs c)
                   (wgp_PersistentKeepalive c)))
    end
  else if lkey =?s "allowedips" then
    ps <-? prefixes lineNo key value ;;
    let zero (v4 : bool) := existsb (fun q => (pfx_Bits q =? 0) && Bool.eqb (Is4 (pfx_Addr q)) v4) ps in
    Ok (set_cur (mkWireGuardPeer (wgp_PublicKey c) (wgp_PresharedKey c) (wgp_Endpoint c)
                   (wgp_AllowedIPs c ++ map Prefix_String ps) (wgp_PersistentKeepalive c))
          (ps_defaultV4 p || zero true) (ps_defaultV6 p || zero false) p)
  else if lkey =?s "persistentkeepalive" then
    n <-? (if EqualFold value "off" then Ok 0 else number lineNo key value) ;;
    Ok (set (mkWireGuardPeer (wgp_PublicKey c) (wgp_PresharedKey c) (wgp_Endpoint c) (wgp_AllowedIPs c) n))
  else Err (line_error lineNo ("unknown [Peer] key " +:+ Quote key)).

(** One line. *)
Definition parse_line (lineNo : Z) (raw : string) (p : pstate) : result error pstate :=
  let line := TrimSpace (match Cut raw "#" with Some (l, _) => l | None => raw end) in
  if line =?s "" then Ok p
  else if HasPrefix line "[" then
    if negb (HasSuffix line "]") then Err (line_error lineNo ("malformed section header " +:+ Quote line))
    else
      let name := ToLower (TrimSpace (string_take (String.length line - 2) (string_drop 1 line))) in
      if name =?s "interface" then Ok (enter SecInterface p)
      else if name =?s "peer" then Ok (enter SecPeer p)
      else Err (line_error lineNo ("unknown section " +:+ line))
  else
    match Cut line "=" with
    | None => Err (line_error lineNo "expected key = value")
    | Some (k, v) =>
        let key := TrimSpace k in
        let value := TrimSpace v in
        match ps_section p, ps_cur p with
        | SecInterface, _ => iface_key lineNo key (ToLower key) value p
        | SecPeer, Some c => peer_key lineNo key (ToLower key) value c p
        | SecPeer, None => Err nil_peer
        | SecNone, _ => Err (line_error lineNo ("key " +:+ Quote key +:+ " before any section"))
        end
    end.

Fixpoint parse_lines (lineNo : Z) (l : list string) (p : pstate) : result error pstate :=
  match l with
  | [] => Ok p
  | raw :: l' => p <-? parse_line lineNo raw p ;; parse_lines (lineNo + 1) l' p
  end.

(** The index of the first peer without a public key, from 1. *)
Fixpoint keyless_peer (i : Z) (l : list WireGuardPeer) : option Z :=
  match l with
  | [] => None
  | p :: l' => if wgp_PublicKey p =?s "" then Some i else keyless_peer (i + 1) l'
  end.

(** Table and default route: [AutoDefaultRoute] and what stays unsupported. *)
Definition finish_table (p : pstate) : option bool * list string :=
  if ps_table p =?s "off" then (Some false, ps_unsupported p)
  else if (ps_table p =?s "") || (ps_table p =?s "auto") || (ps_table p =?s "main")
  then (if ps_defaultV4 p || ps_defaultV6 p then Some true else None, ps_unsupported p)
  else (Some false, ps_unsupported p ++ ["Table = " +:+ ps_table p]).

Definition ParseConf (name text : string) : result error WireGuardSpec :=
  let '(lines, long) := scan_lines text in
  p <-? parse_lines 1 lines pstate_zero ;;
  if long then Err (conf_error "read: bufio.Scanner: token too long")
  else
    let p := flushPeer p in
    if negb (ps_sawIface p) then Err (conf_error "no [Interface] section")
    else if ps_PrivateKey p =?s "" then Err (conf_error "[Interface] has no PrivateKey")
    else
      match keyless_peer 1 (ps_Peers p) with
      | Some i => Err (conf_error ("[Peer] " +:+ Itoa i +:+ " has no PublicKey"))
      | None =>
          let '(auto, unsup) := finish_table p in
          Ok (mkWireGuardSpec (profileName name) (ifaceName (profileName name)) (ps_PrivateKey p) (ps_ListenPort p)
                (ps_FwMark p) (ps_MTU p) (ps_Addresses p) (ps_DNS p) (ps_DNSSearch p) (ps_Peers p) auto false unsup)
      end.

(** [HasDefaultRoute] *)
Definition HasDefaultRoute (spec : WireGuardSpec) : bool :=
  existsb (fun p => existsb (fun a => match ParsePrefix a with Some pfx => pfx_Bits pfx =? 0 | None => false end)
                      (wgp_AllowedIPs p)) (wg_Peers spec).
End Parse.
