(* ===== verification/WireGuardConfFacts.v ===== *)
(** What an accepted wg-quick file is: a well-formed profile that
    NetworkManager's settings can always be written for, and that reads back. *)

From S2P Require Import Prelude GoTime Core Errors GoStrings GoStringsFacts NMVariant Netip NetipRoundtrip NMMapping.
From S2P Require Import NMRead NMSettings Registry WireGuardConf.
From Stdlib Require Import Ascii.

(** ** The promise *)

(** A Curve25519 key: base64 of 32 bytes. *)
Definition key32 (s : string) : Prop := base64_len s = Some 32.

Definition canonical_prefix (s : string) : Prop := exists p, Prefix_ok p /\ s = Prefix_String p.
Definition canonical_addr (s : string) : Prop := exists a, Addr_ok a /\ s = Addr_String a.

Section Spec.
Context (Quote : string -> string) (hostport_error : string -> string).

Record peer_ok (p : WireGuardPeer) : Prop := {
  po_public : wgp_PublicKey p = "" \/ key32 (wgp_PublicKey p);
  po_psk : wgp_PresharedKey p = "" \/ key32 (wgp_PresharedKey p);
  po_endpoint : wgp_Endpoint p = "" \/ validateEndpoint Quote hostport_error (wgp_Endpoint p) = None;
  po_allowed : Forall canonical_prefix (wgp_AllowedIPs p);
  po_keepalive : 0 <= wgp_PersistentKeepalive p <= 65535
}.

(** A kernel-legal interface name. *)
Definition iface_ok (s : string) : Prop :=
  (1 <= String.length s <= maxIfaceName)%nat /\ all_chars iface_char s = true /\ s <> "." /\ s <> "..".

Record spec_ok (spec : WireGuardSpec) : Prop := {
  so_name : wg_Name spec <> "";
  so_iface : iface_ok (wg_InterfaceName spec);
  so_private : key32 (wg_PrivateKey spec);
  so_port : 0 <= wg_ListenPort spec <= 65535;
  so_mark : 0 <= wg_FwMark spec < 2 ^ 32;
  so_mtu : 0 <= wg_MTU spec <= 65535;
  so_addresses : Forall canonical_prefix (wg_Addresses spec);
  so_dns : Forall canonical_addr (wg_DNS spec);
  so_peers : Forall (fun p => key32 (wgp_PublicKey p) /\ peer_ok p) (wg_Peers spec)
}.

(** Whether a peer routes everything, and what the parser decides on it: a
    default route is taken over unless the routing table is a custom one. *)
Definition all_traffic (a : string) : bool :=
  match ParsePrefix a with Some pfx => pfx_Bits pfx =? 0 | None => false end.

Definition peer_default (p : WireGuardPeer) : bool := existsb all_traffic (wgp_AllowedIPs p).
End Spec.

(** ** Numbers and lists *)

Lemma parseUint_range s max n : parseUint s max = Some n -> 0 <= n <= max.
Proof.
  unfold parseUint. destruct (Atoi s) as [m|]; [|done]. destruct (_ || _) eqn:H; [done|]. intros [= <-].
  apply orb_false_iff in H as [?%Z.ltb_ge ?%Z.ltb_ge]. lia.
Qed.

Lemma parsePrefix_ok s p : parsePrefix s = Some p -> Prefix_ok p.
Proof.
  unfold parsePrefix. destruct (ParsePrefix s) as [q|] eqn:Hq; [intros [= <-]; by eapply ParsePrefix_ok|].
  destruct (ParseAddr s) as [a|] eqn:Ha; [|done]. intros [= <-]. apply PrefixFrom_ok; [by eapply ParseAddr_ok|].
  unfold BitLen. destruct (Is4 a); lia.
Qed.

Lemma ifaceName_ok name : iface_ok (ifaceName name).
Proof.
  unfold ifaceName. cbv zeta. set (l := take maxIfaceName _).
  assert (all_chars iface_char (String.string_of_list_ascii l) = true /\ String.length (String.string_of_list_ascii l) = length l)
    as [Hc Hl].
  { subst l. generalize maxIfaceName. induction (String.list_ascii_of_string name) as [|c cs IH]; intros n.
    - by destruct n.
    - cbn [List.filter]. destruct (iface_char c) eqn:Hc; [|apply IH]. destruct n as [|n]; [done|].
      destruct (IH n) as [H1 H2]. cbn. rewrite Hc, H1. split; [done|]. f_equal. exact H2. }
  destruct (_ || _) eqn:H; [split_and!; try done; vm_compute; lia|].
  apply orb_false_iff in H as [[H0%String.eqb_neq H1%String.eqb_neq]%orb_false_iff H2%String.eqb_neq].
  split_and!; try done.
  - destruct (String.string_of_list_ascii l); [done|]. cbn. lia.
  - rewrite Hl. subst l. rewrite length_take. lia.
Qed.

Lemma profileName_nonempty name : profileName name <> "".
Proof. unfold profileName. cbv zeta. destruct (_ =?s "") eqn:H; [done|]. by apply String.eqb_neq. Qed.

(** ** Every rejection is an invalid file *)

Section Facts.
Context (Quote : string -> string) (base64_error : string -> string) (hostport_error : string -> string).

Definition invalid_conf (e : error) : Prop :=
  errors_Is (Some e) ErrInvalidConf = true /\ KindOf (Some e) = KindInvalid.

Lemma conf_error_invalid text : invalid_conf (conf_error text).
Proof. split; reflexivity. Qed.

(** A result that satisfies [P], or a rejection of the file. *)
Definition holds {A} (P : A -> Prop) (r : result error A) : Prop :=
  match r with Ok a => P a | Err e => invalid_conf e end.

Lemma holds_bind {A B} (P : A -> Prop) (Q : B -> Prop) (r : result error A) (f : A -> result error B) :
  holds P r -> (forall a, P a -> holds Q (f a)) -> holds Q (result_bind r f).
Proof. destruct r; cbn; auto. Qed.

Lemma holds_mapM {A B} (P : B -> Prop) (f : A -> result error B) l :
  (forall a, holds P (f a)) -> holds (Forall P) (result_mapM f l).
Proof.
  intros Hf. induction l as [|x l IH]; [constructor|]. cbn [result_mapM].
  apply (holds_bind P); [apply Hf|]. intros y Hy. apply (holds_bind (Forall P)); [done|]. intros ys Hys.
  by constructor.
Qed.

Lemma prefixes_holds n key value : holds (Forall Prefix_ok) (prefixes Quote n key value).
Proof.
  apply holds_mapM. intros a. destruct (parsePrefix a) as [p|] eqn:Hp; [by eapply parsePrefix_ok|].
  apply conf_error_invalid.
Qed.

Lemma number_holds n key value : holds (fun m => 0 <= m <= 65535) (number Quote n key value).
Proof.
  unfold number. destruct (parseUint value 65535) as [m|] eqn:Hm; [by eapply parseUint_range|].
  apply conf_error_invalid.
Qed.

Lemma valid_key_holds n key value : holds key32 (valid_key base64_error n key value).
Proof.
  unfold valid_key, validateKey, key32. destruct (base64_len value) as [m|] eqn:Hm; [|apply conf_error_invalid].
  destruct (Z.eqb_spec m 32) as [->|]; [done|apply conf_error_invalid].
Qed.

Lemma fwmark_holds n key value : holds (fun m => 0 <= m < 2 ^ 32) (fwmark Quote n key value).
Proof.
  unfold fwmark. case_test; [done|]. destruct (ParseInt0 value) as [m|]; [|apply conf_error_invalid].
  destruct (_ || _) eqn:H; [apply conf_error_invalid|].
  apply orb_false_iff in H as [?%Z.ltb_ge H%Z.ltb_ge]. change 0xffffffff with (2 ^ 32 - 1) in H. cbn. lia.
Qed.

(** ** The parser's invariant *)

Record pstate_ok (p : pstate) : Prop := {
  ps_section_ok : ps_section p = SecPeer -> ps_cur p <> None;
  ps_private_ok : ps_PrivateKey p = "" \/ key32 (ps_PrivateKey p);
  ps_port_ok : 0 <= ps_ListenPort p <= 65535;
  ps_mark_ok : 0 <= ps_FwMark p < 2 ^ 32;
  ps_mtu_ok : 0 <= ps_MTU p <= 65535;
  ps_addresses_ok : Forall canonical_prefix (ps_Addresses p);
  ps_dns_ok : Forall canonical_addr (ps_DNS p);
  ps_peers_ok : Forall (peer_ok Quote hostport_error) (ps_Peers p ++ option_list (ps_cur p));
  ps_default_ok : ps_defaultV4 p || ps_defaultV6 p = existsb peer_default (ps_Peers p ++ option_list (ps_cur p))
}.

Lemma peer_zero_ok : peer_ok Quote hostport_error peer_zero.
Proof. split; cbn; auto; lia. Qed.

Lemma pstate_zero_ok : pstate_ok pstate_zero.
Proof. split; cbn; auto; try lia; done. Qed.

Lemma flushPeer_ok p :
  pstate_ok p ->
  pstate_ok (enter SecNone p) /\ ps_cur (flushPeer p) = None /\
  ps_Peers (flushPeer p) = ps_Peers p ++ option_list (ps_cur p).
Proof.
  intros [H1 H2 H3 H4 H5 H6 H7 H8 H9]. unfold enter, flushPeer. destruct (ps_cur p) as [c|] eqn:Hc; cbn.
  - split_and!; [|done|done]. split; cbn; try done; by rewrite app_nil_r.
  - split_and!; [|done|by rewrite app_nil_r]. split; cbn; done.
Qed.

Lemma enter_ok sec p : pstate_ok p -> pstate_ok (enter sec p).
Proof.
  intros Hp. destruct (flushPeer_ok p Hp) as ([_ H2 H3 H4 H5 H6 H7 H8 H9] & _ & _).
  destruct sec; [split; done|split; done|]. unfold enter in *. cbn in *.
  rewrite app_nil_r in H8, H9. split; cbn; try done.
  - apply Forall_app. split; [done|]. constructor; [apply peer_zero_ok|constructor].
  - by rewrite existsb_app, H9, orb_false_r.
Qed.

Lemma canonical_prefixes ps : Forall Prefix_ok ps -> Forall canonical_prefix (map Prefix_String ps).
Proof. intros H. apply Forall_fmap. eapply Forall_impl; [done|]. intros p Hp. by exists p. Qed.

Lemma canonical_addrs items : Forall canonical_addr (map Addr_String (omap ParseAddr items)).
Proof.
  apply Forall_fmap, Forall_forall. intros a (s & Hs & Ha)%list_elem_of_omap. exists a. split; [|done].
  by eapply ParseAddr_ok.
Qed.

(** Rewriting the interface's fields keeps the rest. *)
Lemma set_iface_ok p table unsup key port mark mtu addrs dns search :
  pstate_ok p -> key = "" \/ key32 key -> 0 <= port <= 65535 -> 0 <= mark < 2 ^ 32 -> 0 <= mtu <= 65535 ->
  Forall canonical_prefix addrs -> Forall canonical_addr dns ->
  pstate_ok (set_iface p table unsup key port mark mtu addrs dns search).
Proof. intros [H1 H2 H3 H4 H5 H6 H7 H8 H9] ? ? ? ? ? ?. by split. Qed.

Lemma iface_key_holds n key lkey value p :
  pstate_ok p -> holds pstate_ok (iface_key Quote base64_error n key lkey value p).
Proof.
  intros Hp. pose proof Hp as [H1 H2 H3 H4 H5 H6 H7 _ _]. unfold iface_key. cbv zeta.
  repeat case_test; try apply conf_error_invalid; try (apply set_iface_ok; by auto).
  - eapply holds_bind; [apply valid_key_holds|]. intros k Hk. apply set_iface_ok; auto.
  - eapply holds_bind; [apply prefixes_holds|]. intros ps Hps. apply set_iface_ok; auto.
    apply Forall_app. split; [done|by apply canonical_prefixes].
  - apply set_iface_ok; auto. apply Forall_app. split; [done|apply canonical_addrs].
  - eapply holds_bind; [apply number_holds|]. intros m Hm. apply set_iface_ok; auto.
  - eapply holds_bind; [apply fwmark_holds|]. intros m Hm. apply set_iface_ok; auto.
  - eapply holds_bind; [apply number_holds|]. intros m Hm. apply set_iface_ok; auto.
Qed.

(** Rewriting the current peer: the default-route flags must follow. *)
Lemma set_cur_ok p c c' v4 v6 :
  pstate_ok p -> ps_cur p = Some c -> peer_ok Quote hostport_error c' ->
  v4 || v6 = existsb peer_default (ps_Peers p) || peer_default c' ->
  pstate_ok (set_cur c' v4 v6 p).
Proof.
  intros [H1 H2 H3 H4 H5 H6 H7 H8 H9] Hc Hok Hd. split; cbn; try done.
  - rewrite Hc in H8. apply Forall_app in H8 as [H8 _]. apply Forall_app.
    split; [done|]. by apply Forall_singleton.
  - by rewrite existsb_app, Hd; cbn; rewrite orb_false_r.
Qed.

Lemma cur_ok p c :
  pstate_ok p -> ps_cur p = Some c ->
  peer_ok Quote hostport_error c /\
  ps_defaultV4 p || ps_defaultV6 p = existsb peer_default (ps_Peers p) || peer_default c.
Proof.
  intros [H1 H2 H3 H4 H5 H6 H7 H8 H9] Hc. rewrite Hc in H8, H9. split.
  - apply Forall_app in H8 as [_ H8]. by apply Forall_cons in H8 as [H8 _].
  - rewrite H9, existsb_app. cbn. by rewrite orb_false_r.
Qed.

Lemma default_split ps :
  Forall Prefix_ok ps ->
  existsb all_traffic (map Prefix_String ps) =
  existsb (fun q => (pfx_Bits q =? 0) && Bool.eqb (Is4 (pfx_Addr q)) true) ps ||
  existsb (fun q => (pfx_Bits q =? 0) && Bool.eqb (Is4 (pfx_Addr q)) false) ps.
Proof.
  induction 1 as [|q ps Hq _ IH]; [done|]. cbn [map existsb]. rewrite IH. unfold all_traffic at 1.
  rewrite (ParsePrefix_String q Hq). destruct (pfx_Bits q =? 0), (Is4 (pfx_Addr q)); cbn;
    by rewrite ?orb_true_r, ?orb_false_r.
Qed.

Lemma peer_key_holds n key lkey value c p :
  pstate_ok p -> ps_cur p = Some c -> holds pstate_ok (peer_key Quote base64_error hostport_error n key lkey value c p).
Proof.
  intros Hp Hc. destruct (cur_ok p c Hp Hc) as [Hcur Hd]. pose proof Hcur as [P1 P2 P3 P4 P5].
  unfold peer_key. cbv zeta. repeat case_test; try apply conf_error_invalid.
  - eapply holds_bind; [apply valid_key_holds|]. intros k Hk. eapply set_cur_ok; [done|done| |exact Hd]. split; cbn; auto.
  - eapply holds_bind; [apply valid_key_holds|]. intros k Hk. eapply set_cur_ok; [done|done| |exact Hd]. split; cbn; auto.
  - destruct (validateEndpoint _ _ value) as [e|] eqn:He; [apply conf_error_invalid|].
    eapply set_cur_ok; [done|done| |exact Hd]. split; cbn; auto.
  - eapply holds_bind; [apply prefixes_holds|]. intros ps Hps. eapply set_cur_ok; [done|done| |].
    + split; cbn; auto. apply Forall_app. split; [done|by apply canonical_prefixes].
    + unfold peer_default. cbn [wgp_AllowedIPs]. rewrite existsb_app, default_split by done.
      change (existsb all_traffic (wgp_AllowedIPs c)) with (peer_default c).
      rewrite (orb_assoc (existsb peer_default _)), <- Hd.
      destruct (ps_defaultV4 p), (ps_defaultV6 p); cbn; rewrite ?orb_true_r; done.
  - cbn [result_bind]. eapply set_cur_ok; [done|done| |exact Hd]. split; cbn; auto. lia.
  - eapply holds_bind; [apply number_holds|]. intros m Hm. eapply set_cur_ok; [done|done| |exact Hd]. split; cbn; auto.
Qed.

Lemma parse_line_holds n raw p :
  pstate_ok p -> holds pstate_ok (parse_line Quote base64_error hostport_error n raw p).
Proof.
  intros Hp. unfold parse_line. cbv zeta. case_test; [done|]. case_test.
  - repeat case_test; try apply conf_error_invalid; by apply enter_ok.
  - destruct (Cut _ "=") as [[k v]|]; [|apply conf_error_invalid].
    destruct (ps_section p) eqn:Hs; [apply conf_error_invalid|by apply iface_key_holds|].
    destruct (ps_cur p) as [c|] eqn:Hc; [by apply peer_key_holds|]. by destruct (ps_section_ok p Hp Hs).
Qed.

Lemma parse_lines_holds l : forall n p,
  pstate_ok p -> holds pstate_ok (parse_lines Quote base64_error hostport_error n l p).
Proof.
  induction l as [|raw l IH]; intros n p Hp; [done|]. cbn [parse_lines].
  eapply holds_bind; [by apply parse_line_holds|]. intros p' Hp'. by apply IH.
Qed.

(** ** The end of the file *)

Lemma keyless_peer_None l : forall i, keyless_peer i l = None -> Forall (fun p => wgp_PublicKey p <> "") l.
Proof.
  induction l as [|p l IH]; intros i; cbn [keyless_peer]; [constructor|].
  destruct (wgp_PublicKey p =?s "") eqn:Hp; [done|]. intros H. constructor; [by apply String.eqb_neq|by eapply IH].
Qed.

Definition routes_agree (spec : WireGuardSpec) : Prop :=
  (wg_AutoDefaultRoute spec = Some true -> HasDefaultRoute spec = true) /\
  (wg_AutoDefaultRoute spec = None -> HasDefaultRoute spec = false).

Lemma finish_table_agrees p auto unsup :
  finish_table p = (auto, unsup) ->
  (auto = Some true -> ps_defaultV4 p || ps_defaultV6 p = true) /\
  (auto = None -> ps_defaultV4 p || ps_defaultV6 p = false).
Proof. unfold finish_table. destruct (ps_defaultV4 p || ps_defaultV6 p); repeat case_test; intros [= <- _]; by split. Qed.

Lemma parse_conf_holds name text :
  holds (fun spec => spec_ok Quote hostport_error spec /\ routes_agree spec)
    (ParseConf Quote base64_error hostport_error name text).
Proof.
  unfold ParseConf. destruct (scan_lines text) as [lines long].
  eapply holds_bind; [apply parse_lines_holds, pstate_zero_ok|]. intros p Hp. cbv beta.
  destruct long; [apply conf_error_invalid|].
  destruct (flushPeer_ok p Hp) as ([_ H2 H3 H4 H5 H6 H7 H8 H9] & Hc & _). unfold enter in *. cbn in *.
  set (q := flushPeer p) in *. clearbody q. rewrite app_nil_r in H8, H9.
  destruct (ps_sawIface q); [|apply conf_error_invalid]. cbn [negb].
  destruct (ps_PrivateKey q =?s "") eqn:Hk; [apply conf_error_invalid|]. apply String.eqb_neq in Hk.
  destruct (keyless_peer 1 (ps_Peers q)) as [i|] eqn:Hl; [apply conf_error_invalid|].
  apply keyless_peer_None in Hl.
  destruct (finish_table q) as [auto unsup] eqn:Ht. apply finish_table_agrees in Ht as [T1 T2].
  cbn [holds]. split.
  - split; cbn; auto using profileName_nonempty, ifaceName_ok; [by destruct H2|].
    apply Forall_forall. intros c Hin. rewrite Forall_forall in Hl, H8. split; [|by apply H8].
    destruct (po_public _ _ _ (H8 c Hin)); [|done]. by destruct (Hl c Hin).
  - unfold routes_agree, HasDefaultRoute. cbn [wg_AutoDefaultRoute wg_Peers].
    fold all_traffic. fold peer_default. rewrite <- H9. by split.
Qed.

(** C17: Reading a wg-quick file, whatever its text.  An accepted file gives a
    complete profile: a name, a kernel-legal interface name of 1 to 15 bytes,
    32-byte keys for the interface and every peer (preshared keys too, where
    given), ports, MTU and keepalives in 16 bits, a firewall mark in 32,
    endpoints that were checked, and addresses, routes and servers in normal
    form.  The default route is taken over only if some peer routes all
    traffic, and left to NetworkManager only if none does.  A refused file is
    always reported as [ErrInvalidConf], kind invalid, and nothing is ever
    written through the nil peer. *)
Theorem conf_promise name text :
  match ParseConf Quote base64_error hostport_error name text with
  | Ok spec =>
      spec_ok Quote hostport_error spec /\
      (wg_AutoDefaultRoute spec = Some true -> HasDefaultRoute spec = true) /\
      (wg_AutoDefaultRoute spec = None -> HasDefaultRoute spec = false)
  | Err e => errors_Is (Some e) ErrInvalidConf = true /\ KindOf (Some e) = KindInvalid
  end.
Proof.
  pose proof (parse_conf_holds name text) as H. by destruct (ParseConf _ _ _ name text).
Qed.
End Facts.

(** ** Importing an accepted file *)

Section Imported.
Context (Quote : string -> string) (netip_error : string -> string) (hostport_error : string -> string).

(** The family of a normal-form prefix, and of a server. *)
Definition v4_prefix (s : string) : bool := match ParsePrefix s with Some p => Is4 (pfx_Addr p) | None => false end.

(** A server as it reads back: without the zone. *)
Definition zoneless (s : string) : string :=
  match ParseAddr s with Some a => Addr_String (withoutZone a) | None => s end.

(** A peer without its secret. *)
Definition public_part (p : WireGuardPeer) : WireGuardPeer :=
  mkWireGuardPeer (wgp_PublicKey p) "" (wgp_Endpoint p) (wgp_AllowedIPs p) (wgp_PersistentKeepalive p).

Lemma result_mapM_map {A B} (f : A -> result error B) g l :
  Forall (fun a => f a = Ok (g a)) l -> result_mapM f l = Ok (map g l).
Proof. induction 1 as [|a l Ha _ IH]; [done|]. cbn [result_mapM map]. by rewrite Ha, IH. Qed.

Lemma tagged_filter (p : string -> bool) (q : bool -> bool) l :
  map snd (List.filter (fun t => q t.1) (map (fun a => (p a, a)) l)) = List.filter (fun a => q (p a)) l.
Proof. induction l as [|a l IH]; [done|]. cbn. destruct (q (p a)); cbn; by rewrite IH. Qed.

Definition of_v4 (p : string -> bool) (b : bool) (l : list string) : list string :=
  List.filter (fun a => Bool.eqb (p a) b) l.

Lemma of_v4_split p l :
  of_v4 p true l = List.filter p l /\ of_v4 p false l = List.filter (fun a => negb (p a)) l.
Proof. split; apply filter_ext; intros a; by destruct (p a). Qed.

Lemma key32_nonempty s : key32 s -> s <> "".
Proof. intros H ->. discriminate H. Qed.

Lemma splitCIDR_canonical p family :
  Prefix_ok p -> wrong_family family (pfx_Addr p) = false ->
  splitCIDR Quote netip_error (Prefix_String p) family = Ok (Addr_String (pfx_Addr p), pfx_Bits p).
Proof.
  intros Hp Hf. unfold splitCIDR. cbv zeta. by rewrite Prefix_String_trim, ParsePrefix_String, Hf.
Qed.

Lemma split_addresses_canonical op l :
  Forall canonical_prefix l ->
  split_addresses Quote netip_error op l = Ok (of_v4 v4_prefix true l, of_v4 v4_prefix false l).
Proof.
  intros Hl. destruct (of_v4_split v4_prefix l) as [-> ->]. unfold split_addresses. rewrite (result_mapM_map _ (fun a => (v4_prefix a, a))).
  - cbn [result_bind]. by rewrite (tagged_filter v4_prefix (fun b => b)), (tagged_filter v4_prefix negb).
  - eapply Forall_impl; [done|]. intros a (p & Hp & ->). rewrite splitCIDR_canonical by done.
    unfold is_v4, v4_prefix. rewrite ParseAddr_String by (by destruct Hp). by rewrite ParsePrefix_String.
Qed.

Lemma split_dns_canonical op l :
  Forall canonical_addr l ->
  split_dns Quote op l = Ok (of_v4 is_v4 true l, of_v4 is_v4 false l).
Proof.
  intros Hl. destruct (of_v4_split is_v4 l) as [-> ->]. unfold split_dns. rewrite (result_mapM_map _ (fun a => (is_v4 a, a))).
  - cbn [result_bind]. by rewrite (tagged_filter is_v4 (fun b => b)), (tagged_filter is_v4 negb).
  - eapply Forall_impl; [done|]. intros s (a & Ha & ->). unfold is_v4. by rewrite ParseAddr_String.
Qed.

(** The prefixes and servers of one family. *)
Definition prefix_of_family (family : Z) (s : string) : Prop :=
  exists p, Prefix_ok p /\ s = Prefix_String p /\ wrong_family family (pfx_Addr p) = false.
Definition addr_of_family (family : Z) (s : string) : Prop :=
  exists a, Addr_ok a /\ s = Addr_String a /\ wrong_family family a = false.

Lemma prefix_family l (b : bool) :
  Forall canonical_prefix l ->
  Forall (prefix_of_family (if b then 4 else 6)) (of_v4 v4_prefix b l).
Proof.
  intros Hl. apply Forall_forall. intros s Hs. apply list_elem_of_In, filter_In in Hs as [Hs Hb].
  rewrite Forall_forall in Hl. destruct (Hl s) as (p & Hp & ->); [by apply list_elem_of_In|].
  exists p. split_and!; [done|done|]. unfold v4_prefix in Hb. rewrite ParsePrefix_String in Hb by done.
  unfold wrong_family, Is6. destruct b, (Is4 (pfx_Addr p)); done.
Qed.

Lemma addr_family l (b : bool) :
  Forall canonical_addr l ->
  Forall (addr_of_family (if b then 4 else 6)) (of_v4 is_v4 b l).
Proof.
  intros Hl. apply Forall_forall. intros s Hs. apply list_elem_of_In, filter_In in Hs as [Hs Hb].
  rewrite Forall_forall in Hl. destruct (Hl s) as (a & Ha & ->); [by apply list_elem_of_In|].
  exists a. split_and!; [done|done|]. unfold is_v4 in Hb. rewrite ParseAddr_String in Hb by done.
  unfold wrong_family, Is6. destruct b, (Is4 a); done.
Qed.

Lemma cidrs_normal family cs back :
  Forall (prefix_of_family family) cs -> Forall2 (cidr_normal Quote netip_error family) cs back -> back = cs.
Proof.
  intros Hcs H2. revert Hcs. induction H2 as [|c s cs back Hc _ IH]; [done|].
  intros [(p & Hp & -> & Hf) Hcs]%Forall_cons. f_equal; [|by apply IH].
  destruct Hc as (a & n & Ha & ->). rewrite splitCIDR_canonical in Ha by done. by injection Ha as <- <-.
Qed.

Lemma addrs_normal family ds back :
  Forall (addr_of_family family) ds -> Forall2 (addr_normal family) ds back -> back = map zoneless ds.
Proof.
  intros Hds H2. revert Hds. induction H2 as [|c s ds back Hc _ IH]; [done|].
  intros [(a & Ha & -> & Hf) Hds]%Forall_cons. cbn [map]. f_equal; [|by apply IH].
  destruct Hc as (b & Hb & _ & ->). unfold zoneless. by rewrite Hb.
Qed.

(** One family's configuration is written, and reads back. *)
Lemma wg_ip_config_back spec addrs dns family :
  family = 4 \/ family = 6 ->
  Forall (prefix_of_family family) addrs -> Forall (addr_of_family family) dns ->
  exists out, wg_ip_config Quote netip_error spec addrs dns family = Ok out /\
    ip_Addresses (decodeIPConfig out family) = addrs /\
    ip_DNS (decodeIPConfig out family) = match addrs with [] => [] | _ => map zoneless dns end.
Proof.
  intros Hfam Ha Hd. unfold wg_ip_config.
  set (cfg := match addrs with
              | [] => mkIPConfig IPDisabled [] "" [] [] false false
              | _ => mkIPConfig IPManual addrs "" dns (wg_DNSSearch spec) false false
              end).
  assert (ip_Addresses cfg = addrs /\ ip_Gateway cfg = "" /\
          ip_DNS cfg = match addrs with [] => [] | _ => dns end) as (C1 & C2 & C3) by (subst cfg; by destruct addrs).
  assert (Forall (addr_of_family family) (ip_DNS cfg)) as Hd' by (rewrite C3; by destruct addrs).
  replace (match addrs with [] => _ | _ => _ end) with (encodeIPConfig Quote netip_error ∅ cfg family)
    by (subst cfg; by destruct addrs).
  destruct (encodeIPConfig Quote netip_error ∅ cfg family) as [out|e] eqn:He.
  - exists out. split; [done|]. destruct (encode_back _ _ _ _ _ _ Hfam He) as (B1 & _ & B3 & _).
    rewrite C1 in B1. split; [by eapply cidrs_normal|].
    rewrite (addrs_normal _ _ _ Hd' B3), C3. by destruct addrs.
  - exfalso. destruct (encodeIPConfig_refused _ _ _ _ _ _ Hfam He) as [(c & Hc & Hf)|[[Hg _]|(d & Hin & Hf)]].
    + rewrite C1 in Hc. rewrite Forall_forall in Ha. destruct (Ha c Hc) as (p & Hp & -> & Hw).
      by rewrite splitCIDR_canonical in Hf.
    + done.
    + rewrite Forall_forall in Hd'. destruct (Hd' d Hin) as (a & Hok & -> & Hw).
      rewrite (Hf a (ParseAddr_String a Hok)) in Hw. done.
Qed.

(** ** Peers *)

Lemma uint16_u32 n : 0 <= n < 2 ^ 32 -> uint_of 32 n = n.
Proof. intros Hn. unfold uint_of. by apply Z.mod_small. Qed.

Lemma peer_dict_back p :
  wgp_PublicKey p <> "" -> 0 <= wgp_PersistentKeepalive p <= 65535 ->
  exists d, peer_dict p = Some d /\
    mkWireGuardPeer (vStr d "public-key") "" (vStr d "endpoint") (vStrs d "allowed-ips")
      (vU32 d "persistent-keepalive") = public_part p.
Proof.
  intros Hk Hn. unfold peer_dict. rewrite (seqb_ne _ _ Hk). eexists. split; [done|].
  unfold public_part, vStr, vStrs, vU32, set_if.
  destruct (wgp_PresharedKey p =?s ""), (String.eqb_spec (wgp_Endpoint p) "") as [He|He],
    (Z.ltb_spec 0 (wgp_PersistentKeepalive p)); cbn [negb].
  all: repeat (rewrite lookup_insert_eq || rewrite lookup_insert_ne by done || rewrite lookup_singleton_eq
                || rewrite lookup_singleton_ne by done).
  all: rewrite ?He, ?uint16_u32 by lia; f_equal; try lia.
  all: rewrite (lookup_singleton_ne "public-key" "persistent-keepalive") by done; lia.
Qed.

Lemma peers_dicts_back op l : forall i,
  Forall (fun p => wgp_PublicKey p <> "" /\ 0 <= wgp_PersistentKeepalive p <= 65535) l ->
  exists ds, peers_dicts op i l = Ok ds /\
    map (fun d => mkWireGuardPeer (vStr d "public-key") "" (vStr d "endpoint") (vStrs d "allowed-ips")
                    (vU32 d "persistent-keepalive")) ds = map public_part l.
Proof.
  induction l as [|p l IH]; intros i Hl; [by exists []|]. apply Forall_cons in Hl as [[Hk Hn] Hl].
  destruct (IH (i + 1) Hl) as (ds & Hds & Hmap). destruct (peer_dict_back p Hk Hn) as (d & Hd & Hback).
  exists (d :: ds). cbn [peers_dicts map]. rewrite Hd, Hds, Hback, Hmap. done.
Qed.

(** ** The whole profile *)

Lemma lookup_set_if_ne {A} b k k' (v : A) m : k <> k' -> set_if b k v m !! k' = m !! k'.
Proof. intros Hk. unfold set_if. destruct b; [by apply lookup_insert_ne|done]. Qed.

(** A profile of the four sections a WireGuard profile has. *)
Lemma decodeProfile_wg path (conn wg ip4 ip6 : props) meta active :
  let pf := decodeProfile Quote path
              (<[settingConnection := conn]> (<[settingWireGuard := wg]> (<[settingIPv4 := ip4]> {[ settingIPv6 := ip6 ]})))
              meta active in
  pf_Name pf = vStr conn "id" /\ pf_UUID pf = vStr conn "uuid" /\ pf_Type pf = profileType (vStr conn "type") /\
  pf_InterfaceName pf = vStr conn "interface-name" /\ pf_Autoconnect pf = default true (vBool conn "autoconnect") /\
  pf_WireGuard pf = Some (decodeWireGuardSetting wg) /\
  pf_IPv4 pf = decodeIPConfig ip4 4 /\ pf_IPv6 pf = decodeIPConfig ip6 6.
Proof.
  unfold decodeProfile, section. cbv zeta.
  rewrite (lookup_insert_eq _ settingConnection).
  repeat (rewrite lookup_insert_ne by done || rewrite lookup_insert_eq || rewrite lookup_singleton_eq
          || rewrite lookup_singleton_ne by done).
  by split_and!.
Qed.

Lemma wg_u32_back (n : Z) (k : string) (m : props) :
  0 <= n < 2 ^ 32 -> m !! k = None -> vU32 (set_if (0 <? n) k (VUint32 (uint_of 32 n)) m) k = n.
Proof.
  intros Hn Hm. unfold vU32, set_if. destruct (Z.ltb_spec 0 n).
  - by rewrite lookup_insert_eq, uint16_u32.
  - rewrite Hm. lia.
Qed.

Lemma wg_setting_back spec ds :
  0 <= wg_ListenPort spec <= 65535 -> 0 <= wg_FwMark spec < 2 ^ 32 -> 0 <= wg_MTU spec <= 65535 ->
  decodeWireGuardSetting (wg_setting spec ds) =
  mkWireGuardSetting "" (wg_ListenPort spec) (wg_FwMark spec) (wg_MTU spec)
    (map (fun d => mkWireGuardPeer (vStr d "public-key") "" (vStr d "endpoint") (vStrs d "allowed-ips")
                     (vU32 d "persistent-keepalive")) ds).
Proof.
  intros H1 H2 H3. unfold decodeWireGuardSetting, wg_setting. cbv zeta. unfold vDicts. rewrite lookup_insert_eq.
  set (base := <["private-key" := _]> _).
  set (m := match wg_AutoDefaultRoute spec with Some _ => _ | None => _ end).
  assert (forall k, k <> "peers" -> k <> "ip4-auto-default-route" -> k <> "ip6-auto-default-route" ->
    (<["peers" := VDicts ds]> m) !! k =
    set_if (0 <? wg_MTU spec) "mtu" (VUint32 (uint_of 32 (wg_MTU spec)))
      (set_if (0 <? wg_FwMark spec) "fwmark" (VUint32 (uint_of 32 (wg_FwMark spec)))
        (set_if (0 <? wg_ListenPort spec) "listen-port" (VUint32 (uint_of 32 (wg_ListenPort spec))) base)) !! k) as Hm.
  { intros k K1 K2 K3. rewrite lookup_insert_ne by done. subst m. destruct (wg_AutoDefaultRoute spec); [|done].
    by rewrite !lookup_insert_ne by done. }
  assert (forall k, k <> "private-key" -> k <> "private-key-flags" -> base !! k = None) as Hb.
  { intros k K1 K2. subst base. by rewrite lookup_insert_ne, lookup_singleton_ne by done. }
  f_equal.
  - transitivity (vU32 (set_if (0 <? wg_ListenPort spec) "listen-port" (VUint32 (uint_of 32 (wg_ListenPort spec))) base)
      "listen-port").
    + unfold vU32. by rewrite Hm, !(lookup_set_if_ne _ _ "listen-port") by done.
    + apply wg_u32_back; [lia|by apply Hb].
  - transitivity (vU32 (set_if (0 <? wg_FwMark spec) "fwmark" (VUint32 (uint_of 32 (wg_FwMark spec)))
      (set_if (0 <? wg_ListenPort spec) "listen-port" (VUint32 (uint_of 32 (wg_ListenPort spec))) base)) "fwmark").
    + unfold vU32. by rewrite Hm, (lookup_set_if_ne _ "mtu") by done.
    + apply wg_u32_back; [lia|]. rewrite lookup_set_if_ne by done. by apply Hb.
  - rewrite <- (wg_u32_back (wg_MTU spec) "mtu"
      (set_if (0 <? wg_FwMark spec) "fwmark" (VUint32 (uint_of 32 (wg_FwMark spec)))
      (set_if (0 <? wg_ListenPort spec) "listen-port" (VUint32 (uint_of 32 (wg_ListenPort spec))) base))).
    + unfold vU32. by rewrite Hm by done.
    + lia.
    + rewrite !lookup_set_if_ne by done. by apply Hb.
Qed.

Lemma wireguardSettings_back spec uuid user path meta active :
  spec_ok Quote hostport_error spec ->
  exists d, wireguardSettings Quote netip_error spec uuid user = Ok d /\
    let pf := decodeProfile Quote path d meta active in
    pf_Name pf = wg_Name spec /\ pf_UUID pf = uuid /\ pf_Type pf = ProfileWireGuard /\
    pf_InterfaceName pf = wg_InterfaceName spec /\ pf_Autoconnect pf = wg_Autoconnect spec /\
    pf_WireGuard pf = Some (mkWireGuardSetting "" (wg_ListenPort spec) (wg_FwMark spec) (wg_MTU spec)
                              (map public_part (wg_Peers spec))) /\
    (forall v4, let addrs := of_v4 v4_prefix v4 (wg_Addresses spec) in
       let back := if v4 then pf_IPv4 pf else pf_IPv6 pf in
       ip_Addresses back = addrs /\
       ip_DNS back = match addrs with
                     | [] => []
                     | _ => map zoneless (of_v4 is_v4 v4 (wg_DNS spec))
                     end).
Proof.
  intros [S1 S2 S3 S4 S5 S6 S7 S8 S9]. unfold wireguardSettings. cbv zeta.
  rewrite (seqb_ne _ _ S1).
  assert (wg_InterfaceName spec <> "") as Hi by (destruct S2 as ([H1 _] & _); intros He; rewrite He in H1; cbn in H1; lia).
  assert (wg_PrivateKey spec <> "") as Hk by (by apply key32_nonempty).
  rewrite (seqb_ne _ _ Hi), (seqb_ne _ _ Hk). set (op := "add wireguard " +:+ wg_Name spec).
  assert (Forall (fun p => wgp_PublicKey p <> "" /\ 0 <= wgp_PersistentKeepalive p <= 65535) (wg_Peers spec)) as Hpeers.
  { eapply Forall_impl; [done|]. intros p [H1 [_ _ _ _ H2]]. split; [|done]. by apply key32_nonempty. }
  destruct (peers_dicts_back op _ 0 Hpeers) as (ds & -> & Hds). cbn [result_bind].
  rewrite split_addresses_canonical, split_dns_canonical by done. cbn [result_bind fst snd].
  assert (forall b, exists out,
    wg_ip_config Quote netip_error spec (of_v4 v4_prefix b (wg_Addresses spec)) (of_v4 is_v4 b (wg_DNS spec))
      (if b then 4 else 6) = Ok out /\
    ip_Addresses (decodeIPConfig out (if b then 4 else 6)) = of_v4 v4_prefix b (wg_Addresses spec) /\
    ip_DNS (decodeIPConfig out (if b then 4 else 6)) =
      match of_v4 v4_prefix b (wg_Addresses spec) with
      | [] => [] | _ => map zoneless (of_v4 is_v4 b (wg_DNS spec)) end) as Hip.
  { intros b. apply wg_ip_config_back; [destruct b; auto|by apply prefix_family|by apply addr_family]. }
  destruct (Hip true) as (o4 & E4 & A4 & D4). destruct (Hip false) as (o6 & E6 & A6 & D6). clear Hip. cbv iota in *.
  rewrite E4, E6. cbn [op_result result_bind]. eexists. split; [done|].
  set (conn := set_if (negb (user =?s "")) "permissions" _ _).
  destruct (decodeProfile_wg path conn (wg_setting spec ds) o4 o6 meta active) as (-> & -> & -> & -> & -> & -> & -> & ->).
  assert (forall k, k <> "permissions" -> conn !! k =
    (<["type" := VString typeWireGuard]> (<["id" := VString (wg_Name spec)]> (<["uuid" := VString uuid]>
      (<["interface-name" := VString (wg_InterfaceName spec)]>
        {[ "autoconnect" := VBool (wg_Autoconnect spec) ]}))) : props) !! k) as Hconn
    by (intros k Hne; by apply lookup_set_if_ne).
  split_and!.
  1-5: unfold vStr, vBool; rewrite Hconn by done;
    repeat (rewrite lookup_insert_ne by done || rewrite lookup_insert_eq || rewrite lookup_singleton_eq); done.
  - rewrite wg_setting_back by done. by rewrite Hds.
  - intros [|]; by split.
Qed.

(** C18: Importing an accepted wg-quick file never fails on the way to
    NetworkManager: the settings can always be built, and the profile they
    decode to has the file's name, interface, ports, mark and MTU, every peer
    with its key, endpoint, routes and keepalive (not the secrets), and per
    family exactly the file's addresses, in order.  The DNS servers of a family
    are kept, without zones, when the file has an address of that family, and
    dropped when it has none. *)
Theorem conf_imports base64_error name text spec uuid user path meta active :
  ParseConf Quote base64_error hostport_error name text = Ok spec ->
  exists d, wireguardSettings Quote netip_error spec uuid user = Ok d /\
    let pf := decodeProfile Quote path d meta active in
    pf_Name pf = wg_Name spec /\ pf_UUID pf = uuid /\ pf_Type pf = ProfileWireGuard /\
    pf_InterfaceName pf = wg_InterfaceName spec /\ pf_Autoconnect pf = wg_Autoconnect spec /\
    pf_WireGuard pf = Some (mkWireGuardSetting "" (wg_ListenPort spec) (wg_FwMark spec) (wg_MTU spec)
                              (map public_part (wg_Peers spec))) /\
    (forall v4, let addrs := of_v4 v4_prefix v4 (wg_Addresses spec) in
       let back := if v4 then pf_IPv4 pf else pf_IPv6 pf in
       ip_Addresses back = addrs /\
       ip_DNS back = match addrs with
                     | [] => []
                     | _ => map zoneless (of_v4 is_v4 v4 (wg_DNS spec))
                     end).
Proof.
  intros Hp. apply wireguardSettings_back.
  pose proof (parse_conf_holds Quote base64_error hostport_error name text) as H. rewrite Hp in H. apply H.
Qed.
End Imported.

(** A tunnel with one address family and servers of both. *)
Definition demo_key : string := "yAnz5TF+lXXJte14tji3zlMNq+hd2rYUIgJBgB3fBmk=".

Definition demo_conf : string := Join
  ["[Interface]"; "PrivateKey = " +:+ demo_key; "Address = 10.66.0.2/32 # office"; "DNS = 10.66.0.1, FD00::53, lan";
   "MTU=1420"; ""; "[Peer]"; "PublicKey = " +:+ demo_key; "Endpoint = [2001:db8::1]:51820";
   "AllowedIPs = 0.0.0.0/0, ::/0"; "PersistentKeepalive = 25"] newline.

Definition demo_spec : WireGuardSpec :=
  mkWireGuardSpec "office" "office" demo_key 0 0 1420 ["10.66.0.2/32"] ["10.66.0.1"; "fd00::53"] ["lan"]
    [mkWireGuardPeer demo_key "" "[2001:db8::1]:51820" ["0.0.0.0/0"; "::/0"] 25] (Some true) false [].

Example demo_conf_parses : ParseConf id id id "~/vpn/office.conf" demo_conf = Ok demo_spec.
Proof. vm_compute. reflexivity. Qed.

Lemma conf_imports_witness :
  ParseConf id id id "~/vpn/office.conf" demo_conf = Ok demo_spec /\
  exists d, wireguardSettings id id demo_spec "uuid-1" "alice" = Ok d /\
    ip_Addresses (pf_IPv4 (decodeProfile id "/p" d (mkConnMeta "" 0) false)) = ["10.66.0.2/32"] /\
    ip_DNS (pf_IPv6 (decodeProfile id "/p" d (mkConnMeta "" 0) false)) = [].
Proof.
  assert (ParseConf id id id "~/vpn/office.conf" demo_conf = Ok demo_spec) as Hp by (vm_compute; reflexivity).
  split; [exact Hp|].
  destruct (conf_imports id id id id _ _ _ "uuid-1" "alice" "/p" (mkConnMeta "" 0) false Hp)
    as (d & Hd & _ & _ & _ & _ & _ & _ & Hip).
  exists d. split; [exact Hd|]. destruct (Hip true) as [H4 _]. destruct (Hip false) as [_ H6]. split.
  - exact H4.
  - exact H6.
Defined.
