(* ===== verification/NMCache.v ===== *)
(** internal/nm/client.go: the cache of NetworkManager's objects, the signals
    that keep it current, the hints handed to watchers and the channels of
    activation waiters.

    A call to NetworkManager is answered by a [reply]: [rep n] answers the
    [n]-th call a handler makes, so that every call may see a later state of
    the bus.  Where Go ranges over a map of calls the order is the one of
    [map_to_list]. *)

From S2P Require Import Prelude GoTime Core Errors GoStrings NMVariant NMMapping SecretAgent NMRead.

(** ** consts.go: names *)

Definition ifaceProperties : string := "org.freedesktop.DBus.Properties".
Definition ifaceObjectManager : string := "org.freedesktop.DBus.ObjectManager".
Definition ifaceDBus : string := "org.freedesktop.DBus".
Definition ifaceSettings : string := "org.freedesktop.NetworkManager.Settings".
Definition ifaceWireGuard : string := "org.freedesktop.NetworkManager.Device.WireGuard".
Definition pathSettings : string := "/org/freedesktop/NetworkManager/Settings".

(** ** Signals *)

(** The dynamic types the handler tells apart in a signal's body; a map is a
    list in the order the next [range] visits it. *)
Inductive arg : Type :=
| AStr (s : string)
| APath (p : string)
| AUint32 (n : Z)
| AProps (m : props)
| AIfaces (l : list (string * props))
| AStrings (l : list string)
| AOther.

Record Signal := mkSignal { sg_Path : string; sg_Name : string; sg_Body : list arg }.

Definition pathArg (sig : Signal) (i : nat) : option string :=
  match sg_Body sig !! i with Some (APath p) => Some p | _ => None end.

(** The tolerant type assertions: a wrong type is the zero value. *)
Definition as_str (a : arg) : string := match a with AStr s => s | _ => "" end.
Definition as_path (a : arg) : string := match a with APath p => p | _ => "" end.
Definition as_uint32 (a : arg) : Z := match a with AUint32 n => n | _ => 0 end.
Definition as_props (a : arg) : props := match a with AProps m => m | _ => ∅ end.
Definition as_ifaces (a : arg) : list (string * props) := match a with AIfaces l => l | _ => [] end.
Definition as_strings (a : arg) : list string := match a with AStrings l => l | _ => [] end.

(** ** The client *)

Record activeEvent := mkActiveEvent { ae_state : Z; ae_reason : Z }.

(** A buffered channel; its sends never block, except the first of [Watch]. *)
Record chan (A : Type) := mkChan { cn_buf : list A; cn_closed : bool }.
Arguments mkChan {A} _ _.
Arguments cn_buf {A} _.
Arguments cn_closed {A} _.

Definition watchBuffer : nat := 64.
Definition waiterBuffer : nat := 16.

Abbreviation objects := (gmap string (gmap string props)) (only parsing).

(** [subs] is nil once the client is closed.  Every channel ever made is in
    [c_chans] or [c_wchans] under its number. *)
Record Client := mkClient {
  c_objs : objects;
  c_settings : gmap string settingsDict;
  c_devRsn : gmap string Z;
  c_subs : option (gset nat);
  c_chans : gmap nat (chan Change);
  c_waiters : gmap string (list nat);
  c_wchans : gmap nat (chan activeEvent);
  c_perms : option (gmap string string);
  c_nmOwner : string;
  c_agent : agent
}.

Definition with_cache (objs : objects) (settings : gmap string settingsDict) (c : Client) : Client :=
  mkClient objs settings (c_devRsn c) (c_subs c) (c_chans c) (c_waiters c) (c_wchans c) (c_perms c) (c_nmOwner c)
    (c_agent c).
Definition with_devRsn (m : gmap string Z) (c : Client) : Client :=
  mkClient (c_objs c) (c_settings c) m (c_subs c) (c_chans c) (c_waiters c) (c_wchans c) (c_perms c) (c_nmOwner c)
    (c_agent c).
Definition with_chans (subs : option (gset nat)) (m : gmap nat (chan Change)) (c : Client) : Client :=
  mkClient (c_objs c) (c_settings c) (c_devRsn c) subs m (c_waiters c) (c_wchans c) (c_perms c) (c_nmOwner c)
    (c_agent c).
Definition with_waiters (ws : gmap string (list nat)) (m : gmap nat (chan activeEvent)) (c : Client) : Client :=
  mkClient (c_objs c) (c_settings c) (c_devRsn c) (c_subs c) (c_chans c) ws m (c_perms c) (c_nmOwner c) (c_agent c).
Definition with_perms (p : option (gmap string string)) (c : Client) : Client :=
  mkClient (c_objs c) (c_settings c) (c_devRsn c) (c_subs c) (c_chans c) (c_waiters c) (c_wchans c) p (c_nmOwner c)
    (c_agent c).
Definition with_agent (owner : string) (a : agent) (c : Client) : Client :=
  mkClient (c_objs c) (c_settings c) (c_devRsn c) (c_subs c) (c_chans c) (c_waiters c) (c_wchans c) (c_perms c) owner a.

Definition cacheSettings (p : string) (s : settingsDict) (c : Client) : Client :=
  with_cache (c_objs c) (<[p := s]> (c_settings c)) c.

(** ** The cache *)

Definition propsOf (c : Client) (path iface : string) : option props := c_objs c !! path ≫= (.!! iface).

Definition removeObject (path : string) (c : Client) : Client :=
  with_devRsn (delete path (c_devRsn c))
    (with_cache (delete path (c_objs c)) (delete path (c_settings c)) c).

(** The new inner maps of [setProps]: changed keys over the old ones, then the
    invalidated ones dropped. *)
Definition merge_props (path iface : string) (changed : props) (invalidated : list string) (objs : objects) : objects :=
  let ifaces := default ∅ (objs !! path) in
  let old := default ∅ (ifaces !! iface) in
  let next := foldr delete (changed ∪ old) invalidated in
  <[path := <[iface := next]> ifaces]> objs.

Definition setProps (path iface : string) (changed : props) (invalidated : list string) (c : Client) : Client :=
  with_cache (merge_props path iface changed invalidated (c_objs c)) (c_settings c) c.

(** The local [hasPrefix]: strictly longer than the prefix. *)
Definition nm_hasPrefix (s prefix : string) : bool :=
  Nat.ltb (String.length prefix) (String.length s) && HasPrefix s prefix.

Definition candidateIfaces (p : string) : list string :=
  if nm_hasPrefix p "/org/freedesktop/NetworkManager/Devices/" then [ifaceDevice; ifaceWireless; ifaceWired; ifaceWireGuard]
  else if nm_hasPrefix p "/org/freedesktop/NetworkManager/AccessPoint/" then [ifaceAP]
  else if nm_hasPrefix p "/org/freedesktop/NetworkManager/ActiveConnection/" then [ifaceActive; ifaceVPN]
  else if nm_hasPrefix p "/org/freedesktop/NetworkManager/Settings/" then [ifaceConnection]
  else if nm_hasPrefix p "/org/freedesktop/NetworkManager/IP4Config/" then [ifaceIP4Config]
  else if nm_hasPrefix p "/org/freedesktop/NetworkManager/IP6Config/" then [ifaceIP6Config]
  else if p =?s pathNM then [ifaceNM]
  else if p =?s pathSettings then [ifaceSettings]
  else [].

(** The answers of NetworkManager to one call; a call without an answer failed. *)
Record reply := mkReply {
  r_managed : result call_error objects;
  r_getAll : string -> string -> option props;
  r_getSettings : string -> option settingsDict;
  r_connections : option variant;
  r_register : bool
}.

(** [snapshot] and [Client.view]: what the read calls work on. *)
Definition snapshot (c : Client) : view := mkView (map_to_list (c_objs c)) (map_to_list (c_settings c)).

Section Calls.
Context (rep : nat -> reply).

(** A piece of a handler: it may change the client and makes calls, [n] the
    number of the next. *)
Definition step : Type := nat * Client -> nat * Client.

(** The [GetAll] calls of [fetchObject]. *)
Fixpoint getAlls (n : nat) (path : string) (ifaces : list string) : list (string * props) * nat :=
  match ifaces with
  | [] => ([], n)
  | iface :: l =>
      let '(got, n') := getAlls (S n) path l in
      (match r_getAll (rep n) path iface with Some p => (iface, p) :: got | None => got end, n')
  end.

Definition fetchObject (path : string) : step := fun '(n, c) =>
  let '(got, n) := getAlls n path (candidateIfaces path) in
  let '(s, n) := if existsb (fun x => x.1 =?s ifaceConnection) got then (r_getSettings (rep n) path, S n) else (None, n) in
  match got with
  | [] => (n, c)
  | _ =>
      let cur := default ∅ (c_objs c !! path) in
      let cur := foldl (fun m x => <[x.1 := x.2]> m) cur got in
      let c := with_cache (<[path := cur]> (c_objs c)) (c_settings c) c in
      (n, match s with Some s => cacheSettings path s c | None => c end)
  end.

(** The [GetSettings] calls of [resync]. *)
Fixpoint getAllSettings (n : nat) (l : list (string * gmap string props)) : gmap string settingsDict * nat :=
  match l with
  | [] => (∅, n)
  | (path, ifaces) :: l' =>
      match ifaces !! ifaceConnection with
      | None => getAllSettings n l'
      | Some _ =>
          let '(m, n') := getAllSettings (S n) l' in
          (match r_getSettings (rep n) path with Some s => <[path := s]> m | None => m end, n')
      end
  end.

Definition resync (nc : nat * Client) : option error * (nat * Client) :=
  let '(n, c) := nc in
  let op := "snapshot NetworkManager objects" in
  match r_managed (rep n) with
  | Err e => (wrapDBus op (Some e), (S n, c))
  | Ok managed =>
      match managed !! pathNM with
      | None => (Some (newErr op (Some nm_ErrUnavailable)
                   "the ObjectManager on /org/freedesktop lists no /org/freedesktop/NetworkManager"), (S n, c))
      | Some _ =>
          let '(settings, n) := getAllSettings (S n) (map_to_list managed) in
          (None, (n, with_cache managed settings c))
      end
  end.

(** The loop of [resyncConnections]: fetch what is missing. *)
Fixpoint fetch_missing (paths : list string) : step := fun nc =>
  match paths with
  | [] => nc
  | p :: l => fetch_missing l (match c_settings nc.2 !! p with Some _ => nc | None => fetchObject p nc end)
  end.

Definition resyncConnections : step := fun '(n, c) =>
  match r_connections (rep n) with
  | None => (S n, c)
  | Some v =>
      fetch_missing (match v with VPaths l => l | _ => [] end)
        (S n, setProps pathSettings ifaceSettings {[ "Connections" := v ]} [] c)
  end.

(** ** Hints *)

(** A send that is skipped when the buffer is full. *)
Definition try_send {A} (cap : nat) (x : A) (ch : chan A) : chan A :=
  if Nat.ltb (length (cn_buf ch)) cap then mkChan (cn_buf ch ++ [x]) (cn_closed ch) else ch.

Definition emit (kind : ChangeKind) (path : string) (c : Client) : Client :=
  match c_subs c with
  | None => c
  | Some subs =>
      with_chans (Some subs)
        (map_imap (fun i ch => Some (if decide (i ∈ subs) then try_send watchBuffer (mkChange kind path) ch else ch))
           (c_chans c)) c
  end.

Definition hintFor (iface path : string) (c : Client) : Client :=
  if iface =?s ifaceNM then emit ChangeStatus path c
  else if existsb (String.eqb iface) [ifaceDevice; ifaceWired; ifaceWireGuard; ifaceIP4Config; ifaceIP6Config]
  then emit ChangeDevices path c
  else if (iface =?s ifaceWireless) || (iface =?s ifaceAP) then emit ChangeWifi path c
  else if (iface =?s ifaceSettings) || (iface =?s ifaceConnection) then emit ChangeProfiles path c
  else if iface =?s ifaceActive then emit ChangeActive path c
  else if iface =?s ifaceVPN then emit ChangeVPN path c
  else c.

(** ** Activation waiters *)

Definition notifyWaiters (path : string) (ev : activeEvent) (c : Client) : Client :=
  let ws := default [] (c_waiters c !! path) in
  with_waiters (c_waiters c)
    (map_imap (fun i ch => Some (if decide (i ∈ ws) then try_send waiterBuffer ev ch else ch)) (c_wchans c)) c.

Definition addWaiter (path : string) (c : Client) : nat * Client :=
  let ch := fresh (dom (c_wchans c)) in
  (ch, with_waiters (<[path := default [] (c_waiters c !! path) ++ [ch]]> (c_waiters c))
         (<[ch := mkChan [] false]> (c_wchans c)) c).

(** The first occurrence goes; an empty entry is deleted. *)
Fixpoint remove_first (ch : nat) (l : list nat) : list nat :=
  match l with
  | [] => []
  | x :: l' => if Nat.eqb x ch then l' else x :: remove_first ch l'
  end.

Definition removeWaiter (path : string) (ch : nat) (c : Client) : Client :=
  let ws := remove_first ch (default [] (c_waiters c !! path)) in
  with_waiters (match ws with [] => delete path (c_waiters c) | _ => <[path := ws]> (c_waiters c) end) (c_wchans c) c.

(** ** Closing *)

Definition close_chan {A} (ch : chan A) : chan A := mkChan (cn_buf ch) true.

Definition close_in {A} (ids : gset nat) (m : gmap nat (chan A)) : gmap nat (chan A) :=
  map_imap (fun i ch => Some (if decide (i ∈ ids) then close_chan ch else ch)) m.

Definition closeSubs (c : Client) : Client :=
  let waiting := foldr (fun ws (s : gset nat) => list_to_set ws ∪ s) ∅ (map snd (map_to_list (c_waiters c))) in
  with_waiters ∅ (close_in waiting (c_wchans c))
    (with_chans None (match c_subs c with Some subs => close_in subs (c_chans c) | None => c_chans c end) c).

(** ** Watch *)

(** [Watch] registers the channel under the lock, lets the lock go, and only
    then sends the first hint, blocking. *)
Definition watch_register (c : Client) : result error nat * Client :=
  match c_subs c with
  | None => (Err (newErr "watch" (Some nm_ErrUnavailable) "client is closed"), c)
  | Some subs =>
      let ch := fresh (dom (c_chans c)) in
      (Ok ch, with_chans (Some ({[ ch ]} ∪ subs)) (<[ch := mkChan [] false]> (c_chans c)) c)
  end.

(** How the blocking send ends. *)
Inductive send_result :=
| Sent (c : Client)
| Blocked                      (* the buffer is full and nobody can read it yet *)
| PanicClosed.                 (* a send on a closed channel *)

Definition watch_first (ch : nat) (c : Client) : send_result :=
  match c_chans c !! ch with
  | None => Blocked
  | Some k =>
      if cn_closed k then PanicClosed
      else if Nat.ltb (length (cn_buf k)) watchBuffer
      then Sent (with_chans (c_subs c) (<[ch := mkChan (cn_buf k ++ [mkChange ChangeStatus pathNM]) false]> (c_chans c)) c)
      else Blocked
  end.

(** The goroutine [Watch] leaves behind, when its context or the client ends. *)
Definition watch_end (ch : nat) (c : Client) : Client :=
  match c_subs c with
  | Some subs =>
      if decide (ch ∈ subs)
      then with_chans (Some (subs ∖ {[ ch ]})) (close_in {[ ch ]} (c_chans c)) c
      else c
  | None => c
  end.

(** ** Signals *)

Definition invalidatePermissions (c : Client) : Client := with_perms None c.
(** [Permissions] (read.go): the answer of [GetPermissions] is asked for only
    when none is cached; a nil map counts as an empty one. *)
Definition Permissions (answer : result call_error (option (gmap string string))) (c : Client) :
  result error (gmap string string) * Client :=
  match c_perms c with
  | Some p => (Ok p, c)
  | None =>
      match answer with
      | Err e => (match wrapDBus "get permissions" (Some e) with Some e' => Err e' | None => Ok ∅ end, c)
      | Ok p => (Ok (default ∅ p), with_perms (Some (default ∅ p)) c)
      end
  end.
Definition setNMOwner (name : string) (c : Client) : Client := with_agent name (c_agent c) c.

(** [registerAgent] (agent.go): one call, whose success is recorded. *)
Definition registerAgent : step := fun '(n, c) =>
  (S n, with_agent (c_nmOwner c) (setRegistered (r_register (rep n)) (c_agent c)) c).

Definition on_path (sig : Signal) (f : string -> step) : step := fun nc =>
  match pathArg sig 0 with Some p => f p nc | None => nc end.

(** Changes that make no calls. *)
Definition pure (f : Client -> Client) : step := fun '(n, c) => (n, f c).
Definition andThen (f g : step) : step := fun nc => g (f nc).
Local Infix ";;;" := andThen (at level 50, left associativity).

Definition fetch_unless (iface path : string) : step := fun nc =>
  match propsOf nc.2 path iface with Some _ => nc | None => fetchObject path nc end.

(** The settings of a connection, as a handler reads them. *)
Definition read_settings (path : string) : step := fun '(n, c) =>
  (S n, match r_getSettings (rep n) path with Some s => cacheSettings path s c | None => c end).

Definition add_iface (path : string) (c : Client) (x : string * props) : Client :=
  hintFor x.1 path (setProps path x.1 x.2 [] c).

Definition interfacesAdded (path : string) (added : list (string * props)) : step :=
  pure (fun c => foldl (add_iface path) c added) ;;;
  (fun nc => if existsb (fun x => x.1 =?s ifaceConnection) added then read_settings path nc else nc).

Definition interfacesRemoved (path : string) (c : Client) : Client :=
  let ifaces := map fst (map_to_list (default ∅ (c_objs c !! path))) in
  removeObject path (foldl (fun c iface => hintFor iface path c) c ifaces).

Definition newConnection (path : string) : step := fun '(n, c) =>
  match r_getSettings (rep n) path with
  | Some s => let '(n, c) := fetchObject path (S n, c) in (n, cacheSettings path s c)
  | None => resyncConnections (S n, c)
  end.

(** NetworkManager left the bus, or (re)appeared on it. *)
Definition ownerChanged (newOwner : string) : step :=
  pure (fun c => setNMOwner newOwner (invalidatePermissions c)) ;;;
  (if newOwner =?s ""
   then pure (fun c =>
          let c := with_agent (c_nmOwner c) (setRegistered false (cancelAll (c_agent c)).1) c in
          with_cache ∅ ∅ c)
   else (fun nc => (resync nc).2) ;;; registerAgent) ;;;
  pure (fun c => foldl (fun c k => emit k pathNM c) c
                   [ChangeStatus; ChangeDevices; ChangeWifi; ChangeProfiles; ChangeActive]).

Definition state_props (n : Z) : props := {[ "State" := VUint32 n ]}.

Definition handle (sig : Signal) : step :=
  let name := sg_Name sig in
  let path := sg_Path sig in
  let body := sg_Body sig in
  if name =?s ifaceProperties +:+ ".PropertiesChanged" then
    match body with
    | a :: b :: rest =>
        let inv := match rest with x :: _ => as_strings x | [] => [] end in
        pure (fun c => hintFor (as_str a) path (setProps path (as_str a) (as_props b) inv c))
    | _ => id
    end
  else if name =?s ifaceObjectManager +:+ ".InterfacesAdded" then
    match body with a :: b :: _ => interfacesAdded (as_path a) (as_ifaces b) | _ => id end
  else if name =?s ifaceObjectManager +:+ ".InterfacesRemoved" then
    match body with a :: _ => pure (interfacesRemoved (as_path a)) | _ => id end
  else if name =?s ifaceNM +:+ ".DeviceAdded" then
    on_path sig (fun p => fetch_unless ifaceDevice p ;;; pure (emit ChangeDevices p))
  else if name =?s ifaceNM +:+ ".DeviceRemoved" then
    on_path sig (fun p => pure (fun c => emit ChangeDevices p (removeObject p c)))
  else if name =?s ifaceNM +:+ ".StateChanged" then
    pure (fun c => emit ChangeStatus path
      (match body with AUint32 s :: _ => setProps pathNM ifaceNM (state_props s) [] c | _ => c end))
  else if name =?s ifaceNM +:+ ".CheckPermissions" then
    pure (fun c => emit ChangeStatus path (invalidatePermissions c))
  else if name =?s ifaceDevice +:+ ".StateChanged" then
    pure (fun c => emit ChangeDevices path
      (match body with
       | ns :: _ :: reason :: _ =>
           let c := setProps path ifaceDevice (state_props (as_uint32 ns)) [] c in
           with_devRsn (<[path := as_uint32 reason]> (c_devRsn c)) c
       | _ => c
       end))
  else if name =?s ifaceWireless +:+ ".AccessPointAdded" then
    on_path sig (fetch_unless ifaceAP) ;;; pure (emit ChangeWifi path)
  else if name =?s ifaceWireless +:+ ".AccessPointRemoved" then
    on_path sig (fun p => pure (removeObject p)) ;;; pure (emit ChangeWifi path)
  else if name =?s ifaceSettings +:+ ".NewConnection" then
    on_path sig newConnection ;;; pure (emit ChangeProfiles (default "" (pathArg sig 0)))
  else if name =?s ifaceSettings +:+ ".ConnectionRemoved" then
    on_path sig (fun p => pure (fun c => emit ChangeProfiles p (removeObject p c)))
  else if name =?s ifaceConnection +:+ ".Updated" then
    fetchObject path ;;; pure (emit ChangeProfiles path)
  else if name =?s ifaceConnection +:+ ".Removed" then
    pure (fun c => emit ChangeProfiles path (removeObject path c))
  else if name =?s ifaceActive +:+ ".StateChanged" then
    pure (fun c => emit ChangeActive path
      (match body with
       | st :: reason :: _ =>
           notifyWaiters path (mkActiveEvent (as_uint32 st) (as_uint32 reason))
             (setProps path ifaceActive (state_props (as_uint32 st)) [] c)
       | _ => c
       end))
  else if name =?s ifaceVPN +:+ ".VpnStateChanged" then
    pure (fun c => emit ChangeVPN path
      (match body with
       | st :: _ => setProps path ifaceVPN {[ "VpnState" := VUint32 (as_uint32 st) ]} [] c
       | [] => c
       end))
  else if name =?s ifaceDBus +:+ ".NameOwnerChanged" then
    match body with _ :: _ :: owner :: _ => ownerChanged (as_str owner) | _ => id end
  else id.
End Calls.

(** The loop: one signal after the other, each with its own calls. *)
Fixpoint loop (reps : list (nat -> reply)) (sigs : list Signal) (c : Client) : Client :=
  match sigs, reps with
  | sig :: sigs', rep :: reps' => loop reps' sigs' (handle rep sig (O, c)).2
  | _, _ => c
  end.

(** The client as [New] makes it, before the first snapshot. *)
Definition newClient (timeout : Duration) : Client :=
  mkClient ∅ ∅ ∅ (Some ∅) ∅ ∅ ∅ None "" (newAgent timeout).

(** [New]'s snapshot; the agent registers and the loop starts. *)
Definition New (rep : nat -> reply) (timeout : Duration) : result error Client :=
  match resync rep (O, newClient timeout) with
  | (Some e, _) => Err e
  | (None, nc) => Ok (registerAgent rep nc).2
  end.
