(* ===== verification/NMCacheFacts.v ===== *)
(** The cache follows NetworkManager: after any run of the bus and all its
    signals the cache agrees with NetworkManager on every object that was removed
    only as a whole, whose profile was not hidden and for which the calls of the
    handlers were answered, from whatever later state; and what becomes of the
    others. *)

From S2P Require Import Prelude GoTime Core Errors GoStrings NMVariant NMMapping SecretAgent NMRead NMCache.

(** ** NetworkManager's side *)

(** The exported objects, and the settings of the connections this user may
    see. *)
Record server := mkServer { sv_objs : objects; sv_settings : gmap string settingsDict }.

Definition sv_empty : server := mkServer ∅ ∅.

Definition objs_props (objs : objects) (path iface : string) : option props := objs !! path ≫= (.!! iface).

(** How NetworkManager answers a call in a state... *)
Record answers (r : reply) (s : server) : Prop := {
  an_managed : r_managed r = Ok (sv_objs s);
  an_getAll : forall p i, r_getAll r p i = objs_props (sv_objs s) p i;
  an_getSettings : forall p, r_getSettings r p = sv_settings s !! p;
  an_connections : r_connections r = objs_props (sv_objs s) pathSettings ifaceSettings ≫= (.!! "Connections")
}.

(** ... and how a call goes that may also fail: by a timeout, because the object
    is gone, or for want of permission. *)
Record serves (r : reply) (s : server) : Prop := {
  se_managed : forall o, r_managed r = Ok o -> o = sv_objs s;
  se_getAll : forall p i x, r_getAll r p i = Some x -> objs_props (sv_objs s) p i = Some x;
  se_getSettings : forall p x, r_getSettings r p = Some x -> sv_settings s !! p = Some x;
  se_connections : forall v, r_connections r = Some v -> (objs_props (sv_objs s) pathSettings ifaceSettings ≫= (.!! "Connections")) = Some v
}.

Lemma answers_serves r s : answers r s -> serves r s.
Proof. intros [H1 H2 H3 H4]. split; intros; congruence. Qed.

Definition sig_changed p i ch inv := mkSignal p (ifaceProperties +:+ ".PropertiesChanged") [AStr i; AProps ch; AStrings inv].
Definition sig_added p l := mkSignal pathNM (ifaceObjectManager +:+ ".InterfacesAdded") [APath p; AIfaces l].
Definition sig_ifaces_removed p names := mkSignal pathNM (ifaceObjectManager +:+ ".InterfacesRemoved") [APath p; AStrings names].
Definition sig_updated p := mkSignal p (ifaceConnection +:+ ".Updated") [].
Definition sig_owner o n := mkSignal pathNM (ifaceDBus +:+ ".NameOwnerChanged") [AStr ifaceNM; AStr o; AStr n].

(** The signals that announce that an object is gone, its path with them. *)
Inductive removal : Signal -> string -> Prop :=
| rm_interfaces p names :
    removal (mkSignal pathNM (ifaceObjectManager +:+ ".InterfacesRemoved") [APath p; AStrings names]) p
| rm_device p : removal (mkSignal pathNM (ifaceNM +:+ ".DeviceRemoved") [APath p]) p
| rm_ap dev p : removal (mkSignal dev (ifaceWireless +:+ ".AccessPointRemoved") [APath p]) p
| rm_list p : removal (mkSignal pathSettings (ifaceSettings +:+ ".ConnectionRemoved") [APath p]) p
| rm_connection p : removal (mkSignal p (ifaceConnection +:+ ".Removed") []) p.

(** The signals that announce an object that is there already. *)
Inductive announcement : Signal -> Prop :=
| ann_device p : announcement (mkSignal pathNM (ifaceNM +:+ ".DeviceAdded") [APath p])
| ann_ap dev p : announcement (mkSignal dev (ifaceWireless +:+ ".AccessPointAdded") [APath p])
| ann_connection p : announcement (mkSignal pathSettings (ifaceSettings +:+ ".NewConnection") [APath p])
| ann_permissions : announcement (mkSignal pathNM (ifaceNM +:+ ".CheckPermissions") []).

(** The signals that carry a new state: the object, the interface, the new
    properties. *)
Inductive state_signal : Signal -> string -> string -> props -> Prop :=
| ss_nm n : state_signal (mkSignal pathNM (ifaceNM +:+ ".StateChanged") [AUint32 n]) pathNM ifaceNM (state_props n)
| ss_device p n o r :
    state_signal (mkSignal p (ifaceDevice +:+ ".StateChanged") [AUint32 n; AUint32 o; AUint32 r]) p ifaceDevice (state_props n)
| ss_active p n r : state_signal (mkSignal p (ifaceActive +:+ ".StateChanged") [AUint32 n; AUint32 r]) p ifaceActive (state_props n)
| ss_vpn p n r :
    state_signal (mkSignal p (ifaceVPN +:+ ".VpnStateChanged") [AUint32 n; AUint32 r]) p ifaceVPN {[ "VpnState" := VUint32 n ]}.

(** Only a part of an object is removed: an interface of it stays. *)
Definition parts (s : server) (sig : Signal) (p : string) : Prop :=
  exists names f, sig = sig_ifaces_removed p names /\ is_Some (objs_props (sv_objs s) p f) /\ f ∉ names.

(** A change of NetworkManager with the signal it sends: the D-Bus contract of
    ObjectManager and Properties, and NetworkManager's own signals.  Interfaces
    may be added to an object that is there, and taken from one that stays; a
    profile may be shown to this user and hidden again. *)
Inductive server_step : server -> Signal -> server -> Prop :=
| sv_changed s p i ch inv :
    is_Some (objs_props (sv_objs s) p i) ->
    server_step s (sig_changed p i ch inv) (mkServer (merge_props p i ch inv (sv_objs s)) (sv_settings s))
| sv_state s sig p i ch :
    state_signal sig p i ch -> is_Some (objs_props (sv_objs s) p i) ->
    server_step s sig (mkServer (merge_props p i ch [] (sv_objs s)) (sv_settings s))
| sv_added s p l settings :
    (forall f, f ∈ l.*1 -> objs_props (sv_objs s) p f = None) -> NoDup l.*1 ->
    server_step s (sig_added p l)
      (mkServer (<[p := list_to_map l ∪ default ∅ (sv_objs s !! p)]> (sv_objs s))
         (if decide (ifaceConnection ∈ l.*1) then partial_alter (fun _ => settings) p (sv_settings s) else sv_settings s))
| sv_removed s sig p :
    removal sig p -> ~ parts s sig p -> p <> pathNM ->
    server_step s sig (mkServer (delete p (sv_objs s)) (delete p (sv_settings s)))
| sv_parted s p names :
    parts s (sig_ifaces_removed p names) p ->
    server_step s (sig_ifaces_removed p names)
      (mkServer (alter (fun m => foldr delete m names) p (sv_objs s))
         (if decide (ifaceConnection ∈ names) then delete p (sv_settings s) else sv_settings s))
| sv_announced s sig : announcement sig -> server_step s sig s
| sv_updated s p settings :
    candidateIfaces p = [ifaceConnection] -> is_Some (objs_props (sv_objs s) p ifaceConnection) ->
    server_step s (sig_updated p) (mkServer (sv_objs s) (partial_alter (fun _ => settings) p (sv_settings s)))
| sv_left s o : server_step s (sig_owner o "") sv_empty
| sv_joined s n :
    n <> "" -> is_Some (sv_objs s !! pathNM) ->
    (forall p, is_Some (sv_settings s !! p) -> is_Some (objs_props (sv_objs s) p ifaceConnection)) ->
    server_step sv_empty (sig_owner "" n) s.

(** A profile is hidden from this user. *)
Definition hides (s : server) (sig : Signal) (s' : server) (p : string) : Prop :=
  sig = sig_updated p /\ is_Some (sv_settings s !! p) /\ sv_settings s' !! p = None.

(** The signals whose handling depends on its calls for an object: the settings of
    a connection that was added or updated, and all of a new snapshot. *)
Inductive needs : Signal -> string -> Prop :=
| nd_added p l : needs (sig_added p l) p
| nd_updated p : needs (sig_updated p) p
| nd_owner o n p : needs (sig_owner o n) p.

(** Settings belong to connections that are exported. *)
Definition server_ok (s : server) : Prop :=
  forall p, is_Some (sv_settings s !! p) -> is_Some (objs_props (sv_objs s) p ifaceConnection).

(** ** Points of the cache *)

Inductive point := AtKey (p i k : string) | AtIface (p i : string) | AtSettings (p : string).
Inductive value := OKey (v : option variant) | OIface (b : bool) | OSettings (s : option settingsDict).

#[export] Instance point_eq_dec : EqDecision point.
Proof. solve_decision. Defined.

Definition pt_path (pt : point) : string := match pt with AtKey p _ _ => p | AtIface p _ => p | AtSettings p => p end.

Definition at_ (objs : objects) (settings : gmap string settingsDict) (pt : point) : value :=
  match pt with
  | AtKey p i k => OKey (objs_props objs p i ≫= (.!! k))
  | AtIface p i => OIface (bool_decide (is_Some (objs_props objs p i)))
  | AtSettings p => OSettings (settings !! p)
  end.

Definition at_c (c : Client) : point -> value := at_ (c_objs c) (c_settings c).
Definition at_s (s : server) : point -> value := at_ (sv_objs s) (sv_settings s).

(** *** What a write does at each point *)

Lemma objs_props_insert_ne objs p p' m i : p <> p' -> objs_props (<[p := m]> objs) p' i = objs_props objs p' i.
Proof. intros Hp. unfold objs_props. by rewrite lookup_insert_ne. Qed.

Lemma objs_props_insert objs p m i : objs_props (<[p := m]> objs) p i = m !! i.
Proof. unfold objs_props. by rewrite lookup_insert_eq. Qed.

Lemma foldr_delete_lookup (m : props) l k : foldr delete m l !! k = if decide (k ∈ l) then None else m !! k.
Proof.
  induction l as [|x l IH]; cbn [foldr]; [done|]. destruct (decide (x = k)) as [->|Hne].
  - rewrite lookup_delete_eq. by rewrite decide_True by set_solver.
  - rewrite lookup_delete_ne by done. rewrite IH. destruct (decide (k ∈ l)).
    + by rewrite decide_True by set_solver.
    + by rewrite decide_False by set_solver.
Qed.

Lemma merge_props_props objs p i ch inv p' i' :
  objs_props (merge_props p i ch inv objs) p' i' =
  if decide (p' = p /\ i' = i) then Some (foldr delete (ch ∪ default ∅ (objs_props objs p i)) inv)
  else objs_props objs p' i'.
Proof.
  unfold merge_props. cbv zeta. destruct (decide (p' = p)) as [->|Hp].
  - rewrite objs_props_insert. destruct (decide (i' = i)) as [->|Hi].
    + rewrite lookup_insert_eq, decide_True by done. do 4 f_equal. unfold objs_props. by destruct (objs !! p).
    + rewrite lookup_insert_ne, decide_False by naive_solver. unfold objs_props.
      destruct (objs !! p); [done|]. cbn. by rewrite lookup_empty.
  - rewrite objs_props_insert_ne, decide_False by naive_solver. done.
Qed.

(** ** Handlers that leave the cache alone *)

Definition same_cache (c c' : Client) : Prop := c_objs c' = c_objs c /\ c_settings c' = c_settings c.

Lemma emit_same k p c : same_cache c (emit k p c).
Proof. unfold emit. by destruct (c_subs c). Qed.

Lemma hintFor_same i p c : same_cache c (hintFor i p c).
Proof. unfold hintFor. repeat case_test; try apply emit_same; done. Qed.

Lemma same_at c c' pt : same_cache c c' -> at_c c' pt = at_c c pt.
Proof. unfold at_c. by intros [-> ->]. Qed.

Lemma emit_at k p c pt : at_c (emit k p c) pt = at_c c pt.
Proof. apply same_at, emit_same. Qed.

Lemma hintFor_at i p c pt : at_c (hintFor i p c) pt = at_c c pt.
Proof. apply same_at, hintFor_same. Qed.

(** ** Removing and merging at a point *)

Lemma at_delete objs settings p pt :
  at_ (delete p objs) (delete p settings) pt = if decide (pt_path pt = p) then at_ ∅ ∅ pt else at_ objs settings pt.
Proof.
  assert (forall p' i, objs_props (delete p objs) p' i = if decide (p' = p) then None else objs_props objs p' i) as Ho.
  { intros p' i. unfold objs_props. destruct (decide (p' = p)) as [->|].
    - by rewrite lookup_delete_eq. - by rewrite lookup_delete_ne. }
  destruct pt as [p' i k|p' i|p']; cbn; rewrite ?Ho; destruct (decide (p' = p)) as [->|]; try done.
  - by rewrite lookup_delete_eq, lookup_empty. - by rewrite lookup_delete_ne.
Qed.

(** The points a merge writes. *)
Definition touched (p i : string) (ch : props) (inv : list string) (pt : point) : bool :=
  match pt with
  | AtKey p' i' k => bool_decide (p' = p /\ i' = i /\ (k ∈ inv \/ is_Some (ch !! k)))
  | AtIface p' i' => bool_decide (p' = p /\ i' = i)
  | AtSettings _ => false
  end.

(** A merge writes the touched points, whatever was there, and nothing else. *)
Lemma merge_at p i ch inv objs settings pt :
  at_ (merge_props p i ch inv objs) settings pt =
  if touched p i ch inv pt
  then match pt with AtKey _ _ k => OKey (if decide (k ∈ inv) then None else ch !! k) | _ => OIface true end
  else at_ objs settings pt.
Proof.
  destruct pt as [p' i' k|p' i'|p']; cbn; [| |done]; rewrite merge_props_props.
  - destruct (decide (p' = p /\ i' = i)) as [[-> ->]|Hne]; [|rewrite bool_decide_eq_false_2 by tauto; done].
    cbn. rewrite foldr_delete_lookup. destruct (decide (k ∈ inv)) as [Hin|Hout].
    + by rewrite bool_decide_eq_true_2 by tauto.
    + destruct (ch !! k) as [v|] eqn:Hk.
      * rewrite bool_decide_eq_true_2 by naive_solver. by rewrite (lookup_union_Some_l _ _ _ _ Hk).
      * rewrite bool_decide_eq_false_2 by (intros (_ & _ & [?|[? ?]]); [done|congruence]).
        rewrite lookup_union_r by done. unfold objs_props.
        destruct (objs !! p) as [m|]; cbn; [|by rewrite lookup_empty].
        destruct (m !! i); cbn; by rewrite ?lookup_empty.
  - destruct (decide (p' = p /\ i' = i)); [by rewrite !bool_decide_eq_true_2|by rewrite (bool_decide_eq_false_2 (p' = p /\ i' = i))].
Qed.

(** ** A run of the bus *)

Definition erases (sig : Signal) (p : string) : Prop := removal sig p \/ exists o, sig = sig_owner o "".

Definition eraser_names : list string :=
  [ifaceObjectManager +:+ ".InterfacesRemoved"; ifaceNM +:+ ".DeviceRemoved"; ifaceWireless +:+ ".AccessPointRemoved";
   ifaceSettings +:+ ".ConnectionRemoved"; ifaceConnection +:+ ".Removed"; ifaceDBus +:+ ".NameOwnerChanged"].

Lemma not_eraser sig p : existsb (String.eqb (sg_Name sig)) eraser_names = false -> ~ erases sig p.
Proof. intros Hn [Hr|[o ->]]; [destruct Hr|]; vm_compute in Hn; discriminate Hn. Qed.

Lemma removal_path sig p q : removal sig p -> erases sig q -> q = p.
Proof.
  intros Hr [Hq|[o ->]]; [|inversion Hr].
  destruct Hr; inversion Hq; subst; try done; vm_compute in *; congruence.
Qed.

Lemma foldr_delete_map (m : gmap string props) l k : foldr delete m l !! k = if decide (k ∈ l) then None else m !! k.
Proof.
  induction l as [|x l IH]; cbn [foldr]; [done|]. destruct (decide (x = k)) as [->|Hne].
  - rewrite lookup_delete_eq. by rewrite decide_True by set_solver.
  - rewrite lookup_delete_ne by done. rewrite IH. destruct (decide (k ∈ l)).
    + by rewrite decide_True by set_solver.
    + by rewrite decide_False by set_solver.
Qed.

Lemma objs_props_parted objs p names p' f :
  objs_props (alter (fun m => foldr delete m names) p objs) p' f = if decide (p' = p /\ f ∈ names) then None else objs_props objs p' f.
Proof.
  unfold objs_props. destruct (decide (p' = p)) as [->|Hp].
  - rewrite lookup_alter_eq. destruct (objs !! p) as [m|]; cbn; [|by destruct (decide _)]. rewrite foldr_delete_map.
    destruct (decide (f ∈ names)); [by rewrite decide_True|by rewrite decide_False by tauto].
  - rewrite lookup_alter_ne, decide_False by naive_solver. done.
Qed.

(** Interfaces laid over an object. *)
Lemma objs_props_added objs p l f :
  objs_props (<[p := list_to_map l ∪ default ∅ (objs !! p)]> objs) p f =
  match (list_to_map l : gmap string props) !! f with Some m => Some m | None => objs_props objs p f end.
Proof.
  rewrite objs_props_insert. destruct ((list_to_map l : gmap string props) !! f) as [m|] eqn:E.
  - by apply lookup_union_Some_l.
  - rewrite lookup_union_r by done. unfold objs_props. destruct (objs !! p); [done|]. cbn. by rewrite lookup_empty.
Qed.

Lemma server_step_ok s sig s' : server_step s sig s' -> server_ok s -> server_ok s'.
Proof.
  intros Hs Hok p Hp.
  destruct Hs as [s p0 i ch inv Hi|s sig p0 i ch Hsig Hi|s p0 l st Hn Hl|s sig p0 Hr Hw Hne|s p0 names Hw|s sig Ha|s p0 st Hc Hi|s o|s n Hn Hnm Hs];
    cbn in *.
  - rewrite merge_props_props. destruct (decide _); [done|]. by apply Hok.
  - rewrite merge_props_props. destruct (decide _); [done|]. by apply Hok.
  - destruct (decide (p0 = p)) as [->|Hne].
    + rewrite objs_props_added. destruct (_ !! ifaceConnection) as [m|] eqn:E; [done|]. apply Hok.
      destruct (decide (ifaceConnection ∈ l.*1)) as [Hin|_]; [|done].
      apply not_elem_of_list_to_map_2 in E. done.
    + rewrite objs_props_insert_ne by done. apply Hok. destruct (decide (ifaceConnection ∈ l.*1)); [|done]. by rewrite lookup_partial_alter_ne in Hp.
  - destruct (decide (p0 = p)) as [->|Hne']; [rewrite lookup_delete_eq in Hp; by destruct Hp|].
    rewrite lookup_delete_ne in Hp by done. unfold objs_props. rewrite lookup_delete_ne by done. by apply Hok.
  - rewrite objs_props_parted. destruct (decide (ifaceConnection ∈ names)) as [Hin|Hin].
    + destruct (decide (p = p0)) as [->|Hne]; [rewrite lookup_delete_eq in Hp; by destruct Hp|].
      rewrite lookup_delete_ne in Hp by done. rewrite decide_False by naive_solver. by apply Hok.
    + rewrite decide_False by naive_solver. by apply Hok.
  - by apply Hok.
  - destruct (decide (p0 = p)) as [->|Hne]; [done|]. rewrite lookup_partial_alter_ne in Hp by done. by apply Hok.
  - rewrite lookup_empty in Hp. by destruct Hp.
  - by apply Hs.
Qed.

(** What is there stays there until an erasing signal, or until it is hidden. *)
Lemma server_step_keeps s sig s' :
  server_step s sig s' -> server_ok s ->
  (forall p, is_Some (sv_settings s !! p) -> is_Some (sv_settings s' !! p) \/ erases sig p \/ hides s sig s' p) /\
  (is_Some (sv_objs s !! pathNM) -> is_Some (sv_objs s' !! pathNM) \/ exists o, sig = sig_owner o "").
Proof.
  intros Hs Hok.
  destruct Hs as [s p0 i ch inv Hi|s sig p0 i ch Hsig Hi|s p0 l st Hn Hl|s sig p0 Hr Hw Hne|s p0 names Hw|s sig Ha|s p0 st Hc Hi|s o|s n Hn Hnm Hs];
    cbn; split.
  - auto. - intros H. left. unfold merge_props. destruct (decide (p0 = pathNM)) as [->|]; [rewrite lookup_insert_eq; eauto|by rewrite lookup_insert_ne].
  - auto. - intros H. left. unfold merge_props. destruct (decide (p0 = pathNM)) as [->|]; [rewrite lookup_insert_eq; eauto|by rewrite lookup_insert_ne].
  - intros p Hp. left. destruct (decide (ifaceConnection ∈ l.*1)) as [Hin|]; [|done]. destruct (decide (p0 = p)) as [->|Hne]; [|by rewrite lookup_partial_alter_ne].
    apply Hok in Hp. rewrite (Hn _ Hin) in Hp. by destruct Hp.
  - intros H. left. destruct (decide (p0 = pathNM)) as [->|]; [rewrite lookup_insert_eq; eauto|by rewrite lookup_insert_ne].
  - intros p Hp. destruct (decide (p0 = p)) as [->|Hne']; [right; left; by left|left; by rewrite lookup_delete_ne].
  - intros H. left. by rewrite lookup_delete_ne.
  - intros p Hp. destruct (decide (p0 = p)) as [->|Hne']; [right; left; left; constructor|left]. destruct (decide _); [by rewrite lookup_delete_ne|done].
  - intros H. left. destruct (decide (p0 = pathNM)) as [->|Hne']; [by rewrite lookup_alter_eq, fmap_is_Some|by rewrite lookup_alter_ne].
  - auto. - auto.
  - intros p Hp. destruct (decide (p0 = p)) as [->|Hne]; [|left; by rewrite lookup_partial_alter_ne]. rewrite lookup_partial_alter_eq.
    destruct st as [st|]; [left; eauto|]. right. right. split; [done|]. split; [done|]. cbn. by rewrite lookup_partial_alter_eq.
  - auto.
  - intros p Hp. right. left. right. eauto.
  - eauto.
  - intros p [? Hp]. by rewrite lookup_empty in Hp.
  - intros [? H]. by rewrite lookup_empty in H.
Qed.

Section Run.
Context (St : nat -> server) (sg : nat -> Signal) (rep : nat -> nat -> reply) (n : nat).
Context (Hstep : forall i, (i < n)%nat -> server_step (St i) (sg i) (St (S i))).
(** Every call of a handler fails or is answered after its signal was sent. *)
Context (Hrep : forall i m, (i < n)%nat -> exists j, (S i <= j <= n)%nat /\ serves (rep i m) (St j)).
Context (Hok0 : server_ok (St 0)).

Lemma St_ok i : (i <= n)%nat -> server_ok (St i).
Proof using Hstep Hok0. induction i as [|i IH]; intros Hi; [done|]. eapply server_step_ok; [apply Hstep; lia|]. apply IH. lia. Qed.

(** The handler of a signal gets all its answers. *)
Definition reliable (i : nat) : Prop := forall m, exists j, (S i <= j <= n)%nat /\ answers (rep i m) (St j).

(** The objects that are added and removed as a whole, whose profile stays
    visible, and for which the calls that matter are answered. *)
Definition steady (p : string) : Prop :=
  forall i, (i < n)%nat -> ~ parts (St i) (sg i) p /\ ~ hides (St i) (sg i) (St (S i)) p /\ (needs (sg i) p -> reliable i).

(** A signal still to come erases the path. *)
Definition doomed (i : nat) (p : string) : Prop := exists k, (i <= k < n)%nat /\ erases (sg k) p.

(** A value that was true at some state from [i] on, or will be erased. *)
Definition fine (i : nat) (pt : point) (v : value) : Prop :=
  (exists j, (i <= j <= n)%nat /\ v = at_s (St j) pt) \/ doomed i (pt_path pt).

Definition inv (i : nat) (c : Client) : Prop := forall pt, steady (pt_path pt) -> fine i pt (at_c c pt).

(** A point a signal does not touch. *)
Lemma fine_kept i pt v :
  (i < n)%nat -> fine i pt v -> at_s (St i) pt = at_s (St (S i)) pt -> ~ erases (sg i) (pt_path pt) -> fine (S i) pt v.
Proof.
  intros Hi [(j & Hj & ->)|(k & Hk & He)] Hsame Hno.
  - left. destruct (decide (j = i)) as [->|]; [exists (S i); split; [lia|done]|exists j; split; [lia|done]].
  - right. exists k. split; [|done]. destruct (decide (k = i)) as [->|]; [done|lia].
Qed.

Lemma fine_now i pt : (i <= n)%nat -> fine i pt (at_s (St i) pt).
Proof. intros Hi. left. exists i. split; [lia|done]. Qed.

(** What was there and is gone was erased in between. *)
Lemma settings_lost i j p :
  steady p -> (i <= j <= n)%nat -> is_Some (sv_settings (St i) !! p) -> sv_settings (St j) !! p = None -> doomed i p.
Proof using Hstep Hok0.
  intros Hst [Hij Hj] Hs. induction Hij as [|j Hij IH]; intros Hn; [rewrite Hn in Hs; by destruct Hs|].
  destruct (sv_settings (St j) !! p) as [s|] eqn:E; [|apply IH; [lia|done]].
  destruct (server_step_keeps _ _ _ (Hstep j ltac:(lia)) (St_ok j ltac:(lia))) as [Hk _].
  destruct (Hk p) as [H|[H|H]]; [by rewrite E|rewrite Hn in H; by destruct H| |]; [exists j; split; [lia|done]|].
  destruct (Hst j ltac:(lia)) as (_ & Hh & _). by destruct Hh.
Qed.

Lemma nm_lost i j p :
  (i <= j <= n)%nat -> is_Some (sv_objs (St i) !! pathNM) -> sv_objs (St j) !! pathNM = None -> doomed i p.
Proof using Hstep Hok0.
  intros [Hij Hj] Hs. induction Hij as [|j Hij IH]; intros Hn; [rewrite Hn in Hs; by destruct Hs|].
  destruct (sv_objs (St j) !! pathNM) as [s|] eqn:E; [|apply IH; [lia|done]].
  destruct (server_step_keeps _ _ _ (Hstep j ltac:(lia)) (St_ok j ltac:(lia))) as [_ Hk].
  destruct Hk as [H|H]; [by rewrite E|rewrite Hn in H; by destruct H|]. exists j. split; [lia|]. by right.
Qed.

(** *** Calls *)

Section Step.
Context (i : nat) (Hi : (i < n)%nat).

(** A piece of the handler keeps a point fine. *)
Definition keeps_fine (f : step) : Prop := forall nc pt, fine (S i) pt (at_c nc.2 pt) -> fine (S i) pt (at_c (f nc).2 pt).

Lemma getAlls_spec m path ifaces :
  Forall (fun x => exists j, (S i <= j <= n)%nat /\ objs_props (sv_objs (St j)) path x.1 = Some x.2)
    (getAlls (rep i) m path ifaces).1.
Proof using Hrep Hi.
  revert m. induction ifaces as [|f l IH]; intros m; cbn [getAlls]; [constructor|].
  specialize (IH (S m)). destruct (getAlls (rep i) (S m) path l) as [got n']. cbn [fst] in *.
  destruct (Hrep i m Hi) as (j & Hj & Ha).
  destruct (r_getAll (rep i m) path f) as [p|] eqn:E; [|done]. constructor; [|done]. exists j. split; [done|]. by apply (se_getAll _ _ Ha).
Qed.

Lemma insert_ifaces_at (objs : objects) settings path got pt :
  Forall (fun x => exists j, (S i <= j <= n)%nat /\ objs_props (sv_objs (St j)) path x.1 = Some x.2) got ->
  fine (S i) pt (at_ objs settings pt) ->
  fine (S i) pt (at_ (<[path := foldl (fun m x => <[x.1 := x.2]> m) (default ∅ (objs !! path)) got]> objs) settings pt).
Proof.
  intros Hgot. set (ins := foldl _ _). 
  assert (forall (m : gmap string props) f, fine (S i) pt (at_ (<[path := m]> objs) settings pt) ->
    (exists j, (S i <= j <= n)%nat /\ objs_props (sv_objs (St j)) path f.1 = Some f.2) ->
    fine (S i) pt (at_ (<[path := <[f.1 := f.2]> m]> objs) settings pt)) as Hone.
  { intros m [f p] Hm (j & Hj & Hp). cbn [fst snd] in *.
    destruct pt as [p' i' k|p' i'|p']; cbn in Hm |- *; [| |done];
      (destruct (decide (path = p')) as [<-|Hne]; [|rewrite objs_props_insert_ne in * by done; done]);
      rewrite objs_props_insert in *; (destruct (decide (f = i')) as [<-|Hf]; [|rewrite lookup_insert_ne by done; done]);
      rewrite lookup_insert_eq; left; exists j; (split; [done|]); cbn; rewrite Hp; done. }
  intros H0. assert (fine (S i) pt (at_ (<[path := default ∅ (objs !! path)]> objs) settings pt)) as H1.
  { destruct pt as [p' i' k|p' i'|p']; cbn in H0 |- *; [| |done];
      (destruct (decide (path = p')) as [<-|Hne]; [|rewrite objs_props_insert_ne by done; done]);
      rewrite objs_props_insert; unfold objs_props in H0; destruct (objs !! path); cbn in *; by rewrite ?lookup_empty. }
  subst ins. revert H1. generalize (default ∅ (objs !! path)) as m.
  induction Hgot as [|x got Hx _ IH]; intros m Hm; cbn [foldl]; [done|]. apply IH. by apply Hone.
Qed.

Lemma cacheSettings_at path s c pt :
  at_c (cacheSettings path s c) pt = if decide (pt = AtSettings path) then OSettings (Some s) else at_c c pt.
Proof.
  unfold at_c, cacheSettings. destruct pt as [p' i' k|p' i'|p']; cbn; try by rewrite decide_False by done.
  destruct (decide (path = p')) as [<-|Hne].
  - by rewrite decide_True, lookup_insert_eq by done.
  - by rewrite decide_False, lookup_insert_ne by congruence.
Qed.

Lemma settings_answer m path s : r_getSettings (rep i m) path = Some s -> fine (S i) (AtSettings path) (OSettings (Some s)).
Proof using Hrep Hi.
  destruct (Hrep i m Hi) as (j & Hj & Ha). intros Hs. left. exists j. split; [done|]. cbn. by rewrite (se_getSettings _ _ Ha _ _ Hs).
Qed.

Lemma cacheSettings_fine m path s c pt :
  r_getSettings (rep i m) path = Some s -> (pt <> AtSettings path -> fine (S i) pt (at_c c pt)) ->
  fine (S i) pt (at_c (cacheSettings path s c) pt).
Proof using Hrep Hi.
  intros Hs Hc. rewrite cacheSettings_at. destruct (decide (pt = AtSettings path)) as [->|Hne]; [|by apply Hc].
  by eapply settings_answer.
Qed.

Lemma fetchObject_fine path : keeps_fine (fetchObject (rep i) path).
Proof using Hrep Hi.
  intros [m c] pt Hpt. unfold fetchObject. pose proof (getAlls_spec m path (candidateIfaces path)) as Hgot.
  destruct (getAlls (rep i) m path (candidateIfaces path)) as [got m']. cbn [fst snd] in *.
  destruct (if existsb _ got then _ else _) as [s m''] eqn:Es. destruct got as [|x got]; [done|].
  cbn [snd]. pose proof (insert_ifaces_at (c_objs c) (c_settings c) path (x :: got) pt Hgot Hpt) as Hins.
  destruct s as [s|]; [|done]. destruct (existsb _ (x :: got)); [|done]. injection Es as Es <-.
  eapply cacheSettings_fine; [done|]. intros _. exact Hins.
Qed.

(** A merge the server did too. *)
Lemma merge_fine p f ch inval objs settings c pt :
  St i = mkServer objs settings -> St (S i) = mkServer (merge_props p f ch inval objs) settings ->
  ~ erases (sg i) (pt_path pt) ->
  fine i pt (at_c c pt) -> fine (S i) pt (at_c (setProps p f ch inval c) pt).
Proof using Hi.
  intros E E' Hno Hc. unfold at_c, setProps. cbn [c_objs c_settings with_cache]. rewrite merge_at.
  destruct (touched p f ch inval pt) eqn:Ht.
  - left. exists (S i). split; [lia|]. unfold at_s. rewrite E'. cbn [sv_objs sv_settings]. by rewrite merge_at, Ht.
  - apply fine_kept; [done|exact Hc| |done]. unfold at_s. rewrite E, E'. cbn [sv_objs sv_settings].
    by rewrite merge_at, Ht.
Qed.

(** A signal without a change of the server. *)
Lemma quiet_fine c pt :
  St (S i) = St i -> ~ erases (sg i) (pt_path pt) -> fine i pt (at_c c pt) -> fine (S i) pt (at_c c pt).
Proof using Hi. intros E Hno Hc. apply fine_kept; [done|done|by rewrite E|done]. Qed.

Lemma fetch_unless_fine f path : keeps_fine (fetch_unless (rep i) f path).
Proof using Hrep Hi.
  intros nc pt Hpt. unfold fetch_unless. destruct (propsOf nc.2 path f); [done|]. by apply fetchObject_fine.
Qed.

Lemma fetch_missing_fine paths : keeps_fine (fetch_missing (rep i) paths).
Proof using Hrep Hi.
  induction paths as [|p l IH]; intros nc pt Hpt; cbn [fetch_missing]; [done|]. apply IH.
  destruct (c_settings nc.2 !! p); [done|]. by apply fetchObject_fine.
Qed.

Lemma resyncConnections_fine : keeps_fine (resyncConnections (rep i)).
Proof using Hrep Hi.
  intros [m c] pt Hpt. unfold resyncConnections. destruct (Hrep i m Hi) as (j & Hj & Ha).
  destruct (r_connections (rep i m)) as [v|] eqn:Ec; [|done]. apply (se_connections _ _ Ha) in Ec.
  destruct (objs_props _ pathSettings ifaceSettings) as [ps|] eqn:Eps; [|done]. cbn in Ec. rename Ec into Ev. apply fetch_missing_fine. cbn [snd].
  unfold at_c, setProps. cbn [c_objs c_settings with_cache]. rewrite merge_at.
  destruct (touched _ _ _ _ pt) eqn:Ht; [|exact Hpt].
  left. exists j. split; [done|]. unfold at_s. destruct pt as [p' i' k|p' i'|p']; cbn in Ht |- *; [| |done].
  - apply bool_decide_eq_true_1 in Ht as (-> & -> & [Hk|Hk]); [by apply elem_of_nil in Hk|].
    destruct (decide (k = "Connections")) as [->|Hne].
    + rewrite lookup_singleton_eq, Eps. cbn. by rewrite Ev.
    + rewrite lookup_singleton_ne in Hk by done. by destruct Hk.
  - apply bool_decide_eq_true_1 in Ht as (-> & ->). by rewrite Eps.
Qed.

Lemma newConnection_fine path : keeps_fine (newConnection (rep i) path).
Proof using Hrep Hi.
  intros [m c] pt Hpt. unfold newConnection. destruct (r_getSettings (rep i m) path) as [s|] eqn:Es.
  - pose proof (fetchObject_fine path (S m, c) pt Hpt) as Hf.
    destruct (fetchObject (rep i) path (S m, c)) as [m' c']. cbn [snd] in *.
    eapply cacheSettings_fine; [done|]. by intros _.
  - by apply resyncConnections_fine.
Qed.

(** Reading a connection's settings: the answer, or it was erased since. *)
Lemma read_settings_fine path nc pt :
  steady (pt_path pt) -> reliable i ->
  (pt <> AtSettings path -> fine (S i) pt (at_c nc.2 pt)) ->
  (sv_settings (St (S i)) !! path = None -> fine (S i) pt (at_c nc.2 pt)) ->
  fine (S i) pt (at_c (read_settings (rep i) path nc).2 pt).
Proof using Hstep Hrep Hi Hok0.
  destruct nc as [m c]. cbn [snd]. intros Hst Hrel Hne Hnone. unfold read_settings. cbn [snd].
  destruct (r_getSettings (rep i m) path) as [s|] eqn:Es; [by eapply cacheSettings_fine|].
  destruct (decide (pt = AtSettings path)) as [->|]; [|by apply Hne].
  destruct (sv_settings (St (S i)) !! path) as [s|] eqn:E; [|by apply Hnone].
  right. destruct (Hrel m) as (j & Hj & Ha). rewrite (an_getSettings _ _ Ha) in Es.
  cbn [pt_path]. eapply settings_lost; [done|exact Hj|by rewrite E|done].
Qed.

(** A changed connection: fetched anew, or erased since. *)
Lemma updated_fine path nc pt :
  steady (pt_path pt) -> (pt_path pt = path -> reliable i) ->
  candidateIfaces path = [ifaceConnection] -> is_Some (sv_settings (St (S i)) !! path) ->
  (pt <> AtSettings path -> fine (S i) pt (at_c nc.2 pt)) ->
  fine (S i) pt (at_c (fetchObject (rep i) path nc).2 pt).
Proof using Hstep Hrep Hi Hok0.
  destruct nc as [m c]. cbn [snd]. intros Hst Hrel Hcand Hs Hne.
  destruct (decide (pt = AtSettings path)) as [->|Hpt]; [|apply fetchObject_fine; by auto]. specialize (Hrel eq_refl).
  assert (forall j, (S i <= j <= n)%nat -> sv_settings (St j) !! path = None -> doomed (S i) path) as Hlost.
  { intros j Hj Hn. by eapply settings_lost. }
  unfold fetchObject. rewrite Hcand. cbn [getAlls]. destruct (Hrel m) as (j & Hj & Ha).
  rewrite (an_getAll _ _ Ha). destruct (objs_props (sv_objs (St j)) path ifaceConnection) as [ps|] eqn:Eps.
  - cbn [existsb fst snd orb]. rewrite String.eqb_refl. cbn [orb].
    destruct (Hrel (S m)) as (j' & Hj' & Ha'). rewrite (an_getSettings _ _ Ha').
    destruct (sv_settings (St j') !! path) as [s|] eqn:Es.
    + cbn [snd]. rewrite cacheSettings_at, decide_True by done. left. exists j'. split; [done|]. cbn. by rewrite Es.
    + cbn [snd]. right. by apply (Hlost j').
  - cbn [existsb snd]. right. apply (Hlost j Hj).
    destruct (sv_settings (St j) !! path) as [s|] eqn:Es; [|done].
    pose proof (St_ok j ltac:(lia) path) as Hok. rewrite Es in Hok. destruct Hok as [? H]; [done|]. congruence.
Qed.

(** *** Whole signals *)

Lemma state_signal_handle sig p f ch nc pt :
  state_signal sig p f ch -> at_c (handle (rep i) sig nc).2 pt = at_c (setProps p f ch [] nc.2) pt.
Proof.
  destruct nc as [m c]. intros Hs. destruct Hs.
  - change (at_c (emit ChangeStatus pathNM (setProps pathNM ifaceNM (state_props n0) [] c)) pt =
            at_c (setProps pathNM ifaceNM (state_props n0) [] c) pt). apply emit_at.
  - change (at_c (emit ChangeDevices p
              (with_devRsn (<[p := r]> (c_devRsn c)) (setProps p ifaceDevice (state_props n0) [] c))) pt =
            at_c (setProps p ifaceDevice (state_props n0) [] c) pt). by rewrite emit_at.
  - change (at_c (emit ChangeActive p (notifyWaiters p (mkActiveEvent n0 r)
              (setProps p ifaceActive (state_props n0) [] c))) pt =
            at_c (setProps p ifaceActive (state_props n0) [] c) pt). by rewrite emit_at.
  - change (at_c (emit ChangeVPN p (setProps p ifaceVPN {[ "VpnState" := VUint32 n0 ]} [] c)) pt =
            at_c (setProps p ifaceVPN {[ "VpnState" := VUint32 n0 ]} [] c) pt). by rewrite emit_at.
Qed.

Lemma state_signal_quiet sig p f ch q : state_signal sig p f ch -> ~ erases sig q.
Proof. intros Hs. apply not_eraser. destruct Hs; vm_compute; reflexivity. Qed.

Lemma announcement_quiet sig q : announcement sig -> ~ erases sig q.
Proof. intros Hs. apply not_eraser. destruct Hs; vm_compute; reflexivity. Qed.

Lemma announcement_fine sig nc pt :
  announcement sig -> fine (S i) pt (at_c nc.2 pt) -> fine (S i) pt (at_c (handle (rep i) sig nc).2 pt).
Proof using Hrep Hi.
  destruct nc as [m c]. intros Ha Hpt. destruct Ha.
  - change (handle (rep i) (mkSignal pathNM (ifaceNM +:+ ".DeviceAdded") [APath p]) (m, c))
      with (pure (emit ChangeDevices p) (fetch_unless (rep i) ifaceDevice p (m, c))).
    pose proof (fetch_unless_fine ifaceDevice p (m, c) pt Hpt) as H.
    destruct (fetch_unless (rep i) ifaceDevice p (m, c)) as [m' c']. cbn [pure snd] in *. by rewrite emit_at.
  - change (handle (rep i) (mkSignal dev (ifaceWireless +:+ ".AccessPointAdded") [APath p]) (m, c))
      with (pure (emit ChangeWifi dev) (fetch_unless (rep i) ifaceAP p (m, c))).
    pose proof (fetch_unless_fine ifaceAP p (m, c) pt Hpt) as H.
    destruct (fetch_unless (rep i) ifaceAP p (m, c)) as [m' c']. cbn [pure snd] in *. by rewrite emit_at.
  - change (handle (rep i) (mkSignal pathSettings (ifaceSettings +:+ ".NewConnection") [APath p]) (m, c))
      with (pure (emit ChangeProfiles p) (newConnection (rep i) p (m, c))).
    pose proof (newConnection_fine p (m, c) pt Hpt) as H.
    destruct (newConnection (rep i) p (m, c)) as [m' c']. cbn [pure snd] in *. by rewrite emit_at.
  - change (fine (S i) pt (at_c (emit ChangeStatus pathNM (invalidatePermissions c)) pt)). by rewrite emit_at.
Qed.

Lemma removal_handle sig p nc pt :
  removal sig p -> at_c (handle (rep i) sig nc).2 pt = at_c (removeObject p nc.2) pt.
Proof.
  destruct nc as [m c]. intros Hr. destruct Hr.
  - change (at_c (interfacesRemoved p c) pt = at_c (removeObject p c) pt). unfold interfacesRemoved.
    set (l := map fst _). clearbody l. unfold at_c, removeObject. cbn [c_objs c_settings with_cache with_devRsn].
    assert (same_cache c (foldl (fun c iface => hintFor iface p c) c l)) as [-> ->]; [|done].
    revert c. induction l as [|f l IH]; intros c; cbn [foldl]; [done|].
    destruct (IH (hintFor f p c)) as [H1 H2]. destruct (hintFor_same f p c) as [H3 H4]. split; congruence.
  - change (at_c (emit ChangeDevices p (removeObject p c)) pt = at_c (removeObject p c) pt). apply emit_at.
  - change (at_c (emit ChangeWifi dev (removeObject p c)) pt = at_c (removeObject p c) pt). apply emit_at.
  - change (at_c (emit ChangeProfiles p (removeObject p c)) pt = at_c (removeObject p c) pt). apply emit_at.
  - change (at_c (emit ChangeProfiles p (removeObject p c)) pt = at_c (removeObject p c) pt). apply emit_at.
Qed.

Lemma added_at p l c pt :
  at_c (foldl (add_iface p) c l) pt = at_c (foldl (fun c x => setProps p x.1 x.2 [] c) c l) pt.
Proof.
  assert (forall l c c', same_cache c c' ->
    at_c (foldl (add_iface p) c' l) pt = at_c (foldl (fun c x => setProps p x.1 x.2 [] c) c l) pt) as H.
  { clear. induction l as [|x l IH]; intros c c' Hs; cbn [foldl]; [by apply same_at|]. apply IH.
    unfold add_iface. destruct (hintFor_same x.1 p (setProps p x.1 x.2 [] c')) as [H1 H2]. destruct Hs as [H3 H4].
    unfold setProps in *. cbn in *. split; [by rewrite H1, H3|by rewrite H2, H4]. }
  by apply H.
Qed.

(** The interfaces of a new object laid over the cache. *)
Definition laid_over (p : string) (m : gmap string props) (pt : point) (old : value) : value :=
  match pt with
  | AtKey p' f k => if decide (p' = p) then match m !! f ≫= (.!! k) with Some v => OKey (Some v) | None => old end else old
  | AtIface p' f => if decide (p' = p /\ is_Some (m !! f)) then OIface true else old
  | AtSettings _ => old
  end.

Lemma fold_merge_at p l : forall c pt,
  NoDup l.*1 ->
  at_c (foldl (fun c x => setProps p x.1 x.2 [] c) c l) pt = laid_over p (list_to_map l) pt (at_c c pt).
Proof.
  induction l as [|[f m] l IH]; intros c pt Hl; cbn [foldl].
  - destruct pt; cbn; rewrite ?lookup_empty; cbn; [by destruct (decide _)| |done].
    rewrite decide_False; [done|]. by intros [_ [? ?]].
  - apply NoDup_cons in Hl as [Hf Hl]. rewrite IH by done. cbn [fst snd].
    assert (list_to_map (M := gmap string props) l !! f = None) as Hlf by (by apply not_elem_of_list_to_map_1).
    unfold at_c at 1, setProps. cbn [c_objs c_settings with_cache]. rewrite merge_at. fold (at_c c pt).
    destruct pt as [p' f' k|p' f'|p']; cbn [laid_over touched list_to_map foldr uncurry]; [| |done].
    + destruct (decide (p' = p)) as [->|Hp]; [|by rewrite bool_decide_eq_false_2 by naive_solver].
      cbn. destruct (decide (f' = f)) as [->|Hne].
      * rewrite lookup_insert_eq, Hlf. cbn. destruct (m !! k) as [v|] eqn:Hk.
        -- rewrite bool_decide_eq_true_2; [done|]. eauto.
        -- rewrite bool_decide_eq_false_2; [done|]. intros (_ & _ & [H|[? H]]); [by apply elem_of_nil in H|done].
      * rewrite lookup_insert_ne by done. by rewrite bool_decide_eq_false_2 by naive_solver.
    + cbn. destruct (decide (p' = p)) as [->|Hp].
      * destruct (decide (f' = f)) as [->|Hne].
        -- rewrite lookup_insert_eq, Hlf. rewrite bool_decide_eq_true_2 by done. rewrite decide_False by (intros [_ [? ?]]; done).
           rewrite decide_True; [done|]. split; [done|eauto].
        -- rewrite lookup_insert_ne by done. by rewrite bool_decide_eq_false_2 by naive_solver.
      * rewrite !decide_False by naive_solver. by rewrite bool_decide_eq_false_2 by naive_solver.
Qed.

Lemma added_fine p l objs settings new c m :
  sg i = sig_added p l -> St i = mkServer objs settings ->
  (forall f, f ∈ l.*1 -> objs_props objs p f = None) -> NoDup l.*1 ->
  St (S i) = mkServer (<[p := list_to_map l ∪ default ∅ (objs !! p)]> objs)
               (if decide (ifaceConnection ∈ l.*1) then partial_alter (fun _ => new) p settings else settings) ->
  inv i c -> inv (S i) (handle (rep i) (sg i) (m, c)).2.
Proof using Hstep Hrep Hi Hok0.
  intros Esg E Hnew Hl E' Hc pt Hst. rewrite Esg.
  change (handle (rep i) (sig_added p l) (m, c)) with
    ((fun nc => if existsb (fun x => x.1 =?s ifaceConnection) l then read_settings (rep i) p nc else nc)
       (m, foldl (add_iface p) c l)).
  cbv beta. set (c1 := foldl (add_iface p) c l).
  assert (forall q, ~ erases (sg i) q) as Hquiet
    by (intros q; rewrite Esg; apply not_eraser; vm_compute; reflexivity).
  assert (at_s (St i) pt = at_s (St (S i)) pt -> fine (S i) pt (at_c c pt)) as Hkeep
    by (intros Hs; apply fine_kept; [done|by apply Hc|done|apply Hquiet]).
  pose proof (fine_now (S i) pt ltac:(lia)) as Hnow.
  assert (pt <> AtSettings p \/ ifaceConnection ∉ l.*1 -> fine (S i) pt (at_c c1 pt)) as H1.
  { intros Hpt. subst c1. rewrite added_at, fold_merge_at by done. rewrite E, E' in Hkeep. rewrite E' in Hnow.
    unfold at_s in *. cbn [sv_objs sv_settings] in *.
    destruct pt as [p' f k|p' f|p']; cbn [laid_over at_] in *.
    - destruct (decide (p' = p)) as [->|Hp]; [|rewrite objs_props_insert_ne in Hkeep by done; by apply Hkeep].
      rewrite objs_props_added in *. destruct ((list_to_map l : gmap string props) !! f) as [mf|] eqn:Ef; cbn; [|by apply Hkeep].
      change (Some mf ≫= lookup k) with (mf !! k) in *. destruct (mf !! k) as [v|] eqn:Ev; [exact Hnow|]. apply Hkeep.
      apply elem_of_list_to_map_2 in Ef. rewrite Hnew; [done|]. apply list_elem_of_fmap. by exists (f, mf).
    - destruct (decide (p' = p)) as [->|Hp].
      + rewrite objs_props_added in *. destruct ((list_to_map l : gmap string props) !! f) as [mf|] eqn:Ef.
        * rewrite decide_True by eauto. exact Hnow.
        * rewrite decide_False by (by intros [_ [? ?]]). by apply Hkeep.
      + rewrite objs_props_insert_ne in Hkeep by done. rewrite decide_False by naive_solver. by apply Hkeep.
    - apply Hkeep. destruct (decide (ifaceConnection ∈ l.*1)); [|done]. rewrite lookup_partial_alter_ne; [done|]. destruct Hpt as [Hpt|]; [congruence|done]. }
  assert (existsb (fun x => x.1 =?s ifaceConnection) l = true <-> ifaceConnection ∈ l.*1) as Hex.
  { rewrite existsb_exists, list_elem_of_fmap. split.
    - intros (x & Hx & Heq). exists x. bool_to_prop. split; [done|]. by apply list_elem_of_In.
    - intros (x & Hx & Hin). exists x. apply list_elem_of_In in Hin. split; [done|]. rewrite Hx. apply seqb_refl. }
  destruct (existsb (fun x => x.1 =?s ifaceConnection) l) eqn:El; [|apply H1; right; intros Hin; apply Hex in Hin; congruence].
  assert (ifaceConnection ∈ l.*1) as Hin by by apply Hex.
  destruct (decide (pt = AtSettings p)) as [->|Hpt].
  - apply read_settings_fine; [done| |done|].
    + destruct (Hst i Hi) as (_ & _ & Hn). apply Hn. rewrite Esg. constructor.
    + intros Hs. cbn [snd]. subst c1. rewrite added_at, fold_merge_at by done. cbn [laid_over].
      apply Hkeep. cbn. rewrite Hs, E. cbn. destruct (settings !! p) as [x|] eqn:Ex; [|done].
      pose proof (St_ok i ltac:(lia) p) as Hok. rewrite E in Hok. cbn in Hok. rewrite Ex in Hok. destruct Hok as [y Hy]; [done|]. by rewrite Hnew in Hy.
  - assert (at_c (read_settings (rep i) p (m, c1)).2 pt = at_c c1 pt) as ->; [|apply H1; by left].
    unfold read_settings. cbn [snd]. destruct (r_getSettings (rep i m) p) as [s0|]; [|done]. by rewrite cacheSettings_at, decide_False.
Qed.

(** *** NetworkManager comes and goes *)

Lemma hints_at l c pt : at_c (foldl (fun c k => emit k pathNM c) c l) pt = at_c c pt.
Proof. revert c. induction l as [|k l IH]; intros c; cbn [foldl]; [done|]. by rewrite IH, emit_at. Qed.

Lemma getAllSettings_spec l : forall m p,
  reliable i -> NoDup l.*1 ->
  match (getAllSettings (rep i) m l).1 !! p with
  | Some s => exists j, (S i <= j <= n)%nat /\ sv_settings (St j) !! p = Some s
  | None => (exists j, (S i <= j <= n)%nat /\ sv_settings (St j) !! p = None) \/
            (forall ifaces, (p, ifaces) ∈ l -> ifaces !! ifaceConnection = None)
  end.
Proof using Type.
  induction l as [|[q ifaces] l IH]; intros m p Hrel Hl; cbn [getAllSettings].
  - cbn [fst]. rewrite lookup_empty. right. intros x Hx. by apply elem_of_nil in Hx.
  - apply NoDup_cons in Hl as [Hq Hl]. destruct (ifaces !! ifaceConnection) as [ps|] eqn:Ef.
    + specialize (IH (S m) p Hrel Hl). destruct (getAllSettings (rep i) (S m) l) as [ms m']. cbn [fst] in *.
      destruct (Hrel m) as (j & Hj & Ha). rewrite (an_getSettings _ _ Ha).
      destruct (decide (q = p)) as [->|Hne].
      * assert (forall x, (p, x) ∉ l) as Hno.
        { intros x Hx. apply Hq. apply list_elem_of_fmap. exists (p, x). by split. }
        destruct (sv_settings (St j) !! p) as [s|] eqn:Es.
        -- rewrite lookup_insert_eq. by exists j.
        -- destruct (ms !! p) as [s|]; [done|]. left. by exists j.
      * destruct (sv_settings (St j) !! q) as [s|]; rewrite ?lookup_insert_ne by done;
          (destruct (ms !! p); [done|]; destruct IH as [H|H]; [by left|right]);
          (intros x [[= -> ->]|Hx]%elem_of_cons; [done|by eapply H]).
    + specialize (IH m p Hrel Hl). destruct (getAllSettings (rep i) m l) as [ms m']. cbn [fst] in *.
      destruct (ms !! p); [done|]. destruct IH as [H|H]; [by left|right].
      intros x [[= -> ->]|Hx]%elem_of_cons; [done|by eapply H].
Qed.

Lemma resync_fine nc pt :
  reliable i -> (fine (S i) pt (at_c nc.2 pt) \/ is_Some (sv_objs (St (S i)) !! pathNM)) ->
  fine (S i) pt (at_c (resync (rep i) nc).2.2 pt).
Proof using Hstep Hrep Hi Hok0.
  destruct nc as [m c]. cbn [snd]. intros Hrel Hpt. unfold resync. destruct (Hrel m) as (j & Hj & Ha).
  rewrite (an_managed _ _ Ha). destruct (sv_objs (St j) !! pathNM) as [x|] eqn:Enm.
  - pose proof (fun p => getAllSettings_spec (map_to_list (sv_objs (St j))) (S m) p Hrel (NoDup_fst_map_to_list _)) as Hset.
    destruct (getAllSettings (rep i) (S m) _) as [ms m']. cbn [fst snd] in *.
    destruct pt as [p f k|p f|p]; [left; by exists j|left; by exists j|].
    unfold at_c. cbn [at_ c_settings with_cache]. specialize (Hset p). destruct (ms !! p) as [s|].
    + destruct Hset as (j' & Hj' & Hs). left. exists j'. split; [done|]. cbn. by rewrite Hs.
    + left. destruct Hset as [(j' & Hj' & Hs)|Hno]; [exists j'; split; [done|]; cbn; by rewrite Hs|].
      exists j. split; [done|]. cbn. destruct (sv_settings (St j) !! p) as [s|] eqn:Es; [|done].
      pose proof (St_ok j ltac:(lia) p) as Hok. rewrite Es in Hok. destruct Hok as [ps Hps]; [done|].
      unfold objs_props in Hps. destruct (sv_objs (St j) !! p) as [ifaces|] eqn:Eo; [|done]. cbn in Hps.
      rewrite (Hno ifaces) in Hps; [done|]. by apply elem_of_map_to_list.
  - cbn [snd]. destruct Hpt as [Hpt|Hpt]; [exact Hpt|]. right. by eapply nm_lost.
Qed.

Lemma joined_fine owner m c :
  owner <> "" -> is_Some (sv_objs (St (S i)) !! pathNM) -> sg i = sig_owner "" owner ->
  inv (S i) (handle (rep i) (sig_owner "" owner) (m, c)).2.
Proof using Hstep Hrep Hi Hok0.
  intros Ho Hnm Esg pt Hst. assert (reliable i) as Hrel by (destruct (Hst i Hi) as (_ & _ & Hn); apply Hn; rewrite Esg; constructor).
  assert (handle (rep i) (sig_owner "" owner) (m, c) = ownerChanged (rep i) owner (m, c)) as -> by reflexivity.
  unfold ownerChanged, andThen. rewrite (seqb_ne _ _ Ho). cbn [pure].
  pose proof (resync_fine (m, setNMOwner owner (invalidatePermissions c)) pt Hrel (or_intror Hnm)) as H.
  destruct (resync (rep i) _) as [e [m' c']]. cbn [snd registerAgent pure] in *. rewrite hints_at. exact H.
Qed.

Lemma left_fine o m c : St (S i) = sv_empty -> inv (S i) (handle (rep i) (sig_owner o "") (m, c)).2.
Proof using Hi.
  intros E pt _.
  assert (handle (rep i) (sig_owner o "") (m, c) = ownerChanged (rep i) "" (m, c)) as -> by reflexivity.
  unfold ownerChanged, andThen. cbn [String.eqb pure snd]. rewrite hints_at. left. exists (S i). split; [lia|].
  by rewrite E.
Qed.

(** One signal, whatever it is. *)
Lemma handle_fine c m : inv i c -> inv (S i) (handle (rep i) (sg i) (m, c)).2.
Proof using Hstep Hrep Hi Hok0.
  intros Hc. pose proof (Hstep i Hi) as Hs. remember (St i) as s eqn:Es. remember (St (S i)) as s' eqn:Es'.
  remember (sg i) as sig eqn:Esg. symmetry in Es, Es', Esg.
  destruct Hs as [s p f ch inval Hf|s sig p f ch Hsig Hf|s p l new Hn Hl|s sig p Hr Hw Hne|s p names Hw|s sig Ha|s p st Hcand Hf|s o|s o Ho Hnm Hok].
  - intros pt Hst. change (handle (rep i) (sig_changed p f ch inval) (m, c)) with (m, hintFor f p (setProps p f ch inval c)).
    cbn [snd]. rewrite hintFor_at. destruct s as [objs settings]. eapply merge_fine; [done|done| |by apply Hc].
    rewrite Esg. apply not_eraser. vm_compute. reflexivity.
  - intros pt Hst. rewrite (state_signal_handle _ _ _ _ _ _ Hsig). destruct s as [objs settings].
    eapply merge_fine; [done|done| |by apply Hc]. rewrite Esg. by eapply state_signal_quiet.
  - destruct s as [objs settings]. rewrite <- Esg. by eapply added_fine.
  - intros pt Hst. rewrite (removal_handle _ _ _ _ Hr). unfold at_c, removeObject.
    cbn [c_objs c_settings with_cache with_devRsn snd]. rewrite at_delete.
    destruct (decide (pt_path pt = p)) as [Hp|Hp].
    + left. exists (S i). split; [lia|]. unfold at_s. rewrite Es'. cbn [sv_objs sv_settings].
      by rewrite at_delete, decide_True.
    + apply fine_kept; [done|by apply Hc| |rewrite Esg; intros He; apply Hp; by eapply removal_path].
      unfold at_s. rewrite Es, Es'. cbn [sv_objs sv_settings]. by rewrite at_delete, decide_False.
  - intros pt Hst. assert (removal (sig_ifaces_removed p names) p) as Hr by constructor.
    rewrite (removal_handle _ _ _ _ Hr). unfold at_c, removeObject. cbn [c_objs c_settings with_cache with_devRsn snd]. rewrite at_delete.
    destruct (decide (pt_path pt = p)) as [Hp|Hp].
    + exfalso. destruct (Hst i Hi) as (Hnp & _ & _). rewrite Hp, Es, Esg in Hnp. by apply Hnp.
    + apply fine_kept; [done|by apply Hc| |rewrite Esg; intros He; apply Hp; by eapply removal_path].
      unfold at_s. rewrite Es, Es'. cbn [sv_objs sv_settings].
      destruct pt as [p' f k|p' f|p']; cbn in *; rewrite ?objs_props_parted, ?decide_False by naive_solver; try done.
      destruct (decide _); [by rewrite lookup_delete_ne|done].
  - intros pt Hst. apply announcement_fine; [done|]. apply quiet_fine; [congruence| |by apply Hc].
    rewrite Esg. by apply announcement_quiet.
  - intros pt Hst. destruct (fetchObject (rep i) p (m, c)) as [m' c'] eqn:Ef.
    assert ((handle (rep i) (sig_updated p) (m, c)).2 = emit ChangeProfiles p c') as ->.
    { change (handle (rep i) (sig_updated p) (m, c)) with (pure (emit ChangeProfiles p) (fetchObject (rep i) p (m, c))).
      by rewrite Ef. }
    rewrite emit_at. replace c' with (fetchObject (rep i) p (m, c)).2 by (by rewrite Ef).
    assert (~ erases (sg i) (pt_path pt)) as Hquiet by (rewrite Esg; apply not_eraser; vm_compute; reflexivity).
    assert (pt <> AtSettings p \/ sv_settings s !! p = None /\ st = None -> fine (S i) pt (at_c c pt)) as Hother.
    { intros Hor. apply fine_kept; [done|by apply Hc| |done]. unfold at_s. rewrite Es, Es'. cbn [sv_objs sv_settings].
      destruct pt as [p' f k|p' f|p']; try done. cbn. destruct (decide (p = p')) as [->|]; [|by rewrite lookup_partial_alter_ne].
      rewrite lookup_partial_alter_eq. destruct Hor as [Hor|[-> ->]]; [congruence|done]. }
    destruct st as [st|].
    + apply updated_fine; [done| |done|rewrite Es'; cbn; rewrite lookup_partial_alter_eq; eauto|intros; apply Hother; by left].
      intros Hp. destruct (Hst i Hi) as (_ & _ & Hn). apply Hn. rewrite Esg, Hp. constructor.
    + apply fetchObject_fine. cbn [snd]. destruct (decide (pt = AtSettings p)) as [->|]; [|apply Hother; by left].
      apply Hother. right. split; [|done]. destruct (sv_settings s !! p) as [x|] eqn:Ex; [|done].
      destruct (Hst i Hi) as (_ & Hh & _). exfalso. apply Hh. cbn [pt_path]. rewrite Es, Es', Esg. split; [done|]. rewrite Ex. cbn.
      by rewrite lookup_partial_alter_eq.
  - by apply left_fine.
  - apply joined_fine; [done|by rewrite Es'|done].
Qed.
End Step.

Lemma loop_fine m : forall k c,
  (k + m = n)%nat -> inv k c -> inv n (loop (map rep (seq k m)) (map sg (seq k m)) c).
Proof using Hstep Hrep Hok0.
  induction m as [|m IH]; intros k c Hk Hc; cbn [seq map loop]; [by replace n with k by lia|].
  apply IH; [lia|]. apply handle_fine; [lia|done].
Qed.

(** Nothing is left to come. *)
Lemma inv_end c : inv n c -> forall pt, steady (pt_path pt) -> at_c c pt = at_s (St n) pt.
Proof.
  intros Hc pt Hst. destruct (Hc pt Hst) as [(j & Hj & ->)|(k & Hk & _)]; [by replace j with n by lia|lia].
Qed.
End Run.

(** Agreement at the points of one path. *)
Lemma path_ext objs objs' settings settings' p :
  (forall pt, pt_path pt = p -> at_ objs settings pt = at_ objs' settings' pt) ->
  (forall i, objs_props objs p i = objs_props objs' p i) /\ settings !! p = settings' !! p.
Proof.
  intros H. split.
  - intros i. pose proof (H (AtIface p i) eq_refl) as Hi. cbn in Hi. injection Hi as Hi.
    destruct (objs_props objs p i) as [m|] eqn:E, (objs_props objs' p i) as [m'|] eqn:E'; try done.
    f_equal. apply map_eq. intros k. pose proof (H (AtKey p i k) eq_refl) as Hk. cbn in Hk. rewrite E, E' in Hk. by injection Hk.
  - pose proof (H (AtSettings p) eq_refl) as Hp. by injection Hp.
Qed.

(** C19: The cache follows NetworkManager.  Take any run of NetworkManager from
    a state in which it is on the bus: objects appear, gain interfaces, change,
    lose some or all of their interfaces, profiles are shown to this user and
    hidden, NetworkManager leaves and comes back, and each change sends its
    signal.  The client takes its snapshot and then handles every signal in
    order; each call a handler makes may fail, or be answered from any state
    after the signal was sent, even one far ahead of the signals still queued.
    When the last signal has been handled the cache holds, for every object
    that was removed only as a whole, whose profile was not hidden, and for
    which the handler of its InterfacesAdded and Updated signals and the
    snapshots after a return to the bus got their answers, exactly
    NetworkManager's interfaces, key by key, and exactly its settings, whatever
    happened to the other objects. *)
Theorem cache_converges n (St : nat -> server) (sg : nat -> Signal) (rep0 : nat -> reply) (rep : nat -> nat -> reply)
    timeout c :
  (forall i, (i < n)%nat -> server_step (St i) (sg i) (St (S i))) ->
  server_ok (St O) -> is_Some (sv_objs (St O) !! pathNM) ->
  (forall m, exists j, (j <= n)%nat /\ answers (rep0 m) (St j)) ->
  (forall i m, (i < n)%nat -> exists j, (S i <= j <= n)%nat /\ serves (rep i m) (St j)) ->
  New rep0 timeout = Ok c ->
  let c' := loop (map rep (seq O n)) (map sg (seq O n)) c in
  forall p, steady St sg rep n p ->
    (forall f, propsOf c' p f = objs_props (sv_objs (St n)) p f) /\ c_settings c' !! p = sv_settings (St n) !! p.
Proof.
  intros Hstep Hok Hnm Hrep0 Hrep Hnew. cbv zeta. intros p Hst.
  set (St' := fun i => match i with O => sv_empty | S i => St i end).
  set (sg' := fun i => match i with O => sig_owner "" ":1.1" | S i => sg i end).
  set (rep' := fun i => match i with O => rep0 | S i => rep i end).
  assert (forall i, (i < S n)%nat -> server_step (St' i) (sg' i) (St' (S i))) as Hstep'.
  { intros [|i] Hi; [by apply sv_joined|]. apply Hstep. lia. }
  assert (reliable St' rep' (S n) O) as Hrel0.
  { intros m. destruct (Hrep0 m) as (j & Hj & Ha). exists (S j). split; [lia|done]. }
  assert (forall i m, (i < S n)%nat -> exists j, (S i <= j <= S n)%nat /\ serves (rep' i m) (St' j)) as Hrep'.
  { intros [|i] m Hi.
    - destruct (Hrel0 m) as (j & Hj & Ha). exists j. split; [lia|by apply answers_serves].
    - destruct (Hrep i m) as (j & Hj & Ha); [lia|]. exists (S j). split; [lia|done]. }
  assert (server_ok (St' O)) as Hok' by (intros q [x Hq]; cbn in Hq; by rewrite lookup_empty in Hq).
  assert (steady St' sg' rep' (S n) p) as Hst'.
  { intros [|i] Hi.
    - split; [by intros (names & f & H & _)|]. split; [by intros (H & _)|done].
    - destruct (Hst i) as (H1 & H2 & H3); [lia|]. split; [done|]. split; [done|]. intros Hn m.
      destruct (H3 Hn m) as (j & Hj & Ha). exists (S j). split; [lia|done]. }
  assert (inv St' sg' rep' (S n) 1 c) as Hc.
  { intros pt _. pose proof (resync_fine St' sg' rep' (S n) Hstep' Hrep' Hok' O ltac:(lia) (O, newClient timeout) pt
      Hrel0 (or_intror Hnm)) as H. unfold New in Hnew. change (rep' O) with rep0 in H.
    destruct (resync rep0 (O, newClient timeout)) as [[e|] [m' c0]]; [done|]. by injection Hnew as <-. }
  pose proof (loop_fine St' sg' rep' (S n) Hstep' Hrep' Hok' n 1 c eq_refl Hc) as Hend.
  rewrite <- !seq_shift, !map_map in Hend. apply path_ext. intros pt Hpt.
  exact (inv_end _ _ _ _ _ Hend pt ltac:(by rewrite Hpt)).
Qed.

(** A device comes and goes while a profile is edited and another device loses
    one of its interfaces; the calls that matter are answered from the last
    state, the others fail. *)
Definition demo_conn : string := "/org/freedesktop/NetworkManager/Settings/1".
Definition demo_dev : string := "/org/freedesktop/NetworkManager/Devices/7".
Definition demo_wifi : string := "/org/freedesktop/NetworkManager/Devices/3".

Definition demo_s0 : server :=
  mkServer {[ pathNM := {[ ifaceNM := ∅ ]}; demo_conn := {[ ifaceConnection := ∅ ]};
              demo_wifi := {[ ifaceDevice := ∅; ifaceWireless := ∅ ]} ]} {[ demo_conn := ∅ ]}.
Definition demo_s1 : server :=
  mkServer (<[demo_dev := list_to_map [(ifaceDevice, state_props 30)] ∪ default ∅ (sv_objs demo_s0 !! demo_dev)]> (sv_objs demo_s0))
    (sv_settings demo_s0).
Definition demo_s2 : server :=
  mkServer (sv_objs demo_s1) (partial_alter (fun _ => Some {[ settingConnection := state_props 1 ]}) demo_conn (sv_settings demo_s1)).
Definition demo_s3 : server :=
  mkServer (alter (fun m => foldr delete m [ifaceWireless]) demo_wifi (sv_objs demo_s2)) (sv_settings demo_s2).
Definition demo_s4 : server := mkServer (delete demo_dev (sv_objs demo_s3)) (delete demo_dev (sv_settings demo_s3)).

Definition demo_states (i : nat) : server :=
  match i with O => demo_s0 | 1%nat => demo_s1 | 2%nat => demo_s2 | 3%nat => demo_s3 | _ => demo_s4 end.

Definition demo_signals (i : nat) : Signal :=
  match i with
  | O => sig_added demo_dev [(ifaceDevice, state_props 30)]
  | 1%nat => sig_updated demo_conn
  | 2%nat => sig_ifaces_removed demo_wifi [ifaceWireless]
  | _ => mkSignal pathNM (ifaceNM +:+ ".DeviceRemoved") [APath demo_dev]
  end.

Definition demo_reply (s : server) : reply :=
  mkReply (Ok (sv_objs s)) (objs_props (sv_objs s)) (fun p => sv_settings s !! p)
    (objs_props (sv_objs s) pathSettings ifaceSettings ≫= (.!! "Connections")) true.

Definition failed_reply : reply := mkReply (Err (CClosed "connection closed by user")) (fun _ _ => None) (fun _ => None) None false.

Definition demo_rep (i m : nat) : reply := if Nat.ltb i 2 then demo_reply demo_s4 else failed_reply.

Lemma demo_answers s : answers (demo_reply s) s.
Proof. by split. Defined.

Lemma failed_serves s : serves failed_reply s.
Proof. by split. Defined.

Lemma demo_server_ok : server_ok demo_s0.
Proof.
  intros p [x Hp]. cbn in Hp. apply lookup_singleton_Some in Hp as [<- _]. vm_compute. eauto.
Qed.

Lemma demo_steps i : (i < 4)%nat -> server_step (demo_states i) (demo_signals i) (demo_states (S i)).
Proof.
  intros Hi. destruct i as [|[|[|[|i]]]]; [| | | |lia].
  - pose proof (sv_added demo_s0 demo_dev [(ifaceDevice, state_props 30)] None) as H. rewrite decide_False in H by (vm_compute; set_solver).
    apply H; [|apply NoDup_singleton]. intros f _. reflexivity.
  - apply sv_updated; [reflexivity|]. vm_compute. eauto.
  - pose proof (sv_parted demo_s2 demo_wifi [ifaceWireless]) as H. rewrite decide_False in H by (vm_compute; set_solver). apply H.
    exists [ifaceWireless], ifaceDevice. split; [done|]. split; [vm_compute; eauto|]. vm_compute. set_solver.
  - apply sv_removed; [constructor| |done]. by intros (names & f & H & _).
Qed.

Lemma demo_steady p : p <> demo_wifi -> steady demo_states demo_signals demo_rep 4 p.
Proof.
  intros Hp i Hi. split; [|split].
  - intros (names & f & H & _). destruct i as [|[|[|[|i]]]]; try discriminate H. injection H as H. congruence.
  - intros (H & _ & Hn). destruct i as [|[|[|[|i]]]]; try discriminate H. injection H as <-. vm_compute in Hn. discriminate Hn.
  - intros Hn m. exists 4%nat. split; [lia|]. destruct i as [|[|[|[|i]]]]; try apply demo_answers; inversion Hn.
Qed.

Lemma cache_converges_witness :
  exists c, New (fun _ => demo_reply demo_s4) 0 = Ok c /\
    let c' := loop (map demo_rep (seq O 4)) (map demo_signals (seq O 4)) c in
    propsOf c' demo_dev ifaceDevice = None /\ c_settings c' !! demo_conn = Some {[ settingConnection := state_props 1 ]}.
Proof.
  destruct (New (fun _ => demo_reply demo_s4) 0) as [c|e] eqn:Hc.
  2: { assert (is_ok (New (fun _ => demo_reply demo_s4) 0) = true) as H by (vm_compute; reflexivity).
       rewrite Hc in H. discriminate H. }
  exists c. split; [reflexivity|].
  assert (is_Some (sv_objs demo_s0 !! pathNM)) as Hnm by (vm_compute; eauto).
  assert (forall m : nat, exists j, (j <= 4)%nat /\ answers (demo_reply demo_s4) (demo_states j)) as Hrep0
    by (intros _; exists 4%nat; split; [lia|apply demo_answers]).
  assert (forall i m, (i < 4)%nat -> exists j, (S i <= j <= 4)%nat /\ serves (demo_rep i m) (demo_states j)) as Hrep.
  { intros i m Hi. exists 4%nat. split; [lia|]. unfold demo_rep. destruct (Nat.ltb i 2); [apply answers_serves, demo_answers|apply failed_serves]. }
  pose proof (cache_converges 4 demo_states demo_signals (fun _ => demo_reply demo_s4) demo_rep 0 c
    demo_steps demo_server_ok Hnm Hrep0 Hrep Hc) as H. cbv zeta in H |- *.
  destruct (H demo_dev) as [H1 _]; [by apply demo_steady|]. destruct (H demo_conn) as [_ H2]; [by apply demo_steady|].
  split; [rewrite H1; vm_compute; reflexivity|rewrite H2; vm_compute; reflexivity].
Defined.

(** The object that lost a part of its interfaces is lost to the cache as a
    whole, and the interfaces that stay with it: [interfacesRemoved] does not
    look at the names the signal carries. *)
Lemma parted_object_lost :
  objs_props (sv_objs demo_s4) demo_wifi ifaceDevice = Some ∅ /\
  match New (fun _ => demo_reply demo_s2) 0 with
  | Ok c => propsOf c demo_wifi ifaceDevice = Some ∅ /\
            propsOf (handle (fun _ => failed_reply) (demo_signals 2) (O, c)).2 demo_wifi ifaceDevice = None
  | Err _ => False
  end.
Proof. vm_compute. repeat split. Qed.

(** The settings of a profile that was hidden from this user stay in the cache:
    the handler of Updated fetches what it may still read and forgets nothing. *)
Lemma hidden_profile_stays :
  match New (fun _ => demo_reply demo_s2) 0 with
  | Ok c => c_settings (handle (fun _ => demo_reply (mkServer (sv_objs demo_s2) ∅)) (sig_updated demo_conn) (O, c)).2 !! demo_conn =
            Some {[ settingConnection := state_props 1 ]}
  | Err _ => False
  end.
Proof. vm_compute. reflexivity. Qed.

(** ** Watch *)

Definition emits (hints : list (ChangeKind * string)) (c : Client) : Client :=
  foldl (fun c h => emit h.1 h.2 c) c hints.

Lemma emit_chan kind path c ch subs b :
  c_subs c = Some subs -> ch ∈ subs -> c_chans c !! ch = Some (mkChan b false) ->
  c_subs (emit kind path c) = Some subs /\
  c_chans (emit kind path c) !! ch =
    Some (mkChan (if Nat.ltb (length b) watchBuffer then b ++ [mkChange kind path] else b) false).
Proof.
  intros Hs Hin Hc. unfold emit. rewrite Hs. cbn [c_subs c_chans with_chans]. split; [done|].
  rewrite map_lookup_imap, Hc. cbn [mbind option_bind]. rewrite decide_True by done. unfold try_send.
  cbn [cn_buf cn_closed]. by destruct (Nat.ltb (length b) watchBuffer).
Qed.

Lemma emits_chan hints : forall c ch subs b,
  c_subs c = Some subs -> ch ∈ subs -> c_chans c !! ch = Some (mkChan b false) -> (length b <= watchBuffer)%nat ->
  c_subs (emits hints c) = Some subs /\
  c_chans (emits hints c) !! ch =
    Some (mkChan (take watchBuffer (b ++ map (fun h => mkChange h.1 h.2) hints)) false).
Proof.
  induction hints as [|h hints IH]; intros c ch subs b Hs Hin Hc Hb; cbn [emits foldl map].
  - split; [done|]. by rewrite app_nil_r, take_ge.
  - destruct (emit_chan h.1 h.2 c ch subs b Hs Hin Hc) as [H1 H2]. destruct (Nat.ltb_spec (length b) watchBuffer).
    + destruct (IH _ _ _ _ H1 Hin H2) as [H3 H4]; [rewrite length_app; cbn; lia|]. split; [done|].
      rewrite <- app_assoc in H4. exact H4.
    + destruct (IH _ _ _ _ H1 Hin H2) as [H3 H4]; [done|]. split; [done|]. fold (emits hints (emit h.1 h.2 c)).
      rewrite H4. by rewrite !take_app_le by lia.
Qed.

(** The start of a watch.  [Watch] puts the channel on the list of
    subscribers before it sends the first hint, so what happens in between
    decides: the hints emitted meanwhile come first, in order, and only if
    there are none is the first hint the promised status; if 64 or more were
    emitted the send blocks with nobody to read; and if the client is closed
    meanwhile the send panics on a closed channel. *)
Theorem watch_contract c subs hints :
  c_subs c = Some subs ->
  let '(r, c1) := watch_register c in
  exists ch, r = Ok ch /\ c_chans c !! ch = None /\
    let c2 := emits hints c1 in
    (if Nat.ltb (length hints) watchBuffer
     then exists c3, watch_first ch c2 = Sent c3 /\
            c_chans c3 !! ch = Some (mkChan (map (fun h => mkChange h.1 h.2) hints ++ [mkChange ChangeStatus pathNM]) false)
     else watch_first ch c2 = Blocked) /\
    watch_first ch (closeSubs c2) = PanicClosed.
Proof.
  intros Hs. unfold watch_register. rewrite Hs. set (ch := fresh (dom (c_chans c))).
  exists ch. split; [done|]. split; [apply not_elem_of_dom, is_fresh|]. cbv zeta.
  set (c1 := with_chans _ _ c).
  destruct (emits_chan hints c1 ch ({[ch]} ∪ subs) []) as [H1 H2];
    [done|set_solver|apply lookup_insert_eq|cbn; lia|]. cbn [app] in H2. split.
  - unfold watch_first. rewrite H2. cbn [cn_closed cn_buf]. rewrite length_take, length_map.
    destruct (Nat.ltb_spec (length hints) watchBuffer).
    + rewrite (proj2 (Nat.ltb_lt _ _)) by lia. eexists. split; [done|]. cbn [c_chans with_chans].
      rewrite lookup_insert_eq. rewrite take_ge by (rewrite length_map; lia). done.
    + by rewrite (proj2 (Nat.ltb_ge _ _)) by lia.
  - unfold closeSubs, watch_first, close_in. cbn [c_chans with_waiters with_chans]. rewrite H1.
    rewrite map_lookup_imap, H2. cbn. by rewrite decide_True by set_solver.
Qed.

(** A profile change slips in before the first hint. *)
Lemma watch_contract_witness :
  c_subs (newClient 0) = Some ∅ /\
  exists ch c3, watch_first ch (emits [(ChangeProfiles, "/p")] (watch_register (newClient 0)).2) = Sent c3 /\
    c_chans c3 !! ch = Some (mkChan [mkChange ChangeProfiles "/p"; mkChange ChangeStatus pathNM] false).
Proof.
  split; [reflexivity|].
  pose proof (watch_contract (newClient 0) ∅ [(ChangeProfiles, "/p")] eq_refl) as H.
  destruct (watch_register (newClient 0)) as [r c1]. destruct H as (ch & _ & _ & (c3 & H1 & H2) & _).
  exists ch, c3. split; [exact H1|exact H2].
Defined.
