(* ===== verification/NMOps.v ===== *)
(** internal/nm/ops.go: the write operations, as programs over the bus of
    NMConnect.v that log the calls they make. *)

From S2P Require Import Prelude GoTime Core GoStrings Errors NMVariant SecretAgent NMMapping Netip NMRead NMSettings NMWifi NMConnect NMConnectFacts.
From Stdlib Require Import Ascii.

(** [%v] of a bool, [%x] of bytes. *)
Definition fmt_bool (b : bool) : string := if b then "true" else "false".
Definition hex_byte (z : Z) : string := hex_digit (Z.shiftr z 4) +:+ hex_digit (Z.land z 15).
Definition fmt_hex (l : list Z) : string := foldr (fun b s => hex_byte b +:+ s) "" l.

(** ** newUUID *)

Definition uuid_of_bytes (b : list Z) : string :=
  let b := <[6%nat := Z.lor (Z.land (b !!! 6%nat) 0x0f) 0x40]> b in
  let b := <[8%nat := Z.lor (Z.land (b !!! 8%nat) 0x3f) 0x80]> b in
  fmt_hex (take 4 b) +:+ "-" +:+ fmt_hex (take 2 (drop 4 b)) +:+ "-" +:+ fmt_hex (take 2 (drop 6 b)) +:+ "-" +:+
  fmt_hex (take 2 (drop 8 b)) +:+ "-" +:+ fmt_hex (take 6 (drop 10 b)).

(** [rand.Read] of 16 bytes. *)
Definition newUUID (rand : result error (list Z)) : result error string :=
  match rand with Ok b => Ok (uuid_of_bytes b) | Err e => Err e end.

(** ** reUUID and reKind *)

Definition is_hexdigit (c : ascii) : bool := match hex_val c with Some _ => true | None => false end.

(** [n] hex digits at the start of [s], and the rest. *)
Fixpoint hex_digits (n : nat) (s : string) : option (string * string) :=
  match n with
  | O => Some ("", s)
  | S n' =>
      match s with
      | String c s' =>
          if is_hexdigit c
          then match hex_digits n' s' with Some (a, rest) => Some (String c a, rest) | None => None end
          else None
      | "" => None
      end
  end.

(** The groups of a UUID: hex digits between dashes, a closing parenthesis. *)
Fixpoint uuid_groups (ns : list nat) (s : string) : option string :=
  match ns with
  | [] => None
  | n :: ns' =>
      match hex_digits n s with
      | Some (a, String c rest) =>
          match ns' with
          | [] => if Ascii.eqb c ")" then Some a else None
          | _ =>
              if Ascii.eqb c "-"
              then match uuid_groups ns' rest with Some b => Some (a +:+ "-" +:+ b) | None => None end
              else None
          end
      | _ => None
      end
  end.

(** [reUUID.FindStringSubmatch(s)[1]]: the leftmost match. *)
Fixpoint find_uuid (s : string) : option string :=
  match s with
  | "" => None
  | String c s' =>
      match (if Ascii.eqb c "(" then uuid_groups [8; 4; 4; 4; 12]%nat s' else None) with
      | Some u => Some u
      | None => find_uuid s'
      end
  end.

(** [reKind]: one or more of a-z and 0-9. *)
Definition kind_char (c : ascii) : bool :=
  let n := nat_of_ascii c in (Nat.leb 97 n && Nat.leb n 122) || (Nat.leb 48 n && Nat.leb n 57).

Definition reKind (s : string) : bool := negb (s =?s "") && forallb kind_char (String.list_ascii_of_string s).

Example find_uuid_sample :
  find_uuid "Connection 'office' (9f0e8b3a-1111-4222-8333-0123456789aB) successfully added." =
  Some "9f0e8b3a-1111-4222-8333-0123456789aB".
Proof. vm_compute. reflexivity. Qed.

Section Ops.
Context {W : Type} (bus : Bus (W := W)) (Quote : string -> string) (netip_error : string -> string).
Context (username : string) (activateTimeout : Duration) (timeout_text : string).

Local Notation "x <-! m ;; k" := (bind m (fun x => k)) (at level 60, m at next level, right associativity).

Definition notVisible (op : string) : error :=
  newErr op (Some nm_ErrNotFound) "no profile with that UUID is visible to this user".
Definition noDevice (op device : string) : error := newErr op (Some nm_ErrNotFound) ("no device named " +:+ device).

(** ** Activations *)

Definition Activate (v : view) (profileUUID device : string) : M (option error) :=
  let op := "activate " +:+ profileUUID in
  match connByUUID v profileUUID with
  | None => ret (Some (notVisible op))
  | Some conn =>
      match (if negb (device =?s "") then devicePath v device else Some "/") with
      | None => ret (Some (noDevice op device))
      | Some dev =>
          r <-! call (b_Activate bus conn dev "/") (EActivate conn dev "/") ;;
          match r with
          | Err e => ret (wrapDBus op (Some e))
          | Ok active => wait_for bus activateTimeout timeout_text op active
          end
      end
  end.

Definition Deactivate (v : view) (profileUUID : string) : M (option error) :=
  let op := "deactivate " +:+ profileUUID in
  match activeByUUID v profileUUID with
  | None => ret (Some (newErr op (Some nm_ErrNotFound) "that profile is not active"))
  | Some active => err <-! call (b_Deactivate bus active) (EDeactivate active) ;; ret (wrapDBus op err)
  end.

Definition DisconnectDevice (v : view) (device : string) : M (option error) :=
  let op := "disconnect " +:+ device in
  match devicePath v device with
  | None => ret (Some (noDevice op device))
  | Some dp => err <-! call (b_Disconnect bus dp) (EDisconnect dp) ;; ret (wrapDBus op err)
  end.

Definition Forget (v : view) (profileUUID : string) : M (option error) :=
  let op := "forget " +:+ profileUUID in
  match connByUUID v profileUUID with
  | None => ret (Some (notVisible op))
  | Some conn => err <-! call (b_Delete bus conn) (fun _ => EDelete conn) ;; ret (wrapDBus op err)
  end.

Definition SetWifiEnabled (on : bool) : M (option error) :=
  err <-! call (b_SetWireless bus on) (ESetWireless on) ;; ret (wrapDBus ("set wifi enabled=" +:+ fmt_bool on) err).

(** [Scan] (wifi.go). *)
Definition Scan (v : view) (device : string) : M (option error) :=
  match pickWifiDevice v device with
  | Err e => ret (Some e)
  | Ok dp =>
      err <-! call (b_RequestScan bus dp) (EScan dp) ;; ret (wrapDBus ("scan " +:+ deviceName v dp) err)
  end.

(** ** Editing profiles *)

(** A key of the connection section. *)
Definition set_connection_key (k : string) (x : variant) (s : settingsDict) : settingsDict :=
  <[settingConnection := <[k := x]> (section s settingConnection)]> s.

Definition SetAutoconnect (v : view) (profileUUID : string) (on : bool) : M (option error) :=
  let op := "set autoconnect=" +:+ fmt_bool on +:+ " on " +:+ profileUUID in
  match connByUUID v profileUUID with
  | None => ret (Some (notVisible op))
  | Some conn => editSettings bus op conn (fun s => Some (Ok (set_connection_key "autoconnect" (VBool on) s)))
  end.

Definition UpdateIPConfig (v : view) (profileUUID : string) (ipv4 ipv6 : option IPConfig) : M (option error) :=
  let op := "update ip config of " +:+ profileUUID in
  match ipv4, ipv6 with
  | None, None => ret None
  | _, _ =>
      match connByUUID v profileUUID with
      | None => ret (Some (notVisible op))
      | Some conn => editSettings bus op conn (fun s => Some (update_ip_edit Quote netip_error op ipv4 ipv6 s))
      end
  end.

Definition own_permission : string := "user:" +:+ username +:+ ":".

Definition SetProfilePermissions (v : view) (profileUUID : string) (userOnly : bool) : M (option error) :=
  let op := "set permissions userOnly=" +:+ fmt_bool userOnly +:+ " on " +:+ profileUUID in
  match connByUUID v profileUUID with
  | None => ret (Some (notVisible op))
  | Some conn =>
      if userOnly && (username =?s "") then ret (Some (newErr op None "cannot determine the current user name"))
      else editSettings bus op conn
             (fun s => Some (Ok (set_connection_key "permissions" (VStrings (if userOnly then [own_permission] else [])) s)))
  end.

(** ** New profiles *)

Definition AddWireGuard (rand : result error (list Z)) (spec : WireGuardSpec) : M (result error string) :=
  let op := "add wireguard " +:+ wg_Name spec in
  match newUUID rand with
  | Err e => ret (Err (EWrap ("nm: " +:+ op +:+ ": " +:+ ErrorString e) [e]))
  | Ok uuid =>
      match wireguardSettings Quote netip_error spec uuid username with
      | Err e => ret (Err e)
      | Ok settings =>
          r2 <-! call (b_AddConnection2 bus settings) (ENew2 settings) ;;
          r <-! (if isUnknownMethod (match r2 with Err e => Some e | Ok _ => None end)
                then call (b_AddConnection bus settings) (ENew settings) else ret r2) ;;
          ret (match r with
               | Ok _ => Ok uuid
               | Err e => match wrapDBus op (Some e) with Some e' => Err e' | None => Ok uuid end
               end)
      end
  end.

(** How [nmcli connection import] ended: its output, or the trimmed standard
    error or the error of starting it. *)
Definition import_error (op serviceKind msg : string) : error :=
  if Contains msg "not authorized" || Contains msg "Insufficient privileges"
  then newErr op (Some nm_ErrPermissionDenied) msg
  else if Contains msg "executable file not found"
  then newErr op (Some nm_ErrUnsupported) ("nmcli is not installed: " +:+ msg)
  else if Contains msg "plugin" || Contains msg "Unknown VPN type"
  then newErr op (Some nm_ErrUnsupported)
         ("the NetworkManager " +:+ serviceKind +:+ " plugin is not installed: " +:+ msg)
  else newErr op None msg.

(** The profile that appeared: in the first of the polled views that shows one
    not known before. *)
Definition appeared (before : list string) (v : view) : option string :=
  List.find (fun u => negb (u =?s "") && negb (existsb (String.eqb u) before))
    (map (fun ps => vStr (section ps.2 settingConnection) "uuid") (v_settings v)).

(** The outside of an import: what nmcli answers, the views polled until the
    deadline with the context's error if it ends the polling, and the view
    before the edit. *)
Record import_env := mkImportEnv {
  ie_nmcli : result string string;
  ie_polls : list view;
  ie_ctx : option string;
  ie_after : view
}.

(** The UUID is returned even when the new profile could not be restricted to
    its user. *)
Definition ImportVPN (v : view) (env : import_env) (serviceKind path : string) : M (string * option error) :=
  let op := "import " +:+ serviceKind +:+ " " +:+ path in
  if negb (reKind serviceKind) then ret ("", Some (newErr op (Some nm_ErrUnsupported) "bad VPN kind"))
  else if negb (serviceKind =?s "openvpn")
  then ret ("", Some (newErr op (Some nm_ErrUnsupported) "only openvpn imports are supported in v1"))
  else
    let before := map (fun ps => vStr (section ps.2 settingConnection) "uuid") (v_settings v) in
    match ie_nmcli env with
    | Err msg => ret ("", Some (import_error op serviceKind msg))
    | Ok stdout =>
        let found :=
          match find_uuid stdout with
          | Some u => Ok (ToLower u)
          | None =>
              match head (omap (appeared before) (ie_polls env)) with
              | Some u => Ok u
              | None =>
                  match ie_ctx env with
                  | Some e => Err (newErr op None e)
                  | None => Err (newErr op None ("nmcli succeeded but no new profile UUID could be determined: " +:+
                                                 TrimSpace stdout))
                  end
              end
          end in
        match found with
        | Err e => ret ("", Some e)
        | Ok uuid =>
            err <-! SetProfilePermissions (ie_after env) uuid true ;;
            ret (uuid, err)
        end
    end.
End Ops.

(** * Editing a profile: what a write may touch, and when somebody else's change
    of the same profile is lost. *)

(** A settings dictionary was sent to be stored. *)
Definition writes (tr : list entry) (p : string) (s : settingsDict) : Prop :=
  (exists vid r, EUpdate2 p s vid r ∈ tr) \/ (exists r, EUpdate p s r ∈ tr).

(** What an edit starts from: the current settings, cleaned for an update. *)
Definition edit_base (raw : settingsDict) : settingsDict :=
  let s := sanitizeForUpdate raw in
  match s !! settingConnection with Some _ => s | None => <[settingConnection := ∅]> s end.

Lemma edit_base_section raw name : section (edit_base raw) name = section (sanitizeForUpdate raw) name.
Proof.
  unfold edit_base. cbv zeta. destruct (sanitizeForUpdate raw !! settingConnection) as [m|] eqn:E; [done|].
  unfold section. destruct (decide (settingConnection = name)) as [<-|Hne].
  - by rewrite lookup_insert_eq, E. - by rewrite lookup_insert_ne.
Qed.

(** ** What an edit may touch *)

Inductive edit_op :=
| OpAutoconnect (on : bool)
| OpPermissions (userOnly : bool)
| OpIPConfig (ipv4 ipv6 : option IPConfig).

Lemma set_connection_key_spec k x s sec k' :
  section (set_connection_key k x s) settingConnection !! k = Some x /\
  (~ (sec = settingConnection /\ k' = k) -> section (set_connection_key k x s) sec !! k' = section s sec !! k').
Proof.
  unfold set_connection_key, section at 1. split.
  - rewrite lookup_insert_eq. cbn. by rewrite lookup_insert_eq.
  - intros Hne. unfold section at 1. destruct (decide (sec = settingConnection)) as [->|Hsec].
    + rewrite lookup_insert_eq. cbn. by rewrite lookup_insert_ne by naive_solver.
    + by rewrite lookup_insert_ne by done.
Qed.

Section Facts.
Context {W : Type} (bus : Bus (W := W)) (Quote : string -> string) (netip_error : string -> string).
Context (username : string).

Definition run_edit (o : edit_op) (v : view) (uuid : string) : M (W := W) (option error) :=
  match o with
  | OpAutoconnect on => SetAutoconnect bus v uuid on
  | OpPermissions b => SetProfilePermissions bus username v uuid b
  | OpIPConfig ipv4 ipv6 => UpdateIPConfig bus Quote netip_error v uuid ipv4 ipv6
  end.

Definition may_touch (o : edit_op) (sec k : string) : Prop :=
  match o with
  | OpAutoconnect _ => sec = settingConnection /\ k = "autoconnect"
  | OpPermissions _ => sec = settingConnection /\ k = "permissions"
  | OpIPConfig ipv4 ipv6 => (sec = settingIPv4 /\ is_Some ipv4) \/ (sec = settingIPv6 /\ is_Some ipv6)
  end.

Definition takes_effect (o : edit_op) (base s : settingsDict) : Prop :=
  match o with
  | OpAutoconnect on => section s settingConnection !! "autoconnect" = Some (VBool on)
  | OpPermissions b =>
      section s settingConnection !! "permissions" = Some (VStrings (if b then [own_permission username] else [])) /\
      (b = true -> username <> "")
  | OpIPConfig ipv4 ipv6 =>
      (forall c, ipv4 = Some c ->
        encodeIPConfig Quote netip_error (section base settingIPv4) c 4 = Ok (section s settingIPv4)) /\
      (forall c, ipv6 = Some c ->
        encodeIPConfig Quote netip_error (section base settingIPv6) c 6 = Ok (section s settingIPv6))
  end.

Lemma editSettings_writes op conn edit w r tr w' :
  editSettings bus op conn edit w = (r, tr, w') ->
  forall p s, writes tr p s -> p = conn /\ exists raw, EGetSettings conn (Ok raw) ∈ tr /\ edit (edit_base raw) = Some (Ok s).
Proof.
  unfold editSettings. intros H p s Hw.
  apply bind_call_inv in H as (raw & w1 & tr1 & _ & H & ->). destruct raw as [raw|e].
  2: { apply ret_inv in H as (-> & -> & _). destruct Hw as [(? & ? & H)|(? & H)]; set_solver. }
  cbv zeta in H. fold (edit_base raw) in H. destruct (edit (edit_base raw)) as [[s'|e]|] eqn:He.
  3: { injection H as <- <- <-. destruct Hw as [(? & ? & H)|(? & H)]; set_solver. }
  2: { apply ret_inv in H as (-> & -> & _). destruct Hw as [(? & ? & H)|(? & H)]; set_solver. }
  apply bind_call_inv in H as (vid & w2 & tr2 & _ & H & ->).
  apply bind_call_inv in H as (err & w3 & tr3 & _ & H & ->).
  assert (p = conn /\ s = s') as [-> ->].
  { destruct (isUnknownMethod err); [apply bind_call_inv in H as (err2 & w4 & tr4 & _ & H & ->)|];
      apply ret_inv in H as (-> & -> & _); destruct Hw as [(? & ? & Hw)|(? & Hw)]; set_solver. }
  split; [done|]. exists raw. split; [set_solver|done].
Qed.

Lemma update_ip_edit_spec op ipv4 ipv6 base s :
  update_ip_edit Quote netip_error op ipv4 ipv6 base = Ok s ->
  takes_effect (OpIPConfig ipv4 ipv6) base s /\
  forall sec, ~ (sec = settingIPv4 /\ is_Some ipv4) -> ~ (sec = settingIPv6 /\ is_Some ipv6) ->
    section s sec = section base sec.
Proof.
  unfold update_ip_edit. cbv zeta.
  assert (forall name fam cfg (t t' : settingsDict),
    match cfg with
    | None => Ok t
    | Some c => match encodeIPConfig Quote netip_error (section t name) c fam with
                | Ok d => Ok (<[name := d]> t) | Err e => Err (newErr op None (ErrorString e)) end
    end = Ok t' ->
    (forall c, cfg = Some c -> encodeIPConfig Quote netip_error (section t name) c fam = Ok (section t' name)) /\
    (forall sec, ~ (sec = name /\ is_Some cfg) -> section t' sec = section t sec)) as Hput.
  { intros name fam cfg t t'. destruct cfg as [c|]; [|intros [= <-]; by split].
    destruct (encodeIPConfig _ _ _ _ _) as [d|e] eqn:He; [|done]. intros [= <-]. split.
    - intros c' [= <-]. rewrite He. unfold section. by rewrite lookup_insert_eq.
    - intros sec Hne. unfold section. rewrite lookup_insert_ne; [done|]. intros ->. apply Hne. split; [done|eauto]. }
  set (r1 := match ipv4 with None => _ | Some _ => _ end). destruct r1 as [t|e] eqn:E1; [|done]. cbn [result_bind].
  intros E2. apply Hput in E1 as [A1 A2]. apply Hput in E2 as [B1 B2]. split.
  - split.
    + intros c Hc. rewrite (B2 settingIPv4) by (by intros [? _]). by apply A1.
    + intros c Hc. rewrite <- (A2 settingIPv6) by (by intros [? _]). by apply B1.
  - intros sec H4 H6. rewrite B2 by done. by apply A2.
Qed.

Lemma run_edit_inv o v uuid w r tr w' :
  run_edit o v uuid w = (r, tr, w') -> tr <> [] ->
  exists op conn edit,
    connByUUID v uuid = Some conn /\ editSettings bus op conn edit w = (r, tr, w') /\
    forall base s, edit base = Some (Ok s) ->
      takes_effect o base s /\ forall sec k, ~ may_touch o sec k -> section s sec !! k = section base sec !! k.
Proof.
  intros H Htr. destruct o as [on|b|ipv4 ipv6]; cbn [run_edit] in H.
  - unfold SetAutoconnect in H. destruct (connByUUID v uuid) as [conn|]; [|by injection H as <- <- <-].
    eexists _, conn, _. split_and!; [done|exact H|]. intros base s [= <-].
    split; [by apply set_connection_key_spec|]. intros sec k Hk. by apply set_connection_key_spec.
  - unfold SetProfilePermissions in H. destruct (connByUUID v uuid) as [conn|]; [|by injection H as <- <- <-].
    destruct (b && (username =?s "")) eqn:Hu; [by injection H as <- <- <-|].
    eexists _, conn, _. split_and!; [done|exact H|]. intros base s [= <-].
    split; [split; [by apply set_connection_key_spec|]|intros sec k Hk; by apply set_connection_key_spec].
    intros ->. by apply String.eqb_neq.
  - unfold UpdateIPConfig in H.
    assert (forall (x : M (W := W) (option error)), (ipv4 = None /\ ipv6 = None) \/
      (match ipv4, ipv6 with None, None => ret None | _, _ => x end) = x) as Hcase
      by (intros x; destruct ipv4, ipv6; auto).
    destruct (Hcase (match connByUUID v uuid with
                     | None => ret (Some (notVisible ("update ip config of " +:+ uuid)))
                     | Some conn => editSettings bus ("update ip config of " +:+ uuid) conn
                         (fun s => Some (update_ip_edit Quote netip_error ("update ip config of " +:+ uuid) ipv4 ipv6 s))
                     end)) as [[-> ->]|E]; [by injection H as <- <- <-|]. cbv zeta in H. rewrite E in H. clear E Hcase.
    destruct (connByUUID v uuid) as [conn|]; [|by injection H as <- <- <-].
    eexists _, conn, _. split_and!; [done|exact H|]. intros base s [= Hs]. apply update_ip_edit_spec in Hs as [H1 H2].
    split; [exact H1|]. intros sec k Hk. rewrite H2; [done|..]; intros Hx; apply Hk; cbn; auto.
Qed.

(** Editing a profile touches only what it is asked to.  Whatever
    NetworkManager answers, every settings dictionary that SetAutoconnect,
    SetProfilePermissions or UpdateIPConfig sends to be stored goes to the
    profile with the UUID given and is the dictionary just read from it, less
    the deprecated arrays, with only the requested change: the autoconnect
    flag, the permissions of the current user or of everybody, or the ipv4
    and ipv6 sections given.  Nothing else in it differs. *)
Theorem edits_touch_only o v uuid w r tr w' :
  run_edit o v uuid w = (r, tr, w') ->
  forall p s, writes tr p s ->
    connByUUID v uuid = Some p /\
    exists raw, EGetSettings p (Ok raw) ∈ tr /\ takes_effect o (sanitizeForUpdate raw) s /\
      forall sec k, ~ may_touch o sec k -> section s sec !! k = section (sanitizeForUpdate raw) sec !! k.
Proof.
  intros H p s Hw.
  assert (tr <> []) as Htr by (intros ->; destruct Hw as [(? & ? & Hw)|(? & Hw)]; by apply elem_of_nil in Hw).
  destruct (run_edit_inv _ _ _ _ _ _ _ H Htr) as (op & conn & edit & Hc & He & Hedit).
  destruct (editSettings_writes _ _ _ _ _ _ _ He p s Hw) as (-> & raw & Hraw & Hs).
  split; [done|]. exists raw. split; [done|]. apply Hedit in Hs as [H1 H2]. split.
  - destruct o; cbn [takes_effect] in *; rewrite <- ?(edit_base_section raw); done.
  - intros sec k Hk. rewrite H2 by done. by rewrite edit_base_section.
Qed.
End Facts.

(** ** Somebody else edits the same profile *)

(** One profile as NetworkManager keeps it: its settings, the version that
    grows with every change, and the changes others make just before each of
    the next calls. *)
Record profile_world := mkProfileWorld {
  pw_settings : settingsDict; pw_version : Z; pw_others : list (option settingsDict)
}.

Definition others_step (w : profile_world) : profile_world :=
  match pw_others w with
  | Some s :: l => mkProfileWorld s (pw_version w + 1) l
  | None :: l => mkProfileWorld (pw_settings w) (pw_version w) l
  | [] => w
  end.

Definition mismatch : call_error :=
  CDBus "org.freedesktop.NetworkManager.Settings.Connection.VersionIdMismatch" None.

(** NetworkManager's documented contract: GetSettings and VersionId read,
    Update2 stores unless the version it is given is no longer the current. *)
Definition profile_bus (rest : Bus (W := profile_world)) : Bus (W := profile_world) :=
  mkBus
    (fun _ w => let w := others_step w in (Ok (pw_settings w), w))
    (fun _ w => let w := others_step w in (Some (pw_version w), w))
    (fun _ s vid w =>
       let w := others_step w in
       match vid with
       | Some v => if v =? pw_version w then (None, mkProfileWorld s (pw_version w + 1) (pw_others w)) else (Some mismatch, w)
       | None => (None, mkProfileWorld s (pw_version w + 1) (pw_others w))
       end)
    (b_Update rest) (b_Activate rest) (b_AddAndActivate2 rest) (b_AddAndActivate rest) (b_Delete rest) (b_Wait rest)
    (b_Deactivate rest) (b_Disconnect rest) (b_SetWireless rest) (b_AddConnection2 rest) (b_AddConnection rest)
    (b_RequestScan rest).

(** A profile edit against concurrent changes.  The version check stops a
    change made after the version was read: the edit fails and the other
    change stands.  A change before the settings were read is built upon.  But
    the version is read after the settings, so a change between the two
    passes the check and is silently overwritten with an edit of older
    settings. *)
Theorem edit_window rest op conn edit s0 v0 o0 o1 o2 s' :
  let read := default s0 o0 in
  edit (edit_base read) = Some (Ok s') ->
  let '(r, _, w') := editSettings (profile_bus rest) op conn edit (mkProfileWorld s0 v0 [o0; o1; o2]) in
  match o2 with
  | Some s2 => (exists e, r = Some (Some e)) /\ pw_settings w' = s2
  | None => r = Some None /\ pw_settings w' = s'
  end.
Proof.
  intros read He. unfold editSettings, bind, call, profile_bus. cbn [b_GetSettings b_VersionId b_Update2].
  assert (others_step (mkProfileWorld s0 v0 [o0; o1; o2]) =
          mkProfileWorld read (v0 + match o0 with Some _ => 1 | None => 0 end) [o1; o2]) as ->
    by (subst read; destruct o0; cbn; [done|by rewrite Z.add_0_r]).
  cbn [pw_settings]. fold (edit_base read). rewrite He.
  set (v1 := v0 + _). clearbody v1.
  destruct o1 as [s1|], o2 as [s2|]; cbn [others_step pw_others pw_settings pw_version];
    rewrite ?Z.eqb_refl; try (by split).
  all: match goal with |- context [?a =? ?a + 1] => rewrite (proj2 (Z.eqb_neq a (a + 1))) by lia end.
  all: split; [eexists; reflexivity|reflexivity].
Qed.

(** Two users at once: the second's change of the address is lost. *)
Definition idle_bus {W} : Bus (W := W) :=
  mkBus (fun _ w => (Err (CClosed "closed"), w)) (fun _ w => (None, w)) (fun _ _ _ w => (None, w))
    (fun _ _ w => (None, w)) (fun _ _ _ w => (Err (CClosed "closed"), w))
    (fun _ _ _ w => (Err (CClosed "closed"), w)) (fun _ _ _ w => (Err (CClosed "closed"), w))
    (fun _ w => (None, w)) (fun _ w => (mkWaitEnv None [] (mkView [] []) ∅, w))
    (fun _ w => (None, w)) (fun _ w => (None, w)) (fun _ w => (None, w))
    (fun _ w => (Err (CClosed "closed"), w)) (fun _ w => (Err (CClosed "closed"), w)) (fun _ w => (None, w)).

Lemma edit_window_witness :
  let theirs : settingsDict := {[ settingIPv4 := {[ "method" := VString "manual" ]} ]} in
  let '(r, _, w') := editSettings (profile_bus idle_bus) "op" "/S/1"
                       (fun s => Some (Ok (set_connection_key "autoconnect" (VBool false) s)))
                       (mkProfileWorld ∅ 7 [None; Some theirs; None]) in
  r = Some None /\ section (pw_settings w') settingIPv4 !! "method" = None.
Proof.
  intros theirs.
  pose proof (edit_window idle_bus "op" "/S/1" (fun s => Some (Ok (set_connection_key "autoconnect" (VBool false) s)))
    ∅ 7 None (Some theirs) None _ eq_refl) as H.
  destruct (editSettings _ _ _ _ _) as [[r tr] w']. destruct H as [H1 H2]. split; [exact H1|].
  rewrite H2. rewrite (proj2 (set_connection_key_spec _ _ _ settingIPv4 "method")) by (by intros [? _]).
  vm_compute. reflexivity.
Defined.

(** Turning autoconnect off on a saved profile. *)
Definition home_view : view := mkView [] [("/S/1", {[ settingConnection := {[ "uuid" := VString "u1" ]} ]})].

Definition home_off : settingsDict := set_connection_key "autoconnect" (VBool false) (edit_base ∅).

Lemma edits_touch_only_witness :
  let run := SetAutoconnect (profile_bus idle_bus) home_view "u1" false (mkProfileWorld ∅ 7 []) in
  exists p s, writes run.1.2 p s /\ connByUUID home_view "u1" = Some p /\
    section s settingConnection !! "autoconnect" = Some (VBool false).
Proof.
  intros run. exists "/S/1", home_off.
  assert (run.1.2 = [EGetSettings "/S/1" (Ok ∅); EVersionId "/S/1" (Some 7); EUpdate2 "/S/1" home_off (Some 7) None])
    as Htr by reflexivity.
  assert (writes run.1.2 "/S/1" home_off) as Hw.
  { left. exists (Some 7), None. rewrite Htr. do 2 apply list_elem_of_further. apply list_elem_of_here. }
  split; [exact Hw|].
  destruct (edits_touch_only (profile_bus idle_bus) id id "" (OpAutoconnect false) home_view "u1" (mkProfileWorld ∅ 7 [])
    run.1.1 run.1.2 run.2 eq_refl "/S/1" _ Hw) as (Hc & raw & _ & Heff & _).
  split; [exact Hc|exact Heff].
Defined.
