(* ===== verification/GoDuration.v ===== *)
(** [time.Duration.String] and [time.ParseDuration], byte by byte. *)

From S2P Require Import Prelude GoTime GoStrings GoStringsFacts.
From Stdlib Require Import SpecFloat.
From Stdlib Require Import SpecFloat Ascii.

Abbreviation ascii := Ascii.ascii (only parsing).

(** ** String *)

(** [fmtFrac]: the last [prec] digits of [v], trailing zeros and then the
    point left out; [out] is what is already in the buffer. *)
Fixpoint frac_loop (prec : nat) (v : Z) (printed : bool) (out : string) : string * Z * bool :=
  match prec with
  | O => (out, v, printed)
  | S prec' =>
      let digit := v mod 10 in
      let printed := printed || negb (digit =? 0) in
      frac_loop prec' (v / 10) printed (if printed then digit_str digit +:+ out else out)
  end.

Definition fmtFrac (prec : nat) (v : Z) (out : string) : string * Z :=
  let '(out, v, printed) := frac_loop prec v false out in
  (if printed then "." +:+ out else out, v).

(** [fmtInt] *)
Definition fmtInt (v : Z) (out : string) : string := Itoa v +:+ out.

Definition micro : string := byte_str [194; 181]%nat.

(** The text of [u] nanoseconds, [0 < u]. *)
Definition magnitude (u : Z) : string :=
  if u <? second then
    let '(prec, unit) :=
      if u <? microsecond then (0%nat, "ns") else if u <? millisecond then (3%nat, micro +:+ "s") else (6%nat, "ms") in
    let '(out, u) := fmtFrac prec u unit in fmtInt u out
  else
    let '(out, u) := fmtFrac 9 u "s" in
    let out := fmtInt (u mod 60) out in
    let u := u / 60 in
    if 0 <? u then
      let out := fmtInt (u mod 60) ("m" +:+ out) in
      let u := u / 60 in
      if 0 <? u then fmtInt u ("h" +:+ out) else out
    else out.

Definition Duration_String (d : Duration) : string :=
  let u := Z.abs d in
  let s := if u =? 0 then "0s" else magnitude u in
  if d <? 0 then "-" +:+ s else s.

Example duration_strings :
  map Duration_String [30 * second; 90 * minute; 1500 * millisecond; 0; - 42 * microsecond; min_int64; 10] =
  ["30s"; "1h30m0s"; "1.5s"; "0s"; "-42" +:+ micro +:+ "s"; "-2562047h47m16.854775808s"; "10ns"].
Proof. vm_compute. reflexivity. Qed.

(** ** ParseDuration *)

(** [leadingInt]: the digits at the start, refused above [2^63]. *)
Fixpoint leadingInt (x : Z) (s : string) : option (Z * string) :=
  match s with
  | "" => Some (x, "")
  | String c s' =>
      if is_digit c then
        if 2 ^ 63 / 10 <? x then None
        else
          let x := x * 10 + digit_val c in
          if 2 ^ 63 <? x then None else leadingInt x s'
      else Some (x, s)
  end.

(** [leadingFraction]: digits past the precision are read and ignored.
    [scale] stays a power of ten. *)
Fixpoint leadingFraction (x : Z) (scale : float64) (overflow : bool) (s : string) : Z * float64 * string :=
  match s with
  | "" => (x, scale, "")
  | String c s' =>
      if is_digit c then
        if overflow then leadingFraction x scale true s'
        else if (2 ^ 63 - 1) / 10 <? x then leadingFraction x scale true s'
        else
          let y := x * 10 + digit_val c in
          if 2 ^ 63 <? y then leadingFraction x scale true s'
          else leadingFraction y (f_mul scale (f_of_Z 10)) false s'
      else (x, scale, s)
  end.

Definition is_dot (c : ascii) : bool := Nat.eqb (Ascii.nat_of_ascii c) 46.

(** The bytes up to the next digit or point, and the rest. *)
Fixpoint unit_part (s : string) : string * string :=
  match s with
  | "" => ("", "")
  | String c s' => if is_dot c || is_digit c then ("", s) else let '(u, r) := unit_part s' in (String c u, r)
  end.

(** [unitMap]: both spellings of the micro sign are known. *)
Definition unitMap (u : string) : option Z :=
  if u =?s "ns" then Some nanosecond
  else if (u =?s "us") || (u =?s micro +:+ "s") || (u =?s byte_str [206; 188]%nat +:+ "s") then Some microsecond
  else if u =?s "ms" then Some millisecond
  else if u =?s "s" then Some second
  else if u =?s "m" then Some minute
  else if u =?s "h" then Some hour
  else None.

(** [uint64(f)] for a float that is not negative and below [2^64]: towards zero. *)
Definition f_trunc (f : float64) : Z :=
  match f with
  | S754_finite _ m e => if 0 <=? e then Z.pos m * 2 ^ e else Z.pos m / 2 ^ (- e)
  | _ => 0
  end.

(** One round of the loop: a number with its unit. *)
Definition duration_part (s : string) : option (Z * string) :=
  match s with
  | "" => None
  | String c0 _ =>
      if negb (is_dot c0 || is_digit c0) then None
      else
        match leadingInt 0 s with
        | None => None
        | Some (v, s1) =>
            let pre := negb (Nat.eqb (String.length s) (String.length s1)) in
            let '(f, scale, s2, post) :=
              match s1 with
              | String c s1' =>
                  if is_dot c then
                    let '(f, scale, s2) := leadingFraction 0 f_one false s1' in
                    (f, scale, s2, negb (Nat.eqb (String.length s1') (String.length s2)))
                  else (0, f_one, s1, false)
              | "" => (0, f_one, s1, false)
              end in
            if negb pre && negb post then None
            else
              let '(u, rest) := unit_part s2 in
              if u =?s "" then None
              else
                match unitMap u with
                | None => None
                | Some unit =>
                    if 2 ^ 63 / unit <? v then None
                    else
                      let v := v * unit in
                      let w := if 0 <? f then v + f_trunc (f_mul (f_of_Z f) (f_div (f_of_Z unit) scale)) else v in
                      if (0 <? f) && (2 ^ 63 <? w) then None else Some (w, rest)
                end
        end
  end.

(** The loop; every round consumes, so the length is fuel enough. *)
Fixpoint duration_loop (fuel : nat) (d : Z) (s : string) : option Z :=
  match s with
  | "" => Some d
  | _ =>
      match fuel with
      | O => None
      | S fuel' =>
          match duration_part s with
          | None => None
          | Some (v, rest) => if 2 ^ 63 <? d + v then None else duration_loop fuel' (d + v) rest
          end
      end
  end.

(** [None] stands for an error; its text quotes the input. *)
Definition ParseDuration (s : string) : option Duration :=
  let '(neg, s) :=
    match s with
    | String c s' =>
        if Nat.eqb (Ascii.nat_of_ascii c) 45 then (true, s')
        else if Nat.eqb (Ascii.nat_of_ascii c) 43 then (false, s') else (false, s)
    | "" => (false, s)
    end in
  if s =?s "0" then Some 0
  else if s =?s "" then None
  else
    match duration_loop (String.length s) 0 s with
    | None => None
    | Some d => if neg then Some (- d) else if 2 ^ 63 - 1 <? d then None else Some d
    end.

Example durations :
  map ParseDuration ["30s"; "1h30m"; "1.5h"; ".5m"; "-42us"; "1s1"; "s"; "0"; "9223372036854775808ns"; "-9223372036854775808ns";
                     "0.1" ; ""; "1.00000000000000000000000000001s"] =
  [Some (30 * second); Some (90 * minute); Some (90 * minute); Some (30 * second); Some (- 42 * microsecond); None; None; Some 0;
   None; Some (- 2 ^ 63); None; None; Some second].
Proof. vm_compute. reflexivity. Qed.

(** * What [Duration.String] prints, [ParseDuration] reads back, for every
    64-bit duration: the fraction goes through binary64 and comes out exact. *)

(** ** Integers below [2^53] in binary64 *)

(** [f] is the integer [n], its mantissa shifted left. *)
Definition is_int (f : float64) (n : Z) : Prop :=
  exists m e, f = S754_finite false m e /\ -52 <= e <= 0 /\ Z.pos m = n * 2 ^ (- e).

Lemma digits2_log2 p : Z.pos (digits2_pos p) = Z.log2 (Z.pos p) + 1.
Proof. induction p as [p IH|p IH|]; cbn [digits2_pos]; [| |done]; rewrite Pos2Z.inj_succ, IH; destruct p; cbn; lia. Qed.

Lemma shr_1_double q : shr_1 (Build_shr_record (2 * Z.pos q) false false) = Build_shr_record (Z.pos q) false false.
Proof. done. Qed.

Lemma iter_pos_shr p : forall q,
  iter_pos shr_1 p (Build_shr_record (Z.pos q * 2 ^ Z.pos p) false false) = Build_shr_record (Z.pos q) false false.
Proof.
  assert (forall q n, 0 <= n -> exists r, Z.pos q * 2 ^ n = Z.pos r) as Hr.
  { intros q n Hn. assert (0 < Z.pos q * 2 ^ n) by (apply Z.mul_pos_pos; [lia|by apply Z.pow_pos_nonneg]).
    exists (Z.to_pos (Z.pos q * 2 ^ n)). by rewrite Z2Pos.id. }
  induction p as [p IH|p IH|]; intros q; cbn [iter_pos].
  - destruct (Hr q (Z.pos p) ltac:(lia)) as [r Hq]. destruct (Hr r (Z.pos p) ltac:(lia)) as [t Ht].
    replace (Z.pos q * 2 ^ Z.pos p~1) with (2 * Z.pos t).
    2: { replace (Z.pos p~1) with (1 + Z.pos p + Z.pos p) by lia. rewrite !Z.pow_add_r, <- Ht, <- Hq by lia. lia. }
    rewrite shr_1_double, <- Ht, IH, <- Hq. apply IH.
  - destruct (Hr q (Z.pos p) ltac:(lia)) as [r Hq].
    replace (Z.pos p~0) with (Z.pos p + Z.pos p) by lia.
    rewrite Z.pow_add_r, Z.mul_assoc, Hq by lia. rewrite IH, <- Hq. apply IH.
  - by rewrite Z.mul_comm, shr_1_double.
Qed.

(** The second rounding step finds nothing to do. *)
Lemma shr_fexp_done m e k :
  fexp prec emax (Z.pos (digits2_pos m) + e) = k -> k <= e ->
  shr_fexp prec emax (Z.pos m) e loc_Exact = (Build_shr_record (Z.pos m) false false, e).
Proof. intros Hk Hle. unfold shr_fexp. cbn [Zdigits2]. rewrite Hk. cbn [shr_record_of_loc]. destruct (k - e) eqn:E; [done|lia|done]. Qed.

Lemma round_exact p e n :
  0 < n < 2 ^ 53 -> -1000 <= e <= 0 -> Z.pos p = n * 2 ^ (- e) -> is_int (binary_round_aux prec emax false (Z.pos p) e loc_Exact) n.
Proof.
  intros Hn He Hp.
  assert (0 <= Z.log2 n <= 52) as Hl.
  { split; [apply Z.log2_nonneg|]. assert (Z.log2 n < 53) by (apply Z.log2_lt_pow2; lia). lia. }
  assert (forall m f, -1000 <= f <= 0 -> Z.pos m = n * 2 ^ (- f) ->
          fexp prec emax (Z.pos (digits2_pos m) + f) = Z.log2 n - 52) as Hf.
  { intros m f Hf Hm. rewrite digits2_log2, Hm, Z.log2_mul_pow2 by lia. unfold fexp, emin, prec, emax. lia. }
  assert (exists m f, shr_fexp prec emax (Z.pos p) e loc_Exact = (Build_shr_record (Z.pos m) false false, f) /\
            Z.log2 n - 52 <= f <= 0 /\ -1000 <= f /\ Z.pos m = n * 2 ^ (- f)) as (m & f & Hs & Hf1 & Hf2 & Hm).
  { destruct (Z.le_gt_cases (Z.log2 n - 52) e) as [Hle|Hgt].
    - exists p, e. split; [|lia]. by apply (shr_fexp_done p e (Z.log2 n - 52)); [apply Hf|].
    - unfold shr_fexp. cbn [Zdigits2]. rewrite (Hf p e He Hp).
      set (f := Z.log2 n - 52) in *. destruct (f - e) as [|s|s] eqn:Es; [lia| |lia].
      assert (0 < n * 2 ^ (- f)) as Hpos by (apply Z.mul_pos_pos; [lia|apply Z.pow_pos_nonneg; lia]).
      exists (Z.to_pos (n * 2 ^ (- f))), f. rewrite Z2Pos.id by done. split; [|lia].
      cbn [shr_record_of_loc shr]. f_equal; [|lia].
      rewrite Hp. replace (- e) with (- f + Z.pos s) by lia. rewrite Z.pow_add_r, Z.mul_assoc by lia.
      rewrite <- (Z2Pos.id (n * 2 ^ (- f))) by done. apply iter_pos_shr. }
  unfold binary_round_aux. rewrite Hs. cbn [shr_m loc_of_shr_record round_nearest_even].
  rewrite (shr_fexp_done m f (Z.log2 n - 52)); [|apply Hf; lia|lia]. cbn [shr_m].
  destruct (Z.leb_spec f (emax - prec)) as [_|Hbad]; [|unfold emax, prec in Hbad; lia].
  exists m, f. split; [done|]. split; [lia|done].
Qed.

Lemma f_of_Z_int n : 0 < n < 2 ^ 53 -> is_int (f_of_Z n) n.
Proof.
  intros Hn. destruct n as [|p|p]; try lia. unfold f_of_Z, binary_normalize, binary_round.
  assert (0 <= Z.log2 (Z.pos p) <= 52) as Hl.
  { split; [apply Z.log2_nonneg|]. assert (Z.log2 (Z.pos p) < 53) by (apply Z.log2_lt_pow2; lia). lia. }
  rewrite digits2_log2. unfold shl_align.
  assert (fexp prec emax (Z.log2 (Z.pos p) + 1 + 0) - 0 = Z.log2 (Z.pos p) - 52) as -> by (unfold fexp, emin, prec, emax; lia).
  destruct (Z.log2 (Z.pos p) - 52) as [|d|d] eqn:E; [| lia|].
  - apply round_exact; lia.
  - assert (fexp prec emax (Z.log2 (Z.pos p) + 1 + 0) = Z.neg d) as -> by (unfold fexp, emin, prec, emax; lia).
    apply round_exact; [done|lia|]. clear. cbn [Z.opp].
    assert (Pos.iter xO p d = p * 2 ^ d)%positive as ->.
    { induction d as [|d IH] using Pos.peano_ind; [by rewrite Pos.mul_comm|].
      rewrite Pos.iter_succ, IH, Pos.pow_succ_r. lia. }
    by rewrite Pos2Z.inj_mul, Pos2Z.inj_pow.
Qed.

Lemma f_mul_int f g a b : 0 < a -> 0 < b -> a * b < 2 ^ 53 -> is_int f a -> is_int g b -> is_int (f_mul f g) (a * b).
Proof.
  intros Ha Hb Hab (m & e & -> & He & Hm) (m' & e' & -> & He' & Hm'). apply round_exact; [|lia|].
  - split; [by apply Z.mul_pos_pos|done].
  - rewrite Pos2Z.inj_mul, Hm, Hm'. replace (- (e + e')) with (- e + - e') by lia. rewrite Z.pow_add_r by lia. lia.
Qed.

Lemma f_trunc_int f n : is_int f n -> f_trunc f = n.
Proof.
  intros (m & e & -> & He & Hm). cbn [f_trunc]. rewrite Hm. destruct (Z.leb_spec 0 e).
  - assert (e = 0) as -> by lia. cbn. lia.
  - apply Z.div_mul. apply Z.pow_nonzero; lia.
Qed.

(** ** Reading digits *)

(** What follows a number does not start with a digit. *)
Definition no_digit (s : string) : bool := match s with String c _ => negb (is_digit c) | "" => true end.

Lemma leadingInt_Itoa n s : 0 <= n <= 2 ^ 63 -> no_digit s = true -> leadingInt 0 (Itoa n +:+ s) = Some (n, s).
Proof.
  intros Hn Hs. rewrite (Itoa_reader leadingInt (2 ^ 63)); [| |done].
  - destruct s as [|c s]; [done|]. cbn in *. by apply negb_true_iff in Hs as ->.
  - intros acc c t Hacc Hc Hb. cbn [leadingInt]. rewrite Hc.
    assert (0 <= digit_val c) by (unfold digit_val; lia).
    rewrite (proj2 (Z.ltb_ge _ acc)) by (apply Z.div_le_lower_bound; lia).
    cbv zeta. by rewrite (proj2 (Z.ltb_ge _ (acc * 10 + digit_val c))) by lia.
Qed.

(** Exactly [k] digits. *)
Fixpoint fixed_digits (k : nat) (v : Z) : string :=
  match k with O => "" | S k' => fixed_digits k' (v / 10) +:+ digit_str (v mod 10) end.

Lemma digit_str_mod v : exists c, digit_str (v mod 10) = String c "" /\ is_digit c = true /\ digit_val c = v mod 10.
Proof. apply digit_str_char. apply Z.mod_pos_bound. lia. Qed.

Lemma fixed_digits_snoc k v out :
  fixed_digits (S k) v +:+ out = fixed_digits k (v / 10) +:+ (digit_str (v mod 10) +:+ out).
Proof. cbn [fixed_digits]. by rewrite app_string_assoc. Qed.

Lemma pow10_S k : 10 ^ Z.of_nat (S k) = 10 * 10 ^ Z.of_nat k.
Proof. rewrite Nat2Z.inj_succ, Z.pow_succ_r by lia. done. Qed.

Lemma pow10_pos k : 0 < 10 ^ Z.of_nat k.
Proof. apply Z.pow_pos_nonneg; lia. Qed.

Lemma frac_loop_printed k : forall v out, 0 <= v -> frac_loop k v true out = (fixed_digits k v +:+ out, v / 10 ^ Z.of_nat k, true).
Proof.
  induction k as [|k IH]; intros v out Hv; [cbn; by rewrite Z.div_1_r|].
  cbn [frac_loop orb]. rewrite IH by (apply Z.div_pos; lia). rewrite fixed_digits_snoc, Z.div_div, pow10_S by (pose proof (pow10_pos k); lia).
  done.
Qed.

Lemma mod10_split v p : 0 < p ->
  v mod (10 * p) = v mod 10 + 10 * ((v / 10) mod p) /\
  (v mod (10 * p)) / 10 = (v / 10) mod p /\ (v mod (10 * p)) mod 10 = v mod 10.
Proof.
  intros Hp. assert (v mod (10 * p) = v mod 10 + 10 * ((v / 10) mod p)) as E by (rewrite Z.rem_mul_r by lia; lia).
  pose proof (Z.mod_pos_bound v 10 ltac:(lia)). split; [done|]. rewrite E. split.
  - symmetry. apply (Z.div_unique _ _ _ (v mod 10)); lia.
  - symmetry. apply (Z.mod_unique _ _ ((v / 10) mod p)); lia.
Qed.

Lemma fixed_digits_mod k : forall v, fixed_digits k (v mod 10 ^ Z.of_nat k) = fixed_digits k v.
Proof.
  induction k as [|k IH]; intros v; [done|]. cbn [fixed_digits]. rewrite pow10_S.
  destruct (mod10_split v _ (pow10_pos k)) as (_ & -> & ->). by rewrite IH.
Qed.

(** Trailing zeros are dropped. *)
Lemma frac_loop_spec prec : forall v out, 0 <= v ->
  (v mod 10 ^ Z.of_nat prec = 0 /\ frac_loop prec v false out = (out, v / 10 ^ Z.of_nat prec, false)) \/
  exists k f, (0 < k <= prec)%nat /\ 0 < f < 10 ^ Z.of_nat k /\
    v mod 10 ^ Z.of_nat prec = f * 10 ^ Z.of_nat (prec - k) /\
    frac_loop prec v false out = (fixed_digits k f +:+ out, v / 10 ^ Z.of_nat prec, true).
Proof.
  induction prec as [|prec IH]; intros v out Hv; [left; cbn; by rewrite Z.mod_1_r, Z.div_1_r|].
  pose proof (pow10_pos prec) as Hp. cbn [frac_loop orb]. rewrite pow10_S.
  destruct (mod10_split v _ Hp) as (Hmod & _ & _).
  rewrite <- Z.div_div by lia. pose proof (Z.mod_pos_bound v 10 ltac:(lia)) as Hm10.
  destruct (Z.eqb_spec (v mod 10) 0) as [E|E]; cbn [negb].
  - destruct (IH (v / 10) out ltac:(apply Z.div_pos; lia)) as [[H1 H2]|(k & f & Hk & Hf & H1 & H2)].
    + left. rewrite Hmod, H1, H2. split; [lia|done].
    + right. exists k, f. rewrite Hmod, H1, H2. split; [lia|]. split; [done|]. split; [|done].
      replace (S prec - k)%nat with (S (prec - k)) by lia. rewrite pow10_S. lia.
  - right. rewrite frac_loop_printed by (apply Z.div_pos; lia).
    exists (S prec), (v mod (10 * 10 ^ Z.of_nat prec)).
    rewrite pow10_S, Nat.sub_diag. pose proof (Z.mod_pos_bound v (10 * 10 ^ Z.of_nat prec) ltac:(lia)).
    pose proof (Z.mod_pos_bound (v / 10) (10 ^ Z.of_nat prec) ltac:(lia)).
    split; [lia|]. split; [lia|]. split; [cbn; lia|].
    rewrite <- (fixed_digits_snoc prec), <- pow10_S. by rewrite fixed_digits_mod.
Qed.

Definition times10 (s : float64) : float64 := f_mul s (f_of_Z 10).

Lemma leadingFraction_fixed k : forall x scale f s,
  0 <= x -> 0 <= f < 10 ^ Z.of_nat k -> x * 10 ^ Z.of_nat k + f <= 10 ^ 17 ->
  leadingFraction x scale false (fixed_digits k f +:+ s) =
  leadingFraction (x * 10 ^ Z.of_nat k + f) (Nat.iter k times10 scale) false s.
Proof.
  induction k as [|k IH]; intros x scale f s Hx Hf Hb.
  - cbn in *. f_equal. lia.
  - rewrite pow10_S in *. pose proof (pow10_pos k). pose proof (Z.mod_pos_bound f 10 ltac:(lia)).
    pose proof (Z.div_mod f 10 ltac:(lia)).
    rewrite fixed_digits_snoc. assert (0 <= f / 10) by (apply Z.div_pos; lia).
    assert (f / 10 < 10 ^ Z.of_nat k) by (apply Z.div_lt_upper_bound; lia).
    assert (0 <= x * 10 ^ Z.of_nat k) by (apply Z.mul_nonneg_nonneg; lia).
    rewrite IH by lia. destruct (digit_str_mod f) as (c & -> & Hc & Hv).
    rewrite app_String. change ("" +:+ s) with s. cbn [leadingFraction]. rewrite Hc, Hv.
    set (y := x * 10 ^ Z.of_nat k) in *.
    rewrite (proj2 (Z.ltb_ge _ (y + f / 10))) by (change ((2 ^ 63 - 1) / 10) with 922337203685477580; lia). cbv zeta.
    rewrite (proj2 (Z.ltb_ge _ ((y + f / 10) * 10 + f mod 10))) by lia.
    f_equal. lia.
Qed.

Lemma leadingFraction_end x scale s : no_digit s = true -> leadingFraction x scale false s = (x, scale, s).
Proof. destruct s as [|c s]; [done|]. cbn. by intros ->%negb_true_iff. Qed.

(** A unit over the scale of a fraction is exact. *)
Lemma unit_scale k u : (0 < k <= u)%nat -> In u [3; 6; 9]%nat ->
  f_div (f_of_Z (10 ^ Z.of_nat u)) (Nat.iter k times10 f_one) = f_of_Z (10 ^ Z.of_nat (u - k)).
Proof.
  intros Hk Hu. cbn [In] in Hu.
  destruct Hu as [<-|[<-|[<-|[]]]]; do 10 (destruct k as [|k]; [first [lia|vm_compute; reflexivity]|]); lia.
Qed.

(** The whole fraction: [f / 10^k] of a unit of [10^u] nanoseconds. *)
Lemma fraction_exact k u f :
  (0 < k <= u)%nat -> In u [3; 6; 9]%nat -> 0 < f < 10 ^ Z.of_nat k ->
  f_trunc (f_mul (f_of_Z f) (f_div (f_of_Z (10 ^ Z.of_nat u)) (Nat.iter k times10 f_one))) = f * 10 ^ Z.of_nat (u - k).
Proof.
  intros Hk Hu Hf. rewrite unit_scale by done. apply f_trunc_int.
  assert (u <= 9)%nat by (cbn [In] in Hu; intuition lia).
  pose proof (pow10_pos (u - k)).
  assert (10 ^ Z.of_nat (u - k) <= 10 ^ 9) by (apply Z.pow_le_mono_r; lia).
  assert (f * 10 ^ Z.of_nat (u - k) < 10 ^ 9).
  { apply Z.lt_le_trans with (10 ^ Z.of_nat k * 10 ^ Z.of_nat (u - k)).
    - apply Z.mul_lt_mono_pos_r; lia.
    - rewrite <- Z.pow_add_r by lia. apply Z.pow_le_mono_r; lia. }
  assert (f < 10 ^ 9) by (apply Z.lt_le_trans with (10 ^ Z.of_nat k); [lia|apply Z.pow_le_mono_r; lia]).
  change (10 ^ 9) with 1000000000 in *.
  apply f_mul_int; try lia; apply f_of_Z_int; lia.
Qed.

(** ** Parts *)

(** A unit name, and what may follow it. *)
Definition unit_name (u : string) : Prop := u <> "" /\ all_chars (fun c => negb (is_dot c || is_digit c)) u = true.
Definition part_end (s : string) : bool := match s with String c _ => is_dot c || is_digit c | "" => true end.

Lemma unit_part_name u s : unit_name u -> part_end s = true -> unit_part (u +:+ s) = (u, s).
Proof.
  intros [_ Hu] Hs. induction u as [|c u IH].
  - destruct s as [|c s]; [done|]. change ("" +:+ String c s) with (String c s). cbn [unit_part part_end] in *. by rewrite Hs.
  - cbn in Hu. apply andb_true_iff in Hu as [Hc Hu]. rewrite app_String. cbn [unit_part].
    apply negb_true_iff in Hc as ->. by rewrite IH.
Qed.

Lemma unit_name_no_digit u s : unit_name u -> no_digit (u +:+ s) = true.
Proof.
  intros [Hne Hu]. destruct u as [|c u]; [done|]. rewrite app_String. cbn [all_chars no_digit] in *.
  apply andb_true_iff in Hu as [Hc _]. by apply negb_true_iff, orb_false_iff in Hc as [_ ->].
Qed.

Lemma append_longer a b : a <> "" -> Nat.eqb (String.length (a +:+ b)) (String.length b) = false.
Proof. intros Ha. apply Nat.eqb_neq. rewrite app_length_string. destruct a; [done|]. cbn. lia. Qed.

Lemma not_dot_unit u s : unit_name u -> match u +:+ s with String c _ => is_dot c = false | "" => True end.
Proof.
  intros [Hne Hu]. destruct u as [|c u]; [done|]. rewrite app_String. cbn [all_chars] in *.
  apply andb_true_iff in Hu as [Hc _]. by apply negb_true_iff, orb_false_iff in Hc as [-> _].
Qed.

(** A whole number of a unit. *)
Lemma part_whole n u unit s :
  0 <= n -> n * unit <= 2 ^ 63 -> 0 < unit -> unit_name u -> unitMap u = Some unit -> part_end s = true ->
  duration_part (Itoa n +:+ (u +:+ s)) = Some (n * unit, s).
Proof.
  intros Hn Hb Hunit Hu Hmap Hs. unfold duration_part.
  assert (n <= 2 ^ 63) by nia.
  destruct (Itoa_head n Hn) as (c & t & He & Hc).
  rewrite He at 1. rewrite app_String. rewrite Hc, orb_true_r. cbn [negb].
  rewrite leadingInt_Itoa by (try done; by apply unit_name_no_digit).
  rewrite append_longer by (by apply Itoa_nonempty). cbn [negb].
  pose proof (not_dot_unit u s Hu) as Hd. pose proof (unit_part_name u s Hu Hs) as Hp.
  destruct Hu as [Hne _]. 
  destruct (u +:+ s) as [|c' t'] eqn:Eus; [destruct u; done|]. rewrite Hd. cbn [negb andb]. rewrite Hp.
  rewrite seqb_ne by done. rewrite Hmap.
  rewrite (proj2 (Z.ltb_ge _ n)) by (apply Z.div_le_lower_bound; lia). reflexivity.
Qed.

(** A number with a fraction of a unit of [10^u] nanoseconds. *)
Lemma part_fraction n k f u name :
  0 <= n -> (0 < k <= u)%nat -> In u [3; 6; 9]%nat -> 0 < f < 10 ^ Z.of_nat k ->
  n * 10 ^ Z.of_nat u + f * 10 ^ Z.of_nat (u - k) <= 2 ^ 63 ->
  unit_name name -> unitMap name = Some (10 ^ Z.of_nat u) ->
  duration_part (Itoa n +:+ ("." +:+ (fixed_digits k f +:+ name))) =
  Some (n * 10 ^ Z.of_nat u + f * 10 ^ Z.of_nat (u - k), "").
Proof.
  intros Hn Hk Hu Hf Hb Hname Hmap. unfold duration_part.
  pose proof (pow10_pos u). pose proof (pow10_pos (u - k)).
  assert (0 < f * 10 ^ Z.of_nat (u - k)) by (apply Z.mul_pos_pos; lia).
  assert (n <= 2 ^ 63) by nia.
  assert (f <= 10 ^ 17).
  { assert (u <= 9)%nat by (cbn [In] in Hu; intuition lia).
    assert (10 ^ Z.of_nat k <= 10 ^ 17) by (apply Z.pow_le_mono_r; lia). lia. }
  destruct (Itoa_head n Hn) as (c & t & He & Hc).
  rewrite He at 1. rewrite app_String. rewrite Hc, orb_true_r. cbn [negb].
  change ("." +:+ (fixed_digits k f +:+ name)) with (String "."%char (fixed_digits k f +:+ name)).
  rewrite leadingInt_Itoa by (try done; lia).
  rewrite append_longer by (by apply Itoa_nonempty). cbn [negb].
  change (is_dot "."%char) with true. cbv iota.
  rewrite leadingFraction_fixed by lia. rewrite Z.mul_0_l, Z.add_0_l.
  rewrite leadingFraction_end by (rewrite <- (string_app_nil name); by apply unit_name_no_digit). cbn [andb].
  pose proof (unit_part_name name "" Hname eq_refl) as Hup. rewrite string_app_nil in Hup. rewrite Hup.
  destruct Hname as [Hne _]. rewrite seqb_ne by done. rewrite Hmap.
  rewrite (proj2 (Z.ltb_ge _ n)) by (apply Z.div_le_lower_bound; lia).
  rewrite (proj2 (Z.ltb_lt 0 f)) by lia. rewrite fraction_exact by done.
  by rewrite (proj2 (Z.ltb_ge _ _)) by lia.
Qed.

(** What [fmtFrac] and [fmtInt] print, for [m] in front of the fraction of [v]. *)
Lemma part_fmtFrac u v name :
  In u [3; 6; 9]%nat -> 0 <= v -> unit_name name -> unitMap name = Some (10 ^ Z.of_nat u) ->
  (fmtFrac u v name).2 = v / 10 ^ Z.of_nat u /\
  forall m, 0 <= m -> m * 10 ^ Z.of_nat u + v mod 10 ^ Z.of_nat u <= 2 ^ 63 ->
    duration_part (fmtInt m (fmtFrac u v name).1) = Some (m * 10 ^ Z.of_nat u + v mod 10 ^ Z.of_nat u, "").
Proof.
  intros Hu Hv Hname Hmap. unfold fmtFrac, fmtInt. pose proof (pow10_pos u).
  destruct (frac_loop_spec u v name Hv) as [[Hz ->]|(k & f & Hk & Hf & Hz & ->)]; cbn [fst snd]; (split; [done|]); intros m Hm Hb.
  - rewrite Hz, Z.add_0_r in *. rewrite <- (string_app_nil name). by apply part_whole.
  - rewrite Hz in *. by apply part_fraction.
Qed.

(** ** The loop *)

Lemma loop_part fuel d s v rest :
  (String.length s <= fuel)%nat -> duration_part s = Some (v, rest) -> (String.length rest < String.length s)%nat ->
  d + v <= 2 ^ 63 ->
  exists fuel', (String.length rest <= fuel')%nat /\ duration_loop fuel d s = duration_loop fuel' (d + v) rest.
Proof.
  intros Hf Hp Hl Hb. destruct s as [|c s]; [done|]. destruct fuel as [|fuel]; [cbn in Hf; lia|].
  exists fuel. split; [cbn in *; lia|]. cbn [duration_loop]. rewrite Hp.
  by rewrite (proj2 (Z.ltb_ge _ _)) by lia.
Qed.

Lemma duration_loop_end fuel d : duration_loop fuel d "" = Some d.
Proof. by destruct fuel. Qed.

Lemma fmtInt_longer m out : 0 <= m -> (String.length out < String.length (fmtInt m out))%nat.
Proof.
  intros Hm. unfold fmtInt. rewrite app_length_string. destruct (Itoa_head m Hm) as (c & s & -> & _). cbn. lia.
Qed.


Lemma loop_last fuel d s v :
  (String.length s <= fuel)%nat -> s <> "" -> duration_part s = Some (v, "") -> d + v <= 2 ^ 63 ->
  duration_loop fuel d s = Some (d + v).
Proof.
  intros Hf Hne Hp Hb. destruct (loop_part fuel d s v "" Hf Hp) as (f' & _ & ->); [|done|apply duration_loop_end].
  destruct s; [done|]. cbn. lia.
Qed.

Lemma fmtInt_nonempty m out : 0 <= m -> fmtInt m out <> "".
Proof. intros Hm He. pose proof (fmtInt_longer m out Hm) as Hl. rewrite He in Hl. cbn in Hl. lia. Qed.

Lemma fmtInt_part_end m out : 0 <= m -> part_end (fmtInt m out) = true.
Proof.
  intros Hm. unfold fmtInt. destruct (Itoa_head m Hm) as (c & s & -> & Hc). rewrite app_String. cbn. by rewrite Hc, orb_true_r.
Qed.

Ltac is_unit := split; [done|vm_compute; reflexivity].

(** A part of a single-letter unit in front of the rest. *)
Lemma loop_unit fuel d m name unit out :
  0 <= m -> 0 < unit -> d + m * unit <= 2 ^ 63 -> 0 <= d -> unit_name name -> unitMap name = Some unit -> part_end out = true ->
  (String.length (fmtInt m (name +:+ out)) <= fuel)%nat ->
  exists fuel', (String.length out <= fuel')%nat /\
    duration_loop fuel d (fmtInt m (name +:+ out)) = duration_loop fuel' (d + m * unit) out.
Proof.
  intros Hm Hu Hb Hd Hn Hmap Ho Hf. apply loop_part; [done|by apply part_whole; try lia| |done].
  pose proof (fmtInt_longer m (name +:+ out) Hm) as Hl. rewrite app_length_string in Hl. lia.
Qed.

Lemma magnitude_small u fuel : 0 < u < second -> (String.length (magnitude u) <= fuel)%nat ->
  magnitude u <> "" /\ duration_loop fuel 0 (magnitude u) = Some u.
Proof.
  intros Hu. unfold magnitude. rewrite (proj2 (Z.ltb_lt u second)) by lia.
  assert (forall p v name fuel, In p [3; 6; 9]%nat -> 0 < v < 2 ^ 62 -> unit_name name -> unitMap name = Some (10 ^ Z.of_nat p) ->
            let '(out, w) := fmtFrac p v name in
            (String.length (fmtInt w out) <= fuel)%nat -> fmtInt w out <> "" /\ duration_loop fuel 0 (fmtInt w out) = Some v) as Hfrac.
  { clear. intros p v name fuel Hp Hv Hname Hmap. destruct (part_fmtFrac p v name Hp ltac:(lia) Hname Hmap) as [Hw Hpart].
    destruct (fmtFrac p v name) as [out w]. cbn [fst snd] in *. intros Hf. subst w. pose proof (pow10_pos p).
    assert (0 <= v / 10 ^ Z.of_nat p) by (apply Z.div_pos; lia).
    assert (v / 10 ^ Z.of_nat p * 10 ^ Z.of_nat p + v mod 10 ^ Z.of_nat p = v) as E
      by (rewrite (Z.mul_comm (v / _)); symmetry; apply Z.div_mod; lia).
    split; [by apply fmtInt_nonempty|].
    rewrite (loop_last fuel 0 _ v); [done|done|by apply fmtInt_nonempty| |lia].
    rewrite Hpart, E by lia. done. }
  unfold second, millisecond, microsecond, nanosecond in *.
  destruct (Z.ltb_spec u (1000 * 1)); [|destruct (Z.ltb_spec u (1000 * (1000 * 1)))].
  - cbn [fmtFrac frac_loop]. intros Hf. split; [apply fmtInt_nonempty; lia|].
    apply (loop_last fuel 0 _ u); [done|apply fmtInt_nonempty; lia| |lia].
    unfold fmtInt. rewrite <- (string_app_nil "ns"). rewrite <- (Z.mul_1_r u) at 2. apply part_whole; try done; lia.
  - apply (Hfrac 3%nat); [cbn; tauto|lia|is_unit|done].
  - apply (Hfrac 6%nat); [cbn; tauto|lia|is_unit|done].
Qed.

Lemma magnitude_large u fuel : second <= u <= 2 ^ 63 -> (String.length (magnitude u) <= fuel)%nat ->
  magnitude u <> "" /\ duration_loop fuel 0 (magnitude u) = Some u.
Proof.
  intros Hu. unfold magnitude. rewrite (proj2 (Z.ltb_ge u second)) by lia.
  destruct (part_fmtFrac 9 u "s" ltac:(cbn; tauto) ltac:(unfold second, millisecond, microsecond, nanosecond in Hu; lia) ltac:(is_unit) ltac:(reflexivity)) as [Hw Hpart].
  destruct (fmtFrac 9 u "s") as [out w]. cbn [fst snd] in *. change (10 ^ Z.of_nat 9) with 1000000000 in *.
  change second with 1000000000 in *. change (2 ^ 63) with 9223372036854775808 in *.
  assert (0 <= w) by (subst w; apply Z.div_pos; lia).
  pose proof (Z.div_mod u 1000000000 ltac:(lia)) as Hsplit. rewrite <- Hw in Hsplit.
  pose proof (Z.mod_pos_bound u 1000000000 ltac:(lia)). set (ns := u mod 1000000000) in *.
  pose proof (Z.div_mod w 60 ltac:(lia)) as Hs. pose proof (Z.mod_pos_bound w 60 ltac:(lia)).
  assert (0 <= w / 60) by (apply Z.div_pos; lia).
  pose proof (Z.div_mod (w / 60) 60 ltac:(lia)) as Hm. pose proof (Z.mod_pos_bound (w / 60) 60 ltac:(lia)).
  assert (0 <= w / 60 / 60) by (apply Z.div_pos; lia).
  set (s := w mod 60) in *. set (m := w / 60) in *. set (h := m / 60) in *. set (mm := m mod 60) in *.
  pose proof (Hpart s ltac:(lia) ltac:(lia)) as Hsec.
  set (secs := fmtInt s out) in *.
  assert (secs <> "" /\ part_end secs = true) as [Hne Hend] by (split; [apply fmtInt_nonempty|apply fmtInt_part_end]; lia).
  cbv zeta. destruct (Z.ltb_spec 0 m) as [Hm0|Hm0]; [destruct (Z.ltb_spec 0 h) as [Hh0|Hh0]|]; intros Hf.
  - split; [apply fmtInt_nonempty; lia|].
    destruct (loop_unit fuel 0 h "h" hour (fmtInt mm ("m" +:+ secs))) as (f1 & Hf1 & ->);
      [lia|done|unfold hour, minute; change second with 1000000000; lia|lia|is_unit|done|by apply fmtInt_part_end; lia|done|].
    destruct (loop_unit f1 (0 + h * hour) mm "m" minute secs) as (f2 & Hf2 & ->);
      [lia|done|unfold hour, minute; change second with 1000000000; lia|unfold hour, minute; change second with 1000000000; lia
      |is_unit|done|done|done|].
    rewrite (loop_last f2 _ _ _ Hf2 Hne Hsec) by (unfold hour, minute; change second with 1000000000; lia).
    f_equal. unfold hour, minute. change second with 1000000000. lia.
  - split; [apply fmtInt_nonempty; lia|]. assert (h = 0) by lia.
    destruct (loop_unit fuel 0 mm "m" minute secs) as (f2 & Hf2 & ->);
      [lia|done|unfold minute; change second with 1000000000; lia|lia|is_unit|done|done|done|].
    rewrite (loop_last f2 _ _ _ Hf2 Hne Hsec) by (unfold minute; change second with 1000000000; lia).
    f_equal. unfold minute. change second with 1000000000. lia.
  - split; [done|]. rewrite (loop_last fuel _ _ _ Hf Hne Hsec) by lia. f_equal. lia.
Qed.

(** ** The round trip *)

Lemma magnitude_head u : 0 < u -> exists c s, magnitude u = String c s /\ is_digit c = true /\ s <> "".
Proof.
  assert (forall m out, 0 <= m -> out <> "" -> exists c s, fmtInt m out = String c s /\ is_digit c = true /\ s <> "") as Hfmt.
  { intros m out Hm Ho. unfold fmtInt. destruct (Itoa_head m Hm) as (c & s & -> & Hc). exists c, (s +:+ out).
    split; [done|]. split; [done|]. by destruct s. }
  assert (forall p v name, 0 <= v -> name <> "" -> (fmtFrac p v name).1 <> "" /\ 0 <= (fmtFrac p v name).2) as Hfrac.
  { intros p v name Hv Hname. unfold fmtFrac. pose proof (pow10_pos p).
    destruct (frac_loop_spec p v name Hv) as [[_ ->]|(k & f & _ & _ & _ & ->)]; cbn [fst snd]; (split; [done|apply Z.div_pos; lia]). }
  intros Hu. unfold magnitude. destruct (u <? second).
  - destruct (u <? microsecond); [|destruct (u <? millisecond)];
      match goal with |- context [fmtFrac ?p ?v ?n] => destruct (Hfrac p v n ltac:(lia) ltac:(done)) as [H1 H2] end;
      destruct (fmtFrac _ _ _); by apply Hfmt.
  - destruct (Hfrac 9%nat u "s" ltac:(lia) ltac:(done)) as [H1 H2]. destruct (fmtFrac _ _ _) as [out w]. cbn [fst snd] in *.
    assert (0 <= w / 60) by (apply Z.div_pos; lia). assert (0 <= w / 60 / 60) by (apply Z.div_pos; lia).
    pose proof (Z.mod_pos_bound w 60 ltac:(lia)). pose proof (Z.mod_pos_bound (w / 60) 60 ltac:(lia)).
    cbv zeta. destruct (0 <? w / 60); [destruct (0 <? w / 60 / 60)|]; (apply Hfmt; [lia|done]).
Qed.

Theorem ParseDuration_String d : min_int64 <= d <= max_int64 -> ParseDuration (Duration_String d) = Some d.
Proof.
  intros Hd. unfold min_int64, max_int64 in Hd. unfold Duration_String.
  destruct (Z.eqb_spec (Z.abs d) 0) as [E|E].
  { assert (d = 0) as -> by lia. reflexivity. }
  assert (0 < Z.abs d) as Hpos by lia.
  destruct (magnitude_head (Z.abs d) Hpos) as (c & s & Hm & Hc & Hs).
  assert (duration_loop (String.length (magnitude (Z.abs d))) 0 (magnitude (Z.abs d)) = Some (Z.abs d)) as Hl.
  { destruct (Z.lt_ge_cases (Z.abs d) second); [apply magnitude_small|apply magnitude_large]; lia. }
  assert ((magnitude (Z.abs d) =?s "0") = false /\ (magnitude (Z.abs d) =?s "") = false) as [H0 H1].
  { rewrite Hm. split; apply seqb_ne; [|done]. intros [= -> ->]. done. }
  unfold ParseDuration. destruct (Z.ltb_spec d 0) as [Hneg|Hnn].
  - change ("-" +:+ magnitude (Z.abs d)) with (String (ascii_of_nat 45) (magnitude (Z.abs d))).
    cbv beta iota zeta. change (Nat.eqb (nat_of_ascii (ascii_of_nat 45)) 45) with true. cbv beta iota. rewrite H0, H1, Hl. f_equal. lia.
  - rewrite Hm in *. 
    assert (Nat.eqb (nat_of_ascii c) 45 = false /\ Nat.eqb (nat_of_ascii c) 43 = false) as [-> ->].
    { unfold is_digit in Hc. apply andb_true_iff in Hc as [Ha%Nat.leb_le Hb%Nat.leb_le]. split; apply Nat.eqb_neq; lia. }
    rewrite H0, H1, Hl. rewrite (proj2 (Z.ltb_ge _ (Z.abs d))) by lia. f_equal. lia.
Qed.

(** ** The texts and the range *)

Lemma fmtFrac_ends p v name : 0 <= v -> exists x, (fmtFrac p v name).1 = x +:+ name.
Proof.
  intros Hv. unfold fmtFrac. destruct (frac_loop_spec p v name Hv) as [[_ ->]|(k & f & _ & _ & _ & ->)]; cbn [fst].
  - by exists "".
  - exists ("." +:+ fixed_digits k f). by rewrite app_string_assoc.
Qed.

Lemma magnitude_ends u : 0 <= u -> exists x, magnitude u = x +:+ "s".
Proof.
  intros Hu. assert (forall p v name w, 0 <= v -> name = w +:+ "s" -> exists x, (fmtFrac p v name).1 = x +:+ "s") as Hf.
  { intros p v name w Hv ->. destruct (fmtFrac_ends p v (w +:+ "s") Hv) as [x ->]. exists (x +:+ w). by rewrite app_string_assoc. }
  assert (forall m out, (exists x, out = x +:+ "s") -> exists x, fmtInt m out = x +:+ "s") as Hi.
  { intros m out [x ->]. exists (Itoa m +:+ x). unfold fmtInt. by rewrite app_string_assoc. }
  assert (forall c out, (exists x, out = x +:+ "s") -> exists x, String c "" +:+ out = x +:+ "s") as Hc.
  { intros c out [x ->]. exists (String c "" +:+ x). by rewrite app_string_assoc. }
  unfold magnitude. destruct (u <? second).
  - destruct (u <? microsecond); [|destruct (u <? millisecond)].
    + destruct (fmtFrac 0 u "ns") as [out w] eqn:E. apply Hi. pose proof (Hf 0%nat u "ns" "n" Hu eq_refl) as H. by rewrite E in H.
    + destruct (fmtFrac 3 u (micro +:+ "s")) as [out w] eqn:E. apply Hi.
      pose proof (Hf 3%nat u (micro +:+ "s") micro Hu eq_refl) as H. by rewrite E in H.
    + destruct (fmtFrac 6 u "ms") as [out w] eqn:E. apply Hi. pose proof (Hf 6%nat u "ms" "m" Hu eq_refl) as H. by rewrite E in H.
  - destruct (fmtFrac 9 u "s") as [out w] eqn:E. pose proof (Hf 9%nat u "s" "" Hu eq_refl) as H. rewrite E in H. cbn [fst] in H.
    cbv zeta. destruct (0 <? w / 60); [destruct (0 <? w / 60 / 60)|]; auto 10.
Qed.

Lemma Duration_String_trim d : TrimSpace (Duration_String d) = Duration_String d.
Proof.
  unfold Duration_String. destruct (Z.eqb_spec (Z.abs d) 0) as [E|E].
  { assert (d = 0) as -> by lia. vm_compute. reflexivity. }
  destruct (magnitude_head (Z.abs d) ltac:(lia)) as (c & s & Hm & Hc & _).
  destruct (magnitude_ends (Z.abs d) ltac:(lia)) as [x Hx].
  assert (plain c = true) as Hp.
  { unfold is_digit in Hc. unfold plain. apply andb_true_iff in Hc as [H1%Nat.leb_le H2%Nat.leb_le].
    apply andb_true_iff. split; apply Nat.ltb_lt; lia. }
  apply TrimSpace_trimmed. destruct (d <? 0).
  - split; [by apply plain_start|]. rewrite Hx. change ("-" +:+ (x +:+ "s")) with (("-" +:+ x) +:+ "s").
    apply (plain_end _ "s" (string_rev ("-" +:+ x))); [by rewrite string_rev_append|done].
  - split; [rewrite Hm; by apply plain_start|]. rewrite Hx.
    apply (plain_end _ "s" (string_rev x)); [by rewrite string_rev_append|done].
Qed.

Lemma leadingInt_nonneg s : forall x v r, 0 <= x -> leadingInt x s = Some (v, r) -> 0 <= v.
Proof.
  induction s as [|c s IH]; intros x v r Hx; cbn [leadingInt]; [by intros [= <- <-]|].
  destruct (is_digit c); [|by intros [= <- <-]]. destruct (_ <? x); [done|]. cbv zeta. destruct (_ <? _); [done|].
  apply IH. unfold digit_val. lia.
Qed.

Lemma f_trunc_nonneg f : 0 <= f_trunc f.
Proof.
  destruct f as [| | |b m e]; cbn [f_trunc]; try lia. destruct (Z.leb_spec 0 e).
  - apply Z.mul_nonneg_nonneg; [lia|by apply Z.pow_nonneg].
  - apply Z.div_pos; [lia|]. apply Z.pow_pos_nonneg; lia.
Qed.

Lemma unitMap_pos u unit : unitMap u = Some unit -> 0 < unit.
Proof. unfold unitMap. repeat case_test; intros [= <-]; done. Qed.

Lemma duration_part_nonneg s v r : duration_part s = Some (v, r) -> 0 <= v.
Proof.
  unfold duration_part. destruct s as [|c0 s0]; [done|]. destruct (negb _); [done|].
  destruct (leadingInt 0 (String c0 s0)) as [[n s1]|] eqn:El; [|done]. apply leadingInt_nonneg in El; [|done]. cbv zeta.
  match goal with |- context [match ?x with pair _ _ => _ end] => destruct x as [[[f scale] s2] post] end.
  destruct (negb _ && negb _); [done|]. destruct (unit_part s2) as [u rest]. destruct (u =?s ""); [done|].
  destruct (unitMap u) as [unit|] eqn:Eu; [|done]. apply unitMap_pos in Eu. destruct (_ <? n); [done|].
  destruct ((0 <? f) && _); [done|]. intros [= <- _]. pose proof (f_trunc_nonneg (f_mul (f_of_Z f) (f_div (f_of_Z unit) scale))).
  destruct (0 <? f); nia.
Qed.

Lemma duration_loop_range fuel : forall d s r, 0 <= d <= 2 ^ 63 -> duration_loop fuel d s = Some r -> 0 <= r <= 2 ^ 63.
Proof.
  induction fuel as [|fuel IH]; intros d s r Hd; destruct s as [|c s]; cbn [duration_loop]; try done; try by intros [= <-].
  destruct (duration_part _) as [[v rest]|] eqn:E; [|done]. apply duration_part_nonneg in E.
  destruct (Z.ltb_spec (2 ^ 63) (d + v)); [done|]. apply IH. lia.
Qed.

Lemma ParseDuration_range s d : ParseDuration s = Some d -> min_int64 <= d <= max_int64.
Proof.
  unfold ParseDuration, min_int64, max_int64.
  match goal with |- context [match ?x with pair _ _ => _ end] => destruct x as [neg t] end.
  destruct (t =?s "0"); [intros [= <-]; lia|]. destruct (t =?s ""); [done|].
  destruct (duration_loop _ 0 t) as [r|] eqn:E; [|done]. apply duration_loop_range in E; [|lia].
  destruct neg; [intros [= <-]; lia|]. destruct (Z.ltb_spec (2 ^ 63 - 1) r); [done|]. intros [= <-]. lia.
Qed.
