(* ===== verification/Config.v ===== *)
(** internal/config: the settings file, its defaults, the dotted keys of
    [bnm config get|set], and the atomic write; and the mute command of
    internal/cli/config.go, which rewrites one list through them.

    Reflection visits the leaf fields in order; here each is a [field], its
    dotted key with a getter and a setter, and [walk] composes them the way the
    code nests its structs.  TOML is a parameter. *)

From S2P Require Import Prelude GoTime Core Errors GoStrings GoDuration.

(** ** The settings *)

Record MonitorConfig := mkMonitorConfig { mc_Interval : Duration; mc_Anchors : list string; mc_RetentionDays : Z }.

Record NotifyConfig := mkNotifyConfig {
  nc_Connected : bool;
  nc_Disconnected : bool;
  nc_NoInternet : bool;
  nc_InternetRestored : bool;
  nc_VPNUp : bool;
  nc_VPNDown : bool;
  nc_Degraded : bool;
  nc_Recovered : bool;
  nc_SecretNeeded : bool;
  nc_MutedNetworks : list string
}.

Record SpeedConfig := mkSpeedConfig { sc_Provider : string; sc_Iperf3Server : string; sc_MaxBytes : Z }.
Record TailscaleConfig := mkTailscaleConfig { tc_Socket : string }.
Record DaemonConfig := mkDaemonConfig { dc_LogLevel : string }.

Record Config := mkConfig {
  cf_Monitor : MonitorConfig;
  cf_Notify : NotifyConfig;
  cf_Speed : SpeedConfig;
  cf_Tailscale : TailscaleConfig;
  cf_Daemon : DaemonConfig
}.

Definition Default : Config := {|
  cf_Monitor := mkMonitorConfig (30 * second) ["1.1.1.1"; "8.8.8.8"] 30;
  cf_Notify := mkNotifyConfig true true true true true true false false true [];
  cf_Speed := mkSpeedConfig "cloudflare" "" 300000000;
  cf_Tailscale := mkTailscaleConfig "";
  cf_Daemon := mkDaemonConfig "info"
|}.

(** ** Fields *)

(** The types a leaf has. *)
Inductive value : Type :=
| VDuration (d : Duration)
| VList (l : list string)
| VBool (b : bool)
| VInt (n : Z)
| VString (s : string).

Record field (S : Type) := mkField { fl_key : string; fl_get : S -> value; fl_put : value -> S -> S }.
Arguments mkField {S}.
Arguments fl_key {S}.
Arguments fl_get {S}.
Arguments fl_put {S}.

(** The leaves of a struct nested under [name]. *)
Definition walk {S T} (name : string) (get : S -> T) (put : T -> S -> S) (l : list (field T)) : list (field S) :=
  map (fun f => mkField (name +:+ "." +:+ fl_key f) (fun s => fl_get f (get s)) (fun v s => put (fl_put f v (get s)) s)) l.

Section Leaf.
Context {S : Type} (name : string).

Definition leaf_duration (get : S -> Duration) (put : Duration -> S -> S) : field S :=
  mkField name (fun s => VDuration (get s)) (fun v s => match v with VDuration d => put d s | _ => s end).
Definition leaf_list (get : S -> list string) (put : list string -> S -> S) : field S :=
  mkField name (fun s => VList (get s)) (fun v s => match v with VList l => put l s | _ => s end).
Definition leaf_bool (get : S -> bool) (put : bool -> S -> S) : field S :=
  mkField name (fun s => VBool (get s)) (fun v s => match v with VBool b => put b s | _ => s end).
Definition leaf_int (get : S -> Z) (put : Z -> S -> S) : field S :=
  mkField name (fun s => VInt (get s)) (fun v s => match v with VInt n => put n s | _ => s end).
Definition leaf_string (get : S -> string) (put : string -> S -> S) : field S :=
  mkField name (fun s => VString (get s)) (fun v s => match v with VString x => put x s | _ => s end).
End Leaf.

Definition monitor_fields : list (field MonitorConfig) := [
  leaf_duration "interval" mc_Interval (fun x m => mkMonitorConfig x (mc_Anchors m) (mc_RetentionDays m));
  leaf_list "anchors" mc_Anchors (fun x m => mkMonitorConfig (mc_Interval m) x (mc_RetentionDays m));
  leaf_int "retention_days" mc_RetentionDays (fun x m => mkMonitorConfig (mc_Interval m) (mc_Anchors m) x)].

Definition notify_fields : list (field NotifyConfig) := [
  leaf_bool "connected" nc_Connected (fun x '(mkNotifyConfig _ b c d e f g h i l) => mkNotifyConfig x b c d e f g h i l);
  leaf_bool "disconnected" nc_Disconnected (fun x '(mkNotifyConfig a _ c d e f g h i l) => mkNotifyConfig a x c d e f g h i l);
  leaf_bool "no_internet" nc_NoInternet (fun x '(mkNotifyConfig a b _ d e f g h i l) => mkNotifyConfig a b x d e f g h i l);
  leaf_bool "internet_restored" nc_InternetRestored (fun x '(mkNotifyConfig a b c _ e f g h i l) => mkNotifyConfig a b c x e f g h i l);
  leaf_bool "vpn_up" nc_VPNUp (fun x '(mkNotifyConfig a b c d _ f g h i l) => mkNotifyConfig a b c d x f g h i l);
  leaf_bool "vpn_down" nc_VPNDown (fun x '(mkNotifyConfig a b c d e _ g h i l) => mkNotifyConfig a b c d e x g h i l);
  leaf_bool "degraded" nc_Degraded (fun x '(mkNotifyConfig a b c d e f _ h i l) => mkNotifyConfig a b c d e f x h i l);
  leaf_bool "recovered" nc_Recovered (fun x '(mkNotifyConfig a b c d e f g _ i l) => mkNotifyConfig a b c d e f g x i l);
  leaf_bool "secret_needed" nc_SecretNeeded (fun x '(mkNotifyConfig a b c d e f g h _ l) => mkNotifyConfig a b c d e f g h x l);
  leaf_list "muted_networks" nc_MutedNetworks (fun x '(mkNotifyConfig a b c d e f g h i _) => mkNotifyConfig a b c d e f g h i x)].

Definition speed_fields : list (field SpeedConfig) := [
  leaf_string "provider" sc_Provider (fun x s => mkSpeedConfig x (sc_Iperf3Server s) (sc_MaxBytes s));
  leaf_string "iperf3_server" sc_Iperf3Server (fun x s => mkSpeedConfig (sc_Provider s) x (sc_MaxBytes s));
  leaf_int "max_bytes" sc_MaxBytes (fun x s => mkSpeedConfig (sc_Provider s) (sc_Iperf3Server s) x)].

Definition tailscale_fields : list (field TailscaleConfig) := [leaf_string "socket" tc_Socket (fun x _ => mkTailscaleConfig x)].
Definition daemon_fields : list (field DaemonConfig) := [leaf_string "log_level" dc_LogLevel (fun x _ => mkDaemonConfig x)].

(** Every leaf, in the order of the structs. *)
Definition fields : list (field Config) :=
  walk "monitor" cf_Monitor (fun x '(mkConfig _ n s t d) => mkConfig x n s t d) monitor_fields ++
  walk "notify" cf_Notify (fun x '(mkConfig m _ s t d) => mkConfig m x s t d) notify_fields ++
  walk "speed" cf_Speed (fun x '(mkConfig m n _ t d) => mkConfig m n x t d) speed_fields ++
  walk "tailscale" cf_Tailscale (fun x '(mkConfig m n s _ d) => mkConfig m n s x d) tailscale_fields ++
  walk "daemon" cf_Daemon (fun x '(mkConfig m n s t _) => mkConfig m n s t x) daemon_fields.

(** [Keys]: sorted. *)
Definition Keys : list string := isort String.leb (map fl_key fields).

(** The field of a key: the last one visited. *)
Definition lookup (key : string) : option (field Config) :=
  fold_left (fun found f => if fl_key f =?s key then Some f else found) fields None.

(** ** Text *)

Definition format (v : value) : string :=
  match v with
  | VDuration d => Duration_String d
  | VList l => Join l ","
  | VBool b => if b then "true" else "false"
  | VInt n => Itoa n
  | VString s => s
  end.

Definition parseBool (s : string) : option bool :=
  let t := ToLower s in
  if existsb (String.eqb t) ["true"; "on"; "yes"; "1"] then Some true
  else if existsb (String.eqb t) ["false"; "off"; "no"; "0"] then Some false
  else None.

(** The elements of a list: trimmed, the empty ones left out. *)
Definition list_pieces (s : string) : list string :=
  List.filter (fun p => negb (p =?s "")) (map TrimSpace (Split s ",")).

Section Text.
Context (Quote : string -> string).

(** The texts of errors from [time] and [strconv]. *)
Context (duration_error int_error : string -> string).

(** [parseInto]: the new value of a field that has the type of [v]. *)
Definition parseInto (v : value) (s : string) : result string value :=
  match v with
  | VDuration _ =>
      match ParseDuration s with
      | Some d => Ok (VDuration d)
      | None => Err ("want a duration like 30s: " +:+ duration_error s)
      end
  | VList _ => Ok (VList (list_pieces s))
  | VBool _ =>
      match parseBool s with
      | Some b => Ok (VBool b)
      | None => Err ("want true or false, got " +:+ Quote s)
      end
  | VInt _ =>
      match Atoi s with
      | Some n => Ok (VInt n)
      | None => Err ("want an integer: " +:+ int_error s)
      end
  | VString _ => Ok (VString s)
  end.

(** ** Get and Set *)

Definition unknownKey (key : string) : error :=
  Errorf KindNotFound "run `bnm config keys` to list them" ("config: unknown key " +:+ Quote key).

Definition Get (c : Config) (key : string) : result error string :=
  match lookup key with
  | None => Err (unknownKey key)
  | Some f => Ok (format (fl_get f c))
  end.

Definition invalid (msg : string) : option error := Some (Errorf KindInvalid "" msg).

Definition validate (c : Config) (key : string) : option error :=
  if key =?s "monitor.interval" then
    if mc_Interval (cf_Monitor c) <? second then invalid "config: monitor.interval must be at least 1s" else None
  else if key =?s "monitor.retention_days" then
    if mc_RetentionDays (cf_Monitor c) <? 1 then invalid "config: monitor.retention_days must be at least 1" else None
  else if key =?s "speed.provider" then
    if existsb (String.eqb (sc_Provider (cf_Speed c))) ["cloudflare"; "iperf3"; "librespeed"] then None
    else invalid "config: speed.provider must be cloudflare, iperf3 or librespeed"
  else if key =?s "speed.max_bytes" then
    if sc_MaxBytes (cf_Speed c) <=? 0 then invalid "config: speed.max_bytes must be positive" else None
  else if key =?s "daemon.log_level" then
    if existsb (String.eqb (dc_LogLevel (cf_Daemon c))) ["debug"; "info"; "warn"; "error"] then None
    else invalid "config: daemon.log_level must be debug, info, warn or error"
  else None.

(** [Set] stores before it validates: a refused value is in [c] all the same. *)
Definition Set_ (key val : string) (c : Config) : option error * Config :=
  match lookup key with
  | None => (Some (unknownKey key), c)
  | Some f =>
      match parseInto (fl_get f c) (TrimSpace val) with
      | Err msg => (invalid ("config: " +:+ key +:+ ": " +:+ msg), c)
      | Ok v => let c := fl_put f v c in (validate c key, c)
      end
  end.
End Text.

(** ** Muted networks *)

Definition with_muted (l : list string) (c : Config) : Config :=
  let '(mkConfig m (mkNotifyConfig a b e d f g h i j _) s t dm) := c in mkConfig m (mkNotifyConfig a b e d f g h i j l) s t dm.

Definition Mute (networkKey : string) (c : Config) : Config :=
  let l := nc_MutedNetworks (cf_Notify c) in
  if existsb (fun k => k =?s networkKey) l then c else with_muted (l ++ [networkKey]) c.

(** The first occurrence goes. *)
Fixpoint remove_key (k : string) (l : list string) : option (list string) :=
  match l with
  | [] => None
  | x :: l' => if x =?s k then Some l' else match remove_key k l' with Some r => Some (x :: r) | None => None end
  end.

Definition Unmute (networkKey : string) (c : Config) : Config * bool :=
  match remove_key networkKey (nc_MutedNetworks (cf_Notify c)) with
  | Some l => (with_muted l c, true)
  | None => (c, false)
  end.

Definition Muted (n : NotifyConfig) (networkKey : string) : bool :=
  if networkKey =?s "" then false else existsb (fun k => k =?s networkKey) (nc_MutedNetworks n).

Definition Enabled (n : NotifyConfig) (t : EventType) : bool :=
  if t =?s EventConnected then nc_Connected n
  else if t =?s EventDisconnected then nc_Disconnected n
  else if t =?s EventNoInternet then nc_NoInternet n
  else if t =?s EventInternetRestored then nc_InternetRestored n
  else if t =?s EventVPNUp then nc_VPNUp n
  else if t =?s EventVPNDown then nc_VPNDown n
  else if t =?s EventDegraded then nc_Degraded n
  else if t =?s EventRecovered then nc_Recovered n
  else if t =?s EventSecretNeeded then nc_SecretNeeded n
  else false.

(** ** internal/cli/config.go: mute and unmute *)

(** A bare SSID is the key of the saved Wi-Fi network of that name. *)
Definition resolve_key (profiles : option (list Profile)) (key : string) : string :=
  if Contains key ":" then key
  else match profiles with
       | None => key
       | Some l =>
           match List.find (fun p => (pf_Type p =?s ProfileWifi) && ((pf_SSID p =?s key) || (pf_Name p =?s key))) l with
           | Some p => "wifi:" +:+ pf_SSID p
           | None => key
           end
       end.

Section Mute.
Context (Quote : string -> string).

(** [setMuted] against a daemon whose configuration is [c] and whose [Set] is
    [set]: the error, and the value it asks the daemon to store, if any. *)
Definition setMuted (profiles : option (list Profile)) (c : Config) (key : string) (mute : bool) : result error (option string) :=
  let key := resolve_key profiles key in
  if negb (Contains key ":")
  then Err (Errorf KindInvalid
              "network keys look like wifi:<ssid> or ethernet:<uuid>; `bnm status --json` shows the current one"
              (Quote key +:+ " is not a network key"))
  else
    let '(c, changed) := if mute then (Mute key c, true) else Unmute key c in
    if changed then Ok (Some (Join (nc_MutedNetworks (cf_Notify c)) ",")) else Ok None.
End Mute.

(** ** The file *)

(** Files by path. *)
Abbreviation fs := (gmap string string) (only parsing).

(** How the write goes wrong, step by step; a failed write leaves a part of
    the text. *)
Record save_faults := mkSaveFaults {
  sf_mkdir : option string;
  sf_encode : option string;
  sf_temp : option string;
  sf_write : option (string * string);      (* the error, and what was written *)
  sf_chmod : option string;
  sf_close : option string;
  sf_rename : option string;
  sf_remove : bool                          (* whether removing the temporary file works *)
}.

Definition save_error (what msg : string) : option error := Some (EWrap ("config: " +:+ what +:+ ": " +:+ msg) [ELeaf msg]).

(** [os.Remove], its error ignored. *)
Definition remove_temp (f : save_faults) (tmp : string) (files : fs) : fs :=
  if sf_remove f then delete tmp files else files.

(** [SaveTo]: the error, and the file system after each step that changes it,
    the last one last.  [text] is the encoding of the configuration, [tmp] the
    name of the temporary file. *)
Definition SaveTo (f : save_faults) (text tmp path : string) (files : fs) : option error * list fs :=
  match sf_mkdir f, sf_encode f, sf_temp f with
  | Some e, _, _ => (save_error "mkdir" e, [])
  | None, Some e, _ => (save_error "encode" e, [])
  | None, None, Some e => (save_error "temp file" e, [])
  | None, None, None =>
      let created := <[tmp := ""]> files in
      match sf_write f with
      | Some (e, part) =>
          let written := <[tmp := part]> files in
          (save_error "write" e, [created; written; remove_temp f tmp written])
      | None =>
          let written := <[tmp := text]> files in
          match sf_chmod f, sf_close f, sf_rename f with
          | Some e, _, _ => (save_error "chmod" e, [created; written; remove_temp f tmp written])
          | None, Some e, _ => (save_error "close" e, [created; written; remove_temp f tmp written])
          | None, None, Some e => (save_error "rename" e, [created; written; remove_temp f tmp written])
          | None, None, None => (None, [created; written; <[path := text]> (delete tmp written)])
          end
      end
  end.

(** [LoadFrom]: what reading the file gave ([None]: there is no such file), and
    [toml.Decode] over the defaults with the keys it did not use. *)
Definition LoadFrom (decode : Config -> string -> result string (Config * list string))
    (path : string) (read : result string (option string)) : Config * option error :=
  match read with
  | Err e => (Default, Some (EWrap ("config: read " +:+ path +:+ ": " +:+ e) [ELeaf e]))
  | Ok None => (Default, None)
  | Ok (Some data) =>
      match decode Default data with
      | Err e => (Default, Some (EWrap ("config: parse " +:+ path +:+ ": " +:+ e) [ELeaf e]))
      | Ok (c, []) => (c, None)
      | Ok (c, keys) => (c, Some (ELeaf ("config: unknown keys: " +:+ Join keys ", ")))
      end
  end.
