(* ===== verification/ConfigFacts.v ===== *)
(** The settings: what [Get] prints, [Set] reads back; [Set] touches one key and
    refuses exactly the values out of range; the write of the file is atomic;
    what muting a network does to the list. *)

From S2P Require Import Prelude GoTime Core Errors GoStrings GoStringsFacts GoDuration Config.
From Stdlib Require Import Ascii.

(** ** Fields *)

(** A case per field. *)
Ltac each_field H := cbn [In fields app walk map monitor_fields notify_fields speed_fields tailscale_fields daemon_fields] in H;
  repeat (destruct H as [<-|H]); [..|destruct H].

Definition same_kind (a b : value) : bool :=
  match a, b with
  | VDuration _, VDuration _ | VList _, VList _ | VBool _, VBool _ | VInt _, VInt _ | VString _, VString _ => true
  | _, _ => false
  end.

Lemma fl_get_put f v c : In f fields -> same_kind (fl_get f c) v = true -> fl_get f (fl_put f v c) = v.
Proof.
  intros Hf Hk. destruct c as [m n s t d], n. each_field Hf; destruct v; try discriminate Hk; reflexivity.
Qed.

Lemma fl_put_get f c : In f fields -> fl_put f (fl_get f c) c = c.
Proof. intros Hf. destruct c as [[] [] [] [] []]. each_field Hf; reflexivity. Qed.

Lemma fl_get_other f g v c : In f fields -> In g fields -> fl_key f <> fl_key g -> fl_get g (fl_put f v c) = fl_get g c.
Proof.
  intros Hf Hg Hne. destruct c as [m n s t d], n. each_field Hf; destruct v; try reflexivity.
  all: each_field Hg; try reflexivity; by destruct Hne.
Qed.

Lemma fields_ext c c' : (forall f, In f fields -> fl_get f c = fl_get f c') -> c = c'.
Proof.
  intros H. assert (Forall (fun f => fl_get f c = fl_get f c') fields) as Hall by (apply Forall_forall; intros f Hf; apply H; by apply list_elem_of_In).
  destruct c as [[] [] [] [] []], c' as [[] [] [] [] []]. cbn in Hall.
  repeat (apply Forall_cons in Hall as [? Hall]). cbn in *. congruence.
Qed.

Lemma fields_keys : NoDup (map fl_key fields).
Proof. apply (bool_decide_unpack _). vm_compute. exact I. Qed.

Lemma lookup_spec key :
  match lookup key with Some f => In f fields /\ fl_key f = key | None => ~ In key (map fl_key fields) end.
Proof.
  unfold lookup.
  assert (forall (l : list (field Config)) acc,
    match fold_left (fun found f => if fl_key f =?s key then Some f else found) l acc with
    | Some f => (In f l /\ fl_key f = key) \/ acc = Some f
    | None => acc = None /\ ~ In key (map fl_key l)
    end) as H.
  { induction l as [|f l IH]; intros acc; cbn [fold_left map In].
    - destruct acc; [by right|]. split; [done|auto].
    - specialize (IH (if fl_key f =?s key then Some f else acc)).
      destruct (String.eqb_spec (fl_key f) key) as [E|E]; destruct (fold_left _ l _) as [g|].
      + destruct IH as [[? ?]|[= <-]]; left; auto.
      + by destruct IH.
      + destruct IH as [[? ?]|?]; [left; auto|by right].
      + destruct IH as [-> Hn]. split; [done|]. intros [?|?]; [done|]. by apply Hn. }
  specialize (H fields None). destruct (fold_left _ fields None); [|tauto]. destruct H as [?|?]; [done|discriminate].
Qed.

Lemma lookup_key f : In f fields -> lookup (fl_key f) = Some f.
Proof.
  intros Hf. each_field Hf; reflexivity.
Qed.

(** ** Values *)

Definition comma : ascii := Ascii.ascii_of_nat 44.

(** An element of a list, as [Set] stores it. *)
Definition piece (p : string) : Prop := p <> "" /\ TrimSpace p = p /\ all_chars (not_char comma) p = true.

(** A value that a 64-bit Go program holds and [Set] could have stored. *)
Definition value_ok (v : value) : Prop :=
  match v with
  | VDuration n | VInt n => min_int64 <= n <= max_int64
  | VString s => TrimSpace s = s
  | VList l => Forall piece l
  | VBool _ => True
  end.

Definition config_ok (c : Config) : Prop := forall f, In f fields -> value_ok (fl_get f c).

Lemma comma_no_space : no_space_byte comma = true.
Proof. vm_compute. reflexivity. Qed.

Lemma Join_snoc_trimmed l k : Forall piece l -> TrimSpace k = k -> TrimSpace (Join (l ++ [k]) ",") = Join (l ++ [k]) ",".
Proof.
  intros Hl [Hk1 Hk2]%TrimSpace_fix_trimmed. apply TrimSpace_trimmed. destruct l as [|p l]; [done|]. split.
  - apply Forall_cons in Hl as [(_ & [Hp _]%TrimSpace_fix_trimmed & _) _].
    change ((p :: l) ++ [k]) with (p :: (l ++ [k])). rewrite Join_cons by (by destruct l).
    apply (strip_prefix_before comma); [exact comma_no_space|done].
  - rewrite Join_snoc by done. apply (strip_suffix_after comma); [exact comma_no_space|done].
Qed.

Lemma Join_trimmed l : Forall piece l -> TrimSpace (Join l ",") = Join l ",".
Proof.
  induction l as [|p l _] using rev_ind; [reflexivity|]. intros [Hl [(_ & Hp & _) _]%Forall_cons]%Forall_app.
  by apply Join_snoc_trimmed.
Qed.

Lemma pieces_piece s : Forall piece (list_pieces s).
Proof.
  unfold list_pieces. apply Forall_forall. intros p Hp%list_elem_of_In%filter_In. destruct Hp as [Hin Hne].
  apply in_map_iff in Hin as (q & <- & Hq). pose proof (Split_pieces comma s) as Hs. rewrite Forall_forall in Hs.
  apply list_elem_of_In, Hs in Hq. split; [by bool_to_prop|]. split; [apply TrimSpace_idem|by apply TrimSpace_chars].
Qed.

Lemma filter_pieces l : Forall piece l -> List.filter (fun p => negb (p =?s "")) (map TrimSpace l) = l.
Proof.
  induction l as [|p l IH]; intros Hl; [done|]. apply Forall_cons in Hl as [(Hne & Ht & _) Hl]. cbn.
  rewrite Ht, seqb_ne by done. cbn. by rewrite IH.
Qed.

Lemma pieces_snoc l k : Forall piece l -> list_pieces (Join (l ++ [k]) ",") = l ++ list_pieces k.
Proof.
  intros Hl. unfold list_pieces. rewrite (Split_Join comma); [|by eapply Forall_impl; [exact Hl|]; intros p (_ & _ & ?)].
  by rewrite map_app, List.filter_app, filter_pieces.
Qed.

Lemma pieces_Join l : Forall piece l -> list_pieces (Join l ",") = l.
Proof.
  intros Hl. induction l as [|p l _] using rev_ind; [reflexivity|].
  apply Forall_app in Hl as [Hl [Hp _]%Forall_cons]. rewrite pieces_snoc by done. f_equal.
  destruct Hp as (Hne & Ht & Hc). unfold list_pieces. rewrite (Split_single comma) by done. cbn. by rewrite Ht, seqb_ne.
Qed.

Lemma Itoa_trim n : TrimSpace (Itoa n) = Itoa n.
Proof. apply TrimSpace_plain, Itoa_plain. Qed.

Section Set_.
Context (Quote duration_error int_error : string -> string).

Local Abbreviation parseInto := (parseInto Quote duration_error int_error).
Local Abbreviation Set_ := (Set_ Quote duration_error int_error).

Lemma parse_format v : value_ok v -> parseInto v (TrimSpace (format v)) = Ok v.
Proof.
  destruct v as [d|l|b|n|s]; cbn [value_ok format Config.parseInto]; intros Hv.
  - by rewrite Duration_String_trim, ParseDuration_String.
  - by rewrite Join_trimmed, pieces_Join.
  - by destruct b.
  - rewrite Itoa_trim, Atoi_Itoa_all; [done|]. unfold min_int64, max_int64 in Hv. lia.
  - by rewrite Hv.
Qed.

Lemma parse_kind v s v' : parseInto v s = Ok v' -> same_kind v v' = true.
Proof.
  destruct v; cbn [Config.parseInto]; [| | | |]; try (by intros [= <-]);
    [destruct (ParseDuration s)|destruct (parseBool s)|destruct (Atoi s)]; by intros [= <-].
Qed.

Lemma Atoi_range s n : Atoi s = Some n -> min_int64 <= n <= max_int64.
Proof.
  unfold Atoi, min_int64, max_int64. match goal with |- context [match ?x with pair _ _ => _ end] => destruct x as [sign d] end.
  destruct d as [|c d]; [done|]. destruct (digits_val 0 (String c d)) as [m|]; [|done].
  destruct (_ && _) eqn:E; [|done]. intros [= <-]. bool_to_prop. lia.
Qed.

Lemma parse_ok v s v' : TrimSpace s = s -> parseInto v s = Ok v' -> value_ok v'.
Proof.
  intros Hs. destruct v; cbn [Config.parseInto].
  - destruct (ParseDuration s) eqn:E; [|done]. intros [= <-]. by apply ParseDuration_range in E.
  - intros [= <-]. apply pieces_piece.
  - destruct (parseBool s); [|done]. by intros [= <-].
  - destruct (Atoi s) eqn:E; [|done]. intros [= <-]. by apply Atoi_range in E.
  - by intros [= <-].
Qed.

Lemma put_ok f v c : In f fields -> same_kind (fl_get f c) v = true -> value_ok v -> config_ok c -> config_ok (fl_put f v c).
Proof.
  intros Hf Hk Hv Hc g Hg. destruct (String.eqb_spec (fl_key f) (fl_key g)) as [E|E].
  - pose proof (lookup_key f Hf) as H1. pose proof (lookup_key g Hg) as H2. rewrite E in H1.
    assert (f = g) as <- by congruence. by rewrite fl_get_put.
  - rewrite fl_get_other by done. by apply Hc.
Qed.

(** The values [validate] looks at are those of its key. *)
Lemma validate_other f key v c : In f fields -> fl_key f <> key -> validate (fl_put f v c) key = validate c key.
Proof.
  intros Hf Hne. destruct c as [m n s t d], n. unfold validate.
  each_field Hf; destruct v; try reflexivity; vm_compute in Hne;
    match type of Hne with ?k = key -> False => assert ((key =?s k) = false) as -> by (apply seqb_ne; congruence) end; reflexivity.
Qed.

(** Every key has a value in range. *)
Definition config_valid (c : Config) : Prop := forall f, In f fields -> validate c (fl_key f) = None.

(** ** Set and Get *)

(** [Set] is exact.  An unknown key is refused as not found and changes
    nothing.  A value that does not parse is refused as invalid and changes
    nothing.  Otherwise the key, and no other, has the parsed value; it is
    refused as invalid exactly when it is out of range, and then it is stored
    nevertheless. *)
Theorem Set_exact key val c :
  let '(err, c') := Config.Set_ Quote duration_error int_error key val c in
  match lookup key with
  | None => c' = c /\ KindOf err = KindNotFound
  | Some f =>
      match parseInto (fl_get f c) (TrimSpace val) with
      | Err _ => c' = c /\ KindOf err = KindInvalid
      | Ok v =>
          fl_get f c' = v /\
          (forall g, In g fields -> fl_key g <> key -> fl_get g c' = fl_get g c) /\
          err = validate c' key /\ (err = None \/ KindOf err = KindInvalid)
      end
  end.
Proof.
  unfold Config.Set_. pose proof (lookup_spec key) as Hl. destruct (lookup key) as [f|]; [|done]. destruct Hl as [Hf <-].
  destruct (parseInto (fl_get f c) (TrimSpace val)) as [v|msg] eqn:E; [|done].
  apply parse_kind in E. cbv zeta. split; [by apply fl_get_put|]. split; [intros g Hg Hne; apply fl_get_other; congruence|].
  split; [done|]. unfold validate, invalid. repeat case_test; auto.
Qed.

(** C13: A configuration the daemon reaches from the defaults by [Set] keeps
    every key valid and in the form [Set] stores, and what [Get] prints for a
    key [Set] reads back to the same configuration: durations through their
    text and binary64, lists through commas, numbers, flags and strings. *)
Theorem Get_Set_roundtrip c key val :
  config_ok c -> config_valid c ->
  (let '(err, c') := Set_ key val c in err = None -> config_ok c' /\ config_valid c') /\
  (forall k, In k Keys -> exists text, Get Quote c k = Ok text /\ Set_ k text c = (None, c)) /\
  (forall k, ~ In k Keys -> is_ok (Get Quote c k) = false).
Proof.
  intros Hok Hv.
  assert (forall k, In k Keys <-> In k (map fl_key fields)) as Hkeys.
  { intros k. unfold Keys. rewrite <- !list_elem_of_In. apply isort_elem. }
  split; [|split].
  - unfold Config.Set_. pose proof (lookup_spec key) as Hl. destruct (lookup key) as [f|]; [|done]. destruct Hl as [Hf <-].
    destruct (parseInto (fl_get f c) (TrimSpace val)) as [v|msg] eqn:E; [|done]. cbv zeta. intros Herr.
    pose proof (parse_kind _ _ _ E) as Hk. apply parse_ok in E; [|apply TrimSpace_idem]. split; [by apply put_ok|].
    intros g Hg. destruct (String.eqb_spec (fl_key f) (fl_key g)) as [<-|Hne]; [done|]. rewrite validate_other by done. by apply Hv.
  - intros k Hk%Hkeys. pose proof (lookup_spec k) as Hl. unfold Get, Config.Set_. destruct (lookup k) as [f|]; [|done].
    destruct Hl as [Hf <-]. exists (format (fl_get f c)). split; [done|].
    rewrite parse_format by (by apply Hok). cbv zeta. rewrite fl_put_get by done. by rewrite Hv.
  - intros k Hk. rewrite Hkeys in Hk. pose proof (lookup_spec k) as Hl. unfold Get. destruct (lookup k) as [f|]; [|done].
    destruct Hl as [Hf <-]. destruct Hk. by apply in_map.
Qed.
End Set_.

Lemma Default_ok : config_ok Default /\ config_valid Default.
Proof.
  split; intros f Hf; each_field Hf; cbn -[second]; try exact I; try reflexivity; try (split; vm_compute; congruence);
    repeat constructor; try done.
Qed.

(** ** The file *)

Definition no_fault (f : save_faults) : Prop :=
  sf_mkdir f = None /\ sf_encode f = None /\ sf_temp f = None /\ sf_write f = None /\ sf_chmod f = None /\
  sf_close f = None /\ sf_rename f = None.

(** How a save goes: refused before it wrote anything, given up with the
    temporary file removed, or done. *)
Lemma SaveTo_cases f text tmp path files :
  let '(err, states) := SaveTo f text tmp path files in
  (err <> None /\ ~ no_fault f /\ states = []) \/
  (err <> None /\ ~ no_fault f /\ exists x, states = [<[tmp := ""]> files; <[tmp := x]> files; remove_temp f tmp (<[tmp := x]> files)]) \/
  (err = None /\ no_fault f /\
   states = [<[tmp := ""]> files; <[tmp := text]> files; <[path := text]> (delete tmp (<[tmp := text]> files))]).
Proof.
  unfold SaveTo, no_fault, save_error.
  destruct (sf_mkdir f); [left; naive_solver|]. destruct (sf_encode f); [left; naive_solver|].
  destruct (sf_temp f); [left; naive_solver|].
  destruct (sf_write f) as [[e part]|]; [right; left; naive_solver|].
  destruct (sf_chmod f); [right; left; naive_solver|]. destruct (sf_close f); [right; left; naive_solver|].
  destruct (sf_rename f); [right; left; naive_solver|]. right; by right.
Qed.

(** C14: The settings file is replaced atomically.  At every instant the path
    holds what it held before or the whole new text, and no file but the
    temporary one differs otherwise; the call succeeds exactly when no step
    failed, and then only the path changed; when it fails the path is as before,
    and nothing is left behind if the temporary file could be removed. *)
Theorem SaveTo_atomic f text tmp path files :
  tmp <> path -> files !! tmp = None ->
  let '(err, states) := SaveTo f text tmp path files in
  (forall st, st ∈ states ->
     (st !! path = files !! path \/ st !! path = Some text) /\
     forall p, p <> path -> p <> tmp -> st !! p = files !! p) /\
  (err = None <-> no_fault f) /\
  let final := default files (last states) in
  match err with
  | None => final = <[path := text]> files
  | Some _ => final !! path = files !! path /\ (sf_remove f = true -> final = files)
  end.
Proof.
  intros Hne Htmp. pose proof (SaveTo_cases f text tmp path files) as Hc. destruct (SaveTo f text tmp path files) as [err states].
  assert (forall x p, p <> tmp -> <[tmp := x]> files !! p = files !! p) as H2 by (intros x p Hp; by rewrite lookup_insert_ne).
  assert (forall x, delete tmp (<[tmp := x]> files) = files) as H3 by (intros x; by rewrite delete_insert_id).
  assert (forall x p, p <> tmp -> remove_temp f tmp (<[tmp := x]> files) !! p = files !! p) as H4.
  { intros x p Hp. unfold remove_temp. destruct (sf_remove f); [by rewrite H3|auto]. }
  destruct Hc as [(He & Hf & ->)|[(He & Hf & x & ->)|(-> & Hf & ->)]].
  - split; [by intros st ?%elem_of_nil|]. split; [naive_solver|]. by destruct err.
  - split; [|split; [naive_solver|]].
    + intros st Hst. rewrite !elem_of_cons, elem_of_nil in Hst. destruct Hst as [->|[->|[->|[]]]]; split; auto.
    + destruct err; [|done]. cbn. split; [auto|]. intros Hr. unfold remove_temp. by rewrite Hr.
  - rewrite H3. split; [|split; [naive_solver|done]].
    intros st Hst. rewrite !elem_of_cons, elem_of_nil in Hst. destruct Hst as [->|[->|[->|[]]]]; split; auto.
    + right. by rewrite lookup_insert_eq.
    + intros p Hp _. by rewrite lookup_insert_ne.
Qed.

Lemma SaveTo_atomic_witness :
  let f := mkSaveFaults None None None None None None (Some "disk full") true in
  let files : gmap string string := {[ "config.toml" := "old" ]} in
  let '(err, states) := SaveTo f "new" ".config-1.toml" "config.toml" files in
  err <> None /\ default files (last states) = files.
Proof.
  intros f files. pose proof (SaveTo_atomic f "new" ".config-1.toml" "config.toml" files ltac:(done) ltac:(by simplify_map_eq)) as H.
  cbn [SaveTo f sf_mkdir sf_encode sf_temp sf_write sf_chmod sf_close sf_rename] in H |- *.
  destruct H as (_ & _ & H). split; [discriminate|]. by apply H.
Defined.

(** ** Muting *)

Lemma muted_field :
  exists f, lookup "notify.muted_networks" = Some f /\ In f fields /\
    (forall c, fl_get f c = VList (nc_MutedNetworks (cf_Notify c))) /\
    (forall l c, fl_put f (VList l) c = with_muted l c /\ validate (with_muted l c) "notify.muted_networks" = None).
Proof.
  eexists. split; [reflexivity|]. split; [|split].
  - do 12 right. left. reflexivity.
  - reflexivity.
  - intros l [m [] s t d]. split; reflexivity.
Qed.

(** Storing a list of muted networks through its text. *)
Lemma Set_muted Quote duration_error int_error l k c :
  Forall piece l -> TrimSpace k = k ->
  Set_ Quote duration_error int_error "notify.muted_networks" (Join (l ++ [k]) ",") c = (None, with_muted (l ++ list_pieces k) c).
Proof.
  intros Hl Hk. destruct muted_field as (f & Hf & _ & Hget & Hput). unfold Set_. rewrite Hf, Hget. cbn [parseInto].
  rewrite Join_snoc_trimmed, pieces_snoc by done. destruct (Hput (l ++ list_pieces k) c) as [-> ->]. done.
Qed.

Lemma muted_with_muted l c : nc_MutedNetworks (cf_Notify (with_muted l c)) = l.
Proof. by destruct c as [m [] s t d]. Qed.

Lemma piece_pieces k : list_pieces k = [k] <-> piece k.
Proof.
  split; [|intros Hk; apply (pieces_Join [k]); by apply Forall_singleton].
  intros H. pose proof (pieces_piece k) as Hp. rewrite H in Hp. by apply Forall_cons in Hp as [? _].
Qed.

Lemma not_muted_pieces k : piece k \/ ~ In k (list_pieces k).
Proof.
  destruct (in_dec String.string_dec k (list_pieces k)) as [Hin|Hin]; [left|by right].
  pose proof (pieces_piece k) as Hp. rewrite Forall_forall in Hp. apply Hp. by apply list_elem_of_In.
Qed.

(** Muting a network that is not muted appends the pieces of its key, cut
    at commas, to the muted networks and changes no other setting.  So the
    network is muted exactly when its key holds no comma; one whose SSID holds
    a comma never is. *)
Theorem mute_exact Quote duration_error int_error profiles c key :
  config_ok c -> Contains (resolve_key profiles key) ":" = true ->
  let k := resolve_key profiles key in
  TrimSpace k = k -> Muted (cf_Notify c) k = false ->
  exists text, setMuted Quote profiles c key true = Ok (Some text) /\
    let '(err, c') := Set_ Quote duration_error int_error "notify.muted_networks" text c in
    err = None /\ c' = with_muted (nc_MutedNetworks (cf_Notify c) ++ list_pieces k) c /\
    (Muted (cf_Notify c') k = true <-> all_chars (not_char comma) k = true).
Proof.
  intros Hok Hcol k Ht Hm. unfold setMuted. fold k. cbv zeta. fold k in Hcol. rewrite Hcol. cbn [negb].
  assert (k <> "") as Hk by (intros E; rewrite E in Hcol; discriminate).
  unfold Muted in Hm. rewrite seqb_ne in Hm by done. unfold Mute. rewrite Hm. eexists. split; [reflexivity|].
  assert (Forall piece (nc_MutedNetworks (cf_Notify c))) as Hold.
  { destruct muted_field as (f & _ & Hin & Hget & _). specialize (Hok f Hin). by rewrite Hget in Hok. }
  rewrite muted_with_muted, Set_muted by done. split; [done|]. split; [done|].
  unfold Muted. rewrite seqb_ne, muted_with_muted, existsb_app, Hm by done. cbn [orb].
  split.
  - intros (p & Hp & ->%String.eqb_eq)%existsb_exists.
    destruct (not_muted_pieces k) as [(_ & _ & Hc)|Hn]; [done|]. by apply Hn in Hp.
  - intros Hc. assert (list_pieces k = [k]) as -> by (by apply piece_pieces). cbn. by rewrite seqb_refl.
Qed.

(** A café whose SSID holds a comma stays loud. *)
Lemma mute_exact_witness :
  let c := Default in let key := "wifi:Coffee, Tea" in
  exists text, setMuted id None c key true = Ok (Some text) /\
    Muted (cf_Notify (Set_ id id id "notify.muted_networks" text c).2) key = false /\
    nc_MutedNetworks (cf_Notify (Set_ id id id "notify.muted_networks" text c).2) = ["wifi:Coffee"; "Tea"].
Proof.
  intros c key.
  destruct (mute_exact id id id None c key (proj1 Default_ok) eq_refl ltac:(vm_compute; reflexivity) eq_refl) as (text & Ht & H).
  exists text. split; [exact Ht|]. destruct (Set_ id id id "notify.muted_networks" text c) as [err c'].
  destruct H as (_ & -> & H). cbn [snd]. split.
  - apply not_true_is_false. intros Hm. apply H in Hm. vm_compute in Hm. discriminate.
  - vm_compute. reflexivity.
Defined.

Lemma Get_Set_roundtrip_witness :
  config_ok Default /\ config_valid Default /\
  (let '(err, c') := Set_ id id id "monitor.interval" " 1m30s " Default in
   err = None /\ Get id c' "monitor.interval" = Ok "1m30s") /\
  (exists text, Get id Default "monitor.anchors" = Ok text /\ Set_ id id id "monitor.anchors" text Default = (None, Default)).
Proof.
  destruct Default_ok as [Hok Hv]. split; [exact Hok|]. split; [exact Hv|]. split; [vm_compute; auto|].
  apply (Get_Set_roundtrip id id id Default "monitor.interval" "" Hok Hv).
  vm_compute. tauto.
Defined.
