(* ===== verification/Daemon.v ===== *)
(** internal/daemon/daemon.go: the daemon's state, the handlers of its run loop
    and its operations, over its ports.

    Every backend is a record of operations on an abstract world [W] about
    which nothing is assumed.  A handler is a program over the daemon and the
    world that logs what it does to the store, the stream, the notifier and the
    monitor, so that theorems speak about the log.  Handlers that hold [derMu]
    for a part of their body only are split there ([onNMChanges_locked]). *)

From S2P Require Import Prelude GoTime Core Errors GoStrings Deriver Registry Config.

(** ** Ports *)

Record NetworkManager (W : Type) := mkNetworkManager {
  nm_Status : W -> result error Status * W;
  nm_Devices : W -> result error (list Device) * W;
  nm_Profiles : W -> result error (list Profile) * W;
  nm_ActiveConnections : W -> result error (list ActiveConnection) * W;
  nm_WifiNetworks : string -> W -> result error (list WifiNetwork) * W;
  nm_Scan : string -> W -> option error * W;
  nm_ConnectWifi : ConnectWifiRequest -> W -> option error * W;
  nm_Activate : string -> string -> W -> option error * W;
  nm_Deactivate : string -> W -> option error * W;
  nm_DisconnectDevice : string -> W -> option error * W;
  nm_Forget : string -> W -> option error * W;
  nm_SetWifiEnabled : bool -> W -> option error * W;
  nm_SetAutoconnect : string -> bool -> W -> option error * W;
  nm_UpdateIPConfig : string -> option IPConfig -> option IPConfig -> W -> option error * W;
  nm_ImportVPN : string -> string -> W -> (string * option error) * W
}.

Record TailscaleControl (W : Type) := mkTailscaleControl {
  tl_SetExitNode : string -> bool -> W -> option error * W;
  tl_UseExitNode : bool -> W -> option error * W;
  tl_SetAcceptDNS : bool -> W -> option error * W;
  tl_Login : W -> (string * option error) * W;
  tl_Logout : W -> option error * W
}.

Record VPNRegistry (W : Type) := mkVPNRegistry {
  vr_List : W -> result error (list VPN) * W;
  vr_Connect : string -> W -> option error * W;
  vr_Disconnect : string -> W -> option error * W;
  vr_Tailscale : option (TailscaleControl W)
}.

Record MonitorPort (W : Type) := mkMonitorPort {
  mo_SetNetwork : string -> string -> W -> W;
  mo_Status : W -> MonitorStatus * W;
  mo_Pause : W -> W;
  mo_Resume : W -> W;
  mo_ResetBaseline : string -> W -> option error * W;
  mo_Samples : string -> string -> Z -> W -> result error (list Sample) * W
}.

Record StorePort (W : Type) := mkStorePort {
  st_AddEvent : Event -> W -> option error * W;
  st_Events : Z -> W -> result error (list Event) * W;
  st_Samples : string -> string -> Z -> W -> result error (list Sample) * W;
  st_AddSpeedResult : SpeedResult -> W -> option error * W;
  st_SpeedResults : string -> Z -> W -> result error (list SpeedResult) * W;
  st_Prune : W -> option error * W;
  st_Close : W -> option error * W
}.

(** A notifier, and the two optional methods the daemon asserts it to. *)
Record NotifierPort (W : Type) := mkNotifierPort {
  no_Notify : Event -> W -> option error * W;
  no_Deliver : option (Event -> W -> option error * W);
  no_SetPolicy : option (NotifyConfig -> W -> W)
}.

Record SecretBroker (W : Type) := mkSecretBroker {
  sb_Pending : W -> result error (list SecretRequest) * W;
  sb_Answer : string -> SecretAnswer -> W -> option error * W;
  sb_Cancel : string -> W -> option error * W
}.

(** The operating system, as the daemon uses it: the clock and files.  A
    temporary file is made with its content; an error comes with the step. *)
Record System (W : Type) := mkSystem {
  os_now : W -> Time * W;
  os_Open : string -> W -> result string string * W;
  os_Stat : string -> W -> option string * W;
  os_TempFile : string -> string -> W -> result (string * string) string * W;
  os_Remove : string -> W -> W
}.

Arguments nm_Status {W}. Arguments nm_Devices {W}. Arguments nm_Profiles {W}. Arguments nm_ActiveConnections {W}.
Arguments nm_WifiNetworks {W}. Arguments nm_Scan {W}. Arguments nm_ConnectWifi {W}. Arguments nm_Activate {W}.
Arguments nm_Deactivate {W}. Arguments nm_DisconnectDevice {W}. Arguments nm_Forget {W}. Arguments nm_SetWifiEnabled {W}.
Arguments nm_SetAutoconnect {W}. Arguments nm_UpdateIPConfig {W}. Arguments nm_ImportVPN {W}.
Arguments tl_SetExitNode {W}. Arguments tl_UseExitNode {W}. Arguments tl_SetAcceptDNS {W}. Arguments tl_Login {W}.
Arguments tl_Logout {W}.
Arguments vr_List {W}. Arguments vr_Connect {W}. Arguments vr_Disconnect {W}. Arguments vr_Tailscale {W}.
Arguments mo_SetNetwork {W}. Arguments mo_Status {W}. Arguments mo_Pause {W}. Arguments mo_Resume {W}.
Arguments mo_ResetBaseline {W}. Arguments mo_Samples {W}.
Arguments st_AddEvent {W}. Arguments st_Events {W}. Arguments st_Samples {W}. Arguments st_AddSpeedResult {W}.
Arguments st_SpeedResults {W}. Arguments st_Prune {W}. Arguments st_Close {W}.
Arguments no_Notify {W}. Arguments no_Deliver {W}. Arguments no_SetPolicy {W}.
Arguments sb_Pending {W}. Arguments sb_Answer {W}. Arguments sb_Cancel {W}.
Arguments os_now {W}. Arguments os_Open {W}. Arguments os_Stat {W}. Arguments os_TempFile {W}. Arguments os_Remove {W}.

(** [Options]: what is optional in the code is an [option]. *)
Record Options (W : Type) := mkOptions {
  o_NM : NetworkManager W;
  o_VPN : option (VPNRegistry W);
  o_Monitor : option (MonitorPort W);
  o_Store : StorePort W;
  o_Speed : option (SpeedOptions -> W -> (list SpeedProgress * result error SpeedResult) * W);   (* the progress it reported *)
  o_Notifier : option (NotifierPort W);
  o_WireGuard : option (string -> string -> W -> (string * option error) * W);
  o_Secrets : option (SecretBroker W);
  o_System : System W;
  o_Config : Config;
  o_Debounce : Duration;
  o_ConnectivityGrace : Duration
}.
Arguments o_NM {W}. Arguments o_VPN {W}. Arguments o_Monitor {W}. Arguments o_Store {W}. Arguments o_Speed {W}.
Arguments o_Notifier {W}. Arguments o_WireGuard {W}. Arguments o_Secrets {W}. Arguments o_System {W}.
Arguments o_Config {W}. Arguments o_Debounce {W}. Arguments o_ConnectivityGrace {W}.

(** ** State *)

Record Snapshot := mkSnapshot {
  sn_Version : Z;                 (* a uint64 *)
  sn_UpdatedAt : Time;
  sn_Status : Status;
  sn_Devices : list Device;
  sn_Wifi : list WifiNetwork;
  sn_Profiles : list Profile;
  sn_Active : list ActiveConnection;
  sn_VPNs : list VPN;
  sn_Monitor : MonitorStatus
}.

Definition Status_zero : Status := mkStatus "" "" false false false None "" "" ∅.
Definition MonitorStatus_zero : MonitorStatus := mkMonitorStatus "" "" [] 0 0 false.
Definition Snapshot_zero : Snapshot := mkSnapshot 0 0 Status_zero [] [] [] [] [] MonitorStatus_zero.

Inductive StreamItem := IChange (c : Change) | IEvent (e : Event).

Record Daemon := mkDaemon {
  dm_snap : Snapshot;
  dm_der : deriver;
  dm_lastNet : string * string;
  dm_netSet : bool;
  dm_notifyCh : list Event;          (* at most [notifyBuffer] *)
  dm_bus : bus StreamItem;
  dm_speedRunning : bool;
  dm_cfg : Config;
  dm_timer : option Time;            (* when the run loop's timer fires *)
  dm_wake : bool;                    (* the wake channel holds its one token *)
  dm_started : Time
}.

Definition notifyBuffer : nat := 64.

Definition set_snap (x : Snapshot) (d : Daemon) : Daemon :=
  mkDaemon x (dm_der d) (dm_lastNet d) (dm_netSet d) (dm_notifyCh d) (dm_bus d) (dm_speedRunning d) (dm_cfg d) (dm_timer d) (dm_wake d) (dm_started d).
Definition set_der (x : deriver) (d : Daemon) : Daemon :=
  mkDaemon (dm_snap d) x (dm_lastNet d) (dm_netSet d) (dm_notifyCh d) (dm_bus d) (dm_speedRunning d) (dm_cfg d) (dm_timer d) (dm_wake d) (dm_started d).
Definition set_net (x : string * string) (d : Daemon) : Daemon :=
  mkDaemon (dm_snap d) (dm_der d) x true (dm_notifyCh d) (dm_bus d) (dm_speedRunning d) (dm_cfg d) (dm_timer d) (dm_wake d) (dm_started d).
Definition set_notifyCh (x : list Event) (d : Daemon) : Daemon :=
  mkDaemon (dm_snap d) (dm_der d) (dm_lastNet d) (dm_netSet d) x (dm_bus d) (dm_speedRunning d) (dm_cfg d) (dm_timer d) (dm_wake d) (dm_started d).
Definition set_bus (x : bus StreamItem) (d : Daemon) : Daemon :=
  mkDaemon (dm_snap d) (dm_der d) (dm_lastNet d) (dm_netSet d) (dm_notifyCh d) x (dm_speedRunning d) (dm_cfg d) (dm_timer d) (dm_wake d) (dm_started d).
Definition set_speedRunning (x : bool) (d : Daemon) : Daemon :=
  mkDaemon (dm_snap d) (dm_der d) (dm_lastNet d) (dm_netSet d) (dm_notifyCh d) (dm_bus d) x (dm_cfg d) (dm_timer d) (dm_wake d) (dm_started d).
Definition set_cfg (x : Config) (d : Daemon) : Daemon :=
  mkDaemon (dm_snap d) (dm_der d) (dm_lastNet d) (dm_netSet d) (dm_notifyCh d) (dm_bus d) (dm_speedRunning d) x (dm_timer d) (dm_wake d) (dm_started d).
Definition set_timer (x : option Time) (d : Daemon) : Daemon :=
  mkDaemon (dm_snap d) (dm_der d) (dm_lastNet d) (dm_netSet d) (dm_notifyCh d) (dm_bus d) (dm_speedRunning d) (dm_cfg d) x (dm_wake d) (dm_started d).
Definition set_wake (x : bool) (d : Daemon) : Daemon :=
  mkDaemon (dm_snap d) (dm_der d) (dm_lastNet d) (dm_netSet d) (dm_notifyCh d) (dm_bus d) (dm_speedRunning d) (dm_cfg d) (dm_timer d) x (dm_started d).

(** What a handler did. *)
Inductive act :=
| AStore (e : Event) (err : option error)
| APublish (i : StreamItem)
| AQueue (e : Event) (dropped : bool)
| ASetNetwork (key gw : string)
| ANotify (e : Event) (err : option error).

Section Daemon.
Context {W : Type} (o : Options W).

(** ** Programs *)

Definition M (A : Type) : Type := Daemon * W -> A * list act * (Daemon * W).

Definition ret {A} (a : A) : M A := fun s => (a, [], s).
Definition bind {A B} (m : M A) (f : A -> M B) : M B := fun s =>
  let '(a, l, s') := m s in let '(b, l', s'') := f a s' in (b, l ++ l', s'').
Definition get : M Daemon := fun '(d, w) => (d, [], (d, w)).
Definition modify (f : Daemon -> Daemon) : M unit := fun '(d, w) => (tt, [], (f d, w)).
Definition call {A} (f : W -> A * W) : M A := fun '(d, w) => let '(a, w') := f w in (a, [], (d, w')).
Definition log (a : act) : M unit := fun s => (tt, [a], s).

Local Notation "x <-! m ;; k" := (bind m (fun x => k)) (at level 60, m at next level, right associativity).
Local Notation "m ;;! k" := (bind m (fun _ => k)) (at level 60, right associativity).

Definition now : M Time := call (os_now (o_System o)).

Fixpoint for_each {A} (l : list A) (f : A -> M unit) : M unit :=
  match l with [] => ret tt | x :: l' => f x ;;! for_each l' f end.

(** ** The snapshot *)

(** [bump]: the version is a uint64. *)
Definition bump (t : Time) (s : Snapshot) : Snapshot :=
  mkSnapshot ((sn_Version s + 1) mod 2 ^ 64) t (sn_Status s) (sn_Devices s) (sn_Wifi s) (sn_Profiles s) (sn_Active s)
    (sn_VPNs s) (sn_Monitor s).

Definition update_snap (f : Snapshot -> Snapshot) : M unit :=
  t <-! now ;; modify (fun d => set_snap (bump t (f (dm_snap d))) d).

Definition with_NetworkKey (key : string) (s : Status) : Status :=
  mkStatus (st_NMState s) (st_Connectivity s) (st_Networking s) (st_WifiEnabled s) (st_WifiHardware s) (st_Primary s) key
    (st_NMVersion s) (st_Permissions s).

Definition fill_key (status : Status) (profiles : list Profile) : Status :=
  match st_Primary status with
  | Some p => if st_NetworkKey status =?s "" then with_NetworkKey (NetworkKey (Some p) profiles) status else status
  | None => status
  end.

(** The fields [refreshNM] replaces, before the bump. *)
Definition with_nm (status : Status) (devices : list Device) (profiles : list Profile) (active : list ActiveConnection)
    (nets : option (list WifiNetwork)) (s : Snapshot) : Snapshot :=
  mkSnapshot (sn_Version s) (sn_UpdatedAt s) status devices (match nets with Some n => n | None => sn_Wifi s end) profiles
    active (sn_VPNs s) (sn_Monitor s).

(** [fmt.Errorf("status: %w", err)] *)
Definition prefixed (what : string) (e : error) : error := EWrap (what +:+ ": " +:+ ErrorString e) [e].

Definition refreshNM (wifi : bool) : M (option error) :=
  let nm := o_NM o in
  status <-! call (nm_Status nm) ;;
  match status with
  | Err e => ret (Some (prefixed "status" e))
  | Ok status =>
  devices <-! call (nm_Devices nm) ;;
  match devices with
  | Err e => ret (Some (prefixed "devices" e))
  | Ok devices =>
  profiles <-! call (nm_Profiles nm) ;;
  match profiles with
  | Err e => ret (Some (prefixed "profiles" e))
  | Ok profiles =>
  active <-! call (nm_ActiveConnections nm) ;;
  match active with
  | Err e => ret (Some (prefixed "active" e))
  | Ok active =>
  nets <-! (if wifi then r <-! call (nm_WifiNetworks nm "") ;; ret (Some (match r with Ok l => l | Err _ => [] end))
            else ret None) ;;
  update_snap (with_nm (fill_key status profiles) devices profiles active nets) ;;! ret None
  end end end end.

Definition with_vpns (vpns : list VPN) (s : Snapshot) : Snapshot :=
  mkSnapshot (sn_Version s) (sn_UpdatedAt s) (sn_Status s) (sn_Devices s) (sn_Wifi s) (sn_Profiles s) (sn_Active s) vpns
    (sn_Monitor s).
Definition with_monitor (st : MonitorStatus) (s : Snapshot) : Snapshot :=
  mkSnapshot (sn_Version s) (sn_UpdatedAt s) (sn_Status s) (sn_Devices s) (sn_Wifi s) (sn_Profiles s) (sn_Active s)
    (sn_VPNs s) st.

(** A failed listing keeps the old VPNs. *)
Definition refreshVPN : M unit :=
  match o_VPN o with
  | None => ret tt
  | Some r =>
      vpns <-! call (vr_List r) ;;
      match vpns with Err _ => ret tt | Ok vpns => update_snap (with_vpns vpns) end
  end.

Definition refreshMonitor : M unit :=
  match o_Monitor o with
  | None => ret tt
  | Some m => st <-! call (mo_Status m) ;; update_snap (with_monitor st)
  end.

Definition dview (d : Daemon) : view := mkView (sn_Status (dm_snap d)) (sn_Profiles (dm_snap d)) (sn_VPNs (dm_snap d)).

(** ** Deriving *)

(** [d.der.apply(d.view(), d.now())] and [d.der.flush(d.now())] *)
Definition apply : M (list Event) :=
  d <-! get ;; t <-! now ;;
  let '(der, evs) := apply_ (dview d) t (dm_der d) in
  modify (set_der der) ;;! ret evs.

Definition flush_now : M (list Event) :=
  d <-! get ;; t <-! now ;;
  let '(der, evs) := flush t (dm_der d) in
  modify (set_der der) ;;! ret evs.

Definition net_eqb (a b : string * string) : bool := (a.1 =?s b.1) && (a.2 =?s b.2).

Definition syncMonitorNetwork : M unit :=
  match o_Monitor o with
  | None => ret tt
  | Some m =>
      d <-! get ;;
      let net := monitorNetwork (dm_der d) in
      if dm_netSet d && net_eqb (dm_lastNet d) net then ret tt
      else
        modify (set_net net) ;;!
        call (fun w => (tt, mo_SetNetwork m net.1 net.2 w)) ;;!
        log (ASetNetwork net.1 net.2)
  end.

(** ** Events *)

Definition publish_item (i : StreamItem) : M unit :=
  modify (fun d => set_bus (publish i (dm_bus d)) d) ;;! log (APublish i).

(** A send that is dropped when the queue is full. *)
Definition queue_event (e : Event) : M unit :=
  d <-! get ;;
  if Nat.ltb (length (dm_notifyCh d)) notifyBuffer
  then modify (fun d => set_notifyCh (dm_notifyCh d ++ [e]) d) ;;! log (AQueue e false)
  else log (AQueue e true).

Definition emit_event (e : Event) : M unit :=
  err <-! call (st_AddEvent (o_Store o) e) ;;
  log (AStore e err) ;;!
  publish_item (IEvent e) ;;!
  match o_Notifier o with Some _ => queue_event e | None => ret tt end.

Definition emitEvents (evs : list Event) : M unit := for_each evs emit_event.

(** One round of [notifyLoop]. *)
Definition notify_one : M unit :=
  d <-! get ;;
  match dm_notifyCh d, o_Notifier o with
  | e :: rest, Some n =>
      modify (set_notifyCh rest) ;;! err <-! call (no_Notify n e) ;; log (ANotify e err)
  | _, _ => ret tt
  end.

(** ** The run loop *)

Definition armTimer : M unit :=
  d <-! get ;;
  match nextDeadline (dm_der d) with
  | None => modify (set_timer None)
  | Some deadline =>
      t <-! now ;;
      let wait := time_Sub deadline t in
      modify (set_timer (Some (time_Add t (if wait <? 0 then 0 else wait))))
  end.

(** Up to 64 hints that are buffered behind the first. *)
Definition drainChanges (buffered : list Change) : list Change * list Change := (take 64 buffered, drop 64 buffered).

Definition onNMChanges_locked (changes : list Change) : M (list Event) :=
  let needWifi := existsb (fun c => (ch_Kind c =?s ChangeWifi) || (ch_Kind c =?s ChangeDevices) || (ch_Kind c =?s ChangeStatus)) changes in
  refreshNM needWifi ;;! evs <-! apply ;; syncMonitorNetwork ;;! ret evs.

Definition onNMChanges (changes : list Change) : M unit :=
  evs <-! onNMChanges_locked changes ;; for_each changes (fun c => publish_item (IChange c)) ;;! emitEvents evs.

Definition default_kind (k : ChangeKind) (c : Change) : Change := if ch_Kind c =?s "" then mkChange k (ch_Path c) else c.

Definition onVPNChanges_locked : M (list Event) := refreshVPN ;;! apply.

Definition onVPNChanges (changes : list Change) : M unit :=
  evs <-! onVPNChanges_locked ;;
  for_each changes (fun c => publish_item (IChange (default_kind ChangeVPN c))) ;;! emitEvents evs.

Definition onMonitorChange (c : Change) : M unit :=
  refreshMonitor ;;! publish_item (IChange (default_kind ChangeMonitor c)).

(** The gaps of a monitor event filled in. *)
Definition fill_event (t : Time) (key : string) (e : Event) : Event :=
  let title :=
    if ev_Title e =?s "" then
      if ev_Type e =?s EventDegraded then "Network degraded"
      else if ev_Type e =?s EventRecovered then "Network recovered"
      else ev_Type e
    else ev_Title e in
  let urgency :=
    if ev_Urgency e =?s "" then (if ev_Type e =?s EventDegraded then "normal" else "low") else ev_Urgency e in
  mkEvent (if time_IsZero (ev_Time e) then t else ev_Time e) (ev_Type e)
    (if ev_NetworkKey e =?s "" then key else ev_NetworkKey e) title (ev_Body e) urgency (ev_Data e).

Definition onMonitorEvent (e : Event) : M unit :=
  t <-! (if time_IsZero (ev_Time e) then now else ret 0) ;;
  d <-! get ;;
  refreshMonitor ;;!
  emitEvents [fill_event t (st_NetworkKey (sn_Status (dm_snap d))) e].

(** The timer fires. *)
Definition onTimer_locked : M (list Event) := evs <-! flush_now ;; syncMonitorNetwork ;;! ret evs.
Definition onTimer : M unit :=
  modify (set_timer None) ;;! evs <-! onTimer_locked ;; emitEvents evs ;;! armTimer.

Definition onPrune : M unit := call (st_Prune (o_Store o)) ;;! ret tt.

Definition initialRead : M (option error) :=
  err <-! refreshNM true ;;
  match err with
  | Some e => ret (Some (prefixed "daemon: initial read" e))
  | None =>
      refreshVPN ;;! refreshMonitor ;;!
      evs <-! apply ;; syncMonitorNetwork ;;! emitEvents evs ;;! ret None
  end.

(** ** Refresh and mutate *)

Definition Refresh_locked : M (list Event) :=
  refreshNM true ;;! refreshVPN ;;! refreshMonitor ;;! evs <-! apply ;; syncMonitorNetwork ;;! ret evs.

Definition Refresh : M unit :=
  evs <-! Refresh_locked ;; emitEvents evs ;;! modify (set_wake true).

Definition mutate {A} (fn : M (A * option error)) : M (A * option error) :=
  r <-! fn ;;
  match r.2 with
  | Some e => ret (r.1, Some e)
  | None => Refresh ;;! ret (r.1, None)
  end.

(** A write that returns an error only. *)
Definition mutate_ (f : W -> option error * W) : M (option error) :=
  r <-! mutate (err <-! call f ;; ret (tt, err)) ;; ret r.2.

(** One round of the [select] of [Run]. *)
Inductive input :=
| INM (c : Change) (buffered : list Change)      (* a hint, and those behind it *)
| IVPN (c : Change) (buffered : list Change)
| IMonChange (c : Change)
| IMonEvent (e : Event)
| ITimer
| IWake
| IPrune
| INotify                                        (* the notify goroutine *)
| IRefresh.                                      (* an API operation's *)

Definition step (i : input) : M unit :=
  match i with
  | INM c buffered => onNMChanges (c :: (drainChanges buffered).1) ;;! armTimer
  | IVPN c buffered => onVPNChanges (c :: (drainChanges buffered).1) ;;! armTimer
  | IMonChange c => onMonitorChange c
  | IMonEvent e => onMonitorEvent e
  | ITimer => onTimer
  | IWake => modify (set_wake false) ;;! armTimer
  | IPrune => onPrune
  | INotify => notify_one
  | IRefresh => Refresh
  end.

Definition run (l : list input) : M unit := for_each l step.

(** [New]: 0 is the default duration; a negative one stays and means none. *)
Definition new_daemon (started : Time) : Daemon :=
  let deb := if o_Debounce o =? 0 then DefaultDebounce else o_Debounce o in
  let grace := if o_ConnectivityGrace o =? 0 then DefaultConnectivityGrace else o_ConnectivityGrace o in
  mkDaemon Snapshot_zero (newDeriver deb grace) ("", "") false [] newBus false (o_Config o) None false started.
End Daemon.
