(* ===== verification/DaemonOps.v ===== *)
(** internal/daemon/daemon.go: the operations the API serves: reads of the
    snapshot, writes that refresh it, VPN imports, the monitor, speed tests,
    the configuration and secrets. *)

From S2P Require Import Prelude GoTime Core Errors GoStrings Deriver Registry Config Daemon.

(** ** Diagnostics *)

Definition errDiagUnsupported (what : string) : error :=
  Errorf KindUnsupported "" ("diag: " +:+ what +:+ " is not available in this build").

(** [DiagFuncs]: plain functions; a nil one is unsupported. *)
Record DiagFuncs (W : Type) := mkDiagFuncs {
  LANHostsFn : option (string -> bool -> W -> (list LANHost * option error) * W);
  ListeningPortsFn : option (W -> result error (list ListeningPort) * W);
  RoutesFn : option (W -> result error (list Route) * W);
  DNSLookupFn : option (string -> string -> string -> W -> result error DNSAnswer * W);
  PublicIPFn : option (W -> result error PublicIP * W);
  InfraFn : option (W -> result error (list InfraNetwork) * W)
}.
Arguments LANHostsFn {W}. Arguments ListeningPortsFn {W}. Arguments RoutesFn {W}. Arguments DNSLookupFn {W}.
Arguments PublicIPFn {W}. Arguments InfraFn {W}.

Section Diag.
Context {W : Type} (f : DiagFuncs W).

Definition diag_LANHosts (device : string) (sweep : bool) (w : W) : (list LANHost * option error) * W :=
  match LANHostsFn f with Some fn => fn device sweep w | None => (([], Some (errDiagUnsupported "lan")), w) end.
Definition diag_ListeningPorts (w : W) : result error (list ListeningPort) * W :=
  match ListeningPortsFn f with Some fn => fn w | None => (Err (errDiagUnsupported "ports"), w) end.
Definition diag_Routes (w : W) : result error (list Route) * W :=
  match RoutesFn f with Some fn => fn w | None => (Err (errDiagUnsupported "routes"), w) end.
Definition diag_DNSLookup (name server qtype : string) (w : W) : result error DNSAnswer * W :=
  match DNSLookupFn f with Some fn => fn name server qtype w | None => (Err (errDiagUnsupported "dns"), w) end.
Definition diag_PublicIP (w : W) : result error PublicIP * W :=
  match PublicIPFn f with Some fn => fn w | None => (Err (errDiagUnsupported "public-ip"), w) end.
Definition diag_Infra (w : W) : result error (list InfraNetwork) * W :=
  match InfraFn f with Some fn => fn w | None => (Err (errDiagUnsupported "infra"), w) end.
End Diag.

(** ** Reads of the snapshot *)

Definition Wifi (Quote : string -> string) (s : Snapshot) (device : string) : result error (list WifiNetwork) :=
  if device =?s "" then Ok (sn_Wifi s)
  else
    let named := List.filter (fun dev => dev_Name dev =?s device) (sn_Devices s) in
    match List.find (fun dev => negb (dev_Kind dev =?s DeviceWifi)) named with
    | Some _ => Err (Errorf KindInvalid "" ("daemon: " +:+ device +:+ " is not a Wi-Fi device"))
    | None =>
        match named with
        | [] => Err (Errorf KindNotFound "run `bnm devices`" ("daemon: device " +:+ Quote device +:+ " not found"))
        | _ => Ok (List.filter (fun w => wn_Device w =?s device) (sn_Wifi s))
        end
    end.

Definition Profile_of (s : Snapshot) (uuid : string) : result error Profile :=
  match List.find (fun p => pf_UUID p =?s uuid) (sn_Profiles s) with
  | Some p => Ok p
  | None => Err (Errorf KindNotFound "run `bnm profiles`" ("daemon: profile " +:+ uuid +:+ " not found"))
  end.

(** ** Secrets: events and their texts *)

Definition secretNetworkKey (req : SecretRequest) : string :=
  if negb (sq_SSID req =?s "") then "wifi:" +:+ sq_SSID req
  else if sq_VPN req && negb (sq_ConnectionUUID req =?s "") then "vpn:" +:+ sq_ConnectionUUID req
  else if negb (sq_ConnectionUUID req =?s "") then "conn:" +:+ sq_ConnectionUUID req
  else "".

Definition secretBody (req : SecretRequest) : string :=
  let what := Join (map sf_Label (sq_Fields req)) ", " in
  let what := if what =?s "" then "Password" else what in
  let about :=
    if sq_VPN req && negb (sq_VPNKind req =?s "") then " for the " +:+ sq_VPNKind req +:+ " VPN"
    else if negb (sq_SSID req =?s "") then " for " +:+ sq_SSID req
    else "" in
  what +:+ about +:+ (if sq_RequestNew req then " (the previous one was rejected)" else "") +:+ "." +:+
  (if negb (sq_Message req =?s "") then " " +:+ sq_Message req else "") +:+ " run: bnm secrets".

(** The last of the given assignments to a key wins. *)
Definition secretNeededEvent (req : SecretRequest) (t : Time) : Event :=
  let name := sq_ConnectionName req in
  let name := if name =?s "" then sq_SSID req else name in
  let name := if name =?s "" then sq_ConnectionUUID req else name in
  let data : gmap string string :=
    <["request_id" := sq_ID req]> (<["connection_uuid" := sq_ConnectionUUID req]> {["connection_name" := sq_ConnectionName req]}) in
  let data := if negb (sq_SSID req =?s "") then <["ssid" := sq_SSID req]> data else data in
  let data := if sq_VPN req then <["vpn" := "true"]> data else data in
  mkEvent t EventSecretNeeded (secretNetworkKey req) ("Password needed for " +:+ name) (secretBody req) "normal" data.

Definition secretResolvedEvent (id : string) (outcome : SecretOutcome) (t : Time) : Event :=
  mkEvent t EventSecretResolved ""
    (if outcome =?s SecretTimeout then "Password prompt timed out" else "Password prompt " +:+ outcome) "" "low"
    (<["request_id" := id]> {["outcome" := outcome]}).

(** ** Paths *)

(** [filepath.Base]. *)
Fixpoint strip_slashes (fuel : nat) (s : string) : string :=
  match fuel with
  | O => s
  | S fuel' => if HasSuffix s "/" then strip_slashes fuel' (TrimSuffix s "/") else s
  end.

Definition Base (path : string) : string :=
  if path =?s "" then "."
  else
    let p := strip_slashes (String.length path) path in
    let p := match CutLast p "/" with Some (_, b) => b | None => p end in
    if p =?s "" then "/" else p.

Example base_sample : map Base ["/home/ann/office.conf"; "office.ovpn"; "dir//"; "//"; ""] = ["office.conf"; "office.ovpn"; "dir"; "/"; "."].
Proof. vm_compute. reflexivity. Qed.

Section Ops.
Context {W : Type} (o : Options W).

Local Notation "x <-! m ;; k" := (bind m (fun x => k)) (at level 60, m at next level, right associativity).
Local Notation "m ;;! k" := (bind m (fun _ => k)) (at level 60, right associativity).
Local Abbreviation M := (M (W := W)).

Definition unsupported (msg : string) : option error := Some (Errorf KindUnsupported "" msg).
Definition invalid_request (msg : string) : option error := Some (Errorf KindInvalid "" msg).

(** ** Wi-Fi and profiles *)

Definition ScanWifi (device : string) : M (option error) := mutate_ o (nm_Scan (o_NM o) device).

Definition ConnectWifi (req : ConnectWifiRequest) : M (option error) :=
  if cw_SSID req =?s "" then ret (invalid_request "daemon: ssid is required")
  else mutate_ o (nm_ConnectWifi (o_NM o) req).

(** No device named: the first Wi-Fi device of the snapshot. *)
Definition DisconnectDevice (device : string) : M (option error) :=
  d <-! get ;;
  let device :=
    if device =?s ""
    then match List.find (fun dev => dev_Kind dev =?s DeviceWifi) (sn_Devices (dm_snap d)) with
         | Some dev => dev_Name dev
         | None => ""
         end
    else device in
  if device =?s "" then ret (Some (Errorf KindNotFound "" "daemon: no Wi-Fi device"))
  else mutate_ o (nm_DisconnectDevice (o_NM o) device).

Definition Forget (uuid : string) : M (option error) :=
  if uuid =?s "" then ret (invalid_request "daemon: uuid is required") else mutate_ o (nm_Forget (o_NM o) uuid).

Definition SetWifiEnabled (on : bool) : M (option error) := mutate_ o (nm_SetWifiEnabled (o_NM o) on).

Definition UpdateIPConfig (uuid : string) (ipv4 ipv6 : option IPConfig) : M (option error) :=
  match ipv4, ipv6 with
  | None, None => ret (invalid_request "daemon: ipv4 or ipv6 is required")
  | _, _ => mutate_ o (nm_UpdateIPConfig (o_NM o) uuid ipv4 ipv6)
  end.

Definition Activate (uuid device : string) : M (option error) := mutate_ o (nm_Activate (o_NM o) uuid device).
Definition Deactivate (uuid : string) : M (option error) := mutate_ o (nm_Deactivate (o_NM o) uuid).
Definition SetAutoconnect (uuid : string) (on : bool) : M (option error) := mutate_ o (nm_SetAutoconnect (o_NM o) uuid on).
Definition DeleteProfile (uuid : string) : M (option error) := mutate_ o (nm_Forget (o_NM o) uuid).

(** ** VPN *)

Definition with_vpn_port (f : VPNRegistry W -> M (option error)) : M (option error) :=
  match o_VPN o with
  | None => ret (unsupported "daemon: no VPN backends in this build")
  | Some r => f r
  end.

Definition ConnectVPN (id : string) : M (option error) := with_vpn_port (fun r => mutate_ o (vr_Connect r id)).
Definition DisconnectVPN (id : string) : M (option error) := with_vpn_port (fun r => mutate_ o (vr_Disconnect r id)).

Definition with_tailscale (f : TailscaleControl W -> M (option error)) : M (option error) :=
  with_vpn_port (fun r =>
    match vr_Tailscale r with
    | None => ret (Some (Errorf KindUnsupported "install tailscale and start tailscaled" "daemon: Tailscale is not available"))
    | Some tc => f tc
    end).

Definition SetExitNode (peer : string) (allowLAN : bool) : M (option error) :=
  with_tailscale (fun tc => mutate_ o (tl_SetExitNode tc peer allowLAN)).
Definition UseExitNode (on : bool) : M (option error) := with_tailscale (fun tc => mutate_ o (tl_UseExitNode tc on)).
Definition TailscaleLogout : M (option error) := with_tailscale (fun tc => mutate_ o (tl_Logout tc)).
Definition SetAcceptDNS (on : bool) : M (option error) := with_tailscale (fun tc => mutate_ o (tl_SetAcceptDNS tc on)).

(** The URL comes back even with an error, as [Login] gave it. *)
Definition TailscaleLogin : M (string * option error) :=
  match o_VPN o with
  | None => ret ("", unsupported "daemon: no VPN backends in this build")
  | Some r =>
      match vr_Tailscale r with
      | None => ret ("", Some (Errorf KindUnsupported "install tailscale and start tailscaled" "daemon: Tailscale is not available"))
      | Some tc => mutate o (call (tl_Login tc))
      end
  end.

Record ImportVPNRequest := mkImportVPNRequest { iv_Kind : string; iv_Name : string; iv_Path : string; iv_Content : string }.
Record ImportVPNResult := mkImportVPNResult {
  ir_ID : string; ir_UUID : string; ir_Name : string; ir_Kind : string; ir_VPN : option VPN
}.

Definition ImportVPNResult_zero : ImportVPNResult := mkImportVPNResult "" "" "" "" None.

(** The name of the profile: asked for, or the file's without its extension. *)
Definition import_name (req : ImportVPNRequest) : string :=
  if (iv_Name req =?s "") && negb (iv_Path req =?s "")
  then TrimSuffix (TrimSuffix (Base (iv_Path req)) ".conf") ".ovpn"
  else iv_Name req.

(** The answer, read from the refreshed snapshot; the last VPN of that id. *)
Definition import_result (uuid name kind : string) (s : Snapshot) : ImportVPNResult :=
  let name := match Profile_of s uuid with Ok p => pf_Name p | Err _ => name end in
  mkImportVPNResult uuid uuid name (ToLower kind)
    (fold_left (fun found v => if vpn_ID v =?s uuid then Some v else found) (sn_VPNs s) None).

Definition import_answer (name kind : string) (r : string * option error) : M (ImportVPNResult * option error) :=
  match r.2 with
  | Some e => ret (ImportVPNResult_zero, Some e)
  | None => d <-! get ;; ret (import_result r.1 name kind (dm_snap d), None)
  end.

Definition import_failed (e : error) : M (ImportVPNResult * option error) := ret (ImportVPNResult_zero, Some e).

Definition import_wireguard (req : ImportVPNRequest) (name : string) : M (ImportVPNResult * option error) :=
  match o_WireGuard o with
  | None => import_failed (Errorf KindUnsupported "" "daemon: WireGuard import is not wired in this build")
  | Some importer =>
      if name =?s "" then import_failed (Errorf KindInvalid "" "daemon: name is required for inline WireGuard content")
      else
        conf <-! (if negb (iv_Content req =?s "") then ret (Ok (iv_Content req)) else call (os_Open (o_System o) (iv_Path req))) ;;
        match conf with
        | Err e => import_failed (ECore None KindNotFound "" ""
                     (Some (EWrap ("daemon: open " +:+ iv_Path req +:+ ": " +:+ e) [ELeaf e])))
        | Ok conf => r <-! mutate o (call (importer name conf)) ;; import_answer name (iv_Kind req) r
        end
  end.

(** Inline content goes through a temporary file, removed in the end. *)
Definition import_openvpn (req : ImportVPNRequest) (name : string) : M (ImportVPNResult * option error) :=
  if negb (iv_Content req =?s "") then
    let name := if name =?s "" then "imported" else name in
    tmp <-! call (os_TempFile (o_System o) (name +:+ "-*.ovpn") (iv_Content req)) ;;
    match tmp with
    | Err (what, e) => import_failed (EWrap ("daemon: " +:+ what +:+ ": " +:+ e) [ELeaf e])
    | Ok path =>
        r <-! mutate o (call (nm_ImportVPN (o_NM o) "openvpn" path)) ;;
        a <-! import_answer name (iv_Kind req) r ;;
        call (fun w => (tt, os_Remove (o_System o) path w)) ;;! ret a
    end
  else
    err <-! call (os_Stat (o_System o) (iv_Path req)) ;;
    match err with
    | Some e => import_failed (ECore None KindNotFound "" "" (Some (EWrap ("daemon: " +:+ iv_Path req +:+ ": " +:+ e) [ELeaf e])))
    | None => r <-! mutate o (call (nm_ImportVPN (o_NM o) "openvpn" (iv_Path req))) ;; import_answer name (iv_Kind req) r
    end.

Definition ImportVPN (Quote : string -> string) (req : ImportVPNRequest) : M (ImportVPNResult * option error) :=
  if (iv_Path req =?s "") && (iv_Content req =?s "") then import_failed (Errorf KindInvalid "" "daemon: path or content is required")
  else if negb (iv_Path req =?s "") && negb (iv_Content req =?s "")
  then import_failed (Errorf KindInvalid "" "daemon: give path or content, not both")
  else
    let name := import_name req in
    let kind := ToLower (iv_Kind req) in
    if (kind =?s "wireguard") || (kind =?s "wg") then import_wireguard req name
    else if (kind =?s "openvpn") || (kind =?s "ovpn") then import_openvpn req name
    else import_failed (Errorf KindInvalid "" ("daemon: kind must be wireguard or openvpn, got " +:+ Quote (iv_Kind req))).

(** ** Monitor *)

Definition no_monitor : error := Errorf KindUnsupported "" "daemon: monitor is not wired in this build".

Definition Samples (key anchor : string) (limit : Z) : M (result error (list Sample)) :=
  d <-! get ;;
  let key := if key =?s "" then ms_NetworkKey (sn_Monitor (dm_snap d)) else key in
  let key := if key =?s "" then st_NetworkKey (sn_Status (dm_snap d)) else key in
  match o_Monitor o with
  | Some m => call (mo_Samples m key anchor limit)
  | None => call (st_Samples (o_Store o) key anchor limit)
  end.

Definition ResetBaseline (key : string) : M (option error) :=
  match o_Monitor o with
  | None => ret (Some no_monitor)
  | Some m =>
      d <-! get ;;
      let key := if key =?s "" then st_NetworkKey (sn_Status (dm_snap d)) else key in
      if key =?s "" then ret (invalid_request "daemon: no network key given and nothing is connected")
      else
        err <-! call (mo_ResetBaseline m key) ;;
        match err with
        | Some e => ret (Some e)
        | None => refreshMonitor o ;;! publish_item (IChange (mkChange ChangeMonitor key)) ;;! ret None
        end
  end.

Definition PauseMonitor : M (option error) :=
  match o_Monitor o with
  | None => ret (Some no_monitor)
  | Some m => call (fun w => (tt, mo_Pause m w)) ;;! refreshMonitor o ;;! ret None
  end.

Definition ResumeMonitor : M (option error) :=
  match o_Monitor o with
  | None => ret (Some no_monitor)
  | Some m => call (fun w => (tt, mo_Resume m w)) ;;! refreshMonitor o ;;! ret None
  end.

(** ** Speed tests *)

(** The flag is taken, and the options completed from the configuration and the
    snapshot; [None] while another test runs. *)
Definition speed_options (d : Daemon) (opts : SpeedOptions) : SpeedOptions :=
  let cfg := cf_Speed (dm_cfg d) in
  let provider := if so_Provider opts =?s "" then sc_Provider cfg else so_Provider opts in
  let server := if (so_Server opts =?s "") && (provider =?s "iperf3") then sc_Iperf3Server cfg else so_Server opts in
  mkSpeedOptions provider server (so_Quick opts) (if so_MaxBytes opts =? 0 then sc_MaxBytes cfg else so_MaxBytes opts)
    (if so_NetworkKey opts =?s "" then st_NetworkKey (sn_Status (dm_snap d)) else so_NetworkKey opts).

Definition speed_begin (opts : SpeedOptions) : M (option SpeedOptions) :=
  d <-! get ;;
  if dm_speedRunning d then ret None
  else modify (set_speedRunning true) ;;! ret (Some (speed_options d opts)).

Definition speed_end : M unit := modify (set_speedRunning false).

Definition with_result_key (t : Time) (key : string) (r : SpeedResult) : SpeedResult :=
  mkSpeedResult (if time_IsZero (sr_Time r) then t else sr_Time r) (if sr_NetworkKey r =?s "" then key else sr_NetworkKey r)
    (sr_Provider r) (sr_Server r) (sr_DownloadMbps r) (sr_UploadMbps r) (sr_LatencyMs r) (sr_JitterMs r) (sr_BytesMoved r)
    (sr_Duration r) (sr_Quick r).

(** The progress reported, and the result. *)
Definition RunSpeed (opts : SpeedOptions) : M (list SpeedProgress * result error SpeedResult) :=
  match o_Speed o with
  | None => ret ([], Err (Errorf KindUnsupported "" "daemon: speed test is not wired in this build"))
  | Some speed =>
      begun <-! speed_begin opts ;;
      match begun with
      | None => ret ([], Err (Errorf KindConflict "wait for it to finish" "daemon: a speed test is already running"))
      | Some opts =>
          res <-! call (speed opts) ;;
          match res.2 with
          | Err e => speed_end ;;! ret (res.1, Err e)
          | Ok r =>
              t <-! (if time_IsZero (sr_Time r) then now o else ret 0) ;;
              let r := with_result_key t (so_NetworkKey opts) r in
              call (st_AddSpeedResult (o_Store o) r) ;;! speed_end ;;! ret (res.1, Ok r)
          end
      end
  end.

Definition SpeedHistory (key : string) (limit : Z) : M (result error (list SpeedResult)) := call (st_SpeedResults (o_Store o) key limit).
Definition Events (limit : Z) : M (result error (list Event)) := call (st_Events (o_Store o) limit).

(** ** Configuration *)

(** [SetConfig], with the write of the file as an argument. *)
Definition SetConfig (Quote duration_error int_error : string -> string) (save : Config -> W -> option error * W)
    (key val : string) : M (result error Config) :=
  d <-! get ;;
  match Set_ Quote duration_error int_error key val (dm_cfg d) with
  | (Some e, _) => ret (Err e)
  | (None, next) =>
      err <-! call (save next) ;;
      match err with
      | Some e => ret (Err e)
      | None =>
          modify (set_cfg next) ;;!
          match o_Notifier o with
          | Some n => match no_SetPolicy n with
                      | Some set => call (fun w => (tt, set (cf_Notify next) w))
                      | None => ret tt
                      end
          | None => ret tt
          end ;;!
          ret (Ok next)
      end
  end.

(** ** Secrets *)

Definition no_agent : error := Errorf KindUnsupported "" "daemon: no secret agent in this build".

Definition PendingSecrets : M (result error (list SecretRequest)) :=
  match o_Secrets o with None => ret (Err no_agent) | Some b => call (sb_Pending b) end.

Definition Secret (id : string) : M (result error SecretRequest) :=
  reqs <-! PendingSecrets ;;
  ret match reqs with
      | Err e => Err e
      | Ok l => match List.find (fun r => sq_ID r =?s id) l with
                | Some r => Ok r
                | None => Err (Errorf KindNotFound "run `bnm secrets`" ("daemon: no pending secret request " +:+ id))
                end
      end.

Definition AnswerSecret (id : string) (a : SecretAnswer) : M (option error) :=
  match o_Secrets o with
  | None => ret (Some no_agent)
  | Some b =>
      if id =?s "" then ret (invalid_request "daemon: request id is required")
      else if bool_decide (sa_Secrets a = ∅) then ret (invalid_request "daemon: answer has no secrets")
      else call (sb_Answer b id a)
  end.

Definition CancelSecret (id : string) : M (option error) :=
  match o_Secrets o with
  | None => ret (Some no_agent)
  | Some b => if id =?s "" then ret (invalid_request "daemon: request id is required") else call (sb_Cancel b id)
  end.

Definition onSecretNeeded (req : SecretRequest) : M unit := t <-! now o ;; emitEvents o [secretNeededEvent req t].
Definition onSecretResolved (id : string) (outcome : SecretOutcome) : M unit :=
  t <-! now o ;; emitEvents o [secretResolvedEvent id outcome t].

(** ** Notifications *)

Definition testEvent (key : string) (t : Time) : Event :=
  mkEvent t EventConnected key "bnm notifications work" "This is a test notification from bnmd." "low" {["test" := "true"]}.

Definition NotifyTest : M (option error) :=
  match o_Notifier o with
  | None => ret (unsupported "daemon: notifier is not wired in this build")
  | Some n =>
      t <-! now o ;; d <-! get ;;
      let e := testEvent (st_NetworkKey (sn_Status (dm_snap d))) t in
      match no_Deliver n with Some deliver => call (deliver e) | None => call (no_Notify n e) end
  end.

Definition Close : M (option error) := call (st_Close (o_Store o)).
End Ops.
