(* ===== verification/DaemonFacts.v ===== *)
(** The daemon as a whole: its history replays to what its deriver knows and
    reaches the store, the stream and the notifier in one order; the monitor is
    told of every change of network but one; a write leaves the next read with
    the new world; batches of events that wait to be emitted can overtake one
    another. *)

From S2P Require Import Prelude GoTime Core Errors GoStrings Deriver DeriverFacts Registry Config Daemon DaemonOps.

(** ** What a log says *)

Definition emitted_act (a : act) : option Event := match a with AStore e _ => Some e | _ => None end.
Definition published_act (a : act) : option Event := match a with APublish (IEvent e) => Some e | _ => None end.
Definition queued_act (a : act) : option Event := match a with AQueue e _ => Some e | _ => None end.
Definition accepted_act (a : act) : option Event := match a with AQueue e false => Some e | _ => None end.
Definition notified_act (a : act) : option Event := match a with ANotify e _ => Some e | _ => None end.
Definition told_act (a : act) : option (string * string) := match a with ASetNetwork k g => Some (k, g) | _ => None end.

Definition emitted : list act -> list Event := omap emitted_act.
(** Emitted, and written or not: [AddEvent] may fail. *)
Definition stored : list act -> list Event := omap (fun a => match a with AStore e None => Some e | _ => None end).
Definition unstored : list act -> list Event := omap (fun a => match a with AStore e (Some _) => Some e | _ => None end).
Definition published : list act -> list Event := omap published_act.
Definition queued : list act -> list Event := omap queued_act.
Definition accepted : list act -> list Event := omap accepted_act.
Definition notified : list act -> list Event := omap notified_act.
(** The networks the monitor was told of. *)
Definition told : list act -> list (string * string) := omap told_act.

Section Facts.
Context {W : Type} (o : Options W).

Local Notation "x <-! m ;; k" := (bind m (fun x => k)) (at level 60, m at next level, right associativity).
Local Notation "m ;;! k" := (bind m (fun _ => k)) (at level 60, right associativity).
Local Abbreviation M := (M (W := W)).

(** [m] relates every state to its log and its final state by [R]. *)
Definition does {A} (R : Daemon -> list act -> Daemon -> Prop) (m : M A) : Prop :=
  forall d w, let '(_, l, (d', _)) := m (d, w) in R d l d'.

(** A relation that composes along logs. *)
Record composes (R : Daemon -> list act -> Daemon -> Prop) : Prop := {
  co_nil : forall d, R d [] d;
  co_app : forall d l d' l' d'', R d l d' -> R d' l' d'' -> R d (l ++ l') d''
}.

Section Does.
Context (R : Daemon -> list act -> Daemon -> Prop) (HR : composes R).

Lemma does_ret {A} (a : A) : does R (ret a).
Proof using HR. intros d w. apply HR. Qed.

Lemma does_get : does R get.
Proof using HR. intros d w. apply HR. Qed.

Lemma does_call {A} (f : W -> A * W) : does R (call f).
Proof using HR. intros d w. unfold call. destruct (f w). apply HR. Qed.

Lemma does_bind {A B} (m : M A) (f : A -> M B) : does R m -> (forall a, does R (f a)) -> does R (bind m f).
Proof using HR.
  intros Hm Hf d w. unfold bind. specialize (Hm d w). destruct (m (d, w)) as [[a l] [d' w']].
  specialize (Hf a d' w'). destruct (f a (d', w')) as [[b l'] [d'' w'']]. by apply (co_app R HR _ _ d').
Qed.

Lemma does_modify f : (forall d, R d [] (f d)) -> does R (modify f).
Proof using Type. intros H d w. apply H. Qed.

Lemma does_log a : (forall d, R d [a] d) -> does R (log a).
Proof using Type. intros H d w. apply H. Qed.

Lemma does_for_each {A} (l : list A) f : (forall x, does R (f x)) -> does R (for_each (W := W) l f).
Proof using HR. intros Hf. induction l as [|x l IH]; [apply does_ret|]. cbn [for_each]. by apply does_bind. Qed.
End Does.

Create HintDb daemon.
#[local] Hint Resolve does_ret does_get does_call : daemon.

(** Walk through a program, down to what changes the daemon or the log. *)
Ltac walk_with HR :=
  repeat match goal with
  | |- does _ (bind _ _) => apply (does_bind _ HR); [|intros ?]
  | |- does _ (ret _) => apply (does_ret _ HR)
  | |- does _ get => apply (does_get _ HR)
  | |- does _ (call _) => apply (does_call _ HR)
  | |- does _ (now _) => apply (does_call _ HR)
  | |- does _ (for_each _ _) => apply (does_for_each _ HR); intros ?
  | |- does _ (match ?x with _ => _ end) => destruct x
  end.

(** ** Nothing is emitted, the deriver stays *)

Definition quiet (d : Daemon) (l : list act) (d' : Daemon) : Prop := emitted l = [] /\ dm_der d' = dm_der d.

Lemma quiet_composes : composes quiet.
Proof.
  split; [done|]. intros d l d' l' d'' [H1 H2] [H3 H4]. split; [|congruence]. unfold emitted in *. by rewrite omap_app, H1, H3.
Qed.

Lemma quiet_update f : does quiet (update_snap o f).
Proof using Type. unfold update_snap. walk_with quiet_composes. by apply does_modify. Qed.

Lemma quiet_refreshNM b : does quiet (refreshNM o b).
Proof using Type. unfold refreshNM. walk_with quiet_composes; apply quiet_update. Qed.

Lemma quiet_refreshVPN : does quiet (refreshVPN o).
Proof using Type. unfold refreshVPN. walk_with quiet_composes; apply quiet_update. Qed.

Lemma quiet_refreshMonitor : does quiet (refreshMonitor o).
Proof using Type. unfold refreshMonitor. walk_with quiet_composes; apply quiet_update. Qed.

Lemma quiet_publish c : does quiet (publish_item (W := W) (IChange c)).
Proof using Type. unfold publish_item. walk_with quiet_composes; [by apply does_modify|by apply does_log]. Qed.

Lemma quiet_sync : does quiet (syncMonitorNetwork o).
Proof using Type. unfold syncMonitorNetwork. walk_with quiet_composes; [by apply does_modify|by apply does_log]. Qed.

Lemma quiet_arm : does quiet (armTimer o).
Proof using Type. unfold armTimer. walk_with quiet_composes; by apply does_modify. Qed.

(** ** Emitting *)

(** The events of [evs] are emitted, in order. *)
Definition emits (evs : list Event) (d : Daemon) (l : list act) (d' : Daemon) : Prop := emitted l = evs /\ dm_der d' = dm_der d.

Lemma emits_event e : does (emits [e]) (emit_event o e).
Proof using Type.
  intros d w. cbv [emit_event bind call log publish_item modify queue_event get ret]. destruct (st_AddEvent (o_Store o) e w) as [err w'].
  destruct (o_Notifier o); [|done]. case_test; done.
Qed.

Lemma emits_all evs : does (emits evs) (emitEvents o evs).
Proof using Type.
  unfold emitEvents. induction evs as [|e evs IH]; [done|]. intros d w. cbn [for_each]. unfold bind.
  pose proof (emits_event e d w) as He. destruct (emit_event o e (d, w)) as [[[] l] [d' w']].
  specialize (IH d' w'). destruct (for_each evs _ _) as [[[] l'] [d'' w'']]. destruct He as [H1 H2], IH as [H3 H4].
  split; [|congruence]. unfold emitted in *. by rewrite omap_app, H1, H3.
Qed.

(** ** Deriving *)

(** One step of the deriver, whose events are not emitted yet. *)
Definition derives (m : M (list Event)) : Prop :=
  forall d w, let '(evs, l, (d', _)) := m (d, w) in
    emitted l = [] /\ exists i, d_step i (dm_der d) = (dm_der d', evs).

Lemma derives_apply : derives (apply o).
Proof using Type.
  intros d w. cbv [apply bind get now call modify ret]. destruct (os_now (o_System o) w) as [t w'].
  destruct (apply_ (dview d) t (dm_der d)) as [der evs] eqn:E. split; [done|]. by exists (DView (dview d) t).
Qed.

Lemma derives_flush : derives (flush_now o).
Proof using Type.
  intros d w. cbv [flush_now bind get now call modify ret]. destruct (os_now (o_System o) w) as [t w'].
  destruct (flush t (dm_der d)) as [der evs] eqn:E. split; [done|]. by exists (DTick t).
Qed.

Lemma derives_after {A} (m : M A) k : does quiet m -> derives k -> derives (m ;;! k).
Proof using Type.
  intros Hm Hk d w. unfold bind. specialize (Hm d w). destruct (m (d, w)) as [[a l] [d' w']]. specialize (Hk d' w').
  destruct (k (d', w')) as [[evs l'] [d'' w'']]. destruct Hm as [H1 H2], Hk as (H3 & i & H4).
  split; [unfold emitted in *; by rewrite omap_app, H1, H3|]. exists i. congruence.
Qed.

Lemma derives_before {A} (m : M (list Event)) (k : M A) : derives m -> does quiet k -> derives (evs <-! m ;; k ;;! ret evs).
Proof using Type.
  intros Hm Hk d w. cbv [bind ret]. specialize (Hm d w). destruct (m (d, w)) as [[evs l] [d' w']]. specialize (Hk d' w').
  destruct (k (d', w')) as [[b l'] [d'' w'']]. destruct Hm as (H1 & i & H2), Hk as [H3 H4].
  split; [unfold emitted in *; by rewrite !omap_app, H1, H3|]. exists i. congruence.
Qed.

#[local] Hint Resolve quiet_refreshNM quiet_refreshVPN quiet_refreshMonitor quiet_sync derives_apply derives_flush
  derives_after derives_before : daemon.

Lemma derives_nm cs : derives (onNMChanges_locked o cs).
Proof using Type. unfold onNMChanges_locked. auto with daemon. Qed.

Lemma derives_vpn : derives (onVPNChanges_locked o).
Proof using Type. unfold onVPNChanges_locked. auto with daemon. Qed.

Lemma derives_timer : derives (onTimer_locked o).
Proof using Type. unfold onTimer_locked. auto with daemon. Qed.

Lemma derives_Refresh : derives (Refresh_locked o).
Proof using Type. unfold Refresh_locked. auto 6 with daemon. Qed.

(** ** The story *)

(** The stored events tell what happened to the deriver's belief. *)
Definition tells (d : Daemon) (l : list act) (d' : Daemon) : Prop :=
  deriver_ok (dm_der d) -> d_initialized (dm_der d) = true ->
  deriver_ok (dm_der d') /\ d_initialized (dm_der d') = true /\
  replay_all (belief (dm_der d)) (emitted l) = Some (belief (dm_der d')).

Lemma tells_composes : composes tells.
Proof.
  split; [done|]. intros d l d' l' d'' H1 H2 Hok Hi. destruct (H1 Hok Hi) as (Hok' & Hi' & E).
  destruct (H2 Hok' Hi') as (Hok'' & Hi'' & E'). split; [done|]. split; [done|].
  unfold emitted in *. by rewrite omap_app, replay_all_app, E.
Qed.

Lemma quiet_tells {A} (m : M A) : does quiet m -> does tells m.
Proof using Type.
  intros Hm d w. specialize (Hm d w). destruct (m (d, w)) as [[a l] [d' w']]. destruct Hm as [H1 H2].
  intros Hok Hi. rewrite H1, H2. done.
Qed.

(** An event that means nothing to a consumer's belief. *)
Definition silent (e : Event) : Prop :=
  ev_Type e <> EventConnected /\ ev_Type e <> EventDisconnected /\ ev_Type e <> EventNoInternet /\ ev_Type e <> EventInternetRestored.

Lemma replay_silent e b : silent e -> replay b e = Some b.
Proof. intros (H1 & H2 & H3 & H4). destruct b. unfold replay. by rewrite !seqb_ne. Qed.

Lemma emit_silent e : silent e -> does tells (emitEvents o [e]).
Proof using Type.
  intros Hs d w. pose proof (emits_all [e] d w) as H. destruct (emitEvents o [e] (d, w)) as [[a l] [d' w']]. destruct H as [H1 H2].
  intros Hok Hi. rewrite H1, H2. cbn [replay_all]. by rewrite replay_silent.
Qed.

Lemma emits_after {A B} evs (k : M A) (m : M B) : does quiet k -> does (emits evs) m -> does (emits evs) (k ;;! m).
Proof using Type.
  intros Hk Hm d w. unfold bind. specialize (Hk d w). destruct (k (d, w)) as [[a l] [d' w']]. specialize (Hm d' w').
  destruct (m (d', w')) as [[b l'] [d'' w'']]. destruct Hk as [H1 H2], Hm as [H3 H4]. split; [|congruence].
  unfold emitted in *. by rewrite omap_app, H1, H3.
Qed.

Lemma emits_before {A B} evs (m : M A) (k : M B) : does (emits evs) m -> does quiet k -> does (emits evs) (m ;;! k).
Proof using Type.
  intros Hm Hk d w. unfold bind. specialize (Hm d w). destruct (m (d, w)) as [[a l] [d' w']]. specialize (Hk d' w').
  destruct (k (d', w')) as [[b l'] [d'' w'']]. destruct Hk as [H1 H2], Hm as [H3 H4]. split; [|congruence].
  unfold emitted in *. by rewrite omap_app, H1, H3, app_nil_r.
Qed.

(** What is derived is emitted. *)
Lemma derive_emit_tells {A} (m : M (list Event)) (f : list Event -> M A) :
  derives m -> (forall evs, does (emits evs) (f evs)) -> does tells (evs <-! m ;; f evs).
Proof using Type.
  intros Hm Hf d w. cbv [bind]. specialize (Hm d w). destruct (m (d, w)) as [[evs l1] [d1 w1]].
  specialize (Hf evs d1 w1). destruct (f evs (d1, w1)) as [[b l2] [d2 w2]].
  destruct Hm as (M1 & i & M2), Hf as [F1 F2].
  intros Hok Hi. destruct (d_step_ok i _ Hok Hi) as [(P1 & P2 & _) P3]. rewrite M2 in *. cbn [fst snd] in *.
  rewrite F2. split; [done|]. split; [done|]. unfold emitted in *. by rewrite omap_app, M1, F1.
Qed.

Lemma quiet_modify f : (forall d, dm_der (f d) = dm_der d) -> does quiet (modify (W := W) f).
Proof using Type. intros H. by apply does_modify. Qed.

#[local] Hint Resolve quiet_tells emits_after emits_before derive_emit_tells emits_all quiet_publish quiet_arm quiet_modify
  derives_nm derives_vpn derives_timer derives_Refresh : daemon.

Lemma quiet_publish_all {A} (l : list A) (f : A -> Change) : does quiet (for_each (W := W) l (fun c => publish_item (IChange (f c)))).
Proof using Type. apply (does_for_each _ quiet_composes). intros c. apply quiet_publish. Qed.
#[local] Hint Resolve quiet_publish_all : daemon.

Lemma tells_bind {A B} (m : M A) (k : M B) : does tells m -> does tells k -> does tells (m ;;! k).
Proof using Type. intros Hm Hk. by apply (does_bind _ tells_composes). Qed.
#[local] Hint Resolve tells_bind : daemon.

Lemma quiet_notify : does quiet (notify_one o).
Proof using Type.
  intros d w. cbv [notify_one bind get modify call log ret]. destruct (dm_notifyCh d), (o_Notifier o) as [n|]; try done.
  by destruct (no_Notify n e w).
Qed.

(** Events the monitor hands in speak of the quality of a network. *)
Definition input_ok (i : input) : Prop := match i with IMonEvent e => silent e | _ => True end.

Lemma fill_silent t key e : silent e -> silent (fill_event t key e).
Proof. done. Qed.

Lemma step_tells i : input_ok i -> does tells (step o i).
Proof using Type.
  intros Hi. destruct i as [c b|c b|c|e| | | | |]; cbn [step].
  - unfold onNMChanges. auto 8 with daemon.
  - unfold onVPNChanges. auto 8 with daemon.
  - unfold onMonitorChange. apply quiet_tells. walk_with quiet_composes; auto with daemon.
  - unfold onMonitorEvent. walk_with tells_composes.
    + auto with daemon.
    + apply emit_silent. by apply fill_silent.
  - unfold onTimer. apply tells_bind; [apply quiet_tells, quiet_modify; done|]. auto 8 with daemon.
  - apply quiet_tells. walk_with quiet_composes; [by apply quiet_modify|apply quiet_arm].
  - unfold onPrune. walk_with tells_composes.
  - apply quiet_tells, quiet_notify.
  - unfold Refresh. apply derive_emit_tells; [auto with daemon|]. intros evs. apply emits_before; [auto with daemon|]. by apply quiet_modify.
Qed.

Lemma run_tells l : Forall input_ok l -> does tells (run o l).
Proof using Type.
  intros Hl. induction Hl as [|i l Hi Hl IH]; [apply (does_ret _ tells_composes)|]. unfold run in *. cbn [for_each].
  apply tells_bind; [by apply step_tells|done].
Qed.

(** ** The outlets *)

(** Every stored event is published and queued once, in the same order; the
    notifier gets what the queue accepted, first in first out. *)
Definition outlets (d : Daemon) (l : list act) (d' : Daemon) : Prop :=
  published l = emitted l /\
  queued l = match o_Notifier o with Some _ => emitted l | None => [] end /\
  dm_notifyCh d ++ accepted l = notified l ++ dm_notifyCh d' /\
  ((length (dm_notifyCh d) <= notifyBuffer)%nat -> (length (dm_notifyCh d') <= notifyBuffer)%nat).

Lemma outlets_composes : composes outlets.
Proof using Type.
  split.
  - intros d. unfold outlets. cbn. rewrite app_nil_r. split_and!; try done. by destruct (o_Notifier o).
  - intros d l d' l' d'' (P1 & Q1 & N1 & B1) (P2 & Q2 & N2 & B2).
    unfold outlets, published, emitted, queued, accepted, notified in *. rewrite !omap_app. split_and!; [congruence| | |auto].
    + rewrite Q1, Q2. by destruct (o_Notifier o).
    + by rewrite app_assoc, N1, <- app_assoc, N2, app_assoc.
Qed.

Lemma outlets_modify f : (forall d, dm_notifyCh (f d) = dm_notifyCh d) -> does outlets (modify (W := W) f).
Proof using Type.
  intros H. apply does_modify. intros d. unfold outlets. rewrite H. cbn. rewrite app_nil_r. split_and!; try done. by destruct (o_Notifier o).
Qed.

Lemma outlets_log a : match a with APublish (IChange _) | ASetNetwork _ _ => True | _ => False end -> does outlets (log (W := W) a).
Proof using Type.
  intros H. apply does_log. intros d. unfold outlets.
  destruct a as [| [c|] | | |]; try done; cbn; rewrite app_nil_r; split_and!; try done; by destruct (o_Notifier o).
Qed.

Lemma outlets_emit_event e : does outlets (emit_event o e).
Proof using Type.
  intros d w. unfold outlets. cbv [emit_event bind call log publish_item modify queue_event get ret]. destruct (st_AddEvent (o_Store o) e w) as [err w'].
  destruct (o_Notifier o); [|cbn; by rewrite app_nil_r]. cbn [dm_notifyCh set_bus].
  destruct (Nat.ltb_spec (length (dm_notifyCh d)) notifyBuffer); cbn; [|by rewrite app_nil_r].
  split_and!; try done. intros _. rewrite length_app. cbn. lia.
Qed.

Lemma outlets_notify : does outlets (notify_one o).
Proof using Type.
  intros d w. unfold outlets. cbv [notify_one bind get modify call log ret].
  destruct (dm_notifyCh d) as [|e rest] eqn:E, (o_Notifier o) as [n|] eqn:En; try (cbn; rewrite ?E, ?app_nil_r; by split_and!).
  destruct (no_Notify n e w). cbn. rewrite app_nil_r. split_and!; try done. lia.
Qed.

(** Everything else leaves the queue and the outlets alone. *)
Ltac walk_outlets :=
  walk_with outlets_composes; try (by apply outlets_modify); try (by apply outlets_log); try apply outlets_emit_event.

Lemma outlets_step i : does outlets (step o i).
Proof using Type.
  destruct i; cbn [step]; unfold onNMChanges, onVPNChanges, onNMChanges_locked, onVPNChanges_locked, onMonitorChange,
    onMonitorEvent, onTimer, onTimer_locked, onPrune, Refresh, Refresh_locked, refreshNM, refreshVPN, refreshMonitor, armTimer,
    apply, flush_now, syncMonitorNetwork, update_snap, emitEvents, publish_item; try apply outlets_notify; walk_outlets.
Qed.

Lemma outlets_run l : does outlets (run o l).
Proof using Type. unfold run. walk_with outlets_composes. apply outlets_step. Qed.

Lemma outlets_initialRead : does outlets (initialRead o).
Proof using Type.
  unfold initialRead, refreshNM, refreshVPN, refreshMonitor, apply, syncMonitorNetwork, update_snap, emitEvents. walk_outlets.
Qed.

(** Says nothing of events and leaves the queue. *)
Definition mute (d : Daemon) (l : list act) (d' : Daemon) : Prop :=
  emitted l = [] /\ published l = [] /\ queued l = [] /\ accepted l = [] /\ notified l = [] /\ dm_notifyCh d' = dm_notifyCh d.

Lemma mute_composes : composes mute.
Proof using Type.
  split; [done|]. intros d l d' l' d'' (H1 & H2 & H3 & H4 & H5 & H6) (G1 & G2 & G3 & G4 & G5 & G6).
  unfold mute, emitted, published, queued, accepted, notified in *. rewrite !omap_app, H1, H2, H3, H4, H5, G1, G2, G3, G4, G5. split_and!; [done..|congruence].
Qed.

Ltac walk_mute := walk_with mute_composes; try (by apply does_modify); try (by apply does_log).

Lemma mute_nm cs : does mute (onNMChanges_locked o cs).
Proof using Type. unfold onNMChanges_locked, refreshNM, apply, syncMonitorNetwork, update_snap. walk_mute. Qed.
Lemma mute_vpn : does mute (onVPNChanges_locked o).
Proof using Type. unfold onVPNChanges_locked, refreshVPN, apply, update_snap. walk_mute. Qed.
Lemma mute_timer : does mute (onTimer_locked o).
Proof using Type. unfold onTimer_locked, flush_now, syncMonitorNetwork. walk_mute. Qed.
Lemma mute_Refresh : does mute (Refresh_locked o).
Proof using Type. unfold Refresh_locked, refreshNM, refreshVPN, refreshMonitor, apply, syncMonitorNetwork, update_snap. walk_mute. Qed.

Lemma mute_arm : does mute (armTimer o).
Proof using Type. unfold armTimer. walk_mute. Qed.
Lemma mute_refreshMonitor : does mute (refreshMonitor o).
Proof using Type. unfold refreshMonitor, update_snap. walk_mute. Qed.
Lemma mute_call {A} (f : W -> A * W) : does mute (call f).
Proof using Type. apply (does_call _ mute_composes). Qed.
Lemma quiet_call {A} (f : W -> A * W) : does quiet (call f).
Proof using Type. apply (does_call _ quiet_composes). Qed.

(** ** The first read *)

Definition same_snap (d : Daemon) (l : list act) (d' : Daemon) : Prop := dm_snap d' = dm_snap d.

Lemma same_snap_composes : composes same_snap.
Proof. split; [done|]. intros d l d' l' d''. unfold same_snap. congruence. Qed.

Ltac walk_snap := walk_with same_snap_composes; try (by apply does_modify); try (by apply does_log).

Lemma snap_sync : does same_snap (syncMonitorNetwork o).
Proof using Type. unfold syncMonitorNetwork. walk_snap. Qed.

Lemma snap_emit evs : does same_snap (emitEvents o evs).
Proof using Type. unfold emitEvents, emit_event, publish_item, queue_event. walk_snap. Qed.

Lemma snap_apply : does same_snap (apply o).
Proof using Type. unfold apply. walk_snap. Qed.

(** The events of the first view come from the snapshot it leaves. *)
Lemma initialRead_spec d w :
  let '(err, l, (d', _)) := initialRead o (d, w) in
  err = None -> exists t, apply_ (dview d') t (dm_der d) = (dm_der d', emitted l).
Proof using Type.
  unfold initialRead. unfold bind at 1. pose proof (quiet_refreshNM true d w) as Hq.
  destruct (refreshNM o true (d, w)) as [[err l1] [d1 w1]]. destruct err as [e|]; [done|]. destruct Hq as [Q1 Q2].
  unfold bind at 1. pose proof (quiet_refreshVPN d1 w1) as Hq. destruct (refreshVPN o (d1, w1)) as [[[] l2] [d2 w2]]. destruct Hq as [Q3 Q4].
  unfold bind at 1. pose proof (quiet_refreshMonitor d2 w2) as Hq. destruct (refreshMonitor o (d2, w2)) as [[[] l3] [d3 w3]]. destruct Hq as [Q5 Q6].
  unfold bind at 1. cbv [apply bind get now call modify ret]. destruct (os_now (o_System o) w3) as [t w4].
  destruct (apply_ (dview d3) t (dm_der d3)) as [der evs] eqn:E.
  pose proof (quiet_sync (set_der der d3) w4) as Hq. pose proof (snap_sync (set_der der d3) w4) as Hs.
  destruct (syncMonitorNetwork o (set_der der d3, w4)) as [[[] l5] [d5 w5]]. destruct Hq as [Q7 Q8].
  pose proof (emits_all evs d5 w5) as He. pose proof (snap_emit evs d5 w5) as Hs'.
  destruct (emitEvents o evs (d5, w5)) as [[[] l6] [d6 w6]]. destruct He as [E1 E2].
  intros _. exists t. unfold same_snap in *. cbn in *. unfold dview in *. rewrite Hs', Hs, E2, Q8. cbn.
  unfold emitted in *. rewrite !omap_app, Q1, Q3, Q5, Q7, E1. cbn. rewrite app_nil_r. congruence.
Qed.

(** ** The monitor's network *)

(** What the monitor was told last. *)
Definition net (d : Daemon) : option (string * string) := if dm_netSet d then Some (dm_lastNet d) else None.

(** No network is told right after itself. *)
Fixpoint no_repeat (prev : option (string * string)) (l : list (string * string)) : Prop :=
  match l with [] => True | x :: l' => prev <> Some x /\ no_repeat (Some x) l' end.

Lemma no_repeat_app prev l l' :
  no_repeat prev (l ++ l') <-> no_repeat prev l /\ no_repeat (match last l with Some x => Some x | None => prev end) l'.
Proof using Type.
  revert prev; induction l as [|x l IH]; intros prev; [cbn; tauto|]. change ((x :: l) ++ l') with (x :: (l ++ l')).
  cbn [no_repeat]. rewrite IH, last_cons. destruct (last l); tauto.
Qed.

Definition tells_net (d : Daemon) (l : list act) (d' : Daemon) : Prop :=
  no_repeat (net d) (told l) /\ net d' = match last (told l) with Some x => Some x | None => net d end.

Lemma tells_net_composes : composes tells_net.
Proof using Type.
  split; [done|]. intros d l d' l' d'' [N1 E1] [N2 E2]. unfold tells_net, told in *. rewrite omap_app, no_repeat_app, last_app.
  split; [by rewrite <- E1|]. rewrite E2, E1. by destruct (last (omap told_act l')).
Qed.

Lemma net_modify f : (forall d, dm_netSet (f d) = dm_netSet d /\ dm_lastNet (f d) = dm_lastNet d) -> does tells_net (modify (W := W) f).
Proof using Type. intros H. apply does_modify. intros d. split; [done|]. unfold net. by destruct (H d) as [-> ->]. Qed.

Lemma net_log a : told_act a = None -> does tells_net (log (W := W) a).
Proof using Type. intros H. apply does_log. intros d. unfold tells_net, told. cbn. by rewrite H. Qed.

Lemma net_eqb_eq a b : net_eqb a b = true <-> a = b.
Proof using Type.
  destruct a, b. unfold net_eqb. cbn. rewrite andb_true_iff, !String.eqb_eq. split; [intros [-> ->]; done|by intros [= -> ->]].
Qed.

(** The monitor knows the deriver's network. *)
Definition synced (d : Daemon) : Prop := is_Some (o_Monitor o) -> net d = Some (monitorNetwork (dm_der d)).

Lemma net_sync : does (fun d l d' => tells_net d l d' /\ synced d') (syncMonitorNetwork o).
Proof using Type.
  intros d w. cbv [syncMonitorNetwork ret]. destruct (o_Monitor o) as [m|] eqn:Em.
  2: { split; [apply tells_net_composes|]. unfold synced. rewrite Em. by intros [? ?]. }
  cbv [bind get modify call log]. destruct (dm_netSet d && net_eqb (dm_lastNet d) (monitorNetwork (dm_der d))) eqn:E.
  - split; [apply tells_net_composes|]. apply andb_true_iff in E as [E1 E2%net_eqb_eq]. intros _. unfold net. by rewrite E1, E2.
  - split; [|done]. split; [|done]. cbn [app told omap list_omap told_act no_repeat]. split; [|done].
    unfold net. destruct (dm_netSet d); [|done]. intros [= Heq]. cbn in E.
    assert (net_eqb (dm_lastNet d) (monitorNetwork (dm_der d)) = true); [|congruence]. apply net_eqb_eq. exact Heq.
Qed.

Lemma does_weaken {A} (R R' : Daemon -> list act -> Daemon -> Prop) (m : M A) : (forall d l d', R d l d' -> R' d l d') -> does R m -> does R' m.
Proof using Type. intros HR H d w. specialize (H d w). destruct (m (d, w)) as [[a l] [d' w']]. auto. Qed.

Ltac walk_net :=
  walk_with tells_net_composes; try (apply net_modify; by intros); try (by apply net_log);
  try (eapply does_weaken; [|apply net_sync]; by intros ? ? ? []).

Lemma net_step i : does tells_net (step o i).
Proof using Type.
  destruct i; cbn [step]; unfold onNMChanges, onVPNChanges, onNMChanges_locked, onVPNChanges_locked, onMonitorChange,
    onMonitorEvent, onTimer, onTimer_locked, onPrune, Refresh, Refresh_locked, refreshNM, refreshVPN, refreshMonitor, armTimer,
    apply, flush_now, update_snap, emitEvents, emit_event, queue_event, publish_item, notify_one; walk_net.
Qed.

Lemma net_run l : does tells_net (run o l).
Proof using Type. unfold run. walk_with tells_net_composes. apply net_step. Qed.

(** Nothing after the monitor was told changes what it should know. *)
Definition keeps_net (d : Daemon) (l : list act) (d' : Daemon) : Prop :=
  net d' = net d /\ dm_der d' = dm_der d /\ told l = [].

Lemma keeps_net_composes : composes keeps_net.
Proof using Type.
  split; [done|]. intros d l d' l' d'' (H1 & H2 & H3) (H4 & H5 & H6). unfold keeps_net, told in *. rewrite omap_app, H3, H6.
  split_and!; [congruence|congruence|done].
Qed.

Lemma keeps_modify f : (forall d, dm_netSet (f d) = dm_netSet d /\ dm_lastNet (f d) = dm_lastNet d /\ dm_der (f d) = dm_der d) ->
  does keeps_net (modify (W := W) f).
Proof using Type. intros H. apply does_modify. intros d. unfold keeps_net, net. by destruct (H d) as (-> & -> & ->). Qed.

Ltac walk_keeps := walk_with keeps_net_composes; try (apply keeps_modify; by intros); try (by apply does_log).

Lemma keeps_emit evs : does keeps_net (emitEvents o evs).
Proof using Type. unfold emitEvents, emit_event, publish_item, queue_event. walk_keeps. Qed.
Lemma keeps_arm : does keeps_net (armTimer o).
Proof using Type. unfold armTimer. walk_keeps. Qed.
Lemma keeps_publish i : does keeps_net (publish_item (W := W) i).
Proof using Type. unfold publish_item. walk_keeps. Qed.

(** [m] ends in sync, whatever happened before. *)
Definition syncs {A} (m : M A) : Prop := does (fun _ _ d' => synced d') m.

Lemma syncs_after {A B} (m : M A) (f : A -> M B) : (forall a, syncs (f a)) -> syncs (bind m f).
Proof using Type.
  intros Hf d w. unfold bind. destruct (m (d, w)) as [[a l] [d' w']]. specialize (Hf a d' w'). by destruct (f a (d', w')) as [[b l'] [d'' w'']].
Qed.

Lemma syncs_before {A B} (m : M A) (f : A -> M B) : syncs m -> (forall a, does keeps_net (f a)) -> syncs (bind m f).
Proof using Type.
  intros Hm Hf d w. unfold bind. specialize (Hm d w). destruct (m (d, w)) as [[a l] [d' w']]. specialize (Hf a d' w').
  destruct (f a (d', w')) as [[b l'] [d'' w'']]. destruct Hf as (H1 & H2 & _). intros Hmon. rewrite H1, H2. by apply Hm.
Qed.

Lemma syncs_sync : syncs (syncMonitorNetwork o).
Proof using Type. eapply does_weaken; [|apply net_sync]. by intros ? ? ? []. Qed.

Lemma syncs_locked (m : M (list Event)) : syncs (evs <-! m ;; syncMonitorNetwork o ;;! ret evs).
Proof using Type. apply syncs_after. intros evs. apply syncs_before; [apply syncs_sync|]. intros _. walk_keeps. Qed.

(** The inputs after which the monitor is told. *)
Definition settles (i : input) : bool := match i with INM _ _ | ITimer | IRefresh => true | _ => false end.

Lemma syncs_step i : settles i = true -> syncs (step o i).
Proof using Type.
  destruct i; try done; intros _; cbn [step].
  - apply syncs_before; [|intros; apply keeps_arm]. unfold onNMChanges. apply syncs_before.
    + unfold onNMChanges_locked. apply syncs_after. intros _. apply syncs_locked.
    + intros evs. walk_keeps; first [apply keeps_publish|apply keeps_emit].
  - unfold onTimer. apply syncs_after. intros _. apply syncs_before; [apply syncs_locked|].
    intros evs. walk_keeps; first [apply keeps_emit|apply keeps_arm].
  - unfold Refresh. apply syncs_before.
    + unfold Refresh_locked. do 3 (apply syncs_after; intros _). apply syncs_locked.
    + intros evs. walk_keeps; apply keeps_emit.
Qed.

Lemma keeps_step i : settles i = false -> (forall c b, i <> IVPN c b) -> does keeps_net (step o i).
Proof using Type.
  destruct i as [|c b| | | | | | |]; try done; intros _ Hv; [by destruct (Hv c b)|..]; cbn [step];
    unfold onMonitorChange, onMonitorEvent, onPrune, refreshMonitor, update_snap, notify_one; walk_keeps;
    first [apply keeps_publish|apply keeps_emit|apply keeps_arm].
Qed.

Lemma synced_step i : (forall c b, i <> IVPN c b) -> does (fun d _ d' => synced d -> synced d') (step o i).
Proof using Type.
  intros Hv d w. destruct (settles i) eqn:E.
  - pose proof (syncs_step i E d w) as H. destruct (step o i (d, w)) as [[a l] [d' w']]. auto.
  - pose proof (keeps_step i E Hv d w) as H. destruct (step o i (d, w)) as [[a l] [d' w']]. destruct H as (H1 & H2 & _).
    unfold synced. by rewrite H1, H2.
Qed.

Lemma synced_run l : Forall (fun i => forall c b, i <> IVPN c b) l -> does (fun d _ d' => synced d -> synced d') (run o l).
Proof using Type.
  unfold run. induction 1 as [|i l Hi _ IH]; [by intros d w Hs|]. intros d w. cbn [for_each]. unfold bind.
  pose proof (synced_step i Hi d w) as H. destruct (step o i (d, w)) as [[a l1] [d1 w1]]. specialize (IH d1 w1).
  destruct (for_each l (step o) (d1, w1)) as [[b l2] [d2 w2]]. auto.
Qed.

Lemma run_app l l' s : run o (l ++ l') s = (run o l ;;! run o l') s.
Proof using Type.
  revert s; induction l as [|i l IH]; intros s; unfold run in *; cbn [app for_each].
  - cbv [bind ret]. by destruct (for_each l' (step o) s) as [[[] l0] s0].
  - cbv [bind]. cbv [bind] in IH. destruct (step o i s) as [[a l1] s1]. rewrite IH.
    destruct (for_each l (step o) s1) as [[b l2] s2]. destruct (for_each l' (step o) s2) as [[c l3] s3]. by rewrite app_assoc.
Qed.
(** Where [refreshVPN] leaves its hands off. *)
Definition vpn_only (d : Daemon) (l : list act) (d' : Daemon) : Prop :=
  sn_Status (dm_snap d') = sn_Status (dm_snap d) /\ dm_der d' = dm_der d /\ net d' = net d /\ told l = [] /\ emitted l = [].

Lemma vpn_only_composes : composes vpn_only.
Proof.
  split; [done|]. intros d l d' l' d'' (H1 & H2 & H3 & H4 & H5) (G1 & G2 & G3 & G4 & G5). unfold vpn_only, told, emitted in *.
  rewrite !omap_app, H4, H5, G4, G5. split_and!; [congruence|congruence|congruence|done|done].
Qed.

Lemma vpn_only_refresh : does vpn_only (refreshVPN o).
Proof using Type.
  unfold refreshVPN, update_snap. walk_with vpn_only_composes. by apply does_modify.
Qed.

(** The deriver confirms a disconnect that is due. *)
Lemma apply_confirms v t der pd :
  d_initialized der = true -> d_primary der = None -> d_pendingDisc der = Some pd -> connectedPrimary (v_Status v) = None ->
  time_Add (pd_at pd) (d_debounce der) <= t ->
  let '(der', evs) := apply_ v t der in
  monitorNetwork der' = ("", "") /\ nextDeadline der' = None /\ disconnectedEvent pd t ∈ evs.
Proof.
  intros Hi Hp Hd Hc Ht. unfold apply_. rewrite Hi, Hc. cbn [negb]. unfold apply_primary. rewrite Hp.
  unfold apply_connectivity. rewrite Hp. unfold apply_vpns. cbv zeta. unfold flush, flush_disc, disc_due.
  cbn [d_pendingDisc set_vpnUp d_debounce]. rewrite Hd. unfold time_Before. rewrite (proj2 (Z.ltb_ge _ _) Ht). cbn [negb].
  unfold flush_noinet, noinet_due. cbn. split; [done|]. split; [done|].
  apply elem_of_app. right. by left.
Qed.

End Facts.

(** The monitor probes the right network.  After any run whose last hint
    from NetworkManager, timer or refresh is followed by no VPN hint, what the
    monitor was told last is the deriver's network; and it is never told the
    same network twice in a row. *)
Theorem monitor_follows {W} (o : Options W) d0 w0 before i after :
  is_Some (o_Monitor o) -> settles i = true -> Forall (fun j => forall c b, j <> IVPN c b) after ->
  let '(_, l, (d, _)) := run o (before ++ i :: after) (d0, w0) in
  match last (told l) with Some x => Some x | None => net d0 end = Some (monitorNetwork (dm_der d)) /\
  no_repeat (net d0) (told l).
Proof.
  intros Hm Hi Ha. pose proof (net_run o (before ++ i :: after) d0 w0) as Hnet. rewrite run_app in *.
  cbv [bind] in *. destruct (run o before (d0, w0)) as [[u1 l1] [d1 w1]].
  change (run o (i :: after) (d1, w1)) with (bind (step o i) (fun _ => run o after) (d1, w1)) in *. cbv [bind] in *.
  pose proof (syncs_step o i Hi d1 w1) as Hs. destruct (step o i (d1, w1)) as [[u2 l2] [d2 w2]].
  pose proof (synced_run o after Ha d2 w2) as Hr. destruct (run o after (d2, w2)) as [[u3 l3] [d3 w3]].
  destruct Hnet as [H1 H2]. split; [|done]. rewrite <- H2. by apply Hr.
Qed.

(** A VPN hint can leave the monitor behind.  When a pending disconnect is
    due as the hint comes in, the deriver confirms it, and the event is emitted,
    but the monitor is not told and no timer is armed: it goes on probing the
    network that is gone until the next hint from NetworkManager. *)
Theorem vpn_change_leaves_monitor {W} (o : Options W) d w c buffered pd :
  d_initialized (dm_der d) = true -> d_primary (dm_der d) = None -> d_pendingDisc (dm_der d) = Some pd ->
  connectedPrimary (sn_Status (dm_snap d)) = None ->
  (forall w', time_Add (pd_at pd) (d_debounce (dm_der d)) <= (os_now (o_System o) w').1) ->
  let '(_, l, (d', _)) := step o (IVPN c buffered) (d, w) in
  monitorNetwork (dm_der d') = ("", "") /\ (exists t, disconnectedEvent pd t ∈ emitted l) /\
  told l = [] /\ net d' = net d /\ dm_timer d' = None.
Proof.
  intros Hi Hp Hd Hc Hclock. cbn [step]. unfold onVPNChanges, onVPNChanges_locked. cbv [bind] in *.
  pose proof (vpn_only_refresh o d w) as Hr. destruct (refreshVPN o (d, w)) as [[[] l1] [d1 w1]]. destruct Hr as (R1 & R2 & R3 & R4 & R5).
  cbv [apply bind get now call modify ret]. destruct (os_now (o_System o) w1) as [t w2] eqn:Et.
  pose proof (Hclock w1) as Ht. rewrite Et in Ht. cbn [fst] in Ht.
  pose proof (apply_confirms (dview d1) t (dm_der d1) pd) as Ha. rewrite R2 in Ha. specialize (Ha Hi Hp Hd).
  unfold dview in Ha at 1. cbn [v_Status] in Ha. rewrite R1 in Ha. specialize (Ha Hc Ht).
  rewrite <- R2 in Ha. destruct (apply_ (dview d1) t (dm_der d1)) as [der evs]. destruct Ha as (A1 & A2 & A3).
  set (cs := c :: (drainChanges buffered).1). set (d2 := set_der der d1).
  pose proof (quiet_publish_all cs (default_kind ChangeVPN) d2 w2) as Q.
  pose proof (does_for_each _ keeps_net_composes cs (fun c => publish_item (W := W) (IChange (default_kind ChangeVPN c)))
                (fun x => keeps_publish _) d2 w2) as K.
  destruct (for_each cs _ (d2, w2)) as [[[] l3] [d3 w3]]. destruct Q as [Q1 _], K as (K1 & K2 & K3).
  pose proof (emits_all o evs d3 w3) as E. pose proof (keeps_emit o evs d3 w3) as F.
  destruct (emitEvents o evs (d3, w3)) as [[[] l4] [d4 w4]]. destruct E as [E1 _], F as (F1 & F2 & F3).
  assert (dm_der d4 = der) as Eder by (rewrite F2, K2; done).
  cbv [armTimer bind get modify]. rewrite Eder, A2. unfold emitted, told in *. rewrite !omap_app, R4, R5, Q1, K3, F3, E1. cbn.
  rewrite app_nil_r, Eder. split_and!; [done|by exists t|done| |done].
  unfold net in *. cbn. rewrite F1, K1. unfold d2. cbn. done.
Qed.

(** ** Writes *)

(** In the worlds of [P] the backends answer so, and asking keeps to [P]. *)
Record answers {W} (o : Options W) (P : W -> Prop) (status : Status) (devices : list Device) (profiles : list Profile)
    (active : list ActiveConnection) (nets : list WifiNetwork) (vpns : list VPN) (mon : MonitorStatus) : Prop := {
  an_status : forall w, P w -> (nm_Status (o_NM o) w).1 = Ok status /\ P (nm_Status (o_NM o) w).2;
  an_devices : forall w, P w -> (nm_Devices (o_NM o) w).1 = Ok devices /\ P (nm_Devices (o_NM o) w).2;
  an_profiles : forall w, P w -> (nm_Profiles (o_NM o) w).1 = Ok profiles /\ P (nm_Profiles (o_NM o) w).2;
  an_active : forall w, P w -> (nm_ActiveConnections (o_NM o) w).1 = Ok active /\ P (nm_ActiveConnections (o_NM o) w).2;
  an_nets : forall w, P w -> (nm_WifiNetworks (o_NM o) "" w).1 = Ok nets /\ P (nm_WifiNetworks (o_NM o) "" w).2;
  an_vpns : forall r w, o_VPN o = Some r -> P w -> (vr_List r w).1 = Ok vpns /\ P (vr_List r w).2;
  an_mon : forall m w, o_Monitor o = Some m -> P w -> (mo_Status m w).1 = mon /\ P (mo_Status m w).2;
  an_now : forall w, P w -> P (os_now (o_System o) w).2
}.

Section Writes.
Context {W : Type} (o : Options W) (P : W -> Prop).
Context (status : Status) (devices : list Device) (profiles : list Profile) (active : list ActiveConnection)
  (nets : list WifiNetwork) (vpns : list VPN) (mon : MonitorStatus).
Context (HA : answers o P status devices profiles active nets vpns mon).

(** The version counts up, the rest of the snapshot is [f] of the old one. *)
Lemma update_snap_run f d w : P w -> exists t w', P w' /\ update_snap o f (d, w) = (tt, [], (set_snap (bump t (f (dm_snap d))) d, w')).
Proof using HA.
  intros Hw. cbv [update_snap bind now call modify]. pose proof (an_now _ _ _ _ _ _ _ _ _ HA w Hw) as H.
  destruct (os_now (o_System o) w) as [t w']. by exists t, w'.
Qed.

Lemma refreshNM_run d w : P w -> exists t w', P w' /\
  refreshNM o true (d, w) =
  (None, [], (set_snap (bump t (with_nm (fill_key status profiles) devices profiles active (Some nets) (dm_snap d))) d, w')).
Proof using HA.
  intros Hw. unfold refreshNM. cbv [bind call ret].
  destruct (an_status _ _ _ _ _ _ _ _ _ HA w Hw) as [E1 P1]. destruct (nm_Status (o_NM o) w) as [r1 w1]. cbn [fst snd] in *. subst r1.
  destruct (an_devices _ _ _ _ _ _ _ _ _ HA w1 P1) as [E2 P2]. destruct (nm_Devices (o_NM o) w1) as [r2 w2]. cbn [fst snd] in *. subst r2.
  destruct (an_profiles _ _ _ _ _ _ _ _ _ HA w2 P2) as [E3 P3]. destruct (nm_Profiles (o_NM o) w2) as [r3 w3]. cbn [fst snd] in *. subst r3.
  destruct (an_active _ _ _ _ _ _ _ _ _ HA w3 P3) as [E4 P4]. destruct (nm_ActiveConnections (o_NM o) w3) as [r4 w4]. cbn [fst snd] in *. subst r4.
  destruct (an_nets _ _ _ _ _ _ _ _ _ HA w4 P4) as [E5 P5]. destruct (nm_WifiNetworks (o_NM o) "" w4) as [r5 w5]. cbn [fst snd] in *. subst r5.
  destruct (update_snap_run (with_nm (fill_key status profiles) devices profiles active (Some nets)) d w5 P5) as (t & w6 & P6 & ->).
  by exists t, w6.
Qed.

Lemma refreshVPN_run d w : P w -> exists l w' d', P w' /\ refreshVPN o (d, w) = (tt, l, (d', w')) /\
  (is_Some (o_VPN o) -> sn_VPNs (dm_snap d') = vpns) /\ sn_Status (dm_snap d') = sn_Status (dm_snap d) /\
  sn_Devices (dm_snap d') = sn_Devices (dm_snap d) /\ sn_Profiles (dm_snap d') = sn_Profiles (dm_snap d) /\
  sn_Active (dm_snap d') = sn_Active (dm_snap d) /\ sn_Wifi (dm_snap d') = sn_Wifi (dm_snap d).
Proof using HA.
  intros Hw. unfold refreshVPN. destruct (o_VPN o) as [r|] eqn:E.
  2: { exists [], w, d. split; [done|]. split; [done|]. split; [by intros [? ?]|done]. }
  cbv [bind call ret]. destruct (an_vpns _ _ _ _ _ _ _ _ _ HA r w E Hw) as [E1 P1]. destruct (vr_List r w) as [r1 w1]. cbn [fst snd] in *. subst r1.
  destruct (update_snap_run (with_vpns vpns) d w1 P1) as (t & w2 & P2 & ->). eexists _, w2, _. split; [done|]. split; [done|]. done.
Qed.

Lemma refreshMonitor_run d w : P w -> exists l w' d', P w' /\ refreshMonitor o (d, w) = (tt, l, (d', w')) /\
  (is_Some (o_Monitor o) -> sn_Monitor (dm_snap d') = mon) /\ sn_VPNs (dm_snap d') = sn_VPNs (dm_snap d) /\
  sn_Status (dm_snap d') = sn_Status (dm_snap d) /\
  sn_Devices (dm_snap d') = sn_Devices (dm_snap d) /\ sn_Profiles (dm_snap d') = sn_Profiles (dm_snap d) /\
  sn_Active (dm_snap d') = sn_Active (dm_snap d) /\ sn_Wifi (dm_snap d') = sn_Wifi (dm_snap d).
Proof using HA.
  intros Hw. unfold refreshMonitor. destruct (o_Monitor o) as [m|] eqn:E.
  2: { exists [], w, d. split; [done|]. split; [done|]. split; [by intros [? ?]|done]. }
  cbv [bind call ret]. destruct (an_mon _ _ _ _ _ _ _ _ _ HA m w E Hw) as [E1 P1]. destruct (mo_Status m w) as [r1 w1]. cbn [fst snd] in *. subst r1.
  destruct (update_snap_run (with_monitor mon) d w1 P1) as (t & w2 & P2 & ->). eexists _, w2, _. split; [done|]. split; [done|]. done.
Qed.

(** The snapshot shows these answers. *)
Definition shows (s : Snapshot) : Prop :=
  sn_Status s = fill_key status profiles /\ sn_Devices s = devices /\ sn_Profiles s = profiles /\ sn_Active s = active /\
  sn_Wifi s = nets /\ (is_Some (o_VPN o) -> sn_VPNs s = vpns) /\ (is_Some (o_Monitor o) -> sn_Monitor s = mon).

Lemma Refresh_shows d w : P w -> let '(_, _, (d', _)) := Refresh o (d, w) in shows (dm_snap d') /\ dm_wake d' = true.
Proof using HA.
  intros Hw. unfold Refresh, Refresh_locked. cbv [bind ret modify].
  destruct (refreshNM_run d w Hw) as (t & w1 & P1 & ->).
  destruct (refreshVPN_run (set_snap (bump t (with_nm (fill_key status profiles) devices profiles active (Some nets) (dm_snap d))) d) w1 P1)
    as (l2 & w2 & d2 & P2 & -> & V1 & V2 & V3 & V4 & V5 & V6).
  destruct (refreshMonitor_run d2 w2 P2) as (l3 & w3 & d3 & P3 & -> & M1 & M2 & M3 & M4 & M5 & M6 & M7).
  assert (shows (dm_snap d3)) as Hs.
  { unfold shows. cbn in V2, V3, V4, V5, V6. split_and!; try congruence; [|done]. intros Hv. rewrite M2. auto. }
  pose proof (snap_apply o d3 w3) as Ha. destruct (apply o (d3, w3)) as [[evs l4] [d4 w4]].
  pose proof (snap_sync o d4 w4) as Hb. destruct (syncMonitorNetwork o (d4, w4)) as [[u5 l5] [d5 w5]].
  pose proof (snap_emit o evs d5 w5) as Hc. destruct (emitEvents o evs (d5, w5)) as [[u6 l6] [d6 w6]].
  unfold same_snap in *. cbv [modify]. change (shows (dm_snap d6) /\ true = true). by rewrite Hc, Hb, Ha.
Qed.
End Writes.

(** C7: A write is synchronous.  When the backend refuses it, its error comes
    back and nothing else happened; when the backend accepts it, the next read
    of the snapshot shows the world after the write, for every backend, and the
    run loop is woken. *)
Theorem write_then_read {W} (o : Options W) f d w0 (P : W -> Prop) status devices profiles active nets vpns mon :
  answers o P status devices profiles active nets vpns mon -> P (f w0).2 ->
  let '(r, l, (d', w')) := mutate_ o f (d, w0) in
  r = (f w0).1 /\
  match r with
  | Some _ => l = [] /\ d' = d /\ w' = (f w0).2
  | None => shows o status devices profiles active nets vpns mon (dm_snap d') /\ dm_wake d' = true
  end.
Proof.
  intros HA Hw. unfold mutate_, mutate. cbv [bind call ret]. destruct (f w0) as [[e|] w1]; [done|]. cbn [fst snd] in *.
  pose proof (Refresh_shows o P _ _ _ _ _ _ _ HA d w1 Hw) as H. destruct (Refresh o (d, w1)) as [[[] l] [d' w']]. cbn. done.
Qed.

(** ** Batches in flight *)

(** [derMu] is let go before the events are emitted, so batches derived one
    after the other, by the run loop and by API operations, may be emitted at
    the same time: the store, the stream and the queue see their events
    interleaved.  [fl] holds what each goroutine has still to do. *)
Section Flight.
Context {W : Type} (o : Options W).

Local Notation "x <-! m ;; k" := (bind m (fun x => k)) (at level 60, m at next level, right associativity).
Local Notation "m ;;! k" := (bind m (fun _ => k)) (at level 60, right associativity).

(** [emitEvents], one effect at a time. *)
Inductive task := TStore (e : Event) | TPublish (e : Event) | TQueue (e : Event).

Definition tasks_of (e : Event) : list task :=
  TStore e :: TPublish e :: match o_Notifier o with Some _ => [TQueue e] | None => [] end.
Definition flight_of (evs : list Event) : list task := concat (map tasks_of evs).

Definition task_do (t : task) : M (W := W) unit :=
  match t with
  | TStore e => err <-! call (st_AddEvent (o_Store o) e) ;; log (AStore e err)
  | TPublish e => publish_item (IEvent e)
  | TQueue e => queue_event e
  end.

Lemma emit_event_tasks e s : emit_event o e s = for_each (tasks_of e) task_do s.
Proof using Type.
  destruct s as [d w]. unfold emit_event, tasks_of. cbv [for_each task_do bind call log publish_item modify queue_event get ret].
  destruct (st_AddEvent (o_Store o) e w) as [err w']. destruct (o_Notifier o); [|done]. cbn. case_test; done.
Qed.

(** A step, with the events it derives. *)
Inductive flight_step : list (list task) -> Daemon * W -> list Event -> list act -> list (list task) -> Daemon * W -> Prop :=
| F_lock fl (m : M (W := W) (list Event)) s evs l s' :
    derives m -> does mute m -> m s = (evs, l, s') ->       (* a critical section; its events join the flight *)
    flight_step fl s evs l (fl ++ [flight_of evs]) s'
| F_event fl e s :
    silent e -> flight_step fl s [e] [] (fl ++ [flight_of [e]]) s     (* an event of the monitor *)
| F_task fl1 t ts fl2 s l s' :
    task_do t s = (tt, l, s') ->                           (* one of the goroutines goes on *)
    flight_step (fl1 ++ (t :: ts) :: fl2) s [] l (fl1 ++ ts :: fl2) s'
| F_done fl1 fl2 s :
    flight_step (fl1 ++ [] :: fl2) s [] [] (fl1 ++ fl2) s
| F_notify fl s l s' :
    notify_one o s = (tt, l, s') -> flight_step fl s [] l fl s'       (* the notifier takes from its queue *)
| F_quiet fl A (m : M (W := W) A) s a l s' :
    does quiet m -> does mute m -> m s = (a, l, s') ->      (* reads, hints and timers *)
    flight_step fl s [] l fl s'.

Inductive flight_run : list (list task) -> Daemon * W -> list Event -> list act -> list (list task) -> Daemon * W -> Prop :=
| FR_nil fl s : flight_run fl s [] [] fl s
| FR_cons fl s new l fl' s' new' l' fl'' s'' :
    flight_step fl s new l fl' s' -> flight_run fl' s' new' l' fl'' s'' -> flight_run fl s (new ++ new') (l ++ l') fl'' s''.

Lemma flight_one fl s new l fl' s' : flight_step fl s new l fl' s' -> flight_run fl s new l fl' s'.
Proof using Type. intros H. rewrite <- (app_nil_r new), <- (app_nil_r l). eapply FR_cons; [exact H|apply FR_nil]. Qed.

Lemma flight_app fl s new l fl' s' new' l' fl'' s'' :
  flight_run fl s new l fl' s' -> flight_run fl' s' new' l' fl'' s'' -> flight_run fl s (new ++ new') (l ++ l') fl'' s''.
Proof using Type.
  induction 1 as [fl s|fl s new l fl' s' new1 l1 fl1 s1 Hs _ IH]; intros H'; [done|].
  rewrite <- !app_assoc. eapply FR_cons; [exact Hs|]. by apply IH.
Qed.

(** What was derived is what the deriver believes, whatever is in flight. *)
Lemma flight_belief fl s new l fl' s' :
  flight_run fl s new l fl' s' -> deriver_ok (dm_der s.1) -> d_initialized (dm_der s.1) = true ->
  deriver_ok (dm_der s'.1) /\ d_initialized (dm_der s'.1) = true /\ replay_all (belief (dm_der s.1)) new = Some (belief (dm_der s'.1)).
Proof using Type.
  induction 1 as [fl s|fl s new l fl' s' new' l' fl'' s'' Hs _ IH]; intros Hok Hi; [done|].
  assert (deriver_ok (dm_der s'.1) /\ d_initialized (dm_der s'.1) = true /\ replay_all (belief (dm_der s.1)) new = Some (belief (dm_der s'.1))) as (H1 & H2 & H3).
  { destruct Hs as [fl m [d w] evs l [d' w'] Hm _ E|fl e [d w] He|fl1 t ts fl2 [d w] l [d' w'] E|fl1 fl2 s|fl [d w] l [d' w'] E|fl A m [d w] a l [d' w'] Hq _ E]; cbn [fst] in *.
    - specialize (Hm d w). rewrite E in Hm. destruct Hm as (_ & i & H2). destruct (d_step_ok i _ Hok Hi) as [(P1 & P2 & _) P3]. rewrite H2 in *. done.
    - cbn. by rewrite replay_silent.
    - assert (dm_der d' = dm_der d) as ->; [|done]. destruct t; cbv [task_do bind call log publish_item modify queue_event get ret] in E.
      + destruct (st_AddEvent _ _ _). by injection E as <- <- <-.
      + by injection E as <- <- <-.
      + revert E. case_test; by intros [= <- <- <-].
    - done.
    - pose proof (quiet_notify o d w) as Hq. rewrite E in Hq. destruct Hq as [_ ->]. done.
    - specialize (Hq d w). rewrite E in Hq. destruct Hq as [_ ->]. done. }
  destruct (IH H1 H2) as (I1 & I2 & I3). split; [done|]. split; [done|]. by rewrite replay_all_app, H3.
Qed.

(** An outlet of events, and what of a task is for it. *)
Record outlet (out : list act -> list Event) (todo : task -> option Event) : Prop := {
  ou_app : forall l l', out (l ++ l') = out l ++ out l';
  ou_mute : forall A (m : M (W := W) A), does mute m -> forall s, out (m s).1.2 = [];
  ou_notify : forall s, out (notify_one o s).1.2 = [];
  ou_task : forall t s, out (task_do t s).1.2 = omap todo [t];
  ou_all : forall evs, omap todo (flight_of evs) = evs
}.

(** Each outlet gets every event once, or will when what is in flight has landed. *)
Lemma flight_perm out todo fl s new l fl' s' :
  outlet out todo -> flight_run fl s new l fl' s' -> out l ++ omap todo (concat fl') ≡ₚ omap todo (concat fl) ++ new.
Proof using Type.
  intros Ho. assert (out [] = []) as Hnil.
  { pose proof (ou_app _ _ Ho [] []) as H. apply (f_equal length) in H. rewrite length_app in H. apply length_zero_iff_nil. cbn in H. lia. }
  induction 1 as [fl s|fl s new l fl' s' new' l' fl'' s'' Hs _ IH]; [by rewrite Hnil, app_nil_r|].
  assert (out l ++ omap todo (concat fl') ≡ₚ omap todo (concat fl) ++ new) as H1.
  { destruct Hs as [fl m s evs l s' _ Hm E|fl e s _|fl1 t ts fl2 s l s' E|fl1 fl2 s|fl s l s' E|fl A m s a l s' _ Hm E].
    - pose proof (ou_mute _ _ Ho _ _ Hm s) as H. rewrite E in H. cbn in H. rewrite H, concat_app, omap_app. cbn. by rewrite app_nil_r, (ou_all _ _ Ho).
    - rewrite Hnil, concat_app, omap_app. cbn [concat app]. by rewrite app_nil_r, (ou_all _ _ Ho).
    - pose proof (ou_task _ _ Ho t s) as H. rewrite E in H. cbn [fst snd] in H. rewrite H, !concat_app, app_nil_r, !omap_app.
      change (concat ((t :: ts) :: fl2)) with ([t] ++ (ts ++ concat fl2)). change (concat (ts :: fl2)) with (ts ++ concat fl2).
      rewrite (omap_app _ [t]). apply Permutation_app_swap_app.
    - rewrite Hnil, !concat_app. cbn. by rewrite app_nil_r.
    - pose proof (ou_notify _ _ Ho s) as H. rewrite E in H. cbn in H. by rewrite H, app_nil_r.
    - pose proof (ou_mute _ _ Ho _ _ Hm s) as H. rewrite E in H. cbn in H. by rewrite H, app_nil_r. }
  rewrite (ou_app _ _ Ho), <- app_assoc, IH, app_assoc, H1. by rewrite app_assoc.
Qed.

Lemma mute_at {A} (m : M (W := W) A) s : does mute m -> mute s.1 (m s).1.2 (m s).2.1.
Proof using Type. intros H. destruct s as [d w]. specialize (H d w). by destruct (m (d, w)) as [[a l] [d' w']]. Qed.

Lemma omap_flight {B} (f : task -> option B) evs : omap f (flight_of evs) = concat (map (fun e => omap f (tasks_of e)) evs).
Proof using Type. unfold flight_of. induction evs as [|e evs IH]; [done|]. cbn [map concat]. by rewrite omap_app, IH. Qed.

Ltac task_cases := intros [e|e|e] [d w]; cbv [task_do bind call log publish_item modify queue_event get ret];
  [destruct (st_AddEvent _ _ _)| |case_test]; done.
Ltac notify_cases := intros [d w]; cbv [notify_one bind get modify call log ret]; destruct (dm_notifyCh d), (o_Notifier o) as [n|]; try done; by destruct (no_Notify n _ w).

Lemma outlet_store : outlet emitted (fun t => match t with TStore e => Some e | _ => None end).
Proof using Type.
  split; [intros; apply omap_app|intros A m Hm s; apply (mute_at m s Hm)|notify_cases|task_cases|].
  intros evs. rewrite omap_flight. unfold tasks_of. induction evs as [|e evs IH]; [done|]. cbn [map concat]. rewrite IH. by destruct (o_Notifier o).
Qed.

Lemma outlet_publish : outlet published (fun t => match t with TPublish e => Some e | _ => None end).
Proof using Type.
  split; [intros; apply omap_app|intros A m Hm s; apply (mute_at m s Hm)|notify_cases|task_cases|].
  intros evs. rewrite omap_flight. unfold tasks_of. induction evs as [|e evs IH]; [done|]. cbn [map concat]. rewrite IH. by destruct (o_Notifier o).
Qed.

Lemma outlet_queue : is_Some (o_Notifier o) -> outlet queued (fun t => match t with TQueue e => Some e | _ => None end).
Proof using Type.
  intros [n0 Hn]. split; [intros; apply omap_app|intros A m Hm s; apply (mute_at m s Hm)|notify_cases|task_cases|].
  intros evs. rewrite omap_flight. unfold tasks_of. rewrite Hn. induction evs as [|e evs IH]; [done|]. cbn [map concat]. by rewrite IH.
Qed.

(** The notifier is served first in first out, from a queue that is bounded. *)
Lemma flight_queue fl s new l fl' s' :
  flight_run fl s new l fl' s' ->
  dm_notifyCh s.1 ++ accepted l = notified l ++ dm_notifyCh s'.1 /\
  ((length (dm_notifyCh s.1) <= notifyBuffer)%nat -> (length (dm_notifyCh s'.1) <= notifyBuffer)%nat).
Proof using Type.
  induction 1 as [fl s|fl s new l fl' s' new' l' fl'' s'' Hs _ IH]; [by rewrite app_nil_r|].
  assert (dm_notifyCh s.1 ++ accepted l = notified l ++ dm_notifyCh s'.1 /\
    ((length (dm_notifyCh s.1) <= notifyBuffer)%nat -> (length (dm_notifyCh s'.1) <= notifyBuffer)%nat)) as [H1 H2].
  { destruct Hs as [fl m s evs l s' _ Hm E|fl e s _|fl1 t ts fl2 [d w] l s' E|fl1 fl2 s|fl [d w] l [d' w'] E|fl A m s a l s' _ Hm E].
    1, 6: pose proof (mute_at m s Hm) as H; rewrite E in H; cbn in H; destruct H as (_ & _ & _ & -> & -> & ->); rewrite app_nil_r; done.
    1, 3: by rewrite app_nil_r.
    - destruct t as [e|e|e]; cbv [task_do bind call log publish_item modify queue_event get ret] in E.
      + destruct (st_AddEvent _ _ _). injection E as <- <-. cbn. by rewrite app_nil_r.
      + injection E as <- <-. cbn. by rewrite app_nil_r.
      + destruct (Nat.ltb_spec (length (dm_notifyCh d)) notifyBuffer); injection E as <- <-; cbn; [|by rewrite app_nil_r].
        split; [done|]. intros _. rewrite length_app. cbn. lia.
    - pose proof (outlets_notify o d w) as H. rewrite E in H. by destruct H as (_ & _ & H & H'). }
  destruct IH as [I1 I2]. unfold accepted, notified in *. rewrite !omap_app. split; [|auto]. by rewrite app_assoc, H1, <- app_assoc, I1, app_assoc.
Qed.

(** ** Every handler is a flight that lands *)

(** The goroutine of a handler, from start to end. *)
Definition flies {A} (m : M (W := W) A) : Prop := forall fl s, exists new, flight_run fl s new (m s).1.2 fl (m s).2.

Lemma flies_quiet {A} (m : M (W := W) A) : does quiet m -> does mute m -> flies m.
Proof using Type. intros H1 H2 fl s. exists []. apply flight_one. eapply (F_quiet fl A m s (m s).1.1); try done. by destruct (m s) as [[a l] s']. Qed.

Lemma flies_bind {A B} (m : M (W := W) A) (f : A -> M (W := W) B) : flies m -> (forall a, flies (f a)) -> flies (bind m f).
Proof using Type.
  intros Hm Hf fl s. destruct (Hm fl s) as [n1 H1]. unfold bind. destruct (m s) as [[a l] s']. destruct (Hf a fl s') as [n2 H2].
  destruct (f a s') as [[b l'] s'']. exists (n1 ++ n2). by eapply flight_app.
Qed.

Lemma flies_notify : flies (notify_one o).
Proof using Type. intros fl s. exists []. apply flight_one, F_notify. by destruct (notify_one o s) as [[[] l] s']. Qed.

(** A goroutine that does all its tasks. *)
Lemma flight_tasks fl1 ts fl2 s :
  flight_run (fl1 ++ ts :: fl2) s [] (for_each ts task_do s).1.2 (fl1 ++ fl2) (for_each ts task_do s).2.
Proof using Type.
  revert s; induction ts as [|t ts IH]; intros s; cbn [for_each]; [apply flight_one, F_done|]. unfold bind.
  specialize (IH (task_do t s).2). destruct (task_do t s) as [[[] l] s'] eqn:E. cbn [snd] in IH.
  destruct (for_each ts task_do s') as [[u l'] s'']. change ([] : list Event) with ([] ++ [] : list Event). eapply FR_cons; [by apply F_task|exact IH].
Qed.

Lemma for_each_app {A} (l l' : list A) (f : A -> M (W := W) unit) s :
  for_each (l ++ l') f s = (for_each l f ;;! for_each l' f) s.
Proof using Type.
  revert s; induction l as [|x l IH]; intros s; cbn [for_each app]; unfold bind, ret in *; [by destruct (for_each l' f s) as [[[] ?] ?]|].
  destruct (f x s) as [[u l1] s1]. rewrite IH. destruct (for_each l f s1) as [[u2 l2] s2]. destruct (for_each l' f s2) as [[u3 l3] s3]. by rewrite app_assoc.
Qed.

Lemma emitEvents_tasks evs s : emitEvents o evs s = for_each (flight_of evs) task_do s.
Proof using Type.
  unfold emitEvents. revert s; induction evs as [|e evs IH]; intros s; [done|]. unfold flight_of in *. cbn [map concat]. rewrite for_each_app. cbn [for_each].
  unfold bind. rewrite emit_event_tasks. destruct (for_each (tasks_of e) task_do s) as [[u l] s']. by rewrite IH.
Qed.

Lemma flight_emit fl1 evs fl2 s : flight_run (fl1 ++ flight_of evs :: fl2) s [] (emitEvents o evs s).1.2 (fl1 ++ fl2) (emitEvents o evs s).2.
Proof using Type. rewrite emitEvents_tasks. apply flight_tasks. Qed.

Lemma flies_derive {A} (m : M (W := W) (list Event)) (k : M (W := W) A) (f : M (W := W) unit) :
  derives m -> does mute m -> flies k -> flies f -> flies (evs <-! m ;; k ;;! emitEvents o evs ;;! f).
Proof using Type.
  intros Hm Hmm Hk Hf fl s. unfold bind. destruct (m s) as [[evs l1] s1] eqn:E1. destruct (Hk (fl ++ [flight_of evs]) s1) as [n2 H2].
  destruct (k s1) as [[a l2] s2]. pose proof (flight_emit fl evs [] s2) as H3. destruct (emitEvents o evs s2) as [[u l3] s3].
  destruct (Hf fl s3) as [n4 H4]. destruct (f s3) as [[b l4] s4]. exists (evs ++ n2 ++ [] ++ n4). cbn [fst snd] in *. rewrite app_nil_r in H3.
  eapply FR_cons; [by apply (F_lock fl m)|]. eapply flight_app; [exact H2|]. eapply flight_app; [exact H3|exact H4].
Qed.

Lemma flies_ext {A} (m m' : M (W := W) A) : (forall s, m s = m' s) -> flies m' -> flies m.
Proof using Type. intros H Hf fl s. rewrite H. apply Hf. Qed.

Lemma flies_ret {A} (a : A) : flies (ret a).
Proof using Type. apply flies_quiet; by intros d w. Qed.

Lemma flies_emit {A} (m : M (W := W) (list Event)) (k : M (W := W) A) :
  derives m -> does mute m -> flies k -> flies (evs <-! m ;; k ;;! emitEvents o evs).
Proof using Type.
  intros H1 H2 H3. apply (flies_ext _ (evs <-! m ;; k ;;! emitEvents o evs ;;! ret tt)); [|apply flies_derive; [done..|apply flies_ret]].
  intros s. unfold bind, ret. destruct (m s) as [[evs l1] s1]. destruct (k s1) as [[a l2] s2]. destruct (emitEvents o evs s2) as [[[] l3] s3]. by rewrite app_nil_r.
Qed.

Lemma mute_publish_all {A} (l : list A) (f : A -> Change) : does mute (for_each (W := W) l (fun c => publish_item (IChange (f c)))).
Proof using Type. apply (does_for_each _ mute_composes). intros c d w. by split_and!. Qed.

Lemma flies_modify f : (forall d, dm_der (f d) = dm_der d) -> (forall d, dm_notifyCh (f d) = dm_notifyCh d) -> flies (modify f).
Proof using Type. intros H1 H2. apply flies_quiet; intros d w; cbn; by split_and!. Qed.

Lemma flies_call {A} (f : W -> A * W) : flies (call f).
Proof using Type. apply flies_quiet; [apply quiet_call|apply mute_call]. Qed.

Lemma flies_arm : flies (armTimer o).
Proof using Type. apply flies_quiet; [apply quiet_arm|apply mute_arm]. Qed.

Lemma flies_refreshMonitor : flies (refreshMonitor o).
Proof using Type. apply flies_quiet; [apply quiet_refreshMonitor|apply mute_refreshMonitor]. Qed.

Lemma flies_publish_all {A} (l : list A) (f : A -> Change) : flies (for_each l (fun c => publish_item (IChange (f c)))).
Proof using Type. apply flies_quiet; [apply quiet_publish_all|apply mute_publish_all]. Qed.

Lemma flies_silent e : silent e -> flies (emitEvents o [e]).
Proof using Type.
  intros He fl s. exists [e]. pose proof (flight_emit fl [e] [] s) as H. rewrite app_nil_r in H.
  change [e] with ([e] ++ []) at 1. change (emitEvents o [e] s).1.2 with ([] ++ (emitEvents o [e] s).1.2). eapply FR_cons; [by apply F_event|exact H].
Qed.

(** A handler that emits at once, and does something more. *)
Lemma flies_emit_then (m : M (W := W) (list Event)) (f : M (W := W) unit) :
  derives m -> does mute m -> flies f -> flies (evs <-! m ;; emitEvents o evs ;;! f).
Proof using Type.
  intros H1 H2 H3. apply (flies_ext _ (evs <-! m ;; ret tt ;;! emitEvents o evs ;;! f)); [|by apply flies_derive; [..|apply flies_ret|]].
  intros s. unfold bind, ret. destruct (m s) as [[evs l1] s1]. destruct (emitEvents o evs s1) as [[[] l3] s3]. by destruct (f s3) as [[? ?] ?].
Qed.

(** What was handed to the store is in it, or was not written. *)
Lemma emitted_split l : emitted l ≡ₚ stored l ++ unstored l.
Proof using Type.
  unfold emitted, stored, unstored. induction l as [|a l IH]; [done|]. destruct a as [e [err|]| | | |]; cbn; try exact IH.
  - rewrite IH. apply Permutation_middle.
  - by rewrite IH.
Qed.

Lemma step_flies i : input_ok i -> flies (step o i).
Proof using Type.
  intros Hi. destruct i as [c b|c b|c|e| | | | |]; cbn [step].
  - apply flies_bind; [|intros; apply flies_arm]. unfold onNMChanges. apply flies_emit; [apply derives_nm|apply mute_nm|apply (flies_publish_all _ (fun c => c))].
  - apply flies_bind; [|intros; apply flies_arm]. unfold onVPNChanges. apply flies_emit; [apply derives_vpn|apply mute_vpn|apply (flies_publish_all _ (default_kind ChangeVPN))].
  - unfold onMonitorChange. apply flies_bind; [apply flies_refreshMonitor|]. intros _. apply flies_quiet; [apply quiet_publish|by intros d w; split_and!].
  - unfold onMonitorEvent. apply flies_bind; [destruct (time_IsZero _); [apply flies_call|apply flies_ret]|]. intros t.
    apply flies_bind; [apply flies_quiet; by intros d w|]. intros d. apply flies_bind; [apply flies_refreshMonitor|]. intros _. by apply flies_silent, fill_silent.
  - unfold onTimer. apply flies_bind; [by apply flies_modify|]. intros _. apply flies_emit_then; [apply derives_timer|apply mute_timer|apply flies_arm].
  - apply flies_bind; [by apply flies_modify|]. intros _. apply flies_arm.
  - unfold onPrune. apply flies_bind; [apply flies_call|]. intros _. apply flies_ret.
  - apply flies_notify.
  - unfold Refresh. apply flies_emit_then; [apply derives_Refresh|apply mute_Refresh|by apply flies_modify].
Qed.

Lemma run_flies l : Forall input_ok l -> flies (run o l).
Proof using Type.
  induction 1 as [|i l Hi _ IH]; [apply flies_ret|]. unfold run in *. cbn [for_each]. apply flies_bind; [by apply step_flies|done].
Qed.
End Flight.

(** ** A small world *)

(** A clock and the statuses NetworkManager will answer, the last one for ever. *)
Record demo_world := mkDemoWorld { dw_now : Time; dw_status : list Status }.

Definition demo_status (p : option ActiveConnection) : Status := mkStatus "" ConnFull true true true p "" "" ∅.

Definition demo_ac2 : ActiveConnection :=
  mkActiveConnection "/ac/2" "u-2" "Office" ProfileEthernet ["eth0"] ActiveActivated true false false "" "" ["10.0.0.7/8"] [] "10.0.0.1" [] false.

Definition pop_status (w : demo_world) : result error Status * demo_world :=
  match dw_status w with
  | [] => (Err (ELeaf "gone"), w)
  | [s] => (Ok s, w)
  | s :: l => (Ok s, mkDemoWorld (dw_now w) l)
  end.

Definition quiet_write {A} (_ : A) (w : demo_world) : option error * demo_world := (None, w).

Definition demo_nm : NetworkManager demo_world :=
  mkNetworkManager demo_world pop_status (fun w => (Ok [], w)) (fun w => (Ok [demo_profile], w)) (fun w => (Ok [], w)) (fun _ w => (Ok [], w))
    quiet_write (fun _ w => (None, mkDemoWorld (dw_now w) [demo_status (Some demo_ac)])) (fun _ => quiet_write) quiet_write quiet_write quiet_write
    quiet_write (fun _ => quiet_write) (fun _ _ => quiet_write) (fun _ _ w => (("", None), w)).

Definition demo_monitor : MonitorPort demo_world :=
  mkMonitorPort demo_world (fun _ _ w => w) (fun w => (MonitorStatus_zero, w)) id id quiet_write (fun _ _ _ w => (Ok [], w)).

Definition demo_store : StorePort demo_world :=
  mkStorePort demo_world quiet_write (fun _ w => (Ok [], w)) (fun _ _ _ w => (Ok [], w)) quiet_write (fun _ _ w => (Ok [], w))
    (fun w => (None, w)) (fun w => (None, w)).

Definition demo_system : System demo_world :=
  mkSystem demo_world (fun w => (dw_now w, w)) (fun _ w => (Ok "", w)) (fun _ w => (None, w)) (fun _ _ w => (Ok "", w)) (fun _ w => w).

Definition demo_options : Options demo_world :=
  mkOptions demo_world demo_nm None (Some demo_monitor) demo_store None
    (Some (mkNotifierPort demo_world quiet_write None None)) None None demo_system Default 0 0.

Definition demo_start : Daemon * demo_world :=
  (initialRead demo_options (new_daemon demo_options 1, mkDemoWorld (100 * second)
     [demo_status None; demo_status (Some demo_ac); demo_status (Some demo_ac2)])).2.

(** The first read leaves a deriver in order. *)
Lemma initialRead_ok {W} (o : Options W) t0 w :
  let '(err, _, (d, _)) := initialRead o (new_daemon o t0, w) in
  err = None -> deriver_ok (dm_der d) /\ d_initialized (dm_der d) = true.
Proof.
  pose proof (initialRead_spec o (new_daemon o t0) w) as H. destruct (initialRead o (new_daemon o t0, w)) as [[err l] [d w']].
  intros He. destruct (H He) as [t Ht].
  assert (deriver_ok (dm_der (new_daemon o t0)) /\ d_initialized (dm_der (new_daemon o t0)) = false /\ fresh (dm_der (new_daemon o t0)))
    as (Hok & Hi & Hf) by (split; [apply newDeriver_ok|by split]).
  destruct (apply_init_ok (dview d) t _ Hok Hf Hi) as [H1 _]. pose proof (apply_initialized (dview d) t (dm_der (new_daemon o t0))) as H3.
  by rewrite Ht in *.
Qed.

Lemma demo_first_read_ok : deriver_ok (dm_der demo_start.1) /\ d_initialized (dm_der demo_start.1) = true.
Proof.
  pose proof (initialRead_ok demo_options 1 (mkDemoWorld (100 * second)
     [demo_status None; demo_status (Some demo_ac); demo_status (Some demo_ac2)])) as H.
  unfold demo_start. destruct (initialRead _ _) as [[err l] [d w]] eqn:E. apply H.
  transitivity (initialRead demo_options (new_daemon demo_options 1, mkDemoWorld (100 * second)
     [demo_status None; demo_status (Some demo_ac); demo_status (Some demo_ac2)])).1.1; [by rewrite E|]. vm_compute. reflexivity.
Qed.

(** A refresh of an API operation joins one network, a hint moves on to the
    other; the hint's goroutine is the first to emit. *)
Definition demo_join := Refresh_locked demo_options demo_start.
Definition demo_move := onNMChanges_locked demo_options [] demo_join.2.
Definition demo_emit2 := emitEvents demo_options demo_move.1.1 demo_move.2.
Definition demo_emit1 := emitEvents demo_options demo_join.1.1 demo_emit2.2.

Lemma triple_eta {A B C} (r : A * B * C) : r = (r.1.1, r.1.2, r.2).
Proof. by destruct r as [[? ?] ?]. Qed.

(** Two critical sections, the younger batch emitted first. *)
Lemma overtaken {W} (o : Options W) m1 m2 s r1 r2 e2 e1 :
  derives m1 -> derives m2 -> does mute m1 -> does mute m2 -> r1 = m1 s -> r2 = m2 r1.2 -> e2 = emitEvents o r2.1.1 r2.2 -> e1 = emitEvents o r1.1.1 e2.2 ->
  flight_run o [] s (r1.1.1 ++ r2.1.1) (r1.1.2 ++ r2.1.2 ++ e2.1.2 ++ e1.1.2) [] e1.2.
Proof.
  intros H1 H2 M1 M2 E1 E2 -> ->. eapply (FR_cons o [] s r1.1.1 r1.1.2 [flight_of o r1.1.1] r1.2).
  { apply (F_lock o [] m1); [done|done|]. rewrite <- E1. apply triple_eta. }
  rewrite <- (app_nil_r r2.1.1) at 1. eapply (FR_cons o _ r1.2 r2.1.1 r2.1.2 [flight_of o r1.1.1; flight_of o r2.1.1] r2.2).
  { apply (F_lock o [flight_of o r1.1.1] m2); [done|done|]. rewrite <- E2. apply triple_eta. }
  eapply (flight_app o _ _ [] _ _ _ []); [apply (flight_emit o [flight_of o r1.1.1] r2.1.1 [])|]. apply (flight_emit o [] r1.1.1 []).
Qed.

Lemma demo_flight :
  flight_run demo_options [] demo_start (demo_join.1.1 ++ demo_move.1.1)
    (demo_join.1.2 ++ demo_move.1.2 ++ demo_emit2.1.2 ++ demo_emit1.1.2) [] demo_emit1.2.
Proof.
  apply (overtaken demo_options (Refresh_locked demo_options) (onNMChanges_locked demo_options [])); try reflexivity.
  - apply derives_Refresh.
  - apply derives_nm.
  - apply mute_Refresh.
  - apply mute_nm.
Qed.

(** C6: The history is complete, whatever the backends answer and however the
    goroutines interleave.  From the first read on, in any run of critical
    sections, of single effects of the goroutines that emit what those derived, of
    the notifier, and of whatever else neither derives nor emits (the run loop and
    the operations of the API are made of these): what was derived replays, from
    the network the first snapshot shows, to exactly what the deriver believes now;
    the store, the stream and the notifier's queue are each handed every event once,
    or will be by a goroutine in flight; an event handed to the store is in it
    unless [AddEvent] failed; the notifier gets what the queue accepted, first in
    first out, and the queue never exceeds its bound.  Handled one after the other,
    as the run loop does when no operation is in between, the events are also
    handed over in the order of their derivation, the same for the three.  Events
    the monitor hands in are taken to speak of the quality of a network only. *)
Theorem history_replays {W} (o : Options W) t0 w0 :
  let '(err, l0, s1) := initialRead o (new_daemon o t0, w0) in
  err = None ->
  let v := dview s1.1 in
  let start := (NetworkKey (connectedPrimary (v_Status v)) (v_Profiles v), false) in
  (forall new l fl s2, flight_run o [] s1 new l fl s2 ->
     let log := l0 ++ l in
     let derived := emitted l0 ++ new in
     replay_all start derived = Some (belief (dm_der s2.1)) /\
     emitted log ++ omap (fun t => match t with TStore e => Some e | _ => None end) (concat fl) ≡ₚ derived /\
     published log ++ omap (fun t => match t with TPublish e => Some e | _ => None end) (concat fl) ≡ₚ derived /\
     (is_Some (o_Notifier o) -> queued log ++ omap (fun t => match t with TQueue e => Some e | _ => None end) (concat fl) ≡ₚ derived) /\
     emitted log ≡ₚ stored log ++ unstored log /\
     accepted log = notified log ++ dm_notifyCh s2.1 /\ (length (dm_notifyCh s2.1) <= notifyBuffer)%nat) /\
  (forall inputs, Forall input_ok inputs ->
     let '(_, l, s2) := run o inputs s1 in
     let log := l0 ++ l in
     (exists new, flight_run o [] s1 new l [] s2) /\
     replay_all start (emitted log) = Some (belief (dm_der s2.1)) /\
     published log = emitted log /\ queued log = match o_Notifier o with Some _ => emitted log | None => [] end).
Proof.
  pose proof (initialRead_spec o (new_daemon o t0) w0) as Hfirst.
  pose proof (outlets_initialRead o (new_daemon o t0) w0) as Hout0.
  destruct (initialRead o (new_daemon o t0, w0)) as [[err l0] [d1 w1]]. intros He. destruct (Hfirst He) as [t Ht]. cbn [fst].
  set (der0 := dm_der (new_daemon o t0)) in *.
  assert (deriver_ok der0 /\ d_initialized der0 = false /\ fresh der0) as (Hok & Hi & Hf).
  { split; [apply newDeriver_ok|]. by split. }
  destruct (apply_init_ok (dview d1) t der0 Hok Hf Hi) as [H1 H2].
  pose proof (apply_initialized (dview d1) t der0) as H3. rewrite Ht in *. cbn [fst snd] in *.
  destruct Hout0 as (O1 & O2 & O3 & O4). specialize (O4 ltac:(cbn; lia)). split.
  - intros new l fl s2 Hfl. destruct (flight_belief o _ _ _ _ _ _ Hfl H1 H3) as (_ & _ & T3).
    pose proof (flight_queue o _ _ _ _ _ _ Hfl) as [Q1 Q2].
    assert (forall out todo, outlet o out todo -> out l0 = emitted l0 -> out (l0 ++ l) ++ omap todo (concat fl) ≡ₚ emitted l0 ++ new) as Hperm.
    { intros out todo Ho H0. rewrite (ou_app _ _ _ Ho), H0, <- app_assoc. apply Permutation_app_head. exact (flight_perm o out todo _ _ _ _ _ _ Ho Hfl). }
    split_and!.
    + by rewrite replay_all_app, H2.
    + by apply (Hperm _ _ (outlet_store o)).
    + by apply (Hperm _ _ (outlet_publish o)).
    + intros Hn. apply (Hperm _ _ (outlet_queue o Hn)). destruct Hn as [n Hn]. by rewrite Hn in O2.
    + apply emitted_split.
    + cbn in O3, Q1. unfold accepted, notified in *. rewrite !omap_app, <- app_assoc, <- Q1, app_assoc. f_equal. exact O3.
    + by apply Q2.
  - intros inputs Hin. pose proof (run_tells o inputs Hin d1 w1) as Htell. pose proof (outlets_run o inputs d1 w1) as Hout.
    pose proof (run_flies o inputs Hin [] (d1, w1)) as Hfly.
    destruct (run o inputs (d1, w1)) as [[u l] [d2 w2]]. destruct (Htell H1 H3) as (_ & _ & T3). destruct Hout as (P1 & P2 & _).
    split; [done|]. unfold emitted, published, queued in *. rewrite !omap_app, replay_all_app, H2. split_and!; [done|congruence|].
    rewrite O2, P2. by destruct (o_Notifier o).
Qed.

(** But nothing keeps that order when an operation of the API is in between: a
    refresh that joins one network and a hint that moves on to another can be
    emitted the other way round, and the history then ends on the network that
    was left. *)
Theorem batches_overtake :
  exists W (o : Options W) s new l s',
    deriver_ok (dm_der s.1) /\ d_initialized (dm_der s.1) = true /\ flight_run o [] s new l [] s' /\
    replay_all (belief (dm_der s.1)) new = Some (belief (dm_der s'.1)) /\
    replay_all (belief (dm_der s.1)) (emitted l) <> Some (belief (dm_der s'.1)).
Proof.
  exists demo_world, demo_options, demo_start, (demo_join.1.1 ++ demo_move.1.1),
    (demo_join.1.2 ++ demo_move.1.2 ++ demo_emit2.1.2 ++ demo_emit1.1.2), demo_emit1.2.
  split; [apply demo_first_read_ok|]. split; [apply demo_first_read_ok|]. split; [apply demo_flight|].
  split; [vm_compute; reflexivity|vm_compute; discriminate].
Qed.

(** ** Witnesses *)

Definition demo_w0 : demo_world :=
  mkDemoWorld (100 * second) [demo_status None; demo_status (Some demo_ac); demo_status (Some demo_ac2)].
Definition demo_hint : Change := mkChange ChangeStatus "/".
Definition demo_inputs : list input := [IRefresh; INM demo_hint []; INotify; IWake; INotify].

(** The run of the overtaking batches, after the first read: handed over out of
    order, but every event once; and the run loop on its own. *)
Lemma history_replays_witness :
  exists l0, initialRead demo_options (new_daemon demo_options 1, demo_w0) = (None, l0, demo_start) /\
  let start := (NetworkKey (connectedPrimary (v_Status (dview demo_start.1))) (v_Profiles (dview demo_start.1)), false) in
  let new := demo_join.1.1 ++ demo_move.1.1 in
  let l := demo_join.1.2 ++ demo_move.1.2 ++ demo_emit2.1.2 ++ demo_emit1.1.2 in
  flight_run demo_options [] demo_start new l [] demo_emit1.2 /\
  replay_all start (emitted l0 ++ new) = Some (belief (dm_der demo_emit1.2.1)) /\
  published (l0 ++ l) ++ [] ≡ₚ emitted l0 ++ new /\
  Forall input_ok demo_inputs /\
  let '(_, l', s2) := run demo_options demo_inputs demo_start in
  replay_all start (emitted (l0 ++ l')) = Some (belief (dm_der s2.1)) /\
  map ev_NetworkKey (notified (l0 ++ l')) = ["wifi:HomeNet"; "conn:u-2"].
Proof.
  pose proof (history_replays demo_options 1 demo_w0) as H.
  assert (initialRead demo_options (new_daemon demo_options 1, demo_w0) = (None, (initialRead demo_options (new_daemon demo_options 1, demo_w0)).1.2, demo_start)) as E
    by (vm_compute; reflexivity).
  set (l0 := (initialRead demo_options (new_daemon demo_options 1, demo_w0)).1.2) in E. exists l0. split; [exact E|]. rewrite E in H. specialize (H eq_refl).
  destruct H as [H1 H2]. cbn zeta. split; [exact demo_flight|]. destruct (H1 _ _ _ _ demo_flight) as (A1 & _ & A3 & _). split; [exact A1|]. split; [exact A3|].
  assert (Forall input_ok demo_inputs) as Hin by (unfold demo_inputs; repeat constructor). split; [exact Hin|].
  pose proof (H2 demo_inputs Hin) as H3.
  assert (map ev_NetworkKey (notified (l0 ++ (run demo_options demo_inputs demo_start).1.2)) = ["wifi:HomeNet"; "conn:u-2"]) as Hn by (vm_compute; reflexivity).
  destruct (run demo_options demo_inputs demo_start) as [[[] l'] s2]. destruct H3 as (_ & H3 & _). split; [exact H3|exact Hn].
Defined.

Lemma monitor_follows_witness :
  is_Some (o_Monitor demo_options) /\ settles IRefresh = true /\
  (let '(_, l, (d, _)) := run demo_options [INM demo_hint []; IRefresh; IWake; INotify] (new_daemon demo_options 1, demo_w0) in
   match last (told l) with Some x => Some x | None => net (new_daemon demo_options 1) end = Some (monitorNetwork (dm_der d)) /\
   no_repeat (net (new_daemon demo_options 1)) (told l)) /\
  map fst (told (run demo_options [INM demo_hint []; IRefresh; IWake; INotify] (new_daemon demo_options 1, demo_w0)).1.2) =
    [""; "wifi:HomeNet"].
Proof.
  split; [by eexists|]. split; [reflexivity|]. split; [|vm_compute; reflexivity].
  apply (monitor_follows demo_options (new_daemon demo_options 1) demo_w0 [INM demo_hint []] IRefresh [IWake; INotify]).
  - by eexists.
  - reflexivity.
  - repeat constructor; discriminate.
Defined.

(** The link went down at 20 s; the clock says 100 s. *)
Definition demo_late : Daemon :=
  set_der (d_step (DView (demo_view None ConnNone []) (20 * second)) demo_up).1 (new_daemon demo_options 1).

(** A clock that stands at 100 s. *)
Definition demo_late_options : Options demo_world :=
  mkOptions demo_world demo_nm None (Some demo_monitor) demo_store None None None None
    (mkSystem demo_world (fun w => (100 * second, w)) (fun _ w => (Ok "", w)) (fun _ w => (None, w)) (fun _ _ w => (Ok "", w)) (fun _ w => w))
    Default 0 0.

Lemma vpn_change_leaves_monitor_witness :
  exists pd, d_pendingDisc (dm_der demo_late) = Some pd /\
  monitorNetwork (dm_der demo_late) = ("wifi:HomeNet", "192.168.1.1") /\
  let '(_, l, (d', _)) := step demo_late_options (IVPN (mkChange "" "/") []) (demo_late, demo_w0) in
  monitorNetwork (dm_der d') = ("", "") /\ (exists t, disconnectedEvent pd t ∈ emitted l) /\
  told l = [] /\ net d' = net demo_late /\ dm_timer d' = None.
Proof.
  destruct (d_pendingDisc (dm_der demo_late)) as [pd|] eqn:E; [|vm_compute in E; discriminate].
  exists pd. split; [reflexivity|]. split; [vm_compute; reflexivity|].
  apply (vpn_change_leaves_monitor demo_late_options demo_late demo_w0 (mkChange "" "/") [] pd).
  - vm_compute; reflexivity.
  - vm_compute; reflexivity.
  - exact E.
  - vm_compute; reflexivity.
  - intros w'. assert (match d_pendingDisc (dm_der demo_late) with
      Some pd => time_Add (pd_at pd) (d_debounce (dm_der demo_late)) <=? 100 * second | None => false end = true) as H
      by (vm_compute; reflexivity).
    rewrite E in H. exact (proj1 (Z.leb_le _ _) H).
Defined.

Definition demo_req : ConnectWifiRequest := mkConnectWifiRequest "" "HomeNet" "hunter2hunter2" false "".
Definition demo_joined (w : demo_world) : Prop := dw_status w = [demo_status (Some demo_ac)].

Lemma demo_backends_answer : answers demo_options demo_joined (demo_status (Some demo_ac)) [] [demo_profile] [] [] [] MonitorStatus_zero.
Proof.
  split; intros; unfold demo_joined in *; cbn in *; try done.
  - unfold pop_status. by rewrite H.
  - by injection H as <-.
Qed.

Lemma write_then_read_witness :
  answers demo_options demo_joined (demo_status (Some demo_ac)) [] [demo_profile] [] [] [] MonitorStatus_zero /\
  let f := nm_ConnectWifi demo_nm demo_req in
  let '(r, l, (d', w')) := mutate_ demo_options f (demo_start.1, demo_w0) in
  r = (f demo_w0).1 /\
  match r with
  | Some _ => l = [] /\ d' = demo_start.1 /\ w' = (f demo_w0).2
  | None => shows demo_options (demo_status (Some demo_ac)) [] [demo_profile] [] [] [] MonitorStatus_zero (dm_snap d') /\ dm_wake d' = true
  end.
Proof.
  split; [exact demo_backends_answer|].
  exact (write_then_read demo_options (nm_ConnectWifi demo_nm demo_req) demo_start.1 demo_w0 demo_joined
    (demo_status (Some demo_ac)) [] [demo_profile] [] [] [] MonitorStatus_zero demo_backends_answer eq_refl).
Defined.
