(* ===== verification/SafeWriter.v ===== *)
(** internal/cli/safe.go: the filter between what bnm prints and the terminal.
    Bytes are numbers below 256; the writer behind the filter is a function of
    an abstract world. *)

From S2P Require Import Prelude GoStrings.

Definition bytes : Type := list nat.

(** Digits, [;] and [:]. *)
Definition sgr_param (c : nat) : bool := (Nat.leb 48 c && Nat.leb c 57) || Nat.eqb c 59 || Nat.eqb c 58.

Fixpoint sgr_scan (s : bytes) (n : nat) : nat * bool :=
  match s with
  | [] => (n, false)
  | c :: s' => if sgr_param c then sgr_scan s' (S n) else if Nat.eqb c 109 then (S n, true) else (n, false)
  end.

(** [sgrEnd in i], counted from the ESC at [i]; [s] is what follows it. *)
Definition sgrEnd (s : bytes) : nat * bool :=
  match s with
  | [] => (1%nat, false)
  | c :: s' => if Nat.eqb c 91 then sgr_scan s' 2 else (1%nat, false)
  end.

(** The loop of [sanitizeBytes] from where it stands; [fuel] bounds the bytes
    left. *)
Fixpoint sanitize_loop (fuel : nat) (final : bool) (s : bytes) : bytes * bytes :=
  match fuel, s with
  | O, _ | _, [] => ([], [])
  | S fuel', b :: s' =>
      if Nat.eqb b 27 then
        let '(n, complete) := sgrEnd s' in
        if complete then let '(out, hold) := sanitize_loop fuel' final (drop n s) in (take n s ++ out, hold)
        else if Nat.eqb n (length s) && negb final then ([], s)
        else sanitize_loop fuel' final s'
      else if Nat.eqb b 10 || Nat.eqb b 9 then let '(out, hold) := sanitize_loop fuel' final s' in (b :: out, hold)
      else if Nat.ltb b 32 || Nat.eqb b 127 then sanitize_loop fuel' final s'
      else
        match s' with
        | c :: s'' =>
            if Nat.eqb b 194 && (Nat.leb 128 c && Nat.leb c 159) then sanitize_loop fuel' final s''
            else let '(out, hold) := sanitize_loop fuel' final s' in (b :: out, hold)
        | [] => ([b], [])
        end
  end.

(** [sanitizeBytes]: what is let through, and what waits for the next write. *)
Definition sanitizeBytes (s : bytes) (final : bool) : bytes * bytes := sanitize_loop (length s) final s.

Section Writer.
Context {W : Type}.

(** [s.w.Write]. *)
Context (write : bytes -> W -> option string * W).

(** [Write]: the count and error, and the bytes held now. *)
Definition Write (hold p : bytes) (w : W) : (nat * option string) * bytes * W :=
  let '(out, hold) := sanitizeBytes (hold ++ p) false in
  let '(err, w) := write out w in
  match err with
  | Some e => ((0%nat, Some e), hold, w)
  | None => ((length p, None), hold, w)
  end.

Definition Flush (hold : bytes) (w : W) : option string * bytes * W :=
  match hold with
  | [] => (None, [], w)
  | _ => let '(out, _) := sanitizeBytes hold true in let '(err, w) := write out w in (err, [], w)
  end.

(** Some writes, then [Flush]. *)
Fixpoint write_all (ps : list bytes) (hold : bytes) (w : W) : bytes * W :=
  match ps with
  | [] => (hold, w)
  | p :: ps' => let '(_, hold, w) := Write hold p w in write_all ps' hold w
  end.

Definition print (ps : list bytes) (w : W) : W :=
  let '(hold, w) := write_all ps [] w in
  let '(_, _, w) := Flush hold w in w.
End Writer.

(** A writer that keeps what it is given. *)
Definition to_terminal (out : bytes) (screen : bytes) : option string * bytes := (None, screen ++ out).

Example print_colours :
  print to_terminal [[27; 91; 51; 49]; [109; 65; 27; 93; 7; 66; 13; 10]; [27; 91]]%nat [] =
  [27; 91; 51; 49; 109; 65; 93; 66; 10; 91]%nat.
Proof. vm_compute. reflexivity. Qed.

(** * What reaches the terminal through the filter: no control character but
    newline and tab, no escape sequence but complete colours, however the text
    is cut into writes; and the one control sequence that slips through. *)

(** ** The loop as a relation *)

Definition params (ps : bytes) : Prop := Forall (fun c => sgr_param c = true) ps.

(** What follows an ESC: a colour, or what may still become one. *)
Definition colour (s : bytes) : Prop := exists ps s', params ps /\ s = 91%nat :: ps ++ 109%nat :: s'.
Definition unfinished (s : bytes) : Prop := s = [] \/ exists ps, params ps /\ s = 91%nat :: ps.

Definition plain (b : nat) : Prop := b = 10%nat \/ b = 9%nat \/ (32 <= b)%nat /\ b <> 127%nat.
Definition c1_second (c : nat) : Prop := (128 <= c <= 159)%nat.

Inductive sanitized (final : bool) : bytes -> bytes -> bytes -> Prop :=
| Z_nil : sanitized final [] [] []
| Z_colour ps s out hold :
    params ps -> sanitized final s out hold ->
    sanitized final (27%nat :: 91%nat :: ps ++ 109%nat :: s) (27%nat :: 91%nat :: ps ++ 109%nat :: out) hold
| Z_hold s : final = false -> unfinished s -> sanitized final (27%nat :: s) [] (27%nat :: s)
| Z_esc s out hold :
    ~ colour s -> final = true \/ ~ unfinished s -> sanitized final s out hold -> sanitized final (27%nat :: s) out hold
| Z_control b s out hold : ~ plain b -> b <> 27%nat -> sanitized final s out hold -> sanitized final (b :: s) out hold
| Z_c1 c s out hold : c1_second c -> sanitized final s out hold -> sanitized final (194%nat :: c :: s) out hold
| Z_keep b s out hold :
    plain b -> (b = 194%nat -> match s with [] => True | c :: _ => ~ c1_second c end) ->
    sanitized final s out hold -> sanitized final (b :: s) (b :: out) hold.

Lemma sgr_scan_spec s n :
  let '(m, complete) := sgr_scan s n in
  exists ps s', params ps /\ s = ps ++ s' /\
    if complete then exists s'', s' = 109%nat :: s'' /\ m = (n + length ps + 1)%nat
    else m = (n + length ps)%nat /\ match s' with [] => True | c :: _ => sgr_param c = false /\ c <> 109%nat end.
Proof.
  revert n; induction s as [|c s IH]; intros n; cbn [sgr_scan].
  - exists [], []. split_and!; [constructor|done|cbn; lia|done].
  - destruct (sgr_param c) eqn:Hc.
    + specialize (IH (S n)). destruct (sgr_scan s (S n)) as [m complete]. destruct IH as (ps & s' & Hp & -> & H).
      exists (c :: ps), s'. split; [by constructor|]. split; [done|]. destruct complete.
      * destruct H as (s'' & -> & ->). exists s''. split; [done|]. cbn. lia.
      * destruct H as [-> H]. split; [cbn; lia|done].
    + destruct (Nat.eqb_spec c 109) as [->|Hn].
      * exists [], (109%nat :: s). split_and!; [constructor|done|]. exists s. split; [done|cbn; lia].
      * exists [], (c :: s). split_and!; [constructor|done|cbn; lia|done|done].
Qed.

Lemma params_cut ps s ps' s' :
  params ps -> params ps' -> ps ++ s = ps' ++ s' ->
  match s with [] => True | c :: _ => sgr_param c = false end -> match s' with [] => True | c :: _ => sgr_param c = false end ->
  ps = ps' /\ s = s'.
Proof.
  intros Hp. revert ps'; induction Hp as [|c ps Hc Hp IH]; intros ps' Hp' E H H'.
  - destruct Hp' as [|c' ps' Hc' _]; [done|]. cbn in E. subst s. congruence.
  - destruct Hp' as [|c' ps' Hc' Hp']; [cbn in E; subst s'; congruence|]. injection E as <- E.
    destruct (IH ps' Hp' E H H') as [-> ->]. done.
Qed.

Lemma param_m : sgr_param 109 = false.
Proof. reflexivity. Qed.

(** An ESC starts a colour, may start one, or starts something else. *)
Lemma sgrEnd_spec s :
  let '(n, complete) := sgrEnd s in
  if complete then exists ps s', params ps /\ s = 91%nat :: ps ++ 109%nat :: s' /\ n = (length ps + 3)%nat
  else ~ colour s /\ (n = S (length s) <-> unfinished s).
Proof.
  unfold sgrEnd. destruct s as [|c s]; [|destruct (Nat.eqb_spec c 91) as [->|Hn]].
  - split; [by intros (ps & s' & _ & E)|]. split; [by left|done].
  - pose proof (sgr_scan_spec s 2) as H. destruct (sgr_scan s 2) as [m complete].
    destruct H as (ps & s' & Hp & -> & H). destruct complete.
    + destruct H as (s'' & -> & ->). exists ps, s''. split_and!; [done|done|lia].
    + destruct H as [-> H]. split.
      * intros (ps' & s'' & Hp' & [= E]). apply params_cut in E as [-> ->]; [by destruct H|done|done|by destruct s' as [|? ?]; [|destruct H]|done].
      * cbn [length]. rewrite length_app. split.
        -- intros E. destruct s'; [|cbn in E; lia]. right. exists ps. by rewrite app_nil_r.
        -- intros [E|(ps' & Hp' & [= E])]; [done|]. rewrite <- (app_nil_r ps') in E.
           apply params_cut in E as [-> ->]; [cbn; lia|done|done|by destruct s' as [|? ?]; [|destruct H]|done].
  - split; [by intros (ps & s' & _ & [= E])|]. split; [cbn; intros; destruct s; [|cbn in *; lia]|]; [|by intros [E|(ps & _ & [= E])]].
    cbn in *. lia.
Qed.

Lemma sanitize_loop_sound fuel final s :
  (length s <= fuel)%nat -> let '(out, hold) := sanitize_loop fuel final s in sanitized final s out hold.
Proof.
  revert s; induction fuel as [|fuel IH]; intros [|b s] Hl; cbn [sanitize_loop]; try (by constructor); [cbn in Hl; lia|].
  cbn in Hl. assert (let '(out, hold) := sanitize_loop fuel final s in sanitized final s out hold) as IHs by (apply IH; lia).
  destruct (Nat.eqb_spec b 27) as [->|Hb].
  - pose proof (sgrEnd_spec s) as H. destruct (sgrEnd s) as [n complete]. destruct complete.
    + destruct H as (ps & s' & Hp & -> & ->).
      assert (drop (length ps + 3) (27 :: 91 :: ps ++ 109 :: s')%nat = s') as ->.
      { replace (length ps + 3)%nat with (S (S (length ps + 1))) by lia. cbn [drop]. rewrite drop_app_add. done. }
      assert (take (length ps + 3) (27 :: 91 :: ps ++ 109 :: s')%nat = (27 :: 91 :: ps ++ [109])%nat) as ->.
      { replace (length ps + 3)%nat with (S (S (length ps + 1))) by lia. cbn [take]. rewrite take_app_add. done. }
      assert (let '(out, hold) := sanitize_loop fuel final s' in sanitized final s' out hold) as IHs'.
      { apply IH. cbn in Hl. rewrite length_app in Hl. cbn in Hl. lia. }
      destruct (sanitize_loop fuel final s') as [out hold]. cbn [app]. rewrite <- app_assoc. by apply Z_colour.
    + destruct H as [H1 H2]. cbn [length]. destruct (Nat.eqb_spec n (S (length s))) as [->|Hn], final; cbn [andb negb].
      all: try (destruct (sanitize_loop fuel _ s) as [out hold]; apply Z_esc; [done| |done]); try (by left).
      * apply Z_hold; [done|]. by apply H2.
      * right. intros Hu. by apply H2 in Hu.
  - destruct (Nat.eqb_spec b 10) as [->|H10];
      [cbn [orb]; destruct (sanitize_loop fuel final s) as [out hold]; apply Z_keep; [unfold plain; lia|done|done]|].
    destruct (Nat.eqb_spec b 9) as [->|H9];
      [cbn [orb]; destruct (sanitize_loop fuel final s) as [out hold]; apply Z_keep; [unfold plain; lia|done|done]|].
    cbn [orb].
    destruct (Nat.ltb_spec b 32); [|destruct (Nat.eqb_spec b 127) as [->|H127]]; cbn [orb].
    1-2: destruct (sanitize_loop fuel final s) as [out hold]; apply Z_control; [unfold plain; lia|done|done].
    assert (plain b) as Hp by (unfold plain; lia).
    destruct s as [|c s]; [apply Z_keep; [done|done|constructor]|].
    destruct (Nat.eqb_spec b 194) as [->|H194], (Nat.leb_spec 128 c), (Nat.leb_spec c 159); cbn [andb].
    1: { assert (let '(out, hold) := sanitize_loop fuel final s in sanitized final s out hold) as IHs' by (apply IH; cbn in Hl; lia).
         destruct (sanitize_loop fuel final s) as [out hold]. by apply Z_c1. }
    all: destruct (sanitize_loop fuel final (c :: s)) as [out hold]; apply Z_keep; [done| |done]; intros; unfold c1_second; lia.
Qed.

Lemma sanitize_loop_complete fuel final s out hold :
  sanitized final s out hold -> (length s <= fuel)%nat -> sanitize_loop fuel final s = (out, hold).
Proof.
  intros H. revert fuel; induction H as [|ps s out hold Hp _ IH|s Hf Hu|s out hold Hn Hf _ IH|b s out hold Hb H27 _ IH
    |c s out hold Hc _ IH|b s out hold Hb Hs _ IH]; intros [|fuel] Hl; cbn [length] in Hl; try lia; try done; cbn [sanitize_loop].
  - pose proof (sgrEnd_spec (91%nat :: ps ++ 109%nat :: s)) as H. cbn [Nat.eqb]. destruct (sgrEnd _) as [n complete]. destruct complete.
    2: { exfalso. apply (proj1 H). by exists ps, s. }
    destruct H as (ps' & s' & Hp' & [= E] & ->). apply params_cut in E as [<- [= <-]]; [|done..].
    replace (length ps + 3)%nat with (S (S (length ps + 1))) by lia. cbn [drop take]. rewrite drop_app_add, take_app_add. cbn.
    rewrite IH by (rewrite length_app in Hl; cbn in Hl; lia). by rewrite <- app_assoc.
  - pose proof (sgrEnd_spec s) as H. cbn [Nat.eqb]. destruct (sgrEnd s) as [n complete]. destruct complete.
    + exfalso. destruct H as (ps & s' & Hp & -> & _). destruct Hu as [?|(ps' & Hp' & [= E])]; [done|].
      rewrite <- (app_nil_r ps') in E. apply params_cut in E as [_ ?]; done.
    + apply H in Hu. subst n. cbn [length]. by rewrite Nat.eqb_refl, Hf.
  - pose proof (sgrEnd_spec s) as H. cbn [Nat.eqb]. destruct (sgrEnd s) as [n complete]. destruct complete.
    + exfalso. apply Hn. destruct H as (ps & s' & Hp & -> & _). by exists ps, s'.
    + destruct H as [_ H]. cbn [length]. destruct (Nat.eqb_spec n (S (length s))) as [E|_]; cbn [andb]; [|by apply IH; lia].
      destruct Hf as [->|Hf]; [apply IH; lia|]. exfalso. apply Hf. by apply H.
  - destruct (Nat.eqb_spec b 27) as [->|_]; [done|]. unfold plain in Hb.
    destruct (Nat.eqb_spec b 10), (Nat.eqb_spec b 9); try (exfalso; lia). cbn [orb].
    destruct (Nat.ltb_spec b 32); [|destruct (Nat.eqb_spec b 127); [|exfalso; lia]]; cbn [orb]; apply IH; lia.
  - change (Nat.ltb 194 32) with false. cbn [Nat.eqb orb andb]. unfold c1_second in Hc.
    rewrite (proj2 (Nat.leb_le 128 c)), (proj2 (Nat.leb_le c 159)) by lia. apply IH. lia.
  - destruct (Nat.eqb_spec b 27) as [->|_]; [unfold plain in Hb; lia|]. unfold plain in Hb.
    destruct (Nat.eqb_spec b 10) as [->|]; [cbn; by rewrite IH by lia|]. destruct (Nat.eqb_spec b 9) as [->|]; [cbn; by rewrite IH by lia|].
    cbn [orb]. destruct (Nat.ltb_spec b 32), (Nat.eqb_spec b 127); try (exfalso; lia). cbn [orb].
    destruct s as [|c s]; [specialize (IH fuel ltac:(cbn; lia)); destruct fuel; injection IH as <- <-; done|].
    rewrite IH by lia. destruct (Nat.eqb_spec b 194) as [->|_]; [|done]. specialize (Hs eq_refl). unfold c1_second in Hs.
    destruct (Nat.leb_spec 128 c), (Nat.leb_spec c 159); try done. exfalso. lia.
Qed.

Lemma sanitizeBytes_iff s final out hold : sanitizeBytes s final = (out, hold) <-> sanitized final s out hold.
Proof.
  split.
  - intros E. pose proof (sanitize_loop_sound (length s) final s (le_n _)) as H. unfold sanitizeBytes in E. by rewrite E in H.
  - intros H. by apply sanitize_loop_complete.
Qed.

(** ** What is shown *)

(** Text, with colours as the only escape sequences. *)
Inductive displayed : bytes -> Prop :=
| D_nil : displayed []
| D_byte b s : plain b -> displayed s -> displayed (b :: s)
| D_colour ps s : params ps -> displayed s -> displayed (27%nat :: 91%nat :: ps ++ 109%nat :: s).

Lemma displayed_app a b : displayed a -> displayed b -> displayed (a ++ b).
Proof.
  intros Ha Hb. induction Ha as [|c s Hc _ IH|ps s Hp _ IH]; [done|by apply D_byte|]. cbn. rewrite <- app_assoc. cbn. by apply D_colour.
Qed.

Lemma sanitized_displayed final s out hold : sanitized final s out hold -> displayed out.
Proof. induction 1; try done; by constructor. Qed.

(** What is held back may still become a colour. *)
Definition holdable (h : bytes) : Prop := h = [] \/ exists s, h = 27%nat :: s /\ unfinished s.

Lemma sanitized_hold final s out hold : sanitized final s out hold -> holdable hold /\ (final = true -> hold = []).
Proof.
  induction 1 as [|ps s out hold _ _ IH|s Hf Hu|s out hold _ _ _ IH|b s out hold _ _ _ IH|c s out hold _ _ IH|b s out hold _ _ _ IH]; try done.
  - split; [by left|done].
  - split; [right; by exists s|congruence].
Qed.

(** ** Writes and their seams *)

Lemma colour_app s t : ~ unfinished s -> colour (s ++ t) -> colour s.
Proof.
  intros Hu (ps & s' & Hp & E). destruct s as [|c s]; [by destruct Hu; left|]. injection E as -> E.
  pose proof (sgr_scan_spec s 2) as H. destruct (sgr_scan s 2) as [m complete]. destruct H as (ps2 & s2 & Hp2 & -> & H). destruct complete.
  - destruct H as (s3 & -> & _). by exists ps2, s3.
  - destruct H as [_ H]. destruct s2 as [|c s2]; [exfalso; apply Hu; right; exists ps2; by rewrite app_nil_r|].
    rewrite <- app_assoc in E. apply params_cut in E as [_ [= ?]]; [by destruct H|done|done|by destruct H|done].
Qed.

Lemma unfinished_app s t : ~ unfinished s -> ~ unfinished (s ++ t).
Proof.
  intros Hu [E|(ps & Hp & E)]; apply Hu.
  - apply app_eq_nil in E as [-> _]. by left.
  - destruct s as [|c s]; [by left|]. injection E as -> E. right. exists s. split; [|done]. subst ps. by apply Forall_app in Hp as [? _].
Qed.

Lemma last_behind (p s : bytes) x : last s = Some x -> last (p ++ s) = Some x.
Proof. intros E. by rewrite last_app, E. Qed.

(** Unless a write ends between the two bytes of a C1 control, its end does not
    show. *)
Lemma sanitized_seam final a out hold b out' hold' :
  sanitized false a out hold -> last a <> Some 194%nat -> sanitized final (hold ++ b) out' hold' ->
  sanitized final (a ++ b) (out ++ out') hold'.
Proof.
  intros H. revert b out' hold'. induction H as [|ps s out hold Hp _ IH|s Hf Hu|s out hold Hn Hf _ IH|c s out hold Hb H27 _ IH
    |c s out hold Hc _ IH|c s out hold Hb Hs _ IH]; intros b out' hold' Hl Hb'; try done.
  - cbn. rewrite <- !app_assoc. cbn. apply Z_colour; [done|]. apply IH; [|done].
    intros E. apply Hl. apply (last_behind [27; 91]%nat), last_behind, (last_behind [109%nat]), E.
  - destruct Hf as [?|Hf]; [done|]. cbn. apply Z_esc; [intros Hc; by apply Hn, (colour_app _ b)|right; by apply unfinished_app|].
    apply IH; [|done]. intros E. by apply Hl, (last_behind [_]).
  - cbn. apply Z_control; [done|done|]. apply IH; [|done]. intros E. by apply Hl, (last_behind [_]).
  - cbn. apply Z_c1; [done|]. apply IH; [|done]. intros E. by apply Hl, (last_behind [_; _]).
  - cbn. apply Z_keep; [done| |apply IH; [|done]; intros E; by apply Hl, (last_behind [_])].
    intros ->. destruct s as [|x s]; [done|]. by apply Hs.
Qed.

(** ** C1 controls *)

(** Every 0xc2 is followed by a byte from [lo] on that continues a character. *)
Fixpoint c2_from (lo : nat) (s : bytes) : Prop :=
  match s with
  | [] => True
  | b :: s' => (b = 194%nat -> match s' with c :: _ => (lo <= c <= 191)%nat | [] => False end) /\ c2_from lo s'
  end.

(** No C1 control in UTF-8. *)
Definition no_c1 (s : bytes) : Prop := ~ exists a c b, s = a ++ 194%nat :: c :: b /\ c1_second c.

Lemma c2_no_c1 s : c2_from 160 s -> no_c1 s.
Proof.
  intros H (a & c & b & -> & Hc). induction a as [|x a IH]; cbn in H; [|tauto].
  destruct H as [H _]. specialize (H eq_refl). unfold c1_second in Hc. lia.
Qed.

Lemma c2_app lo a b : c2_from lo a -> c2_from lo b -> c2_from lo (a ++ b).
Proof.
  intros Ha Hb. induction a as [|x a IH]; [done|]. cbn in *. destruct Ha as [Hx Ha]. split; [|by apply IH].
  intros E. specialize (Hx E). by destruct a.
Qed.

Lemma c2_ascii lo s : Forall (fun c => (c < 128)%nat) s -> c2_from lo s.
Proof. induction 1 as [|c s Hc _ IH]; [done|]. cbn. split; [lia|done]. Qed.

Lemma c2_behind lo p s : c2_from lo (p ++ s) -> c2_from lo s.
Proof. induction p as [|x p IH]; [done|]. cbn. tauto. Qed.

Lemma sgr_param_ascii c : sgr_param c = true -> (c < 128)%nat.
Proof.
  unfold sgr_param. rewrite !orb_true_iff, andb_true_iff, !Nat.eqb_eq, !Nat.leb_le. lia.
Qed.

Lemma params_ascii ps : params ps -> Forall (fun c => (c < 128)%nat) ps.
Proof. unfold params. rewrite !Forall_forall. intros H c Hc. by apply sgr_param_ascii, H. Qed.

Lemma sanitized_c2 final s out hold : sanitized final s out hold -> c2_from 128 s -> c2_from 160 out.
Proof.
  induction 1 as [|ps s out hold Hp _ IH|s Hf Hu|s out hold _ _ _ IH|c s out hold _ _ _ IH|c s out hold _ _ IH|c s out hold Hb Hs Hz IH];
    intros H; try done.
  - apply (c2_app 160 (27 :: 91 :: ps ++ [109])%nat out) in IH.
    + cbn in IH |- *. by rewrite <- app_assoc in IH.
    + apply c2_ascii. repeat constructor; try lia. apply Forall_app. split; [by apply params_ascii|]. repeat constructor; lia.
    + apply (c2_behind _ (27 :: 91 :: ps ++ [109])%nat). cbn in *. by rewrite <- app_assoc.
  - apply IH, H.
  - apply IH, H.
  - apply IH, H.
  - cbn in H. destruct H as [H Hr]. cbn. split; [|by apply IH]. intros ->. specialize (H eq_refl). specialize (Hs eq_refl).
    destruct s as [|x s]; [done|]. unfold c1_second in Hs.
    inversion Hz; subst; try lia; exfalso; unfold plain in *; lia.
Qed.

Lemma valid_utf8_c2 fuel s : valid_utf8_fuel fuel s = true -> c2_from 128 s.
Proof.
  revert s; induction fuel as [|fuel IH]; intros [|a s]; cbn [valid_utf8_fuel]; try done.
  destruct (Nat.ltb_spec a 128); [intros H'; cbn; split; [lia|by apply IH]|].
  destruct (Nat.leb_spec 194 a), (Nat.leb_spec a 223); cbn [andb].
  1: { destruct s as [|b s]; [done|]. rewrite andb_true_iff. unfold cont_byte. rewrite andb_true_iff, !Nat.leb_le. intros [Hb Hs]. cbn.
       split; [lia|]. split; [lia|]. by apply IH. }
  all: destruct (Nat.leb_spec 224 a), (Nat.leb_spec a 239); cbn [andb]; try lia.
  all: try (destruct s as [|b [|c s]]; try done; rewrite !andb_true_iff; intros [[Hb Hc] Hs]; cbn;
    assert (b <= 191 /\ c <= 191)%nat as [? ?]
      by (unfold cont_byte in *; repeat case_match; rewrite !andb_true_iff, !Nat.leb_le in *; lia);
    split; [lia|]; split; [lia|]; split; [lia|]; by apply IH).
  all: destruct (Nat.leb_spec 240 a), (Nat.leb_spec a 244); cbn [andb]; try done; try lia.
  destruct s as [|b [|c [|d s]]]; try done; rewrite !andb_true_iff; intros [[[Hb Hc] Hd] Hs]; cbn;
    assert (b <= 191 /\ c <= 191 /\ d <= 191)%nat as (? & ? & ?)
      by (unfold cont_byte in *; repeat case_match; rewrite !andb_true_iff, !Nat.leb_le in *; lia);
    split; [lia|]; split; [lia|]; split; [lia|]; split; [lia|]; by apply IH.
Qed.

(** ** The writer *)

Lemma hold_last h : holdable h -> last h <> Some 194%nat.
Proof.
  intros [->|(s & -> & [->|(ps & Hp & ->)])]; [done|done|]. intros E%last_Some_elem_of.
  rewrite !elem_of_cons in E. destruct E as [E|[E|E]]; [lia|lia|]. apply params_ascii in Hp. rewrite Forall_forall in Hp. apply Hp in E. lia.
Qed.

Lemma hold_c2 lo h : holdable h -> c2_from lo h.
Proof.
  intros [->|(s & -> & [->|(ps & Hp & ->)])]; apply c2_ascii; repeat constructor; try lia. by apply params_ascii.
Qed.

(** What is shown in the end, from a screen and what is held. *)
Definition print_from (ps : list bytes) (hold screen : bytes) : bytes :=
  let '(hold, w) := write_all to_terminal ps hold screen in let '(_, _, w) := Flush to_terminal hold w in w.

Lemma print_from_cons p ps hold screen :
  print_from (p :: ps) hold screen =
  print_from ps (sanitizeBytes (hold ++ p) false).2 (screen ++ (sanitizeBytes (hold ++ p) false).1).
Proof. unfold print_from. cbn [write_all]. unfold Write, to_terminal. by destruct (sanitizeBytes (hold ++ p) false) as [out h]. Qed.

Lemma print_from_nil hold screen : print_from [] hold screen = screen ++ (sanitizeBytes hold true).1.
Proof.
  unfold print_from, to_terminal. cbn [write_all]. destruct hold as [|b h]; [cbn; by rewrite app_nil_r|].
  cbn [Flush]. by destruct (sanitizeBytes (b :: h) true) as [out h'].
Qed.

Lemma step_sanitized s final : sanitized final s (sanitizeBytes s final).1 (sanitizeBytes s final).2.
Proof. apply sanitizeBytes_iff. by destruct (sanitizeBytes s final). Qed.

(** A property of texts that every write keeps holds of the screen. *)
Lemma print_from_keeps (P : bytes -> Prop) (In_ : bytes -> Prop) ps hold screen :
  (forall a b, P a -> P b -> P (a ++ b)) -> (forall h p, holdable h -> In_ p -> In_ (h ++ p)) -> (forall h, holdable h -> In_ h) ->
  (forall final s, In_ s -> P (sanitizeBytes s final).1) -> Forall In_ ps -> holdable hold -> P screen -> P (print_from ps hold screen).
Proof.
  intros Happ Hin Hh Hs Hps. revert hold screen; induction Hps as [|p ps Hp _ IH]; intros hold screen Hhold Hscr.
  - rewrite print_from_nil. auto.
  - rewrite print_from_cons. apply IH; [|auto]. by eapply sanitized_hold, step_sanitized.
Qed.

Lemma print_from_whole ps hold screen :
  Forall (fun p => last p <> Some 194%nat) ps -> holdable hold ->
  print_from ps hold screen = screen ++ (sanitizeBytes (hold ++ concat ps) true).1.
Proof.
  intros Hps. revert hold screen; induction Hps as [|p ps Hp _ IH]; intros hold screen Hhold; cbn [concat].
  - by rewrite app_nil_r, print_from_nil.
  - pose proof (step_sanitized (hold ++ p) false) as Hz. rewrite print_from_cons, IH by (by eapply sanitized_hold).
    rewrite <- app_assoc. f_equal. rewrite app_assoc. symmetry.
    enough (sanitizeBytes ((hold ++ p) ++ concat ps) true = ((sanitizeBytes (hold ++ p) false).1 ++
      (sanitizeBytes ((sanitizeBytes (hold ++ p) false).2 ++ concat ps) true).1, (sanitizeBytes ((sanitizeBytes (hold ++ p) false).2 ++ concat ps) true).2)) as ->; [done|].
    apply sanitizeBytes_iff. eapply sanitized_seam; [exact Hz| |apply step_sanitized].
    rewrite last_app. destruct (last p) eqn:E; [congruence|]. by apply hold_last.
Qed.

(** C20: What bnm prints cannot steer the terminal.  However the output is cut
    into writes, the screen gets text, newlines, tabs and complete colour
    sequences, and no other control byte.  The cuts do not show, unless one
    falls behind the byte 0xc2.  Well-formed writes never show a C1 control,
    the 8-bit forms of escape sequences.  But output that is not UTF-8, or one
    cut in the middle of a character, does get one through: the byte between is
    dropped and its neighbours meet. *)
Theorem terminal_safe (ps : list bytes) :
  let screen := print to_terminal ps [] in
  displayed screen /\
  (Forall (fun p => last p <> Some 194%nat) ps -> screen = (sanitizeBytes (concat ps) true).1) /\
  (Forall (fun p => valid_utf8_fuel (length p) p = true) ps -> no_c1 screen) /\
  print to_terminal [[194; 7; 155]%nat] [] = [194; 155]%nat /\
  print to_terminal [[194]%nat; [155]%nat] [] = [194; 155]%nat.
Proof.
  assert (holdable []) as H0 by (by left). change (print to_terminal ps []) with (print_from ps [] []). cbv zeta. split_and!.
  - apply (print_from_keeps displayed (fun _ => True)); try done.
    + apply displayed_app.
    + intros final s _. eapply sanitized_displayed, step_sanitized.
    + by apply Forall_true.
    + constructor.
  - intros Hps. by rewrite print_from_whole.
  - intros Hps. apply c2_no_c1. apply (print_from_keeps (c2_from 160) (c2_from 128)); try done.
    + apply c2_app.
    + intros h p Hh. by apply c2_app, hold_c2.
    + apply hold_c2.
    + intros final s Hs. eapply sanitized_c2; [apply step_sanitized|done].
    + apply Forall_forall. intros p Hin. rewrite Forall_forall in Hps. by eapply valid_utf8_c2, Hps.
  - reflexivity.
  - reflexivity.
Qed.
