(* ===== verification/Socket.v ===== *)
(** internal/daemon/socket.go: the lock file and the socket that make bnmd the
    only one.

    Several processes run [Listen] and [Close] at once, and may die at any
    point; a step is one system call of one of them.  The world is what they
    share: the lock file, its [flock], the socket file, and who listens.  A
    system call fails when the world says so, or with the error the step
    brings. *)

From S2P Require Import Prelude GoTime Core Errors GoStrings.

(** The process behind a socket file: a bnmd, or somebody else's. *)
Inductive owner := OwnDaemon (n : nat) | OwnForeign (n : nat).

#[export] Instance owner_eq_dec : EqDecision owner.
Proof. solve_decision. Defined.

Inductive listen_error :=
| ErrAlreadyRunning (PID : Z) (Path : string)
| ListenError (e : error).

(** [ErrAlreadyRunning.Error]. *)
Definition AlreadyRunning_Error (PID : Z) (Path : string) : string :=
  if 0 <? PID then "bnmd is already running (pid " +:+ Itoa PID +:+ ", " +:+ Path +:+ ")"
  else "bnmd is already running (" +:+ Path +:+ ")".

(** Where a process stands: the next system call, with the inode of the lock
    file it has open. *)
Inductive pc :=
| PMkdir
| PChmodDir
| POpen
| PFlock (ino : nat)
| PTruncate (ino : nat)
| PWrite (ino : nat)
| PLstat (ino : nat)
| PDial (ino : nat)
| PRemove (ino : nat)
| PBind (ino : nat)
| PChmod (ino : nat)
| PServing (ino : nat)
| PCloseRemove (ino : nat)
| PCloseUnlock (ino : nat)
| PEnd (err : option listen_error)        (* a [Listen] that failed, or a [Close] that is done *)
| PDead.

Record world := mkWorld {
  lockfile : option nat;                   (* the inode behind [LockName] *)
  contents : gmap nat string;              (* of the inodes *)
  next_ino : nat;
  flocks : gmap nat nat;                   (* who holds the lock of an inode *)
  sock : option owner;                     (* who bound the file at [path] *)
  listening : gset nat;                    (* bnmds with an open listener *)
  foreign : gset nat;                      (* others' listeners *)
  procs : gmap nat pc
}.

Section Socket.
Context (dir path : string).

(** The process id of a process, and what [strconv.Atoi] returns besides an
    error. *)
Context (pid : nat -> Z) (atoi_rest : string -> Z).

Definition lockPath : string := dir +:+ "/bnmd.pid".

Definition set_pc (n : nat) (p : pc) (w : world) : world :=
  mkWorld (lockfile w) (contents w) (next_ino w) (flocks w) (sock w) (listening w) (foreign w) (<[n := p]> (procs w)).
Definition set_sock (s : option owner) (w : world) : world :=
  mkWorld (lockfile w) (contents w) (next_ino w) (flocks w) s (listening w) (foreign w) (procs w).
Definition set_listening (l : gset nat) (w : world) : world :=
  mkWorld (lockfile w) (contents w) (next_ino w) (flocks w) (sock w) l (foreign w) (procs w).
Definition set_foreign (l : gset nat) (w : world) : world :=
  mkWorld (lockfile w) (contents w) (next_ino w) (flocks w) (sock w) (listening w) l (procs w).
Definition set_flocks (f : gmap nat nat) (w : world) : world :=
  mkWorld (lockfile w) (contents w) (next_ino w) f (sock w) (listening w) (foreign w) (procs w).
Definition set_content (ino : nat) (s : string) (w : world) : world :=
  mkWorld (lockfile w) (<[ino := s]> (contents w)) (next_ino w) (flocks w) (sock w) (listening w) (foreign w) (procs w).

Definition content (ino : nat) (w : world) : string := default "" (contents w !! ino).

(** [os.OpenFile] with [O_CREATE]. *)
Definition open_lock (w : world) : nat * world :=
  match lockfile w with
  | Some ino => (ino, w)
  | None =>
      let ino := next_ino w in
      (ino, mkWorld (Some ino) (<[ino := ""]> (contents w)) (S ino) (flocks w) (sock w) (listening w) (foreign w) (procs w))
  end.

(** [releaseLock]: unlock and close; the file stays. *)
Definition releaseLock (ino : nat) (w : world) : world := set_flocks (delete ino (flocks w)) w.

(** Somebody answers at [path]. *)
Definition answers_at (w : world) : bool :=
  match sock w with
  | Some (OwnDaemon n) => bool_decide (n ∈ listening w)
  | Some (OwnForeign n) => bool_decide (n ∈ foreign w)
  | None => false
  end.

(** [ln.Close()]: the Go listener unlinks its path and stops. *)
Definition close_listener (n : nat) (w : world) : world := set_listening (listening w ∖ {[n]}) (set_sock None w).

Definition parse_pid (s : string) : Z := match Atoi (TrimSpace s) with Some z => z | None => atoi_rest (TrimSpace s) end.

Definition failed (what e : string) : pc := PEnd (Some (ListenError (EWrap ("daemon: " +:+ what +:+ ": " +:+ e) [ELeaf e]))).

(** Give up after the lock was taken. *)
Definition back_out (n ino : nat) (p : pc) (w : world) : world := set_pc n p (releaseLock ino w).

(** The next system call of process [n]: of [Listen] up to [PServing], of
    [Close] from there.  [fault] is the error it fails with, if any. *)
Definition advance (n : nat) (fault : option string) (w : world) : world :=
  match procs w !! n with
  | Some PMkdir =>
      match fault with Some e => set_pc n (failed ("create " +:+ dir) e) w | None => set_pc n PChmodDir w end
  | Some PChmodDir =>
      match fault with Some e => set_pc n (failed ("chmod " +:+ dir) e) w | None => set_pc n POpen w end
  | Some POpen =>
      match fault with
      | Some e => set_pc n (failed ("open lock " +:+ lockPath) e) w
      | None => let '(ino, w) := open_lock w in set_pc n (PFlock ino) w
      end
  | Some (PFlock ino) =>
      match flocks w !! ino, fault with
      | Some _, Some _ => set_pc n (PEnd (Some (ErrAlreadyRunning 0 lockPath))) w
      | Some _, None =>
          let pid := match lockfile w with Some i => parse_pid (content i w) | None => 0 end in
          set_pc n (PEnd (Some (ErrAlreadyRunning pid lockPath))) w
      | None, Some e => set_pc n (failed ("lock " +:+ lockPath) e) w
      | None, None => set_pc n (PTruncate ino) (set_flocks (<[ino := n]> (flocks w)) w)
      end
  | Some (PTruncate ino) =>
      match fault with
      | Some e => back_out n ino (failed "truncate lock" e) w
      | None => set_pc n (PWrite ino) (set_content ino "" w)
      end
  | Some (PWrite ino) =>
      match fault with
      | Some e => back_out n ino (failed "write lock" e) w
      | None => set_pc n (PLstat ino) (set_content ino (Itoa (pid n) +:+ byte_str [10%nat]) w)
      end
  | Some (PLstat ino) =>
      match sock w, fault with
      | Some _, None => set_pc n (PDial ino) w
      | _, _ => set_pc n (PBind ino) w
      end
  | Some (PDial ino) =>
      match fault with
      | None => if answers_at w then back_out n ino (PEnd (Some (ErrAlreadyRunning 0 path))) w else set_pc n (PRemove ino) w
      | Some _ => set_pc n (PRemove ino) w
      end
  | Some (PRemove ino) =>
      match fault with
      | Some e => back_out n ino (failed ("remove stale socket " +:+ path) e) w
      | None => set_pc n (PBind ino) (set_sock None w)
      end
  | Some (PBind ino) =>
      match sock w, fault with
      | None, None => set_pc n (PChmod ino) (set_listening (listening w ∪ {[n]}) (set_sock (Some (OwnDaemon n)) w))
      | Some _, None => back_out n ino (failed ("listen " +:+ path) "address already in use") w
      | _, Some e => back_out n ino (failed ("listen " +:+ path) e) w
      end
  | Some (PChmod ino) =>
      match fault with
      | Some e => back_out n ino (failed ("chmod " +:+ path) e) (close_listener n w)
      | None => set_pc n (PServing ino) w
      end
  | Some (PServing ino) => set_pc n (PCloseRemove ino) (close_listener n w)
  | Some (PCloseRemove ino) =>
      match fault with
      | Some _ => set_pc n (PCloseUnlock ino) w
      | None => set_pc n (PCloseUnlock ino) (set_sock None w)
      end
  | Some (PCloseUnlock ino) => back_out n ino (PEnd None) w
  | Some (PEnd _) | Some PDead | None => w
  end.

(** [Listen] is called: too long a path is refused at once. *)
Definition Listen_start (n : nat) (w : world) : world :=
  if Nat.ltb 107 (String.length path)
  then set_pc n (PEnd (Some (ListenError (Errorf KindInvalid "use a shorter --socket path (under $XDG_RUNTIME_DIR)"
         ("daemon: socket path is " +:+ Itoa (Z.of_nat (String.length path)) +:+ " bytes, Unix sockets allow 107"))))) w
  else set_pc n PMkdir w.

(** The process dies: the kernel closes what it had open. *)
Definition crash (n : nat) (w : world) : world :=
  set_pc n PDead (set_flocks (filter (fun '(_, h) => h <> n) (flocks w)) (set_listening (listening w ∖ {[n]}) w)).

(** What happens in the world. *)
Inductive event :=
| EStart (n : nat)                          (* a new process calls [Listen] *)
| EAdvance (n : nat) (fault : option string)
| ECrash (n : nat)
| EForeignBind (n : nat)                    (* somebody else binds the free path *)
| EForeignClose (n : nat).                  (* and stops, leaving the file *)

Definition socket_step (e : event) (w : world) : world :=
  match e with
  | EStart n => match procs w !! n with None => Listen_start n w | Some _ => w end
  | EAdvance n fault => advance n fault w
  | ECrash n => match procs w !! n with Some _ => crash n w | None => w end
  | EForeignBind n =>
      match sock w with None => set_foreign (foreign w ∪ {[n]}) (set_sock (Some (OwnForeign n)) w) | Some _ => w end
  | EForeignClose n => set_foreign (foreign w ∖ {[n]}) w
  end.

Definition socket_run (es : list event) (w : world) : world := fold_left (fun w e => socket_step e w) es w.

(** Process [n] alone, without faults, to the end of [Listen]: eleven system
    calls. *)
Fixpoint listen_alone (fuel : nat) (n : nat) (w : world) : world :=
  match fuel, procs w !! n with
  | S fuel', Some (PServing _ | PEnd _ | PDead) => w
  | S fuel', Some _ => listen_alone fuel' n (advance n None w)
  | _, _ => w
  end.

Definition Listen (n : nat) (w : world) : world := listen_alone 12 n (Listen_start n w).

(** Before the first bnmd: whatever an older one left behind. *)
Definition initial (lock : option (nat * string)) (s : option owner) (fs : gset nat) : world :=
  match lock with
  | Some (ino, text) => mkWorld (Some ino) {[ino := text]} (S ino) ∅ s ∅ fs ∅
  | None => mkWorld None ∅ 0 ∅ s ∅ fs ∅
  end.
End Socket.
