(* ===== verification/SocketFacts.v ===== *)
(** One bnmd at a time: whatever processes start, stop, fail or die in between,
    at most one holds the lock, and a socket that answers is never unlinked by
    another; what a start alone comes to. *)

From S2P Require Import Prelude GoTime Core Errors GoStrings GoStringsFacts Socket.

Section SocketFacts.
Context (dir path : string) (pid : nat -> Z) (atoi_rest : string -> Z).

Local Abbreviation advance := (advance dir path pid atoi_rest).
Local Abbreviation socket_step := (socket_step dir path pid atoi_rest).
Local Abbreviation socket_run := (socket_run dir path pid atoi_rest).

(** The lock file a process has open, and the lock it holds. *)
Definition ino_of (p : pc) : option nat :=
  match p with
  | PFlock i | PTruncate i | PWrite i | PLstat i | PDial i | PRemove i | PBind i | PChmod i | PServing i | PCloseRemove i | PCloseUnlock i => Some i
  | _ => None
  end.
Definition holds (p : pc) : option nat := match p with PFlock _ => None | _ => ino_of p end.
(** The process has a listener. *)
Definition up (p : pc) : bool := match p with PChmod _ | PServing _ => true | _ => false end.
(** Its id stands in the lock file. *)
Definition written (p : pc) : bool :=
  match p with PLstat _ | PDial _ | PRemove _ | PBind _ | PChmod _ | PServing _ | PCloseRemove _ | PCloseUnlock _ => true | _ => false end.

Record ok (w : world) : Prop := {
  ok_ino : forall n p i, procs w !! n = Some p -> ino_of p = Some i -> lockfile w = Some i;
  ok_hold : forall n i, flocks w !! i = Some n <-> exists p, procs w !! n = Some p /\ holds p = Some i;
  ok_listen : forall n, n ∈ listening w <-> exists p, procs w !! n = Some p /\ up p = true;
  ok_sock : forall n p, procs w !! n = Some p -> up p = true -> sock w = Some (OwnDaemon n);
  ok_text : forall n p i, procs w !! n = Some p -> written p = true -> holds p = Some i ->
    contents w !! i = Some (Itoa (pid n) +:+ byte_str [10%nat])
}.

Lemma holds_ino p i : holds p = Some i -> ino_of p = Some i.
Proof. by destruct p. Qed.
Lemma up_holds p : up p = true -> is_Some (holds p).
Proof. destruct p; try done; intros _; by eexists. Qed.

(** One holder. *)
Lemma holder_unique w n m p q i j :
  ok w -> procs w !! n = Some p -> procs w !! m = Some q -> holds p = Some i -> holds q = Some j -> n = m.
Proof.
  intros H Hn Hm Hp Hq. pose proof (ok_ino w H n p i Hn (holds_ino _ _ Hp)) as E. pose proof (ok_ino w H m q j Hm (holds_ino _ _ Hq)) as E'.
  assert (i = j) as <- by congruence.
  assert (flocks w !! i = Some n) as F by (apply (ok_hold w H); by exists p).
  assert (flocks w !! i = Some m) as F' by (apply (ok_hold w H); by exists q). congruence.
Qed.

(** Case analysis on whose process is looked up. *)
Ltac at_proc := cbn [procs set_pc set_sock set_listening set_foreign set_flocks set_content lockfile flocks sock listening contents foreign] in *.
Ltac split_procs :=
  repeat match goal with
  | H : <[?n := _]> _ !! ?m = Some _ |- _ =>
      apply lookup_insert_Some in H as [[? ?]|[? ?]]; subst
  end.

Lemma ok_set_pc w n p p' :
  ok w -> procs w !! n = Some p -> holds p' = holds p -> up p' = up p -> (written p' = true -> written p = true) ->
  (forall i, ino_of p' = Some i -> ino_of p = Some i) -> ok (set_pc n p' w).
Proof.
  intros H Hn Hh Hu Hw Hi. split; at_proc; intros.
  - split_procs; [eapply (ok_ino w H); eauto|eapply (ok_ino w H); eauto].
  - rewrite (ok_hold w H). split; intros (q & Hq & E).
    + destruct (decide (n0 = n)) as [->|Hne]; [exists p'; rewrite lookup_insert_eq; split; [done|congruence]|].
      exists q. by rewrite lookup_insert_ne.
    + split_procs; [exists p; split; [done|congruence]|by exists q].
  - rewrite (ok_listen w H). split; intros (q & Hq & E).
    + destruct (decide (n0 = n)) as [->|Hne]; [exists p'; rewrite lookup_insert_eq; split; [done|congruence]|].
      exists q. by rewrite lookup_insert_ne.
    + split_procs; [exists p; split; [done|congruence]|by exists q].
  - split_procs; eapply (ok_sock w H); eauto; congruence.
  - split_procs; [eapply (ok_text w H); eauto; congruence|eapply (ok_text w H); eauto].
Qed.

Lemma ok_new w n p : ok w -> procs w !! n = None -> holds p = None -> ino_of p = None -> up p = false -> ok (set_pc n p w).
Proof.
  intros H Hn Hh Hi Hu. split; at_proc; intros.
  - split_procs; [congruence|eapply (ok_ino w H); eauto].
  - rewrite (ok_hold w H). split; intros (q & Hq & E).
    + exists q. rewrite lookup_insert_ne; [done|]. intros ->. congruence.
    + split_procs; [congruence|by exists q].
  - rewrite (ok_listen w H). split; intros (q & Hq & E).
    + exists q. rewrite lookup_insert_ne; [done|]. intros ->. congruence.
    + split_procs; [congruence|by exists q].
  - split_procs; [congruence|eapply (ok_sock w H); eauto].
  - split_procs; [congruence|eapply (ok_text w H); eauto].
Qed.

Lemma ok_give_up w n p i p' :
  ok w -> procs w !! n = Some p -> holds p = Some i -> up p = false -> ino_of p' = None -> up p' = false -> ok (back_out n i p' w).
Proof.
  intros H Hn Hp Hu Hi Hu'. assert (holds p' = None) as Hh by (destruct (holds p') eqn:E; [by apply holds_ino in E; congruence|done]).
  unfold back_out, releaseLock. split; at_proc; intros.
  - split_procs; [congruence|eapply (ok_ino w H); eauto].
  - rewrite lookup_delete_Some, (ok_hold w H). split.
    + intros [Hne (q & Hq & E)]. exists q. rewrite lookup_insert_ne; [done|]. intros ->. apply Hne.
      rewrite Hn in Hq. injection Hq as <-. congruence.
    + intros (q & Hq & E). split_procs; [congruence|]. split; [|by exists q]. intros ->.
      match goal with Hne : n <> _ |- _ => apply Hne end. eapply (holder_unique w n _ p q); eauto.
  - rewrite (ok_listen w H). split; intros (q & Hq & E).
    + exists q. rewrite lookup_insert_ne; [done|]. intros ->. congruence.
    + split_procs; [congruence|by exists q].
  - split_procs; [congruence|eapply (ok_sock w H); eauto].
  - split_procs; [congruence|eapply (ok_text w H); eauto].
Qed.

Lemma ok_take w n i : ok w -> procs w !! n = Some (PFlock i) -> flocks w !! i = None -> ok (set_pc n (PTruncate i) (set_flocks (<[i := n]> (flocks w)) w)).
Proof.
  intros H Hn Hf. split; at_proc; intros.
  - split_procs; eapply (ok_ino w H); eauto.
  - destruct (decide (i0 = i)) as [->|Hne].
    + rewrite lookup_insert_eq. split.
      * intros [= <-]. exists (PTruncate i). by rewrite lookup_insert_eq.
      * intros (q & Hq & E). split_procs; [done|]. exfalso.
        assert (flocks w !! i = Some n0) by (apply (ok_hold w H); by exists q). congruence.
    + rewrite lookup_insert_ne by done. rewrite (ok_hold w H). split; intros (q & Hq & E).
      * exists q. rewrite lookup_insert_ne; [done|]. intros ->. rewrite Hn in Hq. by injection Hq as <-.
      * split_procs; [cbn in E; congruence|by exists q].
  - rewrite (ok_listen w H). split; intros (q & Hq & E).
    + exists q. rewrite lookup_insert_ne; [done|]. intros ->. rewrite Hn in Hq. by injection Hq as <-.
    + split_procs; [done|by exists q].
  - split_procs; [done|eapply (ok_sock w H); eauto].
  - split_procs; [done|eapply (ok_text w H); eauto].
Qed.

(** The holder rewrites the lock file. *)
Lemma ok_content w n p i s p' :
  ok w -> procs w !! n = Some p -> holds p = Some i -> holds p' = Some i -> up p = false -> up p' = false ->
  (written p' = true -> s = Itoa (pid n) +:+ byte_str [10%nat]) -> ok (set_pc n p' (set_content i s w)).
Proof.
  intros H Hn Hp Hp' Hu Hu' Hs. split; at_proc; intros.
  - split_procs; [|eapply (ok_ino w H); eauto]. apply holds_ino in Hp'. eapply (ok_ino w H); [eauto|]. apply holds_ino in Hp. congruence.
  - rewrite (ok_hold w H). split; intros (q & Hq & E).
    + destruct (decide (n0 = n)) as [->|Hne]; [exists p'; rewrite lookup_insert_eq; split; [done|congruence]|].
      exists q. by rewrite lookup_insert_ne.
    + split_procs; [exists p; split; [done|congruence]|by exists q].
  - rewrite (ok_listen w H). split; intros (q & Hq & E).
    + exists q. rewrite lookup_insert_ne; [done|]. intros ->. congruence.
    + split_procs; [congruence|by exists q].
  - split_procs; [congruence|eapply (ok_sock w H); eauto].
  - split_procs.
    + assert (i0 = i) as -> by congruence. rewrite lookup_insert_eq. by rewrite Hs.
    + rewrite lookup_insert_ne; [eapply (ok_text w H); eauto|]. intros ->.
      match goal with Hne : n <> _ |- _ => apply Hne end. eapply (holder_unique w n _ p); eauto.
Qed.

(** The holder, who has no listener, removes the socket file. *)
Lemma ok_unlink w n p i p' :
  ok w -> procs w !! n = Some p -> holds p = Some i -> holds p' = Some i -> up p = false -> up p' = false -> written p = true ->
  ok (set_pc n p' (set_sock None w)).
Proof.
  intros H Hn Hp Hp' Hu Hu' Hw. apply (ok_set_pc (set_sock None w) n p); [|done|congruence|congruence|done|].
  - split; at_proc; try apply H. intros m q Hm Hq. exfalso. destruct (up_holds q Hq) as [j Hj].
    assert (n = m) as -> by (eapply (holder_unique w n m p q); eauto). congruence.
  - intros j Hj. apply holds_ino in Hp, Hp'. congruence.
Qed.

Lemma ok_bind w n i :
  ok w -> procs w !! n = Some (PBind i) -> sock w = None ->
  ok (set_pc n (PChmod i) (set_listening (listening w ∪ {[n]}) (set_sock (Some (OwnDaemon n)) w))).
Proof.
  intros H Hn Hs. split; at_proc; intros.
  - split_procs; eapply (ok_ino w H); eauto.
  - rewrite (ok_hold w H). split; intros (q & Hq & E).
    + destruct (decide (n0 = n)) as [->|Hne].
      * exists (PChmod i). rewrite lookup_insert_eq. split; [done|]. rewrite Hn in Hq. injection Hq as <-. done.
      * exists q. by rewrite lookup_insert_ne.
    + split_procs; [by exists (PBind i)|by exists q].
  - rewrite elem_of_union, elem_of_singleton, (ok_listen w H). split.
    + intros [(q & Hq & E)| ->]; [|exists (PChmod i); by rewrite lookup_insert_eq].
      exfalso. pose proof (ok_sock w H n0 q Hq E). congruence.
    + intros (q & Hq & E). split_procs; [by right|left; by exists q].
  - split_procs; [done|]. exfalso. match goal with Hq : procs w !! _ = Some ?q, E : up ?q = true |- _ => pose proof (ok_sock w H _ q Hq E) end. congruence.
  - split_procs; [|eapply (ok_text w H); eauto]. eapply (ok_text w H); eauto.
Qed.

Lemma ok_close w n p i :
  ok w -> procs w !! n = Some p -> up p = true -> holds p = Some i ->
  ok (set_pc n (PCloseRemove i) (close_listener n w)).
Proof.
  intros H Hn Hu Hp. unfold close_listener. split; at_proc; intros.
  - split_procs; [|eapply (ok_ino w H); eauto]. eapply (ok_ino w H); [eauto|]. apply holds_ino in Hp. cbn in *. congruence.
  - rewrite (ok_hold w H). split; intros (q & Hq & E).
    + destruct (decide (n0 = n)) as [->|Hne].
      * exists (PCloseRemove i). rewrite lookup_insert_eq. split; [done|]. cbn. congruence.
      * exists q. by rewrite lookup_insert_ne.
    + split_procs; [exists p; cbn in E; split; [done|congruence]|by exists q].
  - rewrite elem_of_difference, elem_of_singleton, (ok_listen w H). split.
    + intros [(q & Hq & E) Hne]. exists q. by rewrite lookup_insert_ne by done.
    + intros (q & Hq & E). split_procs; [done|]. split; [by exists q|done].
  - split_procs; [done|]. exfalso.
    match goal with Hq : procs w !! ?m = Some ?q, E : up ?q = true |- _ => destruct (up_holds q E) as [j Hj]; assert (n = m) by (eapply (holder_unique w n m p q); eauto) end. done.
  - split_procs; [|eapply (ok_text w H); eauto]. eapply (ok_text w H); [eauto| |cbn in *; congruence]. destruct p; done.
Qed.

Lemma ok_open w n : ok w -> procs w !! n = Some POpen -> let '(i, w') := open_lock w in ok (set_pc n (PFlock i) w').
Proof.
  intros H Hn. unfold open_lock. destruct (lockfile w) as [i|] eqn:El.
  - split; at_proc; intros.
    + split_procs; [cbn in *; congruence|eapply (ok_ino w H); eauto].
    + rewrite (ok_hold w H). split; intros (q & Hq & E).
      * exists q. rewrite lookup_insert_ne; [done|]. intros ->. rewrite Hn in Hq. by injection Hq as <-.
      * split_procs; [done|by exists q].
    + rewrite (ok_listen w H). split; intros (q & Hq & E).
      * exists q. rewrite lookup_insert_ne; [done|]. intros ->. rewrite Hn in Hq. by injection Hq as <-.
      * split_procs; [done|by exists q].
    + split_procs; [done|eapply (ok_sock w H); eauto].
    + split_procs; [done|eapply (ok_text w H); eauto].
  - assert (forall m q j, procs w !! m = Some q -> ino_of q = Some j -> False) as Hno.
    { intros m q j Hm Hj. pose proof (ok_ino w H m q j Hm Hj). congruence. }
    split; at_proc; intros.
    + split_procs; [cbn in *; congruence|exfalso; eauto].
    + rewrite (ok_hold w H). split; intros (q & Hq & E).
      * exfalso. apply holds_ino in E. eauto.
      * split_procs; [done|by exists q].
    + rewrite (ok_listen w H). split; intros (q & Hq & E).
      * exists q. rewrite lookup_insert_ne; [done|]. intros ->. rewrite Hn in Hq. by injection Hq as <-.
      * split_procs; [done|by exists q].
    + split_procs; [done|eapply (ok_sock w H); eauto].
    + split_procs; [done|exfalso; match goal with E : holds _ = Some _ |- _ => apply holds_ino in E; eauto end].
Qed.

Lemma ok_crash w n p : ok w -> procs w !! n = Some p -> ok (crash n w).
Proof.
  intros H Hn. unfold crash. split; at_proc; intros.
  - split_procs; [done|eapply (ok_ino w H); eauto].
  - rewrite map_lookup_filter_Some, (ok_hold w H). split.
    + intros [(q & Hq & E) Hne]. exists q. by rewrite lookup_insert_ne by done.
    + intros (q & Hq & E). split_procs; [done|]. split; [by exists q|done].
  - rewrite elem_of_difference, elem_of_singleton, (ok_listen w H). split.
    + intros [(q & Hq & E) Hne]. exists q. by rewrite lookup_insert_ne by done.
    + intros (q & Hq & E). split_procs; [done|]. split; [by exists q|done].
  - split_procs; [done|eapply (ok_sock w H); eauto].
  - split_procs; [done|eapply (ok_text w H); eauto].
Qed.

Lemma ok_advance w n fault : ok w -> ok (advance n fault w).
Proof.
  intros H. unfold Socket.advance. destruct (procs w !! n) as [p|] eqn:Hn; [|done].
  destruct p as [| | |i|i|i|i|i|i|i|i|i|i|i|err|]; try done.
  - destruct fault; by eapply (ok_set_pc w n PMkdir).
  - destruct fault; by eapply (ok_set_pc w n PChmodDir).
  - destruct fault; [by eapply (ok_set_pc w n POpen)|].
    pose proof (ok_open w n H Hn) as Ho. by destruct (open_lock w).
  - destruct (flocks w !! i) as [h|] eqn:Hf, fault; try (by eapply (ok_set_pc w n (PFlock i))). by apply ok_take.
  - destruct fault; [by eapply ok_give_up|]. by eapply ok_content.
  - destruct fault; [by eapply ok_give_up|]. by eapply ok_content.
  - destruct (sock w), fault; by eapply (ok_set_pc w n (PLstat i)).
  - destruct fault; [by eapply (ok_set_pc w n (PDial i))|]. destruct (answers_at w); [by eapply ok_give_up|by eapply (ok_set_pc w n (PDial i))].
  - destruct fault; [by eapply ok_give_up|]. by eapply ok_unlink.
  - destruct (sock w) eqn:Hs, fault; try (by eapply ok_give_up). by apply ok_bind.
  - destruct fault as [e|]; [|by eapply (ok_set_pc w n (PChmod i))].
    pose proof (ok_close w n (PChmod i) i H Hn eq_refl eq_refl) as Hc.
    match goal with |- ok (back_out n i ?q _) => pose proof (ok_give_up _ n (PCloseRemove i) i q Hc) as Hg end.
    unfold back_out, set_pc, releaseLock, set_flocks in *. cbn [procs lockfile contents next_ino flocks sock listening foreign] in *.
    rewrite insert_insert_eq in Hg. apply Hg; try done. by rewrite lookup_insert_eq.
  - by eapply ok_close.
  - destruct fault; [by eapply (ok_set_pc w n (PCloseRemove i))|]. by eapply ok_unlink.
  - by eapply ok_give_up.
Qed.

Lemma ok_step e w : ok w -> ok (socket_step e w).
Proof.
  intros H. destruct e as [n|n fault|n|n|n]; cbn [Socket.socket_step].
  - destruct (procs w !! n) eqn:Hn; [done|]. unfold Listen_start. destruct (Nat.ltb 107 _); by apply ok_new.
  - by apply ok_advance.
  - destruct (procs w !! n) eqn:Hn; [by eapply ok_crash|done].
  - destruct (sock w) eqn:Hs; [done|]. split; at_proc; try apply H. intros m q Hm Hq. pose proof (ok_sock w H m q Hm Hq). congruence.
  - split; at_proc; apply H.
Qed.

Lemma ok_run es w : ok w -> ok (socket_run es w).
Proof. revert w; induction es as [|e es IH]; intros w H; [done|]. cbn. by apply IH, ok_step. Qed.

Lemma ok_initial lock s fs : ok (initial lock s fs).
Proof.
  unfold initial. destruct lock as [[ino text]|]; split; cbn [procs flocks listening]; intros; try (by rewrite lookup_empty in *).
  all: try (rewrite lookup_empty; split; [done|intros (q & Hq & _); by rewrite lookup_empty in Hq]).
  all: split; [by intros ?%elem_of_empty|intros (q & Hq & _); by rewrite lookup_empty in Hq].
Qed.

(** C21: There is one bnmd.  Start, stop, fail and kill processes in any order
    and at any point, from whatever an older one left behind, beside others who
    bind the path when it is free: at most one process is past the lock; the
    socket of one that serves is its own, answers, and stays; and a start that
    meets it is refused with its process id. *)
Theorem single_daemon lock s fs es n p :
  let w := socket_run es (initial lock s fs) in
  procs w !! n = Some p ->
  (forall m q, procs w !! m = Some q -> is_Some (holds p) -> is_Some (holds q) -> n = m) /\
  (forall i, p = PServing i ->
     sock w = Some (OwnDaemon n) /\ answers_at w = true /\
     (forall e, e <> ECrash n -> (forall fault, e <> EAdvance n fault) ->
        sock (socket_step e w) = Some (OwnDaemon n) /\ answers_at (socket_step e w) = true) /\
     (forall m, procs w !! m = Some (PFlock i) -> - 2 ^ 63 <= pid n < 2 ^ 63 ->
        procs (advance m None w) !! m = Some (PEnd (Some (ErrAlreadyRunning (pid n) (lockPath dir)))))).
Proof.
  intros w Hn. assert (ok w) as H by apply ok_run, ok_initial. clearbody w. split.
  - intros m q Hm [i Hi] [j Hj]. by eapply (holder_unique w n m p q).
  - intros i ->. pose proof (ok_sock w H n _ Hn eq_refl) as Hs.
    assert (n ∈ listening w) as Hl by (apply (ok_listen w H); by exists (PServing i)).
    split; [done|]. split; [unfold answers_at; rewrite Hs; by apply bool_decide_eq_true|]. split.
    + intros e He Hf. assert (procs (socket_step e w) !! n = Some (PServing i)) as Hn'.
      { destruct e as [m|m fault|m|m|m]; cbn [Socket.socket_step].
        - destruct (procs w !! m) eqn:Hm; [done|]. assert (m <> n) by (intros ->; congruence).
          unfold Listen_start. destruct (Nat.ltb 107 _); cbn [procs set_pc]; by rewrite lookup_insert_ne.
        - assert (m <> n) by (intros ->; by eapply Hf). unfold Socket.advance, back_out, open_lock, close_listener, releaseLock.
          repeat case_match; simplify_eq; cbn [procs set_pc set_sock set_listening set_foreign set_flocks set_content];
            try done; by rewrite lookup_insert_ne.
        - assert (m <> n) by (intros ->; by apply He). destruct (procs w !! m) eqn:Hm; [|done].
          unfold crash. cbn [procs set_pc set_listening set_flocks]. by rewrite lookup_insert_ne.
        - by destruct (sock w).
        - done. }
      pose proof (ok_step e w H) as H'. pose proof (ok_sock _ H' n _ Hn' eq_refl) as Hs'.
      assert (n ∈ listening (socket_step e w)) as Hl' by (apply (ok_listen _ H'); by exists (PServing i)).
      split; [done|]. unfold answers_at. rewrite Hs'. by apply bool_decide_eq_true.
    + intros m Hm Hpid. unfold Socket.advance. rewrite Hm.
      assert (flocks w !! i = Some n) as -> by (apply (ok_hold w H); by exists (PServing i)).
      rewrite (ok_ino w H n _ i Hn eq_refl). cbn [procs set_pc]. rewrite lookup_insert_eq. do 4 f_equal.
      unfold content. rewrite (ok_text w H n _ i Hn eq_refl eq_refl). unfold parse_pid.
      match goal with |- context [default "" (Some ?x)] => change (default "" (Some x)) with x end.
      rewrite TrimSpace_line by (apply Itoa_plain || apply Itoa_nonempty). by rewrite Atoi_Itoa_all.
Qed.

(** ** A start alone *)

Local Abbreviation listen_alone := (listen_alone dir path pid atoi_rest).

Definition terminal (p : pc) : bool := match p with PServing _ | PEnd _ | PDead => true | _ => false end.

Lemma alone_step f n w p : procs w !! n = Some p -> terminal p = false -> listen_alone (S f) n w = listen_alone f n (advance n None w).
Proof. intros Hn Hp. cbn [Socket.listen_alone]. rewrite Hn. by destruct p. Qed.

Lemma alone_end f n w p : procs w !! n = Some p -> terminal p = true -> listen_alone (S f) n w = w.
Proof. intros Hn Hp. cbn [Socket.listen_alone]. rewrite Hn. by destruct p. Qed.

(** One step of a process whose next call is known. *)
Ltac alone :=
  first [erewrite alone_end; [|cbn [procs set_pc]; apply lookup_insert_eq|reflexivity]
        |erewrite alone_step; [|cbn [procs set_pc]; apply lookup_insert_eq|reflexivity];
         unfold Socket.advance at 1; cbn [procs set_pc]; rewrite lookup_insert_eq].

Lemma set_pc_twice n p q w : set_pc n p (set_pc n q w) = set_pc n p w.
Proof. unfold set_pc. cbn. by rewrite insert_insert_eq. Qed.

Lemma set_pc_unlink n p q w : set_pc n p (set_sock None (set_pc n q w)) = set_pc n p (set_sock None w).
Proof. unfold set_pc, set_sock. cbn. by rewrite insert_insert_eq. Qed.

(** The lock file as [os.OpenFile] leaves it. *)
Definition opened (w : world) : world := (open_lock w).2.
Definition lock_ino (w : world) : nat := (open_lock w).1.

Lemma open_lock_pc n p w : open_lock (set_pc n p w) = (lock_ino w, set_pc n p (opened w)).
Proof. unfold open_lock, lock_ino, opened, open_lock. by destruct w as [[l|] ? ? ? ? ? ? ?]. Qed.

Lemma opened_fields w :
  lockfile (opened w) = Some (lock_ino w) /\ flocks (opened w) = flocks w /\ sock (opened w) = sock w /\
  listening (opened w) = listening w /\ foreign (opened w) = foreign w /\ procs (opened w) = procs w.
Proof. unfold opened, lock_ino, open_lock. by destruct w as [[l|] ? ? ? ? ? ? ?]. Qed.

(** Up to the lock. *)
Lemma alone_to_lock f n w : (String.length path <= 107)%nat ->
  listen_alone (S (S (S f))) n (Listen_start path n w) = listen_alone f n (set_pc n (PFlock (lock_ino w)) (opened w)).
Proof.
  intros Hp. unfold Listen_start. rewrite (proj2 (Nat.ltb_ge 107 _)) by lia.
  alone. rewrite set_pc_twice. alone. rewrite set_pc_twice. alone. by rewrite open_lock_pc, set_pc_twice.
Qed.

(** From the lock to the socket. *)
Definition locked (n : nat) (w : world) : world :=
  set_content (lock_ino w) (Itoa (pid n) +:+ byte_str [10%nat]) (set_content (lock_ino w) ""
    (set_flocks (<[lock_ino w := n]> (flocks w)) (opened w))).

Lemma alone_to_socket f n w : (String.length path <= 107)%nat -> flocks w !! lock_ino w = None ->
  listen_alone (S (S (S (S (S (S f)))))) n (Listen_start path n w) = listen_alone f n (set_pc n (PLstat (lock_ino w)) (locked n w)).
Proof.
  intros Hp Hf. rewrite alone_to_lock by done. destruct (opened_fields w) as (_ & Ef & _).
  alone. cbn [flocks set_pc]. rewrite Ef, Hf. cbn [set_flocks].
  alone. alone. unfold locked. unfold set_content, set_flocks, set_pc. cbn. by rewrite !insert_insert_eq.
Qed.

(** With the lock held and the path free. *)
Definition bound (n i : nat) (w : world) : world :=
  set_pc n (PServing i) (set_listening (listening w ∪ {[n]}) (set_sock (Some (OwnDaemon n)) w)).

Lemma alone_bind f n i w : sock w = None -> listen_alone (S (S (S f))) n (set_pc n (PBind i) w) = bound n i w.
Proof.
  intros Hs. alone. cbn [sock set_pc]. rewrite Hs. alone. rewrite set_pc_twice. alone.
  unfold bound, set_pc, set_sock, set_listening. cbn. by rewrite insert_insert_eq.
Qed.

(** C22: What a start comes to, from every state of the world the processes
    can reach, when nothing goes wrong.  Too long a path is refused before
    anything is touched; while a process holds the lock, the start is refused
    and leaves the socket as it is; with the lock free, a socket that answers is
    left alone and the lock given back; otherwise the process serves, whatever
    stale socket a dead one left behind. *)
Theorem listen_outcome lock s fs es n :
  let w := socket_run es (initial lock s fs) in
  procs w !! n = None ->
  let w' := Listen dir path pid atoi_rest n w in
  (107 < String.length path -> exists hint msg, w' = set_pc n (PEnd (Some (ListenError (Errorf KindInvalid hint msg)))) w)%nat /\
  ((String.length path <= 107)%nat ->
   (forall m q i, procs w !! m = Some q -> holds q = Some i ->
      (exists z, procs w' !! n = Some (PEnd (Some (ErrAlreadyRunning z (lockPath dir))))) /\
      sock w' = sock w /\ listening w' = listening w /\ flocks w' = flocks w) /\
   ((forall m q, procs w !! m = Some q -> holds q = None) ->
      if answers_at w
      then procs w' !! n = Some (PEnd (Some (ErrAlreadyRunning 0 path))) /\ sock w' = sock w /\ flocks w' = ∅
      else exists i, procs w' !! n = Some (PServing i) /\ sock w' = Some (OwnDaemon n) /\ answers_at w' = true /\ flocks w' = {[i := n]})).
Proof.
  intros w Hn. assert (ok w) as H by apply ok_run, ok_initial. clearbody w. cbv zeta. split.
  { intros Hl. unfold Listen, Listen_start. rewrite (proj2 (Nat.ltb_lt 107 _)) by done. alone. by do 2 eexists. }
  intros Hl. destruct (opened_fields w) as (El & Ef & Es & Eli & Efo & Ep). split.
  - intros m q i Hm Hq. pose proof (ok_ino w H m q i Hm (holds_ino _ _ Hq)) as Hi.
    assert (lock_ino w = i) as Elo by (unfold lock_ino, open_lock; by rewrite Hi).
    assert (flocks w !! i = Some m) as Hf by (apply (ok_hold w H); by exists q).
    assert (exists z, Listen dir path pid atoi_rest n w = set_pc n (PEnd (Some (ErrAlreadyRunning z (lockPath dir)))) (opened w)) as [z ->].
    { unfold Listen. rewrite (alone_to_lock 9) by done. alone. cbn [flocks set_pc]. rewrite Ef, Elo, Hf. alone.
      eexists. by rewrite set_pc_twice. }
    cbn [procs set_pc sock listening flocks]. rewrite lookup_insert_eq, Es, Eli, Ef. split; [by eexists|done].
  - intros Hfree. assert (flocks w = ∅) as Hf.
    { apply map_empty. intros i. destruct (flocks w !! i) as [m|] eqn:E; [|done]. apply (ok_hold w H) in E as (q & Hq & E).
      specialize (Hfree m q Hq). congruence. }
    assert (sock (locked n w) = sock w /\ answers_at (locked n w) = answers_at w /\ listening (locked n w) = listening w /\
      flocks (locked n w) = {[lock_ino w := n]}) as (Ks & Ka & Kl & Kf).
    { unfold locked, answers_at. cbn [sock set_content set_flocks listening foreign flocks]. rewrite Es, Eli, Efo, Hf. by split_and!. }
    assert (answers_at w = true -> is_Some (sock w)) as Hans by (unfold answers_at; destruct (sock w); [by eexists|done]).
    assert (Listen dir path pid atoi_rest n w =
      if answers_at w then back_out n (lock_ino w) (PEnd (Some (ErrAlreadyRunning 0 path))) (locked n w)
      else bound n (lock_ino w) (locked n w)) as ->.
    { unfold Listen. rewrite (alone_to_socket 6) by (try done; by rewrite Hf).
      alone. cbn [sock set_pc]. rewrite Ks. destruct (sock w) as [ow|] eqn:Eo.
      - rewrite set_pc_twice. alone. change (answers_at (set_pc n ?p ?x)) with (answers_at x). rewrite Ka.
        destruct (answers_at w).
        + unfold back_out, releaseLock. cbn [set_flocks flocks set_pc]. alone. unfold set_pc, set_flocks. cbn. by rewrite ?insert_insert_eq.
        + rewrite set_pc_twice. alone. by rewrite set_pc_unlink, (alone_bind 0).
      - rewrite set_pc_twice. rewrite (alone_bind 2) by (by rewrite Ks). by destruct (answers_at w); [destruct Hans|]. }
    destruct (answers_at w).
    + cbn [back_out releaseLock procs sock flocks set_pc set_flocks]. rewrite lookup_insert_eq, Ks, Kf.
      split_and!; [done|done|]. apply map_eq. intros j. rewrite lookup_empty, lookup_delete_None.
      destruct (decide (lock_ino w = j)); [by left|right; by rewrite lookup_singleton_ne].
    + exists (lock_ino w). unfold bound, answers_at. cbn [procs sock flocks listening set_pc set_sock set_listening].
      rewrite lookup_insert_eq, Kf. split_and!; try done. apply bool_decide_eq_true. set_solver.
Qed.
End SocketFacts.

(** ** Witnesses *)

Definition demo_pid (n : nat) : Z := 1000 + Z.of_nat n.
Local Abbreviation demo_run es :=
  (Socket.socket_run "/run/bnm" "/run/bnm/bnmd.sock" demo_pid (fun _ => 0) es (initial (Some (7%nat, "42")) (Some (OwnForeign 0)) ∅)).

(** The first bnmd serves over a stale socket, the second has opened the lock
    file. *)
Definition demo_two : list event :=
  EStart 1 :: repeat (EAdvance 1 None) 11 ++ [EStart 2; EAdvance 2 None; EAdvance 2 None; EAdvance 2 None].

Lemma single_daemon_witness :
  procs (demo_run demo_two) !! 1%nat = Some (PServing 7) /\
  sock (demo_run demo_two) = Some (OwnDaemon 1) /\
  procs (advance "/run/bnm" "/run/bnm/bnmd.sock" demo_pid (fun _ => 0) 2 None (demo_run demo_two)) !! 2%nat =
    Some (PEnd (Some (ErrAlreadyRunning 1001 "/run/bnm/bnmd.pid"))).
Proof.
  assert (procs (demo_run demo_two) !! 1%nat = Some (PServing 7)) as H1 by (vm_compute; reflexivity).
  assert (procs (demo_run demo_two) !! 2%nat = Some (PFlock 7)) as H2 by (vm_compute; reflexivity).
  split; [exact H1|].
  destruct (single_daemon "/run/bnm" "/run/bnm/bnmd.sock" demo_pid (fun _ => 0) (Some (7%nat, "42")) (Some (OwnForeign 0)) ∅ demo_two 1 (PServing 7) H1)
    as [_ H]. destruct (H 7%nat eq_refl) as (Hs & _ & _ & Hp). split; [exact Hs|]. apply (Hp 2%nat H2). unfold demo_pid. lia.
Defined.

(** The first bnmd is killed; a third one starts. *)
Definition demo_killed : list event := demo_two ++ [EAdvance 2 None; ECrash 1].

Lemma listen_outcome_witness :
  procs (demo_run demo_killed) !! 3%nat = None /\ sock (demo_run demo_killed) = Some (OwnDaemon 1) /\
  let w' := Listen "/run/bnm" "/run/bnm/bnmd.sock" demo_pid (fun _ => 0) 3 (demo_run demo_killed) in
  exists i, procs w' !! 3%nat = Some (PServing i) /\ sock w' = Some (OwnDaemon 3) /\ answers_at w' = true /\ flocks w' = {[i := 3%nat]}.
Proof.
  assert (procs (demo_run demo_killed) !! 3%nat = None) as H3 by (vm_compute; reflexivity).
  split; [exact H3|]. split; [vm_compute; reflexivity|].
  destruct (listen_outcome "/run/bnm" "/run/bnm/bnmd.sock" demo_pid (fun _ => 0) (Some (7%nat, "42")) (Some (OwnForeign 0)) ∅ demo_killed 3 H3)
    as [_ H]. destruct (H ltac:(cbn; lia)) as [_ H'].
  assert (answers_at (demo_run demo_killed) = false) as Ha by (vm_compute; reflexivity).
  rewrite Ha in H'. apply H'.
  assert (bool_decide (map_Forall (fun _ q => holds q = None) (procs (demo_run demo_killed))) = true) as Hall by (vm_compute; reflexivity).
  intros m q Hm. apply bool_decide_eq_true in Hall. exact (Hall m q Hm).
Defined.
