(* ===== verification/Tailscale.v ===== *)
(** internal/vpn/tailscale: the adapter that maps tailscaled onto a VPN, over
    the operations of its local API.

    The API is a record of functions on an abstract world; the classification of
    its answers is [client_do].  The peers of a status are in the order Go
    ranges over the map. *)

From S2P Require Import Prelude GoTime Core Errors GoStrings GoDuration Registry.

(** ** types.go *)

Definition StateNoState : string := "NoState".
Definition StateInUseOtherUser : string := "InUseOtherUser".
Definition StateNeedsLogin : string := "NeedsLogin".
Definition StateNeedsMachineAuth : string := "NeedsMachineAuth".
Definition StateStopped : string := "Stopped".
Definition StateStarting : string := "Starting".
Definition StateRunning : string := "Running".

Definition stateNames : list string :=
  [StateNoState; StateInUseOtherUser; StateNeedsLogin; StateNeedsMachineAuth; StateStopped; StateStarting; StateRunning].

Definition StateName (n : Z) : string :=
  if (0 <=? n) && (n <? len stateNames) then default "" (stateNames !! Z.to_nat n) else "State(" +:+ Itoa n +:+ ")".

Record PeerStatus := mkPeerStatus {
  ps_ID : string;
  ps_HostName : string;
  ps_DNSName : string;
  ps_OS : string;
  ps_TailscaleIPs : list string;
  ps_Relay : string;
  ps_LastSeen : Time;
  ps_Online : bool;
  ps_ExitNode : bool;
  ps_ExitNodeOption : bool
}.

Record ExitNodeStatus := mkExitNodeStatus { es_ID : string; es_Online : bool }.
Record TailnetStatus := mkTailnetStatus { tn_Name : string; tn_MagicDNSSuffix : string }.

Record TsStatus := mkTsStatus {
  ts_Version : string;
  ts_BackendState : string;
  ts_AuthURL : string;
  ts_TailscaleIPs : list string;
  ts_Self : option PeerStatus;
  ts_ExitNodeStatus : option ExitNodeStatus;
  ts_Health : list string;
  ts_MagicDNSSuffix : string;
  ts_CurrentTailnet : option TailnetStatus;
  ts_Peer : list (option PeerStatus)
}.

Record Prefs := mkPrefs {
  pr_ControlURL : string;
  pr_ExitNodeID : string;
  pr_ExitNodeAllowLANAccess : bool;
  pr_CorpDNS : bool;
  pr_WantRunning : bool
}.
Definition Prefs_zero : Prefs := mkPrefs "" "" false false false.

(** The fields bnm ever sends, each with its [Set] flag. *)
Record MaskedPrefs := mkMaskedPrefs {
  mp_ExitNodeID : string;
  mp_ExitNodeIDSet : bool;
  mp_ExitNodeIP : string;
  mp_ExitNodeIPSet : bool;
  mp_ExitNodeAllowLANAccess : bool;
  mp_ExitNodeAllowLANAccessSet : bool;
  mp_CorpDNS : bool;
  mp_CorpDNSSet : bool;
  mp_WantRunning : bool;
  mp_WantRunningSet : bool
}.
Definition MaskedPrefs_zero : MaskedPrefs := mkMaskedPrefs "" false "" false false false false false false false.
Definition want_running (b : bool) : MaskedPrefs := mkMaskedPrefs "" false "" false false false false false b true.
Definition corp_dns (b : bool) : MaskedPrefs := mkMaskedPrefs "" false "" false false false b true false false.
Definition exit_node (id : string) (allowLAN : bool) : MaskedPrefs := mkMaskedPrefs id true "" true allowLAN true false false false false.

(** An IPN bus message: which of its optional parts it carries. *)
Record Notify := mkNotify {
  nt_State : option Z;
  nt_Prefs : option Prefs;
  nt_BrowseToURL : option string;
  nt_Health : option unit;
  nt_ErrMessage : option string
}.

Record HealthWarning := mkHealthWarning { hw_Title : string; hw_Text : string }.

(** [Messages], by code. *)
Definition health_message (code : string) (w : HealthWarning) : string :=
  if negb (hw_Text w =?s "") then hw_Text w else if negb (hw_Title w =?s "") then hw_Title w else code.

Definition Messages (warnings : gmap string HealthWarning) : list string :=
  omap (fun c => health_message c <$> warnings !! c) (isort String.leb (map fst (map_to_list warnings))).

(** ** client.go *)

Definition ErrAccessDenied : error := ECore (Some "tailscale.ErrAccessDenied") KindPermission "tailscale: access denied" "" None.
Definition ErrTsUnavailable : error :=
  ECore (Some "tailscale.ErrUnavailable") KindUnavailable "tailscale: tailscaled is not running" "install tailscale and start tailscaled" None.

(** What a request comes to: an error of the transport, which may mean that
    nobody listens on the socket, or a status and a body. *)
Inductive http_outcome :=
| TransportError (unavailable : bool) (msg : string)
| Response (status : Z) (body : string).

(** The first 4096 bytes of the body, or the message in it when it is
    [{"Error": ...}]. *)
Definition error_text (json_error : string -> option string) (body : string) : string :=
  let msg := string_take 4096 body in
  match json_error msg with
  | Some e => if e =?s "" then TrimSpace msg else e
  | None => TrimSpace msg
  end.

(** [do]: the body on success. *)
Definition client_do (json_error : string -> option string) (socket method path : string) (r : http_outcome) : result error string :=
  match r with
  | TransportError true msg =>
      Err (EWrap (ErrorString ErrTsUnavailable +:+ " (socket " +:+ socket +:+ "): " +:+ msg) [ErrTsUnavailable])
  | TransportError false msg => Err (EWrap ("tailscale: " +:+ method +:+ " " +:+ path +:+ ": " +:+ msg) [ELeaf msg])
  | Response status body =>
      if status / 100 =? 2 then Ok body
      else
        let text := error_text json_error body in
        if status =? 403
        then Err (EWrap (ErrorString ErrAccessDenied +:+ ": " +:+ method +:+ " " +:+ path +:+ ": " +:+ text) [ErrAccessDenied])
        else Err (ELeaf ("tailscale: " +:+ method +:+ " " +:+ path +:+ ": HTTP " +:+ Itoa status +:+ ": " +:+ text))
  end.

(** The calls of the client, and the clock and timer of the adapter:
    [tc_wait] is a [select] of a timer and the context, whose error ends it. *)
Record TsClient (W : Type) := mkTsClient {
  tc_Status : W -> result error TsStatus * W;
  tc_StatusWithoutPeers : W -> result error TsStatus * W;
  tc_Prefs : W -> result error Prefs * W;
  tc_EditPrefs : MaskedPrefs -> W -> result error Prefs * W;
  tc_SetUseExitNode : bool -> W -> result error Prefs * W;
  tc_StartLoginInteractive : W -> option error * W;
  tc_Logout : W -> option error * W;
  tc_now : W -> Time * W;
  tc_wait : Duration -> W -> option error * W
}.
Arguments tc_Status {W}. Arguments tc_StatusWithoutPeers {W}. Arguments tc_Prefs {W}. Arguments tc_EditPrefs {W}.
Arguments tc_SetUseExitNode {W}. Arguments tc_StartLoginInteractive {W}. Arguments tc_Logout {W}. Arguments tc_now {W}.
Arguments tc_wait {W}.

(** ** adapter.go: pure parts *)

Definition VPNID : string := "tailscale".
Definition defaultControlURL : string := "https://controlplane.tailscale.com".

Definition OperatorHint (username : string) : string :=
  let u := if username =?s "" then "$USER" else username in
  "Tailscale is read-only for this user; run once: sudo tailscale set --operator=" +:+ u +:+
  "  (NixOS: services.tailscale.extraSetFlags = [ " +:+ byte_str [34%nat] +:+ "--operator=" +:+ u +:+ byte_str [34%nat] +:+ " ])".

Definition ts_MapState (backendState : string) : VPNState :=
  if backendState =?s StateRunning then VPNConnected
  else if (backendState =?s StateStarting) || (backendState =?s StateNoState) then VPNConnecting
  else if backendState =?s StateStopped then VPNDisconnected
  else if (backendState =?s StateNeedsLogin) || (backendState =?s StateNeedsMachineAuth) then VPNNeedsAuth
  else if backendState =?s StateInUseOtherUser then VPNNeedsSetup
  else VPNError.

(** [url_host] is [url.Parse] and its [Host]; [None] when it does not parse. *)
Definition customControlHost (url_host : string -> option string) (controlURL : string) : string :=
  if (controlURL =?s "") || (controlURL =?s defaultControlURL) || (controlURL =?s "https://login.tailscale.com") then ""
  else match url_host controlURL with
       | Some h => if h =?s "" then controlURL else h
       | None => controlURL
       end.

Definition peerName (p : PeerStatus) (suffix : string) : string :=
  let n := TrimSuffix (ps_DNSName p) "." in
  let n := if negb (suffix =?s "") then TrimSuffix n ("." +:+ TrimSuffix suffix ".") else n in
  if n =?s "" then ps_HostName p else n.

Definition suffix_of (st : TsStatus) : string :=
  match ts_CurrentTailnet st with
  | Some t => if tn_MagicDNSSuffix t =?s "" then ts_MagicDNSSuffix st else tn_MagicDNSSuffix t
  | None => ts_MagicDNSSuffix st
  end.

(** [LastSeen.Year() > 1]: past the 365 days of year 1. *)
Definition after_year_1 (t : Time) : bool := 365 * 24 * hour <=? t.

Definition to_peer (suffix : string) (p : PeerStatus) : TailscalePeer :=
  mkTailscalePeer (ps_ID p) (peerName p suffix) (ps_HostName p) (ps_OS p) (ps_TailscaleIPs p) (ps_Online p) (ps_ExitNode p)
    (ps_ExitNodeOption p) (ps_Relay p) (if after_year_1 (ps_LastSeen p) then ps_LastSeen p else 0).

(** The comparator of the peers: name, then id. *)
Definition peer_less (a b : TailscalePeer) : bool :=
  if negb (tp_Name a =?s tp_Name b) then String.ltb (tp_Name a) (tp_Name b) else String.ltb (tp_ID a) (tp_ID b).

Definition exit_id (st : TsStatus) (prefs : Prefs) : string :=
  match ts_ExitNodeStatus st with
  | Some e => if es_ID e =?s "" then pr_ExitNodeID prefs else es_ID e
  | None => pr_ExitNodeID prefs
  end.

Definition peers_of (st : TsStatus) : list PeerStatus := omap id (ts_Peer st).

Definition ts_buildInfo (st : TsStatus) (prefs : Prefs) (writable : bool) : TailscaleInfo :=
  let suffix := suffix_of st in
  let exitID := exit_id st prefs in
  let name :=
    fold_left (fun acc p => if negb (exitID =?s "") && (ps_ID p =?s exitID) then peerName p suffix else acc) (peers_of st) "" in
  mkTailscaleInfo (ts_BackendState st) (ts_Version st) (pr_ControlURL prefs)
    (match ts_CurrentTailnet st with Some t => tn_Name t | None => "" end) suffix (ts_TailscaleIPs st)
    (match ts_Self st with Some p => peerName p suffix | None => "" end) writable exitID name
    (match ts_ExitNodeStatus st with Some _ => true | None => false end) (pr_ExitNodeAllowLANAccess prefs) (pr_CorpDNS prefs)
    (isort (fun a b => negb (peer_less b a)) (map (to_peer suffix) (peers_of st))) (ts_Health st).

(** [resolvePeer]: [%q] is [Quote]. *)
Section Resolve.
Context (Quote : string -> string).

Definition names_peer (suffix lref : string) (p : PeerStatus) : bool :=
  EqualFold (TrimSuffix (ps_DNSName p) ".") lref || EqualFold (peerName p suffix) lref || EqualFold (ps_HostName p) lref.

(** The peer that has the reference as its id or one of its addresses. *)
Definition is_peer (ref : string) (p : PeerStatus) : bool := (ps_ID p =?s ref) || existsb (fun ip => ip =?s ref) (ps_TailscaleIPs p).

Definition resolvePeer (st : TsStatus) (ref : string) : result error PeerStatus :=
  let suffix := suffix_of st in
  let lref := ToLower (TrimSuffix ref ".") in
  match List.find (is_peer ref) (peers_of st) with
  | Some p => Ok p
  | None =>
      match List.filter (names_peer suffix lref) (peers_of st) with
      | [] => Err (Errorf KindNotFound "run `bnm vpn` to list peers" ("tailscale: no peer matches " +:+ Quote ref))
      | [p] => Ok p
      | byName =>
          Err (Errorf KindInvalid "use its ID or IP"
                 ("tailscale: ambiguous peer " +:+ Quote ref +:+ " (" +:+ Itoa (len byName) +:+ " matches)"))
      end
  end.
End Resolve.

(** ** adapter.go: the adapter *)

Record TsOptions := mkTsOptions {
  to_ProbeTTL : Duration;
  to_LoginTimeout : Duration;
  to_MinBackoff : Duration;
  to_MaxBackoff : Duration;
  to_username : string;
  to_Socket : string
}.

(** What [NewAdapter] sets. *)
Definition default_options (username socket : string) : TsOptions :=
  mkTsOptions minute (15 * second) second (30 * second) username socket.

(** The cached verdict. *)
Record verdict := mkVerdict { vd_writable : bool; vd_at : Time }.
Definition verdict_zero : verdict := mkVerdict false 0.

Section Adapter.
Context {W : Type} (o : TsOptions) (c : TsClient W) (Quote : string -> string) (url_host : string -> option string).

(** A program over the verdict and the world. *)
Definition TsM (A : Type) : Type := verdict * W -> A * (verdict * W).

Definition setWritable (b : bool) : TsM unit := fun '(_, w) => let '(t, w) := tc_now c w in (tt, (mkVerdict b t, w)).

Definition ts_note (op : string) (e : error) : error := EWrap ("tailscale: " +:+ op +:+ ": " +:+ ErrorString e) [e].

(** The answer of a probe: an edit that changes nothing. *)
Definition probe : TsM bool := fun '(v, w) =>
  let '(r, w) := tc_EditPrefs c MaskedPrefs_zero w in
  match r with
  | Ok _ => let '(_, s) := setWritable true (v, w) in (true, s)
  | Err e => if errors_Is (Some e) ErrAccessDenied then let '(_, s) := setWritable false (v, w) in (false, s) else (false, (v, w))
  end.

(** The clock is not read when there is no verdict. *)
Definition Writable : TsM bool := fun '(v, w) =>
  if time_IsZero (vd_at v) then probe (v, w)
  else let '(t, w) := tc_now c w in
       if time_Sub t (vd_at v) <? to_ProbeTTL o then (vd_writable v, (v, w)) else probe (v, w).

(** [write]: a refusal becomes an error with the operator's hint. *)
Definition write_ (op : string) (fn : W -> option error * W) : TsM (option error) := fun '(v, w) =>
  let '(err, w) := fn w in
  match err with
  | None => let '(_, s) := setWritable true (v, w) in (None, s)
  | Some e =>
      if errors_Is (Some e) ErrAccessDenied
      then let '(_, s) := setWritable false (v, w) in
           (Some (ECore None KindPermission "" (OperatorHint (to_username o)) (Some (ts_note op e))), s)
      else (Some (ts_note op e), (v, w))
  end.

Definition ignore_answer {A} (f : W -> result error A * W) (w : W) : option error * W :=
  let '(r, w) := f w in (match r with Ok _ => None | Err e => Some e end, w).

Definition checkID (id : string) : option error :=
  if id =?s VPNID then None else Some (Errorf KindNotFound "" ("tailscale: unknown VPN id " +:+ Quote id)).

Definition ts_List : TsM (result error (list VPN)) := fun '(v, w) =>
  let '(r, w) := tc_Status c w in
  match r with
  | Err e =>
      if errors_Is (Some e) ErrTsUnavailable
      then (Ok [mkVPN VPNID "Tailscale" BackendTailscale "Tailscale" VPNUnavailable
                  ("tailscaled is not running (no socket at " +:+ to_Socket o +:+ ")") (ErrorString e) "" 0 false None None None], (v, w))
      else (Err (ts_note "list" e), (v, w))
  | Ok st =>
      let '(p, w) := tc_Prefs c w in
      let prefs := match p with Ok p => p | Err _ => Prefs_zero end in
      let state := ts_MapState (ts_BackendState st) in
      let h := customControlHost url_host (pr_ControlURL prefs) in
      let name := if h =?s "" then "Tailscale" else "Tailscale (" +:+ h +:+ ")" in
      let '(writable, s) := Writable (v, w) in
      let detail := if writable then "" else OperatorHint (to_username o) in
      let bs := ts_BackendState st in
      let '(auth, detail) :=
        if (bs =?s StateNeedsLogin) || (bs =?s StateNeedsMachineAuth) then
          (ts_AuthURL st,
           if bs =?s StateNeedsMachineAuth then "this machine must be approved by a tailnet admin"
           else if (ts_AuthURL st =?s "") && writable then "not logged in; start a login to get a URL"
           else detail)
        else if bs =?s StateInUseOtherUser then ("", "tailscaled is in use by another user on this machine")
        else ("", detail) in
      let err := if state =?s VPNError then "unknown backend state " +:+ bs else "" in
      (Ok [mkVPN VPNID name BackendTailscale "Tailscale" state detail err auth 0 writable (Some (ts_buildInfo st prefs writable)) None None], s)
  end.

Definition ts_Connect (id : string) : TsM (option error) := fun s =>
  match checkID id with
  | Some e => (Some e, s)
  | None =>
      let '(err, (v, w)) := write_ "connect" (ignore_answer (tc_EditPrefs c (want_running true))) s in
      match err with
      | Some e => (Some e, (v, w))
      | None =>
          let '(r, w) := tc_StatusWithoutPeers c w in
          match r with
          | Err e => (Some (ts_note "connect: status" e), (v, w))
          | Ok st =>
              if (ts_BackendState st =?s StateNeedsLogin) && (ts_AuthURL st =?s "")
              then write_ "connect: login" (tc_StartLoginInteractive c) (v, w)
              else (None, (v, w))
          end
      end
  end.

Definition ts_Disconnect (id : string) : TsM (option error) := fun s =>
  match checkID id with
  | Some e => (Some e, s)
  | None => write_ "disconnect" (ignore_answer (tc_EditPrefs c (want_running false))) s
  end.

Definition ts_SetExitNode (peer : string) (allowLAN : bool) : TsM (option error) := fun '(v, w) =>
  if peer =?s "" then write_ "set exit node" (ignore_answer (tc_EditPrefs c (exit_node "" allowLAN))) (v, w)
  else
    let '(r, w) := tc_Status c w in
    match r with
    | Err e => (Some (ts_note "set exit node" e), (v, w))
    | Ok st =>
        match resolvePeer Quote st peer with
        | Err e => (Some e, (v, w))
        | Ok p =>
            if negb (ps_ExitNodeOption p)
            then (Some (Errorf KindInvalid "" ("tailscale: set exit node: " +:+ Quote peer +:+ " does not offer an exit node")), (v, w))
            else write_ "set exit node" (ignore_answer (tc_EditPrefs c (exit_node (ps_ID p) allowLAN))) (v, w)
        end
    end.

Definition ts_UseExitNode (on : bool) : TsM (option error) := write_ "use exit node" (ignore_answer (tc_SetUseExitNode c on)).
Definition ts_SetAcceptDNS (on : bool) : TsM (option error) := write_ "set accept-dns" (ignore_answer (tc_EditPrefs c (corp_dns on))).
Definition ts_Logout : TsM (option error) := write_ "logout" (tc_Logout c).

Definition login_tick : Duration := 200 * millisecond.

(** The polling of [Login]; [fuel] bounds the rounds, [None] is out of fuel. *)
Fixpoint login_poll (fuel : nat) (deadline : Time) (w : W) : option (string * option error) * W :=
  match fuel with
  | O => (None, w)
  | S fuel' =>
      let '(r, w) := tc_StatusWithoutPeers c w in
      match r with
      | Err e => (Some ("", Some (ts_note "login" e)), w)
      | Ok st =>
          if negb (ts_AuthURL st =?s "") then (Some (ts_AuthURL st, None), w)
          else if ts_BackendState st =?s StateRunning then (Some ("", Some (ELeaf "tailscale: login: already logged in")), w)
          else
            let '(t, w) := tc_now c w in
            if time_After t deadline
            then (Some ("", Some (ELeaf ("tailscale: login: no auth URL after " +:+ Duration_String (to_LoginTimeout o) +:+
                                         " (state " +:+ ts_BackendState st +:+ ")"))), w)
            else
              let '(err, w) := tc_wait c login_tick w in
              match err with
              | Some e => (Some ("", Some (ts_note "login" e)), w)
              | None => login_poll fuel' deadline w
              end
      end
  end.

Definition ts_Login (fuel : nat) : TsM (option (string * option error)) := fun s =>
  let '(err, (v, w)) := write_ "login" (tc_StartLoginInteractive c) s in
  match err with
  | Some e => (Some ("", Some e), (v, w))
  | None =>
      let '(t, w) := tc_now c w in
      let '(r, w) := login_poll fuel (time_Add t (to_LoginTimeout o)) w in (r, (v, w))
  end.

(** The adapter as the registry sees it. *)
Definition ts_adapter : VPNAdapter (verdict * W) := mkVPNAdapter BackendTailscale ts_List ts_Connect ts_Disconnect.
End Adapter.

(** ** adapter.go: watchLoop *)

(** One connection to the IPN bus: the messages it gave, and how it ended;
    [None] is a clean end. *)
Record stream := mkStream { sm_messages : list Notify; sm_end : option error }.

Record watch_state := mkWatchState { ws_backoff : Duration; ws_failing : bool }.

Definition wanted (n : Notify) : bool :=
  match n with mkNotify None None None None None => false | _ => true end.

(** What the loop does: hints it offers, and the wait before the next
    connection. *)
Inductive watch_act := WHint | WWait (d : Duration).

Section Watch.
Context (o : TsOptions).

Definition next_backoff (b : Duration) : Duration := let b := b * 2 in if to_MaxBackoff o <? b then to_MaxBackoff o else b.

(** One iteration of [watchLoop], the context alive. *)
Definition watch_iter (st : watch_state) (s : stream) : list watch_act * watch_state :=
  let got := negb (Nat.eqb (length (sm_messages s)) 0) in
  let hints := omap (fun n => if wanted n then Some WHint else None) (sm_messages s) in
  let failing := if got then false else ws_failing st in
  let backoff := if got then to_MinBackoff o else ws_backoff st in
  let lost := match sm_end s with Some _ => negb failing | None => false end in
  (hints ++ (if lost then [WHint] else []) ++ [WWait backoff],
   mkWatchState (next_backoff backoff) (failing || lost)).

Fixpoint watch_run (st : watch_state) (l : list stream) : list watch_act * watch_state :=
  match l with
  | [] => ([], st)
  | s :: l' => let '(a, st) := watch_iter st s in let '(b, st) := watch_run st l' in (a ++ b, st)
  end.

Definition watch_loop (l : list stream) : list watch_act := (watch_run (mkWatchState (to_MinBackoff o) false) l).1.
End Watch.
