(* ===== verification/TailscaleFacts.v ===== *)
(** The Tailscale adapter: which peer a reference means, what is ever sent to
    tailscaled, how its refusals are told, that a login ends, and how the watch
    reconnects. *)

From S2P Require Import Prelude GoTime Core Errors GoStrings Registry Tailscale.

(** ** Peers *)

Section Resolve.
Context (Quote : string -> string).

Lemma find_perm {A} (f : A -> bool) l l' :
  (forall x y, In x l -> In y l -> f x = true -> f y = true -> x = y) -> Permutation l l' -> List.find f l = List.find f l'.
Proof using Type.
  intros Hu Hp. destruct (List.find f l) as [x|] eqn:E.
  - apply List.find_some in E as [Hx Hf]. destruct (List.find f l') as [y|] eqn:E'.
    + apply List.find_some in E' as [Hy Hf']. f_equal. apply Hu; try done. by eapply Permutation_in; [symmetry|].
    + pose proof (List.find_none f l' E' x) as Hn. rewrite Hn in Hf; [done|]. by eapply Permutation_in.
  - destruct (List.find f l') as [y|] eqn:E'; [|done]. apply List.find_some in E' as [Hy Hf'].
    pose proof (List.find_none f l E y) as Hn. rewrite Hn in Hf'; [done|]. by eapply Permutation_in; [symmetry|].
Qed.

(** A reference means one peer.  The peer with that id or address comes
    first; else the only one of that name, by any of its names and whatever the
    case; else the reference is unknown, or ambiguous and refused.  The order in
    which Go ranges over the peers does not matter. *)
Theorem resolve_peer_exact st ref :
  (forall p q, In p (peers_of st) -> In q (peers_of st) -> is_peer ref p = true -> is_peer ref q = true -> p = q) ->
  let named := names_peer (suffix_of st) (ToLower (TrimSuffix ref ".")) in
  match resolvePeer Quote st ref with
  | Ok p =>
      In p (peers_of st) /\
      (is_peer ref p = true \/
       (forall q, In q (peers_of st) -> is_peer ref q = false) /\ List.filter named (peers_of st) = [p])
  | Err e =>
      (forall q, In q (peers_of st) -> is_peer ref q = false) /\
      (KindOf (Some e) = KindNotFound /\ (forall q, In q (peers_of st) -> named q = false) \/
       KindOf (Some e) = KindInvalid /\ (2 <= length (List.filter named (peers_of st)))%nat)
  end /\
  (forall st', suffix_of st' = suffix_of st -> Permutation (peers_of st) (peers_of st') ->
     resolvePeer Quote st' ref = resolvePeer Quote st ref).
Proof using Type.
  intros Hu named. split.
  - unfold resolvePeer. destruct (List.find (is_peer ref) (peers_of st)) as [p|] eqn:E.
    { apply List.find_some in E as [? ?]. auto. }
    pose proof (List.find_none _ _ E) as Hn. fold named.
    destruct (List.filter named (peers_of st)) as [|p [|q l]] eqn:Ef.
    + split; [done|]. left. split; [done|]. intros q Hq. destruct (named q) eqn:Eq; [|done].
      assert (In q (List.filter named (peers_of st))) as Hin by (by apply filter_In). by rewrite Ef in Hin.
    + assert (In p (List.filter named (peers_of st))) as Hin by (rewrite Ef; by left). apply filter_In in Hin as [Hin _]. auto.
    + split; [done|]. right. split; [done|]. cbn. lia.
  - intros st' Hs Hp. unfold resolvePeer. rewrite Hs, <- (find_perm (is_peer ref) (peers_of st)) by done.
    destruct (List.find (is_peer ref) (peers_of st)); [done|].
    pose proof (filter_perm named _ _ Hp) as Hf. fold named. pose proof (Permutation_length Hf) as Hl.
    destruct (List.filter named (peers_of st)) as [|p [|q l]], (List.filter named (peers_of st')) as [|p' [|q' l']]; try done.
    + apply Permutation_length_1 in Hf. by subst.
    + cbn in Hl. do 3 f_equal. unfold len. cbn [length]. by replace (length l') with (length l) by lia.
Qed.
End Resolve.

(** ** What is sent *)

(** A client that notes the edits it is asked for. *)
Definition recording {W} (c : TsClient W) : TsClient (list MaskedPrefs * W) :=
  let lift {A} (f : W -> A * W) : list MaskedPrefs * W -> A * (list MaskedPrefs * W) := fun '(l, w) => let '(a, w) := f w in (a, (l, w)) in
  mkTsClient _ (lift (tc_Status c)) (lift (tc_StatusWithoutPeers c)) (lift (tc_Prefs c))
    (fun mp '(l, w) => let '(a, w) := tc_EditPrefs c mp w in (a, (l ++ [mp], w)))
    (fun b => lift (tc_SetUseExitNode c b)) (lift (tc_StartLoginInteractive c)) (lift (tc_Logout c)) (lift (tc_now c))
    (fun d => lift (tc_wait c d)).

Section Sent.
Context {W : Type} (o : TsOptions) (c : TsClient W) (Quote : string -> string) (url_host : string -> option string).

Definition sent {A} (r : A * (verdict * (list MaskedPrefs * W))) : list MaskedPrefs := r.2.2.1.

#[local] Arguments setWritable : simpl never.
#[local] Arguments probe : simpl never.
#[local] Arguments errors_Is : simpl never.
#[local] Arguments write_ : simpl never.

Lemma setWritable_sent b v l w : sent (setWritable (recording c) b (v, (l, w))) = l.
Proof using Type. unfold setWritable, sent. cbn. by destruct (tc_now c w). Qed.

Lemma write_sent op fn v l w :
  sent (write_ o (recording c) op fn (v, (l, w))) = (fn (l, w)).2.1.
Proof using Type.
  unfold write_. destruct (fn (l, w)) as [[e|] [l' w']]; cbn [fst snd].
  - destruct (errors_Is (Some e) ErrAccessDenied); [|done].
    pose proof (setWritable_sent false v l' w') as H. by destruct (setWritable _ _ _) as [u s].
  - pose proof (setWritable_sent true v l' w') as H. by destruct (setWritable _ _ _) as [u s].
Qed.

Lemma edit_sent op mp v l w :
  sent (write_ o (recording c) op (ignore_answer (tc_EditPrefs (recording c) mp)) (v, (l, w))) = l ++ [mp].
Proof using Type. rewrite write_sent. unfold ignore_answer. cbn. by destruct (tc_EditPrefs c mp w). Qed.

Lemma probe_sent v l w : sent (probe (recording c) (v, (l, w))) = l ++ [MaskedPrefs_zero].
Proof using Type.
  unfold probe. cbn. destruct (tc_EditPrefs c MaskedPrefs_zero w) as [[p|e] w'].
  - pose proof (setWritable_sent true v (l ++ [MaskedPrefs_zero]) w') as H. by destruct (setWritable _ _ _) as [u s].
  - destruct (errors_Is (Some e) ErrAccessDenied); [|done].
    pose proof (setWritable_sent false v (l ++ [MaskedPrefs_zero]) w') as H. by destruct (setWritable _ _ _) as [u s].
Qed.

Lemma Writable_sent v l w : sent (Writable o (recording c) (v, (l, w))) = l \/ sent (Writable o (recording c) (v, (l, w))) = l ++ [MaskedPrefs_zero].
Proof using Type.
  unfold Writable. destruct (time_IsZero (vd_at v)); [right; apply probe_sent|]. cbn. destruct (tc_now c w) as [t w'].
  destruct (time_Sub t (vd_at v) <? to_ProbeTTL o); [by left|right; apply probe_sent].
Qed.

(** What bnm ever changes in tailscaled.  Listing sends at most one empty
    edit.  Connecting and disconnecting change the running preference and
    nothing else; choosing an exit node changes the exit node and its LAN
    access, to a peer that offers one, and sends nothing when the reference does
    not mean such a peer; the DNS switch changes that preference alone; a wrong
    VPN id sends nothing. *)
Theorem edits_minimal v w :
  (sent (ts_List o (recording c) url_host (v, ([], w))) = [] \/ sent (ts_List o (recording c) url_host (v, ([], w))) = [MaskedPrefs_zero]) /\
  (forall id, sent (ts_Connect o (recording c) Quote id (v, ([], w))) = (if id =?s VPNID then [want_running true] else [])) /\
  (forall id, sent (ts_Disconnect o (recording c) Quote id (v, ([], w))) = (if id =?s VPNID then [want_running false] else [])) /\
  (forall on, sent (ts_SetAcceptDNS o (recording c) on (v, ([], w))) = [corp_dns on]) /\
  (forall on, sent (ts_UseExitNode o (recording c) on (v, ([], w))) = []) /\
  (forall allow, sent (ts_SetExitNode o (recording c) Quote "" allow (v, ([], w))) = [exit_node "" allow]) /\
  (forall ref allow, ref <> "" ->
     sent (ts_SetExitNode o (recording c) Quote ref allow (v, ([], w))) =
     match (tc_Status c w).1 with
     | Ok st =>
         match resolvePeer Quote st ref with
         | Ok p => if ps_ExitNodeOption p then [exit_node (ps_ID p) allow] else []
         | Err _ => []
         end
     | Err _ => []
     end).
Proof using Type.
  split_and!.
  - unfold ts_List. cbn [recording tc_Status tc_Prefs]. destruct (tc_Status c w) as [[st|e] w1]; cbn beta iota zeta.
    2: { destruct (errors_Is (Some e) ErrTsUnavailable); by left. }
    destruct (tc_Prefs c w1) as [p w2]. cbn beta iota zeta. pose proof (Writable_sent v [] w2) as H.
    destruct (Writable o (recording c) (v, ([], w2))) as [wr s]. cbn beta iota zeta.
    match goal with |- context [match ?x with pair auth detail => (Ok _, s) end] => destruct x as [auth detail] end. exact H.
  - intros id. unfold ts_Connect, checkID. case_test; [|done]. pose proof (edit_sent "connect" (want_running true) v [] w) as H.
    destruct (write_ _ _ "connect" _ _) as [[e|] [v1 [l1 w1]]]; [exact H|]. unfold sent in H. cbn in H. subst l1.
    cbn [recording tc_StatusWithoutPeers]. destruct (tc_StatusWithoutPeers c w1) as [[st|e] w2]; [|done].
    destruct ((ts_BackendState st =?s StateNeedsLogin) && (ts_AuthURL st =?s "")); [|done].
    rewrite write_sent. cbn. by destruct (tc_StartLoginInteractive c w2).
  - intros id. unfold ts_Disconnect, checkID. case_test; [|done]. apply edit_sent.
  - intros on. apply edit_sent.
  - intros on. unfold ts_UseExitNode. rewrite write_sent. unfold ignore_answer. cbn. by destruct (tc_SetUseExitNode c on w).
  - intros allow. unfold ts_SetExitNode. apply edit_sent.
  - intros ref allow Hr. unfold ts_SetExitNode. rewrite (seqb_ne ref "") by done. cbn [recording tc_Status].
    destruct (tc_Status c w) as [[st|e] w1]; [|done]. cbn [fst]. destruct (resolvePeer Quote st ref) as [p|e]; [|done].
    destruct (ps_ExitNodeOption p); [|done]. apply edit_sent.
Qed.
End Sent.

(** ** Login *)

(** A clock that the client's calls never set back, and that waiting moves on. *)
Record ticking {W} (c : TsClient W) (clock : W -> Time) : Prop := {
  tk_status : forall w, clock w <= clock (tc_StatusWithoutPeers c w).2;
  tk_now : forall w, (tc_now c w).1 = clock w /\ clock w <= clock (tc_now c w).2;
  tk_wait : forall d w, (tc_wait c d w).1 = None -> clock w + d <= clock (tc_wait c d w).2
}.

Section Login.
Context {W : Type} (o : TsOptions) (c : TsClient W) (clock : W -> Time) (Hc : ticking c clock).

Lemma login_poll_ends n deadline w :
  deadline - clock w < Z.of_nat n * login_tick ->
  exists url err, (login_poll o c (S n) deadline w).1 = Some (url, err) /\ (err = None <-> url <> "").
Proof using Hc.
  revert w; induction n as [|n IH]; intros w Hn; cbn [login_poll]; pose proof (tk_status c clock Hc w) as H1;
    destruct (tc_StatusWithoutPeers c w) as [[st|e] w1]; try (by do 2 eexists);
    (destruct (ts_AuthURL st =?s "") eqn:Eu; [|do 2 eexists; split; [done|]; apply String.eqb_neq in Eu; tauto]);
    cbn [negb]; (destruct (ts_BackendState st =?s StateRunning); [by do 2 eexists|]);
    destruct (tk_now c clock Hc w1) as [H2 H3]; destruct (tc_now c w1) as [t w2]; cbn [fst snd] in *; subst t;
    unfold time_After; destruct (Z.ltb_spec deadline (clock w1)) as [Ht|Ht]; try (by do 2 eexists).
  - lia.
  - pose proof (tk_wait c clock Hc login_tick w2) as H4. destruct (tc_wait c login_tick w2) as [[e|] w3]; [by do 2 eexists|].
    cbn [fst snd] in H4. specialize (H4 eq_refl). apply IH. lia.
Qed.
End Login.

(** A login ends.  With a clock that goes on, [Login] returns after at
    most one poll per 200 ms of its timeout and one more: with a URL to open, or
    with an error and none. *)
Theorem login_ends {W} (o : TsOptions) (c : TsClient W) (clock : W -> Time) n v w :
  ticking c clock -> to_LoginTimeout o < Z.of_nat n * login_tick ->
  exists url err, (ts_Login o c (S n) (v, w)).1 = Some (url, err) /\ (err = None <-> url <> "").
Proof.
  intros Hc Hn. unfold ts_Login. destruct (write_ o c "login" (tc_StartLoginInteractive c) (v, w)) as [[e|] [v1 w1]]; [by do 2 eexists|].
  destruct (tk_now c clock Hc w1) as [H2 H3]. destruct (tc_now c w1) as [t w2]. cbn [fst snd] in *. subst t.
  destruct (login_poll_ends o c clock Hc n (time_Add (clock w1) (to_LoginTimeout o)) w2) as (url & err & H & Hu); [unfold time_Add; lia|].
  exists url, err. by destruct (login_poll o c (S n) (time_Add (clock w1) (to_LoginTimeout o)) w2).
Qed.

(** ** The watch *)

Definition act_waits (l : list watch_act) : list Duration := omap (fun a => match a with WWait d => Some d | WHint => None end) l.
Definition act_hints (l : list watch_act) : nat := length (omap (fun a => match a with WHint => Some tt | WWait _ => None end) l).

(** A connection that gave nothing and failed. *)
Definition dead (s : stream) : bool := match sm_messages s, sm_end s with [], Some _ => true | _, _ => false end.

Section Watch.
Context (o : TsOptions).

Definition backoff_ok (d : Duration) : Prop := to_MinBackoff o <= d <= to_MaxBackoff o.

Lemma next_backoff_ok d : 0 <= to_MinBackoff o -> backoff_ok d -> backoff_ok (next_backoff o d).
Proof using Type. unfold backoff_ok, next_backoff. intros H0 H. cbv zeta. destruct (Z.ltb_spec (to_MaxBackoff o) (d * 2)); lia. Qed.

Lemma act_waits_app a b : act_waits (a ++ b) = act_waits a ++ act_waits b.
Proof using Type. apply omap_app. Qed.
Lemma hints_app a b : act_hints (a ++ b) = (act_hints a + act_hints b)%nat.
Proof using Type. unfold act_hints. by rewrite omap_app, length_app. Qed.

Lemma hints_waits l : act_waits (omap (fun n => if wanted n then Some WHint else None) l) = [].
Proof using Type. induction l as [|n l IH]; [done|]. cbn. by destruct (wanted n). Qed.

Lemma iter_waits st s : exists d, act_waits (watch_iter o st s).1 = [d] /\ (d = ws_backoff st \/ d = to_MinBackoff o) /\ ws_backoff (watch_iter o st s).2 = next_backoff o d.
Proof using Type.
  destruct s as [ms en]. unfold watch_iter. cbn [fst snd ws_backoff sm_messages sm_end]. rewrite !act_waits_app, hints_waits.
  destruct ms as [|m ms]; cbn [length Nat.eqb negb].
  - exists (ws_backoff st). split; [by destruct en, (ws_failing st)|]. split; [by left|done].
  - exists (to_MinBackoff o). split; [by destruct en|]. split; [by right|done].
Qed.

Lemma run_waits_ok st l :
  0 <= to_MinBackoff o <= to_MaxBackoff o -> backoff_ok (ws_backoff st) -> Forall backoff_ok (act_waits (watch_run o st l).1).
Proof using Type.
  intros H0. revert st; induction l as [|s l IH]; intros st Hst; cbn [watch_run]; [constructor|].
  destruct (iter_waits st s) as (d & Hd & Hor & Hn). destruct (watch_iter o st s) as [a st1]. cbn [fst snd] in *.
  specialize (IH st1). destruct (watch_run o st1 l) as [b st2]. cbn [fst] in *. rewrite act_waits_app, Hd.
  assert (backoff_ok d) as Hdok by (destruct Hor as [->| ->]; [done|unfold backoff_ok; lia]).
  constructor; [done|]. apply IH. rewrite Hn. apply next_backoff_ok; [lia|done].
Qed.

(** The waits of an outage. *)
Fixpoint outage_waits (n : nat) (d : Duration) : list Duration :=
  match n with O => [] | S n' => d :: outage_waits n' (next_backoff o d) end.

Lemma outage st l : Forall (fun s => dead s = true) l ->
  act_waits (watch_run o st l).1 = outage_waits (length l) (ws_backoff st) /\ act_hints (watch_run o st l).1 = (if ws_failing st then 0 else Nat.min 1 (length l))%nat.
Proof using Type.
  intros Hl. revert st; induction Hl as [|s l Hs _ IH]; intros st; cbn [watch_run].
  { split; [done|]. by destruct (ws_failing st). }
  destruct s as [[|? ?] [e|]]; try done. unfold watch_iter. cbn [sm_messages sm_end length Nat.eqb negb omap list_omap app].
  specialize (IH (mkWatchState (next_backoff o (ws_backoff st)) true)). cbn [ws_backoff ws_failing] in IH.
  destruct (ws_failing st); cbn [negb orb app]; destruct (watch_run o _ l) as [b st2]; destruct IH as [I1 I2]; cbn [fst app] in *.
  - change (WWait ?d :: b) with ([WWait d] ++ b). by rewrite act_waits_app, hints_app, I1, I2.
  - change (WHint :: WWait ?d :: b) with ([WHint; WWait d] ++ b). by rewrite act_waits_app, hints_app, I1, I2.
Qed.

Lemma watch_run_app st a b :
  watch_run o st (a ++ b) = let '(x, st) := watch_run o st a in let '(y, st) := watch_run o st b in (x ++ y, st).
Proof using Type.
  revert st; induction a as [|s a IH]; intros st; cbn [app watch_run]; [by destruct (watch_run o st b)|].
  destruct (watch_iter o st s) as [x st1]. rewrite IH. destruct (watch_run o st1 a) as [y st2], (watch_run o st2 b) as [z st3].
  by rewrite app_assoc.
Qed.
End Watch.

(** The watch survives a tailscaled that comes and goes.  Whatever the
    connections bring, it never waits less than the least backoff nor more than
    the greatest.  An outage, however long, is one hint, and its waits double up
    to the greatest; a connection that brings a message starts the next outage
    afresh: with a hint, and from the least backoff. *)
Theorem watch_outage (o : TsOptions) before s silent :
  0 <= to_MinBackoff o <= to_MaxBackoff o ->
  Forall (backoff_ok o) (act_waits (watch_loop o before)) /\ (Forall (fun s => dead s = true) silent ->
   act_waits (watch_loop o silent) = outage_waits o (length silent) (to_MinBackoff o) /\  act_hints (watch_loop o silent) = Nat.min 1 (length silent) /\  (sm_messages s <> [] -> is_Some (sm_end s) ->
    let after := drop (length (watch_loop o before)) (watch_loop o (before ++ s :: silent)) in
    act_waits after = to_MinBackoff o :: outage_waits o (length silent) (next_backoff o (to_MinBackoff o)) /\   act_hints after = S (length (List.filter wanted (sm_messages s))))).
Proof.
  intros H0. split.
  { apply run_waits_ok; [done|]. unfold backoff_ok. cbn. lia. }
  intros Hs. destruct (outage o (mkWatchState (to_MinBackoff o) false) silent Hs) as [O1 O2]. split; [exact O1|]. split; [exact O2|].
  intros Hm [e He]. unfold watch_loop. rewrite watch_run_app. destruct (watch_run o _ before) as [x st1]. cbn [watch_run].
  unfold watch_iter. destruct s as [ms en]. cbn [sm_messages sm_end] in *. subst en. destruct ms as [|m ms]; [done|].
  cbn [length Nat.eqb negb]. destruct (outage o (mkWatchState (next_backoff o (to_MinBackoff o)) true) silent Hs) as [P1 P2].
  cbn [orb ws_backoff ws_failing] in *. destruct (watch_run o (mkWatchState (next_backoff o (to_MinBackoff o)) true) silent) as [y st2]. cbn [fst] in *.
  rewrite drop_app_length.
  rewrite !act_waits_app, !hints_app, P1, P2, hints_waits. split; [done|].
  assert (forall l, act_hints (omap (fun n => if wanted n then Some WHint else None) l) = length (List.filter wanted l)) as Hh.
  { clear. intros l. unfold act_hints. induction l as [|n l IH]; [done|]. cbn [omap list_omap List.filter].
    destruct (wanted n); cbn [omap list_omap length]; [by rewrite IH|done]. }
  rewrite Hh. cbn. lia.
Qed.

(** ** Witnesses *)

Definition demo_peer (id name ip : string) (exits : bool) : PeerStatus :=
  mkPeerStatus id name (name +:+ ".tail1.ts.net.") "linux" [ip] "" 0 true false exits.

Definition demo_ts : TsStatus :=
  mkTsStatus "1.98" StateRunning "" ["100.64.0.1"] None None [] "tail1.ts.net" None
    [Some (demo_peer "n1" "Nas" "100.64.0.2" false); None; Some (demo_peer "n2" "exit" "100.64.0.3" true)].

Lemma resolve_peer_exact_witness :
  resolvePeer id demo_ts "NAS" = Ok (demo_peer "n1" "Nas" "100.64.0.2" false) /\ forall st', suffix_of st' = suffix_of demo_ts -> Permutation (peers_of demo_ts) (peers_of st') ->
    resolvePeer id st' "NAS" = resolvePeer id demo_ts "NAS".
Proof.
  split; [vm_compute; reflexivity|]. apply (resolve_peer_exact id demo_ts "NAS").
  intros p q Hp Hq Hp' _. vm_compute in Hp. destruct Hp as [<-|[<-|[]]]; vm_compute in Hp'; discriminate.
Defined.

(** A clock; the URL is there from the third second on. *)
Definition demo_client : TsClient Z :=
  mkTsClient Z (fun w => (Ok demo_ts, w))
    (fun w => (Ok (mkTsStatus "" StateNeedsLogin (if 3 * second <=? w then "https://login" else "") [] None None [] "" None []), w))
    (fun w => (Ok Prefs_zero, w)) (fun _ w => (Ok Prefs_zero, w)) (fun _ w => (Ok Prefs_zero, w)) (fun w => (None, w)) (fun w => (None, w))
    (fun w => (w, w)) (fun d w => (None, w + d)).

Lemma login_ends_witness :
  ticking demo_client id /\ (exists url err, (ts_Login (default_options "ann" "/run/ts.sock") demo_client 77 (verdict_zero, 0)).1 = Some (url, err) /\    (err = None <-> url <> "")) /\ (ts_Login (default_options "ann" "/run/ts.sock") demo_client 77 (verdict_zero, 0)).1 = Some ("https://login", None).
Proof.
  assert (ticking demo_client id) as H by (split; intros; cbn; unfold id; try split; lia).
  split; [exact H|]. split; [|vm_compute; reflexivity].
  apply (login_ends (default_options "ann" "/run/ts.sock") demo_client id 76 verdict_zero 0 H). vm_compute. reflexivity.
Defined.

Lemma watch_outage_witness :
  let o := default_options "ann" "/run/ts.sock" in
  act_waits (watch_loop o (repeat (mkStream [] (Some (ELeaf "no socket"))) 7)) =
    map (fun n => n * second) [1; 2; 4; 8; 16; 30; 30] /\ Forall (backoff_ok o) (act_waits (watch_loop o (repeat (mkStream [] (Some (ELeaf "no socket"))) 7))).
Proof.
  split; [vm_compute; reflexivity|].
  apply (watch_outage (default_options "ann" "/run/ts.sock") (repeat (mkStream [] (Some (ELeaf "no socket"))) 7) (mkStream [] None) []).
  vm_compute. split; discriminate.
Defined.
