(* ===== verification/ProfileVPN.v ===== *)
(** internal/vpn/wireguard/adapter.go and internal/vpn/nmvpn/adapter.go: the
    NetworkManager profiles that are VPNs, as [VPNAdapter]s over the port of
    NetworkManager.  The two adapters read, check and watch alike; what they
    share is defined once, with the prefix of their messages as an argument. *)

From S2P Require Import Prelude GoTime Core GoStrings Errors NMMapping Registry WireGuardConf Tailscale.

(** What the adapters use of core.NetworkManager. *)
Record NMPort (W : Type) := mkNMPort {
  np_Profiles : W -> result error (list Profile) * W;
  np_Profile : string -> W -> result error Profile * W;
  np_ActiveConnections : W -> result error (list ActiveConnection) * W;
  np_Permissions : W -> result error (gmap string string) * W;
  np_Activate : string -> string -> W -> option error * W;
  np_Deactivate : string -> W -> option error * W;
  np_AddWireGuard : WireGuardSpec -> W -> result error string * W;
  np_ImportVPN : string -> string -> W -> result error string * W
}.
Arguments np_Profiles {W}. Arguments np_Profile {W}. Arguments np_ActiveConnections {W}. Arguments np_Permissions {W}.
Arguments np_Activate {W}. Arguments np_Deactivate {W}. Arguments np_AddWireGuard {W}. Arguments np_ImportVPN {W}.

Definition PermNetworkControl : string := "org.freedesktop.NetworkManager.network-control".
Definition PermYes : string := "yes".

Definition NetworkControlHint (perm : string) : string :=
  let perm := if perm =?s "" then "unknown" else perm in
  "NetworkManager will not let this session activate profiles (network-control: " +:+ perm +:+ "). " +:+
  "Log in to a local, active session, or grant " +:+ PermNetworkControl +:+ " via a polkit rule " +:+
  "(group networkmanager on NixOS, netdev on Debian/Ubuntu, wheel on Arch/Fedora).".

(** ** internal/vpn/nmvpn: the state of a plugin VPN *)

Definition upper_byte (c : Ascii.ascii) : Ascii.ascii :=
  let n := Ascii.nat_of_ascii c in if Nat.leb 97 n && Nat.leb n 122 then Ascii.ascii_of_nat (n - 32) else c.

(** [strings.ToUpper]; the names NetworkManager gives are ASCII. *)
Fixpoint ToUpper (s : string) : string := match s with "" => "" | String c s' => String (upper_byte c) (ToUpper s') end.

Definition NormalizeVPNState (s : string) : string :=
  let s := TrimPrefix (ToUpper s) "NM_VPN_CONNECTION_STATE_" in
  let s := ToLower s in
  let s := replace_byte (Ascii.ascii_of_nat 95) (Ascii.ascii_of_nat 45) s in
  if s =?s "needauth" then "need-auth"
  else if (s =?s "ipconfigget") || (s =?s "ip-config") || (s =?s "ipconfig") then "ip-config-get"
  else s.

(** [MapState]: [None] when there is no active connection. *)
Definition MapState (ac : option ActiveConnection) : VPNState * string :=
  match ac with
  | None => (VPNDisconnected, "")
  | Some ac =>
      let vs := NormalizeVPNState (ac_VPNState ac) in
      if vs =?s "need-auth" then (VPNNeedsAuth, vs)
      else if (vs =?s "prepare") || (vs =?s "connect") || (vs =?s "ip-config-get") then (VPNConnecting, vs)
      else if vs =?s "activated" then (VPNConnected, vs)
      else if vs =?s "failed" then (VPNError, vs)
      else if vs =?s "disconnected" then (VPNDisconnected, vs)
      else if ac_State ac =?s ActiveActivating then (VPNConnecting, vs)
      else if ac_State ac =?s ActiveActivated then (VPNConnected, vs)
      else (VPNDisconnected, vs)
  end.

Definition first_nonempty (m : gmap string string) (keys : list string) : string :=
  default "" (List.find (fun v => negb (v =?s "")) (map (fun k => default "" (m !! k)) keys)).

Definition nv_buildInfo (p : Profile) (ac : option ActiveConnection) (vpnState : string) : NMVPNInfo :=
  mkNMVPNInfo (pf_VPNServiceType p) (first_nonempty (pf_VPNData p) ["remote"; "gateway"; "gw"; "server"])
    (first_nonempty (pf_VPNData p) ["username"; "user"]) (match ac with Some ac => ac_VPNBanner ac | None => "" end) vpnState.

(** A profile nobody may activate shows as needing setup while it is down. *)
Definition with_permission (perm : string) (v : VPN) : VPN :=
  if perm =?s PermYes then v
  else mkVPN (vpn_ID v) (vpn_Name v) (vpn_Backend v) (vpn_Kind v)
         (if vpn_State v =?s VPNDisconnected then VPNNeedsSetup else vpn_State v)
         (NetworkControlHint perm) (vpn_Error v) (vpn_AuthURL v) (vpn_Since v) (vpn_Writable v) (vpn_Tailscale v)
         (vpn_WireGuard v) (vpn_NMVPN v).

Definition nv_entry (perm : string) (p : Profile) (ac : option ActiveConnection) : VPN :=
  let '(state, vs) := MapState ac in
  let err :=
    if state =?s VPNError
    then "VPN connection failed" +:+
         match ac with Some ac => if ac_VPNBanner ac =?s "" then "" else ": " +:+ ac_VPNBanner ac | None => "" end
    else "" in
  with_permission perm
    (mkVPN (pf_UUID p) (pf_Name p) BackendNMVPN (VPNKindForServiceType (pf_VPNServiceType p)) state "" err "" 0
       (perm =?s PermYes) None None (Some (nv_buildInfo p ac vs))).

(** ** internal/vpn/wireguard *)

Definition wg_state (ac : option ActiveConnection) : VPNState :=
  match ac with
  | None => VPNDisconnected
  | Some ac =>
      if ac_State ac =?s ActiveActivating then VPNConnecting
      else if ac_State ac =?s ActiveActivated then VPNConnected
      else VPNDisconnected
  end.

Definition wg_buildInfo (p : Profile) (ac : option ActiveConnection) : WireGuardInfo :=
  let name :=
    match ac with
    | Some ac => match ac_Devices ac with dev :: _ => if pf_InterfaceName p =?s "" then dev else pf_InterfaceName p | [] => pf_InterfaceName p end
    | None => pf_InterfaceName p
    end in
  let saved := ip_Addresses (pf_IPv4 p) ++ ip_Addresses (pf_IPv6 p) in
  let addresses :=
    match ac with
    | Some ac => match ac_IPv4 ac ++ ac_IPv6 ac with [] => saved | live => live end
    | None => saved
    end in
  match pf_WireGuard p with
  | Some s => mkWireGuardInfo name (wgs_PublicKey s) (wgs_ListenPort s) (wgs_Peers s) addresses 0 0 0
  | None => mkWireGuardInfo name "" 0 [] addresses 0 0 0
  end.

Definition wg_entry (perm : string) (p : Profile) (ac : option ActiveConnection) : VPN :=
  let v := with_permission perm
    (mkVPN (pf_UUID p) (pf_Name p) BackendWireGuard "WireGuard" (wg_state ac) "" "" "" 0 (perm =?s PermYes) None None None) in
  mkVPN (vpn_ID v) (vpn_Name v) (vpn_Backend v) (vpn_Kind v) (vpn_State v) (vpn_Detail v) (vpn_Error v) (vpn_AuthURL v)
    (vpn_Since v) (vpn_Writable v) (vpn_Tailscale v) (Some (wg_buildInfo p ac)) (vpn_NMVPN v).

(** The active connection of a profile: the last one listed. *)
Definition active_of (active : list ActiveConnection) (uuid : string) : option ActiveConnection :=
  fold_left (fun m ac => <[ac_ProfileUUID ac := ac]> m) active (∅ : gmap string ActiveConnection) !! uuid.

Section Adapters.
Context {W : Type} (nm : NMPort W).

(** The prefix of the messages. *)
Definition note (what : string) (e : error) : error := EWrap (what +:+ ": " +:+ ErrorString e) [e].

(** What the session may do; an error counts as not knowing. *)
Definition permission (w : W) : string * W :=
  let '(r, w) := np_Permissions nm w in
  match r with
  | Err _ => ("", w)
  | Ok perms =>
      (match perms !! PermNetworkControl with
       | Some v => v
       | None => default "" (perms !! "network-control")
       end, w)
  end.

(** [List] of either adapter. *)
Definition profile_list (what : string) (type : ProfileType) (entry : string -> Profile -> option ActiveConnection -> VPN) (w : W)
    : result error (list VPN) * W :=
  let '(profiles, w) := np_Profiles nm w in
  match profiles with
  | Err e => (Err (note (what +:+ ": list profiles") e), w)
  | Ok profiles =>
      let '(active, w) := np_ActiveConnections nm w in
      match active with
      | Err e => (Err (note (what +:+ ": list active") e), w)
      | Ok active =>
          let '(perm, w) := permission w in
          (Ok (map (fun p => entry perm p (active_of active (pf_UUID p))) (List.filter (fun p => pf_Type p =?s type) profiles)), w)
      end
  end.

(** [check]: the profile is there and of the adapter's type. *)
Definition profile_check (what : string) (type : ProfileType) (noun id : string) (w : W) : option error * W :=
  let '(r, w) := np_Profile nm id w in
  (match r with
   | Err e => Some (note (what +:+ ": profile " +:+ id) e)
   | Ok p =>
       if pf_Type p =?s type then None
       else Some (Errorf KindInvalid "" (what +:+ ": profile " +:+ id +:+ " is " +:+ pf_Type p +:+ ", not " +:+ noun))
   end, w).

Definition checked (what verb : string) (type : ProfileType) (noun id : string) (f : W -> option error * W) (w : W) : option error * W :=
  let '(err, w) := profile_check what type noun id w in
  match err with
  | Some e => (Some e, w)
  | None =>
      let '(err, w) := f w in
      (match err with Some e => Some (note (what +:+ ": " +:+ verb +:+ " " +:+ id) e) | None => None end, w)
  end.

Definition wg_List : W -> result error (list VPN) * W := profile_list "wireguard" ProfileWireGuard wg_entry.
Definition wg_Connect (id : string) : W -> option error * W :=
  checked "wireguard" "activate" ProfileWireGuard "wireguard" id (np_Activate nm id "").
Definition wg_Disconnect (id : string) : W -> option error * W :=
  checked "wireguard" "deactivate" ProfileWireGuard "wireguard" id (np_Deactivate nm id).

Definition nv_List : W -> result error (list VPN) * W := profile_list "nmvpn" ProfileVPN nv_entry.
Definition nv_Connect (id : string) : W -> option error * W :=
  checked "nmvpn" "activate" ProfileVPN "a plugin VPN" id (np_Activate nm id "").
Definition nv_Disconnect (id : string) : W -> option error * W :=
  checked "nmvpn" "deactivate" ProfileVPN "a plugin VPN" id (np_Deactivate nm id).

Definition wg_adapter : VPNAdapter W := mkVPNAdapter BackendWireGuard wg_List wg_Connect wg_Disconnect.
Definition nv_adapter : VPNAdapter W := mkVPNAdapter BackendNMVPN nv_List nv_Connect nv_Disconnect.

(** [Import] of a wg-quick file. *)
Definition wg_Import (Quote base64_error hostport_error : string -> string) (name conf : string) (w : W)
    : result error (string * WireGuardSpec) * W :=
  match ParseConf Quote base64_error hostport_error name conf with
  | Err e => (Err e, w)
  | Ok spec =>
      let '(r, w) := np_AddWireGuard nm spec w in
      (match r with
       | Err e => Err (note ("wireguard: add profile " +:+ Quote (wg_Name spec)) e)
       | Ok uuid => Ok (uuid, spec)
       end, w)
  end.

Definition ServiceTypePrefix : string := "org.freedesktop.NetworkManager.".

(** [Import] of a plugin's file. *)
Definition nv_Import (Quote : string -> string) (kind path : string) (w : W) : result error string * W :=
  let kind := TrimPrefix kind ServiceTypePrefix in
  if kind =?s "" then (Err (ELeaf "nmvpn: import: empty VPN kind"), w)
  else
    let '(r, w) := np_ImportVPN nm kind path w in
    (match r with Err e => Err (note ("nmvpn: import " +:+ kind +:+ " " +:+ Quote path) e) | Ok uuid => Ok uuid end, w).
End Adapters.

(** ** Hints *)

(** One round of [forward]: the hints that concern VPNs, into a channel of 16
    that drops when it is full. *)
Definition forward (c : Change) (out : list Change) : list Change :=
  if negb (ch_Kind c =?s ChangeActive) && negb (ch_Kind c =?s ChangeProfiles) then out
  else if Nat.ltb (length out) 16 then out ++ [mkChange ChangeVPN (ch_Path c)] else out.

(** * The profiles that are VPNs: what their entries say, and that the registry
    over the three real backends sends every VPN to the backend that can drive
    it. *)

(** ** Entries *)

(** The state of a plugin VPN by NetworkManager's number. *)
Definition state_of_number (n : Z) : VPNState :=
  if n =? 2 then VPNNeedsAuth
  else if (n =? 1) || (n =? 3) || (n =? 4) then VPNConnecting
  else if n =? 5 then VPNConnected
  else if n =? 6 then VPNError
  else VPNDisconnected.

Lemma MapState_number n ac :
  1 <= n <= 7 -> ac_VPNState ac = vpnStateName n -> MapState (Some ac) = (state_of_number n, vpnStateName n).
Proof.
  intros Hn E. unfold MapState. rewrite E.
  assert (n = 1 \/ n = 2 \/ n = 3 \/ n = 4 \/ n = 5 \/ n = 6 \/ n = 7) as H by lia.
  destruct H as [->|[->|[->|[->|[->|[->| ->]]]]]]; vm_compute; reflexivity.
Qed.

Lemma MapState_unknown n ac :
  ~ 1 <= n <= 7 -> ac_VPNState ac = vpnStateName n -> MapState (Some ac) = (wg_state (Some ac), "unknown").
Proof.
  intros Hn E. assert (vpnStateName n = "unknown") as Eu by (unfold vpnStateName; do 7 (match goal with |- context [n =? ?k] => destruct (Z.eqb_spec n k); [lia|] end); done).
  unfold MapState. rewrite E, Eu. change (NormalizeVPNState "unknown") with "unknown". unfold wg_state. cbn [String.eqb Ascii.eqb Bool.eqb orb].
  by destruct (ac_State ac =?s ActiveActivating), (ac_State ac =?s ActiveActivated).
Qed.

(** An entry tells the state of its profile.  A plugin VPN is in the state
    that NetworkManager's number means, and with a number it does not know in
    that of its connection; a WireGuard profile in that of its connection; one
    that is not active is disconnected.  It can be changed exactly when
    NetworkManager grants it outright; when it does not, the entry says how to
    get the right, and a profile that is down shows as needing setup. *)
Theorem profile_entries perm p ac :
  (forall n, ac_VPNState ac = vpnStateName n -> 
     vpn_State (nv_entry PermYes p (Some ac)) = if (1 <=? n) && (n <=? 7) then state_of_number n else wg_state (Some ac)) /\
  vpn_State (wg_entry PermYes p (Some ac)) = wg_state (Some ac) /\
  vpn_State (nv_entry PermYes p None) = VPNDisconnected /\ vpn_State (wg_entry PermYes p None) = VPNDisconnected /\
  forall oac entry, entry = nv_entry \/ entry = wg_entry ->
    let v := entry perm p oac in let granted := entry PermYes p oac in
    vpn_ID v = pf_UUID p /\ vpn_Name v = pf_Name p /\
    (vpn_Writable v = true <-> perm = PermYes) /\
    (perm <> PermYes ->
       vpn_Detail v = NetworkControlHint perm /\
       vpn_State v = if vpn_State granted =?s VPNDisconnected then VPNNeedsSetup else vpn_State granted).
Proof.
  split; [|split; [|split; [|split]]]; try reflexivity.
  - intros n E. unfold nv_entry. destruct ((1 <=? n) && (n <=? 7)) eqn:Hn.
    + rewrite (MapState_number n) by (done || lia). reflexivity.
    + rewrite (MapState_unknown n) by (done || lia). reflexivity.
  - intros oac entry [->| ->]; cbv zeta.
    + unfold nv_entry. destruct (MapState oac) as [state vs]. unfold with_permission. rewrite seqb_refl.
      destruct (perm =?s PermYes) eqn:Ep; bool_to_prop; cbn [vpn_ID vpn_Name vpn_Writable vpn_Detail vpn_State]; by rewrite ?Ep.
    + unfold wg_entry, with_permission. rewrite seqb_refl.
      destruct (perm =?s PermYes) eqn:Ep; bool_to_prop; cbn [vpn_ID vpn_Name vpn_Writable vpn_Detail vpn_State]; by rewrite ?Ep.
Qed.

(** ** Routing *)

Section Routing.
Context {W : Type} (o : TsOptions) (c : TsClient W) (url_host : string -> option string) (Quote : string -> string).
Context (nm : NMPort (verdict * W)) (ctx_err : verdict * W -> option error) (Hctx : forall w, ctx_err w = None).

(** The registry of cmd/bnmd. *)
Definition backends : list (VPNAdapter (verdict * W)) := [ts_adapter o c Quote url_host; wg_adapter nm; nv_adapter nm].
Definition real_registry : Registry (verdict * W) := NewRegistry (map Some backends).

(** In the worlds of [P] NetworkManager has these profiles, and asking the
    backends keeps to [P]. *)
Record steady (P : verdict * W -> Prop) (ps : list Profile) : Prop := {
  sd_ts : forall w, P w -> P (ts_List o c url_host w).2;
  sd_profiles : forall w, P w -> (np_Profiles nm w).1 = Ok ps /\ P (np_Profiles nm w).2;
  sd_active : forall w, P w -> (exists acs, (np_ActiveConnections nm w).1 = Ok acs) /\ P (np_ActiveConnections nm w).2;
  sd_perm : forall w, P w -> P (np_Permissions nm w).2
}.

Lemma adapters_real : adapters real_registry = backends.
Proof using Type. reflexivity. Qed.

Lemma backends_nodup : NoDup (map Backend backends).
Proof using Type. change (NoDup [BackendTailscale; BackendWireGuard; BackendNMVPN]). apply (bool_decide_unpack _). vm_compute. exact I. Qed.

Lemma ts_List_one w v l : (ts_List o c url_host w).1 = Ok l -> In v l -> vpn_ID v = VPNID.
Proof using Type.
  destruct w as [vd w]. unfold ts_List. destruct (tc_Status c w) as [[st|e] w1].
  - destruct (tc_Prefs c w1) as [p w2]. destruct (Writable o c (vd, w2)) as [wr s]. cbv zeta.
    match goal with |- context [match ?x with pair auth detail => (Ok _, s) end] => destruct x as [auth detail] end.
    cbn [fst]. intros [= <-] [<-|[]]. done.
  - destruct (errors_Is (Some e) ErrTsUnavailable); [|done]. cbn [fst]. intros [= <-] [<-|[]]. done.
Qed.

Lemma ts_entries w e : e ∈ map (pair (ts_adapter o c Quote url_host)) (contribution (ts_adapter o c Quote url_host) (ts_List o c url_host w).1) ->
  e.1 = ts_adapter o c Quote url_host /\ vpn_ID e.2 = VPNID.
Proof using Type.
  intros (v & -> & Hv)%list_elem_of_fmap. split; [done|]. cbn [snd]. unfold contribution in Hv.
  destruct (ts_List o c url_host w).1 as [l|err] eqn:E.
  - apply list_elem_of_fmap in Hv as (v' & -> & Hv'). apply list_elem_of_In in Hv'. rewrite <- (ts_List_one w v' l E Hv').
    unfold fill_backend. by case_test.
  - by apply list_elem_of_singleton in Hv as ->.
Qed.

Lemma ts_contribution_nonempty w : contribution (ts_adapter o c Quote url_host) (ts_List o c url_host w).1 <> [].
Proof using Type.
  destruct (ts_List o c url_host w).1 as [[|v l]|e] eqn:E; [|discriminate|discriminate].
  exfalso. destruct w as [vd w]. unfold ts_List in E. destruct (tc_Status c w) as [[st|e] w1].
  - destruct (tc_Prefs c w1) as [p w2]. destruct (Writable o c (vd, w2)) as [wr s]. cbv zeta in E.
    match type of E with context [match ?x with pair auth detail => (Ok _, s) end] => destruct x as [auth detail] end. discriminate.
  - by destruct (errors_Is (Some e) ErrTsUnavailable).
Qed.

Lemma nv_entry_id perm p ac : vpn_ID (nv_entry perm p ac) = pf_UUID p /\ vpn_Backend (nv_entry perm p ac) = BackendNMVPN.
Proof using Type. unfold nv_entry, with_permission. destruct (MapState ac). by destruct (perm =?s PermYes). Qed.
Lemma wg_entry_id perm p ac : vpn_ID (wg_entry perm p ac) = pf_UUID p /\ vpn_Backend (wg_entry perm p ac) = BackendWireGuard.
Proof using Type. unfold wg_entry, with_permission. by destruct (perm =?s PermYes). Qed.

(** A listing of one of the profile adapters in a steady world. *)
Lemma profile_list_steady P ps what type entry w :
  steady P ps -> P w -> exists perm active,
  (profile_list nm what type entry w).1 =
    Ok (map (fun p => entry perm p (active_of active (pf_UUID p))) (List.filter (fun p => pf_Type p =?s type) ps)) /\
  P (profile_list nm what type entry w).2.
Proof using Type.
  intros H Hw. unfold profile_list, permission.
  destruct (sd_profiles P ps H w Hw) as [E1 P1]. destruct (np_Profiles nm w) as [r1 w1]. cbn [fst snd] in *. subst r1.
  destruct (sd_active P ps H w1 P1) as [[acs E2] P2]. destruct (np_ActiveConnections nm w1) as [r2 w2]. cbn [fst snd] in *. subst r2.
  pose proof (sd_perm P ps H w2 P2) as P3. destruct (np_Permissions nm w2) as [r3 w3]. cbn [fst snd] in *.
  destruct r3; by do 2 eexists.
Qed.

(** All entries of the registry. *)
Lemma real_entries P ps w : steady P ps -> P w -> exists perm1 active1 perm2 active2 ts,
  (forall e, e ∈ ts -> e.1 = ts_adapter o c Quote url_host /\ vpn_ID e.2 = VPNID) /\ ts <> [] /\
  entries backends w = ts ++
    map (fun p => (wg_adapter nm, wg_entry perm1 p (active_of active1 (pf_UUID p)))) (List.filter (fun p => pf_Type p =?s ProfileWireGuard) ps) ++
    map (fun p => (nv_adapter nm, nv_entry perm2 p (active_of active2 (pf_UUID p)))) (List.filter (fun p => pf_Type p =?s ProfileVPN) ps).
Proof using Type.
  intros H Hw. unfold backends. rewrite !entries_cons. cbn [ad_List ts_adapter wg_adapter nv_adapter].
  pose proof (sd_ts P ps H w Hw) as Hw1.
  destruct (profile_list_steady P ps "wireguard" ProfileWireGuard wg_entry _ H Hw1) as (perm1 & active1 & E1 & Hw2).
  destruct (profile_list_steady P ps "nmvpn" ProfileVPN nv_entry _ H Hw2) as (perm2 & active2 & E2 & _).
  unfold wg_List, nv_List. rewrite E1, E2. exists perm1, active1, perm2, active2. eexists. split; [apply ts_entries|]. split.
  { intros E. apply map_eq_nil in E. by apply ts_contribution_nonempty in E. }
  f_equal. unfold contribution. rewrite !map_map. f_equal; [|rewrite app_nil_r].
  - apply map_ext. intros p. unfold fill_backend. rewrite (proj2 (wg_entry_id perm1 p _)). reflexivity.
  - apply map_ext. intros p. unfold fill_backend. rewrite (proj2 (nv_entry_id perm2 p _)). reflexivity.
Qed.

(** An id that only one adapter lists. *)
Lemma owner_only m w id a :
  (exists e, e ∈ entries backends w /\ vpn_ID e.2 = id) -> (forall e, e ∈ entries backends w -> vpn_ID e.2 = id -> e.1 = a) ->
  owner_of (mkRegistry backends (owners_of (entries backends w) ∅ ∪ m)) id = Some a.
Proof using Type.
  intros (e & He & Hid) Hall. pose proof (owner_after Quote backends m w id backends_nodup) as Ho. unfold listed in Ho.
  destruct (last (List.filter (fun e => vpn_ID e.2 =?s id) (entries backends w))) as [[a' v]|] eqn:El.
  - rewrite Ho. apply last_Some_elem_of, list_elem_of_In, filter_In in El as [El Ev]. apply String.eqb_eq in Ev.
    f_equal. by apply (Hall (a', v)); [apply list_elem_of_In|].
  - apply last_None in El. exfalso. assert (In e []) as []. rewrite <- El. apply filter_In. split; [by apply list_elem_of_In|].
    by apply String.eqb_eq.
Qed.

(** C23: Every VPN goes to the backend that can drive it.  In a world whose
    profiles have ids of their own, after a listing of the real registry the
    ids of WireGuard profiles connect through the WireGuard adapter, those of
    plugin VPNs through theirs, "tailscale" through tailscaled; and the adapter
    asks NetworkManager to activate exactly that profile, on a device of
    NetworkManager's choice. *)
Theorem vpn_routing P ps w :
  steady P ps -> P w -> NoDup (map pf_UUID ps) -> (forall p, In p ps -> pf_UUID p <> VPNID) ->
  let '(res, r, _) := List_ ctx_err real_registry w in
  (exists out, res = Ok out) /\
  (forall p w1, In p ps -> (np_Profile nm (pf_UUID p) w1).1 = Ok p ->
     let w2 := (np_Profile nm (pf_UUID p) w1).2 in
     let '(err, w3) := np_Activate nm (pf_UUID p) "" w2 in
     let connect := reg_Connect ctx_err Quote r (pf_UUID p) w1 in
     (pf_Type p = ProfileWireGuard -> connect = (option_map (note ("wireguard: activate " +:+ pf_UUID p)) err, r, w3)) /\
     (pf_Type p = ProfileVPN -> connect = (option_map (note ("nmvpn: activate " +:+ pf_UUID p)) err, r, w3))) /\
  (forall w1, reg_Connect ctx_err Quote r VPNID w1 = let '(err, w2) := ts_Connect o c Quote VPNID w1 in (err, r, w2)).
Proof using Hctx.
  intros H Hw Hnd Hts. rewrite List_eq by done. rewrite adapters_real. change (byID real_registry) with (∅ : gmap string VPNBackend).
  destruct (real_entries P ps w H Hw) as (perm1 & active1 & perm2 & active2 & ts & Hts1 & Hne & Ee).
  assert (forall p q, In p ps -> In q ps -> pf_UUID p = pf_UUID q -> p = q) as Hinj.
  { intros p q Hp Hq E. apply list_elem_of_In, list_elem_of_lookup in Hp as [i Hi]. apply list_elem_of_In, list_elem_of_lookup in Hq as [j Hj].
    assert (i = j) as ->; [|congruence]. eapply (NoDup_lookup (map pf_UUID ps)); [done| |].
    - change (map pf_UUID ps) with (pf_UUID <$> ps). by rewrite list_lookup_fmap, Hi.
    - change (map pf_UUID ps) with (pf_UUID <$> ps). rewrite list_lookup_fmap, Hj. cbn. by rewrite E. }
  assert (forall e, e ∈ entries backends w -> e ∈ ts \/
    (exists p, In p ps /\ pf_Type p = ProfileWireGuard /\ e.1 = wg_adapter nm /\ vpn_ID e.2 = pf_UUID p) \/
    (exists p, In p ps /\ pf_Type p = ProfileVPN /\ e.1 = nv_adapter nm /\ vpn_ID e.2 = pf_UUID p)) as Hcases.
  { intros e. rewrite Ee, !elem_of_app. intros [He|[He|He]]; [by left| |]; right;
      apply list_elem_of_fmap in He as (p & -> & He); apply list_elem_of_In, filter_In in He as [Hp Ht%String.eqb_eq].
    - left. exists p. split_and!; try done. apply wg_entry_id.
    - right. exists p. split_and!; try done. apply nv_entry_id. }
  split; [by eexists|]. split.
  - intros p w1 Hp Ep. cbv zeta. destruct (np_Profile nm (pf_UUID p) w1) as [r1 w2] eqn:E1. cbn [fst snd] in *. subst r1.
    destruct (np_Activate nm (pf_UUID p) "" w2) as [err w3] eqn:E2. split; intros Ht; unfold reg_Connect, route.
    + rewrite (owner_only ∅ w (pf_UUID p) (wg_adapter nm)).
      * cbn [ad_Connect wg_adapter]. unfold wg_Connect, checked, profile_check. rewrite E1, Ht. cbn. rewrite E2. by destruct err.
      * eexists. split; [rewrite Ee; apply elem_of_app; right; apply elem_of_app; left; apply list_elem_of_fmap_2|apply wg_entry_id].
        apply list_elem_of_In, filter_In. split; [exact Hp|by apply String.eqb_eq].
      * intros e He Hid. destruct (Hcases e He) as [He'|[(q & Hq & Hqt & -> & Hqi)|(q & Hq & Hqt & _ & Hqi)]]; [|done|].
        -- exfalso. apply (Hts p Hp). rewrite <- Hid. by apply Hts1.
        -- exfalso. assert (p = q) as <- by (apply Hinj; congruence). rewrite Ht in Hqt. discriminate.
    + rewrite (owner_only ∅ w (pf_UUID p) (nv_adapter nm)).
      * cbn [ad_Connect nv_adapter]. unfold nv_Connect, checked, profile_check. rewrite E1, Ht. cbn. rewrite E2. by destruct err.
      * eexists. split; [rewrite Ee; apply elem_of_app; right; apply elem_of_app; right; apply list_elem_of_fmap_2|apply nv_entry_id].
        apply list_elem_of_In, filter_In. split; [exact Hp|by apply String.eqb_eq].
      * intros e He Hid. destruct (Hcases e He) as [He'|[(q & Hq & Hqt & _ & Hqi)|(q & Hq & Hqt & -> & Hqi)]]; [| |done].
        -- exfalso. apply (Hts p Hp). rewrite <- Hid. by apply Hts1.
        -- exfalso. assert (p = q) as <- by (apply Hinj; congruence). rewrite Ht in Hqt. discriminate.
  - intros w1. unfold reg_Connect, route. rewrite (owner_only ∅ w VPNID (ts_adapter o c Quote url_host)).
    + cbn [ad_Connect ts_adapter]. by destruct (ts_Connect o c Quote VPNID w1).
    + destruct ts as [|e ts]; [done|]. exists e. split; [rewrite Ee; by left|]. apply Hts1. by left.
    + intros e He Hid. destruct (Hcases e He) as [He'|[(q & Hq & _ & _ & Hqi)|(q & Hq & _ & _ & Hqi)]]; [by apply Hts1| |];
        exfalso; apply (Hts q Hq); congruence.
Qed.
End Routing.

(** ** Witness *)

Definition demo_vpn_profile (uuid name : string) (t : ProfileType) : Profile :=
  mkProfile uuid name t "" "" false "" "" "" 0 IPConfig_zero IPConfig_zero [] "" 0 false "" None ∅.

Definition demo_profiles : list Profile :=
  [demo_vpn_profile "u-wg" "Home" ProfileWireGuard; demo_vpn_profile "u-eth" "Desk" ProfileEthernet; demo_vpn_profile "u-ov" "Office" ProfileVPN].

(** The world is the list of the profiles activated so far. *)
Definition demo_port : NMPort (verdict * list string) :=
  mkNMPort _ (fun w => (Ok demo_profiles, w))
    (fun id w => (match List.find (fun p => pf_UUID p =?s id) demo_profiles with Some p => Ok p | None => Err ErrNotFound end, w))
    (fun w => (Ok [], w)) (fun w => (Ok {[PermNetworkControl := PermYes]}, w)) (fun id _ '(v, l) => (None, (v, l ++ [id])))
    (fun _ w => (None, w)) (fun _ w => (Ok "", w)) (fun _ _ w => (Ok "", w)).

Definition demo_tailscaled : TsClient (list string) :=
  let gone {A} (w : list string) : result error A * list string := (Err ErrTsUnavailable, w) in
  mkTsClient _ gone gone gone (fun _ => gone) (fun _ => gone) (fun w => (Some ErrTsUnavailable, w)) (fun w => (Some ErrTsUnavailable, w))
    (fun w => (0, w)) (fun _ w => (None, w)).

Lemma vpn_routing_witness :
  let '(_, r, w) := List_ (fun _ => None) (real_registry (default_options "ann" "/run/ts.sock") demo_tailscaled (fun _ => None) id demo_port)
    (verdict_zero, []) in
  reg_Connect (fun _ => None) id r "u-wg" w = (None, r, (verdict_zero, ["u-wg"])) /\
  reg_Connect (fun _ => None) id r "u-ov" w = (None, r, (verdict_zero, ["u-ov"])).
Proof.
  pose proof (vpn_routing (default_options "ann" "/run/ts.sock") demo_tailscaled (fun _ => None) id demo_port (fun _ => None) (fun _ => eq_refl)
    (fun _ => True) demo_profiles (verdict_zero, [])) as H.
  destruct (List_ _ _ _) as [[res r] w] eqn:E.
  assert (w = (verdict_zero, [])) as Hw.
  { transitivity (List_ (fun _ => None) (real_registry (default_options "ann" "/run/ts.sock") demo_tailscaled (fun _ => None) id demo_port)
      (verdict_zero, [])).2; [by rewrite E|]. vm_compute. reflexivity. }
  destruct H as (_ & H & _).
  - split; intros; repeat split; try done. by eexists.
  - done.
  - apply (bool_decide_unpack _). vm_compute. exact I.
  - intros p Hp. vm_compute in Hp. destruct Hp as [<-|[<-|[<-|[]]]]; discriminate.
  - subst w. split.
    + exact (proj1 (H (demo_vpn_profile "u-wg" "Home" ProfileWireGuard) (verdict_zero, []) (or_introl eq_refl) eq_refl) eq_refl).
    + exact (proj2 (H (demo_vpn_profile "u-ov" "Office" ProfileVPN) (verdict_zero, []) (or_intror (or_intror (or_introl eq_refl))) eq_refl) eq_refl).
Defined.
