(* ===== verification/GoScan.v ===== *)
(** More of Go's [strings], [bufio], [encoding/hex] and [net]: what the readers
    of text tables use.  Case is that of ASCII. *)

From S2P Require Import Prelude GoStrings GoStringsFacts Netip NetipRoundtrip.
From Stdlib Require Import Ascii.

Definition newline : string := byte_str [10%nat].

(** ** bufio.Scanner *)

(** The lines it finds, without their newline; a rest that is not ended by one
    is a line unless it is empty. *)
Fixpoint scan_lines (cur : string) (s : string) : list string :=
  match s with
  | "" => if cur =?s "" then [] else [string_rev cur]
  | String c s' =>
      if Nat.eqb (nat_of_ascii c) 10 then string_rev cur :: scan_lines "" s' else scan_lines (String c cur) s'
  end.

(** A carriage return at the end of a line is dropped. *)
Definition drop_cr (line : string) : string := TrimSuffix line (byte_str [13%nat]).

(** The longest line of a Scanner whose buffer is not set. *)
Definition MaxScanTokenSize : Z := 64 * 1024.

(** The lines up to one that is too long, and whether there is one. *)
Fixpoint scan_upto (limit : Z) (lines : list string) : list string * bool :=
  match lines with
  | [] => ([], false)
  | l :: lines =>
      if limit <=? Z.of_nat (String.length l) then ([], true)
      else let '(ls, long) := scan_upto limit lines in (drop_cr l :: ls, long)
  end.

Definition Scan (text : string) : list string * bool := scan_upto MaxScanTokenSize (scan_lines "" text).

Definition too_long : string := "bufio.Scanner: token too long".

(** ** strings *)

Definition flush_word (cur : string) : list string := if cur =?s "" then [] else [string_rev cur].

(** [strings.Fields] *)
Fixpoint fields_fuel (fuel : nat) (cur : string) (s : string) : list string :=
  match fuel with
  | O => flush_word cur
  | S fuel =>
      match s with
      | "" => flush_word cur
      | String c s' =>
          match strip_space_prefix s with
          | Some rest => flush_word cur ++ fields_fuel fuel "" rest
          | None => fields_fuel fuel (String c cur) s'
          end
      end
  end.

Definition Fields (s : string) : list string := fields_fuel (String.length s) "" s.

Definition in_set (set : string) (c : ascii) : bool := existsb (Ascii.eqb c) (String.list_ascii_of_string set).

Fixpoint trim_left (set s : string) : string :=
  match s with
  | "" => ""
  | String c s' => if in_set set c then trim_left set s' else s
  end.

(** [strings.Trim] with a set of bytes *)
Definition Trim (s set : string) : string := string_rev (trim_left set (string_rev (trim_left set s))).

Definition ContainsAny (s set : string) : bool := existsb (in_set set) (String.list_ascii_of_string s).

Definition upper_byte (c : ascii) : ascii :=
  let n := nat_of_ascii c in if Nat.leb 97 n && Nat.leb n 122 then ascii_of_nat (n - 32) else c.

Fixpoint ToUpper (s : string) : string :=
  match s with
  | "" => ""
  | String c s' => String (upper_byte c) (ToUpper s')
  end.

(** ** hex *)

(** [hex.DecodeString] *)
Fixpoint hex_decode (s : string) : option (list Z) :=
  match s with
  | "" => Some []
  | String a (String b s') =>
      match hex_val a, hex_val b, hex_decode s' with
      | Some x, Some y, Some l => Some (16 * x + y :: l)
      | _, _, _ => None
      end
  | _ => None
  end.

(** [strconv.ParseUint(s, 16, bits)] *)
Definition ParseHex (bits : Z) (s : string) : option Z :=
  match s with
  | "" => None
  | _ => let '(_, v, rest) := hex_run 0 s in if (rest =?s "") && (v <? 2 ^ bits) then Some v else None
  end.

(** ** net *)

(** [net.IP.To4]: of four bytes, or of an IPv4 address in sixteen. *)
Definition in6 (b : list Z) : bool := forallb (Z.eqb 0) (take 10 b) && forallb (Z.eqb 255) (take 2 (drop 10 b)).

Definition To4 (b : list Z) : option (list Z) :=
  if Nat.eqb (length b) 4 then Some b
  else if Nat.eqb (length b) 16 && in6 b then Some (drop 12 b) else None.

(** [net.IP.String] of four or sixteen bytes *)
Definition IP_String (b : list Z) : string := match To4 b with Some b4 => string4 b4 | None => string6 (v6groups b) end.

(** [net.ParseIP], as sixteen bytes would be compared: the bytes of the address. *)
Definition ParseIP_bytes (s : string) : option (list Z) :=
  match ParseAddr s with
  | Some (A4 b) => Some b
  | Some (A6 b zone) => if zone =?s "" then Some b else None
  | None => None
  end.

(** [net.JoinHostPort] *)
Definition JoinHostPort (host port : string) : string :=
  if Contains host ":" then "[" +:+ host +:+ "]:" +:+ port else host +:+ ":" +:+ port.

Example scan_samples :
  (Fields "  a bc   d ", Trim "00:00:0" "0:", Trim "[::1]" "[]", hex_decode "0100007F", ParseHex 16 "1F90", ParseHex 16 "10000",
   IP_String [127; 0; 0; 1], IP_String [0;0;0;0;0;0;0;0;0;0;255;255;1;2;3;4], fst (Scan (byte_str [97; 13; 10; 98]%nat))) =
  (["a"; "bc"; "d"], "", "::1", Some [1; 0; 0; 127], Some 8080, None, "127.0.0.1", "1.2.3.4", ["a"; "b"]).
Proof. vm_compute. reflexivity. Qed.

(** * Facts about GoScan: the lines and words of a text are those it was put
    together from, and so are hexadecimal numbers. *)

(** ** Lines *)

Definition inline (s : string) : bool := all_chars (fun c => not_char (ascii_of_nat 10) c && not_char (ascii_of_nat 13) c) s.

Lemma inline_app s t : inline (s +:+ t) = inline s && inline t.
Proof. apply all_chars_app. Qed.

Lemma scan_inline cur s rest : inline s = true -> scan_lines cur (s +:+ rest) = scan_lines (string_rev s +:+ cur) rest.
Proof.
  revert cur; induction s as [|c s IH]; intros cur Hs; [done|]. unfold inline in *. cbn [all_chars] in Hs.
  apply andb_true_iff in Hs as [[Hc _]%andb_true_iff Hs]. rewrite app_String. cbn [scan_lines].
  assert (Nat.eqb (nat_of_ascii c) 10 = false) as ->.
  { apply Nat.eqb_neq. intros E. unfold not_char in Hc. apply negb_true_iff, Ascii.eqb_neq in Hc. apply Hc.
    by rewrite <- (ascii_nat_embedding c), E. }
  rewrite IH by done. by rewrite string_rev_cons, app_string_assoc.
Qed.

Lemma scan_line s rest : inline s = true -> scan_lines "" (s +:+ (newline +:+ rest)) = s :: scan_lines "" rest.
Proof.
  intros Hs. rewrite scan_inline by done. change (newline +:+ rest) with (String (ascii_of_nat 10) rest). cbn [scan_lines].
  change (Nat.eqb (nat_of_ascii (ascii_of_nat 10)) 10) with true. cbn iota.
  by rewrite string_app_nil, string_rev_involutive.
Qed.

Lemma scan_last s : inline s = true -> scan_lines "" s = if s =?s "" then [] else [s].
Proof.
  intros Hs. pose proof (scan_inline "" s "" Hs) as H. rewrite !string_app_nil in H. rewrite H. cbn [scan_lines].
  destruct (String.eqb_spec s "") as [->|Hne]; [done|].
  rewrite seqb_ne; [by rewrite string_rev_involutive|]. intros E. apply Hne. by rewrite <- (string_rev_involutive s), E.
Qed.

Lemma drop_cr_inline s : inline s = true -> drop_cr s = s.
Proof.
  intros Hs. unfold drop_cr, TrimSuffix. destruct (HasSuffix s (byte_str [13%nat])) eqn:E; [|done]. exfalso.
  apply HasSuffix_split in E. rewrite E, inline_app in Hs. apply andb_true_iff in Hs as [_ Hs]. by vm_compute in Hs.
Qed.

Lemma inline_plain s : all_chars plain s = true -> inline s = true.
Proof.
  apply all_chars_impl. intros c Hc. unfold plain in Hc. apply andb_true_iff in Hc as [H%Nat.ltb_lt _].
  unfold not_char. apply andb_true_iff; split; apply negb_true_iff, Ascii.eqb_neq; intros ->;
    rewrite nat_ascii_embedding in H by lia; lia.
Qed.

(** ** Whole texts *)

(** Lines, each ended by a newline. *)
Definition unlines (l : list string) : string := Join (map (fun x => x +:+ newline) l) "".

Lemma unlines_cons x l : unlines (x :: l) = x +:+ (newline +:+ unlines l).
Proof.
  unfold unlines. cbn [map]. destruct (map _ l) as [|y l'] eqn:E; cbn [Join]; [done|].
  by rewrite !app_string_assoc.
Qed.

Definition short_line (limit : Z) (s : string) : Prop := inline s = true /\ Z.of_nat (String.length s) < limit.

Lemma Scan_unlines l : Forall (short_line MaxScanTokenSize) l -> Scan (unlines l) = (l, false).
Proof.
  unfold Scan. intros HF. assert (scan_lines "" (unlines l) = l) as ->.
  { induction HF as [|x l [Hx _] HF IH]; [done|]. rewrite unlines_cons, scan_line by done. by rewrite IH. }
  induction HF as [|x l [Hx Hl] HF IH]; [done|]. cbn [scan_upto]. rewrite (proj2 (Z.leb_gt _ _)) by done.
  by rewrite IH, drop_cr_inline.
Qed.

(** ** Words *)

Fixpoint spaces (n : nat) : string := match n with O => "" | S n => String " " (spaces n) end.

(** A word: not empty, and plain. *)
Definition word (w : string) : Prop := w <> "" /\ all_chars plain w = true.

(** Each word after some spaces; between words there is at least one. *)
Definition spaced (l : list (nat * string)) : string := Join (map (fun p => spaces p.1 +:+ p.2) l) " ".

Lemma fields_plain w n cur s : all_chars plain w = true -> fields_fuel (String.length w + n) cur (w +:+ s) = fields_fuel n (string_rev w +:+ cur) s.
Proof.
  revert cur; induction w as [|c w IH]; intros cur Hw; [done|]. cbn [all_chars] in Hw. apply andb_true_iff in Hw as [Hc Hw].
  rewrite app_String. cbn [String.length Nat.add fields_fuel]. rewrite plain_start by done. rewrite IH by done.
  by rewrite string_rev_cons, app_string_assoc.
Qed.

Lemma space_prefix s : strip_space_prefix (String " " s) = Some s.
Proof. destruct s as [|? ?]; vm_compute; reflexivity. Qed.

Lemma fields_spaces k n s : fields_fuel (k + n) "" (spaces k +:+ s) = fields_fuel n "" s.
Proof.
  induction k as [|k IH]; [done|]. cbn [spaces]. rewrite app_String. cbn [Nat.add fields_fuel]. rewrite space_prefix. exact IH.
Qed.

Lemma spaces_length k : String.length (spaces k) = k.
Proof. induction k as [|k IH]; [done|]. cbn. by rewrite IH. Qed.

Lemma flush_rev w : w <> "" -> flush_word (string_rev w +:+ "") = [w].
Proof.
  intros Hw. unfold flush_word. rewrite string_app_nil, string_rev_involutive. rewrite seqb_ne; [done|].
  intros E. apply Hw. by rewrite <- (string_rev_involutive w), E.
Qed.

Lemma Fields_spaced l : Forall (fun p => word p.2) l -> Fields (spaced l) = map snd l.
Proof.
  intros HF. unfold Fields. induction HF as [|[k w] l [Hw Hp] HF IH]; [done|]. cbn [fst snd] in *. unfold spaced in *. cbn [map].
  destruct (map (fun p : nat * string => spaces p.1 +:+ p.2) l) as [|y l'] eqn:E.
  - destruct l; [|done]. cbn [Join fst snd map]. rewrite app_length_string, spaces_length, fields_spaces.
    replace (String.length w) with (String.length w + 0)%nat by lia. rewrite <- (string_app_nil w) at 2. rewrite fields_plain by done.
    cbn [fields_fuel]. by apply flush_rev.
  - cbn [fst snd]. change (Join ((spaces k +:+ w) :: y :: l') " ") with ((spaces k +:+ w) +:+ " " +:+ Join (y :: l') " ").
    rewrite app_string_assoc, !app_length_string, spaces_length, fields_spaces, fields_plain by done.
    change (" " +:+ Join (y :: l') " ") with (String " " (Join (y :: l') " ")). cbn [String.length Nat.add fields_fuel].
    rewrite space_prefix, flush_rev, IH by done. done.
Qed.

(** ** Hexadecimal *)

(** Two upper-case digits. *)
Definition hex2 (b : Z) : string := ToUpper (hex_digit (b / 16) +:+ hex_digit (b mod 16)).

Definition hex2_ok (n : nat) : bool :=
  let b := Z.of_nat n in
  match hex2 b with
  | String x (String y "") =>
      match hex_val x, hex_val y with Some u, Some v => (u =? b / 16) && (v =? b mod 16) | _, _ => false end &&
      (plain x && plain y && not_char ":" x && not_char ":" y) && Bool.eqb (in_set "0:" x && in_set "0:" y) (b =? 0)
  | _ => false
  end.

Lemma hex2_chars b : 0 <= b < 256 -> exists x y, hex2 b = String x (String y "") /\ hex_val x = Some (b / 16) /\ hex_val y = Some (b mod 16) /\
  all_chars plain (hex2 b) = true /\ all_chars (not_char ":") (hex2 b) = true /\ all_chars (in_set "0:") (hex2 b) = (b =? 0).
Proof.
  intros Hb. assert (forallb hex2_ok (seq 0 256) = true) as H by (vm_compute; reflexivity). rewrite forallb_forall in H.
  specialize (H (Z.to_nat b)). rewrite in_seq in H. specialize (H ltac:(lia)). unfold hex2_ok in H. rewrite Z2Nat.id in H by lia. cbv zeta in H.
  destruct (hex2 b) as [|x [|y [|]]]; try done. destruct (hex_val x) as [u|] eqn:Ex, (hex_val y) as [v|] eqn:Ey; try done.
  apply andb_true_iff in H as [[[H1%Z.eqb_eq H2%Z.eqb_eq]%andb_true_iff [[[H3 H4]%andb_true_iff H5]%andb_true_iff H6]%andb_true_iff]%andb_true_iff H7%eqb_prop].
  exists x, y. subst u v. cbn [all_chars]. rewrite H3, H4, H5, H6, <- H7, !andb_true_r. by split_and!.
Qed.

Definition hex_bytes (b : list Z) : string := Join (map hex2 b) "".

Lemma hex_bytes_cons b l : hex_bytes (b :: l) = hex2 b +:+ hex_bytes l.
Proof. unfold hex_bytes. cbn [map]. destruct (map hex2 l); cbn [Join]; [by rewrite string_app_nil|done]. Qed.

Lemma hex_bytes_read l : Forall byte_ok l -> hex_decode (hex_bytes l) = Some l /\
  all_chars plain (hex_bytes l) = true /\ all_chars (not_char ":") (hex_bytes l) = true /\ all_chars (in_set "0:") (hex_bytes l) = forallb (Z.eqb 0) l.
Proof.
  induction 1 as [|b l Hb HF (IH1 & IH2 & IH3 & IH4)]; [done|]. rewrite hex_bytes_cons.
  destruct (hex2_chars b Hb) as (x & y & E & Hx & Hy & H1 & H2 & H3). rewrite !all_chars_app, H1, H2, H3, IH2, IH3, IH4, E, !app_String.
  change ("" +:+ hex_bytes l) with (hex_bytes l). cbn [hex_decode forallb]. rewrite Hx, Hy, IH1. split_and!; [|done|done|by rewrite (Z.eqb_sym 0 b)].
  do 2 f_equal. pose proof (Z.div_mod b 16). lia.
Qed.

(** ** Trimming *)

Lemma trim_left_spec set s : exists a, s = a +:+ trim_left set s /\ all_chars (in_set set) a = true /\
  match trim_left set s with String c _ => in_set set c = false | "" => True end.
Proof.
  induction s as [|c s (a & E & Ha & H)]; [by exists ""|]. cbn [trim_left]. destruct (in_set set c) eqn:Hc; [|by exists ""].
  exists (String c a). rewrite app_String, <- E. cbn [all_chars]. by rewrite Hc.
Qed.

Lemma all_chars_rev p s : all_chars p (string_rev s) = all_chars p s.
Proof.
  induction s as [|c s IH]; [done|]. rewrite string_rev_cons, all_chars_app, IH. cbn [all_chars]. rewrite andb_true_r. apply andb_comm.
Qed.

(** Nothing is left exactly when everything was to go. *)
Lemma Trim_empty set s : (Trim s set =?s "") = all_chars (in_set set) s.
Proof.
  unfold Trim. destruct (trim_left_spec set s) as (a & E & Ha & H). set (t := trim_left set s) in *.
  destruct (trim_left_spec set (string_rev t)) as (b & E' & Hb & H'). set (u := trim_left set (string_rev t)) in *.
  assert (all_chars (in_set set) s = all_chars (in_set set) u) as ->.
  { rewrite E, all_chars_app, Ha, <- (all_chars_rev _ t), E', all_chars_app, Hb. done. }
  destruct u as [|c u]; [done|]. cbn [all_chars]. rewrite H'. rewrite string_rev_cons. by destruct (string_rev u).
Qed.
