(* ===== verification/GoURL.v ===== *)
(** What the API and its client use of net/url and net/http: escaping, query
    strings, and the routing of http.ServeMux. *)

From S2P Require Import Prelude GoStrings GoStringsFacts.
From Stdlib Require Import Ascii.

(** ** net/url: escaping *)

Inductive escape_mode := WholePath | PathSegment | QueryComponent.

Definition unreserved (n : nat) : bool :=
  (Nat.leb 48 n && Nat.leb n 57) || (Nat.leb 65 n && Nat.leb n 90) || (Nat.leb 97 n && Nat.leb n 122) ||
  existsb (Nat.eqb n) [45; 95; 46; 126]%nat.

(** The bytes [$&+:=@] stay in a path segment, and [,/;] in a path; the other
    reserved ones do not. *)
Definition shouldEscape (m : escape_mode) (n : nat) : bool :=
  if unreserved n then false
  else match m with
       | WholePath => negb (existsb (Nat.eqb n) [36; 38; 43; 44; 47; 58; 59; 61; 64]%nat)
       | PathSegment => negb (existsb (Nat.eqb n) [36; 38; 43; 58; 61; 64]%nat)
       | QueryComponent => true
       end.

Definition upperhex (n : nat) : Ascii.ascii := Ascii.ascii_of_nat (if Nat.ltb n 10 then 48 + n else 55 + n).

Definition hex_byte (n : nat) (s : string) : string := String "%"%char (String (upperhex (n / 16)) (String (upperhex (n mod 16)) s)).

Fixpoint escape (m : escape_mode) (s : string) : string :=
  match s with
  | "" => ""
  | String c s' =>
      let n := Ascii.nat_of_ascii c in
      if Nat.eqb n 32 && (match m with QueryComponent => true | _ => false end) then String "+"%char (escape m s')
      else if shouldEscape m n then hex_byte n (escape m s')
      else String c (escape m s')
  end.

Definition unhex (c : Ascii.ascii) : option nat :=
  let n := Ascii.nat_of_ascii c in
  if Nat.leb 48 n && Nat.leb n 57 then Some (n - 48)%nat
  else if Nat.leb 97 n && Nat.leb n 102 then Some (n - 87)%nat
  else if Nat.leb 65 n && Nat.leb n 70 then Some (n - 55)%nat
  else None.

(** [None] is an [EscapeError]. *)
Fixpoint unescape (m : escape_mode) (s : string) : option string :=
  match s with
  | "" => Some ""
  | String c s' =>
      if Ascii.eqb c "%" then
        match s' with
        | String a (String b s'') =>
            match unhex a, unhex b with
            | Some x, Some y => String (Ascii.ascii_of_nat (16 * x + y)) <$> unescape m s''
            | _, _ => None
            end
        | _ => None
        end
      else
        let c := match m with QueryComponent => if Ascii.eqb c "+" then " "%char else c | _ => c end in
        String c <$> unescape m s'
  end.

Definition PathEscape : string -> string := escape PathSegment.
Definition QueryEscape : string -> string := escape QueryComponent.

(** net/http's [pathUnescape]: the text itself when it does not unescape. *)
Definition pathUnescape (s : string) : string := default s (unescape PathSegment s).

(** ** net/url: query strings *)

(** [url.Values], one value for a key. *)
Definition Values : Type := list (string * string).

Definition Encode (q : Values) : string :=
  Join (map (fun kv => QueryEscape kv.1 +:+ "=" +:+ QueryEscape kv.2) (isort (fun a b => String.leb a.1 b.1) q)) "&".

(** One piece of a query between [&]s; [None] is skipped. *)
Definition parse_pair (piece : string) : option (string * string) :=
  if Contains piece ";" || (piece =?s "") then None
  else
    let '(k, v) := match Cut piece "=" with Some kv => kv | None => (piece, "") end in
    match unescape QueryComponent k, unescape QueryComponent v with
    | Some k, Some v => Some (k, v)
    | _, _ => None
    end.

(** [r.URL.Query().Get]. *)
Definition query_Get (raw key : string) : string :=
  match List.find (fun kv => kv.1 =?s key) (omap parse_pair (Split raw "&")) with
  | Some (_, v) => v
  | None => ""
  end.

(** ** net/http: the text of a redirect *)

(** [hexEscapeNonASCII], in lower case. *)
Definition lower_hex (n : nat) : Ascii.ascii := Ascii.ascii_of_nat (if Nat.ltb n 10 then 48 + n else 87 + n).

Fixpoint hexEscapeNonASCII (s : string) : string :=
  match s with
  | "" => ""
  | String c s' =>
      let n := Ascii.nat_of_ascii c in
      if Nat.leb 128 n then String "%"%char (String (lower_hex (n / 16)) (String (lower_hex (n mod 16)) (hexEscapeNonASCII s')))
      else String c (hexEscapeNonASCII s')
  end.

Fixpoint htmlEscape (s : string) : string :=
  match s with
  | "" => ""
  | String c s' =>
      (if Ascii.eqb c "&" then "&amp;" else if Ascii.eqb c "<" then "&lt;" else if Ascii.eqb c ">" then "&gt;"
       else if Nat.eqb (Ascii.nat_of_ascii c) 34 then "&#34;" else if Ascii.eqb c "'" then "&#39;" else String c "") +:+ htmlEscape s'
  end.

(** ** path.Clean and net/http's cleanPath *)

(** The elements of a rooted path, with [stack] the ones kept, last first. *)
Fixpoint clean_elems (l stack : list string) : list string :=
  match l with
  | [] => rev stack
  | x :: l' =>
      if (x =?s "") || (x =?s ".") then clean_elems l' stack
      else if x =?s ".." then clean_elems l' (List.tl stack)
      else clean_elems l' (x :: stack)
  end.

Definition Clean (rooted : string) : string := "/" +:+ Join (clean_elems (Split rooted "/") []) "/".

Definition cleanPath (p : string) : string :=
  if p =?s "" then "/"
  else
    let p := if HasPrefix p "/" then p else "/" +:+ p in
    let np := Clean p in
    if HasSuffix p "/" && negb (np =?s "/") then np +:+ "/" else np.

(** ** http.ServeMux *)

(** A segment of a pattern: a literal, or a [{name}] that takes any segment. *)
Inductive pseg := Lit (s : string) | Wild (name : string).

Definition parse_seg (s : string) : pseg :=
  if HasPrefix s "{" && HasSuffix s "}" then Wild (TrimSuffix (TrimPrefix s "{") "}") else Lit s.

(** A pattern as it is written: a method, a space and a path. *)
Definition parse_pattern (p : string) : string * list pseg :=
  match Cut p " " with
  | Some (m, path) => (m, map parse_seg (Split (TrimPrefix path "/") "/"))
  | None => ("", [])
  end.

(** The segments of a request path, unescaped; a slash at the end is a segment
    of its own. *)
Definition path_segments (path : string) : list string :=
  map (fun s => if s =?s "" then "/" else pathUnescape s) (Split (TrimPrefix path "/") "/").

Section Mux.
Context {H : Type}.

Definition lit_rest (s : string) (r : list pseg * H) : option (list pseg * H) :=
  match r with (Lit t :: ps, h) => if t =?s s then Some (ps, h) else None | _ => None end.
Definition wild_rest (r : list pseg * H) : option (list pseg * H) := match r with (Wild _ :: ps, h) => Some (ps, h) | _ => None end.

(** Of some patterns the one a path matches, and what its wildcards take:
    segment by segment, the patterns with that literal first. *)
Fixpoint match_path (rs : list (list pseg * H)) (segs : list string) : option (H * list string) :=
  match segs with
  | [] => match List.find (fun r => match r.1 with [] => true | _ => false end) rs with Some (_, h) => Some (h, []) | None => None end
  | s :: segs' =>
      match match_path (omap (lit_rest s) rs) segs' with
      | Some r => Some r
      | None =>
          if s =?s "/" then None
          else match match_path (omap wild_rest rs) segs' with
               | Some (h, vs) => Some (h, s :: vs)
               | None => None
               end
      end
  end.

Definition wild_names (ps : list pseg) : list string := omap (fun p => match p with Wild n => Some n | Lit _ => None end) ps.
End Mux.

Section Routes.
Context {H : Type} (routes : list (string * H)).

(** The patterns of a method, each with its handler and the names of its
    wildcards. *)
Definition routes_for (method : string) : list (list pseg * (H * list string)) :=
  omap (fun '(p, h) => let '(m, ps) := parse_pattern p in if m =?s method then Some (ps, (h, wild_names ps)) else None) routes.

(** The handler for a method and a cleaned path, with its path values; a GET
    pattern takes HEAD too. *)
Definition mux_match (method path : string) : option (H * list (string * string)) :=
  let of_method m :=
    match match_path (routes_for m) (path_segments path) with
    | Some ((h, names), vs) => Some (h, combine names vs)
    | None => None
    end in
  match of_method method with
  | Some r => Some r
  | None => if method =?s "HEAD" then of_method "GET" else None
  end.

(** [matchingMethods]: what [Allow] names. *)
Definition matchingMethods (path : string) : list string :=
  let matches m p := match match_path (routes_for m) (path_segments p) with Some _ => true | None => false end in
  let methods := map (fun r => (parse_pattern r.1).1) routes in
  let ok m := matches m path || (negb (HasSuffix path "/") && matches m (path +:+ "/")) in
  let ms := List.filter ok methods in
  let ms := if existsb (String.eqb "GET") ms then "HEAD" :: ms else ms in
  isort String.leb (remove_dups ms).

(** [ServeMux.Handler].  No pattern of ours ends in a slash, so that a path is
    never completed with one. *)
Inductive routed :=
| RHandler (h : H) (values : list (string * string))
| RRedirect (matched : bool)          (* to the cleaned path, which has a route or not *)
| RNotAllowed (allow : list string)
| RNotFound.

Definition mux_Handler (method path : string) : routed :=
  let clean := cleanPath path in
  let found := mux_match method clean in
  if negb (clean =?s path) then RRedirect (match found with Some _ => true | None => false end)
  else match found with
       | Some (h, vs) => RHandler h vs
       | None => match matchingMethods clean with [] => RNotFound | allow => RNotAllowed allow end
       end.
End Routes.

Definition PathValue (values : list (string * string)) (name : string) : string :=
  match List.find (fun kv => kv.1 =?s name) values with Some (_, v) => v | None => "" end.

(** * Escaping, query strings and routing read back what was written. *)

(** ** Escaping *)

Lemma ascii_forall (p : ascii -> bool) c : forallb p (map ascii_of_nat (seq 0 256)) = true -> p c = true.
Proof.
  intros H. rewrite forallb_forall in H. apply H. rewrite <- (ascii_nat_embedding c). apply in_map, in_seq.
  pose proof (nat_ascii_bounded c). lia.
Qed.

Lemma escape_cons m c s : escape m (String c s) = escape m (String c "") +:+ escape m s.
Proof.
  cbn [escape]. cbv zeta. destruct (Nat.eqb (nat_of_ascii c) 32 && _); [done|]. by destruct (shouldEscape m (nat_of_ascii c)).
Qed.

(** What one byte is escaped to: an escape of three bytes, or one byte. *)
Definition escaped_byte (m : escape_mode) (c : ascii) : bool :=
  match escape m (String c "") with
  | String p (String a (String b "")) =>
      Ascii.eqb p "%" && match unhex a, unhex b with Some x, Some y => Ascii.eqb (ascii_of_nat (16 * x + y)) c | _, _ => false end
  | String d "" =>
      negb (Ascii.eqb d "%") &&
      Ascii.eqb (match m with QueryComponent => if Ascii.eqb d "+" then " "%char else d | _ => d end) c
  | _ => false
  end.

Lemma escaped_byte_all m c : escaped_byte m c = true.
Proof. apply (ascii_forall (escaped_byte m)). by destruct m; vm_compute. Qed.

Lemma unescape_byte m c s : unescape m (escape m (String c "") +:+ s) = String c <$> unescape m s.
Proof.
  pose proof (escaped_byte_all m c) as H. unfold escaped_byte in H.
  destruct (escape m (String c "")) as [|d [|a [|b [|? ?]]]]; try done.
  - change (String d "" +:+ s) with (String d s). cbn [unescape]. apply andb_true_iff in H as [Hd Hc%Ascii.eqb_eq]. apply negb_true_iff in Hd. by rewrite Hd, Hc.
  - change (String d (String a (String b "")) +:+ s) with (String d (String a (String b s))). cbn [unescape].
    apply andb_true_iff in H as [-> H]. destruct (unhex a); [|done]. destruct (unhex b); [|done].
    by apply Ascii.eqb_eq in H as ->.
Qed.

Lemma unescape_escape m s : unescape m (escape m s) = Some s.
Proof. induction s as [|c s IH]; [done|]. by rewrite escape_cons, unescape_byte, IH. Qed.

Lemma pathUnescape_escape s : pathUnescape (PathEscape s) = s.
Proof. unfold pathUnescape, PathEscape. by rewrite unescape_escape. Qed.

Lemma escape_chars m (p : ascii -> bool) s :
  forallb (fun c => all_chars p (escape m (String c ""))) (map ascii_of_nat (seq 0 256)) = true -> all_chars p (escape m s) = true.
Proof.
  intros H. induction s as [|c s IH]; [done|]. rewrite escape_cons, all_chars_app, IH.
  rewrite (ascii_forall (fun c => all_chars p (escape m (String c ""))) c H). done.
Qed.

Lemma PathEscape_no_slash s : all_chars (not_char "/") (PathEscape s) = true.
Proof. apply escape_chars. by vm_compute. Qed.

Lemma QueryEscape_plain s :
  all_chars (fun c => not_char "&" c && (not_char "=" c && not_char ";" c)) (QueryEscape s) = true.
Proof. apply escape_chars. by vm_compute. Qed.

Lemma all_chars_and (p q : ascii -> bool) s : all_chars (fun c => p c && q c) s = all_chars p s && all_chars q s.
Proof.
  induction s as [|c s IH]; [done|]. cbn [all_chars]. rewrite IH.
  by destruct (p c), (q c), (all_chars p s), (all_chars q s).
Qed.

(** ** Query strings *)

Definition encode_pair (kv : string * string) : string := QueryEscape kv.1 +:+ "=" +:+ QueryEscape kv.2.

Lemma encode_pair_no c kv : c = "&"%char \/ c = ";"%char -> all_chars (not_char c) (encode_pair kv) = true.
Proof.
  unfold encode_pair. pose proof (QueryEscape_plain kv.1) as H1. pose proof (QueryEscape_plain kv.2) as H2.
  rewrite !all_chars_and in H1, H2. apply andb_true_iff in H1 as [A1 [B1 C1]%andb_true_iff], H2 as [A2 [B2 C2]%andb_true_iff].
  intros [-> | ->]; rewrite !all_chars_app; by rewrite ?A1, ?A2, ?C1, ?C2.
Qed.

Lemma parse_encode_pair kv : parse_pair (encode_pair kv) = Some kv.
Proof.
  unfold parse_pair, Contains. rewrite Cut_char_None by (apply encode_pair_no; tauto).
  assert ((encode_pair kv =?s "") = false) as ->.
  { apply seqb_ne. unfold encode_pair. by destruct (QueryEscape kv.1). }
  cbn [orb]. unfold encode_pair. change ("=" +:+ QueryEscape kv.2) with (String "=" (QueryEscape kv.2)).
  rewrite Cut_char by (pose proof (QueryEscape_plain kv.1) as H; rewrite !all_chars_and in H; apply andb_true_iff in H as [_ [? _]%andb_true_iff]; done).
  unfold QueryEscape. rewrite !unescape_escape. by destruct kv.
Qed.

Lemma pairs_Encode q : omap parse_pair (Split (Encode q) "&") = isort (fun a b => String.leb a.1 b.1) q.
Proof.
  unfold Encode. generalize (isort (fun a b : string * string => String.leb a.1 b.1) q) as l.
  assert (forall l : Values, l <> [] -> Split (Join (map encode_pair l) "&") "&" = map encode_pair l) as Hs.
  { intros l Hl. destruct (exists_last Hl) as (l' & kv & ->). rewrite map_app. cbn [map].
    assert (Forall (fun p => all_chars (not_char "&") p = true) (map encode_pair l')) as HF.
    { apply Forall_map, Forall_true. intros x. apply encode_pair_no. tauto. }
    change "&"%string with (String "&"%char ""). rewrite Split_Join by done. f_equal. apply Split_single, encode_pair_no. tauto. }
  intros [|kv l]; [done|]. change (fun kv0 => QueryEscape kv0.1 +:+ "=" +:+ QueryEscape kv0.2) with encode_pair. rewrite Hs by done.
  clear. generalize (kv :: l). clear. intros l. induction l as [|x l IH]; [done|]. csimpl. rewrite parse_encode_pair. by rewrite IH.
Qed.

(** A key reads back as its value; a key that was not set as none. *)
Lemma query_Get_Encode q k : NoDup (map fst q) ->
  query_Get (Encode q) k = match List.find (fun kv => kv.1 =?s k) q with Some (_, v) => v | None => "" end.
Proof.
  intros Hnd. unfold query_Get. rewrite pairs_Encode.
  pose proof (isort_perm (fun a b : string * string => String.leb a.1 b.1) q) as Hp.
  assert (List.find (fun kv => kv.1 =?s k) (isort (fun a b => String.leb a.1 b.1) q) = List.find (fun kv => kv.1 =?s k) q) as ->; [|done].
  assert (NoDup (map fst (isort (fun a b : string * string => String.leb a.1 b.1) q))) as Hnd' by (by rewrite Hp).
  destruct (List.find _ q) as [x|] eqn:E.
  - apply List.find_some in E as [Hx Hk]. destruct (List.find _ (isort _ q)) as [y|] eqn:E'.
    + apply List.find_some in E' as [Hy Hk']. f_equal. apply String.eqb_eq in Hk, Hk'.
      destruct x as [kx vx], y as [ky vy]. cbn in Hk, Hk'. subst kx ky.
      apply list_elem_of_In in Hx, Hy. rewrite Hp in Hy. clear - Hnd Hx Hy.
      induction q as [|[k' v'] q IH]; [by inversion Hx|]. cbn in Hnd. apply NoDup_cons in Hnd as [Hni Hnd].
      apply elem_of_cons in Hx as [Hx|Hx]; apply elem_of_cons in Hy as [Hy|Hy]; simplify_eq; [done| | |by apply IH];
        exfalso; apply Hni, list_elem_of_fmap; by eexists (_, _).
    + exfalso. assert (In x (isort (fun a b : string * string => String.leb a.1 b.1) q)) as H.
      { apply list_elem_of_In. rewrite Hp. by apply list_elem_of_In. }
      pose proof (List.find_none _ _ E' _ H) as H'. cbn in H'. congruence.
  - destruct (List.find _ (isort _ q)) as [y|] eqn:E'; [|done]. exfalso. apply List.find_some in E' as [Hy Hk].
    assert (In y q) as H by (apply list_elem_of_In; rewrite <- Hp; by apply list_elem_of_In).
    pose proof (List.find_none _ _ E _ H) as H'. cbn in H'. congruence.
Qed.

(** ** Paths *)

Definition path_of (l : list string) : string := "/" +:+ Join l "/".

Definition clean_seg (s : string) : Prop := s <> "" /\ s <> "." /\ s <> ".." /\ all_chars (not_char "/") s = true.

Lemma Split_path l : l <> [] -> Forall clean_seg l -> Split (path_of l) "/" = "" :: l.
Proof.
  intros Hl HF. unfold path_of. change ("/" +:+ Join l "/") with ("" +:+ String "/" (Join l "/")).
  change "/"%string with (String "/" ""). rewrite Split_char by done. f_equal.
  destruct (exists_last Hl) as (l' & x & ->). apply Forall_app in HF as [H1 H2].
  rewrite Split_Join by (eapply Forall_impl; [exact H1|by intros ? (_ & _ & _ & ?)]).
  apply Forall_cons in H2 as [(_ & _ & _ & Hx) _]. by rewrite Split_single.
Qed.

Lemma clean_elems_clean l stack : Forall clean_seg l -> clean_elems l stack = rev stack ++ l.
Proof.
  revert stack; induction l as [|x l IH]; intros stack HF; cbn [clean_elems]; [by rewrite app_nil_r|].
  apply Forall_cons in HF as [(H1 & H2 & H3 & _) HF]. rewrite !seqb_ne by done. cbn [orb]. rewrite IH by done.
  cbn [rev]. by rewrite <- app_assoc.
Qed.

Lemma string_rev_last s : s <> "" -> all_chars (not_char "/") s = true -> exists c t, string_rev s = String c t /\ not_char "/" c = true.
Proof.
  intros Hs Ha. destruct s as [|c s]; [done|]. clear Hs. revert c Ha; induction s as [|d s IH]; intros c Ha.
  - exists c, "". cbn in Ha. apply andb_true_iff in Ha as [Ha _]. done.
  - cbn [all_chars] in Ha. apply andb_true_iff in Ha as [_ Ha]. destruct (IH d Ha) as (e & t & E & He).
    exists e, (t +:+ String c ""). split; [|done]. by rewrite string_rev_cons, E.
Qed.

Lemma path_no_slash_end l : l <> [] -> Forall clean_seg l -> HasSuffix (path_of l) "/" = false.
Proof.
  intros Hl HF. destruct (exists_last Hl) as (l' & x & ->). apply Forall_app in HF as [_ H2].
  apply Forall_cons in H2 as [(Hx & _ & _ & Ha) _].
  assert (exists p, path_of (l' ++ [x]) = p +:+ x) as [p ->].
  { unfold path_of. destruct l' as [|y l']; [by exists "/"|]. rewrite Join_snoc by done.
    exists ("/" +:+ (Join (y :: l') "/" +:+ "/")). by rewrite !app_string_assoc. }
  unfold HasSuffix. rewrite string_rev_append. destruct (string_rev_last x Hx Ha) as (c & t & -> & Hc).
  change (string_rev "/") with (String "/" ""). rewrite app_String, HasPrefix_char.
  unfold not_char in Hc. by apply negb_true_iff in Hc.
Qed.

Lemma cleanPath_path l : l <> [] -> Forall clean_seg l -> cleanPath (path_of l) = path_of l.
Proof.
  intros Hl HF. unfold cleanPath. assert ((path_of l =?s "") = false) as -> by done.
  assert (HasPrefix (path_of l) "/" = true) as ->.
  { unfold path_of. change ("/" +:+ Join l "/") with (String "/" (Join l "/")). by rewrite HasPrefix_char. }
  cbv zeta. rewrite path_no_slash_end by done. cbn [andb].
  unfold Clean. rewrite Split_path by done. cbn [clean_elems String.eqb orb]. by rewrite clean_elems_clean.
Qed.

Lemma path_segments_path l : l <> [] -> Forall clean_seg l -> path_segments (path_of l) = map pathUnescape l.
Proof.
  intros Hl HF. unfold path_segments, path_of.
  assert (TrimPrefix ("/" +:+ Join l "/") "/" = Join l "/") as ->.
  { unfold TrimPrefix. change ("/" +:+ Join l "/") with (String "/" (Join l "/")). rewrite HasPrefix_char. cbn.
    by destruct (Join l "/"). }
  pose proof (Split_path l Hl HF) as H. unfold path_of in H.
  change ("/" +:+ Join l "/") with ("" +:+ String "/" (Join l "/")) in H. change "/"%string with (String "/" "") in H.
  rewrite Split_char in H by done. injection H as H. change "/"%string with (String "/" ""). rewrite H. clear H.
  apply map_ext_in. intros s Hs. rewrite Forall_forall in HF. destruct (HF s) as (Hne & _); [by apply list_elem_of_In|].
  by rewrite seqb_ne.
Qed.

(** ** The mux does not look into its handlers *)

Section Natural.
Context {H K : Type} (f : H -> K).

Lemma match_path_map {N} segs : forall rs : list (list pseg * (H * N)),
  match_path (map (fun r => (r.1, (f r.2.1, r.2.2))) rs) segs =
  match match_path rs segs with Some ((h, n), vs) => Some ((f h, n), vs) | None => None end.
Proof.
  induction segs as [|s segs IH]; intros rs.
  - cbn [match_path]. induction rs as [|[[|p ps] [h n]] rs IH]; [done|done|apply IH].
  - assert (forall (g : list pseg * (H * N) -> option (list pseg * (H * N))) (g' : list pseg * (K * N) -> option (list pseg * (K * N))), (forall r, g' (r.1, (f r.2.1, r.2.2)) = match g r with Some x => Some (x.1, (f x.2.1, x.2.2)) | None => None end) ->
      omap g' (map (fun r : list pseg * (H * N) => (r.1, (f r.2.1, r.2.2))) rs) =
      map (fun r => (r.1, (f r.2.1, r.2.2))) (omap g rs)) as Ho.
    { intros g g' Hg. clear IH. induction rs as [|r rs IH]; [done|]. csimpl. rewrite Hg. destruct (g r); csimpl; by rewrite IH. }
    cbn [match_path]. rewrite (Ho (lit_rest s)), (Ho wild_rest).
    + rewrite !IH. destruct (match_path (omap (lit_rest s) rs) segs) as [[[h n] vs]|]; [done|].
      destruct (s =?s "/"); [done|]. by destruct (match_path (omap wild_rest rs) segs) as [[[h n] vs]|].
    + by intros [[|[t|t] ps] [h n]].
    + intros [[|[t|t] ps] [h n]]; cbn; try done. by destruct (t =?s s).
Qed.

Lemma routes_for_map rs m : routes_for (map (fun r => (r.1, f r.2)) rs) m = map (fun r => (r.1, (f r.2.1, r.2.2))) (routes_for rs m).
Proof.
  unfold routes_for. induction rs as [|[p h] rs IH]; [done|]. csimpl. destruct (parse_pattern p) as [m' ps].
  destruct (m' =?s m); csimpl; by rewrite IH.
Qed.

Lemma mux_Handler_map rs m path :
  mux_Handler (map (fun r => (r.1, f r.2)) rs) m path =
  match mux_Handler rs m path with
  | RHandler h vs => RHandler (f h) vs
  | RRedirect b => RRedirect b
  | RNotAllowed l => RNotAllowed l
  | RNotFound => RNotFound
  end.
Proof.
  assert (forall p, mux_match (map (fun r => (r.1, f r.2)) rs) m p =
    match mux_match rs m p with Some (h, vs) => Some (f h, vs) | None => None end) as Hm.
  { intros p. unfold mux_match. rewrite !routes_for_map, !match_path_map.
    destruct (match_path (routes_for rs m) (path_segments p)) as [[[h n] vs]|]; [done|].
    destruct (m =?s "HEAD"); [|done]. by destruct (match_path (routes_for rs "GET") (path_segments p)) as [[[h n] vs]|]. }
  assert (matchingMethods (map (fun r => (r.1, f r.2)) rs) (cleanPath path) = matchingMethods rs (cleanPath path)) as Ha.
  { unfold matchingMethods. rewrite map_map. f_equal. f_equal.
    assert (forall m' p, match match_path (routes_for (map (fun r => (r.1, f r.2)) rs) m') (path_segments p) with Some _ => true | None => false end =
      match match_path (routes_for rs m') (path_segments p) with Some _ => true | None => false end) as Hb.
    { intros m' p. rewrite routes_for_map, match_path_map. by destruct (match_path (routes_for rs m') (path_segments p)) as [[[h n] vs]|]. }
    cbv zeta. erewrite (List.filter_ext (fun m' => _ || _)); [reflexivity|]. intros m'. cbv beta. by rewrite !Hb. }
  unfold mux_Handler. cbv zeta. rewrite Hm, Ha. destruct (negb _); [by destruct (mux_match rs m (cleanPath path)) as [[h vs]|]|].
  destruct (mux_match rs m (cleanPath path)) as [[h vs]|]; [done|]. by destruct (matchingMethods rs (cleanPath path)).
Qed.
End Natural.

(** A clean path is routed by its segments. *)
Lemma mux_Handler_path {H} (rs : list (string * H)) m l h names vs : l <> [] -> Forall clean_seg l ->
  match_path (routes_for rs m) (map pathUnescape l) = Some ((h, names), vs) ->
  mux_Handler rs m (path_of l) = RHandler h (combine names vs).
Proof.
  intros Hl HF E. unfold mux_Handler. rewrite cleanPath_path by done. rewrite seqb_refl. cbn [negb]. cbv zeta.
  unfold mux_match. cbv zeta. rewrite path_segments_path by done. by rewrite E.
Qed.
