(* ===== verification/API.v ===== *)
(** internal/api: the HTTP API of bnmd, over the operations of the daemon.

    A request carries its method, escaped path, query and body; a handler is a
    program over the daemon that ends in a reply.  The JSON codec is a
    parameter: a text for every value that crosses the socket, and a reader for
    every shape one is read in.  Request contexts, the connection and the
    headers nobody reads are not modelled. *)

From S2P Require Import Prelude GoTime Core Errors GoStrings GoScan GoURL Deriver Registry Config Daemon DaemonOps.

(** ** types.go *)

Definition Prefix : string := "/v1".

Definition SSEChange : string := "change".
Definition SSEEvent : string := "event".
Definition SSEProgress : string := "progress".
Definition SSEResult : string := "result".
Definition SSEError : string := "error".

Record StatusResponse := mkStatusResponse {
  sr_Status : Status;
  sr_Version : string;
  sr_APIVersion : Z;
  sr_UptimeSeconds : float64;
  sr_Started : Time;
  sr_SnapshotVersion : Z
}.

Record OKResponse := mkOKResponse { ok_OK : bool }.
Record DeviceRequest := mkDeviceRequest { dr_Device : string }.
Record UUIDRequest := mkUUIDRequest { ur_UUID : string }.
Record OnRequest := mkOnRequest { on_On : bool }.
Record IPRequest := mkIPRequest { ipr_IPv4 : option IPConfig; ipr_IPv6 : option IPConfig }.
Record ExitNodeRequest := mkExitNodeRequest { xn_Peer : string; xn_AllowLAN : bool }.
Record LoginResponse := mkLoginResponse { lr_URL : string }.
Record KeyRequest := mkKeyRequest { kr_Key : string }.
Record ConfigSetRequest := mkConfigSetRequest { cs_Key : string; cs_Value : string }.

(** version.APIVersion. *)
Definition APIVersion : Z := 1.

(** ** JSON *)

(** The shapes that cross the socket. *)
Inductive shape : Type -> Type :=
| JDevice : shape DeviceRequest
| JUUID : shape UUIDRequest
| JOn : shape OnRequest
| JIP : shape IPRequest
| JExitNode : shape ExitNodeRequest
| JKey : shape KeyRequest
| JConfigSet : shape ConfigSetRequest
| JConnectWifi : shape ConnectWifiRequest
| JImport : shape ImportVPNRequest
| JSpeedOptions : shape SpeedOptions
| JAnswer : shape SecretAnswer
| JStatus : shape StatusResponse
| JDevices : shape (list Device)
| JWifi : shape (list WifiNetwork)
| JProfiles : shape (list Profile)
| JProfile : shape Profile
| JActive : shape (list ActiveConnection)
| JVPNs : shape (list VPN)
| JImported : shape ImportVPNResult
| JLogin : shape LoginResponse
| JMonitor : shape MonitorStatus
| JSamples : shape (list Sample)
| JSpeed : shape SpeedResult
| JSpeeds : shape (list SpeedResult)
| JEvents : shape (list Event)
| JLAN : shape (list LANHost)
| JPorts : shape (list ListeningPort)
| JRoutes : shape (list Route)
| JDNS : shape DNSAnswer
| JPublicIP : shape PublicIP
| JInfra : shape (list InfraNetwork)
| JSecrets : shape (list SecretRequest)
| JSecret : shape SecretRequest
| JConfig : shape Config
| JOK : shape OKResponse
| JError : shape ErrorResponse
| JProgress : shape SpeedProgress
| JChange : shape Change
| JEvent : shape Event.

(** encoding/json: the text of a value, and the value of a text, or the message
    of the error. *)
Class JSON := {
  Marshal : forall T, shape T -> T -> result string string;
  Unmarshal : forall T, shape T -> string -> result string T;
  (** with [DisallowUnknownFields] *)
  UnmarshalStrict : forall T, shape T -> string -> result string T
}.
Arguments Marshal {_ _}. Arguments Unmarshal {_ _}. Arguments UnmarshalStrict {_ _}.

(** ** Requests and replies *)

Record request := mkRequest {
  rq_method : string;
  rq_path : string;                  (* [r.URL.EscapedPath()] *)
  rq_query : string;                 (* [r.URL.RawQuery] *)
  rq_body : string
}.

(** A whole answer; a redirect (301) to another place; or a stream, with what it
    sends at once, and the subscriber whose items follow. *)
Inductive reply :=
| Answer (status : Z) (allow : string) (warning : string) (body : string)
| Redirect (location : string) (body : string)
| Stream (frames : list string) (sub : option nat).

Section Server.
Context {json : JSON} {W : Type} (o : Options W) (diag : DiagFuncs W).

(** The version stamped into the build, [%q], the texts of errors of
    time.ParseDuration and strconv, and the write of the configuration. *)
Context (Version : string) (Quote duration_error int_error : string -> string) (save : Config -> W -> option error * W).

Local Notation "x <-! m ;; k" := (bind m (fun x => k)) (at level 60, m at next level, right associativity).
Local Notation "m ;;! k" := (bind m (fun _ => k)) (at level 60, right associativity).
Local Abbreviation M := (Daemon.M (W := W)).

(** ** server.go: plumbing *)

Definition maxBody : Z := 4 * 2 ^ 20.

(** A value that cannot be encoded leaves the body empty. *)
Definition json_line {T} (s : shape T) (v : T) : string := match Marshal s v with Ok t => t +:+ newline | Err _ => "" end.

Definition writeJSON {T} (status : Z) (s : shape T) (v : T) : reply := Answer status "" "" (json_line s v).
Definition writeError (err : error) : reply := writeJSON (StatusFor (Some err)) JError (ErrorBody err).
Definition ok : reply := writeJSON 200 JOK (mkOKResponse true).

(** What most handlers end in: an error, or a value in some shape. *)
Definition reply_value {T} (s : shape T) (r : result error T) : reply := match r with Err e => writeError e | Ok v => writeJSON 200 s v end.
Definition reply_ok (err : option error) : reply := match err with Some e => writeError e | None => ok end.

(** [decode]: a blank body leaves [zero]. *)
Definition decode {T} (s : shape T) (zero : T) (body : string) : result error T :=
  if maxBody <? Z.of_nat (String.length body) then Err (Errorf KindInvalid "" ("api: body larger than " +:+ Itoa maxBody +:+ " bytes"))
  else if TrimSpace body =?s "" then Ok zero
  else match UnmarshalStrict s body with
       | Err e => Err (Errorf KindInvalid "" ("api: bad JSON body: " +:+ e))
       | Ok v => Ok v
       end.

Definition with_body {T} (s : shape T) (zero : T) (r : request) (f : T -> M reply) : M reply :=
  match decode s zero (rq_body r) with Err e => ret (writeError e) | Ok v => f v end.

Definition queryInt (r : request) (key : string) (def : Z) : result error Z :=
  let v := query_Get (rq_query r) key in
  if v =?s "" then Ok def
  else match Atoi v with
       | Some n => Ok n
       | None => Err (Errorf KindInvalid "" ("api: " +:+ key +:+ " must be an integer"))
       end.

Definition queryBool (r : request) (key : string) : bool :=
  existsb (String.eqb (ToLower (query_Get (rq_query r) key))) ["1"; "true"; "yes"; "on"].

(** A handler gets the path values and the request. *)
Definition handler : Type := (string -> string) -> request -> M reply.

(** ** server.go: status, devices, wifi *)

(** [Duration.Seconds]. *)
Definition Seconds (d : Duration) : float64 := f_add (f_of_Z (Z.quot d second)) (f_div (f_of_Z (Z.rem d second)) (f_of_Z second)).

Definition h_status : handler := fun _ _ =>
  d <-! get ;; t <-! now o ;;
  let s := dm_snap d in
  ret (writeJSON 200 JStatus
         (mkStatusResponse (sn_Status s) Version APIVersion (Seconds (time_Sub t (dm_started d))) (dm_started d) (sn_Version s))).

Definition h_devices : handler := fun _ _ => d <-! get ;; ret (writeJSON 200 JDevices (sn_Devices (dm_snap d))).

Definition h_wifi : handler := fun _ r =>
  d <-! get ;; ret (reply_value JWifi (Wifi Quote (dm_snap d) (query_Get (rq_query r) "device"))).

Definition h_wifiScan : handler := fun _ r =>
  with_body JDevice (mkDeviceRequest "") r (fun req => err <-! ScanWifi o (dr_Device req) ;; ret (reply_ok err)).

Definition h_wifiConnect : handler := fun _ r =>
  with_body JConnectWifi (mkConnectWifiRequest "" "" "" false "") r (fun req => err <-! ConnectWifi o req ;; ret (reply_ok err)).

Definition h_wifiDisconnect : handler := fun _ r =>
  with_body JDevice (mkDeviceRequest "") r (fun req => err <-! DisconnectDevice o (dr_Device req) ;; ret (reply_ok err)).

Definition h_wifiForget : handler := fun _ r =>
  with_body JUUID (mkUUIDRequest "") r (fun req => err <-! Forget o (ur_UUID req) ;; ret (reply_ok err)).

Definition h_wifiEnabled : handler := fun _ r =>
  with_body JOn (mkOnRequest false) r (fun req => err <-! SetWifiEnabled o (on_On req) ;; ret (reply_ok err)).

(** ** server.go: profiles *)

Definition h_profiles : handler := fun _ _ => d <-! get ;; ret (writeJSON 200 JProfiles (sn_Profiles (dm_snap d))).

Definition h_profile : handler := fun pv _ => d <-! get ;; ret (reply_value JProfile (Profile_of (dm_snap d) (pv "uuid"))).

Definition h_profileIP : handler := fun pv r =>
  with_body JIP (mkIPRequest None None) r (fun req =>
    err <-! UpdateIPConfig o (pv "uuid") (ipr_IPv4 req) (ipr_IPv6 req) ;; ret (reply_ok err)).

Definition h_profileActivate : handler := fun pv r =>
  with_body JDevice (mkDeviceRequest "") r (fun req => err <-! Activate o (pv "uuid") (dr_Device req) ;; ret (reply_ok err)).

Definition h_profileDeactivate : handler := fun pv _ => err <-! Deactivate o (pv "uuid") ;; ret (reply_ok err).

Definition h_profileAutoconnect : handler := fun pv r =>
  with_body JOn (mkOnRequest false) r (fun req => err <-! SetAutoconnect o (pv "uuid") (on_On req) ;; ret (reply_ok err)).

Definition h_profileDelete : handler := fun pv _ => err <-! DeleteProfile o (pv "uuid") ;; ret (reply_ok err).

Definition h_active : handler := fun _ _ => d <-! get ;; ret (writeJSON 200 JActive (sn_Active (dm_snap d))).

(** ** server.go: vpn *)

Definition h_vpns : handler := fun _ _ => d <-! get ;; ret (writeJSON 200 JVPNs (sn_VPNs (dm_snap d))).

Definition h_vpnConnect : handler := fun pv _ => err <-! ConnectVPN o (pv "id") ;; ret (reply_ok err).
Definition h_vpnDisconnect : handler := fun pv _ => err <-! DisconnectVPN o (pv "id") ;; ret (reply_ok err).

(** A Go pair of a value and an error. *)
Definition of_pair {T} (r : T * option error) : result error T := match r.2 with Some e => Err e | None => Ok r.1 end.

Definition h_vpnImport : handler := fun _ r =>
  with_body JImport (mkImportVPNRequest "" "" "" "") r (fun req =>
    res <-! ImportVPN o Quote req ;; ret (reply_value JImported (of_pair res))).

Definition h_tsExitNode : handler := fun _ r =>
  with_body JExitNode (mkExitNodeRequest "" false) r (fun req =>
    err <-! SetExitNode o (xn_Peer req) (xn_AllowLAN req) ;; ret (reply_ok err)).

Definition h_tsExitNodeEnabled : handler := fun _ r =>
  with_body JOn (mkOnRequest false) r (fun req => err <-! UseExitNode o (on_On req) ;; ret (reply_ok err)).

Definition h_tsLogin : handler := fun _ _ =>
  url <-! TailscaleLogin o ;;
  ret (reply_value JLogin (match of_pair url with Err e => Err e | Ok u => Ok (mkLoginResponse u) end)).

Definition h_tsLogout : handler := fun _ _ => err <-! TailscaleLogout o ;; ret (reply_ok err).

Definition h_tsAcceptDNS : handler := fun _ r =>
  with_body JOn (mkOnRequest false) r (fun req => err <-! SetAcceptDNS o (on_On req) ;; ret (reply_ok err)).

(** ** server.go: monitor *)

Definition h_monitor : handler := fun _ _ => d <-! get ;; ret (writeJSON 200 JMonitor (sn_Monitor (dm_snap d))).

Definition h_monitorSamples : handler := fun _ r =>
  match queryInt r "limit" 200 with
  | Err e => ret (writeError e)
  | Ok limit =>
      res <-! Samples o (query_Get (rq_query r) "key") (query_Get (rq_query r) "anchor") limit ;; ret (reply_value JSamples res)
  end.

Definition h_monitorReset : handler := fun _ r =>
  with_body JKey (mkKeyRequest "") r (fun req => err <-! ResetBaseline o (kr_Key req) ;; ret (reply_ok err)).

Definition h_monitorPause : handler := fun _ _ => err <-! PauseMonitor o ;; ret (reply_ok err).
Definition h_monitorResume : handler := fun _ _ => err <-! ResumeMonitor o ;; ret (reply_ok err).

(** ** server.go: server-sent events *)

(** [send]: the frame, unless the value cannot be encoded. *)
Definition sse_send {T} (event : string) (s : shape T) (v : T) : result string string :=
  match Marshal s v with
  | Ok data => Ok ("event: " +:+ event +:+ newline +:+ "data: " +:+ data +:+ newline +:+ newline)
  | Err e => Err e
  end.

Definition sse_comment (text : string) : string := ": " +:+ text +:+ newline +:+ newline.

(** What [send] puts on the stream when its error is dropped. *)
Definition sent {T} (event : string) (s : shape T) (v : T) : list string :=
  match sse_send event s v with Ok f => [f] | Err _ => [] end.

(** ** server.go: speed, events *)

(** The progress, then the result or the error. *)
Definition speed_frames (res : list SpeedProgress * result error SpeedResult) : list string :=
  concat (map (sent SSEProgress JProgress) res.1) ++
  match res.2 with Err e => sent SSEError JError (ErrorBody e) | Ok v => sent SSEResult JSpeed v end.

Definition h_speed : handler := fun _ r =>
  with_body JSpeedOptions (mkSpeedOptions "" "" false 0 "") r (fun opts =>
    res <-! RunSpeed o opts ;;
    if queryBool r "wait" then ret (reply_value JSpeed res.2) else ret (Stream (speed_frames res) None)).

Definition h_speedHistory : handler := fun _ r =>
  match queryInt r "limit" 50 with
  | Err e => ret (writeError e)
  | Ok limit => res <-! SpeedHistory o (query_Get (rq_query r) "key") limit ;; ret (reply_value JSpeeds res)
  end.

Definition h_events : handler := fun _ r =>
  match queryInt r "limit" 100 with
  | Err e => ret (writeError e)
  | Ok limit => res <-! Events o limit ;; ret (reply_value JEvents res)
  end.

(** [eventStream] up to its loop: the subscription comes before the first
    byte. *)
Definition h_eventStream : handler := fun _ _ =>
  d <-! get ;;
  let '(b, n) := subscribe (dm_bus d) in
  modify (set_bus b) ;;! ret (Stream [sse_comment "connected"] (Some n)).

(** What wakes its loop: the ticker, or an item of the subscription. *)
Inductive stream_wake := SPing | SItem (i : StreamItem).

(** The loop: a value that cannot be encoded ends it. *)
Fixpoint stream_loop (l : list stream_wake) : list string :=
  match l with
  | [] => []
  | SPing :: l' => sse_comment "ping" :: stream_loop l'
  | SItem i :: l' =>
      match (match i with IEvent e => sse_send SSEEvent JEvent e | IChange c => sse_send SSEChange JChange c end) with
      | Ok f => f :: stream_loop l'
      | Err _ => []
      end
  end.

(** ** server.go: diag *)

(** The device that carries the primary connection. *)
Definition primary_device (s : Snapshot) : string :=
  match st_Primary (sn_Status s) with
  | Some p => match ac_Devices p with dev :: _ => dev | [] => "" end
  | None => ""
  end.

Definition quote_byte : string := byte_str [34%nat].

(** The header that carries a sweep that was skipped. *)
Definition sweep_warning (e : error) : string :=
  "199 - " +:+ quote_byte +:+ replace_byte (Ascii.ascii_of_nat 34) (Ascii.ascii_of_nat 39) (ErrorString e) +:+ quote_byte.

Definition h_diagLAN : handler := fun _ r =>
  d <-! get ;;
  let device := query_Get (rq_query r) "device" in
  let device := if device =?s "" then primary_device (dm_snap d) else device in
  if device =?s ""
  then ret (writeError (Errorf KindInvalid "pass ?device=<name> or connect to a network first"
                          "diag: no device given and nothing is connected"))
  else
    res <-! call (diag_LANHosts diag device (queryBool r "sweep")) ;;
    ret match res.2 with
        | None => writeJSON 200 JLAN res.1
        | Some e =>
            match first_some as_sweep (flatten e) with
            | Some _ => Answer 200 "" (sweep_warning e) (json_line JLAN res.1)
            | None => writeError e
            end
        end.

Definition h_diagPorts : handler := fun _ _ => res <-! call (diag_ListeningPorts diag) ;; ret (reply_value JPorts res).
Definition h_diagRoutes : handler := fun _ _ => res <-! call (diag_Routes diag) ;; ret (reply_value JRoutes res).

Definition h_diagDNS : handler := fun _ r =>
  let q := query_Get (rq_query r) in
  if q "name" =?s "" then ret (writeError (Errorf KindInvalid "" "api: name is required"))
  else res <-! call (diag_DNSLookup diag (q "name") (q "server") (q "type")) ;; ret (reply_value JDNS res).

Definition h_diagPublicIP : handler := fun _ _ => res <-! call (diag_PublicIP diag) ;; ret (reply_value JPublicIP res).
Definition h_diagInfra : handler := fun _ _ => res <-! call (diag_Infra diag) ;; ret (reply_value JInfra res).

(** ** server.go: secrets *)

Definition h_secrets : handler := fun _ _ => res <-! PendingSecrets o ;; ret (reply_value JSecrets res).
Definition h_secret : handler := fun pv _ => res <-! Secret o (pv "id") ;; ret (reply_value JSecret res).

Definition h_secretAnswer : handler := fun pv r =>
  with_body JAnswer SecretAnswer_zero r (fun ans => err <-! AnswerSecret o (pv "id") ans ;; ret (reply_ok err)).

Definition h_secretCancel : handler := fun pv _ => err <-! CancelSecret o (pv "id") ;; ret (reply_ok err).

(** ** server.go: config, notify *)

Definition h_config : handler := fun _ _ => d <-! get ;; ret (writeJSON 200 JConfig (dm_cfg d)).

Definition h_configSet : handler := fun _ r =>
  with_body JConfigSet (mkConfigSetRequest "" "") r (fun req =>
    if cs_Key req =?s "" then ret (writeError (Errorf KindInvalid "" "api: key is required"))
    else res <-! SetConfig o Quote duration_error int_error save (cs_Key req) (cs_Value req) ;; ret (reply_value JConfig res)).

Definition h_notifyTest : handler := fun _ _ => err <-! NotifyTest o ;; ret (reply_ok err).

(** ** server.go: routes, ServeHTTP *)

(** [p] of [routes]: the prefix goes between the method and the path. *)
Definition with_prefix (pattern : string) : string :=
  match Cut pattern " " with Some (method, path) => method +:+ " " +:+ Prefix +:+ path | None => pattern +:+ " " +:+ Prefix end.

Definition route_table : list (string * handler) :=
  [("GET /status", h_status);
   ("GET /devices", h_devices);
   ("GET /wifi", h_wifi);
   ("POST /wifi/scan", h_wifiScan);
   ("POST /wifi/connect", h_wifiConnect);
   ("POST /wifi/disconnect", h_wifiDisconnect);
   ("POST /wifi/forget", h_wifiForget);
   ("POST /wifi/enabled", h_wifiEnabled);
   ("GET /profiles", h_profiles);
   ("GET /profiles/{uuid}", h_profile);
   ("PUT /profiles/{uuid}/ip", h_profileIP);
   ("POST /profiles/{uuid}/activate", h_profileActivate);
   ("POST /profiles/{uuid}/deactivate", h_profileDeactivate);
   ("POST /profiles/{uuid}/autoconnect", h_profileAutoconnect);
   ("DELETE /profiles/{uuid}", h_profileDelete);
   ("GET /active", h_active);
   ("GET /vpn", h_vpns);
   ("POST /vpn/import", h_vpnImport);
   ("POST /vpn/tailscale/exit-node", h_tsExitNode);
   ("POST /vpn/tailscale/exit-node/enabled", h_tsExitNodeEnabled);
   ("POST /vpn/tailscale/login", h_tsLogin);
   ("POST /vpn/tailscale/logout", h_tsLogout);
   ("POST /vpn/tailscale/accept-dns", h_tsAcceptDNS);
   ("POST /vpn/{id}/connect", h_vpnConnect);
   ("POST /vpn/{id}/disconnect", h_vpnDisconnect);
   ("GET /monitor", h_monitor);
   ("GET /monitor/samples", h_monitorSamples);
   ("POST /monitor/baseline/reset", h_monitorReset);
   ("POST /monitor/pause", h_monitorPause);
   ("POST /monitor/resume", h_monitorResume);
   ("POST /speed", h_speed);
   ("GET /speed/history", h_speedHistory);
   ("GET /events", h_events);
   ("GET /events/stream", h_eventStream);
   ("GET /diag/lan", h_diagLAN);
   ("GET /diag/ports", h_diagPorts);
   ("GET /diag/routes", h_diagRoutes);
   ("GET /diag/dns", h_diagDNS);
   ("GET /diag/public-ip", h_diagPublicIP);
   ("GET /diag/infra", h_diagInfra);
   ("GET /secrets", h_secrets);
   ("GET /secrets/{id}", h_secret);
   ("POST /secrets/{id}", h_secretAnswer);
   ("POST /secrets/{id}/cancel", h_secretCancel);
   ("GET /config", h_config);
   ("PUT /config", h_configSet);
   ("POST /notify/test", h_notifyTest)].

Definition routes : list (string * handler) := map (fun r => (with_prefix r.1, r.2)) route_table.

(** The answer in place of the mux's plain text; [r.URL.Path] is unescaped. *)
Definition unrouted (status : Z) (allow : list string) (r : request) : reply :=
  let path := pathUnescape (rq_path r) in
  if status =? 405
  then Answer 405 (Join allow ", ") "" (json_line JError
         (mkErrorResponse ("api: " +:+ rq_method r +:+ " not allowed on " +:+ path) "see docs/API.md" KindInvalid))
  else Answer status (Join allow ", ") "" (json_line JError
         (mkErrorResponse ("api: no route " +:+ rq_method r +:+ " " +:+ path) "see docs/API.md" KindNotFound)).

(** The mux redirects to the cleaned path, which it escapes once more, with a
    line of HTML for a GET. *)
Definition redirect_url (r : request) : string :=
  escape WholePath (cleanPath (rq_path r)) +:+ (if rq_query r =?s "" then "" else "?" +:+ rq_query r).

Definition redirect (r : request) : reply :=
  Redirect (hexEscapeNonASCII (redirect_url r))
    (if rq_method r =?s "GET"
     then "<a href=" +:+ quote_byte +:+ htmlEscape (redirect_url r) +:+ quote_byte +:+ ">Moved Permanently</a>." +:+ newline +:+ newline else "").

(** [ServeHTTP].  A path that is not clean is redirected by the mux when the
    clean one has a route; else the redirect's status goes out with an error,
    and without its location. *)
Definition ServeHTTP (r : request) : M reply :=
  match mux_Handler routes (rq_method r) (rq_path r) with
  | RHandler h values => h (PathValue values) r
  | RRedirect true => ret (redirect r)
  | RRedirect false => ret (unrouted 301 [] r)
  | RNotAllowed allow => ret (unrouted 405 allow r)
  | RNotFound => ret (unrouted 404 [] r)
  end.
End Server.
