(* ===== verification/Client.v ===== *)
(** internal/client: the client of the API.  A method builds a request and reads
    its answer; what carries the one to the daemon and the other back is the
    transport.  Connecting and starting the daemon are in Startup.v. *)

From S2P Require Import Prelude GoTime Core Errors GoStrings GoScan GoURL Deriver Registry Config Daemon DaemonOps API.

(** What the transport comes to: an answer, or an error, of the network or
    not. *)
Inductive carried :=
| Carried (r : reply)
| NotCarried (network : bool) (msg : string).

(** What a method reads the answer into. *)
Inductive out : Type -> Type :=
| Discard : out unit
| Into {T} (s : shape T) : out T.

(** One call of [do]: the method, path, query and body, and the output. *)
Record sent_call (T : Type) := mkSent {
  se_method : string;
  se_path : string;
  se_query : Values;
  se_body : result string (option string);      (* none, or the text; or the message of the encoder *)
  se_out : out T
}.
Arguments mkSent {T}. Arguments se_method {T}. Arguments se_path {T}. Arguments se_query {T}. Arguments se_body {T}.
Arguments se_out {T}.

Section Client.
Context {json : JSON}.
Context (socket : string).

(** [resp.Status]: the status line of a status. *)
Context (status_line : Z -> string).

(** ** client.go *)

(** [url]: the escaped path and the query. *)
Definition client_url (path : string) (q : Values) : string * string := (Prefix +:+ path, Encode q).

Definition newRequest {T} (c : sent_call T) : result error request :=
  match se_body c with
  | Err e => Err (EWrap ("client: encode: " +:+ e) [ELeaf e])
  | Ok body =>
      let '(path, query) := client_url (se_path c) (se_query c) in
      Ok (mkRequest (se_method c) path query (default "" body))
  end.

Definition ErrNotRunning (msg : string) : error := ENotRunning socket (ELeaf msg).

Definition wrapTransport (network : bool) (msg : string) : error := if network then ErrNotRunning msg else ELeaf msg.

(** [decodeError] reads 64 KiB of the body at most. *)
Definition decode_error_body (status : Z) (body : string) : error :=
  let body := string_take (Z.to_nat (64 * 2 ^ 10)) body in
  decodeError status (match Unmarshal JError body with Ok er => Some er | Err _ => None end) (TrimSpace body) (status_line status).

(** The rest of [do], from the answer on; the decoder stops at the end of the
    value. *)
Definition read_answer {T} (method path : string) (o : out T) (r : reply) : result error T :=
  match r with
  | Redirect _ body => Err (decode_error_body 301 body)
  | Answer status _ _ body =>
      if negb (status / 100 =? 2) then Err (decode_error_body status body)
      else match o in out T return result error T with
           | Discard => Ok tt
           | Into s =>
               match Unmarshal s body with
               | Ok v => Ok v
               | Err e => Err (EWrap ("client: decode " +:+ method +:+ " " +:+ path +:+ ": " +:+ e) [ELeaf e])
               end
           end
  | Stream frames _ =>
      match o in out T return result error T with
      | Discard => Ok tt
      | Into s =>
          match Unmarshal s (Join frames "") with
          | Ok v => Ok v
          | Err e => Err (EWrap ("client: decode " +:+ method +:+ " " +:+ path +:+ ": " +:+ e) [ELeaf e])
          end
      end
  end.

Definition read_carried {T} (c : sent_call T) (r : carried) : result error T :=
  match r with
  | NotCarried network msg => Err (wrapTransport network msg)
  | Carried r => read_answer (se_method c) (se_path c) (se_out c) r
  end.

(** The request that follows a 301: a GET unless it was a HEAD, with no body. *)
Definition redirected (r : request) (location : string) : request :=
  let '(path, query) := match Cut location "?" with Some pq => pq | None => (location, "") end in
  mkRequest (if rq_method r =?s "HEAD" then "HEAD" else "GET") path query "".

(** [http.Client.Do] follows a redirect that says where to, and gives up after
    ten requests. *)
Definition too_many (method : string) (r : request) : string :=
  string_take 1 method +:+ ToLower (string_drop 1 method) +:+ " " +:+ quote_byte +:+ "http://bnmd" +:+ rq_path r +:+
  (if rq_query r =?s "" then "" else "?" +:+ rq_query r) +:+ quote_byte +:+ ": stopped after 10 redirects".

Fixpoint follow {S} (more : nat) (method : string) (transport : request -> S -> carried * S) (r : request) (s : S) : carried * S :=
  let '(a, s) := transport r s in
  match a with
  | Carried (Redirect location _) =>
      if location =?s "" then (a, s)
      else match more with
           | O => (NotCarried false (too_many method r), s)
           | Datatypes.S more => follow more method transport (redirected r location) s
           end
  | _ => (a, s)
  end.

(** [do] over a transport. *)
Definition client_do {T S} (transport : request -> S -> carried * S) (c : sent_call T) (s : S) : result error T * S :=
  match newRequest c with
  | Err e => (Err e, s)
  | Ok r => let '(a, s) := follow 9 (se_method c) transport r s in (read_carried c a, s)
  end.

(** ** methods.go *)

Definition body {T} (s : shape T) (v : T) : result string (option string) :=
  match Marshal s v with Ok t => Ok (Some t) | Err e => Err e end.
Definition no_body : result string (option string) := Ok None.

(** [q.Set] of what is not the zero value. *)
Definition set_string (key v : string) : Values := if v =?s "" then [] else [(key, v)].
Definition set_limit (limit : Z) : Values := if 0 <? limit then [("limit", Itoa limit)] else [].

Definition c_Status : sent_call StatusResponse := mkSent "GET" "/status" [] no_body (Into JStatus).
Definition c_Devices : sent_call (list Device) := mkSent "GET" "/devices" [] no_body (Into JDevices).
Definition c_Wifi (device : string) : sent_call (list WifiNetwork) :=
  mkSent "GET" "/wifi" (set_string "device" device) no_body (Into JWifi).
Definition c_ScanWifi (device : string) : sent_call unit :=
  mkSent "POST" "/wifi/scan" [] (body JDevice (mkDeviceRequest device)) Discard.
Definition c_ConnectWifi (req : ConnectWifiRequest) : sent_call unit :=
  mkSent "POST" "/wifi/connect" [] (body JConnectWifi req) Discard.
Definition c_DisconnectWifi (device : string) : sent_call unit :=
  mkSent "POST" "/wifi/disconnect" [] (body JDevice (mkDeviceRequest device)) Discard.
Definition c_ForgetWifi (uuid : string) : sent_call unit :=
  mkSent "POST" "/wifi/forget" [] (body JUUID (mkUUIDRequest uuid)) Discard.
Definition c_SetWifiEnabled (on : bool) : sent_call unit :=
  mkSent "POST" "/wifi/enabled" [] (body JOn (mkOnRequest on)) Discard.

Definition c_Profiles : sent_call (list Profile) := mkSent "GET" "/profiles" [] no_body (Into JProfiles).
Definition c_Profile (uuid : string) : sent_call Profile :=
  mkSent "GET" ("/profiles/" +:+ PathEscape uuid) [] no_body (Into JProfile).
Definition c_SetProfileIP (uuid : string) (ipv4 ipv6 : option IPConfig) : sent_call unit :=
  mkSent "PUT" ("/profiles/" +:+ PathEscape uuid +:+ "/ip") [] (body JIP (mkIPRequest ipv4 ipv6)) Discard.
Definition c_ActivateProfile (uuid device : string) : sent_call unit :=
  mkSent "POST" ("/profiles/" +:+ PathEscape uuid +:+ "/activate") [] (body JDevice (mkDeviceRequest device)) Discard.
Definition c_DeactivateProfile (uuid : string) : sent_call unit :=
  mkSent "POST" ("/profiles/" +:+ PathEscape uuid +:+ "/deactivate") [] no_body Discard.
Definition c_SetAutoconnect (uuid : string) (on : bool) : sent_call unit :=
  mkSent "POST" ("/profiles/" +:+ PathEscape uuid +:+ "/autoconnect") [] (body JOn (mkOnRequest on)) Discard.
Definition c_DeleteProfile (uuid : string) : sent_call unit :=
  mkSent "DELETE" ("/profiles/" +:+ PathEscape uuid) [] no_body Discard.
Definition c_ActiveConnections : sent_call (list ActiveConnection) := mkSent "GET" "/active" [] no_body (Into JActive).

Definition c_VPNs : sent_call (list VPN) := mkSent "GET" "/vpn" [] no_body (Into JVPNs).
Definition c_ConnectVPN (id : string) : sent_call unit :=
  mkSent "POST" ("/vpn/" +:+ PathEscape id +:+ "/connect") [] no_body Discard.
Definition c_DisconnectVPN (id : string) : sent_call unit :=
  mkSent "POST" ("/vpn/" +:+ PathEscape id +:+ "/disconnect") [] no_body Discard.
Definition c_ImportVPN (req : ImportVPNRequest) : sent_call ImportVPNResult :=
  mkSent "POST" "/vpn/import" [] (body JImport req) (Into JImported).
Definition c_SetTailscaleExitNode (peer : string) (allowLAN : bool) : sent_call unit :=
  mkSent "POST" "/vpn/tailscale/exit-node" [] (body JExitNode (mkExitNodeRequest peer allowLAN)) Discard.
Definition c_SetTailscaleExitNodeEnabled (on : bool) : sent_call unit :=
  mkSent "POST" "/vpn/tailscale/exit-node/enabled" [] (body JOn (mkOnRequest on)) Discard.
(** The caller gets the URL of the answer. *)
Definition c_TailscaleLogin : sent_call LoginResponse := mkSent "POST" "/vpn/tailscale/login" [] no_body (Into JLogin).
Definition c_TailscaleLogout : sent_call unit := mkSent "POST" "/vpn/tailscale/logout" [] no_body Discard.
Definition c_SetTailscaleAcceptDNS (on : bool) : sent_call unit :=
  mkSent "POST" "/vpn/tailscale/accept-dns" [] (body JOn (mkOnRequest on)) Discard.

Definition c_Monitor : sent_call MonitorStatus := mkSent "GET" "/monitor" [] no_body (Into JMonitor).
Definition c_Samples (key anchor : string) (limit : Z) : sent_call (list Sample) :=
  mkSent "GET" "/monitor/samples" (set_string "key" key ++ set_string "anchor" anchor ++ set_limit limit) no_body (Into JSamples).
Definition c_ResetBaseline (key : string) : sent_call unit :=
  mkSent "POST" "/monitor/baseline/reset" [] (body JKey (mkKeyRequest key)) Discard.
Definition c_PauseMonitor : sent_call unit := mkSent "POST" "/monitor/pause" [] no_body Discard.
Definition c_ResumeMonitor : sent_call unit := mkSent "POST" "/monitor/resume" [] no_body Discard.

(** [Speed] without progress. *)
Definition c_Speed (opts : SpeedOptions) : sent_call SpeedResult :=
  mkSent "POST" "/speed" [("wait", "1")] (body JSpeedOptions opts) (Into JSpeed).
Definition c_SpeedHistory (key : string) (limit : Z) : sent_call (list SpeedResult) :=
  mkSent "GET" "/speed/history" (set_string "key" key ++ set_limit limit) no_body (Into JSpeeds).
Definition c_EventHistory (limit : Z) : sent_call (list Event) := mkSent "GET" "/events" (set_limit limit) no_body (Into JEvents).

Definition c_LANHosts (device : string) (sweep : bool) : sent_call (list LANHost) :=
  mkSent "GET" "/diag/lan" (set_string "device" device ++ if sweep then [("sweep", "1")] else []) no_body (Into JLAN).
Definition c_ListeningPorts : sent_call (list ListeningPort) := mkSent "GET" "/diag/ports" [] no_body (Into JPorts).
Definition c_Routes : sent_call (list Route) := mkSent "GET" "/diag/routes" [] no_body (Into JRoutes).
Definition c_DNSLookup (name server qtype : string) : sent_call DNSAnswer :=
  mkSent "GET" "/diag/dns" ([("name", name)] ++ set_string "server" server ++ set_string "type" qtype) no_body (Into JDNS).
Definition c_PublicIP : sent_call PublicIP := mkSent "GET" "/diag/public-ip" [] no_body (Into JPublicIP).
Definition c_Infra : sent_call (list InfraNetwork) := mkSent "GET" "/diag/infra" [] no_body (Into JInfra).

Definition c_PendingSecrets : sent_call (list SecretRequest) := mkSent "GET" "/secrets" [] no_body (Into JSecrets).
Definition c_Secret (id : string) : sent_call SecretRequest :=
  mkSent "GET" ("/secrets/" +:+ PathEscape id) [] no_body (Into JSecret).
Definition c_AnswerSecret (id : string) (a : SecretAnswer) : sent_call unit :=
  mkSent "POST" ("/secrets/" +:+ PathEscape id) [] (body JAnswer a) Discard.
Definition c_CancelSecret (id : string) : sent_call unit :=
  mkSent "POST" ("/secrets/" +:+ PathEscape id +:+ "/cancel") [] no_body Discard.

Definition c_Config : sent_call Config := mkSent "GET" "/config" [] no_body (Into JConfig).
Definition c_SetConfig (key value : string) : sent_call Config :=
  mkSent "PUT" "/config" [] (body JConfigSet (mkConfigSetRequest key value)) (Into JConfig).
Definition c_NotifyTest : sent_call unit := mkSent "POST" "/notify/test" [] no_body Discard.
End Client.

(** ** sse.go *)

Record sseEvent := mkSSEEvent { sse_Name : string; sse_Data : string }.

Section ReadSSE.
Context {S : Type} (fn : sseEvent -> S -> bool * S).

(** [flush]: an event that has a name or data goes to [fn], which may end the
    reading. *)
Definition sse_flush (name data : string) (s : S) : bool * S :=
  if (name =?s "") && (data =?s "") then (true, s)
  else fn (mkSSEEvent name (TrimSuffix data newline)) s.

(** One line: the name and data gathered so far. *)
Definition sse_field (line name data : string) : string * string :=
  if HasPrefix line ":" then (name, data)
  else
    let '(field, value) := match Cut line ":" with Some fv => fv | None => (line, "") end in
    let value := TrimPrefix value " " in
    if field =?s "event" then (value, data)
    else if field =?s "data" then (name, data +:+ value +:+ newline)
    else (name, data).

(** The scanner's longest line. *)
Definition maxLine : Z := 8 * 2 ^ 20.

Fixpoint sse_lines (lines : list string) (name data : string) (read_err : option string) (s : S) : option string * S :=
  match lines with
  | [] =>
      match read_err with
      | Some e => (Some e, s)
      | None => (None, (sse_flush name data s).2)
      end
  | line :: lines' =>
      if maxLine <=? Z.of_nat (String.length line) then (Some "bufio.Scanner: token too long", s)
      else if drop_cr line =?s "" then
        let '(go_on, s) := sse_flush name data s in
        if go_on then sse_lines lines' "" "" read_err s else (None, s)
      else let '(name, data) := sse_field (drop_cr line) name data in sse_lines lines' name data read_err s
  end.

(** [readSSE] of what the connection gave until it ended, with an error or
    not. *)
Definition readSSE (text : string) (read_err : option string) (s : S) : option string * S :=
  sse_lines (scan_lines "" text) "" "" read_err s.
End ReadSSE.

(** ** methods.go: the streams *)

Section Streams.
Context {json : JSON}.

(** What [Events] makes of an event of the stream; what it cannot read is
    skipped. *)
Definition stream_item (ev : sseEvent) : option StreamItem :=
  if sse_Name ev =?s SSEChange then match Unmarshal JChange (sse_Data ev) with Ok c => Some (IChange c) | Err _ => None end
  else if sse_Name ev =?s SSEEvent then match Unmarshal JEvent (sse_Data ev) with Ok e => Some (IEvent e) | Err _ => None end
  else None.

(** The items on the channel when the stream ended, the reader taking each. *)
Definition Events_items (text : string) (read_err : option string) : list StreamItem :=
  (readSSE (fun ev l => (true, match stream_item ev with Some i => l ++ [i] | None => l end)) text read_err []).2.

(** [Speed] with progress: what was reported, the result, and the error of the
    stream. *)
Record speed_state := mkSpeedState { ss_progress : list SpeedProgress; ss_result : option SpeedResult; ss_error : option error }.

Definition speed_event (ev : sseEvent) (s : speed_state) : bool * speed_state :=
  if sse_Name ev =?s SSEProgress then
    (true, match Unmarshal JProgress (sse_Data ev) with
           | Ok p => mkSpeedState (ss_progress s ++ [p]) (ss_result s) (ss_error s)
           | Err _ => s
           end)
  else if sse_Name ev =?s SSEResult then
    (false, match Unmarshal JSpeed (sse_Data ev) with
            | Ok r => mkSpeedState (ss_progress s) (Some r) (ss_error s)
            | Err _ => s
            end)
  else if sse_Name ev =?s SSEError then
    (false, mkSpeedState (ss_progress s) (ss_result s)
       (Some match Unmarshal JError (sse_Data ev) with
             | Ok er => EAPI (StatusFor (Some (Errorf (er_Code er) "" ""))) (er_Code er) (er_Error er) (er_Hint er)
             | Err _ => ELeaf "client: speed test failed"
             end))
  else (true, s).

(** The end of [Speed], the context alive. *)
Definition Speed_stream (text : string) (read_err : option string) : list SpeedProgress * result error SpeedResult :=
  let '(err, s) := readSSE speed_event text read_err (mkSpeedState [] None None) in
  (ss_progress s,
   match ss_error s, err, ss_result s with
   | Some e, _, _ => Err e
   | None, Some e, _ => Err (EWrap ("client: speed stream: " +:+ e) [ELeaf e])
   | None, None, Some r => Ok r
   | None, None, None => Err (ELeaf "client: speed stream ended without a result")
   end).
End Streams.
