(* ===== verification/APISpec.v ===== *)
(** What the API promises: every call a client can make, the method of
    internal/client that makes it, and the operation of the daemon it stands
    for. *)

From S2P Require Import Prelude GoTime Core Errors GoStrings GoScan GoURL Deriver Registry Config Daemon DaemonOps API Client.

(** The calls, by what they give. *)
Inductive api_call : Type -> Type :=
| AStatus : api_call StatusResponse
| ADevices : api_call (list Device)
| AWifi (device : string) : api_call (list WifiNetwork)
| AScanWifi (device : string) : api_call unit
| AConnectWifi (req : ConnectWifiRequest) : api_call unit
| ADisconnectWifi (device : string) : api_call unit
| AForgetWifi (uuid : string) : api_call unit
| ASetWifiEnabled (on : bool) : api_call unit
| AProfiles : api_call (list Profile)
| AProfile (uuid : string) : api_call Profile
| ASetProfileIP (uuid : string) (ipv4 ipv6 : option IPConfig) : api_call unit
| AActivateProfile (uuid device : string) : api_call unit
| ADeactivateProfile (uuid : string) : api_call unit
| ASetAutoconnect (uuid : string) (on : bool) : api_call unit
| ADeleteProfile (uuid : string) : api_call unit
| AActiveConnections : api_call (list ActiveConnection)
| AVPNs : api_call (list VPN)
| AConnectVPN (id : string) : api_call unit
| ADisconnectVPN (id : string) : api_call unit
| AImportVPN (req : ImportVPNRequest) : api_call ImportVPNResult
| ASetExitNode (peer : string) (allowLAN : bool) : api_call unit
| AUseExitNode (on : bool) : api_call unit
| ATailscaleLogin : api_call LoginResponse
| ATailscaleLogout : api_call unit
| ASetAcceptDNS (on : bool) : api_call unit
| AMonitor : api_call MonitorStatus
| ASamples (key anchor : string) (limit : Z) : api_call (list Sample)
| AResetBaseline (key : string) : api_call unit
| APauseMonitor : api_call unit
| AResumeMonitor : api_call unit
| ASpeed (opts : SpeedOptions) : api_call SpeedResult
| ASpeedHistory (key : string) (limit : Z) : api_call (list SpeedResult)
| AEventHistory (limit : Z) : api_call (list Event)
| ALANHosts (device : string) (sweep : bool) : api_call (list LANHost)
| AListeningPorts : api_call (list ListeningPort)
| ARoutes : api_call (list Route)
| ADNSLookup (name server qtype : string) : api_call DNSAnswer
| APublicIP : api_call PublicIP
| AInfra : api_call (list InfraNetwork)
| APendingSecrets : api_call (list SecretRequest)
| ASecret (id : string) : api_call SecretRequest
| AAnswerSecret (id : string) (a : SecretAnswer) : api_call unit
| ACancelSecret (id : string) : api_call unit
| AConfig : api_call Config
| ASetConfig (key value : string) : api_call Config
| ANotifyTest : api_call unit.

Section Spec.
Context {json : JSON} {W : Type} (o : Options W) (diag : DiagFuncs W).
Context (Version : string) (Quote duration_error int_error : string -> string) (save : Config -> W -> option error * W).

Local Notation "x <-! m ;; k" := (bind m (fun x => k)) (at level 60, m at next level, right associativity).
Local Abbreviation M := (Daemon.M (W := W)).

(** The method of the client. *)
Definition sent_of {T} (c : api_call T) : sent_call T :=
  match c with
  | AStatus => c_Status
  | ADevices => c_Devices
  | AWifi device => c_Wifi device
  | AScanWifi device => c_ScanWifi device
  | AConnectWifi req => c_ConnectWifi req
  | ADisconnectWifi device => c_DisconnectWifi device
  | AForgetWifi uuid => c_ForgetWifi uuid
  | ASetWifiEnabled on => c_SetWifiEnabled on
  | AProfiles => c_Profiles
  | AProfile uuid => c_Profile uuid
  | ASetProfileIP uuid ipv4 ipv6 => c_SetProfileIP uuid ipv4 ipv6
  | AActivateProfile uuid device => c_ActivateProfile uuid device
  | ADeactivateProfile uuid => c_DeactivateProfile uuid
  | ASetAutoconnect uuid on => c_SetAutoconnect uuid on
  | ADeleteProfile uuid => c_DeleteProfile uuid
  | AActiveConnections => c_ActiveConnections
  | AVPNs => c_VPNs
  | AConnectVPN id => c_ConnectVPN id
  | ADisconnectVPN id => c_DisconnectVPN id
  | AImportVPN req => c_ImportVPN req
  | ASetExitNode peer allowLAN => c_SetTailscaleExitNode peer allowLAN
  | AUseExitNode on => c_SetTailscaleExitNodeEnabled on
  | ATailscaleLogin => c_TailscaleLogin
  | ATailscaleLogout => c_TailscaleLogout
  | ASetAcceptDNS on => c_SetTailscaleAcceptDNS on
  | AMonitor => c_Monitor
  | ASamples key anchor limit => c_Samples key anchor limit
  | AResetBaseline key => c_ResetBaseline key
  | APauseMonitor => c_PauseMonitor
  | AResumeMonitor => c_ResumeMonitor
  | ASpeed opts => c_Speed opts
  | ASpeedHistory key limit => c_SpeedHistory key limit
  | AEventHistory limit => c_EventHistory limit
  | ALANHosts device sweep => c_LANHosts device sweep
  | AListeningPorts => c_ListeningPorts
  | ARoutes => c_Routes
  | ADNSLookup name server qtype => c_DNSLookup name server qtype
  | APublicIP => c_PublicIP
  | AInfra => c_Infra
  | APendingSecrets => c_PendingSecrets
  | ASecret id => c_Secret id
  | AAnswerSecret id a => c_AnswerSecret id a
  | ACancelSecret id => c_CancelSecret id
  | AConfig => c_Config
  | ASetConfig key value => c_SetConfig key value
  | ANotifyTest => c_NotifyTest
  end.

Definition lift {A B} (f : A -> B) (m : M A) : M B := a <-! m ;; ret (f a).

Definition of_err (err : option error) : result error unit := match err with Some e => Err e | None => Ok tt end.
Definition act_ (m : M (option error)) : M (result error unit) := lift of_err m.
Definition read {A} (f : Daemon -> A) : M (result error A) := lift (fun d => Ok (f d)) get.

(** No limit given: the server's. *)
Definition limit_or (def limit : Z) : Z := if 0 <? limit then limit else def.

(** The neighbours of a device, or of the primary one; a sweep that was skipped
    is no error. *)
Definition lan_hosts (device : string) (sweep : bool) : M (result error (list LANHost)) :=
  d <-! get ;;
  let device := if device =?s "" then primary_device (dm_snap d) else device in
  if device =?s ""
  then ret (Err (Errorf KindInvalid "pass ?device=<name> or connect to a network first" "diag: no device given and nothing is connected"))
  else lift (fun r => match r.2 with
                      | Some e => match first_some as_sweep (flatten e) with Some _ => Ok r.1 | None => Err e end
                      | None => Ok r.1
                      end) (call (diag_LANHosts diag device sweep)).

(** The operation of the daemon. *)
Definition operation {T} (c : api_call T) : M (result error T) :=
  match c with
  | AStatus =>
      d <-! get ;; t <-! now o ;;
      ret (Ok (mkStatusResponse (sn_Status (dm_snap d)) Version APIVersion (Seconds (time_Sub t (dm_started d))) (dm_started d)
                 (sn_Version (dm_snap d))))
  | ADevices => read (fun d => sn_Devices (dm_snap d))
  | AWifi device => lift (fun d => Wifi Quote (dm_snap d) device) get
  | AScanWifi device => act_ (ScanWifi o device)
  | AConnectWifi req => act_ (ConnectWifi o req)
  | ADisconnectWifi device => act_ (DisconnectDevice o device)
  | AForgetWifi uuid => act_ (Forget o uuid)
  | ASetWifiEnabled on => act_ (SetWifiEnabled o on)
  | AProfiles => read (fun d => sn_Profiles (dm_snap d))
  | AProfile uuid => lift (fun d => Profile_of (dm_snap d) uuid) get
  | ASetProfileIP uuid ipv4 ipv6 => act_ (UpdateIPConfig o uuid ipv4 ipv6)
  | AActivateProfile uuid device => act_ (Activate o uuid device)
  | ADeactivateProfile uuid => act_ (Deactivate o uuid)
  | ASetAutoconnect uuid on => act_ (SetAutoconnect o uuid on)
  | ADeleteProfile uuid => act_ (DeleteProfile o uuid)
  | AActiveConnections => read (fun d => sn_Active (dm_snap d))
  | AVPNs => read (fun d => sn_VPNs (dm_snap d))
  | AConnectVPN id => act_ (ConnectVPN o id)
  | ADisconnectVPN id => act_ (DisconnectVPN o id)
  | AImportVPN req => lift of_pair (ImportVPN o Quote req)
  | ASetExitNode peer allowLAN => act_ (SetExitNode o peer allowLAN)
  | AUseExitNode on => act_ (UseExitNode o on)
  | ATailscaleLogin => lift (fun r => match of_pair r with Ok url => Ok (mkLoginResponse url) | Err e => Err e end) (TailscaleLogin o)
  | ATailscaleLogout => act_ (TailscaleLogout o)
  | ASetAcceptDNS on => act_ (SetAcceptDNS o on)
  | AMonitor => read (fun d => sn_Monitor (dm_snap d))
  | ASamples key anchor limit => Samples o key anchor (limit_or 200 limit)
  | AResetBaseline key => act_ (ResetBaseline o key)
  | APauseMonitor => act_ (PauseMonitor o)
  | AResumeMonitor => act_ (ResumeMonitor o)
  | ASpeed opts => lift snd (RunSpeed o opts)
  | ASpeedHistory key limit => SpeedHistory o key (limit_or 50 limit)
  | AEventHistory limit => Events o (limit_or 100 limit)
  | ALANHosts device sweep => lan_hosts device sweep
  | AListeningPorts => call (diag_ListeningPorts diag)
  | ARoutes => call (diag_Routes diag)
  | ADNSLookup name server qtype =>
      if name =?s "" then ret (Err (Errorf KindInvalid "" "api: name is required")) else call (diag_DNSLookup diag name server qtype)
  | APublicIP => call (diag_PublicIP diag)
  | AInfra => call (diag_Infra diag)
  | APendingSecrets => PendingSecrets o
  | ASecret id => Secret o id
  | AAnswerSecret id a => act_ (AnswerSecret o id a)
  | ACancelSecret id => act_ (CancelSecret o id)
  | AConfig => read dm_cfg
  | ASetConfig key value =>
      if key =?s "" then ret (Err (Errorf KindInvalid "" "api: key is required"))
      else SetConfig o Quote duration_error int_error save key value
  | ANotifyTest => act_ (NotifyTest o)
  end.

(** ** When a call can be sent *)

(** An id that the path carries: one that path.Clean and the mux leave alone. *)
Definition valid_id (id : string) : Prop := id <> "" /\ id <> "." /\ id <> ".." /\ id <> "/".

(** A body that JSON carries, and that is not too long for the server. *)
Definition sendable_body {T} (s : shape T) (v : T) : Prop :=
  exists t, Marshal s v = Ok t /\ UnmarshalStrict s t = Ok v /\ TrimSpace t <> "" /\ Z.of_nat (String.length t) <= maxBody.

Definition int64_limit (limit : Z) : Prop := limit < 2 ^ 63.

Definition sendable {T} (c : api_call T) : Prop :=
  match c with
  | AScanWifi device | ADisconnectWifi device => sendable_body JDevice (mkDeviceRequest device)
  | AConnectWifi req => sendable_body JConnectWifi req
  | AForgetWifi uuid => sendable_body JUUID (mkUUIDRequest uuid)
  | ASetWifiEnabled on | AUseExitNode on | ASetAcceptDNS on => sendable_body JOn (mkOnRequest on)
  | AProfile id | ADeactivateProfile id | ADeleteProfile id | AConnectVPN id | ADisconnectVPN id | ASecret id | ACancelSecret id => valid_id id
  | ASetProfileIP id ipv4 ipv6 => valid_id id /\ sendable_body JIP (mkIPRequest ipv4 ipv6)
  | AActivateProfile id device => valid_id id /\ sendable_body JDevice (mkDeviceRequest device)
  | ASetAutoconnect id on => valid_id id /\ sendable_body JOn (mkOnRequest on)
  | AImportVPN req => sendable_body JImport req
  | ASetExitNode peer allowLAN => sendable_body JExitNode (mkExitNodeRequest peer allowLAN)
  | ASamples _ _ limit | ASpeedHistory _ limit | AEventHistory limit => int64_limit limit
  | AResetBaseline key => sendable_body JKey (mkKeyRequest key)
  | ASpeed opts => sendable_body JSpeedOptions opts
  | AAnswerSecret id a => valid_id id /\ sendable_body JAnswer a
  | ASetConfig key value => sendable_body JConfigSet (mkConfigSetRequest key value)
  | _ => True
  end.

(** ** What the caller gets *)

Context (status_line : Z -> string).

(** The outcome of an operation after both JSON trips. *)
Definition received {T} (method path : string) (ou : out T) : result error T -> result error T :=
  match ou in out T return result error T -> result error T with
  | Discard => fun r =>
      match r with
      | Err e => Err (decode_error_body status_line (StatusFor (Some e)) (json_line JError (ErrorBody e)))
      | Ok _ => Ok tt
      end
  | Into s => fun r =>
      match r with
      | Err e => Err (decode_error_body status_line (StatusFor (Some e)) (json_line JError (ErrorBody e)))
      | Ok v =>
          match Unmarshal s (json_line s v) with
          | Ok v => Ok v
          | Err e => Err (EWrap ("client: decode " +:+ method +:+ " " +:+ path +:+ ": " +:+ e) [ELeaf e])
          end
      end
  end.

(** The connection: a request to the server, and its answer. *)
Definition connection (r : request) (st : list act * (Daemon * W)) : carried * (list act * (Daemon * W)) :=
  let '(rep, l, s) := ServeHTTP o diag Version Quote duration_error int_error save r st.2 in (Carried rep, (st.1 ++ l, s)).
End Spec.
