(* ===== verification/APIFacts.v ===== *)
(** The client, the routes and the handlers together: what a call to the API
    does, and what a request that is refused gets. *)

From S2P Require Import Prelude GoTime Core Errors GoStrings GoStringsFacts GoScan GoURL Deriver Registry Config Daemon DaemonOps API Client APISpec.

(** ** Ids in paths *)

Lemma clean_id id : valid_id id -> clean_seg (PathEscape id).
Proof.
  intros (H1 & H2 & H3 & _).
  assert (forall t, pathUnescape t = t -> id <> t -> PathEscape id <> t) as H.
  { intros t Ht Hne E. apply Hne. by rewrite <- (pathUnescape_escape id), E. }
  split_and!; [by apply H|by apply H|by apply H|]. apply PathEscape_no_slash.
Qed.

Definition const_seg (s : string) : bool :=
  negb (s =?s "") && negb (s =?s ".") && negb (s =?s "..") && all_chars (not_char (Ascii.ascii_of_nat 47)) s.

Lemma clean_const l : forallb const_seg l = true -> Forall clean_seg l.
Proof.
  rewrite forallb_forall, Forall_forall. intros H s Hs. apply list_elem_of_In in Hs. specialize (H s Hs).
  unfold const_seg in H. apply andb_true_iff in H as [[[H1 H2]%andb_true_iff H3]%andb_true_iff H4].
  split_and!; try done; intros ->; discriminate.
Qed.

(** ** Routing *)

Lemma match_path_nil {H} segs : match_path ([] : list (list pseg * H)) segs = None.
Proof. induction segs as [|t segs IH]; [done|]. cbn [match_path omap list_omap]. change (omap _ []) with ([] : list (list pseg * H)). rewrite IH. by destruct (t =?s "/"). Qed.

(** No wildcard stands in the first place. *)
Lemma match_lit {H} (rs rs' : list (list pseg * H)) s segs :
  omap (lit_rest s) rs = rs' -> omap wild_rest rs = [] -> match_path rs (s :: segs) = match_path rs' segs.
Proof.
  intros <- Hw. cbn [match_path]. rewrite Hw, match_path_nil.
  destruct (match_path (omap (lit_rest s) rs) segs); [done|]. by destruct (s =?s "/").
Qed.

(** Only wildcards do. *)
Lemma match_wild {H} (rs : list (list pseg * H)) s segs h vs :
  s <> "/" -> omap (lit_rest s) rs = [] ->
  match_path (omap wild_rest rs) segs = Some (h, vs) -> match_path rs (s :: segs) = Some (h, s :: vs).
Proof. intros Hs Hl E. cbn [match_path]. by rewrite Hl, match_path_nil, seqb_ne, E. Qed.

Lemma no_literal {H} (rs : list (list pseg * H)) s :
  Forall (fun r => match r.1 with Lit t :: _ => t <> s | _ => True end) rs -> omap (lit_rest s) rs = [].
Proof.
  induction 1 as [|[[|[t|t] ps] h] rs Hr _ IH]; csimpl; try done; unfold lit_rest at 1. by rewrite seqb_ne.
Qed.

Section API.
Context {json : JSON} {W : Type} (o : Options W) (diag : DiagFuncs W).
Context (Version : string) (Quote duration_error int_error : string -> string) (save : Config -> W -> option error * W).
Context (socket : string) (status_line : Z -> string).

Local Abbreviation table := (route_table o diag Version Quote duration_error int_error save).
Local Abbreviation serve := (ServeHTTP o diag Version Quote duration_error int_error save).

Definition numbered : list (string * nat) := Eval lazy in imap (fun i r => (with_prefix r.1, i)) table.
Definition handler_ix (i : nat) : handler (W := W) := nth i (map snd table) h_config.

Lemma routes_numbered : routes o diag Version Quote duration_error int_error save = map (fun r => (r.1, handler_ix r.2)) numbered.
Proof. reflexivity. Qed.

Lemma serve_numbered r :
  serve r = match mux_Handler numbered (rq_method r) (rq_path r) with
            | RHandler i vs => handler_ix i (PathValue vs) r
            | RRedirect true => ret (redirect r)
            | RRedirect false => ret (unrouted 301 [] r)
            | RNotAllowed allow => ret (unrouted 405 allow r)
            | RNotFound => ret (unrouted 404 [] r)
            end.
Proof.
  unfold ServeHTTP. rewrite routes_numbered, mux_Handler_map. by destruct (mux_Handler numbered (rq_method r) (rq_path r)).
Qed.

Lemma serve_path m l q b i names vs : l <> [] -> Forall clean_seg l ->
  match_path (routes_for numbered m) (map pathUnescape l) = Some ((i, names), vs) ->
  serve (mkRequest m (path_of l) q b) = handler_ix i (PathValue (combine names vs)) (mkRequest m (path_of l) q b).
Proof. intros Hl HF E. rewrite serve_numbered. cbn [rq_method rq_path]. by rewrite (mux_Handler_path _ _ _ _ _ _ Hl HF E). Qed.

(** A path without an id. *)
Lemma serve_const m l q b i : l <> [] -> forallb const_seg l = true ->
  match_path (routes_for numbered m) (map pathUnescape l) = Some ((i, []), []) ->
  serve (mkRequest m (path_of l) q b) = handler_ix i (fun _ => "") (mkRequest m (path_of l) q b).
Proof. intros Hl HF E. rewrite (serve_path m l q b i [] []); [|done|by apply clean_const|done]. done. Qed.

Ltac literal := eapply eq_trans; [eapply match_lit; [lazy; reflexivity|lazy; reflexivity]|].

(** A wildcard that competes with two literals: they lead nowhere the path
    goes. *)
Lemma match_vpn id op i : id <> "/" -> (op, i) = ("connect", 23%nat) \/ (op, i) = ("disconnect", 24%nat) ->
  match_path (routes_for numbered "POST") ["v1"; "vpn"; id; op] = Some ((i, ["id"]), [id]).
Proof.
  intros Hid Hop. literal. literal.
  destruct (decide (id = "import")) as [->|H1]; [by destruct Hop as [[= -> ->]|[= -> ->]]|].
  destruct (decide (id = "tailscale")) as [->|H2]; [by destruct Hop as [[= -> ->]|[= -> ->]]|].
  apply match_wild; [done| |by destruct Hop as [[= -> ->]|[= -> ->]]]. apply no_literal. repeat constructor; by apply not_eq_sym.
Qed.

Definition id_route (m kind : string) (tail : list string) (i : nat) (name : string) : Prop :=
  forall id, id <> "/" -> match_path (routes_for numbered m) ("v1" :: kind :: id :: tail) = Some ((i, [name]), [id]).

Ltac wildcard := intros ? ?; literal; literal; apply match_wild; [done|reflexivity|reflexivity].

Lemma serve_id m kind tail i name id q b : valid_id id -> forallb const_seg (kind :: tail) = true -> map pathUnescape tail = tail -> pathUnescape kind = kind ->
  id_route m kind tail i name ->
  serve (mkRequest m (path_of ("v1" :: kind :: PathEscape id :: tail)) q b) =
  handler_ix i (PathValue [(name, id)]) (mkRequest m (path_of ("v1" :: kind :: PathEscape id :: tail)) q b).
Proof.
  intros Hid Hc Ht Hk Hr. cbn [forallb] in Hc. apply andb_true_iff in Hc as [Hc1 Hc2].
  rewrite (serve_path m _ q b i [name] [id]); [done|done| |].
  - apply (Forall_app _ ["v1"; kind] (PathEscape id :: tail)). split; [apply clean_const; cbn [forallb]; by rewrite Hc1|].
    constructor; [by apply clean_id|by apply clean_const].
  - cbn [map]. rewrite pathUnescape_escape, Hk, Ht. apply Hr. by destruct Hid as (_ & _ & _ & ?).
Qed.

(** ** A program that does what another does *)

(** The same steps, and outcomes that [f] and [g] take for the same. *)
Definition sim {A B C} (f : A -> C) (g : B -> C) (m : Daemon.M (W := W) A) (m' : Daemon.M (W := W) B) : Prop :=
  forall s, (m s).1.2 = (m' s).1.2 /\ (m s).2 = (m' s).2 /\ f (m s).1.1 = g (m' s).1.1.

Lemma sim_ret {A B C} (f : A -> C) (g : B -> C) a b : f a = g b -> sim f g (ret a) (ret b).
Proof. intros H s. done. Qed.

Lemma sim_bind {A B C D} (f : A -> C) (g : B -> C) (m : Daemon.M D) k k' :
  (forall x, sim f g (k x) (k' x)) -> sim f g (bind m k) (bind m k').
Proof.
  intros H s. unfold bind. destruct (m s) as [[x l] s']. specialize (H x s').
  destruct (k x s') as [[a l1] s1], (k' x s') as [[b l2] s2]. cbn in *. by destruct H as (-> & -> & ->).
Qed.

Lemma sim_same {A B C} (f : A -> C) (g : B -> C) (m : Daemon.M B) r :
  (forall b, f (r b) = g b) -> sim f g (bind m (fun b => ret (r b))) m.
Proof. intros H s. unfold bind, ret. destruct (m s) as [[b l] s']. cbn. by rewrite app_nil_r, H. Qed.

(** ** Answers *)

Lemma StatusFor_error err : (StatusFor err / 100 =? 2) = false.
Proof. unfold StatusFor. repeat (destruct (KindOf err =?s _); [done|]). by destruct (errors_Is err DeadlineExceeded). Qed.

(** What a method reads, and that it was not sent elsewhere. *)
Definition read {T} m p (ou : out T) (rep : reply) : bool * result error T :=
  (match rep with Redirect _ _ => true | _ => false end, read_answer status_line m p ou rep).
Definition read_as {T} m p (ou : out T) (r : result error T) : bool * result error T := (false, received status_line m p ou r).

Lemma read_error {T} m p (ou : out T) e :
  read m p ou (writeError e) = (false, Err (decode_error_body status_line (StatusFor (Some e)) (json_line JError (ErrorBody e)))).
Proof. unfold read, writeError, writeJSON, read_answer. by rewrite StatusFor_error. Qed.

Lemma read_ok m p err : read m p Discard (reply_ok err) = read_as m p Discard (of_err err).
Proof. destruct err as [e|]; [apply read_error|done]. Qed.

Lemma read_value {T} m p (s : shape T) r : read m p (Into s) (reply_value s r) = read_as m p (Into s) r.
Proof. destruct r as [v|e]; [done|apply read_error]. Qed.

Lemma with_body_sent {T} (s : shape T) zero v t m p q (f : T -> Daemon.M (W := W) reply) : UnmarshalStrict s t = Ok v -> TrimSpace t <> "" ->
  Z.of_nat (String.length t) <= maxBody -> with_body s zero (mkRequest m p q t) f = f v.
Proof.
  intros Hu Ht Hl. unfold with_body, decode. cbn [rq_body]. rewrite (proj2 (Z.ltb_ge _ _)) by done. by rewrite seqb_ne, Hu.
Qed.

Lemma NoDup_keys (q : Values) : bool_decide (NoDup (map fst q)) = true -> NoDup (map fst q).
Proof. by intros ?%bool_decide_eq_true. Qed.

Lemma queryInt_limit m p q b def limit key anchor : limit < 2 ^ 63 -> q = Encode (set_string "key" key ++ set_string "anchor" anchor ++ set_limit limit) ->
  queryInt (mkRequest m p q b) "limit" def = Ok (limit_or def limit) /\ query_Get q "key" = key /\ query_Get q "anchor" = anchor.
Proof.
  intros Hl ->. unfold queryInt, limit_or. cbn [rq_query].
  assert (NoDup (map fst (set_string "key" key ++ set_string "anchor" anchor ++ set_limit limit))) as Hnd.
  { unfold set_string, set_limit. destruct (key =?s ""), (anchor =?s ""), (0 <? limit); by apply NoDup_keys. }
  rewrite !query_Get_Encode by done. unfold set_string, set_limit.
  destruct (String.eqb_spec key "") as [->|Hk], (String.eqb_spec anchor "") as [->|Ha], (Z.ltb_spec 0 limit) as [H0|H0];
    cbn; rewrite ?(seqb_ne _ _ (Itoa_nonempty limit)), ?Atoi_Itoa_all by lia; done.
Qed.

Lemma query_device device : query_Get (Encode (set_string "device" device)) "device" = device.
Proof.
  unfold set_string. destruct (String.eqb_spec device "") as [->|Hd]; [done|].
  rewrite query_Get_Encode by (by apply NoDup_keys). done.
Qed.

Lemma query_lan (device : string) (sweep : bool) (q := Encode (set_string "device" device ++ (if sweep then [("sweep", "1")] else []))) m p b :
  query_Get q "device" = device /\ queryBool (mkRequest m p q b) "sweep" = sweep.
Proof.
  unfold queryBool, q, set_string. cbn [rq_query].
  destruct (String.eqb_spec device "") as [->|Hd], sweep; try done; by rewrite !query_Get_Encode by (by apply NoDup_keys).
Qed.

Lemma query_dns name server qtype (q := Encode (("name", name) :: set_string "server" server ++ set_string "type" qtype)) :
  query_Get q "name" = name /\ query_Get q "server" = server /\ query_Get q "type" = qtype.
Proof.
  unfold q, set_string.
  destruct (String.eqb_spec server "") as [->|H1], (String.eqb_spec qtype "") as [->|H2];
    by rewrite !query_Get_Encode by (by apply NoDup_keys).
Qed.

(** ** Every call does its operation *)

Definition implements {T} (c : api_call T) (r : request) : Prop :=
  sim (read (se_method (sent_of c)) (se_path (sent_of c)) (se_out (sent_of c)))
      (read_as (se_method (sent_of c)) (se_path (sent_of c)) (se_out (sent_of c)))
      (serve r) (operation o diag Version Quote duration_error int_error save c).

Lemma sim_const {A C} (f : reply -> C) (g : A -> C) r m' i (l := List.tl (Split (rq_path r) "/")) :
  match_path (routes_for numbered (rq_method r)) (map pathUnescape l) = Some ((i, []), []) ->
  rq_path r = path_of l -> l <> [] -> forallb const_seg l = true ->
  sim f g (handler_ix i (fun _ => "") r) m' -> sim f g (serve r) m'.
Proof.
  intros E Hp Hl Hc H. destruct r as [m p q b]. cbn [rq_method rq_path] in *. rewrite Hp in *. by rewrite (serve_const m l q b i).
Qed.

Lemma sim_id {A C} (f : reply -> C) (g : A -> C) m kind tail i name id q b m' :
  valid_id id -> id_route m kind tail i name ->
  forallb const_seg (kind :: tail) = true -> map pathUnescape tail = tail -> pathUnescape kind = kind ->
  sim f g (handler_ix i (PathValue [(name, id)]) (mkRequest m (path_of ("v1" :: kind :: PathEscape id :: tail)) q b)) m' ->
  sim f g (serve (mkRequest m (path_of ("v1" :: kind :: PathEscape id :: tail)) q b)) m'.
Proof. intros Hid Hr Hc Ht Hk H. by rewrite (serve_id m kind tail i name). Qed.

Lemma body_request {T U} m p q (s : shape T) v (ou : out U) r : newRequest (mkSent m p q (body s v) ou) = Ok r -> sendable_body s v ->
  exists t, r = mkRequest m (Prefix +:+ p) (Encode q) t /\ UnmarshalStrict s t = Ok v /\ TrimSpace t <> "" /\ Z.of_nat (String.length t) <= maxBody.
Proof.
  intros Hr (t & Hm & H). exists t. split; [|done]. unfold newRequest, body in Hr. cbn [se_body] in Hr. rewrite Hm in Hr.
  by injection Hr as <-.
Qed.

Ltac no_body := intros Hs Hr; injection Hr as <-; unfold implements.
Ltac with_sent_body := intros Hs Hr; destruct (body_request _ _ _ _ _ _ _ Hr Hs) as (t & -> & Hu & Ht & Hl); unfold implements.
Ltac const_call := eapply sim_const; [lazy; reflexivity|reflexivity|discriminate|reflexivity|].
Ltac head_of t := match t with ?f _ => head_of f | _ => t end.
Ltac enter := cbn [handler_ix nth map snd route_table]; match goal with |- sim _ _ ?t _ => let h := head_of t in unfold h end.
Ltac answer :=
  match goal with
  | |- read _ _ _ (reply_ok _) = _ => apply read_ok
  | |- read _ _ _ (reply_value _ _) = _ => apply read_value
  | |- _ => reflexivity
  end.
Ltac reply_op := apply sim_bind; intros ?; apply sim_ret; answer.
Ltac same_op := apply sim_same; intros ?; answer.
Ltac case_plain := no_body; const_call; enter; reply_op.
Ltac case_same := no_body; const_call; enter; same_op.
Ltac case_body := with_sent_body; const_call; enter; erewrite with_body_sent by eassumption; reply_op.

Ltac vpn_wild := intros ? ?; apply match_vpn; [done|tauto].
Ltac id_call kind id tail name :=
  match goal with |- sim _ _ (ServeHTTP _ _ _ _ _ _ _ (mkRequest ?m ?p ?q ?b)) _ =>
    change (mkRequest m p q b) with (mkRequest m (path_of ("v1" :: kind :: PathEscape id :: tail)) q b) end;
  eapply (sim_id _ _ _ kind tail _ name); [eassumption|first [wildcard | vpn_wild]|reflexivity|reflexivity|reflexivity|].
Ltac case_id kind id tail name := no_body; id_call kind id tail name; enter; change (PathValue [(name, id)] name) with id; reply_op.
Ltac case_id_body kind id tail name :=
  let H := fresh in intros [H Hs]; revert Hs; with_sent_body; id_call kind id tail name; enter; change (PathValue [(name, id)] name) with id; erewrite with_body_sent by eassumption; reply_op.

Lemma implements_id {T} (c : api_call T) r :
  match c with
  | AProfile _ | ASetProfileIP _ _ _ | AActivateProfile _ _ | ADeactivateProfile _ | ASetAutoconnect _ _ | ADeleteProfile _
  | AConnectVPN _ | ADisconnectVPN _ | ASecret _ | AAnswerSecret _ _ | ACancelSecret _ => True
  | _ => False
  end -> sendable c -> newRequest (sent_of c) = Ok r -> implements c r.
Proof.
  destruct c; try done; intros _.
  - case_id "profiles" uuid ([] : list string) "uuid".
  - case_id_body "profiles" uuid ["ip"] "uuid".
  - case_id_body "profiles" uuid ["activate"] "uuid".
  - case_id "profiles" uuid ["deactivate"] "uuid".
  - case_id_body "profiles" uuid ["autoconnect"] "uuid".
  - case_id "profiles" uuid ([] : list string) "uuid".
  - case_id "vpn" id ["connect"] "id".
  - case_id "vpn" id ["disconnect"] "id".
  - no_body. id_call "secrets" id ([] : list string) "id". enter. change (PathValue [("id", id)] "id") with id. same_op.
  - case_id_body "secrets" id ([] : list string) "id".
  - case_id "secrets" id ["cancel"] "id".
Qed.

Lemma limit_query q b m p def limit key anchor : limit < 2 ^ 63 -> q = Encode (set_string "key" key ++ set_string "anchor" anchor ++ set_limit limit) ->
  forall A C (f : reply -> C) (g : A -> C) (k : Z -> Daemon.M (W := W) reply) m',
  sim f g (k (limit_or def limit)) m' ->
  sim f g (match queryInt (mkRequest m p q b) "limit" def with Err e => ret (writeError e) | Ok l => k l end) m'.
Proof. intros Hl Hq A C f g k m' H. by destruct (queryInt_limit m p q b def limit key anchor Hl Hq) as [-> _]. Qed.

Lemma implements_query {T} (c : api_call T) r :
  match c with
  | AWifi _ | ASamples _ _ _ | ASpeedHistory _ _ | AEventHistory _ | ALANHosts _ _ | ADNSLookup _ _ _ => True
  | _ => False
  end -> sendable c -> newRequest (sent_of c) = Ok r -> implements c r.
Proof.
  destruct c; try done; intros _; no_body; const_call; enter; cbn [rq_query].
  - rewrite query_device. reply_op.
  - eapply limit_query; [exact Hs|reflexivity|]. cbv beta.
    destruct (queryInt_limit "" "" (Encode (set_string "key" key ++ set_string "anchor" anchor ++ set_limit limit)) "" 0 limit key anchor Hs eq_refl) as (_ & -> & ->).
    same_op.
  - eapply (limit_query _ _ _ _ 50 limit key ""); [exact Hs|reflexivity|]. cbv beta.
    destruct (queryInt_limit "" "" (Encode (set_string "key" key ++ set_limit limit)) "" 0 limit key "" Hs eq_refl) as (_ & -> & _).
    same_op.
  - eapply (limit_query _ _ _ _ 100 limit "" ""); [exact Hs|reflexivity|]. same_op.
  - apply sim_bind. intros d. destruct (query_lan device sweep "" "" "") as [-> _]. cbv zeta.
    destruct ((if device =?s "" then primary_device (dm_snap d) else device) =?s ""); [apply sim_ret, read_error|].
    unfold queryBool. cbn [rq_query]. pose proof (proj2 (query_lan device sweep "" "" "")) as Hsw. unfold queryBool in Hsw. cbn [rq_query] in Hsw.
    rewrite Hsw. apply sim_bind. intros [hosts [e|]]; apply sim_ret; [|reflexivity]. cbn [fst snd].
    destruct (first_some as_sweep (flatten e)); [reflexivity|apply read_error].
  - destruct (query_dns name server qtype) as (-> & -> & ->). unfold operation.
    destruct (name =?s ""); [apply sim_ret, read_error|same_op].
Qed.

Lemma implements_same {T} (c : api_call T) r :
  match c with AListeningPorts | ARoutes | APublicIP | AInfra | APendingSecrets => True | _ => False end ->
  sendable c -> newRequest (sent_of c) = Ok r -> implements c r.
Proof. destruct c; try done; intros _; case_same. Qed.

Lemma implements_all {T} (c : api_call T) r : sendable c -> newRequest (sent_of c) = Ok r -> implements c r.
Proof.
  destruct c; first [apply implements_id; exact I|apply implements_query; exact I|apply implements_same; exact I|idtac]; try (case_body; fail); try (case_plain; fail).
  - no_body. const_call. enter. do 2 (apply sim_bind; intros ?). by apply sim_ret.
  - with_sent_body. const_call. enter. erewrite with_body_sent by eassumption. cbn [cs_Key cs_Value]. unfold operation.
    destruct (key =?s ""); [apply sim_ret, read_error|same_op].
Qed.

Lemma sent_body {T U} m p q (s : shape T) v (ou : out U) : sendable_body s v -> exists r, newRequest (mkSent m p q (body s v) ou) = Ok r.
Proof. intros (t & Hm & _). unfold newRequest, body. cbn [se_body]. rewrite Hm. by eexists. Qed.

Lemma sendable_request {T} (c : api_call T) : sendable c -> exists r, newRequest (sent_of c) = Ok r.
Proof. destruct c; intros Hs; first [by eexists | apply sent_body; exact Hs | apply sent_body; exact (proj2 Hs)]. Qed.

(** What comes back is the outcome, when JSON carries it. *)
Definition carries {T} (ou : out T) : T -> Prop :=
  match ou with
  | Discard => fun _ => True
  | Into s => fun v => Unmarshal s (json_line s v) = Ok v
  end.

Definition carries_error (e : error) : Prop :=
  ErrorString e <> "" /\
  Unmarshal JError (string_take (Z.to_nat (64 * 2 ^ 10)) (json_line JError (ErrorBody e))) = Ok (ErrorBody e).

Lemma received_value {T} m p (ou : out T) v : carries ou v -> received status_line m p ou (Ok v) = Ok v.
Proof. destruct ou as [|T s]; cbn; [by destruct v|by intros ->]. Qed.

Lemma received_error {T} m p (ou : out T) e : carries_error e ->
  received status_line m p ou (Err e) =
  Err (EAPI (StatusFor (Some e)) (KindOf (Some e)) (ErrorString e) (er_Hint (ErrorBody e))).
Proof.
  intros [Hne Hu]. assert (received status_line m p ou (Err e) =
    Err (decode_error_body status_line (StatusFor (Some e)) (json_line JError (ErrorBody e)))) as -> by (by destruct ou).
  unfold decode_error_body. cbv zeta. rewrite Hu. unfold decodeError. cbn [er_Error ErrorBody]. by rewrite seqb_ne.
Qed.

(** C24: A call of the client is the operation of the daemon.  For each of the
    46 calls, with an id that a path can carry, a body that JSON carries and an
    int64 limit: the request is routed to the handler that does exactly that
    operation, with the same effects; no limit stands for the server's.  The
    caller gets the operation's value when JSON carries it, and its error as an
    APIError with the status, kind, message and hint of the error. *)
Theorem client_calls_daemon {T} (c : api_call T) st : sendable c ->
  let res := operation o diag Version Quote duration_error int_error save c st.2 in
  let got := client_do socket status_line (connection o diag Version Quote duration_error int_error save) (sent_of c) st in
  got.2 = (st.1 ++ res.1.2, res.2) /\
  got.1 = received status_line (se_method (sent_of c)) (se_path (sent_of c)) (se_out (sent_of c)) res.1.1 /\
  (forall v, res.1.1 = Ok v -> carries (se_out (sent_of c)) v -> got.1 = Ok v) /\
  (forall e, res.1.1 = Err e -> carries_error e ->
     got.1 = Err (EAPI (StatusFor (Some e)) (KindOf (Some e)) (ErrorString e) (er_Hint (ErrorBody e)))).
Proof.
  intros Hs. destruct (sendable_request c Hs) as [r Hr]. cbv zeta.
  destruct (implements_all c r Hs Hr st.2) as (H1 & H2 & H3).
  assert (client_do socket status_line (connection o diag Version Quote duration_error int_error save) (sent_of c) st =
    (read_answer status_line (se_method (sent_of c)) (se_path (sent_of c)) (se_out (sent_of c)) (serve r st.2).1.1,
     (st.1 ++ (serve r st.2).1.2, (serve r st.2).2))) as ->.
  { unfold client_do, connection. rewrite Hr. cbn [follow]. injection H3 as H3 _.
    destruct (serve r st.2) as [[[] l] s]; [done|discriminate H3|done]. }
  injection H3 as _ H3. cbn [fst snd]. rewrite H1, H2, H3. split_and!; [done|done| |].
  - intros v -> Hv. by apply received_value.
  - intros e -> He. by apply received_error.
Qed.
(** ** What is refused *)

(** The server gives that answer, and nothing else happens. *)
Definition refused (rep : reply) (m : Daemon.M (W := W) reply) : Prop := forall s, m s = (rep, [], s).

Lemma refused_sim rep m : sim id (fun _ : unit => rep) m (ret tt) -> refused rep m.
Proof. intros H s. destruct (H s) as (H1 & H2 & H3). destruct (m s) as [[x l] s']. cbn in *. by subst. Qed.

(** The calls that send a body, and those that name a profile, a VPN or a
    prompt. *)
Definition body_shape {T} (c : api_call T) : option {U & shape U} :=
  match c with
  | AScanWifi _ | ADisconnectWifi _ | AActivateProfile _ _ => Some (existT _ JDevice)
  | AConnectWifi _ => Some (existT _ JConnectWifi)
  | AForgetWifi _ => Some (existT _ JUUID)
  | ASetWifiEnabled _ | ASetAutoconnect _ _ | AUseExitNode _ | ASetAcceptDNS _ => Some (existT _ JOn)
  | ASetProfileIP _ _ _ => Some (existT _ JIP)
  | AImportVPN _ => Some (existT _ JImport)
  | ASetExitNode _ _ => Some (existT _ JExitNode)
  | AResetBaseline _ => Some (existT _ JKey)
  | ASpeed _ => Some (existT _ JSpeedOptions)
  | AAnswerSecret _ _ => Some (existT _ JAnswer)
  | ASetConfig _ _ => Some (existT _ JConfigSet)
  | _ => None
  end.

(** What is wrong with a body that is read in that shape: it is too long, or is
    not blank and not what the decoder takes, an unknown field included. *)
Definition bad_body {U} (s : shape U) (b : string) : option string :=
  if maxBody <? Z.of_nat (String.length b) then Some ("api: body larger than " +:+ Itoa maxBody +:+ " bytes")
  else if TrimSpace b =?s "" then None
  else match UnmarshalStrict s b with Err e => Some ("api: bad JSON body: " +:+ e) | Ok _ => None end.

Definition bad_request (msg : string) : reply := writeError (Errorf KindInvalid "" msg).

Lemma with_body_refused {U} (s : shape U) zero m p q b f msg : bad_body s b = Some msg ->
  sim id (fun _ : unit => bad_request msg) (with_body s zero (mkRequest m p q b) f) (ret tt).
Proof.
  unfold bad_body, with_body, decode. cbn [rq_body]. case_test; [intros [= <-]; by apply sim_ret|]. case_test; [done|].
  destruct (UnmarshalStrict s b); [done|]. intros [= <-]. by apply sim_ret.
Qed.

Definition call_id {T} (c : api_call T) : option string :=
  match c with
  | AProfile id | ASetProfileIP id _ _ | AActivateProfile id _ | ADeactivateProfile id | ASetAutoconnect id _ | ADeleteProfile id
  | AConnectVPN id | ADisconnectVPN id | ASecret id | AAnswerSecret id _ | ACancelSecret id => Some id
  | _ => None
  end.

(** The request of a call with some body. *)
Definition request_with {T} (c : api_call T) (b : string) : request :=
  mkRequest (se_method (sent_of c)) (Prefix +:+ se_path (sent_of c)) (Encode (se_query (sent_of c))) b.

Ltac refuse_body Hb := enter; apply with_body_refused, Hb.
Ltac refuse_id_body kind id tail name Hb :=
  unfold request_with; cbn [sent_of se_method se_path]; id_call kind id tail name; enter; apply with_body_refused, Hb.

Lemma body_refused {T} (c : api_call T) b msg : (forall id, call_id c = Some id -> valid_id id) ->
  match body_shape c with
  | Some (existT U s) => bad_body s b = Some msg -> refused (bad_request msg) (serve (request_with c b))
  | None => True
  end.
Proof.
  intros Hid. destruct c; cbn [body_shape]; try exact I; intros Hb; apply refused_sim; try (specialize (Hid _ eq_refl)).
  all: try (const_call; refuse_body Hb; fail).
  - refuse_id_body "profiles" uuid ["ip"] "uuid" Hb.
  - refuse_id_body "profiles" uuid ["activate"] "uuid" Hb.
  - refuse_id_body "profiles" uuid ["autoconnect"] "uuid" Hb.
  - refuse_id_body "secrets" id ([] : list string) "id" Hb.
Qed.

(** The calls that such an id turns into a path that has a handler: a read of
    one thing into the list, and a cancellation into the path of a prompt. *)
Definition dotted {T} (c : api_call T) : option string :=
  match c with
  | AProfile "." => Some "/profiles"
  | ASecret "." => Some "/secrets"
  | ACancelSecret "" | ACancelSecret "." => Some "/secrets/cancel"
  | _ => None
  end.

(** An id no path can carry leads to no handler. *)
Lemma id_unrouted {T} (c : api_call T) id : call_id c = Some id -> ~ valid_id id ->
  match mux_Handler numbered (se_method (sent_of c)) (Prefix +:+ se_path (sent_of c)) with
  | RHandler _ _ => False
  | RRedirect true => match dotted c with Some l => cleanPath (Prefix +:+ se_path (sent_of c)) = Prefix +:+ l | None => False end
  | _ => dotted c = None
  end.
Proof.
  intros Hc Hid. assert (id = "" \/ id = "." \/ id = ".." \/ id = "/") as H.
  { destruct (decide (id = "")), (decide (id = ".")), (decide (id = "..")), (decide (id = "/")); try tauto. by exfalso; apply Hid. }
  destruct c; try discriminate Hc; injection Hc as ->; destruct H as [-> | [-> | [-> | ->]]]; vm_compute; reflexivity.
Qed.

(** What the server answers without a handler. *)
Lemma unrouted_refused r :
  match mux_Handler numbered (rq_method r) (rq_path r) with
  | RHandler _ _ => True
  | RRedirect true => refused (redirect r) (serve r)
  | RRedirect false => refused (unrouted 301 [] r) (serve r)
  | RNotAllowed allow => refused (unrouted 405 allow r) (serve r)
  | RNotFound => refused (unrouted 404 [] r) (serve r)
  end.
Proof. rewrite serve_numbered. by destruct (mux_Handler numbered (rq_method r) (rq_path r)) as [h vs | [] | allow | ]. Qed.

Lemma id_refused {T} (c : api_call T) id b : call_id c = Some id -> ~ valid_id id ->
  match dotted c with
  | Some l => cleanPath (Prefix +:+ se_path (sent_of c)) = Prefix +:+ l /\ refused (redirect (request_with c b)) (serve (request_with c b))
  | None => exists status allow, refused (unrouted status allow (request_with c b)) (serve (request_with c b)) /\ (status = 301 \/ status = 404 \/ status = 405)
  end.
Proof.
  intros Hc Hid. pose proof (id_unrouted c id Hc Hid) as H. pose proof (unrouted_refused (request_with c b)) as Hr. cbn [request_with rq_method rq_path] in Hr.
  destruct (mux_Handler numbered _ _) as [h vs | [] | allow | ].
  - done.
  - destruct (dotted c); [|done]. by split.
  - rewrite H. exists 301, []. split; [exact Hr|tauto].
  - rewrite H. exists 405, allow. split; [exact Hr|tauto].
  - rewrite H. exists 404, []. split; [exact Hr|tauto].
Qed.

(** A path some method serves is never reported as missing. *)
Lemma matching_nonempty {H} (rs : list (string * H)) m p : mux_match rs m p <> None -> matchingMethods rs p <> [].
Proof.
  intros Hm. assert (exists m', In m' (map (fun r => (parse_pattern r.1).1) rs) /\
    exists x, match_path (routes_for rs m') (path_segments p) = Some x) as (m' & Hin & x & Hx).
  { assert (forall m', match_path (routes_for rs m') (path_segments p) <> None -> In m' (map (fun r => (parse_pattern r.1).1) rs)) as Hi.
    { intros m' Hn. destruct (in_dec String.string_dec m' (map (fun r => (parse_pattern r.1).1) rs)) as [?|Hni]; [done|]. exfalso. apply Hn.
      assert (routes_for rs m' = []) as ->; [|apply match_path_nil].
      unfold routes_for. clear - Hni. induction rs as [|[q h] rs IH]; [done|]. csimpl. cbn [map] in Hni.
      destruct (parse_pattern q) as [mq ps] eqn:E. rewrite seqb_ne; [apply IH|]; intros ?; apply Hni; [by right|left]. cbn. by rewrite E. }
    unfold mux_match in Hm. cbv zeta in Hm. destruct (match_path (routes_for rs m) (path_segments p)) as [x|] eqn:E.
    - exists m. split; [apply Hi; congruence|by exists x].
    - destruct (m =?s "HEAD"); [|done]. destruct (match_path (routes_for rs "GET") (path_segments p)) as [x|] eqn:E'; [|done].
      exists "GET". split; [apply Hi; congruence|by exists x]. }
  unfold matchingMethods. cbv zeta. intros Hnil. apply (f_equal length) in Hnil. rewrite isort_length in Hnil.
  set (ms := List.filter _ _) in Hnil. assert (In m' ms) as Hms by (apply filter_In; split; [done|by rewrite Hx]). clearbody ms.
  assert (exists l, m' ∈ remove_dups l /\ length (remove_dups l) = 0%nat) as (l & Hl & H0).
  { destruct (existsb (String.eqb "GET") ms); eexists; (split; [|exact Hnil]); rewrite elem_of_remove_dups; [right|]; by apply list_elem_of_In. }
  destruct (remove_dups l); [by inversion Hl|done].
Qed.

End API.

(** ** A small daemon *)

(** The world is what NetworkManager was asked for. *)
Definition asked (what : string) (w : list string) : option error * list string := (None, w ++ [what]).

Definition tiny_nm : NetworkManager (list string) :=
  mkNetworkManager (list string) (fun w => (Ok Status_zero, w)) (fun w => (Ok [], w)) (fun w => (Ok [], w)) (fun w => (Ok [], w))
    (fun _ w => (Ok [], w)) (fun d => asked ("scan " +:+ d)) (fun r => asked ("join " +:+ cw_SSID r))
    (fun u d => asked ("activate " +:+ u +:+ " on " +:+ d)) (fun u => asked ("deactivate " +:+ u)) (fun d => asked ("disconnect " +:+ d))
    (fun u => asked ("forget " +:+ u)) (fun _ => asked "wifi") (fun u _ => asked ("autoconnect " +:+ u)) (fun u _ _ => asked ("ip " +:+ u))
    (fun _ p w => (("", None), w)).

Definition tiny_options : Options (list string) :=
  mkOptions (list string) tiny_nm None None
    (mkStorePort (list string) (fun _ w => (None, w)) (fun _ w => (Ok [], w)) (fun _ _ _ w => (Ok [], w)) (fun _ w => (None, w))
       (fun _ _ w => (Ok [], w)) (fun w => (None, w)) (fun w => (None, w)))
    None None None None
    (mkSystem (list string) (fun w => (second, w)) (fun _ w => (Err "", w)) (fun _ w => (None, w)) (fun _ _ w => (Ok "", w)) (fun _ w => w))
    Default 0 0.

Definition tiny_diag : DiagFuncs (list string) := mkDiagFuncs (list string) None None None None None None.

(** A codec for the shapes the example needs. *)
Definition tiny_json : JSON := {|
  Marshal := fun T s => match s with
                        | JDevice => fun v => Ok ("{" +:+ dr_Device v +:+ "}")
                        | JOK => fun _ => Ok "{ok}"
                        | _ => fun _ => Err "not carried"
                        end;
  Unmarshal := fun T s t => match s with JOK => Ok (mkOKResponse true) | _ => Err "not carried" end;
  UnmarshalStrict := fun T s t => match s with
                                  | JDevice => Ok (mkDeviceRequest (TrimSuffix (TrimPrefix t "{") "}"))
                                  | _ => Err "not carried"
                                  end
|}.

Local Abbreviation tiny_call := (AActivateProfile "office/1 ?" "wlan0").
Local Abbreviation tiny_start := ([] : list act, (new_daemon tiny_options second, [] : list string)).
Local Abbreviation tiny_do :=
  (client_do (json := tiny_json) "/run/bnm.sock" (fun _ => "")
     (connection (json := tiny_json) tiny_options tiny_diag "dev" id id id (fun _ w => (None, w))) (sent_of (json := tiny_json) tiny_call) tiny_start).

Example tiny_asked : tiny_do.1 = Ok tt /\ tiny_do.2.2.2 = ["activate office/1 ? on wlan0"].
Proof. by vm_compute. Qed.

Lemma tiny_sendable : sendable (json := tiny_json) tiny_call.
Proof. split; [by repeat split|]. exists "{wlan0}". by repeat split. Defined.

Lemma client_calls_daemon_witness :
  sendable (json := tiny_json) tiny_call /\
  tiny_do.2 = (let res := operation tiny_options tiny_diag "dev" id id id (fun _ w => (None, w)) tiny_call tiny_start.2 in (res.1.2, res.2)) /\
  tiny_do.1 = Ok tt.
Proof.
  split; [exact tiny_sendable|].
  destruct (client_calls_daemon (json := tiny_json) tiny_options tiny_diag "dev" id id id (fun _ w => (None, w)) "/run/bnm.sock" (fun _ => "")
              tiny_call tiny_start tiny_sendable) as (H1 & _ & H3 & _).
  split; [exact H1|apply H3; [vm_compute; reflexivity|exact I]].
Defined.
