(* ===== verification/StreamFacts.v ===== *)
(** Server-sent events: what the client reads of what the server sent, wherever
    the connection ends. *)

From S2P Require Import Prelude GoTime Core Errors GoStrings GoStringsFacts GoScan GoURL Deriver Registry Config Daemon DaemonOps API Client.
From Stdlib Require Import Ascii.

(** ** Strings cut in two *)

Lemma cut_app (p q a b : string) : p +:+ q = a +:+ b ->
  (exists r, a = p +:+ r /\ q = r +:+ b) \/ (exists r, p = a +:+ r /\ b = r +:+ q /\ r <> "").
Proof.
  revert p; induction a as [|c a IH]; intros p E.
  - destruct p as [|d p]; [left; exists ""; split; [done|exact E]|right; exists (String d p); split_and!; [done|exact (eq_sym E)|done]].
  - destruct p as [|d p]; [left; by exists (String c a)|]. rewrite !app_String in E. injection E as -> E.
    destruct (IH p E) as [(r & -> & ->)|(r & -> & -> & Hr)]; [left|right]; by exists r.
Qed.

Lemma app_cancel (a b c : string) : a +:+ b = a +:+ c -> b = c.
Proof. induction a as [|d a IH]; [done|]. rewrite !app_String. intros [= H]. by apply IH. Qed.

Fixpoint prefixes (s : string) : list string := "" :: match s with "" => [] | String c s' => map (String c) (prefixes s') end.

Lemma prefixes_spec p r s : s = p +:+ r -> In p (prefixes s).
Proof.
  revert s; induction p as [|c p IH]; intros s ->; [by destruct r; left|]. rewrite app_String. right. apply in_map. by apply IH.
Qed.

(** ** Lines *)

Lemma TrimSuffix_newline s : TrimSuffix (s +:+ newline) newline = s.
Proof.
  unfold TrimSuffix. assert (HasSuffix (s +:+ newline) newline = true) as ->.
  { apply HasSuffix_grow. reflexivity. }
  rewrite app_length_string. replace (_ + _ - _)%nat with (String.length s) by lia. apply string_take_app.
Qed.

(** ** Frames *)

Inductive frame := FComment (text : string) | FEvent (name data : string).

Definition render (f : frame) : string :=
  match f with
  | FComment t => ": " +:+ (t +:+ (newline +:+ newline))
  | FEvent n d => "event: " +:+ (n +:+ (newline +:+ ("data: " +:+ (d +:+ (newline +:+ newline)))))
  end.

Definition short (s : string) : Prop := Z.of_nat (String.length s) < maxLine - 7.

Definition frame_ok (f : frame) : Prop :=
  match f with
  | FComment t => inline t = true /\ short t
  | FEvent n d => n <> "" /\ d <> "" /\ inline n = true /\ inline d = true /\ short n /\ short d
  end.

Lemma TrimPrefix_app p s : TrimPrefix (p +:+ s) p = s.
Proof.
  unfold TrimPrefix. assert (HasPrefix (p +:+ s) p = true) as ->.
  { apply HasPrefix_grow. induction p as [|c p IH]; [done|]. unfold HasPrefix in *. cbn. by rewrite Ascii.eqb_refl || (destruct (ascii_dec c c); done). }
  induction p as [|c p IH]; [by destruct s|]. rewrite app_String. apply IH.
Qed.

Lemma field_comment t n d : sse_field (": " +:+ t) n d = (n, d).
Proof. unfold sse_field. change (": " +:+ t) with (String ":" (" " +:+ t)). by rewrite HasPrefix_char. Qed.

Lemma field_event x n d : sse_field ("event: " +:+ x) n d = (x, d).
Proof.
  unfold sse_field. change ("event: " +:+ x) with ("event" +:+ String ":" (" " +:+ x)).
  change ("event" +:+ String ":" (" " +:+ x)) with (String "e" ("vent" +:+ String ":" (" " +:+ x))) at 1. rewrite HasPrefix_char.
  change (Ascii.eqb "e" ":") with false. cbn iota. change ":"%string with (String ":" ""). rewrite Cut_char by done.
  by rewrite TrimPrefix_app.
Qed.

Lemma field_data x n d : sse_field ("data: " +:+ x) n d = (n, d +:+ (x +:+ newline)).
Proof.
  unfold sse_field. change ("data: " +:+ x) with ("data" +:+ String ":" (" " +:+ x)).
  change ("data" +:+ String ":" (" " +:+ x)) with (String "d" ("ata" +:+ String ":" (" " +:+ x))) at 1. rewrite HasPrefix_char.
  change (Ascii.eqb "d" ":") with false. cbn iota. change ":"%string with (String ":" ""). rewrite Cut_char by done.
  by rewrite TrimPrefix_app.
Qed.

Section Read.
Context {S : Type} (fn : sseEvent -> S -> bool * S).

Lemma line_field l ls n d e s : l <> "" -> inline l = true -> Z.of_nat (String.length l) < maxLine ->
  sse_lines fn (l :: ls) n d e s = let '(n', d') := sse_field l n d in sse_lines fn ls n' d' e s.
Proof.
  intros Hne Hl Hlen. cbn [sse_lines]. rewrite (proj2 (Z.leb_gt _ _)) by done. rewrite drop_cr_inline by done. by rewrite seqb_ne.
Qed.

Lemma line_blank ls n d e s :
  sse_lines fn ("" :: ls) n d e s = let '(go_on, s) := sse_flush fn n d s in if go_on then sse_lines fn ls "" "" e s else (None, s).
Proof. reflexivity. Qed.

Lemma flush_event n d s : n <> "" -> sse_flush fn n ("" +:+ (d +:+ newline)) s = fn (mkSSEEvent n d) s.
Proof.
  intros Hn. unfold sse_flush. rewrite seqb_ne by done. cbn [andb]. change ("" +:+ (d +:+ newline)) with (d +:+ newline).
  by rewrite TrimSuffix_newline.
Qed.

Lemma short_app p s : short s -> (String.length p <= 7)%nat -> Z.of_nat (String.length (p +:+ s)) < maxLine.
Proof. unfold short. rewrite app_length_string. lia. Qed.

(** One frame, then the rest. *)
Lemma read_frame f rest e s : frame_ok f ->
  sse_lines fn (scan_lines "" (render f +:+ rest)) "" "" e s =
  match f with
  | FComment _ => sse_lines fn (scan_lines "" rest) "" "" e s
  | FEvent n d => let '(go_on, s') := fn (mkSSEEvent n d) s in if go_on then sse_lines fn (scan_lines "" rest) "" "" e s' else (None, s')
  end.
Proof.
  destruct f as [t|n d]; cbn [frame_ok render].
  - intros [Ht Hl]. rewrite !app_string_assoc. rewrite <- (app_string_assoc ": " t), scan_line by (by rewrite inline_app, Ht).
    change (newline +:+ rest) with ("" +:+ (newline +:+ rest)). rewrite scan_line by done.
    rewrite line_field; [|done|by rewrite inline_app, Ht|by apply short_app; [|cbn; lia]]. rewrite field_comment.
    by rewrite line_blank.
  - intros (Hn & _ & Hin & Hid & Hln & Hld). rewrite !app_string_assoc. rewrite <- (app_string_assoc "event: " n), scan_line by (by rewrite inline_app, Hin).
    rewrite <- (app_string_assoc "data: " d), scan_line by (by rewrite inline_app, Hid).
    change (newline +:+ rest) with ("" +:+ (newline +:+ rest)). rewrite scan_line by done.
    rewrite line_field; [|done|by rewrite inline_app, Hin|by apply short_app; [|cbn; lia]]. rewrite field_event.
    rewrite line_field; [|done|by rewrite inline_app, Hid|by apply short_app; [|cbn; lia]]. rewrite field_data.
    rewrite line_blank, flush_event by done. reflexivity.
Qed.

(** The end of the input, between two lines. *)
Lemma read_end n d e s (r := sse_lines fn [] n d e s) : r.1 = e /\ (r.2 = s \/ r.2 = (sse_flush fn n d s).2).
Proof. unfold r. destruct e; cbn; split; auto. Qed.

Lemma newline_cut r q : newline +:+ newline = r +:+ q -> r <> "" -> q <> "" -> r = newline.
Proof.
  intros E Hr Hq. destruct r as [|c [|d r]]; [done| |].
  - rewrite app_String in E. by injection E as <- _.
  - exfalso. rewrite !app_String in E. injection E as _ _ E. by destruct r, q.
Qed.

(** A line that the end cuts short. *)
Lemma read_last p n d e s : inline p = true -> Z.of_nat (String.length p) < maxLine ->
  sse_lines fn (scan_lines "" p) n d e s = let '(n', d') := if p =?s "" then (n, d) else sse_field p n d in sse_lines fn [] n' d' e s.
Proof.
  intros Hp Hl. rewrite scan_last by done. destruct (String.eqb_spec p "") as [->|Hne]; [done|]. by rewrite line_field.
Qed.

(** What of "event: " or "data: " the end leaves sets no data, or blank data. *)
Lemma field_part_event p r n : "event: " = p +:+ r -> p <> "" -> exists n', sse_field p n "" = (n', "").
Proof.
  intros E Hp. apply prefixes_spec in E. cbn in E. intuition (subst; try done); by eexists.
Qed.

Lemma field_part_data p r n : "data: " = p +:+ r -> p <> "" -> sse_field p n "" = (n, "") \/ sse_field p n "" = (n, newline).
Proof.
  intros E Hp. apply prefixes_spec in E. cbn in E. intuition (subst; try done); auto.
Qed.

(** What a cut frame leaves to [fn]. *)
Definition cut_event (f : frame) (s s' : S) : Prop :=
  s' = s \/
  exists n d, f = FEvent n d /\
    (s' = (fn (mkSSEEvent n d) s).2 \/ exists n' d' x, d = d' +:+ x /\ x <> "" /\ s' = (fn (mkSSEEvent n' d') s).2).

Lemma cut_comment t p q e s (r := sse_lines fn (scan_lines "" p) "" "" e s) :
  frame_ok (FComment t) -> render (FComment t) = p +:+ q -> q <> "" -> r.1 = e /\ r.2 = s.
Proof.
  intros [Ht Hl] E Hq. cbn [render] in E. rewrite <- app_string_assoc in E.
  assert (inline (": " +:+ t) = true) as Hin by (by rewrite inline_app, Ht).
  assert (forall e, (sse_lines fn [] "" "" e s).1 = e /\ (sse_lines fn [] "" "" e s).2 = s) as Hend by (by intros [|]).
  destruct (cut_app _ _ _ _ (eq_sym E)) as [(x & Ep & _)|(x & -> & Ex & Hx)].
  - assert (inline p = true /\ Z.of_nat (String.length p) < maxLine) as [H1 H2].
    { rewrite Ep, inline_app in Hin. apply andb_true_iff in Hin as [? _]. split; [done|].
      pose proof (short_app ": " t Hl ltac:(cbn; lia)) as Hsh. rewrite Ep, app_length_string in Hsh. lia. }
    unfold r. rewrite read_last by done. destruct (String.eqb_spec p "") as [->|Hne]; [apply Hend|].
    destruct p as [|c p]; [done|]. change (": " +:+ t) with (String ":" (" " +:+ t)) in Ep. rewrite app_String in Ep.
    injection Ep as <- _. unfold sse_field. rewrite HasPrefix_char. apply Hend.
  - pose proof (newline_cut x q Ex Hx Hq) as Hnl. subst x. unfold r. rewrite <- (string_app_nil newline), scan_line by done. cbn [scan_lines].
    rewrite line_field; [|done|done|by apply short_app; [|cbn; lia]]. rewrite field_comment. apply Hend.
Qed.

Lemma cut_data n d p q e s (r := sse_lines fn (scan_lines "" p) n "" e s) :
  frame_ok (FEvent n d) -> "data: " +:+ (d +:+ (newline +:+ newline)) = p +:+ q -> q <> "" -> r.1 = e /\ cut_event (FEvent n d) s r.2.
Proof.
  intros (Hn & Hd & Hin & Hid & Hln & Hld) E Hq. rewrite <- app_string_assoc in E.
  assert (inline ("data: " +:+ d) = true) as Hind by (by rewrite inline_app, Hid).
  assert (forall n' d' (r := sse_lines fn [] n' d' e s), sse_flush fn n' d' s = (true, s) \/
     (exists x y, d = x +:+ y /\ sse_flush fn n' d' s = fn (mkSSEEvent n' x) s /\ (y = "" -> n' = n)) -> r.1 = e /\ cut_event (FEvent n d) s r.2) as Hend.
  { intros n' d' r' H. destruct (read_end n' d' e s) as [H1 H2]. split; [done|]. destruct H2 as [H2|H2]; [by left|].
    unfold r'. rewrite H2. destruct H as [->|(x & y & -> & -> & Hy)]; [by left|]. right. exists n, (x +:+ y). split; [done|].
    destruct (String.eqb_spec y "") as [->|Hne]; [left; by rewrite string_app_nil, Hy|right; by exists n', x, y]. }
  assert (forall d', d' = "" \/ d' = newline -> exists x y, d = x +:+ y /\ sse_flush fn n d' s = fn (mkSSEEvent n x) s /\ (y = "" -> n = n)) as Hblank.
  { intros d' H. exists "", d. split; [done|]. split; [|done]. unfold sse_flush. rewrite seqb_ne by done. by destruct H as [-> | ->]. }
  destruct (cut_app _ _ _ _ (eq_sym E)) as [(x & Ep & _)|(x & -> & Ex & Hx)].
  - assert (inline p = true /\ Z.of_nat (String.length p) < maxLine) as [H1 H2].
    { rewrite Ep, inline_app in Hind. apply andb_true_iff in Hind as [? _]. split; [done|].
      pose proof (short_app "data: " d Hld ltac:(cbn; lia)) as Hsh. rewrite Ep, app_length_string in Hsh. lia. }
    unfold r. rewrite read_last by done. destruct (String.eqb_spec p "") as [->|Hne]; [apply Hend; right; by apply Hblank; left|].
    destruct (cut_app _ _ _ _ (eq_sym Ep)) as [(y & Ey & _)|(y & -> & -> & Hy)].
    + destruct (field_part_data p y n Ey Hne) as [-> | ->]; apply Hend; right; apply Hblank; auto.
    + rewrite field_data. apply Hend. right. exists y, x. split; [done|]. split; [by rewrite flush_event|done].
  - pose proof (newline_cut x q Ex Hx Hq) as Hnl. subst x. unfold r. rewrite <- (string_app_nil newline), scan_line by done. cbn [scan_lines].
    rewrite line_field; [|done|done|by apply short_app; [|cbn; lia]]. rewrite field_data. apply Hend. right. exists d, "".
    split; [by rewrite string_app_nil|]. by rewrite flush_event.
Qed.

Lemma cut_frame f p q e s (r := sse_lines fn (scan_lines "" p) "" "" e s) :
  frame_ok f -> render f = p +:+ q -> q <> "" -> r.1 = e /\ cut_event f s r.2.
Proof.
  destruct f as [t|n d]; [intros H1 H2 H3; destruct (cut_comment t p q e s H1 H2 H3) as [? ?]; split; [done|by left]|].
  intros Hok E Hq. pose proof Hok as (Hn & Hd & Hin & _ & Hln & _). cbn [render] in E. rewrite <- app_string_assoc in E.
  assert (inline ("event: " +:+ n) = true) as Hine by (by rewrite inline_app, Hin).
  destruct (cut_app _ _ _ _ (eq_sym E)) as [(x & Ep & _)|(x & -> & Ex & Hx)].
  - assert (inline p = true /\ Z.of_nat (String.length p) < maxLine) as [H1 H2].
    { rewrite Ep, inline_app in Hine. apply andb_true_iff in Hine as [? _]. split; [done|].
      pose proof (short_app "event: " n Hln ltac:(cbn; lia)) as Hsh. rewrite Ep, app_length_string in Hsh. lia. }
    assert (exists n', (if p =?s "" then ("", "") else sse_field p "" "") = (n', "")) as [n' Hf].
    { destruct (String.eqb_spec p "") as [->|Hne]; [by eexists|].
      destruct (cut_app _ _ _ _ (eq_sym Ep)) as [(y & Ey & _)|(y & -> & _)]; [by apply (field_part_event p y)|].
      rewrite field_event. by eexists. }
    unfold r. rewrite read_last, Hf by done. destruct (read_end n' "" e s) as [Hr1 Hr2]. split; [done|].
    destruct Hr2 as [Hr2|Hr2]; rewrite Hr2; [by left|]. unfold sse_flush. destruct ((n' =?s "") && ("" =?s "")); [by left|]. right.
    exists n, d. split; [done|]. right. by exists n', "", d.
  - assert (exists x', x = newline +:+ x' /\ "data: " +:+ (d +:+ (newline +:+ newline)) = x' +:+ q) as (x' & -> & Ex').
    { destruct x as [|c x]; [done|]. change (newline +:+ ?u) with (String (ascii_of_nat 10) u) in Ex. rewrite app_String in Ex.
      injection Ex as <- Ex. by exists x. }
    unfold r. rewrite scan_line by done.
    rewrite line_field; [|done|done|by apply short_app; [|cbn; lia]]. rewrite field_event. by apply (cut_data n d x' q).
Qed.

(** ** All frames *)

Fixpoint feed (fs : list frame) (s : S) : bool * S :=
  match fs with
  | [] => (true, s)
  | FComment _ :: fs' => feed fs' s
  | FEvent n d :: fs' => let '(go_on, s') := fn (mkSSEEvent n d) s in if go_on then feed fs' s' else (false, s')
  end.

Definition render_all (fs : list frame) : string := Join (map render fs) "".

Lemma render_all_cons f fs : render_all (f :: fs) = render f +:+ render_all fs.
Proof. unfold render_all. cbn [map]. destruct fs as [|g fs]; [by rewrite string_app_nil|]. by rewrite Join_cons. Qed.

(** The input ends in some frame, or behind all. *)
Lemma cut_all fs p q e s (r := readSSE fn p e s) : Forall frame_ok fs -> render_all fs = p +:+ q ->
  exists fs1 fs2, fs = fs1 ++ fs2 /\ (q = "" -> fs2 = []) /\
    if (feed fs1 s).1
    then r.1 = e /\ match fs2 with [] => r.2 = (feed fs1 s).2 | f :: _ => cut_event f (feed fs1 s).2 r.2 end
    else r.1 = None /\ r.2 = (feed fs1 s).2.
Proof.
  intros HF. revert p s r; induction HF as [|f fs Hf HF IH]; intros p s r E.
  - exists [], []. split; [done|]. split; [done|]. cbn. assert (p = "") as -> by (by destruct p). unfold r, readSSE. by destruct e.
  - rewrite render_all_cons in E. destruct (cut_app _ _ _ _ (eq_sym E)) as [(x & Ef & ->)|(x & -> & Ex & _)].
    + destruct (String.eqb_spec x "") as [->|Hx].
      * rewrite string_app_nil in Ef. subst p. unfold r, readSSE. rewrite <- (string_app_nil (render f)).
        destruct f as [t|n d]; rewrite read_frame by done.
        -- destruct (IH "" s eq_refl) as (fs1 & fs2 & -> & Hq & H). exists (FComment t :: fs1), fs2. split; [done|]. split; [exact Hq|exact H].
        -- cbn [feed]. destruct (fn (mkSSEEvent n d) s) as [[] s'] eqn:Efn.
           ++ destruct (IH "" s' eq_refl) as (fs1 & fs2 & -> & Hq & H). exists (FEvent n d :: fs1), fs2. split; [done|]. split; [exact Hq|].
              cbn [feed]. rewrite Efn. exact H.
           ++ exists (FEvent n d :: fs), []. rewrite app_nil_r. split; [done|]. split; [done|]. cbn [feed]. by rewrite Efn.
      * exists [], (f :: fs). split; [done|]. split; [intros H; exfalso; apply Hx; by destruct x|]. cbn [feed fst snd].
        unfold r, readSSE. destruct (cut_frame f p x e s Hf Ef Hx) as [H1 H2]. done.
    + unfold r, readSSE. destruct f as [t|n d]; rewrite read_frame by done.
      * destruct (IH x s Ex) as (fs1 & fs2 & -> & Hq & H). exists (FComment t :: fs1), fs2. split; [done|]. split; [exact Hq|exact H].
      * destruct (fn (mkSSEEvent n d) s) as [[] s'] eqn:Efn.
        -- destruct (IH x s' Ex) as (fs1 & fs2 & -> & Hq & H). exists (FEvent n d :: fs1), fs2. split; [done|]. split; [exact Hq|].
           cbn [feed]. rewrite Efn. exact H.
        -- exists (FEvent n d :: fs), []. rewrite app_nil_r. split; [done|]. split; [done|]. cbn [feed]. by rewrite Efn.
Qed.
End Read.

(** ** The two streams *)

Section Streams.
Context {json : JSON}.

(** The text of a JSON object: on one line, not too long for the scanner, and
    no beginning of it is JSON. *)
Definition json_text (t : string) : Prop :=
  t <> "" /\ inline t = true /\ short t /\
  forall T (s : shape T) p x, t = p +:+ x -> x <> "" -> exists e, Unmarshal s p = Err e.

Definition crosses {T} (s : shape T) (v : T) : Prop := exists t, Marshal s v = Ok t /\ Unmarshal s t = Ok v /\ json_text t.

Definition text_of {T} (s : shape T) (v : T) : string := match Marshal s v with Ok t => t | Err _ => "" end.

Lemma carried_text {T} (s : shape T) v : crosses s v -> Marshal s v = Ok (text_of s v) /\ Unmarshal s (text_of s v) = Ok v /\ json_text (text_of s v).
Proof. intros (t & H & H'). unfold text_of. by rewrite H. Qed.

Lemma carried_frame {T} (s : shape T) v n : crosses s v -> n <> "" -> inline n = true -> short n ->
  sse_send n s v = Ok (render (FEvent n (text_of s v))) /\ sent n s v = [render (FEvent n (text_of s v))] /\ frame_ok (FEvent n (text_of s v)).
Proof.
  intros H Hn Hi Hs. destruct (carried_text s v H) as (Hm & _ & Ht & Hti & Hts & _).
  unfold sent, sse_send. rewrite Hm. by split_and!.
Qed.

(** *** GET /events/stream *)

Definition item_carried (i : StreamItem) : Prop := match i with IChange c => crosses JChange c | IEvent e => crosses JEvent e end.
Definition wake_item (w : stream_wake) : option StreamItem := match w with SPing => None | SItem i => Some i end.
Definition stream_items (l : list stream_wake) : list StreamItem := omap wake_item l.

Definition wake_frame (w : stream_wake) : frame :=
  match w with
  | SPing => FComment "ping"
  | SItem (IEvent e) => FEvent SSEEvent (text_of JEvent e)
  | SItem (IChange c) => FEvent SSEChange (text_of JChange c)
  end.

(** What [eventStream] writes. *)
Definition stream_text (l : list stream_wake) : string := Join (sse_comment "connected" :: stream_loop l) "".

Lemma stream_loop_frames l : Forall item_carried (stream_items l) ->
  stream_loop l = map render (map wake_frame l) /\ Forall frame_ok (map wake_frame l).
Proof.
  induction l as [|[|[c|e]] l IH]; intros HF; [done| | |]; unfold stream_items in HF; csimpl in HF; cbn [wake_item] in HF.
  - destruct (IH HF) as [E ?]. cbn [stream_loop map]. rewrite E. split; [done|by constructor].
  - apply Forall_cons in HF as [Hc HF]. destruct (IH HF) as [E ?].
    destruct (carried_frame JChange c SSEChange Hc) as (Hs & _ & Hok); try done.
    cbn [stream_loop map wake_frame]. rewrite Hs, E. split; [done|by constructor].
  - apply Forall_cons in HF as [Hc HF]. destruct (IH HF) as [E ?].
    destruct (carried_frame JEvent e SSEEvent Hc) as (Hs & _ & Hok); try done.
    cbn [stream_loop map wake_frame]. rewrite Hs, E. split; [done|by constructor].
Qed.

Local Abbreviation take_item := (fun ev l => (true, match stream_item ev with Some i => l ++ [i] | None => l end)).

Lemma item_read i : item_carried i -> exists n d, wake_frame (SItem i) = FEvent n d /\ stream_item (mkSSEEvent n d) = Some i /\ json_text d.
Proof.
  destruct i as [c|e]; intros H; destruct (carried_text _ _ H) as (_ & Hu & Ht); do 2 eexists; (split; [reflexivity|]);
    (split; [|exact Ht]); unfold stream_item; cbn [sse_Name sse_Data]; by rewrite Hu.
Qed.

Lemma feed_items l acc : Forall item_carried (stream_items l) -> feed take_item (map wake_frame l) acc = (true, acc ++ stream_items l).
Proof.
  revert acc; induction l as [|[|i] l IH]; intros acc HF; [by rewrite app_nil_r|by apply IH|].
  unfold stream_items in HF. csimpl in HF. cbn [wake_item] in HF. apply Forall_cons in HF as [Hi HF].
  destruct (item_read i Hi) as (n & d & Hf & Hs & _). cbn [map]. rewrite Hf. cbn [feed]. rewrite Hs. rewrite IH by done.
  change (stream_items (SItem i :: l)) with (i :: stream_items l). by rewrite <- app_assoc.
Qed.

Lemma blank_item n d d' x : json_text d -> d = d' +:+ x -> x <> "" -> stream_item (mkSSEEvent n d') = None.
Proof.
  intros (_ & _ & _ & H) E Hx. unfold stream_item. cbn [sse_Name sse_Data].
  destruct (H _ JChange d' x E Hx) as [e1 ->], (H _ JEvent d' x E Hx) as [e2 ->]. by destruct (n =?s SSEChange), (n =?s SSEEvent).
Qed.

Lemma event_stream_read l p q err : Forall item_carried (stream_items l) -> stream_text l = p +:+ q ->
  exists k, Events_items p err = take k (stream_items l) /\ (q = "" -> k = length (stream_items l)).
Proof.
  intros HF E. destruct (stream_loop_frames l HF) as [El Hok]. unfold stream_text in E. rewrite El in E.
  change (sse_comment "connected" :: map render (map wake_frame l)) with (map render (FComment "connected" :: map wake_frame l)) in E.
  destruct (cut_all take_item (FComment "connected" :: map wake_frame l) p q err []) as (fs1 & fs2 & Efs & Hq & H); [by constructor|done|].
  unfold Events_items. destruct fs1 as [|f0 fs1].
  { exists 0%nat. cbn in Efs. subst fs2. cbn [feed fst snd] in H. destruct H as [_ H]. destruct H as [H|(n & d & [=] & _)].
    split; [by rewrite H|]. intros Hq'. by specialize (Hq Hq'). }
  cbn in Efs. injection Efs as <- Efs.
  assert (exists l1 l2, l = l1 ++ l2 /\ fs1 = map wake_frame l1 /\ fs2 = map wake_frame l2) as (l1 & l2 & -> & -> & ->).
  { destruct (map_eq_app _ _ _ _ Efs) as (l1 & l2 & -> & H1 & H2). by exists l1, l2. }
  unfold stream_items in *. rewrite omap_app in HF. apply Forall_app in HF as [HF1 HF2].
  cbn [feed] in H. rewrite feed_items in H by done. cbn [fst snd app] in H. destruct H as [_ H]. rewrite omap_app.
  assert (q = "" -> l2 = []) as Hq2 by (intros Hq'; specialize (Hq Hq'); by destruct l2).
  destruct l2 as [|w l2]; cbn [map] in H.
  { exists (length (omap wake_item l1)). rewrite app_nil_r, take_ge by lia. split; [exact H|done]. }
  destruct H as [H|(n & d & Ew & H)].
  - exists (length (omap wake_item l1)). rewrite take_app_length. split; [exact H|]. intros Hq'. by specialize (Hq2 Hq').
  - destruct w as [|i]; [discriminate Ew|]. change (omap wake_item (SItem i :: l2)) with (i :: omap wake_item l2) in *.
    apply Forall_cons in HF2 as [Hi _]. destruct (item_read i Hi) as (n' & d' & Ew' & Hs & Ht). rewrite Ew in Ew'. injection Ew' as <- <-.
    destruct H as [H|(n' & d' & x & Ed & Hx & H)]; cbn [fst snd] in H.
    + rewrite Hs in H. exists (length (omap wake_item l1) + 1)%nat. rewrite take_app_add. cbn [take].
      split; [exact H|]. intros Hq'. by specialize (Hq2 Hq').
    + rewrite (blank_item n' d d' x Ht Ed Hx) in H. exists (length (omap wake_item l1)). rewrite take_app_length.
      split; [exact H|]. intros Hq'. by specialize (Hq2 Hq').
Qed.

(** *** POST /speed *)

Definition speed_result (res : result error SpeedResult) : result error SpeedResult :=
  match res with
  | Ok v => Ok v
  | Err e => Err (EAPI (StatusFor (Some (Errorf (KindOf (Some e)) "" ""))) (KindOf (Some e)) (ErrorString e) (er_Hint (ErrorBody e)))
  end.

Definition speed_carried (ps : list SpeedProgress) (res : result error SpeedResult) : Prop :=
  Forall (crosses JProgress) ps /\ match res with Ok v => crosses JSpeed v | Err e => crosses JError (ErrorBody e) end.

Definition progress_frame (p : SpeedProgress) : frame := FEvent SSEProgress (text_of JProgress p).
Definition final_frame (res : result error SpeedResult) : frame :=
  match res with Ok v => FEvent SSEResult (text_of JSpeed v) | Err e => FEvent SSEError (text_of JError (ErrorBody e)) end.

Lemma speed_frames_render ps res : speed_carried ps res ->
  speed_frames (ps, res) = map render (map progress_frame ps ++ [final_frame res]) /\ Forall frame_ok (map progress_frame ps ++ [final_frame res]).
Proof.
  intros [Hp Hr]. unfold speed_frames. cbn [fst snd].
  assert (concat (map (sent SSEProgress JProgress) ps) = map render (map progress_frame ps) /\ Forall frame_ok (map progress_frame ps)) as [-> H1].
  { clear Hr. induction Hp as [|p ps Hp _ [IH1 IH2]]; [done|]. destruct (carried_frame JProgress p SSEProgress Hp) as (_ & E & ?); try done.
    cbn [map List.concat]. rewrite E, IH1. split; [done|by constructor]. }
  rewrite map_app. destruct res as [v|e].
  - destruct (carried_frame JSpeed v SSEResult Hr) as (_ & -> & ?); try done. split; [done|]. apply Forall_app. split; [done|by constructor].
  - destruct (carried_frame JError (ErrorBody e) SSEError Hr) as (_ & -> & ?); try done. split; [done|]. apply Forall_app. split; [done|by constructor].
Qed.

Lemma feed_progress ps done_ : Forall (crosses JProgress) ps ->
  feed speed_event (map progress_frame ps) (mkSpeedState done_ None None) = (true, mkSpeedState (done_ ++ ps) None None).
Proof.
  intros HF. revert done_; induction HF as [|p ps Hp HF IH]; intros acc; [by rewrite app_nil_r|].
  cbn [map feed progress_frame]. destruct (carried_text _ _ Hp) as (_ & Hu & _). unfold speed_event at 1. cbn [sse_Name sse_Data].
  rewrite Hu. cbn [ss_progress ss_result ss_error]. change (SSEProgress =?s SSEProgress) with true. cbn iota. rewrite IH. by rewrite <- app_assoc.
Qed.

(** A piece of a value is no progress, and no result. *)
Lemma speed_cut n d d' x ps : json_text d -> d = d' +:+ x -> x <> "" ->
  let s := (speed_event (mkSSEEvent n d') (mkSpeedState ps None None)).2 in ss_progress s = ps /\ ss_result s = None.
Proof.
  intros (_ & _ & _ & H) E Hx. unfold speed_event. cbn [sse_Name sse_Data].
  destruct (H _ JProgress d' x E Hx) as [e1 ->], (H _ JSpeed d' x E Hx) as [e2 ->].
  by destruct (n =?s SSEProgress), (n =?s SSEResult), (n =?s SSEError).
Qed.

Lemma speed_final ps res : speed_carried ps res ->
  let '(go_on, s) := feed speed_event [final_frame res] (mkSpeedState ps None None) in
  go_on = false /\ ss_progress s = ps /\
  match ss_error s, ss_result s with
  | Some e, _ => Err e
  | None, Some r => Ok r
  | None, None => Err (ELeaf "client: speed stream ended without a result")
  end = speed_result res.
Proof.
  intros [_ Hr]. destruct res as [v|e]; destruct (carried_text _ _ Hr) as (_ & Hu & _); cbn [final_frame feed]; unfold speed_event;
    cbn [sse_Name sse_Data]; rewrite Hu; by split_and!.
Qed.

Lemma feed_app {S} (fn : sseEvent -> S -> bool * S) a b s :
  feed fn (a ++ b) s = let '(go_on, s') := feed fn a s in if go_on then feed fn b s' else (false, s').
Proof.
  revert s; induction a as [|[t|n d] a IH]; intros s; [done|apply IH|]. cbn [feed app].
  destruct (fn (mkSSEEvent n d) s) as [[] s']; [apply IH|done].
Qed.

Lemma snoc_app {A} (l a b : list A) x : l ++ [x] = a ++ b ->
  (exists b', l = a ++ b' /\ b = b' ++ [x]) \/ (a = l ++ [x] /\ b = []).
Proof.
  intros E. destruct b as [|y b0] eqn:Eb; [right; by rewrite app_nil_r in E|left].
  destruct (exists_last (l := y :: b0)) as (b' & z & Ez); [done|]. rewrite Ez in *. rewrite app_assoc in E.
  apply app_inj_tail in E as [-> ->]. by exists b'.
Qed.

(** The stream ended before its last frame was read: no result. *)
Definition unfinished (s : speed_state) : Prop := ss_result s = None.

Lemma speed_cut_state ps res f rest ps1 ps2 s : speed_carried ps res -> ps = ps1 ++ ps2 ->
  f :: rest = map progress_frame ps2 ++ [final_frame res] ->
  cut_event speed_event f (mkSpeedState ps1 None None) s ->
  (exists k, ss_progress s = take k ps) /\
  (unfinished s \/ (exists go_on, feed speed_event [final_frame res] (mkSpeedState ps None None) = (go_on, s))).
Proof.
  intros [HF Hr] -> Ef H. assert (ps1 = take (length ps1) (ps1 ++ ps2)) as Hk by (by rewrite take_app_length).
  destruct H as [->|(n & d & -> & H)]; [split; [by exists (length ps1)|by left]|].
  assert (json_text d) as Hd.
  { destruct ps2 as [|p0 ps2]; cbn in Ef.
    - destruct res as [v|e]; injection Ef as _ -> _; apply (carried_text _ _ Hr).
    - injection Ef as _ -> _. apply Forall_app in HF as [_ HF]. apply Forall_cons in HF as [Hp _]. apply (carried_text _ _ Hp). }
  destruct H as [->|(n' & d' & x & Ed & Hx & ->)].
  - destruct ps2 as [|p0 ps2]; cbn in Ef.
    + rewrite app_nil_r in *. assert (FEvent n d = final_frame res) as Ef' by congruence. rewrite <- Ef'. cbn [feed].
      pose proof (speed_final ps1 res (conj HF Hr)) as Hfin. rewrite <- Ef' in Hfin. cbn [feed] in Hfin.
      destruct (speed_event (mkSSEEvent n d) (mkSpeedState ps1 None None)) as [go s']. cbn [fst snd] in *.
      destruct go; [by destruct Hfin|]. destruct Hfin as (_ & -> & _). split; [by exists (length ps1)|right; by exists false].
    + injection Ef as Hn Hd' _. subst n d. apply Forall_app in HF as [_ HF]. apply Forall_cons in HF as [Hp _].
      pose proof (feed_progress [p0] ps1 ltac:(by constructor)) as Hf. cbn [map feed progress_frame] in Hf.
      destruct (speed_event _ _) as [go s']. destruct go; [|done]. injection Hf as ->. cbn [snd ss_progress]. split; [|by left].
      exists (length ps1 + 1)%nat. by rewrite take_app_add.
  - destruct (speed_cut n' d d' x ps1 Hd Ed Hx) as [H1 H2]. rewrite H1. split; [by exists (length ps1)|by left].
Qed.

Lemma speed_stream_read ps res p q err : speed_carried ps res -> Join (speed_frames (ps, res)) "" = p +:+ q ->
  (q = "" -> Speed_stream p err = (ps, speed_result res)) /\
  (exists k, (Speed_stream p err).1 = take k ps) /\ (forall v, (Speed_stream p err).2 = Ok v -> res = Ok v).
Proof.
  intros Hc E. destruct (speed_frames_render ps res Hc) as [Er Hok]. rewrite Er in E.
  destruct (cut_all speed_event _ p q err (mkSpeedState [] None None) Hok E) as (fs1 & fs2 & Efs & Hq & H).
  pose proof Hc as [HF _]. pose proof (speed_final ps res Hc) as Hfin. unfold Speed_stream.
  destruct (readSSE speed_event p err (mkSpeedState [] None None)) as [re s] eqn:Ers. cbn [fst snd] in H |- *.
  assert (forall v, speed_result res = Ok v -> res = Ok v) as Hres by (by destruct res).
  destruct (snoc_app _ _ _ _ Efs) as [(fs2' & Em & ->)|[-> ->]].
  - destruct (map_eq_app _ _ _ _ Em) as (ps1 & ps2 & Eps & <- & <-).
    assert (Forall (crosses JProgress) ps1) as HF1 by (rewrite Eps in HF; by apply Forall_app in HF as [? _]).
    rewrite (feed_progress ps1 [] HF1) in H. cbn [fst snd app] in H. destruct H as [-> H].
    destruct (map progress_frame ps2 ++ [final_frame res]) as [|f rest] eqn:Ef; [by destruct (map progress_frame ps2)|].
    destruct (speed_cut_state ps res f rest ps1 ps2 s Hc Eps (eq_sym Ef) H) as [Hk Hs].
    split; [intros Hq'; by specialize (Hq Hq')|]. split; [exact Hk|]. intros v Hv. apply Hres. destruct Hs as [Hs|[go Hs]].
    + rewrite Hs in Hv. by destruct (ss_error s), err.
    + rewrite Hs in Hfin. destruct Hfin as (_ & _ & Hfin). rewrite <- Hfin. by destruct (ss_error s), err, (ss_result s).
  - rewrite feed_app, (feed_progress ps [] HF) in H. cbn [app] in H.
    destruct (feed speed_event [final_frame res] (mkSpeedState ps None None)) as [go s'] eqn:Ef. destruct Hfin as (-> & Hps & Hfin).
    cbn [fst snd] in H. destruct H as [-> ->]. rewrite Hps, <- Hfin. split; [intros _; by destruct (ss_error s'), (ss_result s')|].
    split; [exists (length ps); by rewrite take_ge|]. intros v Hv. apply Hres. rewrite <- Hfin. by destruct (ss_error s'), (ss_result s').
Qed.

(** C26: The streams survive a connection that ends anywhere.  The client gets
    the items of GET /events/stream in order and without heartbeats, up to
    where the connection ended; and of POST /speed the progress up to there,
    and a result only if it is the one the server sent whole.  A stream that
    was read to its end gives every item, and the result or the error with its
    kind, message and hint. *)
Theorem streams_survive l ps res p q err :
  Forall item_carried (stream_items l) -> speed_carried ps res ->
  (stream_text l = p +:+ q ->
     exists k, Events_items p err = take k (stream_items l) /\ (q = "" -> k = length (stream_items l))) /\
  (Join (speed_frames (ps, res)) "" = p +:+ q ->
     (q = "" -> Speed_stream p err = (ps, speed_result res)) /\
     (exists k, (Speed_stream p err).1 = take k ps) /\
     (forall v, (Speed_stream p err).2 = Ok v -> res = Ok v)).
Proof. intros Hl Hs. split; [by apply event_stream_read|by apply speed_stream_read]. Qed.
End Streams.

(** ** An example *)

Local Abbreviation tiny_progress := (mkSpeedProgress "download" f_one f_two 4096).
Local Abbreviation tiny_event := (mkEvent second EventConnected "home" "up" "" "low" ∅).
Local Abbreviation tiny_failure := nm_ErrUnavailable.

(** One text each, of one byte. *)
Definition byte_json : JSON := {|
  Marshal := fun T s => match s with
                        | JProgress => fun _ => Ok "p"
                        | JEvent => fun _ => Ok "e"
                        | JError => fun _ => Ok "x"
                        | _ => fun _ => Err "not carried"
                        end;
  Unmarshal := fun T s t =>
    if t =?s "" then Err "unexpected end of JSON input"
    else match s with
         | JProgress => Ok tiny_progress
         | JEvent => Ok tiny_event
         | JError => Ok (ErrorBody tiny_failure)
         | _ => Err "not carried"
         end;
  UnmarshalStrict := fun T s t => Err "not carried"
|}.

Lemma byte_text (c : Ascii.ascii) : inline (String c "") = true -> json_text (json := byte_json) (String c "").
Proof.
  intros Hc. split_and!; [done|done|unfold short; cbn; unfold maxLine; lia|].
  intros T s [|d [|d' p]] x E Hx; [by eexists| |]; injection E as _ E; [destruct Hx; exact (eq_sym E)|done].
Qed.

Local Abbreviation tiny_wakes := [SPing; SItem (IEvent tiny_event); SPing; SItem (IEvent tiny_event)].
Local Abbreviation tiny_frames := (Join (speed_frames (json := byte_json) ([tiny_progress; tiny_progress], Err tiny_failure)) "").
Local Abbreviation tiny_cut := (stream_text (json := byte_json) tiny_wakes).

Lemma streams_survive_witness :
  let p := String.substring 0 40 tiny_cut in let q := String.substring 40 1000 tiny_cut in
  (tiny_cut = p +:+ q /\
   exists k, Events_items (json := byte_json) p None = take k [IEvent tiny_event; IEvent tiny_event] /\ (q = "" -> k = 2%nat)) /\
  (Speed_stream (json := byte_json) tiny_frames None).1 = [tiny_progress; tiny_progress].
Proof.
  cbv zeta.
  pose proof (fun p q => streams_survive (json := byte_json) tiny_wakes [tiny_progress; tiny_progress] (Err tiny_failure) p q None) as H.
  assert (forall T (s : shape T) v c, Marshal (JSON := byte_json) s v = Ok (String c "") -> Unmarshal (JSON := byte_json) s (String c "") = Ok v ->
    inline (String c "") = true -> crosses (json := byte_json) s v) as Hc.
  { intros T s v c H1 H2 H3. exists (String c ""). split_and!; [done|done|by apply byte_text]. }
  assert (Forall (item_carried (json := byte_json)) (stream_items tiny_wakes)) as Hi.
  { repeat (apply Forall_cons; split; [by eapply Hc|]). by apply Forall_nil. }
  assert (speed_carried (json := byte_json) [tiny_progress; tiny_progress] (Err tiny_failure)) as Hs.
  { split; [repeat (apply Forall_cons; split; [by eapply Hc|]); by apply Forall_nil|by eapply Hc]. }
  split.
  - assert (tiny_cut = String.substring 0 40 tiny_cut +:+ String.substring 40 1000 tiny_cut) as E by (vm_compute; reflexivity).
    split; [exact E|]. exact (proj1 (H _ _ Hi Hs) E).
  - assert (tiny_frames = tiny_frames +:+ "") as E by (vm_compute; reflexivity).
    destruct (proj2 (H _ _ Hi Hs) E) as (H1 & _). by rewrite (H1 eq_refl).
Defined.
