(* ===== verification/Prober.v ===== *)
(** internal/monitor/prober.go: measuring the way to one address, by ICMP echoes
    over the kernel's ping socket, by TCP connects, or by the one until the
    kernel refuses it and the other from then on; and the time of a DNS query.

    The sockets, the resolver, the clock and the context are operations on a
    world [W]; the packets are those of golang.org/x/net/icmp, whose codec is a
    parameter. *)

From S2P Require Import Prelude GoTime Core Errors GoStrings Netip GoScan Store Engine.

Definition MethodICMP : string := "icmp".
Definition MethodTCP : string := "tcp".

Definition ErrPingSocketDenied : error := ESentinel "monitor.ErrPingSocketDenied"
  "monitor: ping socket denied by kernel; add `net.ipv4.ping_group_range = 0 2147483647` via /etc/sysctl.d/50-bnm.conf (then `sysctl --system`), or bnm falls back to TCP connect timing".
Definition ErrNoAddress : error := ESentinel "monitor.ErrNoAddress" "monitor: no address for target".

Definition defaultEchoes : Z := 3.
Definition defaultEchoTimeout : Duration := 1500 * millisecond.
Definition defaultEchoGap : Duration := 100 * millisecond.
Definition echoPayloadSize : Z := 32.

(** What [Probe] returns; a failure to probe comes with -1 and 1. *)
Record probed := mkProbed { pr_rtt : float64; pr_loss : float64; pr_method : string; pr_err : option error }.

Definition failed (method : string) (e : error) : probed := mkProbed f_minus_one f_one method (Some e).

Definition lossOf (rtts : list float64) (sent : Z) : float64 :=
  if sent <=? 0 then f_one else f_div (f_of_Z (sent - len rtts)) (f_of_Z sent).

(** What a probe that ends without an error returns. *)
Definition summary (method : string) (rtts : list float64) (sent : Z) : probed :=
  mkProbed (median rtts) (lossOf rtts sent) method None.

(** [float64(d) / float64(time.Millisecond)] *)
Definition ms_of (d : Duration) : float64 := f_div (f_of_Z d) (f_of_Z millisecond).

(** ** The world *)

(** An ICMP message: the type by protocol and number, and the echo it holds. *)
Inductive icmp_type := ICMPv4 (n : Z) | ICMPv6 (n : Z).
Record icmp_echo := mkEcho { ec_ID : Z; ec_Seq : Z; ec_Data : string }.
Record icmp_message := mkMessage { im_Type : icmp_type; im_Body : option icmp_echo }.

Definition echo_reply (t : icmp_type) : bool := match t with ICMPv4 n => n =? 0 | ICMPv6 n => n =? 129 end.

Record ProbeNet (W : Type) := mkProbeNet {
  pn_Now : W -> Time * W;
  pn_Done : W -> bool * W;                              (* [ctx.Err() != nil] *)
  pn_Deadline : option Time;                            (* [ctx.Deadline()] *)
  pn_Pause : Duration -> W -> bool * W;                 (* the select between two echoes: [ctx.Done()] came first *)
  pn_Lookup : string -> W -> result error (list Addr) * W;
  pn_Listen : string -> string -> W -> option error * W;
  pn_Rand : W -> result error string * W;               (* eight bytes *)
  pn_Write : Addr -> string -> W -> option error * W;
  pn_Read : Time -> W -> option string * W;             (* up to the deadline; [None] is any error *)
  pn_Dial : string -> Duration -> W -> option error * W (* and the connection closed *)
}.
Arguments pn_Now {W}. Arguments pn_Done {W}. Arguments pn_Deadline {W}. Arguments pn_Pause {W}. Arguments pn_Lookup {W}.
Arguments pn_Listen {W}. Arguments pn_Rand {W}. Arguments pn_Write {W}. Arguments pn_Read {W}. Arguments pn_Dial {W}.

(** A prober over the world: its own state is a part of it. *)
Definition Prober (S : Type) : Type := string -> S -> probed * S.

(** [positive] or the default: [count], [timeout] and [gap] of both probers. *)
Definition or_default (v def : Z) : Z := if 0 <? v then v else def.

(** ** ICMP *)

(** [net.ParseIP]: no zone.  [ip.To4() != nil]: also an IPv4 address in IPv6. *)
Definition ParseIP (s : string) : option Addr :=
  match ParseAddr s with Some (A6 _ zone) as a => if zone =?s "" then a else None | a => a end.

Definition is_To4 (a : Addr) : bool :=
  match a with
  | A4 _ => true
  | A6 b _ => forallb (Z.eqb 0) (firstn 10 b) && forallb (Z.eqb 255) (firstn 2 (skipn 10 b))
  end.

(** [binary.BigEndian.PutUint64] and [Uint64]. *)
Definition be64 (n : Z) : string :=
  byte_str (map (fun i => Z.to_nat (Z.land (Z.shiftr n (8 * i)) 255)) [7; 6; 5; 4; 3; 2; 1; 0]).

Definition read_be64 (s : string) : Z := fold_left (fun n b => 256 * n + Z.of_nat b) (bytes_of s) 0.

Section ICMP.
Context {W : Type} (net : ProbeNet W).

(** x/net/icmp: [Message.Marshal] of an echo, and [ParseMessage] by protocol;
    and the process id. *)
Context (icmp_Marshal : icmp_message -> result error string) (icmp_Parse : Z -> string -> option icmp_message) (pid : Z).

(** How many packets the socket still has to give, at most. *)
Context (pending : W -> nat).

Record ICMPProber := mkICMPProber { ip_Count : Z; ip_Timeout : Duration; ip_Gap : Duration }.

Definition isPermissionError (err : error) : bool :=
  existsb (errors_Is (Some err)) [ESentinel "syscall.EACCES" "permission denied"; ESentinel "syscall.EPERM" "operation not permitted";
                                  ESentinel "os.ErrPermission" "permission denied"].

(** IPv4 comes first. *)
Definition resolveIP (addr : string) (w : W) : result error Addr * W :=
  match ParseIP addr with
  | Some ip => (Ok ip, w)
  | None =>
      let '(r, w) := pn_Lookup net addr w in
      (match r with
       | Err e => Err (EWrap ("monitor: resolve " +:+ addr +:+ ": " +:+ ErrorString e) [e])
       | Ok addrs =>
           match find is_To4 addrs with
           | Some a => Ok a
           | None =>
               match addrs with
               | a :: _ => Ok a
               | [] => Err (EWrap (ErrorString ErrNoAddress +:+ ": " +:+ addr) [ErrNoAddress])
               end
           end
       end, w)
  end.

(** One packet: the time it gives, if it is the reply to this echo. *)
Definition reply_rtt (proto seq : Z) (token buf : string) (now : Time) : option float64 :=
  match icmp_Parse proto buf with
  | Some (mkMessage ty (Some echo)) =>
      if negb (echo_reply ty) then None
      else if negb (ec_Seq echo =? seq) || (String.length (ec_Data echo) <? 16)%nat || negb (string_take 8 (ec_Data echo) =?s token) then None
      else
        let sent := unix_epoch + int64_of (read_be64 (string_take 8 (string_drop 8 (ec_Data echo)))) in
        let rtt := ms_of (time_Sub now sent) in
        Some (if (rtt <? f_zero)%float then f_zero else rtt)
  | _ => None
  end.

Fixpoint awaitReply (fuel : nat) (proto seq : Z) (token : string) (deadline : Time) (w : W) : option float64 * W :=
  match fuel with
  | O => (None, w)
  | S fuel =>
      let '(r, w) := pn_Read net deadline w in
      let '(now, w) := pn_Now net w in
      match r with
      | None => (None, w)
      | Some buf =>
          match reply_rtt proto seq token buf now with
          | Some rtt => (Some rtt, w)
          | None => awaitReply fuel proto seq token deadline w
          end
      end
  end.

(** The message of an echo: the token, the time it is sent, and zeros. *)
Definition echo_data (token : string) (start : Time) : string :=
  token +:+ be64 (start - unix_epoch) +:+ byte_str (repeat 0%nat (Z.to_nat echoPayloadSize - 16)).

Definition echo_message (v4 : bool) (seq : Z) (data : string) : icmp_message :=
  mkMessage (if v4 then ICMPv4 8 else ICMPv6 128) (Some (mkEcho (Z.land pid 0xffff) seq data)).

(** The echoes that are left; [seq] is the counter of the prober. *)
Fixpoint icmp_loop (p : ICMPProber) (dst : Addr) (token : string) (more : nat) (rtts : list float64) (sent seq : Z) (w : W)
  : probed * (Z * W) :=
  match more with
  | O => (summary MethodICMP rtts sent, (seq, w))
  | S more =>
      let '(stop, w) := if 0 <? sent then pn_Pause net (or_default (ip_Gap p) defaultEchoGap) w else (false, w) in
      if stop then (summary MethodICMP rtts sent, (seq, w))
      else
        let sent := sent + 1 in
        let seq := (seq + 1) mod 2 ^ 32 in
        let sq := Z.land seq 0xffff in
        let '(start, w) := pn_Now net w in
        let v4 := is_To4 dst in
        match icmp_Marshal (echo_message v4 sq (echo_data token start)) with
        | Err e => (failed MethodICMP (EWrap ("monitor: icmp marshal: " +:+ ErrorString e) [e]), (seq, w))
        | Ok wb =>
            let '(err, w) := pn_Write net dst wb w in
            match err with
            | Some _ => icmp_loop p dst token more rtts sent seq w
            | None =>
                let deadline := start + or_default (ip_Timeout p) defaultEchoTimeout in
                let deadline := match pn_Deadline net with Some d => if d <? deadline then d else deadline | None => deadline end in
                let '(r, w) := awaitReply (S (pending w)) (if v4 then 1 else 58) sq token deadline w in
                let rtts := rtts ++ option_list r in
                let '(done_, w) := pn_Done net w in
                if done_ then (summary MethodICMP rtts sent, (seq, w)) else icmp_loop p dst token more rtts sent seq w
            end
        end
  end.

Definition icmp_Probe (p : ICMPProber) : Prober (Z * W) := fun addr s =>
  let '(seq, w) := s in
  let '(r, w) := resolveIP addr w in
  match r with
  | Err e => (failed MethodICMP e, (seq, w))
  | Ok ip =>
      let '(network, listenAddr) := if is_To4 ip then ("udp4", "0.0.0.0") else ("udp6", "::") in
      let '(err, w) := pn_Listen net network listenAddr w in
      match err with
      | Some e =>
          (failed MethodICMP
             (if isPermissionError e then EWrap (ErrorString ErrPingSocketDenied +:+ ": " +:+ ErrorString e) [ErrPingSocketDenied]
              else EWrap ("monitor: icmp listen " +:+ network +:+ ": " +:+ ErrorString e) [e]), (seq, w))
      | None =>
          let '(t, w) := pn_Rand net w in
          match t with
          | Err e => (failed MethodICMP (EWrap ("monitor: icmp token: " +:+ ErrorString e) [e]), (seq, w))
          | Ok token => icmp_loop p ip token (Z.to_nat (or_default (ip_Count p) defaultEchoes)) [] 0 seq w
          end
      end
  end.
End ICMP.

(** ** TCP *)

Definition splitHostPort (addr : string) : string * Z * bool :=
  match SplitHostPort addr with
  | None => (addr, 0, false)
  | Some (h, p) =>
      match Atoi p with
      | Some n => if (n <=? 0) || (65535 <? n) then (addr, 0, false) else (h, n, true)
      | None => (addr, 0, false)
      end
  end.

Section TCP.
Context {W : Type} (net : ProbeNet W) (Quote : string -> string).

Record TCPProber := mkTCPProber { tp_Count : Z; tp_Timeout : Duration; tp_Gap : Duration; tp_Ports : list Z }.

Definition DefaultTCPPorts : list Z := [443; 80; 53].

Definition ports (p : TCPProber) : list Z := match tp_Ports p with [] => DefaultTCPPorts | l => l end.

Definition dialOnce (p : TCPProber) (hostport : string) (w : W) : option float64 * W :=
  let '(start, w) := pn_Now net w in
  let '(err, w) := pn_Dial net hostport (or_default (tp_Timeout p) defaultEchoTimeout) w in
  match err with
  | Some _ => (None, w)
  | None => let '(now, w) := pn_Now net w in (Some (ms_of (time_Sub now start)), w)
  end.

(** The ports in order, until one answers or the context ends. *)
Fixpoint dial_ports (p : TCPProber) (host : string) (l : list Z) (w : W) : option (float64 * Z) * W :=
  match l with
  | [] => (None, w)
  | port :: l =>
      let '(r, w) := dialOnce p (JoinHostPort host (Itoa port)) w in
      match r with
      | Some rtt => (Some (rtt, port), w)
      | None => let '(done_, w) := pn_Done net w in if done_ then (None, w) else dial_ports p host l w
      end
  end.

Fixpoint tcp_loop (p : TCPProber) (host : string) (pts : list Z) (more : nat) (rtts : list float64) (sent chosen : Z) (w : W)
  : probed * W :=
  match more with
  | O => (summary MethodTCP rtts sent, w)
  | S more =>
      let '(stop, w) := if 0 <? sent then pn_Pause net (or_default (tp_Gap p) defaultEchoGap) w else (false, w) in
      if stop then (summary MethodTCP rtts sent, w)
      else
        let sent := sent + 1 in
        let '(r, w) := dial_ports p host (if chosen =? 0 then pts else [chosen]) w in
        let '(rtts, chosen) := match r with Some (rtt, port) => (rtts ++ [rtt], port) | None => (rtts, chosen) end in
        let '(done_, w) := pn_Done net w in
        if done_ then (summary MethodTCP rtts sent, w) else tcp_loop p host pts more rtts sent chosen w
  end.

Definition tcp_Probe (p : TCPProber) : Prober W := fun addr w =>
  let '(host, explicitPort, hasPort) := splitHostPort addr in
  if host =?s "" then (failed MethodTCP (EWrap (ErrorString ErrNoAddress +:+ ": " +:+ Quote addr) [ErrNoAddress]), w)
  else tcp_loop p host (if hasPort then [explicitPort] else ports p) (Z.to_nat (or_default (tp_Count p) defaultEchoes)) [] 0 0 w.
End TCP.

(** ** Auto *)

Section Auto.
Context {S : Type} (icmp tcp : Prober S).

Definition Method (useTCP : bool) : string := if useTCP then MethodTCP else MethodICMP.

Definition auto_Probe (addr : string) (s : bool * S) : probed * (bool * S) :=
  let '(useTCP, s) := s in
  if useTCP then let '(r, s) := tcp addr s in (r, (true, s))
  else
    let '(r, s) := icmp addr s in
    match pr_err r with
    | Some e => if errors_Is (Some e) ErrPingSocketDenied then let '(r, s) := tcp addr s in (r, (true, s)) else (r, (false, s))
    | None => (r, (false, s))
    end.
End Auto.

(** ** DNS *)

Definition dnsNames : list string := ["example.com"; "cloudflare.com"; "wikipedia.org"].
Definition DNSTimeout : Duration := 3 * second.

(** The server a resolver stands for; none for the system's. *)
Definition dns_target (resolver : string) : option string :=
  if resolver =?s "" then None
  else
    let '(host, port, okp) := splitHostPort resolver in
    let '(host, port) := if okp then (host, port) else (resolver, 53) in
    Some (JoinHostPort host (Itoa port)).

(** [DNSProbe] with the counter of the rotation; the resolver answers for the
    server and the name. *)
Definition DNSProbe {W} (net : ProbeNet W) (LookupIPAddr : option string -> string -> Duration -> W -> result error (list Addr) * W)
  (resolver : string) (s : Z * W) : result error float64 * (Z * W) :=
  let '(dnsRotation, w) := s in
  let dnsRotation := (dnsRotation + 1) mod 2 ^ 32 in
  let name := nth (Z.to_nat (((dnsRotation - 1) mod 2 ^ 32) mod 3)) dnsNames "" in
  let '(start, w) := pn_Now net w in
  let '(r, w) := LookupIPAddr (dns_target resolver) name DNSTimeout w in
  match r with
  | Err e => (Err (EWrap ("monitor: dns " +:+ name +:+ ": " +:+ ErrorString e) [e]), (dnsRotation, w))
  | Ok [] => (Err (EWrap ("monitor: dns " +:+ name +:+ ": " +:+ ErrorString ErrNoAddress) [ErrNoAddress]), (dnsRotation, w))
  | Ok _ => let '(now, w) := pn_Now net w in (Ok (ms_of (time_Sub now start)), (dnsRotation, w))
  end.
