(* ===== verification/ProberFacts.v ===== *)
(** What a probe measures: the median and the loss of the echoes that were
    answered, whatever the network does; when it fails; and when the prober
    turns to TCP. *)

From S2P Require Import Prelude GoTime Core Errors GoStrings GoStringsFacts Netip GoScan Store Engine Prober.
From Stdlib Require Import SpecFloat.

(** ** Floats that are not negative *)

Definition not_negative (f : float64) : bool :=
  match f with
  | S754_infinity s | S754_finite s _ _ => negb s
  | S754_zero _ | S754_nan => true
  end.

Lemma round_aux_sign mx ex lx : not_negative (binary_round_aux prec emax false mx ex lx) = true.
Proof.
  unfold binary_round_aux. destruct (shr_fexp _ _ _ _ _) as [mrs e']. destruct (shr_fexp _ _ _ _ _) as [mrs' e''].
  destruct (shr_m mrs'); [done| |done]. by case_test.
Qed.

Lemma normalize_sign m e : 0 <= m -> not_negative (binary_normalize prec emax m e false) = true.
Proof.
  intros Hm. unfold binary_normalize. destruct m as [|p|p]; [done| |lia].
  unfold binary_round. destruct (shl_align _ _ _). apply round_aux_sign.
Qed.

Lemma add_sign a b : not_negative a = true -> not_negative b = true -> not_negative (f_add a b) = true.
Proof.
  unfold f_add, SFadd. destruct a as [[]|[]| |[] ma ea], b as [[]|[]| |[] mb eb]; cbn; try done.
  intros _ _. apply normalize_sign. cbn. lia.
Qed.

Lemma div_sign a m e : not_negative a = true -> not_negative (f_div a (S754_finite false m e)) = true.
Proof.
  unfold f_div, SFdiv. destruct a as [[]|[]| |[] ma ea]; cbn; try done.
  intros _. destruct (SFdiv_core_binary _ _ _ _ _ _) as [[m' e'] l]. apply round_aux_sign.
Qed.

Lemma ms_positive d : 0 <= d -> not_negative (ms_of d) = true.
Proof.
  intros Hd. unfold ms_of. pose proof (normalize_sign d 0 Hd) as H. change (binary_normalize _ _ _ _ _) with (f_of_Z d) in H.
  generalize dependent (f_of_Z d). intros f H. change (f_of_Z millisecond) with (ltac:(let v := eval vm_compute in (f_of_Z millisecond) in exact v)).
  by apply div_sign.
Qed.

Lemma clamped f : not_negative (if (f <? f_zero)%float then f_zero else f) = true.
Proof. by destruct f as [[]|[]| |[] m e]. Qed.

Lemma median_positive l : l <> [] -> Forall (fun f => not_negative f = true) l -> not_negative (median l) = true.
Proof.
  intros Hne HF. unfold median. destruct l as [|x l0] eqn:E; [done|]. rewrite <- E in *. clear E x l0.
  assert (forall i, not_negative (nth i (isort float_le l) f_zero) = true) as H.
  { intros i. destruct (le_lt_dec (length (isort float_le l)) i) as [Hi|Hi]; [by rewrite nth_overflow|].
    rewrite Forall_forall in HF. apply HF. apply isort_elem with (le := float_le), list_elem_of_In. by apply nth_In. }
  case_test; [apply H|]. change f_two with (ltac:(let v := eval vm_compute in f_two in exact v)). apply div_sign. by apply add_sign.
Qed.

(** ** A measurement *)

Definition loss_sound (sent k : nat) : bool :=
  let loss := lossOf (repeat f_zero k) (Z.of_nat sent) in
  (f_zero <=? loss)%float && (loss <=? f_one)%float && Bool.eqb (f_eqb loss f_one) (Nat.eqb k 0) && Bool.eqb (f_eqb loss f_zero) (Nat.eqb k sent).

Lemma loss_table : forallb (fun sent => forallb (loss_sound sent) (seq 0 (S sent))) (seq 1 64) = true.
Proof. vm_compute. reflexivity. Qed.

Lemma loss_all rtts sent : 0 < sent <= 64 -> len rtts <= sent ->
  let loss := lossOf rtts sent in
  (f_zero <=? loss)%float = true /\ (loss <=? f_one)%float = true /\
  (f_eqb loss f_one = true <-> rtts = []) /\ (f_eqb loss f_zero = true <-> len rtts = sent).
Proof.
  intros Hs Hl loss. pose proof loss_table as H. rewrite forallb_forall in H. specialize (H (Z.to_nat sent)).
  rewrite in_seq, forallb_forall in H. specialize (H ltac:(lia) (length rtts)). unfold len in Hl. rewrite in_seq in H. specialize (H ltac:(lia)).
  unfold loss_sound in H. rewrite Z2Nat.id in H by lia.
  replace (lossOf (repeat f_zero (length rtts)) sent) with loss in H by (unfold loss, lossOf, len; by rewrite repeat_length).
  clearbody loss. cbv zeta in H. apply andb_true_iff in H as [[[H1 H2]%andb_true_iff H3%eqb_prop]%andb_true_iff H4%eqb_prop].
  rewrite H3, H4, !Nat.eqb_eq. unfold len. split_and!; [done|done| |lia]. destruct rtts; cbn; split; intros E; lia || done.
Qed.

(** [sent] of at most [n] echoes, of which those in [rtts] were answered. *)
Definition measured (n : Z) (method : string) (rtts : list float64) (sent : Z) (r : probed) : Prop :=
  r = summary method rtts sent /\ 0 < sent <= n /\ len rtts <= sent /\ Forall (fun f => not_negative f = true) rtts.

(** What its reader may rely on: the loss is a fraction, it is 1, and no latency
    is given, exactly when no echo was answered, and 0 exactly when all were. *)
Definition sound (rtts : list float64) (sent : Z) (r : probed) : Prop :=
  (f_zero <=? pr_loss r)%float = true /\ (pr_loss r <=? f_one)%float = true /\
  (f_eqb (pr_loss r) f_one = true <-> rtts = []) /\ (f_eqb (pr_loss r) f_zero = true <-> len rtts = sent) /\
  (pr_rtt r = f_minus_one <-> rtts = []) /\ (rtts <> [] -> not_negative (pr_rtt r) = true).

Lemma measured_sound n method rtts sent r : n <= 64 -> measured n method rtts sent r -> sound rtts sent r.
Proof.
  intros Hn (-> & Hs & Hl & HF). unfold sound, summary. cbn [pr_rtt pr_loss].
  destruct (loss_all rtts sent ltac:(lia) Hl) as (H1 & H2 & H3 & H4).
  assert (median rtts = f_minus_one <-> rtts = []) as Hm.
  { split; [|by intros ->]. intros E. destruct rtts as [|x l] eqn:E'; [done|]. rewrite <- E' in *.
    pose proof (median_positive rtts ltac:(by subst) HF) as Hp. rewrite E in Hp. by vm_compute in Hp. }
  split_and!; [done|done|done|done|done|]. intros Hne. by apply median_positive.
Qed.

(** ** What is assumed of the network *)

(** What the network and the clock were asked and how they answered. *)
Inductive net_event :=
| EvNow (t : Time)
| EvDone (over : bool)
| EvPause (stopped : bool)
| EvWrite (to : Addr) (pkt : string) (done_ : bool)
| EvRead (deadline : Time) (got : option string)
| EvDial (hostport : string) (answered : bool).

Definition no_error {A} (o : option A) : bool := match o with None => true | Some _ => false end.

(** Only so many packets wait at the socket; the clock does not go back during
    a connect; and [log] is the record of the operations. *)
Class NetLaws {W} (net : ProbeNet W) (pending : W -> nat) (log : W -> list net_event) : Prop := {
  read_pending dl w p w' : pn_Read net dl w = (Some p, w') -> (pending w' < pending w)%nat;
  now_pending w : (pending (pn_Now net w).2 <= pending w)%nat;
  dial_clock w hp d : (pn_Now net w).1 <= (pn_Now net (pn_Dial net hp d (pn_Now net w).2).2).1;
  log_now w : log (pn_Now net w).2 = log w ++ [EvNow (pn_Now net w).1];
  log_done w : log (pn_Done net w).2 = log w ++ [EvDone (pn_Done net w).1];
  log_pause d w : log (pn_Pause net d w).2 = log w ++ [EvPause (pn_Pause net d w).1];
  log_write a p w : log (pn_Write net a p w).2 = log w ++ [EvWrite a p (no_error (pn_Write net a p w).1)];
  log_read dl w : log (pn_Read net dl w).2 = log w ++ [EvRead dl (pn_Read net dl w).1];
  log_dial hp d w : log (pn_Dial net hp d w).2 = log w ++ [EvDial hp (no_error (pn_Dial net hp d w).1)];
  log_lookup a w : log (pn_Lookup net a w).2 = log w;
  log_listen n a w : log (pn_Listen net n a w).2 = log w;
  log_rand w : log (pn_Rand net w).2 = log w
}.

(** The connects of a log, and the times of those that were answered. *)
Definition connects (l : list net_event) : list (string * bool) :=
  flat_map (fun e => match e with EvDial hp b => [(hp, b)] | _ => [] end) l.

Fixpoint connect_times (l : list net_event) : list float64 :=
  match l with
  | EvNow s :: EvDial _ true :: EvNow t :: l => ms_of (time_Sub t s) :: connect_times l
  | _ :: l => connect_times l
  | [] => []
  end.

(** The pauses that were waited out, and whether the caller's context ended. *)
Definition pauses (l : list net_event) : Z := len (List.filter (fun e => match e with EvPause false => true | _ => false end) l).
Definition interrupted (l : list net_event) : bool := existsb (fun e => match e with EvPause b => b | EvDone b => b | _ => false end) l.

(** The packets of a log: all but the context and the pauses. *)
Definition packets (l : list net_event) : list net_event :=
  List.filter (fun e => match e with EvPause _ | EvDone _ => false | _ => true end) l.

Lemma connects_app l1 l2 : connects (l1 ++ l2) = connects l1 ++ connects l2.
Proof. apply flat_map_app. Qed.

Lemma pauses_app l1 l2 : pauses (l1 ++ l2) = pauses l1 + pauses l2.
Proof. unfold pauses. by rewrite List.filter_app, len_app. Qed.

Lemma packets_app l1 l2 : packets (l1 ++ l2) = packets l1 ++ packets l2.
Proof. apply List.filter_app. Qed.

Lemma interrupted_app l1 l2 : interrupted (l1 ++ l2) = interrupted l1 || interrupted l2.
Proof. apply existsb_app. Qed.

(** A log that ends between two connects. *)
Definition whole (l : list net_event) : Prop := forall l2, connect_times (l ++ l2) = connect_times l ++ connect_times l2.

Lemma whole_app l1 l2 : whole l1 -> whole l2 -> whole (l1 ++ l2).
Proof. intros H1 H2 l3. by rewrite <- app_assoc, !H1, H2, app_assoc. Qed.

(** [let '(x, w) := e in _]: name both parts. *)
Ltac parts e x w E := destruct e as [x w] eqn:E; cbn [fst snd] in *.

Section Probes.
Context {W : Type} (net : ProbeNet W) (icmp_Marshal : icmp_message -> result error string)
  (icmp_Parse : Z -> string -> option icmp_message) (pid : Z) (Quote : string -> string) (pending : W -> nat) (log : W -> list net_event).
Context (laws : NetLaws net pending log).

(** ** ICMP *)

Lemma await_enough proto seq token dl n : forall w m m', (pending w < n)%nat -> (n <= m)%nat -> (n <= m')%nat ->
  awaitReply net icmp_Parse m proto seq token dl w = awaitReply net icmp_Parse m' proto seq token dl w.
Proof.
  induction n as [|n IH]; intros w m m' Hw Hm Hm'; [lia|]. destruct m as [|m]; [lia|]. destruct m' as [|m']; [lia|].
  cbn [awaitReply]. parts (pn_Read net dl w) r w1 Er. pose proof (now_pending w1) as Hn. parts (pn_Now net w1) now w2 En.
  destruct r as [buf|]; [|done]. apply read_pending in Er. destruct (reply_rtt _ _ _ _ _ _); [done|]. apply IH; lia.
Qed.

Lemma reply_positive proto seq token buf now rtt : reply_rtt icmp_Parse proto seq token buf now = Some rtt -> not_negative rtt = true.
Proof. unfold reply_rtt. destruct (icmp_Parse proto buf) as [[ty [echo|]]|]; [|done|done]. repeat (case_test; [done|]). intros [= <-]. apply clamped. Qed.

Lemma await_positive proto seq token dl n w rtt w' : awaitReply net icmp_Parse n proto seq token dl w = (Some rtt, w') -> not_negative rtt = true.
Proof.
  revert w; induction n as [|n IH]; intros w; [done|]. cbn [awaitReply]. parts (pn_Read net dl w) r w1 Er. parts (pn_Now net w1) now w2 En.
  destruct r as [buf|]; [|done]. destruct (reply_rtt _ _ _ _ _ _) eqn:E; [intros [= <- <-]; by eapply reply_positive|apply IH].
Qed.

Local Abbreviation loop := (icmp_loop net icmp_Marshal icmp_Parse pid pending).

(** The wait for a reply: what is read until the reply to this echo comes, or
    until a read fails. *)
Inductive waited (proto seq : Z) (token : string) (dl : Time) : list net_event -> option float64 -> Prop :=
| wt_lost now : waited proto seq token dl [EvRead dl None; EvNow now] None
| wt_other buf now l r :
    reply_rtt icmp_Parse proto seq token buf now = None -> waited proto seq token dl l r ->
    waited proto seq token dl (EvRead dl (Some buf) :: EvNow now :: l) r
| wt_reply buf now rtt :
    reply_rtt icmp_Parse proto seq token buf now = Some rtt ->
    waited proto seq token dl [EvRead dl (Some buf); EvNow now] (Some rtt).

Definition echo_deadline (p : ICMPProber) (start : Time) : Time :=
  let deadline := start + or_default (ip_Timeout p) defaultEchoTimeout in
  match pn_Deadline net with Some d => if d <? deadline then d else deadline | None => deadline end.

(** One echo: the packet that carries the token and its time, and the wait for
    its reply if it could be sent. *)
Inductive echoed (p : ICMPProber) (dst : Addr) (token : string) (sq : Z) : list net_event -> option float64 -> Prop :=
| ec_unsent start wb :
    icmp_Marshal (echo_message pid (is_To4 dst) sq (echo_data token start)) = Ok wb ->
    echoed p dst token sq [EvNow start; EvWrite dst wb false] None
| ec_sent start wb l r :
    icmp_Marshal (echo_message pid (is_To4 dst) sq (echo_data token start)) = Ok wb ->
    waited (if is_To4 dst then 1 else 58) sq token (echo_deadline p start) l r ->
    echoed p dst token sq (EvNow start :: EvWrite dst wb true :: l) r.

(** Echoes one after the other, each with the next sequence number. *)
Inductive echoes (p : ICMPProber) (dst : Addr) (token : string) : Z -> list net_event -> list (option float64) -> Prop :=
| es_none seq : echoes p dst token seq [] []
| es_one seq l r l' rs :
    echoed p dst token (Z.land ((seq + 1) mod 2 ^ 32) 0xffff) l r -> echoes p dst token ((seq + 1) mod 2 ^ 32) l' rs ->
    echoes p dst token seq (l ++ l') (r :: rs).

Lemma await_waited proto seq token dl fuel : forall w, (pending w < fuel)%nat ->
  exists l, log (awaitReply net icmp_Parse fuel proto seq token dl w).2 = log w ++ l /\
    waited proto seq token dl l (awaitReply net icmp_Parse fuel proto seq token dl w).1.
Proof.
  induction fuel as [|fuel IH]; intros w Hw; [lia|]. cbn [awaitReply]. pose proof (log_read dl w) as L1.
  parts (pn_Read net dl w) r w1 Er. pose proof (now_pending w1) as Hn. pose proof (log_now w1) as L2.
  parts (pn_Now net w1) now w2 En. rewrite L1, <- app_assoc in L2. cbn [app] in L2.
  destruct r as [buf|]; [|eexists; split; [exact L2|constructor]].
  apply read_pending in Er. destruct (reply_rtt _ _ _ _ _ _) as [rtt|] eqn:E; [eexists; split; [exact L2|by constructor]|].
  destruct (IH w2) as (l & Hl & H); [lia|]. eexists. rewrite Hl, L2, <- app_assoc. split; [reflexivity|]. by apply wt_other.
Qed.

Lemma waited_packets proto seq token dl l r : waited proto seq token dl l r -> packets l = l.
Proof. induction 1 as [| |]; [done| |done]. cbn. by do 2 f_equal. Qed.

Lemma waited_positive proto seq token dl l r : waited proto seq token dl l r -> Forall (fun f => not_negative f = true) (option_list r).
Proof.
  induction 1 as [|buf now l r Hr Hw IH|buf now rtt Hr]; [by apply Forall_nil|done|].
  apply Forall_cons. split; [by eapply reply_positive|by apply Forall_nil].
Qed.

Lemma echoes_positive p dst token seq l rs : echoes p dst token seq l rs -> Forall (fun f => not_negative f = true) (omap id rs).
Proof.
  induction 1 as [|seq l r l' rs He Hes IH]; [by apply Forall_nil|]. destruct He as [|start wb l r Hm Hw]; [exact IH|].
  apply waited_positive in Hw. destruct r as [rtt|]; [|exact IH]. apply Forall_cons in Hw as [Hw _]. by apply Forall_cons.
Qed.

(** What the loop adds to its log: the echoes with their results. *)
Definition icmp_run (p : ICMPProber) (dst : Addr) (token : string) (more : nat) (rtts : list float64) (sent seq : Z) (l : list net_event)
    (r : probed) : Prop :=
  exists rs, echoes p dst token seq (packets l) rs /\ len rs <= Z.of_nat more /\ (sent = 0 -> (0 < more)%nat -> rs <> []) /\
    r = summary MethodICMP (rtts ++ omap id rs) (sent + len rs) /\ (interrupted l = false -> len rs = Z.of_nat more).

Lemma icmp_run_nil p dst token rtts sent seq more l :
  packets l = [] -> (sent = 0 -> more = O) -> (interrupted l = false -> more = O) ->
  icmp_run p dst token more rtts sent seq l (summary MethodICMP rtts sent).
Proof.
  intros Hl Hm Hi. exists []. rewrite Hl. cbn [omap list_omap]. rewrite app_nil_r. change (len (@nil (option float64))) with 0. rewrite Z.add_0_r.
  split_and!; [constructor|lia|intros Hs Hp; rewrite (Hm Hs) in Hp; lia|done|intros H; by rewrite (Hi H)].
Qed.

(** One echo before the others. *)
Lemma icmp_run_cons p dst token more rtts sent seq l0 r l res :
  echoed p dst token (Z.land ((seq + 1) mod 2 ^ 32) 0xffff) (packets l0) r ->
  icmp_run p dst token more (rtts ++ option_list r) (sent + 1) ((seq + 1) mod 2 ^ 32) l res ->
  icmp_run p dst token (S more) rtts sent seq (l0 ++ l) res.
Proof.
  intros He (rs & H1 & H2 & _ & H4 & H5). exists (r :: rs). rewrite packets_app, interrupted_app.
  assert (len (r :: rs) = 1 + len rs) as -> by (unfold len; cbn [length]; lia).
  replace (omap id (r :: rs)) with (option_list r ++ omap id rs) by (by destruct r). rewrite app_assoc.
  split_and!; [by constructor|lia|done|rewrite H4; f_equal; lia|]. intros [_ H]%orb_false_iff. rewrite H5 by done. lia.
Qed.

Lemma icmp_loop_run p dst token : (forall m, exists t, icmp_Marshal m = Ok t) ->
  forall more rtts sent seq w, 0 <= sent ->
  exists l, log (loop p dst token more rtts sent seq w).2.2 = log w ++ l /\
    icmp_run p dst token more rtts sent seq l (loop p dst token more rtts sent seq w).1.
Proof.
  intros Hm. induction more as [|more IH]; intros rtts sent seq w Hs; cbn [icmp_loop].
  { exists []. rewrite app_nil_r. split; [done|by apply icmp_run_nil]. }
  assert (exists b, log (if 0 <? sent then pn_Pause net (or_default (ip_Gap p) defaultEchoGap) w else (false, w)).2 = log w ++ b /\ packets b = [] /\
    ((if 0 <? sent then pn_Pause net (or_default (ip_Gap p) defaultEchoGap) w else (false, w)).1 = true -> sent <> 0 /\ interrupted b = true))
    as (b & Hb & Pb & Ib).
  { destruct (Z.ltb_spec 0 sent); [|exists []; by rewrite app_nil_r]. eexists. rewrite log_pause. split; [done|]. split; [done|]. intros ->. split; [lia|done]. }
  parts (if 0 <? sent then pn_Pause net (or_default (ip_Gap p) defaultEchoGap) w else (false, w)) stop w1 E1. destruct stop.
  { exists b. split; [exact Hb|]. destruct (Ib eq_refl) as [? Hi]. apply icmp_run_nil; [done|done|]. by rewrite Hi. }
  cbv zeta. pose proof (log_now w1) as L1. parts (pn_Now net w1) start w2 E2.
  destruct (Hm (echo_message pid (is_To4 dst) (Z.land ((seq + 1) mod 2 ^ 32) 65535) (echo_data token start))) as [wb Ewb]. rewrite Ewb.
  pose proof (log_write dst wb w2) as L2. parts (pn_Write net dst wb w2) err w3 E3. rewrite L1, Hb in L2.
  destruct err as [e|]; cbn [no_error] in L2.
  { destruct (IH rtts (sent + 1) ((seq + 1) mod 2 ^ 32) w3) as (l & Hl & H); [lia|].
    exists ((b ++ [EvNow start; EvWrite dst wb false]) ++ l). rewrite Hl, L2, <- !app_assoc. split; [done|].
    rewrite app_assoc. apply icmp_run_cons with (r := None); [|by rewrite app_nil_r]. rewrite packets_app, Pb. by constructor. }
  fold (echo_deadline p start).
  destruct (await_waited (if is_To4 dst then 1 else 58) (Z.land ((seq + 1) mod 2 ^ 32) 65535) token (echo_deadline p start) (S (pending w3)) w3
    ltac:(lia)) as (l1 & L3 & Hw).
  destruct (awaitReply _ _ _ _ _ _ _ _) as [r w4] eqn:E4. cbn [fst snd] in *. rewrite L2 in L3.
  pose proof (log_done w4) as L4. parts (pn_Done net w4) done_ w5 E5. rewrite L3 in L4.
  assert (echoed p dst token (Z.land ((seq + 1) mod 2 ^ 32) 65535) (packets (b ++ EvNow start :: EvWrite dst wb true :: l1 ++ [EvDone done_])) r) as He.
  { rewrite packets_app, Pb. cbn [app packets List.filter]. fold (packets (l1 ++ [EvDone done_])). rewrite packets_app, (waited_packets _ _ _ _ _ _ Hw).
    cbn [packets List.filter]. rewrite app_nil_r. by apply ec_sent. }
  assert (log w5 = log w ++ (b ++ EvNow start :: EvWrite dst wb true :: l1 ++ [EvDone done_])) as L5 by (rewrite L4, <- !app_assoc; done).
  destruct done_.
  - eexists. split; [exact L5|]. rewrite <- (app_nil_r (b ++ _)). exists [r].
    rewrite app_nil_r, <- (app_nil_r (packets _)). split_and!; [by apply es_one; [|constructor]|unfold len; cbn; lia|done| |].
    + cbn. by destruct r.
    + rewrite interrupted_app. cbn [interrupted existsb]. rewrite existsb_app. cbn. by rewrite !orb_true_r.
  - destruct (IH (rtts ++ option_list r) (sent + 1) ((seq + 1) mod 2 ^ 32) w5) as (l & Hl & H); [lia|].
    exists ((b ++ EvNow start :: EvWrite dst wb true :: l1 ++ [EvDone false]) ++ l). rewrite Hl, L5, <- app_assoc. split; [done|]. by eapply icmp_run_cons.
Qed.

(** ** TCP *)

(** What a dial does to the log. *)
Lemma dialOnce_log p hp w : exists l, log (dialOnce net p hp w).2 = log w ++ l /\ whole l /\ pauses l = 0 /\
  connects l = [(hp, match (dialOnce net p hp w).1 with Some _ => true | None => false end)] /\
  connect_times l = option_list (dialOnce net p hp w).1 /\ Forall (fun f => not_negative f = true) (connect_times l).
Proof.
  unfold dialOnce. pose proof (log_now w) as H1. pose proof (dial_clock w hp (or_default (tp_Timeout p) defaultEchoTimeout)) as Hc.
  parts (pn_Now net w) start w1 E1. pose proof (log_dial hp (or_default (tp_Timeout p) defaultEchoTimeout) w1) as H2.
  parts (pn_Dial net hp (or_default (tp_Timeout p) defaultEchoTimeout) w1) err w2 E2. rewrite H1, <- app_assoc in H2.
  destruct err as [e|]; [eexists; split; [exact H2|]; split_and!; [by intros l2|done|done|done|by apply Forall_nil]|].
  pose proof (log_now w2) as H3. parts (pn_Now net w2) now w3 E3. rewrite H2, <- app_assoc in H3.
  eexists. split; [exact H3|]. split_and!; [by intros l2|done|done|done|]. apply Forall_cons. split; [|by apply Forall_nil].
  apply ms_positive. unfold time_Sub, min_int64, max_int64. lia.
Qed.

(** A log that sticks to the first target that answered. *)
Definition sticky (l : list (string * bool)) : Prop := forall l1 hp l2, l = l1 ++ (hp, true) :: l2 -> Forall (fun d => d.1 = hp) l2.

(** Dials of one host. *)
Definition dials_of (host : string) (pts : list Z) (l : list (string * bool)) : Prop :=
  Forall (fun d => exists port, In port pts /\ d.1 = JoinHostPort host (Itoa port)) l.

Definition answered (l : list (string * bool)) : nat := length (List.filter snd l).

Lemma answered_app l1 l2 : answered (l1 ++ l2) = (answered l1 + answered l2)%nat.
Proof. unfold answered. by rewrite List.filter_app, length_app. Qed.

Lemma dial_ports_log p host pts w : exists l, log (dial_ports net p host pts w).2 = log w ++ l /\ whole l /\ pauses l = 0 /\
  connect_times l = option_list (option_map fst (dial_ports net p host pts w).1) /\ Forall (fun f => not_negative f = true) (connect_times l) /\
  match (dial_ports net p host pts w).1 with
  | Some (_, port) =>
      In port pts /\ exists l0, connects l = l0 ++ [(JoinHostPort host (Itoa port), true)] /\ answered l0 = 0%nat /\ dials_of host pts l0
  | None => answered (connects l) = 0%nat /\ dials_of host pts (connects l)
  end.
Proof.
  revert w; induction pts as [|port pts IH]; intros w; cbn [dial_ports].
  { exists []. rewrite app_nil_r. cbn [fst snd]. split_and!; [done|by intros l2|done|done|by apply Forall_nil|done|by apply Forall_nil]. }
  destruct (dialOnce_log p (JoinHostPort host (Itoa port)) w) as (l1 & H1 & W1 & P1 & C1 & T1 & F1).
  parts (dialOnce net p (JoinHostPort host (Itoa port)) w) r w1 E1. destruct r as [rtt|]; cbn [fst snd] in *.
  { exists l1. split_and!; [exact H1|done|done|done|done|by left|]. exists []. split_and!; [done|done|by apply Forall_nil]. }
  pose proof (log_done w1) as H3. parts (pn_Done net w1) done_ w2 E2. rewrite H1, <- app_assoc in H3.
  assert (whole (l1 ++ [EvDone done_])) as W2 by (by apply whole_app; [|intros l2]).
  assert (pauses (l1 ++ [EvDone done_]) = 0) as P2 by (by rewrite pauses_app, P1).
  assert (connects (l1 ++ [EvDone done_]) = [(JoinHostPort host (Itoa port), false)]) as C2 by (by rewrite connects_app, C1).
  assert (connect_times (l1 ++ [EvDone done_]) = []) as T2 by (by rewrite W1, T1).
  assert (forall l, dials_of host pts l -> dials_of host (port :: pts) ((JoinHostPort host (Itoa port), false) :: l)) as Hd.
  { intros l Hl. apply Forall_cons. split; [exists port; split; [by left|done]|].
    eapply Forall_impl; [exact Hl|]. intros d (q & Hq & E). exists q. split; [by right|done]. }
  destruct done_; cbn [fst snd].
  { eexists. split; [exact H3|]. rewrite C2, T2. split_and!; [done|done|done|by apply Forall_nil|done|]. apply Hd. by apply Forall_nil. }
  destruct (IH w2) as (l & Hl & Wl & P & T & F & H). exists ((l1 ++ [EvDone false]) ++ l). rewrite Hl, H3, <- app_assoc. split; [done|].
  rewrite W2, T2, pauses_app, P2, P, connects_app, C2. split_and!; [by apply whole_app|done|done|done|].
  destruct (dial_ports net p host pts w2).1 as [[rtt q]|].
  - destruct H as (Hq & l0 & -> & Ha & Hl0). split; [by right|]. exists ((JoinHostPort host (Itoa port), false) :: l0). split_and!; [done|done|by apply Hd].
  - destruct H as [Ha Hl0]. split; [done|by apply Hd].
Qed.

(** The log so far and the port that was chosen: none, and nothing answered; or
    the one every dial is to from its first answer on. *)
Definition log_at (host : string) (pts : list Z) (chosen : Z) (l : list (string * bool)) : Prop :=
  dials_of host pts l /\ sticky l /\
  if chosen =? 0 then answered l = 0%nat
  else In chosen pts /\ exists l0 l1, l = l0 ++ l1 /\ answered l0 = 0%nat /\ Forall (fun d => d.1 = JoinHostPort host (Itoa chosen)) l1 /\
    (0 < answered l1)%nat.

Lemma sticky_none l : answered l = 0%nat -> sticky l.
Proof. intros Ha l1 hp l2 ->. rewrite answered_app in Ha. unfold answered in Ha. cbn in Ha. lia. Qed.

Lemma sticky_tail l0 l1 hp : answered l0 = 0%nat -> Forall (fun d => d.1 = hp) l1 -> sticky (l0 ++ l1).
Proof.
  intros Ha HF a hp' b E. symmetry in E. revert l0 Ha E. induction a as [|x a IH]; intros l0 Ha E.
  - destruct l0 as [|y l0]; [|injection E as <- _; by unfold answered in Ha; cbn in Ha]. cbn in E. subst l1. apply Forall_cons in HF as [E HF]. cbn in E. by subst hp'.
  - destruct l0 as [|y l0]; cbn in E.
    + subst l1. rewrite Forall_forall in HF. rewrite Forall_forall. intros d Hd.
      assert (d.1 = hp) as -> by (apply HF; right; apply elem_of_app; right; by right).
      assert ((hp', true).1 = hp) as E by (apply HF; right; apply elem_of_app; right; by left). by cbn in E.
    + injection E as -> E. unfold answered in *. cbn in Ha. destruct y as [hy []]; [done|]. by apply (IH l0).
Qed.

Lemma log_step host pts chosen l p w : Forall (fun q => q <> 0) pts -> log_at host pts chosen l ->
  exists l', log (dial_ports net p host (if chosen =? 0 then pts else [chosen]) w).2 = log w ++ l' /\ whole l' /\ pauses l' = 0 /\
  connect_times l' = option_list (option_map fst (dial_ports net p host (if chosen =? 0 then pts else [chosen]) w).1) /\
  Forall (fun f => not_negative f = true) (connect_times l') /\
  match (dial_ports net p host (if chosen =? 0 then pts else [chosen]) w).1 with
  | Some (_, port) => answered (connects l') = 1%nat /\ log_at host pts port (l ++ connects l')
  | None => answered (connects l') = 0%nat /\ log_at host pts chosen (l ++ connects l')
  end.
Proof.
  intros Hpts (Hd & Hst & Hc).
  destruct (dial_ports_log p host (if chosen =? 0 then pts else [chosen]) w) as (l' & Hl' & Wl & P & T & F & H).
  exists l'. do 5 (split; [done|]). clear Hl' Wl P T F. generalize dependent (connects l'). clear l'. intros l' H.
  assert (forall a b, dials_of host pts a -> dials_of host pts b -> dials_of host pts (a ++ b)) as Happ by (intros; by apply Forall_app).
  destruct (Z.eqb_spec chosen 0) as [E|E].
  - destruct (dial_ports net p host pts w).1 as [[rtt port]|].
    + destruct H as (Hin & l0 & -> & Ha & Hl0). split; [rewrite answered_app, Ha; done|].
      assert (port <> 0) as Hp by (rewrite Forall_forall in Hpts; apply Hpts; by apply list_elem_of_In).
      assert (dials_of host pts [(JoinHostPort host (Itoa port), true)]) as H1 by (apply Forall_cons; split; [by exists port|by apply Forall_nil]).
      rewrite app_assoc. assert (answered (l ++ l0) = 0%nat) as H0 by (rewrite answered_app; lia).
      split; [by apply Happ; [apply Happ|]|]. split; [eapply sticky_tail; [done|]; apply Forall_cons; split; [reflexivity|by apply Forall_nil]|].
      rewrite (proj2 (Z.eqb_neq port 0) Hp). split; [done|]. do 2 eexists. split_and!; [reflexivity|done|by apply Forall_cons; split; [|by apply Forall_nil]|unfold answered; cbn; lia].
    + destruct H as [Ha Hl0]. split; [done|]. assert (answered (l ++ l') = 0%nat) as H0 by (rewrite answered_app; lia).
      split; [by apply Happ|]. split; [by apply sticky_none|]. by rewrite (proj2 (Z.eqb_eq chosen 0) E).
  - destruct Hc as (Hin & l0 & l1 & -> & H0 & Hl1 & Hpos).
    assert (forall q, dials_of host [chosen] q -> dials_of host pts q /\ Forall (fun d => d.1 = JoinHostPort host (Itoa chosen)) q) as Hq.
    { intros q Hq. split; eapply Forall_impl; [exact Hq| |exact Hq|]; intros d (port & Hport & ->); (destruct Hport as [->|[]]); [by exists port|done]. }
    assert (forall q, dials_of host [chosen] q -> log_at host pts chosen ((l0 ++ l1) ++ q)) as Hlog.
    { intros q [Hq1 Hq2]%Hq. rewrite <- app_assoc. assert (Forall (fun d => d.1 = JoinHostPort host (Itoa chosen)) (l1 ++ q)) as HF by (by apply Forall_app).
      split; [rewrite app_assoc; by apply Happ|]. split; [by eapply sticky_tail|]. rewrite (proj2 (Z.eqb_neq chosen 0) E). split; [done|].
      exists l0, (l1 ++ q). rewrite answered_app. split_and!; [done|done|done|lia]. }
    destruct (dial_ports net p host [chosen] w).1 as [[rtt port]|].
    + destruct H as ([<-|[]] & l'' & -> & Ha & Hl''). split; [by rewrite answered_app, Ha|]. apply Hlog.
      apply Forall_app; split; [done|]. apply Forall_cons; split; [exists chosen; split; [by left|done]|by apply Forall_nil].
    + destruct H as [Ha Hl'']. split; [done|by apply Hlog].
Qed.

(** What a probe by TCP adds to its log, with what it returns. *)
Definition tcp_run (host : string) (pts : list Z) (n : Z) (l : list net_event) (r : probed) : Prop :=
  measured n MethodTCP (connect_times l) (1 + pauses l) r /\ (interrupted l = false -> 1 + pauses l = n) /\
  dials_of host pts (connects l) /\ sticky (connects l) /\ length (connect_times l) = answered (connects l).

(** ... and where the loop stands after [sent] connects. *)
Definition tcp_at (host : string) (pts : list Z) (chosen sent : Z) (rtts : list float64) (l : list net_event) : Prop :=
  whole l /\ log_at host pts chosen (connects l) /\ rtts = connect_times l /\ length rtts = answered (connects l) /\
  Forall (fun f => not_negative f = true) rtts /\ len rtts <= sent /\ ((sent = 0 /\ pauses l = 0) \/ (0 < sent /\ sent = 1 + pauses l)).

Lemma tcp_at_run host pts chosen sent rtts l c n : tcp_at host pts chosen sent rtts l ->
  0 < sent <= n -> connect_times c = [] -> connects c = [] -> pauses c = 0 -> (interrupted c = false -> sent = n) ->
  tcp_run host pts n (l ++ c) (summary MethodTCP rtts sent).
Proof.
  intros (Wl & (Hd & Hst & _) & -> & Ha & HF & Hle & Hs) Hn Hc1 Hc2 Hc3 Hi. unfold tcp_run.
  rewrite Wl, Hc1, connects_app, Hc2, !app_nil_r, pauses_app, Hc3, Z.add_0_r, interrupted_app.
  assert (1 + pauses l = sent) as -> by lia. split_and!; [split_and!; done || lia| |done|done|done]. intros [_ H]%orb_false_iff. by apply Hi.
Qed.

(** A pause, a connect and a look at the context. *)
Lemma tcp_step host pts chosen sent rtts l b l1 r d :
  tcp_at host pts chosen sent rtts l -> 0 <= sent -> b = (if 0 <? sent then [EvPause false] else []) ->
  whole l1 -> pauses l1 = 0 -> connect_times l1 = option_list (option_map fst r) -> Forall (fun f => not_negative f = true) (connect_times l1) ->
  match r with
  | Some (_, port) => answered (connects l1) = 1%nat /\ log_at host pts port (connects l ++ connects l1)
  | None => answered (connects l1) = 0%nat /\ log_at host pts chosen (connects l ++ connects l1)
  end ->
  tcp_at host pts (match r with Some (_, port) => port | None => chosen end) (sent + 1) (rtts ++ option_list (option_map fst r))
    (l ++ b ++ l1 ++ [EvDone d]).
Proof.
  intros (Wl & Hlog & -> & Ha & HF & Hle & Hs) Hge Hb W1 P1 T1 F1 H.
  assert (whole b /\ connects b = [] /\ connect_times b = [] /\ pauses b = (if 0 <? sent then 1 else 0)) as (Wb & Cb & Tb & Pb)
    by (subst b; case_test; (split_and!; [by intros l2|done|done|done])).
  assert (len (option_list (option_map fst r)) <= 1) as Hr by (destruct r; unfold len; cbn; lia).
  unfold tcp_at. rewrite !connects_app, Cb, !pauses_app, P1, Pb, Wl, Wb, Tb, W1, T1, len_app, length_app, !answered_app. cbn [connects flat_map app]. rewrite !app_nil_r.
  change (pauses [EvDone d]) with 0. change (connect_times [EvDone d]) with (@nil float64).
  split_and!.
  - repeat apply whole_app; [done|done|done|by intros l2].
  - destruct r as [[rtt port]|]; apply H.
  - done.
  - rewrite Ha. destruct r as [[rtt port]|]; destruct H as [-> _]; cbn; lia.
  - apply Forall_app. split; [done|]. by rewrite <- T1.
  - lia.
  - right. destruct (Z.ltb_spec 0 sent); lia.
Qed.

Lemma tcp_loop_run p host pts w0 : Forall (fun q => q <> 0) pts ->
  forall more rtts sent chosen w l, 0 <= sent -> 0 < sent + Z.of_nat more ->
  log w = log w0 ++ l -> tcp_at host pts chosen sent rtts l ->
  exists l', log (tcp_loop net p host pts more rtts sent chosen w).2 = log w0 ++ l' /\
    tcp_run host pts (sent + Z.of_nat more) l' (tcp_loop net p host pts more rtts sent chosen w).1.
Proof.
  intros Hpts. induction more as [|more IH]; intros rtts sent chosen w l Hs Hp Hw Hat; cbn [tcp_loop].
  { exists l. split; [exact Hw|]. rewrite <- (app_nil_r l). eapply tcp_at_run; [exact Hat|lia|done|done|done|lia]. }
  assert (exists b, log (if 0 <? sent then pn_Pause net (or_default (tp_Gap p) defaultEchoGap) w else (false, w)).2 = log w ++ b /\
    if (if 0 <? sent then pn_Pause net (or_default (tp_Gap p) defaultEchoGap) w else (false, w)).1
    then 0 < sent /\ b = [EvPause true] else b = (if 0 <? sent then [EvPause false] else [])) as (b & Hb & Eb).
  { destruct (Z.ltb_spec 0 sent); [|exists []; by rewrite app_nil_r]. eexists. rewrite log_pause. split; [done|].
    by destruct (pn_Pause net _ w).1. }
  parts (if 0 <? sent then pn_Pause net (or_default (tp_Gap p) defaultEchoGap) w else (false, w)) stop w1 E1. rewrite Hw, <- app_assoc in Hb.
  destruct stop.
  { destruct Eb as [? ->]. eexists. split; [exact Hb|]. by eapply tcp_at_run; [exact Hat|lia|..]. }
  cbv zeta. destruct (log_step host pts chosen (connects l) p w1 Hpts ltac:(apply Hat)) as (l1 & Hl1 & W1 & P1 & T1 & F1 & Hr).
  parts (dial_ports net p host (if chosen =? 0 then pts else [chosen]) w1) r w2 E2.
  pose proof (log_done w2) as Hd. rewrite Hl1, Hb, <- !app_assoc in Hd.
  pose proof (fun d => tcp_step host pts chosen sent rtts l b l1 r d Hat Hs Eb W1 P1 T1 F1 Hr) as Hat'.
  replace (sent + Z.of_nat (S more)) with (sent + 1 + Z.of_nat more) in * by lia.
  replace (match r with Some (rtt, port) => (rtts ++ [rtt], port) | None => (rtts, chosen) end)
    with (rtts ++ option_list (option_map fst r), match r with Some (_, port) => port | None => chosen end)
    by (destruct r as [[rtt port]|]; [done|cbn; by rewrite app_nil_r]).
  parts (pn_Done net w2) done_ w3 E3. destruct done_.
  - eexists. split; [exact Hd|]. specialize (Hat' true). unfold tcp_run. rewrite interrupted_app.
    pose proof (tcp_at_run _ _ _ _ _ _ [] (sent + 1 + Z.of_nat more) Hat' ltac:(lia) eq_refl eq_refl eq_refl) as H.
    destruct Hat' as (Wl & (Hcd & Hst & _) & Et & Ha & HF & Hle & Hsent). rewrite Et in *. assert (1 + pauses (l ++ b ++ l1 ++ [EvDone true]) = sent + 1) as -> by lia.
    split_and!; [by split_and!; [|lia..|]| |done|done|done]. rewrite !interrupted_app. cbn. by rewrite !orb_true_r.
  - apply (IH _ (sent + 1) _ w3 _ ltac:(lia) ltac:(lia) Hd). apply Hat'.
Qed.

(** ** Replies *)

Lemma reply_matches proto seq token buf now rtt : reply_rtt icmp_Parse proto seq token buf now = Some rtt ->
  exists ty echo, icmp_Parse proto buf = Some (mkMessage ty (Some echo)) /\ echo_reply ty = true /\ ec_Seq echo = seq /\
    string_take 8 (ec_Data echo) = token.
Proof.
  unfold reply_rtt. destruct (icmp_Parse proto buf) as [[ty [echo|]]|]; [|done|done]. destruct (echo_reply ty) eqn:Ht; [cbn [negb]|done].
  destruct (negb (ec_Seq echo =? seq) || _ || _) eqn:E; [done|]. intros _. apply orb_false_iff in E as [[H1 _]%orb_false_iff H2].
  apply negb_false_iff, Z.eqb_eq in H1. apply negb_false_iff, String.eqb_eq in H2. by exists ty, echo.
Qed.

Lemma be64_read n : read_be64 (be64 n) = n mod 2 ^ 64.
Proof.
  unfold read_be64, be64. cbn [map].
  assert (forall k, Z.of_nat (Ascii.nat_of_ascii (Ascii.ascii_of_nat (Z.to_nat (Z.land (Z.shiftr n k) 255)))) = (n / 2 ^ k) mod 256 \/ k < 0) as H.
  { intros k. destruct (Z.lt_ge_cases k 0) as [?|Hk]; [by right|left]. rewrite Z.shiftr_div_pow2 by done.
    change 255 with (Z.ones 8). rewrite Z.land_ones by lia. change (2 ^ 8) with 256.
    pose proof (Z.mod_pos_bound (n / 2 ^ k) 256 ltac:(lia)). rewrite Ascii.nat_ascii_embedding by lia. lia. }
  unfold byte_str, bytes_of. cbn [map].
  change (String.list_ascii_of_string _) with (map (fun k => Ascii.ascii_of_nat (Z.to_nat (Z.land (Z.shiftr n k) 255))) [8 * 7; 8 * 6; 8 * 5; 8 * 4; 8 * 3; 8 * 2; 8 * 1; 8 * 0]).
  cbn [map fold_left].
  repeat match goal with |- context [Z.of_nat (Ascii.nat_of_ascii (Ascii.ascii_of_nat (Z.to_nat (Z.land (Z.shiftr n ?k) 255))))] =>
    destruct (H k) as [->|?]; [|lia] end.
  clear H. assert (forall k, 0 <= k -> n / 2 ^ (8 * (k + 1)) = n / 2 ^ (8 * k) / 256) as Hq.
  { intros k Hk. replace (8 * (k + 1)) with (8 * k + 8) by lia. rewrite Z.pow_add_r by lia. change (2 ^ 8) with 256. rewrite Z.div_div; [done|lia|lia]. }
  pose proof (Hq 0 ltac:(lia) : n / 2 ^ 8 = n / 2 ^ 0 / 256) as H0. pose proof (Hq 1 ltac:(lia) : n / 2 ^ 16 = n / 2 ^ 8 / 256) as H1.
  pose proof (Hq 2 ltac:(lia) : n / 2 ^ 24 = n / 2 ^ 16 / 256) as H2. pose proof (Hq 3 ltac:(lia) : n / 2 ^ 32 = n / 2 ^ 24 / 256) as H3.
  pose proof (Hq 4 ltac:(lia) : n / 2 ^ 40 = n / 2 ^ 32 / 256) as H4. pose proof (Hq 5 ltac:(lia) : n / 2 ^ 48 = n / 2 ^ 40 / 256) as H5.
  pose proof (Hq 6 ltac:(lia) : n / 2 ^ 56 = n / 2 ^ 48 / 256) as H6. pose proof (Hq 7 ltac:(lia) : n / 2 ^ 64 = n / 2 ^ 56 / 256) as H7.
  clear Hq. change (8 * 7) with 56. change (8 * 6) with 48. change (8 * 5) with 40. change (8 * 4) with 32. change (8 * 3) with 24.
  change (8 * 2) with 16. change (8 * 1) with 8. change (8 * 0) with 0. rewrite Z.pow_0_r, Z.div_1_r in *.
  pose proof (Z.div_mod n (2 ^ 64) ltac:(lia)) as Hn. change (2 ^ 64) with 18446744073709551616 in *.
  generalize dependent (n mod 18446744073709551616). intros r Hn. rewrite H7 in Hn. clear H7.
  generalize dependent (n / 2 ^ 56). intros q7 H6 Hn. generalize dependent (n / 2 ^ 48). intros q6 H5 ->.
  generalize dependent (n / 2 ^ 40). intros q5 H4 ->. generalize dependent (n / 2 ^ 32). intros q4 H3 ->.
  generalize dependent (n / 2 ^ 24). intros q3 H2 ->. generalize dependent (n / 2 ^ 16). intros q2 H1 ->.
  generalize dependent (n / 2 ^ 8). intros q1 -> ->.
  rewrite !Z.mod_eq by done. replace r with (n - 18446744073709551616 * (n / 256 / 256 / 256 / 256 / 256 / 256 / 256 / 256)) by (clear - Hn; lia).
  ring.
Qed.

(** The reply to an echo, whenever it comes, gives the time since it was sent. *)
Lemma own_reply proto seq token start ty id buf now :
  String.length token = 8%nat -> min_int64 <= start - unix_epoch <= max_int64 -> echo_reply ty = true ->
  icmp_Parse proto buf = Some (mkMessage ty (Some (mkEcho id seq (echo_data token start)))) ->
  reply_rtt icmp_Parse proto seq token buf now =
    Some (let rtt := ms_of (time_Sub now start) in if (rtt <? f_zero)%float then f_zero else rtt).
Proof.
  intros Ht Hs Hty Hp. unfold reply_rtt. rewrite Hp, Hty. cbn [ec_Seq ec_Data negb]. rewrite Z.eqb_refl. cbn [negb orb].
  assert (exists z, echo_data token start = token +:+ (be64 (start - unix_epoch) +:+ z)) as [z ->] by (by eexists).
  assert (read_be64 (string_take 8 (be64 (start - unix_epoch) +:+ z)) = (start - unix_epoch) mod 2 ^ 64) as E.
  { change 8%nat with (String.length (be64 (start - unix_epoch))). by rewrite string_take_app, be64_read. }
  rewrite <- Ht, string_take_app, string_drop_app, seqb_refl, Ht, E, !app_length_string, Ht.
  change (String.length (be64 (start - unix_epoch))) with 8%nat. cbn [negb orb]. rewrite (proj2 (Nat.ltb_ge _ _)) by lia.
  replace (int64_of ((start - unix_epoch) mod 2 ^ 64)) with (start - unix_epoch);
    [by replace (unix_epoch + (start - unix_epoch)) with start by lia|].
  unfold int64_of, min_int64, max_int64 in *. rewrite Zplus_mod_idemp_l, Z.mod_small; lia.
Qed.

(** ** Probing *)

(** Nothing stands in the way of the echoes: the name resolves, the kernel
    grants a socket, and the token and the packets are made. *)
Definition ready (addr : string) (w : W) (ip : Addr) (token : string) : Prop :=
  exists w1 w2 w3, resolveIP net addr w = (Ok ip, w1) /\
    pn_Listen net (if is_To4 ip then "udp4" else "udp6") (if is_To4 ip then "0.0.0.0" else "::") w1 = (None, w2) /\
    pn_Rand net w2 = (Ok token, w3) /\ (forall m, exists t, icmp_Marshal m = Ok t).

Lemma default_positive v def : 0 < def -> 0 < or_default v def.
Proof. unfold or_default. destruct (Z.ltb_spec 0 v); lia. Qed.

Lemma resolve_log addr w : log (resolveIP net addr w).2 = log w.
Proof.
  unfold resolveIP. destruct (ParseIP addr); [done|]. pose proof (log_lookup addr w) as H. by destruct (pn_Lookup net addr w) as [r w1].
Qed.

Lemma icmp_measured p addr seq w ip token : ready addr w ip token ->
  let '(r, (_, w')) := icmp_Probe net icmp_Marshal icmp_Parse pid pending p addr (seq, w) in
  exists l rs, log w' = log w ++ l /\ echoes p ip token seq (packets l) rs /\
    measured (or_default (ip_Count p) defaultEchoes) MethodICMP (omap id rs) (len rs) r /\
    (interrupted l = false -> len rs = or_default (ip_Count p) defaultEchoes).
Proof.
  intros (w1 & w2 & w3 & H1 & H2 & H3 & Hm). pose proof (resolve_log addr w) as L1. rewrite H1 in L1.
  pose proof (log_listen (if is_To4 ip then "udp4" else "udp6") (if is_To4 ip then "0.0.0.0" else "::") w1) as L2. rewrite H2 in L2.
  pose proof (log_rand w2) as L3. rewrite H3 in L3. cbn [snd] in *.
  pose proof (default_positive (ip_Count p) defaultEchoes ltac:(done)) as Hp.
  destruct (icmp_loop_run p ip token Hm (Z.to_nat (or_default (ip_Count p) defaultEchoes)) [] 0 seq w3 ltac:(done)) as (l & Hl & rs & R1 & R2 & R3 & R4 & R5).
  rewrite Z2Nat.id in R2, R5 by lia. cbn [app Z.add] in R4.
  replace (icmp_Probe net icmp_Marshal icmp_Parse pid pending p addr (seq, w))
    with (loop p ip token (Z.to_nat (or_default (ip_Count p) defaultEchoes)) [] 0 seq w3)
    by (unfold icmp_Probe; rewrite H1; destruct (is_To4 ip); by rewrite H2, H3).
  destruct (loop p ip token _ [] 0 seq w3) as [r [seq' w']]. cbn [fst snd] in *. exists l, rs. rewrite Hl, L3, L2, L1.
  split_and!; [done|exact R1| |exact R5].
  assert (rs <> []) as Hne by (apply R3; [done|lia]). split; [exact R4|]. split; [destruct rs; [done|]; unfold len in *; cbn in *; lia|].
  split; [|by eapply echoes_positive]. clear. unfold len. induction rs as [|[x|] rs IH]; cbn in *; lia.
Qed.

(** The ports a probe tries. *)
Definition tried (p : TCPProber) (addr : string) : list Z :=
  let '(_, explicitPort, hasPort) := splitHostPort addr in if hasPort then [explicitPort] else ports p.

Lemma tcp_measured p addr w : (splitHostPort addr).1.1 <> "" -> Forall (fun q => q <> 0) (tried p addr) ->
  let '(r, w') := tcp_Probe net Quote p addr w in
  exists l, log w' = log w ++ l /\ tcp_run (splitHostPort addr).1.1 (tried p addr) (or_default (tp_Count p) defaultEchoes) l r.
Proof.
  unfold tried, tcp_Probe. destruct (splitHostPort addr) as [[host explicitPort] hasPort]. cbn [fst]. intros Hh Hp.
  rewrite seqb_ne by done. pose proof (default_positive (tp_Count p) defaultEchoes ltac:(done)) as Hc.
  set (pts := if hasPort then _ else _) in *.
  destruct (tcp_loop_run p host pts w Hp (Z.to_nat (or_default (tp_Count p) defaultEchoes)) [] 0 0 w []) as (l & Hl & H);
    [done|lia|by rewrite app_nil_r| |].
  { split_and!; [by intros l2| |done|done|by apply Forall_nil|done|by left]. split_and!; [by apply Forall_nil|by apply sticky_none|done]. }
  rewrite Z2Nat.id in H by lia. cbn [Z.add] in H. destruct (tcp_loop _ _ _ _ _ _ _ _) as [r w']. by exists l.
Qed.

(** Why a probe by ICMP fails before any echo: the socket. *)
Lemma icmp_refused p addr seq w ip w1 w2 e : resolveIP net addr w = (Ok ip, w1) ->
  pn_Listen net (if is_To4 ip then "udp4" else "udp6") (if is_To4 ip then "0.0.0.0" else "::") w1 = (Some e, w2) ->
  errors_Is (Some e) ErrPingSocketDenied = false ->
  let r := (icmp_Probe net icmp_Marshal icmp_Parse pid pending p addr (seq, w)).1 in
  pr_rtt r = f_minus_one /\ pr_loss r = f_one /\ errors_Is (pr_err r) ErrPingSocketDenied = isPermissionError e.
Proof.
  intros H1 H2 He. unfold icmp_Probe. rewrite H1.
  destruct (is_To4 ip); rewrite H2; (split_and!; [done|done|]); cbn [fst failed pr_err]; (destruct (isPermissionError e); [done|]);
    unfold errors_Is in *; cbn [flatten flat_map existsb same_error has_Is]; rewrite app_nil_r; exact He.
Qed.
End Probes.

(** ** ICMP, then TCP *)

Section Auto.
Context {S : Type} (icmp tcp : Prober S).

(** Probes one after the other. *)
Fixpoint run {T} (p : Prober T) (addrs : list string) (s : T) : list probed * T :=
  match addrs with
  | [] => ([], s)
  | a :: addrs => let '(r, s) := p a s in let '(l, s) := run p addrs s in (r :: l, s)
  end.

Definition denied (r : probed) : bool := errors_Is (pr_err r) ErrPingSocketDenied.

Lemma auto_tcp addrs s : run (auto_Probe icmp tcp) addrs (true, s) = let '(l, s) := run tcp addrs s in (l, (true, s)).
Proof.
  revert s; induction addrs as [|a addrs IH]; intros s; [done|]. cbn [run auto_Probe]. destruct (tcp a s) as [r s1]. rewrite IH.
  by destruct (run tcp addrs s1).
Qed.

(** ICMP until the first probe that the kernel denies, and TCP from that one
    on, for good. *)
Lemma auto_run addrs s : exists l1 l2, addrs = l1 ++ l2 /\
  let '(r1, s1) := run icmp l1 s in
  Forall (fun r => denied r = false) r1 /\
  match l2 with
  | [] => run (auto_Probe icmp tcp) addrs (false, s) = (r1, (false, s1))
  | a :: _ =>
      denied (icmp a s1).1 = true /\
      let '(r2, s2) := run tcp l2 (icmp a s1).2 in run (auto_Probe icmp tcp) addrs (false, s) = (r1 ++ r2, (true, s2))
  end.
Proof.
  revert s; induction addrs as [|a addrs IH]; intros s; [exists [], []; by split|]. destruct (icmp a s) as [r s1] eqn:E.
  destruct (denied r) eqn:Ed.
  - exists [], (a :: addrs). split; [done|]. cbn [run]. split; [by apply Forall_nil|]. rewrite E. split; [done|]. cbn [auto_Probe snd]. rewrite E.
    unfold denied in Ed. destruct (pr_err r) as [e|]; [rewrite Ed|done]. destruct (tcp a s1) as [r' s2]. rewrite auto_tcp.
    by destruct (run tcp addrs s2).
  - destruct (IH s1) as (l1 & l2 & -> & H). exists (a :: l1), l2. split; [done|]. cbn [run auto_Probe]. rewrite E.
    destruct (run icmp l1 s1) as [r1 s2]. destruct H as [HF H]. split; [by apply Forall_cons|].
    assert (match pr_err r with
            | Some e => if errors_Is (Some e) ErrPingSocketDenied then let '(r, s) := tcp a s1 in (r, (true, s)) else (r, (false, s1))
            | None => (r, (false, s1))
            end = (r, (false, s1))) as -> by (unfold denied in Ed; destruct (pr_err r); [by rewrite Ed|done]).
    destruct l2 as [|b l2]; [by rewrite H|]. destruct H as [Hb H]. split; [done|]. destruct (run tcp (b :: l2) _) as [r2 s3]. by rewrite H.
Qed.
End Auto.

(** C27: What a probe reports is what it measured, whatever the network does.
    ICMP fails when no socket is granted, and is denied when that is for want of
    permission.  Once a socket is open it never fails.  The packets it sends and
    reads are, for each of at most as many echoes as asked for, one packet with
    the token, the time and the next sequence number, and then, if it could be
    sent, the reads until the first reply to this echo or a read that fails; it
    returns the median of the times of exactly the echoes whose wait ended with
    a reply, and the loss among the echoes sent, and stops short of the number
    asked for only when its caller's context ends.  A reply is a packet with the
    sequence number and the token of the probe and gives the time since the echo
    was sent; a read that fails or runs into the deadline is no answer; the wait
    ends.  TCP does the same: the median of the times of exactly the connects
    that were answered, one connect for each pause waited out and one more, and
    no other port once one has answered.  For up to 64 echoes the loss is a
    fraction, which is 1, and the latency -1, exactly when nothing answered, and
    0 exactly when everything did.  The automatic prober asks ICMP up to the
    first probe for which the kernel denies a socket, and TCP for that one and
    all that follow. *)
Theorem probes_measure {W} (net : ProbeNet W) icmp_Marshal icmp_Parse pid Quote pending log
  (laws : NetLaws net pending log) :
  let icmp p := icmp_Probe net icmp_Marshal icmp_Parse pid pending p in
  let tcp p := tcp_Probe net Quote p in
  (forall p addr seq w ip token, ready net icmp_Marshal addr w ip token ->
     let n := or_default (ip_Count p) defaultEchoes in
     let '(r, (_, w')) := icmp p addr (seq, w) in
     exists l rs, log w' = log w ++ l /\ echoes net icmp_Marshal icmp_Parse pid p ip token seq (packets l) rs /\
       measured n MethodICMP (omap id rs) (len rs) r /\ (interrupted l = false -> len rs = n) /\
       (n <= 64 -> sound (omap id rs) (len rs) r)) /\
  (forall p addr seq w ip w1 w2 e, resolveIP net addr w = (Ok ip, w1) ->
     pn_Listen net (if is_To4 ip then "udp4" else "udp6") (if is_To4 ip then "0.0.0.0" else "::") w1 = (Some e, w2) ->
     errors_Is (Some e) ErrPingSocketDenied = false ->
     let r := (icmp p addr (seq, w)).1 in
     pr_rtt r = f_minus_one /\ pr_loss r = f_one /\ denied r = isPermissionError e) /\
  (forall proto seq token buf now rtt, reply_rtt icmp_Parse proto seq token buf now = Some rtt ->
     exists ty echo, icmp_Parse proto buf = Some (mkMessage ty (Some echo)) /\ echo_reply ty = true /\ ec_Seq echo = seq /\
       string_take 8 (ec_Data echo) = token /\
       forall start, ec_Data echo = echo_data token start -> String.length token = 8%nat -> min_int64 <= start - unix_epoch <= max_int64 ->
         rtt = let d := ms_of (time_Sub now start) in if (d <? f_zero)%float then f_zero else d) /\
  (forall proto seq token dl w m, (pending w < m)%nat ->
     awaitReply net icmp_Parse m proto seq token dl w = awaitReply net icmp_Parse (S (pending w)) proto seq token dl w) /\
  (forall p addr w, (splitHostPort addr).1.1 <> "" -> Forall (fun q => q <> 0) (tried p addr) ->
     let n := or_default (tp_Count p) defaultEchoes in
     let '(r, w') := tcp p addr w in
     exists l, log w' = log w ++ l /\ measured n MethodTCP (connect_times l) (1 + pauses l) r /\
       (interrupted l = false -> 1 + pauses l = n) /\ (n <= 64 -> sound (connect_times l) (1 + pauses l) r) /\
       dials_of (splitHostPort addr).1.1 (tried p addr) (connects l) /\ sticky (connects l) /\
       length (connect_times l) = answered (connects l)) /\
  (forall p q addrs s, exists l1 l2, addrs = l1 ++ l2 /\
     let on_w (f : Prober W) : Prober (Z * W) := fun a s => let '(r, w) := f a s.2 in (r, (s.1, w)) in
     let '(r1, s1) := run (icmp p) l1 s in
     Forall (fun r => denied r = false) r1 /\
     match l2 with
     | [] => run (auto_Probe (icmp p) (on_w (tcp q))) addrs (false, s) = (r1, (false, s1))
     | a :: _ =>
         denied (icmp p a s1).1 = true /\
         let '(r2, s2) := run (on_w (tcp q)) l2 (icmp p a s1).2 in
         run (auto_Probe (icmp p) (on_w (tcp q))) addrs (false, s) = (r1 ++ r2, (true, s2))
     end).
Proof.
  intros icmp tcp. split_and!.
  - intros p addr seq w ip token Hr n. pose proof (icmp_measured net icmp_Marshal icmp_Parse pid pending log laws p addr seq w ip token Hr) as H.
    unfold icmp. destruct (icmp_Probe _ _ _ _ _ _ _ _) as [r [seq' w']]. destruct H as (l & rs & H1 & H2 & H3 & H4). exists l, rs.
    do 4 (split; [done|]). intros Hn. by eapply measured_sound.
  - intros p addr seq w ip w1 w2 e. apply icmp_refused.
  - intros proto seq token buf now rtt H. destruct (reply_matches _ _ _ _ _ _ _ H) as (ty & echo & Hp & Ht & Hs & Htok).
    exists ty, echo. split_and!; [done|done|done|done|]. intros start Hd Hl Hb. destruct echo as [id sq data]. cbn in Hs, Hd, Hp. subst sq.
    rewrite (own_reply icmp_Parse proto seq token start ty id buf now Hl Hb Ht) in H; [by injection H|]. by rewrite Hp, <- Hd.
  - intros proto seq token dl w m Hm. by apply (await_enough net icmp_Parse pending log laws _ _ _ _ (S (pending w))); lia.
  - intros p addr w Hh Hp n. pose proof (tcp_measured net Quote pending log laws p addr w Hh Hp) as H. unfold tcp.
    destruct (tcp_Probe net Quote p addr w) as [r w']. destruct H as (l & H1 & H2 & H3 & H4 & H5 & H6). exists l.
    do 3 (split; [done|]). split; [|done]. intros Hn. by eapply measured_sound.
  - intros p q addrs s. apply auto_run.
Qed.

(** A network on which only port 80 answers and the reply to the second echo is
    lost, with a packet of somebody else before every reply; [ty_icmp] says
    whether the kernel grants a socket. *)
Record tiny := mkTiny { ty_log : list net_event; ty_inbox : list string; ty_icmp : bool }.

Definition tiny_add (e : net_event) (w : tiny) : tiny := mkTiny (ty_log w ++ [e]) (ty_inbox w) (ty_icmp w).
Definition tiny_now (w : tiny) : Time := unix_epoch + len (ty_log w) * millisecond.

Definition tiny_Marshal (m : icmp_message) : result error string :=
  match im_Body m with Some e => Ok (String (Ascii.ascii_of_nat (Z.to_nat (ec_Seq e))) (ec_Data e)) | None => Ok "" end.
Definition tiny_Parse (proto : Z) (buf : string) : option icmp_message :=
  match buf with
  | String c data => Some (mkMessage (ICMPv4 0) (Some (mkEcho 0 (Z.of_nat (Ascii.nat_of_ascii c)) data)))
  | EmptyString => None
  end.

Definition tiny_net : ProbeNet tiny :=
  mkProbeNet _ (fun w => (tiny_now w, tiny_add (EvNow (tiny_now w)) w)) (fun w => (false, tiny_add (EvDone false) w)) None
    (fun _ w => (false, tiny_add (EvPause false) w)) (fun _ w => (Err (ELeaf "no such host"), w))
    (fun _ _ w => (if ty_icmp w then None else Some (ESentinel "syscall.EACCES" "permission denied"), w)) (fun w => (Ok "12345678", w))
    (fun a pkt w => let w := tiny_add (EvWrite a pkt true) w in
       (None, mkTiny (ty_log w) (if HasPrefix pkt (String (Ascii.ascii_of_nat 2) "") then [] else ["somebody else's"; pkt]) (ty_icmp w)))
    (fun dl w => match ty_inbox w with
                 | [] => (None, tiny_add (EvRead dl None) w)
                 | pkt :: l => (Some pkt, mkTiny (ty_log w ++ [EvRead dl (Some pkt)]) l (ty_icmp w))
                 end)
    (fun hp _ w => let ok := HasSuffix hp ":80" in (if ok then None else Some (ELeaf "refused"), tiny_add (EvDial hp ok) w)).

#[export] Instance tiny_laws : NetLaws tiny_net (fun w => length (ty_inbox w)) ty_log.
Proof.
  split; try done.
  - intros dl [lg [|pkt l] g] q w'; cbn; [done|]. intros [= <- <-]. cbn. lia.
  - intros w hp d. cbn. unfold tiny_now. cbn. rewrite !len_app. unfold len, millisecond, microsecond, nanosecond. cbn. lia.
  - intros dl [lg [|pkt l] g]; done.
  - intros hp d w. cbn. by destruct (HasSuffix hp ":80").
Qed.

Example tiny_auto :
  let icmp := icmp_Probe tiny_net tiny_Marshal tiny_Parse 1 (fun w => length (ty_inbox w)) (mkICMPProber 0 0 0) in
  let tcp := tcp_Probe tiny_net id (mkTCPProber 0 0 0 []) in
  let tcp' : Prober (Z * _) := fun a s => let '(r, w) := tcp a s.2 in (r, (s.1, w)) in
  let '(r, (useTCP, (_, w))) := auto_Probe icmp tcp' "1.1.1.1" (false, (0, mkTiny [] [] false)) in
  pr_method r = "tcp" /\ pr_rtt r = f_of_Z 2 /\ pr_loss r = f_zero /\ useTCP = true /\
  connects (ty_log w) = [("1.1.1.1:443", false); ("1.1.1.1:80", true); ("1.1.1.1:80", true); ("1.1.1.1:80", true)].
Proof. vm_compute. repeat split. Qed.

(** Three echoes, of which the second is lost, and three connects to port 80. *)
Lemma probes_measure_witness :
  (let '(r, (_, w)) := icmp_Probe tiny_net tiny_Marshal tiny_Parse 1 (fun w => length (ty_inbox w)) (mkICMPProber 0 0 0) "1.1.1.1" (0, mkTiny [] [] true) in
   r = summary MethodICMP [f_of_Z 5; f_of_Z 5] 3 /\ exists rs, echoes tiny_net tiny_Marshal tiny_Parse 1 (mkICMPProber 0 0 0) (A4 [1; 1; 1; 1]) "12345678" 0
     (packets (ty_log w)) rs /\ sound (omap id rs) (len rs) r) /\
  (let '(r, w) := tcp_Probe tiny_net id (mkTCPProber 0 0 0 []) "1.1.1.1" (mkTiny [] [] true) in
   sound (connect_times (ty_log w)) (1 + pauses (ty_log w)) r /\ sticky (connects (ty_log w))).
Proof.
  destruct (probes_measure tiny_net tiny_Marshal tiny_Parse 1 id (fun w => length (ty_inbox w)) ty_log tiny_laws) as (Hi & _ & _ & _ & Ht & _).
  split.
  - assert (ready tiny_net tiny_Marshal "1.1.1.1" (mkTiny [] [] true) (A4 [1; 1; 1; 1]) "12345678") as Hr.
    { do 3 eexists. split; [by vm_compute|]. split; [by vm_compute|]. split; [by vm_compute|]. intros [ty [e|]]; by eexists. }
    specialize (Hi (mkICMPProber 0 0 0) "1.1.1.1" 0 _ _ _ Hr). cbv zeta in Hi.
    destruct (icmp_Probe _ _ _ _ _ _ _ _) as [r [s w]] eqn:E. destruct Hi as (l & rs & Hl & Hes & _ & _ & Hs). cbn [ty_log app] in Hl. subst l.
    split; [|exists rs; split; [exact Hes|by apply Hs]].
    apply (f_equal fst) in E. cbn [fst] in E. rewrite <- E. vm_compute. reflexivity.
  - assert (Forall (fun q => q <> 0) (tried (mkTCPProber 0 0 0 []) "1.1.1.1")) as Hp by (vm_compute; repeat constructor; done).
    specialize (Ht (mkTCPProber 0 0 0 []) "1.1.1.1" (mkTiny [] [] true) ltac:(by vm_compute) Hp). cbv zeta in Ht.
    destruct (tcp_Probe tiny_net id (mkTCPProber 0 0 0 []) "1.1.1.1" _) as [r w].
    destruct Ht as (l & Hl & _ & _ & Hs & _ & Hst & _). cbn [ty_log app] in Hl. subst l. split; [by apply Hs|exact Hst].
Defined.
