(* ===== verification/DiagPorts.v ===== *)
(** internal/diag/ports.go: the listening sockets of this host, from the tables
    of /proc/net and the file descriptors under /proc.

    /proc is an argument: what each file, directory and link reads as.  So are
    the texts of errors of strconv and hex, and [%q]. *)

From S2P Require Import Prelude GoTime Core GoStrings Errors GoStringsFacts Netip NetipRoundtrip GoScan.
From Stdlib Require Import Ascii.

(** ** /proc *)

(** A table of /proc/net: absent, unreadable, or its text and how reading it
    ended. *)
Inductive proc_table := NoTable | NotOpened (e : string) | TableText (text : string) (read_err : option string).

(** An entry of /proc: its name, whether it is a directory, the links under fd
    unless that cannot be read, and comm. *)
Record proc_entry := mkProcEntry {
  pe_Name : string;
  pe_IsDir : bool;
  pe_Fds : option (list (option string));
  pe_Comm : option string
}.

Record proc_fs := mkProcFS {
  fs_net : string -> proc_table;
  fs_procs : option (list proc_entry);
  fs_user : Z -> option string;                  (* [user.LookupId] *)
  fs_ctx : string -> option error               (* [ctx.Err()], when a table or a process is next *)
}.

Definition tcpListen : string := "0A".

Record procPort := mkProcPort { pp_Port : ListeningPort; pp_inode : Z }.

Section Ports.
Context (Quote : string -> string) (num_error hex_error : string -> string).

(** ** Reading the tables *)

Definition zeroRemote (s : string) : bool := Trim s "0:" =?s "".

(** Four bytes at a time, last first. *)
Fixpoint swap_words (b : list Z) : list Z :=
  match b with
  | b0 :: b1 :: b2 :: b3 :: b' => b3 :: b2 :: b1 :: b0 :: swap_words b'
  | _ => []
  end.

Definition parseHexAddr (s : string) (v6 : bool) : result string (string * Z) :=
  match Cut s ":" with
  | None => Err ("bad address " +:+ Quote s)
  | Some (host, portS) =>
      match ParseHex 16 portS with
      | None => Err ("bad port " +:+ Quote portS +:+ ": " +:+ num_error portS)
      | Some port =>
          match hex_decode host with
          | None => Err ("bad host " +:+ Quote host +:+ ": " +:+ hex_error host)
          | Some b =>
              if negb (Nat.eqb (length b) (if v6 then 16 else 4)) then Err ("bad host " +:+ Quote host +:+ ": " +:+ Itoa (len b) +:+ " bytes")
              else Ok (IP_String (swap_words b), port)
          end
      end
  end.

(** One row: nothing when it is skipped. *)
Definition parse_row (proto line : string) : result string (option procPort) :=
  match Fields line with
  | _ :: local :: remote :: state :: _ :: _ :: _ :: uidS :: _ :: inodeS :: _ =>
      let isTCP := HasPrefix proto "tcp" in
      if isTCP && negb (state =?s tcpListen) then Ok None
      else if negb isTCP && negb (zeroRemote remote) then Ok None
      else
        match parseHexAddr local (HasSuffix proto "6") with
        | Err e => Err e
        | Ok (addr, port) =>
            match Atoi uidS with
            | None => Err ("uid " +:+ Quote uidS +:+ ": " +:+ num_error uidS)
            | Some uid =>
                match Atoi inodeS with
                | None => Err ("inode " +:+ Quote inodeS +:+ ": " +:+ num_error inodeS)
                | Some inode => Ok (Some (mkProcPort (mkListeningPort proto addr port 0 "" "" uid) inode))
                end
            end
        end
  | _ => Ok None
  end.

Fixpoint parse_rows (proto : string) (lines : list string) : result string (list procPort) :=
  match lines with
  | [] => Ok []
  | l :: lines =>
      match parse_row proto l with
      | Err e => Err e
      | Ok p =>
          match parse_rows proto lines with
          | Err e => Err e
          | Ok ps => Ok (match p with Some p => p :: ps | None => ps end)
          end
      end
  end.

(** The first line is the header; the error of the reader comes last. *)
Definition parseProcNet (proto text : string) (read_err : option string) : result string (list procPort) :=
  let '(lines, long) := Scan text in
  match parse_rows proto (tail lines) with
  | Err e => Err e
  | Ok ps => if long then Err too_long else match read_err with Some e => Err e | None => Ok ps end
  end.

(** ** Whose they are *)

(** [readComm] *)
Definition comm_of (p : proc_entry) : string := match pe_Comm p with Some t => TrimSpace t | None => "" end.

(** The inode a link stands for. *)
Definition socket_inode (target : string) : option Z :=
  if HasPrefix target "socket:[" then Atoi (TrimSuffix (TrimPrefix target "socket:[") "]") else None.

(** The links of one process; the first to hold an inode owns it. *)
Fixpoint own_fds (want : list Z) (pid : Z) (comm : string) (fds : list (option string)) (out : gmap Z (Z * string)) : gmap Z (Z * string) :=
  match fds with
  | [] => out
  | fd :: fds =>
      own_fds want pid comm fds
        match fd with
        | Some target =>
            match socket_inode target with
            | Some ino =>
                if existsb (Z.eqb ino) want
                then match out !! ino with Some _ => out | None => <[ino := (pid, comm)]> out end
                else out
            | None => out
            end
        | None => out
        end
  end.

Fixpoint own_procs (ctx : string -> option error) (want : list Z) (procs : list proc_entry) (out : gmap Z (Z * string)) : gmap Z (Z * string) :=
  match procs with
  | [] => out
  | p :: procs =>
      match ctx (pe_Name p) with
      | Some _ => out
      | None =>
          own_procs ctx want procs
            match Atoi (pe_Name p) with
            | Some pid =>
                if pe_IsDir p
                then match pe_Fds p with Some fds => own_fds want pid (comm_of p) fds out | None => out end
                else out
            | None => out
            end
      end
  end.

Definition socketOwners (fs : proc_fs) (want : list Z) : gmap Z (Z * string) :=
  match want with
  | [] => ∅
  | _ => match fs_procs fs with Some procs => own_procs (fs_ctx fs) want procs ∅ | None => ∅ end
  end.

Definition userName (fs : proc_fs) (uid : Z) : string := match fs_user fs uid with Some n => n | None => Itoa uid end.

(** ** ListeningPorts *)

Definition attribute (fs : proc_fs) (owners : gmap Z (Z * string)) (p : procPort) : ListeningPort :=
  let l := pp_Port p in
  let '(pid, comm) := match owners !! pp_inode p with Some o => o | None => (lp_PID l, lp_Process l) end in
  mkListeningPort (lp_Proto l) (lp_Addr l) (lp_Port l) pid comm (userName fs (lp_UID l)) (lp_UID l).

Definition port_le (a b : ListeningPort) : bool :=
  if lp_Port a =? lp_Port b then String.leb (lp_Proto a) (lp_Proto b) else lp_Port a <=? lp_Port b.

(** The tables in order; an absent one is skipped. *)
Definition wrap_leaf (what e : string) : error := EWrap (what +:+ ": " +:+ e) [ELeaf e].

Fixpoint read_tables (fs : proc_fs) (protos : list string) : result error (list procPort) :=
  match protos with
  | [] => Ok []
  | proto :: protos =>
      match fs_ctx fs proto with
      | Some e => Err e
      | None =>
          match fs_net fs proto with
          | NoTable => read_tables fs protos
          | NotOpened e => Err (wrap_leaf ("diag: open /proc/net/" +:+ proto) e)
          | TableText text read_err =>
              match parseProcNet proto text read_err with
              | Err e => Err (wrap_leaf ("diag: parse /proc/net/" +:+ proto) e)
              | Ok ps => match read_tables fs protos with Err e => Err e | Ok out => Ok (ps ++ out) end
              end
          end
      end
  end.

Definition ListeningPorts (fs : proc_fs) : result error (list ListeningPort) :=
  match read_tables fs ["tcp"; "tcp6"; "udp"; "udp6"] with
  | Err e => Err e
  | Ok out => Ok (isort port_le (map (attribute fs (socketOwners fs (map pp_inode out))) out))
  end.
End Ports.

Example listening_sample :
  let tcp := "  sl  local_address rem_address   st tx_queue rx_queue tr tm->when retrnsmt   uid  timeout inode" +:+ byte_str [10%nat] +:+
             "   0: 0100007F:1F90 00000000:0000 0A 00000000:00000000 00:00000000 00000000  1000        0 12345 1 0" +:+ byte_str [10%nat] +:+
             "   1: 0100007F:0016 0100007F:A1B2 01 00000000:00000000 00:00000000 00000000     0        0 777 1 0" +:+ byte_str [10%nat] in
  let fs := mkProcFS (fun p => if p =?s "tcp" then TableText tcp None else NoTable)
              (Some [mkProcEntry "self" false None None; mkProcEntry "42" true (Some [None; Some "/dev/null"; Some "socket:[12345]"]) (Some ("web" +:+ byte_str [10%nat]))])
              (fun u => if u =? 1000 then Some "ann" else None) (fun _ => None) in
  ListeningPorts id id id fs = Ok [mkListeningPort "tcp" "127.0.0.1" 8080 42 "web" "ann" 1000].
Proof. vm_compute. reflexivity. Qed.

(** * The listening sockets are exactly those the kernel prints, each with the
    process that holds it. *)

(** ** What the kernel prints *)

(** A socket, and what stands in the columns nobody reads. *)
Record sock := mkSock {
  sk_local : list Z; sk_port : Z;
  sk_remote : list Z; sk_rport : Z;
  sk_state : Z; sk_uid : Z; sk_inode : Z;
  sk_first : string; sk_queue : list string; sk_timeout : string; sk_rest : list string;
  sk_pad : string -> nat                     (* the spaces before a column, but one *)
}.

(** An address as words of the machine, and a port. *)
Definition kernel_addr (b : list Z) (port : Z) : string := hex_bytes (swap_words b) +:+ ":" +:+ hex_bytes [port / 256; port mod 256].

Definition kernel_words (s : sock) : list string :=
  [sk_first s; kernel_addr (sk_local s) (sk_port s); kernel_addr (sk_remote s) (sk_rport s); hex2 (sk_state s)] ++
  sk_queue s ++ [Itoa (sk_uid s); sk_timeout s; Itoa (sk_inode s)] ++ sk_rest s.

Definition kernel_row (s : sock) : string := spaced (map (fun w => (sk_pad s w, w)) (kernel_words s)).

Definition table_text (header : string) (socks : list sock) : string := unlines (header :: map kernel_row socks).

(** TCP sockets in LISTEN; UDP sockets without a peer. *)
Definition listens (proto : string) (s : sock) : bool :=
  if HasPrefix proto "tcp" then sk_state s =? 10 else forallb (Z.eqb 0) (sk_remote s) && (sk_rport s =? 0).

Definition addr_len (proto : string) : nat := if HasSuffix proto "6" then 16 else 4.

Definition sock_ok (proto : string) (s : sock) : Prop :=
  length (sk_local s) = addr_len proto /\ Forall byte_ok (sk_local s) /\ 0 <= sk_port s < 65536 /\
  length (sk_remote s) = addr_len proto /\ Forall byte_ok (sk_remote s) /\ 0 <= sk_rport s < 65536 /\
  byte_ok (sk_state s) /\ 0 <= sk_uid s < 2 ^ 63 /\ 0 <= sk_inode s < 2 ^ 63 /\
  word (sk_first s) /\ length (sk_queue s) = 3%nat /\ Forall word (sk_queue s) /\ word (sk_timeout s) /\ Forall word (sk_rest s) /\
  short_line MaxScanTokenSize (kernel_row s).

(** ** Reading it back *)

Lemma swap_words_involutive b : Nat.modulo (length b) 4 = 0%nat -> swap_words (swap_words b) = b.
Proof.
  remember (length b / 4)%nat as n. revert b Heqn. induction n as [|n IH]; intros b Hn Hm.
  - destruct b as [|b0 [|b1 [|b2 [|b3 b]]]]; try done. exfalso. cbn [length] in *. pose proof (Nat.div_mod_eq (S (S (S (S (length b))))) 4). lia.
  - pose proof (Nat.div_mod_eq (length b) 4) as Hd. destruct b as [|b0 [|b1 [|b2 [|b3 b]]]]; cbn [length] in *; [lia|lia|lia|lia|].
    cbn [swap_words]. rewrite IH; [done| |]; pose proof (Nat.div_mod_eq (length b) 4);
      assert (S (S (S (S (length b)))) = (1 * 4 + length b)%nat) as E by lia; rewrite E in *;
      rewrite Nat.div_add_l in * by lia; rewrite Nat.add_comm, Nat.Div0.mod_add in Hm; lia.
Qed.

Lemma swap_words_forall (P : Z -> Prop) b : Forall P b -> Forall P (swap_words b).
Proof.
  remember (length b) as n. revert b Heqn. induction n as [n IH] using lt_wf_ind. intros b -> HF.
  destruct b as [|b0 [|b1 [|b2 [|b3 b]]]]; [by apply Forall_nil..|]. cbn [swap_words].
  repeat (apply Forall_cons in HF as [? HF]). repeat (apply Forall_cons; split; [done|]). apply (IH (length b)); [cbn; lia|done|done].
Qed.

Lemma swap_words_length b : Nat.modulo (length b) 4 = 0%nat -> length (swap_words b) = length b.
Proof.
  remember (length b) as n eqn:En. revert b En. induction n as [n IH] using lt_wf_ind. intros b -> Hm.
  destruct b as [|b0 [|b1 [|b2 [|b3 b]]]]; [done..|]. cbn [swap_words length] in *. do 4 f_equal. apply (IH (length b)); [lia|done|].
  replace (S (S (S (S (length b))))) with (length b + 1 * 4)%nat in Hm by lia. by rewrite Nat.Div0.mod_add in Hm.
Qed.

Lemma swap_words_zeros b : Nat.modulo (length b) 4 = 0%nat -> forallb (Z.eqb 0) (swap_words b) = forallb (Z.eqb 0) b.
Proof.
  intros Hm. apply eq_true_iff_eq. rewrite !forallb_forall, <- !List.Forall_forall. split; intros H; [|by apply swap_words_forall].
  rewrite <- (swap_words_involutive b) by done. by apply swap_words_forall.
Qed.

Lemma port_bytes p : 0 <= p < 65536 -> Forall byte_ok [p / 256; p mod 256] /\ forallb (Z.eqb 0) [p / 256; p mod 256] = (p =? 0).
Proof.
  intros Hp. pose proof (Z.div_mod p 256). pose proof (Z.mod_pos_bound p 256). split.
  - repeat (apply Forall_cons; split; [unfold byte_ok; lia|]). by apply Forall_nil.
  - cbn [forallb]. rewrite andb_true_r. destruct (Z.eqb_spec 0 (p / 256)), (Z.eqb_spec 0 (p mod 256)), (Z.eqb_spec p 0); cbn; lia || done.
Qed.

Lemma hex_run_two acc b s : 0 <= b < 256 ->
  hex_run acc (hex2 b +:+ s) = let '(n, v, rest) := hex_run (acc * 256 + b) s in (S (S n), v, rest).
Proof.
  intros Hb. destruct (hex2_chars b Hb) as (x & y & -> & Hx & Hy & _). rewrite !app_String. cbn [hex_run]. rewrite Hx, Hy.
  change ("" +:+ s) with s. replace ((acc * 16 + b / 16) * 16 + b mod 16) with (acc * 256 + b) by (pose proof (Z.div_mod b 16); lia).
  by destruct (hex_run _ s) as [[n v] rest].
Qed.

Lemma ParseHex_port p : 0 <= p < 65536 -> ParseHex 16 (hex_bytes [p / 256; p mod 256]) = Some p.
Proof.
  intros Hp. destruct (port_bytes p Hp) as [HF _]. apply Forall_cons in HF as [H1 HF]. apply Forall_cons in HF as [H2 _].
  unfold byte_ok in *. unfold hex_bytes. cbn [map Join].
  change ("" +:+ hex2 (p mod 256)) with (hex2 (p mod 256)). rewrite <- (string_app_nil (hex2 (p mod 256))).
  unfold ParseHex. rewrite !hex_run_two by done. cbn [hex_run]. destruct (hex2_chars (p / 256) H1) as (x & y & -> & _). rewrite app_String.
  replace ((0 * 256 + p / 256) * 256 + p mod 256) with p by (pose proof (Z.div_mod p 256); lia). change (2 ^ 16) with 65536.
  by rewrite (proj2 (Z.ltb_lt p 65536)) by lia.
Qed.

Section Facts.
Context (Quote : string -> string) (num_error hex_error : string -> string).

Lemma parseHexAddr_kernel b port v6 : length b = (if v6 : bool then 16 else 4)%nat -> Forall byte_ok b -> 0 <= port < 65536 ->
  parseHexAddr Quote num_error hex_error (kernel_addr b port) v6 = Ok (IP_String b, port).
Proof.
  intros Hl HF Hp. assert (Nat.modulo (length b) 4 = 0%nat) as Hm by (rewrite Hl; by destruct v6).
  destruct (hex_bytes_read _ (swap_words_forall _ _ HF)) as (H1 & _ & H2 & _).
  unfold parseHexAddr, kernel_addr. change (":" +:+ ?s) with (String ":" s). rewrite Cut_char by done.
  rewrite ParseHex_port, H1, swap_words_length, swap_words_involutive, Hl, Nat.eqb_refl by done. done.
Qed.

Lemma zeroRemote_kernel b port : Nat.modulo (length b) 4 = 0%nat -> Forall byte_ok b -> 0 <= port < 65536 ->
  zeroRemote (kernel_addr b port) = forallb (Z.eqb 0) b && (port =? 0).
Proof.
  intros Hm HF Hp. destruct (hex_bytes_read _ (swap_words_forall _ _ HF)) as (_ & _ & _ & H1).
  destruct (port_bytes port Hp) as [Hpf Hpz]. destruct (hex_bytes_read _ Hpf) as (_ & _ & _ & H2).
  unfold zeroRemote. assert (forall s, (Trim s "0:" =?s "") = all_chars (in_set "0:") s) as ->.
  { intros s. apply Trim_empty. }
  unfold kernel_addr. rewrite !all_chars_app, H1, H2, Hpz, swap_words_zeros by done. done.
Qed.

Lemma addr_word b port : Forall byte_ok b -> 0 <= port < 65536 -> word (kernel_addr b port).
Proof.
  intros HF Hp. destruct (hex_bytes_read _ (swap_words_forall _ _ HF)) as (_ & H1 & _). destruct (port_bytes port Hp) as [Hpf _].
  destruct (hex_bytes_read _ Hpf) as (_ & H2 & _). unfold kernel_addr. split; [by destruct (hex_bytes (swap_words b))|].
  rewrite !all_chars_app, H1, H2. done.
Qed.

Lemma kernel_fields proto s : sock_ok proto s -> Fields (kernel_row s) = kernel_words s.
Proof.
  intros (_ & Hl & Hlp & _ & Hr & Hrp & Hst & Hu & Hi & Hf & _ & Hq & Ht & Hre & _). unfold kernel_row. rewrite Fields_spaced.
  - rewrite map_map. cbn [snd]. apply map_id.
  - apply List.Forall_map. cbn [snd]. unfold kernel_words. rewrite !Forall_app.
    assert (forall n, word (Itoa n)) as HI by (intros n; split; [apply Itoa_nonempty|apply Itoa_plain]).
    split_and!; [|done| |done].
    + repeat (apply Forall_cons; split); [done|by apply addr_word|by apply addr_word| |by apply Forall_nil].
      destruct (hex2_chars _ Hst) as (x & y & E & _ & _ & H & _). split; [by rewrite E|done].
    + repeat (apply Forall_cons; split; [done|]). by apply Forall_nil.
Qed.

(** What a socket is listed as, before its process is known. *)
Definition row_port (proto : string) (s : sock) : procPort :=
  mkProcPort (mkListeningPort proto (IP_String (sk_local s)) (sk_port s) 0 "" "" (sk_uid s)) (sk_inode s).

Lemma state_listen b : byte_ok b -> (hex2 b =?s tcpListen) = (b =? 10).
Proof.
  intros Hb. assert (forallb (fun n => Bool.eqb (hex2 (Z.of_nat n) =?s tcpListen) (Z.of_nat n =? 10)) (seq 0 256) = true) as H by (vm_compute; reflexivity).
  rewrite forallb_forall in H. unfold byte_ok in Hb. specialize (H (Z.to_nat b)). rewrite in_seq, Z2Nat.id in H by lia. apply eqb_prop, H. lia.
Qed.

Lemma parse_kernel_row proto s : sock_ok proto s ->
  parse_row Quote num_error hex_error proto (kernel_row s) = Ok (if listens proto s then Some (row_port proto s) else None).
Proof.
  intros Hok. pose proof (kernel_fields proto s Hok) as EF. destruct Hok as (Hl & HF & Hp & Hrl & HrF & Hrp & Hst & Hu & Hi & _ & Hq & _).
  unfold parse_row. rewrite EF. unfold kernel_words.
  destruct (sk_queue s) as [|q1 [|q2 [|q3 [|]]]]; try done. cbn [app].
  rewrite state_listen by done. rewrite zeroRemote_kernel; [|rewrite Hrl; unfold addr_len; by case_test|done|done].
  rewrite parseHexAddr_kernel; [|by rewrite Hl|done|done]. rewrite !Atoi_Itoa_all by lia. unfold listens.
  destruct (HasPrefix proto "tcp"); cbn [andb negb]; [by destruct (sk_state s =? 10)|by destruct (forallb _ _ && _)].
Qed.

Lemma parse_table proto header socks : Forall (sock_ok proto) socks -> short_line MaxScanTokenSize header ->
  parseProcNet Quote num_error hex_error proto (table_text header socks) None = Ok (map (row_port proto) (List.filter (listens proto) socks)).
Proof.
  intros HF Hh. unfold parseProcNet, table_text. rewrite Scan_unlines.
  - cbn [tail]. assert (parse_rows Quote num_error hex_error proto (map kernel_row socks) = Ok (map (row_port proto) (List.filter (listens proto) socks))) as ->; [|done].
    induction HF as [|s socks Hs HF IH]; [done|]. cbn [map parse_rows]. rewrite parse_kernel_row, IH by done. csimpl. by destruct (listens proto s).
  - apply Forall_cons; split; [done|]. apply List.Forall_map. eapply Forall_impl; [exact HF|]. intros s Hs. apply Hs.
Qed.

(** ** Owners *)

(** The inode is behind one of the links. *)
Definition holds_link (ino : Z) (fd : option string) : bool :=
  match fd with Some t => match socket_inode t with Some i => i =? ino | None => false end | None => false end.

(** The process and its name, if it holds the inode. *)
Definition holder (ino : Z) (p : proc_entry) : option (Z * string) :=
  match Atoi (pe_Name p), pe_Fds p with
  | Some pid, Some fds => if pe_IsDir p && existsb (holds_link ino) fds then Some (pid, comm_of p) else None
  | _, _ => None
  end.

Lemma own_fds_lookup want pid comm fds out ino : own_fds want pid comm fds out !! ino =
  match out !! ino with
  | Some o => Some o
  | None => if existsb (Z.eqb ino) want && existsb (holds_link ino) fds then Some (pid, comm) else None
  end.
Proof.
  revert out; induction fds as [|fd fds IH]; intros out; cbn [own_fds existsb]; [rewrite andb_false_r; by destruct (out !! ino)|].
  rewrite IH. clear IH. destruct fd as [t|]; cbn [holds_link]; [|done]. destruct (socket_inode t) as [i|]; [|done].
  destruct (existsb (Z.eqb i) want) eqn:Hw.
  - destruct (out !! i) as [o|] eqn:Ho.
    + destruct (Z.eqb_spec i ino) as [<-|Hne]; [by rewrite Ho|done].
    + destruct (Z.eqb_spec i ino) as [<-|Hne]; [rewrite lookup_insert_eq, Ho, Hw; done|by rewrite lookup_insert_ne].
  - destruct (Z.eqb_spec i ino) as [<-|Hne]; [|done]. by rewrite Hw.
Qed.

Lemma own_procs_lookup ctx want procs out ino : (forall p, In p procs -> ctx (pe_Name p) = None) -> own_procs ctx want procs out !! ino =
  match out !! ino with
  | Some o => Some o
  | None => if existsb (Z.eqb ino) want then first_some (holder ino) procs else None
  end.
Proof.
  revert out; induction procs as [|p procs IH]; intros out Hc; cbn [own_procs first_some]; [destruct (out !! ino); [done|by case_test]|].
  rewrite Hc by (by left). rewrite IH by (intros q Hq; apply Hc; by right). clear IH. unfold holder at 2.
  destruct (Atoi (pe_Name p)) as [pid|]; [|done]. destruct (pe_IsDir p); [|by destruct (pe_Fds p)].
  destruct (pe_Fds p) as [fds|]; [|done]. rewrite own_fds_lookup. destruct (out !! ino); [done|]. cbn [andb].
  destruct (existsb (Z.eqb ino) want), (existsb (holds_link ino) fds); done.
Qed.

(** ** The whole list *)

Definition protos : list string := ["tcp"; "tcp6"; "udp"; "udp6"].

(** /proc shows these tables, an absent one for a family that is off, and the
    context goes on. *)
Definition shows (fs : proc_fs) (tables : string -> option (string * list sock)) : Prop :=
  (forall proto, In proto protos ->
     match tables proto with
     | Some (header, socks) =>
         fs_net fs proto = TableText (table_text header socks) None /\ short_line MaxScanTokenSize header /\ Forall (sock_ok proto) socks
     | None => fs_net fs proto = NoTable
     end) /\
  (forall n, fs_ctx fs n = None).

Definition listening (tables : string -> option (string * list sock)) (proto : string) : list (string * sock) :=
  match tables proto with Some (_, socks) => map (pair proto) (List.filter (listens proto) socks) | None => [] end.

(** How a listening socket is listed: its address and port, the first process
    that holds it, and the name of its user. *)
Definition listed (fs : proc_fs) (ps : string * sock) : ListeningPort :=
  let '(proto, s) := ps in
  let '(pid, comm) := default (0, "") (first_some (holder (sk_inode s)) (default [] (fs_procs fs))) in
  mkListeningPort proto (IP_String (sk_local s)) (sk_port s) pid comm (default (Itoa (sk_uid s)) (fs_user fs (sk_uid s))) (sk_uid s).

Lemma read_tables_shown fs tables l : shows fs tables -> (forall p, In p l -> In p protos) ->
  read_tables Quote num_error hex_error fs l = Ok (map (fun ps => row_port ps.1 ps.2) (flat_map (listening tables) l)).
Proof.
  intros [Ht Hc]. induction l as [|proto l IH]; intros Hl; [done|]. cbn [read_tables flat_map]. rewrite Hc. specialize (Ht proto (Hl proto (or_introl eq_refl))).
  specialize (IH (fun p Hp => Hl p (or_intror Hp))). unfold listening at 1. destruct (tables proto) as [[header socks]|].
  - destruct Ht as (-> & Hh & HF). rewrite parse_table, IH, map_app, map_map by done. done.
  - by rewrite Ht.
Qed.

Lemma attribute_listed fs ps want : (forall n, fs_ctx fs n = None) -> In (sk_inode ps.2) want ->
  attribute fs (socketOwners fs want) (row_port ps.1 ps.2) = listed fs ps.
Proof.
  intros Hc Hin. destruct ps as [proto s]. cbn [fst snd] in *. unfold attribute, listed, userName. cbn [row_port pp_Port pp_inode lp_PID lp_Process lp_Proto lp_Addr lp_Port lp_UID].
  assert (socketOwners fs want !! sk_inode s = first_some (holder (sk_inode s)) (default [] (fs_procs fs))) as ->.
  { unfold socketOwners. destruct want as [|x want]; [done|]. destruct (fs_procs fs) as [procs|]; [|done].
    rewrite own_procs_lookup, lookup_empty by done. assert (existsb (Z.eqb (sk_inode s)) (x :: want) = true) as ->; [|done].
    apply existsb_exists. exists (sk_inode s). split; [done|apply Z.eqb_refl]. }
  destruct (first_some _ _) as [[pid comm]|]; cbn [default]; by destruct (fs_user fs (sk_uid s)).
Qed.

Lemma port_le_total a b : port_le a b = true \/ port_le b a = true.
Proof.
  unfold port_le. rewrite (Z.eqb_sym (lp_Port b)). case_test; [apply String.leb_total|].
  destruct (Z.le_ge_cases (lp_Port a) (lp_Port b)); [left|right]; by apply Z.leb_le.
Qed.

Lemma port_le_trans a b c : port_le a b = true -> port_le b c = true -> port_le a c = true.
Proof.
  unfold port_le. repeat case_test; bool_to_prop; try congruence; intros; bool_to_prop; rewrite ?Z.leb_le; try lia.
  by eapply string_leb_trans.
Qed.

Lemma unopened fs l proto e : In proto l -> fs_net fs proto = NotOpened e -> is_ok (read_tables Quote num_error hex_error fs l) = false.
Proof.
  intros Hin He. induction l as [|p l IH]; [done|]. cbn [read_tables]. destruct (fs_ctx fs p); [done|]. destruct Hin as [->|Hin]; [by rewrite He|].
  specialize (IH Hin). destruct (fs_net fs p) as [|e'|text re]; [done|done|]. destruct (parseProcNet _ _ _ _ _ _); [|done].
  by destruct (read_tables _ _ _ fs l).
Qed.

(** C28: From the tables as the kernel prints them, whatever their padding and
    the columns nobody reads, [ListeningPorts] lists exactly the TCP sockets in
    LISTEN and the UDP sockets without a peer, each with its address and port,
    its user, and the first process of /proc that holds its inode, by port and
    protocol; an absent table counts as empty, and one that cannot be opened
    fails the call. *)
Theorem listening_exact fs tables :
  (shows fs tables ->
     exists l, ListeningPorts Quote num_error hex_error fs = Ok l /\ l ≡ₚ map (listed fs) (flat_map (listening tables) protos) /\
       StronglySorted (fun a b => lp_Port a < lp_Port b \/ (lp_Port a = lp_Port b /\ String.leb (lp_Proto a) (lp_Proto b) = true)) l) /\
  (forall proto e, In proto protos -> fs_net fs proto = NotOpened e -> is_ok (ListeningPorts Quote num_error hex_error fs) = false).
Proof.
  split.
  - intros Hs. unfold ListeningPorts. fold protos. rewrite (read_tables_shown fs tables protos Hs) by done. eexists. split; [done|]. split.
    + rewrite isort_perm, map_map. apply Permutation_refl'. apply map_ext_in. intros ps Hps. destruct Hs as [_ Hc]. apply attribute_listed; [done|].
      rewrite map_map. apply in_map_iff. exists ps. by split.
    + eapply StronglySorted_weaken; [|apply isort_sorted; [apply port_le_total|apply port_le_trans]]. intros a b. unfold port_le.
      destruct (Z.eqb_spec (lp_Port a) (lp_Port b)); [by right|]. intros H%Z.leb_le. left. lia.
  - intros proto e Hin He. unfold ListeningPorts. fold protos. pose proof (unopened fs protos proto e Hin He) as H.
    by destruct (read_tables _ _ _ fs protos).
Qed.
End Facts.

(** ** An example *)

Definition web : sock :=
  mkSock [127; 0; 0; 1] 8080 [0; 0; 0; 0] 0 10 1000 12345 "0:" ["00000000:00000000"; "00:00000000"; "00000000"] "0" ["1"; "0"] (fun w => if w =?s "1000" then 4%nat else 0%nat).

Definition web_fs : proc_fs :=
  mkProcFS (fun p => if p =?s "tcp" then TableText (table_text "header" [web]) None else NoTable)
    (Some [mkProcEntry "self" false None None; mkProcEntry "42" true (Some [None; Some "socket:[12345]"]) (Some "web")]) (fun _ => None) (fun _ => None).

Lemma listening_exact_witness :
  let tables p := if p =?s "tcp" then Some ("header", [web]) else None in
  shows web_fs tables /\
  exists l, ListeningPorts id id id web_fs = Ok l /\ l ≡ₚ [mkListeningPort "tcp" "127.0.0.1" 8080 42 "web" "1000" 1000].
Proof.
  cbv zeta. assert (shows web_fs (fun p => if p =?s "tcp" then Some ("header", [web]) else None)) as Hs.
  { split; [|done]. intros proto [<-|[<-|[<-|[<-|[]]]]]; [|done..]. cbn [String.eqb Ascii.eqb Bool.eqb]. split; [done|]. split; [by vm_compute|].
    apply Forall_cons; split; [|by apply Forall_nil]. unfold sock_ok, word, byte_ok, short_line.
    split_and!; try (by vm_compute); repeat (apply Forall_cons; split; [by vm_compute|]); by apply Forall_nil. }
  split; [exact Hs|]. destruct (listening_exact id id id web_fs (fun p => if p =?s "tcp" then Some ("header", [web]) else None)) as [H _]. destruct (H Hs) as (l & Hl & Hp & _). exists l. split; [exact Hl|exact Hp].
Defined.
