(* ===== verification/Diag.v ===== *)
(** internal/diag: the neighbours on the network of a device, the routes, DNS
    lookups and the public address.

    Netlink, the resolver, mDNS and HTTP are operations on a world [W]; the
    records below hold what is read of a netlink message. *)

From S2P Require Import Prelude GoTime Core Errors GoStrings Netip GoScan.

(** ** Addresses and masks of package net *)

Record IPNet := mkIPNet { ipn_IP : list Z; ipn_Mask : list Z }.

Fixpoint leading_ones (fuel : nat) (v : Z) : option Z :=
  match fuel with
  | O => Some 0
  | S fuel => if Z.testbit v 7 then match leading_ones fuel (Z.land (Z.shiftl v 1) 255) with Some n => Some (n + 1) | None => None end
              else if v =? 0 then Some 0 else None
  end.

(** [simpleMaskLength]; [None] is -1. *)
Fixpoint simpleMaskLength (m : list Z) : option Z :=
  match m with
  | [] => Some 0
  | v :: m =>
      if v =? 255 then match simpleMaskLength m with Some n => Some (n + 8) | None => None end
      else match leading_ones 8 v with Some n => if forallb (Z.eqb 0) m then Some n else None | None => None end
  end.

(** [IPMask.Size] *)
Definition mask_Size (m : list Z) : Z * Z :=
  match simpleMaskLength m with Some n => (n, 8 * len m) | None => (0, 0) end.

Definition hex_byte (b : Z) : string := hex_digit (b / 16) +:+ hex_digit (b mod 16).

Definition IPNet_String (n : IPNet) : string :=
  let ip := match To4 (ipn_IP n) with Some b => Some b | None => if Nat.eqb (length (ipn_IP n)) 16 then Some (ipn_IP n) else None end in
  match ip with
  | None => "<nil>"
  | Some ip =>
      let m := if Nat.eqb (length (ipn_Mask n)) 4 then (if Nat.eqb (length ip) 4 then Some (ipn_Mask n) else None)
               else if Nat.eqb (length (ipn_Mask n)) 16 then Some (if Nat.eqb (length ip) 4 then drop 12 (ipn_Mask n) else ipn_Mask n)
               else None in
      match m with
      | None => "<nil>"
      | Some m =>
          match simpleMaskLength m with
          | Some l => IP_String ip +:+ "/" +:+ Itoa l
          | None => IP_String ip +:+ "/" +:+ Join (map hex_byte m) ""
          end
      end
  end.

Definition HardwareAddr_String (b : list Z) : string := Join (map hex_byte b) ":".

Definition IsLinkLocalUnicast (b : list Z) : bool :=
  match To4 b with
  | Some (b0 :: b1 :: _) => (b0 =? 169) && (b1 =? 254)
  | Some _ => false
  | None => Nat.eqb (length b) 16 && match b with b0 :: b1 :: _ => (b0 =? 254) && (Z.land b1 192 =? 128) | _ => false end
  end.

(** ** diag.go *)

Definition ErrNeedsPingGroup : error := ECore (Some "diag.ErrNeedsPingGroup") KindUnsupported
  "diag: ping socket refused (EACCES)"
  "one-time fix: add `net.ipv4.ping_group_range = 0 2147483647` to /etc/sysctl.d/50-bnm.conf and run `sysctl --system`" None.

Definition clockTick : Z := 100.

(** [ticks] is a uint32: the product stays in an int64. *)
Definition ticksAgo (now : Time) (ticks : Z) : Time := time_Add now (Z.quot (- ticks * second) clockTick).

(** [fmt.Errorf] with one verb for an error at the end. *)
Definition wrap (what : string) (e : error) : error := EWrap (what +:+ ": " +:+ ErrorString e) [e].

(** ** What netlink tells *)

Record nl_route := mkNlRoute {
  nr_Dst : option IPNet; nr_Gw : option (list Z); nr_LinkIndex : Z;
  nr_MultiPath : list (option (list Z) * Z);           (* gateway and link of each next hop *)
  nr_Priority : Z; nr_Protocol : string; nr_Scope : string; nr_Table : Z; nr_Family : Z
}.

Record nl_neigh := mkNlNeigh {
  nn_IP : option (list Z); nn_State : Z; nn_HardwareAddr : list Z; nn_Confirmed : Z; nn_Updated : Z
}.

Definition FAMILY_ALL : Z := 0.
Definition FAMILY_V4 : Z := 2.
Definition FAMILY_V6 : Z := 10.

Definition NUD_NONE : Z := 0x00.
Definition NUD_INCOMPLETE : Z := 0x01.
Definition NUD_REACHABLE : Z := 0x02.
Definition NUD_STALE : Z := 0x04.
Definition NUD_DELAY : Z := 0x08.
Definition NUD_PROBE : Z := 0x10.
Definition NUD_FAILED : Z := 0x20.
Definition NUD_NOARP : Z := 0x40.
Definition NUD_PERMANENT : Z := 0x80.

(** ** lanhosts.go: the tables *)

Definition isDefault (dst : option IPNet) : bool :=
  match dst with None => true | Some n => (mask_Size (ipn_Mask n)).1 =? 0 end.

Definition has_bits (s bits : Z) : bool := negb (Z.land s bits =? 0).

Definition neighState (s : Z) : string :=
  if has_bits s (Z.lor NUD_REACHABLE NUD_PERMANENT) then "reachable"
  else if has_bits s (Z.lor (Z.lor NUD_STALE NUD_DELAY) NUD_PROBE) then "stale"
  else if has_bits s NUD_INCOMPLETE then "incomplete"
  else if has_bits s NUD_FAILED then "failed"
  else "stale".

Definition mac_of (hw : list Z) : string := match hw with [] => "" | _ => HardwareAddr_String hw end.

Definition neighToHost (n : nl_neigh) (device : string) (now : Time) : option LANHost :=
  match nn_IP n with
  | None => None
  | Some ip =>
      if (nn_State n =? NUD_NONE) || has_bits (nn_State n) NUD_NOARP then None
      else
        let state := neighState (nn_State n) in
        let seen := if (state =?s "reachable") || (state =?s "stale") then ticksAgo now (nn_Confirmed n) else ticksAgo now (nn_Updated n) in
        Some (mkLANHost (IP_String ip) (mac_of (nn_HardwareAddr n)) "" state device false false seen)
  end.

(** The addresses of a link; some have none. *)
Definition firstIPv4 (addrs : list (option IPNet)) : option IPNet :=
  first_some (fun a => match a with
                       | Some n => match To4 (ipn_IP n) with Some b => Some (mkIPNet b (ipn_Mask n)) | None => None end
                       | None => None
                       end) addrs.

Definition selfHosts (device : string) (addrs : list (option IPNet)) (now : Time) : list LANHost :=
  omap (fun a => match a with
                 | Some n => if IsLinkLocalUnicast (ipn_IP n) then None
                             else Some (mkLANHost (IP_String (ipn_IP n)) "" "" "reachable" device true false now)
                 | None => None
                 end) addrs.

(** The gateways of the default routes. *)
Definition gateways_of (routes : list nl_route) : list string :=
  flat_map (fun r => if isDefault (nr_Dst r)
                     then option_list (option_map IP_String (nr_Gw r)) ++ omap (fun nh => option_map IP_String nh.1) (nr_MultiPath r)
                     else []) routes.

(** [<] on strings of bytes *)
Fixpoint bytes_ltb (a b : list Z) : bool :=
  match a, b with
  | x :: a, y :: b => if x <? y then true else if x =? y then bytes_ltb a b else false
  | [], _ :: _ => true
  | _, [] => false
  end.

(** [lessIP]: IPv4 first; what is no address comes before every IPv6 one. *)
Definition lessIP (a b : string) : bool :=
  let pa := ParseIP_bytes a in let pb := ParseIP_bytes b in
  let a4 := match pa with Some x => To4 x | None => None end in
  let b4 := match pb with Some x => To4 x | None => None end in
  match a4, b4 with
  | Some _, None => true
  | None, Some _ => false
  | Some x, Some y => bytes_ltb x y
  | None, None => bytes_ltb (default [] pa) (default [] pb)
  end.

Definition lan_le (a b : LANHost) : bool := negb (lessIP (lh_IP b) (lh_IP a)).

(** ** The world *)

Record DiagNet (W : Type) := mkDiagNet {
  dn_Now : W -> Time * W;
  dn_Ctx : W -> option error * W;
  dn_Deadline : option Time;
  dn_LinkByName : string -> W -> result error Z * W;                     (* the index *)
  dn_LinkNames : W -> result error (list (Z * string)) * W;
  dn_Addrs : string -> W -> result error (list (option IPNet)) * W;
  dn_Routes : Z -> option Z -> W -> result error (list nl_route) * W;    (* by family, and by link if one is given *)
  dn_Neighs : Z -> Z -> W -> result error (list nl_neigh) * W;           (* by link and family *)
  dn_MDNS : string -> W -> option (gmap string string) * W;              (* [None]: the context ended first *)
  dn_LookupAddr : string -> W -> result error (list string) * W;
  dn_PingListen : string -> W -> option error * W;
  dn_PingPacket : result error string;
  dn_PingWrite : string -> list Z -> W -> option error * W;
  dn_PingRead : Time -> W -> bool * W                                    (* a packet came before the deadline *)
}.
Arguments dn_Now {W}. Arguments dn_Ctx {W}. Arguments dn_Deadline {W}. Arguments dn_LinkByName {W}. Arguments dn_LinkNames {W}.
Arguments dn_Addrs {W}. Arguments dn_Routes {W}. Arguments dn_Neighs {W}. Arguments dn_MDNS {W}. Arguments dn_LookupAddr {W}.
Arguments dn_PingListen {W}. Arguments dn_PingPacket {W}. Arguments dn_PingWrite {W}. Arguments dn_PingRead {W}.

(** ** lanhosts.go: the sweep *)

Definition sweepBudget : Duration := 1500 * millisecond.
Definition sweepMaxHosts : Z := 256.

(** The big-endian number of four bytes, and its bytes. *)
Definition u32_of (b : list Z) : Z :=
  match b with
  | [b0; b1; b2; b3] => Z.lor (Z.shiftl b0 24) (Z.lor (Z.shiftl b1 16) (Z.lor (Z.shiftl b2 8) b3))
  | _ => 0
  end.

Definition bytes_of_u32 (v : Z) : list Z :=
  [Z.land (Z.shiftr v 24) 255; Z.land (Z.shiftr v 16) 255; Z.land (Z.shiftr v 8) 255; Z.land v 255].

Fixpoint mask_bytes (a m : list Z) : list Z :=
  match a, m with x :: a, y :: m => Z.land x y :: mask_bytes a m | _, _ => [] end.

(** [self] is four bytes with their mask. *)
Definition sweepTargets (self : IPNet) : list (list Z) :=
  let '(ones, bits) := mask_Size (ipn_Mask self) in
  if negb (bits =? 32) || (30 <? ones) then []
  else
    let base := u32_of (mask_bytes (ipn_IP self) (ipn_Mask self)) in
    let size := Z.shiftl 1 (32 - ones) in
    let limit := size - 1 in
    let limit := if sweepMaxHosts <? limit then sweepMaxHosts else limit in
    List.filter (fun ip => negb (bool_decide (ip = ipn_IP self)))
      (map (fun i => bytes_of_u32 ((base + Z.of_nat i) mod 2 ^ 32)) (seq 1 (Z.to_nat (limit - 1)))).

Section LAN.
Context {W : Type} (net : DiagNet W).

(** How many packets the socket still has to give, at most. *)
Context (pending : W -> nat).

Definition ping_refused (e : error) : bool :=
  errors_Is (Some e) (ESentinel "syscall.EACCES" "permission denied") || errors_Is (Some e) (ESentinel "syscall.EPERM" "operation not permitted").

Definition needs_group (e : error) : error := EWrap (ErrorString ErrNeedsPingGroup +:+ ": " +:+ ErrorString e) [ErrNeedsPingGroup; e].

(** One echo to each target; an error ends them only when the socket is refused. *)
Fixpoint sweep_send (pkt : string) (targets : list (list Z)) (w : W) : option error * W :=
  match targets with
  | [] => (None, w)
  | ip :: targets =>
      let '(c, w) := dn_Ctx net w in
      match c with
      | Some e => (Some e, w)
      | None =>
          let '(err, w) := dn_PingWrite net pkt ip w in
          match err with
          | Some e => if ping_refused e then (Some (needs_group e), w) else sweep_send pkt targets w
          | None => sweep_send pkt targets w
          end
      end
  end.

Fixpoint drain (fuel : nat) (deadline : Time) (w : W) : W :=
  match fuel with
  | O => w
  | S fuel => let '(more, w) := dn_PingRead net deadline w in if more then drain fuel deadline w else w
  end.

Definition icmpSweep (self : IPNet) (w : W) : option error * W :=
  let '(err, w) := dn_PingListen net (IP_String (ipn_IP self)) w in
  match err with
  | Some e => (Some (if ping_refused e then needs_group e else wrap "open ping socket" e), w)
  | None =>
      let '(now, w) := dn_Now net w in
      let deadline := time_Add now sweepBudget in
      let deadline := match dn_Deadline net with Some d => if time_Before d deadline then d else deadline | None => deadline end in
      match dn_PingPacket net with
      | Err e => (Some (wrap "marshal echo" e), w)
      | Ok pkt =>
          let '(err, w) := sweep_send pkt (sweepTargets self) w in
          match err with
          | Some e => (Some e, w)
          | None => dn_Ctx net (drain (S (pending w)) deadline w)
          end
      end
  end.

(** ** lanhosts.go: LANHosts *)

Definition defaultGateways (index : Z) (w : W) : list string * W :=
  let '(r, w) := dn_Routes net FAMILY_ALL (Some index) w in
  (match r with Ok routes => gateways_of routes | Err _ => [] end, w).

Definition set_gateway (gateways : list string) (h : LANHost) : LANHost :=
  mkLANHost (lh_IP h) (lh_MAC h) (lh_Hostname h) (lh_State h) (lh_Device h) (lh_Self h) (existsb (String.eqb (lh_IP h)) gateways) (lh_Seen h).

Definition set_hostname (name : string) (h : LANHost) : LANHost :=
  mkLANHost (lh_IP h) (lh_MAC h) name (lh_State h) (lh_Device h) (lh_Self h) (lh_Gateway h) (lh_Seen h).

Definition neigh_hosts (device : string) (gateways : list string) (now : Time) (neighs : list nl_neigh) : list LANHost :=
  omap (fun n => option_map (set_gateway gateways) (neighToHost n device now)) neighs.

Fixpoint dump_neighs (device : string) (index : Z) (gateways : list string) (now : Time) (families : list Z) (w : W) : result error (list LANHost) * W :=
  match families with
  | [] => (Ok [], w)
  | family :: families =>
      let '(r, w) := dn_Neighs net index family w in
      match r with
      | Err e => (Err (wrap ("diag: neighbours of " +:+ device) e), w)
      | Ok neighs =>
          let '(r, w) := dump_neighs device index gateways now families w in
          (match r with Ok hosts => Ok (neigh_hosts device gateways now neighs ++ hosts) | Err e => Err e end, w)
      end
  end.

(** A name from mDNS takes the place of none. *)
Definition mdns_name (names : gmap string string) (h : LANHost) : LANHost :=
  let n := default "" (names !! lh_IP h) in if n =?s "" then h else set_hostname n h.

(** [reverseDNS]: the lookups run at once, each for its own host. *)
Fixpoint reverseDNS (hosts : list LANHost) (w : W) : list LANHost * W :=
  match hosts with
  | [] => ([], w)
  | h :: hosts =>
      let '(h, w) :=
        if lh_Hostname h =?s "" then
          let '(r, w) := dn_LookupAddr net (lh_IP h) w in
          (match r with Ok (name :: _) => set_hostname (TrimSuffix name ".") h | _ => h end, w)
        else (h, w) in
      let '(hosts, w) := reverseDNS hosts w in (h :: hosts, w)
  end.

Definition LANHosts (device : string) (sweep : bool) (w : W) : (list LANHost * option error) * W :=
  let '(r, w) := dn_LinkByName net device w in
  match r with
  | Err e => (([], Some (wrap ("diag: device " +:+ device) e)), w)
  | Ok index =>
      let '(r, w) := dn_Addrs net device w in
      match r with
      | Err e => (([], Some (wrap ("diag: addresses of " +:+ device) e)), w)
      | Ok addrs =>
          let '(gateways, w) := defaultGateways index w in
          let '(sweepErr, w) :=
            if sweep then match firstIPv4 addrs with
                          | Some v4 => icmpSweep v4 w
                          | None => (Some (ELeaf ("no IPv4 address on " +:+ device)), w)
                          end
            else (None, w) in
          let '(now, w) := dn_Now net w in
          let '(r, w) := dump_neighs device index gateways now [FAMILY_V4; FAMILY_V6] w in
          match r with
          | Err e => (([], Some e), w)
          | Ok neighs =>
              let hosts := selfHosts device addrs now ++ neighs in
              let '(names, w) := dn_MDNS net device w in
              let hosts := map (mdns_name (default ∅ names)) hosts in
              let '(c, w) := dn_Ctx net w in
              let '(hosts, w) := match c with None => reverseDNS hosts w | Some _ => (hosts, w) end in
              ((isort lan_le hosts, option_map ESweep sweepErr), w)
          end
      end
  end.

(** ** lanhosts.go: mDNS *)

(** [browseMDNS] of the entries in the order they come: host names with their
    addresses; a later entry takes the place of an earlier one. *)
Definition mdns_entry (names : gmap string string) (e : string * list (list Z)) : gmap string string :=
  let host := TrimSuffix e.1 "." in
  if host =?s "" then names else fold_left (fun names ip => <[IP_String ip := host]> names) e.2 names.

Definition browse_names (entries : list (string * list (list Z))) : gmap string string := fold_left mdns_entry entries ∅.

(** ** routes.go *)

Definition link_names (links : list (Z * string)) : gmap Z string := fold_left (fun m l => <[l.1 := l.2]> m) links ∅.

Definition toRoute (r : nl_route) (family : Z) (names : gmap Z string) : Route :=
  let dest := match nr_Dst r with Some n => if isDefault (nr_Dst r) then "default" else IPNet_String n | None => "default" end in
  let device := default "" (names !! nr_LinkIndex r) in
  let gateway := match nr_Gw r with Some g => IP_String g | None => "" end in
  let fam := if (family =? FAMILY_V6) || (nr_Family r =? FAMILY_V6) then 6 else 4 in
  let '(device, gateway) :=
    match nr_MultiPath r with
    | (gw, index) :: _ =>
        if device =?s ""
        then (default "" (names !! index), if gateway =?s "" then match gw with Some g => IP_String g | None => gateway end else gateway)
        else (device, gateway)
    | [] => (device, gateway)
    end in
  mkRoute dest gateway device (nr_Priority r) (nr_Protocol r) (nr_Scope r) (nr_Table r) fam.

Definition route_le (a b : Route) : bool :=
  if rt_Table a =? rt_Table b then rt_Family a <=? rt_Family b else rt_Table a <=? rt_Table b.

Fixpoint route_families (names : gmap Z string) (families : list Z) (w : W) : result error (list Route) * W :=
  match families with
  | [] => (Ok [], w)
  | family :: families =>
      let '(r, w) := dn_Routes net family None w in
      match r with
      | Err e => (Err (wrap ("diag: list routes (family " +:+ Itoa family +:+ ")") e), w)
      | Ok routes =>
          let '(r, w) := route_families names families w in
          (match r with Ok out => Ok (map (fun x => toRoute x family names) routes ++ out) | Err e => Err e end, w)
      end
  end.

Definition Routes (w : W) : result error (list Route) * W :=
  let '(c, w) := dn_Ctx net w in
  match c with
  | Some e => (Err e, w)
  | None =>
      let '(r, w) := dn_LinkNames net w in
      match r with
      | Err e => (Err (wrap "diag: list links" e), w)
      | Ok links =>
          let '(r, w) := route_families (link_names links) [FAMILY_V4; FAMILY_V6] w in
          (match r with Ok out => Ok (isort route_le out) | Err e => Err e end, w)
      end
  end.
End LAN.
