(* ===== verification/DiagFacts.v ===== *)
(** The sweep reaches every host of the network and nothing else; the list of
    the neighbours is that of the kernel's tables as they are read after it. *)

From S2P Require Import Prelude GoTime Core Errors GoStrings Netip GoScan Diag.

(** ** Four bytes as a number *)

Lemma byte_bits b i : byte_ok b -> (i < 0 \/ 8 <= i) -> Z.testbit b i = false.
Proof.
  unfold byte_ok. intros Hb [Hi|Hi]; [by apply Z.testbit_neg_r|]. destruct (Z.eq_dec b 0) as [->|Hne]; [apply Z.bits_0|].
  apply Z.bits_above_log2; [lia|]. assert (Z.log2 b < 8) by (apply Z.log2_lt_pow2; lia). lia.
Qed.

Definition u32_bits (b0 b1 b2 b3 i : Z) : bool :=
  if i <? 8 then Z.testbit b3 i else if i <? 16 then Z.testbit b2 (i - 8) else if i <? 24 then Z.testbit b1 (i - 16) else Z.testbit b0 (i - 24).

Lemma u32_testbit b0 b1 b2 b3 i : Forall byte_ok [b0; b1; b2; b3] -> 0 <= i -> Z.testbit (u32_of [b0; b1; b2; b3]) i = u32_bits b0 b1 b2 b3 i.
Proof.
  intros HF Hi. repeat (apply Forall_cons in HF as [? HF]). unfold u32_of, u32_bits.
  rewrite !Z.lor_spec, !Z.shiftl_spec by done.
  destruct (Z.ltb_spec i 8); [|destruct (Z.ltb_spec i 16); [|destruct (Z.ltb_spec i 24)]];
    repeat match goal with |- context [Z.testbit ?b ?j] => rewrite (byte_bits b j) by (done || lia) end; by rewrite ?orb_false_r, ?orb_false_l.
Qed.

Lemma u32_range b : length b = 4%nat -> Forall byte_ok b -> 0 <= u32_of b < 2 ^ 32.
Proof.
  intros Hl HF. destruct b as [|b0 [|b1 [|b2 [|b3 [|]]]]]; try done. pose proof HF as HF'.
  repeat (apply Forall_cons in HF as [? HF]). unfold byte_ok in *.
  assert (0 <= u32_of [b0; b1; b2; b3]) as Hpos by (unfold u32_of; rewrite !Z.lor_nonneg, !Z.shiftl_nonneg; lia).
  split; [done|]. destruct (Z.eq_dec (u32_of [b0; b1; b2; b3]) 0) as [->|Hne]; [done|]. apply Z.log2_lt_pow2; [lia|].
  apply Z.nle_gt. intros Hlog. pose proof (Z.bit_log2 (u32_of [b0; b1; b2; b3]) ltac:(lia)) as Hb.
  rewrite u32_testbit in Hb by (done || apply Z.log2_nonneg). unfold u32_bits in Hb.
  repeat rewrite (proj2 (Z.ltb_ge _ _)) in Hb by lia. rewrite byte_bits in Hb by (unfold byte_ok; lia). done.
Qed.

Lemma land255 v i : 0 <= i -> Z.testbit (Z.land v 255) i = (i <? 8) && Z.testbit v i.
Proof.
  intros Hi. change 255 with (Z.ones 8). rewrite Z.land_spec, Z.testbit_ones_nonneg by lia. by rewrite andb_comm.
Qed.

Lemma bytes_of_u32_ok v : length (bytes_of_u32 v) = 4%nat /\ Forall byte_ok (bytes_of_u32 v).
Proof.
  split; [done|]. unfold bytes_of_u32, byte_ok. change 255 with (Z.ones 8).
  repeat (apply Forall_cons; split; [rewrite Z.land_ones by lia; apply Z.mod_pos_bound; lia|]). by apply Forall_nil.
Qed.

Lemma u32_of_bytes v : 0 <= v < 2 ^ 32 -> u32_of (bytes_of_u32 v) = v.
Proof.
  intros Hv. apply Z.bits_inj'. intros i Hi. unfold bytes_of_u32. rewrite u32_testbit by (done || apply bytes_of_u32_ok).
  unfold u32_bits. destruct (Z.ltb_spec i 8); [|destruct (Z.ltb_spec i 16); [|destruct (Z.ltb_spec i 24)]];
    rewrite land255, ?Z.shiftr_spec by lia.
  - by rewrite (proj2 (Z.ltb_lt _ _)) by lia.
  - rewrite (proj2 (Z.ltb_lt _ _)) by lia. cbn [andb]. f_equal. lia.
  - rewrite (proj2 (Z.ltb_lt _ _)) by lia. cbn [andb]. f_equal. lia.
  - destruct (Z.ltb_spec (i - 24) 8); cbn [andb]; [f_equal; lia|]. symmetry.
    destruct (Z.eq_dec v 0) as [->|Hne]; [apply Z.bits_0|]. apply Z.bits_above_log2; [lia|].
    assert (Z.log2 v < 32) by (apply Z.log2_lt_pow2; lia). lia.
Qed.

Lemma bytes_of_u32_of b : length b = 4%nat -> Forall byte_ok b -> bytes_of_u32 (u32_of b) = b.
Proof.
  intros Hl HF. destruct b as [|b0 [|b1 [|b2 [|b3 [|]]]]]; try done. pose proof HF as HF'. repeat (apply Forall_cons in HF as [? HF]).
  unfold bytes_of_u32. f_equal; [|f_equal; [|f_equal; [|f_equal]]];
    (apply Z.bits_inj'; intros i Hi; rewrite land255, ?Z.shiftr_spec, u32_testbit by (done || lia); unfold u32_bits;
     destruct (Z.ltb_spec i 8) as [Hlt|Hge]; cbn [andb]; [|by rewrite byte_bits by (done || lia)]);
    repeat (rewrite (proj2 (Z.ltb_ge _ _)) by lia); rewrite ?(proj2 (Z.ltb_lt _ _)) by lia; f_equal; lia.
Qed.

Lemma mask_land a m : length a = 4%nat -> Forall byte_ok a -> length m = 4%nat -> Forall byte_ok m ->
  u32_of (mask_bytes a m) = Z.land (u32_of a) (u32_of m).
Proof.
  intros Hla Ha Hlm Hm. destruct a as [|a0 [|a1 [|a2 [|a3 [|]]]]]; try done. destruct m as [|m0 [|m1 [|m2 [|m3 [|]]]]]; try done.
  apply Z.bits_inj'. intros i Hi. rewrite Z.land_spec, !u32_testbit by done. cbn [mask_bytes]. rewrite u32_testbit; [|clear i Hi|done].
  - unfold u32_bits. repeat case_match_goal; by rewrite Z.land_spec.
  - repeat (apply Forall_cons in Ha as [? Ha]; apply Forall_cons in Hm as [? Hm]).
    assert (forall x y, byte_ok x -> byte_ok y -> byte_ok (Z.land x y)) as Hand.
    { clear. intros x y Hx Hy. unfold byte_ok in *. assert (y = Z.land y (Z.ones 8)) as -> by (rewrite Z.land_ones, Z.mod_small; lia).
      rewrite Z.land_assoc, Z.land_ones by lia. apply Z.mod_pos_bound. lia. }
    repeat (apply Forall_cons; split; [by apply Hand|]). by apply Forall_nil.
Qed.

(** ** The sweep *)

(** The mask of [n] ones. *)
Definition mask_of (n : Z) : list Z := bytes_of_u32 (2 ^ 32 - 2 ^ (32 - n)).

Lemma mask_of_Size n : 0 <= n <= 32 -> mask_Size (mask_of n) = (n, 32).
Proof.
  intros Hn. assert (forallb (fun k => let '(a, b) := mask_Size (mask_of (Z.of_nat k)) in (a =? Z.of_nat k) && (b =? 32)) (seq 0 33) = true) as H
    by (vm_compute; reflexivity).
  rewrite forallb_forall in H. specialize (H (Z.to_nat n)). rewrite in_seq, Z2Nat.id in H by lia. specialize (H ltac:(lia)).
  destruct (mask_Size (mask_of n)) as [a b]. apply andb_true_iff in H as [->%Z.eqb_eq ->%Z.eqb_eq]. done.
Qed.

Lemma land_mask u k : 0 <= u < 2 ^ 32 -> 0 <= k <= 32 -> Z.land u (2 ^ 32 - 2 ^ k) = u / 2 ^ k * 2 ^ k.
Proof.
  intros Hu Hk. assert (2 ^ 32 - 2 ^ k = Z.shiftl (Z.ones (32 - k)) k) as ->.
  { rewrite Z.shiftl_mul_pow2, Z.ones_equiv by lia. replace 32 with (32 - k + k) at 1 by lia. rewrite Z.pow_add_r by lia. lia. }
  assert (Z.land u (Z.shiftl (Z.ones (32 - k)) k) = Z.shiftl (Z.land (Z.shiftr u k) (Z.ones (32 - k))) k) as ->.
  { apply Z.bits_inj'. intros i Hi. rewrite Z.land_spec, !Z.shiftl_spec, Z.land_spec by done. destruct (Z.lt_ge_cases i k).
    - rewrite !(Z.testbit_neg_r _ (i - k)) by lia. by rewrite !andb_false_r.
    - rewrite Z.shiftr_spec by lia. by replace (i - k + k) with i by lia. }
  rewrite Z.land_ones, Z.shiftl_mul_pow2, Z.shiftr_div_pow2 by lia. rewrite Z.mod_small; [done|]. split; [apply Z.div_pos; lia|].
  apply Z.div_lt_upper_bound; [lia|]. rewrite <- Z.pow_add_r by lia. replace (k + (32 - k)) with 32 by lia. lia.
Qed.

(** How far the sweep goes: to the broadcast address, or 256 addresses. *)
Definition sweep_limit (n : Z) : Z := Z.min (2 ^ (32 - n) - 1) sweepMaxHosts.

Lemma sweepTargets_numbers ip n : length ip = 4%nat -> Forall byte_ok ip -> 0 <= n <= 30 ->
  let u := u32_of ip in let k := 2 ^ (32 - n) in
  map u32_of (sweepTargets (mkIPNet ip (mask_of n))) =
    List.filter (fun v => negb (v =? u)) (map (fun i => u / k * k + Z.of_nat i) (seq 1 (Z.to_nat (sweep_limit n - 1)))).
Proof.
  intros Hl HF Hn u k. pose proof (u32_range ip Hl HF) as Hu. fold u in Hu. unfold sweepTargets. cbn [ipn_IP ipn_Mask]. rewrite mask_of_Size by lia.
  rewrite (proj2 (Z.ltb_ge 30 n)) by lia. cbn [negb orb Z.eqb Pos.eqb]. rewrite mask_land by (done || apply bytes_of_u32_ok).
  assert (1 <= k) as Hk1 by (unfold k; pose proof (Z.pow_pos_nonneg 2 (32 - n)); lia).
  assert (k <= 2 ^ 32) as Hk2 by (unfold k; apply Z.pow_le_mono_r; lia).
  unfold mask_of at 1. rewrite u32_of_bytes by (fold k; lia). rewrite land_mask by lia. fold u k.
  rewrite Z.shiftl_1_l. fold k. assert ((if sweepMaxHosts <? k - 1 then sweepMaxHosts else k - 1) = sweep_limit n) as ->.
  { unfold sweep_limit. fold k. destruct (Z.ltb_spec sweepMaxHosts (k - 1)); lia. }
  assert (u / k * k <= u < u / k * k + k) as Hb by (pose proof (Z.div_mod u k); pose proof (Z.mod_pos_bound u k); lia).
  assert (u / k * k + k <= 2 ^ 32) as Htop.
  { replace (2 ^ 32) with (2 ^ n * k) in * by (unfold k; rewrite <- Z.pow_add_r by lia; f_equal; lia).
    assert (u / k < 2 ^ n) by (apply Z.div_lt_upper_bound; lia). nia. }
  assert (0 <= u / k * k) as Hbase by (pose proof (Z.div_pos u k); nia).
  assert (sweep_limit n <= k - 1) as Hlim by (unfold sweep_limit; fold k; lia).
  assert (forall l, Forall (fun i => 1 <= Z.of_nat i < k) l ->
    map u32_of (List.filter (fun x => negb (bool_decide (x = ip))) (map (fun i => bytes_of_u32 ((u / k * k + Z.of_nat i) mod 2 ^ 32)) l)) =
    List.filter (fun v => negb (v =? u)) (map (fun i => u / k * k + Z.of_nat i) l)) as H.
  { induction 1 as [|i l Hi HF' IH]; [done|]. csimpl. rewrite Z.mod_small by lia.
    assert (bool_decide (bytes_of_u32 (u / k * k + Z.of_nat i) = ip) = (u / k * k + Z.of_nat i =? u)) as ->.
    { destruct (Z.eqb_spec (u / k * k + Z.of_nat i) u) as [->|Hne]; [apply bool_decide_eq_true; by apply bytes_of_u32_of|].
      apply bool_decide_eq_false. intros E. apply Hne. apply (f_equal u32_of) in E. by rewrite u32_of_bytes in E by lia. }
    case_test; cbn [map]; [|done]. by rewrite u32_of_bytes, IH by lia. }
  apply H. apply List.Forall_forall. intros i Hi%in_seq. lia.
Qed.

(** Which addresses the sweep reaches. *)
Lemma sweep_reaches ip n : length ip = 4%nat -> Forall byte_ok ip -> 0 <= n <= 30 ->
  let u := u32_of ip in let k := 2 ^ (32 - n) in
  let targets := map u32_of (sweepTargets (mkIPNet ip (mask_of n))) in
  NoDup targets /\ (length targets <= 255)%nat /\
  (forall v, In v targets <-> 0 <= v < 2 ^ 32 /\ v / k = u / k /\ v mod k <> 0 /\ v mod k < sweep_limit n /\ v <> u).
Proof.
  intros Hl HF Hn u k targets. unfold targets. rewrite sweepTargets_numbers by done. fold u k.
  pose proof (u32_range ip Hl HF) as Hu. fold u in Hu.
  assert (1 <= k) as Hk1 by (unfold k; pose proof (Z.pow_pos_nonneg 2 (32 - n)); lia).
  assert (sweep_limit n <= k - 1 /\ sweep_limit n <= 256) as [Hlim Hlim'] by (unfold sweep_limit, sweepMaxHosts; fold k; lia).
  split_and!.
  - rewrite <- (map_id (List.filter _ _)). apply NoDup_map_filter. rewrite map_id. assert (Inj eq eq (fun i : nat => u / k * k + Z.of_nat i)) by (intros i j; lia).
    apply (NoDup_fmap_2 (fun i : nat => u / k * k + Z.of_nat i)), NoDup_seq.
  - etrans; [apply List.filter_length_le|]. rewrite length_map, length_seq. lia.
  - intros v. rewrite filter_In, in_map_iff. split.
    + intros [(i & <- & Hi%in_seq) Hne]. apply negb_true_iff, Z.eqb_neq in Hne.
      assert ((u / k * k + Z.of_nat i) / k = u / k /\ (u / k * k + Z.of_nat i) mod k = Z.of_nat i) as [E1 E2].
      { rewrite Z.add_comm, Z.div_add, Z.mod_add by lia. rewrite Z.div_small, Z.mod_small by lia. lia. }
      rewrite E1, E2. split_and!; try lia.
      * pose proof (Z.div_pos u k). nia.
      * replace (2 ^ 32) with (2 ^ n * k) in * by (unfold k; rewrite <- Z.pow_add_r by lia; f_equal; lia).
        assert (u / k < 2 ^ n) by (apply Z.div_lt_upper_bound; lia). nia.
    + intros (Hv & E & H0 & H1 & Hne). split; [|by apply negb_true_iff, Z.eqb_neq]. exists (Z.to_nat (v mod k)).
      pose proof (Z.mod_pos_bound v k). pose proof (Z.div_mod v k). rewrite <- E. split; [lia|]. apply in_seq. lia.
Qed.

(** ** The order of the list *)

Lemma bytes_leb_total a b : bytes_ltb a b = false \/ bytes_ltb b a = false.
Proof.
  revert b; induction a as [|x a IH]; intros [|y b]; cbn [bytes_ltb]; [by left|by right|by left|].
  destruct (Z.ltb_spec x y), (Z.ltb_spec y x), (Z.eqb_spec x y), (Z.eqb_spec y x); try lia; auto.
Qed.

Lemma bytes_leb_trans a b c : bytes_ltb b a = false -> bytes_ltb c b = false -> bytes_ltb c a = false.
Proof.
  revert b c; induction a as [|x a IH]; intros [|y b] [|z c]; cbn [bytes_ltb]; try done.
  destruct (Z.ltb_spec y x), (Z.ltb_spec z y), (Z.ltb_spec z x), (Z.eqb_spec y x), (Z.eqb_spec z y), (Z.eqb_spec z x); try done; try lia.
  apply IH.
Qed.

(** IPv4 first, then by number. *)
Definition ip_key (s : string) : bool * list Z :=
  match ParseIP_bytes s with
  | Some b => match To4 b with Some x => (true, x) | None => (false, b) end
  | None => (false, [])
  end.

Lemma lessIP_key a b : lessIP a b =
  match ip_key a, ip_key b with
  | (true, x), (true, y) | (false, x), (false, y) => bytes_ltb x y
  | (true, _), (false, _) => true
  | (false, _), (true, _) => false
  end.
Proof.
  unfold lessIP, ip_key. destruct (ParseIP_bytes a) as [pa|], (ParseIP_bytes b) as [pb|]; cbn [default]; [| | |done].
  - by destruct (To4 pa), (To4 pb).
  - by destruct (To4 pa).
  - by destruct (To4 pb).
Qed.

Lemma lan_le_total a b : lan_le a b = true \/ lan_le b a = true.
Proof.
  unfold lan_le. rewrite !lessIP_key. destruct (ip_key (lh_IP a)) as [[] x], (ip_key (lh_IP b)) as [[] y]; try (by auto);
    destruct (bytes_leb_total x y) as [-> | ->]; auto.
Qed.

Lemma lan_le_trans a b c : lan_le a b = true -> lan_le b c = true -> lan_le a c = true.
Proof.
  unfold lan_le. rewrite !negb_true_iff, !lessIP_key. destruct (ip_key (lh_IP a)) as [[] x], (ip_key (lh_IP b)) as [[] y], (ip_key (lh_IP c)) as [[] z];
    try done; apply bytes_leb_trans.
Qed.

(** ** What the kernel and the resolvers were asked *)

Inductive diag_event :=
| EvNow (t : Time)
| EvCtx (e : option error)
| EvLink (device : string) (r : result error Z)
| EvAddrs (device : string) (r : result error (list (option IPNet)))
| EvRoutes (family : Z) (index : option Z) (r : result error (list nl_route))
| EvNeighs (index family : Z) (r : result error (list nl_neigh))
| EvMDNS (device : string) (names : option (gmap string string))
| EvLookup (ip : string) (r : result error (list string))
| EvListen (addr : string) (e : option error)
| EvWrite (pkt : string) (ip : list Z) (e : option error)
| EvRead (deadline : Time) (more : bool).

(** [log] is the record of the calls and their answers, which may change from
    one call to the next; and only so many packets wait at the socket. *)
Class DiagLog {W} (net : DiagNet W) (pending : W -> nat) (log : W -> list diag_event) : Prop := {
  log_now w : log (dn_Now net w).2 = log w ++ [EvNow (dn_Now net w).1];
  log_ctx w : log (dn_Ctx net w).2 = log w ++ [EvCtx (dn_Ctx net w).1];
  log_link d w : log (dn_LinkByName net d w).2 = log w ++ [EvLink d (dn_LinkByName net d w).1];
  log_addrs d w : log (dn_Addrs net d w).2 = log w ++ [EvAddrs d (dn_Addrs net d w).1];
  log_routes f i w : log (dn_Routes net f i w).2 = log w ++ [EvRoutes f i (dn_Routes net f i w).1];
  log_neighs i f w : log (dn_Neighs net i f w).2 = log w ++ [EvNeighs i f (dn_Neighs net i f w).1];
  log_mdns d w : log (dn_MDNS net d w).2 = log w ++ [EvMDNS d (dn_MDNS net d w).1];
  log_lookup ip w : log (dn_LookupAddr net ip w).2 = log w ++ [EvLookup ip (dn_LookupAddr net ip w).1];
  log_listen a w : log (dn_PingListen net a w).2 = log w ++ [EvListen a (dn_PingListen net a w).1];
  log_write p ip w : log (dn_PingWrite net p ip w).2 = log w ++ [EvWrite p ip (dn_PingWrite net p ip w).1];
  log_read dl w : log (dn_PingRead net dl w).2 = log w ++ [EvRead dl (dn_PingRead net dl w).1];
  read_pending dl w w' : dn_PingRead net dl w = (true, w') -> (pending w' < pending w)%nat
}.

(** The echoes that were sent, by their target. *)
Definition echoed (l : list diag_event) : list (list Z) := omap (fun e => match e with EvWrite _ ip _ => Some ip | _ => None end) l.

(** The echoes to some targets: one each, in order, until the context ends or
    the kernel refuses one for want of permission. *)
Inductive swept (pkt : string) : list (list Z) -> list diag_event -> option error -> Prop :=
| sw_all : swept pkt [] [] None
| sw_over ip l e : swept pkt (ip :: l) [EvCtx (Some e)] (Some e)
| sw_refused ip l e : ping_refused e = true -> swept pkt (ip :: l) [EvCtx None; EvWrite pkt ip (Some e)] (Some (needs_group e))
| sw_next ip l r evs err :
    (forall e, r = Some e -> ping_refused e = false) -> swept pkt l evs err -> swept pkt (ip :: l) (EvCtx None :: EvWrite pkt ip r :: evs) err.

Section LAN.
Context {W : Type} (net : DiagNet W) (pending : W -> nat) (log : W -> list diag_event) (laws : DiagLog net pending log).

Definition sweep_deadline (now : Time) : Time :=
  let deadline := time_Add now sweepBudget in
  match dn_Deadline net with Some d => if time_Before d deadline then d else deadline | None => deadline end.

(** A sweep: the socket, the echoes, and then reads until one has nothing. *)
Inductive sweep_run (self : IPNet) : list diag_event -> option error -> Prop :=
| sr_no_socket e :
    sweep_run self [EvListen (IP_String (ipn_IP self)) (Some e)] (Some (if ping_refused e then needs_group e else wrap "open ping socket" e))
| sr_no_packet t e : dn_PingPacket net = Err e ->
    sweep_run self [EvListen (IP_String (ipn_IP self)) None; EvNow t] (Some (wrap "marshal echo" e))
| sr_stopped t pkt l e : dn_PingPacket net = Ok pkt -> swept pkt (sweepTargets self) l (Some e) ->
    sweep_run self (EvListen (IP_String (ipn_IP self)) None :: EvNow t :: l) (Some e)
| sr_drained t pkt l k c : dn_PingPacket net = Ok pkt -> swept pkt (sweepTargets self) l None ->
    sweep_run self (EvListen (IP_String (ipn_IP self)) None :: EvNow t :: l ++ repeat (EvRead (sweep_deadline t) true) k ++ [EvRead (sweep_deadline t) false; EvCtx c]) c.

Lemma send_swept pkt targets : forall w, exists l, log (sweep_send net pkt targets w).2 = log w ++ l /\ swept pkt targets l (sweep_send net pkt targets w).1.
Proof.
  induction targets as [|ip targets IH]; intros w; cbn [sweep_send]; [exists []; rewrite app_nil_r; by split; [|constructor]|].
  pose proof (log_ctx w) as L1. destruct (dn_Ctx net w) as [[e|] w1]; cbn [fst snd] in *; [eexists; split; [exact L1|constructor]|].
  pose proof (log_write pkt ip w1) as L2. destruct (dn_PingWrite net pkt ip w1) as [r w2]; cbn [fst snd] in *. rewrite L1, <- app_assoc in L2.
  assert ((forall e, r = Some e -> ping_refused e = false) -> exists l, log (sweep_send net pkt targets w2).2 = log w ++ l /\
    swept pkt (ip :: targets) l (sweep_send net pkt targets w2).1) as Hnext.
  { intros Hr. destruct (IH w2) as (l & Hl & Hs). eexists. rewrite Hl, L2, <- app_assoc. split; [reflexivity|]. by apply sw_next. }
  destruct r as [e|]; [|by apply Hnext]. destruct (ping_refused e) eqn:He; [eexists; split; [exact L2|by constructor]|]. apply Hnext. by intros ? [= <-].
Qed.

Lemma drain_log dl n : forall w, (pending w < n)%nat -> exists k, log (drain net n dl w) = log w ++ repeat (EvRead dl true) k ++ [EvRead dl false].
Proof.
  induction n as [|n IH]; intros w Hn; [lia|]. cbn [drain]. pose proof (log_read dl w) as L. destruct (dn_PingRead net dl w) as [[] w1] eqn:E; cbn [fst snd] in L.
  - apply read_pending in E. destruct (IH w1) as [k Hk]; [lia|]. exists (S k). by rewrite Hk, L, <- app_assoc.
  - by exists 0%nat.
Qed.

Lemma icmpSweep_run self w : exists l, log (icmpSweep net pending self w).2 = log w ++ l /\ sweep_run self l (icmpSweep net pending self w).1.
Proof.
  unfold icmpSweep. pose proof (log_listen (IP_String (ipn_IP self)) w) as L1.
  destruct (dn_PingListen net (IP_String (ipn_IP self)) w) as [[e|] w1]; cbn [fst snd] in *; [eexists; split; [exact L1|constructor]|].
  pose proof (log_now w1) as L2. destruct (dn_Now net w1) as [t w2]; cbn [fst snd] in *. rewrite L1, <- app_assoc in L2. fold (sweep_deadline t).
  destruct (dn_PingPacket net) as [pkt|e] eqn:Ep; [|eexists; split; [exact L2|by constructor]].
  destruct (send_swept pkt (sweepTargets self) w2) as (l & L3 & Hs). destruct (sweep_send net pkt (sweepTargets self) w2) as [[e|] w3]; cbn [fst snd] in *;
    rewrite L2, <- app_assoc in L3; [eexists; split; [exact L3|by eapply sr_stopped]|].
  destruct (drain_log (sweep_deadline t) (S (pending w3)) w3) as [k L4]; [lia|]. set (w4 := drain net _ _ w3) in *.
  pose proof (log_ctx w4) as L5. destruct (dn_Ctx net w4) as [c w5]; cbn [fst snd] in *. eexists. split; [|by eapply (sr_drained self t pkt l k)].
  rewrite L5, L4, L3, <- !app_assoc. done.
Qed.

Lemma swept_echoes pkt targets l err : swept pkt targets l err -> exists rest, targets = echoed l ++ rest /\ (err = None -> rest = []).
Proof.
  induction 1 as [|ip l e|ip l e He|ip l r evs err Hr Hs (rest & -> & Hn)].
  - by exists []. - by exists (ip :: l). - by exists l. - by exists rest.
Qed.

Lemma echoed_app l1 l2 : echoed (l1 ++ l2) = echoed l1 ++ echoed l2.
Proof. apply omap_app. Qed.

(** The echoes of a sweep are the targets, in order and each once, all of them
    unless it fails before. *)
Lemma sweep_echoes self l err : sweep_run self l err -> exists rest, sweepTargets self = echoed l ++ rest /\ (err = None -> rest = []).
Proof.
  intros [e|t e Hp|t pkt l0 e Hp Hs|t pkt l0 k c Hp Hs].
  - by exists (sweepTargets self). - by exists (sweepTargets self). - apply swept_echoes in Hs as (rest & H & _). by exists rest.
  - apply swept_echoes in Hs as (rest & H & Hn). exists rest. split; [|intros _; by apply Hn].
    change (echoed (EvListen _ _ :: EvNow t :: ?x)) with (echoed x). cbn [echoed omap list_omap].
    rewrite H. f_equal. change (omap _ ?x) with (echoed x). rewrite !echoed_app.
    assert (echoed (repeat (EvRead (sweep_deadline t) true) k) = []) as -> by (clear; by induction k). by rewrite app_nil_r.
Qed.

(** *** The names *)

(** The hosts without a name are looked up, each for itself. *)
Inductive looked_up : list LANHost -> list diag_event -> list LANHost -> Prop :=
| lu_nil : looked_up [] [] []
| lu_named h hs l hs' : lh_Hostname h <> "" -> looked_up hs l hs' -> looked_up (h :: hs) l (h :: hs')
| lu_asked h hs r l hs' : lh_Hostname h = "" -> looked_up hs l hs' ->
    looked_up (h :: hs) (EvLookup (lh_IP h) r :: l) (match r with Ok (name :: _) => set_hostname (TrimSuffix name ".") h | _ => h end :: hs').

Lemma reverse_looked_up hosts : forall w, exists l, log (reverseDNS net hosts w).2 = log w ++ l /\ looked_up hosts l (reverseDNS net hosts w).1.
Proof.
  induction hosts as [|h hosts IH]; intros w; cbn [reverseDNS]; [exists []; rewrite app_nil_r; by split; [|constructor]|].
  destruct (String.eqb_spec (lh_Hostname h) "") as [Hh|Hh].
  - pose proof (log_lookup (lh_IP h) w) as L1. destruct (dn_LookupAddr net (lh_IP h) w) as [r w1]; cbn [fst snd] in *.
    destruct (IH w1) as (l & L2 & Hl). destruct (reverseDNS net hosts w1) as [hs w2]; cbn [fst snd] in *.
    eexists. rewrite L2, L1, <- app_assoc. split; [reflexivity|]. by apply lu_asked.
  - destruct (IH w) as (l & L2 & Hl). destruct (reverseDNS net hosts w) as [hs w2]; cbn [fst snd] in *. exists l. split; [exact L2|by apply lu_named].
Qed.

(** *** The list *)

(** The hosts before they are looked up: this one and the neighbours, the
    gateways marked, with the names mDNS gave. *)
Definition found (device : string) (addrs : list (option IPNet)) (routes : result error (list nl_route)) (now : Time) (neighs : list nl_neigh)
    (names : option (gmap string string)) : list LANHost :=
  map (mdns_name (default ∅ names))
    (selfHosts device addrs now ++ neigh_hosts device (match routes with Ok routes => gateways_of routes | Err _ => [] end) now neighs).

(** The calls after the sweep, and what is made of their answers. *)
Inductive lan_rest (device : string) : Z -> list (option IPNet) -> result error (list nl_route) -> Time -> option error -> list diag_event ->
    list LANHost * option error -> Prop :=
| lr_no_neighs4 index addrs routes now sweepErr e :
    lan_rest device index addrs routes now sweepErr [EvNeighs index FAMILY_V4 (Err e)] ([], Some (wrap ("diag: neighbours of " +:+ device) e))
| lr_no_neighs6 index addrs routes now sweepErr n4 e :
    lan_rest device index addrs routes now sweepErr [EvNeighs index FAMILY_V4 (Ok n4); EvNeighs index FAMILY_V6 (Err e)]
      ([], Some (wrap ("diag: neighbours of " +:+ device) e))
| lr_listed index addrs routes now sweepErr n4 n6 names c l named hosts :
    (match c with None => looked_up (found device addrs routes now (n4 ++ n6) names) l named
                | Some _ => l = [] /\ named = found device addrs routes now (n4 ++ n6) names end) ->
    hosts ≡ₚ named -> StronglySorted (fun x y => lan_le x y = true) hosts ->
    lan_rest device index addrs routes now sweepErr
      ([EvNeighs index FAMILY_V4 (Ok n4); EvNeighs index FAMILY_V6 (Ok n6); EvMDNS device names; EvCtx c] ++ l) (hosts, option_map ESweep sweepErr).

(** What a call to [LANHosts] asks, and what it makes of the answers. *)
Inductive lan_run (device : string) (sweep : bool) : list diag_event -> list LANHost * option error -> Prop :=
| lr_no_link e : lan_run device sweep [EvLink device (Err e)] ([], Some (wrap ("diag: device " +:+ device) e))
| lr_no_addrs index e : lan_run device sweep [EvLink device (Ok index); EvAddrs device (Err e)] ([], Some (wrap ("diag: addresses of " +:+ device) e))
| lr_asked index addrs routes evs sweepErr now res evs' :
    (if sweep then match firstIPv4 addrs with
                   | Some v4 => sweep_run v4 evs sweepErr
                   | None => evs = [] /\ sweepErr = Some (ELeaf ("no IPv4 address on " +:+ device))
                   end
     else evs = [] /\ sweepErr = None) ->
    lan_rest device index addrs routes now sweepErr evs' res ->
    lan_run device sweep ([EvLink device (Ok index); EvAddrs device (Ok addrs); EvRoutes FAMILY_ALL (Some index) routes] ++ evs ++ EvNow now :: evs') res.

Lemma neigh_hosts_app device g now l1 l2 : neigh_hosts device g now (l1 ++ l2) = neigh_hosts device g now l1 ++ neigh_hosts device g now l2.
Proof. unfold neigh_hosts. apply omap_app. Qed.

(** The calls after the sweep. *)
Definition list_rest (device : string) (index : Z) (addrs : list (option IPNet)) (g : list string) (sweepErr : option error) (now : Time) (w : W) :
    (list LANHost * option error) * W :=
  let '(r, w) := dump_neighs net device index g now [FAMILY_V4; FAMILY_V6] w in
  match r with
  | Err e => (([], Some e), w)
  | Ok neighs =>
      let hosts := selfHosts device addrs now ++ neighs in
      let '(names, w) := dn_MDNS net device w in
      let hosts := map (mdns_name (default ∅ names)) hosts in
      let '(c, w) := dn_Ctx net w in
      let '(hosts, w) := match c with None => reverseDNS net hosts w | Some _ => (hosts, w) end in
      ((isort lan_le hosts, option_map ESweep sweepErr), w)
  end.

Lemma list_rest_run device index addrs routes sweepErr now w :
  let res := list_rest device index addrs (match routes with Ok routes => gateways_of routes | Err _ => [] end) sweepErr now w in
  exists l, log res.2 = log w ++ l /\ lan_rest device index addrs routes now sweepErr l res.1.
Proof.
  unfold list_rest. cbn [dump_neighs]. pose proof (log_neighs index FAMILY_V4 w) as L1.
  destruct (dn_Neighs net index FAMILY_V4 w) as [[n4|e] w1]; cbn [fst snd] in *; [|eexists; split; [exact L1|constructor]].
  pose proof (log_neighs index FAMILY_V6 w1) as L2. destruct (dn_Neighs net index FAMILY_V6 w1) as [[n6|e] w2]; cbn [fst snd] in *;
    rewrite L1, <- app_assoc in L2; [|eexists; split; [exact L2|constructor]].
  pose proof (log_mdns device w2) as L3. destruct (dn_MDNS net device w2) as [names w3]; cbn [fst snd] in *. rewrite L2, <- app_assoc in L3.
  pose proof (log_ctx w3) as L4. destruct (dn_Ctx net w3) as [c w4]; cbn [fst snd] in *. rewrite L3, <- app_assoc in L4.
  rewrite app_nil_r, <- neigh_hosts_app. fold (found device addrs routes now (n4 ++ n6) names).
  assert (forall l, isort lan_le l ≡ₚ l /\ StronglySorted (fun x y => lan_le x y = true) (isort lan_le l)) as Hs.
  { intros l. split; [apply isort_perm|apply isort_sorted; [apply lan_le_total|apply lan_le_trans]]. }
  destruct c as [e|].
  - exists ([EvNeighs index FAMILY_V4 (Ok n4); EvNeighs index FAMILY_V6 (Ok n6); EvMDNS device names; EvCtx (Some e)] ++ []). split; [exact L4|].
    eapply lr_listed; [by split|apply Hs|apply Hs].
  - destruct (reverse_looked_up (found device addrs routes now (n4 ++ n6) names) w4) as (l & L5 & Hl).
    destruct (reverseDNS net _ w4) as [hs w5]; cbn [fst snd] in *. exists ([EvNeighs index FAMILY_V4 (Ok n4); EvNeighs index FAMILY_V6 (Ok n6); EvMDNS device names; EvCtx None] ++ l).
    split; [rewrite L5, L4, <- app_assoc; done|]. eapply lr_listed; [exact Hl|apply Hs|apply Hs].
Qed.

Lemma LANHosts_run device sweep w : exists l, log (LANHosts net pending device sweep w).2 = log w ++ l /\
  lan_run device sweep l (LANHosts net pending device sweep w).1.
Proof.
  unfold LANHosts. pose proof (log_link device w) as L1.
  destruct (dn_LinkByName net device w) as [[index|e] w1]; cbn [fst snd] in *; [|eexists; split; [exact L1|constructor]].
  pose proof (log_addrs device w1) as L2. destruct (dn_Addrs net device w1) as [[addrs|e] w2]; cbn [fst snd] in *; rewrite L1, <- app_assoc in L2;
    [|eexists; split; [exact L2|constructor]].
  unfold defaultGateways. pose proof (log_routes FAMILY_ALL (Some index) w2) as L3. destruct (dn_Routes net FAMILY_ALL (Some index) w2) as [routes w3]; cbn [fst snd] in *.
  rewrite L2, <- app_assoc in L3.
  assert (exists evs, log (if sweep then match firstIPv4 addrs with Some v4 => icmpSweep net pending v4 w3 | None => (Some (ELeaf ("no IPv4 address on " +:+ device)), w3) end
    else (None, w3)).2 = log w3 ++ evs /\
    let sweepErr := (if sweep then match firstIPv4 addrs with Some v4 => icmpSweep net pending v4 w3 | None => (Some (ELeaf ("no IPv4 address on " +:+ device)), w3) end else (None, w3)).1 in
    if sweep then match firstIPv4 addrs with
                  | Some v4 => sweep_run v4 evs sweepErr
                  | None => evs = [] /\ sweepErr = Some (ELeaf ("no IPv4 address on " +:+ device))
                  end
    else evs = [] /\ sweepErr = None) as (evs & L4 & Hs).
  { destruct sweep; [|exists []; by rewrite app_nil_r]. destruct (firstIPv4 addrs) as [v4|]; [apply icmpSweep_run|exists []; by rewrite app_nil_r]. }
  destruct (if sweep then _ else (None, w3)) as [sweepErr w4]; cbn [fst snd] in *. cbv zeta in Hs.
  pose proof (log_now w4) as L5. destruct (dn_Now net w4) as [now w5]; cbn [fst snd] in *. rewrite L4, L3, <- !app_assoc in L5.
  destruct (list_rest_run device index addrs routes sweepErr now w5) as (l & L6 & Hr). unfold list_rest in L6, Hr. eexists. rewrite L6, L5, <- !app_assoc.
  split; [reflexivity|]. eapply lr_asked; [exact Hs|exact Hr].
Qed.
Lemma rest_echoes device index addrs routes now sweepErr l res : lan_rest device index addrs routes now sweepErr l res ->
  echoed l = [] /\ (res = ([], res.2) /\ (exists m x, res.2 = Some (EWrap m [x])) \/ res.2 = option_map ESweep sweepErr).
Proof.
  intros [index' addrs' routes' now' se e|index' addrs' routes' now' se n4 e|index' addrs' routes' now' se n4 n6 names c evs named hosts Hc Hp Hs].
  - split; [done|]. left. split; [done|]. by do 2 eexists.
  - split; [done|]. left. split; [done|]. by do 2 eexists.
  - split; [|by right]. rewrite echoed_app. cbn [app echoed omap list_omap]. change (omap _ evs) with (echoed evs). destruct c as [e|]; [by destruct Hc as [-> _]|].
    clear -Hc. induction Hc as [|h hs l hs' Hh _ IH|h hs r l hs' Hh _ IH]; [done|exact IH|exact IH].
Qed.

(** What is sent in all, and when there is no list. *)
Lemma run_echoes device sweep l res : lan_run device sweep l res ->
  (res.2 = None \/ (exists e, res.2 = Some (ESweep e)) \/ res.1 = []) /\
  (echoed l = [] \/ sweep = true /\ exists addrs v4 rest, In (EvAddrs device (Ok addrs)) l /\ firstIPv4 addrs = Some v4 /\
     sweepTargets v4 = echoed l ++ rest /\ (res.2 = None -> rest = [])).
Proof.
  intros [e|index e|index addrs routes evs se now res' evs' Hs Hr].
  - by split; [right; right|left].
  - by split; [right; right|left].
  - apply rest_echoes in Hr as [He Hr]. split.
    + destruct Hr as [[-> _]| ->]; [by right; right|]. destruct se as [e|]; [right; left; by exists e|by left].
    + rewrite !echoed_app. change (echoed (EvNow now :: evs')) with (echoed evs'). rewrite He, app_nil_r. cbn [echoed omap list_omap app].
      change (omap _ evs) with (echoed evs). destruct sweep; [|destruct Hs as [-> _]; by left].
      destruct (firstIPv4 addrs) as [v4|] eqn:Ev; [|destruct Hs as [-> _]; by left]. right. split; [done|].
      destruct (sweep_echoes _ _ _ Hs) as (rest & Ht & Hn). exists addrs, v4, rest. split_and!; [right; by left|done|done|].
      intros Hres. apply Hn. destruct Hr as [[_ (m & x & Hx)]|Hr]; [congruence|]. rewrite Hres in Hr. by destruct se.
Qed.
End LAN.

(** A neighbour is listed unless it has no address, no state, or needs no ARP;
    it is a gateway if a default route says so. *)
Lemma neigh_hosts_in device g now l h : In h (neigh_hosts device g now l) <->
  exists n ip, In n l /\ nn_IP n = Some ip /\ nn_State n <> NUD_NONE /\ Z.testbit (nn_State n) 6 = false /\
    lh_IP h = IP_String ip /\ lh_State h = neighState (nn_State n) /\ lh_MAC h = mac_of (nn_HardwareAddr n) /\ lh_Hostname h = "" /\
    lh_Device h = device /\ lh_Self h = false /\ (lh_Gateway h = true <-> In (IP_String ip) g) /\
    lh_Seen h = ticksAgo now (if existsb (String.eqb (neighState (nn_State n))) ["reachable"; "stale"] then nn_Confirmed n else nn_Updated n).
Proof.
  assert (forall s, has_bits s NUD_NOARP = Z.testbit s 6) as Hbit.
  { intros s. unfold has_bits, NUD_NOARP. change 64 with (2 ^ 6). destruct (Z.testbit s 6) eqn:E.
    - apply negb_true_iff, Z.eqb_neq. intros H0. apply (f_equal (fun z => Z.testbit z 6)) in H0.
      rewrite Z.land_spec, E, Z.pow2_bits_true, Z.bits_0 in H0 by done. done.
    - apply negb_false_iff, Z.eqb_eq. apply Z.bits_inj'. intros i Hi. rewrite Z.land_spec, Z.bits_0.
      destruct (Z.eq_dec i 6) as [->|Hne]; [by rewrite E|]. rewrite Z.pow2_bits_false by done. apply andb_false_r. }
  unfold neigh_hosts. rewrite <- list_elem_of_In, list_elem_of_omap. split.
  - intros (n & Hn%list_elem_of_In & H). destruct (neighToHost n device now) as [h0|] eqn:E; [|done]. injection H as <-.
    unfold neighToHost in E. destruct (nn_IP n) as [ip|] eqn:Eip; [|done]. rewrite Hbit in E.
    destruct (Z.eqb_spec (nn_State n) NUD_NONE); [done|]. destruct (Z.testbit (nn_State n) 6) eqn:Eb; [done|]. injection E as <-.
    exists n, ip. cbn. rewrite orb_false_r. split_and!; try done.
    + rewrite existsb_exists. split; [intros (x & Hx & ->%String.eqb_eq); done|intros Hx; exists (IP_String ip); split; [done|apply seqb_refl]].
    + by case_test.
  - intros (n & ip & Hn & Eip & Hst & Hb & H). exists n. split; [by apply list_elem_of_In|]. unfold neighToHost. rewrite Eip, Hbit, Hb.
    rewrite (proj2 (Z.eqb_neq _ _)) by done. cbn [orb option_map]. f_equal. unfold set_gateway. cbn. cbn in H. rewrite orb_false_r in H.
    destruct h. cbn in H. destruct H as (-> & -> & -> & -> & -> & -> & Hg & ->). f_equal; [|by case_test].
    apply eq_true_iff_eq. rewrite Hg, existsb_exists. split; [intros (x & Hx & ->%String.eqb_eq); done|intros Hx; exists (IP_String ip); split; [done|apply seqb_refl]].
Qed.

(** C29: The neighbours on the network of a device.  A call asks for the link,
    its addresses and its routes, then sweeps if told to, and only then reads
    the clock and the kernel's neighbour tables, which may hold by then what the
    sweep brought, and after them the names.  The sweep sends, in order and one
    each, echoes to the addresses of the network but its own first and last and
    that of this host, up to 255 of them and to none outside it: all of them
    when it succeeds, a first part when the context ends or the kernel refuses;
    then it reads replies until a read has none.  Without a sweep nothing is
    sent.  The list holds this host's addresses and the neighbours of those
    tables, each with its state, the gateways of the routes marked, the names
    from mDNS, and a lookup each for those without one unless the context ended,
    IPv4 first and by number; a sweep that failed only adds its own error, and
    any other error, which is that of the call that failed, comes without a
    list. *)
Theorem lan_hosts_exact {W} (net : DiagNet W) (pending : W -> nat) log (laws : DiagLog net pending log) :
  (forall ip n, length ip = 4%nat -> Forall byte_ok ip -> 0 <= n <= 30 ->
     let u := u32_of ip in let k := 2 ^ (32 - n) in
     let targets := map u32_of (sweepTargets (mkIPNet ip (mask_of n))) in
     NoDup targets /\ (length targets <= 255)%nat /\
     (forall v, In v targets <-> 0 <= v < 2 ^ 32 /\ v / k = u / k /\ v mod k <> 0 /\ v mod k < Z.min (k - 1) 256 /\ v <> u)) /\
  (forall device sweep w,
     let '(res, w') := LANHosts net pending device sweep w in
     exists l, log w' = log w ++ l /\ lan_run net device sweep l res /\
       (res.2 = None \/ (exists e, res.2 = Some (ESweep e)) \/ res.1 = []) /\
       (echoed l = [] \/ sweep = true /\ exists addrs v4 rest, In (EvAddrs device (Ok addrs)) l /\ firstIPv4 addrs = Some v4 /\
          sweepTargets v4 = echoed l ++ rest /\ (res.2 = None -> rest = []))) /\
  (forall device g now l h, In h (neigh_hosts device g now l) <->
     exists n ip, In n l /\ nn_IP n = Some ip /\ nn_State n <> NUD_NONE /\ Z.testbit (nn_State n) 6 = false /\
       lh_IP h = IP_String ip /\ lh_State h = neighState (nn_State n) /\ lh_MAC h = mac_of (nn_HardwareAddr n) /\ lh_Hostname h = "" /\
       lh_Device h = device /\ lh_Self h = false /\ (lh_Gateway h = true <-> In (IP_String ip) g) /\
       lh_Seen h = ticksAgo now (if existsb (String.eqb (neighState (nn_State n))) ["reachable"; "stale"] then nn_Confirmed n else nn_Updated n)).
Proof.
  split_and!; [apply sweep_reaches| |apply neigh_hosts_in]. intros device sweep w.
  destruct (LANHosts_run net pending log laws device sweep w) as (l & Hl & Hr). destruct (LANHosts net pending device sweep w) as [res w'].
  exists l. destruct (run_echoes net device sweep l res Hr) as [H1 H2]. by split_and!.
Qed.

(** A network of three addresses: this host, the gateway, and a silent host that
    only a sweep brings into the table. *)
Record tiny_lan := mkTinyLan { tl_log : list diag_event; tl_swept : bool }.
Definition tell {A} (f : A -> diag_event) (a : A) (w : tiny_lan) : A * tiny_lan := (a, mkTinyLan (tl_log w ++ [f a]) (tl_swept w)).

Definition tiny_table (swept : bool) (family : Z) : list nl_neigh :=
  if family =? FAMILY_V4
  then mkNlNeigh (Some [192; 168; 1; 1]) NUD_REACHABLE [2; 0; 0; 0; 0; 1] 100 0 ::
       (if swept then [mkNlNeigh (Some [192; 168; 1; 2]) NUD_FAILED [] 0 0] else [])
  else [].

Definition tiny_diag_net : DiagNet tiny_lan :=
  mkDiagNet tiny_lan (tell EvNow (62135596800 * second)) (tell EvCtx None) None (fun d => tell (EvLink d) (Ok 3)) (fun w => (Ok [], w))
    (fun d => tell (EvAddrs d) (Ok [Some (mkIPNet [192; 168; 1; 3] (mask_of 29))]))
    (fun f i => tell (EvRoutes f i) (Ok [mkNlRoute None (Some [192; 168; 1; 1]) 3 [] 0 "" "" 254 2]))
    (fun i f w => tell (EvNeighs i f) (Ok (tiny_table (tl_swept w) f)) w) (fun d => tell (EvMDNS d) None)
    (fun ip => tell (EvLookup ip) (if ip =?s "192.168.1.1" then Ok ["router.lan."] else Err (ELeaf "no name")))
    (fun a => tell (EvListen a) None) (Ok "echo")
    (fun p ip w => tell (EvWrite p ip) None (mkTinyLan (tl_log w) true)) (fun dl => tell (EvRead dl) false).

#[export] Instance tiny_lan_log : DiagLog tiny_diag_net (fun _ => 0%nat) tl_log.
Proof. by split. Qed.

Example tiny_lan_hosts :
  let hosts sweep := map (fun h => (lh_IP h, lh_Hostname h, lh_State h, lh_Self h, lh_Gateway h))
    (LANHosts tiny_diag_net (fun _ => 0%nat) "wlan0" sweep (mkTinyLan [] false)).1.1 in
  hosts true = [("192.168.1.1", "router.lan", "reachable", false, true); ("192.168.1.2", "", "failed", false, false); ("192.168.1.3", "", "reachable", true, false)] /\
  hosts false = [("192.168.1.1", "router.lan", "reachable", false, true); ("192.168.1.3", "", "reachable", true, false)].
Proof. vm_compute. by split. Qed.

(** The sweep of eight addresses sends five echoes. *)
Lemma lan_hosts_exact_witness :
  let '(res, w') := LANHosts tiny_diag_net (fun _ => 0%nat) "wlan0" true (mkTinyLan [] false) in
  lan_run tiny_diag_net "wlan0" true (tl_log w') res /\
  echoed (tl_log w') = [[192; 168; 1; 1]; [192; 168; 1; 2]; [192; 168; 1; 4]; [192; 168; 1; 5]; [192; 168; 1; 6]].
Proof.
  destruct (lan_hosts_exact tiny_diag_net (fun _ => 0%nat) tl_log tiny_lan_log) as (_ & H & _). specialize (H "wlan0" true (mkTinyLan [] false)).
  assert (echoed (tl_log (LANHosts tiny_diag_net (fun _ => 0%nat) "wlan0" true (mkTinyLan [] false)).2) =
    [[192; 168; 1; 1]; [192; 168; 1; 2]; [192; 168; 1; 4]; [192; 168; 1; 5]; [192; 168; 1; 6]]) as He by (vm_compute; reflexivity).
  destruct (LANHosts tiny_diag_net (fun _ => 0%nat) "wlan0" true (mkTinyLan [] false)) as [res w']. destruct H as (l & Hl & Hr & _).
  cbn [tl_log app snd] in *. rewrite Hl in *. by split.
Defined.
