(* ===== verification/DiagLookup.v ===== *)
(** internal/diag: dns.go and publicip.go.  The resolver and HTTP are operations
    on a world [W]. *)

From S2P Require Import Prelude GoTime Core GoStrings Errors GoStringsFacts Netip GoScan Diag.
From Stdlib Require Import Ascii.

(** ** dns.go *)

(** The lookups of a net.Resolver, by the server it dials if one is given; they
    may give records together with an error. *)
Record Resolver (W : Type) := mkResolver {
  rs_Now : W -> Time * W;
  rs_LookupIP : option string -> string -> string -> W -> (list (list Z) * option error) * W;
  rs_LookupMX : option string -> string -> W -> (list (Z * string) * option error) * W;
  rs_LookupTXT : option string -> string -> W -> (list string * option error) * W;
  rs_LookupCNAME : option string -> string -> W -> (string * option error) * W;
  rs_LookupNS : option string -> string -> W -> (list string * option error) * W
}.
Arguments rs_Now {W}. Arguments rs_LookupIP {W}. Arguments rs_LookupMX {W}. Arguments rs_LookupTXT {W}. Arguments rs_LookupCNAME {W}.
Arguments rs_LookupNS {W}.

Section DNS.
Context {W : Type} (rs : Resolver W) (Quote : string -> string).

Definition dns_type (qtype : string) : string :=
  let q := ToUpper (TrimSpace qtype) in if q =?s "" then "A" else q.

(** The address to dial: port 53 unless the server names one. *)
Definition dns_server (server : string) : string :=
  if server =?s "" then ""
  else match SplitHostPort server with Some _ => server | None => JoinHostPort (Trim server "[]") "53" end.

(** The query of a type; [None] when there is none. *)
Definition dns_query (qtype : string) (server : option string) (name : string) (w : W) : option ((list string * option error) * W) :=
  let dot s := TrimSuffix s "." in
  if (qtype =?s "A") || (qtype =?s "AAAA") then
    let '(ips, err, w) := rs_LookupIP rs server (if qtype =?s "AAAA" then "ip6" else "ip4") name w in
    Some ((map IP_String ips, err), w)
  else if qtype =?s "MX" then
    let '(mx, err, w) := rs_LookupMX rs server name w in
    Some ((map (fun m => Itoa m.1 +:+ " " +:+ dot m.2) mx, err), w)
  else if qtype =?s "TXT" then Some (rs_LookupTXT rs server name w)
  else if qtype =?s "CNAME" then
    let '(cname, err, w) := rs_LookupCNAME rs server name w in
    Some ((match err with None => if cname =?s "" then [] else [dot cname] | Some _ => [] end, err), w)
  else if qtype =?s "NS" then
    let '(ns, err, w) := rs_LookupNS rs server name w in Some ((map dot ns, err), w)
  else None.

Definition DNSLookup (name server qtype : string) (w : W) : (DNSAnswer * option error) * W :=
  let qtype := dns_type qtype in
  let ans server answers d e := mkDNSAnswer name server qtype answers d e in
  if name =?s "" then ((ans server [] 0 "", Some (Errorf KindInvalid "" "diag: dns: empty name")), w)
  else
    let addr := dns_server server in
    let server := addr in
    let '(start, w) := rs_Now rs w in
    match dns_query qtype (if addr =?s "" then None else Some addr) name w with
    | None => ((ans server [] 0 "", Some (Errorf KindInvalid "use A, AAAA, MX, TXT, CNAME or NS" ("diag: dns: unsupported type " +:+ Quote qtype))), w)
    | Some (answers, err, w) =>
        let '(now, w) := rs_Now rs w in
        let d := time_Sub now start in
        match err with
        | Some e => ((ans server [] d (ErrorString e), None), w)
        | None =>
            let answers := if (qtype =?s "MX") || (qtype =?s "TXT") then answers else isort String.leb answers in
            ((ans server answers d "", None), w)
        end
    end.
End DNS.

(** ** publicip.go *)

Definition traceURLs : list string := ["https://1.1.1.1/cdn-cgi/trace"; "https://www.cloudflare.com/cdn-cgi/trace"].

Definition PublicIP_zero : PublicIP := mkPublicIP "" "" "" "" "".

(** One line of a trace. *)
Definition trace_line (p : PublicIP) (line : string) : PublicIP :=
  match Cut (TrimSpace line) "=" with
  | None => p
  | Some (k, v) =>
      if k =?s "ip" then mkPublicIP v (pi_Colo p) (pi_Location p) (pi_Warp p) (pi_Via p)
      else if k =?s "colo" then mkPublicIP (pi_IP p) v (pi_Location p) (pi_Warp p) (pi_Via p)
      else if k =?s "loc" then mkPublicIP (pi_IP p) (pi_Colo p) v (pi_Warp p) (pi_Via p)
      else if k =?s "warp" then mkPublicIP (pi_IP p) (pi_Colo p) (pi_Location p) v (pi_Via p)
      else p
  end.

(** [parseTrace] of what was read, and how the reading ended. *)
Definition parseTrace (text : string) (read_err : option error) : result error PublicIP :=
  let '(lines, long) := Scan text in
  let p := fold_left trace_line lines PublicIP_zero in
  if long then Err (ELeaf too_long)
  else match read_err with
       | Some e => Err e
       | None => if pi_IP p =?s "" then Err (ELeaf "no ip= line in trace") else Ok p
       end.

(** An HTTP answer: the status, its line, the body and how reading it ended. *)
Record http_answer := mkHttpAnswer { ha_StatusCode : Z; ha_Status : string; ha_Body : string; ha_ReadErr : option error }.

Section PublicIP.
Context {W : Type} (ctx : W -> option error * W) (http_get : string -> W -> result error http_answer * W).

(** The body is read up to 64 KiB. *)
Definition fetchTrace (u : string) (w : W) : result error PublicIP * W :=
  let '(r, w) := http_get u w in
  (match r with
   | Err e => Err e
   | Ok a =>
       if negb (ha_StatusCode a =? 200) then Err (ELeaf ("status " +:+ ha_Status a))
       else
         let limit := Z.to_nat (64 * 1024) in
         let cut := Nat.leb limit (String.length (ha_Body a)) in
         match parseTrace (string_take limit (ha_Body a)) (if cut then None else ha_ReadErr a) with
         | Err e => Err e
         | Ok p => Ok (mkPublicIP (pi_IP p) (pi_Colo p) (pi_Location p) (pi_Warp p) u)
         end
   end, w).

(** [errors.Join] *)
Definition errors_Join (errs : list error) : error := EWrap (Join (map ErrorString errs) newline) errs.

Fixpoint public_ip (urls : list string) (errs : list error) (w : W) : result error PublicIP * W :=
  match urls with
  | [] => (Err (wrap "diag: public ip" (errors_Join errs)), w)
  | u :: urls =>
      let '(c, w) := ctx w in
      match c with
      | Some e => (Err e, w)
      | None =>
          let '(r, w) := fetchTrace u w in
          match r with
          | Ok p => (Ok p, w)
          | Err e => public_ip urls (errs ++ [wrap u e]) w
          end
      end
  end.

Definition PublicIP_ (w : W) : result error PublicIP * W := public_ip traceURLs [] w.
End PublicIP.

Example trace_sample :
  parseTrace (byte_str [] +:+ "fl=1f1" +:+ newline +:+ "ip=203.0.113.9" +:+ newline +:+ "colo=FRA" +:+ newline +:+ "loc=DE" +:+ newline +:+ "warp=off" +:+ newline) None =
  Ok (mkPublicIP "203.0.113.9" "FRA" "DE" "off" "").
Proof. vm_compute. reflexivity. Qed.

(** * A DNS lookup reports its failure in the answer; the public address is that
    of the first trace that can be read. *)

(** ** DNS *)

Definition dns_types : list string := ["A"; "AAAA"; "MX"; "TXT"; "CNAME"; "NS"].

Section DNS.
Context {W : Type} (rs : Resolver W) (Quote : string -> string).

Lemma dns_query_types qtype server name w : (exists r, dns_query rs qtype server name w = Some r) <-> In qtype dns_types.
Proof.
  unfold dns_query. split.
  - intros [r H]. repeat match type of H with
      | (if ?b then _ else _) = _ => destruct b eqn:?
      end; try done; bool_to_prop;
      repeat match goal with H : _ || _ = true |- _ => apply orb_true_iff in H as [H|H]; apply String.eqb_eq in H end;
      subst; cbn; tauto.
  - intros [<-|[<-|[<-|[<-|[<-|[<-|[]]]]]]]; cbn -[Join]; repeat case_match_goal; by eexists.
Qed.

(** What [DNSLookup] answers. *)
Lemma dns_outcome name server qtype w :
  let '((ans, err), w') := DNSLookup rs Quote name server qtype w in
  da_Name ans = name /\ da_Type ans = dns_type qtype /\
  match err with
  | Some e => KindOf (Some e) = KindInvalid /\ (name = "" \/ ~ In (dns_type qtype) dns_types) /\ da_Answers ans = [] /\ da_Error ans = ""
  | None =>
      name <> "" /\ In (dns_type qtype) dns_types /\ da_Server ans = dns_server server /\
      exists w1 answers qerr w2, dns_query rs (dns_type qtype) (if dns_server server =?s "" then None else Some (dns_server server)) name w1 = Some ((answers, qerr), w2) /\
        match qerr with
        | Some e => da_Answers ans = [] /\ da_Error ans = ErrorString e
        | None => da_Error ans = "" /\ da_Answers ans ≡ₚ answers /\
            (~ In (dns_type qtype) ["MX"; "TXT"] -> StronglySorted (fun a b => String.leb a b = true) (da_Answers ans)) /\
            (In (dns_type qtype) ["MX"; "TXT"] -> da_Answers ans = answers)
        end
  end.
Proof.
  unfold DNSLookup. cbv zeta. set (q := dns_type qtype). destruct (String.eqb_spec name "") as [->|Hn].
  { split_and!; [done|done|done|by left|done|done]. }
  destruct (rs_Now rs w) as [start w1]. pose proof (dns_query_types q (if dns_server server =?s "" then None else Some (dns_server server)) name w1) as Ht.
  destruct (dns_query rs q _ name w1) as [[[answers qerr] w2]|] eqn:Eq.
  - destruct (rs_Now rs w2) as [now w3]. assert (In q dns_types) as Hq by (apply Ht; by eexists).
    destruct qerr as [e|].
    + split_and!; try done. by exists w1, answers, (Some e), w2.
    + split_and!; try done. exists w1, answers, None, w2. split; [exact Eq|]. cbn [da_Error da_Answers].
      assert (In q ["MX"; "TXT"] <-> (q =?s "MX") || (q =?s "TXT") = true) as Hin.
      { rewrite orb_true_iff, !String.eqb_eq. cbn. intuition congruence. }
      destruct ((q =?s "MX") || (q =?s "TXT")) eqn:Em.
      * split_and!; [done|done| |done]. intros H. exfalso. apply H. by apply Hin.
      * split_and!; [done|apply isort_perm| |intros H; by apply Hin in H]. intros _.
        apply isort_sorted; [intros a b; apply String.leb_total|intros a b c; apply string_leb_trans].
  - split_and!; try done. right. intros Hq. apply Ht in Hq as [r Hr]. done.
Qed.
End DNS.

(** ** The public address *)

(** A line of a trace: a key without "=", and a value, both plain. *)
Definition trace_pair (kv : string * string) : string := kv.1 +:+ "=" +:+ kv.2.

Definition trace_ok (kv : string * string) : Prop :=
  all_chars plain kv.1 = true /\ all_chars (not_char "=") kv.1 = true /\ all_chars plain kv.2 = true /\
  short_line MaxScanTokenSize (trace_pair kv).

(** The last value of a key. *)
Definition last_value (key : string) (kvs : list (string * string)) : string :=
  fold_left (fun v kv => if kv.1 =?s key then kv.2 else v) kvs "".

Lemma trace_pairs kvs p : Forall trace_ok kvs ->
  fold_left trace_line (map trace_pair kvs) p =
  let upd key v := fold_left (fun v kv => if kv.1 =?s key then kv.2 else v) kvs v in
  mkPublicIP (upd "ip" (pi_IP p)) (upd "colo" (pi_Colo p)) (upd "loc" (pi_Location p)) (upd "warp" (pi_Warp p)) (pi_Via p).
Proof.
  cbv zeta. revert p; induction kvs as [|[k v] kvs IH]; intros p HF; [by destruct p|]. apply Forall_cons in HF as [(Hk & He & Hv & _) HF].
  cbn [map fold_left]. rewrite IH by done. clear IH. cbn [fst snd] in *. unfold trace_line, trace_pair. cbn [fst snd].
  rewrite TrimSpace_plain by (rewrite !all_chars_app, Hk, Hv; done).
  change (k +:+ "=" +:+ v) with (k +:+ String "=" v). rewrite Cut_char by done.
  destruct (String.eqb_spec k "ip") as [->|]; [done|]. destruct (String.eqb_spec k "colo") as [->|]; [done|].
  destruct (String.eqb_spec k "loc") as [->|]; [done|]. destruct (String.eqb_spec k "warp") as [->|]; done.
Qed.

Lemma parseTrace_pairs kvs : Forall trace_ok kvs ->
  parseTrace (unlines (map trace_pair kvs)) None =
    if last_value "ip" kvs =?s "" then Err (ELeaf "no ip= line in trace")
    else Ok (mkPublicIP (last_value "ip" kvs) (last_value "colo" kvs) (last_value "loc" kvs) (last_value "warp" kvs) "").
Proof.
  intros HF. unfold parseTrace. rewrite Scan_unlines.
  - rewrite (trace_pairs kvs PublicIP_zero HF). done.
  - apply List.Forall_map. eapply Forall_impl; [exact HF|]. intros kv H. apply H.
Qed.

Lemma parseTrace_ip text re p : parseTrace text re = Ok p -> pi_IP p <> "".
Proof.
  unfold parseTrace. destruct (Scan text) as [lines long]. destruct long; [done|]. destruct re; [done|]. cbv zeta.
  destruct (String.eqb_spec (pi_IP (fold_left trace_line lines PublicIP_zero)) ""); [done|]. by intros [= <-].
Qed.

Section PublicIP.
Context {W : Type} (ctx : W -> option error * W) (http_get : string -> W -> result error http_answer * W).

Lemma fetchTrace_via u w p : (fetchTrace http_get u w).1 = Ok p -> pi_Via p = u /\ pi_IP p <> "".
Proof.
  unfold fetchTrace. generalize (Z.to_nat (64 * 1024)). intros limit. destruct (http_get u w) as [[x|e] w1]; [|done]. cbn [fst].
  destruct (negb _); [done|]. cbv zeta. destruct (parseTrace _ _) as [q|e] eqn:Ep; [|done]. intros [= <-]. split; [done|]. by apply parseTrace_ip in Ep.
Qed.

(** The URLs before the one that answered all failed. *)
Lemma public_ip_first urls errs w :
  match (public_ip ctx http_get urls errs w).1 with
  | Ok p => exists before u after w1, urls = before ++ u :: after /\ (fetchTrace http_get u w1).1 = Ok p /\ pi_Via p = u /\ pi_IP p <> "" /\
      Forall (fun u => exists w e, (fetchTrace http_get u w).1 = Err e) before
  | Err e => (exists w1, (ctx w1).1 = Some e) \/
      (exists es, length es = length urls /\ e = wrap "diag: public ip" (errors_Join (errs ++ es)) /\
         Forall2 (fun u e => exists w e', (fetchTrace http_get u w).1 = Err e' /\ e = wrap u e') urls es)
  end.
Proof.
  revert errs w; induction urls as [|u urls IH]; intros errs w; cbn [public_ip].
  { right. exists []. by rewrite app_nil_r. }
  destruct (ctx w) as [c w1] eqn:Ec. destruct c as [e|]; [left; exists w; by rewrite Ec|].
  destruct (fetchTrace http_get u w1) as [r w2] eqn:Ef. destruct r as [p|e].
  - exists [], u, urls, w1. pose proof (fetchTrace_via u w1 p) as Hv. rewrite Ef in *. destruct (Hv eq_refl). split_and!; by try apply Forall_nil.
  - specialize (IH (errs ++ [wrap u e]) w2). destruct (public_ip ctx http_get urls (errs ++ [wrap u e]) w2) as [[p|e'] w3]; cbn [fst] in *.
    + destruct IH as (before & u' & after & w4 & -> & H1 & H2 & H3 & HF). exists (u :: before), u', after, w4. split_and!; try done.
      apply Forall_cons; split; [|done]. exists w1, e. by rewrite Ef.
    + destruct IH as [H|(es & Hl & -> & HF)]; [by left|right]. exists (wrap u e :: es). rewrite <- app_assoc. split_and!; [cbn; lia|done|].
      constructor; [|done]. exists w1, e. by rewrite Ef.
Qed.
End PublicIP.

(** A DNS lookup is an error only when there is no name or the type is not
    one it knows; a name that cannot be resolved is an answer with the error in
    it and no records, and the records of an answer are all there, sorted but
    for MX and TXT.  The public address is that of the first trace that could be
    read, the earlier ones having failed, with the last value of each key; when
    none could be read the error is that of every one. *)
Theorem lookups_report {W} (rs : Resolver W) Quote ctx (http_get : string -> W -> result error http_answer * W) :
  (forall name server qtype w,
     let '((ans, err), w') := DNSLookup rs Quote name server qtype w in
     da_Name ans = name /\ da_Type ans = dns_type qtype /\
     match err with
     | Some e => KindOf (Some e) = KindInvalid /\ (name = "" \/ ~ In (dns_type qtype) dns_types) /\ da_Answers ans = [] /\ da_Error ans = ""
     | None =>
         name <> "" /\ In (dns_type qtype) dns_types /\ da_Server ans = dns_server server /\
         exists w1 answers qerr w2, dns_query rs (dns_type qtype) (if dns_server server =?s "" then None else Some (dns_server server)) name w1 = Some ((answers, qerr), w2) /\
           match qerr with
           | Some e => da_Answers ans = [] /\ da_Error ans = ErrorString e
           | None => da_Error ans = "" /\ da_Answers ans ≡ₚ answers /\
               (~ In (dns_type qtype) ["MX"; "TXT"] -> StronglySorted (fun a b => String.leb a b = true) (da_Answers ans)) /\
               (In (dns_type qtype) ["MX"; "TXT"] -> da_Answers ans = answers)
           end
     end) /\
  (forall w,
     match (PublicIP_ ctx http_get w).1 with
     | Ok p => exists before u after w1, traceURLs = before ++ u :: after /\ (fetchTrace http_get u w1).1 = Ok p /\ pi_Via p = u /\ pi_IP p <> "" /\
         Forall (fun u => exists w e, (fetchTrace http_get u w).1 = Err e) before
     | Err e => (exists w1, (ctx w1).1 = Some e) \/
         (exists es, length es = length traceURLs /\ e = wrap "diag: public ip" (errors_Join es) /\
            Forall2 (fun u e => exists w e', (fetchTrace http_get u w).1 = Err e' /\ e = wrap u e') traceURLs es)
     end) /\
  (forall kvs, Forall trace_ok kvs ->
     parseTrace (unlines (map trace_pair kvs)) None =
       if last_value "ip" kvs =?s "" then Err (ELeaf "no ip= line in trace")
       else Ok (mkPublicIP (last_value "ip" kvs) (last_value "colo" kvs) (last_value "loc" kvs) (last_value "warp" kvs) "")).
Proof. split_and!; [apply dns_outcome|intros w; apply (public_ip_first ctx http_get traceURLs [] w)|apply parseTrace_pairs]. Qed.
