(* ===== verification/Infra.v ===== *)
(** internal/infra: the links of the kernel, which of them are plumbing and
    whose, and the networks made of a bridge and its members.

    Netlink, sysfs, Docker's socket and its answer are operations on a world
    [W]. *)

From S2P Require Import Prelude GoTime Core GoStrings Errors NMMapping Netip GoScan Diag DiagFacts.

(** ** classify.go *)

Definition is_lower_hex (c : Ascii.ascii) : bool :=
  let n := Ascii.nat_of_ascii c in (Nat.leb 48 n && Nat.leb n 57) || (Nat.leb 97 n && Nat.leb n 102).

(** [^br-[0-9a-f]{12}$] *)
Definition dockerBridge (name : string) : bool :=
  HasPrefix name "br-" &&
  (let id := string_drop 3 name in Nat.eqb (String.length id) 12 && forallb is_lower_hex (String.list_ascii_of_string id)).

Definition has (name : string) (prefixes : list string) : bool := existsb (HasPrefix name) prefixes.

Definition owner (name kind : string) : string :=
  if (name =?s "docker0") || dockerBridge name then "docker"
  else if has name ["podman"; "cni-podman"] then "podman"
  else if has name ["virbr"; "vnet"] then "libvirt"
  else if has name ["incusbr"; "lxdbr"; "lxcbr"] then "incus"
  else if has name ["ve-"; "vb-"; "vz-"] then "nspawn"
  else if (name =?s "cni0") || has name ["flannel"; "cali"; "kube"] then "k8s"
  else if has name ["tailscale"] || (has name ["ts"] && (kind =?s "tun")) then "tailscale"
  else if has name ["wg"] || (kind =?s "wireguard") then "wireguard"
  else if has name ["veth"] then "veth"
  else "".

Definition Classify (name kind : string) (hasSysfsDevice : bool) : DeviceClass * string :=
  if (name =?s "lo") || (kind =?s "loopback") then (ClassLoopback, "loopback")
  else if hasSysfsDevice then (ClassPhysical, "")
  else (ClassInfra, owner name kind).

(** ** infra.go *)

(** What is read of a netlink link. *)
Record nl_link := mkNlLink {
  nl_Index : Z; nl_Name : string; nl_Type : string; nl_MasterIndex : Z;
  nl_FlagUp : bool; nl_FlagLoopback : bool; nl_OperDown : bool;
  nl_MTU : Z; nl_HardwareAddr : list Z; nl_NetNsID : Z
}.

Record InfraNet (W : Type) := mkInfraNet {
  if_Ctx : W -> option error * W;
  if_Links : W -> result error (list nl_link) * W;
  if_Addrs : Z -> W -> result error (list (option IPNet)) * W;
  if_Neighs : Z -> W -> result error (list nl_neigh) * W;
  if_Stat : string -> W -> bool * W
}.
Arguments if_Ctx {W}. Arguments if_Links {W}. Arguments if_Addrs {W}. Arguments if_Neighs {W}. Arguments if_Stat {W}.

Definition sysfsRoot : string := "/sys/class/net".

Definition linkKind (l : nl_link) : string :=
  if nl_FlagLoopback l then "loopback"
  else if nl_Type l =?s "tuntap" then "tun"
  else if nl_Type l =?s "" then "device"
  else nl_Type l.

Definition index_names (raw : list nl_link) : gmap Z string := fold_left (fun m l => <[nl_Index l := nl_Name l]> m) raw ∅.

(** ** networks.go: Docker *)

Record dockerNetwork := mkDockerNetwork { dk_Name : string; dk_ID : string; dk_Driver : string; dk_Options : gmap string string }.

Definition bridgeName (n : dockerNetwork) : string :=
  let b := default "" (dk_Options n !! "com.docker.network.bridge.name") in
  if negb (b =?s "") then b
  else if (12 <=? String.length (dk_ID n))%nat then "br-" +:+ string_take 12 (dk_ID n)
  else "".

(** How Docker's socket answers: absent, an error, or a status with the list its
    body holds, if it could be read. *)
Inductive docker_answer :=
| NoSocket
| DialFailed (e : error)
| DockerAnswered (status : Z) (list_ : option (list dockerNetwork)).

Definition dockerNetworks (a : docker_answer) : list dockerNetwork * string :=
  match a with
  | NoSocket => ([], "not-running")
  | DialFailed e => ([], if ping_refused e then "needs-group" else "not-running")
  | DockerAnswered status l =>
      if negb (status =? 200) then ([], "not-running")
      else match l with Some l => (l, "ok") | None => ([], "not-running") end
  end.

Definition by_bridge (l : list dockerNetwork) : gmap string string :=
  fold_left (fun m d => if dk_Driver d =?s "bridge"
                        then let b := bridgeName d in if b =?s "" then m else <[b := dk_Name d]> m
                        else m) l ∅.

Definition enrich_one (byBridge : gmap string string) (reachable : string) (n : InfraNetwork) : InfraNetwork :=
  if negb (in_Owner n =?s "docker") then n
  else match byBridge !! lk_Name (in_Bridge n) with
       | Some name => mkInfraNetwork (in_Bridge n) (in_Owner n) name (in_Members n) (in_Neighbours n) "docker-api" reachable
       | None => mkInfraNetwork (in_Bridge n) (in_Owner n) (in_OwnerName n) (in_Members n) (in_Neighbours n) (in_Source n) reachable
       end.

Section Infra.
Context {W : Type} (net : InfraNet W) (docker : W -> docker_answer * W).

Definition HasSysfsDevice (name : string) (w : W) : bool * W :=
  if (name =?s "") || ContainsAny name ("/" +:+ byte_str [0%nat]) then (false, w)
  else if_Stat net (sysfsRoot +:+ "/" +:+ name +:+ "/device") w.

Definition toLink (l : nl_link) (names : gmap Z string) (w : W) : Link * W :=
  let kind := linkKind l in
  let '(r, w) := if_Addrs net (nl_Index l) w in
  let addresses := match r with Ok addrs => map IPNet_String (omap id addrs) | Err _ => [] end in
  (mkLink (nl_Name l) (nl_Index l) kind (default "" (names !! nl_MasterIndex l)) (nl_FlagUp l && negb (nl_OperDown l))
     (mac_of (nl_HardwareAddr l)) addresses (if kind =?s "veth" then nl_NetNsID l else -1) (nl_MTU l), w).

(** The loop of [Links]: the context is asked before each link. *)
Fixpoint links_loop (names : gmap Z string) (raw : list nl_link) (w : W) : result error (list Link) * W :=
  match raw with
  | [] => (Ok [], w)
  | l :: raw =>
      let '(c, w) := if_Ctx net w in
      match c with
      | Some e => (Err e, w)
      | None =>
          let '(x, w) := toLink l names w in
          let '(r, w) := links_loop names raw w in
          (match r with Ok out => Ok (x :: out) | Err e => Err e end, w)
      end
  end.

Definition Links (w : W) : result error (list Link) * W :=
  let '(c, w) := if_Ctx net w in
  match c with
  | Some e => (Err e, w)
  | None =>
      let '(r, w) := if_Links net w in
      match r with
      | Err e => (Err (wrap "infra: list links" e), w)
      | Ok raw => links_loop (index_names raw) raw w
      end
  end.

(** ** networks.go *)

Fixpoint toLinks (names : gmap Z string) (raw : list nl_link) (w : W) : list Link * W :=
  match raw with
  | [] => ([], w)
  | l :: raw => let '(x, w) := toLink l names w in let '(xs, w) := toLinks names raw w in (x :: xs, w)
  end.

(** [byMaster[name]] *)
Definition members_of (links : list Link) (name : string) : list Link :=
  List.filter (fun l => negb (lk_Master l =?s "") && (lk_Master l =?s name)) links.

(** The neighbours of one link that were not seen yet. *)
Fixpoint add_neighs (device : string) (neighs : list nl_neigh) (hosts : list LANHost) : list LANHost :=
  match neighs with
  | [] => hosts
  | n :: neighs =>
      add_neighs device neighs
        match nn_IP n with
        | None => hosts
        | Some ip =>
            if has_bits (nn_State n) NUD_NOARP || (nn_State n =? NUD_NONE) then hosts
            else
              let key := IP_String ip in
              if existsb (fun h => lh_IP h =?s key) hosts then hosts
              else hosts ++ [mkLANHost key (mac_of (nn_HardwareAddr n)) "" (neighState (nn_State n)) device false false 0]
        end
  end.

Fixpoint add_links (device : string) (links : list Link) (hosts : list LANHost) (w : W) : list LANHost * W :=
  match links with
  | [] => (hosts, w)
  | l :: links =>
      let '(r, w) := if_Neighs net (lk_IfIndex l) w in
      add_links device links (match r with Ok neighs => add_neighs device neighs hosts | Err _ => hosts end) w
  end.

Definition host_le (a b : LANHost) : bool := String.leb (lh_IP a) (lh_IP b).

Definition bridgeNeighbours (bridge : Link) (members : list Link) (w : W) : list LANHost * W :=
  let '(hosts, w) := add_links (lk_Name bridge) (bridge :: members) [] w in (isort host_le hosts, w).

Fixpoint bridges_loop (all links : list Link) (w : W) : result error (list InfraNetwork) * W :=
  match links with
  | [] => (Ok [], w)
  | l :: links =>
      if negb (lk_Kind l =?s "bridge") then bridges_loop all links w
      else
        let '(c, w) := if_Ctx net w in
        match c with
        | Some e => (Err e, w)
        | None =>
            let '(dev, w) := HasSysfsDevice (lk_Name l) w in
            let own := (Classify (lk_Name l) (lk_Kind l) dev).2 in
            let own := if own =?s "" then "unknown" else own in
            let members := members_of all (lk_Name l) in
            let '(neighbours, w) := bridgeNeighbours l members w in
            let '(r, w) := bridges_loop all links w in
            (match r with
             | Ok out => Ok (mkInfraNetwork l own "" members neighbours "netlink" "" :: out)
             | Err e => Err e
             end, w)
        end
  end.

Definition enrichDocker (nets : list InfraNetwork) (w : W) : list InfraNetwork * W :=
  if existsb (fun n => in_Owner n =?s "docker") nets then
    let '(a, w) := docker w in
    let '(l, reachable) := dockerNetworks a in
    (map (enrich_one (by_bridge l) reachable) nets, w)
  else (nets, w).

Definition Networks (w : W) : result error (list InfraNetwork) * W :=
  let '(r, w) := if_Links net w in
  match r with
  | Err e => (Err (wrap "infra: list links" e), w)
  | Ok raw =>
      let '(links, w) := toLinks (index_names raw) raw w in
      let '(r, w) := bridges_loop links links w in
      match r with
      | Err e => (Err e, w)
      | Ok nets => let '(nets, w) := enrichDocker nets w in (Ok nets, w)
      end
  end.
End Infra.

(** The owner wins by the first name that fits. *)
Example classify_samples :
  map (fun x => Classify x.1.1 x.1.2 x.2)
    [("lo", "loopback", false); ("eth0", "device", true); ("docker0", "bridge", false); ("br-0123456789ab", "bridge", false);
     ("br-lan", "bridge", false); ("vnet3", "tun", false); ("ts0", "tun", false); ("wg-home", "wireguard", false); ("veth12", "veth", false)] =
  [("loopback", "loopback"); ("physical", ""); ("infra", "docker"); ("infra", "docker"); ("infra", ""); ("infra", "libvirt");
   ("infra", "tailscale"); ("infra", "wireguard"); ("infra", "veth")].
Proof. vm_compute. reflexivity. Qed.

(** * The infra networks are the bridges, each with the links below it and the
    neighbours the kernel has seen there. *)

Lemma find_append {A} (p : A -> bool) l1 l2 : find p (l1 ++ l2) = match find p l1 with Some x => Some x | None => find p l2 end.
Proof. induction l1 as [|x l1 IH]; [done|]. cbn [find app]. by destruct (p x). Qed.

Lemma Forall2_compose {A B C} (P : A -> B -> Prop) (Q : B -> C -> Prop) (R : A -> C -> Prop) l k m :
  (forall x y z, P x y -> Q y z -> R x z) -> Forall2 P l k -> Forall2 Q k m -> Forall2 R l m.
Proof. intros H HP. revert m; induction HP as [|x y l k Hxy HP IH]; intros m HQ; inversion HQ; subst; constructor; eauto. Qed.

(** ** Answers that do not change while the networks are listed *)

Record infra_answers := mkInfraAnswers {
  ia_links : list nl_link;
  ia_addrs : Z -> result error (list (option IPNet));
  ia_neighs : Z -> result error (list nl_neigh);
  ia_stat : string -> bool;
  ia_docker : docker_answer
}.

Class InfraTells {W} (net : InfraNet W) (docker : W -> docker_answer * W) (a : infra_answers) : Prop := {
  it_ctx w : (if_Ctx net w).1 = None;
  it_links w : (if_Links net w).1 = Ok (ia_links a);
  it_addrs i w : (if_Addrs net i w).1 = ia_addrs a i;
  it_neighs i w : (if_Neighs net i w).1 = ia_neighs a i;
  it_stat p w : (if_Stat net p w).1 = ia_stat a p;
  it_docker w : (docker w).1 = ia_docker a
}.

(** A link as it is listed. *)
Definition link_of (a : infra_answers) (l : nl_link) : Link :=
  mkLink (nl_Name l) (nl_Index l) (linkKind l) (default "" (index_names (ia_links a) !! nl_MasterIndex l)) (nl_FlagUp l && negb (nl_OperDown l))
    (mac_of (nl_HardwareAddr l)) (match ia_addrs a (nl_Index l) with Ok addrs => map IPNet_String (omap id addrs) | Err _ => [] end)
    (if linkKind l =?s "veth" then nl_NetNsID l else -1) (nl_MTU l).

Definition links_of (a : infra_answers) : list Link := map (link_of a) (ia_links a).

(** The kernel's neighbour counts. *)
Definition counted (n : nl_neigh) : bool := negb (has_bits (nn_State n) NUD_NOARP) && negb (nn_State n =? NUD_NONE).

(** The neighbours of some links, in order. *)
Definition seen_on (a : infra_answers) (links : list Link) : list nl_neigh :=
  flat_map (fun l => match ia_neighs a (lk_IfIndex l) with Ok ns => ns | Err _ => [] end) links.

Definition neigh_ip (n : nl_neigh) : option string := if counted n then option_map IP_String (nn_IP n) else None.

(** Step through the answers. *)
Ltac told e x w E law := destruct e as [x w] eqn:E; pose proof law as Hlaw_; rewrite E in Hlaw_; cbn [fst] in Hlaw_; subst x.

Section Infra.
Context {W : Type} (net : InfraNet W) (docker : W -> docker_answer * W) (a : infra_answers) (tells : InfraTells net docker a).

Lemma toLink_of l w : (toLink net l (index_names (ia_links a)) w).1 = link_of a l.
Proof. unfold toLink. told (if_Addrs net (nl_Index l) w) r w1 E (it_addrs (nl_Index l) w). done. Qed.

Lemma toLinks_of raw w : (toLinks net (index_names (ia_links a)) raw w).1 = map (link_of a) raw.
Proof.
  revert w; induction raw as [|l raw IH]; intros w; [done|]. cbn [toLinks map].
  pose proof (toLink_of l w) as Hl. destruct (toLink net l (index_names (ia_links a)) w) as [x w1]. cbn [fst] in Hl. subst x.
  specialize (IH w1). destruct (toLinks net (index_names (ia_links a)) raw w1) as [xs w2]. cbn [fst] in *. by rewrite IH.
Qed.

Lemma Links_of w : (Links net w).1 = Ok (links_of a).
Proof.
  unfold Links. told (if_Ctx net w) c w1 E1 (it_ctx w). told (if_Links net w1) r w2 E2 (it_links w1). unfold links_of.
  assert (forall raw w, (links_loop net (index_names (ia_links a)) raw w).1 = Ok (map (link_of a) raw)) as H; [|apply H].
  clear - tells. induction raw as [|l raw IH]; intros w; [done|]. cbn [links_loop map]. told (if_Ctx net w) c w1 E1 (it_ctx w).
  pose proof (toLink_of l w1) as Hl. destruct (toLink net l (index_names (ia_links a)) w1) as [x w2]. cbn [fst] in Hl. subst x.
  specialize (IH w2). destruct (links_loop net (index_names (ia_links a)) raw w2) as [r w3]. cbn [fst] in *. by subst r.
Qed.

(** ** Neighbours *)

(** What the list of a bridge holds: one host for each address that was seen,
    with the state of the first neighbour that has it. *)
Definition neighbours_of (device : string) (ns : list nl_neigh) (hosts : list LANHost) : Prop :=
  NoDup (map lh_IP hosts) /\
  (forall ip, In ip (map lh_IP hosts) <-> exists n, In n ns /\ neigh_ip n = Some ip) /\
  (forall h, In h hosts -> exists n, find (fun n => bool_decide (neigh_ip n = Some (lh_IP h))) ns = Some n /\
     h = mkLANHost (lh_IP h) (mac_of (nn_HardwareAddr n)) "" (neighState (nn_State n)) device false false 0).

Lemma add_one device ns n hosts : neighbours_of device ns hosts -> neighbours_of device (ns ++ [n]) (add_neighs device [n] hosts).
Proof.
  intros (Hnd & Hin & Hh). cbn [add_neighs].
  assert (forall h, In h hosts -> exists m, find (fun m => bool_decide (neigh_ip m = Some (lh_IP h))) (ns ++ [n]) = Some m /\
    h = mkLANHost (lh_IP h) (mac_of (nn_HardwareAddr m)) "" (neighState (nn_State m)) device false false 0) as Hold.
  { intros h Hi. destruct (Hh h Hi) as (m & Hm & E). exists m. rewrite find_append, Hm. by split. }
  assert (neigh_ip n = None -> neighbours_of device (ns ++ [n]) hosts) as Hskip.
  { intros E. split_and!; [done| |done]. intros ip. rewrite Hin. split; intros (m & Hm & Em).
    - exists m. split; [apply in_app_iff; by left|done].
    - apply in_app_iff in Hm as [Hm|[->|[]]]; [by exists m|congruence]. }
  unfold neigh_ip, counted in Hskip |- *. destruct (nn_IP n) as [ip|] eqn:Eip; [|apply Hskip; by case_test].
  destruct (has_bits (nn_State n) NUD_NOARP) eqn:E1; [by apply Hskip|]. destruct (nn_State n =? NUD_NONE) eqn:E2; [by apply Hskip|].
  cbn [orb]. clear Hskip. assert (neigh_ip n = Some (IP_String ip)) as Hn by (unfold neigh_ip, counted; by rewrite E1, E2, Eip).
  destruct (existsb (fun h => lh_IP h =?s IP_String ip) hosts) eqn:Ex.
  - split_and!; [done| |done]. intros k. rewrite Hin. split; intros (m & Hm & Em).
    + exists m. split; [apply in_app_iff; by left|done].
    + apply in_app_iff in Hm as [Hm|[->|[]]]; [by exists m|]. apply existsb_exists in Ex as (h & Hi & E%String.eqb_eq).
      apply Hin, in_map_iff. exists h. split; [|done]. rewrite Hn in Em. by injection Em as <-.
  - assert (~ In (IP_String ip) (map lh_IP hosts)) as Hnew.
    { intros (h & E & Hi)%in_map_iff. apply not_true_iff_false in Ex. apply Ex. apply existsb_exists. exists h. by rewrite E, seqb_refl. }
    split_and!.
    + rewrite map_app. cbn [map lh_IP]. apply NoDup_app. split_and!; [done| |by apply NoDup_singleton].
      intros k Hk ->%list_elem_of_singleton. apply Hnew. by apply list_elem_of_In.
    + intros k. rewrite map_app, in_app_iff, Hin. cbn [map lh_IP In]. split.
      * intros [(m & Hm & Em)|[<-|[]]]; [exists m; split; [apply in_app_iff; by left|done]|exists n; split; [apply in_app_iff; right; by left|done]].
      * intros (m & Hm & Em). apply in_app_iff in Hm as [Hm|[->|[]]]; [left; by exists m|]. right; left. rewrite Hn in Em. by injection Em.
    + intros h Hi. apply in_app_iff in Hi as [Hi|[<-|[]]]; [by apply Hold|]. cbn [lh_IP]. exists n. rewrite find_append.
      assert (find (fun m => bool_decide (neigh_ip m = Some (IP_String ip))) ns = None) as ->.
      { destruct (find _ ns) as [m|] eqn:Ef; [|done]. apply find_some in Ef as [Hm Em%bool_decide_eq_true]. exfalso. apply Hnew. apply Hin. by exists m. }
      cbn [find]. by rewrite bool_decide_eq_true_2.
Qed.

Lemma add_all device ns' : forall ns hosts, neighbours_of device ns hosts -> neighbours_of device (ns ++ ns') (add_neighs device ns' hosts).
Proof.
  induction ns' as [|n ns' IH]; intros ns hosts H; [by rewrite app_nil_r|].
  assert (add_neighs device (n :: ns') hosts = add_neighs device ns' (add_neighs device [n] hosts)) as -> by done.
  replace (ns ++ n :: ns') with ((ns ++ [n]) ++ ns') by (by rewrite <- app_assoc). apply IH. by apply add_one.
Qed.

Lemma add_links_of device links w : forall ns hosts, neighbours_of device ns hosts ->
  neighbours_of device (ns ++ seen_on a links) (add_links net device links hosts w).1.
Proof.
  revert w; induction links as [|l links IH]; intros w ns hosts H; [by rewrite app_nil_r|]. cbn [add_links].
  unfold seen_on. cbn [flat_map]. told (if_Neighs net (lk_IfIndex l) w) r w1 E (it_neighs (lk_IfIndex l) w). rewrite app_assoc.
  apply IH. destruct (ia_neighs a (lk_IfIndex l)) as [ns'|e]; [by apply add_all|by rewrite app_nil_r].
Qed.

Lemma neighbours_perm device ns h1 h2 : h1 ≡ₚ h2 -> neighbours_of device ns h1 -> neighbours_of device ns h2.
Proof.
  intros Hp (H1 & H2 & H3). pose proof (Permutation_map lh_IP Hp) as Hm. split_and!; [by rewrite <- Hm| |].
  - intros ip. rewrite <- H2. split; intros Hi; [eapply Permutation_in; [symmetry|]|eapply Permutation_in]; eauto.
  - intros h Hi. apply H3. eapply Permutation_in; [symmetry|]; eauto.
Qed.

Lemma bridgeNeighbours_of bridge members w :
  neighbours_of (lk_Name bridge) (seen_on a (bridge :: members)) (bridgeNeighbours net bridge members w).1 /\
  StronglySorted (fun x y => String.leb (lh_IP x) (lh_IP y) = true) (bridgeNeighbours net bridge members w).1.
Proof.
  unfold bridgeNeighbours. pose proof (add_links_of (lk_Name bridge) (bridge :: members) w [] []) as H.
  destruct (add_links net (lk_Name bridge) (bridge :: members) [] w) as [hosts w1]. cbn [fst] in *. split.
  - eapply neighbours_perm; [symmetry; apply isort_perm|]. apply H. split_and!; [apply NoDup_nil_2| |done]. intros ip. split; [done|intros (n & [] & _)].
  - apply (isort_sorted host_le).
    + intros x y. apply String.leb_total.
    + intros x y z. apply string_leb_trans.
Qed.

(** ** Networks *)

(** The owner a bridge is given. *)
Definition bridge_owner (l : Link) : string :=
  let dev := negb ((lk_Name l =?s "") || ContainsAny (lk_Name l) ("/" +:+ byte_str [0%nat])) &&
             ia_stat a (sysfsRoot +:+ "/" +:+ lk_Name l +:+ "/device") in
  let own := (Classify (lk_Name l) (lk_Kind l) dev).2 in if own =?s "" then "unknown" else own.

(** The network of a bridge, before Docker is asked. *)
Definition plain_network (l : Link) (n : InfraNetwork) : Prop :=
  in_Bridge n = l /\ in_Owner n = bridge_owner l /\ in_OwnerName n = "" /\ in_Members n = members_of (links_of a) (lk_Name l) /\
  neighbours_of (lk_Name l) (seen_on a (l :: in_Members n)) (in_Neighbours n) /\
  StronglySorted (fun x y => String.leb (lh_IP x) (lh_IP y) = true) (in_Neighbours n) /\ in_Source n = "netlink" /\ in_Reachable n = "".

Lemma bridges_loop_of links w : exists nets, (bridges_loop net (links_of a) links w).1 = Ok nets /\
  Forall2 plain_network (List.filter (fun l => lk_Kind l =?s "bridge") links) nets.
Proof.
  revert w; induction links as [|l links IH]; intros w; [by exists []|]. cbn [bridges_loop]. csimpl. destruct (lk_Kind l =?s "bridge"); cbn [negb]; [|apply IH].
  told (if_Ctx net w) c w1 E1 (it_ctx w).
  assert ((HasSysfsDevice net (lk_Name l) w1).1 = negb ((lk_Name l =?s "") || ContainsAny (lk_Name l) ("/" +:+ byte_str [0%nat])) &&
             ia_stat a (sysfsRoot +:+ "/" +:+ lk_Name l +:+ "/device")) as Hd.
  { unfold HasSysfsDevice. case_test; [done|]. apply it_stat. }
  destruct (HasSysfsDevice net (lk_Name l) w1) as [dev w2]. cbn [fst] in Hd.
  destruct (bridgeNeighbours_of l (members_of (links_of a) (lk_Name l)) w2) as [Hn Hs].
  destruct (bridgeNeighbours net l (members_of (links_of a) (lk_Name l)) w2) as [ns w3]. cbn [fst] in *.
  destruct (IH w3) as (nets & Er & HF). destruct (bridges_loop net (links_of a) links w3) as [r w4]. cbn [fst] in *. subst r.
  eexists. split; [done|]. constructor; [|done]. subst dev. by split_and!.
Qed.

(** What Docker adds: how it was reached, and its name for the bridge. *)
Definition docker_named (n0 n : InfraNetwork) : Prop :=
  in_Bridge n = in_Bridge n0 /\ in_Owner n = in_Owner n0 /\ in_Members n = in_Members n0 /\ in_Neighbours n = in_Neighbours n0 /\
  if in_Owner n0 =?s "docker" then
    in_Reachable n = (dockerNetworks (ia_docker a)).2 /\
    ((in_Source n = "docker-api" /\ exists d, In d (dockerNetworks (ia_docker a)).1 /\ dk_Driver d = "bridge" /\
        bridgeName d = lk_Name (in_Bridge n0) /\ dk_Name d = in_OwnerName n) \/
     (in_Source n = in_Source n0 /\ in_OwnerName n = in_OwnerName n0))
  else n = n0.

Lemma by_bridge_in l b name : by_bridge l !! b = Some name -> exists d, In d l /\ dk_Driver d = "bridge" /\ bridgeName d = b /\ dk_Name d = name.
Proof.
  unfold by_bridge. assert (forall l (m : gmap string string), fold_left (fun m d => if dk_Driver d =?s "bridge"
      then let b := bridgeName d in if b =?s "" then m else <[b := dk_Name d]> m else m) l m !! b = Some name ->
      m !! b = Some name \/ exists d, In d l /\ dk_Driver d = "bridge" /\ bridgeName d = b /\ dk_Name d = name) as H.
  { clear l. induction l as [|d l IH]; intros m Hl; [by left|]. cbn [fold_left] in Hl. apply IH in Hl as [Hl|(x & Hx & H)]; [|right; exists x; split; [by right|done]].
    destruct (String.eqb_spec (dk_Driver d) "bridge") as [Ed|]; [|by left]. cbv zeta in Hl. destruct (bridgeName d =?s ""); [by left|].
    destruct (decide (bridgeName d = b)) as [<-|Hne]; [|rewrite lookup_insert_ne in Hl by done; by left].
    rewrite lookup_insert_eq in Hl. injection Hl as Hl. right. exists d. by split; [left|]. }
  intros Hl. apply H in Hl as [Hl|Hl]; [by rewrite lookup_empty in Hl|done].
Qed.

Lemma enrichDocker_of nets w : Forall2 docker_named nets (enrichDocker docker nets w).1.
Proof.
  unfold enrichDocker. destruct (existsb (fun n => in_Owner n =?s "docker") nets) eqn:Ex.
  - told (docker w) x w1 E (it_docker w). destruct (dockerNetworks (ia_docker a)) as [l reachable] eqn:Ed. cbn [fst].
    apply Forall2_fmap_r, Forall_Forall2_diag, Forall_true. intros n. unfold compose, docker_named, enrich_one. rewrite Ed. cbn [fst snd].
    destruct (in_Owner n =?s "docker"); cbn [negb]; [|done]. destruct (by_bridge l !! lk_Name (in_Bridge n)) as [name|] eqn:Eb; cbn.
    + split_and!; try done. left. split; [done|]. apply by_bridge_in in Eb as (d & Hd & H). by exists d.
    + split_and!; try done. by right.
  - apply Forall_Forall2_diag, Forall_forall. intros n Hn. unfold docker_named.
    assert ((in_Owner n =?s "docker") = false) as ->; [|done]. apply not_true_iff_false. intros E. apply not_true_iff_false in Ex. apply Ex.
    apply existsb_elem. by exists n.
Qed.
End Infra.

(** ** Owners *)

Lemma prefix_comparable s p q : HasPrefix s p = true -> HasPrefix s q = true -> HasPrefix p q || HasPrefix q p = true.
Proof.
  unfold HasPrefix. revert p q; induction s as [|c s IH]; intros [|a p] [|b q]; cbn; try done; try (by rewrite ?orb_true_r).
  destruct (Ascii.ascii_dec a c) as [->|]; [|done]. destruct (Ascii.ascii_dec b c) as [->|]; [|done]. destruct (Ascii.ascii_dec c c); [|done]. apply IH.
Qed.

(** Two prefixes, or a prefix and a name, that do not go together. *)
Ltac no_such_name :=
  repeat match goal with H : _ || _ = true |- _ => apply orb_true_iff in H as [H|H] | H : _ || _ = false |- _ => apply orb_false_iff in H as [? ?] end;
  match goal with
  | |- _ => congruence
  | H1 : HasPrefix ?s ?p = true, H2 : HasPrefix ?s ?q = true |- _ =>
      let H := fresh in pose proof (prefix_comparable s p q H1 H2) as H; vm_compute in H; discriminate H
  | H1 : (?s =?s _) = true, H2 : HasPrefix ?s ?q = true |- _ => apply String.eqb_eq in H1; subst s; vm_compute in H2; discriminate H2
  | H1 : (?s =?s _) = true, H2 : HasPrefix ?s ?q = false |- _ => apply String.eqb_eq in H1; subst s; vm_compute in H2; discriminate H2
  | H1 : (?s =?s _) = true, H2 : (?s =?s _) = true |- _ => apply String.eqb_eq in H1; subst s; vm_compute in H2; discriminate H2
  end.

(** The device list and the infra view name the same owner of a bridge. *)
Lemma owners_agree name : deviceOwner name DeviceBridge <> "" -> owner name "bridge" = deviceOwner name DeviceBridge.
Proof.
  unfold deviceOwner, owner, has. cbn [existsb]. change (reDockerBridge name) with (dockerBridge name).
  change (DeviceBridge =?s DeviceVeth) with false. change (DeviceBridge =?s DeviceWireGuard) with false.
  change ("bridge" =?s "wireguard") with false. change ("bridge" =?s "tun") with false. rewrite ?orb_false_r, ?andb_false_r, ?orb_assoc, ?orb_false_r.
  destruct ((name =?s "docker0") || dockerBridge name); [done|].
  intros Hne. repeat (case_test; try done; try (exfalso; no_such_name)).
Qed.

(** ** The property *)

(** The network listed for a bridge. *)
Definition network_of (a : infra_answers) (l : Link) (n : InfraNetwork) : Prop :=
  in_Bridge n = l /\ in_Owner n = bridge_owner a l /\
  (forall m, In m (in_Members n) <-> In m (links_of a) /\ lk_Master m = lk_Name l /\ lk_Master m <> "") /\
  neighbours_of (lk_Name l) (seen_on a (l :: in_Members n)) (in_Neighbours n) /\
  StronglySorted (fun x y => String.leb (lh_IP x) (lh_IP y) = true) (in_Neighbours n) /\
  if in_Owner n =?s "docker" then
    in_Reachable n = (dockerNetworks (ia_docker a)).2 /\
    ((in_Source n = "docker-api" /\ exists d, In d (dockerNetworks (ia_docker a)).1 /\ dk_Driver d = "bridge" /\
        bridgeName d = lk_Name l /\ dk_Name d = in_OwnerName n) \/
     (in_Source n = "netlink" /\ in_OwnerName n = ""))
  else in_Reachable n = "" /\ in_Source n = "netlink" /\ in_OwnerName n = "".

Lemma docker_network a l n0 n : plain_network a l n0 -> docker_named a n0 n -> network_of a l n.
Proof.
  intros (Hb & Ho & Hn & Hm & Hne & Hs & Hsrc & Hr) (E1 & E2 & E3 & E4 & H). unfold network_of. rewrite E1, E2, E3, E4.
  split_and!; [done|done| |done|done|].
  - intros m. rewrite Hm. unfold members_of. rewrite filter_In, andb_true_iff, negb_true_iff, String.eqb_neq, String.eqb_eq. tauto.
  - destruct (in_Owner n0 =?s "docker"); [|by subst n]. destruct H as [H1 H2]. split; [done|]. rewrite Hb, Hsrc, Hn in H2. exact H2.
Qed.

(** The infra view.  Every bridge is one network, in the order of the
    kernel's links; its members are exactly the links whose master it is; its
    neighbours are the addresses seen on the bridge or a member, each once, with
    the state of the first neighbour that has it, by address.  Docker is asked
    only for the networks it owns, names only those, and its failure costs
    nothing but the name.  The owner of a bridge is the one the list of devices
    names, where that names one. *)
Theorem infra_networks_exact {W} (net : InfraNet W) docker (a : infra_answers) (tells : InfraTells net docker a) w :
  (exists nets, (Networks net docker w).1 = Ok nets /\
     Forall2 (network_of a) (List.filter (fun l => lk_Kind l =?s "bridge") (links_of a)) nets) /\
  (Links net w).1 = Ok (links_of a) /\
  (forall name, deviceOwner name DeviceBridge <> "" -> owner name "bridge" = deviceOwner name DeviceBridge).
Proof.
  split_and!; [|by eapply Links_of|apply owners_agree]. unfold Networks. told (if_Links net w) r w1 E (it_links w).
  pose proof (toLinks_of net docker a tells (ia_links a) w1) as Hl. destruct (toLinks net (index_names (ia_links a)) (ia_links a) w1) as [links w2].
  cbn [fst] in Hl. change (map (link_of a) (ia_links a)) with (links_of a) in Hl. subst links.
  destruct (bridges_loop_of net docker a tells (links_of a) w2) as (nets & Er & HF). destruct (bridges_loop net (links_of a) (links_of a) w2) as [r w3].
  cbn [fst] in Er. subst r. pose proof (enrichDocker_of net docker a tells nets w3) as Hd.
  destruct (enrichDocker docker nets w3) as [nets' w4]. cbn [fst] in *. exists nets'. split; [done|].
  eapply Forall2_compose; [|exact HF|exact Hd]. intros l n0 n. apply docker_network.
Qed.

(** A Docker bridge with one member, on which a container was seen. *)
Definition tiny_infra : infra_answers :=
  mkInfraAnswers
    [mkNlLink 1 "lo" "" 0 true true false 65536 [] 0; mkNlLink 4 "docker0" "bridge" 0 true false false 1500 [2; 66; 0; 0; 0; 1] 0;
     mkNlLink 7 "veth9" "veth" 4 true false false 1500 [2; 66; 0; 0; 0; 9] 1]
    (fun _ => Ok []) (fun i => Ok (if i =? 1 then [] else [mkNlNeigh (Some [172; 17; 0; 2]) NUD_STALE [] 0 0])) (fun _ => false)
    (DockerAnswered 200 (Some [mkDockerNetwork "bridge" "0123456789abcdef" "bridge" {["com.docker.network.bridge.name" := "docker0"]}])).

Definition tiny_infra_net : InfraNet unit :=
  mkInfraNet unit (fun w => (None, w)) (fun w => (Ok (ia_links tiny_infra), w)) (fun i w => (ia_addrs tiny_infra i, w))
    (fun i w => (ia_neighs tiny_infra i, w)) (fun p w => (ia_stat tiny_infra p, w)).

#[export] Instance tiny_infra_tells : InfraTells tiny_infra_net (fun w => (ia_docker tiny_infra, w)) tiny_infra.
Proof. by split. Qed.

Example tiny_networks :
  match (Networks tiny_infra_net (fun w => (ia_docker tiny_infra, w)) tt).1 with
  | Ok nets => map (fun n => (lk_Name (in_Bridge n), in_Owner n, in_OwnerName n, map lk_Name (in_Members n), map lh_IP (in_Neighbours n), in_Reachable n)) nets
  | Err _ => []
  end = [("docker0", "docker", "bridge", ["veth9"], ["172.17.0.2"], "ok")].
Proof. by vm_compute. Qed.

Lemma infra_networks_exact_witness :
  exists nets, (Networks tiny_infra_net (fun w => (ia_docker tiny_infra, w)) tt).1 = Ok nets /\ length nets = 1%nat.
Proof.
  destruct (infra_networks_exact tiny_infra_net (fun w => (ia_docker tiny_infra, w)) tiny_infra tiny_infra_tells tt) as ((nets & H & HF) & _).
  exists nets. split; [exact H|]. apply Forall2_length in HF. rewrite <- HF. vm_compute. reflexivity.
Defined.
