(* ===== verification/Speed.v ===== *)
(** internal/speed/cloudflare.go: the speed test against Cloudflare.  The HTTP
    client and the clock are operations on a world [W]; a run gives the progress
    it reported, the result and the error. *)

From S2P Require Import Prelude GoTime Core Errors GoStrings GoDuration GoScan Engine.

Definition ProviderCloudflare : string := "cloudflare".
Definition ProviderIperf3 : string := "iperf3".

Definition CloudflareBaseURL : string := "https://speed.cloudflare.com".
Definition DefaultMaxBytes : Z := Z.shiftl 300 20.
Definition QuickMaxBytes : Z := Z.shiftl 30 20.
Definition latencySamples : Z := 10.
Definition minRequestDuration : Duration := 10 * millisecond.
Definition finishRequestDuration : Duration := second.

Definition ErrRateLimited : error := ESentinel "speed.ErrRateLimited" "speed: rate limited by server".

(** [RateLimitedError]: its [Error], [Hint] and [Unwrap]. *)
Definition RateLimitedError (retryAfter : Duration) (phase : string) : error :=
  EHint
    (if 0 <? retryAfter then "speed: rate limited during " +:+ phase +:+ ", retry after " +:+ Duration_String retryAfter
     else "speed: rate limited during " +:+ phase)
    (if 0 <? retryAfter then "wait " +:+ Duration_String retryAfter +:+ " before running another speed test"
     else "wait a minute before running another speed test")
    [ErrRateLimited; ErrUnavailable].

Record stage := mkStage { st_bytes : Z; st_count : nat }.

Definition downloadRamp : list stage :=
  [mkStage (Z.shiftl 100 10) 4; mkStage (Z.shiftl 1 20) 3; mkStage (Z.shiftl 10 20) 2; mkStage (Z.shiftl 25 20) 2; mkStage (Z.shiftl 100 20) 1].
Definition uploadRamp : list stage := [mkStage (Z.shiftl 100 10) 4; mkStage (Z.shiftl 1 20) 3; mkStage (Z.shiftl 10 20) 2].
Definition quickDownMax : Z := Z.shiftl 10 20.
Definition quickUpMax : Z := Z.shiftl 1 20.

Record Cloudflare (C : Type) := mkCloudflare { cf_BaseURL : string; cf_Client : option C; cf_LatencySamples : Z }.
Arguments mkCloudflare {C}. Arguments cf_BaseURL {C}. Arguments cf_Client {C}. Arguments cf_LatencySamples {C}.

Definition cf_base {C} (c : Cloudflare C) : string :=
  if negb (cf_BaseURL c =?s "") then string_rev (trim_left "/" (string_rev (cf_BaseURL c))) else CloudflareBaseURL.

Definition latencyCount {C} (c : Cloudflare C) : Z := if 0 <? cf_LatencySamples c then cf_LatencySamples c else latencySamples.

(** [budget]: the cap and what was used of it. *)
Record budget := mkBudget { b_max : Z; b_used : Z }.
Definition allows (b : budget) (n : Z) : bool := int64_of (b_used b + n) <=? b_max b.
Definition add (b : budget) (n : Z) : budget := mkBudget (b_max b) (int64_of (b_used b + n)).

Definition maxBytesFor (opts : SpeedOptions) : Z :=
  if 0 <? so_MaxBytes opts then so_MaxBytes opts else if so_Quick opts then QuickMaxBytes else DefaultMaxBytes.

(** What one request measured. *)
Record timing := mkTiming {
  tm_ttfb : Duration; tm_payload : Duration; tm_total : Duration; tm_serverTime : Duration; tm_status : Z; tm_colo : string;
  tm_retryAfter : Duration; tm_bytes : Z
}.

(** The body of a request: its length, and its bytes. *)
Record payload := mkPayload { pl_len : Z; pl_byte : Z -> Z }.

Record http_request := mkHttpRequest { hq_Method : string; hq_URL : string; hq_Body : option payload; hq_Headers : list (string * string) }.

(** The answer to it: the last time either hook of the trace ran, the status and the values of each header. *)
Record http_response := mkHttpResponse { hs_wrote : option Time; hs_first : option Time; hs_StatusCode : Z; hs_Header : string -> list string }.

Record SpeedNet (C W : Type) := mkSpeedNet {
  sn_NewRequest : string -> string -> option string;                          (* why a method and URL make no request *)
  sn_Now : W -> Time * W;
  sn_Do : C -> http_request -> W -> result error http_response * W;
  sn_Copy : W -> (Z * option error) * W                                       (* reading the body to its end *)
}.
Arguments sn_NewRequest {C W}. Arguments sn_Now {C W}. Arguments sn_Do {C W}. Arguments sn_Copy {C W}.

Definition wrapf (what : string) (e : error) : error := EWrap (what +:+ ": " +:+ ErrorString e) [e].

(** ** Maths *)

Definition speed_median (v : list float64) : float64 := match v with [] => f_zero | _ => median v end.

Fixpoint diffs (v : list float64) (sum : float64) : float64 :=
  match v with
  | x :: (y :: _) as t => diffs t (sum + f_abs (y - x))%float
  | _ => sum
  end.

Definition jitter (v : list float64) : float64 :=
  match v with _ :: _ :: _ => (diffs v f_zero / f_of_Z (len v - 1))%float | _ => f_zero end.

Section ServerTiming.

(** [strconv.ParseFloat], and the conversion to [int64] of a float outside its
    range, which Go leaves to the machine. *)
Context (ParseFloat : string -> option float64) (outside : float64 -> Z).

Definition to_int64 (f : float64) : Z :=
  match f_int f with
  | Some n => if (min_int64 <=? n) && (n <=? max_int64) then n else outside f
  | None => outside f
  end.

Definition ms_duration (dur : float64) : Duration := to_int64 (dur * f_of_Z millisecond)%float.

Definition quote_mark : string := byte_str [34%nat].

(** The last [dur=] of an entry that is a number. *)
Definition entry_dur (params : list string) : option float64 :=
  fold_left (fun found p =>
    let p := TrimSpace p in
    if HasPrefix p "dur=" then
      match ParseFloat (Trim (string_drop 4 p) quote_mark) with Some f => Some f | None => found end
    else found) params None.

Fixpoint timing_entries (entries : list string) (speedSum : float64) : Duration :=
  match entries with
  | [] => ms_duration speedSum
  | entry :: entries =>
      match Split (TrimSpace entry) ";" with
      | [] => timing_entries entries speedSum
      | name :: params =>
          let name := TrimSpace name in
          match entry_dur params with
          | None => timing_entries entries speedSum
          | Some dur =>
              if name =?s "cfRequestDuration" then ms_duration dur
              else timing_entries entries (if HasPrefix name "cfSpeed" then (speedSum + dur)%float else speedSum)
          end
      end
  end.

Definition serverTiming (headers : list string) : Duration := timing_entries (flat_map (fun h => Split h ",") headers) f_zero.


(** ** Requests *)

Context {C W : Type} (net : SpeedNet C W) (DefaultClient : C) (Version : string).

Definition UserAgent : string := "bnm/" +:+ Version +:+ " (+https://github.com/dopeCape/better-nm)".

Definition client_of (c : Cloudflare C) : C := default DefaultClient (cf_Client c).

Definition retry_after (resp : http_response) : Duration :=
  match hs_Header resp "Retry-After" with
  | [] => 0
  | ra :: _ => if ra =?s "" then 0 else match Atoi ra with Some secs => int64_of (secs * second) | None => 0 end
  end.

Definition do_ (c : Cloudflare C) (method rawURL : string) (body : option payload) (w : W) : result error timing * W :=
  match sn_NewRequest net method rawURL with
  | Some e => (Err (EWrap ("speed: build request: " +:+ e) [ELeaf e]), w)
  | None =>
      let headers :=
        (match body with Some _ => [("Content-Type", "application/octet-stream")] | None => [] end) ++
        [("User-Agent", UserAgent); ("Cache-Control", "no-store")] in
      let '(start, w) := sn_Now net w in
      let '(r, w) := sn_Do net (client_of c) (mkHttpRequest method rawURL body headers) w in
      match r with
      | Err e => (Err (wrapf ("speed: " +:+ method +:+ " " +:+ rawURL) e), w)
      | Ok resp =>
          let wrote := default start (hs_wrote resp) in
          let '(first, w) := match hs_first resp with Some t => (t, w) | None => sn_Now net w end in
          let '(n, err, w) := sn_Copy net w in
          let '(stop, w) := sn_Now net w in
          match err with
          | Some e => (Err (wrapf ("speed: read " +:+ rawURL) e), w)
          | None =>
              (Ok (mkTiming (time_Sub first wrote) (time_Sub stop first) (time_Sub stop start) (serverTiming (hs_Header resp "Server-Timing"))
                     (hs_StatusCode resp) (match hs_Header resp "Cf-Meta-Colo" with v :: _ => v | [] => "" end) (retry_after resp) n), w)
          end
      end
  end.

Definition downURL (c : Cloudflare C) (n : Z) : string := cf_base c +:+ "/__down?bytes=" +:+ Itoa n.
Definition upURL (c : Cloudflare C) : string := cf_base c +:+ "/__up".

(** The error of an answer, if it is one: 429 and every status but 2xx. *)
Definition status_error (phase : string) (t : timing) : option error :=
  if tm_status t =? 429 then Some (RateLimitedError (tm_retryAfter t) phase)
  else if negb (Z.quot (tm_status t) 100 =? 2) then Some (ELeaf ("speed: " +:+ phase +:+ ": unexpected HTTP " +:+ Itoa (tm_status t)))
  else None.

(** ** latency *)

Definition latency_ms (t : timing) : float64 :=
  let ms := (f_of_Z (int64_of (tm_ttfb t - tm_serverTime t)) / f_of_Z millisecond)%float in if (ms <? f_zero)%float then f_zero else ms.

Definition percent (i n : Z) : float64 := (f_of_Z 100 * f_of_Z i / f_of_Z n)%float.

Fixpoint latency_loop (c : Cloudflare C) (n : Z) (more : nat) (i : Z) (samples : list float64) (colo : string) (out : list SpeedProgress) (w : W)
  : (list SpeedProgress * result error (float64 * float64 * string)) * W :=
  match more with
  | O => ((out, Ok (speed_median samples, jitter samples, colo)), w)
  | S more =>
      let '(r, w) := do_ c "GET" (downURL c 0) None w in
      match r with
      | Err e => ((out, Err e), w)
      | Ok t =>
          match status_error "latency" t with
          | Some e => ((out, Err e), w)
          | None =>
              latency_loop c n more (i + 1) (samples ++ [latency_ms t]) (if tm_colo t =?s "" then colo else tm_colo t)
                (out ++ [mkSpeedProgress "latency" f_zero (percent (i + 1) n) 0]) w
          end
      end
  end.

Definition latency (c : Cloudflare C) (w : W) : (list SpeedProgress * result error (float64 * float64 * string)) * W :=
  let n := latencyCount c in
  let '(r, w) := do_ c "GET" (downURL c 0) None w in
  match r with
  | Err e => (([], Err e), w)
  | Ok t =>
      match status_error "latency" t with
      | Some e => (([], Err e), w)
      | None => latency_loop c n (Z.to_nat n) 0 [] "" [] w
      end
  end.

(** ** ramp *)

Definition payload_byte (i : Z) : Z := (i * 31 + Z.shiftr i 8) mod 256.

Record ramp_state := mkRampState { ra_best : float64; ra_budget : budget; ra_done : Z; ra_out : list SpeedProgress }.

(** How long a transfer took; an upload is over when its answer begins. *)
Definition transfer_time (upload : bool) (t : timing) : Duration :=
  if upload then int64_of (tm_total t - tm_payload t)
  else int64_of (Z.max (int64_of (tm_ttfb t - tm_serverTime t)) 0 + tm_payload t).

Definition speed_of (bytes : Z) (dur : Duration) : float64 := (f_of_Z 8 * f_of_Z bytes / f_seconds dur / f_of_Z 1000000)%float.

(** The best speed, after a transfer of [bytes]. *)
Definition better (upload : bool) (bytes : Z) (t : timing) (best : float64) : float64 :=
  let dur := transfer_time upload t in
  if minRequestDuration <=? dur then let mbps := speed_of bytes dur in if (best <? mbps)%float then mbps else best else best.

Definition transfer (c : Cloudflare C) (upload : bool) (bytes : Z) : W -> result error timing * W :=
  if upload then do_ c "POST" (upURL c) (Some (mkPayload bytes payload_byte)) else do_ c "GET" (downURL c bytes) None.

(** What a rung leaves: go on with the next or not, or the end of the ramp. *)
Inductive rung_end := RungOver (stop : bool) | RampOver (err : option error).

Fixpoint rung (c : Cloudflare C) (upload : bool) (phase : string) (total : Z) (s : stage) (more : nat) (stop : bool) (st : ramp_state) (w : W)
  : (ramp_state * rung_end) * W :=
  match more with
  | O => ((st, RungOver stop), w)
  | S more =>
      if negb (allows (ra_budget st) (st_bytes s)) then ((st, RampOver None), w)
      else
        let '(r, w) := transfer c upload (st_bytes s) w in
        match r with
        | Err e => ((st, RampOver (Some e)), w)
        | Ok t =>
            let b := add (ra_budget st) (st_bytes s) in
            let n := ra_done st + 1 in
            match status_error phase t with
            | Some e => ((mkRampState (ra_best st) b n (ra_out st), RampOver (Some e)), w)
            | None =>
                let best := better upload (st_bytes s) t (ra_best st) in
                rung c upload phase total s more (stop || (finishRequestDuration <=? tm_total t))
                  (mkRampState best b n (ra_out st ++ [mkSpeedProgress phase best (percent n total) (b_used b)])) w
            end
        end
  end.

Fixpoint rungs (c : Cloudflare C) (upload : bool) (phase : string) (total : Z) (quick : bool) (quickMax : Z) (l : list stage) (st : ramp_state) (w : W)
  : (ramp_state * option error) * W :=
  match l with
  | [] => ((st, None), w)
  | s :: l =>
      if quick && (quickMax <? st_bytes s) then ((st, None), w)
      else
        let '(st, e, w) := rung c upload phase total s (st_count s) false st w in
        match e with
        | RampOver err => ((st, err), w)
        | RungOver true => ((st, None), w)
        | RungOver false => rungs c upload phase total quick quickMax l st w
        end
  end.

Definition ramp_total (quick : bool) (quickMax : Z) (l : list stage) : Z :=
  fold_left (fun total s => if negb quick || (st_bytes s <=? quickMax) then total + Z.of_nat (st_count s) else total) l 0.

Definition ramp (c : Cloudflare C) (phase : string) (l : list stage) (quick : bool) (quickMax : Z) (b : budget) (w : W)
  : (ramp_state * option error) * W :=
  rungs c (phase =?s "upload") phase (ramp_total quick quickMax l) quick quickMax l (mkRampState f_zero b 0 []) w.

(** ** Run *)

Definition begin_phase (phase : string) : SpeedProgress := mkSpeedProgress phase f_zero f_zero 0.
Definition end_phase (phase : string) (mbps : float64) (bytes : Z) : SpeedProgress := mkSpeedProgress phase mbps (f_of_Z 100) bytes.

Definition cf_Run (c : Cloudflare C) (opts : SpeedOptions) (w : W) : (list SpeedProgress * (SpeedResult * option error)) * W :=
  let '(start, w) := sn_Now net w in
  let finish server down up lat jit (b : budget) err out w :=
    let '(now, w) := sn_Now net w in
    ((out, (mkSpeedResult start (so_NetworkKey opts) ProviderCloudflare server down up lat jit (b_used b) (time_Sub now start) (so_Quick opts), err)), w) in
  let b := mkBudget (maxBytesFor opts) 0 in
  let '(out, r, w) := latency c w in
  let out := begin_phase "latency" :: out in
  match r with
  | Err e => finish "" f_zero f_zero f_zero f_zero b (Some e) out w
  | Ok (lat, jit, colo) =>
      let '(st, err, w) := ramp c "download" downloadRamp (so_Quick opts) quickDownMax b w in
      let down := ra_best st in
      let out := out ++ [end_phase "latency" f_zero 0; begin_phase "download"] ++ ra_out st in
      let b := ra_budget st in
      match err with
      | Some e => finish colo down f_zero lat jit b (Some e) out w
      | None =>
          let '(st, err, w) := ramp c "upload" uploadRamp (so_Quick opts) quickUpMax b w in
          let up := ra_best st in
          let out := out ++ [end_phase "download" down (b_used b); begin_phase "upload"] ++ ra_out st in
          let b := ra_budget st in
          match err with
          | Some e => finish colo down up lat jit b (Some e) out w
          | None => finish colo down up lat jit b None (out ++ [end_phase "upload" up (b_used b); end_phase "done" f_zero (b_used b)]) w
          end
      end
  end.
End ServerTiming.
