(* ===== verification/SpeedTest.v ===== *)
(** internal/speed/iperf3.go and speed.go: the speed test by the iperf3 program,
    and the tester that picks the provider of each run. *)

From S2P Require Import Prelude GoTime Core GoStrings Errors GoScan Speed.

(** ** iperf3.go *)

Definition ErrIperf3Missing : error := ECore (Some "speed.ErrIperf3Missing") KindUnsupported "speed: iperf3 not found"
  "install iperf3 (apt install iperf3 / dnf install iperf3 / pacman -S iperf3 / nix-env -iA nixpkgs.iperf3)" None.
Definition ErrServerRequired : error := ECore (Some "speed.ErrServerRequired") KindInvalid "speed: iperf3 needs a server"
  "pass --server host[:port] or set speed.iperf3_server" None.

Record Iperf3 := mkIperf3 { if_Binary : string; if_Duration : Duration; if_Streams : Z }.

Definition Iperf3DefaultPort : Z := 5201.
Definition iperf3DefaultDuration : Duration := 5 * second.
Definition iperf3QuickDuration : Duration := 2 * second.

Definition iperf_binary (p : Iperf3) : string := if negb (if_Binary p =?s "") then if_Binary p else "iperf3".

(** [iperf3Output]: its [end] flattened, a stream being its mean round trip in microseconds. *)
Record iperf3Output := mkIperf3Output {
  io_Error : string;
  io_SentBytes : Z; io_SentBitsPerSecond : float64; io_Retransmits : Z;
  io_ReceivedBytes : Z; io_ReceivedBitsPerSecond : float64;
  io_JitterMs : float64; io_LostPercent : float64;
  io_Streams : list Z
}.

Definition sentMbps (o : iperf3Output) : float64 := (io_SentBitsPerSecond o / f_of_Z 1000000)%float.
Definition receivedMbps (o : iperf3Output) : float64 := (io_ReceivedBitsPerSecond o / f_of_Z 1000000)%float.
Definition io_bytes (o : iperf3Output) : Z := if io_SentBytes o <? io_ReceivedBytes o then io_ReceivedBytes o else io_SentBytes o.
Definition rttMs (o : iperf3Output) : float64 :=
  match io_Streams o with [] => f_zero | rtt :: _ => (f_of_Z rtt / f_of_Z 1000)%float end.

Definition splitServer (s : string) : string * Z :=
  match SplitHostPort s with
  | None => (Trim s "[]", Iperf3DefaultPort)
  | Some (host, portStr) =>
      (host, match Atoi portStr with
             | Some port => if (port <=? 0) || (65535 <? port) then Iperf3DefaultPort else port
             | None => Iperf3DefaultPort
             end)
  end.

Section Iperf3.

(** [json.Unmarshal] into an [iperf3Output], and the conversion of a float
    outside the range of [int]. *)
Context (Unmarshal : string -> result error iperf3Output) (outside : float64 -> Z).

Definition parseIperf3 (b : string) : result error iperf3Output :=
  if TrimSpace b =?s "" then Err (ELeaf "speed: iperf3 produced no output")
  else match Unmarshal b with Err e => Err (wrapf "speed: parse iperf3 json" e) | Ok o => Ok o end.

(** What a program wrote, and how it ended. *)
Record cmd_output := mkCmdOutput { co_Stdout : string; co_Stderr : string; co_Err : option error }.

Context {W : Type} (LookPath : string -> W -> result error string * W) (Now : W -> Time * W)
  (Command : string -> list string -> W -> cmd_output * W) (ctx : W -> option error * W).

Definition iperf_args (p : Iperf3) (host : string) (port : Z) (dur : Duration) (reverse : bool) : list string :=
  ["-c"; host; "-p"; Itoa port; "-J"; "-t"; Itoa (to_int64 outside (f_seconds dur))] ++
  (if 1 <? if_Streams p then ["-P"; Itoa (if_Streams p)] else []) ++
  (if reverse then ["-R"] else []).

Definition runOnce (p : Iperf3) (bin host : string) (port : Z) (dur : Duration) (reverse : bool) (w : W) : result error iperf3Output * W :=
  let '(o, w) := Command bin (iperf_args p host port dur reverse) w in
  let what := "speed: iperf3 " +:+ host +:+ ": " in
  let parsed := parseIperf3 (co_Stdout o) in
  let said := match parsed with Ok out => io_Error out | Err _ => "" end in
  if negb (said =?s "") then (Err (ELeaf (what +:+ said)), w)
  else
    match co_Err o with
    | Some runErr =>
        let '(c, w) := ctx w in
        match c with
        | Some e => (Err (EWrap (what +:+ ErrorString e) [e]), w)
        | None =>
            let msg := TrimSpace (co_Stderr o) in
            let msg := if msg =?s "" then said else msg in
            (Err (ELeaf (what +:+ (if msg =?s "" then ErrorString runErr else msg))), w)
        end
    | None => (parsed, w)
    end.

Definition SpeedResult_zero : SpeedResult := mkSpeedResult 0 "" "" "" f_zero f_zero f_zero f_zero 0 0 false.

Definition iperf_Run (p : Iperf3) (opts : SpeedOptions) (w : W) : (list SpeedProgress * (SpeedResult * option error)) * W :=
  if so_Server opts =?s "" then (([], (SpeedResult_zero, Some ErrServerRequired)), w)
  else
    let '(found, w) := LookPath (iperf_binary p) w in
    match found with
    | Err e => (([], (SpeedResult_zero, Some (EWrap (ErrorString ErrIperf3Missing +:+ ": " +:+ ErrorString e) [ErrIperf3Missing]))), w)
    | Ok bin =>
        let '(host, port) := splitServer (so_Server opts) in
        let dur := if if_Duration p <=? 0 then if so_Quick opts then iperf3QuickDuration else iperf3DefaultDuration else if_Duration p in
        let '(start, w) := Now w in
        let res down up lat bytes d := mkSpeedResult start (so_NetworkKey opts) ProviderIperf3 (JoinHostPort host (Itoa port)) down up lat f_zero bytes d (so_Quick opts) in
        let out := [begin_phase "upload"] in
        let '(r, w) := runOnce p bin host port dur false w in
        match r with
        | Err e => ((out, (res f_zero f_zero f_zero 0 0, Some e)), w)
        | Ok up =>
            let bytes := io_bytes up in
            let out := out ++ [end_phase "upload" (sentMbps up) bytes; begin_phase "download"] in
            let '(r, w) := runOnce p bin host port dur true w in
            match r with
            | Err e => ((out, (res f_zero (sentMbps up) (rttMs up) bytes 0, Some e)), w)
            | Ok down =>
                let bytes := int64_of (bytes + io_bytes down) in
                let lat := if (f_eqb (rttMs up) f_zero) then rttMs down else rttMs up in
                let '(now, w) := Now w in
                ((out ++ [end_phase "download" (receivedMbps down) bytes; end_phase "done" f_zero bytes],
                  (res (receivedMbps down) (sentMbps up) lat bytes (time_Sub now start), None)), w)
            end
        end
    end.
End Iperf3.

(** ** speed.go *)

Definition ErrUnknownProvider : error :=
  ECore (Some "speed.ErrUnknownProvider") KindInvalid "speed: unknown provider" "use cloudflare or iperf3" None.

Record options (C : Type) := mkOptions { op_httpClient : option C; op_baseURL : string; op_iperfBinary : string }.
Arguments mkOptions {C}. Arguments op_httpClient {C}. Arguments op_baseURL {C}. Arguments op_iperfBinary {C}.

Definition SpeedOption (C : Type) : Type := options C -> options C.
Definition WithHTTPClient {C} (c : option C) : SpeedOption C := fun o => mkOptions c (op_baseURL o) (op_iperfBinary o).
Definition WithBaseURL {C} (u : string) : SpeedOption C := fun o => mkOptions (op_httpClient o) u (op_iperfBinary o).
Definition WithIperf3Binary {C} (path : string) : SpeedOption C := fun o => mkOptions (op_httpClient o) (op_baseURL o) path.

(** A [core.SpeedTester]: its concrete types. *)
Inductive tester (C : Type) := TCloudflare (c : Cloudflare C) | TIperf3 (p : Iperf3) | TErr (e : error).
Arguments TCloudflare {C}. Arguments TIperf3 {C}. Arguments TErr {C}.

Section Dispatch.

(** [url.Parse]: scheme, host, and the URL printed again. *)
Context {C : Type} (url_Parse : string -> option (string * string * string)) (Quote : string -> string).

Definition parseBase (raw : string) : result error string :=
  let bad := Err (ELeaf ("speed: invalid base URL " +:+ Quote raw)) in
  match url_Parse raw with
  | None => bad
  | Some (scheme, host, text) => if (scheme =?s "") || (host =?s "") then bad else Ok (string_rev (trim_left "/" (string_rev text)))
  end.

Definition New (provider : string) (opts : list (SpeedOption C)) : tester C :=
  let o := fold_left (fun o fn => fn o) opts (mkOptions None "" "") in
  if (provider =?s "") || (provider =?s ProviderCloudflare) then
    if negb (op_baseURL o =?s "") then
      match parseBase (op_baseURL o) with
      | Ok base => TCloudflare (mkCloudflare base (op_httpClient o) 0)
      | Err e => TErr e
      end
    else TCloudflare (mkCloudflare "" (op_httpClient o) 0)
  else if provider =?s ProviderIperf3 then TIperf3 (mkIperf3 (op_iperfBinary o) 0 0)
  else TErr (EWrap (ErrorString ErrUnknownProvider +:+ ": " +:+ Quote provider) [ErrUnknownProvider]).

Record Dispatcher := mkDispatcher { dp_opts : list (SpeedOption C); dp_testers : gmap string (tester C) }.
Definition NewDispatcher (opts : list (SpeedOption C)) : Dispatcher := mkDispatcher opts ∅.

(** The tester of a run, and the dispatcher after it was picked. *)
Definition pick (d : Dispatcher) (provider : string) : tester C * Dispatcher :=
  let provider := if provider =?s "" then ProviderCloudflare else provider in
  match dp_testers d !! provider with
  | Some t => (t, d)
  | None => let t := New provider (dp_opts d) in (t, mkDispatcher (dp_opts d) (<[provider := t]> (dp_testers d)))
  end.

Context {W : Type}.
Let run_type := SpeedOptions -> W -> (list SpeedProgress * (SpeedResult * option error)) * W.
Context (run_cf : Cloudflare C -> run_type) (run_iperf : Iperf3 -> run_type).

(** The [Run] of a tester. *)
Definition tester_Run (t : tester C) : run_type := fun opts w =>
  match t with
  | TCloudflare c => run_cf c opts w
  | TIperf3 p => run_iperf p opts w
  | TErr e => (([], (SpeedResult_zero, Some e)), w)
  end.

Definition dispatch_Run (d : Dispatcher) (opts : SpeedOptions) (w : W) : (list SpeedProgress * (SpeedResult * option error)) * (Dispatcher * W) :=
  let '(t, d) := pick d (so_Provider opts) in
  let '(r, w) := tester_Run t opts w in
  (r, (d, w)).
End Dispatch.

(** * The providers of speed tests: a dispatcher is as good as a fresh tester for
    every run, and an iperf3 run is two commands against one valid address. *)

Lemma splitServer_port s : 0 < (splitServer s).2 <= 65535.
Proof.
  unfold splitServer. destruct (SplitHostPort s) as [[host p]|]; cbn [snd]; [|by vm_compute].
  destruct (Atoi p) as [port|]; [|by vm_compute]. destruct (Z.leb_spec port 0), (Z.ltb_spec 65535 port); cbn [orb]; by vm_compute || lia.
Qed.

Section Dispatch.
Context {C W : Type} (url_Parse : string -> option (string * string * string)) (Quote : string -> string) (opts : list (SpeedOption C)).
Let run_type := SpeedOptions -> W -> (list SpeedProgress * (SpeedResult * option error)) * W.
Context (run_cf : Cloudflare C -> run_type) (run_iperf : Iperf3 -> run_type).

Definition dispatcher_ok (d : Dispatcher) : Prop :=
  dp_opts d = opts /\ forall p t, dp_testers d !! p = Some t -> t = New url_Parse Quote p opts.

Lemma pick_ok d p : dispatcher_ok d -> let '(t, d') := pick url_Parse Quote d p in t = New url_Parse Quote p opts /\ dispatcher_ok d'.
Proof.
  intros [Ho Ht]. unfold pick. set (q := if p =?s "" then ProviderCloudflare else p).
  assert (New url_Parse Quote q opts = New url_Parse Quote p opts) as Hq by (subst q; by destruct (String.eqb_spec p ""); subst).
  destruct (dp_testers d !! q) as [t|] eqn:Hl; rewrite <- Hq; [by split; [apply Ht|split]|]. rewrite Ho. split; [done|]. split; [done|]. cbn.
  intros p' t [[<- <-]|[_ H]]%lookup_insert_Some; auto.
Qed.

(** Runs one after the other, by one dispatcher and by a tester each. *)
Fixpoint by_one (d : Dispatcher) (l : list SpeedOptions) (w : W) : list (list SpeedProgress * (SpeedResult * option error)) * W :=
  match l with
  | [] => ([], w)
  | o :: l =>
      let '(r, (d, w)) := dispatch_Run url_Parse Quote run_cf run_iperf d o w in let '(rs, w) := by_one d l w in (r :: rs, w)
  end.

Fixpoint by_each (l : list SpeedOptions) (w : W) : list (list SpeedProgress * (SpeedResult * option error)) * W :=
  match l with
  | [] => ([], w)
  | o :: l =>
      let '(r, w) := tester_Run run_cf run_iperf (New url_Parse Quote (so_Provider o) opts) o w in let '(rs, w) := by_each l w in (r :: rs, w)
  end.

Lemma by_one_each l : forall d w, dispatcher_ok d -> by_one d l w = by_each l w.
Proof.
  induction l as [|o l IH]; intros d w Hd; [done|]. cbn [by_one by_each]. unfold dispatch_Run. pose proof (pick_ok d (so_Provider o) Hd) as Hp.
  destruct (pick _ _ d (so_Provider o)) as [t d']. destruct Hp as [-> Hd']. destruct (tester_Run _ _ _ o w) as [r w1]. by rewrite IH.
Qed.

Lemma new_dispatcher_ok : dispatcher_ok (NewDispatcher opts).
Proof. split; [done|]. intros p t H. cbn in H. by rewrite lookup_empty in H. Qed.

Lemma unknown_provider p : p <> "" -> p <> ProviderCloudflare -> p <> ProviderIperf3 ->
  exists e, New url_Parse Quote p opts = TErr e /\ errors_Is (Some e) ErrUnknownProvider = true /\ KindOf (Some e) = KindInvalid.
Proof.
  intros H1 H2 H3. unfold New. destruct (String.eqb_spec p ""), (String.eqb_spec p ProviderCloudflare), (String.eqb_spec p ProviderIperf3); try done.
  by eexists.
Qed.
End Dispatch.

Section Iperf3.
Context (Unmarshal : string -> result error iperf3Output) (outside : float64 -> Z).
Context {W : Type} (LookPath : string -> W -> result error string * W) (Now : W -> Time * W)
  (Command : string -> list string -> W -> cmd_output * W) (ctx : W -> option error * W).
Let once := runOnce Unmarshal outside Command ctx.

(** A command counts when it succeeded and printed a report without an error. *)
Lemma runOnce_ok p bin host port dur reverse w o :
  (once p bin host port dur reverse w).1 = Ok o <->
  let c := (Command bin (iperf_args outside p host port dur reverse) w).1 in
  co_Err c = None /\ parseIperf3 Unmarshal (co_Stdout c) = Ok o /\ io_Error o = "".
Proof.
  subst once. unfold runOnce. destruct (Command _ _ w) as [c w1]. cbn [fst]. destruct (parseIperf3 Unmarshal (co_Stdout c)) as [out|e] eqn:Hp.
  - destruct (String.eqb_spec (io_Error out) "") as [He|He]; cbn [negb].
    + destruct (co_Err c) as [e|]; [destruct (ctx w1) as [[e'|] w2]; cbn; split; [done|intros [? _]; done|done|intros [? _]; done]|].
      cbn. split; [intros [= <-]; done|by intros (_ & [= ->] & _)].
    + cbn. split; [done|]. by intros (_ & [= ->] & ?).
  - cbn. destruct (co_Err c) as [e'|]; [destruct (ctx w1) as [[e''|] w2]|]; cbn; split; try done; by intros (_ & ? & _).
Qed.

(** A run is an upload and, only after it, a download, to the same place; what
    the upload gave is kept when the download fails. *)
Lemma iperf_phases p opts w bin w1 : so_Server opts <> "" -> LookPath (iperf_binary p) w = (Ok bin, w1) ->
  let '((_, (res, err)), w') := iperf_Run Unmarshal outside LookPath Now Command ctx p opts w in
  let '(host, port) := splitServer (so_Server opts) in
  exists dur, 0 < dur /\
    let '(up, w2) := once p bin host port dur false (Now w1).2 in
    match up with
    | Err e => err = Some e /\ w' = w2 /\ sr_BytesMoved res = 0
    | Ok u =>
        sr_UploadMbps res = sentMbps u /\
        let '(down, w3) := once p bin host port dur true w2 in
        match down with
        | Err e => err = Some e /\ w' = w3 /\ sr_BytesMoved res = io_bytes u
        | Ok d => err = None /\ w' = (Now w3).2 /\ sr_DownloadMbps res = receivedMbps d /\
            (0 <= io_bytes u < 2 ^ 62 -> 0 <= io_bytes d < 2 ^ 62 -> sr_BytesMoved res = io_bytes u + io_bytes d)
        end
    end.
Proof.
  intros Hs Hl. subst once. unfold iperf_Run. destruct (String.eqb_spec (so_Server opts) ""); [done|]. rewrite Hl.
  destruct (splitServer (so_Server opts)) as [host port]. destruct (Now w1) as [start w2]. cbn [snd].
  set (dur := if if_Duration p <=? 0 then _ else _).
  assert (0 < dur) as Hd by (subst dur; destruct (Z.leb_spec (if_Duration p) 0); [by destruct (so_Quick opts)|done]).
  destruct (runOnce _ _ _ _ p bin host port dur false w2) as [[u|e] w3] eqn:Hup; [|by exists dur; rewrite Hup].
  destruct (runOnce _ _ _ _ p bin host port dur true w3) as [[d|e] w4] eqn:Hdown; [|by exists dur; rewrite Hup, Hdown].
  destruct (Now w4) as [now w5] eqn:Hn. exists dur. rewrite Hup, Hdown, Hn. cbn. split_and!; try done.
  intros Hu Hd'. unfold int64_of. rewrite Z.mod_small; lia.
Qed.
End Iperf3.

(** C37: The provider of a speed test.  A dispatcher, whatever it ran before,
    runs a test exactly as a tester made for that provider would; a provider
    there is not makes an error of kind invalid.  An iperf3 test goes to a port
    between 1 and 65535, uploads and, only when that gave a report, downloads,
    and keeps what the upload gave when the download fails; a command counts
    when it succeeded and its report has no error. *)
Theorem providers_exact {C W : Type} url_Parse Quote (opts : list (SpeedOption C))
  (run_cf : Cloudflare C -> SpeedOptions -> W -> (list SpeedProgress * (SpeedResult * option error)) * W) Unmarshal outside LookPath Now Command ctx :
  let run_iperf := iperf_Run Unmarshal outside LookPath Now Command ctx in
  (forall l w, by_one url_Parse Quote run_cf run_iperf (NewDispatcher opts) l w = by_each url_Parse Quote opts run_cf run_iperf l w) /\
  (forall p, p <> "" -> p <> ProviderCloudflare -> p <> ProviderIperf3 ->
     exists e, New url_Parse Quote p opts = TErr e /\ errors_Is (Some e) ErrUnknownProvider = true /\ KindOf (Some e) = KindInvalid) /\
  (forall s, 0 < (splitServer s).2 <= 65535) /\
  (forall p o w, so_Server o = "" -> run_iperf p o w = (([], (SpeedResult_zero, Some ErrServerRequired)), w)) /\
  (forall p bin host port dur reverse w o,
     (runOnce Unmarshal outside Command ctx p bin host port dur reverse w).1 = Ok o <->
     let c := (Command bin (iperf_args outside p host port dur reverse) w).1 in
     co_Err c = None /\ parseIperf3 Unmarshal (co_Stdout c) = Ok o /\ io_Error o = "") /\
  (forall p o w bin w1, so_Server o <> "" -> LookPath (iperf_binary p) w = (Ok bin, w1) ->
     let '((_, (res, err)), w') := run_iperf p o w in
     let '(host, port) := splitServer (so_Server o) in
     exists dur, 0 < dur /\
       let '(up, w2) := runOnce Unmarshal outside Command ctx p bin host port dur false (Now w1).2 in
       match up with
       | Err e => err = Some e /\ w' = w2 /\ sr_BytesMoved res = 0
       | Ok u =>
           sr_UploadMbps res = sentMbps u /\
           let '(down, w3) := runOnce Unmarshal outside Command ctx p bin host port dur true w2 in
           match down with
           | Err e => err = Some e /\ w' = w3 /\ sr_BytesMoved res = io_bytes u
           | Ok d => err = None /\ w' = (Now w3).2 /\ sr_DownloadMbps res = receivedMbps d /\
               (0 <= io_bytes u < 2 ^ 62 -> 0 <= io_bytes d < 2 ^ 62 -> sr_BytesMoved res = io_bytes u + io_bytes d)
           end
       end).
Proof.
  intros run_iperf. split_and!.
  - intros l w. apply by_one_each, new_dispatcher_ok.
  - intros p. apply unknown_provider.
  - apply splitServer_port.
  - intros p o w H. unfold run_iperf, iperf_Run. by rewrite H.
  - intros. apply runOnce_ok.
  - intros. by apply iperf_phases.
Qed.
