(* ===== verification/SpeedFacts.v ===== *)
(** What a Cloudflare speed test sends: never more than its cap, each request
    decided by the answers before it, and nothing after one that failed. *)

From S2P Require Import Prelude GoTime Core Errors GoStrings GoScan Engine Speed Prober ProberFacts.
From Stdlib Require Import SpecFloat.

Abbreviation outcome := (result error timing).
Definition total (l : list (Z * outcome)) : Z := fold_right (fun x n => x.1 + n) 0 l.

(** What was answered, whatever its status. *)
Definition moved (l : list (Z * outcome)) : Z := total (List.filter (fun x => is_ok x.2) l).

Definition failure (phase : string) (r : outcome) : option error :=
  match r with Err e => Some e | Ok t => status_error phase t end.
Definition accepted (phase : string) (r : outcome) : bool := match failure phase r with None => true | Some _ => false end.

(** How a phase ends: with the error of its last request, or with none at all. *)
Definition ends (phase : string) (l : list outcome) (err : option error) : Prop :=
  match err with
  | None => Forall (fun r => accepted phase r = true) l
  | Some e => exists l0 r, l = l0 ++ [r] /\ Forall (fun r => accepted phase r = true) l0 /\ failure phase r = Some e
  end.

Definition quick_enough (r : outcome) : bool := match r with Ok t => tm_total t <? finishRequestDuration | Err _ => false end.

(** The sizes of a ramp, and the next one to transfer after [l]: the plan's, if
    it fits in the cap and no transfer of another size took a second. *)
Definition plan (quick : bool) (quickMax : Z) (l : list stage) : list Z :=
  flat_map (fun s => repeat (st_bytes s) (st_count s)) (List.filter (fun s => negb quick || (st_bytes s <=? quickMax)) l).

Definition next (sizes : list Z) (cap : Z) (l : list (Z * outcome)) : option Z :=
  match drop (length l) sizes with
  | [] => None
  | n :: _ => if (total l + n <=? cap) && forallb (fun x => (x.1 =? n) || quick_enough x.2) l then Some n else None
  end.

Definition follows (sizes : list Z) (cap : Z) (l : list (Z * outcome)) : Prop :=
  forall l1 n r l2, l = l1 ++ (n, r) :: l2 -> next sizes cap l1 = Some n.

Definition phase_of (upload : bool) : string := if upload then "upload" else "download".

(** The transfers that count, the best speed of some, those too short to tell
    left out, and the progress reported of them. *)
Definition good (upload : bool) (l : list (Z * outcome)) : list (Z * outcome) := List.filter (fun x => accepted (phase_of upload) x.2) l.

Definition best (upload : bool) (l : list (Z * outcome)) : float64 :=
  fold_left (fun b x => match x.2 with Ok t => better upload x.1 t b | Err _ => b end) l f_zero.

Definition ramp_progress (upload : bool) (n used0 : Z) (l : list (Z * outcome)) : list SpeedProgress :=
  map (fun k => mkSpeedProgress (phase_of upload) (best upload (take k l)) (percent (Z.of_nat k) n) (used0 + total (take k l))) (seq 1 (length l)).

(** *** Lists of transfers *)

Lemma total_app l1 l2 : total (l1 ++ l2) = total l1 + total l2.
Proof. unfold total. induction l1 as [|x l1 IH]; cbn; [done|]. rewrite IH. lia. Qed.

Lemma total_snoc l n r : total (l ++ [(n, r)]) = total l + n.
Proof. rewrite total_app. cbn. lia. Qed.

Lemma best_snoc upload l n t : best upload (l ++ [(n, Ok t)]) = better upload n t (best upload l).
Proof. unfold best. by rewrite fold_left_app. Qed.

Definition all_good (upload : bool) (l : list (Z * outcome)) : Prop := Forall (fun x => accepted (phase_of upload) x.2 = true) l.

Lemma good_all upload l : all_good upload l -> good upload l = l.
Proof. induction 1 as [|x l Hx _ IH]; [done|]. unfold good in *. cbn. by rewrite Hx, IH. Qed.

Lemma moved_all upload l : all_good upload l -> moved l = total l.
Proof.
  unfold moved, total. induction 1 as [|[n r] l Hx _ IH]; [done|]. unfold accepted, failure in Hx.
  destruct r; [|done]. cbn. by rewrite IH.
Qed.

Lemma moved_app l1 l2 : moved (l1 ++ l2) = moved l1 + moved l2.
Proof. unfold moved. by rewrite List.filter_app, total_app. Qed.

Lemma progress_snoc upload n used0 l x :
  ramp_progress upload n used0 (l ++ [x]) = ramp_progress upload n used0 l ++
    [mkSpeedProgress (phase_of upload) (best upload (l ++ [x])) (percent (Z.of_nat (S (length l))) n) (used0 + total (l ++ [x]))].
Proof.
  unfold ramp_progress. rewrite length_app, Nat.add_1_r, seq_S, map_app. cbn [map]. f_equal.
  - apply map_ext_in. intros k Hk. apply in_seq in Hk. rewrite take_app_le by lia. done.
  - rewrite (take_ge (l ++ [x])); [done|]. rewrite length_app. cbn. lia.
Qed.

Lemma follows_nil sizes cap : follows sizes cap [].
Proof. intros [|] ? ? ? H; discriminate. Qed.

Lemma follows_snoc sizes cap l n r : follows sizes cap l -> next sizes cap l = Some n -> follows sizes cap (l ++ [(n, r)]).
Proof.
  intros Hl Hn l1 m q l2 He. destruct l2 as [|y l2 _] using rev_ind.
  - apply app_inj_tail in He as [-> [= -> ->]]. done.
  - rewrite app_comm_cons, app_assoc in He. apply app_inj_tail in He as [He _]. exact (Hl _ _ _ _ He).
Qed.

Section Runs.
Context (ParseFloat : string -> option float64) (outside : float64 -> Z) {C W : Type} (net : SpeedNet C W) (DefaultClient : C) (Version : string)
  (c : Cloudflare C).

Let get := do_ ParseFloat outside net DefaultClient Version c "GET" (downURL c 0) None.
Let put := transfer ParseFloat outside net DefaultClient Version c.

(** A request of a run, and the runs: one request after the other. *)
Inductive ask := AskLatency | AskTransfer (upload : bool) (bytes : Z).

Definition perform (a : ask) (w : W) : outcome * W := match a with AskLatency => get w | AskTransfer upload bytes => put upload bytes w end.

Inductive sends : W -> list (ask * outcome) -> W -> Prop :=
| sends_nil w : sends w [] w
| sends_cons w a l w2 : sends (perform a w).2 l w2 -> sends w ((a, (perform a w).1) :: l) w2.

Lemma sends_app w1 l1 w2 l2 w3 : sends w1 l1 w2 -> sends w2 l2 w3 -> sends w1 (l1 ++ l2) w3.
Proof. induction 1 as [|w a l w2 _ IH]; [done|]. intros Hs. cbn. constructor. auto. Qed.

Lemma sends_one w a r w2 : perform a w = (r, w2) -> sends w [(a, r)] w2.
Proof. intros H. pose proof (sends_cons w a [] (perform a w).2 (sends_nil _)) as Hs. by rewrite H in Hs. Qed.

Definition transfers (upload : bool) (l : list (Z * outcome)) : list (ask * outcome) := map (fun x => (AskTransfer upload x.1, x.2)) l.

(** What a ramp has left after the transfers [h]. *)
Definition ramp_after (upload : bool) (n max used0 : Z) (h : list (Z * outcome)) (st : ramp_state) : Prop :=
  ra_best st = best upload (good upload h) /\ ra_budget st = mkBudget max (used0 + moved h) /\
  ra_out st = ramp_progress upload n used0 (good upload h).

Lemma next_at sizes cap h n rest : sizes = map fst h ++ n :: rest ->
  next sizes cap h = if (total h + n <=? cap) && forallb (fun x => (x.1 =? n) || quick_enough x.2) h then Some n else None.
Proof. intros ->. unfold next. replace (length h) with (length (map fst h)) by apply length_map. by rewrite drop_app_length. Qed.

Lemma small_int64 z : 0 <= z < 2 ^ 62 -> int64_of z = z.
Proof. intros Hz. unfold int64_of. rewrite Z.mod_small; lia. Qed.

(** The last transfer of a ramp, when it does not count. *)
Lemma after_bad upload n max used0 h st st' m r e : all_good upload h -> ramp_after upload n max used0 h st ->
  failure (phase_of upload) r = Some e -> ra_best st' = ra_best st -> ra_out st' = ra_out st ->
  ra_budget st' = mkBudget max (used0 + moved (h ++ [(m, r)])) ->
  ramp_after upload n max used0 (h ++ [(m, r)]) st' /\ ends (phase_of upload) (map snd (h ++ [(m, r)])) (Some e).
Proof.
  intros Hg (Hb & _ & Ho) Hr Hb' Ho' Hbu'. split.
  - assert (good upload (h ++ [(m, r)]) = good upload h) as Hgood.
    { unfold good. rewrite List.filter_app. cbn. unfold accepted. by rewrite Hr, app_nil_r. }
    unfold ramp_after. rewrite Hgood. split_and!; congruence.
  - exists (map snd h), r. rewrite map_app. split_and!; [done|by apply Forall_map|done].
Qed.

Lemma after_good upload n max used0 h st m t : all_good upload h -> ramp_after upload n max used0 h st -> ra_done st = len h ->
  accepted (phase_of upload) (Ok t) = true ->
  let h' := h ++ [(m, Ok t)] in
  all_good upload h' /\
  ramp_after upload n max used0 h' (mkRampState (better upload m t (ra_best st)) (mkBudget max (used0 + total h')) (ra_done st + 1)
    (ra_out st ++ [mkSpeedProgress (phase_of upload) (better upload m t (ra_best st)) (percent (ra_done st + 1) n) (used0 + total h')])).
Proof.
  intros Hg (Hb & _ & Ho) Hd Ht h'. assert (all_good upload h') as Hg' by (apply Forall_app; split; [done|by constructor]).
  split; [done|]. unfold ramp_after. cbn [ra_best ra_budget ra_out]. rewrite (good_all _ _ Hg'), (moved_all _ _ Hg').
  rewrite (good_all _ _ Hg) in Hb, Ho. subst h'. rewrite progress_snoc, !best_snoc, Hb, Ho, Hd. split_and!; try done.
  by replace (Z.of_nat (S (length h))) with (len h + 1) by (unfold len; lia).
Qed.

(** One rung, after the transfers [h0], all accepted and of other sizes quick. *)
Lemma rung_sends upload n max used0 s more :
  forall h stop st w sizes rest, all_good upload h -> follows sizes (max - used0) h ->
    sizes = map fst h ++ repeat (st_bytes s) more ++ rest ->
    forallb (fun x => (x.1 =? st_bytes s) || quick_enough x.2) h = true ->
    stop = negb (forallb (fun x => negb (x.1 =? st_bytes s) || quick_enough x.2) h) ->
    ramp_after upload n max used0 h st -> ra_done st = len h -> 0 <= st_bytes s -> 0 <= used0 -> 0 <= total h ->
    used0 + total h + Z.of_nat more * st_bytes s < 2 ^ 62 ->
    let '((st', e), w') := rung ParseFloat outside net DefaultClient Version c upload (phase_of upload) n s more stop st w in
    exists l, sends w (transfers upload l) w' /\ follows sizes (max - used0) (h ++ l) /\ ramp_after upload n max used0 (h ++ l) st' /\
      match e with
      | RungOver stop' => all_good upload l /\ map fst l = repeat (st_bytes s) more /\ ra_done st' = len (h ++ l) /\
          stop' = negb (forallb (fun x => negb (x.1 =? st_bytes s) || quick_enough x.2) (h ++ l))
      | RampOver err => ends (phase_of upload) (map snd (h ++ l)) err /\ (err = None -> next sizes (max - used0) (h ++ l) = None)
      end.
Proof.
  induction more as [|more IH]; intros h stop st w sizes rest Hg Hf Hs Hq Hstop (Hb & Hbu & Ho) Hd Hn Hu Ht Hbig.
  { exists []. rewrite app_nil_r. split; [exact (sends_nil w)|]. split_and!; try done. constructor. }
  assert (int64_of (used0 + moved h + st_bytes s) = used0 + total h + st_bytes s) as Hi.
  { rewrite (moved_all _ _ Hg). apply small_int64. nia. }
  assert (next sizes (max - used0) h = if used0 + total h + st_bytes s <=? max then Some (st_bytes s) else None) as Hnext.
  { rewrite (next_at _ _ h (st_bytes s) (repeat (st_bytes s) more ++ rest) Hs), Hq, andb_true_r.
    destruct (Z.leb_spec (total h + st_bytes s) (max - used0)), (Z.leb_spec (used0 + total h + st_bytes s) max); [done|lia..|done]. }
  cbn [rung]. rewrite Hbu. unfold allows. cbn [b_used b_max]. rewrite Hi in *.
  destruct (used0 + total h + st_bytes s <=? max) eqn:Ha; cbn [negb].
  2:{ exists []. rewrite app_nil_r. split; [exact (sends_nil w)|]. split_and!; try done. by apply Forall_map. }
  destruct (transfer _ _ _ _ _ _ _ _ w) as [r w1] eqn:Hr.
  change (transfer _ _ _ _ _ _ _ _) with (perform (AskTransfer upload (st_bytes s))) in Hr.
  assert (forall r', follows sizes (max - used0) (h ++ [(st_bytes s, r')])) as Hf' by (intros; by apply follows_snoc).
  assert (moved (h ++ [(st_bytes s, r)]) = total h + if is_ok r then st_bytes s else 0) as Hm.
  { rewrite moved_app, (moved_all _ _ Hg). destruct r; unfold moved, total; cbn; lia. }
  destruct r as [t|e].
  2:{ exists [(st_bytes s, Err e)]. split; [by apply sends_one|]. split; [apply Hf'|].
      edestruct (after_bad upload n max used0 h st st (st_bytes s) (Err e) e Hg) as [Ha1 Ha2];
        [done..| |split; [exact Ha1|split; [exact Ha2|done]]].
      rewrite Hbu, Hm, (moved_all _ _ Hg). cbn. by rewrite Z.add_0_r. }
  unfold add. cbn [b_used b_max]. rewrite Hi.
  destruct (status_error (phase_of upload) t) as [e|] eqn:He.
  { exists [(st_bytes s, Ok t)]. split; [by apply sends_one|].
    match goal with |- _ /\ ramp_after _ _ _ _ _ ?ST /\ _ =>
      destruct (after_bad upload n max used0 h st ST (st_bytes s) (Ok t) e Hg) as [Ha1 Ha2] end; [done..| |split_and!; try done; apply Hf'].
    rewrite Hm. cbn. f_equal. lia. }
  destruct (after_good upload n max used0 h st (st_bytes s) t Hg) as [Hg2 Ha2]; [done..|unfold accepted, failure; by rewrite He|].
  rewrite total_snoc, Z.add_assoc in Ha2.
  assert (sizes = map fst (h ++ [(st_bytes s, Ok t)]) ++ repeat (st_bytes s) more ++ rest) as Hs' by (rewrite map_app, <- app_assoc; exact Hs).
  assert (forall p, forallb p (h ++ [(st_bytes s, Ok t)]) = forallb p h && p (st_bytes s, Ok t)) as Hall.
  { intros p. rewrite forallb_app. cbn. by rewrite andb_true_r. }
  match type of Ha2 with
  | ramp_after _ _ _ _ _ ?ST => pose proof (IH (h ++ [(st_bytes s, Ok t)]) (stop || (finishRequestDuration <=? tm_total t)) ST w1 sizes rest Hg2 (Hf' _) Hs') as IH'
  end.
  rewrite !Hall, Hq, total_snoc in IH'. cbn [fst snd quick_enough ra_done] in IH'. rewrite Z.eqb_refl in IH'.
  specialize (IH' eq_refl). rewrite Hstop, Z.leb_antisym, negb_andb in IH' at 1. specialize (IH' eq_refl Ha2).
  pose proof (IH' ltac:(rewrite len_app, Hd; done) Hn Hu ltac:(lia) ltac:(lia)) as Hr'. clear IH'.
  destruct (rung _ _ _ _ _ _ _ _ _ _ _ _ _ w1) as [[st' e] w'] eqn:Hrun. destruct Hr' as (l & Hl & Hfl & Hal & He').
  exists ((st_bytes s, Ok t) :: l). rewrite <- app_assoc in Hfl, Hal, He'. cbn [app] in *.
  split; [exact (sends_app _ [_] _ _ _ (sends_one _ _ _ _ Hr) Hl)|]. split_and!; [done..|].
  destruct e as [stop'|err]; [|exact He']. destruct He' as (H1 & H2 & H3 & H4). split_and!; [|cbn; by rewrite H2|done..].
  constructor; [unfold accepted, failure; cbn; by rewrite He|done].
Qed.

(** *** Plans *)

Lemma next_end sizes cap h : sizes = map fst h -> next sizes cap h = None.
Proof. intros ->. unfold next. by rewrite drop_ge by (rewrite length_map; lia). Qed.

Lemma plan_cons quick quickMax s l : quick && (quickMax <? st_bytes s) = false ->
  plan quick quickMax (s :: l) = repeat (st_bytes s) (st_count s) ++ plan quick quickMax l.
Proof.
  intros H. unfold plan. cbn [List.filter].
  assert (negb quick || (st_bytes s <=? quickMax) = true) as -> by (rewrite Z.ltb_antisym in H; destruct quick, (st_bytes s <=? quickMax); done).
  done.
Qed.

Lemma plan_stops quickMax s l : StronglySorted (fun a b => st_bytes a < st_bytes b) (s :: l) -> quickMax < st_bytes s -> plan true quickMax (s :: l) = [].
Proof.
  intros Hs Hq. assert (Forall (fun x => quickMax < st_bytes x) (s :: l)) as HF.
  { inversion_clear Hs as [|? ? _ H]. constructor; [done|]. eapply Forall_impl; [exact H|]. cbn. lia. }
  unfold plan. clear Hs Hq. induction HF as [|x l' Hx _ IH]; [done|]. cbn. by destruct (Z.leb_spec (st_bytes x) quickMax); [lia|].
Qed.

Lemma plan_from quick quickMax l n : In n (plan quick quickMax l) -> exists s, In s l /\ n = st_bytes s.
Proof. intros (s & Hs & Hn)%in_flat_map. apply filter_In in Hs as [Hs _]. apply repeat_spec in Hn. eauto. Qed.

Lemma sum_repeat n k l : fold_right Z.add 0 (repeat n k ++ l) = Z.of_nat k * n + fold_right Z.add 0 l.
Proof. induction k as [|k IH]; cbn [repeat app fold_right]; [done|]. rewrite IH. lia. Qed.

Lemma total_sizes l : total l = fold_right Z.add 0 (map fst l).
Proof. unfold total. by induction l as [|x l IH]; cbn; [|rewrite IH]. Qed.

(** A slow transfer ends the ramp after its rung. *)
Lemma next_slow sizes cap h s rest : sizes = map fst h ++ rest -> Forall (fun n => n <> st_bytes s) rest ->
  forallb (fun x => negb (x.1 =? st_bytes s) || quick_enough x.2) h = false -> next sizes cap h = None.
Proof.
  intros Hs Hr Hslow. destruct rest as [|n rest]; [apply next_end; by rewrite app_nil_r in Hs|].
  rewrite (next_at _ _ _ _ _ Hs). inversion_clear Hr as [|? ? Hn _].
  assert (forallb (fun x => (x.1 =? n) || quick_enough x.2) h = false) as ->; [|by rewrite andb_false_r].
  apply not_true_iff_false in Hslow. apply not_true_iff_false. intros H. apply Hslow. apply forallb_forall. intros x Hx.
  rewrite forallb_forall in H. specialize (H x Hx). destruct (Z.eqb_spec x.1 n), (Z.eqb_spec x.1 (st_bytes s)); cbn in *; congruence.
Qed.

(** A whole ramp; [n] is the number its percentages count to. *)
Lemma rungs_sends upload n max used0 quick quickMax l :
  forall h st w sizes, all_good upload h -> follows sizes (max - used0) h -> sizes = map fst h ++ plan quick quickMax l ->
    StronglySorted (fun a b => st_bytes a < st_bytes b) l ->
    Forall (fun s => Forall (fun x => x.1 <> st_bytes s) h /\ 0 <= st_bytes s) l -> forallb (fun x => quick_enough x.2) h = true ->
    ramp_after upload n max used0 h st -> ra_done st = len h -> 0 <= used0 -> 0 <= total h ->
    used0 + total h + fold_right Z.add 0 (plan false 0 l) < 2 ^ 62 ->
    let '((st', err), w') := rungs ParseFloat outside net DefaultClient Version c upload (phase_of upload) n quick quickMax l st w in
    exists l', sends w (transfers upload l') w' /\ follows sizes (max - used0) (h ++ l') /\ ramp_after upload n max used0 (h ++ l') st' /\
      ends (phase_of upload) (map snd (h ++ l')) err /\ (err = None -> next sizes (max - used0) (h ++ l') = None).
Proof.
  induction l as [|s l IH]; intros h st w sizes Hg Hf Hs Hsort Hsz Hq Ha Hd Hu Ht Hbig.
  { cbn. exists []. rewrite app_nil_r in *. split; [exact (sends_nil w)|]. split_and!; [done..|by apply Forall_map|]. intros _. by apply next_end. }
  cbn [rungs]. destruct (quick && (quickMax <? st_bytes s)) eqn:Hquick.
  { apply andb_true_iff in Hquick as [-> Hlt%Z.ltb_lt]. rewrite plan_stops, app_nil_r in Hs by done.
    exists []. rewrite app_nil_r. split; [exact (sends_nil w)|]. split_and!; [done..|by apply Forall_map|]. intros _. by apply next_end. }
  rewrite plan_cons in Hs by done. rewrite plan_cons, sum_repeat in Hbig by done. inversion_clear Hsz as [|? ? [Hne Hb] Hsz'].
  inversion_clear Hsort as [|? ? Hsort' Hlt]. rewrite List.Forall_forall in Hlt. pose proof Hq as Hq'. rewrite forallb_forall in Hq'.
  assert (0 <= fold_right Z.add 0 (plan false 0 l)) as Hpos.
  { assert (Forall (fun z => 0 <= z) (plan false 0 l)) as HF.
    { apply List.Forall_forall. intros z (s' & Hs' & ->)%plan_from. rewrite List.Forall_forall in Hsz'. by destruct (Hsz' _ Hs'). }
    clear -HF. induction HF; cbn; lia. }
  pose proof (rung_sends upload n max used0 s (st_count s) h false st w sizes (plan quick quickMax l) Hg Hf Hs) as Hrung.
  destruct (rung _ _ _ _ _ _ _ _ _ _ _ _ _ w) as [[st1 e] w1].
  destruct Hrung as (l1 & Hl1 & Hf1 & Ha1 & He1); try done; [|symmetry; apply negb_false_iff|lia|].
  { apply forallb_forall. intros y Hy. rewrite (Hq' y Hy). apply orb_true_r. }
  { apply forallb_forall. intros y Hy. rewrite (Hq' y Hy). apply orb_true_r. }
  destruct e as [stop|err]; [|by exists l1]. destruct He1 as (Hg1 & Hm1 & Hd1 & Hstop).
  assert (sizes = map fst (h ++ l1) ++ plan quick quickMax l) as Hs1 by (rewrite map_app, Hm1, <- app_assoc; exact Hs).
  assert (all_good upload (h ++ l1)) as Hgood by by apply Forall_app.
  destruct stop.
  { exists l1. split_and!; [done..|by apply Forall_map|]. intros _. apply (next_slow _ _ _ s _ Hs1); [|by apply negb_true_iff].
    apply List.Forall_forall. intros z (s' & Hs' & ->)%plan_from. specialize (Hlt _ Hs'). lia. }
  symmetry in Hstop. apply negb_false_iff in Hstop. rewrite forallb_forall in Hstop.
  assert (forall x, In x (h ++ l1) -> quick_enough x.2 = true) as Hq1.
  { intros y Hy. pose proof (Hstop y Hy) as Hc. apply in_app_or in Hy as [Hy|Hy]; [by apply Hq'|].
    assert (y.1 = st_bytes s) as He by (apply (repeat_spec (st_count s)); rewrite <- Hm1; by apply in_map).
    by rewrite He, Z.eqb_refl in Hc. }
  assert (total (h ++ l1) = total h + Z.of_nat (st_count s) * st_bytes s) as Ht1.
  { rewrite total_app, (total_sizes l1), Hm1, <- (app_nil_r (repeat _ _)), sum_repeat. cbn. lia. }
  pose proof (IH (h ++ l1) st1 w1 sizes Hgood Hf1 Hs1 Hsort') as IH'. rewrite Ht1 in IH'.
  destruct (rungs _ _ _ _ _ _ _ _ _ _ _ _ _ w1) as [[st2 err] w2].
  destruct IH' as (l2 & Hl2 & Hrest); try done; [|by apply forallb_forall|nia|lia|].
  { apply List.Forall_forall. intros s' Hs'. rewrite List.Forall_forall in Hsz'. destruct (Hsz' _ Hs') as [H1 H2]. split; [|done].
    apply Forall_app. split; [done|]. apply List.Forall_forall. intros y Hy.
    assert (y.1 = st_bytes s) as He by (apply (repeat_spec (st_count s)); rewrite <- Hm1; by apply in_map). specialize (Hlt _ Hs'). lia. }
  exists (l1 ++ l2). rewrite app_assoc. split; [|exact Hrest]. unfold transfers. rewrite map_app. by apply (sends_app _ _ _ _ _ Hl1).
Qed.

(** ** The phases of a run *)

Lemma ramp_sends upload l quick quickMax max used0 w :
  StronglySorted (fun a b => st_bytes a < st_bytes b) l -> Forall (fun s => 0 <= st_bytes s) l ->
  0 <= used0 -> used0 + fold_right Z.add 0 (plan false 0 l) < 2 ^ 62 ->
  let '((st, err), w') := ramp ParseFloat outside net DefaultClient Version c (phase_of upload) l quick quickMax (mkBudget max used0) w in
  exists l', sends w (transfers upload l') w' /\ follows (plan quick quickMax l) (max - used0) l' /\
    ramp_after upload (ramp_total quick quickMax l) max used0 l' st /\ ends (phase_of upload) (map snd l') err /\
    (err = None -> next (plan quick quickMax l) (max - used0) l' = None).
Proof.
  intros Hs Hp Hu Hbig. unfold ramp. replace (phase_of upload =?s "upload") with upload by by destruct upload.
  pose proof (rungs_sends upload (ramp_total quick quickMax l) max used0 quick quickMax l [] (mkRampState f_zero (mkBudget max used0) 0 []) w
    (plan quick quickMax l)) as H.
  destruct (rungs _ _ _ _ _ _ _ _ _ _ _ _ _ w) as [[st err] w']. apply H; try done.
  - constructor.
  - apply follows_nil.
  - eapply Forall_impl; [exact Hp|]. cbn. intros s Hs'. by split.
  - unfold ramp_after, moved. cbn. by rewrite Z.add_0_r.
  - cbn. lia.
Qed.

Definition ms_of_outcome (r : outcome) : float64 := match r with Ok t => latency_ms t | Err _ => f_zero end.
Definition colo_after (colo : string) (r : outcome) : string :=
  match r with Ok t => if tm_colo t =?s "" then colo else tm_colo t | Err _ => colo end.

Definition latencies (l : list outcome) : list (ask * outcome) := map (pair AskLatency) l.
Definition of_latency (p : SpeedProgress) : Prop := sp_Phase p = "latency" /\ sp_Bytes p = 0.

(** The requests that count, and the progress reported of [k] of [n] from [i] on. *)
Definition answered (l : list outcome) : nat := length (List.filter (accepted "latency") l).
Definition latency_progress (n i : Z) (k : nat) : list SpeedProgress :=
  map (fun j => mkSpeedProgress "latency" f_zero (percent (i + Z.of_nat j) n) 0) (seq 1 k).

Lemma latency_progress_cons n i k : mkSpeedProgress "latency" f_zero (percent (i + 1) n) 0 :: latency_progress n (i + 1) k = latency_progress n i (S k).
Proof.
  unfold latency_progress. cbn [seq map]. f_equal. rewrite <- (seq_shift k 1), map_map. apply map_ext. intros j. do 2 f_equal. lia.
Qed.

Lemma latency_progress_of n i k : Forall of_latency (latency_progress n i k).
Proof. apply List.Forall_forall. by intros p (j & <- & _)%in_map_iff. Qed.

Lemma answered_cons t l : status_error "latency" t = None -> answered (Ok t :: l) = S (answered l).
Proof. intros H. unfold answered. cbn [List.filter]. unfold accepted at 1, failure. by rewrite H. Qed.

Lemma answered_failed r e : failure "latency" r = Some e -> answered [r] = 0%nat.
Proof. intros H. unfold answered, accepted. cbn [List.filter]. by rewrite H. Qed.

Lemma latency_loop_sends n more : forall i samples colo out w,
  let '((out', r), w') := latency_loop ParseFloat outside net DefaultClient Version c n more i samples colo out w in
  exists l, sends w (latencies l) w' /\ (length l <= more)%nat /\ out' = out ++ latency_progress n i (answered l) /\
    match r with
    | Err e => ends "latency" l (Some e)
    | Ok (lat, jit, colo') =>
        length l = more /\ ends "latency" l None /\ colo' = fold_left colo_after l colo /\
        lat = speed_median (samples ++ map ms_of_outcome l) /\ jit = jitter (samples ++ map ms_of_outcome l)
    end.
Proof.
  induction more as [|more IH]; intros i samples colo out w; cbn [latency_loop].
  { exists []. rewrite !app_nil_r. split; [exact (sends_nil w)|]. split_and!; done || constructor. }
  change (do_ _ _ _ _ _ _ _ _ _) with (perform AskLatency). destruct (perform AskLatency w) as [r w1] eqn:Hr.
  assert (forall e, failure "latency" r = Some e -> exists l, sends w (latencies l) w1 /\ (length l <= S more)%nat /\
    out = out ++ latency_progress n i (answered l) /\ ends "latency" l (Some e)) as Hbad.
  { intros e He. exists [r]. rewrite (answered_failed _ _ He), app_nil_r. split; [by apply sends_one|]. split_and!; [cbn; lia|done|by exists [], r]. }
  destruct r as [t|e]; [|by apply Hbad]. destruct (status_error "latency" t) as [e|] eqn:He; [by apply Hbad|].
  specialize (IH (i + 1) (samples ++ [latency_ms t]) (if tm_colo t =?s "" then colo else tm_colo t)
    (out ++ [mkSpeedProgress "latency" f_zero (percent (i + 1) n) 0]) w1).
  destruct (latency_loop _ _ _ _ _ _ _ _ _ _ _ _ w1) as [[out' r] w']. destruct IH as (l & Hl & Hn & Ho & Hres).
  exists (Ok t :: l).
  split; [exact (sends_app _ [_] _ _ _ (sends_one _ _ _ _ Hr) Hl)|]. cbn [length]. rewrite Ho, <- !app_assoc, (answered_cons _ _ He), <- latency_progress_cons.
  assert (accepted "latency" (Ok t) = true) as Hacc by (unfold accepted, failure; by rewrite He).
  split_and!; [lia|done|]. destruct r as [[[lat jit] colo']|e].
  - destruct Hres as (<- & H1 & H2 & H3 & H4). rewrite <- !app_assoc in H3, H4. split_and!; [done|by constructor|done..].
  - destruct Hres as (l0 & r & -> & H1 & H2). exists (Ok t :: l0), r. split_and!; [done|by constructor|done].
Qed.

Lemma latency_sends w :
  let '((out, r), w') := latency ParseFloat outside net DefaultClient Version c w in
  let n := S (Z.to_nat (latencyCount c)) in
  exists l, sends w (latencies l) w' /\ (length l <= n)%nat /\ out = latency_progress (latencyCount c) 0 (pred (answered l)) /\
    match r with
    | Err e => ends "latency" l (Some e)
    | Ok (lat, jit, colo') =>
        length l = n /\ ends "latency" l None /\ colo' = fold_left colo_after (tl l) "" /\
        lat = speed_median (map ms_of_outcome (tl l)) /\ jit = jitter (map ms_of_outcome (tl l))
    end.
Proof.
  unfold latency. change (do_ _ _ _ _ _ _ _ _ _) with (perform AskLatency). destruct (perform AskLatency w) as [r w1] eqn:Hr.
  assert (forall e, failure "latency" r = Some e -> exists l, sends w (latencies l) w1 /\ (length l <= S (Z.to_nat (latencyCount c)))%nat /\
    [] = latency_progress (latencyCount c) 0 (pred (answered l)) /\ ends "latency" l (Some e)) as Hbad.
  { intros e He. exists [r]. rewrite (answered_failed _ _ He). split; [by apply sends_one|]. split_and!; [cbn; lia|done|by exists [], r]. }
  destruct r as [t|e]; [|by apply Hbad]. destruct (status_error "latency" t) as [e|] eqn:He; [by apply Hbad|].
  pose proof (latency_loop_sends (latencyCount c) (Z.to_nat (latencyCount c)) 0 [] "" [] w1) as H.
  destruct (latency_loop _ _ _ _ _ _ _ _ _ _ _ _ w1) as [[out' r] w']. destruct H as (l & Hl & Hn & -> & Hres).
  assert (accepted "latency" (Ok t) = true) as Hacc by (unfold accepted, failure; by rewrite He).
  exists (Ok t :: l). split; [exact (sends_app _ [_] _ _ _ (sends_one _ _ _ _ Hr) Hl)|]. cbn [length tl]. rewrite (answered_cons _ _ He).
  split_and!; [lia|done|].
  destruct r as [[[lat jit] colo']|e].
  - destruct Hres as (<- & H1 & H2 & H3 & H4). split_and!; [done|by constructor|done..].
  - destruct Hres as (l0 & r & -> & H1 & H2). exists (Ok t :: l0), r. split_and!; [done|by constructor|done].
Qed.
End Runs.

(** ** Bounds *)

Lemma next_bound sizes cap l n : next sizes cap l = Some n -> In n sizes /\ total l + n <= cap.
Proof.
  unfold next. destruct (drop (length l) sizes) as [|m r] eqn:Hd; [done|]. destruct (_ && _) eqn:Hb; [|done]. intros [= ->].
  apply andb_true_iff in Hb as [Hb%Z.leb_le _]. split; [|done]. rewrite <- (take_drop (length l) sizes), Hd. apply in_or_app. right. by left.
Qed.

Lemma follows_sizes sizes cap l : follows sizes cap l -> Forall (fun n => 0 <= n) sizes -> Forall (fun x => 0 <= x.1) l.
Proof.
  intros Hf Hs. apply List.Forall_forall. intros [n r] (l1 & l2 & ->)%in_split. destruct (next_bound _ _ _ _ (Hf _ _ _ _ eq_refl)) as [Hn _].
  rewrite List.Forall_forall in Hs. by apply Hs.
Qed.

Lemma follows_total sizes cap l : follows sizes cap l -> 0 <= cap -> total l <= cap.
Proof.
  intros Hf Hc. destruct l as [|[n r] l _] using rev_ind; [done|]. rewrite total_snoc.
  by destruct (next_bound _ _ _ _ (Hf l n r [] eq_refl)).
Qed.

Lemma follows_prefix sizes cap l : follows sizes cap l -> exists rest, sizes = map fst l ++ rest.
Proof.
  induction l as [|[n r] l IH] using rev_ind; intros Hf; [by exists sizes|].
  destruct IH as [rest ->]. { intros l1 m q l2 ->. apply (Hf l1 m q (l2 ++ [(n, r)])). by rewrite <- app_assoc. }
  pose proof (Hf l n r [] eq_refl) as Hn. unfold next in Hn. replace (length l) with (length (map fst l)) in Hn by apply length_map.
  rewrite drop_app_length in Hn. destruct rest as [|m rest]; [done|]. case_match; [|done]. injection Hn as ->.
  exists rest. by rewrite map_app, <- app_assoc.
Qed.

Lemma sum_app l1 l2 : fold_right Z.add 0 (l1 ++ l2) = fold_right Z.add 0 l1 + fold_right Z.add 0 l2.
Proof. induction l1 as [|x l1 IH]; cbn; [done|]. rewrite IH. lia. Qed.

Lemma sum_nonneg l : Forall (fun z => 0 <= z) l -> 0 <= fold_right Z.add 0 l.
Proof. induction 1; cbn; lia. Qed.

Lemma total_nonneg l : Forall (fun x => 0 <= x.1) l -> 0 <= total l.
Proof. unfold total. induction 1; cbn; lia. Qed.

Lemma filter_bound p l : Forall (fun x => 0 <= x.1) l -> Forall (fun x => 0 <= x.1) (List.filter p l) /\ total (List.filter p l) <= total l.
Proof.
  unfold total. induction 1 as [|x l Hx _ [IH1 IH2]]; [done|]. cbn [List.filter fold_right]. destruct (p x); cbn [fold_right]; split; try lia; [by constructor|done].
Qed.

Lemma moved_bound l : Forall (fun x => 0 <= x.1) l -> 0 <= moved l <= total l.
Proof. intros H. unfold moved. destruct (filter_bound (fun x => is_ok x.2) l H) as [H1 H2]. by pose proof (total_nonneg _ H1). Qed.

Lemma take_bound k l : Forall (fun x => 0 <= x.1) l -> 0 <= total (take k l) <= total l.
Proof.
  intros H. pose proof (total_nonneg (take k l) ltac:(by apply Forall_take)). pose proof (total_nonneg (drop k l) ltac:(by apply Forall_drop)).
  rewrite <- (take_drop k l) at 3. rewrite total_app. lia.
Qed.

Lemma better_not_negative upload n t b : not_negative b = true -> not_negative (better upload n t b) = true.
Proof.
  intros Hb. unfold better. cbv zeta. case_match; [|done]. destruct (b <? speed_of n (transfer_time upload t))%float eqn:Hlt; [|done].
  revert Hlt. generalize (speed_of n (transfer_time upload t)). intros m. by destruct b as [[]|[]| |[] ? ?], m as [[]|[]| |[] ? ?].
Qed.

Lemma best_not_negative upload l : not_negative (best upload l) = true.
Proof.
  induction l as [|[n [t|e]] l IH] using rev_ind; [done| |]; [rewrite best_snoc; by apply better_not_negative|].
  unfold best in *. by rewrite fold_left_app.
Qed.

(** The progress of a phase whose requests were up to [cap] in all. *)
Definition of_phase (phase : string) (cap : Z) (p : SpeedProgress) : Prop := sp_Phase p = phase /\ 0 <= sp_Bytes p <= cap.

Lemma progress_phase upload n used0 cap l : Forall (fun x => 0 <= x.1) l -> 0 <= used0 -> used0 + total l <= cap ->
  Forall (of_phase (phase_of upload) cap) (ramp_progress upload n used0 (good upload l)).
Proof.
  intros Hl Hu Hc. destruct (filter_bound (fun x => accepted (phase_of upload) x.2) l Hl) as [Hg Ht].
  apply List.Forall_forall. intros p (k & <- & _)%in_map_iff. pose proof (take_bound k _ Hg). unfold of_phase. cbn. fold (good upload l) in *. split; [done|lia].
Qed.

Lemma phases_of phase cap l : Forall (of_phase phase cap) l -> map sp_Phase l = repeat phase (length l) /\ Forall (fun p => 0 <= sp_Bytes p <= cap) l.
Proof. induction 1 as [|p l [H1 H2] _ [IH1 IH2]]; [done|]. cbn. rewrite H1, IH1. split; [done|by constructor]. Qed.

(** ** A run *)

(** The phases in the order of their progress, and done at the end of a run without an error. *)
Definition progress_ok (cap : Z) (out : list SpeedProgress) (err : option error) : Prop :=
  Forall (fun p => 0 <= sp_Bytes p <= cap) out /\
  exists k1 k2 k3, map sp_Phase out = repeat "latency" k1 ++ repeat "download" k2 ++ repeat "upload" k3 ++
    match err with None => ["done"] | Some _ => [] end.

Lemma progress_parts cap l1 l2 l3 l4 err : Forall (of_phase "latency" cap) l1 -> Forall (of_phase "download" cap) l2 ->
  Forall (of_phase "upload" cap) l3 -> Forall (of_phase "done" cap) l4 -> length l4 = match err with Some _ => 0%nat | None => 1%nat end ->
  progress_ok cap (l1 ++ l2 ++ l3 ++ l4) err.
Proof.
  intros [H1 B1]%phases_of [H2 B2]%phases_of [H3 B3]%phases_of [H4 B4]%phases_of Hn. split.
  - by repeat apply Forall_app_2.
  - exists (length l1), (length l2), (length l3). rewrite !map_app, H1, H2, H3, H4, Hn. by destruct err.
Qed.

(** What is reported of each phase: its beginning, each request that counts, with
    the best speed so far, the part of the requests planned and the bytes so
    far, and at the beginning of the next phase its end. *)
Definition latency_report {C} (c : Cloudflare C) (lat : list outcome) : list SpeedProgress :=
  begin_phase "latency" :: latency_progress (latencyCount c) 0 (pred (answered lat)).
Definition download_report (quick : bool) (down : list (Z * outcome)) : list SpeedProgress :=
  [end_phase "latency" f_zero 0; begin_phase "download"] ++
  ramp_progress false (ramp_total quick quickDownMax downloadRamp) 0 (good false down).
Definition upload_report (quick : bool) (down up : list (Z * outcome)) : list SpeedProgress :=
  [end_phase "download" (best false (good false down)) (total down); begin_phase "upload"] ++
  ramp_progress true (ramp_total quick quickUpMax uploadRamp) (total down) (good true up).
Definition done_report (down up : list (Z * outcome)) : list SpeedProgress :=
  [end_phase "upload" (best true (good true up)) (total (down ++ up)); end_phase "done" f_zero (total (down ++ up))].

(** What one run came to: its requests, and what of them is in the progress and
    the result. *)
Record run_ok {C} (c : Cloudflare C) (opts : SpeedOptions) (lat : list outcome) (down up : list (Z * outcome)) (out : list SpeedProgress)
    (res : SpeedResult) (err : option error) : Prop := {
  run_latency : (length lat <= S (Z.to_nat (latencyCount c)))%nat;
  run_down : follows (plan (so_Quick opts) quickDownMax downloadRamp) (maxBytesFor opts) down;
  run_up : follows (plan (so_Quick opts) quickUpMax uploadRamp) (maxBytesFor opts - moved down) up;
  run_cap : total (down ++ up) <= maxBytesFor opts;
  run_end :
    let n := S (Z.to_nat (latencyCount c)) in
    match err with
    | None => length lat = n /\ ends "latency" lat None /\ ends "download" (map snd down) None /\ ends "upload" (map snd up) None /\
        next (plan (so_Quick opts) quickDownMax downloadRamp) (maxBytesFor opts) down = None /\
        next (plan (so_Quick opts) quickUpMax uploadRamp) (maxBytesFor opts - moved down) up = None /\
        out = latency_report c lat ++ download_report (so_Quick opts) down ++ upload_report (so_Quick opts) down up ++ done_report down up
    | Some e =>
        (ends "latency" lat (Some e) /\ down = [] /\ up = [] /\ out = latency_report c lat) \/
        (length lat = n /\ ends "latency" lat None /\ ends "download" (map snd down) (Some e) /\ up = [] /\
         out = latency_report c lat ++ download_report (so_Quick opts) down) \/
        (length lat = n /\ ends "latency" lat None /\ ends "download" (map snd down) None /\
         next (plan (so_Quick opts) quickDownMax downloadRamp) (maxBytesFor opts) down = None /\ ends "upload" (map snd up) (Some e) /\
         out = latency_report c lat ++ download_report (so_Quick opts) down ++ upload_report (so_Quick opts) down up)
    end;
  run_moved : sr_BytesMoved res = moved (down ++ up);
  run_speeds : sr_DownloadMbps res = best false (good false down) /\ sr_UploadMbps res = best true (good true up);
  run_lat : down <> [] \/ err = None -> sr_LatencyMs res = speed_median (map ms_of_outcome (tl lat)) /\
    sr_JitterMs res = jitter (map ms_of_outcome (tl lat)) /\ sr_Server res = fold_left colo_after (tl lat) ""
}.

Lemma plans_sorted : StronglySorted (fun a b => st_bytes a < st_bytes b) downloadRamp /\ StronglySorted (fun a b => st_bytes a < st_bytes b) uploadRamp.
Proof. split; repeat (constructor || done). Qed.

Lemma plans_positive quick quickMax l : Forall (fun s => 0 <= st_bytes s) l -> Forall (fun n => 0 <= n) (plan quick quickMax l).
Proof. intros H. apply List.Forall_forall. intros n (s & Hs & ->)%plan_from. rewrite List.Forall_forall in H. by apply H. Qed.

Lemma ramps_positive : Forall (fun s => 0 <= st_bytes s) downloadRamp /\ Forall (fun s => 0 <= st_bytes s) uploadRamp.
Proof. split; repeat (constructor || done). Qed.

Lemma cap_positive opts : 0 < maxBytesFor opts.
Proof. unfold maxBytesFor. destruct (Z.ltb_spec 0 (so_MaxBytes opts)); [done|]. by destruct (so_Quick opts). Qed.

Section Run.
Context (ParseFloat : string -> option float64) (outside : float64 -> Z) {C W : Type} (net : SpeedNet C W) (DefaultClient : C) (Version : string).

Lemma latency_phase cap out : 0 <= cap -> Forall of_latency out -> Forall (of_phase "latency" cap) (begin_phase "latency" :: out).
Proof. intros Hc H. constructor; [split; [done|cbn; lia]|]. eapply Forall_impl; [exact H|]. intros p [H1 H2]. unfold of_phase. rewrite H2. split; [done|lia]. Qed.

Lemma split_phases (x y : list SpeedProgress) a b : x ++ [a; b] ++ y = (x ++ [a]) ++ b :: y.
Proof. by rewrite <- app_assoc. Qed.

Lemma split_upload (x y z t : list SpeedProgress) a b c d :
  (x ++ [a; b] ++ y) ++ [c; d] ++ z ++ t = (x ++ [a]) ++ ((b :: y) ++ [c]) ++ (d :: z) ++ t.
Proof. by rewrite <- !app_assoc. Qed.

Lemma split_done (x y z : list SpeedProgress) a b c d e f :
  ((x ++ [a; b] ++ y) ++ [c; d] ++ z) ++ [e; f] = (x ++ [a]) ++ ((b :: y) ++ [c]) ++ ((d :: z) ++ [e]) ++ [f].
Proof. by rewrite <- !app_assoc. Qed.

Lemma begin_of phase cap : 0 <= cap -> of_phase phase cap (begin_phase phase).
Proof. intros H. split; [done|cbn; lia]. Qed.

Lemma end_of phase cap mbps n : 0 <= n <= cap -> of_phase phase cap (end_phase phase mbps n).
Proof. by split. Qed.

Lemma run_outcome c opts w :
  let '((out, (res, err)), w') := cf_Run ParseFloat outside net DefaultClient Version c opts w in
  exists lat down up w1,
    sends ParseFloat outside net DefaultClient Version c (sn_Now net w).2 (latencies lat ++ transfers false down ++ transfers true up) w1 /\
    w' = (sn_Now net w1).2 /\ run_ok c opts lat down up out res err /\ progress_ok (maxBytesFor opts) out err.
Proof.
  destruct plans_sorted as [Hsd Hsu], ramps_positive as [Hpd Hpu]. pose proof (cap_positive opts) as Hcap.
  unfold cf_Run. destruct (sn_Now net w) as [start w0]. cbn [snd].
  pose proof (latency_sends ParseFloat outside net DefaultClient Version c w0) as Hlat.
  destruct (latency _ _ _ _ _ _ w0) as [[out1 r] w1]. destruct Hlat as (lat & Hl & Hn & Ho1 & Hr).
  assert (begin_phase "latency" :: out1 = latency_report c lat) as Hrep1 by (by rewrite Ho1).
  assert (Forall of_latency out1) as Hof1 by (rewrite Ho1; apply latency_progress_of).
  destruct r as [[[lt jt] colo]|e].
  2:{ destruct (sn_Now net w1) as [now w'] eqn:Hw. exists lat, [], [], w1. rewrite app_nil_r, Hw. split_and!; [done..| |].
      - split; try done; [apply follows_nil|apply follows_nil|cbn; lia|left; by rewrite Hrep1|by intros [|]].
      - rewrite <- (app_nil_r (_ :: out1)). apply (progress_parts _ _ [] [] []); try done; [|constructor..]. apply latency_phase; [lia|exact Hof1]. }
  pose proof (ramp_sends ParseFloat outside net DefaultClient Version c false downloadRamp (so_Quick opts) quickDownMax (maxBytesFor opts) 0 w1 Hsd Hpd
    ltac:(lia) ltac:(by vm_compute)) as Hdown.
  change (phase_of false) with "download" in Hdown.
  destruct (ramp _ _ _ _ _ _ _ _ _ _ _ w1) as [[st1 err1] w2]. destruct Hdown as (down & Hd & Hfd & (Hbd & Hbud & Hod) & Hed & Hnd).
  rewrite Z.sub_0_r in Hfd, Hnd. destruct Hr as (Hn1 & Hl0 & Hcolo & Hlt & Hjt).
  pose proof (follows_sizes _ _ _ Hfd (plans_positive _ _ _ Hpd)) as Hszd. pose proof (follows_total _ _ _ Hfd ltac:(lia)) as Htd.
  pose proof (moved_bound _ Hszd) as Hmd.
  assert (Forall (of_phase "latency" (maxBytesFor opts)) ((begin_phase "latency" :: out1) ++ [end_phase "latency" f_zero 0])) as P1.
  { apply Forall_app. split; [apply latency_phase; [lia|exact Hof1]|]. repeat constructor; cbn; lia. }
  assert (Forall (of_phase "download" (maxBytesFor opts)) (begin_phase "download" :: ra_out st1)) as P2.
  { rewrite Hod. constructor; [apply begin_of; lia|]. apply (progress_phase false); [done|lia..]. }
  destruct err1 as [e|].
  { destruct (sn_Now net w2) as [now w'] eqn:Hw. exists lat, down, [], w2. rewrite Hw, app_nil_r. split_and!; [by apply (sends_app _ _ _ _ _ _ _ _ _ _ _ Hl)|done| |].
    - split; cbn [sr_BytesMoved sr_DownloadMbps sr_UploadMbps sr_LatencyMs sr_JitterMs sr_Server]; try done.
      all: rewrite ?app_nil_r, ?Hbud; try done.
      + apply follows_nil.
      + right. left. split_and!; try done. by rewrite <- Hrep1, Hod.
    - rewrite split_phases, <- (app_nil_r (_ :: ra_out st1)).
      by apply (progress_parts _ _ _ [] []). }
  specialize (Hnd eq_refl). assert (all_good false down) as Hgd by by apply Forall_map in Hed.
  rewrite Hbud, Z.add_0_l. rewrite (moved_all _ _ Hgd) in *.
  pose proof (ramp_sends ParseFloat outside net DefaultClient Version c true uploadRamp (so_Quick opts) quickUpMax (maxBytesFor opts) (total down) w2
    Hsu Hpu ltac:(lia)) as Hup.
  change (phase_of true) with "upload" in Hup.
  destruct (ramp _ _ _ _ _ _ _ _ _ _ _ w2) as [[st2 err2] w3]. destruct Hup as (up & Hu & Hfu & (Hbu & Hbuu & Hou) & Heu & Hnu).
  { destruct (follows_prefix _ _ _ Hfd) as [rest Hrest]. pose proof (plans_positive (so_Quick opts) quickDownMax _ Hpd) as Hpos.
    rewrite Hrest in Hpos. apply Forall_app in Hpos as [_ Hpos]. apply sum_nonneg in Hpos.
    pose proof (f_equal (fold_right Z.add 0) Hrest) as Hsum. rewrite sum_app, <- total_sizes in Hsum.
    assert (fold_right Z.add 0 (plan (so_Quick opts) quickDownMax downloadRamp) + fold_right Z.add 0 (plan false 0 uploadRamp) < 2 ^ 62) as Hsmall
      by by destruct (so_Quick opts); vm_compute. lia. }
  pose proof (follows_sizes _ _ _ Hfu (plans_positive _ _ _ Hpu)) as Hszu. pose proof (follows_total _ _ _ Hfu ltac:(lia)) as Htu.
  pose proof (moved_bound _ Hszu) as Hmu.
  assert (Forall (of_phase "download" (maxBytesFor opts)) ((begin_phase "download" :: ra_out st1) ++ [end_phase "download" (ra_best st1) (total down)])) as P2'.
  { apply Forall_app. split; [done|]. constructor; [apply end_of; lia|constructor]. }
  assert (Forall (of_phase "upload" (maxBytesFor opts)) (begin_phase "upload" :: ra_out st2)) as P3.
  { rewrite Hou. constructor; [apply begin_of; lia|]. apply (progress_phase true); [done|lia..]. }
  assert (total (down ++ up) <= maxBytesFor opts) as Htotal by (rewrite total_app; lia).
  assert (moved (down ++ up) = total down + moved up) as Hmoved by (rewrite moved_app; f_equal; by apply (moved_all false)).
  assert (sends ParseFloat outside net DefaultClient Version c w0 (latencies lat ++ transfers false down ++ transfers true up) w3) as Hsends.
  { apply (sends_app _ _ _ _ _ _ _ _ _ _ _ Hl). by apply (sends_app _ _ _ _ _ _ _ _ _ _ _ Hd). }
  destruct err2 as [e|].
  - destruct (sn_Now net w3) as [now w'] eqn:Hw. exists lat, down, up, w3. rewrite Hw. split_and!; [done..| |].
    + split; cbn [sr_BytesMoved sr_DownloadMbps sr_UploadMbps sr_LatencyMs sr_JitterMs sr_Server]; rewrite ?Hbuu, ?(moved_all _ _ Hgd); try done.
      right. right. split_and!; try done. by rewrite Hou, Hod, Hbd, <- Hrep1, <- !app_assoc.
    + rewrite <- (app_nil_r (ra_out st2)), split_upload. by apply progress_parts.
  - assert (all_good true up) as Hgu by by apply Forall_map in Heu.
    destruct (sn_Now net w3) as [now w'] eqn:Hw. exists lat, down, up, w3. rewrite Hw. split_and!; [done..| |].
    + split; cbn [sr_BytesMoved sr_DownloadMbps sr_UploadMbps sr_LatencyMs sr_JitterMs sr_Server]; rewrite ?Hbuu, ?(moved_all _ _ Hgd); try done.
      split_and!; try done; [by apply Hnu|]. rewrite (moved_all _ _ Hgu), <- total_app in *. by rewrite Hou, Hod, Hbd, Hbu, <- Hrep1, <- !app_assoc.
    + rewrite split_done, Hbuu. cbn [b_used]. apply progress_parts; try done.
      * apply Forall_app. split; [done|]. constructor; [apply end_of; lia|constructor].
      * constructor; [apply end_of; lia|constructor].
Qed.

(** C38: A Cloudflare test never asks for more than its cap, and each of its
    requests is decided by the answers before it: some latency requests, then
    the sizes of the download ramp and of the upload ramp, each next size only
    if it fits in what the cap leaves and no transfer of a smaller one took a
    second.  Nothing is sent after a request that failed or was refused, whose
    error is that of the run, a 429 as [ErrRateLimited]; without an error both
    ramps went as far as they may.  The result has the bytes that were answered, those of
    a refused transfer too, the best speeds of the accepted transfers, never
    negative, and the median and jitter of the latencies.  The progress is
    exactly what the accepted requests make it, report by report: the beginning
    of each phase reached, each latency answer kept, each accepted transfer with
    the best speed, the part of its phase's plan and the bytes up to it, the end
    of each phase passed, and done exactly when there is no error. *)
Theorem speed_run_bounded c opts w :
  let '((out, (res, err)), w') := cf_Run ParseFloat outside net DefaultClient Version c opts w in
  (exists lat down up w1,
    sends ParseFloat outside net DefaultClient Version c (sn_Now net w).2 (latencies lat ++ transfers false down ++ transfers true up) w1 /\
    w' = (sn_Now net w1).2 /\ run_ok c opts lat down up out res err /\ progress_ok (maxBytesFor opts) out err) /\
  not_negative (sr_DownloadMbps res) = true /\ not_negative (sr_UploadMbps res) = true /\
  (forall phase t, status_error phase t = None <-> 200 <= tm_status t < 300) /\
  (forall phase t, tm_status t = 429 -> exists e, status_error phase t = Some e /\ errors_Is (Some e) ErrRateLimited = true /\
     KindOf (Some e) = KindUnavailable /\ HintOf (Some e) <> "").
Proof.
  pose proof (run_outcome c opts w) as H. destruct (cf_Run _ _ _ _ _ _ _ _) as [[out [res err]] w'].
  destruct H as (lat & down & up & w1 & Hs & Hw & Hr & Hp). split; [by exists lat, down, up, w1|].
  destruct (run_speeds _ _ _ _ _ _ _ _ Hr) as [-> ->]. split; [apply best_not_negative|]. split; [apply best_not_negative|].
  split; intros phase t; unfold status_error.
  - destruct (Z.eqb_spec (tm_status t) 429), (Z.eqb_spec (Z.quot (tm_status t) 100) 2); cbn [negb]; split; try done; Z.to_euclidean_division_equations; lia.
  - intros ->. eexists. split; [done|]. split_and!; [done..|]. unfold RateLimitedError. cbn. by destruct (0 <? tm_retryAfter t).
Qed.
End Run.

(** A server that answers at once: a cap of 1 MiB leaves room for the small transfers only. *)
Definition tiny_speed_net (status : Z) : SpeedNet unit Z :=
  mkSpeedNet unit Z (fun _ _ => None) (fun w => (w, w + 20 * millisecond))
    (fun _ _ w => (Ok (mkHttpResponse None None status (fun k => if k =?s "Retry-After" then ["30"] else [])), w)) (fun w => ((0, None), w)).

Definition tiny_run (status : Z) := cf_Run (fun _ => None) (fun _ => 0) (tiny_speed_net status) tt "1.0" (mkCloudflare "http://fast/" None 2)
  (mkSpeedOptions "" "" false (Z.shiftl 1 20) "home") 0.

Example tiny_run_fits : sr_BytesMoved (tiny_run 200).1.2.1 = 8 * 102400 /\ (tiny_run 200).1.2.2 = None /\
  map sp_Phase (tiny_run 200).1.1 = repeat "latency" 4 ++ repeat "download" 6 ++ repeat "upload" 6 ++ ["done"].
Proof. vm_compute. done. Qed.

Example tiny_run_refused : option_map (fun e => (KindOf (Some e), HintOf (Some e))) (tiny_run 429).1.2.2 =
  Some ("unavailable", "wait 30s before running another speed test").
Proof. vm_compute. done. Qed.
