(* ===== verification/Resolve.v ===== *)
(** internal/cli/resolve.go and resolveSecret of secrets.go: what a name, SSID,
    UUID or id on the command line means. *)

From S2P Require Import Prelude Core GoStrings Errors.

(** [candidate] *)
Record candidate := mkCandidate { cd_ID : string; cd_Name : string; cd_Kind : string; cd_SSID : string }.

Section Resolve.

(** [%q], and [strings.ToLower] and [strings.EqualFold] over all of Unicode. *)
Context (Quote : string -> string) (ToLower : string -> string) (EqualFold : string -> string -> bool).

Definition candidate_String (c : candidate) : string :=
  if negb (cd_SSID c =?s "") && negb (cd_SSID c =?s cd_Name c) then
    cd_ID c +:+ "  " +:+ cd_Name c +:+ " (" +:+ cd_Kind c +:+ ", ssid " +:+ Quote (cd_SSID c) +:+ ")"
  else cd_ID c +:+ "  " +:+ cd_Name c +:+ " (" +:+ cd_Kind c +:+ ")".

Definition line_break : string := byte_str [10%nat].

(** [ambiguousError], with its [Error] and [Hint]. *)
Definition ambiguousError (arg : string) (candidates : list candidate) : error :=
  EHint (Quote arg +:+ " is ambiguous; it matches:" +:+ Join (map (fun c => line_break +:+ "  " +:+ candidate_String c) candidates) "")
    "use the UUID (or a longer prefix of it)" [].

(** The ways an argument may match, the first that any candidate does deciding. *)
Definition tiers (arg : string) : list (candidate -> bool) :=
  [(fun c => (cd_Name c =?s arg) || (cd_SSID c =?s arg));
   (fun c => EqualFold (cd_Name c) arg || EqualFold (cd_SSID c) arg);
   (fun c => Nat.leb 3 (String.length arg) && HasPrefix (ToLower (cd_ID c)) (ToLower arg));
   (fun c => let l := ToLower arg in
      Nat.leb 2 (String.length arg) && (HasPrefix (ToLower (cd_Name c)) l || HasPrefix (ToLower (cd_SSID c)) l))].

Definition name_le (a b : candidate) : bool := String.leb (cd_Name a) (cd_Name b).

Fixpoint by_tier (arg : string) (pool : list candidate) (l : list (candidate -> bool)) : option (result error candidate) :=
  match l with
  | [] => None
  | t :: l =>
      match List.filter t pool with
      | [] => by_tier arg pool l
      | [c] => Some (Ok c)
      | hits => Some (Err (ambiguousError arg (isort name_le hits)))
      end
  end.

Definition no_match (arg : string) (pool : list candidate) (what : string) : error :=
  let names := isort String.leb (map cd_Name pool) in
  let hint := match names with [] => "" | _ => "known: " +:+ Join names ", " end in
  Errorf KindNotFound hint ("no " +:+ what +:+ " matches " +:+ Quote arg).

Definition resolve (arg : string) (pool : list candidate) (what : string) : result error candidate :=
  if arg =?s "" then Err (Errorf KindInvalid "" ("a " +:+ what +:+ " name or UUID is required"))
  else
    match List.find (fun c => cd_ID c =?s arg) pool with
    | Some c => Ok c
    | None => match by_tier arg pool (tiers arg) with Some r => r | None => Err (no_match arg pool what) end
    end.

Definition profileKind (p : Profile) : string :=
  if pf_Type p =?s ProfileWifi then "wifi profile"
  else if pf_Type p =?s ProfileEthernet then "wired profile"
  else if pf_Type p =?s ProfileWireGuard then "WireGuard profile"
  else if pf_Type p =?s ProfileVPN then VPNKindForServiceType (pf_VPNServiceType p) +:+ " profile"
  else if pf_Type p =?s ProfileBridge then "bridge profile"
  else pf_RawType p +:+ " profile".

Definition profile_candidate (p : Profile) : candidate := mkCandidate (pf_UUID p) (pf_Name p) (profileKind p) (pf_SSID p).

Definition profileCandidates (ps : list Profile) (keep : option (Profile -> bool)) : list candidate :=
  map profile_candidate (List.filter (fun p => match keep with Some k => k p | None => true end) ps).

Definition vpn_candidate (v : VPN) : candidate := mkCandidate (vpn_ID v) (vpn_Name v) ("VPN, " +:+ vpn_Kind v) "".

(** [profiles] is what the client gave, or why it gave nothing. *)
Definition resolveProfile (profiles : result error (list Profile)) (arg : string) (keep : option (Profile -> bool)) (what : string) : result error Profile :=
  match profiles with
  | Err e => Err e
  | Ok ps =>
      match resolve arg (profileCandidates ps keep) what with
      | Err e => Err e
      | Ok hit =>
          match List.find (fun p => pf_UUID p =?s cd_ID hit) ps with
          | Some p => Ok p
          | None => Err (Errorf KindNotFound "" ("profile " +:+ cd_ID hit +:+ " vanished"))
          end
      end
  end.

Definition vpn_arg (arg : string) : string := if EqualFold arg "ts" then "tailscale" else arg.

Definition resolveVPN (vpns : result error (list VPN)) (arg : string) : result error VPN :=
  match vpns with
  | Err e => Err e
  | Ok vs =>
      match resolve (vpn_arg arg) (map vpn_candidate vs) "VPN" with
      | Err e => Err e
      | Ok hit =>
          match List.find (fun v => vpn_ID v =?s cd_ID hit) vs with
          | Some v => Ok v
          | None => Err (Errorf KindNotFound "" ("VPN " +:+ cd_ID hit +:+ " vanished"))
          end
      end
  end.

(** ** secrets.go *)

Definition secretSubject (r : SecretRequest) : string :=
  if negb (sq_SSID r =?s "") then sq_SSID r else if negb (sq_ConnectionName r =?s "") then sq_ConnectionName r else sq_ConnectionUUID r.

(** The requests before one with this very id: those it is a prefix of; or that one. *)
Fixpoint secret_hits (id : string) (reqs hits : list SecretRequest) : SecretRequest + list SecretRequest :=
  match reqs with
  | [] => inr hits
  | r :: reqs =>
      if sq_ID r =?s id then inl r
      else secret_hits id reqs (if Nat.leb 3 (String.length id) && HasPrefix (sq_ID r) id then hits ++ [r] else hits)
  end.

Definition resolveSecret (pending : result error (list SecretRequest)) (id : string) : result error SecretRequest :=
  match pending with
  | Err e => Err e
  | Ok reqs =>
      if id =?s "" then
        match reqs with
        | [] => Err (Errorf KindNotFound "" "no password prompt is waiting")
        | [r] => Ok r
        | _ => Err (Errorf KindInvalid ("name one: " +:+ Join (map (fun r => sq_ID r +:+ " (" +:+ secretSubject r +:+ ")") reqs) ", ")
                     (Itoa (len reqs) +:+ " prompts are waiting"))
        end
      else
        match secret_hits id reqs [] with
        | inl r => Ok r
        | inr [r] => Ok r
        | inr [] => Err (Errorf KindNotFound "run `bnm secrets`" ("no open prompt " +:+ Quote id +:+ " (it may have been answered or expired)"))
        | inr hits => Err (Errorf KindInvalid "use a longer prefix" (Quote id +:+ " matches " +:+ Itoa (len hits) +:+ " prompts"))
        end
  end.
End Resolve.

(** * What a name on the command line comes to: exactly one of the things it can
    mean, whatever order they are listed in. *)

Section Facts.
Context (Quote : string -> string) (ToLower : string -> string) (EqualFold : string -> string -> bool).
Let tiers := tiers ToLower EqualFold.
Let resolve := resolve Quote ToLower EqualFold.

(** What decides: the first candidate with this id, or the first tier anything matches. *)
Definition by_id (arg : string) (pool : list candidate) : option candidate := List.find (fun c => cd_ID c =?s arg) pool.

(** The hits of the tier that decides. *)
Definition hits (arg : string) (pool : list candidate) : list candidate :=
  match List.find (fun t => existsb t pool) (tiers arg) with Some t => List.filter t pool | None => [] end.

Lemma existsb_filter {A} (t : A -> bool) l : existsb t l = match List.filter t l with [] => false | _ => true end.
Proof. induction l as [|x l IH]; [done|]. cbn. by destruct (t x). Qed.

Lemma by_tier_hits arg pool l : by_tier Quote arg pool l =
  match match List.find (fun t => existsb t pool) l with Some t => List.filter t pool | None => [] end with
  | [] => None
  | [c] => Some (Ok c)
  | hs => Some (Err (ambiguousError Quote arg (isort name_le hs)))
  end.
Proof.
  induction l as [|t l IH]; [done|]. cbn [by_tier List.find]. rewrite existsb_filter. by destruct (List.filter t pool) as [|? [|]] eqn:H; rewrite ?H.
Qed.

Lemma resolve_cases arg pool what : arg <> "" ->
  resolve arg pool what =
    match by_id arg pool, hits arg pool with
    | Some c, _ => Ok c
    | None, [] => Err (no_match Quote arg pool what)
    | None, [c] => Ok c
    | None, hs => Err (ambiguousError Quote arg (isort name_le hs))
    end.
Proof.
  intros Ha. unfold resolve, Resolve.resolve. destruct (String.eqb_spec arg ""); [done|]. change (List.find _ pool) with (by_id arg pool).
  destruct (by_id arg pool); [done|]. rewrite by_tier_hits. change (Resolve.tiers ToLower EqualFold arg) with (tiers arg).
  change (match List.find _ _ with Some t => _ | None => _ end) with (hits arg pool). by destruct (hits arg pool) as [|? [|]].
Qed.

(** *** Order *)

Lemma hits_perm arg pool1 pool2 : pool1 ≡ₚ pool2 -> hits arg pool1 ≡ₚ hits arg pool2.
Proof.
  intros H. unfold hits. replace (List.find (fun t => existsb t pool2) (tiers arg)) with (List.find (fun t => existsb t pool1) (tiers arg)).
  - destruct (List.find _ _); [by apply filter_perm|done].
  - induction (tiers arg) as [|t l IH]; [done|]. cbn. by rewrite (existsb_perm t _ _ H), IH.
Qed.

Lemma by_id_perm arg pool1 pool2 : pool1 ≡ₚ pool2 -> NoDup (map cd_ID pool1) -> by_id arg pool1 = by_id arg pool2.
Proof.
  unfold by_id. induction 1 as [|x l1 l2 _ IH|x y l|l1 l2 l3 H1 IH1 _ IH2]; intros Hn; cbn in *; [done| | |].
  - destruct (cd_ID x =?s arg); [done|]. apply IH. by inversion Hn.
  - inversion Hn as [|? ? Hx _]; subst. destruct (String.eqb_spec (cd_ID y) arg), (String.eqb_spec (cd_ID x) arg); try done.
    exfalso. apply Hx, elem_of_cons. left. congruence.
  - rewrite IH1 by done. apply IH2. by rewrite <- H1.
Qed.

(** *** The tier that decides *)

Definition silent (pool : list candidate) (t : candidate -> bool) : Prop := forall c, In c pool -> t c = false.

Definition decided (arg : string) (pool hs : list candidate) : Prop :=
  exists before t after, tiers arg = before ++ t :: after /\ Forall (silent pool) before /\ hs = List.filter t pool /\ hs <> [].

Lemma filter_none {A} (t : A -> bool) l : List.filter t l = [] <-> forall x, In x l -> t x = false.
Proof.
  split.
  - intros H x Hx. destruct (t x) eqn:Ht; [|done]. assert (In x (List.filter t l)) as Hf by by apply filter_In. by rewrite H in Hf.
  - induction l as [|x l IH]; [done|]. intros H. cbn. rewrite (H x) by by left. apply IH. intros y Hy. apply H. by right.
Qed.

Lemma hits_decide arg pool : match hits arg pool with [] => Forall (silent pool) (tiers arg) | hs => decided arg pool hs end.
Proof.
  unfold hits, decided. enough (match match List.find (fun t => existsb t pool) (tiers arg) with Some t => List.filter t pool | None => [] end with
    | [] => Forall (silent pool) (tiers arg)
    | hs => exists before t after, tiers arg = before ++ t :: after /\ Forall (silent pool) before /\ hs = List.filter t pool /\ hs <> [] end) as H by done.
  induction (tiers arg) as [|t l IH]; [constructor|]. cbn [List.find]. rewrite existsb_filter.
  destruct (List.filter t pool) as [|c hs] eqn:Ht.
  - assert (silent pool t) as Hs by (intros x Hx; by apply (proj1 (filter_none t pool))). 
    destruct (match List.find _ l with Some _ => _ | None => _ end) as [|c hs]; [by constructor|].
    destruct IH as (before & t' & after & -> & H1 & H2 & H3). exists (t :: before), t', after. split_and!; [done|by constructor|done..].
  - rewrite Ht. exists [], t, l. split_and!; [done|constructor|by rewrite Ht|done].
Qed.

Lemma decided_hits arg pool hs : decided arg pool hs -> hits arg pool = hs.
Proof.
  intros (before & t & after & He & Hb & -> & Hne). unfold hits. rewrite He. clear He.
  induction Hb as [|t' l Ht _ IH]; cbn.
  - rewrite existsb_filter. destruct (List.filter t pool) eqn:E; [done|by rewrite E].
  - rewrite existsb_filter. by rewrite (proj2 (filter_none t' pool) Ht).
Qed.

Lemma resolve_found arg pool what c : resolve arg pool what = Ok c <->
  arg <> "" /\ (by_id arg pool = Some c \/ (by_id arg pool = None /\ decided arg pool [c])).
Proof.
  destruct (decide (arg = "")) as [->|Ha].
  { split; [done|]. by intros [? _]. }
  rewrite resolve_cases by done. pose proof (hits_decide arg pool) as Hd. destruct (by_id arg pool) as [c'|].
  { split; [intros [= ->]; auto|]. intros [_ [[= ->]|[? _]]]; done. }
  destruct (hits arg pool) as [|c1 [|c2 hs]] eqn:Hh; split; try done.
  - intros [_ [?|[_ H%decided_hits]]]; congruence.
  - intros [= ->]. auto.
  - intros [_ [?|[_ H%decided_hits]]]; congruence.
  - intros [_ [?|[_ H%decided_hits]]]; congruence.
Qed.

Lemma resolve_err arg pool what e : resolve arg pool what = Err e <->
  (arg = "" /\ e = Errorf KindInvalid "" ("a " +:+ what +:+ " name or UUID is required")) \/
  (arg <> "" /\ by_id arg pool = None /\
   ((exists hs, decided arg pool hs /\ (2 <= length hs)%nat /\ e = ambiguousError Quote arg (isort name_le hs)) \/
    (Forall (silent pool) (tiers arg) /\ e = no_match Quote arg pool what))).
Proof.
  destruct (decide (arg = "")) as [->|Ha].
  { split; [intros [= <-]; auto|]. by intros [[_ ->]|[? _]]. }
  rewrite resolve_cases by done. pose proof (hits_decide arg pool) as Hd. destruct (by_id arg pool) as [c'|].
  { split; [done|]. by intros [[? _]|(_ & ? & _)]. }
  assert (Forall (silent pool) (tiers arg) -> hits arg pool = []) as Hnone.
  { intros HF. unfold hits. clear Hd; induction HF as [|t l Ht _ IH]; [done|]. cbn. rewrite existsb_filter. rewrite (proj2 (filter_none t pool) Ht). exact IH. }
  destruct (hits arg pool) as [|c1 [|c2 hs]] eqn:Hh.
  - split; [intros [= <-]; right; split_and!; [done..|by right]|].
    intros [[? _]|(_ & _ & [(hs & H%decided_hits & Hl & _)|[_ ->]])]; [done| |done]. rewrite Hh in H. subst hs. cbn in Hl. lia.
  - split; [done|]. intros [[? _]|(_ & _ & [(hs & H%decided_hits & Hl & _)|[H _]])]; [done| |by apply Hnone in H].
    rewrite Hh in H. subst hs. cbn in Hl. lia.
  - split; [intros [= <-]; right; split_and!; [done..|left; eexists; split_and!; [exact Hd|cbn; lia|done]]|].
    intros [[? _]|(_ & _ & [(hs' & H%decided_hits & _ & ->)|[H _]])]; [done| |by apply Hnone in H]. by rewrite <- H, Hh.
Qed.

Lemma resolve_perm arg pool1 pool2 what c : pool1 ≡ₚ pool2 -> NoDup (map cd_ID pool1) ->
  resolve arg pool1 what = Ok c -> resolve arg pool2 what = Ok c.
Proof.
  intros Hp Hn Hr. destruct (proj1 (resolve_found _ _ _ _) Hr) as [Ha _]. revert Hr. rewrite !resolve_cases by done. rewrite <- (by_id_perm arg _ _ Hp Hn).
  destruct (by_id arg pool1); [done|]. pose proof (hits_perm arg _ _ Hp) as Hh.
  destruct (hits arg pool1) as [|c1 [|c2 hs]]; [done| |done]. intros [= ->].
  apply Permutation_length_1_inv in Hh. by rewrite Hh.
Qed.

(** *** What is listed *)

Lemma decided_in arg pool hs c : decided arg pool hs -> In c hs -> In c pool.
Proof. intros (? & t & ? & _ & _ & -> & _) [H _]%filter_In. done. Qed.

Lemma resolve_in arg pool what c : resolve arg pool what = Ok c -> In c pool.
Proof.
  intros [_ [H|[_ H]]]%resolve_found; [by apply List.find_some in H as [? _]|]. eapply decided_in; [exact H|by left].
Qed.

Lemma find_key {A} (key : A -> string) x l : In x l -> NoDup (map key l) -> List.find (fun y => key y =?s key x) l = Some x.
Proof.
  induction l as [|y l IH]; [done|]. cbn. intros [->|Hin] Hn; [by rewrite String.eqb_refl|]. inversion Hn as [|? ? Hy Hn']; subst.
  destruct (String.eqb_spec (key y) (key x)) as [He|_]; [|by apply IH].
  exfalso. apply Hy. rewrite He. apply list_elem_of_In. by apply in_map.
Qed.

(** A profile is the one its candidate stands for. *)
Lemma resolveProfile_ok ps arg keep what p : NoDup (map pf_UUID ps) ->
  resolveProfile Quote ToLower EqualFold (Ok ps) arg keep what = Ok p <->
  In p ps /\ (forall k, keep = Some k -> k p = true) /\ resolve arg (profileCandidates ps keep) what = Ok (profile_candidate p).
Proof.
  intros Hn. unfold resolveProfile. fold resolve. split.
  - destruct (resolve arg (profileCandidates ps keep) what) as [hit|e] eqn:Hr; [|done]. pose proof (resolve_in _ _ _ _ Hr) as Hin.
    apply in_map_iff in Hin as (q & <- & [Hq Hk]%filter_In). cbn [profile_candidate cd_ID]. rewrite (find_key pf_UUID q ps Hq Hn).
    intros [= <-]. split_and!; [done| |done]. by intros k ->.
  - intros (Hin & _ & ->). cbn [profile_candidate cd_ID]. by rewrite (find_key pf_UUID p ps Hin Hn).
Qed.

Lemma resolveVPN_ok vs arg v : NoDup (map vpn_ID vs) ->
  resolveVPN Quote ToLower EqualFold (Ok vs) arg = Ok v <->
  In v vs /\ resolve (vpn_arg EqualFold arg) (map vpn_candidate vs) "VPN" = Ok (vpn_candidate v).
Proof.
  intros Hn. unfold resolveVPN. fold resolve. split.
  - destruct (resolve _ (map vpn_candidate vs) "VPN") as [hit|e] eqn:Hr; [|done]. pose proof (resolve_in _ _ _ _ Hr) as Hin.
    apply in_map_iff in Hin as (q & <- & Hq). cbn [vpn_candidate cd_ID]. rewrite (find_key vpn_ID q vs Hq Hn). by intros [= <-].
  - intros (Hin & ->). cbn [vpn_candidate cd_ID]. by rewrite (find_key vpn_ID v vs Hin Hn).
Qed.

Lemma secret_hits_spec id reqs : forall acc,
  match secret_hits id reqs acc with
  | inl r => List.find (fun r => sq_ID r =?s id) reqs = Some r
  | inr l => List.find (fun r => sq_ID r =?s id) reqs = None /\
      l = acc ++ List.filter (fun r => Nat.leb 3 (String.length id) && HasPrefix (sq_ID r) id) reqs
  end.
Proof.
  induction reqs as [|r reqs IH]; intros acc; cbn [secret_hits List.find List.filter]; [by rewrite app_nil_r|].
  destruct (sq_ID r =?s id); [done|]. specialize (IH (if Nat.leb 3 (String.length id) && HasPrefix (sq_ID r) id then acc ++ [r] else acc)).
  destruct (secret_hits id reqs _) as [r'|l]; [done|]. destruct IH as [H ->]. split; [done|].
  destruct (_ && _); [by rewrite <- app_assoc|done].
Qed.

(** The prompt an id means: that of the id, else the only one it begins. *)
Definition secret_meant (id : string) (reqs : list SecretRequest) (r : SecretRequest) : Prop :=
  if id =?s "" then reqs = [r]
  else List.find (fun r => sq_ID r =?s id) reqs = Some r \/
    (List.find (fun r => sq_ID r =?s id) reqs = None /\ (3 <= String.length id)%nat /\ List.filter (fun r => HasPrefix (sq_ID r) id) reqs = [r]).

Lemma resolveSecret_ok reqs id r : resolveSecret Quote (Ok reqs) id = Ok r <-> secret_meant id reqs r.
Proof.
  unfold resolveSecret, secret_meant. destruct (id =?s ""); [destruct reqs as [|? [|]]; split; congruence|].
  pose proof (secret_hits_spec id reqs []) as H. destruct (secret_hits id reqs []) as [r'|l].
  - split; [intros [= ->]; auto|]. intros [?|[? _]]; congruence.
  - destruct H as [Hf ->]. cbn [app]. rewrite Hf. destruct (Nat.leb_spec 3 (String.length id)) as [Hl|Hl]; cbn [andb].
    + destruct (List.filter (fun r => HasPrefix (sq_ID r) id) reqs) as [|? [|]]; split; try done; try (by intros [?|(_ & _ & ?)]).
      * intros [= ->]. auto.
      * by intros [?|(_ & _ & [= ->])].
    + rewrite (proj2 (filter_none _ reqs)) by done. split; [done|]. intros [?|(_ & ? & _)]; [done|lia].
Qed.
End Facts.

(** C39: A name on the command line means one thing or is refused.  It is the
    candidate with that very id; else the only one of the first tier that any
    candidate is in: its name or SSID exactly, in another case, the start of its
    id, of its name or SSID.  Several in that tier are an error that lists just
    those, none in any tier is not found, and the order the candidates are listed
    in decides nothing.  A profile or VPN found is one that was listed and kept,
    never another with its name, and a password prompt is the one of that id or
    the only one an id of three letters or more begins. *)
Theorem names_resolve Quote ToLower EqualFold :
  let resolve := resolve Quote ToLower EqualFold in
  (forall arg pool what c, resolve arg pool what = Ok c <->
     arg <> "" /\ (by_id arg pool = Some c \/ (by_id arg pool = None /\ decided ToLower EqualFold arg pool [c]))) /\
  (forall arg pool what e, resolve arg pool what = Err e <->
     (arg = "" /\ e = Errorf KindInvalid "" ("a " +:+ what +:+ " name or UUID is required")) \/
     (arg <> "" /\ by_id arg pool = None /\
      ((exists hs, decided ToLower EqualFold arg pool hs /\ (2 <= length hs)%nat /\ e = ambiguousError Quote arg (isort name_le hs)) \/
       (Forall (silent pool) (tiers ToLower EqualFold arg) /\ e = no_match Quote arg pool what)))) /\
  (forall arg pool1 pool2 what c, pool1 ≡ₚ pool2 -> NoDup (map cd_ID pool1) -> resolve arg pool1 what = Ok c -> resolve arg pool2 what = Ok c) /\
  (forall ps arg keep what p, NoDup (map pf_UUID ps) ->
     resolveProfile Quote ToLower EqualFold (Ok ps) arg keep what = Ok p <->
     In p ps /\ (forall k, keep = Some k -> k p = true) /\ resolve arg (profileCandidates ps keep) what = Ok (profile_candidate p)) /\
  (forall vs arg v, NoDup (map vpn_ID vs) ->
     resolveVPN Quote ToLower EqualFold (Ok vs) arg = Ok v <-> In v vs /\ resolve (vpn_arg EqualFold arg) (map vpn_candidate vs) "VPN" = Ok (vpn_candidate v)) /\
  (forall reqs id r, resolveSecret Quote (Ok reqs) id = Ok r <-> secret_meant id reqs r).
Proof.
  intros resolve. split_and!; [apply resolve_found|apply resolve_err|apply resolve_perm|apply resolveProfile_ok|apply resolveVPN_ok|apply resolveSecret_ok].
Qed.

(** Three networks: a full name wins over a longer one, a shared start is
    ambiguous, and a UUID prefix takes three letters. *)
Definition three : list candidate :=
  [mkCandidate "abc1" "Home" "wifi profile" "Home"; mkCandidate "abd2" "Home 5G" "wifi profile" ""; mkCandidate "fff3" "office" "wired profile" ""].

Example three_resolve :
  let r arg := match resolve id GoStrings.ToLower (fun a b => GoStrings.ToLower a =?s GoStrings.ToLower b) arg three "profile" with
               | Ok c => cd_ID c | Err e => KindOf (Some e) end in
  map r ["Home"; "home"; "ho"; "OFF"; "abd"; "ab"; "fff3"; ""; "x"] =
    ["abc1"; "abc1"; "internal"; "fff3"; "abd2"; "not-found"; "fff3"; "invalid"; "not-found"].
Proof. vm_compute. reflexivity. Qed.
