(* ===== verification/Startup.v ===== *)
(** Where things are and how a client reaches the daemon: [path/filepath] on
    Unix, internal/paths, and internal/client/client.go and spawn.go over the
    operations of a system: its clock, socket, processes and files. *)

From S2P Require Import Prelude GoTime Core GoStrings Errors GoDuration API Client.

(** The elements kept, last first. *)
Fixpoint keep_elems (rooted : bool) (l stack : list string) : list string :=
  match l with
  | [] => stack
  | x :: l =>
      if (x =?s "") || (x =?s ".") then keep_elems rooted l stack
      else if x =?s ".." then
        keep_elems rooted l
          (match stack with
           | [] => if rooted then [] else [x]
           | top :: below => if top =?s ".." then x :: stack else below
           end)
      else keep_elems rooted l (x :: stack)
  end.

Definition path_Clean (path : string) : string :=
  if path =?s "" then "."
  else
    let rooted := HasPrefix path "/" in
    let kept := Join (rev (keep_elems rooted (Split path "/") [])) "/" in
    if rooted then "/" +:+ kept else if kept =?s "" then "." else kept.

(** Empty elements before the first that is not are left out. *)
Fixpoint path_Join (elems : list string) : string :=
  match elems with
  | [] => ""
  | e :: rest => if e =?s "" then path_Join rest else path_Clean (Join elems "/")
  end.

(** All up to the last slash. *)
Definition path_Dir (path : string) : string :=
  path_Clean (match CutLast path "/" with Some (dir, _) => dir +:+ "/" | None => "" end).

Example paths_clean :
  map path_Clean ["/a/./b//c/"; "/../x"; "../a/../../b"; ""; "a/.."; "//"] = ["/a/b/c"; "/x"; "../../b"; "."; "."; "/"] /\
  path_Join [""; "/run/user/7/"; "bnm"] = "/run/user/7/bnm" /\ map path_Dir ["/run/bnm/bnmd.sock"; "bnmd.sock"; "/x"] = ["/run/bnm"; "."; "/"].
Proof. vm_compute. done. Qed.

(** * internal/paths, the start of the client (internal/client/client.go and
    spawn.go) and the daemon commands and exit codes of internal/cli: finding
    bnmd, starting it once, waiting for its socket, stopping it.

    The system calls are operations on a world [W]. *)

(** ** paths.go *)

(** The environment: [os.Getenv], [os.TempDir], [os.Getuid] and [os.UserHomeDir]. *)
Record Env := mkEnv { getenv : string -> string; tempDir : string; uid : Z; userHome : option string }.

Section Paths.
Context (env : Env).

Definition home : string := match userHome env with Some h => if h =?s "" then "." else h | None => "." end.

Definition RuntimeDir : string :=
  if negb (getenv env "BNM_RUNTIME_DIR" =?s "") then getenv env "BNM_RUNTIME_DIR"
  else if negb (getenv env "XDG_RUNTIME_DIR" =?s "") then path_Join [getenv env "XDG_RUNTIME_DIR"; "bnm"]
  else path_Join [tempDir env; "bnm-" +:+ Itoa (uid env)].

Definition Socket_path : string :=
  if negb (getenv env "BNM_SOCKET" =?s "") then getenv env "BNM_SOCKET" else path_Join [RuntimeDir; "bnmd.sock"].

Definition ConfigDir : string :=
  if negb (getenv env "XDG_CONFIG_HOME" =?s "") then path_Join [getenv env "XDG_CONFIG_HOME"; "bnm"] else path_Join [home; ".config"; "bnm"].

Definition StateDir : string :=
  if negb (getenv env "XDG_STATE_HOME" =?s "") then path_Join [getenv env "XDG_STATE_HOME"; "bnm"] else path_Join [home; ".local"; "state"; "bnm"].
End Paths.

(** ** client.go, spawn.go *)

Definition DefaultStartTimeout : Duration := 3 * second.
Definition DaemonBinary : string := "bnmd".

Record ClientState := mkClientState {
  cl_socket : string; cl_autoStart : bool; cl_daemonPath : string; cl_startTimeout : Duration; cl_checkVersion : bool; cl_started : bool
}.

Definition Option_ : Type := ClientState -> ClientState.
Definition WithSocket (path : string) : Option_ := fun c =>
  mkClientState path (cl_autoStart c) (cl_daemonPath c) (cl_startTimeout c) (cl_checkVersion c) (cl_started c).
Definition WithAutoStart (on : bool) : Option_ := fun c =>
  mkClientState (cl_socket c) on (cl_daemonPath c) (cl_startTimeout c) (cl_checkVersion c) (cl_started c).
Definition WithDaemonPath (path : string) : Option_ := fun c =>
  mkClientState (cl_socket c) (cl_autoStart c) path (cl_startTimeout c) (cl_checkVersion c) (cl_started c).
Definition WithStartTimeout (d : Duration) : Option_ := fun c =>
  mkClientState (cl_socket c) (cl_autoStart c) (cl_daemonPath c) d (cl_checkVersion c) (cl_started c).
Definition WithVersionCheck (on : bool) : Option_ := fun c =>
  mkClientState (cl_socket c) (cl_autoStart c) (cl_daemonPath c) (cl_startTimeout c) on (cl_started c).
Definition set_started (c : ClientState) : ClientState :=
  mkClientState (cl_socket c) (cl_autoStart c) (cl_daemonPath c) (cl_startTimeout c) (cl_checkVersion c) true.

(** The system: what the client and the daemon commands ask of it. *)
Record System (W : Type) := mkSystem {
  sy_Dial : string -> W -> option error * W;                       (* connect to a socket, and close *)
  sy_Now : W -> Time * W;
  sy_Sleep : Duration -> W -> W;
  sy_Executable : W -> option string;
  sy_EvalSymlinks : string -> W -> option string;
  sy_IsExecutable : string -> W -> bool;                           (* a file, no directory, with an x bit *)
  sy_LookPath : string -> W -> result error string;
  sy_MkdirAll : string -> W -> option error * W;
  sy_OpenAppend : string -> W -> option error * W;
  sy_Start : string -> list string -> W -> option error * W;       (* in a session of its own, output to the log *)
  sy_Request : string -> request -> W -> carried * W;              (* one HTTP round trip over the socket *)
  sy_ReadFile : string -> W -> result error string;
  sy_Exists : string -> W -> bool;
  sy_Signal : Z -> Z -> W -> option error * W;                     (* the process and the signal; 0 only asks *)
  sy_Run : string -> list string -> W -> (string * option error) * W  (* a program's output, and how it ended *)
}.
Arguments sy_Dial {W}. Arguments sy_Now {W}. Arguments sy_Sleep {W}. Arguments sy_Executable {W}. Arguments sy_EvalSymlinks {W}.
Arguments sy_IsExecutable {W}. Arguments sy_LookPath {W}. Arguments sy_MkdirAll {W}. Arguments sy_OpenAppend {W}. Arguments sy_Start {W}.
Arguments sy_Request {W}. Arguments sy_ReadFile {W}. Arguments sy_Exists {W}. Arguments sy_Signal {W}. Arguments sy_Run {W}.

Definition wrapE (what : string) (e : error) : error := EWrap (what +:+ ": " +:+ ErrorString e) [e].

Section Start.
Context {json : JSON} {W : Type} (sys : System W) (env : Env) (arg0 : string) (status_line : Z -> string).

Definition FindDaemon (w : W) : result error string :=
  if negb (getenv env "BNM_DAEMON" =?s "") then Ok (getenv env "BNM_DAEMON")
  else
    let beside :=
      match sy_Executable sys w with
      | None => None
      | Some exe =>
          let exe := default exe (sy_EvalSymlinks sys exe w) in
          let cand := path_Join [path_Dir exe; DaemonBinary] in
          if sy_IsExecutable sys cand w then Some cand else None
      end in
    match beside with
    | Some cand => Ok cand
    | None =>
        match sy_LookPath sys DaemonBinary w with
        | Ok p => Ok p
        | Err e => Err (wrapE ("client: " +:+ DaemonBinary +:+ " not found next to " +:+ arg0 +:+ " or in PATH") e)
        end
    end.

(** What [spawn] sets up, and then the start of the program. *)
Definition spawn (c : ClientState) (w : W) : option error * W :=
  match (if cl_daemonPath c =?s "" then FindDaemon w else Ok (cl_daemonPath c)) with
  | Err e => (Some e, w)
  | Ok bin =>
      let '(e, w) := sy_MkdirAll sys (StateDir env) w in
      match e with
      | Some e => (Some (wrapE "client: log dir" e), w)
      | None =>
          let '(e, w) := sy_OpenAppend sys (path_Join [StateDir env; "bnmd.log"]) w in
          match e with
          | Some e => (Some (wrapE "client: open log" e), w)
          | None =>
              let '(e, w) := sy_Start sys bin ["--socket"; cl_socket c] w in
              (match e with Some e => Some (wrapE ("client: start " +:+ bin) e) | None => None end, w)
          end
      end
  end.

Definition logPath : string := StateDir env +:+ "/" +:+ "bnmd.log".

Definition reachable (c : ClientState) (w : W) : option error * W := sy_Dial sys (cl_socket c) w.

Definition poll_gap : Duration := 50 * millisecond.

Definition did_not_appear (c : ClientState) (e : error) : error :=
  ENotRunning (cl_socket c)
    (wrapE ("started bnmd but the socket did not appear within " +:+ Duration_String (cl_startTimeout c) +:+ " (see " +:+ logPath +:+ ")") e).

(** The wait for the socket; [None] when [fuel] runs out. *)
Fixpoint wait_socket (fuel : nat) (c : ClientState) (deadline : Time) (w : W) : option (option error * W) :=
  match fuel with
  | O => None
  | S fuel =>
      let '(e, w) := reachable c w in
      match e with
      | None => Some (None, w)
      | Some e =>
          let '(now, w) := sy_Now sys w in
          if time_After now deadline then Some (Some (did_not_appear c e), w)
          else wait_socket fuel c deadline (sy_Sleep sys poll_gap w)
      end
  end.

Definition ensureRunning (fuel : nat) (c : ClientState) (w : W) : option ((ClientState * option error) * W) :=
  let '(e, w) := reachable c w in
  match e with
  | None => Some ((c, None), w)
  | Some e =>
      if negb (cl_autoStart c) then Some ((c, Some (ENotRunning (cl_socket c) e)), w)
      else
        let '(serr, w) := spawn c w in
        match serr with
        | Some e => Some ((c, Some (ENotRunning (cl_socket c) e)), w)
        | None =>
            let c := set_started c in
            let '(now, w) := sy_Now sys w in
            match wait_socket fuel c (time_Add now (cl_startTimeout c)) w with
            | None => None
            | Some (e, w) => Some ((c, e), w)
            end
        end
  end.

Definition client_Status (c : ClientState) (w : W) : result error StatusResponse * W :=
  client_do (cl_socket c) status_line (sy_Request sys (cl_socket c)) c_Status w.

Definition client_New (fuel : nat) (opts : list Option_) (w : W) : option (result error ClientState * W) :=
  let c := fold_left (fun c o => o c) opts (mkClientState (Socket_path env) true "" DefaultStartTimeout true false) in
  match ensureRunning fuel c w with
  | None => None
  | Some ((c, Some e), w) => Some (Err e, w)
  | Some ((c, None), w) =>
      if cl_checkVersion c then
        let '(st, w) := client_Status c w in
        match st with
        | Err e => Some (Err (wrapE "client: status" e), w)
        | Ok st =>
            if negb (sr_APIVersion st =? APIVersion) then Some (Err (EVersionMismatch (sr_APIVersion st) APIVersion (API.sr_Version st)), w)
            else Some (Ok c, w)
        end
      else Some (Ok c, w)
  end.
End Start.
