(* ===== verification/DaemonCtl.v ===== *)
(** internal/cli/cli.go and daemon.go: the client of one invocation, the exit
    code and message of an error, and starting and stopping bnmd. *)

From S2P Require Import Prelude GoTime Core GoStrings Errors GoDuration API Client Startup.

(** ** cli.go *)

Definition ExitOK : Z := 0.
Definition ExitError : Z := 1.
Definition ExitUsage : Z := 2.
Definition ExitUnreachable : Z := 3.
Definition ExitPermission : Z := 4.

Definition errHelpShown : error := ESentinel "cli.errHelpShown" "help shown".

(** [errors.As] for the error types the command line tells apart. *)
Definition as_usage (e : error) : option string := match e with EUsage m => Some m | _ => None end.
Definition as_not_running (e : error) : option string := match e with ENotRunning socket _ => Some socket | _ => None end.
Definition as_mismatch (e : error) : option Z := match e with EVersionMismatch d _ _ => Some d | _ => None end.
Definition as_silent (e : error) : option Z := match e with ESilentExit code => Some code | _ => None end.
Definition as_api (e : error) : option (string * string) := match e with EAPI _ _ msg hint => Some (msg, hint) | _ => None end.
Definition errors_As {A} (as_ : error -> option A) (e : error) : option A := first_some as_ (flatten e).
Definition is_some {A} (o : option A) : bool := match o with Some _ => true | None => false end.

Definition IsNotRunning (e : error) : bool := is_some (errors_As as_not_running e).

Definition usage_prefixes : list string :=
  ["unknown command"; "unknown flag"; "unknown shorthand flag"; "flag needs an argument"; "invalid argument"; "accepts "; "requires "].

Definition exitCodeFor (err : error) : Z :=
  if is_some (errors_As as_usage err) then ExitUsage
  else if errors_Is (Some err) errHelpShown then ExitOK
  else if IsNotRunning err then ExitUnreachable
  else if is_some (errors_As as_mismatch err) then ExitUnreachable
  else if KindOf (Some err) =?s KindPermission then ExitPermission
  else if existsb (HasPrefix (ErrorString err)) usage_prefixes then ExitUsage
  else ExitError.

Definition errorMessage (err : error) : string :=
  match errors_As as_api err with
  | Some (msg, _) => msg
  | None =>
      match errors_As as_not_running err with
      | Some socket => "bnmd is not running (socket " +:+ socket +:+ ")"
      | None => TrimPrefix (ErrorString err) "client: "
      end
  end.

Definition hintFor (err : error) : string :=
  match errors_As as_api err with
  | Some (_, hint) => hint
  | None => if IsNotRunning err then "run `bnm daemon start`, or drop --no-autostart" else HintOf (Some err)
  end.

Definition eol : string := byte_str [10%nat].

(** What [Run] writes to stderr for the error of a command, and its exit code;
    [use_line] and [command_path] are cobra's of the command the usage is of. *)
Definition Run_end (use_line command_path : string) (err : option error) : list string * Z :=
  match err with
  | None => ([], ExitOK)
  | Some err =>
      match errors_As as_silent err with
      | Some code => ([], code)
      | None =>
          let code := exitCodeFor err in
          if errors_Is (Some err) errHelpShown then ([], code)
          else if code =? ExitUsage then
            (["error: " +:+ TrimPrefix (ErrorString err) "error: " +:+ eol; "usage: " +:+ use_line +:+ eol; "hint: run `" +:+ command_path +:+ " --help`" +:+ eol], code)
          else
            let hint := hintFor err in
            ((["error: " +:+ errorMessage err +:+ eol] ++ if negb (hint =?s "") then ["hint: " +:+ hint +:+ eol] else []), code)
      end
  end.

(** The part of [app] the connection depends on. *)
Record app := mkApp { a_socket : string; a_noAutostart : bool; a_c : option ClientState }.

Definition unitName : string := "bnmd.service".
Definition LockName : string := "bnmd.pid".
Definition stopWait : Duration := 5 * second.
Definition SIGTERM : Z := 15.

Record daemonInfo := mkDaemonInfo {
  di_Running : bool; di_Socket : string; di_PID : Z; di_Version : string; di_APIVersion : Z; di_Uptime : float64; di_Unit : string; di_UnitFile : string;
  di_Error : string
}.

Definition pidFile (socket : string) : string := path_Join [path_Dir socket; LockName].

Section Daemon.
Context {json : JSON} {W : Type} (sys : System W) (env : Env) (arg0 : string) (status_line : Z -> string).

(** The polls left, for each wait for a socket. *)
Context (fuel : nat).

Definition app_client (a : app) (w : W) : option (result error ClientState * (app * W)) :=
  match a_c a with
  | Some c => Some (Ok c, (a, w))
  | None =>
      match client_New sys env arg0 status_line fuel [WithSocket (a_socket a); WithAutoStart (negb (a_noAutostart a))] w with
      | None => None
      | Some (Err e, w) => Some (Err e, (a, w))
      | Some (Ok c, w) => Some (Ok c, (mkApp (a_socket a) (a_noAutostart a) (Some c), w))
      end
  end.

(** ** daemon.go *)

Definition readPID (socket : string) (w : W) : Z * W :=
  match sy_ReadFile sys (pidFile socket) w with
  | Err _ => (0, w)
  | Ok data =>
      match Atoi (TrimSpace data) with
      | None => (0, w)
      | Some pid =>
          if pid <=? 0 then (0, w)
          else
            let '(e, w) := sy_Signal sys pid 0 w in
            match e with
            | Some e => if errors_Is (Some e) (ESentinel "syscall.EPERM" "operation not permitted") then (pid, w) else (0, w)
            | None => (pid, w)
            end
      end
  end.

Definition probe (a : app) (w : W) : option (daemonInfo * W) :=
  let '(pid, w) := readPID (a_socket a) w in
  let down e := mkDaemonInfo false (a_socket a) pid "" 0 f_zero "" "" (errorMessage e) in
  match client_New sys env arg0 status_line fuel [WithSocket (a_socket a); WithAutoStart false; WithVersionCheck false] w with
  | None => None
  | Some (Err e, w) => Some (down e, w)
  | Some (Ok c, w) =>
      let '(st, w) := client_Status sys status_line c w in
      Some (match st with
            | Err e => down e
            | Ok st => mkDaemonInfo true (a_socket a) pid (API.sr_Version st) (sr_APIVersion st) (sr_UptimeSeconds st) "" "" ""
            end, w)
  end.

(** [os.UserConfigDir] *)
Definition userConfigDir : option string :=
  let dir := getenv env "XDG_CONFIG_HOME" in
  if dir =?s "" then (let h := getenv env "HOME" in if h =?s "" then None else Some (h +:+ "/.config"))
  else if HasPrefix dir "/" then Some dir else None.

Definition unitPath : string :=
  path_Join [match userConfigDir with Some dir => dir | None => path_Join [ConfigDir env; ".."] end; "systemd"; "user"; unitName].

Definition haveSystemctl (w : W) : bool := is_ok (sy_LookPath sys "systemctl" w).

Definition unitState (w : W) : string * W :=
  if negb (haveSystemctl w) then ("", w)
  else
    let '(out, _, w) := sy_Run sys "systemctl" ["--user"; "is-active"; unitName] w in
    let s := TrimSpace out in (if s =?s "" then "unknown" else s, w).

Definition systemctl (args : list string) (w : W) : option error * W :=
  let '(out, err, w) := sy_Run sys "systemctl" ("--user" :: args) w in
  (match err with
   | Some e => Some (EWrap ("systemctl --user " +:+ Join args " " +:+ ": " +:+ ErrorString e +:+ ": " +:+ TrimSpace out) [e])
   | None => None
   end, w).

(** The end of [daemon start]: what is said, unless it fails. *)
Definition after_start (a : app) (dot : string) (w : W) : option (result error string * W) :=
  match probe a w with
  | None => None
  | Some (info, w) =>
      Some ((if negb (di_Running info) then Err (Errorf KindUnavailable ("see " +:+ path_Join [StateDir env; "bnmd.log"]) "bnmd did not come up")
             else Ok (dot +:+ " bnmd " +:+ di_Version info +:+ " started (pid " +:+ Itoa (di_PID info) +:+ ")")), w)
  end.

Definition daemonStart (a : app) (dot : string) (w : W) : option (result error string * W) :=
  match probe a w with
  | None => None
  | Some (info, w) =>
      if di_Running info then Some (Ok ("bnmd " +:+ di_Version info +:+ " already running (pid " +:+ Itoa (di_PID info) +:+ ")"), w)
      else if sy_Exists sys unitPath w && haveSystemctl w && (a_socket a =?s Socket_path env) then
        let '(e, w) := systemctl ["start"; unitName] w in
        match e with Some e => Some (Err e, w) | None => after_start a dot w end
      else
        match FindDaemon sys env arg0 w with
        | Err e => Some (Err (ECore None KindNotFound "" "install bnmd next to bnm or in PATH" (Some e)), w)
        | Ok bin =>
            match client_New sys env arg0 status_line fuel [WithSocket (a_socket a); WithAutoStart true; WithDaemonPath bin] w with
            | None => None
            | Some (Err e, w) => Some (Err e, w)
            | Some (Ok _, w) => after_start a dot w
            end
        end
  end.

Definition stop_gap : Duration := 100 * millisecond.

(** The wait for the daemon to go; [None] when [n] runs out. *)
Fixpoint wait_stopped (n : nat) (a : app) (pid : Z) (deadline : Time) (w : W) : option (result error string * W) :=
  match n with
  | O => None
  | S n =>
      let '(now, w) := sy_Now sys w in
      if negb (time_Before now deadline) then
        Some (Err (Errorf KindInternal "" ("bnmd (pid " +:+ Itoa pid +:+ ") did not exit within " +:+ Duration_String stopWait)), w)
      else
        match probe a w with
        | None => None
        | Some (p, w) =>
            let '(gone, w) :=
              if di_Running p then (false, w)
              else if pid =? 0 then (true, w)
              else let '(e, w) := sy_Signal sys pid 0 w in (is_some e, w) in
            if gone then Some (Ok "bnmd stopped", w) else wait_stopped n a pid deadline (sy_Sleep sys stop_gap w)
        end
  end.

Definition stopDaemon (n : nat) (a : app) (w : W) : option (result error string * W) :=
  match probe a w with
  | None => None
  | Some (info, w) =>
      if negb (di_Running info) && (di_PID info =? 0) then Some (Ok "bnmd is not running", w)
      else
        let '(state, w) := unitState w in
        let '(err, w) :=
          if (state =?s "active") && (a_socket a =?s Socket_path env) then systemctl ["stop"; unitName] w
          else if di_PID info =? 0 then
            (Some (Errorf KindNotFound "kill it by hand: pkill -x bnmd"
               ("bnmd answers on " +:+ a_socket a +:+ " but its pid file " +:+ pidFile (a_socket a) +:+ " is missing or stale")), w)
          else
            let '(e, w) := sy_Signal sys (di_PID info) SIGTERM w in
            (match e with Some e => Some (ECore None KindPermission "" "" (Some (wrapE ("signal pid " +:+ Itoa (di_PID info)) e))) | None => None end, w) in
        match err with
        | Some e => Some (Err e, w)
        | None => let '(now, w) := sy_Now sys w in wait_stopped n a (di_PID info) (time_Add now stopWait) w
        end
  end.

Definition daemonRestart (n : nat) (a : app) (dot : string) (w : W) : option (result error string * W) :=
  match stopDaemon n a w with
  | None => None
  | Some (Err e, w) => Some (Err e, w)
  | Some (Ok _, w) => daemonStart a dot w
  end.
End Daemon.

(** * Starting and stopping bnmd from the command line: one daemon is started at
    most, the waits end, and never before their time. *)

(** The clock of a system, the programs it started and the signals it sent,
    whatever else happens in it: no call goes back in time, a sleep lasts as
    long as it says, and only [Start] starts and only [Signal] signals.  The
    daemon is none of them: programs run by systemctl are outside of [starts]. *)
Class SystemLaws {W} (sys : System W) (clock : W -> Time) (starts : W -> list (string * list string)) (signals : W -> list (Z * Z)) : Prop := {
  law_now w : let '(t, w') := sy_Now sys w in clock w <= t <= clock w' /\ starts w' = starts w /\ signals w' = signals w;
  law_sleep d w : let w' := sy_Sleep sys d w in clock w + d <= clock w' /\ starts w' = starts w /\ signals w' = signals w;
  law_dial s w : let w' := (sy_Dial sys s w).2 in clock w <= clock w' /\ starts w' = starts w /\ signals w' = signals w;
  law_mkdir d w : let w' := (sy_MkdirAll sys d w).2 in clock w <= clock w' /\ starts w' = starts w /\ signals w' = signals w;
  law_open p w : let w' := (sy_OpenAppend sys p w).2 in clock w <= clock w' /\ starts w' = starts w /\ signals w' = signals w;
  law_start bin args w : let '(e, w') := sy_Start sys bin args w in clock w <= clock w' /\ signals w' = signals w /\
    starts w' = starts w ++ match e with None => [(bin, args)] | Some _ => [] end;
  law_request s r w : let w' := (sy_Request sys s r w).2 in clock w <= clock w' /\ starts w' = starts w /\ signals w' = signals w;
  law_signal pid sig w : let w' := (sy_Signal sys pid sig w).2 in clock w <= clock w' /\ starts w' = starts w /\
    signals w' = signals w ++ (if sig =? 0 then [] else [(pid, sig)]);
  law_run bin args w : let w' := (sy_Run sys bin args w).2 in clock w <= clock w' /\ starts w' = starts w /\ signals w' = signals w
}.

(** [w'] comes after [w], with nothing started or signalled in between. *)
Definition later {W} (clock : W -> Time) (starts : W -> list (string * list string)) (signals : W -> list (Z * Z)) (w w' : W) : Prop :=
  clock w <= clock w' /\ starts w' = starts w /\ signals w' = signals w.

Section Facts.
Context {json : JSON} {W : Type} (sys : System W) (clock : W -> Time) (starts : W -> list (string * list string)) (signals : W -> list (Z * Z)).
Context {laws : SystemLaws sys clock starts signals} (env : Env) (arg0 : string) (status_line : Z -> string).
Let after := later clock starts signals.

Lemma after_refl w : after w w.
Proof. by split_and!. Qed.

Lemma after_trans w1 w2 w3 : after w1 w2 -> after w2 w3 -> after w1 w3.
Proof. intros (H1 & H2 & H3) (H4 & H5 & H6). split_and!; [lia|congruence..]. Qed.

Lemma dial_after s w e w' : sy_Dial sys s w = (e, w') -> after w w'.
Proof. intros H. pose proof (law_dial s w) as Hl. by rewrite H in Hl. Qed.

Lemma now_after w t w' : sy_Now sys w = (t, w') -> after w w' /\ clock w <= t <= clock w'.
Proof. intros H. pose proof (law_now w) as Hl. rewrite H in Hl. destruct Hl as (? & ? & ?). split; [|done]. split_and!; [lia|done..]. Qed.

Lemma request_after s r w a w' : sy_Request sys s r w = (a, w') -> after w w'.
Proof. intros H. pose proof (law_request s r w) as Hl. by rewrite H in Hl. Qed.

Lemma follow_after s n m r w a w' : follow n m (sy_Request sys s) r w = (a, w') -> after w w'.
Proof.
  revert r w. induction n as [|n IH]; intros r w; cbn [follow]; destruct (sy_Request sys s r w) as [b w1] eqn:Hr; apply request_after in Hr;
    destruct b as [[]|]; try (intros [= _ <-]; exact Hr); (destruct (location =?s ""); [intros [= _ <-]; exact Hr|]).
  - by intros [= _ <-].
  - intros H. eapply after_trans; [exact Hr|by eapply IH].
Qed.

Lemma run_after bin args w r w' : sy_Run sys bin args w = (r, w') -> after w w'.
Proof. intros H. pose proof (law_run bin args w) as Hl. by rewrite H in Hl. Qed.

Lemma status_after c w r w' : client_Status sys status_line c w = (r, w') -> after w w'.
Proof.
  unfold client_Status, client_do. destruct (newRequest c_Status) as [q|e]; [|intros [= _ <-]; apply after_refl].
  destruct (follow _ _ _ _ _) as [a w1] eqn:Hr. intros [= _ <-]. by eapply follow_after.
Qed.

(** *** The wait for the socket *)

(** The polls of the wait: [k] in vain, and then the end. *)
Inductive polls (c : ClientState) (deadline : Time) : W -> nat -> option error -> W -> Prop :=
| polls_up w w1 : sy_Dial sys (cl_socket c) w = (None, w1) -> polls c deadline w 0 None w1
| polls_late w e w1 t w2 : sy_Dial sys (cl_socket c) w = (Some e, w1) -> sy_Now sys w1 = (t, w2) -> deadline < t ->
    polls c deadline w 0 (Some e) w2
| polls_wait w e w1 t w2 k r w' : sy_Dial sys (cl_socket c) w = (Some e, w1) -> sy_Now sys w1 = (t, w2) -> t <= deadline ->
    polls c deadline (sy_Sleep sys poll_gap w2) k r w' -> polls c deadline w (S k) r w'.

Lemma polls_after c deadline w k r w' : polls c deadline w k r w' -> after w w' /\ (r <> None -> deadline < clock w').
Proof.
  induction 1 as [w w1 Hd|w e w1 t w2 Hd Ht Hlt|w e w1 t w2 k r w' Hd Ht Hle _ [IH1 IH2]].
  - split; [by eapply dial_after|done].
  - apply dial_after in Hd. apply now_after in Ht as [Ht ?]. split; [by eapply after_trans|]. intros _. lia.
  - apply dial_after in Hd. apply now_after in Ht as [Ht ?]. split; [|done]. eapply after_trans; [exact Hd|]. eapply after_trans; [exact Ht|].
    eapply after_trans; [|exact IH1]. pose proof (law_sleep poll_gap w2) as (H1 & H2 & H3). assert (0 < poll_gap) by done. split_and!; [lia|done..].
Qed.

Lemma wait_polls c deadline n : forall w, deadline - clock w < Z.of_nat n * poll_gap ->
  exists k r w', polls c deadline w k r w' /\ (k <= n)%nat /\
    wait_socket sys env (S n) c deadline w = Some (option_map (did_not_appear env c) r, w').
Proof.
  induction n as [|n IH]; intros w Hn; cbn [wait_socket]; unfold reachable; destruct (sy_Dial sys (cl_socket c) w) as [[e|] w1] eqn:Hd.
  2,4: exists 0%nat, None, w1; split_and!; [by constructor|lia|done].
  all: pose proof (dial_after _ _ _ _ Hd) as (Hc & _); destruct (sy_Now sys w1) as [t w2] eqn:Ht; destruct (now_after _ _ _ Ht) as [(Hc' & _) Hb].
  all: unfold time_After; destruct (Z.ltb_spec deadline t) as [Hlt|Hle];
    [exists 0%nat, (Some e), w2; split_and!; [by eapply polls_late|lia|done]|].
  - lia.
  - pose proof (law_sleep poll_gap w2) as (Hs & _). destruct (IH (sy_Sleep sys poll_gap w2) ltac:(lia)) as (k & r & w' & Hp & Hk & Hw).
    exists (S k), r, w'. split_and!; [by eapply polls_wait|lia|exact Hw].
Qed.

Lemma wait_more c deadline n : forall m w r, wait_socket sys env n c deadline w = Some r -> (n <= m)%nat -> wait_socket sys env m c deadline w = Some r.
Proof.
  induction n as [|n IH]; intros m w r; [done|]. destruct m as [|m]; [lia|]. cbn [wait_socket]. destruct (reachable sys c w) as [[e|] w1]; [|done].
  destruct (sy_Now sys w1) as [t w2]. destruct (time_After t deadline); [done|]. intros H Hm. apply IH; [done|lia].
Qed.

(** *** The start *)

Definition daemon_bin (c : ClientState) (w : W) : result error string :=
  if cl_daemonPath c =?s "" then FindDaemon sys env arg0 w else Ok (cl_daemonPath c).

(** The three steps of a start, of which each may fail. *)
Inductive spawned (c : ClientState) (bin : string) (w : W) : option error -> W -> Prop :=
| sp_no_dir e w1 : sy_MkdirAll sys (StateDir env) w = (Some e, w1) -> spawned c bin w (Some (wrapE "client: log dir" e)) w1
| sp_no_log w1 e w2 : sy_MkdirAll sys (StateDir env) w = (None, w1) -> sy_OpenAppend sys (path_Join [StateDir env; "bnmd.log"]) w1 = (Some e, w2) ->
    spawned c bin w (Some (wrapE "client: open log" e)) w2
| sp_start w1 w2 e w3 : sy_MkdirAll sys (StateDir env) w = (None, w1) -> sy_OpenAppend sys (path_Join [StateDir env; "bnmd.log"]) w1 = (None, w2) ->
    sy_Start sys bin ["--socket"; cl_socket c] w2 = (e, w3) -> spawned c bin w (option_map (wrapE ("client: start " +:+ bin)) e) w3.

Lemma spawn_starts c w : let '(e, w') := spawn sys env arg0 c w in
  match daemon_bin c w with
  | Err e0 => e = Some e0 /\ w' = w
  | Ok bin => spawned c bin w e w' /\ clock w <= clock w' /\ signals w' = signals w /\
      starts w' = starts w ++ match e with None => [(bin, ["--socket"; cl_socket c])] | Some _ => [] end
  end.
Proof.
  unfold spawn. fold (daemon_bin c w). destruct (daemon_bin c w) as [bin|e]; [|done].
  pose proof (law_mkdir (StateDir env) w) as H1. destruct (sy_MkdirAll sys (StateDir env) w) as [[e|] w1] eqn:E1; cbn [snd] in H1.
  { destruct H1 as (? & ? & ?). rewrite app_nil_r. by split; [constructor|]. }
  pose proof (law_open (path_Join [StateDir env; "bnmd.log"]) w1) as H2. destruct (sy_OpenAppend sys _ w1) as [[e|] w2] eqn:E2; cbn [snd] in H2;
    destruct (after_trans _ _ _ H1 H2) as (T1 & T2 & T3).
  { rewrite app_nil_r. by split; [by eapply sp_no_log|]. }
  pose proof (law_start bin ["--socket"; cl_socket c] w2) as H3. destruct (sy_Start sys _ _ w2) as [e w3] eqn:E3; destruct H3 as (H3 & H4 & H5).
  split; [pose proof (sp_start _ _ _ _ _ _ _ E1 E2 E3) as Hs; by destruct e|]. split; [lia|]. split; [congruence|]. rewrite H5. by destruct e; congruence.
Qed.

(** As many polls as fit in the time to wait, and two more. *)
Definition start_fuel (c : ClientState) : nat := S (S (Z.to_nat (cl_startTimeout c / poll_gap))).

Definition configured (opts : list Option_) : ClientState :=
  fold_left (fun c o => o c) opts (mkClientState (Socket_path env) true "" DefaultStartTimeout true false).

(** The end of [New] on a socket that answers: the client, unless its version is
    asked for and is another one or not told. *)
Definition greeted (c : ClientState) (w : W) (r : result error ClientState) (w' : W) : Prop :=
  if cl_checkVersion c then
    let '(st, w1) := client_Status sys status_line c w in
    w' = w1 /\ r = match st with
                   | Err e => Err (wrapE "client: status" e)
                   | Ok st => if sr_APIVersion st =? APIVersion then Ok c
                              else Err (EVersionMismatch (sr_APIVersion st) APIVersion (API.sr_Version st))
                   end
  else w' = w /\ r = Ok c.

(** What [client.New] comes to, from [w] to [w']. *)
Definition new_outcome (c : ClientState) (w : W) (r : result error ClientState) (w' : W) : Prop :=
  clock w <= clock w' /\ signals w' = signals w /\
  match sy_Dial sys (cl_socket c) w with
  | (None, w1) => starts w' = starts w /\ greeted c w1 r w'
  | (Some e, w1) =>
      if cl_autoStart c then
        match daemon_bin c w1 with
        | Err e0 => starts w' = starts w /\ r = Err (ENotRunning (cl_socket c) e0)
        | Ok bin =>
            exists e2 w2, spawned c bin w1 e2 w2 /\
            match e2 with
            | Some e2 => starts w' = starts w /\ r = Err (ENotRunning (cl_socket c) e2)
            | None =>
                starts w' = starts w ++ [(bin, ["--socket"; cl_socket c])] /\
                exists t w3 k e3 w4, sy_Now sys w2 = (t, w3) /\ polls (set_started c) (t + cl_startTimeout c) w3 k e3 w4 /\
                  (k <= Z.to_nat (cl_startTimeout c / poll_gap) + 1)%nat /\
                  match e3 with
                  | None => greeted (set_started c) w4 r w'
                  | Some e3 => r = Err (did_not_appear env (set_started c) e3) /\ clock w + cl_startTimeout c < clock w'
                  end
            end
        end
      else starts w' = starts w /\ r = Err (ENotRunning (cl_socket c) e)
  end.

Lemma new_greeted c w :
  exists r w', (if cl_checkVersion c then
      let '(st, w) := client_Status sys status_line c w in
      match st with
      | Err e => Some (Err (wrapE "client: status" e), w)
      | Ok st => if negb (sr_APIVersion st =? APIVersion) then Some (Err (EVersionMismatch (sr_APIVersion st) APIVersion (API.sr_Version st)), w) else Some (Ok c, w)
      end
    else Some (Ok c, w)) = Some (r, w') /\ greeted c w r w' /\ after w w'.
Proof.
  unfold greeted. destruct (cl_checkVersion c); [|exists (Ok c), w; split_and!; try done; lia].
  destruct (client_Status sys status_line c w) as [st w1] eqn:Hq. apply status_after in Hq.
  destruct st as [st|e]; [|by eexists _, w1]. destruct (sr_APIVersion st =? APIVersion); by eexists _, w1.
Qed.

Lemma new_ends opts w n : (start_fuel (configured opts) <= n)%nat \/ cl_autoStart (configured opts) = false ->
  exists r w', client_New sys env arg0 status_line n opts w = Some (r, w') /\ new_outcome (configured opts) w r w'.
Proof.
  intros Hn. unfold client_New. fold (configured opts). generalize dependent (configured opts). intros c Hn. unfold ensureRunning, reachable, new_outcome.
  destruct (sy_Dial sys (cl_socket c) w) as [[e|] w1] eqn:Hd; pose proof (dial_after _ _ _ _ Hd) as (D1 & D2 & D3).
  2:{ destruct (new_greeted c w1) as (r & w' & Hr & Hg & A1 & A2 & A3). exists r, w'. split; [exact Hr|]. split_and!; [lia|congruence|congruence|done]. }
  destruct (cl_autoStart c) eqn:Ha; cbn [negb]; [|by eexists _, w1]. destruct Hn as [Hn|?]; [|done].
  pose proof (spawn_starts c w1) as H. destruct (spawn sys env arg0 c w1) as [e2 w2].
  destruct (daemon_bin c w1) as [bin|e0]; [destruct H as (Hsp & S1 & S2 & S3)|destruct H as [-> ->]; by eexists _, w1].
  destruct e2 as [e2|].
  { rewrite app_nil_r in S3. eexists _, w2. split; [done|]. split_and!; [lia|congruence|]. exists (Some e2), w2. split_and!; [done|congruence|done]. }
  destruct (sy_Now sys w2) as [t w3] eqn:Ht. destruct (now_after _ _ _ Ht) as [(T1 & T2 & T3) Tb].
  destruct n as [|n]; [unfold start_fuel in Hn; lia|]. change (cl_startTimeout (set_started c)) with (cl_startTimeout c).
  destruct (wait_polls (set_started c) (time_Add t (cl_startTimeout c)) (Z.to_nat (cl_startTimeout c / poll_gap) + 1) w3) as (k & r' & w4 & Hp & Hk & Hw).
  { unfold time_Add. pose proof (Z.div_mod (cl_startTimeout c) poll_gap ltac:(done)).
    pose proof (Z.mod_pos_bound (cl_startTimeout c) poll_gap ltac:(done)). nia. }
  rewrite (wait_more _ _ (S (Z.to_nat (cl_startTimeout c / poll_gap) + 1)) (S n) _ _ Hw) by (unfold start_fuel in Hn; lia).
  destruct (polls_after _ _ _ _ _ _ Hp) as [(P1 & P2 & P3) Pb].
  destruct r' as [e3|]; cbn [option_map].
  - eexists _, w4. split; [done|]. split_and!; [lia|congruence|]. exists None, w2. split; [done|]. split; [congruence|].
    exists t, w3, k, (Some e3), w4. split_and!; [done..|]. specialize (Pb ltac:(done)). unfold time_Add in *. lia.
  - destruct (new_greeted (set_started c) w4) as (r & w' & Hr & Hg & A1 & A2 & A3). exists r, w'. split; [exact Hr|]. split_and!; [lia|congruence|].
    exists None, w2. split; [done|]. split; [congruence|]. by exists t, w3, k, None, w4.
Qed.

(** A client that does not start the daemon: it ends whatever the fuel. *)
Lemma new_without opts w n : cl_autoStart (configured opts) = false ->
  exists r w', client_New sys env arg0 status_line n opts w = Some (r, w') /\ new_outcome (configured opts) w r w' /\ after w w'.
Proof.
  intros Ha. destruct (new_ends opts w n (or_intror Ha)) as (r & w' & Hr & Ho). exists r, w'. split; [done|]. split; [done|].
  destruct Ho as (H1 & H2 & H3). rewrite Ha in H3. destruct (sy_Dial sys _ w) as [[e|] w1]; destruct H3 as [H3 _]; by split_and!.
Qed.
End Facts.

(** ** A small system *)

(** The time, the programs started, the signals sent, and whether the socket answers. *)
Record tiny_world := mkTiny { tw_clock : Time; tw_starts : list (string * list string); tw_signals : list (Z * Z) }.

(** bnmd answers 120 ms after it was started; the pid file names process 4242. *)
Definition tiny_system : System tiny_world :=
  mkSystem tiny_world
    (fun s w => (match tw_starts w with [] => Some (ELeaf "connection refused") | _ => if tw_clock w <? 120 * millisecond then Some (ELeaf "connection refused") else None end, w))
    (fun w => (tw_clock w, w))
    (fun d w => mkTiny (tw_clock w + Z.max d 0) (tw_starts w) (tw_signals w))
    (fun _ => Some "/usr/bin/bnm") (fun _ _ => None) (fun p _ => p =?s "/usr/bin/bnmd") (fun _ _ => Err (ELeaf "not found"))
    (fun _ w => (None, w)) (fun _ w => (None, w))
    (fun bin args w => (None, mkTiny (tw_clock w) (tw_starts w ++ [(bin, args)]) (tw_signals w)))
    (fun _ _ w => (NotCarried true "connection refused", w))
    (fun _ _ => Ok ("4242" +:+ eol)) (fun _ _ => false)
    (fun pid sig w => (if existsb (fun s => s.2 =? SIGTERM) (tw_signals w) then Some (ESentinel "syscall.ESRCH" "no such process") else None,
                       mkTiny (tw_clock w) (tw_starts w) (tw_signals w ++ if sig =? 0 then [] else [(pid, sig)])))
    (fun _ _ w => (("", None), w)).

#[export] Instance tiny_system_laws : SystemLaws tiny_system tw_clock tw_starts tw_signals.
Proof. split; intros; cbn; repeat split; try lia; by rewrite ?app_nil_r. Qed.

Definition tiny_env : Env := mkEnv (fun k => if k =?s "XDG_RUNTIME_DIR" then "/run/user/7" else "") "/tmp" 7 (Some "/home/u").

(** C35: Connecting to the daemon.  [client.New] always returns, after at most
    one poll per 50 ms of its timeout and two more, and signals nobody.  When
    somebody answers at the socket nothing is started.  When nobody does, and it
    may not start bnmd, or finds no program, or cannot make the directory or the
    log or start the program, nothing is started and the error is not running,
    with exactly that cause; otherwise bnmd is started, exactly once, with that
    socket, and the socket polled until it answers, or until the timeout has
    passed, which is the error then.  On a socket that answers the result is a
    client that says whether it started the daemon, unless it looks at the API
    version: then it is a version mismatch when that is another one, and the
    error of the status call when that fails. *)
Theorem client_starts_once {json : JSON} {W} (sys : System W) clock starts signals (laws : SystemLaws sys clock starts signals) env arg0 status_line opts w n :
  (start_fuel (configured env opts) <= n)%nat ->
  exists r w', client_New sys env arg0 status_line n opts w = Some (r, w') /\
    new_outcome sys clock starts signals env arg0 status_line (configured env opts) w r w'.
Proof. intros Hn. apply new_ends; [done|by left]. Qed.

Definition no_json : JSON := {| Marshal := fun _ _ _ => Err ""; Unmarshal := fun _ _ _ => Err ""; UnmarshalStrict := fun _ _ _ => Err "" |}.

(** The daemon is started and answers at the fourth poll. *)
Lemma client_starts_once_witness :
  let opts := [WithStartTimeout (500 * millisecond); WithVersionCheck false] in
  exists c w', client_New (json := no_json) tiny_system tiny_env "bnm" (fun _ => "") 12 opts (mkTiny 0 [] []) = Some (Ok c, w') /\
    cl_started c = true /\ tw_clock w' = 150 * millisecond /\ tw_starts w' = [("/usr/bin/bnmd", ["--socket"; "/run/user/7/bnm/bnmd.sock"])] /\
    new_outcome (json := no_json) tiny_system tw_clock tw_starts tw_signals tiny_env "bnm" (fun _ => "") (configured tiny_env opts) (mkTiny 0 [] []) (Ok c) w'.
Proof.
  intros opts.
  destruct (client_starts_once (json := no_json) tiny_system tw_clock tw_starts tw_signals tiny_system_laws tiny_env "bnm" (fun _ => "") opts (mkTiny 0 [] []) 12
    ltac:(vm_compute; lia)) as (r & w' & Hr & Ho).
  vm_compute in Hr. injection Hr as <- <-. eexists _, _. split; [vm_compute; reflexivity|]. split; [reflexivity|]. split; [reflexivity|]. split; [reflexivity|]. exact Ho.
Defined.

(** * Stopping bnmd: who is signalled, when the wait ends, what the exit codes say. *)

Section Facts.
Context {json : JSON} {W : Type} (sys : System W) (clock : W -> Time) (starts : W -> list (string * list string)) (signals : W -> list (Z * Z)).
Context {laws : SystemLaws sys clock starts signals} (env : Env) (arg0 : string) (status_line : Z -> string) (fuel : nat).
Let after := later clock starts signals.
Let probe := probe sys env arg0 status_line fuel.

(** The process the pid file names, and which is there. *)
Definition pid_recorded (socket : string) (w : W) (pid : Z) : Prop :=
  exists data, sy_ReadFile sys (pidFile socket) w = Ok data /\ Atoi (TrimSpace data) = Some pid /\ 0 < pid /\
    (forall e, (sy_Signal sys pid 0 w).1 = Some e -> errors_Is (Some e) (ESentinel "syscall.EPERM" "operation not permitted") = true).

Lemma signal0_after pid w e w' : sy_Signal sys pid 0 w = (e, w') -> after w w'.
Proof. intros H. pose proof (law_signal pid 0 w) as (H1 & H2 & H3). rewrite H in *. cbn in *. rewrite app_nil_r in H3. by split_and!. Qed.

Lemma readPID_spec socket w pid w' : readPID sys socket w = (pid, w') ->
  after w w' /\ forall q, pid_recorded socket w q <-> (pid = q /\ pid <> 0).
Proof.
  unfold readPID, pid_recorded. pose proof (after_refl clock starts signals w) as Hrefl.
  destruct (sy_ReadFile sys (pidFile socket) w) as [data|e].
  2:{ intros [= <- <-]. split; [done|]. intros q. split; [by intros (d & [=] & _)|by intros [_ ?]]. }
  destruct (Atoi (TrimSpace data)) as [n|] eqn:Ha.
  2:{ intros [= <- <-]. split; [done|]. intros q. split; [intros (d & [= <-] & Hd & _); congruence|by intros [_ ?]]. }
  destruct (Z.leb_spec n 0) as [Hq|Hq].
  { intros [= <- <-]. split; [done|]. intros q. split; [intros (d & [= <-] & Hd & Hp & _); assert (q = n) as -> by congruence; lia|by intros [_ ?]]. }
  destruct (sy_Signal sys n 0 w) as [e w1] eqn:Hs. pose proof (signal0_after _ _ _ _ Hs) as Hw.
  assert (forall (live : bool), (forall e', e = Some e' -> errors_Is (Some e') (ESentinel "syscall.EPERM" "operation not permitted") = live) -> (e = None -> live = true) ->
    forall q, (exists d, @Ok error string data = Ok d /\ Atoi (TrimSpace d) = Some q /\ 0 < q /\
      (forall e, (sy_Signal sys q 0 w).1 = Some e -> errors_Is (Some e) (ESentinel "syscall.EPERM" "operation not permitted") = true)) <->
      ((if live then n else 0) = q /\ (if live then n else 0) <> 0)) as H.
  { intros live H1 H2 q. split.
    - intros (d & [= <-] & Hd & Hp & Hl). assert (q = n) as -> by congruence. rewrite Hs in Hl. cbn [fst] in Hl. destruct e as [e|].
      + rewrite <- (H1 e eq_refl), (Hl e eq_refl). split; [done|lia].
      + rewrite (H2 eq_refl). split; [done|lia].
    - destruct live; [|by intros [_ ?]]. intros [<- _]. exists data. split_and!; [done..|]. rewrite Hs. cbn [fst]. exact H1. }
  destruct e as [e|].
  - destruct (errors_Is (Some e) _) eqn:He; intros [= <- <-]; (split; [done|]); [apply (H true)|apply (H false)]; try done; by intros e' [= <-].
  - intros [= <- <-]. split; [done|]. by apply (H true).
Qed.

(** A daemon that answers: its socket, and then its status. *)
Definition answers (a : app) (w w' : W) : Prop :=
  exists c w2 st, configured env [WithSocket (a_socket a); WithAutoStart false; WithVersionCheck false] = c /\
    sy_Dial sys (a_socket a) w = (None, w2) /\ client_Status sys status_line c w2 = (Ok st, w').

Lemma probe_spec a w : exists info w1 w', probe a w = Some (info, w') /\ after w w' /\ readPID sys (a_socket a) w = (di_PID info, w1) /\
  (di_Running info = true <-> answers a w1 w').
Proof.
  subst probe. unfold DaemonCtl.probe, answers. destruct (readPID sys (a_socket a) w) as [pid w1] eqn:Hp. destruct (readPID_spec _ _ _ _ Hp) as [Ha _].
  set (opts := [WithSocket (a_socket a); WithAutoStart false; WithVersionCheck false]). set (c := configured env opts).
  destruct (new_without sys clock starts signals env arg0 status_line opts w1 fuel eq_refl) as (r & w2 & -> & (_ & _ & Ho) & Hw).
  assert (after w w2) as Hw2 by by eapply after_trans. change (configured env opts) with c in Ho. change (cl_socket c) with (a_socket a) in Ho.
  change (cl_autoStart c) with false in Ho. destruct (sy_Dial sys (a_socket a) w1) as [[e|] w3] eqn:Hd.
  - destruct Ho as [_ ->]. eexists _, w1, w2. split_and!; [done..|]. split; [done|]. intros (? & ? & ? & _ & H & _). congruence.
  - destruct Ho as [_ [-> ->]]. destruct (client_Status sys status_line c w3) as [st w4] eqn:Hst.
    pose proof (status_after sys clock starts signals status_line _ _ _ _ Hst) as Hw4. assert (after w w4) as Hw' by by eapply after_trans.
    destruct st as [st|e]; eexists _, w1, w4; (split_and!; [done..|]).
    + split; [|done]. intros _. by exists c, w3, st.
    + split; [done|]. intros (? & ? & ? & <- & H1 & H2). rewrite Hd in H1. injection H1 as <-. by rewrite H2 in Hst.
Qed.

(** *** The wait for the end *)

(** A poll that finds the daemon gone: it does not answer, and the system has an
    error for its process, if one is known. *)
Definition found_gone (a : app) (pid : Z) (w w' : W) : Prop :=
  exists info w1, probe a w = Some (info, w1) /\ di_Running info = false /\
    if pid =? 0 then w' = w1 else exists e, sy_Signal sys pid 0 w1 = (Some e, w').

(** ... and one that finds it there. *)
Definition found_there (a : app) (pid : Z) (w w' : W) : Prop :=
  exists info w1, probe a w = Some (info, w1) /\
    if di_Running info then w' = w1 else pid <> 0 /\ sy_Signal sys pid 0 w1 = (None, w').

Definition did_not_exit (pid : Z) : error := Errorf KindInternal "" ("bnmd (pid " +:+ Itoa pid +:+ ") did not exit within " +:+ Duration_String stopWait).

(** The polls of the wait: those that find it there, and then the end. *)
Inductive stop_polls (a : app) (pid : Z) (deadline : Time) : W -> nat -> result error string -> W -> Prop :=
| stp_gone w t w1 w2 : sy_Now sys w = (t, w1) -> t < deadline -> found_gone a pid w1 w2 -> stop_polls a pid deadline w 1 (Ok "bnmd stopped") w2
| stp_late w t w1 : sy_Now sys w = (t, w1) -> deadline <= t -> stop_polls a pid deadline w 0 (Err (did_not_exit pid)) w1
| stp_wait w t w1 w2 k r w' : sy_Now sys w = (t, w1) -> t < deadline -> found_there a pid w1 w2 ->
    stop_polls a pid deadline (sy_Sleep sys stop_gap w2) k r w' -> stop_polls a pid deadline w (S k) r w'.

(** A poll, whatever it finds. *)
Lemma poll_once a pid w : exists (gone : bool) w1 info w2, probe a w = Some (info, w1) /\ after w w2 /\
  (if di_Running info then (false, w1) else if pid =? 0 then (true, w1) else let '(e, w) := sy_Signal sys pid 0 w1 in (is_some e, w)) = (gone, w2) /\
  (if gone then found_gone a pid w w2 else found_there a pid w w2).
Proof.
  destruct (probe_spec a w) as (info & w0 & w1 & Hp & Hw1 & _). unfold found_gone, found_there.
  destruct (di_Running info) eqn:Hr.
  { exists false, w1, info, w1. rewrite Hr. do 3 (split; [done|]). exists info, w1. by rewrite Hr. }
  destruct (pid =? 0) eqn:Hpid.
  { exists true, w1, info, w1. rewrite Hr. do 3 (split; [done|]). by exists info, w1. }
  destruct (sy_Signal sys pid 0 w1) as [e w2] eqn:Hs. pose proof (signal0_after _ _ _ _ Hs) as Hw2. exists (is_some e), w1, info, w2. rewrite Hr, Hs.
  do 2 (split; [try done; by eapply after_trans|]). split; [done|]. destruct e as [e|]; exists info, w1; rewrite Hr; (split; [done|]).
  - split; [done|]. by exists e.
  - split; [|done]. by apply Z.eqb_neq.
Qed.

Lemma wait_stopped_ends a pid deadline n : forall w, deadline - clock w <= Z.of_nat n * stop_gap ->
  exists k r w', wait_stopped sys env arg0 status_line fuel (S n) a pid deadline w = Some (r, w') /\ after w w' /\
    stop_polls a pid deadline w k r w' /\ (k <= n)%nat /\ (is_ok r = false -> deadline <= clock w').
Proof.
  induction n as [|n IH]; intros w Hn; cbn [wait_stopped]; destruct (sy_Now sys w) as [t w1] eqn:Ht;
    destruct (now_after sys clock starts signals _ _ _ Ht) as [Hw1 Hb]; unfold time_Before; destruct (Z.ltb_spec t deadline) as [Hlt|Hge]; cbn [negb].
  1: lia.
  1,3: eexists 0%nat, _, w1; split; [done|]; split; [exact Hw1|]; split; [by eapply stp_late|]; split; [lia|]; intros _; lia.
  destruct (poll_once a pid w1) as (gone & w2 & info & w3 & Hp & Hw3 & Hg & Hf).
  change (DaemonCtl.probe sys env arg0 status_line fuel a w1) with (probe a w1). rewrite Hp, Hg.
  assert (after w w3) as Hw by by eapply after_trans.
  destruct gone; [eexists 1%nat, _, w3; split; [done|]; split; [done|]; split; [by eapply stp_gone|]; split; [lia|done]|].
  pose proof (law_sleep stop_gap w3) as Hs. destruct Hw as (Hc & Hw), Hs as (Hsc & Hs).
  assert (0 < stop_gap) by done. destruct Hw1 as (Hc1 & _), Hw3 as (Hc3 & _).
  destruct (IH (sy_Sleep sys stop_gap w3)) as (k & r & w' & Heq & Hw' & Hr & Hk & Hl); [lia|].
  exists (S k), r, w'. split; [exact Heq|]. split; [|split; [by eapply stp_wait|split; [lia|done]]].
  eapply after_trans; [|exact Hw']. destruct Hw, Hs. split_and!; [lia|congruence..].
Qed.

Lemma stopped_more a pid deadline n : forall m w r, wait_stopped sys env arg0 status_line fuel n a pid deadline w = Some r -> (n <= m)%nat ->
  wait_stopped sys env arg0 status_line fuel m a pid deadline w = Some r.
Proof.
  induction n as [|n IH]; intros m w r; [done|]. destruct m as [|m]; [lia|]. cbn [wait_stopped]. destruct (sy_Now sys w) as [t w1].
  destruct (negb (time_Before t deadline)); [done|]. destruct (DaemonCtl.probe _ _ _ _ _ _ _) as [[p w2]|]; [|done].
  destruct (if di_Running p then _ else _) as [gone w3]. destruct gone; [done|]. intros H Hm. apply IH; [done|lia].
Qed.

(** As many polls as fit in the time to wait, and one more. *)
Definition stop_fuel : nat := S (Z.to_nat (stopWait / stop_gap)).

Lemma unitState_after w s w' : unitState sys w = (s, w') -> after w w'.
Proof.
  unfold unitState. destruct (haveSystemctl sys w); cbn [negb]; [|intros [= _ <-]; by apply after_refl].
  destruct (sy_Run sys _ _ w) as [[out e] w1] eqn:Hr. apply (run_after sys clock starts signals) in Hr. by intros [= _ <-].
Qed.

Lemma systemctl_after args w e w' : systemctl sys args w = (e, w') -> after w w'.
Proof.
  unfold systemctl. destruct (sy_Run sys _ _ w) as [[out err] w1] eqn:Hr. apply (run_after sys clock starts signals) in Hr. by intros [= _ <-].
Qed.

(** The wait of a stop, from [w3] on, for the process of [pid]. *)
Definition awaited (a : app) (pid : Z) (w3 : W) (r : result error string) (w' : W) : Prop :=
  exists t w4 k, sy_Now sys w3 = (t, w4) /\ stop_polls a pid (t + stopWait) w4 k r w' /\ (k <= 50)%nat /\
    (is_ok r = false -> clock w3 + stopWait <= clock w').

(** What a stop comes to; [pid] is the process of the pid file, or 0. *)
Definition stop_outcome (a : app) (w : W) (r : result error string) (w' : W) : Prop :=
  starts w' = starts w /\ clock w <= clock w' /\
  exists info w1, probe a w = Some (info, w1) /\
  let pid := di_PID info in
  if negb (di_Running info) && (pid =? 0) then r = Ok "bnmd is not running" /\ w' = w1 /\ signals w' = signals w
  else
    let '(state, w2) := unitState sys w1 in
    if (state =?s "active") && (a_socket a =?s Socket_path env) then
      signals w' = signals w /\
      match systemctl sys ["stop"; unitName] w2 with
      | (Some e, w3) => r = Err e /\ w' = w3
      | (None, w3) => awaited a pid w3 r w'
      end
    else if pid =? 0 then
      signals w' = signals w /\ w' = w2 /\
      r = Err (Errorf KindNotFound "kill it by hand: pkill -x bnmd"
                 ("bnmd answers on " +:+ a_socket a +:+ " but its pid file " +:+ pidFile (a_socket a) +:+ " is missing or stale"))
    else
      signals w' = signals w ++ [(pid, SIGTERM)] /\
      match sy_Signal sys pid SIGTERM w2 with
      | (Some e, w3) => w' = w3 /\ r = Err (ECore None KindPermission "" "" (Some (wrapE ("signal pid " +:+ Itoa pid) e)))
      | (None, w3) => awaited a pid w3 r w'
      end.

Lemma stop_waits a pid n w3 : (stop_fuel <= n)%nat ->
  exists r w', (let '(now, w4) := sy_Now sys w3 in wait_stopped sys env arg0 status_line fuel n a pid (time_Add now stopWait) w4) = Some (r, w') /\
    awaited a pid w3 r w' /\ after w3 w'.
Proof.
  intros Hn. unfold awaited. destruct (sy_Now sys w3) as [now w4] eqn:Ht. destruct (now_after sys clock starts signals _ _ _ Ht) as [Hw Hb].
  destruct (wait_stopped_ends a pid (time_Add now stopWait) 50 w4) as (k & r & w' & Heq & Hw' & Hp & Hk & Hl).
  { unfold time_Add. change stopWait with (50 * stop_gap). lia. }
  exists r, w'. split; [eapply stopped_more; [exact Heq|unfold stop_fuel in Hn; change (stopWait / stop_gap) with 50 in Hn; lia]|].
  split; [|by eapply after_trans]. exists now, w4, k. split_and!; [done..|]. intros He. specialize (Hl He). unfold time_Add in Hl. lia.
Qed.

Lemma stop_ends a w n : (stop_fuel <= n)%nat ->
  exists r w', stopDaemon sys env arg0 status_line fuel n a w = Some (r, w') /\ stop_outcome a w r w'.
Proof.
  intros Hn. unfold stopDaemon, stop_outcome. destruct (probe_spec a w) as (info & w0 & w1 & Hp & (A1 & A2 & A3) & _).
  change (DaemonCtl.probe sys env arg0 status_line fuel a w) with (probe a w). rewrite Hp. cbv zeta.
  destruct (negb (di_Running info) && (di_PID info =? 0)) eqn:Hdown.
  { eexists _, w1. split; [done|]. split_and!; [done|done|]. exists info, w1. by rewrite Hdown. }
  destruct (unitState sys w1) as [state w2] eqn:Hu. destruct (unitState_after _ _ _ Hu) as (B1 & B2 & B3).
  destruct ((state =?s "active") && (a_socket a =?s Socket_path env)) eqn:Hunit.
  { destruct (systemctl sys ["stop"; unitName] w2) as [e w3] eqn:Hs. destruct (systemctl_after _ _ _ _ Hs) as (S1 & S2 & S3). destruct e as [e|].
    - eexists _, w3. split; [done|]. split_and!; [congruence|lia|]. exists info, w1. rewrite Hdown, Hu, Hunit, Hs. split_and!; [done|congruence|done..].
    - destruct (stop_waits a (di_PID info) n w3 Hn) as (r & w' & Heq & Hw & C1 & C2 & C3). exists r, w'. split; [exact Heq|].
      split_and!; [congruence|lia|]. exists info, w1. rewrite Hdown, Hu, Hunit, Hs. split_and!; [done|congruence|done]. }
  destruct (di_PID info =? 0) eqn:H0.
  { eexists _, w2. split; [done|]. split_and!; [congruence|lia|]. exists info, w1. rewrite H0, Hdown, Hu, Hunit. split_and!; [done|congruence|done..]. }
  pose proof (law_signal (di_PID info) SIGTERM w2) as (G1 & G2 & G3). cbn [SIGTERM Z.eqb] in G3.
  destruct (sy_Signal sys (di_PID info) SIGTERM w2) as [e w3] eqn:Hs. cbn [snd] in *.
  assert (signals w3 = signals w ++ [(di_PID info, SIGTERM)]) as G4 by (rewrite G3; cbn; congruence). destruct e as [e|].
  - eexists _, w3. split; [done|]. split_and!; [congruence|lia|]. exists info, w1. rewrite H0, Hdown, Hu, Hunit, Hs. split_and!; done.
  - destruct (stop_waits a (di_PID info) n w3 Hn) as (r & w' & Heq & Hw & C1 & C2 & C3). exists r, w'. split; [exact Heq|].
    split_and!; [congruence|lia|]. exists info, w1. rewrite H0, Hdown, Hu, Hunit, Hs. split_and!; [done|congruence|done].
Qed.
End Facts.

(** A system whose bnmd runs as a service and whose pid file names a process
    that this user may not signal. *)
Definition perm_system : System tiny_world :=
  mkSystem tiny_world (fun s w => (Some (ELeaf "connection refused"), w)) (fun w => (tw_clock w, w))
    (fun d w => mkTiny (tw_clock w + Z.max d 0) (tw_starts w) (tw_signals w))
    (fun _ => None) (fun _ _ => None) (fun _ _ => false) (fun p _ => Ok ("/usr/bin/" +:+ p)) (fun _ w => (None, w)) (fun _ w => (None, w))
    (fun bin args w => (None, mkTiny (tw_clock w) (tw_starts w ++ [(bin, args)]) (tw_signals w)))
    (fun _ _ w => (NotCarried true "connection refused", w)) (fun _ _ => Ok ("4242" +:+ eol)) (fun _ _ => false)
    (fun pid sig w => (Some (ESentinel "syscall.EPERM" "operation not permitted"),
                       mkTiny (tw_clock w) (tw_starts w) (tw_signals w ++ if sig =? 0 then [] else [(pid, sig)])))
    (fun _ args w => ((if existsb (String.eqb "is-active") args then "active" +:+ eol else "", None), w)).

#[export] Instance perm_system_laws : SystemLaws perm_system tw_clock tw_starts tw_signals.
Proof. split; intros; cbn; repeat split; try lia; by rewrite ?app_nil_r. Qed.

(** C36: Stopping the daemon.  [daemon stop] always returns, after at most 51
    looks at its clock, and starts nothing.  It takes for the daemon's process
    the one the pid file names if that is there, and for running a daemon whose
    socket answers and tells its status.  Neither, and it says not running and
    does nothing; systemctl stops the service when that is active and the socket
    the usual one; otherwise the process gets one SIGTERM, the only signal ever
    sent, and without a process it is an error.  Errors of systemctl and of the
    signal end it; else it polls, and says stopped at the first poll where the
    daemon does not answer and, if a process was recorded, the system has an
    error for that process, and gives up only when five seconds have passed.
    But the process of the pid file need not be the daemon: the file outlives
    it, nobody looks at its lock, and whoever has the pid by then is signalled
    though nothing answers at the socket.  And any error counts as gone, also
    that this user may not signal the process, which is what the pid file's
    reader takes for a process that is there. *)
Theorem stop_exact {json : JSON} :
  (forall W (sys : System W) clock starts signals (laws : SystemLaws sys clock starts signals) env arg0 status_line fuel,
     (forall n a w, (stop_fuel <= n)%nat -> exists r w', stopDaemon sys env arg0 status_line fuel n a w = Some (r, w') /\
        stop_outcome sys clock starts signals env arg0 status_line fuel a w r w') /\
     (forall a w, exists info w1 w', probe sys env arg0 status_line fuel a w = Some (info, w') /\ readPID sys (a_socket a) w = (di_PID info, w1) /\
        (forall pid, pid_recorded sys (a_socket a) w pid <-> di_PID info = pid /\ di_PID info <> 0) /\
        (di_Running info = true <-> answers sys env status_line a w1 w'))) /\
  (exists a w r w', (sy_Dial tiny_system (a_socket a) w).1 <> None /\ (sy_Dial tiny_system (a_socket a) w').1 <> None /\
     stopDaemon tiny_system tiny_env "bnm" (fun _ => "") 1 51 a w = Some (r, w') /\ tw_signals w' = [(4242, SIGTERM)]) /\
  (exists a w w', stopDaemon perm_system tiny_env "bnm" (fun _ => "") 1 51 a w = Some (Ok "bnmd stopped", w') /\ tw_signals w' = [] /\
     (readPID perm_system (a_socket a) w').1 = 4242).
Proof.
  split_and!.
  - intros W sys clock starts signals laws env arg0 status_line fuel. split; [intros; by apply stop_ends|]. intros a w.
    destruct (probe_spec sys clock starts signals env arg0 status_line fuel a w) as (info & w1 & w' & Hp & _ & Hr & Ha). exists info, w1, w'.
    split_and!; [done|done| |exact Ha]. by destruct (readPID_spec sys clock starts signals _ _ _ _ Hr).
  - exists (mkApp "/run/user/7/bnm/bnmd.sock" true None), (mkTiny 0 [] []). eexists _, _. split_and!; [done| |vm_compute; done|done]. done.
  - exists (mkApp "/run/user/7/bnm/bnmd.sock" true None), (mkTiny 0 [] []). eexists. split_and!; [vm_compute; done|done|done].
Qed.

(** The process of the pid file is signalled and gone at the first poll. *)
Lemma stop_exact_witness :
  exists w', stopDaemon (json := no_json) tiny_system tiny_env "bnm" (fun _ => "") 1 51 (mkApp "/run/user/7/bnm/bnmd.sock" true None) (mkTiny 0 [] []) =
      Some (Ok "bnmd stopped", w') /\
    stop_outcome (json := no_json) tiny_system tw_clock tw_starts tw_signals tiny_env "bnm" (fun _ => "") 1 (mkApp "/run/user/7/bnm/bnmd.sock" true None) (mkTiny 0 [] [])
      (Ok "bnmd stopped") w'.
Proof.
  destruct (stop_exact (json := no_json)) as (H & _). destruct (H _ tiny_system tw_clock tw_starts tw_signals tiny_system_laws tiny_env "bnm" (fun _ => "") 1%nat) as (H' & _).
  destruct (H' 51%nat (mkApp "/run/user/7/bnm/bnmd.sock" true None) (mkTiny 0 [] []) ltac:(vm_compute; lia)) as (r & w' & Hr & Ho).
  assert (Hr' := Hr). vm_compute in Hr'. injection Hr' as <- <-. eexists. split; [exact Hr|exact Ho].
Defined.

(** ** Exit codes *)

Lemma exitCode_range e : 0 <= exitCodeFor e <= 4.
Proof. unfold exitCodeFor. repeat case_match; by vm_compute. Qed.

(** What the command line tells the shell.  The code of every error is
    between 0 and 4.  An error of the daemon is 4 when it is about permission,
    and then 1, with its message and hint on stderr and nothing else; except
    that a message which begins as cobra's usage errors do is taken for one and
    gives 2.  A daemon that does not answer or speaks another version is 3, and
    a bad invocation 2. *)
Theorem exit_codes use path :
  (forall e, 0 <= (Run_end use path (Some e)).2 <= 4 \/ exists code, errors_As as_silent e = Some code /\ (Run_end use path (Some e)).2 = code) /\
  (forall status code msg hint, existsb (HasPrefix (ErrorString (EAPI status code msg hint))) usage_prefixes = false ->
     Run_end use path (Some (EAPI status code msg hint)) =
       (["error: " +:+ msg +:+ eol] ++ (if hint =?s "" then [] else ["hint: " +:+ hint +:+ eol]),
        if code =?s KindPermission then ExitPermission else ExitError)) /\
  (forall status code msg hint, code <> KindPermission -> existsb (HasPrefix (ErrorString (EAPI status code msg hint))) usage_prefixes = true ->
     (Run_end use path (Some (EAPI status code msg hint))).2 = ExitUsage) /\
  (forall socket m, Run_end use path (Some (ENotRunning socket (ELeaf m))) =
     (["error: " +:+ ("bnmd is not running (socket " +:+ socket +:+ ")") +:+ eol; "hint: run `bnm daemon start`, or drop --no-autostart" +:+ eol], ExitUnreachable)) /\
  (forall d c v, (Run_end use path (Some (EVersionMismatch d c v))).2 = ExitUnreachable) /\
  (forall m, (Run_end use path (Some (EUsage m))).2 = ExitUsage) /\
  Run_end use path (Some errHelpShown) = ([], ExitOK) /\ Run_end use path None = ([], ExitOK).
Proof.
  assert (forall status code msg hint, errors_As as_silent (EAPI status code msg hint) = None /\ errors_As as_usage (EAPI status code msg hint) = None /\
    errors_Is (Some (EAPI status code msg hint)) errHelpShown = false /\ IsNotRunning (EAPI status code msg hint) = false /\
    errors_As as_mismatch (EAPI status code msg hint) = None /\ KindOf (Some (EAPI status code msg hint)) = code) as Hapi.
  { intros. unfold errors_As, errors_Is, IsNotRunning, errors_As, KindOf. cbn. unfold sentinelFor. by repeat case_match. }
  split_and!; try done.
  - intros e. cbn. destruct (errors_As as_silent e) as [code|]; [right; by exists code|left]. pose proof (exitCode_range e). by repeat case_match.
  - intros status code msg hint Hp. destruct (Hapi status code msg hint) as (H1 & H2 & H3 & H4 & H5 & H6). unfold Run_end. rewrite H1.
    unfold exitCodeFor. rewrite H2, H3, H4, H5, H6, Hp. cbn [is_some].
    assert (errorMessage (EAPI status code msg hint) = msg /\ hintFor (EAPI status code msg hint) = hint) as [-> ->] by done.
    destruct (code =?s KindPermission), (hint =?s ""); done.
  - intros status code msg hint Hc Hp. destruct (Hapi status code msg hint) as (H1 & H2 & H3 & H4 & H5 & H6). unfold Run_end. rewrite H1.
    unfold exitCodeFor. rewrite H2, H3, H4, H5, H6, Hp. cbn [is_some]. by destruct (String.eqb_spec code KindPermission).
Qed.
