(* ===== verification/Prompts.v ===== *)
(** internal/cli/term.go and secrets.go: reading from the terminal, answering one
    password prompt, and running a request while answering the prompts it
    raises; then what that does, whatever the daemon and the user do.

    The daemon, the terminal and the goroutine of the request are operations on
    a world [W]; which of the events the loop waits for comes next is one of
    them. *)

From S2P Require Import Prelude GoTime Core GoStrings Errors Daemon GoScan Resolve Startup.

(** What the loop of [runWithPrompts] wakes for. *)
Inductive wake := WDone (err : option error) | WTick | WItem (item : StreamItem) | WClosed.

Record PromptSys (W : Type) := mkPromptSys {
  pq_Interactive : W -> bool;                                  (* [stdinInteractive] *)
  pq_Terminal : W -> bool;                                     (* [lineReader.terminal] *)
  pq_ReadString : W -> (string * option error) * W;            (* up to a newline, and it *)
  pq_ReadPassword : W -> result error string * W;
  pq_Print : string -> W -> W;                                 (* on stderr *)
  pq_Events : W -> option error * W;
  pq_Pending : W -> result error (list SecretRequest) * W;
  pq_Secret : string -> W -> result error SecretRequest * W;
  pq_Answer : string -> SecretAnswer -> W -> option error * W;
  pq_Cancel : string -> W -> option error * W;
  pq_Wait : W -> wake * W;
  pq_Stop : bool -> W -> W                                     (* wait for the request, cancelling it: at once or only after 15 s *)
}.
Arguments pq_Interactive {W}. Arguments pq_Terminal {W}. Arguments pq_ReadString {W}. Arguments pq_ReadPassword {W}. Arguments pq_Print {W}.
Arguments pq_Events {W}. Arguments pq_Pending {W}. Arguments pq_Secret {W}. Arguments pq_Answer {W}. Arguments pq_Cancel {W}. Arguments pq_Wait {W}.
Arguments pq_Stop {W}.

Definition io_EOF : error := ESentinel "io.EOF" "EOF".

Definition newline_str : string := byte_str [10%nat].
Definition crlf : string := byte_str [13%nat; 10%nat].

Section Prompts.
Context {W : Type} (sys : PromptSys W).

(** ** term.go *)

Definition read_line (w : W) : result error string * W :=
  let '(line, err, w) := pq_ReadString sys w in
  (match err with
   | Some e => if negb (same_error e io_EOF) || (line =?s "") then Err e else Ok (string_rev (trim_left crlf (string_rev line)))
   | None => Ok (string_rev (trim_left crlf (string_rev line)))
   end, w).

Definition readPassword (prompt : string) (w : W) : result error string * W :=
  let w := pq_Print sys prompt w in
  if pq_Terminal sys w then
    let '(r, w) := pq_ReadPassword sys w in
    let w := pq_Print sys newline_str w in
    (match r with Err e => Err (wrapE "read password" e) | Ok s => Ok s end, w)
  else
    let '(r, w) := read_line w in (match r with Err e => Err (wrapE "read password" e) | Ok s => Ok s end, w).

Definition readLine (prompt : string) (w : W) : result error string * W :=
  let w := pq_Print sys prompt w in
  let '(r, w) := read_line w in (match r with Err e => Err (wrapE "read input" e) | Ok s => Ok s end, w).

(** ** secrets.go *)

Definition secretAsks (r : SecretRequest) : string := Join (map sf_Label (sq_Fields r)) ", ".

Definition secretHeadline (ToLower : string -> string) (r : SecretRequest) : string :=
  let subject := secretSubject r in
  (if sq_RequestNew r && negb (sq_VPN r) then "Wrong password for " +:+ subject +:+ "; try again."
   else if sq_RequestNew r then subject +:+ " rejected the previous answer; try again."
   else if sq_VPN r && negb (sq_VPNKind r =?s "") then subject +:+ " (" +:+ sq_VPNKind r +:+ ") needs " +:+ ToLower (secretAsks r) +:+ "."
   else subject +:+ " needs " +:+ ToLower (secretAsks r) +:+ ".") +:+
  (if negb (sq_Message r =?s "") then newline_str +:+ sq_Message r else "").

(** The answers to the fields; [None] when an empty secret gives up. *)
Fixpoint prompt_fields (subject : string) (fields : list SecretField) (secrets : gmap string string) (w : W)
  : result error (option (gmap string string)) * W :=
  match fields with
  | [] => (Ok (Some secrets), w)
  | f :: fields =>
      let prompt := sf_Label f +:+ " for " +:+ subject +:+ ": " in
      let '(r, w) := if sf_Secret f then readPassword prompt w else readLine prompt w in
      match r with
      | Err e => (Err e, w)
      | Ok v => if (v =?s "") && sf_Secret f then (Ok None, w) else prompt_fields subject fields (<[sf_Key f := v]> secrets) w
      end
  end.

Definition promptSecretFields (r : SecretRequest) (w : W) : result error (option (gmap string string)) * W :=
  prompt_fields (secretSubject r) (sq_Fields r) ∅ w.

(** [promptOpts] *)
Record promptOpts := mkPromptOpts { po_match : SecretRequest -> bool; po_preset : gmap string string; po_presetUsed : bool }.

Definition use_preset (o : promptOpts) : promptOpts := mkPromptOpts (po_match o) (po_preset o) true.

(** The preset answers to the fields a request asks for. *)
Definition preset_for (preset : gmap string string) (fields : list SecretField) : gmap string string :=
  fold_left (fun m f => match preset !! sf_Key f with Some v => if v =?s "" then m else <[sf_Key f := v]> m | None => m end) fields ∅.

Definition retried (r : SecretRequest) : SecretRequest :=
  mkSecretRequest (sq_ID r) (sq_ConnectionUUID r) (sq_ConnectionName r) (sq_SSID r) (sq_VPN r) (sq_VPNKind r) (sq_SettingName r) (sq_Fields r)
    (sq_Message r) true (sq_UserRequested r) (sq_CreatedAt r) (sq_ExpiresAt r).

Context (ToLower : string -> string).

(** The error, if any, whether it gave up, and the options after it. *)
Definition answerPrompt (req : SecretRequest) (o : promptOpts) (retry : bool) (w : W) : ((option error * bool) * promptOpts) * W :=
  let subject := secretSubject req in
  let secrets := preset_for (po_preset o) (sq_Fields req) in
  if negb retry && negb (po_presetUsed o) && Nat.ltb 0 (size (po_preset o)) && Nat.ltb 0 (size secrets) then
    let '(e, w) := pq_Answer sys (sq_ID req) (mkSecretAnswer secrets true) w in (((e, false), use_preset o), w)
  else if negb (pq_Interactive sys w) then
    if retry && (po_presetUsed o || Nat.ltb 0 (size (po_preset o))) then
      let '(_, w) := pq_Cancel sys (sq_ID req) w in
      (((Some (Errorf KindInvalid "check the password and try again" ("wrong password for " +:+ subject)), true), o), w)
    else
      (((Some (Errorf KindInvalid ("run: bnm secrets answer " +:+ sq_ID req)
                 (subject +:+ " needs " +:+ ToLower (secretAsks req) +:+ " and there is no terminal to ask on")), false), o), w)
  else
    let req := if retry && negb (sq_RequestNew req) then retried req else req in
    let w := pq_Print sys (secretHeadline ToLower req +:+ newline_str) w in
    let '(r, w) := promptSecretFields req w in
    match r with
    | Err e => (((Some e, false), o), w)
    | Ok None =>
        let '(e, w) := pq_Cancel sys (sq_ID req) w in
        match e with
        | Some e => if negb (errors_Is (Some e) ErrNotFound) then (((Some e, false), o), w)
                    else (((Some (Errorf KindInvalid "" ("no password given for " +:+ subject)), true), o), w)
        | None => (((Some (Errorf KindInvalid "" ("no password given for " +:+ subject)), true), o), w)
        end
    | Ok (Some secrets) =>
        let '(e, w) := pq_Answer sys (sq_ID req) (mkSecretAnswer secrets true) w in (((e, false), o), w)
    end.

(** The loop between two waits. *)
Record prompting := mkPrompting { pr_opts : promptOpts; pr_seen : list string; pr_handled : list string }.

Definition in_list (s : string) (l : list string) : bool := existsb (String.eqb s) l.

(** Goes on, or ends: with the result of the request, or with an error of a
    prompt, the request being stopped. *)
Inductive prompt_next := PGo (st : prompting) | PEnd (err : option error) | PFail (err : error).

(** [PFail] takes the request as given up or cancels it, and waits for it. *)
Definition handle (st : prompting) (req : SecretRequest) (w : W) : prompt_next * W :=
  let retry := sq_RequestNew req || in_list (sq_SettingName req) (pr_seen st) in
  let '((err, gaveUp), o, w) := answerPrompt req (pr_opts st) retry w in
  match err with
  | None => (PGo (mkPrompting o (sq_SettingName req :: pr_seen st) (sq_ID req :: pr_handled st)), w)
  | Some e => (PFail e, pq_Stop sys gaveUp w)
  end.

Definition prompt_step (st : prompting) (k : wake) (w : W) : prompt_next * W :=
  match k with
  | WDone err => (PEnd err, w)
  | WTick =>
      let '(pending, w) := pq_Pending sys w in
      match pending with
      | Err _ => (PGo st, w)
      | Ok l =>
          match List.find (fun p => negb (in_list (sq_ID p) (pr_handled st)) && po_match (pr_opts st) p) l with
          | None => (PGo st, w)
          | Some req => handle st req w
          end
      end
  | WItem (IEvent e) =>
      if negb (ev_Type e =?s EventSecretNeeded) then (PGo st, w)
      else
        let '(r, w) := pq_Secret sys (default "" (ev_Data e !! "request_id")) w in
        match r with
        | Err _ => (PGo st, w)
        | Ok req => if in_list (sq_ID req) (pr_handled st) || negb (po_match (pr_opts st) req) then (PGo st, w) else handle st req w
        end
  | WItem (IChange _) => (PGo st, w)
  | WClosed => (PGo st, w)
  end.

(** After the stream closed only the request itself is waited for. *)
Fixpoint await_done (fuel : nat) (w : W) : option (option error * W) :=
  match fuel with
  | O => None
  | S fuel => let '(k, w) := pq_Wait sys w in match k with WDone e => Some (e, w) | _ => await_done fuel w end
  end.

Fixpoint prompt_loop (fuel : nat) (st : prompting) (w : W) : option (option error * W) :=
  match fuel with
  | O => None
  | S fuel =>
      let '(k, w) := pq_Wait sys w in
      match k with
      | WClosed => await_done fuel w
      | _ =>
          let '(next, w) := prompt_step st k w in
          match next with
          | PGo st => prompt_loop fuel st w
          | PEnd err => Some (err, w)
          | PFail e => Some (Some e, w)
          end
      end
  end.

(** [request] starts the request; [plain] runs it without a stream. *)
Definition runWithPrompts (fuel : nat) (o : promptOpts) (request : W -> W) (plain : W -> option error * W) (w : W) : option (option error * W) :=
  let '(e, w) := pq_Events sys w in
  match e with
  | Some _ => Some (plain w)
  | None => prompt_loop fuel (mkPrompting o [] []) (request w)
  end.
End Prompts.

(** * What answering the prompts of a request does: each prompt once, only those
    of the request, and the password of a flag once. *)

(** What the daemon was told about prompts. *)
Inductive told := TAnswer (id : string) (a : SecretAnswer) | TCancel (id : string).
Definition told_id (t : told) : string := match t with TAnswer id _ | TCancel id => id end.

(** The log of a system: only answers and cancellations are in it. *)
Class PromptLaws {W} (sys : PromptSys W) (log : W -> list told) : Prop := {
  pl_ReadString w : log (pq_ReadString sys w).2 = log w;
  pl_ReadPassword w : log (pq_ReadPassword sys w).2 = log w;
  pl_Print s w : log (pq_Print sys s w) = log w;
  pl_Events w : log (pq_Events sys w).2 = log w;
  pl_Pending w : log (pq_Pending sys w).2 = log w;
  pl_Secret id w : log (pq_Secret sys id w).2 = log w;
  pl_Answer id a w : log (pq_Answer sys id a w).2 = log w ++ [TAnswer id a];
  pl_Cancel id w : log (pq_Cancel sys id w).2 = log w ++ [TCancel id];
  pl_Wait w : log (pq_Wait sys w).2 = log w;
  pl_Stop b w : log (pq_Stop sys b w) = log w
}.

(** Reading and printing move the world along [R] only. *)
Class Quiet {W} (sys : PromptSys W) (R : W -> W -> Prop) : Prop := {
  qt_PreOrder :: PreOrder R;
  qt_ReadString w : R w (pq_ReadString sys w).2;
  qt_ReadPassword w : R w (pq_ReadPassword sys w).2;
  qt_Print s w : R w (pq_Print sys s w)
}.

(** Every operation moves the world along [R] only. *)
Class PromptRel {W} (sys : PromptSys W) (R : W -> W -> Prop) : Prop := {
  pr_Quiet :: Quiet sys R;
  pr_Pending w : R w (pq_Pending sys w).2;
  pr_Secret id w : R w (pq_Secret sys id w).2;
  pr_Answer id a w : R w (pq_Answer sys id a w).2;
  pr_Cancel id w : R w (pq_Cancel sys id w).2;
  pr_Events w : R w (pq_Events sys w).2;
  pr_Wait w : R w (pq_Wait sys w).2;
  pr_Stop b w : R w (pq_Stop sys b w)
}.

(** A request that ends: [left] bounds what the loop can still wake for. *)
Class PromptEnds {W} (sys : PromptSys W) (left : W -> nat) : Prop := {
  pe_Rel :: PromptRel sys (fun w w' => (left w' <= left w)%nat);
  pe_Wait w : match (pq_Wait sys w).1 with WDone _ => True | _ => (left (pq_Wait sys w).2 < left w)%nat end
}.

Section Quiet.
Context {W : Type} (sys : PromptSys W) (R : W -> W -> Prop) {quiet : Quiet sys R}.

Lemma read_line_quiet w : R w (read_line sys w).2.
Proof. unfold read_line. pose proof (qt_ReadString w) as H. by destruct (pq_ReadString sys w) as [[line err] w']. Qed.

Lemma readPassword_quiet p w : R w (readPassword sys p w).2.
Proof.
  unfold readPassword. transitivity (pq_Print sys p w); [apply qt_Print|]. destruct (pq_Terminal sys (pq_Print sys p w)).
  - pose proof (qt_ReadPassword (pq_Print sys p w)) as H. destruct (pq_ReadPassword sys _) as [r w']. cbn in *. etransitivity; [exact H|apply qt_Print].
  - pose proof (read_line_quiet (pq_Print sys p w)) as H. by destruct (read_line sys _) as [r w'].
Qed.

Lemma readLine_quiet p w : R w (readLine sys p w).2.
Proof.
  unfold readLine. transitivity (pq_Print sys p w); [apply qt_Print|]. pose proof (read_line_quiet (pq_Print sys p w)) as H.
  by destruct (read_line sys _) as [r w'].
Qed.

(** The answers to the fields of a request are to these fields. *)
Lemma prompt_fields_spec subject fields : forall m w,
  let '(r, w') := prompt_fields sys subject fields m w in
  R w w' /\ forall m', r = Ok (Some m') -> forall k v, m' !! k = Some v -> m !! k = Some v \/ In k (map sf_Key fields).
Proof.
  induction fields as [|f fields IH]; intros m w; cbn [prompt_fields]; [split; [reflexivity|]; intros m' [= <-]; auto|].
  assert (R w (if sf_Secret f then readPassword sys (sf_Label f +:+ " for " +:+ subject +:+ ": ") w else readLine sys (sf_Label f +:+ " for " +:+ subject +:+ ": ") w).2)
    as Hl by (destruct (sf_Secret f); [apply readPassword_quiet|apply readLine_quiet]).
  destruct (if sf_Secret f then _ else _) as [[v|e] w1]; cbn in Hl; [|done]. destruct ((v =?s "") && sf_Secret f); [done|].
  specialize (IH (<[sf_Key f := v]> m) w1). destruct (prompt_fields sys subject fields _ w1) as [r w']. destruct IH as [H1 H2].
  split; [by transitivity w1|].
  intros m' Hr k u Hk. destruct (H2 _ Hr _ _ Hk) as [H|H]; [|by right; right].
  apply lookup_insert_Some in H as [[<- _]|[_ H]]; [by right; left|by left].
Qed.
End Quiet.

Section Facts.
Context {W : Type} (sys : PromptSys W) (log : W -> list told) {laws : PromptLaws sys log} (ToLower : string -> string).

#[local] Instance log_quiet : Quiet sys (fun w w' => log w' = log w).
Proof.
  split; [split; [by intros ?|intros ? ? ? H1 H2; congruence]|apply pl_ReadString|apply pl_ReadPassword|apply pl_Print].
Qed.

(** *** The answers of one prompt *)

(** Answers hold only fields the request asks for. *)
Definition asked (fields : list SecretField) (m : gmap string string) : Prop := forall k v, m !! k = Some v -> In k (map sf_Key fields).

Lemma preset_spec (preset : gmap string string) fields : forall (m : gmap string string) k v,
  fold_left (fun m f => match preset !! sf_Key f with Some v => if v =?s "" then m else <[sf_Key f := v]> m | None => m end) fields m !! k = Some v ->
  m !! k = Some v \/ (In k (map sf_Key fields) /\ preset !! k = Some v /\ v <> "").
Proof.
  induction fields as [|f fields IH]; intros m k v; cbn [fold_left]; [by left|]. intros [H|(H1 & H2)]%IH; [|right; split; [by right|done]].
  destruct (preset !! sf_Key f) as [u|] eqn:Hp; [|by left]. destruct (String.eqb_spec u "") as [_|Hu]; [by left|].
  apply lookup_insert_Some in H as [[<- <-]|[_ H]]; [right; split; [by left|done]|by left].
Qed.

(** What one prompt told the daemon, and the options after it. *)
Lemma answerPrompt_spec req o retry w :
  let '((err, gaveUp), o', w') := answerPrompt sys ToLower req o retry w in
  po_match o' = po_match o /\ po_preset o' = po_preset o /\
  ((log w' = log w /\ o' = o /\ err <> None) \/
   (log w' = log w ++ [TCancel (sq_ID req)] /\ o' = o /\ err <> None) \/
   (exists m, log w' = log w ++ [TAnswer (sq_ID req) (mkSecretAnswer m true)] /\ asked (sq_Fields req) m /\
      ((o' = use_preset o /\ po_presetUsed o = false /\ retry = false /\ m <> ∅ /\ forall k v, m !! k = Some v -> po_preset o !! k = Some v /\ v <> "") \/
       (o' = o /\ pq_Interactive sys w = true)))).
Proof.
  unfold answerPrompt. destruct (_ && _ && _ && _) eqn:Hpre.
  { apply andb_true_iff in Hpre as [[[H1 H2]%andb_true_iff _]%andb_true_iff H4].
    pose proof (pl_Answer (sq_ID req) (mkSecretAnswer (preset_for (po_preset o) (sq_Fields req)) true) w) as Hl.
    destruct (pq_Answer sys _ _ w) as [e w']. split_and!; [done..|]. right. right. exists (preset_for (po_preset o) (sq_Fields req)).
    assert (forall k v, preset_for (po_preset o) (sq_Fields req) !! k = Some v -> In k (map sf_Key (sq_Fields req)) /\ po_preset o !! k = Some v /\ v <> "") as Hp.
    { intros k v Hk. destruct (preset_spec _ _ _ _ _ Hk) as [He|He]; [by rewrite lookup_empty in He|done]. }
    split_and!; [done|intros k v Hk; by destruct (Hp _ _ Hk)|]. left. split_and!; [done|by apply negb_true_iff|by apply negb_true_iff| |].
    - intros He. rewrite He in H4. by rewrite map_size_empty in H4.
    - intros k v Hk. by destruct (Hp _ _ Hk) as (_ & ? & ?). }
  destruct (pq_Interactive sys w) eqn:Hint; cbn [negb].
  2:{ destruct (retry && _).
      - pose proof (pl_Cancel (sq_ID req) w) as Hl. destruct (pq_Cancel sys _ w) as [e w']. split_and!; [done..|]. right. left. done.
      - split_and!; [done..|]. left. done. }
  set (req' := if retry && negb (sq_RequestNew req) then retried req else req). assert (sq_ID req' = sq_ID req /\ sq_Fields req' = sq_Fields req) as [Hid Hfl] by (subst req'; destruct (retry && negb (sq_RequestNew req)); split; reflexivity).
  set (w1 := pq_Print sys _ w). assert (log w1 = log w) as Hw1 by apply pl_Print. unfold promptSecretFields.
  pose proof (prompt_fields_spec sys (fun w w' => log w' = log w) (secretSubject req') (sq_Fields req') ∅ w1) as Hf.
  destruct (prompt_fields sys _ _ ∅ w1) as [[[m|]|e] w2]; destruct Hf as [Hl Hm]; rewrite Hw1 in Hl.
  - pose proof (pl_Answer (sq_ID req') (mkSecretAnswer m true) w2) as Ha. destruct (pq_Answer sys _ _ w2) as [e w'].
    split_and!; [done..|]. right. right. exists m. cbn [snd] in Ha. rewrite Hid, Hl in Ha. split_and!; [done| |by right].
    intros k v Hk. destruct (Hm m eq_refl k v Hk) as [He|He]; [by rewrite lookup_empty in He|by rewrite Hfl in He].
  - pose proof (pl_Cancel (sq_ID req') w2) as Ha. destruct (pq_Cancel sys _ w2) as [e w']. cbn [snd] in Ha. rewrite Hid, Hl in Ha.
    destruct e as [e|]; [destruct (errors_Is (Some e) ErrNotFound)|]; split_and!; try done; right; left; done.
  - split_and!; [done..|]. left. done.
Qed.

(** *** The loop *)

(** What may be told about prompts: that one the request raised is cancelled, or
    answered in its own fields; [given] says which maps. *)
Definition legit (o : promptOpts) (given : gmap string string -> Prop) (t : told) : Prop :=
  exists req, po_match o req = true /\
    (t = TCancel (sq_ID req) \/ exists m, t = TAnswer (sq_ID req) (mkSecretAnswer m true) /\ asked (sq_Fields req) m /\ given m).

(** Only the preset, and no empty part of it. *)
Definition from_preset (preset m : gmap string string) : Prop := m <> ∅ /\ forall k v, m !! k = Some v -> preset !! k = Some v /\ v <> "".

Definition may_answer (o : promptOpts) : gmap string string -> Prop :=
  fun m => (exists w, pq_Interactive sys w = true) \/ (po_presetUsed o = false /\ from_preset (po_preset o) m).

Lemma legit_weaken o o' (P Q : gmap string string -> Prop) t : po_match o = po_match o' -> (forall m, P m -> Q m) -> legit o P t -> legit o' Q t.
Proof. intros Hm HPQ (req & H1 & H2). exists req. rewrite <- Hm. split; [done|]. destruct H2 as [?|(m & ? & ? & ?)]; [by left|right; exists m; auto]. Qed.

Definition is_answer (t : told) : bool := match t with TAnswer _ _ => true | TCancel _ => false end.

Lemma handle_spec st req w : po_match (pr_opts st) req = true ->
  let '(next, w') := handle sys ToLower st req w in
  exists l, log w' = log w ++ l /\ (l = [] \/ exists t, l = [t] /\ told_id t = sq_ID req) /\ Forall (legit (pr_opts st) (may_answer (pr_opts st))) l /\
    match next with
    | PGo st' =>
        pr_handled st' = sq_ID req :: pr_handled st /\ po_match (pr_opts st') = po_match (pr_opts st) /\ po_preset (pr_opts st') = po_preset (pr_opts st) /\
        (po_presetUsed (pr_opts st) = true -> po_presetUsed (pr_opts st') = true) /\
        ((forall w, pq_Interactive sys w = false) -> (length (List.filter is_answer l) <= 1)%nat /\
           (List.filter is_answer l <> [] -> po_presetUsed (pr_opts st) = false /\ po_presetUsed (pr_opts st') = true))
    | PFail e => (exists req retry w1, po_match (pr_opts st) req = true /\ (answerPrompt sys ToLower req (pr_opts st) retry w1).1.1.1 = Some e) /\
        ((forall w, pq_Interactive sys w = false) -> (length (List.filter is_answer l) <= 1)%nat /\ (List.filter is_answer l <> [] -> po_presetUsed (pr_opts st) = false))
    | PEnd _ => False
    end.
Proof.
  intros Hm. unfold handle. set (retry := sq_RequestNew req || _). pose proof (answerPrompt_spec req (pr_opts st) retry w) as Ha.
  destruct (answerPrompt sys ToLower req (pr_opts st) retry w) as [[[err gaveUp] o'] w1] eqn:Hans. destruct Ha as (Hm' & Hp' & Ha).
  assert (exists l, log w1 = log w ++ l /\ (l = [] \/ exists t, l = [t] /\ told_id t = sq_ID req) /\ Forall (legit (pr_opts st) (may_answer (pr_opts st))) l /\
    (po_presetUsed (pr_opts st) = true -> po_presetUsed o' = true) /\
    ((forall w, pq_Interactive sys w = false) -> (length (List.filter is_answer l) <= 1)%nat /\
       (List.filter is_answer l <> [] -> po_presetUsed (pr_opts st) = false /\ po_presetUsed o' = true))) as (l & Hl & Hid & Hleg & Hup & Hni).
  { destruct Ha as [(Hl & -> & _)|[(Hl & -> & _)|(m & Hl & Hasked & Hcase)]].
    - exists []. rewrite app_nil_r. split; [done|]. split; [by left|]. split; [constructor|]. split; [done|]. intros _. cbn. split; [lia|done].
    - exists [TCancel (sq_ID req)]. split; [done|]. split; [right; by eexists|]. split; [constructor; [|constructor]; exists req; auto|].
      split; [done|]. intros _. cbn. split; [lia|done].
    - exists [TAnswer (sq_ID req) (mkSecretAnswer m true)]. split; [done|]. split; [right; by eexists|]. split; [|split].
      + constructor; [|constructor]. exists req. split; [done|]. right. exists m. split_and!; [done..|].
        destruct Hcase as [(_ & H1 & _ & H3 & H4)|(_ & Hi)]; [right; split; [done|by split]|left; by exists w].
      + destruct Hcase as [(-> & _)|(-> & _)]; done.
      + intros Hno. split; [cbn; lia|]. intros _. destruct Hcase as [(-> & H1 & _)|(_ & Hi)]; [done|]. by rewrite Hno in Hi. }
  destruct err as [e|].
  - exists l. rewrite pl_Stop. split_and!; [done..| |].
    + exists req, retry, w. by rewrite Hans.
    + intros Hno. destruct (Hni Hno) as [H1 H2]. split; [done|]. intros Hne. by destruct (H2 Hne).
  - exists l. split_and!; done.
Qed.
(** *** Every wake *)

Lemma in_list_In x l : in_list x l = true <-> In x l.
Proof.
  unfold in_list. rewrite existsb_exists. split; [|intros H; exists x; by rewrite String.eqb_refl].
  intros (y & Hy & ->%String.eqb_eq). done.
Qed.

(** Nothing told, and the loop as before, or one request of the loop handled. *)
Lemma prompt_step_cases st k w :
  (exists w1, prompt_step sys ToLower st k w = (PGo st, w1) /\ log w1 = log w) \/
  (exists err, k = WDone err /\ prompt_step sys ToLower st k w = (PEnd err, w)) \/
  (exists req w1, log w1 = log w /\ po_match (pr_opts st) req = true /\ ~ In (sq_ID req) (pr_handled st) /\
     prompt_step sys ToLower st k w = handle sys ToLower st req w1).
Proof.
  unfold prompt_step. destruct k as [err| |[ch|e]|]; [right; left; eexists; by split| |left; eexists; by split| |left; eexists; by split].
  - pose proof (pl_Pending w) as Hl. destruct (pq_Pending sys w) as [[l|e] w1]; cbn in Hl; [|left; eexists; by split].
    destruct (List.find _ l) as [req|] eqn:Hf; [|left; eexists; by split].
    apply List.find_some in Hf as [_ [H1%negb_true_iff H2]%andb_true_iff]. right. right. exists req, w1. split_and!; try done.
    intros H%in_list_In. congruence.
  - destruct (negb _); [left; eexists; by split|]. pose proof (pl_Secret (default "" (ev_Data e !! "request_id")) w) as Hl.
    destruct (pq_Secret sys _ w) as [[req|err] w1]; cbn in Hl; [|left; eexists; by split].
    destruct (_ || _) eqn:Ho; [left; eexists; by split|]. apply orb_false_iff in Ho as [H1 H2%negb_false_iff].
    right. right. exists req, w1. split_and!; try done. intros H%in_list_In. congruence.
Qed.

Lemma await_done_log fuel : forall w r w', await_done sys fuel w = Some (r, w') ->
  log w' = log w /\ exists w0 w1, pq_Wait sys w0 = (WDone r, w1).
Proof.
  induction fuel as [|fuel IH]; intros w r w'; cbn [await_done]; [done|].
  pose proof (pl_Wait w) as Hl. destruct (pq_Wait sys w) as [k w1] eqn:Hw; cbn in Hl.
  destruct k; [intros [= -> ->]; split; [done|by eauto]|..]; intros H%IH; by rewrite Hl in H.
Qed.

(** The result of the request, or the error of one of its prompts. *)
Definition outcome (o : promptOpts) (r : option error) : Prop :=
  (exists w0 w1, pq_Wait sys w0 = (WDone r, w1)) \/
  (exists e req o' retry w1, r = Some e /\ po_match o req = true /\ po_match o' = po_match o /\ po_preset o' = po_preset o /\
     (answerPrompt sys ToLower req o' retry w1).1.1.1 = Some e).

(** What a run of the loop told the daemon. *)
Definition run_told (st : prompting) (l : list told) : Prop :=
  NoDup (map told_id l) /\ (forall id, In id (map told_id l) -> ~ In id (pr_handled st)) /\
  Forall (legit (pr_opts st) (may_answer (pr_opts st))) l /\
  ((forall w, pq_Interactive sys w = false) ->
     (length (List.filter is_answer l) <= 1)%nat /\ (List.filter is_answer l <> [] -> po_presetUsed (pr_opts st) = false)).

Lemma run_told_nil st : run_told st [].
Proof. split; [constructor|]. split; [by intros ?|]. split; [constructor|]. intros _. cbn. split; [lia|done]. Qed.

(** One request handled, and then a run of the loop. *)
Lemma run_told_cons st st' id l1 l2 :
  ~ In id (pr_handled st) -> (l1 = [] \/ exists t, l1 = [t] /\ told_id t = id) -> Forall (legit (pr_opts st) (may_answer (pr_opts st))) l1 ->
  pr_handled st' = id :: pr_handled st -> po_match (pr_opts st') = po_match (pr_opts st) -> po_preset (pr_opts st') = po_preset (pr_opts st) ->
  (po_presetUsed (pr_opts st) = true -> po_presetUsed (pr_opts st') = true) ->
  ((forall w, pq_Interactive sys w = false) -> (length (List.filter is_answer l1) <= 1)%nat /\
     (List.filter is_answer l1 <> [] -> po_presetUsed (pr_opts st) = false /\ po_presetUsed (pr_opts st') = true)) ->
  run_told st' l2 -> run_told st (l1 ++ l2).
Proof.
  intros Hnew Hl1 Hleg Hh Hm Hp Hu Hni (Hnd & Hid & Hleg2 & Hni2). split_and!.
  - destruct Hl1 as [->|(t & -> & <-)]; [done|]. cbn. constructor; [|done]. intros H%list_elem_of_In. eapply Hid; [exact H|]. rewrite Hh. by left.
  - intros i. rewrite map_app, in_app_iff. intros [Hi|Hi]; [|intros H; eapply Hid; [exact Hi|]; rewrite Hh; by right].
    destruct Hl1 as [->|(t & -> & <-)]; [done|]. by destruct Hi as [<-|[]].
  - apply Forall_app. split; [done|]. eapply Forall_impl; [exact Hleg2|]. intros t. apply legit_weaken; [done|].
    intros m [H|[H1 H2]]; [by left|]. right. rewrite Hp in H2. split; [|done]. destruct (po_presetUsed (pr_opts st)); [|done]. by rewrite Hu in H1.
  - intros Hno. destruct (Hni Hno) as [H1 H2], (Hni2 Hno) as [H3 H4]. rewrite List.filter_app, length_app.
    destruct (List.filter is_answer l1) as [|a l]; cbn in *.
    + split; [done|]. intros H. specialize (H4 H). destruct (po_presetUsed (pr_opts st)); [|done]. by rewrite Hu in H4.
    + destruct H2 as [H2 H2']; [done|]. destruct (List.filter is_answer l2); [cbn in *; split; [lia|done]|]. rewrite H4 in H2' by done. done.
Qed.

Lemma prompt_loop_spec fuel : forall st w r w', prompt_loop sys ToLower fuel st w = Some (r, w') ->
  exists l, log w' = log w ++ l /\ run_told st l /\ outcome (pr_opts st) r.
Proof.
  induction fuel as [|fuel IH]; intros st w r w'; cbn [prompt_loop]; [done|].
  pose proof (pl_Wait w) as Hl. destruct (pq_Wait sys w) as [k w1] eqn:Hw; cbn in Hl. rewrite <- Hl.
  assert (match prompt_step sys ToLower st k w1 with
          | (PGo st', w2) => prompt_loop sys ToLower fuel st' w2 | (PEnd err, w2) => Some (err, w2) | (PFail e, w2) => Some (Some e, w2) end = Some (r, w') ->
          exists l, log w' = log w1 ++ l /\ run_told st l /\ outcome (pr_opts st) r) as Hstep.
  { destruct (prompt_step_cases st k w1) as [(w2 & -> & Hl2)|[(err & -> & ->)|(req & w2 & Hl2 & Hm & Hnew & ->)]].
    - intros (l & H1 & H2 & H3)%IH. exists l. by rewrite <- Hl2.
    - intros [= -> ->]. exists []. rewrite app_nil_r. split; [done|]. split; [apply run_told_nil|]. left. by eauto.
    - pose proof (handle_spec st req w2 Hm) as Hh. destruct (handle sys ToLower st req w2) as [next w3].
      destruct Hh as (l1 & Hl1 & Hid & Hleg & Hn). rewrite Hl2 in Hl1. destruct next as [st'|err|e]; [|done|].
      + destruct Hn as (Hh & Hm' & Hp' & Hu & Hni). intros (l2 & H1 & H2 & H3)%IH. exists (l1 ++ l2)%list.
        split; [by rewrite H1, Hl1, app_assoc|]. split; [by eapply (run_told_cons st st' (sq_ID req))|].
        unfold outcome in *. by rewrite <- Hm', <- Hp'.
      + destruct Hn as ((req' & retry & w4 & H1 & H2) & Hni). intros [= <- <-]. exists l1. split; [done|]. split; [|right; exists e, req', (pr_opts st), retry, w4; done].
        split_and!; [|intros i Hi; destruct Hid as [->|(t & -> & Ht)]; [done|destruct Hi as [<-|[]]; by rewrite Ht]|done|done].
        destruct Hid as [->|(t & -> & _)]; [constructor|]. apply NoDup_singleton. }
  destruct k; try exact Hstep. intros [H1 H2]%await_done_log. exists []. rewrite app_nil_r. split; [done|]. split; [apply run_told_nil|by left].
Qed.
End Facts.

(** *** The end of a request *)

Section Rel.
Context {W : Type} (sys : PromptSys W) (R : W -> W -> Prop) {rel : PromptRel sys R} (ToLower : string -> string).

Lemma answerPrompt_rel req o retry w : R w (answerPrompt sys ToLower req o retry w).2.
Proof.
  unfold answerPrompt. pose proof (fun id a w => pr_Answer id a w) as HA. pose proof (fun id w => pr_Cancel id w) as HC. destruct (_ && _ && _ && _).
  { specialize (HA (sq_ID req) (mkSecretAnswer (preset_for (po_preset o) (sq_Fields req)) true) w). by destruct (pq_Answer sys _ _ w) as [e w']. }
  destruct (negb (pq_Interactive sys w)).
  { destruct (retry && _); [|reflexivity]. specialize (HC (sq_ID req) w). by destruct (pq_Cancel sys _ w) as [e w']. }
  set (req' := if retry && negb (sq_RequestNew req) then retried req else req). set (w1 := pq_Print sys _ w).
  assert (R w w1) as Hw1 by apply qt_Print. unfold promptSecretFields.
  pose proof (prompt_fields_spec sys R (secretSubject req') (sq_Fields req') ∅ w1) as Hf.
  destruct (prompt_fields sys _ _ ∅ w1) as [[[m|]|e] w2]; destruct Hf as [Hf _]; rewrite Hf in Hw1; [| |done].
  - specialize (HA (sq_ID req') (mkSecretAnswer m true) w2). destruct (pq_Answer sys _ _ w2) as [e w']. by rewrite HA in Hw1.
  - specialize (HC (sq_ID req') w2). rewrite HC in Hw1.
    destruct (pq_Cancel sys _ w2) as [[e|] w']; [destruct (errors_Is (Some e) ErrNotFound)|]; done.
Qed.

Lemma handle_rel st req w : R w (handle sys ToLower st req w).2.
Proof.
  unfold handle. set (retry := sq_RequestNew req || _). pose proof (answerPrompt_rel req (pr_opts st) retry w) as H.
  destruct (answerPrompt _ _ _ _ _ _) as [[[[e|] g] o] w1]; [|done]. cbn in *. etransitivity; [exact H|apply pr_Stop].
Qed.

Lemma prompt_step_rel st k w : R w (prompt_step sys ToLower st k w).2.
Proof.
  unfold prompt_step. destruct k as [err| |[ch|e]|]; try reflexivity.
  - pose proof (pr_Pending w) as Hl. destruct (pq_Pending sys w) as [[l|e] w1]; [|done].
    destruct (List.find _ l) as [req|]; [|done]. etransitivity; [exact Hl|apply handle_rel].
  - destruct (negb _); [reflexivity|]. pose proof (pr_Secret (default "" (ev_Data e !! "request_id")) w) as Hl.
    destruct (pq_Secret sys _ w) as [[req|err] w1]; [|done]. destruct (_ || _); [done|]. etransitivity; [exact Hl|apply handle_rel].
Qed.

Lemma await_done_rel fuel : forall w r w', await_done sys fuel w = Some (r, w') -> R w w'.
Proof.
  induction fuel as [|fuel IH]; intros w r w'; cbn [await_done]; [done|]. pose proof (pr_Wait w) as Hw.
  destruct (pq_Wait sys w) as [k w1]. destruct k; [by intros [= _ <-]|..]; intros H%IH; etransitivity; done.
Qed.

Lemma prompt_loop_rel fuel : forall st w r w', prompt_loop sys ToLower fuel st w = Some (r, w') -> R w w'.
Proof.
  induction fuel as [|fuel IH]; intros st w r w'; cbn [prompt_loop]; [done|]. pose proof (pr_Wait w) as Hw.
  destruct (pq_Wait sys w) as [k w1]. cbn in Hw. rename w1 into w1'.
  pose proof (fun k => prompt_step_rel st k w1') as Hs.
  destruct k; try (intros H%await_done_rel; by transitivity w1'); try (by intros [= _ <-]);
    match goal with |- context [prompt_step sys ToLower st ?k w1'] => specialize (Hs k); destruct (prompt_step sys ToLower st k w1') as [[st'| |] w2] end;
    cbn in Hs; first [by intros [= _ <-]; transitivity w1' | intros H%IH; transitivity w1'; [done|by transitivity w2]].
Qed.

(** A run moves the world along [R] when the request, or the plain one, does. *)
Lemma runWithPrompts_rel fuel o request plain w r w' :
  runWithPrompts sys ToLower fuel o request plain w = Some (r, w') ->
  (R w (pq_Events sys w).2 /\ plain (pq_Events sys w).2 = (r, w')) \/ (R w (pq_Events sys w).2 /\ R (request (pq_Events sys w).2) w').
Proof.
  unfold runWithPrompts. pose proof (pr_Events w) as Hw. destruct (pq_Events sys w) as [[e|] w1]; cbn in *.
  - intros [= H]. by left.
  - intros H%prompt_loop_rel. by right.
Qed.
End Rel.

Section Ends.
Context {W : Type} (sys : PromptSys W) (left : W -> nat) {ends : PromptEnds sys left} (ToLower : string -> string).

Lemma await_done_ends fuel : forall w, (left w < fuel)%nat -> await_done sys fuel w <> None.
Proof.
  induction fuel as [|fuel IH]; intros w Hf; [lia|]. cbn [await_done]. pose proof (pe_Wait w) as Hw.
  destruct (pq_Wait sys w) as [k w1]. cbn in Hw. destruct k; [done|apply IH; lia..].
Qed.

Lemma prompt_loop_ends fuel : forall st w, (left w < fuel)%nat -> prompt_loop sys ToLower fuel st w <> None.
Proof.
  induction fuel as [|fuel IH]; intros st w Hf; [lia|]. cbn [prompt_loop]. pose proof (pe_Wait w) as Hw.
  destruct (pq_Wait sys w) as [k w1]. cbn in Hw.
  destruct k; try (apply await_done_ends; lia); [done|..];
    match goal with |- context [prompt_step sys ToLower st ?k w1] =>
      pose proof (prompt_step_rel sys (fun w w' => (left w' <= left w)%nat) ToLower st k w1) as Hs;
      destruct (prompt_step sys ToLower st k w1) as [[st'| |] w2] end;
    try done; apply IH; cbn in Hs; lia.
Qed.
End Ends.

(** ** The property *)

(** C34: running a request while answering its prompts ([wifi connect], [vpn up])
    ends when the request does; each prompt is told at most once; only prompts
    the request raised are told anything; an answer holds only the fields its
    prompt asks for; without a terminal at most one answer is given, and it
    holds only the flag's passwords; and the result is that of the request, or
    the error of one of its prompts, or, when the daemon offers no events, that of
    the plain request. *)
Theorem prompts_once {W} (sys : PromptSys W) (log : W -> list told) (left : W -> nat) `{!PromptLaws sys log} `{!PromptEnds sys left}
    (ToLower : string -> string) (o : promptOpts) (request : W -> W) (plain : W -> option error * W) (w : W) :
  (forall w, log (request w) = log w) ->
  (forall fuel, (left (request (pq_Events sys w).2) < fuel)%nat -> runWithPrompts sys ToLower fuel o request plain w <> None) /\
  (forall fuel r w', runWithPrompts sys ToLower fuel o request plain w = Some (r, w') ->
     ((pq_Events sys w).1 <> None /\ (r, w') = plain (pq_Events sys w).2) \/
     exists l, log w' = log w ++ l /\ NoDup (map told_id l) /\ outcome sys ToLower o r /\
       Forall (fun t => exists req, po_match o req = true /\
         (t = TCancel (sq_ID req) \/
          exists m, t = TAnswer (sq_ID req) (mkSecretAnswer m true) /\ (forall k v, m !! k = Some v -> In k (map sf_Key (sq_Fields req))) /\
            ((forall w, pq_Interactive sys w = false) -> m <> ∅ /\ forall k v, m !! k = Some v -> po_preset o !! k = Some v /\ v <> ""))) l /\
       ((forall w, pq_Interactive sys w = false) ->
          (length (List.filter is_answer l) <= 1)%nat /\ (po_presetUsed o = true -> List.filter is_answer l = []))).
Proof.
  intros Hreq. unfold runWithPrompts. pose proof (pl_Events w) as Hev. destruct (pq_Events sys w) as [[e|] w1]; cbn in *.
  { split; [done|]. intros fuel r w' [= H]. by left. }
  split; [intros fuel Hf; by apply (prompt_loop_ends sys left)|].
  intros fuel r w' (l & Hl & (Hnd & _ & Hleg & Hni) & Hout)%(prompt_loop_spec sys log). right. exists l. rewrite Hreq, Hev in Hl.
  split_and!; [done..| |].
  - eapply Forall_impl; [exact Hleg|]. intros t (req & H1 & H2). exists req. split; [done|]. destruct H2 as [?|(m & H2 & H3 & H4)]; [by left|].
    right. exists m. split_and!; [done..|]. intros Hno. destruct H4 as [[w2 H4]|[_ H4]]; [by rewrite Hno in H4|exact H4].
  - intros Hno. destruct (Hni Hno) as [H1 H2]. split; [done|]. intros Hu. cbn in H2. destruct (List.filter is_answer l); [done|]. by rewrite H2 in Hu.
Qed.

(** A daemon that keeps asking for the same password, and no terminal. *)
Section Script.
Context (pending : list SecretRequest).

Definition script := (list wake * list told)%type.

Definition script_sys : PromptSys script :=
  mkPromptSys script (fun _ => false) (fun _ => false) (fun w => (("", Some io_EOF), w)) (fun w => (Err io_EOF, w)) (fun _ w => w)
    (fun w => (None, w)) (fun w => (Ok pending, w)) (fun _ w => (Err ErrNotFound, w))
    (fun id a w => (None, (w.1, w.2 ++ [TAnswer id a]))) (fun id w => (None, (w.1, w.2 ++ [TCancel id])))
    (fun w => match w.1 with [] => (WDone None, w) | k :: ks => (k, (ks, w.2)) end) (fun _ w => w).

#[export] Instance script_laws : PromptLaws script_sys snd.
Proof. split; try done. intros [[|k ks] l]; done. Qed.

#[export] Instance script_ends : PromptEnds script_sys (fun w => length w.1).
Proof.
  split.
  - split; try (intros; cbn; lia).
    + split; [split; [by intros ?|intros ? ? ?; lia]|intros; cbn; lia..].
    + intros [[|k ks] l]; cbn; lia.
  - intros [[|k ks] l]; cbn; [done|]. destruct k; cbn; try lia; done.
Qed.
End Script.

Definition script_requests : list SecretRequest :=
  [mkSecretRequest "other" "u2" "Office" "Office" false "" "802-11-wireless-security" [mkSecretField "psk" "Password" true] "" false true 0 0;
   mkSecretRequest "mine" "u1" "Home" "Home" false "" "802-11-wireless-security" [mkSecretField "psk" "Password" true] "" false true 0 0].

Lemma prompts_once_witness :
  let sys := script_sys script_requests in
  let o := mkPromptOpts (fun r => sq_SSID r =?s "Home") (<["psk" := "secret"]> ∅) false in
  let run fuel := runWithPrompts sys (fun s => s) fuel o (fun w => w) (fun w => (None, w)) ([WTick; WTick], []) in
  run 3%nat = Some (None, ([], [TAnswer "mine" (mkSecretAnswer (<["psk" := "secret"]> ∅) true)])) /\
  (forall fuel, (2 < fuel)%nat -> run fuel <> None).
Proof.
  split; [vm_compute; reflexivity|].
  exact (proj1 (prompts_once (script_sys script_requests) snd (fun w => length w.1) (fun s => s)
    (mkPromptOpts (fun r => sq_SSID r =?s "Home") (<["psk" := "secret"]> ∅) false) (fun w => w) (fun w => (None, w)) ([WTick; WTick], []) (fun w => eq_refl))).
Defined.
