(* ===== verification/Commands.v ===== *)
(** The commands of internal/cli that change something: wifi.go, vpn.go,
    profile.go, secrets.go, monitor.go and what they ask first.

    The client of a command makes the calls of the API ([api_call]); with the
    terminal, the clock and the files it is operations on a world [W].  A command
    is a program over them that ends with an error or not; what it prints when it
    is done is one of its steps, what a listing prints is not modelled. *)

From S2P Require Import Prelude GoTime Core Errors GoStrings Daemon DaemonOps API APISpec Resolve Prompts.

(** What the wait for scan results sees. *)
Inductive scan_wake := SDeadline | SClosed | SItem (item : StreamItem).

Record CmdSys (W : Type) := mkCmdSys {
  cs_prompts : PromptSys W;
  cs_client : W -> option error * W;                          (* [app.client]: connects, once *)
  cs_Call : forall A, api_call A -> W -> result error A * W;
  cs_Start : api_call unit -> W -> W;                         (* the call, made while its prompts are answered *)
  cs_ScanEvents : W -> option error * W;                      (* the stream, for [scanWait] at most *)
  cs_ScanNext : W -> scan_wake * W;
  cs_ReadFile : string -> W -> result error string * W;
  cs_Now : W -> Time * W;
  cs_Cancelled : W -> bool;                                   (* [ctx.Err() != nil] *)
  cs_Pause : Duration -> W -> bool * W;                       (* [false] when cancelled meanwhile *)
  cs_done : string -> W -> W;                                 (* [app.done]; the coloured dot left out *)
  cs_show : VPN -> W -> option error * W                      (* the VPN as JSON, which can fail, or as a line *)
}.
Arguments cs_prompts {W}. Arguments cs_client {W}. Arguments cs_Call {W} _ {A}. Arguments cs_Start {W}. Arguments cs_ScanEvents {W}.
Arguments cs_ScanNext {W}. Arguments cs_ReadFile {W}. Arguments cs_Now {W}. Arguments cs_Cancelled {W}. Arguments cs_Pause {W}.
Arguments cs_done {W}. Arguments cs_show {W}.

(** A step of a command: [None] when the fuel of a loop is spent. *)
Definition Cmd (W A : Type) : Type := W -> option (result error A * W).

Section Monad.
Context {W A B : Type}.
Definition cret (a : A) : Cmd W A := fun w => Some (Ok a, w).
Definition cfail (e : error) : Cmd W A := fun w => Some (Err e, w).
Definition cbind (m : Cmd W A) (k : A -> Cmd W B) : Cmd W B :=
  fun w => match m w with None => None | Some (Err e, w) => Some (Err e, w) | Some (Ok a, w) => k a w end.
Definition of_result (r : result error A) : Cmd W A := fun w => Some (r, w).
(** A step that ends, with its error passed on or kept. *)
Definition run (m : W -> result error A * W) : Cmd W A := fun w => Some (m w).
Definition tried (m : W -> result error A * W) : Cmd W (result error A) := fun w => let '(r, w) := m w in Some (Ok r, w).
Definition look (f : W -> A) : Cmd W A := fun w => Some (Ok (f w), w).
End Monad.

Definition run_ {W} (m : W -> option error * W) : Cmd W unit :=
  fun w => let '(e, w) := m w in Some (match e with Some e => Err e | None => Ok tt end, w).
Definition put {W} (f : W -> W) : Cmd W unit := fun w => Some (Ok tt, f w).

Declare Scope cmd_scope.
Notation "x <-% m ;; k" := (cbind m (fun x => k)) (at level 60, m at next level, right associativity) : cmd_scope.
Notation "m ;;% k" := (cbind m (fun _ => k)) (at level 60, right associativity) : cmd_scope.

Definition VPN_zero : VPN := mkVPN "" "" "" "" "" "" "" "" 0 false None None None.

Definition vpnSettle : Duration := 20 * second.
Definition vpnPoll : Duration := 300 * millisecond.

Section Commands.
Context {W : Type} (sys : CmdSys W).
Context (Quote ToLower : string -> string) (EqualFold : string -> string -> bool).
Local Open Scope cmd_scope.

Abbreviation client_ := (run_ (cs_client sys)).
Abbreviation call c := (run (cs_Call sys c)).
Abbreviation done_ s := (put (cs_done sys s)).

Definition app_resolveProfile (arg : string) (keep : option (Profile -> bool)) (what : string) : Cmd W Profile :=
  client_ ;;% r <-% tried (cs_Call sys AProfiles) ;; of_result (resolveProfile Quote ToLower EqualFold r arg keep what).

Definition app_resolveVPN (arg : string) : Cmd W VPN :=
  client_ ;;% r <-% tried (cs_Call sys AVPNs) ;; of_result (resolveVPN Quote ToLower EqualFold r arg).

Definition app_resolveSecret (id : string) : Cmd W SecretRequest :=
  r <-% tried (cs_Call sys APendingSecrets) ;; of_result (resolveSecret Quote r id).

(** [runWithPrompts] around a call. *)
Definition with_prompts (fuel : nat) (o : promptOpts) (c : api_call unit) : Cmd W unit := fun w =>
  match runWithPrompts (cs_prompts sys) ToLower fuel o (cs_Start sys c)
          (fun w => let '(r, w) := cs_Call sys c w in (match r with Err e => Some e | Ok _ => None end, w)) w with
  | None => None
  | Some (Some e, w) => Some (Err e, w)
  | Some (None, w) => Some (Ok tt, w)
  end.

(** ** wifi.go *)

Definition wifiSeen (device ssid : string) : Cmd W (option WifiNetwork) :=
  r <-% tried (cs_Call sys (AWifi device)) ;;
  cret (match r with Err _ => None | Ok nets => List.find (fun n => wn_SSID n =?s ssid) nets end).

Definition is_profile_of (ssid : string) (p : Profile) : bool :=
  (pf_Type p =?s ProfileWifi) && ((pf_SSID p =?s ssid) || ((pf_SSID p =?s "") && (pf_Name p =?s ssid))).

Definition wifiProfileExists (ssid : string) : Cmd W bool :=
  r <-% tried (cs_Call sys AProfiles) ;;
  cret (match r with Err _ => false | Ok ps => existsb (is_profile_of ssid) ps end).

Fixpoint rescan_wait (fuel : nat) : Cmd W unit :=
  match fuel with
  | O => fun _ => None
  | S fuel =>
      k <-% (fun w => let '(k, w) := cs_ScanNext sys w in Some (Ok k, w)) ;;
      match k with
      | SDeadline => cret tt
      | SClosed => cret tt
      | SItem (IChange c) => if ch_Kind c =?s ChangeWifi then cret tt else rescan_wait fuel
      | SItem (IEvent _) => rescan_wait fuel
      end
  end.

Definition app_rescan (fuel : nat) (device : string) : Cmd W unit :=
  run_ (cs_ScanEvents sys) ;;% call (AScanWifi device) ;;% rescan_wait fuel.

Definition net_less (a b : WifiNetwork) : bool :=
  if negb (Bool.eqb (wn_Active a) (wn_Active b)) then wn_Active a else wn_Strength b <? wn_Strength a.

Definition wifi_list (fuel : nat) (rescan : bool) (device : string) : Cmd W (list WifiNetwork) :=
  client_ ;;% (if rescan then app_rescan fuel device else cret tt) ;;% nets <-% call (AWifi device) ;;
  cret (isort (fun a b => negb (net_less b a)) nets).

(** The network, or nothing for a hidden one or one only a profile knows. *)
Definition in_range (fuel : nat) (device ssid : string) (hidden : bool) : Cmd W (option WifiNetwork) :=
  seen <-% wifiSeen device ssid ;;
  match seen with
  | Some n => cret (Some n)
  | None =>
      if hidden then cret None
      else
        saved <-% wifiProfileExists ssid ;;
        if saved then cret None
        else
          app_rescan fuel device ;;%
          seen <-% wifiSeen device ssid ;;
          match seen with
          | Some n => cret (Some n)
          | None => cfail (Errorf KindNotFound "check `bnm wifi list`, or pass --hidden if the network does not broadcast its name" (Quote ssid +:+ " is not in range"))
          end
  end.

Definition needsSecret (seen : option WifiNetwork) : bool :=
  match seen with
  | None => false
  | Some n => negb (wn_Known n) && ((wn_Security n =?s SecWPAPSK) || (wn_Security n =?s SecSAE) || (wn_Security n =?s SecWEP))
  end.

Definition ask_password (password : string) (ask : bool) (seen : option WifiNetwork) (ssid : string) : Cmd W string :=
  if (password =?s "") && (ask || needsSecret seen) then
    interactive <-% look (pq_Interactive (cs_prompts sys)) ;;
    if negb ask && negb interactive then cfail (Errorf KindInvalid "pass --password or --ask" (Quote ssid +:+ " needs a password"))
    else run (readPassword (cs_prompts sys) ("Password for " +:+ ssid +:+ ": "))
  else cret password.

Definition connect_match (ssid : string) (seen : option WifiNetwork) (r : SecretRequest) : bool :=
  negb (sq_VPN r) &&
  ((sq_SSID r =?s ssid) || (sq_ConnectionName r =?s ssid) ||
   match seen with Some n => negb (wn_ProfileUUID n =?s "") && (sq_ConnectionUUID r =?s wn_ProfileUUID n) | None => false end).

Definition connect_prompts (ssid password : string) (seen : option WifiNetwork) : promptOpts :=
  mkPromptOpts (connect_match ssid seen) (<["psk" := password]> (<["wep-key0" := password]> ∅)) (negb (password =?s "")).

Definition wifi_connect (fuel : nat) (password device : string) (ask hidden : bool) (ssid : string) : Cmd W unit :=
  client_ ;;%
  if negb (password =?s "") && ask then cfail (EUsage "--password and --ask are mutually exclusive")
  else
    seen <-% in_range fuel device ssid hidden ;;
    password <-% ask_password password ask seen ssid ;;
    with_prompts fuel (connect_prompts ssid password seen) (AConnectWifi (mkConnectWifiRequest device ssid password hidden "")) ;;%
    done_ ("Connected to " +:+ ssid).

Definition wifi_disconnect (device : string) : Cmd W unit :=
  client_ ;;% call (ADisconnectWifi device) ;;% done_ "Wi-Fi disconnected".

Definition wifi_forget (arg : string) : Cmd W unit :=
  p <-% app_resolveProfile arg (Some (fun p => pf_Type p =?s ProfileWifi)) "Wi-Fi profile" ;;
  call (AForgetWifi (pf_UUID p)) ;;% done_ ("Forgot " +:+ pf_Name p).

Definition wifi_on_off (name : string) (on : bool) : Cmd W unit :=
  client_ ;;% call (ASetWifiEnabled on) ;;% done_ ("Wi-Fi " +:+ name).

(** [wifi saved]: the active one first, the last used before the others. *)
Definition saved_less (a b : Profile) : bool :=
  if negb (Bool.eqb (pf_Active a) (pf_Active b)) then pf_Active a else time_After (pf_Timestamp a) (pf_Timestamp b).

Definition wifi_saved : Cmd W (list Profile) :=
  client_ ;;% ps <-% call AProfiles ;;
  cret (isort (fun a b => negb (saved_less b a)) (List.filter (fun p => pf_Type p =?s ProfileWifi) ps)).

Definition isWired (p : Profile) : bool := pf_Type p =?s ProfileEthernet.

Definition wired_up (arg : option string) (device : string) : Cmd W unit :=
  client_ ;;%
  p <-% (match arg with
         | Some arg => app_resolveProfile arg (Some isWired) "wired profile"
         | None =>
             ps <-% call AProfiles ;;
             match List.filter isWired ps with
             | [] => cfail (Errorf KindNotFound "plug in a cable; NetworkManager creates one automatically" "no wired profile")
             | [p] => cret p
             | wired => cfail (Errorf KindInvalid ("name one: " +:+ Join (map pf_Name wired) ", ") (Itoa (len wired) +:+ " wired profiles"))
             end
         end) ;;
  call (AActivateProfile (pf_UUID p) device) ;;% done_ (pf_Name p +:+ " up").

Definition wired_connected (d : Device) : bool :=
  (dev_Kind d =?s DeviceEthernet) && ((dev_State d =?s DeviceConnected) || (dev_State d =?s DeviceConnecting)).

Definition wired_down (device : string) : Cmd W unit :=
  client_ ;;%
  device <-% (if device =?s "" then
                devs <-% call ADevices ;;
                let device := match List.find wired_connected devs with Some d => dev_Name d | None => "" end in
                if device =?s "" then cfail (Errorf KindConflict "" "no ethernet device is connected") else cret device
              else cret device) ;;
  call (ADisconnectWifi device) ;;% done_ (device +:+ " down").

(** ** vpn.go *)

Definition settled (up : bool) (v : VPN) : bool :=
  negb (vpn_State v =?s VPNConnecting) && if up then negb (vpn_State v =?s VPNDisconnected) else negb (vpn_State v =?s VPNConnected).

(** The VPN of the id in a list, the last of several, or the one before. *)
Definition last_of (id : string) (vpns : list VPN) (last : VPN) : VPN :=
  fold_left (fun last v => if vpn_ID v =?s id then v else last) vpns last.

Fixpoint waitVPN_loop (fuel : nat) (deadline : Time) (id : string) (up : bool) (last : VPN) : Cmd W VPN :=
  match fuel with
  | O => fun _ => None
  | S fuel =>
      r <-% tried (cs_Call sys AVPNs) ;;
      let last := match r with Ok vpns => last_of id vpns last | Err _ => last end in
      if settled up last then cret last
      else
        now <-% (fun w => let '(t, w) := cs_Now sys w in Some (Ok t, w)) ;;
        if time_After now deadline then cret last
        else
          cancelled <-% look (cs_Cancelled sys) ;;
          if cancelled then cret last
          else
            go <-% (fun w => let '(b, w) := cs_Pause sys vpnPoll w in Some (Ok b, w)) ;;
            if go then waitVPN_loop fuel deadline id up last else cret last
  end.

Definition waitVPN (fuel : nat) (id : string) (up : bool) : Cmd W VPN :=
  now <-% (fun w => let '(t, w) := cs_Now sys w in Some (Ok t, w)) ;;
  waitVPN_loop fuel (time_Add now vpnSettle) id up VPN_zero.

Definition orDash (s : string) : string := if s =?s "" then "-" else s.

Definition vpn_match (v : VPN) (r : SecretRequest) : bool :=
  (sq_ConnectionUUID r =?s vpn_ID v) || (sq_VPN r && (sq_ConnectionName r =?s vpn_Name v)).

(** A VPN that settled in error is a failed action. *)
Definition vpn_failed (up : bool) (final : VPN) : option error :=
  if up && (vpn_State final =?s VPNError)
  then Some (Errorf KindInternal (vpn_Detail final) (vpn_Name final +:+ " failed: " +:+ orDash (vpn_Error final)))
  else None.

Definition vpnSwitch (fuel : nat) (quiet : bool) (arg : string) (up : bool) (password : string) : Cmd W unit :=
  v <-% app_resolveVPN arg ;;
  (if up then with_prompts fuel (mkPromptOpts (vpn_match v) (<["password" := password]> ∅) false) (AConnectVPN (vpn_ID v))
   else call (ADisconnectVPN (vpn_ID v))) ;;%
  final <-% waitVPN fuel (vpn_ID v) up ;;
  (if quiet then cret tt else run_ (cs_show sys final)) ;;%
  match vpn_failed up final with Some e => cfail e | None => cret tt end.

Definition is_up (v : VPN) : bool := (vpn_State v =?s VPNConnected) || (vpn_State v =?s VPNConnecting).

Definition vpnToggle (fuel : nat) (quiet : bool) (arg : string) : Cmd W unit :=
  v <-% app_resolveVPN arg ;; vpnSwitch fuel quiet (vpn_ID v) (negb (is_up v)) "".

Definition vpnImport (kind path name : string) : Cmd W ImportVPNResult :=
  data <-% (fun w => let '(r, w) := cs_ReadFile sys path w in
                     Some (match r with Err e => Err (ECore None KindNotFound "" "" (Some e)) | Ok s => Ok s end, w)) ;;
  let name := if name =?s "" then TrimSuffix (TrimSuffix (Base path) ".conf") ".ovpn" else name in
  client_ ;;% call (AImportVPN (mkImportVPNRequest kind name "" data)).

Definition tailscaleVPN : Cmd W VPN :=
  client_ ;;% vpns <-% call AVPNs ;;
  match List.find (fun v => vpn_Backend v =?s BackendTailscale) vpns with
  | Some v => cret v
  | None => cfail (Errorf KindUnsupported "install tailscale and start tailscaled" "no Tailscale backend")
  end.

Definition peer_less (a b : TailscalePeer) : bool :=
  if negb (Bool.eqb (tp_Online a) (tp_Online b)) then tp_Online a else String.ltb (tp_Name a) (tp_Name b).

(** The peers printed, and how many are hidden. *)
Definition long_gone (now : Time) (p : TailscalePeer) : bool :=
  negb (tp_Online p) && negb (time_IsZero (tp_LastSeen p)) && (30 * 24 * hour <? time_Sub now (tp_LastSeen p)).

Definition ts_peers (all : bool) (now : Time) : Cmd W (list TailscalePeer * nat) :=
  v <-% tailscaleVPN ;;
  let peers := isort (fun a b => negb (peer_less b a)) (match vpn_Tailscale v with Some ts => ti_Peers ts | None => [] end) in
  let hidden p := negb all && long_gone now p in
  cret (List.filter (fun p => negb (hidden p)) peers, length (List.filter hidden peers)).

Definition ts_exit_nodes : Cmd W (list TailscalePeer) :=
  v <-% tailscaleVPN ;;
  cret (match vpn_Tailscale v with Some ts => List.filter (fun p => tp_ExitNodeOption p || tp_ExitNode p) (ti_Peers ts) | None => [] end).

Definition ts_exit_set (peer : string) (allowLAN : bool) : Cmd W unit :=
  client_ ;;% call (ASetExitNode peer allowLAN) ;;% done_ ("exit node: " +:+ peer).

Definition onOffWord (b : bool) : string := if b then "on" else "off".

Definition ts_exit_use (on : bool) : Cmd W unit :=
  client_ ;;% call (AUseExitNode on) ;;% done_ ("exit node: " +:+ onOffWord on).

Definition ts_login : Cmd W string := client_ ;;% r <-% call ATailscaleLogin ;; cret (lr_URL r).
Definition ts_logout : Cmd W unit := client_ ;;% call ATailscaleLogout ;;% done_ "logged out".

Definition app_onOff (s : string) : Cmd W bool :=
  let s' := ToLower s in
  if existsb (String.eqb s') ["on"; "true"; "yes"; "1"; "enable"; "enabled"] then cret true
  else if existsb (String.eqb s') ["off"; "false"; "no"; "0"; "disable"; "disabled"] then cret false
  else cfail (EUsage ("want on or off, got " +:+ Quote s)).

Definition ts_dns (arg : string) : Cmd W unit :=
  on <-% app_onOff arg ;; client_ ;;% call (ASetAcceptDNS on) ;;% done_ ("accept DNS: " +:+ onOffWord on).

(** ** profile.go *)

Definition profile_less (a b : Profile) : bool :=
  if negb (Bool.eqb (pf_Active a) (pf_Active b)) then pf_Active a
  else if negb (pf_Type a =?s pf_Type b) then String.ltb (pf_Type a) (pf_Type b)
  else String.ltb (ToLower (pf_Name a)) (ToLower (pf_Name b)).

Definition profile_list (typ : string) : Cmd W (list Profile) :=
  client_ ;;% ps <-% call AProfiles ;;
  let ps := if typ =?s "" then ps else List.filter (fun p => (pf_Type p =?s typ) || (pf_RawType p =?s typ)) ps in
  cret (isort (fun a b => negb (profile_less b a)) ps).

(** The flags of one family. *)
Record ipFlags := mkIPFlags { fl_method : string; fl_addrs : list string; fl_gw : string; fl_dns : list string; fl_search : list string; fl_ignore : bool }.

Definition build_ip (f : ipFlags) : result error (option IPConfig) :=
  let m := fl_method f in
  if m =?s "" then Ok None
  else if negb (existsb (String.eqb m) [IPAuto; IPManual; IPDisabled; IPLinkLocal; IPShared; IPIgnore])
  then Err (EUsage ("unknown method " +:+ Quote m +:+ " (auto, manual, disabled, link-local, shared, ignore)"))
  else if (m =?s IPManual) && (len (fl_addrs f) =? 0) then Err (EUsage "manual needs at least one --address CIDR")
  else Ok (Some (mkIPConfig m (fl_addrs f) (fl_gw f) (fl_dns f) (fl_search f) (fl_ignore f) false)).

Definition profile_ip (arg : string) (v4 v6 : ipFlags) : Cmd W unit :=
  if (fl_method v4 =?s "") && (fl_method v6 =?s "") then cfail (EUsage "give --ipv4-method and/or --ipv6-method")
  else
    ipv4 <-% of_result (build_ip v4) ;;
    ipv6 <-% of_result (build_ip v6) ;;
    p <-% app_resolveProfile arg None "profile" ;;
    call (ASetProfileIP (pf_UUID p) ipv4 ipv6) ;;% done_ ("Updated IP settings of " +:+ pf_Name p).

Definition profile_autoconnect (arg on : string) : Cmd W unit :=
  on <-% app_onOff on ;;
  p <-% app_resolveProfile arg None "profile" ;;
  call (ASetAutoconnect (pf_UUID p) on) ;;% done_ ("Autoconnect " +:+ onOffWord on +:+ " for " +:+ pf_Name p).

Definition profile_delete (arg : string) : Cmd W unit :=
  p <-% app_resolveProfile arg None "profile" ;;
  call (ADeleteProfile (pf_UUID p)) ;;% done_ ("Deleted " +:+ pf_Name p).

(** ** secrets.go, monitor.go *)

Definition secrets_list : Cmd W (list SecretRequest) :=
  client_ ;;% reqs <-% call APendingSecrets ;;
  cret (isort (fun a b => negb (time_Before (sq_CreatedAt b) (sq_CreatedAt a))) reqs).

Definition secrets_answer (id : string) (save noSave : bool) : Cmd W unit :=
  client_ ;;%
  req <-% app_resolveSecret id ;;
  put (pq_Print (cs_prompts sys) (secretHeadline ToLower req +:+ newline_str)) ;;%
  secrets <-% run (promptSecretFields (cs_prompts sys) req) ;;
  match secrets with
  | None => call (ACancelSecret (sq_ID req)) ;;% done_ ("Cancelled the prompt for " +:+ secretSubject req)
  | Some m => call (AAnswerSecret (sq_ID req) (mkSecretAnswer m (save && negb noSave))) ;;% done_ ("Answered the prompt for " +:+ secretSubject req)
  end.

Definition secrets_cancel (id : string) : Cmd W unit :=
  client_ ;;%
  req <-% app_resolveSecret id ;;
  call (ACancelSecret (sq_ID req)) ;;% done_ ("Cancelled the prompt for " +:+ secretSubject req).

Definition monitor_reset (key : string) : Cmd W unit :=
  client_ ;;% call (AResetBaseline key) ;;%
  done_ ("Baseline reset for " +:+ (if key =?s "" then "the current network" else key) +:+ "; learning starts over").

Definition monitor_pause (pause : bool) : Cmd W unit :=
  client_ ;;% (if pause then call APauseMonitor else call AResumeMonitor) ;;%
  done_ ("monitor " +:+ (if pause then "pause" else "resume") +:+ "d").

(** The device whose neighbours [diag devices] lists. *)
Definition diag_device (device : string) : Cmd W string :=
  if device =?s "" then
    st <-% call AStatus ;;
    match st_Primary (sr_Status st) with
    | Some ac => match ac_Devices ac with d :: _ => cret d | [] => cfail (Errorf KindConflict "pass --device" "not connected; no subnet to scan") end
    | None => cfail (Errorf KindConflict "pass --device" "not connected; no subnet to scan")
    end
  else cret device.

(** The number a text without blanks begins with, as [Sscanf] with [%d] leaves
    an int that was zero. *)
Definition scan_d (s : string) : Z :=
  let fix digits (acc : Z) (some : bool) (s : string) : option Z :=
    match s with
    | String c s' => if is_digit c then digits (acc * 10 + digit_val c) true s' else if some then Some acc else None
    | "" => if some then Some acc else None
    end in
  let n := if HasPrefix s "-" then option_map Z.opp (digits 0 false (TrimPrefix s "-")) else digits 0 false (TrimPrefix s "+") in
  match n with Some n => if (min_int64 <=? n) && (n <=? max_int64) then n else 0 | None => 0 end.

Fixpoint quad_less (xs ys : list string) : bool :=
  match xs, ys with
  | x :: xs, y :: ys => let x := scan_d x in let y := scan_d y in if negb (x =? y) then x <? y else quad_less xs ys
  | _, _ => false
  end.

Definition ipLess (x y : string) : bool :=
  let xs := Split x "." in let ys := Split y "." in
  if (len xs =? 4) && (len ys =? 4) then quad_less xs ys else String.ltb x y.

Definition host_less (a b : LANHost) : bool :=
  if negb (Bool.eqb (lh_Gateway a) (lh_Gateway b)) then lh_Gateway a else ipLess (lh_IP a) (lh_IP b).

Definition diag_devices (device : string) (noSweep : bool) : Cmd W (list LANHost) :=
  client_ ;;% device <-% diag_device device ;; hosts <-% call (ALANHosts device (negb noSweep)) ;;
  cret (isort (fun a b => negb (host_less b a)) hosts).
End Commands.
