(* ===== verification/CommandsFacts.v ===== *)
(** What the commands of the command line ask of the daemon: every run of
    [wifi connect], [vpn up] and [vpn down] ends, and is one of a few lists of
    calls with the result that goes with it. *)

From S2P Require Import Prelude GoTime Core Errors GoStrings Daemon DaemonOps API APISpec Resolve Prompts Commands.

(** The calls a command made, those of its prompts among them, with their
    answers; the call that runs while its prompts are answered has none.  The
    streams of events a command listens to are not calls. *)
Inductive entry := | ECall {A : Type} (c : api_call A) (r : result error A) | EStart (c : api_call unit).

(** A call that changes something, a scan apart. *)
Definition change := {A : Type & api_call A}.

Definition change_of {A} (c : api_call A) : list change :=
  match c with
  | AConnectWifi q => [existT _ (AConnectWifi q)]
  | ADisconnectWifi d => [existT _ (ADisconnectWifi d)]
  | AForgetWifi u => [existT _ (AForgetWifi u)]
  | ASetWifiEnabled b => [existT _ (ASetWifiEnabled b)]
  | ASetProfileIP u a b => [existT _ (ASetProfileIP u a b)]
  | AActivateProfile u d => [existT _ (AActivateProfile u d)]
  | ADeactivateProfile u => [existT _ (ADeactivateProfile u)]
  | ASetAutoconnect u b => [existT _ (ASetAutoconnect u b)]
  | ADeleteProfile u => [existT _ (ADeleteProfile u)]
  | AConnectVPN i => [existT _ (AConnectVPN i)]
  | ADisconnectVPN i => [existT _ (ADisconnectVPN i)]
  | AImportVPN q => [existT _ (AImportVPN q)]
  | ASetExitNode p b => [existT _ (ASetExitNode p b)]
  | AUseExitNode b => [existT _ (AUseExitNode b)]
  | ATailscaleLogin => [existT _ ATailscaleLogin]
  | ATailscaleLogout => [existT _ ATailscaleLogout]
  | ASetAcceptDNS b => [existT _ (ASetAcceptDNS b)]
  | AResetBaseline k => [existT _ (AResetBaseline k)]
  | APauseMonitor => [existT _ APauseMonitor]
  | AResumeMonitor => [existT _ AResumeMonitor]
  | AAnswerSecret i a => [existT _ (AAnswerSecret i a)]
  | ACancelSecret i => [existT _ (ACancelSecret i)]
  | ASetConfig k v => [existT _ (ASetConfig k v)]
  | _ => []
  end.

Definition changes (l : list entry) : list change :=
  flat_map (fun e => match e with ECall c _ => change_of c | EStart c => change_of c end) l.

Lemma changes_app l1 l2 : changes (l1 ++ l2) = changes l1 ++ changes l2.
Proof. apply flat_map_app. Qed.

(** The calls made to answer a prompt, and what they tell the daemon. *)
Definition told_by {A} (c : api_call A) : list told :=
  match c with AAnswerSecret id a => [TAnswer id a] | ACancelSecret id => [TCancel id] | _ => [] end.
Definition tolds (l : list entry) : list told := flat_map (fun e => match e with ECall c _ => told_by c | EStart c => told_by c end) l.
Definition told_change (t : told) : change :=
  match t with TAnswer id a => existT _ (AAnswerSecret id a) | TCancel id => existT _ (ACancelSecret id) end.

Lemma tolds_app l1 l2 : tolds (l1 ++ l2) = tolds l1 ++ tolds l2.
Proof. apply flat_map_app. Qed.

Inductive asking : entry -> Prop :=
| asks_pending r : asking (ECall APendingSecrets r)
| asks_secret id r : asking (ECall (ASecret id) r)
| tells_answer id a r : asking (ECall (AAnswerSecret id a) r)
| tells_cancel id r : asking (ECall (ACancelSecret id) r).

Lemma changes_asking l : Forall asking l -> changes l = map told_change (tolds l).
Proof.
  induction 1 as [|e l He _ IH]; [done|]. change (changes ([e] ++ l) = map told_change (tolds ([e] ++ l))).
  rewrite changes_app, tolds_app, map_app, IH. f_equal. by destruct He.
Qed.

Definition answer_of (e : option error) : result error unit := match e with Some e => Err e | None => Ok tt end.

(** [w'] comes after [w], with no call in between. *)
Definition quietly {W} (trace : W -> list entry) (left : W -> nat) (clock : W -> Time) (w w' : W) : Prop :=
  trace w' = trace w /\ (left w' <= left w)%nat /\ clock w <= clock w'.

Definition traced {W} (trace : W -> list entry) (left : W -> nat) (clock : W -> Time) (e : entry) (w w' : W) : Prop :=
  trace w' = trace w ++ [e] /\ (left w' <= left w)%nat /\ clock w <= clock w'.

(** Every call is in the trace, those of the prompts too, and only calls are; the
    events a command can still wait for are bounded by [left]; and time passes. *)
Class CmdLaws {W} (sys : CmdSys W) (trace : W -> list entry) (left : W -> nat) (clock : W -> Time) : Prop := {
  cl_ReadString w : quietly trace left clock w (pq_ReadString (cs_prompts sys) w).2;
  cl_ReadPassword w : quietly trace left clock w (pq_ReadPassword (cs_prompts sys) w).2;
  cl_Print s w : quietly trace left clock w (pq_Print (cs_prompts sys) s w);
  cl_Events w : quietly trace left clock w (pq_Events (cs_prompts sys) w).2;
  cl_Pending w : let '(r, w') := pq_Pending (cs_prompts sys) w in traced trace left clock (ECall APendingSecrets r) w w';
  cl_Secret id w : let '(r, w') := pq_Secret (cs_prompts sys) id w in traced trace left clock (ECall (ASecret id) r) w w';
  cl_Answer id a w : let '(e, w') := pq_Answer (cs_prompts sys) id a w in traced trace left clock (ECall (AAnswerSecret id a) (answer_of e)) w w';
  cl_Cancel id w : let '(e, w') := pq_Cancel (cs_prompts sys) id w in traced trace left clock (ECall (ACancelSecret id) (answer_of e)) w w';
  cl_Stop b w : quietly trace left clock w (pq_Stop (cs_prompts sys) b w);
  cl_Wait_quiet w : quietly trace left clock w (pq_Wait (cs_prompts sys) w).2;
  cl_Wait w : match (pq_Wait (cs_prompts sys) w).1 with WDone _ => True | _ => (left (pq_Wait (cs_prompts sys) w).2 < left w)%nat end;
  cl_client w : quietly trace left clock w (cs_client sys w).2;
  cl_Call A (c : api_call A) w : let '(r, w') := cs_Call sys c w in traced trace left clock (ECall c r) w w';
  cl_Start c w : traced trace left clock (EStart c) w (cs_Start sys c w);
  cl_ScanEvents w : quietly trace left clock w (cs_ScanEvents sys w).2;
  cl_ScanNext w : let '(k, w') := cs_ScanNext sys w in quietly trace left clock w w' /\ match k with SItem _ => (left w' < left w)%nat | _ => True end;
  cl_ReadFile p w : quietly trace left clock w (cs_ReadFile sys p w).2;
  cl_Now w : let '(t, w') := cs_Now sys w in quietly trace left clock w w' /\ clock w <= t <= clock w';
  cl_Pause d w : let '(b, w') := cs_Pause sys d w in quietly trace left clock w w' /\ (b = true -> clock w + d <= clock w');
  cl_done s w : quietly trace left clock w (cs_done sys s w);
  cl_show v w : quietly trace left clock w (cs_show sys v w).2
}.

Section Facts.
Context {W : Type} (sys : CmdSys W) (trace : W -> list entry) (left : W -> nat) (clock : W -> Time) {laws : CmdLaws sys trace left clock}.
Context (Quote ToLower : string -> string) (EqualFold : string -> string -> bool).
Local Open Scope cmd_scope.
Let after := quietly trace left clock.

#[local] Instance after_preorder : PreOrder after.
Proof. split; [by intros w; repeat split|]. intros w1 w2 w3 (H1 & H2 & H3) (H4 & H5 & H6). repeat split; [congruence|lia..]. Qed.

(** *** Programs by their calls *)

(** Every run of [m] makes calls and gives a result that are in [Q]. *)
Definition does {A} (m : Cmd W A) (Q : list entry -> result error A -> Prop) : Prop :=
  forall w r w', m w = Some (r, w') -> exists l, trace w' = trace w ++ l /\ Q l r.

Lemma cmd_does_weaken {A} (m : Cmd W A) (P Q : list entry -> result error A -> Prop) : does m P -> (forall l r, P l r -> Q l r) -> does m Q.
Proof. intros Hm HPQ w r w' (l & H1 & H2)%Hm. exists l. auto. Qed.

Lemma cmd_does_bind {A B} (m : Cmd W A) (k : A -> Cmd W B) (P : list entry -> result error A -> Prop) (Q : list entry -> result error B -> Prop) :
  does m P -> (forall l e, P l (Err e) -> Q l (Err e)) -> (forall l a, P l (Ok a) -> does (k a) (fun l' r => Q (l ++ l') r)) -> does (cbind m k) Q.
Proof.
  intros Hm He Hk w r w'. unfold cbind. destruct (m w) as [[[a|e] w1]|] eqn:Hw; [| |done].
  - intros Hr. destruct (Hm _ _ _ Hw) as (l & Hl & HP). destruct (Hk _ _ HP _ _ _ Hr) as (l' & Hl' & HQ).
    exists (l ++ l'). rewrite app_assoc, <- Hl. auto.
  - intros [= <- <-]. destruct (Hm _ _ _ Hw) as (l & Hl & HP). exists l. auto.
Qed.

Lemma does_result {A} (r : result error A) : does (of_result r) (fun l r' => l = [] /\ r' = r).
Proof. intros w r' w' [= <- <-]. exists []. by rewrite app_nil_r. Qed.

Lemma cmd_does_ret {A} (a : A) : does (cret a) (fun l r => l = [] /\ r = Ok a).
Proof. intros w r' w' [= <- <-]. exists []. by rewrite app_nil_r. Qed.

Lemma does_fail {A} (e : error) : does (cfail (A := A) e) (fun l r => l = [] /\ r = Err e).
Proof. intros w r' w' [= <- <-]. exists []. by rewrite app_nil_r. Qed.

Lemma does_look {A} (f : W -> A) : does (look f) (fun l r => l = [] /\ exists w, r = Ok (f w)).
Proof. intros w r' w' [= <- <-]. exists []. rewrite app_nil_r. eauto. Qed.

Lemma cmd_does_call {A} (c : api_call A) : does (run (cs_Call sys c)) (fun l r => l = [ECall c r]).
Proof. intros w r w' [= H]. pose proof (cl_Call A c w) as Hc. rewrite H in Hc. destruct Hc as (Hc & _). by exists [ECall c r]. Qed.

Lemma does_tried {A} (c : api_call A) : does (tried (cs_Call sys c)) (fun l r => exists a, r = Ok a /\ l = [ECall c a]).
Proof.
  intros w r w'. unfold tried. pose proof (cl_Call A c w) as Hc. destruct (cs_Call sys c w) as [a w1]. destruct Hc as (Hc & _).
  intros [= <- <-]. exists [ECall c a]. eauto.
Qed.

(** Steps that make no call. *)
Lemma does_run_ f : (forall w, after w (f w).2) -> does (run_ f) (fun l r => l = []).
Proof.
  intros Hf w r w'. unfold run_. pose proof (Hf w) as Hw. destruct (f w) as [e w1]. intros [= _ <-]. exists []. rewrite app_nil_r. by destruct Hw.
Qed.

Lemma does_run_error f : (forall w, after w (f w).2) ->
  does (run_ f) (fun l r => l = [] /\ match r with Ok _ => True | Err _ => exists w0 e, (f w0).1 = Some e /\ r = Err e end).
Proof.
  intros Hf w r w'. unfold run_. pose proof (Hf w) as Hw. destruct (f w) as [e w1] eqn:He. intros [= <- <-]. exists []. rewrite app_nil_r.
  split; [by destruct Hw|]. split; [done|]. destruct e as [e|]; [|done]. exists w, e. by rewrite He.
Qed.

Lemma does_run {A} (f : W -> result error A * W) : (forall w, after w (f w).2) -> does (run f) (fun l r => l = []).
Proof. intros Hf w r w' [= H]. pose proof (Hf w) as Hw. rewrite H in Hw. exists []. rewrite app_nil_r. by destruct Hw. Qed.

Lemma does_put f : (forall w, after w (f w)) -> does (put f) (fun l r => l = [] /\ r = Ok tt).
Proof. intros Hf w r w' [= <- <-]. exists []. rewrite app_nil_r. by destruct (Hf w). Qed.

Lemma does_client : does (run_ (cs_client sys)) (fun l r => l = []).
Proof. apply does_run_, cl_client. Qed.

Lemma does_done s : does (put (cs_done sys s)) (fun l r => l = [] /\ r = Ok tt).
Proof. apply does_put. intros w. apply cl_done. Qed.
(** *** The prompts of a request *)

(** Between [w] and [w'] nothing was called but for prompts. *)
Definition prompting_ (w w' : W) : Prop :=
  exists l, trace w' = trace w ++ l /\ Forall asking l /\ (left w' <= left w)%nat /\ clock w <= clock w'.

Lemma quietly_prompting w w' : after w w' -> prompting_ w w'.
Proof. intros (H1 & H2 & H3). exists []. rewrite app_nil_r. split_and!; [done|constructor|done..]. Qed.

Lemma traced_prompting e w w' : asking e -> traced trace left clock e w w' -> prompting_ w w'.
Proof. intros He (H1 & H2 & H3). exists [e]. split_and!; [done|by repeat constructor|done..]. Qed.

#[local] Instance quietly_quiet : Quiet (cs_prompts sys) after.
Proof. split; [apply after_preorder|exact cl_ReadString|exact cl_ReadPassword|exact cl_Print]. Qed.

#[local] Instance prompting_preorder : PreOrder prompting_.
Proof.
  split; [intros w; apply quietly_prompting; reflexivity|]. intros w1 w2 w3 (l1 & H1 & F1 & L1 & C1) (l2 & H2 & F2 & L2 & C2). exists (l1 ++ l2).
  split_and!; [by rewrite H2, H1, app_assoc|by apply Forall_app|lia..].
Qed.

#[local] Instance prompting_rel : PromptRel (cs_prompts sys) prompting_.
Proof.
  split; [split; [apply prompting_preorder|..]|..]; intros; try (apply quietly_prompting; apply cl_ReadString || apply cl_ReadPassword || apply cl_Print ||
    apply cl_Events || apply cl_Stop || apply cl_Wait_quiet).
  - pose proof (cl_Pending w) as H. destruct (pq_Pending _ w). eapply traced_prompting; [|exact H]. constructor.
  - pose proof (cl_Secret id w) as H. destruct (pq_Secret _ _ w). eapply traced_prompting; [|exact H]. constructor.
  - pose proof (cl_Answer id a w) as H. destruct (pq_Answer _ _ _ w). eapply traced_prompting; [|exact H]. constructor.
  - pose proof (cl_Cancel id w) as H. destruct (pq_Cancel _ _ w). eapply traced_prompting; [|exact H]. constructor.
Qed.

Lemma tolds_quiet w w' : after w w' -> tolds (trace w') = tolds (trace w).
Proof. by intros (-> & _). Qed.

Lemma tolds_traced e w w' : traced trace left clock e w w' -> tolds (trace w') = tolds (trace w) ++ tolds [e].
Proof. intros (-> & _). apply tolds_app. Qed.

#[local] Instance prompts_told : PromptLaws (cs_prompts sys) (fun w => tolds (trace w)).
Proof.
  split; intros; try (apply tolds_quiet; apply cl_ReadString || apply cl_ReadPassword || apply cl_Print || apply cl_Events || apply cl_Stop || apply cl_Wait_quiet).
  - pose proof (cl_Pending w) as H. destruct (pq_Pending _ w). cbn [snd]; by rewrite (tolds_traced _ _ _ H), app_nil_r.
  - pose proof (cl_Secret id w) as H. destruct (pq_Secret _ _ w). cbn [snd]; by rewrite (tolds_traced _ _ _ H), app_nil_r.
  - pose proof (cl_Answer id a w) as H. destruct (pq_Answer _ _ _ w). cbn [snd]; by rewrite (tolds_traced _ _ _ H).
  - pose proof (cl_Cancel id w) as H. destruct (pq_Cancel _ _ w). cbn [snd]; by rewrite (tolds_traced _ _ _ H).
Qed.

(** What a request with its prompts calls: the plain request when the daemon
    offers no events, or the request and then only what its prompts need, each
    told at most once and only those that are its own; it succeeds only when the
    request did. *)
Definition prompted (o : promptOpts) (c : api_call unit) (l : list entry) (r : result error unit) : Prop :=
  l = [ECall c r] \/
  exists ps, l = EStart c :: ps /\ Forall asking ps /\ NoDup (map told_id (tolds ps)) /\
    Forall (fun t => exists req, po_match o req = true /\ told_id t = sq_ID req) (tolds ps) /\
    (r = Ok tt -> exists w0 w1, pq_Wait (cs_prompts sys) w0 = (WDone None, w1)).

Lemma does_with_prompts fuel o c : told_by c = [] -> does (with_prompts sys ToLower fuel o c) (prompted o c).
Proof.
  intros Hc0 w r w'. unfold with_prompts, runWithPrompts. pose proof (cl_Events w) as (He & _). destruct (pq_Events (cs_prompts sys) w) as [[e|] w1]; cbn in *.
  - pose proof (cl_Call _ c w1) as Hc. destruct (cs_Call sys c w1) as [a w2]. destruct Hc as (Hc & _). rewrite <- He.
    destruct a as [[]|a]; intros [= <- <-]; [exists [ECall c (Ok tt)]|exists [ECall c (Err a)]]; (split; [exact Hc|by left]).
  - pose proof (cl_Start c w1) as (Hs & _). destruct (prompt_loop _ _ _ _ _) as [[err w2]|] eqn:Hr; [|done]. intros Hw.
    assert (w2 = w') as -> by (destruct err; congruence).
    destruct (prompt_loop_rel (cs_prompts sys) prompting_ ToLower _ _ _ _ _ Hr) as (ps & Ht & Hps & _).
    destruct (prompt_loop_spec (cs_prompts sys) (fun w => tolds (trace w)) ToLower _ _ _ _ _ Hr) as (l & Hl & (Hnd & _ & Hleg & _) & Hout).
    cbv beta in Hl. rewrite Ht, tolds_app in Hl. apply app_inv_head in Hl. subst l.
    exists (EStart c :: ps). split; [by rewrite Ht, Hs, He, <- app_assoc|]. right. exists ps. split_and!; [done..| |].
    + eapply Forall_impl; [exact Hleg|]. intros t (req & H1 & [->|(m & -> & _)]); by exists req.
    + intros Hok. destruct err as [e|]; [congruence|]. destruct Hout as [H|(e & q & o' & b & w2 & H & _)]; [exact H|done].
Qed.

Lemma prompted_changes o c l r : prompted o c l r -> exists ts, changes l = change_of c ++ map told_change ts /\
  NoDup (map told_id ts) /\ Forall (fun t => exists req, po_match o req = true /\ told_id t = sq_ID req) ts.
Proof.
  intros [->|(ps & -> & Hps & Hnd & Hleg & _)]; [exists []; split_and!; [done|constructor|constructor]|].
  exists (tolds ps). split_and!; [|done..]. cbn. by rewrite <- changes_asking.
Qed.

(** *** Programs that end *)

Definition ends (fuel : nat) {A} (m : Cmd W A) : Prop :=
  forall w, (left w < fuel)%nat -> exists r w', m w = Some (r, w') /\ (left w' <= left w)%nat.

Lemma ends_bind fuel {A B} (m : Cmd W A) (k : A -> Cmd W B) : ends fuel m -> (forall a, ends fuel (k a)) -> ends fuel (cbind m k).
Proof.
  intros Hm Hk w Hw. unfold cbind. destruct (Hm w Hw) as ([a|e] & w1 & -> & Hl); [|by eauto].
  destruct (Hk a w1) as (r & w2 & -> & Hl2); [lia|]. exists r, w2. split; [done|lia].
Qed.

Lemma ends_result fuel {A} (r : result error A) : ends fuel (of_result r).
Proof. intros w _. exists r, w. split; [done|lia]. Qed.

Lemma ends_ret fuel {A} (a : A) : ends fuel (cret a).
Proof. intros w _. exists (Ok a), w. split; [done|lia]. Qed.

Lemma ends_fail fuel {A} (e : error) : ends fuel (cfail (A := A) e).
Proof. intros w _. exists (Err e), w. split; [done|lia]. Qed.

Lemma ends_look fuel {A} (f : W -> A) : ends fuel (look f).
Proof. intros w _. exists (Ok (f w)), w. split; [done|lia]. Qed.

Lemma ends_call fuel {A} (c : api_call A) : ends fuel (run (cs_Call sys c)).
Proof. intros w _. unfold run. pose proof (cl_Call _ c w) as Hc. destruct (cs_Call sys c w) as [r w1]. destruct Hc as (_ & Hc & _). eauto. Qed.

Lemma ends_tried fuel {A} (c : api_call A) : ends fuel (tried (cs_Call sys c)).
Proof. intros w _. unfold tried. pose proof (cl_Call _ c w) as Hc. destruct (cs_Call sys c w) as [r w1]. destruct Hc as (_ & Hc & _). eauto. Qed.

Lemma ends_run_ fuel f : (forall w, after w (f w).2) -> ends fuel (run_ f).
Proof. intros Hf w _. unfold run_. destruct (Hf w) as (_ & Hl & _). destruct (f w) as [e w1]. eauto. Qed.

Lemma ends_run fuel {A} (f : W -> result error A * W) : (forall w, after w (f w).2) -> ends fuel (run f).
Proof. intros Hf w _. unfold run. destruct (Hf w) as (_ & Hl & _). destruct (f w) as [r w1]. eauto. Qed.

Lemma ends_put fuel f : (forall w, after w (f w)) -> ends fuel (put f).
Proof. intros Hf w _. destruct (Hf w) as (_ & Hl & _). unfold put. eauto. Qed.

#[local] Instance prompts_end : PromptEnds (cs_prompts sys) left.
Proof.
  split; [|exact cl_Wait].
  assert (forall w w', prompting_ w w' -> (left w' <= left w)%nat) as H by (by intros w w' (l & _ & _ & ? & _)).
  split; [split; [split; [by intros ?|intros ? ? ? ? ?; lia]|..]|..]; intros; cbv beta; apply H; try (apply quietly_prompting; apply cl_ReadString || apply cl_ReadPassword || apply cl_Print).
  all: apply prompting_rel.
Qed.

Lemma ends_with_prompts fuel o c : ends fuel (with_prompts sys ToLower fuel o c).
Proof.
  intros w Hw. unfold with_prompts. set (request := cs_Start sys c).
  match goal with |- context [runWithPrompts _ _ _ _ request ?p w] => set (plain := p) end.
  pose proof (cl_Events w) as (_ & He & _). pose proof (cl_Start c (pq_Events (cs_prompts sys) w).2) as (_ & Hs & _).
  destruct (runWithPrompts (cs_prompts sys) ToLower fuel o request plain w) as [[err w1]|] eqn:Hr.
  - assert (left w1 <= left w)%nat as Hl.
    { apply (runWithPrompts_rel (cs_prompts sys) prompting_) in Hr as [[_ Hp]|[_ Hp]].
      - pose proof (cl_Call _ c (pq_Events (cs_prompts sys) w).2) as Hc. unfold plain in Hp. destruct (cs_Call sys c _) as [a w2].
        destruct Hc as (_ & Hc & _). injection Hp as _ <-. lia.
      - destruct Hp as (_ & _ & _ & Hp & _). unfold request in Hp. lia. }
    destruct err; eauto.
  - exfalso. unfold runWithPrompts in Hr. destruct (pq_Events (cs_prompts sys) w) as [[e|] w1]; [done|]. cbn in *.
    eapply (prompt_loop_ends (cs_prompts sys) left ToLower fuel); [|exact Hr]. unfold request. lia.
Qed.
(** *** wifi connect *)

Lemma rescan_does fuel : does (rescan_wait sys fuel) (fun l r => l = [] /\ r = Ok tt).
Proof.
  induction fuel as [|fuel IH]; [done|]. intros w r w'. cbn [rescan_wait cbind].
  pose proof (cl_ScanNext w) as Hk. destruct (cs_ScanNext sys w) as [k w1] eqn:Hn. destruct Hk as [(Hk & _) _].
  unfold cbind. rewrite Hn. rewrite <- Hk.
  destruct k as [| |[c|e]]; try (intros [= <- <-]; exists []; by rewrite app_nil_r); [|apply IH].
  destruct (ch_Kind c =?s ChangeWifi); [intros [= <- <-]; exists []; by rewrite app_nil_r|apply IH].
Qed.

Lemma rescan_ends fuel : ends fuel (rescan_wait sys fuel).
Proof.
  induction fuel as [|fuel IH]; intros w Hw; [lia|]. cbn [rescan_wait]. unfold cbind.
  pose proof (cl_ScanNext w) as Hk. destruct (cs_ScanNext sys w) as [k w1] eqn:Hn. destruct Hk as [(_ & Hl & _) Hk].
  assert (forall i, k = SItem i -> exists r w', rescan_wait sys fuel w1 = Some (r, w') /\ (left w' <= left w)%nat) as HIH.
  { intros i ->. destruct (IH w1) as (r & w2 & Hr & Hl2); [lia|]. exists r, w2. split; [done|lia]. }
  destruct k as [| |[c|e]]; [by exists (Ok tt), w1..| |by eapply HIH]. destruct (ch_Kind c =?s ChangeWifi); [by exists (Ok tt), w1|by eapply HIH].
Qed.

(** What an answer of the daemon says of a network. *)
Definition seen_in (ssid : string) (r : result error (list WifiNetwork)) : option WifiNetwork :=
  match r with Ok nets => List.find (fun n => wn_SSID n =?s ssid) nets | Err _ => None end.
Definition saved_in (ssid : string) (r : result error (list Profile)) : bool :=
  match r with Ok ps => existsb (is_profile_of ssid) ps | Err _ => false end.

(** The calls of the look for a network and what they found: it in the list, or
    a name passed as hidden or saved, or it in the list after a scan. *)
Inductive looked (device ssid : string) (hidden : bool) : list entry -> option WifiNetwork -> Prop :=
| look_seen r n : seen_in ssid r = Some n -> looked device ssid hidden [ECall (AWifi device) r] (Some n)
| look_hidden r : seen_in ssid r = None -> hidden = true -> looked device ssid hidden [ECall (AWifi device) r] None
| look_saved r q : seen_in ssid r = None -> hidden = false -> saved_in ssid q = true ->
    looked device ssid hidden [ECall (AWifi device) r; ECall AProfiles q] None
| look_scanned r q r' n : seen_in ssid r = None -> hidden = false -> saved_in ssid q = false -> seen_in ssid r' = Some n ->
    looked device ssid hidden [ECall (AWifi device) r; ECall AProfiles q; ECall (AScanWifi device) (Ok tt); ECall (AWifi device) r'] (Some n).

(** The look that failed: neither listed, hidden nor saved, and then without
    events to wait for the scan by, refused the scan, or still not listed. *)
Inductive not_found (device ssid : string) : list entry -> error -> Prop :=
| scan_deaf r q w0 e : seen_in ssid r = None -> saved_in ssid q = false -> (cs_ScanEvents sys w0).1 = Some e ->
    not_found device ssid [ECall (AWifi device) r; ECall AProfiles q] e
| scan_refused r q e : seen_in ssid r = None -> saved_in ssid q = false ->
    not_found device ssid [ECall (AWifi device) r; ECall AProfiles q; ECall (AScanWifi device) (Err e)] e
| not_in_range r q r' : seen_in ssid r = None -> saved_in ssid q = false -> seen_in ssid r' = None ->
    not_found device ssid [ECall (AWifi device) r; ECall AProfiles q; ECall (AScanWifi device) (Ok tt); ECall (AWifi device) r']
      (Errorf KindNotFound "check `bnm wifi list`, or pass --hidden if the network does not broadcast its name" (Quote ssid +:+ " is not in range")).

Lemma wifiSeen_does device ssid :
  does (wifiSeen sys device ssid) (fun l r => exists a, l = [ECall (AWifi device) a] /\ r = Ok (seen_in ssid a)).
Proof.
  unfold wifiSeen. eapply cmd_does_bind; [apply does_tried|intros l e (a & ? & _); done|]. intros l a (a' & [= <-] & ->).
  eapply cmd_does_weaken; [apply cmd_does_ret|]. intros l r [-> ->]. by exists a.
Qed.

Lemma wifiProfileExists_does ssid :
  does (wifiProfileExists sys ssid) (fun l r => exists a, l = [ECall AProfiles a] /\ r = Ok (saved_in ssid a)).
Proof.
  unfold wifiProfileExists. eapply cmd_does_bind; [apply does_tried|intros l e (a & ? & _); done|]. intros l a (a' & [= <-] & ->).
  eapply cmd_does_weaken; [apply cmd_does_ret|]. intros l r [-> ->]. by exists a.
Qed.

Lemma app_rescan_does fuel device :
  does (app_rescan sys fuel device) (fun l r =>
    (l = [] /\ exists w0 e, (cs_ScanEvents sys w0).1 = Some e /\ r = Err e) \/ (exists e, l = [ECall (AScanWifi device) (Err e)] /\ r = Err e) \/
    (l = [ECall (AScanWifi device) (Ok tt)] /\ r = Ok tt)).
Proof.
  unfold app_rescan. eapply cmd_does_bind; [apply does_run_error; intros w; apply cl_ScanEvents|intros l e [-> H]; by left; eauto|]. intros l a [-> _].
  eapply cmd_does_bind; [apply cmd_does_call|intros l e ->; right; left; by eauto|]. intros l [] ->.
  eapply cmd_does_weaken; [apply rescan_does|]. intros l r [-> ->]. by right; right.
Qed.

Lemma in_range_does fuel device ssid hidden :
  does (in_range sys Quote fuel device ssid hidden)
    (fun l r => match r with Ok seen => looked device ssid hidden l seen | Err e => hidden = false /\ not_found device ssid l e end).
Proof.
  unfold in_range. eapply cmd_does_bind; [apply wifiSeen_does|by intros l e (a & _ & ?)|]. intros l s (a & -> & [= ->]).
  destruct (seen_in ssid a) as [n|] eqn:Ha; [eapply cmd_does_weaken; [apply cmd_does_ret|]; intros l' r [-> ->]; by constructor|].
  destruct hidden; [eapply cmd_does_weaken; [apply cmd_does_ret|]; intros l' r [-> ->]; by constructor|].
  eapply cmd_does_bind; [apply wifiProfileExists_does|by intros l e (q & _ & ?)|]. intros l b (q & -> & [= ->]).
  destruct (saved_in ssid q) eqn:Hq; [eapply cmd_does_weaken; [apply cmd_does_ret|]; intros l' r [-> ->]; by constructor|].
  eapply cmd_does_bind; [apply app_rescan_does| |].
  { intros l e [(-> & w0 & e' & H & [= <-])|[(e' & -> & [= <-])|[_ ?]]]; [split; [done|by econstructor]|split; [done|by constructor]|done]. }
  intros l u [(_ & w0 & e & _ & ?)|[(e & _ & ?)|[-> _]]]; [done..|].
  eapply cmd_does_bind; [apply wifiSeen_does|by intros l e (a' & _ & ?)|]. intros l s (a' & -> & [= ->]).
  destruct (seen_in ssid a') as [n|] eqn:Ha'; (eapply cmd_does_weaken; [first [apply cmd_does_ret|apply does_fail]|]); intros l' r [-> ->]; [by constructor|].
  split; [done|by constructor].
Qed.

Lemma in_range_ends fuel device ssid hidden : ends fuel (in_range sys Quote fuel device ssid hidden).
Proof.
  assert (forall d s, ends fuel (wifiSeen sys d s)) as Hs by (intros d s; apply ends_bind; [apply ends_tried|intros; apply ends_ret]).
  unfold in_range. apply ends_bind; [apply Hs|]. intros [n|]; [apply ends_ret|]. destruct hidden; [apply ends_ret|].
  apply ends_bind; [apply ends_bind; [apply ends_tried|intros; apply ends_ret]|]. intros []; [apply ends_ret|].
  apply ends_bind; [|intros _; apply ends_bind; [apply Hs|intros [n|]; [apply ends_ret|apply ends_fail]]].
  apply ends_bind; [apply ends_run_; intros w; apply cl_ScanEvents|intros _]. apply ends_bind; [apply ends_call|intros _; apply rescan_ends].
Qed.

Lemma readPassword_after p w : after w (readPassword (cs_prompts sys) p w).2.
Proof. apply (readPassword_quiet (cs_prompts sys) after). Qed.

(** The password to connect with: that of the flag; none when none is asked for
    and the network seen needs none; or the one typed, on a terminal unless
    [--ask] says to read it from anywhere. *)
Inductive given (password : string) (ask : bool) (seen : option WifiNetwork) (ssid : string) : result error string -> Prop :=
| given_flag : password <> "" -> given password ask seen ssid (Ok password)
| given_none : password = "" -> ask = false -> needsSecret seen = false -> given password ask seen ssid (Ok "")
| given_nowhere w0 : password = "" -> ask = false -> needsSecret seen = true -> pq_Interactive (cs_prompts sys) w0 = false ->
    given password ask seen ssid (Err (Errorf KindInvalid "pass --password or --ask" (Quote ssid +:+ " needs a password")))
| given_typed w0 : password = "" -> ask = true \/ (needsSecret seen = true /\ pq_Interactive (cs_prompts sys) w0 = true) ->
    given password ask seen ssid (readPassword (cs_prompts sys) ("Password for " +:+ ssid +:+ ": ") w0).1.

Lemma ask_password_does password ask seen ssid :
  does (ask_password sys Quote password ask seen ssid) (fun l r => l = [] /\ given password ask seen ssid r).
Proof.
  unfold ask_password. destruct (String.eqb_spec password "") as [->|Hp]; cbn [andb].
  2:{ eapply cmd_does_weaken; [apply cmd_does_ret|]. intros l r [-> ->]. split; [done|by constructor]. }
  destruct (ask || needsSecret seen) eqn:Ha.
  2:{ apply orb_false_iff in Ha as [-> Hn]. eapply cmd_does_weaken; [apply cmd_does_ret|]. intros l r [-> ->]. split; [done|by constructor]. }
  intros w r w'. unfold cbind, look. destruct (negb ask && negb (pq_Interactive (cs_prompts sys) w)) eqn:Hi.
  - apply andb_true_iff in Hi as [->%negb_true_iff Hi%negb_true_iff]. intros [= <- <-]. exists []. rewrite app_nil_r.
    split; [done|]. split; [done|]. by apply given_nowhere with w.
  - unfold run. intros Hr. pose proof (readPassword_after ("Password for " +:+ ssid +:+ ": ") w) as (Hw & _).
    destruct (readPassword _ _ w) as [r0 w0] eqn:Hread. injection Hr as <- <-. exists []. rewrite app_nil_r. split; [done|]. split; [done|].
    replace r0 with (readPassword (cs_prompts sys) ("Password for " +:+ ssid +:+ ": ") w).1 by by rewrite Hread.
    apply given_typed; [done|]. destruct ask; [by left|right]. cbn in Ha, Hi. split; [done|by apply negb_false_iff in Hi].
Qed.

Lemma ask_password_ends fuel password ask seen ssid : ends fuel (ask_password sys Quote password ask seen ssid).
Proof.
  unfold ask_password. destruct (_ && _); [|apply ends_ret]. apply ends_bind; [apply ends_look|]. intros i.
  destruct (_ && _); [apply ends_fail|]. apply ends_run, readPassword_after.
Qed.

(** A run of [wifi connect]: no client, flags that exclude each other, no such
    network, no password; or the request, with its prompts, after the look for
    the network, and with its result. *)
Inductive connect_run (password device : string) (ask hidden : bool) (ssid : string) : list entry -> result error unit -> Prop :=
| connect_offline w0 e : (cs_client sys w0).1 = Some e -> connect_run password device ask hidden ssid [] (Err e)
| connect_usage : password <> "" -> ask = true ->
    connect_run password device ask hidden ssid [] (Err (EUsage "--password and --ask are mutually exclusive"))
| connect_lost l e : ~ (password <> "" /\ ask = true) -> hidden = false -> not_found device ssid l e -> connect_run password device ask hidden ssid l (Err e)
| connect_unasked l seen e : ~ (password <> "" /\ ask = true) -> looked device ssid hidden l seen -> given password ask seen ssid (Err e) ->
    connect_run password device ask hidden ssid l (Err e)
| connect_asked l seen p l' r : ~ (password <> "" /\ ask = true) -> looked device ssid hidden l seen -> given password ask seen ssid (Ok p) ->
    prompted (connect_prompts ssid p seen) (AConnectWifi (mkConnectWifiRequest device ssid p hidden "")) l' r ->
    connect_run password device ask hidden ssid (l ++ l') r.

Lemma wifi_connect_does fuel password device ask hidden ssid :
  does (wifi_connect sys Quote ToLower fuel password device ask hidden ssid) (connect_run password device ask hidden ssid).
Proof.
  unfold wifi_connect. eapply cmd_does_bind; [apply does_run_error, cl_client|intros l e (-> & w0 & e' & He & [= <-]); by apply connect_offline with w0|].
  intros l a [-> _]. destruct (_ && ask) eqn:Hex; cbn [app].
  { apply andb_true_iff in Hex as [Hp%negb_true_iff%String.eqb_neq ->]. eapply cmd_does_weaken; [apply does_fail|]. intros l r [-> ->]. by apply connect_usage. }
  assert (~ (password <> "" /\ ask = true)) as Hflags by (intros [Hp%String.eqb_neq ->]; by rewrite Hp in Hex).
  eapply cmd_does_bind; [apply in_range_does|intros l e [-> Hl]; by apply connect_lost|]. intros l seen Hl.
  eapply cmd_does_bind; [apply ask_password_does|intros l' e [-> Hp]; rewrite app_nil_r; by apply connect_unasked with seen|]. intros l' p [-> Hp].
  eapply cmd_does_bind; [by apply does_with_prompts|intros l' e Hr; by apply connect_asked with seen p|].
  intros l' [] Hr. eapply cmd_does_weaken; [apply does_done|]. intros l'' r [-> ->]. rewrite app_nil_r. by apply connect_asked with seen p.
Qed.

Lemma wifi_connect_ends fuel password device ask hidden ssid : ends fuel (wifi_connect sys Quote ToLower fuel password device ask hidden ssid).
Proof.
  unfold wifi_connect. apply ends_bind; [apply ends_run_; intros w; apply cl_client|intros _]. destruct (_ && _); [apply ends_fail|].
  apply ends_bind; [apply in_range_ends|intros seen]. apply ends_bind; [apply ask_password_ends|intros p].
  apply ends_bind; [apply ends_with_prompts|intros _; apply ends_put; intros w; apply cl_done].
Qed.
(** *** vpn up and vpn down *)

(** The VPN a wait goes by, after one more answer. *)
Definition vpn_read (id : string) (last : VPN) (a : result error (list VPN)) : VPN :=
  match a with Ok vpns => last_of id vpns last | Err _ => last end.

(** The lists of a wait: it goes on only after one that leaves the VPN unsettled. *)
Fixpoint reads (id : string) (up : bool) (last : VPN) (polls : list (result error (list VPN))) : Prop :=
  match polls with
  | [] => False
  | a :: polls => polls = [] \/ (settled up (vpn_read id last a) = false /\ reads id up (vpn_read id last a) polls)
  end.

Lemma now_does : does (fun w => let '(t, w) := cs_Now sys w in Some (Ok t, w)) (fun l r => l = [] /\ exists t, r = Ok t).
Proof.
  intros w r w'. pose proof (cl_Now w) as Hn. destruct (cs_Now sys w) as [t w1]. destruct Hn as [(Hn & _) _]. intros [= <- <-].
  exists []. rewrite app_nil_r. eauto.
Qed.

Lemma pause_does d : does (fun w => let '(b, w) := cs_Pause sys d w in Some (Ok b, w)) (fun l r => l = [] /\ exists b, r = Ok b).
Proof.
  intros w r w'. pose proof (cl_Pause d w) as Hn. destruct (cs_Pause sys d w) as [b w1]. destruct Hn as [(Hn & _) _]. intros [= <- <-].
  exists []. rewrite app_nil_r. eauto.
Qed.

Definition wait_spec (id : string) (up : bool) (last : VPN) (l : list entry) (r : result error VPN) : Prop :=
  exists polls, l = map (ECall AVPNs) polls /\ reads id up last polls /\ r = Ok (fold_left (vpn_read id) polls last).

Lemma waitVPN_loop_does fuel deadline id up : forall last, does (waitVPN_loop sys fuel deadline id up last) (wait_spec id up last).
Proof.
  induction fuel as [|fuel IH]; intros last; [done|]. cbn [waitVPN_loop].
  eapply cmd_does_bind; [apply does_tried|intros l e (a & ? & _); done|]. intros l a (a' & [= <-] & ->).
  set (last' := match a with Ok vpns => last_of id vpns last | Err _ => last end).
  assert (does (cret last') (fun l r => wait_spec id up last ([ECall AVPNs a] ++ l) r)) as Hstop.
  { eapply cmd_does_weaken; [apply cmd_does_ret|]. intros l r [-> ->]. exists [a]. split; [done|]. split; [by left|done]. }
  destruct (settled up last') eqn:Hs; [exact Hstop|].
  eapply cmd_does_bind; [apply now_does|by intros l e (_ & t & ?)|]. intros l now [-> _].
  destruct (time_After now deadline); [exact Hstop|].
  eapply cmd_does_bind; [apply does_look|by intros l e (_ & w & ?)|]. intros l c [-> _].
  destruct c; [exact Hstop|].
  eapply cmd_does_bind; [apply pause_does|by intros l e (_ & b & ?)|]. intros l b [-> _].
  destruct b; [|exact Hstop].
  eapply cmd_does_weaken; [apply IH|]. intros l r (polls & -> & H1 & ->). exists (a :: polls). split; [done|]. split; [by right|done].
Qed.

Lemma waitVPN_does fuel id up : does (waitVPN sys fuel id up) (wait_spec id up VPN_zero).
Proof.
  unfold waitVPN. eapply cmd_does_bind; [apply now_does|by intros l e (_ & t & ?)|]. intros l now [-> _]. apply waitVPN_loop_does.
Qed.

(** Every round takes [vpnPoll], so the deadline ends the wait. *)
Lemma waitVPN_loop_ends fuel deadline id up : forall last w, deadline - clock w < vpnPoll * Z.of_nat fuel ->
  exists r w', waitVPN_loop sys (S fuel) deadline id up last w = Some (r, w') /\ (left w' <= left w)%nat.
Proof.
  induction fuel as [|fuel IH]; intros last w Hd; unfold waitVPN_loop; fold (waitVPN_loop sys); unfold cbind, tried, look, cret;
    pose proof (cl_Call _ AVPNs w) as Hc; destruct (cs_Call sys AVPNs w) as [a w1]; destruct Hc as (_ & Hl & Hc);
    (destruct (settled up _); [by eauto|]);
    pose proof (cl_Now w1) as Hn; destruct (cs_Now sys w1) as [t w2]; destruct Hn as [(_ & Hl2 & Hc2) Ht];
    (destruct (time_After t deadline) eqn:Hafter; [exists (Ok (match a with Ok vpns => last_of id vpns last | Err _ => last end)), w2; split; [done|lia]|]);
    unfold time_After in Hafter; [lia|].
  destruct (cs_Cancelled sys w2); [eexists _, w2; split; [done|lia]|].
  pose proof (cl_Pause vpnPoll w2) as Hp. destruct (cs_Pause sys vpnPoll w2) as [b w3]. destruct Hp as [(_ & Hl3 & Hc3) Hp].
  destruct b; [|eexists _, w3; split; [done|lia]].
  destruct (IH (match a with Ok vpns => last_of id vpns last | Err _ => last end) w3) as (r & w4 & Hr & Hl4); [specialize (Hp eq_refl); lia|].
  exists r, w4. split; [exact Hr|lia].
Qed.

Lemma waitVPN_ends fuel id up : (68 <= fuel)%nat -> ends fuel (waitVPN sys fuel id up).
Proof.
  intros Hf w _. unfold waitVPN, cbind. pose proof (cl_Now w) as Hn. destruct (cs_Now sys w) as [t w1]. destruct Hn as [(_ & Hl & _) Ht].
  destruct fuel as [|fuel]; [lia|]. destruct (waitVPN_loop_ends fuel (time_Add t vpnSettle) id up VPN_zero w1) as (r & w2 & Hr & Hl2).
  - unfold time_Add. change vpnSettle with 20000000000. change vpnPoll with 300000000. lia.
  - exists r, w2. split; [done|lia].
Qed.

(** A wait that is not interrupted gives up only after [vpnSettle]. *)
Lemma waitVPN_loop_patient fuel deadline id up : (forall w, cs_Cancelled sys w = false) -> (forall d w, (cs_Pause sys d w).1 = true) ->
  forall last w v w', waitVPN_loop sys fuel deadline id up last w = Some (Ok v, w') -> settled up v = true \/ deadline < clock w'.
Proof.
  intros Hnc Hnp. induction fuel as [|fuel IH]; intros last w v w'; [done|]. cbn [waitVPN_loop]. unfold cbind, tried, look, cret.
  destruct (cs_Call sys AVPNs w) as [a w1]. destruct (settled up _) eqn:Hs; [intros [= <- <-]; by left|].
  pose proof (cl_Now w1) as Hn. destruct (cs_Now sys w1) as [t w2]. destruct Hn as [_ Ht].
  destruct (time_After t deadline) eqn:Ha; [intros [= <- <-]; right; unfold time_After in Ha; lia|]. rewrite Hnc.
  pose proof (Hnp vpnPoll w2) as Hp. destruct (cs_Pause sys vpnPoll w2) as [b w3]. cbn in Hp. rewrite Hp. apply IH.
Qed.

(** The request of [vpn up], with its prompts, and of [vpn down]. *)
Definition switched (up : bool) (v : VPN) (password : string) (l : list entry) (r : result error unit) : Prop :=
  if up then prompted (mkPromptOpts (vpn_match v) (<["password" := password]> ∅) false) (AConnectVPN (vpn_ID v)) l r
  else l = [ECall (ADisconnectVPN (vpn_ID v)) r].

(** A run of [vpn up] or [vpn down]: no client, no VPN of the name, a request that
    failed, or one followed by the wait, whose last word on the VPN is shown and
    makes the result: an error state fails [vpn up], and never [vpn down]. *)
Inductive switch_run (quiet : bool) (arg : string) (up : bool) (password : string) : list entry -> result error unit -> Prop :=
| switch_offline w0 e : (cs_client sys w0).1 = Some e -> switch_run quiet arg up password [] (Err e)
| switch_unnamed a e : resolveVPN Quote ToLower EqualFold a arg = Err e -> switch_run quiet arg up password [ECall AVPNs a] (Err e)
| switch_refused a v l e : resolveVPN Quote ToLower EqualFold a arg = Ok v -> switched up v password l (Err e) ->
    switch_run quiet arg up password (ECall AVPNs a :: l) (Err e)
| switch_unshown a v l polls w0 e : resolveVPN Quote ToLower EqualFold a arg = Ok v -> switched up v password l (Ok tt) ->
    reads (vpn_ID v) up VPN_zero polls -> quiet = false -> (cs_show sys (fold_left (vpn_read (vpn_ID v)) polls VPN_zero) w0).1 = Some e ->
    switch_run quiet arg up password (ECall AVPNs a :: l ++ map (ECall AVPNs) polls) (Err e)
| switch_settled a v l polls : resolveVPN Quote ToLower EqualFold a arg = Ok v -> switched up v password l (Ok tt) ->
    reads (vpn_ID v) up VPN_zero polls ->
    switch_run quiet arg up password (ECall AVPNs a :: l ++ map (ECall AVPNs) polls)
      (answer_of (vpn_failed up (fold_left (vpn_read (vpn_ID v)) polls VPN_zero))).

Lemma app_resolveVPN_does arg :
  does (app_resolveVPN sys Quote ToLower EqualFold arg) (fun l r =>
    (l = [] /\ exists w0 e, (cs_client sys w0).1 = Some e /\ r = Err e) \/ (exists a, l = [ECall AVPNs a] /\ r = resolveVPN Quote ToLower EqualFold a arg)).
Proof.
  unfold app_resolveVPN. eapply cmd_does_bind; [apply does_run_error, cl_client|intros l e [-> (w0 & e' & H & [= ->])]; left; by eauto|]. intros l u [-> _].
  eapply cmd_does_bind; [apply does_tried|intros l e (a & ? & _); done|]. intros l a (a' & [= <-] & ->).
  eapply cmd_does_weaken; [apply does_result|]. intros l r [-> ->]. right. by exists a.
Qed.

Lemma switched_does fuel (up : bool) v password :
  does (if up then with_prompts sys ToLower fuel (mkPromptOpts (vpn_match v) (<["password" := password]> ∅) false) (AConnectVPN (vpn_ID v))
        else run (cs_Call sys (ADisconnectVPN (vpn_ID v)))) (switched up v password).
Proof.
  destruct up; [by apply does_with_prompts|]. eapply cmd_does_weaken; [apply cmd_does_call|]. by intros l r ->.
Qed.

(** Showing the VPN, unless told to be quiet. *)
Lemma shown_does (quiet : bool) final :
  does (if quiet then cret tt else run_ (cs_show sys final)) (fun l r =>
    l = [] /\ match r with Ok _ => True | Err e => quiet = false /\ exists w0, (cs_show sys final w0).1 = Some e end).
Proof.
  destruct quiet; [eapply cmd_does_weaken; [apply cmd_does_ret|]; by intros l r [-> ->]|].
  eapply cmd_does_weaken; [apply does_run_error; intros w; apply cl_show|]. intros l [a|e] [-> H]; [done|].
  destruct H as (w0 & e' & H & [= ->]). split; [done|]. split; [done|]. by exists w0.
Qed.

Lemma vpnSwitch_does fuel quiet arg up password :
  does (vpnSwitch sys Quote ToLower EqualFold fuel quiet arg up password) (switch_run quiet arg up password).
Proof.
  unfold vpnSwitch. eapply cmd_does_bind; [apply app_resolveVPN_does| |].
  { intros l e [(-> & w0 & e' & H & [= <-])|(a & -> & H)]; [by apply switch_offline with w0|by apply switch_unnamed]. }
  intros l v [(_ & w0 & e & _ & ?)|(a & -> & Hv)]; [done|]. symmetry in Hv.
  eapply cmd_does_bind; [apply switched_does|intros l e Hl; by apply switch_refused with v|]. intros l [] Hl.
  eapply cmd_does_bind; [apply waitVPN_does|by intros l' e (polls & _ & _ & ?)|]. intros l' final (polls & -> & Hp & [= ->]).
  set (final := fold_left (vpn_read (vpn_ID v)) polls VPN_zero).
  eapply cmd_does_bind; [apply shown_does| |].
  { intros l' e (-> & Hq & w0 & He). rewrite app_nil_r. by apply (switch_unshown quiet arg up password a v l polls w0 e). }
  intros l' u [-> _]. assert (forall r, r = answer_of (vpn_failed up final) ->
    switch_run quiet arg up password ([ECall AVPNs a] ++ l ++ map (ECall AVPNs) polls ++ [] ++ []) r) as Hend.
  { intros r ->. rewrite !app_nil_r. by apply (switch_settled quiet arg up password a v l polls). }
  destruct (vpn_failed up final) as [e|]; (eapply cmd_does_weaken; [first [apply cmd_does_ret|apply does_fail]|]); intros l' r [-> ->]; by apply Hend.
Qed.

Lemma vpnSwitch_ends fuel quiet arg up password : (68 <= fuel)%nat -> ends fuel (vpnSwitch sys Quote ToLower EqualFold fuel quiet arg up password).
Proof.
  intros Hf. unfold vpnSwitch. apply ends_bind.
  { apply ends_bind; [apply ends_run_; intros w; apply cl_client|intros _]. apply ends_bind; [apply ends_tried|intros a]. apply ends_result. }
  intros v. apply ends_bind; [destruct up; [apply ends_with_prompts|apply ends_call]|intros _]. apply ends_bind; [by apply waitVPN_ends|intros final].
  apply ends_bind; [destruct quiet; [apply ends_ret|apply ends_run_; intros w; apply cl_show]|intros _].
  destruct (vpn_failed up final); [apply ends_fail|apply ends_ret].
Qed.
End Facts.

(** ** The properties *)


(** C33: [vpn up] and [vpn down] end, and their calls and result are exactly one
    of: nothing to resolve the name by; one list, that does not resolve the name;
    that list and a request to connect or disconnect the VPN it resolves to,
    which fails; or such a request, the lists of the wait, which goes on only
    while the VPN is unsettled, and then the result by the last list that names
    it: [vpn up] fails when it is in error there, [vpn down] never.  An
    uninterrupted wait gives up only when the VPN has settled or [vpnSettle] has
    passed.  But a VPN no list names counts as settled: when the first list
    after the request cannot be read the wait is over at once, with a VPN
    that is not there, and the command reports success. *)
Theorem switch_exact {W} (sys : CmdSys W) (trace : W -> list entry) (left : W -> nat) (clock : W -> Time) `{!CmdLaws sys trace left clock}
    (Quote ToLower : string -> string) (EqualFold : string -> string -> bool) (fuel : nat) (quiet : bool) (arg : string) (up : bool) (password : string) (w : W) :
  (left w < fuel)%nat -> (68 <= fuel)%nat ->
  (exists r w' l, vpnSwitch sys Quote ToLower EqualFold fuel quiet arg up password w = Some (r, w') /\ trace w' = trace w ++ l /\
     switch_run sys Quote ToLower EqualFold quiet arg up password l r) /\
  (forall v, match vpn_failed up v with Some _ => up = true /\ vpn_State v = VPNError | None => up = false \/ vpn_State v <> VPNError end) /\
  ((forall w, cs_Cancelled sys w = false) -> (forall d w, (cs_Pause sys d w).1 = true) ->
     forall id v w', waitVPN sys fuel id up w = Some (Ok v, w') -> settled up v = true \/ clock w + vpnSettle < clock w') /\
  (forall id, (exists e, (cs_Call sys AVPNs (cs_Now sys w).2).1 = Err e) ->
     waitVPN sys fuel id up w = Some (Ok VPN_zero, (cs_Call sys AVPNs (cs_Now sys w).2).2) /\ vpn_failed up VPN_zero = None).
Proof.
  intros Hw Hf. split_and!.
  - destruct (vpnSwitch_ends sys trace left clock Quote ToLower EqualFold fuel quiet arg up password Hf w Hw) as (r & w' & Hr & _).
    destruct (vpnSwitch_does sys trace left clock Quote ToLower EqualFold fuel quiet arg up password _ _ _ Hr) as (l & Hl & Hs). by exists r, w', l.
  - intros v. unfold vpn_failed. destruct up; [|by left]. cbn [andb]. destruct (String.eqb_spec (vpn_State v) VPNError); [done|by right].
  - intros Hnc Hnp id v w' Hr. unfold waitVPN, cbind in Hr. pose proof (cl_Now w) as Hn. destruct (cs_Now sys w) as [t w1]. destruct Hn as [_ Ht].
    destruct (waitVPN_loop_patient sys trace left clock fuel _ id up Hnc Hnp _ _ _ _ Hr) as [H|H]; [by left|right]. unfold time_Add in H. lia.
  - intros id [e He]. split; [|by destruct up]. unfold waitVPN, cbind. destruct (cs_Now sys w) as [t w1]. cbn [snd] in *.
    destruct fuel as [|fuel]; [lia|]. cbn [waitVPN_loop]. unfold cbind, tried, cret. destruct (cs_Call sys AVPNs w1) as [a w2]. cbn in He. subst a.
    by destruct up.
Qed.

(** ** A daemon on a script, for the witnesses *)

Record Script := mkScript {
  sc_nets : list WifiNetwork; sc_vpns : list (list VPN); sc_pending : list SecretRequest; sc_wakes : list wake; sc_time : Time; sc_trace : list entry
}.

Definition sc_answer {A} (c : api_call A) (s : Script) : result error A * list (list VPN) :=
  match c in api_call A return result error A * list (list VPN) with
  | AWifi _ => (Ok (sc_nets s), sc_vpns s)
  | AProfiles => (Ok [], sc_vpns s)
  | AVPNs => match sc_vpns s with v :: vs => (Ok v, vs) | [] => (Err ErrNotFound, []) end
  | APendingSecrets => (Ok (sc_pending s), sc_vpns s)
  | AScanWifi _ | AConnectWifi _ | AConnectVPN _ | ADisconnectVPN _ | AAnswerSecret _ _ | ACancelSecret _ => (Ok tt, sc_vpns s)
  | _ => (Err ErrNotFound, sc_vpns s)
  end.

Definition sc_log (s : Script) (vpns : list (list VPN)) (e : entry) : Script :=
  mkScript (sc_nets s) vpns (sc_pending s) (sc_wakes s) (sc_time s) (sc_trace s ++ [e]).

Definition sc_call {A} (c : api_call A) (s : Script) : result error A * Script :=
  let '(r, vs) := sc_answer c s in (r, sc_log s vs (ECall c r)).

Definition sc_tell (c : api_call unit) (s : Script) : option error * Script :=
  let '(r, s) := sc_call c s in (match r with Err e => Some e | Ok _ => None end, s).

Definition sc_wait (s : Script) : wake * Script :=
  match sc_wakes s with
  | [] => (WDone None, s)
  | k :: ks => (k, mkScript (sc_nets s) (sc_vpns s) (sc_pending s) ks (sc_time s) (sc_trace s))
  end.

Definition sc_prompts : PromptSys Script :=
  mkPromptSys Script (fun _ => false) (fun _ => false) (fun w => (("", Some io_EOF), w)) (fun w => (Err io_EOF, w)) (fun _ w => w)
    (fun w => (None, w)) (sc_call APendingSecrets) (fun id => sc_call (ASecret id)) (fun id a => sc_tell (AAnswerSecret id a))
    (fun id => sc_tell (ACancelSecret id)) sc_wait (fun _ w => w).

Definition sc_sys : CmdSys Script :=
  mkCmdSys Script sc_prompts (fun w => (None, w)) (fun A c w => sc_call c w) (fun c s => sc_log s (sc_vpns s) (EStart c))
    (fun w => (None, w)) (fun w => (SDeadline, w)) (fun _ w => (Err ErrNotFound, w)) (fun w => (sc_time w, w)) (fun _ => false)
    (fun d s => (true, mkScript (sc_nets s) (sc_vpns s) (sc_pending s) (sc_wakes s) (sc_time s + Z.max 0 d) (sc_trace s))) (fun _ w => w) (fun _ w => (None, w)).

Definition sc_left (s : Script) : nat := length (sc_wakes s).

Lemma sc_call_traced {A} (c : api_call A) w : let '(r, w') := sc_call c w in traced sc_trace sc_left sc_time (ECall c r) w w'.
Proof. unfold sc_call. destruct (sc_answer c w) as [r vs]. unfold sc_left. repeat split; cbn; lia. Qed.

Lemma sc_tell_traced c w : let '(e, w') := sc_tell c w in traced sc_trace sc_left sc_time (ECall c (answer_of e)) w w'.
Proof.
  unfold sc_tell. pose proof (sc_call_traced c w) as H. destruct (sc_call c w) as [[[]|e] w']; exact H.
Qed.

#[local] Instance sc_laws : CmdLaws sc_sys sc_trace sc_left sc_time.
Proof.
  split; intros; try apply sc_call_traced; try apply sc_tell_traced; try (unfold sc_left; cbn; repeat split; cbn; lia).
  all: cbn; unfold sc_wait, quietly, sc_left; destruct w as [n v p [|k ks] t tr]; cbn; try done; try (split_and!; done || lia). all: destruct k; done || lia.
Qed.

Definition home_net : WifiNetwork := mkWifiNetwork "Home" "wlan0" 70 SecWPAPSK 5180 36 "5" [] false "" false false 0.


Definition work_vpn (st : string) : VPN := mkVPN "u1" "Work" BackendNMVPN "OpenVPN" st "" "" "" 0 true None None None.
Definition work_prompt : SecretRequest :=
  mkSecretRequest "p1" "u1" "Work" "" true "OpenVPN" "vpn" [mkSecretField "password" "Password" true] "" false true 0 0.

(** The prompt of the VPN is answered with the password of the flag; an error
    state fails [vpn up] but not [vpn down]. *)
Lemma switch_exact_witness :
  let s := mkScript [] [[work_vpn VPNDisconnected]; [work_vpn VPNConnecting]; [work_vpn VPNError]] [work_prompt] [WTick] 0 [] in
  let switch up := vpnSwitch sc_sys (fun s => s) (fun s => s) String.eqb 68 true "Work" up "pw" s in
  option_map (fun x => (sc_trace x.2, x.1)) (switch true) = Some
    ([ECall AVPNs (Ok [work_vpn VPNDisconnected]); EStart (AConnectVPN "u1"); ECall APendingSecrets (Ok [work_prompt]);
      ECall (AAnswerSecret "p1" (mkSecretAnswer {["password" := "pw"]} true)) (Ok tt);
      ECall AVPNs (Ok [work_vpn VPNConnecting]); ECall AVPNs (Ok [work_vpn VPNError])],
     Err (Errorf KindInternal "" "Work failed: -")) /\
  option_map fst (switch false) = Some (Ok tt) /\
  exists r w' l, switch true = Some (r, w') /\ sc_trace w' = l /\ switch_run sc_sys (fun s => s) (fun s => s) String.eqb true "Work" true "pw" l r.
Proof.
  split; [vm_compute; reflexivity|]. split; [vm_compute; reflexivity|].
  exact (proj1 (switch_exact sc_sys sc_trace sc_left sc_time (fun s => s) (fun s => s) String.eqb 68 true "Work" true "pw"
    (mkScript [] [[work_vpn VPNDisconnected]; [work_vpn VPNConnecting]; [work_vpn VPNError]] [work_prompt] [WTick] 0 [])
    (proj1 (Nat.leb_le 2 68) eq_refl) (le_n _))).
Defined.
