(* ===== verification/Tui.v ===== *)
(** internal/ui/tui: the state of the terminal interface, its messages and
    commands, and the six tabs (wifi.go, devices.go, vpn.go, monitor.go,
    speed.go, diag.go) as functions from a state and a message to a state and
    the commands to run.

    A [tea.Cmd] is a value of [Cmd], so what an update starts can be seen.  The
    text inputs of bubbles are a class; their own commands are [CInput], the
    spinner's [CSpin].  What is drawn is not modelled, except that drawing a tab
    moves its cursor back into the list. *)

From S2P Require Import Prelude GoTime Core Errors GoStrings Daemon DaemonOps API APISpec Startup.

(** A [tea.KeyMsg]: whether its type is [KeyCtrlC], and its [String]. *)
Record Key := mkKey { key_ctrlC : bool; key_String : string }.

(** [textinput.Model]. *)
Class InputOps (Input : Type) := {
  in_new : string -> string -> Z -> bool -> Input;          (* prompt, placeholder, limit, hidden *)
  in_Value : Input -> string;
  in_SetValue : string -> Input -> Input;
  in_Focus : Input -> Input;
  in_Blur : Input -> Input;
  in_Focused : Input -> bool;
  in_Update : Key -> Input -> Input
}.

Inductive Tab := tabWifi | tabDevices | tabVPN | tabMonitor | tabSpeed | tabDiag.
#[global] Instance Tab_eq_dec : EqDecision Tab.
Proof. solve_decision. Defined.
Definition tab_is (a b : Tab) : bool := bool_decide (a = b).
Definition tab_next (t : Tab) : Tab :=
  match t with tabWifi => tabDevices | tabDevices => tabVPN | tabVPN => tabMonitor | tabMonitor => tabSpeed | tabSpeed => tabDiag | tabDiag => tabWifi end.
Definition tab_prev (t : Tab) : Tab :=
  match t with tabWifi => tabDiag | tabDevices => tabWifi | tabVPN => tabDevices | tabMonitor => tabVPN | tabSpeed => tabMonitor | tabDiag => tabSpeed end.

Inductive Overlay := overlayNone | overlayHelp | overlayEvents.
Inductive Sub := subLAN | subPorts | subRoutes | subInfra | subPublicIP | subDNS.
Definition sub_next (s : Sub) : Sub :=
  match s with subLAN => subPorts | subPorts => subRoutes | subRoutes => subInfra | subInfra => subPublicIP | subPublicIP => subDNS | subDNS => subLAN end.
Definition sub_prev (s : Sub) : Sub :=
  match s with subLAN => subDNS | subPorts => subLAN | subRoutes => subPorts | subInfra => subRoutes | subPublicIP => subInfra | subDNS => subPublicIP end.

(** ** loads.go, stream.go: messages and commands *)

Definition requestTimeout : Duration := 15 * second.
Definition actionTimeout : Duration := 60 * second.
Definition debounceWindow : Duration := 250 * millisecond.
Definition backoffMin : Duration := 500 * millisecond.
Definition backoffMax : Duration := 10 * second.
Definition eventLogSize : nat := 50.
Definition sparkSamples : Z := 60.

Inductive Msg :=
| MKey (k : Key) | MResize (w h : Z) | MSpin | MInput | MFlashExpire (id : nat)
| MStatus (r : result error StatusResponse) | MWifi (r : result error (list WifiNetwork)) | MDevices (r : result error (list Device))
| MProfiles (r : result error (list Profile)) | MVPN (r : result error (list VPN)) | MMonitor (r : result error MonitorStatus)
| MSamples (anchor : string) (r : result error (list Sample)) | MSpeedHistory (r : result error (list SpeedResult))
| MEventHistory (r : result error (list Event)) | MLan (r : result error (list LANHost)) | MPorts (r : result error (list ListeningPort))
| MRoutes (r : result error (list Route)) | MInfra (r : result error (list InfraNetwork)) | MPublicIP (r : result error PublicIP)
| MDns (r : result error DNSAnswer)
| MAction (tab : Tab) (what extra : string) (err : option error)
| MStreamOpen (ch : nat) | MStreamErr (err : error) | MStreamItem (item : StreamItem) | MStreamClosed | MStreamRetry | MDebounce
| MPendingSecrets (r : result error (list SecretRequest)) | MSecret (id : string) (r : result error SecretRequest)
| MSecretAnswered (id : string) (err : option error) | MSecretCancelled (id : string) (err : option error) | MSecretTick (gen : nat)
| MSpeedProgress (p : SpeedProgress) | MSpeedDone (r : result error SpeedResult).

(** The reads of the daemon. *)
Inductive Load :=
| LStatus | LWifi | LDevices | LProfiles | LVPNs | LMonitor | LSamples (anchor : string) (limit : Z) | LSpeedHistory | LEventHistory
| LLan (device : string) (sweep : bool) | LPorts | LRoutes | LInfra | LPublicIP | LDns (name : string)
| LPendingSecrets | LSecret (id : string).

(** What a read may end in: the call it makes, and its answer. *)
Inductive load_yields : Load -> Msg -> Prop :=
| ly_status r : load_yields LStatus (MStatus r)
| ly_wifi r : load_yields LWifi (MWifi r)
| ly_devices r : load_yields LDevices (MDevices r)
| ly_profiles r : load_yields LProfiles (MProfiles r)
| ly_vpns r : load_yields LVPNs (MVPN r)
| ly_monitor r : load_yields LMonitor (MMonitor r)
| ly_samples a n r : load_yields (LSamples a n) (MSamples a r)
| ly_speedHistory r : load_yields LSpeedHistory (MSpeedHistory r)
| ly_eventHistory r : load_yields LEventHistory (MEventHistory r)
| ly_lan d s r : load_yields (LLan d s) (MLan r)
| ly_ports r : load_yields LPorts (MPorts r)
| ly_routes r : load_yields LRoutes (MRoutes r)
| ly_infra r : load_yields LInfra (MInfra r)
| ly_publicIP r : load_yields LPublicIP (MPublicIP r)
| ly_dns n r : load_yields (LDns n) (MDns r)
| ly_pendingSecrets r : load_yields LPendingSecrets (MPendingSecrets r)
| ly_secret id r : load_yields (LSecret id) (MSecret id r).

(** The call a read makes, and its time limit. *)
Definition load_call (l : Load) : {A : Type & api_call A} :=
  match l with
  | LStatus => existT _ AStatus
  | LWifi => existT _ (AWifi "")
  | LDevices => existT _ ADevices
  | LProfiles => existT _ AProfiles
  | LVPNs => existT _ AVPNs
  | LMonitor => existT _ AMonitor
  | LSamples anchor limit => existT _ (ASamples "" anchor limit)
  | LSpeedHistory => existT _ (ASpeedHistory "" 20)
  | LEventHistory => existT _ (AEventHistory (Z.of_nat eventLogSize))
  | LLan device sweep => existT _ (ALANHosts device sweep)
  | LPorts => existT _ AListeningPorts
  | LRoutes => existT _ ARoutes
  | LInfra => existT _ AInfra
  | LPublicIP => existT _ APublicIP
  | LDns name => existT _ (ADNSLookup name "" "")
  | LPendingSecrets => existT _ APendingSecrets
  | LSecret id => existT _ (ASecret id)
  end.

Definition load_timeout (l : Load) : Duration := match l with LLan _ _ => 60 * second | _ => requestTimeout end.

(** The writes, with the label of [actionMsg]. *)
Inductive WriteCall :=
| WCall (c : api_call unit)                     (* [action] *)
| WDevice (mk : string -> api_call unit)        (* of the device selected when it runs *)
| WImport (req : ImportVPNRequest)
| WLogin.                                       (* [actionWith] *)

Inductive Cmd :=
| CLoad (l : Load)
| CAction (tab : Tab) (what : string) (w : WriteCall)
| CAnswerSecret (id : string) (a : SecretAnswer) | CCancelSecret (id : string)
| COpenStream | CWaitStream (ch : nat) | CRetryStream (after : Duration) | CDebounce
| CFlashTimer (id : nat) | CSecretTick (gen : nat) | CSpin | CInput | CQuit
| CSpeedStart (ch : nat) (quick : bool) | CSpeedCancel (ch : nat) | CWaitSpeed (ch : nat).

Definition l_ (l : Load) : list Cmd := [CLoad l].
Definition action (tab : Tab) (what : string) (c : api_call unit) : list Cmd := [CAction tab what (WCall c)].

(** ** The state *)

Section Tui.
Context {Input : Type} {ops : InputOps Input}.

Record Stream := mkStream {
  ss_ch : option nat; ss_up : bool; ss_everUp : bool; ss_backoff : Duration; ss_lastErr : option error;
  ss_pending : list ChangeKind; ss_debouncin : bool
}.

Record WifiPrompt := mkWifiPrompt { wp_net : WifiNetwork; wp_fields : list Input; wp_focus : nat }.
Record WifiTab := mkWifiTab {
  wt_nets : list WifiNetwork; wt_err : option error; wt_loaded : bool; wt_cursor : nat;
  wt_filter : Input; wt_filtering : bool; wt_prompt : option WifiPrompt; wt_connecting : string;
  wt_confirm : option WifiNetwork; wt_lastErr : option error
}.
Record DevicesTab := mkDevicesTab {
  dt_devs : list Device; dt_profiles : list Profile; dt_err : option error; dt_loaded : bool; dt_cursor : nat; dt_expanded : bool
}.
Record ExitPicker := mkExitPicker { ep_peers : list TailscalePeer; ep_cursor : nat }.
Record VPNTab := mkVPNTab {
  vt_vpns : list VPN; vt_err : option error; vt_loaded : bool; vt_cursor : nat; vt_busy : string;
  vt_picker : option ExitPicker; vt_addInput : Input; vt_adding : bool; vt_loginURL : string; vt_lastErr : option error
}.
Record MonitorTab := mkMonitorTab {
  mt_status : MonitorStatus; mt_err : option error; mt_loaded : bool; mt_samples : gmap string (list Sample)
}.
Record SpeedTab := mkSpeedTab {
  pt_history : list SpeedResult; pt_err : option error; pt_loaded : bool; pt_running : bool; pt_quick : bool; pt_phase : string;
  pt_pct : gmap string float64; pt_rate : gmap string float64; pt_ch : option nat; pt_next : nat;  (* the next channel *)
  pt_last : option SpeedResult; pt_lastErr : option error
}.
Record DiagTab := mkDiagTab {
  gt_sub : Sub;
  gt_hosts : list LANHost; gt_hostsErr : option error; gt_hostsOK : bool; gt_sweeping : bool;
  gt_ports : list ListeningPort; gt_portsErr : option error; gt_portsOK : bool;
  gt_routes : list Route; gt_routesErr : option error; gt_routesOK : bool;
  gt_infra : list InfraNetwork; gt_infraErr : option error; gt_infraOK : bool;
  gt_pub : option PublicIP; gt_pubErr : option error; gt_pubOK : bool;
  gt_dnsInput : Input; gt_dnsBusy : bool; gt_dnsAns : option DNSAnswer; gt_dnsErr : option error
}.
(** [secretsState] and [secretPrompt]. *)
Record SecretPrompt := mkSecretPrompt {
  xp_req : SecretRequest; xp_fields : list Input; xp_focus : nat; xp_save : bool; xp_sending : bool; xp_err : option error
}.
Record SecretsState := mkSecretsState { xs_cur : option SecretPrompt; xs_queue : list SecretRequest; xs_known : list string; xs_tickGen : nat }.

Record Model := mkModel {
  tm_width : Z; tm_height : Z; tm_tab : Tab; tm_over : Overlay;
  tm_status : option StatusResponse; tm_statusErr : option error; tm_st : Stream;
  tm_events : list Event; tm_lastEvent : option Event;
  tm_flash : string * bool; tm_flashID : nat; tm_eventsTop : nat;
  tm_wifi : WifiTab; tm_devices : DevicesTab; tm_vpn : VPNTab; tm_monitor : MonitorTab; tm_speed : SpeedTab; tm_diag : DiagTab;
  tm_secrets : SecretsState
}.

Definition has {A} (o : option A) : bool := match o with Some _ => true | None => false end.

(** Writing one field. *)
Definition set_size (w h : Z) (m : Model) : Model :=
  mkModel w h (tm_tab m) (tm_over m) (tm_status m) (tm_statusErr m) (tm_st m) (tm_events m) (tm_lastEvent m) (tm_flash m) (tm_flashID m) (tm_eventsTop m) (tm_wifi m) (tm_devices m) (tm_vpn m) (tm_monitor m) (tm_speed m) (tm_diag m) (tm_secrets m).
Definition set_tab (t : Tab) (m : Model) : Model :=
  mkModel (tm_width m) (tm_height m) t (tm_over m) (tm_status m) (tm_statusErr m) (tm_st m) (tm_events m) (tm_lastEvent m) (tm_flash m) (tm_flashID m) (tm_eventsTop m) (tm_wifi m) (tm_devices m) (tm_vpn m) (tm_monitor m) (tm_speed m) (tm_diag m) (tm_secrets m).
Definition set_over (o : Overlay) (m : Model) : Model :=
  mkModel (tm_width m) (tm_height m) (tm_tab m) o (tm_status m) (tm_statusErr m) (tm_st m) (tm_events m) (tm_lastEvent m) (tm_flash m) (tm_flashID m) (tm_eventsTop m) (tm_wifi m) (tm_devices m) (tm_vpn m) (tm_monitor m) (tm_speed m) (tm_diag m) (tm_secrets m).
Definition set_status (st : option StatusResponse) (e : option error) (m : Model) : Model :=
  mkModel (tm_width m) (tm_height m) (tm_tab m) (tm_over m) st e (tm_st m) (tm_events m) (tm_lastEvent m) (tm_flash m) (tm_flashID m) (tm_eventsTop m) (tm_wifi m) (tm_devices m) (tm_vpn m) (tm_monitor m) (tm_speed m) (tm_diag m) (tm_secrets m).
Definition set_st (s : Stream) (m : Model) : Model :=
  mkModel (tm_width m) (tm_height m) (tm_tab m) (tm_over m) (tm_status m) (tm_statusErr m) s (tm_events m) (tm_lastEvent m) (tm_flash m) (tm_flashID m) (tm_eventsTop m) (tm_wifi m) (tm_devices m) (tm_vpn m) (tm_monitor m) (tm_speed m) (tm_diag m) (tm_secrets m).
Definition set_events (l : list Event) (e : option Event) (m : Model) : Model :=
  mkModel (tm_width m) (tm_height m) (tm_tab m) (tm_over m) (tm_status m) (tm_statusErr m) (tm_st m) l e (tm_flash m) (tm_flashID m) (tm_eventsTop m) (tm_wifi m) (tm_devices m) (tm_vpn m) (tm_monitor m) (tm_speed m) (tm_diag m) (tm_secrets m).
Definition set_flash (fl : string * bool) (id : nat) (m : Model) : Model :=
  mkModel (tm_width m) (tm_height m) (tm_tab m) (tm_over m) (tm_status m) (tm_statusErr m) (tm_st m) (tm_events m) (tm_lastEvent m) fl id (tm_eventsTop m) (tm_wifi m) (tm_devices m) (tm_vpn m) (tm_monitor m) (tm_speed m) (tm_diag m) (tm_secrets m).
Definition set_eventsTop (n : nat) (m : Model) : Model :=
  mkModel (tm_width m) (tm_height m) (tm_tab m) (tm_over m) (tm_status m) (tm_statusErr m) (tm_st m) (tm_events m) (tm_lastEvent m) (tm_flash m) (tm_flashID m) n (tm_wifi m) (tm_devices m) (tm_vpn m) (tm_monitor m) (tm_speed m) (tm_diag m) (tm_secrets m).
Definition set_wifi (t : WifiTab) (m : Model) : Model :=
  mkModel (tm_width m) (tm_height m) (tm_tab m) (tm_over m) (tm_status m) (tm_statusErr m) (tm_st m) (tm_events m) (tm_lastEvent m) (tm_flash m) (tm_flashID m) (tm_eventsTop m) t (tm_devices m) (tm_vpn m) (tm_monitor m) (tm_speed m) (tm_diag m) (tm_secrets m).
Definition set_devices (t : DevicesTab) (m : Model) : Model :=
  mkModel (tm_width m) (tm_height m) (tm_tab m) (tm_over m) (tm_status m) (tm_statusErr m) (tm_st m) (tm_events m) (tm_lastEvent m) (tm_flash m) (tm_flashID m) (tm_eventsTop m) (tm_wifi m) t (tm_vpn m) (tm_monitor m) (tm_speed m) (tm_diag m) (tm_secrets m).
Definition set_vpn (t : VPNTab) (m : Model) : Model :=
  mkModel (tm_width m) (tm_height m) (tm_tab m) (tm_over m) (tm_status m) (tm_statusErr m) (tm_st m) (tm_events m) (tm_lastEvent m) (tm_flash m) (tm_flashID m) (tm_eventsTop m) (tm_wifi m) (tm_devices m) t (tm_monitor m) (tm_speed m) (tm_diag m) (tm_secrets m).
Definition set_monitorTab (t : MonitorTab) (m : Model) : Model :=
  mkModel (tm_width m) (tm_height m) (tm_tab m) (tm_over m) (tm_status m) (tm_statusErr m) (tm_st m) (tm_events m) (tm_lastEvent m) (tm_flash m) (tm_flashID m) (tm_eventsTop m) (tm_wifi m) (tm_devices m) (tm_vpn m) t (tm_speed m) (tm_diag m) (tm_secrets m).
Definition set_speed (t : SpeedTab) (m : Model) : Model :=
  mkModel (tm_width m) (tm_height m) (tm_tab m) (tm_over m) (tm_status m) (tm_statusErr m) (tm_st m) (tm_events m) (tm_lastEvent m) (tm_flash m) (tm_flashID m) (tm_eventsTop m) (tm_wifi m) (tm_devices m) (tm_vpn m) (tm_monitor m) t (tm_diag m) (tm_secrets m).
Definition set_diag (t : DiagTab) (m : Model) : Model :=
  mkModel (tm_width m) (tm_height m) (tm_tab m) (tm_over m) (tm_status m) (tm_statusErr m) (tm_st m) (tm_events m) (tm_lastEvent m) (tm_flash m) (tm_flashID m) (tm_eventsTop m) (tm_wifi m) (tm_devices m) (tm_vpn m) (tm_monitor m) (tm_speed m) t (tm_secrets m).
Definition set_secrets (s : SecretsState) (m : Model) : Model :=
  mkModel (tm_width m) (tm_height m) (tm_tab m) (tm_over m) (tm_status m) (tm_statusErr m) (tm_st m) (tm_events m) (tm_lastEvent m) (tm_flash m) (tm_flashID m) (tm_eventsTop m) (tm_wifi m) (tm_devices m) (tm_vpn m) (tm_monitor m) (tm_speed m) (tm_diag m) s.

(** A handler: the state after it and the commands it starts. *)
Definition Step : Type := Model -> Model * list Cmd.
Definition no_cmd (m : Model) : Model * list Cmd := (m, []).

Definition setFlash (text : string) (isErr : bool) (m : Model) : Model := set_flash (text, isErr) (S (tm_flashID m)) m.
Definition flashTimer (m : Model) : list Cmd := if (tm_flash m).1 =?s "" then [] else [CFlashTimer (tm_flashID m)].
(** [setFlash] and then [flashTimer]. *)
Definition flash_now (text : string) (isErr : bool) : Step := fun m => let m := setFlash text isErr m in (m, flashTimer m).

(** [errText] *)
Definition errText (err : error) : string :=
  let msg := ErrorString err in
  let h := HintOf (Some err) in
  if negb (h =?s "") && negb (Contains msg h) then msg +:+ " — " +:+ h else msg.

(** [secured] *)
Definition secured (s : WifiSecurity) : bool := negb (s =?s SecOpen) && negb (s =?s SecOWE) && negb (s =?s "").

(** ** secrets.go *)

Context (ToLower : string -> string).

Definition set_cur (c : option SecretPrompt) (s : SecretsState) : SecretsState := mkSecretsState c (xs_queue s) (xs_known s) (xs_tickGen s).
Definition set_known (k : list string) (s : SecretsState) : SecretsState := mkSecretsState (xs_cur s) (xs_queue s) k (xs_tickGen s).
Definition set_queue (q : list SecretRequest) (s : SecretsState) : SecretsState := mkSecretsState (xs_cur s) q (xs_known s) (xs_tickGen s).
Definition remove_id (id : string) (l : list string) : list string := List.filter (fun x => negb (x =?s id)) l.
Definition mem (id : string) (l : list string) : bool := existsb (String.eqb id) l.

Definition secrets_pending (s : SecretsState) : nat := (length (xs_queue s) + match xs_cur s with Some _ => 1 | None => 0 end)%nat.
Definition secrets_open (s : SecretsState) : bool := has (xs_cur s).
Definition cur_id (s : SecretsState) : option string := option_map (fun p => sq_ID (xp_req p)) (xs_cur s).

Definition tickCmd (s : SecretsState) : list Cmd := [CSecretTick (xs_tickGen s)].

Definition secret_field (f : SecretField) : Input :=
  let label := if sf_Label f =?s "" then sf_Key f else sf_Label f in in_new (label +:+ ": ") "" 256 (sf_Secret f).

Definition focus_nth (i : nat) (l : list Input) : list Input := alter in_Focus i l.
Definition blur_nth (i : nat) (l : list Input) : list Input := alter in_Blur i l.

Definition show_ (req : SecretRequest) (s : SecretsState) : SecretsState * list Cmd :=
  let fields := map secret_field (sq_Fields req) in
  let s := mkSecretsState (Some (mkSecretPrompt req (focus_nth 0 fields) 0 true false None)) (xs_queue s) (xs_known s) (S (xs_tickGen s)) in
  (s, tickCmd s ++ match fields with [] => [] | _ => [CInput] end).

Definition close_ (s : SecretsState) : SecretsState :=
  mkSecretsState None (xs_queue s) (match xs_cur s with Some p => remove_id (sq_ID (xp_req p)) (xs_known s) | None => xs_known s end) (S (xs_tickGen s)).

Definition next_ (s : SecretsState) : SecretsState * list Cmd :=
  match xs_cur s, xs_queue s with
  | Some _, _ | _, [] => (s, [])
  | None, req :: q => show_ req (set_queue q s)
  end.

Definition enqueue (req : SecretRequest) (s : SecretsState) : SecretsState * list Cmd :=
  if (sq_ID req =?s "") || mem (sq_ID req) (xs_known s) then (s, [])
  else
    let s := set_known (sq_ID req :: xs_known s) s in
    match xs_cur s with Some _ => (set_queue (xs_queue s ++ [req]) s, []) | None => show_ req s end.

Fixpoint enqueue_all (reqs : list SecretRequest) (s : SecretsState) : SecretsState * list Cmd :=
  match reqs with
  | [] => (s, [])
  | r :: reqs => let '(s, c1) := enqueue r s in let '(s, c2) := enqueue_all reqs s in (s, c1 ++ c2)
  end.

Fixpoint drop_request (id : string) (q : list SecretRequest) : list SecretRequest :=
  match q with [] => [] | r :: q => if sq_ID r =?s id then q else r :: drop_request id q end.

Definition secrets_resolved (id : string) (outcome : string) : Step := fun m =>
  let s := set_known (remove_id id (xs_known (tm_secrets m))) (tm_secrets m) in
  let s := set_queue (drop_request id (xs_queue s)) s in
  match xs_cur s with
  | None => (set_secrets s m, [])
  | Some p =>
      if negb (sq_ID (xp_req p) =?s id) then (set_secrets s m, [])
      else
        let s := close_ s in
        let '(m, c1) := if outcome =?s SecretTimeout then flash_now ("password request for " +:+ sq_ConnectionName (xp_req p) +:+ " timed out") true m else (m, []) in
        let '(s, c2) := next_ s in
        (set_secrets s m, c1 ++ c2)
  end.

(** [update] of the secrets: the data messages. *)
Definition secrets_update (msg : Msg) : Step := fun m =>
  let s := tm_secrets m in
  match msg with
  | MPendingSecrets (Ok reqs) => let '(s, c) := enqueue_all reqs s in (set_secrets s m, c)
  | MSecret _ (Ok req) => let '(s, c) := enqueue req s in (set_secrets s m, c)
  | MSecretAnswered id err =>
      match xs_cur s with
      | Some p =>
          if negb (sq_ID (xp_req p) =?s id) then (m, [])
          else
            match err with
            | Some e => (set_secrets (set_cur (Some (mkSecretPrompt (xp_req p) (xp_fields p) (xp_focus p) (xp_save p) false (Some e))) s) m, [])
            | None => let '(s, c) := next_ (close_ s) in (set_secrets s m, c)
            end
      | None => (m, [])
      end
  | MSecretCancelled _ (Some e) =>
      if errors_Is (Some e) ErrNotFound then (m, []) else flash_now ("cancel: " +:+ errText e) true m
  | MSecretTick gen =>
      match xs_cur s with
      | Some _ => if Nat.eqb gen (xs_tickGen s) then (m, tickCmd s) else (m, [])
      | None => (m, [])
      end
  | _ => (m, [])
  end.

Definition setFocus (i : nat) (p : SecretPrompt) : SecretPrompt * list Cmd :=
  let fields := focus_nth i (blur_nth (xp_focus p) (xp_fields p)) in
  (mkSecretPrompt (xp_req p) fields i (xp_save p) (xp_sending p) (xp_err p), if Nat.ltb i (length (xp_fields p)) then [CInput] else []).

(** The answers, or the first field that is empty. *)
Fixpoint collect (i : nat) (fs : list SecretField) (ins : list Input) (acc : gmap string string) : nat + gmap string string :=
  match fs, ins with
  | f :: fs, inp :: ins => let v := in_Value inp in if v =?s "" then inl i else collect (S i) fs ins (<[sf_Key f := v]> acc)
  | _, _ => inr acc
  end.

Definition submit (p : SecretPrompt) : SecretPrompt * list Cmd :=
  match collect 0 (sq_Fields (xp_req p)) (xp_fields p) ∅ with
  | inl i => setFocus i p
  | inr m => (mkSecretPrompt (xp_req p) (xp_fields p) (xp_focus p) (xp_save p) true None, [CAnswerSecret (sq_ID (xp_req p)) (mkSecretAnswer m (xp_save p))])
  end.

Definition with_prompt (r : SecretPrompt * list Cmd) (m : Model) : Model * list Cmd :=
  let '(p, c) := r in (set_secrets (set_cur (Some p) (tm_secrets m)) m, c).

(** A key for a field, or nothing on the save box. *)
Definition prompt_type (k : Key) (p : SecretPrompt) : SecretPrompt * list Cmd :=
  if Nat.ltb (xp_focus p) (length (xp_fields p))
  then (mkSecretPrompt (xp_req p) (alter (in_Update k) (xp_focus p) (xp_fields p)) (xp_focus p) (xp_save p) (xp_sending p) (xp_err p), [CInput])
  else (p, []).

Definition secrets_key (k : Key) : Step := fun m =>
  match xs_cur (tm_secrets m) with
  | None => (m, [])
  | Some p =>
      if xp_sending p then (m, [])
      else
        let n := length (xp_fields p) in
        let s := key_String k in
        if s =?s "esc" then
          let '(st, c) := next_ (close_ (tm_secrets m)) in (set_secrets st m, CCancelSecret (sq_ID (xp_req p)) :: c)
        else if mem s ["tab"; "down"] then with_prompt (setFocus ((xp_focus p + 1) mod (n + 1)) p) m
        else if mem s ["shift+tab"; "up"] then with_prompt (setFocus ((xp_focus p + n) mod (n + 1)) p) m
        else if (s =?s " ") && Nat.eqb (xp_focus p) n
        then with_prompt (mkSecretPrompt (xp_req p) (xp_fields p) (xp_focus p) (negb (xp_save p)) (xp_sending p) (xp_err p), []) m
        else if s =?s "enter" then
          (if Nat.ltb (xp_focus p + 1) n then with_prompt (setFocus (xp_focus p + 1) p) m else with_prompt (submit p) m)
        else with_prompt (prompt_type k p) m
  end.

(** ** wifi.go *)

Definition wifi_load (m : Model) : list Cmd := l_ LWifi.
Definition wifi_capturing (t : WifiTab) : bool := wt_filtering t || has (wt_prompt t) || has (wt_confirm t).

Definition wifi_less (a b : WifiNetwork) : bool :=
  if negb (Bool.eqb (wn_Active a) (wn_Active b)) then wn_Active a
  else if negb (wn_Strength a =? wn_Strength b) then wn_Strength b <? wn_Strength a
  else String.ltb (wn_SSID a) (wn_SSID b).

Definition visible (t : WifiTab) : list WifiNetwork :=
  let q := ToLower (in_Value (wt_filter t)) in
  isort (fun a b => negb (wifi_less b a)) (List.filter (fun n => (q =?s "") || Contains (ToLower (wn_SSID n)) q) (wt_nets t)).

(** A cursor within a list. *)
Definition clamp {A} (c : nat) (l : list A) : nat := Nat.min c (length l - 1).

Definition wifi_set_cursor (c : nat) (t : WifiTab) : WifiTab :=
  mkWifiTab (wt_nets t) (wt_err t) (wt_loaded t) c (wt_filter t) (wt_filtering t) (wt_prompt t) (wt_connecting t) (wt_confirm t) (wt_lastErr t).
Definition wifi_set_filter (f : Input) (filtering : bool) (t : WifiTab) : WifiTab :=
  mkWifiTab (wt_nets t) (wt_err t) (wt_loaded t) (wt_cursor t) f filtering (wt_prompt t) (wt_connecting t) (wt_confirm t) (wt_lastErr t).
Definition wifi_set_prompt (p : option WifiPrompt) (t : WifiTab) : WifiTab :=
  mkWifiTab (wt_nets t) (wt_err t) (wt_loaded t) (wt_cursor t) (wt_filter t) (wt_filtering t) p (wt_connecting t) (wt_confirm t) (wt_lastErr t).
Definition wifi_set_connecting (s : string) (t : WifiTab) : WifiTab :=
  mkWifiTab (wt_nets t) (wt_err t) (wt_loaded t) (wt_cursor t) (wt_filter t) (wt_filtering t) (wt_prompt t) s (wt_confirm t) (wt_lastErr t).
Definition wifi_set_confirm (n : option WifiNetwork) (t : WifiTab) : WifiTab :=
  mkWifiTab (wt_nets t) (wt_err t) (wt_loaded t) (wt_cursor t) (wt_filter t) (wt_filtering t) (wt_prompt t) (wt_connecting t) n (wt_lastErr t).
Definition wifi_set_lastErr (e : option error) (t : WifiTab) : WifiTab :=
  mkWifiTab (wt_nets t) (wt_err t) (wt_loaded t) (wt_cursor t) (wt_filter t) (wt_filtering t) (wt_prompt t) (wt_connecting t) (wt_confirm t) e.

(** [selected]: the network at the cursor, which is moved into the list first. *)
Definition wifi_selected (t : WifiTab) : option WifiNetwork * WifiTab :=
  let v := visible t in
  match v with
  | [] => (None, t)
  | _ => let c := clamp (wt_cursor t) v in (v !! c, wifi_set_cursor c t)
  end.

(** [device], of the network selected when the command runs. *)
Definition wifi_device (t : WifiTab) : string := match (wifi_selected t).1 with Some n => wn_Device n | None => "" end.

Definition on_wifi (f : WifiTab -> WifiTab) (m : Model) : Model := set_wifi (f (tm_wifi m)) m.

Definition join (req : ConnectWifiRequest) : Step := fun m =>
  (on_wifi (wifi_set_connecting (cw_SSID req)) m, CSpin :: action tabWifi ("connect " +:+ cw_SSID req) (AConnectWifi req)).

Definition connectTo (n : WifiNetwork) (askPassword : bool) : Step := fun m =>
  if (negb (wn_Known n) || askPassword) && secured (wn_Security n) then
    let fields := (if wn_Security n =?s SecWPAEAP then [in_new "username: " "" 128 false] else []) ++ [in_new "password: " "" 128 true] in
    (on_wifi (wifi_set_prompt (Some (mkWifiPrompt n (focus_nth 0 fields) 0))) m, [CInput])
  else join (mkConnectWifiRequest (wn_Device n) (wn_SSID n) "" false "") m.

Definition wifi_connect (m : Model) : Model * list Cmd :=
  let '(n, t) := wifi_selected (tm_wifi m) in
  let m := set_wifi t m in
  match n with
  | None => (m, [])
  | Some n => if wn_Active n then flash_now ("already connected to " +:+ wn_SSID n) false m else connectTo n false m
  end.

Definition forget (n : WifiNetwork) : list Cmd := action tabWifi ("forget " +:+ wn_SSID n) (AForgetWifi (wn_ProfileUUID n)).

Definition wifi_update (msg : Msg) : Step := fun m =>
  let t := tm_wifi m in
  match msg with
  | MWifi r =>
      let err := match r with Err e => Some e | Ok _ => None end in
      let nets := match r with Ok nets => nets | Err _ => wt_nets t end in
      let connecting := match r with
        | Ok nets => if existsb (fun n => (wn_SSID n =?s wt_connecting t) && wn_Active n) nets then "" else wt_connecting t
        | Err _ => wt_connecting t end in
      (set_wifi (mkWifiTab nets err true (wt_cursor t) (wt_filter t) (wt_filtering t) (wt_prompt t) connecting (wt_confirm t) (wt_lastErr t)) m, [])
  | MAction _ what _ err =>
      let t := if HasPrefix what "connect " then wifi_set_connecting "" t else t in
      (set_wifi (wifi_set_lastErr err t) m, match err with Some _ => [] | None => l_ LWifi end)
  | _ => (m, [])
  end.

(** The password prompt of the tab. *)
Definition prompt_fields_focus (i : nat) (p : WifiPrompt) : WifiPrompt :=
  mkWifiPrompt (wp_net p) (focus_nth i (blur_nth (wp_focus p) (wp_fields p))) i.

Definition value_at (i : nat) (l : list Input) : string := match l !! i with Some inp => in_Value inp | None => "" end.

Definition prompt_request (p : WifiPrompt) : ConnectWifiRequest :=
  let two := Nat.eqb (length (wp_fields p)) 2 in
  mkConnectWifiRequest (wn_Device (wp_net p)) (wn_SSID (wp_net p)) (value_at (if two then 1 else 0) (wp_fields p)) (wn_Hidden (wp_net p))
    (if two then value_at 0 (wp_fields p) else "").

Definition promptKey (k : Key) (p : WifiPrompt) : Step := fun m =>
  let s := key_String k in
  if s =?s "esc" then (on_wifi (wifi_set_prompt None) m, [])
  else if mem s ["tab"; "shift+tab"] then
    (on_wifi (wifi_set_prompt (Some (prompt_fields_focus ((wp_focus p + 1) mod length (wp_fields p)) p))) m, [CInput])
  else if s =?s "enter" then
    if Nat.ltb (wp_focus p + 1) (length (wp_fields p)) then (on_wifi (wifi_set_prompt (Some (prompt_fields_focus (wp_focus p + 1) p))) m, [CInput])
    else
      let req := prompt_request p in
      if cw_Password req =?s "" then (m, []) else join req (on_wifi (wifi_set_prompt None) m)
  else (on_wifi (wifi_set_prompt (Some (mkWifiPrompt (wp_net p) (alter (in_Update k) (wp_focus p) (wp_fields p)) (wp_focus p)))) m, [CInput]).

Definition filter_key (k : Key) : Step := fun m =>
  let t := tm_wifi m in
  let s := key_String k in
  if s =?s "esc" then (set_wifi (wifi_set_filter (in_Blur (in_SetValue "" (wt_filter t))) false t) m, [])
  else if s =?s "enter" then (set_wifi (wifi_set_filter (in_Blur (wt_filter t)) false t) m, [])
  else (set_wifi (wifi_set_cursor 0 (wifi_set_filter (in_Update k (wt_filter t)) true t)) m, [CInput]).

Definition wifi_plain_key (k : Key) : Step := fun m =>
  let t := tm_wifi m in
  let s := key_String k in
  if mem s ["up"; "k"] then (set_wifi (wifi_set_cursor (wt_cursor t - 1) t) m, [])
  else if mem s ["down"; "j"] then
    (match visible t with [] => m | v => set_wifi (wifi_set_cursor (Nat.min (length v - 1) (wt_cursor t + 1)) t) m end, [])
  else if mem s ["g"; "home"] then (set_wifi (wifi_set_cursor 0 t) m, [])
  else if mem s ["G"; "end"] then (set_wifi (wifi_set_cursor (length (visible t) - 1) t) m, [])
  else if s =?s "/" then (set_wifi (wifi_set_filter (in_Focus (wt_filter t)) true t) m, [CInput])
  else if s =?s "esc" then
    (if in_Value (wt_filter t) =?s "" then m else set_wifi (wifi_set_cursor 0 (wifi_set_filter (in_SetValue "" (wt_filter t)) (wt_filtering t) t)) m, [])
  else if s =?s "enter" then wifi_connect m
  else if s =?s "p" then
    let '(n, t) := wifi_selected t in let m := set_wifi t m in
    match n with
    | Some n => if wn_Known n && secured (wn_Security n) then connectTo n true m else flash_now "p only applies to a saved, secured network" false m
    | None => (m, [])
    end
  else if s =?s "d" then (m, [CAction tabWifi "disconnect" (WDevice ADisconnectWifi)])
  else if s =?s "f" then
    let '(n, t) := wifi_selected t in let m := set_wifi t m in
    match n with
    | Some n => if wn_Known n then (set_wifi (wifi_set_confirm (Some n) t) m, []) else flash_now (wn_SSID n +:+ " is not a known network") false m
    | None => (m, [])
    end
  else if s =?s "r" then
    let '(m, c) := flash_now "scanning…" false m in (m, CAction tabWifi "rescan" (WDevice AScanWifi) :: c)
  else if s =?s "w" then
    let on := negb (match tm_status m with Some st => st_WifiEnabled (sr_Status st) | None => false end) in
    (m, action tabWifi (if on then "wifi on" else "wifi off") (ASetWifiEnabled on))
  else (m, []).

Definition wifi_key (k : Key) : Step := fun m =>
  let m := on_wifi (wifi_set_lastErr None) m in
  let t := tm_wifi m in
  match wt_prompt t with
  | Some p => promptKey k p m
  | None =>
      match wt_confirm t with
      | Some n => (set_wifi (wifi_set_confirm None t) m, if mem (key_String k) ["y"; "Y"] then forget n else [])
      | None => if wt_filtering t then filter_key k m else wifi_plain_key k m
      end
  end.

(** ** devices.go *)

Definition devices_load (m : Model) : list Cmd := l_ LDevices ++ l_ LProfiles.

(** [devRow] *)
Inductive DevRow := RowDevice (d : Device) | RowVirtual | RowChild (d : Device).

Definition is_infra (d : Device) : bool := negb (dev_Class d =?s ClassPhysical) && negb (dev_Class d =?s ClassLoopback).

Definition rows (t : DevicesTab) : list DevRow :=
  let infra := List.filter is_infra (dt_devs t) in
  map RowDevice (List.filter (fun d => dev_Class d =?s ClassPhysical) (dt_devs t)) ++
  match infra with [] => [] | _ => RowVirtual :: (if dt_expanded t then map RowChild infra else []) end.

Definition dev_set_cursor (c : nat) (t : DevicesTab) : DevicesTab := mkDevicesTab (dt_devs t) (dt_profiles t) (dt_err t) (dt_loaded t) c (dt_expanded t).
Definition dev_set_expanded (b : bool) (t : DevicesTab) : DevicesTab := mkDevicesTab (dt_devs t) (dt_profiles t) (dt_err t) (dt_loaded t) (dt_cursor t) b.

Definition devices_update (msg : Msg) : Step := fun m =>
  let t := tm_devices m in
  match msg with
  | MDevices (Err e) => (set_devices (mkDevicesTab (dt_devs t) (dt_profiles t) (Some e) true (dt_cursor t) (dt_expanded t)) m, [])
  | MDevices (Ok devs) => (set_devices (mkDevicesTab devs (dt_profiles t) None true (dt_cursor t) (dt_expanded t)) m, [])
  | MProfiles (Ok ps) => (set_devices (mkDevicesTab (dt_devs t) ps (dt_err t) (dt_loaded t) (dt_cursor t) (dt_expanded t)) m, [])
  | MAction _ _ _ None => (m, l_ LDevices)
  | _ => (m, [])
  end.

Definition ownerOf (d : Device) : string := if dev_Owner d =?s "" then dev_Kind d else dev_Owner d.

(** The profile to bring up on a device: one bound to it, or a wired one bound to none. *)
Definition profile_for (name : string) (ps : list Profile) : string :=
  let bound := match List.find (fun p => pf_InterfaceName p =?s name) ps with Some p => pf_UUID p | None => "" end in
  if bound =?s "" then
    match List.find (fun p => (pf_Type p =?s ProfileEthernet) && (pf_InterfaceName p =?s "")) ps with Some p => pf_UUID p | None => "" end
  else bound.

(** ** The loads of the other tabs, and switching to one *)

Definition vpn_load (m : Model) : list Cmd := l_ LVPNs.

(** [publicAnchor] *)
Definition publicAnchor (st : MonitorStatus) : string :=
  match List.find (fun b => negb (bl_Anchor b =?s "gateway")) (ms_Anchors st) with Some b => bl_Anchor b | None => "" end.

Definition monitor_load (m : Model) : list Cmd :=
  l_ LMonitor ++ l_ (LSamples "gateway" sparkSamples) ++
  (let a := publicAnchor (mt_status (tm_monitor m)) in if a =?s "" then [] else l_ (LSamples a sparkSamples)).

Definition speed_load (m : Model) : list Cmd := l_ LSpeedHistory.

(** The device the LAN view scans. *)
Definition lanDevice (m : Model) : string :=
  match match match tm_status m with Some st => st_Primary (sr_Status st) | None => None end with Some p => ac_Devices p | None => [] end with
  | d :: _ => d
  | [] =>
      match List.find (fun d => (dev_Class d =?s ClassPhysical) && (dev_State d =?s DeviceConnected)) (dt_devs (tm_devices m)) with
      | Some d => dev_Name d | None => "" end
  end.

Definition diag_set_sub (sub : Sub) (t : DiagTab) : DiagTab :=
  mkDiagTab sub (gt_hosts t) (gt_hostsErr t) (gt_hostsOK t) (gt_sweeping t) (gt_ports t) (gt_portsErr t) (gt_portsOK t) (gt_routes t) (gt_routesErr t)
    (gt_routesOK t) (gt_infra t) (gt_infraErr t) (gt_infraOK t) (gt_pub t) (gt_pubErr t) (gt_pubOK t) (gt_dnsInput t) (gt_dnsBusy t) (gt_dnsAns t) (gt_dnsErr t).
Definition diag_set_hosts (h : list LANHost) (e : option error) (ok sweeping : bool) (t : DiagTab) : DiagTab :=
  mkDiagTab (gt_sub t) h e ok sweeping (gt_ports t) (gt_portsErr t) (gt_portsOK t) (gt_routes t) (gt_routesErr t)
    (gt_routesOK t) (gt_infra t) (gt_infraErr t) (gt_infraOK t) (gt_pub t) (gt_pubErr t) (gt_pubOK t) (gt_dnsInput t) (gt_dnsBusy t) (gt_dnsAns t) (gt_dnsErr t).
Definition diag_set_ports (p : list ListeningPort) (e : option error) (t : DiagTab) : DiagTab :=
  mkDiagTab (gt_sub t) (gt_hosts t) (gt_hostsErr t) (gt_hostsOK t) (gt_sweeping t) p e true (gt_routes t) (gt_routesErr t)
    (gt_routesOK t) (gt_infra t) (gt_infraErr t) (gt_infraOK t) (gt_pub t) (gt_pubErr t) (gt_pubOK t) (gt_dnsInput t) (gt_dnsBusy t) (gt_dnsAns t) (gt_dnsErr t).
Definition diag_set_routes (r : list Route) (e : option error) (t : DiagTab) : DiagTab :=
  mkDiagTab (gt_sub t) (gt_hosts t) (gt_hostsErr t) (gt_hostsOK t) (gt_sweeping t) (gt_ports t) (gt_portsErr t) (gt_portsOK t) r e
    true (gt_infra t) (gt_infraErr t) (gt_infraOK t) (gt_pub t) (gt_pubErr t) (gt_pubOK t) (gt_dnsInput t) (gt_dnsBusy t) (gt_dnsAns t) (gt_dnsErr t).
Definition diag_set_infra (n : list InfraNetwork) (e : option error) (t : DiagTab) : DiagTab :=
  mkDiagTab (gt_sub t) (gt_hosts t) (gt_hostsErr t) (gt_hostsOK t) (gt_sweeping t) (gt_ports t) (gt_portsErr t) (gt_portsOK t) (gt_routes t) (gt_routesErr t)
    (gt_routesOK t) n e true (gt_pub t) (gt_pubErr t) (gt_pubOK t) (gt_dnsInput t) (gt_dnsBusy t) (gt_dnsAns t) (gt_dnsErr t).
Definition diag_set_pub (p : option PublicIP) (e : option error) (t : DiagTab) : DiagTab :=
  mkDiagTab (gt_sub t) (gt_hosts t) (gt_hostsErr t) (gt_hostsOK t) (gt_sweeping t) (gt_ports t) (gt_portsErr t) (gt_portsOK t) (gt_routes t) (gt_routesErr t)
    (gt_routesOK t) (gt_infra t) (gt_infraErr t) (gt_infraOK t) p e true (gt_dnsInput t) (gt_dnsBusy t) (gt_dnsAns t) (gt_dnsErr t).
Definition diag_set_dns (i : Input) (busy : bool) (a : option DNSAnswer) (e : option error) (t : DiagTab) : DiagTab :=
  mkDiagTab (gt_sub t) (gt_hosts t) (gt_hostsErr t) (gt_hostsOK t) (gt_sweeping t) (gt_ports t) (gt_portsErr t) (gt_portsOK t) (gt_routes t) (gt_routesErr t)
    (gt_routesOK t) (gt_infra t) (gt_infraErr t) (gt_infraOK t) (gt_pub t) (gt_pubErr t) (gt_pubOK t) i busy a e.
Definition diag_set_input (i : Input) (t : DiagTab) : DiagTab := diag_set_dns i (gt_dnsBusy t) (gt_dnsAns t) (gt_dnsErr t) t.

Definition diag_capturing (t : DiagTab) : bool := match gt_sub t with subDNS => in_Focused (gt_dnsInput t) | _ => false end.

(** What the sub-view shown needs, unless it was loaded. *)
Definition diag_load : Step := fun m =>
  let t := tm_diag m in
  match gt_sub t with
  | subLAN => (m, if gt_hostsOK t then [] else l_ (LLan (lanDevice m) false))
  | subPorts => (m, if gt_portsOK t then [] else l_ LPorts)
  | subRoutes => (m, if gt_routesOK t then [] else l_ LRoutes)
  | subInfra => (m, if gt_infraOK t then [] else l_ LInfra)
  | subPublicIP => (m, if gt_pubOK t then [] else l_ LPublicIP)
  | subDNS => (set_diag (diag_set_input (in_Focus (gt_dnsInput t)) t) m, [CInput])
  end.

(** [m.pane(t).load] *)
Definition pane_load (t : Tab) : Step := fun m =>
  match t with
  | tabWifi => (m, wifi_load m)
  | tabDevices => (m, devices_load m)
  | tabVPN => (m, vpn_load m)
  | tabMonitor => (m, monitor_load m)
  | tabSpeed => (m, speed_load m)
  | tabDiag => diag_load m
  end.

Definition switchTab (t : Tab) : Step := fun m => if tab_is t (tm_tab m) then (m, []) else pane_load t (set_tab t m).

Definition devices_toggle (d : Device) : Step := fun m =>
  if dev_Kind d =?s DeviceWifi then switchTab tabWifi m
  else if negb (dev_Class d =?s ClassPhysical) then flash_now (dev_Name d +:+ " is managed by " +:+ ownerOf d) false m
  else if mem (dev_State d) [DeviceConnected; DeviceConnecting; DeviceExternal] then
    (m, action tabDevices ("down " +:+ dev_Name d) (ADisconnectWifi (dev_Name d)))
  else
    let uuid := profile_for (dev_Name d) (dt_profiles (tm_devices m)) in
    if uuid =?s "" then flash_now ("no profile for " +:+ dev_Name d +:+ "; create one with nmcli or bnm") true m
    else (m, action tabDevices ("up " +:+ dev_Name d) (AActivateProfile uuid (dev_Name d))).

Definition devices_key (k : Key) : Step := fun m =>
  let t := tm_devices m in
  let rs := rows t in
  let s := key_String k in
  if mem s ["up"; "k"] then (set_devices (dev_set_cursor (dt_cursor t - 1) t) m, [])
  else if mem s ["down"; "j"] then (set_devices (dev_set_cursor (Nat.min (length rs - 1) (dt_cursor t + 1)) t) m, [])
  else if s =?s "x" then (set_devices (dev_set_expanded (negb (dt_expanded t)) t) m, [])
  else if s =?s "enter" then
    match rs !! dt_cursor t with
    | None => (m, [])
    | Some RowVirtual => (set_devices (dev_set_expanded (negb (dt_expanded t)) t) m, [])
    | Some (RowDevice d) | Some (RowChild d) => devices_toggle d m
    end
  else (m, []).

(** ** vpn.go *)

Definition vpn_set_cursor (c : nat) (t : VPNTab) : VPNTab :=
  mkVPNTab (vt_vpns t) (vt_err t) (vt_loaded t) c (vt_busy t) (vt_picker t) (vt_addInput t) (vt_adding t) (vt_loginURL t) (vt_lastErr t).
Definition vpn_set_busy (b : string) (t : VPNTab) : VPNTab :=
  mkVPNTab (vt_vpns t) (vt_err t) (vt_loaded t) (vt_cursor t) b (vt_picker t) (vt_addInput t) (vt_adding t) (vt_loginURL t) (vt_lastErr t).
Definition vpn_set_picker (p : option ExitPicker) (t : VPNTab) : VPNTab :=
  mkVPNTab (vt_vpns t) (vt_err t) (vt_loaded t) (vt_cursor t) (vt_busy t) p (vt_addInput t) (vt_adding t) (vt_loginURL t) (vt_lastErr t).
Definition vpn_set_add (i : Input) (adding : bool) (t : VPNTab) : VPNTab :=
  mkVPNTab (vt_vpns t) (vt_err t) (vt_loaded t) (vt_cursor t) (vt_busy t) (vt_picker t) i adding (vt_loginURL t) (vt_lastErr t).
Definition vpn_set_login (u : string) (t : VPNTab) : VPNTab :=
  mkVPNTab (vt_vpns t) (vt_err t) (vt_loaded t) (vt_cursor t) (vt_busy t) (vt_picker t) (vt_addInput t) (vt_adding t) u (vt_lastErr t).
Definition vpn_set_lastErr (e : option error) (t : VPNTab) : VPNTab :=
  mkVPNTab (vt_vpns t) (vt_err t) (vt_loaded t) (vt_cursor t) (vt_busy t) (vt_picker t) (vt_addInput t) (vt_adding t) (vt_loginURL t) e.

Definition vpn_capturing (t : VPNTab) : bool := vt_adding t || has (vt_picker t).

(** [upCount] *)
Definition upCount (t : VPNTab) : nat * nat := (length (List.filter (fun v => vpn_State v =?s VPNConnected) (vt_vpns t)), length (vt_vpns t)).

Definition vpn_selected (t : VPNTab) : option VPN * VPNTab :=
  match vt_vpns t with
  | [] => (None, t)
  | l => let c := clamp (vt_cursor t) l in (l !! c, vpn_set_cursor c t)
  end.

Definition on_vpn (f : VPNTab -> VPNTab) (m : Model) : Model := set_vpn (f (tm_vpn m)) m.

Definition vpn_update (msg : Msg) : Step := fun m =>
  let t := tm_vpn m in
  match msg with
  | MVPN r =>
      (set_vpn (mkVPNTab (match r with Ok vs => vs | Err _ => vt_vpns t end) (match r with Err e => Some e | Ok _ => None end) true (vt_cursor t) (vt_busy t)
         (vt_picker t) (vt_addInput t) (vt_adding t) (vt_loginURL t) (vt_lastErr t)) m, [])
  | MAction _ what extra err =>
      let t := vpn_set_lastErr err (vpn_set_busy "" t) in
      match err with
      | Some _ => (set_vpn t m, [])
      | None => (set_vpn (if (what =?s "login") && negb (extra =?s "") then vpn_set_login extra t else t) m, l_ LVPNs)
      end
  | _ => (m, [])
  end.

Definition vpn_toggle : Step := fun m =>
  let '(v, t) := vpn_selected (tm_vpn m) in
  let m := set_vpn t m in
  match v with
  | None => (m, [])
  | Some v =>
      if negb (vt_busy t =?s "") then (m, [])
      else if mem (vpn_State v) [VPNNeedsSetup; VPNUnavailable] then
        flash_now (vpn_Name v +:+ ": " +:+ vpn_State v +:+ (if vpn_Detail v =?s "" then "" else " — " +:+ vpn_Detail v)) true m
      else if mem (vpn_State v) [VPNConnected; VPNConnecting] then
        (on_vpn (vpn_set_busy (vpn_ID v)) m, CSpin :: action tabVPN ("disconnect " +:+ vpn_Name v) (ADisconnectVPN (vpn_ID v)))
      else (on_vpn (vpn_set_busy (vpn_ID v)) m, CSpin :: action tabVPN ("connect " +:+ vpn_Name v) (AConnectVPN (vpn_ID v)))
  end.

(** [os.ReadFile] at the time of the key, and [os.UserHomeDir]. *)
Context (ReadFile : string -> result error string) (UserHomeDir : option string).

Definition Ext (path : string) : string :=
  let base := match CutLast path "/" with Some (_, f) => f | None => path end in
  match CutLast base "." with Some (_, e) => "." +:+ e | None => "" end.

Definition expandHome (path : string) : string :=
  if (path =?s "~") || HasPrefix path "~/" then
    match UserHomeDir with Some home => path_Join [home; TrimPrefix path "~"] | None => path end
  else path.

Definition importFile (path : string) : Step := fun m =>
  let ext := ToLower (Ext path) in
  if negb (mem ext [".conf"; ".ovpn"]) then flash_now "add: expected a .conf (WireGuard) or .ovpn (OpenVPN) file" true m
  else
    let kind := if ext =?s ".conf" then "wireguard" else "openvpn" in
    let path := expandHome path in
    match ReadFile path with
    | Err e => flash_now ("add: " +:+ ErrorString e) true m
    | Ok data =>
        let name := TrimSuffix (Base path) (Ext path) in
        (m, [CAction tabVPN ("import " +:+ Base path) (WImport (mkImportVPNRequest kind name "" data))])
    end.

Definition picker_set_cursor (c : nat) (p : ExitPicker) : ExitPicker := mkExitPicker (ep_peers p) c.

Definition pickerKey (k : Key) (p : ExitPicker) : Step := fun m =>
  let s := key_String k in
  if mem s ["esc"; "q"] then (on_vpn (vpn_set_picker None) m, [])
  else if mem s ["up"; "k"] then (on_vpn (vpn_set_picker (Some (picker_set_cursor (ep_cursor p - 1) p))) m, [])
  else if mem s ["down"; "j"] then
    (on_vpn (vpn_set_picker (Some (picker_set_cursor (Nat.min (length (ep_peers p) - 1) (ep_cursor p + 1)) p))) m, [])
  else if s =?s "o" then (on_vpn (vpn_set_picker None) m, action tabVPN "exit node off" (AUseExitNode false))
  else if s =?s "enter" then
    match ep_peers p !! ep_cursor p with
    | None => (m, [])
    | Some peer => (on_vpn (vpn_set_picker None) m, action tabVPN ("exit node " +:+ tp_Name peer) (ASetExitNode (tp_ID peer) false))
    end
  else (m, []).

Definition add_key (k : Key) : Step := fun m =>
  let t := tm_vpn m in
  let s := key_String k in
  if s =?s "esc" then (set_vpn (vpn_set_add (in_Blur (vt_addInput t)) false t) m, [])
  else if s =?s "enter" then
    let path := TrimSpace (in_Value (vt_addInput t)) in
    if path =?s "" then (m, []) else importFile path (set_vpn (vpn_set_add (in_SetValue "" (in_Blur (vt_addInput t))) false t) m)
  else (set_vpn (vpn_set_add (in_Update k (vt_addInput t)) true t) m, [CInput]).

Definition is_tailscale (v : VPN) : bool := vpn_Backend v =?s BackendTailscale.

Definition vpn_plain_key (k : Key) : Step := fun m =>
  let t := tm_vpn m in
  let s := key_String k in
  if mem s ["up"; "k"] then (set_vpn (vpn_set_login "" (vpn_set_cursor (vt_cursor t - 1) t)) m, [])
  else if mem s ["down"; "j"] then (set_vpn (vpn_set_login "" (vpn_set_cursor (Nat.min (length (vt_vpns t) - 1) (vt_cursor t + 1)) t)) m, [])
  else if s =?s "enter" then vpn_toggle m
  else if s =?s "e" then
    let '(v, t) := vpn_selected t in let m := set_vpn t m in
    match v with
    | Some v =>
        match vpn_Tailscale v with
        | Some ts => if is_tailscale v then (set_vpn (vpn_set_picker (Some (mkExitPicker (List.filter tp_ExitNodeOption (ti_Peers ts)) 0)) t) m, [])
                     else (set_over overlayEvents m, [])
        | None => (set_over overlayEvents m, [])
        end
    | None => (set_over overlayEvents m, [])
    end
  else if s =?s "l" then
    let '(v, t) := vpn_selected t in let m := set_vpn t m in
    match v with
    | Some v => if is_tailscale v then (set_vpn (vpn_set_busy (vpn_ID v) t) m, [CSpin; CAction tabVPN "login" WLogin]) else (m, [])
    | None => (m, [])
    end
  else if s =?s "a" then (set_vpn (vpn_set_add (in_Focus (vt_addInput t)) true t) m, [CInput])
  else if s =?s "esc" then (set_vpn (vpn_set_login "" t) m, [])
  else (m, []).

Definition vpn_key (k : Key) : Step := fun m =>
  let m := on_vpn (vpn_set_lastErr None) m in
  match vt_picker (tm_vpn m) with
  | Some p => pickerKey k p m
  | None => if vt_adding (tm_vpn m) then add_key k m else vpn_plain_key k m
  end.

(** ** monitor.go *)

Definition monitor_update (msg : Msg) : Step := fun m =>
  let t := tm_monitor m in
  match msg with
  | MMonitor (Err e) => (set_monitorTab (mkMonitorTab (mt_status t) (Some e) (mt_loaded t) (mt_samples t)) m, [])
  | MMonitor (Ok st) =>
      let a := publicAnchor st in
      (set_monitorTab (mkMonitorTab st None true (mt_samples t)) m,
       if negb (a =?s "") && (publicAnchor (mt_status t) =?s "") && tab_is (tm_tab m) tabMonitor then l_ (LSamples a sparkSamples) else [])
  | MSamples anchor (Ok l) => (set_monitorTab (mkMonitorTab (mt_status t) (mt_err t) (mt_loaded t) (<[anchor := l]> (mt_samples t))) m, [])
  | MAction _ _ _ None => (m, monitor_load m)
  | _ => (m, [])
  end.

Definition monitor_key (k : Key) : Step := fun m =>
  let s := key_String k in
  if s =?s "p" then
    (m, if ms_Paused (mt_status (tm_monitor m)) then action tabMonitor "resume" AResumeMonitor else action tabMonitor "pause" APauseMonitor)
  else if s =?s "R" then (m, action tabMonitor "reset baseline" (AResetBaseline ""))
  else if s =?s "r" then (m, monitor_load m)
  else (m, []).

(** ** speed.go *)

Definition speedPhases : list string := ["latency"; "download"; "upload"].

Definition speed_set_history (h : list SpeedResult) (e : option error) (t : SpeedTab) : SpeedTab :=
  mkSpeedTab h e true (pt_running t) (pt_quick t) (pt_phase t) (pt_pct t) (pt_rate t) (pt_ch t) (pt_next t) (pt_last t) (pt_lastErr t).
Definition speed_set_progress (ph : string) (pct rate : gmap string float64) (t : SpeedTab) : SpeedTab :=
  mkSpeedTab (pt_history t) (pt_err t) (pt_loaded t) (pt_running t) (pt_quick t) ph pct rate (pt_ch t) (pt_next t) (pt_last t) (pt_lastErr t).
(** The test ended: its context is released, its channel dropped. *)
Definition speed_ended (last : option SpeedResult) (lastErr : option error) (t : SpeedTab) : SpeedTab :=
  mkSpeedTab (pt_history t) (pt_err t) (pt_loaded t) false (pt_quick t) (pt_phase t) (pt_pct t) (pt_rate t) None (pt_next t) last lastErr.

(** The phases before the one named are complete. *)
Fixpoint complete_before (phase : string) (l : list string) (pct : gmap string float64) : gmap string float64 :=
  match l with
  | [] => pct
  | ph :: l => if ph =?s phase then pct else complete_before phase l (<[ph := f_of_Z 100]> pct)
  end.

Definition speed_apply (p : SpeedProgress) (t : SpeedTab) : SpeedTab :=
  if sp_Phase p =?s "done" then speed_set_progress (pt_phase t) (fold_left (fun m ph => <[ph := f_of_Z 100]> m) speedPhases (pt_pct t)) (pt_rate t) t
  else
    speed_set_progress (sp_Phase p) (<[sp_Phase p := sp_Percent p]> (complete_before (sp_Phase p) speedPhases (pt_pct t)))
      (if f_ltb (f_of_Z 0) (sp_Mbps p) then <[sp_Phase p := sp_Mbps p]> (pt_rate t) else pt_rate t) t.

Definition waitSpeed (t : SpeedTab) : list Cmd := match pt_ch t with Some ch => [CWaitSpeed ch] | None => [] end.

Definition speed_cancel (t : SpeedTab) : list Cmd := match pt_ch t with Some ch => [CSpeedCancel ch] | None => [] end.

Definition speed_done (r : result error SpeedResult) : Step := fun m =>
  let t := tm_speed m in
  let '(m, c) := match r with
    | Err e =>
        if errors_Is (Some e) Canceled then flash_now "speed test cancelled" false (set_speed (speed_ended (pt_last t) (pt_lastErr t) t) m)
        else flash_now ("speed test: " +:+ errText e) true (set_speed (speed_ended (pt_last t) (Some e) t) m)
    | Ok r => (set_speed (speed_apply (mkSpeedProgress "done" (f_of_Z 0) (f_of_Z 0) 0) (speed_ended (Some r) (pt_lastErr t) t)) m, l_ LSpeedHistory)
    end in
  (m, speed_cancel t ++ c).

Definition speed_update (msg : Msg) : Step := fun m =>
  let t := tm_speed m in
  match msg with
  | MSpeedHistory (Ok rs) => (set_speed (speed_set_history rs None t) m, [])
  | MSpeedHistory (Err e) => (set_speed (speed_set_history (pt_history t) (Some e) t) m, [])
  | MSpeedProgress p => let t := speed_apply p t in (set_speed t m, waitSpeed t)
  | MSpeedDone r => speed_done r m
  | _ => (m, [])
  end.

(** [start]; channels are numbered. *)
Definition speed_start (quick : bool) : Step := fun m =>
  let t := tm_speed m in
  if pt_running t then (m, [])
  else
    (set_speed (mkSpeedTab (pt_history t) (pt_err t) (pt_loaded t) true quick "latency" ∅ ∅ (Some (pt_next t)) (S (pt_next t)) (pt_last t) None) m,
     [CSpeedStart (pt_next t) quick; CSpin; CWaitSpeed (pt_next t)]).

Definition speed_key (k : Key) : Step := fun m =>
  let s := key_String k in
  if s =?s "s" then speed_start false m
  else if s =?s "q" then speed_start true m
  else if mem s ["esc"; "x"] then (m, if pt_running (tm_speed m) then speed_cancel (tm_speed m) else [])
  else if s =?s "r" then (m, l_ LSpeedHistory)
  else (m, []).

(** ** diag.go *)

Definition diag_reload (m : Model) : list Cmd :=
  match gt_sub (tm_diag m) with
  | subLAN => l_ (LLan (lanDevice m) false) | subPorts => l_ LPorts | subRoutes => l_ LRoutes | subInfra => l_ LInfra | subPublicIP => l_ LPublicIP
  | subDNS => []
  end.

Definition err_of {A} (r : result error A) : option error := match r with Err e => Some e | Ok _ => None end.
Definition or_old {A} (r : result error A) (old : A) : A := match r with Ok a => a | Err _ => old end.

Definition diag_update (msg : Msg) : Step := fun m =>
  let t := tm_diag m in
  match msg with
  | MLan r => (set_diag (diag_set_hosts (or_old r (gt_hosts t)) (err_of r) true false t) m, [])
  | MPorts r => (set_diag (diag_set_ports (or_old r (gt_ports t)) (err_of r) t) m, [])
  | MRoutes r => (set_diag (diag_set_routes (or_old r (gt_routes t)) (err_of r) t) m, [])
  | MInfra r => (set_diag (diag_set_infra (or_old r (gt_infra t)) (err_of r) t) m, [])
  | MPublicIP r => (set_diag (diag_set_pub (match r with Ok ip => Some ip | Err _ => gt_pub t end) (err_of r) t) m, [])
  | MDns r => (set_diag (diag_set_dns (gt_dnsInput t) false (match r with Ok a => Some a | Err _ => gt_dnsAns t end) (err_of r) t) m, [])
  | _ => (m, [])
  end.

Definition diag_plain_key (k : Key) : Step := fun m =>
  let t := tm_diag m in
  let s := key_String k in
  if mem s ["]"; "right"; "l"] then diag_load (set_diag (diag_set_sub (sub_next (gt_sub t)) t) m)
  else if mem s ["["; "left"; "h"] then diag_load (set_diag (diag_set_sub (sub_prev (gt_sub t)) t) m)
  else if s =?s "r" then (m, diag_reload m)
  else if s =?s "s" then
    match gt_sub t with
    | subLAN => if gt_sweeping t then (m, [])
                else (set_diag (diag_set_hosts (gt_hosts t) (gt_hostsErr t) (gt_hostsOK t) true t) m, [CSpin; CLoad (LLan (lanDevice m) true)])
    | _ => (m, [])
    end
  else if mem s ["enter"; "/"] then
    match gt_sub t with subDNS => (set_diag (diag_set_input (in_Focus (gt_dnsInput t)) t) m, [CInput]) | _ => (m, []) end
  else (m, []).

Definition diag_key (k : Key) : Step := fun m =>
  let t := tm_diag m in
  let s := key_String k in
  if diag_capturing t then
    if s =?s "esc" then (set_diag (diag_set_input (in_Blur (gt_dnsInput t)) t) m, [])
    else if mem s ["["; "]"] then diag_plain_key k (set_diag (diag_set_input (in_Blur (gt_dnsInput t)) t) m)
    else if s =?s "enter" then
      let name := TrimSpace (in_Value (gt_dnsInput t)) in
      if name =?s "" then (m, []) else (set_diag (diag_set_dns (gt_dnsInput t) true (gt_dnsAns t) (gt_dnsErr t) t) m, l_ (LDns name))
    else (set_diag (diag_set_input (in_Update k (gt_dnsInput t)) t) m, [CInput])
  else diag_plain_key k m.
End Tui.
Arguments Model : clear implicits.
Arguments Step : clear implicits.
