(* ===== verification/TuiMain.v ===== *)
(** internal/ui/tui/tui.go: [Init] and [Update], the routing of keys, and what a
    live item of the stream makes the interface load. *)

From S2P Require Import Prelude GoTime Core Errors GoStrings Daemon DaemonOps API APISpec Startup Tui.

Section Main.
Context {Input : Type} {ops : InputOps Input}.
Context (ToLower : string -> string) (ReadFile : string -> result error string) (UserHomeDir : option string).
(** [Time.String], which tells events apart. *)
Context (TimeString : Time -> string).

Local Abbreviation Model := (Tui.Model Input).
Local Abbreviation Step := (Tui.Step Input).

Definition pane_update (t : Tab) (msg : Msg) : Step :=
  match t with
  | tabWifi => wifi_update msg | tabDevices => devices_update msg | tabVPN => vpn_update msg | tabMonitor => monitor_update msg
  | tabSpeed => speed_update msg | tabDiag => diag_update msg
  end.

Definition pane_key (t : Tab) (k : Key) : Step :=
  match t with
  | tabWifi => wifi_key ToLower k | tabDevices => devices_key k | tabVPN => vpn_key ToLower ReadFile UserHomeDir k | tabMonitor => monitor_key k
  | tabSpeed => speed_key k | tabDiag => diag_key k
  end.

Definition capturing (m : Model) : bool :=
  match tm_tab m with tabWifi => wifi_capturing (tm_wifi m) | tabVPN => vpn_capturing (tm_vpn m) | tabDiag => diag_capturing (tm_diag m) | _ => false end.

(** [New] *)
Definition Model_new : Model :=
  mkModel 0 0 tabWifi overlayNone None None (mkStream None false false 0 None [] false) [] None ("", false) 0 0
    (mkWifiTab [] None false 0 (in_new "/ " "filter" 64 false) false None "" None None)
    (mkDevicesTab [] [] None false 0 false)
    (mkVPNTab [] None false 0 "" None (in_new "file: " "/path/to/tunnel.conf or .ovpn" 512 false) false "" None)
    (mkMonitorTab (mkMonitorStatus "" "" [] 0 0 false) None false ∅)
    (mkSpeedTab [] None false false false "" ∅ ∅ None 0 None None)
    (mkDiagTab subLAN [] None false false [] None false [] None false [] None false None None false (in_new "lookup: " "example.com" 253 false) false None None)
    (mkSecretsState None [] [] 0).

Definition Init : Step := fun m =>
  let '(m, c) := pane_load (tm_tab m) m in
  (m, l_ LStatus ++ l_ LVPNs ++ l_ LMonitor ++ l_ LEventHistory ++ l_ LPendingSecrets ++ c ++ [COpenStream]).

(** [busy] *)
Definition busy (m : Model) : bool :=
  negb (wt_connecting (tm_wifi m) =?s "") || negb (vt_busy (tm_vpn m) =?s "") || pt_running (tm_speed m) || gt_sweeping (tm_diag m).

(** The last of the log, [eventLogSize] of it at most. *)
Definition cap_log (l : list Event) : list Event := drop (length l - eventLogSize) l.

Definition event_key (e : Event) : string := TimeString (ev_Time e) +:+ ev_Type e.

Definition mergeEvents (history live : list Event) : list Event :=
  cap_log (history ++ List.filter (fun e => negb (mem (event_key e) (map event_key history))) live).

Definition nextBackoff (s : Stream) : Duration := if ss_backoff s =? 0 then backoffMin else Z.min (ss_backoff s * 2) backoffMax.

(** [note] and [take] *)
Definition note (kind : ChangeKind) (s : Stream) : Stream :=
  mkStream (ss_ch s) (ss_up s) (ss_everUp s) (ss_backoff s) (ss_lastErr s)
    (if mem kind (ss_pending s) then ss_pending s else ss_pending s ++ [kind]) (ss_debouncin s).

Definition waitStream (s : Stream) : list Cmd := match ss_ch s with Some ch => [CWaitStream ch] | None => [] end.

(** What an event makes stale. *)
Definition stale_kinds (t : EventType) : list ChangeKind :=
  if mem t [EventConnected; EventDisconnected; EventNoInternet; EventInternetRestored; EventStateChanged] then [ChangeStatus; ChangeActive]
  else if mem t [EventVPNUp; EventVPNDown] then [ChangeVPN]
  else if mem t [EventDegraded; EventRecovered] then [ChangeMonitor]
  else if t =?s EventWifiScan then [ChangeWifi]
  else [].

Definition note_all (kinds : list ChangeKind) (m : Model) : Model := set_st (fold_left (fun s k => note k s) kinds (tm_st m)) m.

Definition foldStreamItem (item : StreamItem) : Step := fun m =>
  match item with
  | IChange c => (note_all [ch_Kind c] m, [])
  | IEvent e =>
      let m := set_events (cap_log (tm_events m ++ [e])) (Some e) m in
      let m := note_all (stale_kinds (ev_Type e)) m in
      let id := default "" (ev_Data e !! "request_id") in
      if ev_Type e =?s EventSecretNeeded then (m, if id =?s "" then [] else l_ (LSecret id))
      else if ev_Type e =?s EventSecretResolved then secrets_resolved id (default "" (ev_Data e !! "outcome")) m
      else (m, [])
  end.

Definition set_debouncin (b : bool) (s : Stream) : Stream :=
  mkStream (ss_ch s) (ss_up s) (ss_everUp s) (ss_backoff s) (ss_lastErr s) (ss_pending s) b.

Definition onStreamItem (item : StreamItem) : Step := fun m =>
  let '(m, c) := foldStreamItem item m in
  match ss_pending (tm_st m) with
  | [] => (m, c)
  | _ => if ss_debouncin (tm_st m) then (m, c) else (set_st (set_debouncin true (tm_st m)) m, c ++ [CDebounce])
  end.

(** What has to be read again. *)
Record Wanted := mkWanted { wd_status : bool; wd_wifi : bool; wd_devices : bool; wd_profiles : bool; wd_vpn : bool; wd_monitor : bool }.

Definition want (w : Wanted) (k : ChangeKind) : Wanted :=
  let '(mkWanted s wf d p v mo) := w in
  if k =?s ChangeStatus then mkWanted true wf d p v mo
  else if k =?s ChangeWifi then mkWanted s true d p v mo
  else if k =?s ChangeActive then mkWanted true true true p v mo
  else if k =?s ChangeDevices then mkWanted s wf true p v mo
  else if k =?s ChangeProfiles then mkWanted s true true true v mo
  else if k =?s ChangeVPN then mkWanted s wf d p true mo
  else if k =?s ChangeMonitor then mkWanted s wf d p v true
  else mkWanted true wf d p v mo.

Definition loadsFor (kinds : list ChangeKind) (m : Model) : list Cmd :=
  let w := fold_left want kinds (mkWanted false false false false false false) in
  (if wd_status w then l_ LStatus else []) ++
  (if wd_wifi w && (tab_is (tm_tab m) tabWifi || wt_loaded (tm_wifi m)) then l_ LWifi else []) ++
  (if wd_devices w && (tab_is (tm_tab m) tabDevices || dt_loaded (tm_devices m)) then l_ LDevices else []) ++
  (if wd_profiles w && tab_is (tm_tab m) tabDevices then l_ LProfiles else []) ++
  (if wd_vpn w then l_ LVPNs else []) ++
  (if wd_monitor w then (if tab_is (tm_tab m) tabMonitor then monitor_load m else l_ LMonitor) else []).

Definition reloadAll : Step := fun m =>
  let '(m, c) := pane_load (tm_tab m) m in (m, l_ LStatus ++ l_ LVPNs ++ l_ LMonitor ++ l_ LPendingSecrets ++ c).

(** ** Keys *)

Definition overlay_key (k : Key) (m : Model) : Model :=
  let s := key_String k in
  if mem s ["esc"; "q"; "?"; "e"; "E"; "enter"] then set_eventsTop 0 (set_over overlayNone m)
  else if mem s ["up"; "k"] then set_eventsTop (tm_eventsTop m - 1) m
  else if mem s ["down"; "j"] then set_eventsTop (tm_eventsTop m + 1) m
  else m.

Definition tab_number (s : string) : option Tab :=
  if s =?s "1" then Some tabWifi else if s =?s "2" then Some tabDevices else if s =?s "3" then Some tabVPN
  else if s =?s "4" then Some tabMonitor else if s =?s "5" then Some tabSpeed else if s =?s "6" then Some tabDiag else None.

Definition key (k : Key) : Step := fun m =>
  if key_ctrlC k then (m, [CQuit])
  else if secrets_open (tm_secrets m) then secrets_key k m
  else
    match tm_over m with
    | overlayHelp | overlayEvents => (overlay_key k m, [])
    | overlayNone =>
        if capturing m then pane_key (tm_tab m) k m
        else
          let s := key_String k in
          if (s =?s "q") && negb (tab_is (tm_tab m) tabSpeed) then (m, [CQuit])
          else if s =?s "?" then (set_over overlayHelp m, [])
          else if s =?s "E" then (set_over overlayEvents m, [])
          else if (s =?s "e") && negb (tab_is (tm_tab m) tabVPN) then (set_over overlayEvents m, [])
          else if s =?s "tab" then switchTab (tab_next (tm_tab m)) m
          else if s =?s "shift+tab" then switchTab (tab_prev (tm_tab m)) m
          else match tab_number s with Some t => switchTab t m | None => pane_key (tm_tab m) k m end
    end.

(** ** Update *)

Definition Update (msg : Msg) : Step := fun m =>
  let s := tm_st m in
  match msg with
  | MResize w h => (set_size w h m, [])
  | MKey k => key k m
  | MSpin => (m, if busy m then [CSpin] else [])
  | MFlashExpire id => (if Nat.eqb id (tm_flashID m) then set_flash ("", false) (tm_flashID m) m else m, [])
  | MStatus (Err e) => (set_status (tm_status m) (Some e) m, [])
  | MStatus (Ok st) => (set_status (Some st) None m, [])
  | MEventHistory (Ok evs) =>
      let evs := mergeEvents evs (tm_events m) in
      (set_events evs (match tm_lastEvent m with Some e => Some e | None => last evs end) m, [])
  | MEventHistory (Err _) => (m, [])
  | MStreamOpen ch =>
      let m' := set_st (mkStream (Some ch) true true 0 None (ss_pending s) (ss_debouncin s)) m in
      if ss_everUp s then let '(m', c) := reloadAll m' in (m', CWaitStream ch :: c) else (m', [CWaitStream ch])
  | MStreamErr e =>
      let b := nextBackoff s in (set_st (mkStream (ss_ch s) false (ss_everUp s) b (Some e) (ss_pending s) (ss_debouncin s)) m, [CRetryStream b])
  | MStreamClosed =>
      let b := nextBackoff s in (set_st (mkStream None false (ss_everUp s) b (ss_lastErr s) (ss_pending s) (ss_debouncin s)) m, [CRetryStream b])
  | MStreamRetry => (m, [COpenStream])
  | MStreamItem item => let '(m, c) := onStreamItem item m in (m, waitStream (tm_st m) ++ c)
  | MDebounce =>
      let m' := set_st (mkStream (ss_ch s) (ss_up s) (ss_everUp s) (ss_backoff s) (ss_lastErr s) [] false) m in (m', loadsFor (ss_pending s) m')
  | MAction tab what _ err =>
      let m := match err with Some e => setFlash (what +:+ ": " +:+ errText e) true m | None => m end in
      let '(m, c) := pane_update tab msg m in (m, c ++ flashTimer m)
  | MPendingSecrets _ | MSecret _ _ | MSecretAnswered _ _ | MSecretCancelled _ _ | MSecretTick _ => secrets_update msg m
  | MWifi _ => wifi_update msg m
  | MDevices _ | MProfiles _ => devices_update msg m
  | MVPN _ => vpn_update msg m
  | MMonitor _ | MSamples _ _ => monitor_update msg m
  | MSpeedHistory _ | MSpeedProgress _ | MSpeedDone _ => speed_update msg m
  | MLan _ | MPorts _ | MRoutes _ | MInfra _ | MPublicIP _ | MDns _ => diag_update msg m
  | MInput => (m, [])
  end.

(** ** What drawing does to the state *)

(** [View], [len - avail] being the last line the event log can begin at. *)
Definition drawn (top : nat) (m : Model) : Model :=
  let m := match tm_over m with overlayEvents => set_eventsTop (Nat.min (tm_eventsTop m) top) m | _ => m end in
  match tm_over m, tm_tab m with
  | overlayNone, tabWifi => set_wifi (wifi_set_cursor (clamp (wt_cursor (tm_wifi m)) (visible ToLower (tm_wifi m))) (tm_wifi m)) m
  | overlayNone, tabVPN => set_vpn (vpn_set_cursor (clamp (vt_cursor (tm_vpn m)) (vt_vpns (tm_vpn m))) (tm_vpn m)) m
  | overlayNone, tabDevices => set_devices (dev_set_cursor (clamp (dt_cursor (tm_devices m)) (rows (tm_devices m))) (tm_devices m)) m
  | _, _ => m
  end.
End Main.
