(* ===== verification/TuiFacts.v ===== *)
(** What keeps the terminal interface alive: whatever is typed and whatever the
    daemon answers, every indicator on the screen has the command in flight that
    will clear it, the event stream has exactly one command behind it, and no
    change it told of is forgotten. *)

From S2P Require Import Prelude GoTime Core Errors GoStrings GoStringsFacts Daemon DaemonOps API APISpec Startup Tui TuiMain.

(** ** Commands in flight *)

Definition is_stream (c : Cmd) : bool := match c with COpenStream | CWaitStream _ | CRetryStream _ => true | _ => false end.
Definition is_debounce (c : Cmd) : bool := match c with CDebounce => true | _ => false end.
Definition is_waitSpeed (c : Cmd) : bool := match c with CWaitSpeed _ => true | _ => false end.
Definition is_tick (g : nat) (c : Cmd) : bool := match c with CSecretTick g' => Nat.eqb g g' | _ => false end.
Definition any_tick (c : Cmd) : bool := match c with CSecretTick _ => true | _ => false end.

Definition count (P : Cmd -> bool) (l : list Cmd) : nat := length (List.filter P l).

Lemma count_app P a b : count P (a ++ b) = (count P a + count P b)%nat.
Proof. unfold count. by rewrite List.filter_app, length_app. Qed.

Lemma count_none P l : Forall (fun c => P c = false) l -> count P l = 0%nat.
Proof. unfold count. induction 1 as [|c l Hc _ IH]; [done|]. cbn. by rewrite Hc. Qed.

Lemma count_remove P a c b : count P (a ++ c :: b) = (count P (a ++ b) + if P c then 1 else 0)%nat.
Proof. rewrite !count_app. unfold count at 2. cbn. destruct (P c); cbn; unfold count; lia. Qed.

Lemma In_count P l c : In c l -> P c = true -> (0 < count P l)%nat.
Proof. intros H1 H2. unfold count. assert (In c (List.filter P l)) as H by (by apply filter_In). destruct (List.filter P l); [done|cbn; lia]. Qed.

(** Commands no count is about. *)
Definition quiet1 (c : Cmd) : bool := negb (is_stream c || is_debounce c || is_waitSpeed c || any_tick c).
Definition quiet (l : list Cmd) : Prop := Forall (fun c => quiet1 c = true) l.

Lemma quiet_nil : quiet [].
Proof. constructor. Qed.
Lemma quiet_cons c l : quiet1 c = true -> quiet l -> quiet (c :: l).
Proof. by constructor. Qed.
Lemma quiet_app a b : quiet a -> quiet b -> quiet (a ++ b).
Proof. intros. by apply Forall_app. Qed.
Lemma quiet_if (b : bool) x y : quiet x -> quiet y -> quiet (if b then x else y).
Proof. by destruct b. Qed.
Lemma quiet_flash {Input} (m : Model Input) : quiet (flashTimer m).
Proof. unfold flashTimer. destruct (_ =?s _); by repeat constructor. Qed.

Create HintDb tui.
#[export] Hint Resolve quiet_nil quiet_cons quiet_app quiet_if quiet_flash : tui.

Lemma quiet_count P l : (forall c, P c = true -> quiet1 c = false) -> quiet l -> count P l = 0%nat.
Proof.
  intros HP Hl. apply count_none. eapply Forall_impl; [exact Hl|]. cbn. intros c Hc. destruct (P c) eqn:E; [|done]. by rewrite HP in Hc.
Qed.

Lemma quiet_count_stream l : quiet l -> count is_stream l = 0%nat.
Proof. apply quiet_count. by intros []. Qed.
Lemma quiet_count_debounce l : quiet l -> count is_debounce l = 0%nat.
Proof. apply quiet_count. by intros []. Qed.
Lemma quiet_count_waitSpeed l : quiet l -> count is_waitSpeed l = 0%nat.
Proof. apply quiet_count. by intros []. Qed.
Lemma quiet_count_tick g l : quiet l -> count (is_tick g) l = 0%nat.
Proof. apply quiet_count. by intros []. Qed.
Lemma quiet_In l c : quiet l -> In c l -> quiet1 c = true.
Proof. intros H Hc. by apply (proj1 (List.Forall_forall _ _) H). Qed.

(** ** The invariant, part by part *)

(** One command behind the stream, the one that reads it reading the channel of
    the state; changes told of wait for a debounce, of which there is one. *)
Definition Istream (s : Stream) (f : list Cmd) : Prop :=
  count is_stream f = 1%nat /\ (forall ch, In (CWaitStream ch) f -> ss_ch s = Some ch) /\
  count is_debounce f = (if ss_debouncin s then 1 else 0)%nat /\ (ss_pending s <> [] -> ss_debouncin s = true).

Definition Iflash (text : string) (id : nat) (f : list Cmd) : Prop := text <> "" -> In (CFlashTimer id) f.
Definition Iconnecting (ssid : string) (f : list Cmd) : Prop := ssid <> "" -> exists what w, In (CAction tabWifi what w) f /\ HasPrefix what "connect " = true.
Definition Ibusy (id : string) (f : list Cmd) : Prop := id <> "" -> exists what w, In (CAction tabVPN what w) f.
Definition Isweeping (b : bool) (f : list Cmd) : Prop := b = true -> exists d, In (CLoad (LLan d true)) f.
Definition Idns (b : bool) (f : list Cmd) : Prop := b = true -> exists n, In (CLoad (LDns n)) f.
Definition Ispeed (running : bool) (ch : option nat) (f : list Cmd) : Prop :=
  match running, ch with
  | true, Some ch => count is_waitSpeed f = 1%nat /\ In (CWaitSpeed ch) f
  | false, None => count is_waitSpeed f = 0%nat
  | _, _ => False
  end.
Definition Ispin (busy : bool) (f : list Cmd) : Prop := busy = true -> In CSpin f.

(** The requests shown and waiting: each once, and known. *)

Section Inv.
Context {Input : Type} {ops : InputOps Input}.
Local Abbreviation Model := (Tui.Model Input).

Definition shown_ids (s : SecretsState (Input := Input)) : list string :=
  (match cur_id s with Some id => [id] | None => [] end) ++ map sq_ID (xs_queue s).

Definition Isecrets (s : SecretsState (Input := Input)) (f : list Cmd) : Prop :=
  NoDup (shown_ids s) /\ (forall id, In id (xs_known s) <-> In id (shown_ids s)) /\
  (forall p, xs_cur s = Some p -> xp_sending p = true -> exists a, In (CAnswerSecret (sq_ID (xp_req p)) a) f) /\
  (xs_cur s = None -> xs_queue s = []) /\
  count (is_tick (xs_tickGen s)) f = (if has (xs_cur s) then 1 else 0)%nat /\
  (forall g, In (CSecretTick g) f -> (g <= xs_tickGen s)%nat).

(** The lights of the interface, each with the command in flight that puts it out. *)
Definition Ilights (m : Model) (f : list Cmd) : Prop :=
  Iflash (tm_flash m).1 (tm_flashID m) f /\ Iconnecting (wt_connecting (tm_wifi m)) f /\ Ibusy (vt_busy (tm_vpn m)) f /\
  Isweeping (gt_sweeping (tm_diag m)) f /\ Idns (gt_dnsBusy (tm_diag m)) f /\ Ispin (busy m) f.

Definition Imain (m : Model) (f : list Cmd) : Prop :=
  Istream (tm_st m) f /\ Ispeed (pt_running (tm_speed m)) (pt_ch (tm_speed m)) f /\ Ilights m f.

Definition Inv (m : Model) (f : list Cmd) : Prop := Imain m f /\ Isecrets (tm_secrets m) f.

Lemma Ilights_mono m f f' : incl f f' -> Ilights m f -> Ilights m f'.
Proof.
  intros Hi (Hf & Hc & Hb & Hs & Hd & Hp). unfold Ilights. split_and!; intros H.
  - by apply Hi, Hf.
  - destruct (Hc H) as (what & w & H1 & H2). exists what, w. auto.
  - destruct (Hb H) as (what & w & H1). exists what, w. auto.
  - destruct (Hs H) as (d & H1). exists d. auto.
  - destruct (Hd H) as (n & H1). exists n. auto.
  - by apply Hi, Hp.
Qed.

(** The commands that take no part but in the secrets' clock. *)
Definition still1 (c : Cmd) : bool := negb (is_stream c || is_debounce c || is_waitSpeed c).
Definition still (l : list Cmd) : Prop := Forall (fun c => still1 c = true) l.

Lemma quiet_still l : quiet l -> still l.
Proof. intros H. eapply Forall_impl; [exact H|]. by intros []. Qed.

Lemma still_count P l : (forall c, P c = true -> still1 c = false) -> still l -> count P l = 0%nat.
Proof.
  intros HP Hl. apply count_none. eapply Forall_impl; [exact Hl|]. cbn. intros c Hc. destruct (P c) eqn:E; [|done]. by rewrite HP in Hc.
Qed.

Lemma Istream_add s f c : Istream s f -> count is_stream c = 0%nat -> count is_debounce c = 0%nat -> Istream s (f ++ c).
Proof.
  intros (S1 & S2 & S3 & S4) H1 H2. unfold Istream. split_and!; [by rewrite count_app, H1, Nat.add_0_r| |by rewrite count_app, H2, Nat.add_0_r|done].
  intros ch [H|H]%in_app_iff; [by apply S2|]. by apply (In_count is_stream) in H; [lia|].
Qed.

Lemma Ispeed_add r ch f c : Ispeed r ch f -> count is_waitSpeed c = 0%nat -> Ispeed r ch (f ++ c).
Proof. intros H Hc. unfold Ispeed in *. destruct r, ch; try done; rewrite count_app, Hc, Nat.add_0_r; [|done]. split; [apply H|apply in_app_iff; left; apply H]. Qed.

Lemma Imain_add m f c : Imain m f -> still c -> Imain m (f ++ c).
Proof.
  intros (Hs & Hp & Hl) Hq. split_and!.
  - apply Istream_add; [done|..]; (apply still_count; [by intros []|done]).
  - apply Ispeed_add; [done|]. apply still_count; [by intros []|done].
  - apply (Ilights_mono m f); [by apply incl_appl, incl_refl|done].
Qed.

(** A clock that none of the commands added reads. *)
Lemma Isecrets_add s f c : Isecrets s f -> count any_tick c = 0%nat -> Isecrets s (f ++ c).
Proof.
  intros (X1 & X2 & X3 & X4 & X5 & X6) Hq. unfold Isecrets. split_and!; try done.
  - intros p H1 H2. destruct (X3 p H1 H2) as [a H]. exists a. apply in_app_iff. by left.
  - rewrite count_app. enough (count (is_tick (xs_tickGen s)) c = 0%nat) by lia. unfold count in *.
    destruct (List.filter (is_tick _) c) as [|x l] eqn:E; [done|]. exfalso.
    assert (In x (List.filter (is_tick (xs_tickGen s)) c)) as [H1 H2]%filter_In by (rewrite E; by left).
    assert (In x (List.filter any_tick c)) as H3 by (apply filter_In; split; [done|by destruct x]). by destruct (List.filter any_tick c).
  - intros g [H|H]%in_app_iff; [by apply X6|]. by apply (In_count any_tick) in H; [lia|].
Qed.

(** More quiet commands. *)
Lemma Inv_add m f c : Inv m f -> quiet c -> Inv m (f ++ c).
Proof. intros [H1 H2] Hq. split; [apply Imain_add; [done|by apply quiet_still]|apply Isecrets_add; [done|apply quiet_count; [by intros []|done]]]. Qed.

Lemma count_perm P a b : a ≡ₚ b -> count P a = count P b.
Proof. intros H. unfold count. induction H as [|x a b _ IH|x y a|a b c _ IH1 _ IH2]; cbn; [done|destruct (P x); cbn; congruence|by destruct (P x), (P y)|congruence]. Qed.

(** The order of the commands in flight is of no importance. *)
Lemma Inv_perm m f f' : f ≡ₚ f' -> Inv m f -> Inv m f'.
Proof.
  intros Hp (((S1 & S2 & S3 & S4) & Hsd & Hl) & (X1 & X2 & X3 & X4 & X5 & X6)).
  assert (forall c, In c f <-> In c f') as Hin by (intros c; split; apply Permutation_in; [done|by symmetry]).
  unfold Inv, Imain, Istream, Isecrets. split_and!; try done; try by rewrite <- (count_perm _ _ _ Hp).
  - intros ch H. by apply S2, Hin.
  - unfold Ispeed in *. destruct (pt_running _), (pt_ch _); try done; rewrite <- (count_perm _ _ _ Hp); [|done].
    split; [by destruct Hsd|apply Hin; by destruct Hsd].
  - apply (Ilights_mono m f); [|done]. intros c. apply Hin.
  - intros p H1 H2. destruct (X3 p H1 H2) as [a H]. exists a. by apply Hin.
  - intros g H. by apply X6, Hin.
Qed.

(** States that agree on all the invariant is about. *)
Definition like (m m' : Model) : Prop :=
  tm_st m' = tm_st m /\ tm_flash m' = tm_flash m /\ tm_flashID m' = tm_flashID m /\ wt_connecting (tm_wifi m') = wt_connecting (tm_wifi m) /\
  vt_busy (tm_vpn m') = vt_busy (tm_vpn m) /\ gt_sweeping (tm_diag m') = gt_sweeping (tm_diag m) /\ gt_dnsBusy (tm_diag m') = gt_dnsBusy (tm_diag m) /\
  pt_running (tm_speed m') = pt_running (tm_speed m) /\ pt_ch (tm_speed m') = pt_ch (tm_speed m) /\ tm_secrets m' = tm_secrets m.

Lemma Inv_like m m' f : like m m' -> Inv m f -> Inv m' f.
Proof.
  intros (H1 & H2 & H3 & H4 & H5 & H6 & H7 & H8 & H9 & H10) H. unfold Inv, Imain, Ilights, busy in *. rewrite H1, H2, H3, H4, H5, H6, H7, H8, H9, H10. exact H.
Qed.

Lemma like_refl m : like m m.
Proof. repeat split. Qed.
Lemma like_trans a b c : like a b -> like b c -> like a c.
Proof. intros (?&?&?&?&?&?&?&?&?&?) (?&?&?&?&?&?&?&?&?&?). repeat split; congruence. Qed.

(** A handler, run from [m], keeps the invariant. *)
Definition keeps (m : Model) (r : Model * list Cmd) : Prop := forall f, Inv m f -> Inv r.1 (f ++ r.2).

Lemma keeps_leaf m m' c : like m m' -> quiet c -> keeps m (m', c).
Proof. intros Hl Hq f H. apply Inv_add; [by eapply Inv_like|done]. Qed.

Lemma keeps_from m m' r : like m m' -> keeps m' r -> keeps m r.
Proof. intros Hl H f Hf. apply H. by eapply Inv_like. Qed.

(** After a handler, something quiet besides. *)
Lemma keeps_more m (r : Model * list Cmd) c : keeps m r -> quiet c -> keeps m (r.1, c ++ r.2).
Proof.
  intros H Hq f Hf. cbn. apply (Inv_perm _ ((f ++ r.2) ++ c)); [rewrite <- app_assoc; apply Permutation_app_head, Permutation_app_comm|].
  apply Inv_add; [by apply H|done].
Qed.

Lemma keeps_seq m m1 c1 (r : Model * list Cmd) : keeps m (m1, c1) -> keeps m1 r -> keeps m (r.1, c1 ++ r.2).
Proof. intros H1 H2 f Hf. cbn. rewrite app_assoc. apply H2. by apply (H1 f). Qed.

(** New lights, lit with their commands. *)
Lemma keeps_lights m m' c :
  tm_st m' = tm_st m -> pt_running (tm_speed m') = pt_running (tm_speed m) -> pt_ch (tm_speed m') = pt_ch (tm_speed m) -> tm_secrets m' = tm_secrets m ->
  quiet c -> (forall f, Ilights m (f ++ c) -> Ilights m' (f ++ c)) -> keeps m (m', c).
Proof.
  intros H1 H2 H3 H4 Hq Hl f Hf. cbn. apply (Inv_add _ _ c) in Hf; [|done]. destruct Hf as ((Hs & Hp & Hf) & Hx).
  split; [|by rewrite H4]. split; [by rewrite H1|]. split; [by rewrite H2, H3|by apply Hl].
Qed.

Lemma keeps_flash m text b : keeps m (flash_now text b m).
Proof.
  apply keeps_lights; try done; [apply quiet_flash|]. intros f (_ & Hl). split; [|exact Hl]. cbn. intros Hne.
  unfold flashTimer. cbn. destruct (String.eqb_spec text ""); [done|]. apply in_app_iff. right. by left.
Qed.

Lemma keeps_connecting m req : keeps m (join req m).
Proof.
  apply keeps_lights; try done; [by repeat constructor|]. intros f (Hf & _ & Hb & Hs & Hd & _). unfold Ilights. split_and!; try done.
  - intros _. eexists _, _. split; [apply in_app_iff; right; right; by left|by apply HasPrefix_grow].
  - intros _. apply in_app_iff. right. by left.
Qed.

Lemma keeps_busy m id what w : keeps m (on_vpn (vpn_set_busy id) m, [CSpin; CAction tabVPN what w]).
Proof.
  apply keeps_lights; try done; [by repeat constructor|]. intros f (Hf & Hc & _ & Hs & Hd & _). unfold Ilights. split_and!; try done.
  - intros _. eexists _, _. apply in_app_iff; right; right; by left.
  - intros _. apply in_app_iff. right. by left.
Qed.

(** ** The requests for a password *)

(** Nothing shown, and no live clock. *)
Definition Iclosed (s : SecretsState (Input := Input)) (f : list Cmd) : Prop :=
  xs_cur s = None /\ NoDup (map sq_ID (xs_queue s)) /\ (forall id, In id (xs_known s) <-> In id (map sq_ID (xs_queue s))) /\
  count (is_tick (xs_tickGen s)) f = 0%nat /\ (forall g, In (CSecretTick g) f -> (g <= xs_tickGen s)%nat).

Lemma no_tick g f : (forall g', In (CSecretTick g') f -> (g' < g)%nat) -> count (is_tick g) f = 0%nat.
Proof.
  intros H. apply count_none, List.Forall_forall. intros c Hc. destruct c; try done. cbn. apply Nat.eqb_neq. specialize (H _ Hc). lia.
Qed.

Lemma show_cmds_tick req s : exists l, (show_ req s).2 = CSecretTick (S (xs_tickGen s)) :: l /\ quiet l.
Proof. unfold show_. cbn. eexists. split; [done|]. destruct (map secret_field _); by repeat constructor. Qed.

Lemma show_Isecrets req s f :
  NoDup (sq_ID req :: map sq_ID (xs_queue s)) -> (forall id, In id (xs_known s) <-> In id (sq_ID req :: map sq_ID (xs_queue s))) ->
  (forall g, In (CSecretTick g) f -> (g <= xs_tickGen s)%nat) -> Isecrets (show_ req s).1 (f ++ (show_ req s).2).
Proof.
  intros Hd Hk Ht. destruct (show_cmds_tick req s) as (l & -> & Hl). unfold Isecrets. cbn [show_ fst]. split_and!; try done.
  - by intros p [= <-].
  - cbn [xs_tickGen]. rewrite count_app, no_tick by (intros g Hg; specialize (Ht g Hg); lia).
    change (?x :: l) with ([x] ++ l). rewrite count_app, (quiet_count_tick _ l) by done. unfold count. cbn. by rewrite Nat.eqb_refl.
  - cbn [xs_tickGen]. intros g [H|[[= ->]|H]]%in_app_iff; [apply Ht in H; lia|lia|by apply (quiet_In _ _ Hl) in H].
Qed.

Lemma next_Isecrets s f : Iclosed s f -> Isecrets (next_ s).1 (f ++ (next_ s).2).
Proof.
  intros (H1 & H2 & H3 & H4 & H5). unfold next_. rewrite H1. destruct (xs_queue s) as [|req q] eqn:Hq.
  - cbn [fst snd]. rewrite app_nil_r. unfold Isecrets, shown_ids, cur_id. rewrite H1, Hq. cbn. by split_and!.
  - by apply show_Isecrets.
Qed.

Lemma next_still s : still (next_ s).2.
Proof.
  unfold next_. destruct (xs_cur s); [constructor|]. destruct (xs_queue s) as [|req q]; [constructor|].
  destruct (show_cmds_tick req (set_queue q s)) as (l & -> & Hl). constructor; [done|by apply quiet_still].
Qed.

Lemma In_remove_id x id l : In x (remove_id id l) <-> In x l /\ x <> id.
Proof. unfold remove_id. by rewrite filter_In, negb_true_iff, String.eqb_neq. Qed.

Lemma close_Iclosed s p f : xs_cur s = Some p -> Isecrets s f -> Iclosed (close_ s) f.
Proof.
  intros Hc (X1 & X2 & _ & _ & X5 & X6). unfold Iclosed, close_, shown_ids, cur_id in *. rewrite Hc in *. cbn in *.
  apply NoDup_cons in X1 as [X1 X1']. split_and!; try done.
  - intros id. rewrite In_remove_id, X2. split; [by intros [[<-|H] Hn]|]. intros H. split; [by right|]. intros ->. apply X1. by apply list_elem_of_In.
  - apply no_tick. intros g Hg. specialize (X6 g Hg). lia.
  - intros g Hg. specialize (X6 g Hg). lia.
Qed.

Lemma keeps_secrets m s c :
  (forall f, Isecrets (tm_secrets m) f -> Isecrets s (f ++ c)) -> still c -> keeps m (set_secrets s m, c).
Proof. intros H Hs f [Hm Hx]. split; [|by apply H]. by apply (Imain_add m f c) in Hm. Qed.

Lemma close_next_keeps m p : xs_cur (tm_secrets m) = Some p ->
  keeps m (set_secrets (next_ (close_ (tm_secrets m))).1 m, (next_ (close_ (tm_secrets m))).2).
Proof. intros Hp. apply keeps_secrets; [|apply next_still]. intros f Hf. apply next_Isecrets. by apply (close_Iclosed _ p). Qed.

Lemma mem_In x l : mem x l = true <-> In x l.
Proof. unfold mem. rewrite existsb_exists. split; [by intros (y & Hy & ->%String.eqb_eq)|]. intros H. exists x. by rewrite String.eqb_refl. Qed.

Lemma enqueue_Isecrets req s f : Isecrets s f -> Isecrets (enqueue req s).1 (f ++ (enqueue req s).2).
Proof.
  intros Hx. unfold enqueue. destruct (sq_ID req =?s ""); cbn [orb]; [by rewrite app_nil_r|].
  destruct (mem (sq_ID req) (xs_known s)) eqn:Hm; [by rewrite app_nil_r|].
  assert (~ In (sq_ID req) (xs_known s)) as Hn by (rewrite <- mem_In; by rewrite Hm). clear Hm.
  destruct Hx as (X1 & X2 & X3 & X4 & X5 & X6). cbn [set_known xs_cur]. destruct (xs_cur s) as [p|] eqn:Hc.
  - cbn [fst snd]. rewrite app_nil_r. unfold Isecrets, shown_ids, cur_id in *. cbn in *. rewrite Hc in *. cbn in *. rewrite map_app. cbn.
    split_and!; try done.
    + rewrite app_comm_cons. apply NoDup_app. split_and!; [done| |apply NoDup_singleton]. intros x Hx1 ->%list_elem_of_singleton.
      apply Hn, X2. apply list_elem_of_In in Hx1. exact Hx1.
    + intros id. rewrite in_app_iff, X2. cbn. intuition.
  - apply show_Isecrets; cbn in *; unfold shown_ids, cur_id in *; rewrite Hc in *; rewrite (X4 eq_refl) in *; cbn in *.
    + apply NoDup_singleton.
    + intros id. rewrite X2. intuition.
    + done.
Qed.

Lemma enqueue_still req s : still (enqueue req s).2.
Proof.
  unfold enqueue. destruct (_ || _); [constructor|]. cbn [set_known xs_cur]. destruct (xs_cur s); [constructor|].
  match goal with |- still (show_ req ?s').2 => destruct (show_cmds_tick req s') as (l & -> & Hl) end. constructor; [done|by apply quiet_still].
Qed.

Lemma enqueue_all_ok reqs s :
  (forall f, Isecrets s f -> Isecrets (enqueue_all reqs s).1 (f ++ (enqueue_all reqs s).2)) /\ still (enqueue_all reqs s).2.
Proof.
  revert s. induction reqs as [|r reqs IH]; intros s; [split; [intros f; by rewrite app_nil_r|constructor]|]. cbn [enqueue_all].
  pose proof (enqueue_still r s) as H1. pose proof (enqueue_Isecrets r s) as H2. destruct (enqueue r s) as [s1 c1]. cbn in H1, H2.
  destruct (IH s1) as [H3 H4]. destruct (enqueue_all reqs s1) as [s2 c2]. cbn in *. split; [|by apply Forall_app].
  intros f Hf. rewrite app_assoc. by apply H3, H2.
Qed.

(** Taking a request off those known and waiting. *)
Lemma drop_request_ids id q x : NoDup (map sq_ID q) -> In x (map sq_ID (drop_request id q)) <-> In x (map sq_ID q) /\ x <> id.
Proof.
  induction q as [|r q IH]; cbn; [intuition|]. intros [Hr Hq]%NoDup_cons. destruct (String.eqb_spec (sq_ID r) id) as [<-|Hne]; cbn.
  - split; [|by intros [[<-|H] Hn]]. intros H. split; [by right|]. intros ->. by apply Hr, list_elem_of_In.
  - rewrite IH by done. intuition congruence.
Qed.

Lemma drop_request_NoDup id q : NoDup (map sq_ID q) -> NoDup (map sq_ID (drop_request id q)).
Proof.
  induction q as [|r q IH]; cbn; [done|]. intros [Hr Hq]%NoDup_cons. destruct (sq_ID r =?s id); [done|]. cbn. constructor; [|by apply IH].
  intros H%list_elem_of_In. apply drop_request_ids in H as [H _]; [|done]. by apply Hr, list_elem_of_In.
Qed.

Lemma resolved_keeps id outcome m : keeps m (secrets_resolved id outcome m).
Proof.
  unfold secrets_resolved. set (s := tm_secrets m). cbn [set_known set_queue xs_cur xs_queue xs_known xs_tickGen].
  destruct (xs_cur s) as [p|] eqn:Hc.
  2:{ apply keeps_secrets; [|constructor]. intros f (X1 & X2 & X3 & X4 & X5 & X6). rewrite app_nil_r. fold s in X1, X2, X3, X4, X5, X6 |- *.
      unfold Isecrets, shown_ids, cur_id in *. cbn. rewrite Hc in *. cbn in *. rewrite (X4 eq_refl) in *. cbn in *.
      split_and!; try done. intros x. rewrite In_remove_id, X2. intuition. }
  destruct (String.eqb_spec (sq_ID (xp_req p)) id) as [Hid|Hid]; cbn [negb].
  - (* the one shown: it closes and the next one shows *)
    set (s1 := close_ _).
    assert (forall f, Isecrets s f -> Iclosed s1 f) as Hcl.
    { intros f (X1 & X2 & X3 & X4 & X5 & X6). unfold s1, Iclosed, close_. cbn. rewrite Hc. unfold shown_ids, cur_id in *. rewrite Hc in *. cbn in *.
      apply NoDup_cons in X1 as [X1 X1']. split_and!; [done|by apply drop_request_NoDup| | |].
      - intros x. fold (remove_id (sq_ID (xp_req p)) (remove_id id (xs_known s))). rewrite !In_remove_id, X2, drop_request_ids by done. rewrite Hid. cbn. intuition congruence.
      - apply no_tick. intros g Hg. specialize (X6 g Hg). lia.
      - intros g Hg. specialize (X6 g Hg). lia. }
    destruct (next_ s1) as [s2 c2] eqn:Hn.
    assert (forall m', tm_secrets m' = s -> keeps m' (set_secrets s2 m', c2)) as Hk.
    { intros m' Hm'. apply keeps_secrets; [|change c2 with (s2, c2).2; rewrite <- Hn; apply next_still]. rewrite Hm'. intros f Hf.
      change (Isecrets (s2, c2).1 (f ++ (s2, c2).2)). rewrite <- Hn. by apply next_Isecrets, Hcl. }
    destruct (outcome =?s SecretTimeout).
    + match goal with |- context [flash_now ?t ?b m] => pose proof (keeps_flash m t b) as Hf; destruct (flash_now t b m) as [m1 c1] eqn:Hm1 end.
      cbn [fst snd]. apply (keeps_seq m m1 c1 (set_secrets s2 m1, c2)); [done|]. apply (Hk m1). by injection Hm1 as <- _.
    + by apply (Hk m).
  - apply keeps_secrets; [|constructor]. fold s. intros f (X1 & X2 & X3 & X4 & X5 & X6). rewrite app_nil_r.
    unfold Isecrets, shown_ids, cur_id in *. cbn. rewrite Hc in *. cbn in *. apply NoDup_cons in X1 as [X1 X1']. split_and!; try done.
    + constructor; [|by apply drop_request_NoDup]. intros H%list_elem_of_In. apply drop_request_ids in H as [H _]; [|done]. by apply X1, list_elem_of_In.
    + intros x. rewrite In_remove_id, X2, drop_request_ids by done. intuition congruence.
Qed.

(** ** The keys *)

Context (ToLower : string -> string) (ReadFile : string -> result error string) (UserHomeDir : option string).

(** The case analysis of a handler, and its leaves. *)
Ltac cases :=
  repeat match goal with
  | |- keeps _ (if ?b then _ else _) => destruct b eqn:?
  | |- keeps _ (match ?o with _ => _ end) => destruct o eqn:?
  end.
Ltac leaf := solve [apply keeps_leaf; [repeat split|autounfold with tui; auto 10 with tui]].
Ltac flashed := eapply keeps_from; [|apply keeps_flash]; repeat split.

Lemma quiet_l l : quiet (l_ l).
Proof. by repeat constructor. Qed.
Lemma quiet_action t what c : quiet (action t what c).
Proof. by repeat constructor. Qed.
Lemma quiet_monitor_load (m : Model) : quiet (monitor_load m).
Proof. unfold monitor_load. repeat apply quiet_app; try apply quiet_l. destruct (_ =?s _); [constructor|apply quiet_l]. Qed.
#[local] Hint Resolve quiet_l quiet_action quiet_monitor_load : tui.
#[local] Hint Unfold wifi_load vpn_load speed_load devices_load forget diag_reload : tui.

Lemma wifi_selected_like (t : WifiTab (Input := Input)) n t' : wifi_selected ToLower t = (n, t') -> wt_connecting t' = wt_connecting t.
Proof. unfold wifi_selected. destruct (visible ToLower t); by intros [= _ <-]. Qed.

Lemma vpn_selected_like (t : VPNTab (Input := Input)) v t' : vpn_selected t = (v, t') -> vt_busy t' = vt_busy t.
Proof. unfold vpn_selected. destruct (vt_vpns t); by intros [= _ <-]. Qed.

Lemma set_wifi_like m t : wt_connecting t = wt_connecting (tm_wifi m) -> like m (set_wifi t m).
Proof. by repeat split. Qed.
Lemma set_vpn_like m t : vt_busy t = vt_busy (tm_vpn m) -> like m (set_vpn t m).
Proof. by repeat split. Qed.

Lemma diag_load_keeps m : keeps m (diag_load m).
Proof. unfold diag_load. cases; leaf. Qed.

Lemma pane_load_keeps t m : keeps m (pane_load t m).
Proof. destruct t; cbn [pane_load]; try leaf. apply diag_load_keeps. Qed.

Lemma switchTab_keeps t m : keeps m (switchTab t m).
Proof. unfold switchTab. cases; [leaf|]. apply (keeps_from _ (set_tab t m)); [by repeat split|apply pane_load_keeps]. Qed.

Lemma connectTo_keeps n b m : keeps m (connectTo n b m).
Proof. unfold connectTo. cases; [leaf|apply keeps_connecting]. Qed.

Lemma wifi_connect_keeps m : keeps m (wifi_connect ToLower m).
Proof.
  unfold wifi_connect. destruct (wifi_selected ToLower (tm_wifi m)) as [n t] eqn:Hs.
  apply (keeps_from m (set_wifi t m)); [by apply set_wifi_like, (wifi_selected_like _ n)|].
  cases; first [leaf|apply keeps_flash|apply connectTo_keeps].
Qed.

Lemma wifi_plain_key_keeps k m : keeps m (wifi_plain_key ToLower k m).
Proof.
  unfold wifi_plain_key. cases; try leaf;
    try match goal with H : wifi_selected _ _ = (_, ?w) |- keeps m _ =>
      apply (keeps_from m (set_wifi w m)); [by apply set_wifi_like, (wifi_selected_like _ _ _ H)|]; first [leaf|apply keeps_flash|apply connectTo_keeps] end.
  - apply keeps_leaf; [destruct (visible ToLower (tm_wifi m)); repeat split|constructor].
  - apply keeps_leaf; [destruct (in_Value (wt_filter (tm_wifi m)) =?s ""); repeat split|constructor].
  - apply wifi_connect_keeps.
  - match goal with H : flash_now ?a ?b m = (?m', ?l) |- _ =>
      pose proof (keeps_more m _ [CAction tabWifi "rescan" (WDevice AScanWifi)] (keeps_flash m a b)) as Hk; rewrite H in Hk end.
    apply Hk. by repeat constructor.
Qed.

Lemma wifi_key_keeps k m : keeps m (wifi_key ToLower k m).
Proof.
  unfold wifi_key. apply (keeps_from _ (on_wifi (wifi_set_lastErr None) m)); [by repeat split|].
  set (m0 := on_wifi _ m). clearbody m0. clear m. cases.
  - unfold promptKey. cases; try leaf. eapply keeps_from; [|apply keeps_connecting]. by repeat split.
  - leaf.
  - unfold filter_key. cases; leaf.
  - by apply wifi_plain_key_keeps.
Qed.

Lemma on_vpn_like f m : (forall t, vt_busy (f t) = vt_busy t) -> like m (on_vpn f m).
Proof. intros H. apply set_vpn_like, H. Qed.

Lemma importFile_keeps p m : keeps m (importFile ToLower ReadFile UserHomeDir p m).
Proof. unfold importFile. cases; first [leaf|apply keeps_flash]. Qed.

Lemma vpn_toggle_keeps m : keeps m (vpn_toggle m).
Proof.
  unfold vpn_toggle. destruct (vpn_selected (tm_vpn m)) as [v t] eqn:Hs.
  apply (keeps_from m (set_vpn t m)); [by apply set_vpn_like, (vpn_selected_like _ v)|].
  cases; first [leaf|apply keeps_flash|apply keeps_busy].
Qed.

Lemma vpn_plain_key_keeps k m : keeps m (vpn_plain_key k m).
Proof.
  unfold vpn_plain_key. cases; try leaf; [apply vpn_toggle_keeps|..];
    match goal with H : vpn_selected _ = (_, ?t) |- _ => apply (keeps_from m (set_vpn t m)); [by apply set_vpn_like, (vpn_selected_like _ _ _ H)|] end;
    first [leaf|apply (keeps_busy (set_vpn _ m))].
Qed.

Lemma vpn_key_keeps k m : keeps m (vpn_key ToLower ReadFile UserHomeDir k m).
Proof.
  unfold vpn_key. apply (keeps_from _ (on_vpn (vpn_set_lastErr None) m)); [by apply on_vpn_like|].
  set (m0 := on_vpn _ m). clearbody m0. clear m. cases.
  - unfold pickerKey. cases; leaf.
  - unfold add_key. cases; try leaf. eapply keeps_from; [|apply importFile_keeps]. by repeat split.
  - apply vpn_plain_key_keeps.
Qed.

Lemma devices_key_keeps k m : keeps m (devices_key k m).
Proof.
  unfold devices_key. cases; try leaf; unfold devices_toggle; cases; first [leaf|apply keeps_flash|apply switchTab_keeps].
Qed.

Lemma monitor_key_keeps k m : keeps m (monitor_key k m).
Proof. unfold monitor_key. cases; leaf. Qed.

Lemma speed_start_keeps q m : keeps m (speed_start q m).
Proof.
  unfold speed_start. destruct (pt_running (tm_speed m)) eqn:Hr; [leaf|]. intros f [(S & Hp & Hl) Hx]. cbn [fst snd].
  rewrite Hr in Hp. unfold Ispeed in Hp. destruct (pt_ch (tm_speed m)); [done|].
  set (c := [CSpeedStart (pt_next (tm_speed m)) q; CSpin; CWaitSpeed (pt_next (tm_speed m))]).
  split; [|by apply Isecrets_add]. split_and!; [by apply Istream_add|split; [rewrite count_app; cbn; lia|apply in_app_iff; right; cbn; auto]|].
  apply (Ilights_mono _ _ (f ++ c)) in Hl; [|by apply incl_appl, incl_refl]. destruct Hl as (Hf & Hc & Hb & Hs & Hd & _). unfold Ilights. split_and!; try done.
  intros _. apply in_app_iff. right. cbn. auto.
Qed.

Lemma speed_key_keeps k m : keeps m (speed_key k m).
Proof.
  unfold speed_key, speed_cancel. cases; try apply speed_start_keeps; try leaf.
  apply keeps_leaf; [apply like_refl|]. destruct (pt_running (tm_speed m)), (pt_ch (tm_speed m)); by repeat constructor.
Qed.

Lemma diag_plain_key_keeps k m : keeps m (diag_plain_key k m).
Proof.
  unfold diag_plain_key. cases; try leaf; try (eapply keeps_from; [|apply diag_load_keeps]; by repeat split).
  - apply keeps_leaf; [apply like_refl|]. unfold diag_reload. destruct (gt_sub (tm_diag m)); by repeat constructor.
  - apply keeps_lights; try done; [by repeat constructor|]. intros f (Hf & Hc & Hb & _ & Hd & _). unfold Ilights. split_and!; try done.
    + intros _. eexists. apply in_app_iff. right. right. by left.
    + intros _. apply in_app_iff. right. by left.
Qed.

Lemma diag_key_keeps k m : keeps m (diag_key k m).
Proof.
  unfold diag_key. cases; try leaf; try apply diag_plain_key_keeps.
  - eapply keeps_from; [|apply diag_plain_key_keeps]. by repeat split.
  - apply keeps_lights; try done; [by repeat constructor|]. intros f (Hf & Hc & Hb & Hs & _ & Hp). unfold Ilights. split_and!; try done.
    intros _. eexists. apply in_app_iff. right. by left.
Qed.

Lemma with_prompt_keeps m p p' c :
  xs_cur (tm_secrets m) = Some p -> xp_req p' = xp_req p -> quiet c ->
  (xp_sending p' = true -> exists a, In (CAnswerSecret (sq_ID (xp_req p)) a) c) -> keeps m (with_prompt (p', c) m).
Proof.
  intros Hc Hr Hq Hs. unfold with_prompt. apply keeps_secrets; [|by apply quiet_still]. intros f Hx.
  apply (Isecrets_add _ _ c) in Hx; [|apply quiet_count; [by intros []|done]]. destruct Hx as (X1 & X2 & X3 & X4 & X5 & X6).
  unfold Isecrets, shown_ids, cur_id in *. cbn. rewrite Hc in *. cbn in *. rewrite Hr. split_and!; try done.
  intros p0 [= <-] H. rewrite Hr. destruct (Hs H) as [a Ha]. exists a. apply in_app_iff. by right.
Qed.

Lemma setFocus_keeps i p m : xs_cur (tm_secrets m) = Some p -> xp_sending p = false -> keeps m (with_prompt (setFocus i p) m).
Proof. intros Hc Hs. apply (with_prompt_keeps m p); [done|done|by destruct (Nat.ltb _ _); repeat constructor|cbn; by rewrite Hs]. Qed.

Lemma secrets_key_keeps k m : keeps m (secrets_key k m).
Proof.
  unfold secrets_key. destruct (xs_cur (tm_secrets m)) as [p|] eqn:Hc; [|leaf]. destruct (xp_sending p) eqn:Hs; [leaf|].
  destruct (_ =?s "esc").
  { pose proof (close_next_keeps m p Hc) as H. destruct (next_ _) as [st c]. cbn in H.
    apply (keeps_more m (set_secrets st m, c) [CCancelSecret _] H). by repeat constructor. }
  cases; try by apply setFocus_keeps.
  - apply (with_prompt_keeps m p); [done|done|constructor|done].
  - unfold submit. destruct (collect _ _ _ _) as [i|a]; [by apply setFocus_keeps|].
    apply (with_prompt_keeps m p); [done|done|by repeat constructor|]. intros _. eexists. by left.
  - unfold prompt_type. destruct (Nat.ltb _ _).
    + apply (with_prompt_keeps m p); [done|done|by repeat constructor|cbn; by rewrite Hs].
    + apply (with_prompt_keeps m p); [done|done|constructor|by rewrite Hs].
Qed.

Lemma overlay_key_like k m : like m (overlay_key k m).
Proof. unfold overlay_key. destruct (mem _ _); [by repeat split|]. destruct (mem _ _); [by repeat split|]. by destruct (mem _ _); repeat split. Qed.

(** Whatever is typed keeps the invariant. *)
Lemma key_keeps k m : keeps m (TuiMain.key ToLower ReadFile UserHomeDir k m).
Proof.
  assert (forall t, keeps m (pane_key ToLower ReadFile UserHomeDir t k m)) as Hp.
  { intros []; cbn [pane_key].
    - apply wifi_key_keeps.
    - apply devices_key_keeps.
    - apply vpn_key_keeps.
    - apply monitor_key_keeps.
    - apply speed_key_keeps.
    - apply diag_key_keeps. }
  unfold TuiMain.key. cases; try leaf; try apply Hp; try apply switchTab_keeps; try apply secrets_key_keeps.
  all: apply keeps_leaf; [apply overlay_key_like|constructor].
Qed.
End Inv.
