(* ===== verification/TuiRun.v ===== *)
(** The terminal interface as bubbletea runs it: the commands of an update run at
    once and each delivers its message in its own time, between the keys the
    user types.  Whatever the order, the invariant of [TuiFacts] holds. *)

From S2P Require Import Prelude GoTime Core Errors GoStrings GoStringsFacts Daemon DaemonOps API APISpec Startup Tui TuiMain TuiFacts.

(** ** The runtime *)

(** The messages a command may end in: whatever the daemon answers, if it does. *)
Inductive yields : Cmd -> Msg -> Prop :=
| y_load l msg : load_yields l msg -> yields (CLoad l) msg
| y_action t what w extra err : yields (CAction t what w) (MAction t what extra err)
| y_answer id a err : yields (CAnswerSecret id a) (MSecretAnswered id err)
| y_cancel id err : yields (CCancelSecret id) (MSecretCancelled id err)
| y_open ch : yields COpenStream (MStreamOpen ch)
| y_open_err e : yields COpenStream (MStreamErr e)
| y_item ch item : yields (CWaitStream ch) (MStreamItem item)
| y_closed ch : yields (CWaitStream ch) MStreamClosed
| y_retry d : yields (CRetryStream d) MStreamRetry
| y_debounce : yields CDebounce MDebounce
| y_flash id : yields (CFlashTimer id) (MFlashExpire id)
| y_tick g : yields (CSecretTick g) (MSecretTick g)
| y_spin : yields CSpin MSpin
| y_input : yields CInput MInput
| y_progress ch p : yields (CWaitSpeed ch) (MSpeedProgress p)
| y_done ch r : yields (CWaitSpeed ch) (MSpeedDone r).

(** What a command may end in when it delivers nothing. *)
Definition silent (c : Cmd) : bool := match c with CSpeedStart _ _ | CSpeedCancel _ | CInput => true | _ => false end.

Section Run.
Context {Input : Type} {ops : InputOps Input}.
Context (ToLower : string -> string) (ReadFile : string -> result error string) (UserHomeDir : option string) (TimeString : Time -> string).
Local Abbreviation Model := (Tui.Model Input).
Local Abbreviation Update := (TuiMain.Update ToLower ReadFile UserHomeDir TimeString).

(** The state and the commands in flight. *)
Record Running := mkRunning { rn_model : Model; rn_flight : list Cmd }.

Inductive tui_step : Running -> Running -> Prop :=
| ts_msg m a c b msg : yields c msg -> tui_step (mkRunning m (a ++ c :: b)) (mkRunning (Update msg m).1 ((a ++ b) ++ (Update msg m).2))
| ts_silent m a c b : silent c = true -> tui_step (mkRunning m (a ++ c :: b)) (mkRunning m (a ++ b))
| ts_key m f k : tui_step (mkRunning m f) (mkRunning (Update (MKey k) m).1 (f ++ (Update (MKey k) m).2))
| ts_resize m f w h : tui_step (mkRunning m f) (mkRunning (Update (MResize w h) m).1 (f ++ (Update (MResize w h) m).2))
| ts_draw m f top : tui_step (mkRunning m f) (mkRunning (drawn ToLower top m) f).

(** What the terminal can be in. *)
Definition tui_start : Running := mkRunning (Init Model_new).1 (Init Model_new).2.

Inductive tui_reaches : Running -> Prop :=
| tr_start : tui_reaches tui_start
| tr_step r r' : tui_reaches r -> tui_step r r' -> tui_reaches r'.

Local Abbreviation Inv := (TuiFacts.Inv (Input := Input)).
Local Abbreviation keeps := (TuiFacts.keeps (Input := Input)).

(** ** A command is gone *)

Lemma count_cons P c g : count P (c :: g) = ((if P c then 1 else 0) + count P g)%nat.
Proof. unfold count. cbn. by destruct (P c). Qed.

Lemma count_nil P : count P [] = 0%nat.
Proof. done. Qed.

(** The lights still lit were lit before, and it is not [c] that puts them out. *)
Record dims (c : Cmd) (m m' : Model) : Prop := mkDims {
  d_flash : (tm_flash m').1 <> "" -> (tm_flash m').1 = (tm_flash m).1 /\ tm_flashID m' = tm_flashID m /\ c <> CFlashTimer (tm_flashID m);
  d_connecting : wt_connecting (tm_wifi m') <> "" -> wt_connecting (tm_wifi m') = wt_connecting (tm_wifi m) /\
    forall what w, c = CAction tabWifi what w -> HasPrefix what "connect " = false;
  d_busy : vt_busy (tm_vpn m') <> "" -> vt_busy (tm_vpn m') = vt_busy (tm_vpn m) /\ forall what w, c <> CAction tabVPN what w;
  d_sweeping : gt_sweeping (tm_diag m') = true -> gt_sweeping (tm_diag m) = true /\ forall d, c <> CLoad (LLan d true);
  d_dns : gt_dnsBusy (tm_diag m') = true -> gt_dnsBusy (tm_diag m) = true /\ forall n, c <> CLoad (LDns n);
  d_running : pt_running (tm_speed m') = true -> pt_running (tm_speed m) = true;
  d_spin : busy m' = true -> c <> CSpin
}.

Lemma busy_dims (m m' : Model) :
  (wt_connecting (tm_wifi m') <> "" -> wt_connecting (tm_wifi m) <> "") -> (vt_busy (tm_vpn m') <> "" -> vt_busy (tm_vpn m) <> "") ->
  (gt_sweeping (tm_diag m') = true -> gt_sweeping (tm_diag m) = true) -> (pt_running (tm_speed m') = true -> pt_running (tm_speed m) = true) ->
  busy m' = true -> busy m = true.
Proof.
  unfold busy. intros H1 H2 H3 H4. rewrite !orb_true_iff, !negb_true_iff, !String.eqb_neq. intuition.
Qed.

Lemma Ilights_uncons c g (m m' : Model) : dims c m m' -> Ilights m (c :: g) -> Ilights m' g.
Proof.
  intros [Df Dc Db Ds Dd Dr Dp] (Hf & Hc & Hb & Hs & Hd & Hp). unfold Ilights. split_and!; intros H.
  - destruct (Df H) as (H1 & H2 & H3). rewrite H2. rewrite H1 in H. by destruct (Hf H).
  - destruct (Dc H) as (H1 & H2). rewrite H1 in H. destruct (Hc H) as (what & w & [->|H3] & H4); [|by eauto]. by rewrite (H2 what w eq_refl) in H4.
  - destruct (Db H) as (H1 & H2). rewrite H1 in H. destruct (Hb H) as (what & w & [->|H3]); [by destruct (H2 what w)|by eauto].
  - destruct (Ds H) as (H1 & H2). destruct (Hs H1) as (d & [->|H3]); [by destruct (H2 d)|by eauto].
  - destruct (Dd H) as (H1 & H2). destruct (Hd H1) as (d & [->|H3]); [by destruct (H2 d)|by eauto].
  - pose proof (Dp H) as H2. destruct (Hp ltac:(eapply busy_dims; [..|exact H]; intros Hx;
      [by destruct (Dc Hx) as [<- _]|by destruct (Db Hx) as [<- _]|by apply Ds|by apply Dr])); [done|done].
Qed.

Lemma Istream_uncons s c g : is_stream c = false -> is_debounce c = false -> Istream s (c :: g) -> Istream s g.
Proof.
  intros H1 H2 (S1 & S2 & S3 & S4). unfold Istream. rewrite !count_cons, ?H1, ?H2 in *. split_and!; try done. intros ch H. apply S2. by right.
Qed.

Lemma Ispeed_uncons r ch c g : is_waitSpeed c = false -> Ispeed r ch (c :: g) -> Ispeed r ch g.
Proof.
  intros H1 H. unfold Ispeed in *. destruct r, ch; try done; rewrite count_cons, H1 in H; [|done]. destruct H as [H2 [->|H3]]; [done|by split].
Qed.

Lemma Isecrets_uncons (s : SecretsState (Input := Input)) c g :
  any_tick c = false -> (forall p a, xs_cur s = Some p -> xp_sending p = true -> c <> CAnswerSecret (sq_ID (xp_req p)) a) -> Isecrets s (c :: g) -> Isecrets s g.
Proof.
  intros H1 H2 (X1 & X2 & X3 & X4 & X5 & X6). unfold Isecrets. split_and!; try done.
  - intros p Hp Hs. destruct (X3 p Hp Hs) as (a & [->|H]); [by destruct (H2 p a Hp Hs)|by eauto].
  - rewrite count_cons in X5. by destruct c.
  - intros g' Hg. apply X6. by right.
Qed.

Lemma Iclosed_uncons (s : SecretsState (Input := Input)) c g : any_tick c = false -> Iclosed s (c :: g) -> Iclosed s g.
Proof.
  intros H (C1 & C2 & C3 & C4 & C5). unfold Iclosed. split_and!; try done; [|intros g' Hg; apply C5; by right].
  rewrite count_cons in C4. by destruct c.
Qed.

Lemma Imain_uncons c g (m m' : Model) :
  still1 c = true -> tm_st m' = tm_st m -> pt_running (tm_speed m') = pt_running (tm_speed m) -> pt_ch (tm_speed m') = pt_ch (tm_speed m) ->
  dims c m m' -> Imain m (c :: g) -> Imain m' g.
Proof.
  intros Hq H1 H2 H3 Hd (Hs & Hp & Hl). unfold still1 in Hq. rewrite negb_true_iff, !orb_false_iff in Hq. destruct Hq as [[Q1 Q2] Q3].
  split; [rewrite H1; by eapply Istream_uncons|]. split; [rewrite H2, H3; by eapply Ispeed_uncons|by eapply Ilights_uncons].
Qed.

Lemma Inv_uncons c g (m m' : Model) :
  quiet1 c = true -> (forall id a, c <> CAnswerSecret id a) -> tm_st m' = tm_st m ->
  pt_running (tm_speed m') = pt_running (tm_speed m) -> pt_ch (tm_speed m') = pt_ch (tm_speed m) -> tm_secrets m' = tm_secrets m ->
  dims c m m' -> Inv m (c :: g) -> Inv m' g.
Proof.
  intros Hq Ha H1 H2 H3 H4 Hd [Hm Hx]. split; [apply (Imain_uncons c g m); try done; by destruct c|]. rewrite H4.
  eapply Isecrets_uncons; [|by intros; apply Ha|exact Hx]. by destruct c.
Qed.

(** The command at the head is done, its message handled. *)
Definition delivered (c : Cmd) (m : Model) (r : Model * list Cmd) : Prop := forall g, Inv m (c :: g) -> Inv r.1 (g ++ r.2).

Lemma delivered_keeps c m m1 r :
  quiet1 c = true -> (forall id a, c <> CAnswerSecret id a) -> tm_st m1 = tm_st m -> pt_running (tm_speed m1) = pt_running (tm_speed m) -> pt_ch (tm_speed m1) = pt_ch (tm_speed m) ->
  tm_secrets m1 = tm_secrets m ->
  dims c m m1 -> keeps m1 r -> delivered c m r.
Proof. intros H1 H2 H3 H4 H4' H5 H6 H7 g Hg. apply H7. by apply (Inv_uncons c g m). Qed.

Lemma delivered_quiet c m m1 l :
  quiet1 c = true -> (forall id a, c <> CAnswerSecret id a) -> tm_st m1 = tm_st m -> pt_running (tm_speed m1) = pt_running (tm_speed m) -> pt_ch (tm_speed m1) = pt_ch (tm_speed m) ->
  tm_secrets m1 = tm_secrets m ->
  dims c m m1 -> quiet l -> delivered c m (m1, l).
Proof. intros. eapply (delivered_keeps c m m1); try done. apply keeps_leaf; [apply like_refl|done]. Qed.

(** Commands that put out no light. *)
Definition dark (c : Cmd) : bool :=
  match c with
  | CLoad (LLan _ b) => negb b
  | CLoad (LDns _) => false
  | CLoad _ | CCancelSecret _ | CInput | CQuit | CSpeedStart _ _ | CSpeedCancel _ => true
  | CAction t _ _ => negb (tab_is t tabWifi || tab_is t tabVPN)
  | _ => false
  end.

(** The lights of [m'] are of those of [m]. *)
Definition dimmer (m m' : Model) : Prop :=
  tm_flash m' = tm_flash m /\ tm_flashID m' = tm_flashID m /\
  (wt_connecting (tm_wifi m') = wt_connecting (tm_wifi m) \/ wt_connecting (tm_wifi m') = "") /\
  (vt_busy (tm_vpn m') = vt_busy (tm_vpn m) \/ vt_busy (tm_vpn m') = "") /\
  (gt_sweeping (tm_diag m') = gt_sweeping (tm_diag m) \/ gt_sweeping (tm_diag m') = false) /\
  (gt_dnsBusy (tm_diag m') = gt_dnsBusy (tm_diag m) \/ gt_dnsBusy (tm_diag m') = false) /\
  pt_running (tm_speed m') = pt_running (tm_speed m).

Lemma dark_dims c m m' : dark c = true -> dimmer m m' -> dims c m m'.
Proof.
  intros Hd (H1 & H2 & H3 & H4 & H5 & H6 & H7). constructor; rewrite ?H1, ?H2, ?H7; intros H; try done.
  - split_and!; try done. by intros ->.
  - destruct H3 as [->|H3]; [|by rewrite H3 in H]. split; [done|]. by intros what w ->.
  - destruct H4 as [->|H4]; [|by rewrite H4 in H]. split; [done|]. by intros what w ->.
  - destruct H5 as [<-|H5]; [|by rewrite H5 in H]. split; [done|]. by intros d ->.
  - destruct H6 as [<-|H6]; [|by rewrite H6 in H]. split; [done|]. by intros n ->.
  - by intros ->.
Qed.

Lemma dimmer_refl m : dimmer m m.
Proof. unfold dimmer. by auto 10. Qed.

Lemma dark_quiet c : dark c = true -> quiet1 c = true /\ forall id a, c <> CAnswerSecret id a.
Proof. by destruct c. Qed.

Lemma delivered_dark c m m1 r :
  dark c = true -> tm_st m1 = tm_st m -> pt_running (tm_speed m1) = pt_running (tm_speed m) -> pt_ch (tm_speed m1) = pt_ch (tm_speed m) ->
  tm_secrets m1 = tm_secrets m -> dimmer m m1 -> keeps m1 r -> delivered c m r.
Proof. intros H1 H2 H3 H3' H4 H5 H6. destruct (dark_quiet c H1). eapply (delivered_keeps c m m1); try done. by apply dark_dims. Qed.

(** A read that only shows something, and perhaps reads more. *)
Lemma delivered_shown c m m1 l :
  dark c = true -> tm_st m1 = tm_st m -> pt_ch (tm_speed m1) = pt_ch (tm_speed m) -> tm_secrets m1 = tm_secrets m -> dimmer m m1 -> quiet l ->
  delivered c m (m1, l).
Proof. intros H1 H2 H3 H4 H5 H6. apply (delivered_dark c m m1); try done; [by destruct H5 as (_&_&_&_&_&_&?)|]. apply keeps_leaf; [apply like_refl|done]. Qed.

Ltac dim := unfold dimmer; cbn; auto 12.
Ltac shown := apply delivered_shown; [done|done|done|done|dim|try by repeat constructor].

Lemma keeps_enqueue_all reqs m : keeps m (set_secrets (enqueue_all reqs (tm_secrets m)).1 m, (enqueue_all reqs (tm_secrets m)).2).
Proof. destruct (enqueue_all_ok reqs (tm_secrets m)). by apply keeps_secrets. Qed.

Lemma keeps_enqueue req m : keeps m (set_secrets (enqueue req (tm_secrets m)).1 m, (enqueue req (tm_secrets m)).2).
Proof. apply keeps_secrets; [apply enqueue_Isecrets|apply enqueue_still]. Qed.

Lemma load_delivered l msg m : load_yields l msg -> delivered (CLoad l) m (Update msg m).
Proof.
  intros []; cbn [TuiMain.Update wifi_update devices_update vpn_update monitor_update speed_update diag_update secrets_update].
  1, 3, 4, 7, 8, 9: destruct r; shown.
  3: destruct r; shown; by destruct (_ && _); repeat constructor.
  all: try solve [shown].
  - destruct r as [nets|]; [|shown]. shown. destruct (existsb _ _); auto 12.
  - apply (delivered_quiet _ _ (set_diag (diag_set_hosts (or_old r (gt_hosts (tm_diag m))) (err_of r) true false (tm_diag m)) m)); try done.
    by constructor; cbn.
  - apply (delivered_quiet _ _ (set_diag (diag_set_dns (gt_dnsInput (tm_diag m)) false (match r with Ok a => Some a | Err _ => gt_dnsAns (tm_diag m) end) (err_of r) (tm_diag m)) m));
      try done. by constructor; cbn.
  - destruct r as [reqs|]; [|shown]. apply (delivered_dark _ _ m); try done; [dim|]. pose proof (keeps_enqueue_all reqs m) as H.
    by destruct (enqueue_all reqs (tm_secrets m)).
  - destruct r as [req|]; [|shown]. apply (delivered_dark _ _ m); try done; [dim|]. pose proof (keeps_enqueue req m) as H.
    by destruct (enqueue req (tm_secrets m)).
Qed.

(** Whatever flashes is timed. *)
Lemma keeps_flashTimer m c : quiet c -> keeps (set_flash ("", false) (tm_flashID m) m) (m, c ++ flashTimer m).
Proof.
  intros Hc. apply keeps_lights; try done; [apply quiet_app; [done|apply quiet_flash]|]. intros f (_ & Hl). split; [|exact Hl].
  intros Hne. unfold flashTimer. destruct (String.eqb_spec (tm_flash m).1 ""); [done|]. rewrite !in_app_iff. right. right. by left.
Qed.

Lemma action_delivered t what w extra err m : delivered (CAction t what w) m (Update (MAction t what extra err) m).
Proof.
  cbn [TuiMain.Update]. set (m0 := match err with Some e => setFlash _ true m | None => m end).
  assert (tm_st m0 = tm_st m /\ tm_wifi m0 = tm_wifi m /\ tm_vpn m0 = tm_vpn m /\ tm_diag m0 = tm_diag m /\ tm_speed m0 = tm_speed m /\ tm_secrets m0 = tm_secrets m)
    as (H1 & H2 & H3 & H4 & H5 & H6) by (unfold m0; destruct err; done). clearbody m0.
  assert (exists m2 c, pane_update t (MAction t what extra err) m0 = (m2, c) /\ quiet c /\ tm_st m2 = tm_st m /\ tm_speed m2 = tm_speed m /\
    tm_secrets m2 = tm_secrets m /\ tm_diag m2 = tm_diag m /\
    (tm_wifi m2 = tm_wifi m /\ t <> tabWifi \/ wt_connecting (tm_wifi m2) = if HasPrefix what "connect " then "" else wt_connecting (tm_wifi m)) /\
    (tm_vpn m2 = tm_vpn m /\ t <> tabVPN \/ vt_busy (tm_vpn m2) = "")) as (m2 & c & -> & Hc & E1 & E5 & E6 & E4 & E2 & E3).
  { destruct t; cbn [pane_update wifi_update devices_update vpn_update monitor_update speed_update diag_update]; rewrite <- ?H2, <- ?H3.
    - eexists _, _. split; [done|]. split; [by destruct err; repeat constructor|]. split_and!; try done; [|by left]. right. cbn. by destruct (HasPrefix what "connect ").
    - destruct err; eexists _, _; (split; [done|]); (split; [by repeat constructor|]); split_and!; try done; by left.
    - destruct err; eexists _, _; (split; [done|]); (split; [by repeat constructor|]); split_and!; try done; try (by left); right; [done|].
      cbn. by destruct (_ && _).
    - destruct err; eexists _, _; (split; [done|]); (split; [first [apply quiet_monitor_load|constructor]|]); split_and!; try done; by left.
    - eexists _, _; (split; [done|]); (split; [by repeat constructor|]); split_and!; try done; by left.
    - eexists _, _; (split; [done|]); (split; [by repeat constructor|]); split_and!; try done; by left. }
  apply (delivered_keeps _ _ (set_flash ("", false) (tm_flashID m2) m2)); [done|done|exact E1| | | | |by apply keeps_flashTimer]; cbn; rewrite ?E5; try done.
  constructor; cbn; rewrite ?E4, ?E5; try done.
  - intros H. destruct E2 as [[-> E2]|E2]; [split; [done|]; by intros ? ? [= ->]|]. rewrite E2 in *. destruct (HasPrefix what "connect ") eqn:Hp; [done|].
    split; [done|]. by intros ? ? [= -> ->].
  - intros H. destruct E3 as [[-> E3]|E3]; [split; [done|]; by intros ? ? [= ->]|]. by rewrite E3 in H.
Qed.

Lemma flash_delivered id m : delivered (CFlashTimer id) m (Update (MFlashExpire id) m).
Proof.
  cbn [TuiMain.Update]. destruct (Nat.eqb_spec id (tm_flashID m)) as [->|Hne].
  - apply delivered_quiet; try done; try apply quiet_nil.
  - apply delivered_quiet; try done; try apply quiet_nil. constructor; try done. intros _. split_and!; try done. by intros [= ->].
Qed.

Lemma spin_delivered m : delivered CSpin m (Update MSpin m).
Proof.
  cbn [TuiMain.Update]. destruct (busy m) eqn:Hb.
  - intros g Hg. cbn. by apply (Inv_perm _ (CSpin :: g)); [apply Permutation_cons_append|].
  - apply delivered_quiet; try done; try apply quiet_nil. constructor; try done. by rewrite Hb.
Qed.

Lemma cancel_delivered id err m : delivered (CCancelSecret id) m (Update (MSecretCancelled id err) m).
Proof.
  apply (delivered_dark _ _ m); try done; [apply dimmer_refl|]. cbn [TuiMain.Update secrets_update]. destruct err as [e|]; [|by apply keeps_leaf; [apply like_refl|constructor]].
  destruct (errors_Is _ _); [by apply keeps_leaf; [apply like_refl|constructor]|apply keeps_flash].
Qed.

(** Commands no light waits for. *)
Definition unlit (c : Cmd) : bool := match c with CFlashTimer _ | CAction _ _ _ | CLoad _ | CSpin => false | _ => true end.

Lemma unlit_dims c m : unlit c = true -> dims c m m.
Proof. destruct c; try done; intros _; by constructor. Qed.

Lemma answer_delivered id a err m : delivered (CAnswerSecret id a) m (Update (MSecretAnswered id err) m).
Proof.
  intros g [Hm Hx]. apply (Imain_uncons _ g m m) in Hm; [|done..|by apply unlit_dims]. cbn [TuiMain.Update secrets_update].
  destruct (xs_cur (tm_secrets m)) as [p|] eqn:Hc.
  2:{ cbn. rewrite app_nil_r. split; [done|]. eapply Isecrets_uncons; [..|exact Hx]; [done|]. by rewrite Hc. }
  destruct (String.eqb_spec (sq_ID (xp_req p)) id) as [Hid|Hid]; cbn [negb].
  2:{ cbn. rewrite app_nil_r. split; [done|]. eapply Isecrets_uncons; [..|exact Hx]; [done|]. rewrite Hc. intros ? b [= <-] _ [= H _]. by apply Hid. }
  destruct err as [e|].
  - cbn. rewrite app_nil_r. split; [done|]. destruct Hx as (X1 & X2 & X3 & X4 & X5 & X6).
    unfold Isecrets, shown_ids, cur_id in *. cbn. rewrite Hc in *. cbn in *. split_and!; try done; [by intros ? [= <-]|].
    intros g' Hg. apply X6. by right.
  - pose proof (close_Iclosed _ p _ Hc Hx) as H. apply Iclosed_uncons in H; [|done].
    pose proof (next_Isecrets _ _ H) as H1. pose proof (next_still (close_ (tm_secrets m))) as H2.
    destruct (next_ (close_ (tm_secrets m))) as [s c]. cbn in *. split; [by apply (Imain_add m g c)|done].
Qed.

Lemma tick_delivered t m : delivered (CSecretTick t) m (Update (MSecretTick t) m).
Proof.
  intros g Hg. pose proof Hg as [Hm (X1 & X2 & X3 & X4 & X5 & X6)]. apply (Imain_uncons _ g m m) in Hm; [|done..|by apply unlit_dims].
  cbn [TuiMain.Update secrets_update]. rewrite count_cons in X5. cbn [is_tick] in X5.
  assert (forall f, count (is_tick (xs_tickGen (tm_secrets m))) g = (if has (xs_cur (tm_secrets m)) then 1 else 0)%nat ->
    f = g ++ [] -> Isecrets (tm_secrets m) f) as Hgone.
  { intros f H ->. rewrite app_nil_r. unfold Isecrets. split_and!; try done.
    - intros q H1 H2. destruct (X3 q H1 H2) as (a & [H3|H3]); [done|by eauto].
    - intros g' Hg'. apply X6. by right. }
  destruct (xs_cur (tm_secrets m)) as [p|] eqn:Hc; [rewrite (Nat.eqb_sym t); destruct (Nat.eqb_spec (xs_tickGen (tm_secrets m)) t) as [Ht|Hne]|].
  - unfold tickCmd. rewrite Ht. by apply (Inv_perm _ (CSecretTick t :: g)); [apply Permutation_cons_append|].
  - split; [by rewrite app_nil_r|]. by apply Hgone.
  - split; [by rewrite app_nil_r|]. apply Hgone; [|done]. cbn in X5 |- *. lia.
Qed.

(** ** The stream *)

Lemma delivered_then c m m1 c1 (r : Model * list Cmd) : delivered c m (m1, c1) -> keeps m1 r -> delivered c m (r.1, c1 ++ r.2).
Proof. intros H1 H2 g Hg. cbn. rewrite app_assoc. apply H2. by apply (H1 g). Qed.

(** One stream command makes way for another. *)
Lemma stream_delivered c c1 s' m :
  is_stream c = true -> is_stream c1 = true -> (forall ch, c1 = CWaitStream ch -> ss_ch s' = Some ch) ->
  ss_pending s' = ss_pending (tm_st m) -> ss_debouncin s' = ss_debouncin (tm_st m) -> delivered c m (set_st s' m, [c1]).
Proof.
  intros Hc Hc1 Hch Hp Hd g (((S1 & S2 & S3 & S4) & Hsd & Hl) & Hx). rewrite count_cons, Hc in S1. rewrite count_cons in S3.
  assert (unlit c = true /\ is_waitSpeed c = false /\ is_debounce c = false /\ any_tick c = false /\ forall id a, c <> CAnswerSecret id a) as (H1 & H2 & H3 & H4 & H5) by (by destruct c).
  assert (is_waitSpeed c1 = false /\ is_debounce c1 = false /\ any_tick c1 = false) as (K1 & K2 & K3) by (by destruct c1).
  cbn [fst snd]. split; [split; [|split]|].
  - unfold Istream. cbn. rewrite !count_app, !(count_cons _ c1 []), Hc1, K2. rewrite H3 in S3. rewrite !count_nil. cbn. rewrite Hp, Hd. split_and!; [lia| |lia|done].
    intros ch [H|[H|[]]]%in_app_iff; [|by apply Hch]. apply (In_count is_stream) in H; [lia|done].
  - apply Ispeed_add; [by apply (Ispeed_uncons _ _ c)|]. by rewrite count_cons, K1.
  - apply (Ilights_mono _ g); [by apply incl_appl, incl_refl|]. apply (Ilights_uncons c g m); [|done]. by destruct c; try done; constructor.
  - apply Isecrets_add; [|by rewrite count_cons, K3]. apply (Isecrets_uncons _ c); [done|by intros; apply H5|done].
Qed.

(** The invariant but for what waits for a debounce. *)
Definition clear_pending (m : Model) : Model :=
  let s := tm_st m in set_st (mkStream (ss_ch s) (ss_up s) (ss_everUp s) (ss_backoff s) (ss_lastErr s) [] (ss_debouncin s)) m.

Lemma Inv_clear m f : Inv m f -> Inv (clear_pending m) f.
Proof. intros (((S1 & S2 & S3 & S4) & Hsd & Hl) & Hx). split; [|done]. split; [|done]. unfold Istream. by split_and!. Qed.

Lemma Inv_unclear m f : Inv (clear_pending m) f -> (ss_pending (tm_st m) <> [] -> ss_debouncin (tm_st m) = true) -> Inv m f.
Proof. intros (((S1 & S2 & S3 & S4) & Hsd & Hl) & Hx) H. split; [|done]. split; [|done]. unfold Istream. by split_and!. Qed.

Lemma clear_note_all ks m : clear_pending (note_all ks m) = clear_pending m.
Proof.
  unfold note_all, clear_pending. cbn. generalize (tm_st m). induction ks as [|k ks IH]; intros s; cbn; [done|]. rewrite (IH (note k s)). done.
Qed.

Lemma clear_resolved id o m :
  clear_pending (secrets_resolved id o m).1 = (secrets_resolved id o (clear_pending m)).1 /\ (secrets_resolved id o m).2 = (secrets_resolved id o (clear_pending m)).2 /\
  tm_st (secrets_resolved id o m).1 = tm_st m.
Proof.
  unfold secrets_resolved. cbn [clear_pending set_st tm_secrets set_known set_queue xs_cur]. destruct (xs_cur (tm_secrets m)) as [p|]; [|done].
  destruct (negb _); [done|]. destruct (o =?s _); cbn -[next_ close_]; match goal with |- context [next_ ?s] => by destruct (next_ s) end.
Qed.

Lemma fold_keeps item m f : Inv m f -> Inv (clear_pending (foldStreamItem item m).1) (f ++ (foldStreamItem item m).2).
Proof.
  intros Hf. apply Inv_clear in Hf. destruct item as [c|e]; cbn [foldStreamItem].
  - cbn [fst snd]. rewrite app_nil_r. by rewrite clear_note_all.
  - set (m1 := set_events (cap_log (tm_events m ++ [e])) (Some e) m). assert (Inv (clear_pending (note_all (stale_kinds (ev_Type e)) m1)) f) as H1.
    { rewrite clear_note_all. by apply (Inv_like (clear_pending m)). }
    set (m2 := note_all (stale_kinds (ev_Type e)) m1) in *. destruct (_ =?s EventSecretNeeded); [|destruct (_ =?s EventSecretResolved)].
    + cbn [fst snd]. apply Inv_add; [done|]. destruct (_ =?s ""); by repeat constructor.
    + destruct (clear_resolved (default "" (ev_Data e !! "request_id")) (default "" (ev_Data e !! "outcome")) m2) as (-> & -> & _). by apply resolved_keeps.
    + cbn. by rewrite app_nil_r.
Qed.

Lemma fold_st item m : ss_ch (tm_st (foldStreamItem item m).1) = ss_ch (tm_st m) /\ ss_debouncin (tm_st (foldStreamItem item m).1) = ss_debouncin (tm_st m).
Proof.
  assert (forall ks (m' : Model), ss_ch (tm_st (note_all ks m')) = ss_ch (tm_st m') /\ ss_debouncin (tm_st (note_all ks m')) = ss_debouncin (tm_st m')) as Hn.
  { intros ks m'. unfold note_all. cbn. generalize (tm_st m'). induction ks as [|k ks IH]; intros s; cbn; [done|]. by destruct (IH (note k s)) as [-> ->]. }
  destruct item as [c|e]; cbn [foldStreamItem]; [apply Hn|].
  set (m1 := set_events (cap_log (tm_events m ++ [e])) (Some e) m). destruct (Hn (stale_kinds (ev_Type e)) m1) as [H1 H2]. set (m2 := note_all (stale_kinds (ev_Type e)) m1) in *.
  destruct (_ =?s EventSecretNeeded); [done|]. destruct (_ =?s EventSecretResolved); [|done]. by destruct (clear_resolved (default "" (ev_Data e !! "request_id")) (default "" (ev_Data e !! "outcome")) m2) as (_ & _ & ->).
Qed.

Lemma item_keeps item m : keeps m (onStreamItem item m).
Proof.
  intros f Hf. unfold onStreamItem. pose proof (fold_keeps item m f Hf) as H. destruct (foldStreamItem item m) as [m1 c]. cbn [fst snd] in H.
  destruct (ss_pending (tm_st m1)) eqn:Hp; [by apply Inv_unclear; [|cbn; rewrite Hp]|].
  destruct (ss_debouncin (tm_st m1)) eqn:Hd; [by apply Inv_unclear|]. cbn [fst snd]. rewrite app_assoc.
  destruct H as (((S1 & S2 & S3 & S4) & Hsd & Hl) & Hx). cbn in S1, S2, S3. rewrite Hd in S3.
  split; [split; [|split]|].
  - unfold Istream. cbn. rewrite !(count_app _ (f ++ c)), !(count_cons _ _ []), !count_nil. cbn. split_and!; [lia| |lia|done].
    intros ch [H|[H|[]]]%in_app_iff; [by apply S2|done].
  - by apply (Ispeed_add _ _ _ [CDebounce]).
  - by apply (Ilights_mono _ (f ++ c)); [by apply incl_appl, incl_refl|].
  - by apply (Isecrets_add _ _ [CDebounce]).
Qed.

Lemma reloadAll_keeps m : keeps m (reloadAll m).
Proof.
  unfold reloadAll. pose proof (pane_load_keeps (tm_tab m) m) as H. destruct (pane_load (tm_tab m) m) as [m1 c].
  change (?a ++ ?b ++ ?d ++ ?e ++ c) with ([CLoad LStatus; CLoad LVPNs; CLoad LMonitor; CLoad LPendingSecrets] ++ c).
  apply (keeps_more m (m1, c)); [done|by repeat constructor].
Qed.

Lemma open_delivered ch m : delivered COpenStream m (Update (MStreamOpen ch) m).
Proof.
  cbn [TuiMain.Update]. set (s' := mkStream (Some ch) _ _ _ _ _ _).
  assert (delivered COpenStream m (set_st s' m, [CWaitStream ch])) as H by (apply stream_delivered; try done; by intros ? [= <-]).
  destruct (ss_everUp (tm_st m)); [|done]. pose proof (reloadAll_keeps (set_st s' m)) as Hk.
  destruct (reloadAll (set_st s' m)) as [m2 c]. by apply (delivered_then _ _ _ _ (m2, c) H).
Qed.

Lemma item_delivered ch item m : delivered (CWaitStream ch) m (Update (MStreamItem item) m).
Proof.
  intros g Hg. cbn [TuiMain.Update]. assert (ss_ch (tm_st m) = Some ch) as Hch by (apply Hg; by left).
  assert (delivered (CWaitStream ch) m (set_st (tm_st m) m, [CWaitStream ch])) as H by (apply stream_delivered; try done; by intros ? [= <-]).
  replace (set_st (tm_st m) m) with m in H by (by destruct m). pose proof (item_keeps item m) as Hk.
  assert (ss_ch (tm_st (onStreamItem item m).1) = Some ch) as Hch2.
  { unfold onStreamItem. destruct (fold_st item m) as [H1 _]. destruct (foldStreamItem item m) as [m1 c]. cbn in H1. rewrite <- Hch, <- H1.
    destruct (ss_pending (tm_st m1)); [done|]. by destruct (ss_debouncin (tm_st m1)). }
  destruct (onStreamItem item m) as [m2 c]. cbn in Hch2. unfold waitStream. rewrite Hch2. by apply (delivered_then _ _ _ _ (m2, c) H Hk g).
Qed.

Lemma loadsFor_quiet ks (m : Model) : quiet (loadsFor ks m).
Proof.
  unfold loadsFor. destruct (fold_left want ks _) as [a b c d e f]; cbn. repeat apply quiet_app; apply quiet_if; try by repeat constructor.
  apply quiet_if; [apply quiet_monitor_load|by repeat constructor].
Qed.

Lemma debounce_delivered m : delivered CDebounce m (Update MDebounce m).
Proof.
  intros g (((S1 & S2 & S3 & S4) & Hsd & Hl) & Hx). cbn [TuiMain.Update]. rewrite count_cons in S1, S3. cbn [is_stream is_debounce] in S1, S3.
  cbn [fst snd]. apply Inv_add; [|apply loadsFor_quiet]. split; [split; [|split]|].
  - unfold Istream. cbn. split_and!; [done| |by destruct (ss_debouncin _); lia|done]. intros ch H. apply S2. by right.
  - by apply (Ispeed_uncons _ _ CDebounce).
  - apply (Ilights_uncons CDebounce g m); [|done]. by constructor.
  - by apply (Isecrets_uncons _ CDebounce).
Qed.

(** ** The speed test *)

Lemma speed_apply_same p (t : SpeedTab) : pt_running (speed_apply p t) = pt_running t /\ pt_ch (speed_apply p t) = pt_ch t.
Proof. unfold speed_apply. by destruct (_ =?s "done"). Qed.

Lemma Ispeed_waiting r ch c g : Ispeed r c (CWaitSpeed ch :: g) -> exists ch', r = true /\ c = Some ch' /\ count is_waitSpeed g = 0%nat.
Proof. unfold Ispeed. destruct r, c as [ch'|]; try done; rewrite count_cons; cbn. intros [H _]. exists ch'. split_and!; try done. lia. Qed.

(** What waits for the test comes back with word of it. *)
Lemma waited_delivered ch m t c1 :
  pt_running t = bool_decide (c1 <> []) -> pt_ch t = match c1 with [CWaitSpeed ch] => Some ch | _ => None end -> (c1 = [] \/ exists ch', c1 = [CWaitSpeed ch']) ->
  (pt_running t = true -> pt_running (tm_speed m) = true) -> delivered (CWaitSpeed ch) m (set_speed t m, c1).
Proof.
  intros Hr Hc Hc1 Hm g (((S1 & S2 & S3 & S4) & Hsd & Hl) & Hx). destruct (Ispeed_waiting _ _ _ _ Hsd) as (ch' & Hr' & Hc' & Hg). cbn [fst snd].
  split; [split; [|split]|].
  - apply (Istream_add _ g c1); [by apply (Istream_uncons _ (CWaitSpeed ch))|by destruct Hc1 as [->|[? ->]]..].
  - cbn. rewrite Hr, Hc. destruct Hc1 as [->|[ch2 ->]]; cbn.
    + by rewrite app_nil_r.
    + rewrite count_app, count_cons, count_nil, Hg. split; [done|]. apply in_app_iff. right. by left.
  - apply (Ilights_mono _ g); [by apply incl_appl, incl_refl|]. apply (Ilights_uncons (CWaitSpeed ch) g m); [|done]. by constructor.
  - apply (Isecrets_add _ g c1); [by apply (Isecrets_uncons _ (CWaitSpeed ch))|by destruct Hc1 as [->|[? ->]]].
Qed.

Lemma progress_delivered ch p m : delivered (CWaitSpeed ch) m (Update (MSpeedProgress p) m).
Proof.
  intros g Hg. assert (Ispeed (pt_running (tm_speed m)) (pt_ch (tm_speed m)) (CWaitSpeed ch :: g)) as H by apply Hg.
  destruct (Ispeed_waiting _ _ _ _ H) as (ch' & Hr & Hc & _). revert g Hg H. intros g Hg _. cbn [TuiMain.Update speed_update]. unfold waitSpeed.
  destruct (speed_apply_same p (tm_speed m)) as [H1 H2]. rewrite H2, Hc. revert g Hg. apply waited_delivered; rewrite ?H1, ?H2, ?Hr, ?Hc; try done. by right; exists ch'.
Qed.

Lemma done_delivered ch r m : delivered (CWaitSpeed ch) m (Update (MSpeedDone r) m).
Proof.
  cbn [TuiMain.Update speed_update]. unfold speed_done.
  assert (quiet (speed_cancel (tm_speed m))) as Hq by (unfold speed_cancel; destruct (pt_ch (tm_speed m)); by repeat constructor).
  assert (forall t (r : Model * list Cmd), pt_running t = false -> pt_ch t = None -> keeps (set_speed t m) r ->
    delivered (CWaitSpeed ch) m (let '(m', c) := r in (m', speed_cancel (tm_speed m) ++ c))) as H.
  { intros t [m' c] Hr Hc Hk. apply (delivered_then _ m (set_speed t m) [] (m', speed_cancel (tm_speed m) ++ c)).
    - apply waited_delivered; try done; [by left|by rewrite Hr].
    - by apply (keeps_more _ (m', c)). }
  destruct r as [res|e]; [|destruct (errors_Is _ _)].
  - eapply (H (speed_apply (mkSpeedProgress "done" (f_of_Z 0) (f_of_Z 0) 0) (speed_ended (Some res) (pt_lastErr (tm_speed m)) (tm_speed m))) (_, _)); [done|done|]. apply keeps_leaf; [apply like_refl|by repeat constructor].
  - eapply (H (speed_ended _ _ _)); [done|done|apply keeps_flash].
  - eapply (H (speed_ended _ _ _)); [done|done|apply keeps_flash].
Qed.

(** ** Every step *)

Lemma yields_delivered c msg m : yields c msg -> delivered c m (Update msg m).
Proof.
  intros [].
  - by apply load_delivered.
  - apply action_delivered.
  - apply answer_delivered.
  - apply cancel_delivered.
  - apply open_delivered.
  - by apply stream_delivered.
  - apply item_delivered.
  - by apply stream_delivered.
  - by apply stream_delivered.
  - apply debounce_delivered.
  - apply flash_delivered.
  - apply tick_delivered.
  - apply spin_delivered.
  - apply (delivered_dark _ _ m); try done; [apply dimmer_refl|]. by apply keeps_leaf; [apply like_refl|constructor].
  - apply progress_delivered.
  - apply done_delivered.
Qed.

Lemma drawn_like top m : like m (drawn ToLower top m).
Proof. unfold drawn. destruct (tm_over m) eqn:Ho; cbn; rewrite ?Ho; [destruct (tm_tab m)|..]; repeat split. Qed.

Lemma step_Inv r r' : tui_step r r' -> Inv (rn_model r) (rn_flight r) -> Inv (rn_model r') (rn_flight r').
Proof.
  assert (forall m a c b, Inv m (a ++ c :: b) -> Inv m (c :: a ++ b)) as Hp by (intros m a c b; apply Inv_perm; by rewrite Permutation_middle).
  intros [m a c b msg Hy|m a c b Hs|m f k|m f w h|m f top] H; cbn [rn_model rn_flight] in *.
  - apply Hp in H. by apply (yields_delivered c msg m Hy).
  - apply Hp in H. apply (Inv_uncons c _ m); try done; destruct c; try done; by constructor.
  - by apply key_keeps.
  - cbn. rewrite app_nil_r. by apply (Inv_like m).
  - by apply (Inv_like m), H; apply drawn_like.
Qed.

Lemma start_Inv : Inv (rn_model tui_start) (rn_flight tui_start).
Proof.
  unfold tui_start, Init. cbn. split; [split; [|split]|].
  - unfold Istream. split_and!; try done. cbn. intros ch H. by intuition.
  - done.
  - unfold Ilights. split_and!; intros H; done || by destruct H.
  - unfold Isecrets. split_and!; try done; [constructor|]. cbn. intros g H. by intuition.
Qed.

(** C30: the interface stays alive.  In whatever order keys and answers come, one
    command and no more is behind the event stream, reading the current channel;
    every change told of waits for the one debounce in flight; every light on
    (the message at the foot, the network being joined, the VPN being toggled, the
    sweep, the lookup, the speed test, the spinner) and every password being sent
    has its command in flight; each password request is shown or waits, once, under
    one live clock.  And the answer of such a command, good or bad, puts its light
    out. *)
Theorem tui_alive r :
  tui_reaches r ->
  TuiFacts.Inv (rn_model r) (rn_flight r) /\
  let m := rn_model r in
  (tm_flash (Update (MFlashExpire (tm_flashID m)) m).1).1 = "" /\
  (forall what extra err, HasPrefix what "connect " = true -> wt_connecting (tm_wifi (Update (MAction tabWifi what extra err) m).1) = "") /\
  (forall what extra err, vt_busy (tm_vpn (Update (MAction tabVPN what extra err) m).1) = "") /\
  (forall a, gt_sweeping (tm_diag (Update (MLan a) m).1) = false) /\
  (forall a, gt_dnsBusy (tm_diag (Update (MDns a) m).1) = false) /\
  (forall a, pt_running (tm_speed (Update (MSpeedDone a) m).1) = false) /\
  (forall p err, xs_cur (tm_secrets m) = Some p ->
     let s := tm_secrets (Update (MSecretAnswered (sq_ID (xp_req p)) err) m).1 in
     match xs_cur s with Some q => xp_sending q = false /\ (err = None -> sq_ID (xp_req q) <> sq_ID (xp_req p)) | None => err = None end).
Proof.
  intros Hr. assert (Inv (rn_model r) (rn_flight r)) as HI.
  { induction Hr as [|r r' _ IH Hs]; [apply start_Inv|]. by apply (step_Inv r). }
  split; [done|]. generalize HI. generalize (rn_flight r). generalize (rn_model r). clear. intros m f HI. cbn zeta. split_and!.
  - cbn [TuiMain.Update]. by rewrite Nat.eqb_refl.
  - intros what extra err H. cbn [TuiMain.Update pane_update wifi_update]. rewrite H. by destruct err.
  - intros what extra err. cbn [TuiMain.Update pane_update vpn_update]. destruct err; [done|]. cbn. by destruct (_ && _).
  - done.
  - done.
  - intros [a|e]; cbn [TuiMain.Update speed_update]; unfold speed_done; [done|]. by destruct (errors_Is _ _).
  - intros p err Hc. cbn [TuiMain.Update secrets_update]. rewrite Hc, String.eqb_refl. cbn [negb]. destruct err as [e|]; [done|].
    pose proof (proj1 (proj2 HI)) as Hd. unfold shown_ids, cur_id in Hd. rewrite Hc in Hd. cbn in Hd. apply NoDup_cons in Hd as [Hd _].
    unfold next_, close_. cbn. rewrite Hc. destruct (xs_queue (tm_secrets m)) as [|req q]; [done|]. cbn in *. split; [done|]. intros _ H. apply Hd. rewrite H. by left.
Qed.
End Run.

(** ** A run *)

Definition demo_ops : InputOps (string * bool) := {|
  in_new _ _ _ _ := ("", false); in_Value := fst; in_SetValue v i := (v, i.2); in_Focus i := (i.1, true); in_Blur i := (i.1, false);
  in_Focused := snd; in_Update k i := (i.1 +:+ key_String k, i.2)
|}.

Definition demo_vpn : VPN := mkVPN "wg0" "office" BackendWireGuard "wireguard" VPNDisconnected "" "" "" 0 true None None None.

(** The stream opens, the VPNs are listed, the user goes to the VPN tab and turns one on. *)
Lemma tui_alive_witness :
  exists r, tui_reaches (ops := demo_ops) id (fun _ => Ok "") None (fun _ => "") r /\ vt_busy (tm_vpn (rn_model r)) = "wg0" /\
    TuiFacts.Inv (rn_model r) (rn_flight r).
Proof.
  assert (exists r, tui_reaches (ops := demo_ops) id (fun _ => Ok "") None (fun _ => "") r /\ vt_busy (tm_vpn (rn_model r)) = "wg0") as (r & H & Hb).
  { eexists. split.
    - eapply tr_step; [|eapply (ts_key _ _ _ _ _ _ (mkKey false "enter"))].
      eapply tr_step; [|eapply (ts_key _ _ _ _ _ _ (mkKey false "3"))].
      eapply tr_step; [|eapply (ts_msg _ _ _ _ _ [CLoad LStatus] (CLoad LVPNs) _ (MVPN (Ok [demo_vpn]))); constructor; constructor].
      eapply tr_step; [apply tr_start|].
      apply (ts_msg _ _ _ _ _ [CLoad LStatus; CLoad LVPNs; CLoad LMonitor; CLoad LEventHistory; CLoad LPendingSecrets; CLoad LWifi] COpenStream [] (MStreamOpen 0)).
      constructor.
    - vm_compute. reflexivity. }
  exists r. split; [exact H|]. split; [exact Hb|]. apply (tui_alive _ _ _ _ _ H).
Defined.
