(* ===== verification/TuiKeys.v ===== *)
(** Where a key goes: to the password request if one is shown, else to the
    overlay, else to what captures the keyboard, and only then to the global
    bindings; what leaves with a password. *)

From S2P Require Import Prelude GoTime Core Errors GoStrings Daemon DaemonOps API APISpec Startup Tui TuiMain.

Section Keys.
Context {Input : Type} {ops : InputOps Input}.
Context (ToLower : string -> string) (ReadFile : string -> result error string) (UserHomeDir : option string).
Local Abbreviation Model := (Tui.Model Input).

(** The handler does not quit. *)
Definition stays (r : Model * list Cmd) : Prop := ~ In CQuit r.2.

Lemma stays_flash m t b : stays (flash_now t b m).
Proof. unfold stays, flash_now, flashTimer. cbn. destruct (_ =?s _); by cbn; intuition. Qed.

(** The cases of a handler, and a leaf of it: nothing quits, nothing moves. *)
Ltac split_cases P :=
  repeat match goal with
  | |- P (if ?b then _ else _) => destruct b eqn:?
  | |- P (match ?o with _ => _ end) => destruct o eqn:?
  end.
Ltac leaf0 :=
  unfold l_, action, forget, diag_reload, speed_cancel, monitor_load, vpn_load, wifi_load, devices_load, speed_load; cbn;
  repeat match goal with |- context [match ?b with _ => _ end] => destruct b; cbn end; intuition discriminate.
Ltac stays_leaf := first [apply stays_flash|solve [unfold stays; leaf0]].

Lemma stays_diag_load m : stays (diag_load m).
Proof. unfold diag_load. split_cases stays; stays_leaf. Qed.

Lemma stays_switch t m : stays (switchTab t m).
Proof. unfold switchTab. destruct (tab_is _ _); [stays_leaf|]. destruct t; cbn [pane_load]; try stays_leaf. apply stays_diag_load. Qed.

Lemma stays_connectTo n b m : stays (connectTo n b m).
Proof. unfold connectTo, join. split_cases stays; stays_leaf. Qed.

Lemma stays_wifi_connect m : stays (wifi_connect ToLower m).
Proof. unfold wifi_connect. destruct (wifi_selected _ _). split_cases stays; first [stays_leaf|apply stays_connectTo]. Qed.

Lemma stays_wifi_plain k m : stays (wifi_plain_key ToLower k m).
Proof. unfold wifi_plain_key. split_cases stays; first [stays_leaf|apply stays_connectTo|apply stays_wifi_connect|idtac].
  match goal with H : flash_now ?t ?b m = _ |- _ => pose proof (stays_flash m t b) as Hf; rewrite H in Hf end. by intros [H|H].
Qed.

Lemma stays_importFile p m : stays (importFile ToLower ReadFile UserHomeDir p m).
Proof. unfold importFile. split_cases stays; stays_leaf. Qed.

Lemma stays_vpn_toggle m : stays (vpn_toggle m).
Proof. unfold vpn_toggle. destruct (vpn_selected _). split_cases stays; stays_leaf. Qed.

Lemma stays_toggle d m : stays (devices_toggle d m).
Proof. unfold devices_toggle. split_cases stays; first [stays_leaf|apply stays_switch]. Qed.

Lemma stays_start q m : stays (speed_start q m).
Proof. unfold speed_start. split_cases stays; stays_leaf. Qed.

Lemma stays_diag_plain k m : stays (diag_plain_key k m).
Proof. unfold diag_plain_key. split_cases stays; first [stays_leaf|apply stays_diag_load]. Qed.

Lemma stays_pane t k m : stays (pane_key ToLower ReadFile UserHomeDir t k m).
Proof.
  destruct t; cbn [pane_key].
  - unfold wifi_key, promptKey, filter_key. split_cases stays; first [stays_leaf|apply stays_wifi_plain|unfold join; stays_leaf].
  - unfold devices_key. split_cases stays; first [stays_leaf|apply stays_toggle].
  - unfold vpn_key, pickerKey, add_key, vpn_plain_key. split_cases stays; first [stays_leaf|apply stays_importFile|apply stays_vpn_toggle].
  - unfold monitor_key. split_cases stays; stays_leaf.
  - unfold speed_key. split_cases stays; first [stays_leaf|apply stays_start].
  - unfold diag_key. split_cases stays; first [stays_leaf|apply stays_diag_plain].
Qed.

(** While a tab captures the keyboard, it keeps it. *)
Definition placed (m : Model) (r : Model * list Cmd) : Prop := tm_tab r.1 = tm_tab m /\ tm_over r.1 = tm_over m.

Ltac place := first [done|match goal with |- placed _ (match ?b with _ => _ end) => destruct b eqn:? end].

Lemma placed_import p m : placed m (importFile ToLower ReadFile UserHomeDir p m).
Proof. unfold importFile. repeat place. Qed.

Lemma placed_diag_load m : placed m (diag_load m).
Proof. unfold diag_load. repeat place. Qed.

Lemma placed_diag_plain k m : placed m (diag_plain_key k m).
Proof. unfold diag_plain_key. repeat place; apply (placed_diag_load (set_diag _ _)). Qed.

Lemma captured_placed k m : capturing m = true -> placed m (pane_key ToLower ReadFile UserHomeDir (tm_tab m) k m).
Proof.
  unfold capturing. destruct (tm_tab m) eqn:Ht; try done; cbn [pane_key]; intros H.
  - unfold wifi_key, promptKey, filter_key, join. unfold wifi_capturing in H. cbn [on_wifi set_wifi tm_wifi wifi_set_lastErr wt_prompt wt_confirm wt_filtering].
    destruct (wt_prompt (tm_wifi m)); [repeat place|]. destruct (wt_confirm (tm_wifi m)); [repeat place|]. destruct (wt_filtering (tm_wifi m)); [repeat place|done].
  - unfold vpn_key, pickerKey, add_key. unfold vpn_capturing in H. cbn [on_vpn set_vpn tm_vpn vpn_set_lastErr vt_picker vt_adding].
    destruct (vt_picker (tm_vpn m)); [repeat place|]. destruct (vt_adding (tm_vpn m)); [|done]. repeat place.
    match goal with |- placed _ (importFile _ _ _ ?p ?m') => exact (placed_import p m') end.
  - unfold diag_key. rewrite H. repeat place. match goal with |- placed _ (diag_plain_key _ ?m') => exact (placed_diag_plain k m') end.
Qed.

(** ** What leaves with a password *)

(** What was typed for a field of the request. *)
Definition typed (p : SecretPrompt (Input := Input)) (key v : string) : Prop :=
  v <> "" /\ exists i f inp, sq_Fields (xp_req p) !! i = Some f /\ xp_fields p !! i = Some inp /\ sf_Key f = key /\ in_Value inp = v.

(** A command of the prompt. *)
Definition of_prompt (p : SecretPrompt (Input := Input)) (c : Cmd) : Prop :=
  match c with
  | CAnswerSecret id a =>
      id = sq_ID (xp_req p) /\ xp_sending p = false /\ sa_Save a = xp_save p /\ (forall key v, sa_Secrets a !! key = Some v -> typed p key v) /\
      (length (sq_Fields (xp_req p)) = length (xp_fields p) -> Forall (fun f => is_Some (sa_Secrets a !! sf_Key f)) (sq_Fields (xp_req p)))
  | CCancelSecret id => id = sq_ID (xp_req p) /\ xp_sending p = false
  | CSecretTick _ | CInput => True
  | _ => False
  end.

Lemma collect_typed p fs ins n acc m :
  (forall j f, fs !! j = Some f -> sq_Fields (xp_req p) !! (n + j)%nat = Some f) -> (forall j i, ins !! j = Some i -> xp_fields p !! (n + j)%nat = Some i) ->
  (forall key v, acc !! key = Some v -> typed p key v) -> collect n fs ins acc = inr m ->
  (forall key v, m !! key = Some v -> typed p key v) /\ (forall key, is_Some (acc !! key) -> is_Some (m !! key)) /\
  (length fs = length ins -> Forall (fun f => is_Some (m !! sf_Key f)) fs).
Proof.
  revert ins n acc. induction fs as [|f fs IH]; intros ins n acc Hf Hi Ha H; cbn in H; [by injection H as <-|].
  destruct ins as [|inp ins]; [by injection H as <-|]. destruct (String.eqb_spec (in_Value inp) "") as [He|He]; [done|].
  destruct (IH ins (S n) (<[sf_Key f := in_Value inp]> acc)) as (H1 & H2 & H3); [..|exact H|].
  - intros j g Hg. rewrite Nat.add_succ_comm. by apply Hf.
  - intros j g Hg. rewrite Nat.add_succ_comm. by apply Hi.
  - intros key v [[<- <-]|[_ Hk]]%lookup_insert_Some; [|by apply Ha]. split; [done|]. exists n, f, inp. rewrite <- (Nat.add_0_r n). split_and!; [by apply Hf|by apply Hi|done..].
  - split_and!; [done| |].
    + intros key Hk. apply H2. destruct (decide (sf_Key f = key)) as [->|Hne]; [by rewrite lookup_insert_eq|by rewrite lookup_insert_ne].
    + intros [= Hl]. constructor; [|by apply H3]. apply H2. by rewrite lookup_insert_eq.
Qed.

(** A handler of the prompt touches nothing but the requests. *)
Definition in_prompt (m : Model) (p : SecretPrompt) (r : Model * list Cmd) : Prop := r.1 = set_secrets (tm_secrets r.1) m /\ Forall (of_prompt p) r.2.

Lemma in_prompt_with m p r : Forall (of_prompt p) r.2 -> in_prompt m p (with_prompt r m).
Proof. by destruct r. Qed.

Lemma of_prompt_focus i p : Forall (of_prompt p) (setFocus i p).2.
Proof. unfold setFocus. cbn [snd]. destruct (Nat.ltb i (length (xp_fields p))); by repeat constructor. Qed.

Lemma of_prompt_submit p : xp_sending p = false -> Forall (of_prompt p) (submit p).2.
Proof.
  intros Hs. unfold submit. destruct (collect _ _ _ _) as [i|a] eqn:Hc; [apply of_prompt_focus|].
  destruct (collect_typed p _ _ 0 ∅ a (fun _ _ H => H) (fun _ _ H => H) ltac:(by intros key v H; rewrite lookup_empty in H) Hc) as (H1 & _ & H3).
  cbn [snd]. constructor; [|constructor]. by split_and!.
Qed.

Lemma of_prompt_next p s : Forall (of_prompt p) (next_ s).2.
Proof. unfold next_, show_, tickCmd. destruct (xs_cur s); [constructor|]. destruct (xs_queue s); [constructor|]. cbn. destruct (map _ _); by repeat constructor. Qed.

Lemma secrets_key_in_prompt k m p : xs_cur (tm_secrets m) = Some p -> in_prompt m p (secrets_key k m).
Proof.
  intros Hc. unfold secrets_key. rewrite Hc. assert (in_prompt m p (m, [])) as H0 by (split; [by destruct m|constructor]).
  destruct (xp_sending p) eqn:Hs; [done|]. destruct (_ =?s "esc").
  { pose proof (of_prompt_next p (close_ (tm_secrets m))) as H. destruct (next_ _) as [st c]. split; [done|]. by constructor. }
  repeat match goal with |- in_prompt _ _ (if ?b then _ else _) => destruct b end; apply in_prompt_with;
    try apply of_prompt_focus; try by apply of_prompt_submit.
  - constructor.
  - unfold prompt_type. destruct (Nat.ltb (xp_focus p) (length (xp_fields p))); by repeat constructor.
Qed.

(** C31: keys go where the eye is.  Only ctrl-c quits while a password is asked
    for, an overlay is open or a tab captures the keyboard; [q] quits otherwise,
    but on the speed tab.  With a password request shown a key changes nothing but
    the requests, and all that can leave is the answer or the cancellation of that
    request: exactly what was typed for its fields, none of it empty, none missing.
    With an overlay open a key only closes or scrolls it; a tab that
    captures the keyboard keeps it. *)
Theorem keys_modal k m :
  let r := TuiMain.key ToLower ReadFile UserHomeDir k m in
  (In CQuit r.2 <->
   key_ctrlC k = true \/
   secrets_open (tm_secrets m) = false /\ tm_over m = overlayNone /\ capturing m = false /\ key_String k = "q" /\ tm_tab m <> tabSpeed) /\
  (if key_ctrlC k then r.1 = m
   else
     match xs_cur (tm_secrets m), tm_over m with
     | Some p, _ => r.1 = set_secrets (tm_secrets r.1) m /\ Forall (of_prompt p) r.2
     | None, overlayNone => if capturing m then tm_tab r.1 = tm_tab m /\ tm_over r.1 = overlayNone else True
     | None, _ => r.2 = [] /\ r.1 = set_eventsTop (tm_eventsTop r.1) (set_over (tm_over r.1) m)
     end).
Proof.
  cbn zeta. unfold TuiMain.key. destruct (key_ctrlC k).
  { cbn. split; [|done]. split; [by left|]. intros _. by left. }
  unfold secrets_open. destruct (xs_cur (tm_secrets m)) as [p|] eqn:Hc; cbn [has].
  { destruct (secrets_key_in_prompt k m p Hc) as [H1 H2]. split; [|done]. split; [|by intros [H|(H & _)]].
    intros H. by apply (proj1 (List.Forall_forall _ _) H2) in H. }
  destruct (tm_over m) eqn:Ho.
  2,3: split; [split; [by intros []|by intros [H|(_ & H & _)]]|]; split; [done|]; unfold overlay_key;
    destruct (mem _ _); [by destruct m|]; destruct (mem _ _); [cbn in *; by destruct m; cbn in *; subst|]; destruct (mem _ _); by destruct m; cbn in *; subst.
  destruct (capturing m) eqn:Hcap.
  { destruct (captured_placed k m Hcap) as [H1 H2]. rewrite <- Ho. split; [|done]. split; [|by intros [H|(_ & _ & H & _)]]. intros H. by apply stays_pane in H. }
  split; [|done]. assert (forall r : Model * list Cmd, stays r -> In CQuit r.2 -> False) as Hst by done.
  destruct (String.eqb_spec (key_String k) "q") as [Hq|Hq]; cbn [andb].
  - destruct (tab_is (tm_tab m) tabSpeed) eqn:Ht; cbn [negb].
    + apply bool_decide_eq_true in Ht. rewrite Hq. cbn. split; [|by intros [H|(_ & _ & _ & _ & H)]]. intros H. by apply stays_pane in H.
    + apply bool_decide_eq_false in Ht. cbn. split; [|by left]. intros _. by right.
  - split; [|by intros [H|(_ & _ & _ & H & _)]]. intros H. exfalso. revert H.
    repeat match goal with |- In CQuit (snd (if ?b then _ else _)) -> _ => destruct b end; try (by intros []); try apply stays_switch.
    destruct (tab_number (key_String k)); [apply stays_switch|apply stays_pane].
Qed.
End Keys.
