(* ===== verification/Render.v ===== *)
(** What both interfaces draw with: internal/ui/tui/render.go and the tables and
    formatters of internal/cli/ui.go, and how wide and how safe what they draw is.

    Text is bytes.  How many cells a text takes, where it can be cut and what a
    style puts around it are those of lipgloss and x/ansi, parameters here, as is
    the printing of floats. *)

From S2P Require Import Prelude GoTime Core GoStrings GoStringsFacts SafeWriter.

(** ** render.go *)

(** "…" *)
Definition ellipsis : bytes := [226; 128; 166]%nat.
Definition blanks (n : Z) : bytes := repeat 32%nat (Z.to_nat n).

(** [sgrEnd]: where the colour sequence ends that begins with this ESC; [s] is what follows it. *)
Fixpoint tui_sgr_scan (s : bytes) (j : nat) : option nat :=
  match s with
  | [] => None
  | c :: s => if (Nat.leb 48 c && Nat.leb c 57) || Nat.eqb c 59 || Nat.eqb c 58 then tui_sgr_scan s (S j) else if Nat.eqb c 109 then Some (S j) else None
  end.
Definition tui_sgrEnd (s : bytes) : option nat :=
  match s with
  | [] => None
  | c :: s => if Nat.eqb c 91 then tui_sgr_scan s 2 else None
  end.

Definition clean (s : bytes) : bool := forallb (fun c => negb ((Nat.ltb c 32 && negb (Nat.eqb c 10)) || Nat.eqb c 127 || Nat.eqb c 194)) s.

Fixpoint tui_sanitize_loop (fuel : nat) (s : bytes) : bytes :=
  match fuel, s with
  | O, _ | _, [] => []
  | S fuel, b :: s' =>
      if Nat.eqb b 27 then
        match tui_sgrEnd s' with
        | Some n => take n s ++ tui_sanitize_loop fuel (drop n s)
        | None => tui_sanitize_loop fuel s'
        end
      else if Nat.eqb b 10 then b :: tui_sanitize_loop fuel s'
      else if Nat.ltb b 32 || Nat.eqb b 127 then tui_sanitize_loop fuel s'
      else
        match s' with
        | c :: s'' => if Nat.eqb b 194 && (Nat.leb 128 c && Nat.leb c 159) then tui_sanitize_loop fuel s'' else b :: tui_sanitize_loop fuel s'
        | [] => [b]
        end
  end.

Definition tui_sanitize (s : bytes) : bytes := if clean s then s else tui_sanitize_loop (length s) s.

(** [strings.Split] and [strings.Join] around newlines. *)
Fixpoint split_lines (s : bytes) : list bytes :=
  match s with
  | [] => [[]]
  | c :: s => if Nat.eqb c 10 then [] :: split_lines s else match split_lines s with l :: ls => (c :: l) :: ls | [] => [[c]] end
  end.
Fixpoint join_with (sep : bytes) (ls : list bytes) : bytes :=
  match ls with
  | [] => []
  | [l] => l
  | l :: ls => l ++ sep ++ join_with sep ls
  end.
Definition join_lines : list bytes -> bytes := join_with [10%nat].

(** At most, and at least, [n] lines. *)
Definition n_lines (n : nat) (ls : list bytes) : list bytes := take n ls ++ repeat [] (n - length ls).

Definition clampLines (s : bytes) (n : nat) : bytes := join_lines (n_lines n (split_lines s)).

(** The lit bars of a signal, of four. *)
Definition bar_glyphs : list bytes := [[226; 150; 130]; [226; 150; 132]; [226; 150; 134]; [226; 150; 136]]%nat.
Definition signal_lit (strength : Z) : nat := if 80 <=? strength then 4 else if 55 <=? strength then 3 else if 30 <=? strength then 2 else if 0 <? strength then 1 else 0.
Definition signalBars (strength : Z) : bytes := let n := signal_lit strength in concat (take n bar_glyphs) ++ repeat 32%nat (4 - n).

(** [sparkline], as its cells from the left. *)
Definition spark_levels : list bytes := map (fun n => [226; 150; n]%nat) [129; 130; 131; 132; 133; 134; 135; 136]%nat.
Definition max_rtt (l : list Sample) : float64 := fold_left (fun m s => if (m <? smp_RTTms s)%float then smp_RTTms s else m) l f_zero.
Definition spark_cell (good warn bad : bytes -> bytes) (top : float64) (s : Sample) : bytes :=
  if (smp_RTTms s <? f_zero)%float then bad [195; 151]%nat
  else if (top <=? f_zero)%float then [226; 150; 129]%nat
  else
    let idx := Z.min (Z.max (default 0 (f_int (smp_RTTms s / top * f_of_Z 7)%float)) 0) 7 in
    (if (f_zero <? smp_Loss s)%float then warn else good) (default [] (spark_levels !! Z.to_nat idx)).
Definition spark_cells (good warn bad : bytes -> bytes) (samples : list Sample) (w : nat) : list bytes :=
  let l := drop (length samples - w) samples in
  repeat [32%nat] (w - length l) ++ map (spark_cell good warn bad (max_rtt l)) l.
Definition sparkline (good warn bad : bytes -> bytes) (samples : list Sample) (w : nat) : bytes := concat (spark_cells good warn bad samples w).

(** [sparkTall]: row [r] of a column, counted from the bottom, and the lines from the top. *)
Definition tall_level (rows : nat) (top : float64) (s : Sample) : Z :=
  if (f_zero <=? smp_RTTms s)%float && (f_zero <? top)%float then default 0 (f_int (smp_RTTms s / top * f_of_Z (Z.of_nat (rows * 8 - 1)))%float) + 1 else 1.
Definition tall_cell (good warn bad : bytes -> bytes) (rows : nat) (top : float64) (r : nat) (s : Sample) : bytes :=
  let lvl := tall_level rows top s in
  let base := Z.of_nat (r * 8) in
  let st := if (f_zero <? smp_Loss s)%float then warn else good in
  if (smp_RTTms s <? f_zero)%float then (if Nat.eqb r 0 then bad [195; 151]%nat else [32%nat])
  else if base + 8 <=? lvl then st [226; 150; 136]%nat
  else if base <? lvl then st (default [] (spark_levels !! Z.to_nat (lvl - base - 1)))
  else [32%nat].
Definition tall_lines (good warn bad : bytes -> bytes) (samples : list Sample) (w rows : nat) : list (list bytes) :=
  let l := drop (length samples - w) samples in
  map (fun row => repeat [32%nat] (w - length l) ++ map (tall_cell good warn bad rows (max_rtt l) (rows - 1 - row)) l) (seq 0 rows).
Definition sparkTall (good warn bad : bytes -> bytes) (samples : list Sample) (w rows : nat) : bytes :=
  if Nat.eqb w 0 || Nat.eqb rows 0 then [] else if Nat.eqb rows 1 then sparkline good warn bad samples w
  else join_lines (map (@concat nat) (tall_lines good warn bad samples w rows)).

Definition tui_securityLabel (s : WifiSecurity) : string :=
  if s =?s SecOpen then "open" else if s =?s SecOWE then "owe" else if s =?s SecWEP then "wep" else if s =?s SecWPAPSK then "wpa2"
  else if s =?s SecSAE then "wpa3" else if s =?s SecWPAEAP then "eap" else s.

(** [d.Minutes()] and [d.Hours()], and [int] of a float that is finite. *)
Definition f_units (unit d : Duration) : float64 := (f_of_Z (Z.quot d unit) + f_of_Z (Z.rem d unit) / f_of_Z unit)%float.
Definition int_of (f : float64) : Z := default 0 (f_int f).
Definition int_units (unit d : Duration) : Z := int_of (f_units unit d).

Definition tui_ago (t now : Time) : string :=
  if t =? 0 then ""
  else
    let d := time_Sub now t in
    if d <? minute then Itoa (int_units second d) +:+ "s ago"
    else if d <? hour then Itoa (int_units minute d) +:+ "m ago"
    else if d <? 48 * hour then Itoa (int_units hour d) +:+ "h ago"
    else Itoa (int_of (f_units hour d / f_of_Z 24)%float) +:+ "d ago".

(** Floats, printed with so many digits behind the point. *)
Section Floats.
Context (Fmt : nat -> float64 -> string).
Definition tui_ms (v : float64) : string :=
  if (v <? f_zero)%float then "—" else if (f_of_Z 10 <=? v)%float then Fmt 0 v +:+ " ms" else Fmt 1 v +:+ " ms".
Definition tui_pct (v : float64) : string := Fmt 0 (v * f_of_Z 100)%float +:+ "%".
Definition tui_mbps (v : float64) : string := if (f_of_Z 100 <=? v)%float then Fmt 0 v +:+ " Mbps" else Fmt 1 v +:+ " Mbps".
Definition cli_ms (v : float64) : string :=
  if (v <? f_zero)%float then "-" else if (v <? f_of_Z 10)%float then Fmt 1 v +:+ " ms" else Fmt 0 v +:+ " ms".
Definition cli_pct (v : float64) : string := if (v <? f_zero)%float then "-" else Fmt 0 (v * f_of_Z 100)%float +:+ "%".
Definition cli_mbps (v : float64) : string :=
  if (v <=? f_zero)%float then "-" else if (v <? f_of_Z 10)%float then Fmt 2 v +:+ " Mbps" else Fmt 1 v +:+ " Mbps".
End Floats.

(** What stands before the slash. *)
Definition address_of (cidr : string) : string := match Cut cidr "/" with Some (a, _) => a | None => cidr end.
Definition firstIP (cidrs : list string) : string := match cidrs with [] => "" | c :: _ => address_of c end.
Definition joinIPs (cidrs : list string) : string := Join (map address_of cidrs) " ".

Section Cells.
(** [lipgloss.Width], and [ansi.Truncate] with the ellipsis behind. *)
Context (Width : bytes -> Z) (Truncate : bytes -> Z -> bytes).

Definition truncate (s : bytes) (w : Z) : bytes :=
  if w <=? 0 then []
  else
    let s := tui_sanitize s in
    if Width s <=? w then s else if w =? 1 then ellipsis else Truncate s w.

Definition pad (s : bytes) (w : Z) : bytes := let s := truncate s w in s ++ blanks (w - Width s).
Definition padLeft (s : bytes) (w : Z) : bytes := let s := truncate s w in blanks (w - Width s) ++ s.
Definition fit (s : bytes) (w : Z) : bytes := let s := if w <? Width s then truncate s w else s in s ++ blanks (Z.max 0 (w - Width s)).

Definition clampBox (s : bytes) (w : Z) (h : nat) : bytes := join_lines (map (fun l => fit l w) (n_lines h (split_lines s))).

(** [table]: the column that takes the slack, and the widths with it. *)
Fixpoint first_zero (i : nat) (ws : list Z) : option nat :=
  match ws with [] => None | w :: ws => if w =? 0 then Some i else first_zero (S i) ws end.
Definition sum (ws : list Z) : Z := fold_right Z.add 0 ws.
Definition column_widths (width : Z) (ws : list Z) : list Z :=
  let '(flex, fixed) := match first_zero 0 ws with
    | Some i => (i, sum ws)
    | None => let i := (length ws - 1)%nat in (i, sum ws - default 0 (ws !! i)) end in
  <[flex := Z.max 4 (width - 2 - fixed - (Z.of_nat (length ws) - 1))]> ws.

Record TableStyles := mkTableStyles { st_Header : bytes -> bytes; st_Selected : bytes -> bytes; st_Text : bytes -> bytes; st_Accent : bytes -> bytes }.

(** "› " *)
Definition marker : bytes := [226; 128; 186; 32]%nat.

Definition table_line (width : Z) (ws : list Z) (st : bytes -> bytes) (g : bytes) (cells : list bytes) : bytes :=
  fit (g ++ join_with [32%nat] (imap (fun i w => st (pad (default [] (cells !! i)) w)) ws)) width.

Definition table (styles : TableStyles) (width : Z) (widths : list Z) (header : option (list bytes)) (rows : list (list bytes)) (cursor : Z) : bytes :=
  if (width <=? 3) || match widths with [] => true | _ => false end then []
  else
    let ws := column_widths width widths in
    join_lines ((match header with Some h => [table_line width ws (st_Header styles) [32; 32]%nat h] | None => [] end) ++
      imap (fun i r => if Z.of_nat i =? cursor then table_line width ws (st_Selected styles) (st_Accent styles marker) r
                       else table_line width ws (st_Text styles) [32; 32]%nat r) rows).

(** ** cli/ui.go *)

(** [table]: the cells carry their colours; [tb_shrink] is the column that may be cut. *)
Record cli_table := mkTable { tb_headers : list bytes; tb_right : list nat; tb_rows : list (list bytes); tb_shrink : option nat }.

Definition maxTableWidth : Z := 80.

Definition columns (t : cli_table) : nat := fold_left (fun n (r : list bytes) => if Nat.ltb n (length r) then length r else n) (tb_rows t) (length (tb_headers t)).

Definition widest (w : Z) (cells : list bytes) : Z := fold_left (fun w c => if w <? Width c then Width c else w) cells w.
Definition natural_widths (t : cli_table) : list Z :=
  map (fun i => widest (match tb_headers t !! i with Some h => Width h | None => 0 end) (omap (fun r => r !! i) (tb_rows t))) (seq 0 (columns t)).

Definition cut_cell (limit : Z) (c : bytes) : bytes := if limit <? Width c then Truncate c limit else c.

(** The widths and rows, the free column cut when the whole is too wide. *)
Definition shrunk (t : cli_table) : list Z * list (list bytes) :=
  let n := columns t in
  let ws := natural_widths t in
  match tb_shrink t with
  | Some s =>
      let total := 2 * (Z.of_nat n - 1) + sum ws in
      if Nat.ltb s n && (maxTableWidth <? total) then
        let limit := Z.max 12 (default 0 (ws !! s) - (total - maxTableWidth)) in
        (<[s := limit]> ws, map (alter (cut_cell limit) s) (tb_rows t))
      else (ws, tb_rows t)
  | None => (ws, tb_rows t)
  end.

(** One cell with its padding and the gap to the next. *)
Definition cli_cell (n : nat) (right : list nat) (style : bytes -> bytes) (i : nat) (w : Z) (c : bytes) : bytes :=
  let pad := blanks (w - Width c) in
  let body := if Nat.eqb i (n - 1) && negb (bool_decide (i ∈ right)) then style c
              else if bool_decide (i ∈ right) then pad ++ style c else style c ++ pad in
  if Nat.ltb i (n - 1) then body ++ [32; 32]%nat else body.

Definition raw_line (n : nat) (right : list nat) (ws : list Z) (style : bytes -> bytes) (cells : list bytes) : bytes :=
  concat (imap (fun i w => cli_cell n right style i w (default [] (cells !! i))) ws).

Fixpoint trim_right (s : bytes) : bytes :=
  match s with
  | [] => []
  | c :: s => match trim_right s with [] => if Nat.eqb c 32 then [] else [c] | s => c :: s end
  end.

Definition cli_render (header_style : bytes -> bytes) (t : cli_table) : list bytes :=
  let n := columns t in
  let '(ws, rows) := shrunk t in
  (match tb_headers t with [] => [] | hs => [trim_right (raw_line n (tb_right t) ws header_style hs)] end) ++
  map (fun r => trim_right (raw_line n (tb_right t) ws (fun c => c) r)) rows.
End Cells.

Definition cli_securityLabel (s : WifiSecurity) : string :=
  if s =?s SecOpen then "open" else if s =?s SecOWE then "OWE" else if s =?s SecWEP then "WEP" else if s =?s SecWPAPSK then "WPA2"
  else if s =?s SecSAE then "WPA3" else if s =?s SecWPAEAP then "802.1X" else if s =?s "" then "-" else s.

Definition cli_lit (strength : Z) : nat := if 75 <=? strength then 4 else if 50 <=? strength then 3 else if 25 <=? strength then 2 else if 0 <? strength then 1 else 0.

(** [bars]: without colour the unlit ones are spaces. *)
Definition cli_bars (color : bool) (green yellow red dim : bytes -> bytes) (strength : Z) : bytes :=
  let lit := cli_lit strength in
  if color then (if strength <? 30 then red else if strength <? 55 then yellow else green) (concat (take lit bar_glyphs)) ++ dim (concat (drop lit bar_glyphs))
  else concat (take lit bar_glyphs) ++ repeat 32%nat (4 - lit).

Definition cli_ago (t now : Time) : string :=
  if t =? 0 then "-"
  else
    let d := time_Sub now t in
    if d <? minute then "just now"
    else if d <? hour then Itoa (int_units minute d) +:+ "m ago"
    else if d <? 24 * hour then Itoa (int_units hour d) +:+ "h ago"
    else Itoa (Z.quot (int_units hour d) 24) +:+ "d ago".

(** [%02d] of a number that is not negative. *)
Definition two_digits (n : Z) : string := (if n <? 10 then "0" else "") +:+ Itoa n.

Definition shortDuration (d : Duration) : string :=
  let s := int_units second d in let m := int_units minute d in let h := int_units hour d in
  if d <? second then "0s"
  else if d <? minute then Itoa s +:+ "s"
  else if d <? hour then Itoa m +:+ "m" +:+ two_digits (Z.rem s 60) +:+ "s"
  else if d <? 24 * hour then Itoa h +:+ "h" +:+ two_digits (Z.rem m 60) +:+ "m"
  else Itoa (Z.quot h 24) +:+ "d" +:+ Itoa (Z.rem h 24) +:+ "h".

(** [bytesHuman]: the loop, and the unit it ends at. *)
Fixpoint unit_loop (fuel : nat) (m div : Z) (exp : nat) : option (Z * nat) :=
  match fuel with
  | O => None
  | S fuel => if 1000 <=? m then unit_loop fuel (Z.quot m 1000) (int64_of (div * 1000)) (S exp) else Some (div, exp)
  end.

Definition units : list string := ["k"; "M"; "G"; "T"; "P"; "E"].

Definition bytesHuman (Fmt1 : float64 -> string) (fuel : nat) (n : Z) : option string :=
  if n <? 1000 then Some (Itoa n +:+ " B")
  else
    match unit_loop fuel (Z.quot n 1000) 1000 0 with
    | None => None
    | Some (div, exp) => match units !! exp with Some u => Some (Fmt1 (f_of_Z n / f_of_Z div)%float +:+ " " +:+ u +:+ "B") | None => None end
    end.

Definition yesNo (b : bool) : string := if b then "yes" else "no".
Definition joinOrDash (ss : list string) : string := match ss with [] => "-" | _ => Join ss ", " end.

(** * How wide and how safe *)

(** ** Whole characters *)

Definition cont (c : nat) : Prop := (128 <= c <= 191)%nat.
Definition more_bytes (a : nat) : nat := if Nat.leb a 223 then 1 else if Nat.leb a 239 then 2 else 3.

(** Bytes that are characters of UTF-8, each with the length its first byte announces. *)
Inductive chars : bytes -> Prop :=
| CH_nil : chars []
| CH_ascii b s : (b < 128)%nat -> chars s -> chars (b :: s)
| CH_more a cs s : (194 <= a)%nat -> length cs = more_bytes a -> Forall cont cs -> chars s -> chars (a :: cs ++ s).

Ltac conts := repeat (apply Forall_cons_2; [unfold cont, plain in *; lia|]); apply Forall_nil_2.

Lemma valid_chars fuel s : valid_utf8_fuel fuel s = true -> chars s.
Proof.
  revert s; induction fuel as [|fuel IH]; intros [|a s]; cbn [valid_utf8_fuel]; try done; try (by constructor).
  destruct (Nat.ltb_spec a 128); [intros H'; apply CH_ascii; [done|by apply IH]|].
  destruct (Nat.leb_spec 194 a), (Nat.leb_spec a 223) as [L1|L1]; cbn [andb].
  1: { destruct s as [|b s]; [done|]. rewrite andb_true_iff. unfold cont_byte. rewrite andb_true_iff, !Nat.leb_le. intros [Hb Hs].
       apply (CH_more a [b] s); [done| |conts|by apply IH]. unfold more_bytes. by apply Nat.leb_le in L1 as ->. }
  all: destruct (Nat.leb_spec 224 a), (Nat.leb_spec a 239) as [L2|L2]; cbn [andb]; try lia.
  all: try (destruct s as [|b [|c s]]; try done; rewrite !andb_true_iff; intros [[Hb Hc] Hs];
    assert (cont b /\ cont c) as [? ?]
      by (unfold cont_byte, cont in *; repeat case_match; rewrite !andb_true_iff, !Nat.leb_le in *; lia);
    apply (CH_more a [b; c] s); [lia| |conts|by apply IH]; unfold more_bytes; apply Nat.leb_gt in L1 as ->; by apply Nat.leb_le in L2 as ->).
  all: destruct (Nat.leb_spec 240 a), (Nat.leb_spec a 244); cbn [andb]; try done; try lia.
  destruct s as [|b [|c [|d s]]]; try done. rewrite !andb_true_iff. intros [[[Hb Hc] Hd] Hs].
  assert (cont b /\ cont c /\ cont d) as (? & ? & ?)
    by (unfold cont_byte, cont in *; repeat case_match; rewrite !andb_true_iff, !Nat.leb_le in *; lia).
  apply (CH_more a [b; c; d] s); [lia| |conts|by apply IH]. unfold more_bytes. apply Nat.leb_gt in L1 as ->. by apply Nat.leb_gt in L2 as ->.
Qed.

Lemma chars_app a b : chars a -> chars b -> chars (a ++ b).
Proof.
  intros Ha Hb. induction Ha as [|c s Hc _ IH|c cs s H1 H2 H3 _ IH]; [done|by apply CH_ascii|]. cbn. rewrite <- app_assoc. by apply CH_more.
Qed.

Lemma chars_ascii s : Forall (fun c => (c < 128)%nat) s -> chars s.
Proof. induction 1; [constructor|by apply CH_ascii]. Qed.

Lemma chars_behind p s : Forall (fun c => (c < 128)%nat) p -> chars (p ++ s) -> chars s.
Proof.
  induction 1 as [|c p Hc _ IH]; [done|]. cbn. intros H. apply IH. inversion H; subst; [done|lia].
Qed.

(** ** What sanitising leaves *)

(** It is the [sgrEnd] of the command line, less where it gave up. *)
Lemma tui_sgrEnd_cli s : tui_sgrEnd s = let '(n, ok) := sgrEnd s in if ok then Some n else None.
Proof.
  unfold tui_sgrEnd, sgrEnd. destruct s as [|c s]; [done|]. destruct (Nat.eqb c 91); [|done]. generalize 2%nat.
  induction s as [|b s IH]; intros j; cbn [tui_sgr_scan sgr_scan]; [done|]. unfold sgr_param. destruct (_ || _); [apply IH|by destruct (Nat.eqb b 109)].
Qed.

Lemma tui_sgrEnd_Some s n : tui_sgrEnd s = Some n ->
  exists ps s', params ps /\ s = 91%nat :: ps ++ 109%nat :: s' /\ take n (27%nat :: s) = 27%nat :: 91%nat :: ps ++ [109%nat] /\ drop n (27%nat :: s) = s'.
Proof.
  rewrite tui_sgrEnd_cli. pose proof (sgrEnd_spec s) as H. destruct (sgrEnd s) as [m ok]. destruct ok; [|done]. intros [= <-].
  destruct H as (ps & s' & Hp & -> & ->). exists ps, s'. split; [done|]. split; [done|].
  replace (length ps + 3)%nat with (S (S (length ps + 1))) by lia. cbn [drop take]. by rewrite drop_app_add, take_app_add.
Qed.

Lemma loop_displayed fuel s : displayed (tui_sanitize_loop fuel s).
Proof.
  revert s; induction fuel as [|fuel IH]; intros [|b s]; cbn [tui_sanitize_loop]; try constructor.
  destruct (Nat.eqb_spec b 27) as [->|Hb].
  { destruct (tui_sgrEnd s) as [n|] eqn:E; [|apply IH]. destruct (tui_sgrEnd_Some s n E) as (ps & s' & Hp & _ & -> & ->).
    cbn. rewrite <- app_assoc. cbn. by apply D_colour. }
  destruct (Nat.eqb_spec b 10) as [->|H10]; [apply D_byte; [by left|apply IH]|].
  destruct (Nat.ltb_spec b 32); cbn [orb]; [apply IH|]. destruct (Nat.eqb_spec b 127); [apply IH|].
  assert (plain b) as Hp by (unfold plain; lia). destruct s as [|c s]; [by repeat constructor|].
  destruct (_ && _); [apply IH|]. by apply D_byte.
Qed.

Lemma clean_displayed s : clean s = true -> displayed s.
Proof.
  unfold clean. rewrite forallb_forall. induction s as [|c s IH]; intros H; [constructor|].
  apply D_byte; [|apply IH; intros x Hx; apply H; by right]. specialize (H c (or_introl eq_refl)). unfold plain.
  destruct (Nat.ltb_spec c 32), (Nat.eqb_spec c 10), (Nat.eqb_spec c 127), (Nat.eqb_spec c 194); cbn in H; try done; lia.
Qed.

Lemma sanitize_displayed s : displayed (tui_sanitize s).
Proof. unfold tui_sanitize. destruct (clean s) eqn:H; [by apply clean_displayed|apply loop_displayed]. Qed.

Lemma loop_forall (P : nat -> Prop) fuel s : Forall P s -> Forall P (tui_sanitize_loop fuel s).
Proof.
  revert s; induction fuel as [|fuel IH]; intros [|b s] H; cbn [tui_sanitize_loop]; try constructor.
  apply Forall_cons in H as [Hb Hs]. destruct (Nat.eqb b 27).
  { destruct (tui_sgrEnd s) as [n|]; [|by apply IH]. apply Forall_app. split; [by apply Forall_take, Forall_cons|apply IH; by apply Forall_drop, Forall_cons]. }
  destruct (Nat.eqb b 10); [constructor; [done|by apply IH]|]. destruct (_ || _); [by apply IH|].
  destruct s as [|c s]; [by repeat constructor|]. apply Forall_cons in Hs as [Hc Hs]. destruct (_ && _); [by apply IH|].
  constructor; [done|]. apply IH. by constructor.
Qed.

Lemma loop_cont cs s fuel : Forall cont cs -> (length cs <= fuel)%nat -> tui_sanitize_loop fuel (cs ++ s) = cs ++ tui_sanitize_loop (fuel - length cs) s.
Proof.
  intros H. revert fuel; induction H as [|c cs Hc _ IH]; intros fuel Hf; [cbn; by rewrite Nat.sub_0_r|]. cbn in Hf.
  destruct fuel as [|fuel]; [lia|]. cbn [app tui_sanitize_loop length Nat.sub]. unfold cont in Hc.
  destruct (Nat.eqb_spec c 27); [lia|]. destruct (Nat.eqb_spec c 10); [lia|]. destruct (Nat.ltb_spec c 32); [lia|].
  destruct (Nat.eqb_spec c 127); [lia|]. destruct (Nat.eqb_spec c 194); [lia|]. cbn [orb andb].
  rewrite <- IH by lia. destruct (cs ++ s) eqn:E; [|done]. by destruct fuel.
Qed.

Lemma loop_chars fuel s : chars s -> (length s <= fuel)%nat -> chars (tui_sanitize_loop fuel s).
Proof.
  assert (forall k fuel s, (fuel <= k)%nat -> chars s -> (length s <= fuel)%nat -> chars (tui_sanitize_loop fuel s)) as H; [|by apply (H fuel fuel)].
  clear. induction k as [|k IH']; intros [|fuel] s Hk Hs Hl; try (destruct s; [apply CH_nil|cbn in Hl; lia]).
  assert (forall s, chars s -> (length s <= fuel)%nat -> chars (tui_sanitize_loop fuel s)) as IH by (intros; apply IH'; [lia|done..]).
  destruct Hs as [|b s Hb Hs|a cs s H1 H2 H3 Hs]; [constructor| |]; cbn [length] in Hl.
  - cbn [tui_sanitize_loop]. destruct (Nat.eqb_spec b 27) as [->|H27].
    { destruct (tui_sgrEnd s) as [n|] eqn:E; [|apply IH; [done|lia]]. destruct (tui_sgrEnd_Some s n E) as (ps & s' & Hp & -> & -> & ->).
      assert (Forall (fun c => (c < 128)%nat) (91%nat :: ps ++ [109%nat])) as Ha.
      { constructor; [lia|]. apply Forall_app. split; [by apply params_ascii|repeat constructor; lia]. }
      assert (chars s') as Hs' by (apply (chars_behind (91%nat :: ps ++ [109%nat])); [done|cbn; by rewrite <- app_assoc]).
      apply chars_app; [apply CH_ascii; [lia|by apply chars_ascii]|]. apply IH; [done|]. cbn in Hl. rewrite length_app in Hl. cbn in Hl. lia. }
    destruct (Nat.eqb b 10); [apply CH_ascii; [done|apply IH; [done|lia]]|]. destruct (_ || _); [apply IH; [done|lia]|].
    destruct s as [|c s]; [by apply CH_ascii; [|constructor]|]. destruct (Nat.eqb_spec b 194); [lia|]. cbn [andb].
    apply CH_ascii; [done|]. apply IH; [done|lia].
  - rewrite length_app in Hl. destruct cs as [|c cs]; [unfold more_bytes in H2; by repeat case_match|].
    assert (194 <= a)%nat as Ha by done. cbn [app tui_sanitize_loop].
    destruct (Nat.eqb_spec a 27); [lia|]. destruct (Nat.eqb_spec a 10); [lia|]. destruct (Nat.ltb_spec a 32); [lia|].
    destruct (Nat.eqb_spec a 127); [lia|]. cbn [orb].
    destruct (Nat.eqb a 194 && (Nat.leb 128 c && Nat.leb c 159)) eqn:E.
    + apply andb_true_iff in E as [->%Nat.eqb_eq _]. cbn in H2. destruct cs; [|done]. apply IH; [done|cbn in *; lia].
    + change (c :: cs ++ s) with ((c :: cs) ++ s). rewrite loop_cont by (done || cbn in *; lia). apply CH_more; [done|done|done|].
      apply IH'; [cbn in *; lia|done|cbn in *; lia].
Qed.

(** ** Good text *)

Definition no_nl (s : bytes) : Prop := Forall (fun c => c <> 10%nat) s.

(** Whole characters on one line, with complete colours and no other control. *)
Definition good (s : bytes) : Prop := displayed s /\ chars s /\ no_nl s.

Lemma good_app a b : good a -> good b -> good (a ++ b).
Proof. intros (H1 & H2 & H3) (K1 & K2 & K3). split; [by apply displayed_app|]. split; [by apply chars_app|by apply Forall_app]. Qed.

Lemma good_nil : good [].
Proof. split_and!; constructor. Qed.

Lemma good_cell b : (32 <= b < 127)%nat -> good [b].
Proof.
  intros H. split; [repeat constructor; unfold plain; lia|]. split; [apply CH_ascii; [lia|constructor]|repeat constructor; lia].
Qed.

Lemma good_blanks n : good (blanks n).
Proof.
  unfold blanks. induction (Z.to_nat n) as [|k IH]; [apply good_nil|]. cbn. apply (good_app [32%nat]); [apply good_cell; lia|done].
Qed.

Lemma sanitize_good s : chars s -> no_nl s -> good (tui_sanitize s).
Proof.
  intros Hc Hn. split; [apply sanitize_displayed|]. unfold tui_sanitize. destruct (clean s); [done|].
  split; [by apply loop_chars|by apply loop_forall].
Qed.

Lemma good_ellipsis : good ellipsis.
Proof.
  split; [repeat constructor; unfold plain; lia|]. split; [|repeat constructor; lia].
  apply (CH_more 226 [128; 166]%nat []); [lia|done|conts|constructor].
Qed.

Lemma good_gap : good [32; 32]%nat.
Proof. apply (good_app [32%nat] [32%nat]); apply good_cell; lia. Qed.

Create HintDb draw.
#[export] Hint Resolve good_app good_nil good_blanks good_ellipsis good_gap : draw.

(** ** Lines *)

Lemma split_no_nl l : no_nl l -> split_lines l = [l].
Proof. induction 1 as [|c l Hc _ IH]; [done|]. cbn. destruct (Nat.eqb_spec c 10); [done|]. by rewrite IH. Qed.

Lemma split_app l s : no_nl l -> split_lines (l ++ 10%nat :: s) = l :: split_lines s.
Proof. induction 1 as [|c l Hc _ IH]; [done|]. cbn. destruct (Nat.eqb_spec c 10); [done|]. by rewrite IH. Qed.

Lemma split_join ls : ls <> [] -> Forall no_nl ls -> split_lines (join_lines ls) = ls.
Proof.
  intros Hne H. induction H as [|l ls Hl Hls IH]; [done|]. destruct ls as [|l' ls]; [by apply split_no_nl|].
  unfold join_lines in *. cbn [join_with app]. rewrite split_app by done. f_equal. by apply IH.
Qed.

Lemma n_lines_length n ls : length (n_lines n ls) = n.
Proof. unfold n_lines. rewrite length_app, length_take, repeat_length. lia. Qed.

(** ** Cells *)

Section Widths.
Context (Width : bytes -> Z) (Truncate : bytes -> Z -> bytes).

(** What lipgloss and x/ansi promise of text without incomplete escape sequences. *)
Class CellLaws : Prop := {
  cw_nil : Width [] = 0;
  cw_space a b : good a -> good b -> Width (a ++ 32%nat :: b) = Width a + 1 + Width b;
  cw_nonneg s : good s -> 0 <= Width s;
  cw_ellipsis : Width ellipsis = 1;
  cw_cut s w : good s -> 1 < w -> Width (Truncate s w) <= w /\ good (Truncate s w)
}.

Context {laws : CellLaws}.

Lemma Width_blanks_left s n : good s -> 0 <= n -> Width (blanks n ++ s) = n + Width s.
Proof using All.
  intros Hs Hn. unfold blanks. rewrite <- (Z2Nat.id n Hn) at 2. induction (Z.to_nat n) as [|k IH]; [cbn; lia|].
  cbn [repeat app]. assert (good (repeat 32%nat k ++ s)) as Hg by (apply good_app; [|done]; rewrite <- (Nat2Z.id k); apply good_blanks).
  pose proof (cw_space [] _ good_nil Hg) as H. cbn [app] in H. rewrite H, cw_nil, IH. lia.
Qed.

Lemma Width_blanks s n : good s -> 0 <= n -> Width (s ++ blanks n) = Width s + n.
Proof using All.
  intros Hs Hn. destruct (Z.eq_dec n 0) as [->|Hne]; [cbn; rewrite app_nil_r; lia|].
  assert (blanks n = 32%nat :: blanks (n - 1)) as -> by (unfold blanks; replace (Z.to_nat n) with (S (Z.to_nat (n - 1))) by lia; done).
  rewrite cw_space; [|done|apply good_blanks].
  pose proof (Width_blanks_left [] (n - 1) good_nil ltac:(lia)) as H. rewrite app_nil_r, cw_nil in H. lia.
Qed.

Lemma truncate_good s w : chars s -> no_nl s -> good (truncate Width Truncate s w) /\ (0 <= w -> Width (truncate Width Truncate s w) <= w).
Proof using All.
  intros Hc Hn. unfold truncate. destruct (Z.leb_spec w 0); [split; [apply good_nil|rewrite cw_nil; lia]|].
  pose proof (sanitize_good s Hc Hn) as Hg. destruct (Z.leb_spec (Width (tui_sanitize s)) w); [done|].
  destruct (Z.eqb_spec w 1) as [->|]; [split; [apply good_ellipsis|rewrite cw_ellipsis; lia]|].
  destruct (cw_cut (tui_sanitize s) w Hg ltac:(lia)) as [H1 H2]. done.
Qed.

Lemma pad_good s w : chars s -> no_nl s -> good (pad Width Truncate s w) /\ (0 <= w -> Width (pad Width Truncate s w) = w).
Proof using All.
  intros Hc Hn. destruct (truncate_good s w Hc Hn) as [Hg Hw]. unfold pad. split; [auto with draw|]. intros H.
  specialize (Hw H). rewrite Width_blanks by (done || lia). lia.
Qed.

Lemma padLeft_good s w : chars s -> no_nl s -> good (padLeft Width Truncate s w) /\ (0 <= w -> Width (padLeft Width Truncate s w) = w).
Proof using All.
  intros Hc Hn. destruct (truncate_good s w Hc Hn) as [Hg Hw]. unfold padLeft. split; [auto with draw|]. intros H.
  specialize (Hw H). rewrite Width_blanks_left by (done || lia). lia.
Qed.

Lemma fit_good s w : good s -> 0 <= w -> good (fit Width Truncate s w) /\ Width (fit Width Truncate s w) = w.
Proof using All.
  intros Hs Hw. unfold fit. set (s' := if w <? Width s then _ else s).
  assert (good s' /\ Width s' <= w) as [Hg Hle].
  { unfold s'. destruct (Z.ltb_spec w (Width s)); [|done]. destruct (truncate_good s w) as [H1 H2]; [apply Hs..|]. auto. }
  split; [auto with draw|]. rewrite Width_blanks by (done || lia). lia.
Qed.

Lemma clampBox_good s w h :
  (0 < h)%nat -> 0 <= w -> Forall good (split_lines s) ->
  let ls := split_lines (clampBox Width Truncate s w h) in length ls = h /\ Forall (fun l => good l /\ Width l = w) ls.
Proof using All.
  intros Hh Hw Hs. cbn zeta. unfold clampBox. set (ls := map _ _).
  assert (Forall (fun l => good l /\ Width l = w) ls) as Hls.
  { unfold ls. apply Forall_map. eapply Forall_impl; [|intros l Hl; by apply fit_good].
    unfold n_lines. apply Forall_app. split; [by apply Forall_take|]. apply Forall_forall. intros x Hx%list_elem_of_In%repeat_spec. subst. apply good_nil. }
  rewrite split_join; [|intros E; apply (f_equal length) in E; unfold ls in E; rewrite length_map, n_lines_length in E; cbn in E; lia|].
  - split; [|done]. unfold ls. by rewrite length_map, n_lines_length.
  - eapply Forall_impl; [exact Hls|]. by intros l [(_ & _ & H) _].
Qed.

Lemma join_with_good sep ls : good sep -> Forall good ls -> good (join_with sep ls).
Proof.
  intros Hs. induction 1 as [|l ls Hl _ IH]; [apply good_nil|]. destruct ls as [|l' ls]; [done|]. cbn [join_with]. auto with draw.
Qed.

Lemma Forall_imap {A B} (P : B -> Prop) (f : nat -> A -> B) l : (forall i x, l !! i = Some x -> P (f i x)) -> Forall P (imap f l).
Proof.
  intros H. apply Forall_lookup. intros i y Hy. rewrite list_lookup_imap in Hy. destruct (l !! i) as [x|] eqn:E; [|done]. injection Hy as <-. by apply H.
Qed.

(** A cell the world may have chosen. *)
Definition cell (s : bytes) : Prop := chars s /\ no_nl s.

Lemma table_line_good width ws st g (cells : list bytes) :
  0 <= width -> (forall s, good s -> good (st s)) -> good g -> Forall cell cells ->
  good (table_line Width Truncate width ws st g cells) /\ Width (table_line Width Truncate width ws st g cells) = width.
Proof using All.
  intros Hw Hst Hg Hc. unfold table_line. apply fit_good; [|done]. apply good_app; [done|]. apply join_with_good; [apply good_cell; lia|].
  apply Forall_imap. intros i w _. apply Hst. apply pad_good; (destruct (cells !! i) as [c|] eqn:E; [|constructor]);
    rewrite Forall_lookup in Hc; by destruct (Hc i c E).
Qed.

(** Lines joined and split again. *)
Lemma joined_lines (P : bytes -> Prop) ls : ls <> [] -> (forall l, P l -> no_nl l) -> Forall P ls -> length (split_lines (join_lines ls)) = length ls /\ Forall P (split_lines (join_lines ls)).
Proof. intros Hne HP H. rewrite split_join; [done|done|]. eapply Forall_impl; [exact H|exact HP]. Qed.

Lemma table_good styles width widths header rows cursor :
  3 < width -> widths <> [] -> (header <> None \/ rows <> []) ->
  (forall s, good s -> good (st_Header styles s) /\ good (st_Selected styles s) /\ good (st_Text styles s) /\ good (st_Accent styles s)) ->
  Forall cell (default [] header) -> Forall (Forall cell) rows ->
  let ls := split_lines (table Width Truncate styles width widths header rows cursor) in
  length ls = ((if header is Some _ then 1 else 0) + length rows)%nat /\ Forall (fun l => good l /\ Width l = width) ls.
Proof using All.
  intros Hw Hne Hls Hst Hh Hr. cbn zeta. unfold table. destruct (Z.leb_spec width 3); [lia|]. destruct widths as [|w0 widths]; [done|]. cbn [orb].
  set (ls := _ ++ _). assert (length ls = ((if header is Some _ then 1 else 0) + length rows)%nat) as Hlen.
  { unfold ls. rewrite length_app, length_imap. by destruct header. }
  rewrite <- Hlen. apply joined_lines.
  - intros E. rewrite E in Hlen. destruct header, rows; try done. by destruct Hls.
  - by intros l [(_ & _ & H') _].
  - assert (good marker) as Hm.
    { split; [repeat constructor; unfold plain; lia|]. split; [|repeat constructor; lia]. apply (CH_more 226 [128; 186]%nat [32%nat]); [lia|done|conts|]. apply CH_ascii; [lia|constructor]. }
    unfold ls. apply Forall_app. split.
    + destruct header as [h|]; [|constructor]. constructor; [|constructor]. apply table_line_good; [lia|apply Hst|apply good_gap|done].
    + apply Forall_imap. intros i r Hi. rewrite Forall_lookup in Hr. specialize (Hr i r Hi).
      destruct (Z.of_nat i =? cursor); apply table_line_good; try done; try lia; try apply Hst; auto with draw.
Qed.

(** ** The tables of the command line *)

Lemma sum_insert ws i x w : ws !! i = Some w -> sum (<[i := x]> ws) = sum ws - w + x.
Proof.
  revert i; induction ws as [|y ws IH]; intros [|i] H; try done; unfold sum in *; cbn in *; [injection H as ->; lia|]. etrans; [exact (f_equal (Z.add y) (IH i H))|lia].
Qed.

Lemma longest_le rows n : (n <= fold_left (fun n (r : list bytes) => if Nat.ltb n (length r) then length r else n) rows n)%nat.
Proof. revert n; induction rows as [|x l IH]; intros n; cbn [fold_left]; [done|]. etrans; [|apply IH]. destruct (Nat.ltb_spec n (length x)); lia. Qed.

Lemma columns_le t r : In r (tb_rows t) -> (length r <= columns t)%nat.
Proof.
  unfold columns. generalize (length (tb_headers t)). induction (tb_rows t) as [|x l IH]; intros n; cbn [fold_left]; [done|].
  intros [->|H]; [|by apply IH]. etrans; [|apply longest_le]. destruct (Nat.ltb_spec n (length r)); lia.
Qed.

Lemma widest_le cells w : w <= widest Width w cells /\ forall c, In c cells -> Width c <= widest Width w cells.
Proof.
  unfold widest. revert w; induction cells as [|x l IH]; intros w; cbn [fold_left]; [split; [lia|done]|].
  destruct (IH (if w <? Width x then Width x else w)) as [H1 H2]. split; [|intros c [->|Hc]; [|by apply H2]].
  - destruct (Z.ltb_spec w (Width x)); lia.
  - destruct (Z.ltb_spec w (Width c)); lia.
Qed.

Lemma natural_fits t r i c : In r (tb_rows t) -> r !! i = Some c -> exists w, natural_widths Width t !! i = Some w /\ Width c <= w.
Proof.
  intros Hr Hc. assert (i < columns t)%nat as Hi by (apply lookup_lt_Some in Hc; apply columns_le in Hr; lia).
  unfold natural_widths. eexists. split; [by rewrite list_lookup_fmap, lookup_seq_lt|]. apply widest_le.
  apply list_elem_of_In, list_elem_of_omap. exists r. split; [by apply list_elem_of_In|done].
Qed.

Lemma natural_length t : length (natural_widths Width t) = columns t.
Proof. unfold natural_widths. by rewrite length_map, length_seq. Qed.

(** Each row fits the widths of the columns, cut or not, and is still good. *)
Definition fits (ws : list Z) (r : list bytes) : Prop := forall i c, r !! i = Some c -> good c /\ exists w, ws !! i = Some w /\ Width c <= w.

Lemma shrunk_fits t :
  Forall (Forall good) (tb_rows t) -> let '(ws, rows) := shrunk Width Truncate t in length ws = columns t /\ Forall (fits ws) rows.
Proof using All.
  intros Hg. assert (Forall (fits (natural_widths Width t)) (tb_rows t)) as H0.
  { apply List.Forall_forall. intros r Hr i c Hc. split; [|by apply (natural_fits t r)]. rewrite List.Forall_forall in Hg. specialize (Hg r Hr).
    rewrite Forall_lookup in Hg. by apply (Hg i). }
  unfold shrunk. destruct (tb_shrink t) as [s|]; [|split; [apply natural_length|done]]. destruct (Nat.ltb_spec s (columns t)); cbn [andb]; [|split; [apply natural_length|done]].
  destruct (maxTableWidth <? _); [|split; [apply natural_length|done]]. split; [by rewrite length_insert, natural_length|].
  set (limit := Z.max 12 _). apply Forall_map. eapply Forall_impl; [exact H0|]. intros r Hr i c Hc.
  destruct (decide (s = i)) as [->|Hne].
  - rewrite list_lookup_alter_eq in Hc. destruct (r !! i) as [c0|] eqn:E; [|done]. injection Hc as <-. destruct (Hr i c0 E) as (Hgc & w & Hw & _).
    unfold cut_cell. destruct (Z.ltb_spec limit (Width c0)) as [Hlt|Hle].
    + destruct (cw_cut c0 limit Hgc ltac:(lia)) as [K1 K2]. split; [done|]. exists limit. split; [|done]. apply list_lookup_insert_eq. by apply lookup_lt_Some in Hw.
    + split; [done|]. exists limit. split; [|done]. apply list_lookup_insert_eq. by apply lookup_lt_Some in Hw.
  - rewrite list_lookup_alter_ne in Hc by done. destruct (Hr i c Hc) as (Hgc & w & Hw & Hle). split; [done|]. exists w. by rewrite list_lookup_insert_ne.
Qed.

Lemma shrunk_nonneg t : Forall good (tb_headers t) -> Forall (fun w => 0 <= w) (shrunk Width Truncate t).1.
Proof using All.
  intros Hh. assert (Forall (fun w => 0 <= w) (natural_widths Width t)) as H.
  { unfold natural_widths. apply Forall_map, Forall_forall. intros i _. etrans; [|apply (proj1 (widest_le _ _))].
    destruct (tb_headers t !! i) as [h|] eqn:E; [|done]. apply cw_nonneg. rewrite Forall_lookup in Hh. by apply (Hh i). }
  unfold shrunk. destruct (tb_shrink t) as [s|]; [|done]. destruct (_ && _); [|done]. apply Forall_insert; [done|lia].
Qed.

(** The whole is at most as wide as it may be, unless the other columns alone are wider. *)
Lemma shrunk_total t s :
  tb_shrink t = Some s -> (s < columns t)%nat ->
  let total := 2 * (Z.of_nat (columns t) - 1) + sum (natural_widths Width t) in
  2 * (Z.of_nat (columns t) - 1) + sum (shrunk Width Truncate t).1 <= Z.max maxTableWidth (total - default 0 (natural_widths Width t !! s) + 12).
Proof.
  intros Hs Hn total. unfold shrunk. rewrite Hs. apply Nat.ltb_lt in Hn as Hb. rewrite Hb. cbn [andb]. fold total.
  destruct (Z.ltb_spec maxTableWidth total); cbn [fst]; [|lia].
  destruct (lookup_lt_is_Some_2 (natural_widths Width t) s) as [w Hw]; [by rewrite natural_length|].
  rewrite (sum_insert _ _ _ w Hw), Hw. change (default 0 (Some w)) with w. unfold maxTableWidth, total in *. lia.
Qed.

(** One line. *)
Lemma gap_width a b : good a -> good b -> Width ((a ++ [32; 32]%nat) ++ b) = Width a + 2 + Width b.
Proof using All.
  intros Ha Hb. rewrite <- app_assoc. cbn [app].
  assert (good (32%nat :: b)) as Hb' by (apply (good_app [32%nat]); [apply good_cell; lia|done]).
  rewrite cw_space by done. pose proof (cw_space [] b good_nil Hb) as H. cbn [app] in H. rewrite H, cw_nil. lia.
Qed.

Lemma cell_body right style n i w c :
  (forall s, good s -> good (style s) /\ Width (style s) = Width s) -> good c -> Width c <= w -> (i < n)%nat ->
  exists body, good body /\ Width body <= w /\
    if Nat.ltb i (n - 1) then cli_cell Width n right style i w c = body ++ [32; 32]%nat /\ Width body = w else cli_cell Width n right style i w c = body.
Proof using All.
  intros Hst Hc Hw Hi. destruct (Hst c Hc) as [Hg He]. unfold cli_cell. destruct (Nat.ltb_spec i (n - 1)) as [Hlt|Hge].
  - replace (Nat.eqb i (n - 1)) with false by (symmetry; apply Nat.eqb_neq; lia). cbn [andb]. destruct (bool_decide _).
    + eexists. split; [|split; [|split; [done|]]]; [auto with draw|rewrite Width_blanks_left by (done || lia); lia..].
    + eexists. split; [|split; [|split; [done|]]]; [auto with draw|rewrite Width_blanks by (done || lia); lia..].
  - destruct (_ && _); [|destruct (bool_decide _)].
    + eexists. split; [|split; [|done]]; [done|lia].
    + eexists. split; [|split; [|done]]; [auto with draw|rewrite Width_blanks_left by (done || lia); lia].
    + eexists. split; [|split; [|done]]; [auto with draw|rewrite Width_blanks by (done || lia); lia].
Qed.

Lemma raw_from right style n (cells : list bytes) k ws :
  (forall s, good s -> good (style s) /\ Width (style s) = Width s) -> (k + length ws = n)%nat -> ws <> [] ->
  (forall i w, ws !! i = Some w -> good (default [] (cells !! (k + i)%nat)) /\ Width (default [] (cells !! (k + i)%nat)) <= w) ->
  let pieces := imap (fun i w => cli_cell Width n right style (k + i) w (default [] (cells !! (k + i)%nat))) ws in
  good (concat pieces) /\ Width (concat pieces) <= sum ws + 2 * (Z.of_nat (length ws) - 1) /\
  forall j, (j < length ws)%nat -> good (concat (take j pieces)) /\ Width (concat (take j pieces)) = sum (take j ws) + 2 * Z.of_nat j.
Proof using All.
  intros Hst. revert k; induction ws as [|w ws IH]; intros k Hk Hne Hc; [done|]. cbn zeta in *. rewrite imap_cons.
  destruct (Hc 0%nat w eq_refl) as [Hg Hw]. rewrite Nat.add_0_r in *. cbn [length] in Hk.
  destruct (cell_body right style n k w _ Hst Hg Hw ltac:(lia)) as (body & Hb & Hbw & Hcell).
  destruct ws as [|w' ws].
  - replace (Nat.ltb k (n - 1)) with false in Hcell by (symmetry; apply Nat.ltb_ge; cbn in Hk; lia). cbn [imap concat length sum fold_right]. rewrite Hcell, app_nil_r.
    split; [done|]. split; [lia|]. intros [|j] Hj; [split; [apply good_nil|cbn; rewrite cw_nil; lia]|cbn in Hj; lia].
  - replace (Nat.ltb k (n - 1)) with true in Hcell by (symmetry; apply Nat.ltb_lt; cbn in Hk; lia). destruct Hcell as [Hcell Hbe].
    destruct (IH (S k) ltac:(cbn in *; lia) ltac:(done)) as (I1 & I2 & I3).
    { intros i x Hx. specialize (Hc (S i) x Hx). by rewrite Nat.add_succ_r in Hc. }
    rewrite (imap_ext _ (fun i w => cli_cell Width n right style (S k + i) w (default [] (cells !! (S k + i)%nat))) (w' :: ws))
      by (intros i x _; cbn; by rewrite Nat.add_succ_r).
    set (pieces := imap _ (w' :: ws)) in *. cbn [concat]. rewrite Hcell. split; [|split].
    + auto with draw.
    + rewrite gap_width by done. cbn [length sum fold_right] in *. lia.
    + intros [|j] Hj; [split; [apply good_nil|cbn; rewrite cw_nil; lia]|]. cbn [take concat length] in *. destruct (I3 j ltac:(lia)) as [Hgj Hwj].
      rewrite gap_width, Hwj by done. split; [auto with draw|]. cbn [sum fold_right]. unfold sum. lia.
Qed.

Lemma trim_right_blanks s : exists n, s = trim_right s ++ blanks n.
Proof.
  induction s as [|c s [n IH]]; [by exists 0|]. cbn [trim_right]. destruct (trim_right s) as [|d t] eqn:E; [|exists n; by rewrite IH at 1].
  destruct (Nat.eqb_spec c 32) as [->|_]; [|exists n; cbn; by rewrite IH at 1].
  exists (1 + Z.max 0 n). cbn in *. rewrite IH at 1. unfold blanks. replace (Z.to_nat (1 + Z.max 0 n)) with (S (Z.to_nat n)) by lia. done.
Qed.

(** The widths of a line, column by column. *)
Lemma raw_aligned right ws r :
  ws <> [] -> Forall (fun w => 0 <= w) ws -> fits ws r ->
  (forall j, (j < length ws)%nat -> let start := concat (take j (imap (fun i w => cli_cell Width (length ws) right (fun c => c) i w (default [] (r !! i))) ws)) in
     good start /\ Width start = sum (take j ws) + 2 * Z.of_nat j) /\
  good (raw_line Width (length ws) right ws (fun c => c) r) /\ Width (raw_line Width (length ws) right ws (fun c => c) r) <= sum ws + 2 * (Z.of_nat (length ws) - 1).
Proof using All.
  intros Hne Hpos Hf. unfold raw_line. destruct (raw_from right (fun c => c) (length ws) r 0 ws) as (H1 & H2 & H3); [done|done|done| |by split_and!].
  intros i w Hw. cbn [Nat.add]. destruct (r !! i) as [c|] eqn:E.
  - destruct (Hf i c E) as (Hg & w' & Hw' & Hle). split; [done|]. cbn. congruence.
  - cbn. split; [apply good_nil|]. rewrite cw_nil. rewrite Forall_lookup in Hpos. by apply (Hpos i).
Qed.
End Widths.

(** ** Numbers *)

Lemma spark_length good warn bad samples w : length (spark_cells good warn bad samples w) = w.
Proof. unfold spark_cells. rewrite length_app, repeat_length, length_map, length_drop. lia. Qed.

Lemma tall_exact good warn bad samples w rows :
  length (tall_lines good warn bad samples w rows) = rows /\ Forall (fun cells => length cells = w) (tall_lines good warn bad samples w rows).
Proof.
  unfold tall_lines. split; [by rewrite length_map, length_seq|]. apply Forall_map, Forall_forall. intros r _.
  rewrite length_app, repeat_length, length_map, length_drop. lia.
Qed.

(** After [e] turns the loop has divided by [1000 ^ e]. *)
Lemma unit_loop_ends fuel n e :
  (e + fuel = 6)%nat -> n < 2 ^ 63 -> 1000 ^ Z.of_nat (S e) <= n ->
  exists e', unit_loop fuel (n / 1000 ^ Z.of_nat (S e)) (1000 ^ Z.of_nat (S e)) e = Some (1000 ^ Z.of_nat (S e'), e') /\ (e' < 6)%nat /\
    1000 ^ Z.of_nat (S e') <= n < 1000 * 1000 ^ Z.of_nat (S e').
Proof.
  intros Hf Hn. revert e Hf; induction fuel as [|fuel IH]; intros e Hf He.
  - replace e with 6%nat in He by lia. exfalso. change (1000 ^ Z.of_nat 7) with 1000000000000000000000 in He. lia.
  - set (div := 1000 ^ Z.of_nat (S e)) in *. assert (0 < div) as Hpos by (apply Z.pow_pos_nonneg; lia).
    assert (div * 1000 = 1000 ^ Z.of_nat (S (S e))) as Hd by (unfold div; rewrite (Nat2Z.inj_succ (S e)), Z.pow_succ_r by lia; lia).
    pose proof (Z.div_mod n div ltac:(lia)) as Hdm. pose proof (Z.mod_pos_bound n div Hpos) as Hm.
    cbn [unit_loop]. destruct (Z.leb_spec 1000 (n / div)) as [Hle|Hlt].
    + assert (div * 1000 <= n) as Hle' by nia. assert (int64_of (div * 1000) = div * 1000) as -> by (unfold int64_of; rewrite Z.mod_small by lia; lia).
      rewrite Z.quot_div_nonneg, Zdiv_Zdiv, Hd by lia. apply IH; lia.
    + exists e. split; [done|]. split; [lia|]. nia.
Qed.

Lemma bytesHuman_units Fmt1 n : 1000 <= n < 2 ^ 63 ->
  exists e u, (e < 6)%nat /\ units !! e = Some u /\ 1000 ^ Z.of_nat (S e) <= n < 1000 * 1000 ^ Z.of_nat (S e) /\
    bytesHuman Fmt1 6 n = Some (Fmt1 (f_of_Z n / f_of_Z (1000 ^ Z.of_nat (S e)))%float +:+ " " +:+ u +:+ "B").
Proof.
  intros Hn. destruct (unit_loop_ends 6 n 0) as (e & H1 & H2 & H3); [done|lia|change (1000 ^ Z.of_nat 1) with 1000; lia|].
  destruct (lookup_lt_is_Some_2 units e) as [u Hu]; [done|]. exists e, u. split; [done|]. split; [done|]. split; [done|].
  unfold bytesHuman. destruct (Z.ltb_spec n 1000); [lia|]. rewrite Z.quot_div_nonneg by lia. change (1000 ^ Z.of_nat 1) with 1000 in H1. by rewrite H1, Hu.
Qed.

(** The lines of a command's table: the columns of every row start at the same
    cell, nothing but trailing blanks is cut from it. *)
Lemma cli_lines Width Truncate `{!CellLaws Width Truncate} hs t :
  tb_headers t <> [] -> Forall good (tb_headers t) -> Forall (Forall good) (tb_rows t) ->
  let ws := (shrunk Width Truncate t).1 in
  length (cli_render Width Truncate hs t) = S (length (tb_rows t)) /\
  forall i, (i < length (tb_rows t))%nat -> exists line raw n starts,
    cli_render Width Truncate hs t !! S i = Some line /\ raw = line ++ blanks n /\ good raw /\ Width raw <= sum ws + 2 * (Z.of_nat (columns t) - 1) /\
    length starts = columns t /\ forall j start, starts !! j = Some start -> start `prefix_of` raw /\ Width start = sum (take j ws) + 2 * Z.of_nat j.
Proof.
  intros Hne Hh Hr. cbn zeta. pose proof (shrunk_fits Width Truncate t Hr) as Hf. pose proof (shrunk_nonneg Width Truncate t Hh) as Hp.
  assert (length (shrunk Width Truncate t).2 = length (tb_rows t)) as Hl.
  { unfold shrunk. repeat case_match; cbn; by rewrite ?length_map. }
  unfold cli_render. destruct (shrunk Width Truncate t) as [ws rows]. cbn [fst snd] in *. destruct Hf as [Hlen Hf].
  assert (ws <> []) as Hws.
  { intros ->. cbn in Hlen. destruct (tb_headers t) as [|h l] eqn:E; [done|]. unfold columns in Hlen. rewrite E in Hlen.
    pose proof (longest_le (tb_rows t) (length (h :: l))) as Hm. cbn [length] in Hm, Hlen. lia. }
  destruct (tb_headers t) as [|h l] eqn:E; [done|]. split; [cbn; by rewrite length_map, Hl|]. intros i Hi.
  destruct (lookup_lt_is_Some_2 rows i) as [r Hri]; [lia|]. rewrite Forall_lookup in Hf.
  destruct (raw_aligned Width Truncate (tb_right t) ws r Hws Hp (Hf i r Hri)) as (H1 & H2 & H3). rewrite Hlen in *.
  set (raw := raw_line Width (columns t) (tb_right t) ws (fun c => c) r) in *. destruct (trim_right_blanks raw) as [n Hn].
  set (pieces := imap _ ws) in H1.
  exists (trim_right raw), raw, n, (map (fun j => concat (take j pieces)) (seq 0 (columns t))).
  split; [etrans; [apply (list_lookup_fmap (fun r => trim_right (raw_line Width (columns t) (tb_right t) ws (fun c => c) r)))|by rewrite Hri]|]. split_and!; [done..|by rewrite length_map, length_seq|].
  intros j start (j' & -> & Hj)%list_lookup_fmap_Some. apply lookup_seq in Hj as [-> Hj]. cbn [Nat.add].
  destruct (H1 j Hj) as [_ Hw]. split; [|done]. exists (concat (drop j pieces)). rewrite <- concat_app, take_drop. done.
Qed.


(** ** At work: a cell for each character, and an ellipsis for what is cut *)

Definition demo_width (s : bytes) : Z := Z.of_nat (length (List.filter (fun c => negb (Nat.leb 128 c && Nat.leb c 191)) s)).
Definition demo_cut (_ : bytes) (_ : Z) : bytes := ellipsis.

Lemma demo_laws : CellLaws demo_width demo_cut.
Proof.
  constructor; unfold demo_width.
  - done.
  - intros a b _ _. rewrite List.filter_app, length_app. cbn. lia.
  - intros. lia.
  - done.
  - intros s w _ Hw. split; [cbn; lia|apply good_ellipsis].
Qed.

(** A network that calls itself a title-changing sequence: drawn in a table it is
    text, in a box wide enough it is what it was. *)
Definition hostile : bytes := [27; 93; 48; 59; 120; 7]%nat.
Definition plain_styles : TableStyles := mkTableStyles (fun s => s) (fun s => s) (fun s => s) (fun s => s).

Lemma ascii_cell s : forallb (fun c => Nat.ltb c 128 && negb (Nat.eqb c 10)) s = true -> cell s.
Proof.
  rewrite forallb_forall. intros H. split; [apply chars_ascii|]; apply List.Forall_forall; intros c Hc; apply H, andb_true_iff in Hc as [H1%Nat.ltb_lt H2%negb_true_iff%Nat.eqb_neq]; done.
Qed.


(** A newline is no control to [sanitize]: a name with one breaks its row in two. *)
Example newline_stays : let ls := split_lines (table demo_width demo_cut plain_styles 20 [8; 0] None [[[97; 10; 98]%nat; bytes_of "80"]] 0) in length ls = 2%nat.
Proof. by vm_compute. Qed.

Example box_leaks : clampBox demo_width demo_cut hostile 8 1 = hostile ++ [32; 32]%nat.
Proof. by vm_compute. Qed.
